(* ===== verification/_CoqProject ===== *)
-Q . S2P
Prelude.v
Json.v
JsonText.v
Strconv.v
Types.v
Pverr.v
Api.v
Version.v
Url.v
Wire.v
Netip.v
Multipart.v
Transport.v
TransportProofs.v
Streams.v
Ssh.v
Tasks.v
Svcutil.v
QemuClient.v
LxcClient.v
StorageClient.v
NodesClient.v
NodesProofs.v
SchemaDiff.v
Coverage.v
CoverageReport.v
SchemaDiffMain.v
LabConfig.v
LabState.v
HaService.v
AccessClient.v
FirewallClient.v
SdnClient.v
ClusterClient.v
CephClient.v
MetricsClient.v
PbsClient.v
ConsoleClient.v
Root.v
LabOps.v
LabCluster.v
LabAnswers.v
LabMain.v
LabLog.v
LabFormation.v
LabWaits.v
Monad.v
MockState.v
MockServer.v
MockGuests.v
MockQemu.v
MockLxc.v
MockStorage.v
MockHa.v
MockNodes.v
MockCluster.v
MockAccess.v
MockFirewall.v
MockSdn.v
Sha256.v
MockAdmin.v
MockAcme.v
MockMisc.v
MockInv.v
MockWfCore.v
MockWfMgmt.v
MockWf.v
MockLive.v
MockProofs.v
MockMgmtProofs.v
MockDigest.v
MockWeb.v
MockReads.v
EndToEnd.v
UploadEndToEnd.v
HaClient.v
QemuEndToEnd.v
NodesEndToEnd.v
LabPool.v
MockCoverage.v
