(* ===== verification/Prelude.v ===== *)
(** * A verification library for proxmox-go-sdk

    [proxmox-go-sdk] is a Go client for the Proxmox VE API (src/proxmox/), with an
    in-memory responder the SDK is tested against (src/proxmox/mockpve/), a tool that
    provisions nested clusters through the SDK (src/cmd/pvelab/), and one that checks
    the API's schema and the responder's coverage of it (src/cmd/pve-schemadiff/).
    This library models the client, the transport that every call goes through and
    every service on top of it, its SSH side channel, the responder, and both tools,
    and proves what each of them promises and what they do together.

    ** Parts and how they interact

    A service of the SDK (the packages version, tasks, ha, qemu, ...) holds an
    [api.Client] and turns each operation into one [DoRequest]: a method, a path,
    an optional body and a decoder for the answer. The transport of proxmox/api
    implements that interface: it mints or renews a ticket where the credentials
    need one, sends the request to the active endpoint, retries a transient
    failure with backoff, moves on to the next endpoint when one is exhausted, and
    re-authenticates once when a ticket has expired. Asynchronous operations answer
    with a UPID, which proxmox/tasks parses and polls until the task has exited.
    The responder mockpve serves the same API from a record of maps under one
    mutex; its handlers lock it one or several times per request. pvelab creates or
    clones virtual machines through the SDK's services, reaches into them over SSH
    and through clients of their own, and forms a cluster of them. pve-schemadiff
    compares the published API dump with a committed baseline, and the responder's
    route table with that baseline.

    ** Files

    Foundations:
    - [Prelude] (this file): Go strings, [strings.Split]/[Cut]/[TrimSpace],
      [strconv] integers, 64-bit integers and their wrap-around, and their lemmas.
    - [Json]: JSON values, the struct decoding of encoding/json, binary64 numbers
      (on the Standard Library's [SpecFloat]) and their shortest decimal text, UTF-8.
      [JsonText]: the text itself, as encoding/json writes and reads it.
    - [Url], [Wire]: the parts of net/url, net and net/http the program uses:
      endpoints, escapes, the text of a form and its parsing.
    - [Strconv]: [strconv.ParseFloat], and package flag. [Multipart]: the body of an upload
      as mime/multipart writes and reads it.
    - [Sha256]: SHA-256, for the fingerprints of the responder's certificates.
    - [Monad]: programs of critical sections, their sequential run, the interleaving
      step relation of a pool of goroutines, and the handler monad.

    The client:
    - [Types] (proxmox/types/types.go): [PVEBool], [PVEInt], guest references.
    - [Pverr] (proxmox/pverr): the error taxonomy, [errors.Is], the classification.
    - [Api] (proxmox/api/client.go): the interface. The Go interface [Client] is the
      typeclass [Client W] over a world [W]; services are written against it, and
      its main instances are [transport_Client] in [Transport] and [mock_client] in
      [MockWeb].
    - [Version] (proxmox/version): parsing, comparison, feature gates, the service.
    - [Transport] (proxmox/api: transport.go, connection.go, retry.go,
      credentials.go, ...): the Go [connection] and [transport] structs are records
      passed and returned; [Credentials] is the class of the three strategies; what
      is outside the program (clock, context, random source, HTTP round trip) is
      the class [World]. [TransportProofs]: its properties, over every [World] and
      every [Credentials] that keeps the stated laws.
    - [Streams] (proxmox/api: DoUpload, websocket.go): the calls that stream.
      [Ssh] (proxmox/ssh): the side channel to a node. [Root] (proxmox/proxmox.go,
      options.go, and [api.New]): a client with its services.
    - [Tasks] (proxmox/tasks, internal/svcutil): UPIDs, status, the waiter.
    - [Svcutil] (internal/svcutil): lossless decoding, forms with extra parameters,
      the field decoders, and the common shapes of a service method ([read_data],
      [send], [start], [exchange], and the refusals before anything is sent).
    - [QemuClient], [LxcClient], [StorageClient], [NodesClient], [HaClient] (crs.go,
      arm.go) and [HaService] (the rest of proxmox/ha), [AccessClient],
      [FirewallClient], [SdnClient], [ClusterClient], [CephClient],
      [MetricsClient], [PbsClient], [ConsoleClient]: one service each, a record per
      payload with its decoder or its form fields, a definition per method.
      [NodesProofs] has the codecs of the node service.

    The responder (proxmox/mockpve), one file per Go file, a handler per definition:
    - [MockState]: the state, one record field per map or struct of [Server].
    - [MockServer] (server.go, handlers.go): seeding, authentication, tickets, tasks.
    - [MockGuests], [MockQemu] (qemu.go), [MockLxc] (lxc.go), [MockStorage]
      (storage.go), [MockHa] (ha.go), [MockNodes] (nodes.go), [MockCluster]
      (cluster.go), [MockAccess] (access.go), [MockFirewall] (firewall.go), [MockSdn]
      (sdn.go), [MockAdmin] (nodesadmin.go), [MockAcme] (acme.go), [MockMisc]
      (metrics.go, ceph.go, pbs.go, console.go).
    - [MockInv], [MockWfCore], [MockWfMgmt], [MockWf]: the invariant [wf], its
      preservation by every route, and the table [routes].
    - [MockLive], [MockDigest], [MockProofs], [MockMgmtProofs]: what handlers do.

    Both together:
    - [MockWeb]: ServeMux dispatch over [routes], the responder as a client
      instance ([mock_client]), and what the client reads of any response.
    - [EndToEnd], [QemuEndToEnd], [NodesEndToEnd], and the end of [HaClient]: a
      service run against the responder.
    - [UploadEndToEnd]: an upload of the SDK, spooled, framed and read back by the
      responder. [MockReads]: which requests leave the guests alone.

    pvelab (cmd/pvelab, the lab of nested clusters):
    - [LabConfig] (lab/config.go): loading, defaults, validation, credentials;
      [Netip]: net/netip, which validation and the answer URL use. [LabState]
      (lab/state.go): the state file and the environment file.
    - [LabOps] (provision.go, template.go, teardown.go, iso.go), [LabCluster]
      (cluster.go, iso.go, reidentify.go, and the SSH sessions of the lab, on [Ssh]),
      [LabAnswers] (answers.go): the operations, as actions on a world in which the
      SDK's [Client] is one class among clock, contexts, goroutines, files and
      sessions. [LabMain] (cmd/pvelab/main.go, answerurl.go): the subcommands and
      their command line.
    - [LabLog], [LabFormation]: what an operation can ask of its surroundings, in
      which order. [LabWaits]: its waits end, its SSH sessions are closed.
      [LabPool]: the teardown's goroutines interleaved against the responder.

    pve-schemadiff (cmd/pve-schemadiff, the schema drift and API coverage checks):
    - [SchemaDiff] (schema/): the endpoints
      of an API dump, the baseline, the difference. [Coverage], [CoverageReport]
      (coverage/): normal forms, service rules, annotations, the report, its checks
      and its Markdown. [SchemaDiffMain] (main.go): both modes over files, the flags
      and the exit codes. [MockCoverage]: the responder's own routes
      measured, and the server around its handlers (mockpve/server.go): its options,
      its response cache, and the client that is wired to it.


    ** Reading the model against the code

    A definition carries the Go file and symbol it translates in the comment above
    it, and keeps its name; a receiver's name is prefixed where two would clash
    ([Service_Status], [userCreds_refresh]). A Go [(T, error)] is a sum with
    the error on the left. [goerr] keeps the wrapping structure that [errors.Is]
    walks, and the texts of messages where the code decides on them or the caller
    sees them. A handler is a program: code between [Lock] and [Unlock] is one
    critical section ([locked], [read]), an early return after [writeError] is the
    left branch of the handler monad, and code that runs without the mutex is
    between sections, where another request may run. A defer'd [Unlock] extends its
    section to the end of the function. Go map iteration has no order; the model
    folds over a key list, and where the result could depend on it a theorem says
    that it does not. A struct that is read keeps its JSON field names in its
    decoder; one with an [UnmarshalJSON] also has the keys it does not model.

    JSON crosses every boundary as text: the envelope of a response, the struct of a
    form body, the lab's state file, the baseline. [Unmarshal_marshal] shows that what
    is read is the value written with every string in UTF-8 ([json_utf8]: a byte that
    belongs to no code point becomes U+FFFD, as encoding/json does). The forms, the
    state file and the baseline are computed through the text ([flatten],
    [WriteState]; [EncodeWithExtra_text] relates the closed form of the services'
    forms to it); the responder's client applies [json_utf8] to the envelope
    ([sent_response]). A form body longer than [maxFormBytes] is refused by [PostForm].
    Theorems that return a caller's text unchanged ask for valid UTF-8.

    ** The theorems

    - Whole system: every interleaving of requests, with the clock moving, keeps the
      state well formed ([mock_invariant]) and is answered ([requests_answered]);
      what the SDK makes of any response ([client_reads_mock]); every form survives
      the wire ([form_survives_wire]); a VM, a node configuration and a task read
      back through the SDK as they were written ([qemu_create_roundtrip],
      [node_config_update], [wait_on_mock]).
    - Transport: how many requests one call can send ([DoRequest_send_bound]) and to
      which endpoints in which order ([execute_all_transient]), the single
      re-authentication against a server that honours one ticket at a time
      ([DoRequest_reauthenticates], with [TicketServer]), a ticket is minted once and
      reused ([refresh_mints_once]), the endpoint list ([newConnection_spec]), the
      backoff's bounds, and the degenerate retry policy.
    - Tasks: [WaitFor_terminates], the meaning of [Wait]'s result ([Wait_outcome]),
      and [ParseUPID_exact].
    - Responder: authentication ([unauthenticated_refused]); optimistic concurrency
      ([stale_update_refused]); configuration writes ([applyConfigForm_spec],
      [node_config_write]); firewall rules as an ordered list ([rules_refine]);
      certificates, console tickets, grants, the SDN state, migration, datastores,
      cluster formation; and what any number of racing DELETEs observe, from any state
      ([delete_race]).
    - Values: the error classification is a decision procedure
      ([Classify_decides]), property strings and payloads round trip, and where
      tolerant scalars lose precision is stated exactly ([PVEInt_exact]).
    - Uploads, websockets, SSH: an upload arrives in the store with its name and exact size
      ([upload_lands]) and leaves no spool file behind ([upload_outcome]); what an
      upgrade can answer ([websocket_outcome]); an SSH upload returns and its watcher
      with it ([upload_ends]); no connection outlives its client
      ([no_connection_leaks]); what the root client is built of ([NewClient_outcome]).
    - pvelab: teardown deletes nothing that is not the lab's, in every interleaving,
      with lost and repeated requests ([teardown_safe]); joins are issued one at a time
      and only to a quorate cluster ([formation_serialised]), and formation ends
      ([FormCluster_terminates]); a clone's session is closed on every way out
      ([reidentify_closes]); validation accepts exactly the documented configurations
      ([Validate_exact]); the environment file sources to the values it was made of
      ([env_sources]) and the state file keeps its updates ([update_persists]); an
      installer gets the answer of the longest match ([match_longest]), whatever
      [sort.Slice], which need not be stable ([SortSlice]), does with equal lengths.
    - pve-schemadiff: the dump parser ([Parse_exact]); the report accounts for every
      endpoint and route ([Build_accounts]), and its check refuses exactly the reports
      with a finding ([Check_exact]); coverage mode writes its report only when it has
      passed, and nothing else ([coverage_writes]); what was written is current on the
      next run ([write_then_current], [update_then_no_drift]); the report on the
      responder's own routes ([mock_measured]).

    Each theorem with hypotheses has a witness, [<name>_witness], at a concrete input.

    ** Bounds and fuel

    Integers are [Z]; the arithmetic of the code that can overflow an int64 is
    written with [wrap64], and text conversions check the range. The loops of the
    code without a bound of their own are polls: [WaitFor], the guest agent's wait,
    and those of the lab (readiness, quorum, membership, SSH).
    They run on fuel and return [None] when it is out; [WaitFor_terminates] shows that
    some fuel suffices whenever the context's deadline passes, and that more fuel
    does not change the result; [poll_ends] does the same for the lab, with one unit
    per interval below the ceiling and one more. The JSON reader has the length of
    its text and one as fuel, with which [Unmarshal_marshal] and [Unmarshal_MarshalIndent]
    read back whatever was written. Decoders of recursive payloads (the vdev and OSD
    trees) have the nesting depth of the value as fuel, which [decode_vdev_fuel] and
    [decode_osd_fuel] show to be enough. Attempts and failovers are counted loops and
    recurse on their exact counts. [trim_space] has the string's length as fuel,
    which its lemmas show to be enough; the digits of an integer are printed with
    its logarithm as fuel ([log2_fuel]), and those of a float are at most seventeen.

    ** What is not modelled

    - Network, TLS and file I/O: they are the class [World] and those below, whose
      instances in the witnesses are concrete functions.
    - Blocking: a goroutine waiting for the mutex is one not yet scheduled; the
      [select] of the waiter's sleep is the class [Timers].
    - The concurrency of the transport (its locks guard the active endpoint and the
      ticket): one call is modelled at a time, with that state threaded through.
    - What golang.org/x/crypto/ssh, pkg/sftp, net/http, os and crypto/rand do: the
      classes [Gossh], [SshNet], [Upgrade], [TempFiles] and [Random], with the laws
      that a theorem needs ([LawfulSshNet], [LawfulFiles]) stated beside them.
    - Of the responder: handlers that a caller registers ([RegisterHandler]), the
      httptest server it runs in, and the frames echoed on a hijacked console
      connection.
    - Of pvelab: what net and net/http do for the answer server ([AnswerNet]), and the
      YAML decoder. [template.Execute] is modelled by the text it gives; logs and
      usage texts are left out.
    - Of pve-schemadiff: gzip and the YAML decoder, which are classes. Paths are keys of
      a map in [LawfulTextFiles]: no two spellings name one file.
    - cmd/mockpve, a listener around the responder; hack/pvelab-spike, an exploratory
      script; the scripts, integration tests and recorded cassettes.
*)

From Stdlib Require Import Ascii ZArith Lia.
From Stdlib Require String.
From stdpp Require Export gmap strings list sorting fin_maps.
From stdpp Require Import options.

(** ** Notations and scopes *)

Declare Scope go_scope.
Delimit Scope go_scope with go.

(** Go's [==] and [!=] on strings, as the booleans the code branches on. *)
Notation "s =s t" := (bool_decide (s = t :> string)) (at level 70, no associativity) : go_scope.
Notation "s <>s t" := (negb (bool_decide (s = t :> string))) (at level 70, no associativity) : go_scope.
Open Scope go_scope.

(** ** Record setters

    For [fields], the identity on a record spelled out field by field, and one of
    the projections in it, the function that maps that field and copies the rest. *)
Ltac setter fields proj :=
  let e := eval cbv beta delta [fields] in fields in
  lazymatch eval pattern proj in e with
  | ?F _ => let t := constr:(λ f, F (λ r, f (proj r))) in let t := eval cbv beta in t in exact t
  end.

(** ** Machine integers

    A Go [int] and [int64] is a 64-bit two's complement integer, kept as a [Z]. *)

Definition min_int64 : Z := -(2 ^ 63).
Definition max_int64 : Z := 2 ^ 63 - 1.
Definition int64_ok (z : Z) : bool := ((min_int64 <=? z) && (z <=? max_int64))%Z.

(** The wrap-around of a 64-bit addition or conversion. *)
Definition wrap64 (z : Z) : Z := ((z + 2 ^ 63) mod 2 ^ 64 - 2 ^ 63)%Z.

Lemma wrap64_id z : int64_ok z = true → wrap64 z = z.
Proof.
  unfold int64_ok, wrap64, min_int64, max_int64. intros H.
  rewrite Z.mod_small; lia.
Qed.

Lemma wrap64_ok z : int64_ok (wrap64 z) = true.
Proof.
  unfold int64_ok, wrap64, min_int64, max_int64.
  pose proof (Z.mod_pos_bound (z + 2 ^ 63) (2 ^ 64)). lia.
Qed.

Lemma wrap64_succ v : int64_ok v = true → (v < max_int64)%Z → wrap64 (v + 1) = (v + 1)%Z.
Proof. intros Hv Hm. apply wrap64_id. unfold int64_ok, max_int64, min_int64 in *. lia. Qed.

(** ** Strings

    A Go string is a sequence of bytes, a Rocq [string] of 8-bit characters. *)

Definition is_empty (s : string) : bool := s =s "".

(** [strings.Split(s, sep)] for a separator of one byte. *)
Fixpoint split_byte (sep : ascii) (s : string) : list string :=
  match s with
  | "" => [""]
  | String c s' =>
      if decide (c = sep) then "" :: split_byte sep s'
      else match split_byte sep s' with
           | h :: t => String c h :: t
           | [] => [String c ""]
           end
  end.

(** [strings.Join(l, sep)]. *)
Fixpoint join (sep : string) (l : list string) : string :=
  match l with
  | [] => ""
  | [x] => x
  | x :: l' => x +:+ sep +:+ join sep l'
  end.

(** [strings.Cut(s, sep)] for a separator of one byte; [None] is [found = false]. *)
Fixpoint cut_byte (sep : ascii) (s : string) : option (string * string) :=
  match s with
  | "" => None
  | String c s' =>
      if decide (c = sep) then Some ("", s')
      else match cut_byte sep s' with
           | Some (a, b) => Some (String c a, b)
           | None => None
           end
  end.

(** [strings.SplitN(s, sep, n)] for [n > 0] and a separator of one byte. *)
Fixpoint splitn_byte (n : nat) (sep : ascii) (s : string) : list string :=
  match n with
  | 0 | 1 => [s]
  | S n' => match cut_byte sep s with
            | Some (a, b) => a :: splitn_byte n' sep b
            | None => [s]
            end
  end.

Definition is_digit (c : ascii) : bool := (48 <=? nat_of_ascii c) && (nat_of_ascii c <=? 57).

Fixpoint drop_str (n : nat) (s : string) : string :=
  match n, s with
  | 0, _ => s
  | S n', String _ s' => drop_str n' s'
  | S _, "" => ""
  end.

Definition has_prefix (s pre : string) : bool := String.prefix pre s.

Definition trim_prefix (s pre : string) : string :=
  if has_prefix s pre then drop_str (String.length pre) s else s.

(** [strings.Contains(s, sub)]. *)
Fixpoint contains (s sub : string) : bool :=
  has_prefix s sub || match s with "" => false | String _ s' => contains s' sub end.

(** [strings.Cut(s, sep)]: at the first occurrence of [sep]. *)
Fixpoint cut_at (sep s : string) : option (string * string) :=
  if has_prefix s sep then Some ("", drop_str (String.length sep) s) else
  match s with
  | "" => None
  | String c s' => match cut_at sep s' with Some (a, b) => Some (String c a, b) | None => None end
  end.

Definition has_byte (c : ascii) (s : string) : bool := bool_decide (c ∈ String.list_ascii_of_string s).
Definition one_of (s : string) (c : ascii) : bool := has_byte c s.

(** The UTF-8 encodings of the code points of [unicode.IsSpace]: the ASCII ones,
    then U+0085, U+00A0, U+1680, U+2000..U+200A, U+2028, U+2029, U+202F, U+205F
    and U+3000. *)
Definition bytes (l : list nat) : string := String.string_of_list_ascii (ascii_of_nat <$> l).
Definition space_runes : list string :=
  (bytes ∘ (λ n, [n]) <$> [9; 10; 11; 12; 13; 32]) ++
  [bytes [194; 133]; bytes [194; 160]; bytes [225; 154; 128]] ++
  ((λ n, bytes [226; 128; n]) <$> [128; 129; 130; 131; 132; 133; 134; 135; 136; 137; 138; 168; 169; 175]) ++
  [bytes [226; 129; 159]; bytes [227; 128; 128]].

Fixpoint trim_left_fuel (n : nat) (runes : list string) (s : string) : string :=
  match n with
  | 0 => s
  | S n' => match list_find (λ r, has_prefix s r = true) runes with
            | Some (_, r) => trim_left_fuel n' runes (drop_str (String.length r) s)
            | None => s
            end
  end.

(** [strings.TrimSpace]: leading, then trailing Unicode white space. The
    trailing end is trimmed on the reversed bytes. *)
Definition trim_space (s : string) : string :=
  let l := trim_left_fuel (String.length s) space_runes s in
  String.rev (trim_left_fuel (String.length l) (String.rev <$> space_runes) (String.rev l)).

(** [strings.ToLower] as far as an ASCII substring test can observe it: ASCII
    letters, and the two code points above ASCII whose lower case is an ASCII
    letter (U+0130 to i, U+212A to k); other bytes are kept. *)
Definition lower_byte (c : ascii) : ascii :=
  let n := nat_of_ascii c in
  if (65 <=? n) && (n <=? 90) then ascii_of_nat (n + 32) else c.
Fixpoint to_lower (s : string) : string :=
  match s with
  | "" => ""
  | String "196" (String "176" s') => String "i" (to_lower s')
  | String "226" (String "132" (String "170" s')) => String "k" (to_lower s')
  | String c s' => String (lower_byte c) (to_lower s')
  end.

(** ** Numbers as text: [strconv] *)

Definition digit_char (d : Z) : ascii :=
  if (d <? 10)%Z then ascii_of_N (Z.to_N (48 + d)) else ascii_of_N (Z.to_N (87 + d)).

Definition digit_val (c : ascii) : option Z :=
  let n := Z.of_N (N_of_ascii c) in
  if ((48 <=? n) && (n <=? 57))%Z then Some (n - 48)%Z
  else if ((97 <=? n) && (n <=? 122))%Z then Some (n - 87)%Z
  else if ((65 <=? n) && (n <=? 90))%Z then Some (n - 55)%Z
  else None.

(** The digits of [n] in base [b], pushed in front of [acc]. *)
Fixpoint fmt_digits (fuel : nat) (b n : Z) (acc : string) : string :=
  match fuel with
  | 0 => acc
  | S f =>
      let acc' := String (digit_char (n mod b)) acc in
      if (n <? b)%Z then acc' else fmt_digits f b (n / b) acc'
  end.

Definition format_uint (b n : Z) : string := fmt_digits (S (Z.to_nat (Z.log2 n))) b n "".

(** [strconv.FormatInt(z, b)]; [strconv.Itoa] is base 10. *)
Definition format_int (b z : Z) : string :=
  if (z <? 0)%Z then String "-" (format_uint b (- z)) else format_uint b z.
Definition itoa (z : Z) : string := format_int 10 z.

Fixpoint parse_digits (b acc : Z) (s : string) : option Z :=
  match s with
  | "" => Some acc
  | String c s' =>
      d ← digit_val c;
      if (d <? b)%Z then parse_digits b (acc * b + d) s' else None
  end.

(** [strconv.ParseInt(s, b, 64)] for an explicit base, and [strconv.Atoi]
    (base 10); [None] is a syntax or a range error. *)
Definition parse_int (b : Z) (s : string) : option Z :=
  let '(neg, ds) := match s with
                    | String "+" s' => (false, s')
                    | String "-" s' => (true, s')
                    | _ => (false, s)
                    end in
  match ds with
  | "" => None
  | _ => n ← parse_digits b 0 ds;
         let z := if neg : bool then (- n)%Z else n in
         if int64_ok z then Some z else None
  end.
Definition atoi (s : string) : option Z := parse_int 10 s.

(** ** Base64 and paths *)

(** [base64.StdEncoding]: three bytes are four digits, with padding. *)
Definition b64_digit (n : nat) : ascii :=
  if n <? 26 then ascii_of_nat (65 + n) else if n <? 52 then ascii_of_nat (71 + n)
  else if n <? 62 then ascii_of_nat (n - 4) else if n =? 62 then "+" else "/".
Fixpoint base64 (s : string) : string :=
  match s with
  | "" => ""
  | String a "" =>
      let a := nat_of_ascii a in
      String (b64_digit (a / 4)) (String (b64_digit (a mod 4 * 16)) "==")
  | String a (String b "") =>
      let a := nat_of_ascii a in let b := nat_of_ascii b in
      String (b64_digit (a / 4)) (String (b64_digit (a mod 4 * 16 + b / 16)) (String (b64_digit (b mod 16 * 4)) "="))
  | String a (String b (String c s')) =>
      let a := nat_of_ascii a in let b := nat_of_ascii b in let c := nat_of_ascii c in
      String (b64_digit (a / 4)) (String (b64_digit (a mod 4 * 16 + b / 16))
        (String (b64_digit (b mod 16 * 4 + c / 64)) (String (b64_digit (c mod 64)) (base64 s'))))
  end.

(** The last element of a path ([filepath.Base]). *)
Fixpoint drop_slashes (l : list string) : list string :=
  match l with "" :: l => drop_slashes l | _ => l end.
Definition path_base (p : string) : string :=
  if p =s "" then "." else
  match drop_slashes (reverse (split_byte "/" p)) with [] => "/" | b :: _ => b end.

(** ** [url.Values] *)

Abbreviation values := (gmap string (list string)).

Definition vget (f : values) (k : string) : string :=
  match f !! k with Some (v :: _) => v | _ => "" end.
Definition vhas (f : values) (k : string) : bool := bool_decide (is_Some (f !! k)).

(** Several conditional assignments of the sources have the shape
    [if v := form.Get(k); v != "" { field = v }]. *)
Definition set_if (v old : string) : string := if v =s "" then old else v.
Definition set_if_bool (v : string) (old : bool) : bool := if v =s "" then old else v =s "1".
(** [if v, err := strconv.Atoi(s); err == nil { field = v }]. *)
Definition set_if_int (s : string) (old : Z) : Z := default old (atoi s).

(** ** Lemmas on strings *)

Lemma str_app_nil_r s : s +:+ "" = s.
Proof. induction s as [|c s IH]; [done|]. unfold String.app in *. cbn. by rewrite IH. Qed.

Lemma str_app_assoc s t u : (s +:+ t) +:+ u = s +:+ (t +:+ u).
Proof. unfold String.app. induction s as [|c s IH]; cbn; [done|]. by rewrite IH. Qed.

Lemma str_app_cons c s t : String c s +:+ t = String c (s +:+ t).
Proof. done. Qed.
Lemma str_app_nil_l s : "" +:+ s = s.
Proof. done. Qed.

Lemma has_prefix_app s t : has_prefix (s +:+ t) s = true.
Proof.
  unfold has_prefix. induction s as [|c s IH]; [by destruct t|].
  rewrite str_app_cons. cbn. by destruct (ascii_dec c c).
Qed.

Lemma has_prefix_refl s : has_prefix s s = true.
Proof. rewrite <- (str_app_nil_r s) at 1. apply has_prefix_app. Qed.

(** [no_byte c s]: the byte [c] does not occur in [s]. *)
Fixpoint no_byte (c : ascii) (s : string) : bool :=
  match s with
  | "" => true
  | String d s' => negb (bool_decide (d = c)) && no_byte c s'
  end.

Lemma no_byte_app c s t : no_byte c (s +:+ t) = no_byte c s && no_byte c t.
Proof.
  induction s as [|d s IH]; [done|]. rewrite str_app_cons. cbn. rewrite IH.
  by destruct (bool_decide _).
Qed.

Lemma split_byte_nonnil c s : split_byte c s ≠ [].
Proof. destruct s as [|d s]; cbn; [done|]. case_decide; [done|]. by destruct (split_byte c s). Qed.

Lemma split_byte_none c s : no_byte c s = true → split_byte c s = [s].
Proof.
  induction s as [|d s IH]; cbn; [done|]. intros H.
  apply andb_prop in H as [Hd Hs]. rewrite IH by done.
  case_decide; [by rewrite bool_decide_eq_true_2 in Hd|done].
Qed.

Lemma split_byte_app c s t :
  no_byte c s = true → split_byte c (s +:+ String c t) = s :: split_byte c t.
Proof.
  induction s as [|d s IH]; intros H.
  - rewrite str_app_nil_l. cbn. by rewrite decide_True.
  - rewrite str_app_cons. cbn in *. apply andb_prop in H as [Hd Hs]. rewrite IH by done.
    case_decide; [by rewrite bool_decide_eq_true_2 in Hd|done].
Qed.

Lemma split_join c l :
  l ≠ [] → Forall (λ s, no_byte c s = true) l → split_byte c (join (String c "") l) = l.
Proof.
  intros Hne Hl. induction Hl as [|x l Hx Hl IH]; [done|].
  destruct l as [|y l]; [by apply split_byte_none|].
  change (join (String c "") (x :: y :: l)) with (x +:+ String c (join (String c "") (y :: l))).
  rewrite split_byte_app by done. by rewrite IH.
Qed.

Lemma join_split c s : join (String c "") (split_byte c s) = s.
Proof.
  induction s as [|d s IH]; cbn; [done|].
  pose proof (split_byte_nonnil c s). destruct (split_byte c s) as [|h t] eqn:E; [done|].
  case_decide as Hd.
  - change (join (String c "") ("" :: h :: t)) with (String c (join (String c "") (h :: t))).
    by rewrite IH, Hd.
  - destruct t as [|t0 t]; cbn in *; [by rewrite IH|].
    rewrite str_app_cons. f_equal. done.
Qed.

Lemma split_byte_no_byte c s : Forall (λ x, no_byte c x = true) (split_byte c s).
Proof.
  induction s as [|d s IH]; cbn; [by repeat constructor|].
  case_decide; [by constructor|].
  destruct (split_byte c s) as [|h t]; inv IH; repeat constructor; cbn; try done;
    rewrite bool_decide_eq_false_2 by done; done.
Qed.

Lemma cut_byte_app c s t : no_byte c s = true → cut_byte c (s +:+ String c t) = Some (s, t).
Proof.
  induction s as [|d s IH]; intros H.
  - rewrite str_app_nil_l. cbn. by rewrite decide_True.
  - rewrite str_app_cons. cbn in *. apply andb_prop in H as [Hd Hs]. rewrite IH by done.
    case_decide; [by rewrite bool_decide_eq_true_2 in Hd|done].
Qed.

Lemma cut_byte_none c s : no_byte c s = true → cut_byte c s = None.
Proof.
  induction s as [|d s IH]; cbn; [done|]. intros H. apply andb_prop in H as [Hd Hs].
  rewrite IH by done. case_decide; [by rewrite bool_decide_eq_true_2 in Hd|done].
Qed.

(** ** Lemmas on numbers as text *)

Lemma digit_char_val d : (0 ≤ d < 36)%Z → digit_val (digit_char d) = Some d.
Proof.
  intros H. assert (∃ n : nat, d = Z.of_nat n ∧ n < 36) as (n & -> & Hn).
  { exists (Z.to_nat d). lia. }
  clear H. do 36 (destruct n as [|n]; [reflexivity|]). lia.
Qed.

Lemma parse_fmt_digits b fuel n acc :
  (2 ≤ b ≤ 36)%Z → (0 ≤ n < b ^ Z.of_nat fuel)%Z →
  parse_digits b 0 (fmt_digits fuel b n acc) = parse_digits b n acc.
Proof.
  intros Hb. revert n acc. induction fuel as [|f IH]; intros n acc Hn.
  { change (b ^ Z.of_nat 0)%Z with 1%Z in Hn. by replace n with 0%Z by lia. }
  assert (0 ≤ n mod b < b)%Z by (apply Z.mod_pos_bound; lia).
  cbn [fmt_digits]. destruct (Z.ltb_spec n b).
  - cbn. rewrite digit_char_val by lia. cbn.
    rewrite (Z.mod_small n b) by lia.
    destruct (Z.ltb_spec n b); [|lia]. by rewrite Z.add_0_l.
  - rewrite IH.
    + cbn. rewrite digit_char_val by lia. cbn.
      destruct (Z.ltb_spec (n mod b) b); [|lia].
      f_equal. rewrite (Z.mul_comm (n / b)). symmetry. apply Z.div_mod. lia.
    + split; [apply Z.div_pos; lia|]. apply Z.div_lt_upper_bound; [lia|].
      rewrite <- Z.pow_succ_r, <- Nat2Z.inj_succ by lia. lia.
Qed.

Lemma log2_fuel b n : (2 ≤ b)%Z → (0 ≤ n)%Z → (n < b ^ Z.of_nat (S (Z.to_nat (Z.log2 n))))%Z.
Proof.
  intros Hb Hn. rewrite Nat2Z.inj_succ, Z2Nat.id by apply Z.log2_nonneg.
  destruct (decide (n = 0)%Z) as [->|].
  - cbn. rewrite Z.pow_1_r. lia.
  - pose proof (Z.log2_spec n ltac:(lia)) as [_ Hlt].
    eapply Z.lt_le_trans; [apply Hlt|]. apply Z.pow_le_mono_l.
    pose proof (Z.log2_nonneg n). lia.
Qed.

Lemma parse_format_uint b n :
  (2 ≤ b ≤ 36)%Z → (0 ≤ n)%Z → parse_digits b 0 (format_uint b n) = Some n.
Proof.
  intros Hb Hn. unfold format_uint.
  rewrite parse_fmt_digits; [done|lia|]. split; [lia|]. apply log2_fuel; lia.
Qed.

Lemma format_uint_inj b n m :
  (2 ≤ b ≤ 36)%Z → (0 ≤ n)%Z → (0 ≤ m)%Z → format_uint b n = format_uint b m → n = m.
Proof.
  intros Hb Hn Hm Heq. pose proof (parse_format_uint b n Hb Hn) as H1.
  rewrite Heq, parse_format_uint in H1 by lia. congruence.
Qed.

(** A run of digits never begins with a sign. *)
Definition starts_digit (s : string) : bool :=
  match s with String c _ => match digit_val c with Some _ => true | None => false end | "" => false end.

Lemma fmt_digits_starts b fuel n acc :
  (2 ≤ b ≤ 36)%Z → starts_digit acc = true ∨ fuel ≠ 0 → (0 ≤ n)%Z →
  starts_digit (fmt_digits fuel b n acc) = true.
Proof.
  intros Hb. revert n acc. induction fuel as [|f IH]; intros n acc Hs Hn.
  { by destruct Hs. }
  assert (0 ≤ n mod b < b)%Z by (apply Z.mod_pos_bound; lia).
  assert (starts_digit (String (digit_char (n mod b)) acc) = true).
  { cbn. by rewrite digit_char_val by lia. }
  cbn [fmt_digits]. destruct (Z.ltb_spec n b); [done|].
  apply IH; [by left|apply Z.div_pos; lia].
Qed.

Lemma format_uint_starts b n :
  (2 ≤ b ≤ 36)%Z → (0 ≤ n)%Z → starts_digit (format_uint b n) = true.
Proof. intros. apply fmt_digits_starts; [done|by right|done]. Qed.

Lemma parse_int_unsigned b s :
  starts_digit s = true →
  parse_int b s = (n ← parse_digits b 0 s; if int64_ok n then Some n else None).
Proof.
  destruct s as [|c s]; [done|]. intros H. unfold parse_int.
  destruct c as [[] [] [] [] [] [] [] []]; first [discriminate H|reflexivity].
Qed.

(** Printing a 64-bit integer and reading it back is the identity, in any base. *)
Lemma parse_format_int b z :
  (2 ≤ b ≤ 36)%Z → int64_ok z = true → parse_int b (format_int b z) = Some z.
Proof.
  intros Hb Hz. unfold format_int. destruct (Z.ltb_spec z 0).
  - pose proof (format_uint_starts b (- z) Hb ltac:(lia)) as Hs.
    unfold parse_int. destruct (format_uint b (- z)) as [|c s] eqn:E; [done|].
    rewrite <- E, parse_format_uint by lia. cbn. rewrite Z.opp_involutive. by rewrite Hz.
  - rewrite parse_int_unsigned by (apply format_uint_starts; lia).
    rewrite parse_format_uint by lia. cbn. by rewrite Hz.
Qed.

Lemma atoi_itoa z : int64_ok z = true → atoi (itoa z) = Some z.
Proof. apply parse_format_int. lia. Qed.

Lemma atoi_ok s z : atoi s = Some z → int64_ok z = true.
Proof.
  unfold atoi, parse_int. repeat case_match; intros; simplify_eq;
    match goal with H : _ ≫= _ = Some _ |- _ => apply bind_Some in H as (? & _ & H) end;
    case_match; by simplify_eq.
Qed.

(** No byte outside the digits occurs in a printed number. *)
Lemma digit_char_ne c d : digit_val c = None → (0 ≤ d < 36)%Z → digit_char d ≠ c.
Proof. intros Hc Hd <-. by rewrite digit_char_val in Hc by lia. Qed.

Lemma fmt_digits_no_byte c b fuel n acc :
  digit_val c = None → (2 ≤ b ≤ 36)%Z → no_byte c acc = true →
  no_byte c (fmt_digits fuel b n acc) = true.
Proof.
  intros Hc Hb. revert n acc. induction fuel as [|f IH]; intros n acc Hacc; [done|].
  assert (0 ≤ n mod b < b)%Z by (apply Z.mod_pos_bound; lia).
  assert (no_byte c (String (digit_char (n mod b)) acc) = true).
  { cbn. rewrite Hacc, bool_decide_eq_false_2; [done|]. apply digit_char_ne; [done|lia]. }
  cbn [fmt_digits]. destruct (_ <? _)%Z; [done|]. by apply IH.
Qed.

Lemma format_int_no_byte c b z :
  digit_val c = None → c ≠ "-"%char → (2 ≤ b ≤ 36)%Z → no_byte c (format_int b z) = true.
Proof.
  intros Hc Hm Hb. unfold format_int, format_uint.
  destruct (_ <? _)%Z; cbn [no_byte]; rewrite fmt_digits_no_byte by done; [|done].
  by rewrite bool_decide_eq_false_2.
Qed.

(** [fmt.Sprintf("%040x", n)]: base 16, padded with zeros to forty digits. *)
Fixpoint zeros (n : nat) (s : string) : string :=
  match n with 0 => s | S n' => String "0" (zeros n' s) end.
Definition pad_zeros (w : nat) (s : string) : string := zeros (w - String.length s) s.

Lemma parse_digits_zeros b n s : (2 ≤ b)%Z → parse_digits b 0 (zeros n s) = parse_digits b 0 s.
Proof.
  intros Hb. induction n as [|n IH]; [done|].
  change (zeros (S n) s) with (String (digit_char 0) (zeros n s)).
  cbn [parse_digits]. rewrite digit_char_val by lia. cbn.
  destruct (Z.ltb_spec 0 b); [done|lia].
Qed.

Lemma pad_zeros_inj b w n m :
  (2 ≤ b ≤ 36)%Z → (0 ≤ n)%Z → (0 ≤ m)%Z →
  pad_zeros w (format_uint b n) = pad_zeros w (format_uint b m) → n = m.
Proof.
  intros Hb Hn Hm H. apply (f_equal (parse_digits b 0)) in H.
  unfold pad_zeros in H. rewrite !parse_digits_zeros, !parse_format_uint in H by lia.
  congruence.
Qed.

(** ** Lemmas on trimming and digits *)

Lemma rev_app_eq s t : String.rev_app s t = String.rev s +:+ t.
Proof.
  unfold String.rev. revert t. induction s as [|c s IH]; intros t; cbn; [done|].
  rewrite IH, (IH (String c "")), str_app_assoc. done.
Qed.

Lemma str_rev_app s t : String.rev (s +:+ t) = String.rev t +:+ String.rev s.
Proof.
  induction s as [|c s IH]; cbn.
  - by rewrite str_app_nil_l, str_app_nil_r.
  - rewrite str_app_cons. unfold String.rev in *. cbn.
    rewrite (rev_app_eq (s +:+ t)), (rev_app_eq s). unfold String.rev. rewrite IH.
    by rewrite str_app_assoc.
Qed.

Lemma str_rev_involutive s : String.rev (String.rev s) = s.
Proof.
  induction s as [|c s IH]; [done|].
  change (String c s) with (String c "" +:+ s) at 1. by rewrite !str_rev_app, IH.
Qed.

(** The first byte of a string is none of those a list of strings begins with. *)
Definition first_clear (runes : list string) (s : string) : bool :=
  match s with
  | "" => false
  | String c _ => forallb (λ r, match r with String d _ => negb (bool_decide (d = c)) | "" => false end) runes
  end.

Lemma trim_left_clear n runes s : first_clear runes s = true → trim_left_fuel n runes s = s.
Proof.
  destruct n as [|n]; [done|]. destruct s as [|c s]; [done|]. cbn. intros H.
  destruct (list_find _ runes) as [[i r]|] eqn:E; [|done].
  apply list_find_Some in E as (Hi & Hp & _).
  rewrite forallb_forall in H. specialize (H r).
  rewrite <- list_elem_of_In in H. specialize (H ltac:(by eapply list_elem_of_lookup_2)).
  destruct r as [|d r]; [done|]. cbn in Hp.
  destruct (ascii_dec d c) as [->|]; [|done]. by rewrite bool_decide_eq_true_2 in H.
Qed.

Lemma trim_space_clear s :
  first_clear space_runes s = true →
  first_clear (String.rev <$> space_runes) (String.rev s) = true → trim_space s = s.
Proof.
  intros H1 H2. unfold trim_space. rewrite (trim_left_clear _ _ s) by done.
  rewrite trim_left_clear by done. apply str_rev_involutive.
Qed.

Lemma has_prefix_spec s p : has_prefix s p = true ↔ ∃ t, s = p +:+ t.
Proof.
  split; [|intros [t ->]; apply has_prefix_app].
  unfold has_prefix. revert s. induction p as [|c p IH]; intros s; [by exists s|].
  destruct s as [|d s]; cbn; [done|]. destruct (ascii_dec c d) as [->|]; [|done].
  intros H. destruct (IH s H) as [t ->]. by exists t.
Qed.

Lemma drop_str_app s t : drop_str (String.length s) (s +:+ t) = t.
Proof. induction s as [|c s IH]; [by destruct t|]. rewrite str_app_cons. apply IH. Qed.

Lemma str_length_app s t : String.length (s +:+ t) = String.length s + String.length t.
Proof. induction s as [|c s IH]; [done|]. rewrite str_app_cons. cbn. by rewrite IH. Qed.

(** No string of [runes] is a prefix of [s]. *)
Definition prefix_clear (runes : list string) (s : string) : Prop := ∀ r, r ∈ runes → has_prefix s r = false.

Lemma prefix_clear_app runes s t : prefix_clear runes (s +:+ t) → prefix_clear runes s.
Proof.
  intros H r Hr. specialize (H r Hr). destruct (has_prefix s r) eqn:E; [|done].
  apply has_prefix_spec in E as [u ->]. by rewrite str_app_assoc, has_prefix_app in H.
Qed.

Lemma trim_left_fixed n runes s : prefix_clear runes s → trim_left_fuel n runes s = s.
Proof.
  destruct n as [|n]; [done|]. intros H. cbn.
  destruct (list_find _ runes) as [[i r]|] eqn:E; [|done].
  apply list_find_Some in E as (Hi & Hp & _). apply list_elem_of_lookup_2 in Hi. by rewrite H in Hp.
Qed.

Lemma trim_left_spec n runes s :
  String.length s ≤ n → (∀ r, r ∈ runes → r ≠ "") →
  (∃ p, s = p +:+ trim_left_fuel n runes s) ∧ prefix_clear runes (trim_left_fuel n runes s).
Proof.
  intros Hn Hne. revert s Hn. induction n as [|n IH]; intros s Hn; cbn.
  - split; [by exists ""|]. intros r Hr. specialize (Hne r Hr).
    destruct s; [|cbn in Hn; lia]. by destruct r.
  - destruct (list_find _ runes) as [[i r]|] eqn:E.
    + apply list_find_Some in E as (Hi & Hp & _). apply list_elem_of_lookup_2 in Hi.
      apply has_prefix_spec in Hp as [t ->]. rewrite drop_str_app. specialize (Hne r Hi).
      rewrite str_length_app in Hn. destruct (IH t) as [[p Hp] Hc]; [destruct r; cbn in *; [done|lia]|].
      split; [|done]. exists (r +:+ p). rewrite str_app_assoc. by rewrite <- Hp.
    + split; [by exists ""|]. intros r Hr. destruct (has_prefix s r) eqn:Er; [|done].
      apply list_find_None in E. rewrite Forall_forall in E. by apply E in Hr.
Qed.

Lemma space_runes_nonempty r : r ∈ space_runes ∨ r ∈ String.rev <$> space_runes → r ≠ "".
Proof.
  intros H. assert (Forall (λ r, r ≠ "") (space_runes ++ (String.rev <$> space_runes))) as HF.
  { by apply (bool_decide_eq_true_1 _); vm_compute. }
  rewrite Forall_forall in HF. apply HF. rewrite elem_of_app. done.
Qed.

Lemma str_rev_length s : String.length (String.rev s) = String.length s.
Proof.
  induction s as [|c s IH]; [done|].
  change (String c s) with (String c "" +:+ s) at 1. rewrite str_rev_app, str_length_app, IH. cbn. lia.
Qed.

(** Trimming cuts something off both ends, and nothing the second time. *)
Lemma trim_space_infix s : ∃ p q, s = p +:+ trim_space s +:+ q.
Proof.
  unfold trim_space. set (l := trim_left_fuel _ _ s).
  destruct (trim_left_spec (String.length s) space_runes s) as [[p Hp] _]; [lia|auto using space_runes_nonempty|].
  destruct (trim_left_spec (String.length l) (String.rev <$> space_runes) (String.rev l)) as [[q Hq] _];
    [by rewrite str_rev_length|auto using space_runes_nonempty|].
  exists p, (String.rev q). apply (f_equal String.rev) in Hq.
  rewrite str_rev_involutive, str_rev_app in Hq. fold l in Hp. by rewrite Hp at 1; rewrite Hq at 1.
Qed.

Lemma trim_space_idem s : trim_space (trim_space s) = trim_space s.
Proof.
  unfold trim_space at 2 3. set (l := trim_left_fuel _ _ s). set (t := trim_left_fuel _ _ (String.rev l)).
  destruct (trim_left_spec (String.length s) space_runes s) as [_ Hl]; [lia|auto using space_runes_nonempty|].
  destruct (trim_left_spec (String.length l) (String.rev <$> space_runes) (String.rev l)) as [[q Hq] Ht];
    [by rewrite str_rev_length|auto using space_runes_nonempty|].
  fold l in Hl. fold t in Hq, Ht. apply (f_equal String.rev) in Hq.
  rewrite str_rev_involutive, str_rev_app in Hq. rewrite Hq in Hl. apply prefix_clear_app in Hl.
  unfold trim_space. rewrite (trim_left_fixed _ _ (String.rev t)) by done.
  by rewrite str_rev_involutive, trim_left_fixed.
Qed.

Lemma trim_space_no_byte c s : no_byte c s = true → no_byte c (trim_space s) = true.
Proof.
  intros H. destruct (trim_space_infix s) as (p & q & Hs). rewrite Hs, !no_byte_app in H.
  by apply andb_prop in H as [_ [? _]%andb_prop].
Qed.

(** [all_digits s]: every byte of [s] is a decimal digit. *)
Fixpoint all_digits (s : string) : bool :=
  match s with "" => true | String c s' => is_digit c && all_digits s' end.

Lemma digit_char_is_digit d : (0 ≤ d < 10)%Z → is_digit (digit_char d) = true.
Proof.
  intros H. assert (∃ n : nat, d = Z.of_nat n ∧ n < 10) as (n & -> & Hn).
  { exists (Z.to_nat d). lia. }
  clear H. do 10 (destruct n as [|n]; [reflexivity|]). lia.
Qed.

Lemma fmt_digits_all fuel n acc :
  all_digits acc = true → all_digits (fmt_digits fuel 10 n acc) = true.
Proof.
  revert n acc. induction fuel as [|f IH]; intros n acc Hacc; [done|].
  assert (0 ≤ n mod 10 < 10)%Z by (apply Z.mod_pos_bound; lia).
  assert (all_digits (String (digit_char (n mod 10)) acc) = true).
  { cbn. by rewrite digit_char_is_digit. }
  cbn [fmt_digits]. destruct (_ <? _)%Z; [done|]. by apply IH.
Qed.

Lemma itoa_all_digits z : (0 ≤ z)%Z → all_digits (itoa z) = true ∧ itoa z ≠ "".
Proof.
  intros Hz. unfold itoa, format_int. destruct (Z.ltb_spec z 0); [lia|]. split.
  - by apply fmt_digits_all.
  - intros E. pose proof (format_uint_starts 10 z ltac:(lia) Hz) as Hs. by rewrite E in Hs.
Qed.

Lemma all_digits_app s t : all_digits (s +:+ t) = all_digits s && all_digits t.
Proof.
  induction s as [|c s IH]; [done|]. rewrite str_app_cons. cbn. rewrite IH.
  by destruct (is_digit c).
Qed.

Lemma all_digits_rev s : all_digits (String.rev s) = all_digits s.
Proof.
  induction s as [|c s IH]; [done|].
  change (String c s) with (String c "" +:+ s) at 1.
  rewrite str_rev_app, all_digits_app, IH. cbn. rewrite andb_true_r. apply andb_comm.
Qed.

Lemma all_digits_no_byte c s : is_digit c = false → all_digits s = true → no_byte c s = true.
Proof.
  intros Hc. induction s as [|d s IH]; cbn; [done|]. intros [Hd Hs]%andb_prop.
  rewrite IH by done. rewrite bool_decide_eq_false_2; [done|]. intros ->. by rewrite Hc in Hd.
Qed.

(** A digit is neither the first nor the last byte of a white-space rune. *)
Lemma digit_first_clear s t :
  all_digits s = true → s ≠ "" →
  first_clear space_runes (s +:+ t) = true ∧
  first_clear (String.rev <$> space_runes) (s +:+ t) = true.
Proof.
  destruct s as [|c s]; [done|]. intros [Hc _]%andb_prop _. rewrite str_app_cons.
  destruct c as [[] [] [] [] [] [] [] []]; first [discriminate Hc|split; reflexivity].
Qed.

(** ** Loops over a Go map

    A Go [for k := range m] visits the keys of [m] in an unspecified order. The
    loops of the sources are written as a left fold over the keys, and
    [foldl_order] shows when the order cannot be observed. *)
Lemma foldl_order {A B} (f : B → A → B) (l1 l2 : list A) (b : B) :
  (∀ b a1 a2, a1 ≠ a2 → a1 ∈ l1 → a2 ∈ l1 → f (f b a1) a2 = f (f b a2) a1) →
  NoDup l1 → l1 ≡ₚ l2 → foldl f b l1 = foldl f b l2.
Proof.
  intros Hf Hnd Hp. revert b Hf Hnd. induction Hp as [|x l1 l2 Hp IH|x y l|l1 l2 l3 H12 IH1 H23 IH2];
    intros b Hf Hnd; cbn.
  - done.
  - apply NoDup_cons in Hnd as [_ Hnd]. apply IH; [|done]. set_solver.
  - apply NoDup_cons in Hnd as [Hy _]. f_equal. apply Hf; set_solver.
  - rewrite IH1 by done. apply IH2.
    + intros b' a1 a2 Hne H1 H2. apply Hf; [done|..]; by rewrite H12.
    + by rewrite <- H12.
Qed.

(** The keys of a map, in the order the model visits them. *)
Definition keys {A} (m : gmap string A) : list string := (map_to_list m).*1.

Lemma elem_of_keys {A} (m : gmap string A) k : k ∈ keys m ↔ is_Some (m !! k).
Proof.
  unfold keys. rewrite list_elem_of_fmap. split.
  - intros ([k' v] & -> & H). apply elem_of_map_to_list in H. by exists v.
  - intros [v H]. exists (k, v). split; [done|]. by apply elem_of_map_to_list.
Qed.

Lemma NoDup_keys {A} (m : gmap string A) : NoDup (keys m).
Proof. apply NoDup_fst_map_to_list. Qed.

(** ** Lists *)

Section filter.
Context {A : Type} (P : A → Prop) `{!∀ x, Decision (P x)}.
Lemma filter_none l : Forall (λ x, ¬ P x) l → filter P l = [].
Proof. induction 1 as [|x l Hx _ IH]; [done|]. by rewrite filter_cons_False. Qed.
Lemma filter_all l : Forall P l → filter P l = l.
Proof. induction 1 as [|x l Hx _ IH]; [done|]. by rewrite filter_cons_True, IH. Qed.
End filter.

(** ** Hint databases and tactics of the development *)

Create HintDb go.
Create Rewrite HintDb go_rw.
#[export] Hint Rewrite str_app_assoc str_app_nil_r : go_rw.
#[export] Hint Resolve NoDup_keys wrap64_ok has_prefix_app has_prefix_refl : go.

(** [case_all]: split every [match] and [if] of the goal, and simplify. *)
Ltac case_all := repeat (case_match; simplify_eq/=; try done).

(** [dmatch H]: split every [match] of a hypothesis, and simplify. *)
Ltac dmatch H := repeat (case_match; simplify_eq/=; try done).
