(* ===== verification/Json.v ===== *)
(** JSON values as [encoding/json] produces and consumes them, and the decoding
    of a Go struct: keys match field names without regard to ASCII case, a later
    duplicate overwrites an earlier one, [null] leaves a field as it was, and a
    value of the wrong kind is an error. Numbers are kept as the decimal
    [m * 10 ^ e] their literal denotes. *)

From S2P Require Import Prelude.
From Stdlib Require Import ZArith Lia Ascii Floats.SpecFloat.
From stdpp Require Import options.

Inductive json : Type :=
| JNull
| JBool (b : bool)
| JNum (m e : Z)
| JStr (s : string)
| JArr (l : list json)
| JObj (l : list (string * json)).

Definition jint (z : Z) : json := JNum z 0.

(** ** Binary64

    A Go [float64] as the IEEE format of [SpecFloat]: [float64_of] rounds the
    exact decimal to the nearest float, ties to even, and [trunc] is the
    conversion of a float to [int64] (the value is unspecified in Go when it does
    not fit, here [0]). *)

Definition SFprec : Z := 53.
Definition SFemax : Z := 1024.

Definition float64_of (m e : Z) : spec_float :=
  if (0 <=? e)%Z then binary_normalize SFprec SFemax (m * 10 ^ e) 0 false
  else match m with
       | Z0 => S754_zero false
       | Zpos p => SFdiv SFprec SFemax (S754_finite false p 0) (S754_finite false (Z.to_pos (10 ^ (- e))) 0)
       | Zneg p => SFdiv SFprec SFemax (S754_finite true p 0) (S754_finite false (Z.to_pos (10 ^ (- e))) 0)
       end.

Definition trunc (f : spec_float) : Z :=
  let z := match f with
           | S754_finite s m e =>
               let a := if (0 <=? e)%Z then (Zpos m * 2 ^ e)%Z else (Zpos m / 2 ^ (- e))%Z in
               if s : bool then (- a)%Z else a
           | _ => 0%Z
           end in
  if int64_ok z then z else 0%Z.

Definition float_mul := SFmul SFprec SFemax.
Definition is_float_zero (f : spec_float) : bool := match f with S754_zero _ => true | _ => false end.
Definition is_float_finite (f : spec_float) : bool :=
  match f with S754_zero _ | S754_finite _ _ _ => true | _ => false end.

(** The shortest decimal that rounds to a float, the nearest one if there are two:
    [p] digits are tried from one upwards, seventeen always suffice. *)
Definition shortest_digits (f : spec_float) (num den n : Z) : nat → nat → Z * Z :=
  fix go fuel p :=
    let e := (n - Z.of_nat p)%Z in
    let a := (if (e <=? 0)%Z then num * 10 ^ (- e) else num)%Z in
    let b := (if (e <=? 0)%Z then den else den * 10 ^ e)%Z in
    let lo := (a / b)%Z in
    let rounds z := SFeqb (float64_of z e) f in
    let first := if (2 * (a - lo * b) <=? b)%Z then lo else (lo + 1)%Z in
    let second := if (2 * (a - lo * b) <=? b)%Z then (lo + 1)%Z else lo in
    match fuel with
    | O => (first, e)
    | S fuel => if rounds first then (first, e) else if rounds second then (second, e) else go fuel (S p)
    end.
Fixpoint strip_zeros (fuel : nat) (m e : Z) : Z * Z :=
  match fuel with
  | O => (m, e)
  | S fuel => if (m mod 10 =? 0)%Z then strip_zeros fuel (m / 10) (e + 1) else (m, e)
  end.
Definition shortest (f : spec_float) : Z * Z :=
  match f with
  | S754_finite s m e =>
      let num := (if (0 <=? e)%Z then Zpos m * 2 ^ e else Zpos m)%Z in
      let den := (if (0 <=? e)%Z then 1 else 2 ^ (- e))%Z in
      let below n := if (0 <=? n)%Z then (num <? den * 10 ^ n)%Z else (num * 10 ^ (- n) <? den)%Z in
      let n0 := ((Z.log2 num - Z.log2 den) * 30103 / 100000 - 1)%Z in
      let n := default (n0 + 4)%Z (list_find below ((λ i, n0 + i)%Z <$> [0; 1; 2; 3]%Z) ≫= λ p, Some p.2) in
      let '(m', e') := shortest_digits (S754_finite false m e) num den n 17 1 in
      let '(m', e') := strip_zeros 20 m' e' in
      ((if s then - m' else m')%Z, e')
  | _ => (0, 0)%Z
  end.

(** [m / 2 ^ k] rounded to the nearest integer, ties to even. *)
Definition round_even (m : Z) (k : Z) : Z :=
  let q := Z.shiftr m k in let r := (m - Z.shiftl q k)%Z in let half := Z.shiftl 1 (k - 1) in
  if (r <? half)%Z then q else if (half <? r)%Z then (q + 1)%Z else if Z.even q then q else (q + 1)%Z.

(** ** Objects *)

Definition fold_case (s : string) : string :=
  String.string_of_list_ascii (lower_byte <$> String.list_ascii_of_string s).

(** The last entry of an object whose key is [name] up to case. *)
Fixpoint field_raw (name : string) (l : list (string * json)) : option json :=
  match l with
  | [] => None
  | (k, v) :: l' =>
      match field_raw name l' with
      | Some v' => Some v'
      | None => if fold_case k =s fold_case name then Some v else None
      end
  end.

(** A decoder returns [None] on a type error. A field that is absent or [null]
    keeps the zero value [z]. *)
Definition decode_field {A} (z : A) (d : json → option A) (name : string) (l : list (string * json)) : option A :=
  match field_raw name l with
  | None | Some JNull => Some z
  | Some v => d v
  end.

Definition as_string (j : json) : option string := match j with JStr s => Some s | _ => None end.
Definition as_bool (j : json) : option bool := match j with JBool b => Some b | _ => None end.
(** An integer field accepts a literal without fraction or exponent that fits. *)
Definition as_int (j : json) : option Z :=
  match j with JNum m 0 => if int64_ok m then Some m else None | _ => None end.

Definition str_field := decode_field "" as_string.
Definition int_field := decode_field 0%Z as_int.

(** [json.Unmarshal] into a slice and into a struct. *)
Definition as_list {A} (d : json → option A) (j : json) : option (list A) :=
  match j with JNull => Some [] | JArr l => mapM d l | _ => None end.
Definition as_struct {A} (z : A) (d : list (string * json) → option A) (j : json) : option A :=
  match j with JNull => Some z | JObj l => d l | _ => None end.

(** ** Encoding *)

(** [json:",omitempty"] fields of the payload structs. *)
Definition omit_str (name v : string) : list (string * json) := if v =s "" then [] else [(name, JStr v)].
Definition omit_int (name : string) (v : Z) : list (string * json) :=
  if (v =? 0)%Z then [] else [(name, jint v)].

(** A finite [float64] (negative zero is written as zero); an integral literal of at
    most 21 digits is kept without an exponent. *)
Definition jfloat (f : spec_float) : json :=
  let '(m, e) := shortest f in
  let len := Z.of_nat (String.length (itoa (Z.abs m))) in
  if (0 <=? e)%Z && (len + e <=? 21)%Z then JNum (m * 10 ^ e) 0 else JNum m e.
Definition omit_float (name : string) (v : spec_float) : list (string * json) :=
  if is_float_zero v then [] else [(name, jfloat v)].

(** A Go map is encoded with its keys sorted. *)
Definition key_le (x y : string * json) : Prop := String.le x.1 y.1.
#[export] Instance key_le_dec x y : Decision (key_le x y).
Proof. unfold key_le. apply _. Defined.
Definition jmap (m : gmap string json) : json := JObj (merge_sort key_le (map_to_list m)).
Definition jmap_str (m : gmap string string) : json := jmap (JStr <$> m).

#[export] Instance json_inhabited : Inhabited json := populate JNull.

(** ** UTF-8 *)

Definition byte_in (lo hi : nat) (c : ascii) : bool := (lo <=? nat_of_ascii c) && (nat_of_ascii c <=? hi).

(** The number of bytes of the code point a text starts with, 0 when its first bytes
    encode none. *)
Definition rune_len (s : string) : nat :=
  match s with
  | "" => 0
  | String c0 s1 =>
    if byte_in 0 127 c0 then 1 else
    match s1 with
    | "" => 0
    | String c1 s2 =>
      if byte_in 194 223 c0 then if byte_in 128 191 c1 then 2 else 0 else
      match s2 with
      | "" => 0
      | String c2 s3 =>
        if byte_in 224 239 c0 then
          let lo := if byte_in 224 224 c0 then 160 else 128 in
          let hi := if byte_in 237 237 c0 then 159 else 191 in
          if byte_in lo hi c1 && byte_in 128 191 c2 then 3 else 0
        else
        match s3 with
        | "" => 0
        | String c3 _ =>
          if byte_in 240 244 c0 then
            let lo := if byte_in 240 240 c0 then 144 else 128 in
            let hi := if byte_in 244 244 c0 then 143 else 191 in
            if byte_in lo hi c1 && byte_in 128 191 c2 && byte_in 128 191 c3 then 4 else 0
          else 0
        end
      end
    end
  end.
Definition is_rune (b : string) : Prop := b ≠ "" ∧ rune_len b = String.length b.
Inductive valid_utf8 : string → Prop :=
| utf8_nil : valid_utf8 ""
| utf8_cons b s : is_rune b → valid_utf8 s → valid_utf8 (b +:+ s).

Fixpoint take_str (n : nat) (s : string) : string :=
  match n, s with S n, String c s => String c (take_str n s) | _, _ => "" end.

(** U+FFFD, written for a byte that belongs to no code point. *)
Definition replacement : string := bytes [239; 191; 189].

Fixpoint every_byte (p : ascii → bool) (s : string) : bool :=
  match s with String c s' => p c && every_byte p s' | "" => true end.

(** A text rune by rune: [f] gives what stands for the bytes of a code point, and
    [bad] for a byte that belongs to none; [skip] counts the bytes of the last code
    point that are still to come. *)
Fixpoint map_runes (f : string → string) (bad : string) (skip : nat) (s : string) : string :=
  match s with
  | "" => ""
  | String c s' =>
      match skip with
      | S k => map_runes f bad k s'
      | O => match rune_len s with
             | O => bad +:+ map_runes f bad 0 s'
             | S k => f (take_str (S k) s) +:+ map_runes f bad k s'
             end
      end
  end.

(** What a Go text becomes on its way through JSON: a byte that belongs to no code
    point is U+FFFD afterwards. *)
Definition to_utf8 (s : string) : string := map_runes id replacement 0 s.

Lemma byte_in_weaken lo hi lo' hi' c : lo' ≤ lo → hi ≤ hi' → byte_in lo hi c = true → byte_in lo' hi' c = true.
Proof. unfold byte_in. rewrite !andb_true_iff, !Nat.leb_le. lia. Qed.
Lemma byte_in_above lo hi c : lo ≠ 0 → byte_in lo hi c = true → byte_in 0 (lo - 1) c = false.
Proof. unfold byte_in. rewrite andb_true_iff, andb_false_iff, !Nat.leb_le, !Nat.leb_gt. lia. Qed.
Lemma take_app b s : take_str (String.length b) (b +:+ s) = b.
Proof. induction b as [|c b IH]; cbn; [done|by f_equal]. Qed.

(** The bytes after the first of a code point are continuation bytes. *)
Lemma is_rune_cases b : is_rune b →
  (∃ c, b = String c "" ∧ byte_in 0 127 c = true) ∨
  (∃ c t, b = String c t ∧ byte_in 194 244 c = true ∧ every_byte (byte_in 128 191) t = true ∧
    (c = "226"%char → String.length t = 2)).
Proof.
  intros [Hne Hlen]. destruct b as [|c [|c1 [|c2 [|c3 t]]]]; [done|..]; cbn -[byte_in] in Hlen.
  - left. exists c. by destruct (byte_in 0 127 c).
  - right. exists c, (String c1 ""). destruct (byte_in 0 127 c); [done|].
    destruct (byte_in 194 223 c) eqn:Hc; [|done]. destruct (byte_in 128 191 c1) eqn:H1; [|done].
    split_and!; [done|by eapply byte_in_weaken; [..|exact Hc]; lia|cbn; by rewrite H1|by intros ->].
  - right. exists c, (String c1 (String c2 "")). destruct (byte_in 0 127 c); [done|].
    destruct (byte_in 194 223 c); [by destruct (byte_in 128 191 c1)|].
    destruct (byte_in 224 239 c) eqn:Hc; [|done].
    destruct (byte_in _ _ c1) eqn:H1; [|done]. destruct (byte_in 128 191 c2) eqn:H2; [|done].
    split_and!; [done|by eapply byte_in_weaken; [..|exact Hc]; lia| |done].
    cbn -[byte_in]. rewrite H2, (byte_in_weaken _ _ 128 191 c1) with (3 := H1); [done|(destruct (byte_in 224 224 c); lia)|(destruct (byte_in 237 237 c); lia)].
  - right. exists c, (String c1 (String c2 (String c3 t))). destruct (byte_in 0 127 c); [done|].
    destruct (byte_in 194 223 c); [by destruct (byte_in 128 191 c1)|].
    destruct (byte_in 224 239 c); [by destruct (byte_in _ _ c1 && _)|].
    destruct (byte_in 240 244 c) eqn:Hc; [|done].
    destruct (byte_in _ _ c1) eqn:H1; [|done]. destruct (byte_in 128 191 c2) eqn:H2; [|done].
    destruct (byte_in 128 191 c3) eqn:H3; [|done]. destruct t; [|done].
    split_and!; [done|by eapply byte_in_weaken; [..|exact Hc]; lia| |by intros ->].
    cbn -[byte_in]. rewrite H2, H3, (byte_in_weaken _ _ 128 191 c1) with (3 := H1); [done|(destruct (byte_in 240 240 c); lia)|(destruct (byte_in 244 244 c); lia)].
Qed.

Lemma rune_len_app b s : is_rune b → rune_len (b +:+ s) = String.length b.
Proof.
  intros [Hne Hlen]. destruct b as [|c [|c1 [|c2 [|c3 t]]]]; [done|..]; revert Hlen; rewrite ?str_app_cons; cbn -[byte_in];
    repeat match goal with |- context [if ?x then _ else _] => destruct x end; done.
Qed.
Lemma rune_len_le s : rune_len s ≤ String.length s.
Proof.
  destruct s as [|c [|c1 [|c2 [|c3 t]]]]; cbn -[byte_in]; try lia;
    repeat match goal with |- context [if ?x then _ else _] => destruct x end; lia.
Qed.
Lemma rune_len_take s : rune_len (take_str (rune_len s) s) = rune_len s.
Proof.
  destruct s as [|c [|c1 [|c2 [|c3 t]]]]; try done; cbn [rune_len];
    repeat match goal with |- context [if ?x then _ else _] => destruct x eqn:?; try done end;
    cbn [take_str rune_len]; by repeat match goal with H : ?x = _ |- _ => rewrite H; clear H end.
Qed.
Lemma take_length n s : n ≤ String.length s → String.length (take_str n s) = n.
Proof. revert s; induction n as [|n IH]; intros [|c s]; cbn; intros H; [done|done|lia|]. rewrite IH; lia. Qed.

Lemma utf8_rune b : is_rune b → valid_utf8 b.
Proof. intros. rewrite <- (str_app_nil_r b). by constructor; [|constructor]. Qed.
Lemma utf8_app s t : valid_utf8 s → valid_utf8 t → valid_utf8 (s +:+ t).
Proof. induction 1 as [|b s Hb _ IH]; [done|]. intros Ht. rewrite str_app_assoc. constructor; auto. Qed.
Lemma utf8_ascii s : every_byte (byte_in 0 127) s = true → valid_utf8 s.
Proof.
  induction s as [|c s IH]; [constructor|]. cbn [every_byte]. intros [Hc Hs]%andb_prop.
  change (String c s) with (String c "" +:+ s). constructor; [|auto]. split; [done|]. cbn -[byte_in]. by rewrite Hc.
Qed.

Lemma utf8_replacement : valid_utf8 replacement.
Proof. by apply utf8_rune. Qed.

Lemma take_drop_str n s : take_str n s +:+ drop_str n s = s.
Proof. revert s. induction n as [|n IH]; intros [|c s]; [done..|]. change (String c (take_str n s +:+ drop_str n s) = String c s). by rewrite IH. Qed.
Lemma is_rune_take s : rune_len s ≠ 0 → is_rune (take_str (rune_len s) s).
Proof.
  intros Hn. split.
  - intros He. pose proof (take_length (rune_len s) s (rune_len_le s)) as Hl. rewrite He in Hl. cbn in Hl. lia.
  - by rewrite rune_len_take, take_length by apply rune_len_le.
Qed.

(** Every text is a sequence of code points and of bytes that belong to none. *)
Lemma rune_ind (P : string → Prop) :
  P "" → (∀ b s, is_rune b → P s → P (b +:+ s)) →
  (∀ c s, rune_len (String c s) = 0 → P s → P (String c s)) → ∀ s, P s.
Proof.
  intros H0 Hr Hb s. remember (String.length s) as n eqn:Hn. revert s Hn.
  induction n as [n IH] using lt_wf_ind. intros s ->. destruct s as [|c s]; [done|].
  destruct (decide (rune_len (String c s) = 0)) as [Hz|Hz].
  { apply Hb; [done|]. apply (IH (String.length s)); [cbn; lia|done]. }
  rewrite <- (take_drop_str (rune_len (String c s)) (String c s)) at 1. pose proof (is_rune_take _ Hz) as Hrune.
  apply Hr; [done|]. eapply IH; [|reflexivity].
  pose proof (f_equal String.length (take_drop_str (rune_len (String c s)) (String c s))) as Hlen.
  rewrite str_length_app, take_length in Hlen by apply rune_len_le. lia.
Qed.

Lemma map_runes_skip f bad b s : map_runes f bad (String.length b) (b +:+ s) = map_runes f bad 0 s.
Proof. induction b as [|c b IH]; [done|]. exact IH. Qed.
Lemma map_runes_rune f bad b s : is_rune b → map_runes f bad 0 (b +:+ s) = f b +:+ map_runes f bad 0 s.
Proof.
  intros Hb. pose proof (rune_len_app b s Hb) as Hl. pose proof (take_app b s) as Ht.
  destruct b as [|c b]; [by destruct Hb|]. change (String c b +:+ s) with (String c (b +:+ s)) in *.
  cbn [map_runes]. rewrite Hl. cbn [String.length] in *. rewrite Ht. by rewrite map_runes_skip.
Qed.
Lemma map_runes_bad f bad c s : rune_len (String c s) = 0 →
  map_runes f bad 0 (String c s) = bad +:+ map_runes f bad 0 s.
Proof. intros Hl. cbn [map_runes]. by rewrite Hl. Qed.

Lemma to_utf8_valid s : valid_utf8 (to_utf8 s).
Proof.
  unfold to_utf8. induction s as [|b s Hb IH|c s Hc IH] using rune_ind; [constructor|..].
  - rewrite map_runes_rune by done. by constructor.
  - rewrite map_runes_bad by done. apply utf8_app; [apply utf8_replacement|done].
Qed.
Lemma to_utf8_app a s : valid_utf8 a → to_utf8 (a +:+ s) = a +:+ to_utf8 s.
Proof.
  unfold to_utf8. induction 1 as [|b a Hb _ IH]; [done|]. rewrite !str_app_assoc, map_runes_rune by done. by rewrite IH.
Qed.
Lemma to_utf8_id s : valid_utf8 s → to_utf8 s = s.
Proof. intros Hs. pose proof (to_utf8_app s "" Hs) as H. by rewrite !str_app_nil_r in H. Qed.
Lemma to_utf8_idemp s : to_utf8 (to_utf8 s) = to_utf8 s.
Proof. apply to_utf8_id, to_utf8_valid. Qed.
Lemma to_utf8_empty s : to_utf8 s = "" → s = "".
Proof.
  unfold to_utf8. induction s as [|b s Hb _|c s Hc _] using rune_ind; [done|..].
  - rewrite map_runes_rune by done. by destruct b; [destruct Hb|].
  - by rewrite map_runes_bad.
Qed.
(** Whether a text is valid UTF-8 is decided by computing what it becomes. *)
Lemma valid_utf8_spec s : valid_utf8 s ↔ to_utf8 s = s.
Proof. split; [apply to_utf8_id|]. intros <-. apply to_utf8_valid. Qed.
#[export] Instance valid_utf8_dec s : Decision (valid_utf8 s).
Proof. refine (cast_if (decide (to_utf8 s = s))); by rewrite valid_utf8_spec. Defined.

(** What the value of a JSON text becomes when it is written and read back. *)
Fixpoint json_utf8 (j : json) : json :=
  match j with
  | JStr s => JStr (to_utf8 s)
  | JArr l => JArr (json_utf8 <$> l)
  | JObj l => JObj ((λ kv, (to_utf8 kv.1, json_utf8 kv.2)) <$> l)
  | _ => j
  end.

(** ** Text *)

(** The text of a JSON value as [json.Marshal] writes it (numbers in normal form),
    and the text of a form field: a string member loses its quotes on the way
    through its JSON text. *)
Definition hex_lower (n : nat) : ascii := digit_char (Z.of_nat n).
(** What [json_escape] writes for one ASCII byte. *)
Definition escaped_byte (c : ascii) : string :=
  let n := nat_of_ascii c in
  if n =? 34 then String "\" (String c "") else if n =? 92 then "\\"
  else if n =? 8 then "\b" else if n =? 9 then "\t" else if n =? 10 then "\n"
  else if n =? 12 then "\f" else if n =? 13 then "\r"
  else if (n <? 32) || one_of "<>&" c then "\u00" +:+ String (hex_lower (n / 16)) (String (hex_lower (n mod 16)) "")
  else String c "".
(** What is written for the bytes of one code point. *)
Definition escaped_rune (b : string) : string :=
  if b =s bytes [226; 128; 168] then "\u2028" else if b =s bytes [226; 128; 169] then "\u2029"
  else match b with String c "" => escaped_byte c | _ => b end.
Definition json_escape (s : string) : string := map_runes escaped_rune "\ufffd" 0 s.
Definition quote_byte : string := bytes [34].

(** The text of [m * 10 ^ e], [m] without trailing zeros, the way floats are
    written: plain digits unless the value is below [1e-6] or from [1e21]. *)
Fixpoint zeros (n : nat) : string := match n with O => "" | S n => "0" +:+ zeros n end.
Definition number_text (m e : Z) : string :=
  let d := itoa (Z.abs m) in
  let len := Z.of_nat (String.length d) in
  let point := (len + e)%Z in
  let from i := String.substring i (String.length d - i) d in
  (if (m <? 0)%Z then "-" else "") +:+
  (if (-5 <=? point)%Z && (point <=? 21)%Z then
     if (point <=? 0)%Z then "0." +:+ zeros (Z.to_nat (- point)) +:+ d
     else if (point <? len)%Z then String.substring 0 (Z.to_nat point) d +:+ "." +:+ from (Z.to_nat point)
     else d +:+ zeros (Z.to_nat (point - len))
   else String.substring 0 1 d +:+ (if (len =? 1)%Z then "" else "." +:+ from 1%nat) +:+ "e" +:+
          (if (point <? 1)%Z then "-" else "+") +:+ itoa (Z.abs (point - 1))).

Fixpoint marshal (j : json) : string :=
  match j with
  | JNull => "null"
  | JBool b => if b then "true" else "false"
  | JNum m e => if (e =? 0)%Z then itoa m else number_text m e
  | JStr s => quote_byte +:+ json_escape s +:+ quote_byte
  | JArr l => "[" +:+ join "," (marshal <$> l) +:+ "]"
  | JObj l => "{" +:+ join "," ((λ kv, quote_byte +:+ json_escape kv.1 +:+ quote_byte +:+ ":" +:+ marshal kv.2) <$> l) +:+ "}"
  end.
Definition form_value (j : json) : string := match j with JStr s => to_utf8 s | _ => marshal j end.

(** The nesting depth of a value. *)
Fixpoint json_depth (j : json) : nat :=
  match j with
  | JArr l => S (foldr (λ x n, Nat.max (json_depth x) n) 0 l)
  | JObj l => S (foldr (λ kv n, Nat.max (json_depth kv.2) n) 0 l)
  | _ => 0
  end.

Lemma elem_depth x l : x ∈ l → json_depth x < json_depth (JArr l).
Proof.
  cbn. induction l as [|y l IH]; [by intros ?%not_elem_of_nil|]. intros [->|Hx]%elem_of_cons; cbn; [lia|].
  specialize (IH Hx). lia.
Qed.

Lemma field_raw_depth name l v : field_raw name l = Some v → json_depth v < json_depth (JObj l).
Proof.
  cbn. induction l as [|[k w] l IH]; [done|]. cbn. destruct (field_raw name l) as [v'|].
  - intros [= <-]. specialize (IH eq_refl). lia.
  - case_bool_decide; [|done]. intros [= <-]. lia.
Qed.

(** ** Properties of the encoders *)

Lemma as_int_jint z : int64_ok z = true → as_int (jint z) = Some z.
Proof. intros H. cbn. by rewrite H. Qed.

Lemma elem_of_jmap (m : gmap string json) k v l :
  jmap m = JObj l → (k, v) ∈ l ↔ m !! k = Some v.
Proof.
  intros [= <-]. rewrite merge_sort_Permutation. apply elem_of_map_to_list.
Qed.

(** ** Integers of at most 53 bits are exact in binary64 *)

Lemma iter_xO p d : Zpos (Pos.iter xO p d) = (Zpos p * 2 ^ Zpos d)%Z.
Proof.
  induction d as [|d IH] using Pos.peano_ind; [by cbn; lia|].
  rewrite Pos.iter_succ, Pos2Z.inj_xO, IH, Pos2Z.inj_succ, Z.pow_succ_r by lia. lia.
Qed.

Lemma digits2_iter_xO p d : Zpos (digits2_pos (Pos.iter xO p d)) = (Zpos (digits2_pos p) + Zpos d)%Z.
Proof.
  induction d as [|d IH] using Pos.peano_ind; [by cbn; lia|].
  rewrite Pos.iter_succ. cbn [digits2_pos]. rewrite !Pos2Z.inj_succ, IH. lia.
Qed.

Lemma digits2_bound p : (Zpos p < 2 ^ SFprec)%Z → (Zpos (digits2_pos p) ≤ SFprec)%Z.
Proof.
  assert (digits2_pos p = Pos.size p) as -> by (induction p as [p IH|p IH|]; [exact (f_equal Pos.succ IH)..|reflexivity]).
  intros H.
  pose proof (Pos.size_le p) as Hs. apply Pos2Z.pos_le_pos in Hs. rewrite Pos2Z.inj_xO, Pos2Z.inj_pow in Hs.
  assert (2 ^ Zpos (Pos.size p) ≤ 2 ^ SFprec * 2 - 1)%Z as Hp by (unfold SFprec in *; lia).
  destruct (Z.le_gt_cases (Zpos (Pos.size p)) SFprec) as [|Hgt]; [done|].
  assert (2 ^ (SFprec + 1) ≤ 2 ^ Zpos (Pos.size p))%Z by (apply Z.pow_le_mono_r; unfold SFprec in *; lia).
  unfold SFprec in *. lia.
Qed.

Lemma round_aux_exact s p e :
  Zpos (digits2_pos p) = SFprec → (- 52 ≤ e ≤ 0)%Z →
  binary_round_aux SFprec SFemax s (Zpos p) e loc_Exact = S754_finite s p e.
Proof.
  intros Hd He. unfold binary_round_aux, shr_fexp. cbn [Zdigits2]. rewrite Hd.
  assert (fexp SFprec SFemax (SFprec + e) - e = 0)%Z as Hz by (unfold fexp, emin, SFprec, SFemax; lia).
  rewrite Hz. cbn [shr shr_record_of_loc shr_m loc_of_shr_record round_nearest_even Zdigits2]. rewrite Hd, Hz.
  cbn [shr shr_record_of_loc shr_m]. destruct (Z.leb_spec e (SFemax - SFprec)); [done|unfold SFemax, SFprec in *; lia].
Qed.

Lemma binary_round_exact s p :
  (Zpos p < 2 ^ SFprec)%Z →
  ∃ m e, binary_round SFprec SFemax s p 0 = S754_finite s m e ∧ (- 52 ≤ e ≤ 0)%Z ∧ (Zpos m / 2 ^ (- e) = Zpos p)%Z.
Proof.
  intros Hp. pose proof (digits2_bound p Hp) as Hd. unfold binary_round, shl_align.
  assert (fexp SFprec SFemax (Zpos (digits2_pos p) + 0) - 0 = Zpos (digits2_pos p) - SFprec)%Z as ->.
  { unfold fexp, emin, SFprec, SFemax in *. lia. }
  assert (fexp SFprec SFemax (Zpos (digits2_pos p) + 0) = Zpos (digits2_pos p) - SFprec)%Z as ->.
  { unfold fexp, emin, SFprec, SFemax in *. lia. }
  destruct (Z.pos (digits2_pos p) - SFprec)%Z as [|d|d] eqn:E; [|lia|].
  - exists p, 0%Z. rewrite round_aux_exact by lia. split_and!; [done|lia..|]. apply Z.div_1_r.
  - assert (- 52 ≤ Zneg d)%Z by (unfold SFprec in *; lia).
    exists (Pos.iter xO p d), (Zneg d). rewrite round_aux_exact; [|rewrite digits2_iter_xO; lia|lia].
    split_and!; [done|lia..|]. rewrite iter_xO. by rewrite Z.div_mul by lia.
Qed.

Lemma trunc_exact s m e p :
  (- 52 ≤ e ≤ 0)%Z → (Zpos m / 2 ^ (- e) = Zpos p)%Z → (Zpos p < 2 ^ SFprec)%Z →
  trunc (S754_finite s m e) = if s then Zneg p else Zpos p.
Proof.
  intros He Hm Hp. unfold trunc.
  assert ((if (0 <=? e)%Z then (Zpos m * 2 ^ e)%Z else (Zpos m / 2 ^ (- e))%Z) = Zpos p) as ->.
  { destruct (Z.leb_spec 0 e); [|done]. assert (e = 0)%Z as -> by lia. rewrite Z.div_1_r in Hm. lia. }
  assert (∀ z, (Z.abs z < 2 ^ 53)%Z → int64_ok z = true) as Hok.
  { intros z Hz. unfold int64_ok, min_int64, max_int64. lia. }
  unfold SFprec in Hp. destruct s; by rewrite Hok by lia.
Qed.

Lemma trunc_float64_of i : (Z.abs i < 2 ^ 53)%Z → trunc (float64_of i 0) = i ∧ is_float_finite (float64_of i 0) = true.
Proof.
  intros Hi. unfold float64_of. cbn [Z.leb Z.compare]. rewrite Z.mul_1_r.
  destruct i as [|p|p]; [done|..]; unfold binary_normalize.
  - destruct (binary_round_exact false p) as (m & e & -> & He & Hm); [unfold SFprec; lia|].
    split; [|done]. by apply (trunc_exact false m e p); [..|unfold SFprec; lia].
  - destruct (binary_round_exact true p) as (m & e & -> & He & Hm); [unfold SFprec; lia|].
    split; [|done]. by apply (trunc_exact true m e p); [..|unfold SFprec; lia].
Qed.
