(* ===== verification/JsonText.v ===== *)
(** JSON as text, the way [encoding/json] reads and writes it: the scanner and decoder
    of one value ([json.Unmarshal], [json.Decoder.Decode]) over bytes, the indented form
    of [json.MarshalIndent], and the round trip between the two. *)

From S2P Require Import Prelude Json.
From Stdlib Require Import ZArith Lia Ascii.
From stdpp Require Import options.

(** The encoding of a code point; of one that has none, the replacement. *)
Definition encode_rune (n : Z) : string :=
  let part k := Z.to_nat (128 + (Z.shiftr n k) mod 64)%Z in
  if (n <? 128)%Z then bytes [Z.to_nat n]
  else if (n <? 2048)%Z then bytes [Z.to_nat (192 + Z.shiftr n 6)%Z; part 0%Z]
  else if ((55296 <=? n) && (n <=? 57343))%Z then replacement
  else if (n <? 65536)%Z then bytes [Z.to_nat (224 + Z.shiftr n 12)%Z; part 6%Z; part 0%Z]
  else bytes [Z.to_nat (240 + Z.shiftr n 18)%Z; part 12%Z; part 6%Z; part 0%Z].

(** ** Strings *)

Definition hex_val (c : ascii) : option Z :=
  if byte_in 48 57 c || byte_in 65 70 c || byte_in 97 102 c then digit_val (lower_byte c) else None.
(** The four digits of an escape that follows a backslash and a [u]. *)
Definition hex4 (s : string) : option Z :=
  match s with
  | String a (String b (String c (String d _))) =>
      a ← hex_val a; b ← hex_val b; c ← hex_val c; d ← hex_val d; Some (4096 * a + 256 * b + 16 * c + d)%Z
  | _ => None
  end.
Definition low_surrogate (s : string) : option Z :=
  match s with
  | String b (String u s) =>
      if decide (b = "\"%char) then if decide (u = "u"%char) then
        n ← hex4 s; if (56320 <=? n)%Z && (n <=? 57343)%Z then Some n else None
      else None else None
  | _ => None
  end.

(** One character of a string literal whose first byte is [c]: what it stands for,
    and how many of the bytes after [c] belong to it. *)
Definition char_step (c : ascii) (s : string) : option (string * nat) :=
  if byte_in 0 31 c then None
  else if decide (c = "\"%char) then
    match s with
    | "" => None
    | String e s' =>
        if one_of (String (ascii_of_nat 34) "\/") e then Some (String e "", 1)
        else if decide (e = "b"%char) then Some (bytes [8], 1)
        else if decide (e = "f"%char) then Some (bytes [12], 1)
        else if decide (e = "n"%char) then Some (bytes [10], 1)
        else if decide (e = "r"%char) then Some (bytes [13], 1)
        else if decide (e = "t"%char) then Some (bytes [9], 1)
        else if decide (e = "u"%char) then
          n ← hex4 s';
          if (55296 <=? n)%Z && (n <=? 56319)%Z then
            match low_surrogate (drop_str 4 s') with
            | Some m => Some (encode_rune (65536 + (n - 55296) * 1024 + (m - 56320)), 11)
            | None => Some (replacement, 5)
            end
          else Some (encode_rune n, 5)
        else None
    end
  else match rune_len (String c s) with
       | O => Some (replacement, 0)
       | S k => Some (take_str (S k) (String c s), k)
       end.

(** The rest of a literal after its opening quote: its value and what follows the
    closing quote. [skip] counts the bytes the last character still covers. *)
Fixpoint string_body (skip : nat) (s : string) : option (string * string) :=
  match s with
  | "" => None
  | String c s' =>
      match skip with
      | S k => string_body k s'
      | O =>
          if decide (c = ascii_of_nat 34) then Some ("", s') else
          match char_step c s' with
          | None => None
          | Some (out, k) => match string_body k s' with Some (t, r) => Some (out +:+ t, r) | None => None end
          end
      end
  end.

(** ** Values *)

Fixpoint skip_ws (s : string) : string :=
  match s with
  | String c s' => if one_of (bytes [32; 9; 10; 13]) c then skip_ws s' else s
  | "" => ""
  end.

Fixpoint span_digits (s : string) : string * string :=
  match s with
  | String c s' => if is_digit c then let '(d, r) := span_digits s' in (String c d, r) else ("", s)
  | "" => ("", "")
  end.
(** The digits before the point: a single zero, or no leading zero. *)
Definition int_part (s : string) : option (string * string) :=
  match s with
  | String c s' =>
      if decide (c = "0"%char) then Some ("0", s')
      else match span_digits s with ("", _) => None | p => Some p end
  | "" => None
  end.
Definition frac_part (s : string) : option (string * string) :=
  match s with
  | String "." s' => match span_digits s' with ("", _) => None | p => Some p end
  | _ => Some ("", s)
  end.
Definition exp_part (s : string) : option (Z * string) :=
  match s with
  | String c s' =>
      if one_of "eE" c then
        let '(neg, s') := match s' with
          | String "+" t => (false, t) | String "-" t => (true, t) | _ => (false, s') end in
        match span_digits s' with
        | ("", _) => None
        | (d, r) => n ← parse_digits 10 0 d; Some ((if neg : bool then - n else n)%Z, r)
        end
      else Some (0%Z, s)
  | "" => Some (0%Z, s)
  end.
(** A number literal as the decimal it denotes; the way it is spelled is not kept. *)
Definition number (s : string) : option (json * string) :=
  let '(neg, s) := match s with String "-" t => (true, t) | _ => (false, s) end in
  '(i, s) ← int_part s;
  '(f, s) ← frac_part s;
  '(e, s) ← exp_part s;
  m ← parse_digits 10 0 (i +:+ f);
  Some (JNum (if neg : bool then - m else m)%Z (e - Z.of_nat (String.length f))%Z, s).

(** The scanner refuses values nested deeper than this. *)
Definition maxNestingDepth : Z := 10000.

(** What follows the byte [c], when the text starts with it. *)
Definition expect (c : ascii) (s : string) : option string :=
  match s with String c' s' => if decide (c' = c) then Some s' else None | "" => None end.
(** The literals, and a number when the text is none of them. *)
Definition literal (s : string) : option (json * string) :=
  if has_prefix s "null" then Some (JNull, drop_str 4 s)
  else if has_prefix s "true" then Some (JBool true, drop_str 4 s)
  else if has_prefix s "false" then Some (JBool false, drop_str 5 s)
  else number s.

(** The value a text starts with, and the text after it. *)
Fixpoint value (n d : nat) (s : string) : option (json * string) :=
  match n with
  | O => None
  | S n =>
    let s := skip_ws s in
    match expect "[" s with
    | Some s =>
        if (maxNestingDepth <=? Z.of_nat d)%Z then None else
        match expect "]" (skip_ws s) with
        | Some r => Some (JArr [], r)
        | None => '(l, r) ← elems n (S d) s; Some (JArr l, r)
        end
    | None =>
        match expect "{" s with
        | Some s =>
            if (maxNestingDepth <=? Z.of_nat d)%Z then None else
            match expect "}" (skip_ws s) with
            | Some r => Some (JObj [], r)
            | None => '(l, r) ← members n (S d) s; Some (JObj l, r)
            end
        | None =>
            match expect (ascii_of_nat 34) s with
            | Some s => '(t, r) ← string_body 0 s; Some (JStr t, r)
            | None => literal s
            end
        end
    end
  end
with elems (n d : nat) (s : string) : option (list json * string) :=
  match n with
  | O => None
  | S n =>
    '(j, r) ← value n d s;
    match expect "," (skip_ws r) with
    | Some r => '(l, r) ← elems n d r; Some (j :: l, r)
    | None => r ← expect "]" (skip_ws r); Some ([j], r)
    end
  end
with members (n d : nat) (s : string) : option (list (string * json) * string) :=
  match n with
  | O => None
  | S n =>
    s ← expect (ascii_of_nat 34) (skip_ws s);
    '(k, r) ← string_body 0 s;
    r ← expect ":" (skip_ws r);
    '(j, r) ← value n d r;
    match expect "," (skip_ws r) with
    | Some r => '(l, r) ← members n d r; Some ((k, j) :: l, r)
    | None => r ← expect "}" (skip_ws r); Some ([(k, j)], r)
    end
  end.

(** [json.Decoder.Decode]: the first value of a stream, whatever follows it. A value
    uses at most one unit of fuel for a byte. *)
Definition Decode (s : string) : option json := fst <$> value (S (String.length s)) 0 s.
(** [json.Unmarshal]: one value and nothing but white space after it. *)
Definition Unmarshal (s : string) : option json :=
  match value (S (String.length s)) 0 s with
  | Some (j, r) => if skip_ws r =s "" then Some j else None
  | None => None
  end.

(** [json.Unmarshal] into a map of [json.RawMessage]: the members of an object, each
    value as the bytes of its text. [n] is the fuel, the text after the opening brace is
    known to be that of an object. *)
Fixpoint raw_members (n : nat) (s : string) : list (string * string) :=
  match n with
  | O => []
  | S n =>
      match
        s ← expect (ascii_of_nat 34) (skip_ws s);
        '(k, r) ← string_body 0 s;
        r ← expect ":" (skip_ws r);
        '(_, rest) ← value (String.length r) 1 r;
        Some (k, take_str (String.length (skip_ws r) - String.length rest) (skip_ws r), rest)
      with
      | Some (k, raw, r) =>
          (k, raw) :: match expect "," (skip_ws r) with Some r => raw_members n r | None => [] end
      | None => []
      end
  end.
Definition UnmarshalRaw (s : string) : option (list (string * string)) :=
  match Unmarshal s with
  | Some JNull => Some []
  | Some (JObj _) => s' ← expect "{" (skip_ws s); Some (raw_members (String.length s) s')
  | _ => None
  end.

(** [json.MarshalIndent(v, "", "  ")], from the line prefix [pad]. *)
Definition nl : string := bytes [10].
Definition string_text (s : string) : string := quote_byte +:+ json_escape s +:+ quote_byte.
Fixpoint indented (pad : string) (j : json) : string :=
  let pad' := pad +:+ "  " in
  match j with
  | JArr ((_ :: _) as l) =>
      "[" +:+ join "," ((λ x, nl +:+ pad' +:+ indented pad' x) <$> l) +:+ nl +:+ pad +:+ "]"
  | JObj ((_ :: _) as l) =>
      "{" +:+ join "," ((λ kv, nl +:+ pad' +:+ string_text kv.1 +:+ ": " +:+ indented pad' kv.2) <$> l) +:+
      nl +:+ pad +:+ "}"
  | _ => marshal j
  end.
Definition MarshalIndent (j : json) : string := indented "" j.

(** ** String literals round trip *)

Lemma string_body_ascii c s : byte_in 0 127 c = true →
  string_body 0 (escaped_byte c +:+ s) = '(t, r) ← string_body 0 s; Some (String c t, r).
Proof.
  intros Hc. assert (∀ o : option (string * string),
    match o with Some (t, r) => Some (String c t, r) | None => None end = '(t, r) ← o; Some (String c t, r)) as Ho.
  { by intros [[]|]. }
  rewrite <- Ho. destruct c as [[] [] [] [] [] [] [] []]; (discriminate Hc || reflexivity).
Qed.

(** A byte above ASCII is read with the code point it starts. *)
Lemma string_body_high c s : byte_in 128 255 c = true →
  string_body 0 (String c s) =
  let '(out, k) := match rune_len (String c s) with
    | O => (replacement, 0) | S k => (take_str (S k) (String c s), k) end in
  '(t, r) ← string_body k s; Some (out +:+ t, r).
Proof.
  intros Hc. cbn [string_body]. unfold char_step.
  rewrite (byte_in_above 32 255) by (done || by eapply byte_in_weaken; [..|exact Hc]; lia).
  rewrite !decide_False by (intros ->; discriminate Hc).
  destruct (rune_len (String c s)); by destruct (string_body _ s) as [[]|].
Qed.

Lemma skip_bytes b s : string_body (String.length b) (b +:+ s) = string_body 0 s.
Proof. induction b as [|c b IH]; [done|apply IH]. Qed.

Lemma string_body_rune b s : is_rune b → byte_in 128 255 (default "0"%char (String.get 0 b)) = true →
  string_body 0 (b +:+ s) = '(t, r) ← string_body 0 s; Some (b +:+ t, r).
Proof.
  intros Hb. pose proof (rune_len_app b s Hb) as Hlen. destruct b as [|c b]; [done|]. cbn [String.get default]. intros Hc.
  change (String c b +:+ s) with (String c (b +:+ s)) in *. rewrite string_body_high by done. rewrite Hlen.
  cbn [String.length]. cbn [take_str]. rewrite take_app, skip_bytes. done.
Qed.

Lemma string_body_escaped b s : is_rune b →
  string_body 0 (escaped_rune b +:+ s) = '(t, r) ← string_body 0 s; Some (b +:+ t, r).
Proof.
  intros Hb. unfold escaped_rune. case_bool_decide as H1; [|case_bool_decide as H2].
  1,2: assert (∀ o : option (string * string),
      match o with Some (t, r) => Some (b +:+ t, r) | None => None end = '(t, r) ← o; Some (b +:+ t, r)) as <- by (by intros [[]|]);
    by subst b.
  pose proof (is_rune_cases b Hb) as [(c & -> & Hc)|(c & t & -> & Hc & Ht & H226)]; [by apply string_body_ascii|].
  assert (t ≠ "") as Hne.
  { intros ->. destruct Hb as [_ Hl]. cbn -[byte_in] in Hl.
    assert (byte_in 0 127 c = false) as Ha.
    { unfold byte_in in *. apply andb_true_iff in Hc as [Hc _]. apply Nat.leb_le in Hc. apply andb_false_iff. right.
      apply Nat.leb_gt. lia. }
    by rewrite Ha in Hl. }
  destruct t as [|c1 t]; [done|]. apply string_body_rune; [done|].
  eapply byte_in_weaken; [..|exact Hc]; lia.
Qed.
Lemma string_body_replaced s : string_body 0 ("\ufffd" +:+ s) = '(t, r) ← string_body 0 s; Some (replacement +:+ t, r).
Proof.
  trans (match string_body 0 s with Some (t, r) => Some (replacement +:+ t, r) | None => None end); [reflexivity|].
  by destruct (string_body 0 s) as [[]|].
Qed.

(** The literal of any text is read as what the text becomes in UTF-8. *)
Lemma string_literal s rest :
  string_body 0 (json_escape s +:+ String (ascii_of_nat 34) rest) = Some (to_utf8 s, rest).
Proof.
  unfold json_escape, to_utf8. induction s as [|b s Hb IH|c s Hc IH] using rune_ind; [done|..].
  - rewrite !map_runes_rune, str_app_assoc, string_body_escaped by done. by rewrite IH.
  - rewrite !map_runes_bad, str_app_assoc, string_body_replaced by done. by rewrite IH.
Qed.

(** ** What the decoder reads is valid UTF-8 *)

Lemma byte_in_of_nat lo hi n : n < 256 → byte_in lo hi (ascii_of_nat n) = (lo <=? n) && (n <=? hi).
Proof. intros. unfold byte_in. by rewrite nat_ascii_embedding. Qed.

(** Decides the comparisons of a goal one by one. *)
Ltac leb_cases :=
  repeat match goal with |- context [?x <=? ?y] =>
    lazymatch constr:((x, y)) with context [if _ then _ else _] => fail | _ => idtac end;
    destruct (Nat.leb_spec x y); cbn [andb]; try (exfalso; lia) end; done.

Lemma is_rune_2 a b : 194 ≤ a ≤ 223 → 128 ≤ b ≤ 191 → is_rune (bytes [a; b]).
Proof.
  intros Ha Hb. split; [done|]. cbn -[byte_in]. rewrite !byte_in_of_nat by lia.
  leb_cases.
Qed.
Lemma is_rune_3 a b c : 224 ≤ a ≤ 239 → 128 ≤ b ≤ 191 → 128 ≤ c ≤ 191 → (a = 224 → 160 ≤ b) → (a = 237 → b ≤ 159) →
  is_rune (bytes [a; b; c]).
Proof.
  intros Ha Hb Hc Hlo Hhi. split; [done|]. cbn -[byte_in]. rewrite !byte_in_of_nat by lia.
  leb_cases.
Qed.
Lemma is_rune_4 a b c d : 240 ≤ a ≤ 244 → 128 ≤ b ≤ 191 → 128 ≤ c ≤ 191 → 128 ≤ d ≤ 191 →
  (a = 240 → 144 ≤ b) → (a = 244 → b ≤ 143) → is_rune (bytes [a; b; c; d]).
Proof.
  intros Ha Hb Hc Hd Hlo Hhi. split; [done|]. cbn -[byte_in]. rewrite !byte_in_of_nat by lia.
  leb_cases.
Qed.

Lemma encode_rune_utf8 n : (0 ≤ n < 1114112)%Z → valid_utf8 (encode_rune n).
Proof.
  intros Hn. unfold encode_rune. rewrite !Z.shiftr_div_pow2 by lia. rewrite Z.pow_0_r.
  repeat case_match; [apply utf8_rune..| |].
  all: rewrite ?andb_true_iff, ?andb_false_iff, ?Z.leb_le, ?Z.leb_gt, ?Z.ltb_lt, ?Z.ltb_ge in *.
  - split; [done|]. cbn -[byte_in]. rewrite byte_in_of_nat by lia. by rewrite (proj2 (Nat.leb_le _ 127)) by lia.
  - apply is_rune_2; Z.to_euclidean_division_equations; lia.
  - done.
  - apply utf8_rune, is_rune_3; Z.to_euclidean_division_equations; lia.
  - apply utf8_rune, is_rune_4; Z.to_euclidean_division_equations; lia.
Qed.

Lemma hex_val_range c n : hex_val c = Some n → (0 ≤ n < 16)%Z.
Proof.
  intros H. assert (match hex_val c with Some n => ((0 <=? n) && (n <? 16))%Z | None => true end = true) as Hc.
  { clear H. by destruct c as [[] [] [] [] [] [] [] []]. }
  rewrite H in Hc. lia.
Qed.
Lemma hex4_range s n : hex4 s = Some n → (0 ≤ n < 65536)%Z.
Proof.
  destruct s as [|a [|b [|c [|d s]]]]; cbn [hex4]; try done.
  destruct (hex_val a) eqn:Ha, (hex_val b) eqn:Hb, (hex_val c) eqn:Hc, (hex_val d) eqn:Hd; cbn; try done.
  apply hex_val_range in Ha, Hb, Hc, Hd. intros [= <-]. lia.
Qed.
Lemma low_surrogate_range s m : low_surrogate s = Some m → (56320 ≤ m ≤ 57343)%Z.
Proof.
  destruct s as [|b [|u s]]; cbn [low_surrogate]; try done. repeat (destruct (decide _); try done).
  destruct (hex4 s) as [n|]; cbn; [|done]. case_match; [|done]. intros [= <-]. lia.
Qed.

Lemma char_step_utf8 c s out k : char_step c s = Some (out, k) → valid_utf8 out.
Proof.
  unfold char_step. destruct (byte_in 0 31 c); [done|]. destruct (decide _) as [_|_].
  - destruct s as [|e s]; [done|].
    destruct (one_of _ e) eqn:He.
    { intros [= <- <-]. apply utf8_ascii. by destruct e as [[] [] [] [] [] [] [] []]. }
    repeat (destruct (decide _) as [_|_]; [try (intros [= <- <-]; by apply utf8_ascii)|]); [|done].
    destruct (hex4 s) as [n|] eqn:Hn; [|done]. cbn [mbind option_bind]. apply hex4_range in Hn.
    destruct (_ && _) eqn:Hs; [|intros [= <- <-]; apply encode_rune_utf8; lia].
    destruct (low_surrogate _) as [m|] eqn:Hm; [|intros [= <- <-]; apply utf8_replacement].
    apply low_surrogate_range in Hm. intros [= <- <-]. apply encode_rune_utf8. lia.
  - destruct (rune_len (String c s)) as [|n] eqn:Hl; intros [= <- <-]; [apply utf8_replacement|].
    apply utf8_rune. change (String c (take_str n s)) with (take_str (S n) (String c s)). rewrite <- Hl. split.
    + by rewrite Hl.
    + by rewrite rune_len_take, take_length by apply rune_len_le.
Qed.

Lemma string_body_utf8 k s t r : string_body k s = Some (t, r) → valid_utf8 t.
Proof.
  revert k t r; induction s as [|c s IH]; intros k t r; [by destruct k|]. destruct k as [|k]; [|apply IH].
  cbn [string_body]. destruct (decide _); [intros [= <- <-]; constructor|].
  destruct (char_step c s) as [[out k]|] eqn:Hc; [|done]. destruct (string_body k s) as [[t' r']|] eqn:Hs; [|done].
  intros [= <- <-]. apply utf8_app; [by eapply char_step_utf8|by eapply IH].
Qed.

(** Every text a value holds, its member names included, is valid UTF-8. *)
Inductive utf8_json : json → Prop :=
| utf8_null : utf8_json JNull
| utf8_bool b : utf8_json (JBool b)
| utf8_num m e : utf8_json (JNum m e)
| utf8_str s : valid_utf8 s → utf8_json (JStr s)
| utf8_arr l : Forall utf8_json l → utf8_json (JArr l)
| utf8_obj l : Forall (λ kv, valid_utf8 kv.1 ∧ utf8_json kv.2) l → utf8_json (JObj l).

Lemma literal_utf8 s j r : literal s = Some (j, r) → utf8_json j.
Proof.
  unfold literal. repeat (destruct (has_prefix _ _); [intros [= <- <-]; constructor|]). unfold number. case_match. intros H'.
  repeat match type of H' with (?o ≫= _) = _ => destruct o as [[]|]; cbn in H'; [|done] end.
  destruct (parse_digits _ _ _); [|done]. injection H' as <- <-. constructor.
Qed.

Lemma value_utf8 n : ∀ d s,
  (∀ j r, value n d s = Some (j, r) → utf8_json j) ∧
  (∀ l r, elems n d s = Some (l, r) → Forall utf8_json l) ∧
  (∀ l r, members n d s = Some (l, r) → Forall (λ kv, valid_utf8 kv.1 ∧ utf8_json kv.2) l).
Proof.
  induction n as [|n IH]; intros d s; [done|]. split_and!; intros x r; cbn [value elems members].
  - destruct (expect "[" _) as [s1|].
    { destruct (_ <=? _)%Z; [done|]. destruct (expect "]" _); [intros [= <- <-]; by constructor|].
      destruct (elems n (S d) s1) as [[l r']|] eqn:Hl; [|done]. intros [= <- <-]. constructor. by eapply IH. }
    destruct (expect "{" _) as [s1|].
    { destruct (_ <=? _)%Z; [done|]. destruct (expect "}" _); [intros [= <- <-]; by constructor|].
      destruct (members n (S d) s1) as [[l r']|] eqn:Hl; [|done]. intros [= <- <-]. constructor. by eapply IH. }
    destruct (expect _ _) as [s1|]; [|apply literal_utf8].
    destruct (string_body 0 s1) as [[t r']|] eqn:Ht; [|done]. intros [= <- <-]. constructor. by eapply string_body_utf8.
  - destruct (value n d s) as [[j r']|] eqn:Hj; [|done]. apply IH in Hj. cbn [mbind option_bind].
    destruct (expect "," _) as [s1|].
    + destruct (elems n d s1) as [[l r'']|] eqn:Hl; [|done]. intros [= <- <-]. constructor; [done|by eapply IH].
    + destruct (expect "]" _); [|done]. intros [= <- <-]. by repeat constructor.
  - destruct (expect _ _) as [s1|]; [|done]. cbn [mbind option_bind].
    destruct (string_body 0 s1) as [[k s2]|] eqn:Hk; [|done]. apply string_body_utf8 in Hk.
    cbn [mbind option_bind]. destruct (expect ":" _) as [s3|]; [|done]. cbn [mbind option_bind].
    destruct (value n d s3) as [[j r']|] eqn:Hj; [|done]. apply IH in Hj. cbn [mbind option_bind].
    destruct (expect "," _) as [s4|].
    + destruct (members n d s4) as [[l r'']|] eqn:Hl; [|done]. intros [= <- <-]. constructor; [done|by eapply IH].
    + destruct (expect "}" _); [|done]. intros [= <- <-]. by repeat constructor.
Qed.

Lemma Decode_utf8 s j : Decode s = Some j → utf8_json j.
Proof.
  unfold Decode. destruct (value _ _ s) as [[j' r]|] eqn:Hv; [|done]. intros [= <-]. by eapply value_utf8.
Qed.

(** ** Numbers round trip *)

(** What may follow a number for it to end there. *)
Definition terminated (s : string) : bool :=
  match s with "" => true | String c _ => negb (is_digit c) && negb (one_of ".eE" c) end.

Lemma span_digits_app d s : all_digits d = true → match s with String c _ => is_digit c = false | "" => True end →
  span_digits (d +:+ s) = (d, s).
Proof.
  intros Hd Hs. induction d as [|c d IH].
  - change ("" +:+ s) with s. destruct s as [|c s]; [done|]. cbn. by rewrite Hs.
  - cbn in Hd. apply andb_prop in Hd as [Hc Hd]. change (String c d +:+ s) with (String c (d +:+ s)). cbn [span_digits].
    by rewrite Hc, IH.
Qed.

Lemma terminated_digit s : terminated s = true → match s with String c _ => is_digit c = false | "" => True end.
Proof. destruct s as [|c s]; [done|]. cbn. by destruct (is_digit c). Qed.
Lemma terminated_exp s : terminated s = true → exp_part s = Some (0%Z, s).
Proof.
  destruct s as [|c s]; [done|]. cbn [terminated exp_part]. rewrite !andb_true_iff, !negb_true_iff. intros [_ Hc].
  assert (one_of "eE" c = false) as ->; [|done]. by destruct c as [[] [] [] [] [] [] [] []].
Qed.
Lemma terminated_frac s : terminated s = true → frac_part s = Some ("", s).
Proof.
  destruct s as [|c s]; [done|]. cbn [terminated]. rewrite !andb_true_iff, !negb_true_iff. intros [_ Hc].
  by destruct c as [[] [] [] [] [] [] [] []].
Qed.

(** The digits before the point of a literal. *)
Definition int_digits (i : string) : Prop :=
  all_digits i = true ∧ i ≠ "" ∧ (∀ i', i = String "0" i' → i' = "").
(** An exponent, or nothing, before the end of a literal. *)
Definition exponent (x rest : string) (ex : Z) : Prop :=
  exp_part (x +:+ rest) = Some (ex, rest) ∧
  match x +:+ rest with String c _ => is_digit c = false ∧ c ≠ "."%char | "" => True end.

Lemma int_part_app i s : int_digits i → match s with String c _ => is_digit c = false | "" => True end →
  int_part (i +:+ s) = Some (i, s).
Proof.
  intros (Hd & Hne & Hz) Hs. pose proof (span_digits_app i s Hd Hs) as Hspan. destruct i as [|c i]; [done|].
  change (String c i +:+ s) with (String c (i +:+ s)) in *. cbn [int_part].
  destruct (decide (c = "0"%char)) as [->|Hc]; [by rewrite (Hz i eq_refl)|]. by rewrite Hspan.
Qed.

Lemma number_read (neg : bool) i f x ex m rest : int_digits i → all_digits f = true → exponent x rest ex →
  parse_digits 10 0 (i +:+ f) = Some m →
  number ((if neg then "-" else "") +:+ i +:+ (if f =s "" then "" else "." +:+ f) +:+ x +:+ rest) =
    Some (JNum (if neg then - m else m) (ex - Z.of_nat (String.length f)), rest).
Proof.
  intros Hi Hf [Hx Hstop] Hm. unfold number.
  set (tail := (if f =s "" then "" else "." +:+ f) +:+ x +:+ rest).
  assert (match (if neg then "-" else "") +:+ i +:+ tail with String "-" t => (true, t) | _ => (false, (if neg then "-" else "") +:+ i +:+ tail) end
    = (neg, i +:+ tail)) as ->.
  { destruct neg; [done|]. change ("" +:+ i +:+ tail) with (i +:+ tail). destruct Hi as (Hd & Hne & _).
    destruct i as [|c i]; [done|]. cbn in Hd. apply andb_prop in Hd as [Hc _].
    change (String c i +:+ tail) with (String c (i +:+ tail)). by destruct c as [[] [] [] [] [] [] [] []]. }
  rewrite int_part_app; [|done|].
  2:{ unfold tail. case_bool_decide; [|done]. destruct (x +:+ rest); [done|apply Hstop]. }
  cbn [mbind option_bind].
  assert (frac_part tail = Some (f, x +:+ rest)) as ->.
  { unfold tail. case_bool_decide as He.
    - subst f. change ("" +:+ x +:+ rest) with (x +:+ rest). destruct (x +:+ rest) as [|c t]; [done|].
      destruct Hstop as [_ Hc]. by destruct c as [[] [] [] [] [] [] [] []].
    - rewrite str_app_assoc. change ("." +:+ ?t) with (String "." t). unfold frac_part. rewrite span_digits_app; [|done|].
      + by destruct f.
      + destruct (x +:+ rest); [done|apply Hstop]. }
  cbn [mbind option_bind]. rewrite Hx. cbn [mbind option_bind]. rewrite Hm. done.
Qed.

Lemma no_exponent rest : terminated rest = true → exponent "" rest 0.
Proof.
  intros Hr. split; [by apply terminated_exp|]. change ("" +:+ rest) with rest. destruct rest as [|c t]; [done|].
  cbn in Hr. rewrite andb_true_iff, !negb_true_iff in Hr. destruct Hr as [Hd Hc]. split; [done|]. by intros ->.
Qed.

(** The first digit of a number above zero is not zero. *)
Lemma fmt_digits_head fuel n acc : (0 < n < 10 ^ Z.of_nat fuel)%Z →
  ∃ c t, fmt_digits fuel 10 n acc = String c t ∧ c ≠ "0"%char.
Proof.
  revert n acc. induction fuel as [|fuel IH]; intros n acc Hn; [cbn in Hn; lia|]. cbn [fmt_digits].
  destruct (Z.ltb_spec n 10).
  - do 2 eexists. split; [done|]. rewrite Z.mod_small by lia. intros H0. apply (f_equal digit_val) in H0.
    rewrite digit_char_val in H0 by lia. cbn in H0. injection H0 as ->. lia.
  - apply IH. split; [apply Z.div_str_pos; lia|]. apply Z.div_lt_upper_bound; [lia|].
    rewrite <- Z.pow_succ_r, <- Nat2Z.inj_succ by lia. lia.
Qed.
Lemma itoa_int_digits z : (0 ≤ z)%Z → int_digits (itoa z).
Proof.
  intros Hz. destruct (itoa_all_digits z Hz) as [Hd Hne]. split_and!; [done..|]. intros i' Hi.
  destruct (decide (z = 0)%Z) as [->|Hn]; [by injection Hi|].
  exfalso. unfold itoa, format_int in Hi. destruct (Z.ltb_spec z 0); [lia|]. unfold format_uint in Hi.
  pose proof (log2_fuel 10 z ltac:(lia) ltac:(lia)).
  destruct (fmt_digits_head (S (Z.to_nat (Z.log2 z))) z "") as (c & t & Heq & Hc); [lia|]. rewrite Heq in Hi. congruence.
Qed.
Lemma itoa_digits z : (0 ≤ z)%Z → parse_digits 10 0 (itoa z) = Some z.
Proof. intros Hz. unfold itoa, format_int. destruct (Z.ltb_spec z 0); [lia|]. apply parse_format_uint; lia. Qed.
Lemma itoa_sign m : itoa m = (if (m <? 0)%Z then "-" else "") +:+ itoa (Z.abs m).
Proof.
  unfold itoa, format_int. destruct (Z.ltb_spec m 0), (Z.ltb_spec (Z.abs m) 0); try lia.
  - by replace (- m)%Z with (Z.abs m) by lia.
  - by replace (Z.abs m) with m by lia.
Qed.

Lemma substring_split k s : k ≤ String.length s →
  String.substring 0 k s +:+ String.substring k (String.length s - k) s = s.
Proof.
  revert k. induction s as [|c s IH]; intros k Hk; [cbn in Hk; by replace k with 0 by lia|].
  destruct k as [|k].
  - clear. change (String.substring 0 (String.length (String c s)) (String c s) = String c s).
    generalize (String c s). intros t. induction t as [|d t IH]; [done|]. cbn. by f_equal.
  - change (String c (String.substring 0 k s +:+ String.substring k (String.length s - k) s) = String c s).
    f_equal. apply IH. cbn in Hk. lia.
Qed.
Lemma substring_length k s : k ≤ String.length s → String.length (String.substring 0 k s) = k.
Proof. revert k. induction s as [|c s IH]; intros [|k] Hk; cbn in *; try lia. rewrite IH; lia. Qed.
Lemma parse_digits_zeros_app n s : parse_digits 10 0 (Json.zeros n +:+ s) = parse_digits 10 0 s.
Proof. induction n as [|n IH]; [done|]. exact IH. Qed.
Lemma zeros_digits n : all_digits (Json.zeros n) = true.
Proof. induction n; [done|]. done. Qed.
Lemma zeros_length n : String.length (Json.zeros n) = n.
Proof. induction n as [|n IH]; [done|]. change (S (String.length (Json.zeros n)) = S n). lia. Qed.

(** The numbers that are written as themselves: a literal without point or exponent
    stands for its integer, and one above [1e21] keeps its exponent. *)
Definition num_ok (m e : Z) : bool :=
  (e <=? 0)%Z || (21 <? Z.of_nat (String.length (itoa (Z.abs m))) + e)%Z.

Lemma number_marshal m e rest : num_ok m e = true → terminated rest = true →
  number (marshal (JNum m e) +:+ rest) = Some (JNum m e, rest).
Proof.
  intros Hok Hr. cbn [marshal]. set (d := itoa (Z.abs m)). set (len := Z.of_nat (String.length d)).
  pose proof (itoa_int_digits (Z.abs m) ltac:(lia)) as (Hd & Hne & Hz). fold d in Hd, Hne, Hz.
  pose proof (itoa_digits (Z.abs m) ltac:(lia)) as Hp. fold d in Hp.
  assert (1 ≤ len)%Z as Hlen by (subst len; destruct d; [done|cbn; lia]).
  assert (∀ i f x ex, int_digits i → all_digits f = true → exponent x rest ex → parse_digits 10 0 (i +:+ f) = Some (Z.abs m) →
    (ex - Z.of_nat (String.length f) = e)%Z →
    number ((if (m <? 0)%Z then "-" else "") +:+ i +:+ (if f =s "" then "" else "." +:+ f) +:+ x +:+ rest) = Some (JNum m e, rest)) as Hread.
  { intros i f x ex Hi Hf Hx Hm He. rewrite (number_read (m <? 0)%Z i f x ex (Z.abs m)) by done. rewrite He.
    by replace (if (m <? 0)%Z then - Z.abs m else Z.abs m)%Z with m by (destruct (Z.ltb_spec m 0); lia). }
  destruct (Z.eqb_spec e 0) as [->|He0].
  { rewrite itoa_sign. fold d. rewrite !str_app_assoc. apply (Hread d "" "" 0%Z); try done; [by apply no_exponent|].
    by rewrite str_app_nil_r. }
  unfold number_text. fold d len. cbv zeta. unfold num_ok in Hok. fold d len in Hok.
  assert (∀ k, (0 < k ≤ len)%Z → let i := String.substring 0 (Z.to_nat k) d in
    let f := String.substring (Z.to_nat k) (String.length d - Z.to_nat k) d in
    i +:+ f = d ∧ all_digits i = true ∧ all_digits f = true ∧ String.length i = Z.to_nat k ∧
    Z.of_nat (String.length f) = (len - k)%Z) as Hsub.
  { intros k Hk i f. assert (i +:+ f = d) as Hif by (apply substring_split; lia).
    pose proof Hd as Hdd. rewrite <- Hif, all_digits_app in Hdd. apply andb_prop in Hdd as [Hi Hf].
    assert (String.length i = Z.to_nat k) as Hli by (apply substring_length; lia).
    split_and!; try done. pose proof (f_equal String.length Hif) as Hl. rewrite str_length_app in Hl. lia. }
  destruct ((-5 <=? len + e) && (len + e <=? 21))%Z eqn:Hplain.
  - destruct (Z.leb_spec (len + e) 0); [|destruct (Z.ltb_spec (len + e) len); [|lia]].
    + rewrite !str_app_assoc. change ("0." +:+ ?t) with ("0" +:+ "." +:+ t).
      set (f := Json.zeros (Z.to_nat (- (len + e))) +:+ d).
      assert (f ≠ "") as Hf.
      { intros Hf. apply (f_equal String.length) in Hf. subst f. rewrite str_length_app in Hf. cbn in Hf. lia. }
      pose proof (Hread "0" f "" 0%Z) as HR. rewrite bool_decide_eq_false_2, !str_app_assoc in HR by done.
      subst f. rewrite !str_app_assoc in HR. apply HR; [by split_and!; [..|intros ? [= <-]]| |by apply no_exponent| |].
      * by rewrite all_digits_app, zeros_digits, Hd.
      * change (parse_digits 10 0 ("0" +:+ ?t)) with (parse_digits 10 0 t). by rewrite parse_digits_zeros_app.
      * rewrite str_length_app, zeros_length. lia.
    + destruct (Hsub (len + e)%Z) as (Hif & Hi & Hf & Hli & Hlf); [lia|]. cbv zeta in *.
      set (i := String.substring 0 (Z.to_nat (len + e)) d) in *.
      set (f := String.substring (Z.to_nat (len + e)) (String.length d - Z.to_nat (len + e)) d) in *.
      pose proof (Hread i f "" 0%Z) as HR.
      assert (f ≠ "") as Hfn by (intros Hfe; rewrite Hfe in Hlf; cbn in Hlf; lia).
      rewrite bool_decide_eq_false_2, !str_app_assoc in HR by done. rewrite !str_app_assoc.
      apply HR; [|done|by apply no_exponent|by rewrite Hif|lia].
      split_and!; [done|intros Hie; rewrite Hie in Hli; cbn in Hli; lia|]. intros i' Hi0.
      rewrite Hi0 in Hif. change (String "0" i' +:+ f) with (String "0" (i' +:+ f)) in Hif. symmetry in Hif. apply Hz in Hif.
      by destruct i'.
  - destruct (Hsub 1%Z) as (Hif & Hi & Hf & Hli & Hlf); [lia|]. cbv zeta in *. change (Z.to_nat 1) with 1 in *.
    set (i := String.substring 0 1 d) in *. set (f := String.substring 1 (String.length d - 1) d) in *.
    set (x := "e" +:+ (if (len + e <? 1)%Z then "-" else "+") +:+ itoa (Z.abs (len + e - 1))).
    assert ((if (len =? 1)%Z then "" else "." +:+ f) = (if f =s "" then "" else "." +:+ f)) as ->.
    { destruct (Z.eqb_spec len 1) as [H1|H1]; [rewrite bool_decide_eq_true_2; [done|]|rewrite bool_decide_eq_false_2; [done|]].
      - destruct f; [done|]. cbn in Hlf. lia.
      - intros Hfe. rewrite Hfe in Hlf. cbn in Hlf. lia. }
    pose proof (Hread i f x (len + e - 1)%Z) as HR. subst x. rewrite !str_app_assoc in *. apply HR; [|done| |by rewrite Hif|lia].
    + split_and!; [done|intros Hie; by rewrite Hie in Hli|]. intros i' Hi0. rewrite Hi0 in Hli. cbn in Hli. destruct i'; [done|cbn in Hli; lia].
    + split; [|done]. rewrite !str_app_assoc. set (z := Z.abs (len + e - 1)).
      destruct (itoa_all_digits z ltac:(lia)) as [Hzd Hzn].
      assert (span_digits (itoa z +:+ rest) = (itoa z, rest)) as Hspan by (by apply span_digits_app, terminated_digit).
      pose proof (itoa_digits z ltac:(lia)) as Hzp.
      destruct (Z.ltb_spec (len + e) 1).
      * change (exp_part ("e" +:+ "-" +:+ itoa z +:+ rest)) with
          (match span_digits (itoa z +:+ rest) with ("", _) => None | (d, r) => n ← parse_digits 10 0 d; Some ((- n)%Z, r) end).
        rewrite Hspan. destruct (itoa z) eqn:Ez; [done|]. rewrite Hzp. cbn. do 2 f_equal. subst z. lia.
      * change (exp_part ("e" +:+ "+" +:+ itoa z +:+ rest)) with
          (match span_digits (itoa z +:+ rest) with ("", _) => None | (d, r) => n ← parse_digits 10 0 d; Some (n, r) end).
        rewrite Hspan. destruct (itoa z) eqn:Ez; [done|]. rewrite Hzp. cbn. do 2 f_equal. subst z. lia.
Qed.

(** ** Values round trip *)

(** Values whose numbers are written as themselves. *)
Inductive readable : json → Prop :=
| readable_null : readable JNull
| readable_bool b : readable (JBool b)
| readable_num m e : num_ok m e = true → readable (JNum m e)
| readable_str s : readable (JStr s)
| readable_arr l : Forall readable l → readable (JArr l)
| readable_obj l : Forall (λ kv, readable kv.2) l → readable (JObj l).

(** The fuel a value needs. *)
Fixpoint weight (j : json) : nat :=
  match j with
  | JArr l => S (sum_list ((λ x, S (weight x)) <$> l))
  | JObj l => S (sum_list ((λ kv, S (weight kv.2)) <$> l))
  | _ => 1
  end.

Definition blank (s : string) : Prop := every_byte (one_of (bytes [32; 9; 10; 13])) s = true.
Lemma skip_blank w s : blank w → skip_ws (w +:+ s) = skip_ws s.
Proof.
  unfold blank. induction w as [|c w IH]; [done|]. cbn [every_byte]. intros [Hc Hw]%andb_prop.
  rewrite str_app_cons. cbn [skip_ws]. rewrite Hc. auto.
Qed.
Lemma blank_app s t : blank s → blank t → blank (s +:+ t).
Proof.
  unfold blank. intros Hs Ht. induction s as [|c s IH]; [done|]. rewrite str_app_cons. cbn [every_byte] in *.
  apply andb_prop in Hs as [-> Hs]. auto.
Qed.
Lemma value_blank n d w s : blank w → value n d (w +:+ s) = value n d s.
Proof. intros Hw. destruct n as [|n]; [done|]. cbn [value]. by rewrite skip_blank. Qed.
Lemma terminated_blank w s : blank w → terminated s = true → terminated (w +:+ s) = true.
Proof.
  destruct w as [|c w]; [done|]. unfold blank. cbn [every_byte]. intros [Hc _]%andb_prop _.
  rewrite str_app_cons. cbn [terminated]. by destruct c as [[] [] [] [] [] [] [] []].
Qed.

Lemma string_text_read s rest : string_body 0 (json_escape s +:+ quote_byte +:+ rest) = Some (to_utf8 s, rest).
Proof. apply string_literal. Qed.

(** What a number's text starts with. *)
Definition number_byte (c : ascii) : bool := is_digit c || bool_decide (c = "-"%char).
Lemma itoa_head z : ∃ c t, itoa z = String c t ∧ number_byte c = true.
Proof.
  rewrite itoa_sign. destruct (z <? 0)%Z; [by do 2 eexists|]. destruct (itoa_all_digits (Z.abs z) ltac:(lia)) as [Hd Hne].
  destruct (itoa (Z.abs z)) as [|c t]; [done|]. exists c, t. split; [done|]. cbn in Hd. unfold number_byte.
  by apply andb_prop in Hd as [-> _].
Qed.
Lemma number_head m e : ∃ c t, marshal (JNum m e) = String c t ∧ number_byte c = true.
Proof.
  cbn [marshal]. destruct (e =? 0)%Z; [apply itoa_head|]. unfold number_text.
  destruct (m <? 0)%Z; [by do 2 eexists|]. change ("" +:+ ?x) with x.
  destruct (itoa_all_digits (Z.abs m) ltac:(lia)) as [Hd Hne]. destruct (itoa (Z.abs m)) as [|c t]; [done|].
  cbn in Hd. apply andb_prop in Hd as [Hc _]. assert (number_byte c = true) as Hb by (unfold number_byte; by rewrite Hc).
  destruct (_ && _)%Z.
  - destruct (Z.leb_spec (Z.of_nat (String.length (String c t)) + e) 0); [by do 2 eexists|].
    destruct (_ <? _)%Z; [|by do 2 eexists].
    destruct (Z.to_nat (Z.of_nat (String.length (String c t)) + e)) as [|k] eqn:Ek; [lia|]. by do 2 eexists.
  - by do 2 eexists.
Qed.

Lemma value_literal n d s j r : skip_ws s = s → expect "[" s = None → expect "{" s = None →
  expect (ascii_of_nat 34) s = None → literal s = Some (j, r) → value (S n) d s = Some (j, r).
Proof. intros Hs H1 H2 H3 H4. cbn [value]. by rewrite Hs, H1, H2, H3. Qed.
Lemma literal_null s : literal ("null" +:+ s) = Some (JNull, s).
Proof. unfold literal. by rewrite has_prefix_app. Qed.
Lemma literal_true s : literal ("true" +:+ s) = Some (JBool true, s).
Proof. unfold literal. by rewrite (has_prefix_app "true"). Qed.
Lemma literal_false s : literal ("false" +:+ s) = Some (JBool false, s).
Proof. unfold literal. by rewrite (has_prefix_app "false"). Qed.
Lemma value_number n d m e rest : num_ok m e = true → terminated rest = true →
  value (S n) d (marshal (JNum m e) +:+ rest) = Some (JNum m e, rest).
Proof.
  intros Hok Hr. pose proof (number_marshal m e rest Hok Hr) as Hn.
  destruct (number_head m e) as (c & t & He & Hc). rewrite He in *. rewrite str_app_cons in *.
  assert (literal (String c (t +:+ rest)) = number (String c (t +:+ rest))) as Hl.
  { unfold literal. by destruct c as [[] [] [] [] [] [] [] []]. }
  apply value_literal; [..|by rewrite Hl]; by destruct c as [[] [] [] [] [] [] [] []].
Qed.
Lemma value_string n d s : value (S n) d (quote_byte +:+ s) = '(t, r) ← string_body 0 s; Some (JStr t, r).
Proof. done. Qed.
Lemma value_array n d s : value (S n) d ("[" +:+ s) =
  if (maxNestingDepth <=? Z.of_nat d)%Z then None else
  match expect "]" (skip_ws s) with
  | Some r => Some (JArr [], r)
  | None => '(l, r) ← elems n (S d) s; Some (JArr l, r)
  end.
Proof. done. Qed.
Lemma value_object n d s : value (S n) d ("{" +:+ s) =
  if (maxNestingDepth <=? Z.of_nat d)%Z then None else
  match expect "}" (skip_ws s) with
  | Some r => Some (JObj [], r)
  | None => '(l, r) ← members n (S d) s; Some (JObj l, r)
  end.
Proof. done. Qed.

Lemma join_cons sep x y l : join sep (x :: y :: l) = x +:+ sep +:+ join sep (y :: l).
Proof. done. Qed.
Lemma join_head sep x l : ∃ t, join sep (x :: l) = x +:+ t.
Proof. destruct l; [exists ""; by rewrite str_app_nil_r|by eexists]. Qed.
Lemma expect_quote s : expect (ascii_of_nat 34) (skip_ws (quote_byte +:+ s)) = Some s.
Proof. done. Qed.
Lemma expect_colon s : expect ":" (skip_ws (":" +:+ s)) = Some s.
Proof. done. Qed.
Lemma expect_comma s : expect "," (skip_ws ("," +:+ s)) = Some s.
Proof. done. Qed.

(** Texts laid out with [w] before each element, [sp] after a colon and [tail] before
    the bracket that closes them. *)
Section containers.
Set Default Proof Using "Type*".
Context (w sp tail : string) (Hw : blank w) (Hsp : blank sp) (Htail : blank tail) (d : nat).
Variable text : json → string.

Definition array_text (l : list json) : string := "[" +:+ join "," ((λ x, w +:+ text x) <$> l) +:+ tail +:+ "]".
Definition member_text (kv : string * json) : string := w +:+ string_text kv.1 +:+ ":" +:+ sp +:+ text kv.2.
Definition object_text (l : list (string * json)) : string := "{" +:+ join "," (member_text <$> l) +:+ tail +:+ "}".

(** The text of [x] at the depth of the elements is read as [x]. *)
Definition reads (x : json) : Prop :=
  (∀ n rest, terminated rest = true → weight x ≤ n → value n (S d) (text x +:+ rest) = Some (json_utf8 x, rest)) ∧
  ∀ s, expect "]" (skip_ws (text x +:+ s)) = None.

Lemma elems_read l n rest : l ≠ [] → Forall reads l → sum_list ((λ x, S (weight x)) <$> l) ≤ n →
  elems n (S d) (join "," ((λ x, w +:+ text x) <$> l) +:+ tail +:+ "]" +:+ rest) = Some (json_utf8 <$> l, rest).
Proof.
  intros Hne Hl. revert n. induction Hl as [|x l [Hx _] Hl IH]; [done|]. intros n Hn. cbn [fmap list_fmap sum_list_with] in *.
  unfold id in Hn. destruct n as [|n]; [lia|]. cbn [elems]. destruct l as [|y l].
  - cbn [join fmap list_fmap]. rewrite !str_app_assoc, value_blank by done.
    rewrite Hx; [|by apply terminated_blank|lia]. cbn [mbind option_bind]. by rewrite skip_blank by done.
  - cbn [fmap list_fmap]. rewrite join_cons, !str_app_assoc, value_blank by done.
    rewrite Hx; [|done|lia]. cbn [mbind option_bind].
    rewrite expect_comma. change ((w +:+ text y) :: ?t) with ((λ x, w +:+ text x) <$> (y :: l)).
    by rewrite (IH ltac:(done)) by (unfold id in *; cbn [fmap list_fmap sum_list_with] in *; unfold id in *; lia).
Qed.

Lemma member_read kv n s : reads kv.2 → terminated s = true → weight kv.2 ≤ n →
  members (S n) (S d) (member_text kv +:+ s) =
  match expect "," (skip_ws s) with
  | Some r => '(l, r) ← members n (S d) r; Some ((to_utf8 kv.1, json_utf8 kv.2) :: l, r)
  | None => r ← expect "}" (skip_ws s); Some ([(to_utf8 kv.1, json_utf8 kv.2)], r)
  end.
Proof.
  intros [Hx _] Hs Hn. cbn [members]. unfold member_text, string_text. rewrite !str_app_assoc, skip_blank by done.
  rewrite expect_quote. cbn [mbind option_bind]. rewrite string_text_read. cbn [mbind option_bind].
  rewrite expect_colon. cbn [mbind option_bind]. by rewrite value_blank, Hx.
Qed.

Definition member_utf8 (kv : string * json) : string * json := (to_utf8 kv.1, json_utf8 kv.2).
Lemma members_read l n rest : l ≠ [] → Forall (λ kv, reads kv.2) l → sum_list ((λ kv, S (weight kv.2)) <$> l) ≤ n →
  members n (S d) (join "," (member_text <$> l) +:+ tail +:+ "}" +:+ rest) = Some (member_utf8 <$> l, rest).
Proof.
  intros Hne Hl. revert n. induction Hl as [|kv l Hkv Hl IH]; [done|]. intros n Hn.
  cbn [fmap list_fmap sum_list_with] in *. unfold id in Hn. destruct n as [|n]; [lia|]. destruct l as [|y l].
  - cbn [join fmap list_fmap]. rewrite member_read; [|done|by apply terminated_blank|lia]. by rewrite skip_blank by done.
  - cbn [fmap list_fmap]. rewrite join_cons, !str_app_assoc, member_read; [|done|done|lia].
    rewrite expect_comma. change (member_text y :: ?t) with (member_text <$> (y :: l)).
    by rewrite (IH ltac:(done)) by (cbn [fmap list_fmap sum_list_with] in *; unfold id in *; lia).
Qed.

Context (Hd : (Z.of_nat d < maxNestingDepth)%Z).

Lemma array_read l n rest : l ≠ [] → Forall reads l → weight (JArr l) ≤ S n →
  value (S n) d (array_text l +:+ rest) = Some (json_utf8 (JArr l), rest).
Proof.
  intros Hne Hl Hn. unfold array_text. rewrite !str_app_assoc, value_array, (proj2 (Z.leb_gt _ _)) by lia.
  assert (expect "]" (skip_ws (join "," ((λ x, w +:+ text x) <$> l) +:+ tail +:+ "]" +:+ rest)) = None) as ->.
  { destruct l as [|x l]; [done|]. apply Forall_inv in Hl as [_ Hx]. cbn [fmap list_fmap]. edestruct join_head as [t ->].
    rewrite !str_app_assoc, skip_blank by done. apply Hx. }
  rewrite elems_read; [done|done|done|cbn [weight] in Hn; lia].
Qed.
Lemma object_read l n rest : l ≠ [] → Forall (λ kv, reads kv.2) l → weight (JObj l) ≤ S n →
  value (S n) d (object_text l +:+ rest) = Some (json_utf8 (JObj l), rest).
Proof.
  intros Hne Hl Hn. unfold object_text. rewrite !str_app_assoc, value_object, (proj2 (Z.leb_gt _ _)) by lia.
  assert (expect "}" (skip_ws (join "," (member_text <$> l) +:+ tail +:+ "}" +:+ rest)) = None) as ->.
  { destruct l as [|x l]; [done|]. cbn [fmap list_fmap]. edestruct join_head as [t ->].
    unfold member_text, string_text. by rewrite !str_app_assoc, skip_blank by done. }
  rewrite members_read; [done|done|done|cbn [weight] in Hn; lia].
Qed.
End containers.

(** The two layouts: on one line ([json.Marshal]), or over lines with a prefix. *)
Section layouts.
Implicit Type p : option string.

Definition laid p : json → string := match p with None => marshal | Some pad => indented pad end.
Definition before p : string := match p with None => "" | Some pad => nl +:+ pad +:+ "  " end.
Definition colon_gap p : string := match p with None => "" | Some _ => " " end.
Definition closing p : string := match p with None => "" | Some pad => nl +:+ pad end.
Definition deeper p : option string := (λ pad, pad +:+ "  ") <$> p.
Definition blank_layout p : Prop := match p with None => True | Some pad => blank pad end.

Lemma deeper_blank p : blank_layout p → blank_layout (deeper p).
Proof. destruct p; [|done]. intros. by apply blank_app. Qed.
Lemma before_blank p : blank_layout p → blank (before p).
Proof. destruct p; [|done]. intros. by apply (blank_app nl), (deeper_blank (Some _)). Qed.
Lemma closing_blank p : blank_layout p → blank (closing p).
Proof. destruct p; [|done]. intros. by apply (blank_app nl). Qed.
Lemma gap_blank p : blank (colon_gap p).
Proof. by destruct p. Qed.

Lemma laid_arr p x l : laid p (JArr (x :: l)) = array_text (before p) (closing p) (laid (deeper p)) (x :: l).
Proof. by destruct p. Qed.
Lemma laid_obj p kv l : laid p (JObj (kv :: l)) =
  object_text (before p) (colon_gap p) (closing p) (laid (deeper p)) (kv :: l).
Proof.
  destruct p; [done|]. cbn [laid marshal]. unfold object_text. do 3 f_equal. apply list_fmap_ext. intros i x _.
  unfold member_text, string_text. by rewrite !str_app_assoc.
Qed.

(** What a value's text starts with does not close an array. *)
Lemma laid_opens p j s : expect "]" (skip_ws (laid p j +:+ s)) = None.
Proof.
  destruct j as [|[]|m e|t|[|x l]|[|kv l]]; destruct p; try done.
  all: change (laid _ (JNum m e)) with (marshal (JNum m e)); destruct (number_head m e) as (c & t & -> & Hc);
    by destruct c as [[] [] [] [] [] [] [] []].
Qed.

Lemma weight_elem x l : x ∈ l → weight x < weight (JArr l).
Proof.
  cbn [weight]. induction 1 as [|x y l _ IH]; cbn [fmap list_fmap sum_list_with]; unfold id in *; lia.
Qed.
Lemma weight_member kv l : kv ∈ l → weight kv.2 < weight (JObj l).
Proof.
  cbn [weight]. induction 1 as [|x y l _ IH]; cbn [fmap list_fmap sum_list_with]; unfold id in *; lia.
Qed.
Lemma depth_member kv l : kv ∈ l → json_depth kv.2 < json_depth (JObj l).
Proof.
  cbn [json_depth]. induction 1 as [|x y l _ IH]; cbn [foldr]; lia.
Qed.

Lemma laid_read j : readable j → ∀ n d p rest, blank_layout p → terminated rest = true → weight j ≤ n →
  (Z.of_nat (d + json_depth j) ≤ maxNestingDepth)%Z → value n d (laid p j +:+ rest) = Some (json_utf8 j, rest).
Proof.
  remember (weight j) as m eqn:Hm. revert j Hm.
  induction m as [m IH] using lt_wf_ind. intros j -> Hj n d p rest Hp Hr Hn Hd.
  destruct n as [|n]; [destruct j; cbn in Hn; lia|]. pose proof (deeper_blank p Hp) as Hp'.
  destruct Hj as [|b|a e Ha|s|l Hl|l Hl].
  - destruct p; by apply value_literal, literal_null.
  - destruct b, p; (by apply value_literal, literal_true) || by apply value_literal, literal_false.
  - destruct p; by apply value_number.
  - assert (laid p (JStr s) = quote_byte +:+ json_escape s +:+ quote_byte) as -> by by destruct p.
    rewrite !str_app_assoc, value_string. by rewrite string_text_read.
  - assert ((Z.of_nat d < maxNestingDepth)%Z) as Hd' by (cbn [json_depth] in Hd; lia).
    destruct l as [|x l].
    { assert (laid p (JArr []) = "[" +:+ "]") as -> by by destruct p. by rewrite str_app_assoc, value_array, (proj2 (Z.leb_gt _ _)). }
    rewrite laid_arr. apply array_read; [by apply before_blank|by apply closing_blank|done|done| |done].
    apply Forall_forall. intros y Hy. split; [|intros; apply laid_opens]. intros n' rest' Hr' Hn'.
    pose proof (weight_elem _ _ Hy). pose proof (elem_depth _ _ Hy).
    rewrite Forall_forall in Hl. apply (IH (weight y)); auto; lia.
  - assert ((Z.of_nat d < maxNestingDepth)%Z) as Hd' by (cbn [json_depth] in Hd; lia).
    destruct l as [|x l].
    { assert (laid p (JObj []) = "{" +:+ "}") as -> by by destruct p. by rewrite str_app_assoc, value_object, (proj2 (Z.leb_gt _ _)). }
    rewrite laid_obj. apply object_read; [by apply before_blank|by apply gap_blank|by apply closing_blank|done|done| |done].
    apply Forall_forall. intros y Hy. split; [|intros; apply laid_opens]. intros n' rest' Hr' Hn'.
    pose proof (weight_member _ _ Hy). pose proof (depth_member _ _ Hy).
    rewrite Forall_forall in Hl. apply (IH (weight y.2)); auto; lia.
Qed.

(** One unit of fuel for a byte is enough. *)
Lemma join_weight {A} (w : A → nat) (f : A → string) l : (∀ x, x ∈ l → w x ≤ String.length (f x)) →
  sum_list ((λ x, S (w x)) <$> l) ≤ S (String.length (join "," (f <$> l))).
Proof.
  induction l as [|x [|y l] IH]; intros Hl; [cbn; lia|..].
  - cbn. unfold id. specialize (Hl x ltac:(set_solver)). lia.
  - cbn [fmap list_fmap]. rewrite join_cons, !str_length_app. cbn [sum_list_with String.length]. unfold id at 1.
    specialize (IH ltac:(set_solver)). cbn [fmap list_fmap sum_list_with] in IH. specialize (Hl x ltac:(set_solver)).
    cbn [sum_list_with]. unfold id in *. lia.
Qed.
Lemma laid_nonempty p j : 1 ≤ String.length (laid p j).
Proof. pose proof (laid_opens p j "]") as Ho. by destruct (laid p j); [|cbn; lia]. Qed.
Lemma weight_length j p : weight j ≤ String.length (laid p j).
Proof.
  remember (weight j) as m eqn:Hm. revert j Hm p. induction m as [m IH] using lt_wf_ind. intros j -> p.
  destruct j as [|b|a e|s|[|x l]|[|kv l]]; try apply laid_nonempty.
  - rewrite laid_arr. unfold array_text. rewrite !str_length_app. cbn [weight].
    assert (∀ y, y ∈ x :: l → weight y ≤ String.length (before p +:+ laid (deeper p) y)) as Hw.
    { intros y Hy. pose proof (weight_elem _ _ Hy). rewrite !str_length_app.
      specialize (IH (weight y) ltac:(done) y eq_refl (deeper p)). lia. }
    apply join_weight in Hw. cbn [String.length]. lia.
  - rewrite laid_obj. unfold object_text. rewrite !str_length_app. cbn [weight].
    assert (∀ y, y ∈ kv :: l → weight y.2 ≤ String.length (member_text (before p) (colon_gap p) (laid (deeper p)) y)) as Hw.
    { intros y Hy. pose proof (weight_member _ _ Hy). unfold member_text. rewrite !str_length_app.
      specialize (IH (weight y.2) ltac:(done) y.2 eq_refl (deeper p)). lia. }
    apply (join_weight (λ y, weight y.2)) in Hw. cbn [String.length]. lia.
Qed.

Lemma value_laid j p w : readable j → (Z.of_nat (json_depth j) ≤ maxNestingDepth)%Z → blank_layout p → blank w →
  Unmarshal (laid p j +:+ w) = Some (json_utf8 j).
Proof.
  intros Hj Hd Hp Hw. unfold Unmarshal. rewrite laid_read; [|done|done| | |done].
  - rewrite <- (str_app_nil_r w), skip_blank by done. done.
  - rewrite <- (str_app_nil_r w). by apply terminated_blank.
  - rewrite str_length_app. pose proof (weight_length j p). lia.
Qed.
End layouts.

(** What [json.MarshalIndent] and [json.Marshal] write is read back as the value with its
    texts in UTF-8, also when blanks follow. *)
Lemma Unmarshal_MarshalIndent j w : readable j → (Z.of_nat (json_depth j) ≤ maxNestingDepth)%Z → blank w →
  Unmarshal (MarshalIndent j +:+ w) = Some (json_utf8 j).
Proof. intros Hj Hd Hw. by apply (value_laid j (Some "")). Qed.
Lemma Unmarshal_marshal j : readable j → (Z.of_nat (json_depth j) ≤ maxNestingDepth)%Z →
  Unmarshal (marshal j) = Some (json_utf8 j).
Proof. intros Hj Hd. rewrite <- (str_app_nil_r (marshal j)). by apply (value_laid j None). Qed.

(** Values that JSON text keeps as they are: the numbers are in their written form and
    the texts are valid UTF-8. *)
Inductive textual : json → Prop :=
| textual_null : textual JNull
| textual_bool b : textual (JBool b)
| textual_num m e : num_ok m e = true → textual (JNum m e)
| textual_str s : valid_utf8 s → textual (JStr s)
| textual_arr l : Forall textual l → textual (JArr l)
| textual_obj l : Forall (λ kv, valid_utf8 kv.1 ∧ textual kv.2) l → textual (JObj l).

Definition textual_field (kv : string * json) : Prop := valid_utf8 kv.1 ∧ textual kv.2.
Lemma textual_omit_str name v : valid_utf8 name → valid_utf8 v → Forall textual_field (omit_str name v).
Proof. intros. unfold omit_str. case_bool_decide; repeat constructor; done. Qed.
Lemma utf8_decided s : bool_decide (valid_utf8 s) = true → valid_utf8 s.
Proof. apply bool_decide_eq_true. Qed.
Ltac utf8_name := apply utf8_decided; vm_compute; reflexivity.

Lemma textual_cons k v l : valid_utf8 k → textual v → Forall textual_field l → Forall textual_field ((k, v) :: l).
Proof. intros. by constructor. Qed.

Lemma textual_readable j : textual j → readable j ∧ json_utf8 j = j.
Proof.
  remember (json_depth j) as m eqn:Hm. revert j Hm. induction m as [m IH] using lt_wf_ind. intros j -> Hj.
  destruct Hj as [|b|a e Ha|s Hs|l Hl|l Hl]; cbn [json_utf8]; try (split; [by constructor|]); try done.
  - by rewrite to_utf8_id.
  - rewrite Forall_forall in Hl. assert (∀ x, x ∈ l → readable x ∧ json_utf8 x = x) as Hx.
    { intros x Hin. apply (IH (json_depth x)); [by apply elem_depth|done|auto]. }
    split; [constructor; rewrite Forall_forall; intros; by apply Hx|]. f_equal.
    rewrite <- (list_fmap_id l) at 2. apply list_fmap_ext. intros i x Hi. apply Hx. by eapply list_elem_of_lookup_2.
  - rewrite Forall_forall in Hl. assert (∀ x, x ∈ l → readable x.2 ∧ json_utf8 x.2 = x.2) as Hx.
    { intros x Hin. apply (IH (json_depth x.2)); [by apply depth_member|done|by apply Hl]. }
    split; [constructor; rewrite Forall_forall; intros; by apply Hx|]. f_equal.
    rewrite <- (list_fmap_id l) at 2. apply list_fmap_ext. intros i [k x] Hi.
    apply list_elem_of_lookup_2 in Hi as Hin. destruct (Hl _ Hin) as [Hk _]. destruct (Hx _ Hin) as [_ Hv].
    cbn in *. by rewrite to_utf8_id, Hv.
Qed.
Lemma textual_kept j : textual j → json_utf8 j = j.
Proof. by intros [_ ?]%textual_readable. Qed.
Lemma textual_indented j w : textual j → (Z.of_nat (json_depth j) ≤ maxNestingDepth)%Z → blank w →
  Unmarshal (MarshalIndent j +:+ w) = Some j.
Proof. intros [Hj He]%textual_readable Hd Hw. rewrite Unmarshal_MarshalIndent by done. by rewrite He. Qed.
Lemma num_ok_int z : num_ok z 0 = true.
Proof. done. Qed.

(** ** The raw members of a marshalled object *)

Lemma value_compact x n d rest : readable x → terminated rest = true → String.length (marshal x) ≤ n →
  (Z.of_nat (d + json_depth x) ≤ maxNestingDepth)%Z → value n d (marshal x +:+ rest) = Some (json_utf8 x, rest).
Proof. intros Hx Hr Hn Hd. apply (laid_read x Hx n d None rest); [done..| |done]. pose proof (weight_length x None). cbn [laid] in *. lia. Qed.

Lemma marshal_head x s : skip_ws (marshal x +:+ s) = marshal x +:+ s.
Proof.
  destruct x as [|[]|m e|t|l|l]; try done. destruct (number_head m e) as (c & t & -> & Hc).
  by destruct c as [[] [] [] [] [] [] [] []].
Qed.

Definition raw_member (kv : string * json) : string * string := (to_utf8 kv.1, marshal kv.2).
Lemma raw_members_read l n tl : l ≠ [] → Forall (λ kv, readable kv.2 ∧ (Z.of_nat (1 + json_depth kv.2) ≤ maxNestingDepth)%Z) l →
  length l ≤ n → raw_members n (join "," (member_text "" "" marshal <$> l) +:+ "}" +:+ tl) = raw_member <$> l.
Proof.
  intros Hne Hl. revert n. induction Hl as [|kv l [Hkv Hd] Hl IH]; [done|]. intros n Hn. destruct n as [|n]; [cbn in Hn; lia|].
  assert (∀ rest, terminated rest = true → raw_members (S n) (member_text "" "" marshal kv +:+ rest) =
    raw_member kv :: match expect "," (skip_ws rest) with Some r => raw_members n r | None => [] end) as Hstep.
  { intros rest Hr. cbn [raw_members]. unfold member_text, string_text. rewrite !str_app_assoc.
    change ("" +:+ ?x) with x. rewrite expect_quote. cbn [mbind option_bind]. rewrite string_text_read. cbn [mbind option_bind].
    rewrite expect_colon. cbn [mbind option_bind]. change ("" +:+ ?x) with x. rewrite value_compact; [|done..|rewrite str_length_app; lia|done].
    cbn [mbind option_bind]. rewrite marshal_head, str_length_app. rewrite Nat.add_sub, take_app. done. }
  destruct l as [|y l].
  - cbn [join fmap list_fmap]. by rewrite Hstep by done.
  - cbn [fmap list_fmap]. rewrite join_cons, !str_app_assoc, Hstep by done. rewrite expect_comma.
    change (member_text "" "" marshal y :: ?t) with (member_text "" "" marshal <$> (y :: l)).
    rewrite IH; [done|done|cbn [length] in *; lia].
Qed.

Lemma members_length l : length l ≤ S (String.length (join "," (member_text "" "" marshal <$> l))).
Proof.
  induction l as [|x [|y l] IH]; [cbn; lia..|]. cbn [fmap list_fmap]. rewrite join_cons, !str_length_app.
  cbn [fmap list_fmap length String.length] in *. lia.
Qed.
Lemma marshal_open s : expect "{" (skip_ws ("{" +:+ s)) = Some s.
Proof. done. Qed.
(** The flattening of a marshalled object: every member under its name, with the text of
    its value. *)
Lemma UnmarshalRaw_marshal l : readable (JObj l) → (Z.of_nat (json_depth (JObj l)) ≤ maxNestingDepth)%Z →
  UnmarshalRaw (marshal (JObj l)) = Some (raw_member <$> l).
Proof.
  intros Hl Hd. unfold UnmarshalRaw. rewrite Unmarshal_marshal by done. cbn [json_utf8].
  destruct l as [|kv l]; [done|]. change (marshal (JObj (kv :: l))) with (laid None (JObj (kv :: l))).
  rewrite laid_obj. unfold object_text. rewrite marshal_open. cbn [mbind option_bind]. f_equal.
  change (closing None +:+ "}") with ("}" +:+ ""). apply raw_members_read; [done| |].
  - apply Forall_forall. intros y Hy. inversion Hl as [| | | | |? Hf]; subst. rewrite Forall_forall in Hf. split; [by apply Hf|].
    pose proof (depth_member _ _ Hy). lia.
  - pose proof (members_length (kv :: l)). rewrite !str_length_app. cbn [String.length before colon_gap deeper laid fmap option_fmap option_map] in *. lia.
Qed.
