(* ===== verification/Strconv.v ===== *)
(** Two packages of Go's standard library. [strconv.ParseFloat(s, 64)]: decimal and
    hexadecimal literals with digit separators, infinities and NaN, rounded to the
    nearest float. Package flag: a command line parsed into the variables that a
    program has declared. *)

From S2P Require Import Prelude Json.
From Stdlib Require Import ZArith Lia Ascii Floats.SpecFloat.
From stdpp Require Import options.
Local Open Scope Z_scope.

Fixpoint lower_ascii (s : string) : string :=
  match s with "" => "" | String c s' => String (lower_byte c) (lower_ascii s') end.

(** [special]: the whole text, whatever the case of its letters. *)
Definition special (s : string) : option spec_float :=
  let t := lower_ascii s in
  if bool_decide (t ∈ ["inf"; "+inf"; "infinity"; "+infinity"]) then Some (S754_infinity false)
  else if bool_decide (t ∈ ["-inf"; "-infinity"]) then Some (S754_infinity true)
  else if t =s "nan" then Some S754_nan else None.

(** The mantissa: the digits read so far as an integer, how many follow the dot,
    whether there was a dot, a digit, a separator; and the rest of the text. *)
Record mantissa := { mt_value : Z; mt_frac : Z; mt_dot : bool; mt_digits : bool; mt_sep : bool }.
Fixpoint read_mantissa (base : Z) (m : mantissa) (s : string) : mantissa * string :=
  match s with
  | "" => (m, s)
  | String c s' =>
      if decide (c = "_"%char) then
        read_mantissa base {| mt_value := mt_value m; mt_frac := mt_frac m; mt_dot := mt_dot m;
                              mt_digits := mt_digits m; mt_sep := true |} s'
      else if decide (c = "."%char) then
        if mt_dot m then (m, s)
        else read_mantissa base {| mt_value := mt_value m; mt_frac := mt_frac m; mt_dot := true;
                                   mt_digits := mt_digits m; mt_sep := mt_sep m |} s'
      else match digit_val c with
           | Some d =>
               if d <? base then
                 read_mantissa base {| mt_value := mt_value m * base + d;
                                       mt_frac := if mt_dot m then mt_frac m + 1 else mt_frac m;
                                       mt_dot := mt_dot m; mt_digits := true; mt_sep := mt_sep m |} s'
               else (m, s)
           | None => (m, s)
           end
  end.

(** The digits of the exponent; its value stops growing at ten thousand. *)
Fixpoint read_exponent (e : Z) (sep : bool) (s : string) : option (Z * bool) :=
  match s with
  | "" => Some (e, sep)
  | String c s' =>
      if decide (c = "_"%char) then read_exponent e true s'
      else match digit_val c with
           | Some d => if d <? 10 then read_exponent (if e <? 10000 then e * 10 + d else e) sep s' else None
           | None => None
           end
  end.

Definition sign_of (s : string) : bool * string :=
  match s with String "+" s' => (false, s') | String "-" s' => (true, s') | _ => (false, s) end.

(** [underscoreOK]: separators stand between digits, or after a base prefix. *)
Fixpoint underscore_scan (hex : bool) (saw : ascii) (s : string) : bool :=
  match s with
  | "" => negb (bool_decide (saw = "_"%char))
  | String c s' =>
      let digit := is_digit c || (hex && match digit_val c with Some d => d <? 16 | None => false end) in
      if digit then underscore_scan hex "0" s'
      else if decide (c = "_"%char) then bool_decide (saw = "0"%char) && underscore_scan hex "_" s'
      else negb (bool_decide (saw = "_"%char)) && underscore_scan hex "!" s'
  end.
Definition underscoreOK (s : string) : bool :=
  let s := (sign_of s).2 in
  match s with
  | String "0" (String x s') =>
      if one_of "box" (lower_byte x) then underscore_scan (bool_decide (lower_byte x = "x"%char)) "0" s'
      else underscore_scan false "^" s
  | _ => underscore_scan false "^" s
  end.

(** The exponent that follows a mantissa: absent (only a decimal may do without),
    or a letter, a sign and at least one digit. *)
Definition exponent_part (hex : bool) (s : string) : option (Z * bool) :=
  match s with
  | "" => if hex then None else Some (0, false)
  | String c s' =>
      if bool_decide (lower_byte c = if hex then "p"%char else "e"%char) then
        let '(neg, ds) := sign_of s' in
        if starts_digit ds then
          match read_exponent 0 false ds with
          | Some (e, sep) => Some (if neg : bool then - e else e, sep)
          | None => None
          end
        else None
      else None
  end.

Definition signed_float (neg : bool) (f : Z → spec_float) (m : Z) : spec_float :=
  if m =? 0 then S754_zero neg else f (if neg then - m else m).

(** A value that rounds to an infinity is a range error. *)
Definition in_range (f : spec_float) : option spec_float := if is_float_finite f then Some f else None.

Definition ParseFloat (s : string) : option spec_float :=
  match special s with
  | Some f => Some f
  | None =>
      let '(neg, t) := sign_of s in
      let '(hex, t) := match t with
                       | String "0" (String x (String _ _ as t')) =>
                           if bool_decide (lower_byte x = "x"%char) then (true, t') else (false, t)
                       | _ => (false, t)
                       end in
      let base := if hex : bool then 16 else 10 in
      let '(m, rest) := read_mantissa base {| mt_value := 0; mt_frac := 0; mt_dot := false; mt_digits := false; mt_sep := false |} t in
      if negb (mt_digits m) then None else
      match exponent_part hex rest with
      | None => None
      | Some (e, sep) =>
          if (mt_sep m || sep) && negb (underscoreOK s) then None
          else if hex then
            in_range (signed_float neg (λ v, binary_normalize SFprec SFemax v (e - 4 * mt_frac m) neg) (mt_value m))
          else in_range (signed_float neg (λ v, float64_of v (e - mt_frac m)) (mt_value m))
      end
  end.

Example parse_floats :
  (ParseFloat "1.5", ParseFloat "-0", ParseFloat "1_000.5e-1", ParseFloat "0x1.8p+1", ParseFloat "+Inf") =
  (Some (float64_of 15 (-1)), Some (S754_zero true), Some (float64_of 10005 (-2)), Some (float64_of 3 0),
   Some (S754_infinity false)).
Proof. vm_compute. reflexivity. Qed.
Example parse_float_errors :
  ParseFloat <$> [""; "."; "1e"; "1__0"; "_1"; "0x1"; "1e400"; "+nan"; "1.2.3"; "infin"; "0x_p1"; "1e+_1"] = replicate 12 None.
Proof. vm_compute. reflexivity. Qed.

(** * Package flag *)

#[local] Open Scope nat_scope.

(** ** Flags and their values *)

Inductive value := VString (s : string) | VBool (b : bool).

(** The declared flags with their current values. *)
Definition flags : Type := list (string * value).

Fixpoint Lookup (name : string) (fs : flags) : option value :=
  match fs with
  | [] => None
  | (n, v) :: fs => if n =s name then Some v else Lookup name fs
  end.
Fixpoint Set_value (name : string) (v : value) (fs : flags) : flags :=
  match fs with
  | [] => []
  | (n, old) :: fs => if n =s name then (n, v) :: fs else (n, old) :: Set_value name v fs
  end.

Definition string_flag (name : string) (fs : flags) : string :=
  match Lookup name fs with Some (VString s) => s | _ => "" end.
Definition bool_flag (name : string) (fs : flags) : bool :=
  match Lookup name fs with Some (VBool b) => b | _ => false end.

(** [strconv.ParseBool]. *)
Definition ParseBool (s : string) : option bool :=
  if bool_decide (s ∈ ["1"; "t"; "T"; "true"; "TRUE"; "True"]) then Some true
  else if bool_decide (s ∈ ["0"; "f"; "F"; "false"; "FALSE"; "False"]) then Some false
  else None.

(** ** Parsing *)

(** What [FlagSet.Parse] can refuse; [Help] is [flag.ErrHelp]. *)
Inductive parse_error :=
| Help
| BadSyntax (arg : string)
| NotDefined (name : string)
| InvalidBool (text name : string)
| NeedsArgument (name : string).

(** One argument: the first that is not a flag ends them, and so does a lone [--]. *)
Inductive argument := Positional | Terminator | Malformed | Named (name : string) (text : option string).

Definition named (s : string) : argument :=
  match s with
  | "" => Malformed
  | String c _ =>
      if bool_decide (c = "-"%char) || bool_decide (c = "="%char) then Malformed
      else match cut_byte "=" s with
           | Some (name, text) => Named name (Some text)
           | None => Named s None
           end
  end.
Definition argument_of (s : string) : argument :=
  if (String.length s <? 2) || negb (has_prefix s "-") then Positional
  else if s =s "--" then Terminator
  else if has_prefix s "--" then named (drop_str 2 s)
  else named (drop_str 1 s).

(** [FlagSet.Parse]: the flags with their values and the arguments after them. *)
Fixpoint Parse (fs : flags) (args : list string) : parse_error + flags * list string :=
  match args with
  | [] => inr (fs, [])
  | s :: rest =>
      match argument_of s with
      | Positional => inr (fs, s :: rest)
      | Terminator => inr (fs, rest)
      | Malformed => inl (BadSyntax s)
      | Named name text =>
          match Lookup name fs, text with
          | None, _ => inl (if (name =s "help") || (name =s "h") then Help else NotDefined name)
          | Some (VBool _), Some t =>
              match ParseBool t with
              | None => inl (InvalidBool t name)
              | Some b => Parse (Set_value name (VBool b) fs) rest
              end
          | Some (VBool _), None => Parse (Set_value name (VBool true) fs) rest
          | Some (VString _), Some t => Parse (Set_value name (VString t) fs) rest
          | Some (VString _), None =>
              match rest with
              | [] => inl (NeedsArgument name)
              | t :: rest => Parse (Set_value name (VString t) fs) rest
              end
          end
      end
  end.

Example Parse_forms :
  let fs := [("config", VString "pvelab.yaml"); ("force", VBool false)] in
  Parse fs ["-config"; "a.yaml"; "--force"; "x"; "-force=0"] =
    inr ([("config", VString "a.yaml"); ("force", VBool true)], ["x"; "-force=0"]) ∧
  Parse fs ["--config=a=b"; "-force=F"; "--"; "-h"] = inr ([("config", VString "a=b"); ("force", VBool false)], ["-h"]) ∧
  Parse fs ["-config"; "-force"] = inr ([("config", VString "-force"); ("force", VBool false)], []) ∧
  Parse fs ["-h"] = inl Help ∧ Parse fs ["-config"] = inl (NeedsArgument "config") ∧
  Parse fs ["-force=yes"] = inl (InvalidBool "yes" "force") ∧ Parse fs ["-=x"] = inl (BadSyntax "-=x") ∧
  Parse fs ["-"; "-h"] = inr (fs, ["-"; "-h"]).
Proof. vm_compute. done. Qed.

(** ** Every setting can be written *)

Definition value_text (v : value) : string := match v with VString s => s | VBool b => if b then "true" else "false" end.
Definition flag_text (s : string * value) : string := "-" +:+ s.1 +:+ "=" +:+ value_text s.2.
Definition same_kind (v w : value) : bool :=
  match v, w with VString _, VString _ | VBool _, VBool _ => true | _, _ => false end.
Definition good_name (s : string) : bool :=
  (s <>s "") && no_byte "=" s && negb (has_prefix s "-").
Definition set_all (l : flags) (fs : flags) : flags := foldl (λ fs s, Set_value s.1 s.2 fs) fs l.

Lemma one_dash c t : c ≠ "-"%char → has_prefix (String "-" (String c t)) "--" = false.
Proof.
  intros Hc. destruct (has_prefix _ _) eqn:E; [|done]. apply String.prefix_correct in E. cbn in E.
  congruence.
Qed.

Lemma argument_of_flag_text name v : good_name name = true →
  argument_of (flag_text (name, v)) = Named name (Some (value_text v)).
Proof.
  unfold good_name. rewrite !andb_true_iff, negb_true_iff. intros [[Hne Hno] Hd].
  destruct name as [|c name]; [done|]. cbn in Hno. rewrite andb_true_iff in Hno. destruct Hno as [Hc Hno].
  assert (c ≠ "-"%char) as Hdash. { intros ->. by destruct name. }
  assert (c ≠ "="%char) as Heq. { intros ->. done. }
  assert (named (String c name +:+ String "=" (value_text v)) = Named (String c name) (Some (value_text v))) as Hnamed.
  { assert (cut_byte "=" (String c name +:+ String "=" (value_text v)) = Some (String c name, value_text v)) as Hcut.
    { apply cut_byte_app. cbn. by rewrite Hc, Hno. }
    unfold named. rewrite Hcut.
    change (String c name +:+ String "=" (value_text v)) with (String c (name +:+ String "=" (value_text v))).
    cbv beta iota. by repeat (rewrite bool_decide_false by done). }
  rewrite <- Hnamed. unfold flag_text. cbn [fst snd].
  set (t := name +:+ "=" +:+ value_text v).
  change ("-" +:+ String c name +:+ "=" +:+ value_text v) with (String "-" (String c t)).
  change (String c name +:+ String "=" (value_text v)) with (String c t). unfold argument_of.
  change (String.length (String "-" (String c t)) <? 2) with false.
  change (has_prefix (String "-" (String c t)) "-") with true.
  cbv beta iota delta [orb negb]. rewrite bool_decide_false by congruence.
  by rewrite one_dash.
Qed.

Lemma Parse_one name v old fs rest : good_name name = true → Lookup name fs = Some old → same_kind v old = true →
  Parse fs (flag_text (name, v) :: rest) = Parse (Set_value name v fs) rest.
Proof.
  intros Hn Hl Hk. cbn [Parse]. rewrite argument_of_flag_text by done. rewrite Hl.
  destruct v as [s|b], old as [?|?]; try done. by destruct b.
Qed.

Lemma Lookup_Set_value name v n fs :
  Lookup n (Set_value name v fs) = if name =s n then (λ _, v) <$> Lookup n fs else Lookup n fs.
Proof.
  induction fs as [|[m w] fs IH]; cbn; [by case_bool_decide|].
  repeat (case_bool_decide; subst; cbn; try done); rewrite ?IH; by repeat case_bool_decide.
Qed.

(** A setting that the program has declared, with its kind. *)
Definition declared (fs : flags) (s : string * value) : Prop :=
  good_name s.1 = true ∧ ∃ old, Lookup s.1 fs = Some old ∧ same_kind s.2 old = true.

Lemma declared_Set_value fs s t : declared fs s → declared fs t → declared (Set_value s.1 s.2 fs) t.
Proof.
  intros (_ & o1 & Hl1 & Hk1) (Hn & o2 & Hl2 & Hk2). split; [done|]. rewrite Lookup_Set_value. case_bool_decide as He.
  - exists s.2. rewrite Hl2. split; [done|]. rewrite He, Hl2 in Hl1. simplify_eq. by destruct s.2, t.2, o1.
  - by exists o2.
Qed.

(** Any list of settings written as arguments is parsed as those settings, the last
    of a name counting, and the arguments after them are left alone. *)
Theorem Parse_flag_text fs l rest : Forall (declared fs) l →
  Parse fs ((flag_text <$> l) ++ rest) = Parse (set_all l fs) rest.
Proof.
  revert fs. induction l as [|[name v] l IH]; intros fs Hl; [done|].
  inversion Hl as [|? ? Hd Hl']; subst. destruct Hd as (Hn & old & Hlk & Hk).
  change ((flag_text <$> (name, v) :: l) ++ rest) with (flag_text (name, v) :: ((flag_text <$> l) ++ rest)).
  rewrite (Parse_one name v old) by done. apply IH.
  eapply Forall_impl; [exact Hl'|]. intros t Ht.
  apply (declared_Set_value fs (name, v)); [|done]. split; [done|]. by exists old.
Qed.

(** For a string flag the value may also be the next argument. *)
Lemma Parse_two name s t fs rest : good_name name = true → Lookup name fs = Some (VString s) →
  Parse fs (("-" +:+ name) :: t :: rest) = Parse (Set_value name (VString t) fs) rest.
Proof.
  intros Hn Hl. assert (argument_of ("-" +:+ name) = Named name None) as Ha.
  { revert Hn. unfold good_name. rewrite !andb_true_iff, negb_true_iff. intros [[Hne Hno] Hd].
    destruct name as [|c name]; [done|].
    assert (c ≠ "-"%char) as Hdash by (intros ->; by destruct name).
    pose proof (cut_byte_none "="%char _ Hno) as Hcut. cbn in Hno. rewrite andb_true_iff in Hno. destruct Hno as [Hc _].
    assert (c ≠ "="%char) as Heq by (intros ->; done).
    change ("-" +:+ String c name) with (String "-" (String c name)). unfold argument_of.
    change (String.length (String "-" (String c name)) <? 2) with false.
    change (has_prefix (String "-" (String c name)) "-") with true.
    cbv beta iota delta [orb negb]. rewrite bool_decide_false by congruence.
    rewrite one_dash by done.
    cbn [drop_str]. unfold named. rewrite Hcut. cbv beta iota. by repeat (rewrite bool_decide_false by done). }
  cbn [Parse]. by rewrite Ha, Hl.
Qed.
