(* ===== verification/Types.v ===== *)
(** The shared value types of [proxmox/types]: guest identifiers and the two
    tolerant JSON scalars, [PVEBool] and [PVEInt]. *)

From S2P Require Import Prelude Json.
From Stdlib Require Import ZArith Lia Floats.SpecFloat.
From stdpp Require Import options.

(* go: proxmox/types/types.go#VMID *)
Definition VMID : Type := Z.

(* go: proxmox/types/types.go#VMID.String *)
Definition VMID_String (v : VMID) : string := itoa v.

(* go: proxmox/types/types.go#GuestRef *)
Record GuestRef := { gr_Node : string; gr_VMID : VMID }.

(* go: proxmox/types/types.go#GuestRef.String *)
Definition GuestRef_String (g : GuestRef) : string := gr_Node g +:+ "/" +:+ VMID_String (gr_VMID g).

(* go: proxmox/types/types.go#PVEBool.UnmarshalJSON *)
Definition PVEBool_UnmarshalJSON (b : bool) (data : json) : option bool :=
  match data with
  | JNull => Some b
  | JBool v => Some v
  | JNum m e =>
      let f := float64_of m e in
      if is_float_finite f then Some (negb (is_float_zero f)) else None
  | JStr v =>
      if (v =s "1") || (v =s "true") || (v =s "yes") then Some true
      else if (v =s "0") || (v =s "false") || (v =s "no") || (v =s "") then Some false
      else None
  | _ => None
  end.

(* go: proxmox/types/types.go#PVEBool.MarshalJSON *)
Definition PVEBool_MarshalJSON (b : bool) : json := jint (if b then 1 else 0).

(* go: proxmox/types/types.go#PVEInt.UnmarshalJSON *)
Definition PVEInt_UnmarshalJSON (i : Z) (data : json) : option Z :=
  match data with
  | JNull => Some i
  | JNum m e =>
      let f := float64_of m e in
      if is_float_finite f then Some (trunc f) else None
  | JStr v => if v =s "" then Some 0%Z else atoi v
  | _ => None
  end.

(* go: proxmox/types/types.go#PVEInt.MarshalJSON *)
Definition PVEInt_MarshalJSON (i : Z) : json := jint i.

(** Field decoders for the two scalars, used by the read structs. *)
Definition pvebool_field (name : string) (l : list (string * json)) : option bool :=
  match field_raw name l with None => Some false | Some v => PVEBool_UnmarshalJSON false v end.
Definition pveint_field (name : string) (l : list (string * json)) : option Z :=
  match field_raw name l with None => Some 0%Z | Some v => PVEInt_UnmarshalJSON 0 v end.

(** ** Properties *)

(** C40. Every integer survives a configuration read in PVE's quoted form: the
    decimal text of any 64-bit integer decodes to that integer. The number form
    goes through a float64, so it is exact below 2^53 in absolute value, which is
    also where writing and reading back is the identity, and not above: 2^53 + 1
    decodes to 2^53. A null leaves the field as it was. *)
Theorem PVEInt_exact i old :
  (int64_ok i = true → PVEInt_UnmarshalJSON old (JStr (itoa i)) = Some i) ∧
  ((Z.abs i < 2 ^ 53)%Z → PVEInt_UnmarshalJSON old (PVEInt_MarshalJSON i) = Some i) ∧
  PVEInt_UnmarshalJSON old (PVEInt_MarshalJSON (2 ^ 53 + 1)) = Some (2 ^ 53)%Z ∧
  PVEInt_UnmarshalJSON old JNull = Some old.
Proof.
  split_and!.
  - intros Hi. cbn. rewrite bool_decide_eq_false_2; [by apply atoi_itoa|].
    intros He. apply (f_equal atoi) in He. by rewrite atoi_itoa in He.
  - intros Hi. cbn [PVEInt_UnmarshalJSON PVEInt_MarshalJSON jint].
    destruct (trunc_float64_of i Hi) as [Ht Hf]. by rewrite Hf, Ht.
  - vm_compute. reflexivity.
  - done.
Qed.

(** A flag is read as it was written, whatever it held before; the number forms
    agree with truth of the number for integers below 2^53; the quoted forms are
    exactly the six words PVE uses and the empty string, and any other text is an
    error rather than false. *)
Theorem PVEBool_forms old :
  (∀ b, PVEBool_UnmarshalJSON old (PVEBool_MarshalJSON b) = Some b) ∧
  (∀ n, (Z.abs n < 2 ^ 53)%Z → PVEBool_UnmarshalJSON old (jint n) = Some (negb (n =? 0)%Z)) ∧
  (∀ v, PVEBool_UnmarshalJSON old (JStr v) = Some true ↔ v ∈ ["1"; "true"; "yes"]) ∧
  (∀ v, PVEBool_UnmarshalJSON old (JStr v) = Some false ↔ v ∈ ["0"; "false"; "no"; ""]).
Proof.
  split_and!.
  - by intros [].
  - intros n Hn. destruct (trunc_float64_of n Hn) as [Ht Hf]. cbn [PVEBool_UnmarshalJSON jint]. rewrite Hf.
    f_equal. f_equal. destruct (Z.eqb_spec n 0) as [->|Hne]; [done|].
    destruct (float64_of n 0) eqn:E; done.
  - intros v. cbn. rewrite !elem_of_cons, elem_of_nil. repeat case_bool_decide; cbn; naive_solver.
  - intros v. cbn. rewrite !elem_of_cons, elem_of_nil. repeat case_bool_decide; cbn; subst; naive_solver.
Qed.
