(* ===== verification/Pverr.v ===== *)
(** The error taxonomy of [proxmox/pverr]: the sentinels, the structured
    [Error], Go's [errors.Is] over wrapped errors, and the classification of an
    HTTP outcome that the transport's retry and re-authentication decisions
    rest on. *)

From S2P Require Import Prelude.
From Stdlib Require Import ZArith Lia.
From stdpp Require Import options.

(* go: proxmox/pverr/error.go#L13-L38 *)
Inductive sentinel :=
| ErrNotFound | ErrConflict | ErrUnauthorized | ErrTicketExpired
| ErrForbidden | ErrTaskFailed | ErrUnsupported | ErrTransient.

#[export] Instance sentinel_eq_dec : EqDecision sentinel.
Proof. solve_decision. Defined.

Definition sentinel_msg (s : sentinel) : string :=
  match s with
  | ErrNotFound => "proxmox: not found"
  | ErrConflict => "proxmox: conflict"
  | ErrUnauthorized => "proxmox: unauthorized"
  | ErrTicketExpired => "proxmox: ticket expired"
  | ErrForbidden => "proxmox: forbidden"
  | ErrTaskFailed => "proxmox: task failed"
  | ErrUnsupported => "proxmox: unsupported on this PVE version"
  | ErrTransient => "proxmox: transient"
  end.

(* go: proxmox/pverr/error.go#Error *)
Record Error := {
  e_Op : string;
  e_Path : string;
  e_Status : Z;
  e_Message : string;
  e_Params : gmap string string;
  e_UPID : string;
  e_err : option sentinel
}.

(** The shared validation sentinels of [svcutil]. *)
(* go: proxmox/internal/svcutil/svcutil.go#L17-L26 *)
Inductive spec_err := ErrNilSpec | ErrMissingField | ErrInvalidValue.

#[export] Instance spec_err_eq_dec : EqDecision spec_err.
Proof. solve_decision. Defined.

(** The two errors of a finished [context.Context]. *)
Inductive ctx_error := Canceled | DeadlineExceeded.

(** A Go error value, as far as [errors.Is], [errors.As] and [Error()] see it:
    [GWrap msg e] is [fmt.Errorf] with a [%w] verb and the rendered text [msg];
    [GJoin e1 e2] is [errors.Join] of two errors. *)
Inductive goerr :=
| GPve (e : Error)
| GSentinel (s : sentinel)
| GSpec (s : spec_err)
| GCtx (c : ctx_error)
| GNet (msg : string)
| GNetClosed
| GText (msg : string)
| GWrap (msg : string) (e : goerr)
| GJoin (e1 e2 : goerr).

(** [errors.Is(err, target)] for a sentinel of the package. *)
Fixpoint errors_is (err : goerr) (target : sentinel) : bool :=
  match err with
  | GPve e => bool_decide (e_err e = Some target)
  | GSentinel s => bool_decide (s = target)
  | GWrap _ e => errors_is e target
  | GJoin e1 e2 => errors_is e1 target || errors_is e2 target
  | _ => false
  end.

Fixpoint errors_is_spec (err : goerr) (target : spec_err) : bool :=
  match err with
  | GSpec s => bool_decide (s = target)
  | GWrap _ e => errors_is_spec e target
  | GJoin e1 e2 => errors_is_spec e1 target || errors_is_spec e2 target
  | _ => false
  end.

(* go: proxmox/pverr/error.go#Error.Error *)
Definition Error_Error (e : Error) : string :=
  (if e_Op e <>s "" then e_Op e +:+ ": " else "") +:+
  (if negb (e_Status e =? 0)%Z then "HTTP " +:+ itoa (e_Status e) else "request failed") +:+
  (if e_Message e <>s "" then ": " +:+ e_Message e else "") +:+
  (if negb (bool_decide (e_Params e = ∅)) then
     let names := merge_sort String.le (keys (e_Params e)) in
     " [" +:+ join "; " ((λ name, name +:+ ": " +:+ trim_space (default "" (e_Params e !! name))) <$> names) +:+ "]"
   else "") +:+
  (if e_Path e <>s "" then " (" +:+ e_Path e +:+ ")" else "").

(** [err.Error()]. *)
Fixpoint error_text (err : goerr) : string :=
  match err with
  | GPve e => Error_Error e
  | GSentinel s => sentinel_msg s
  | GSpec ErrNilSpec => "nil spec"
  | GSpec ErrMissingField => "missing required field"
  | GSpec ErrInvalidValue => "invalid value"
  | GCtx Canceled => "context canceled"
  | GCtx DeadlineExceeded => "context deadline exceeded"
  | GNetClosed => "use of closed network connection"
  | GNet msg | GText msg | GWrap msg _ => msg
  | GJoin e1 e2 => error_text e1 +:+ String (Ascii.ascii_of_nat 10) (error_text e2)
  end.

(* go: proxmox/pverr/error.go#IsTransient *)
Definition IsTransient (err : goerr) : bool := errors_is err ErrTransient.
(* go: proxmox/pverr/error.go#IsNotFound *)
Definition IsNotFound (err : goerr) : bool := errors_is err ErrNotFound.

(* go: proxmox/pverr/error.go#NewTaskFailed *)
Definition NewTaskFailed (op upid exitStatus : string) : Error :=
  {| e_Op := op; e_Path := ""; e_Status := 0; e_Message := exitStatus;
     e_Params := ∅; e_UPID := upid; e_err := Some ErrTaskFailed |}.

(** [isNetworkError]: [errors.Is(err, net.ErrClosed)], or some error of the
    chain implements [net.Error]. In the standard library [context.Canceled] is
    a plain error and [context.DeadlineExceeded] implements [net.Error]. *)
(* go: proxmox/pverr/classify.go#isNetworkError *)
Fixpoint isNetworkError (err : goerr) : bool :=
  match err with
  | GNetClosed | GNet _ | GCtx DeadlineExceeded => true
  | GWrap _ e => isNetworkError e
  | GJoin e1 e2 => isNetworkError e1 || isNetworkError e2
  | _ => false
  end.

(* go: proxmox/pverr/classify.go#PVEBody *)
Record PVEBody := { b_Message : string; b_Errors : gmap string string }.

(** The test of the 401 branch. *)
Definition ticket_message (m : string) : bool :=
  let msg := to_lower m in contains msg "ticket expired" || contains msg "invalid ticket".

(* go: proxmox/pverr/classify.go#Classify *)
Definition Classify (status : Z) (path : string) (body : PVEBody) (cause : option goerr) : Error :=
  let mk m s := {| e_Op := ""; e_Path := path; e_Status := status; e_Message := m;
                   e_Params := b_Errors body; e_UPID := ""; e_err := s |} in
  let msg := b_Message body in
  if match cause with Some c => isNetworkError c | None => false end then
    mk (if msg =s "" then match cause with Some c => error_text c | None => "" end else msg)
       (Some ErrTransient)
  else if (status =? 404)%Z then mk msg (Some ErrNotFound)
  else if (status =? 409)%Z then mk msg (Some ErrConflict)
  else if (status =? 401)%Z then
    mk msg (Some (if ticket_message msg then ErrTicketExpired else ErrUnauthorized))
  else if (status =? 403)%Z then mk msg (Some ErrForbidden)
  else if (status =? 596)%Z then mk msg (Some ErrTransient)
  else if (500 <=? status)%Z then mk msg (Some ErrTransient)
  else mk msg None.

(* go: proxmox/pverr/classify.go#ClassifyNetError *)
Definition ClassifyNetError (path : string) (err : goerr) : Error :=
  {| e_Op := ""; e_Path := path; e_Status := 0; e_Message := error_text err;
     e_Params := ∅; e_UPID := ""; e_err := Some ErrTransient |}.

(** ** Properties *)

Definition net_cause (cause : option goerr) : bool :=
  match cause with Some c => isNetworkError c | None => false end.

Lemma Classify_err status path body cause :
  e_err (Classify status path body cause) =
    if net_cause cause then Some ErrTransient
    else if (status =? 404)%Z then Some ErrNotFound
    else if (status =? 409)%Z then Some ErrConflict
    else if (status =? 401)%Z then
      Some (if ticket_message (b_Message body) then ErrTicketExpired else ErrUnauthorized)
    else if (status =? 403)%Z then Some ErrForbidden
    else if (500 <=? status)%Z then Some ErrTransient
    else None.
Proof.
  unfold Classify, net_cause. repeat (case_match; simplify_eq/=; try done); lia.
Qed.

(** The classification the transport branches on. An HTTP outcome counts as
    transient, hence is retried and failed over, exactly when it has a network
    cause or a status of 500 or more; it triggers re-authentication exactly when
    it is a 401 whose message names an expired or invalid ticket; and the
    status, the path and the per-parameter errors survive in every case. *)
Theorem Classify_decides status path body cause :
  let e := Classify status path body cause in
  (errors_is (GPve e) ErrTransient = true ↔ net_cause cause = true ∨ (500 ≤ status)%Z) ∧
  (errors_is (GPve e) ErrTicketExpired = true ↔
     net_cause cause = false ∧ status = 401%Z ∧ ticket_message (b_Message body) = true) ∧
  e_Status e = status ∧ e_Path e = path ∧ e_Params e = b_Errors body.
Proof.
  intros e. subst e. cbn. rewrite Classify_err, !bool_decide_eq_true.
  split_and!.
  - repeat case_match; split; intros; destruct_or?; simplify_eq; try done; try (by left); try lia;
      right; lia.
  - repeat case_match; split; intros; destruct_and?; simplify_eq; try done; lia.
  - unfold Classify. by repeat case_match.
  - unfold Classify. by repeat case_match.
  - unfold Classify. by repeat case_match.
Qed.
