(* ===== verification/Api.v ===== *)
(** The low-level transport interface [api.Client] every service is written
    against: request bodies, the path expansion, and the class of clients. *)

From S2P Require Import Prelude Json Pverr.
From stdpp Require Import options.

(** A request body: a [url.Values], or a value that marshals to a JSON object. *)
Inductive body :=
| BValues (v : values)
| BStruct (fields : list (string * json))
| BOther (j : json).

(* go: proxmox/api/transport.go#L20-L23 *)
Definition apiPrefix : string := "/api2/json".

(* go: proxmox/api/transport.go#transport.ExpandPath *)
Definition ExpandPath (path : string) : string :=
  if has_prefix path apiPrefix then path
  else apiPrefix +:+ (if has_prefix path "/" then path else "/" +:+ path).

(* go: proxmox/api/transport.go#isWriteMethod *)
Definition isWriteMethod (method : string) : bool :=
  (method =s "POST") || (method =s "PUT") || (method =s "DELETE").

(** [Client W]: a client over a world [W] (the clock, the network, the context).
    [DoRequest method path body out] performs one call; [out] is the decoder of
    the data member, [None] for a nil [out], and the result is the decoded data,
    or [None] when nothing was decoded. *)
(* go: proxmox/api/client.go#Client *)
Class Client (W : Type) := {
  DoRequest : ∀ {A : Type}, string → string → option body → option (json → option A) →
    W → W * (goerr + option A)
}.

(** A stream read to its end: the bytes it yields, and the error that ends it, if
    it does not end with [io.EOF]. *)
Record reader := { rd_Data : string; rd_Err : option goerr }.

(** The interface's streaming methods. [DoUpload path body contentType out] posts a
    body that is read once. *)
Class Uploader (W : Type) := {
  DoUpload : ∀ {A : Type}, string → reader → string → option (json → option A) → W → W * (goerr + option A)
}.
(** [DoWebSocket path] opens a duplex stream; [None] is a nil stream with a nil
    error. *)
Class WebSocketClient (W Stream : Type) := {
  DoWebSocket : string → W → W * (goerr + option Stream)
}.

(** Go's [if err := c.DoRequest(..); err != nil { return .., f err }]. *)
Definition then_result {W A B} (r : W * (goerr + A)) (f : goerr → goerr) (k : A → W → W * (goerr + B)) :
    W * (goerr + B) :=
  match r with
  | (w, inl e) => (w, inl (f e))
  | (w, inr a) => k a w
  end.

Lemma ExpandPath_prefix path : has_prefix (ExpandPath path) apiPrefix = true.
Proof.
  unfold ExpandPath. case_match; [done|]. unfold has_prefix, apiPrefix.
  repeat (cbn [String.prefix]; rewrite str_app_cons; cbn [String.prefix]).
  by destruct (if String.prefix "/" path then _ else _).
Qed.
