(* ===== verification/Version.v ===== *)
(** [proxmox/version]: parsing a PVE release, the capability gates, and the
    construction-time check of the supported floor. *)

From S2P Require Import Prelude Json Pverr Api.
From Stdlib Require Import ZArith Lia Ascii.
From stdpp Require Import options.

(* go: proxmox/version/capabilities.go#L14-L17 *)
Definition MinimumMajor : Z := 9.
Definition MinimumMinor : Z := 0.
(* go: proxmox/version/capabilities.go#L21-L21 *)
Definition MinimumProxmoxVersion : string := "9.0".

(* go: proxmox/version/capabilities.go#Capabilities *)
Record Capabilities := { major : Z; minor : Z; patch : Z }.

(** The leading run of ASCII digits of a string. *)
Fixpoint digit_run (s : string) : string :=
  match s with
  | "" => ""
  | String c s' => if is_digit c then String c (digit_run s') else ""
  end.

(* go: proxmox/version/capabilities.go#leadingInt *)
Definition leadingInt (s : string) : option Z :=
  match digit_run s with "" => None | d => atoi d end.

(* go: proxmox/version/capabilities.go#Parse *)
Definition Parse (s : string) : option Capabilities :=
  let s := trim_space s in
  if s =s "" then None else
  let fields := splitn_byte 3 "." s in
  mj ← leadingInt (default "" (fields !! 0));
  mn ← match fields !! 1 with Some f => leadingInt f | None => Some 0%Z end;
  pt ← match fields !! 2 with Some f => leadingInt f | None => Some 0%Z end;
  Some {| major := mj; minor := mn; patch := pt |}.

(* go: proxmox/version/capabilities.go#Capabilities.AtLeast *)
Definition AtLeast (c : Capabilities) (mj mn : Z) : bool :=
  if negb (major c =? mj)%Z then (mj <? major c)%Z else (mn <=? minor c)%Z.

(* go: proxmox/version/capabilities.go#Capabilities.MeetsMinimum *)
Definition MeetsMinimum (c : Capabilities) : bool := AtLeast c MinimumMajor MinimumMinor.

(* go: proxmox/version/capabilities.go#Capabilities.OCITemplates *)
Definition OCITemplates (c : Capabilities) : bool := AtLeast c 9 1.
(* go: proxmox/version/capabilities.go#Capabilities.VolumeChainSnapshots *)
Definition VolumeChainSnapshots (c : Capabilities) : bool := AtLeast c 9 1.
(* go: proxmox/version/capabilities.go#Capabilities.TPMStateSnapshots *)
Definition TPMStateSnapshots (c : Capabilities) : bool := AtLeast c 9 1.
(* go: proxmox/version/capabilities.go#Capabilities.TokenSecretRotation *)
Definition TokenSecretRotation (c : Capabilities) : bool := AtLeast c 9 2.
(* go: proxmox/version/capabilities.go#Capabilities.ZFSRAIDZExpansion *)
Definition ZFSRAIDZExpansion (c : Capabilities) : bool := AtLeast c 9 2.
(* go: proxmox/version/capabilities.go#Capabilities.HAClusterSwitch *)
Definition HAClusterSwitch (c : Capabilities) : bool := AtLeast c 9 2.
(* go: proxmox/version/capabilities.go#Capabilities.SDNFabrics *)
Definition SDNFabrics (c : Capabilities) : bool := AtLeast c 9 0.
(* go: proxmox/version/capabilities.go#Capabilities.SDNAdvancedFabrics *)
Definition SDNAdvancedFabrics (c : Capabilities) : bool := AtLeast c 9 2.
(* go: proxmox/version/capabilities.go#Capabilities.OverlappingIPSets *)
Definition OverlappingIPSets (c : Capabilities) : bool := AtLeast c 9 1.
(* go: proxmox/version/capabilities.go#Capabilities.ClearTokenComment *)
Definition ClearTokenComment (c : Capabilities) : bool := AtLeast c 9 1.
(* go: proxmox/version/capabilities.go#Capabilities.OTelExporter *)
Definition OTelExporter (c : Capabilities) : bool := AtLeast c 9 1.

(* go: proxmox/version/capabilities.go#Capabilities.String *)
Definition Capabilities_String (c : Capabilities) : string :=
  itoa (major c) +:+ "." +:+ itoa (minor c) +:+ "." +:+ itoa (patch c).

(** The version of a failed [Parse], wrapped by the callers. *)
Definition parse_error (s : string) : goerr := GText ("version: parse " +:+ s).

(* go: proxmox/version/capabilities.go#Capabilities.Require *)
Definition Require (c : Capabilities) (feature minVersion : string) : option goerr :=
  match Parse minVersion with
  | None => Some (GWrap ("version: require " +:+ feature) (parse_error minVersion))
  | Some want =>
      if AtLeast c (major want) (minor want) then None
      else Some (GWrap (feature +:+ " requires PVE " +:+ minVersion +:+
                        " (have " +:+ Capabilities_String c +:+ ")") (GSentinel ErrUnsupported))
  end.

(* go: proxmox/version/service.go#ProxmoxVersion *)
Record ProxmoxVersion := { pv_Version : string; pv_Release : string; pv_RepoID : string; pv_Console : string }.

Definition ProxmoxVersion_zero : ProxmoxVersion :=
  {| pv_Version := ""; pv_Release := ""; pv_RepoID := ""; pv_Console := "" |}.

Definition decode_ProxmoxVersion : json → option ProxmoxVersion :=
  as_struct ProxmoxVersion_zero (λ l,
    v ← str_field "version" l; r ← str_field "release" l;
    i ← str_field "repoid" l; c ← str_field "console" l;
    Some {| pv_Version := v; pv_Release := r; pv_RepoID := i; pv_Console := c |}).

Section service.
Context {W : Type} `{!Client W}.

(* go: proxmox/version/service.go#Service.Get *)
Definition Get (w : W) : W * (goerr + ProxmoxVersion) :=
  then_result (DoRequest "GET" "/version" None (Some decode_ProxmoxVersion) w) id (λ v w,
    (w, inr (default ProxmoxVersion_zero v))).

(* go: proxmox/version/service.go#Service.Capabilities *)
Definition Service_Capabilities (w : W) : W * (goerr + Capabilities) :=
  then_result (Get w) id (λ v w,
    match Parse (pv_Version v) with
    | None => (w, inl (parse_error (pv_Version v)))
    | Some caps =>
        if negb (MeetsMinimum caps) then
          (w, inl (GWrap ("proxmox " +:+ Capabilities_String caps +:+
                          " is below the supported minimum " +:+ MinimumProxmoxVersion)
                         (GSentinel ErrUnsupported)))
        else (w, inr caps)
    end).
End service.

(** ** Properties *)

Lemma digit_run_all s : all_digits s = true → digit_run s = s.
Proof.
  induction s as [|c s IH]; [done|]. cbn [all_digits digit_run].
  intros [-> Hs]%andb_prop. by rewrite IH.
Qed.

Lemma leadingInt_itoa z : (0 ≤ z ≤ max_int64)%Z → leadingInt (itoa z) = Some z.
Proof.
  intros Hz. destruct (itoa_all_digits z ltac:(lia)) as [Hd Hne]. unfold leadingInt.
  rewrite digit_run_all by done. destruct (itoa z) as [|c s] eqn:E; [done|].
  rewrite <- E. apply atoi_itoa. unfold int64_ok, min_int64, max_int64 in *. lia.
Qed.

Lemma String_trimmed c :
  (0 ≤ major c)%Z → (0 ≤ patch c)%Z → trim_space (Capabilities_String c) = Capabilities_String c.
Proof.
  intros Hm Hp. destruct (itoa_all_digits _ Hm) as [Hd Hne], (itoa_all_digits _ Hp) as [Hpd Hpne].
  unfold Capabilities_String. apply trim_space_clear; [by apply digit_first_clear|].
  rewrite !str_rev_app, !str_app_assoc. apply digit_first_clear; [by rewrite all_digits_rev|].
  intros E. apply (f_equal String.rev) in E. by rewrite str_rev_involutive in E.
Qed.

(** Printing a version and parsing it back is the identity, for every
    version whose three components are machine integers that are not negative:
    [Parse] accepts exactly what [String] renders, white space and all. *)
Theorem Parse_String c :
  (0 ≤ major c ≤ max_int64)%Z → (0 ≤ minor c ≤ max_int64)%Z → (0 ≤ patch c ≤ max_int64)%Z →
  Parse (Capabilities_String c) = Some c.
Proof.
  intros Ha Hb Hc. unfold Parse. rewrite String_trimmed by lia.
  destruct (itoa_all_digits (major c) ltac:(lia)) as [Hda Hna].
  destruct (itoa_all_digits (minor c) ltac:(lia)) as [Hdb Hnb].
  rewrite bool_decide_eq_false_2.
  2:{ unfold Capabilities_String. by destruct (itoa (major c)). }
  unfold Capabilities_String. cbn [splitn_byte].
  change (itoa (major c) +:+ "." +:+ ?t) with (itoa (major c) +:+ String "." t).
  rewrite cut_byte_app by (by apply all_digits_no_byte).
  change (itoa (minor c) +:+ "." +:+ ?t) with (itoa (minor c) +:+ String "." t).
  rewrite cut_byte_app by (by apply all_digits_no_byte).
  cbn. rewrite !leadingInt_itoa by lia. cbn. by destruct c.
Qed.

Lemma Parse_String_witness :
  Parse (Capabilities_String {| major := 9; minor := 2; patch := 4 |}) =
  Some {| major := 9; minor := 2; patch := 4 |}.
Proof. apply Parse_String; cbn; unfold max_int64; lia. Defined.

Example Parse_packaged : Parse " 9.0.0-1 " = Some {| major := 9; minor := 0; patch := 0 |}.
Proof. reflexivity. Qed.
Example Parse_short : Parse "9.1" = Some {| major := 9; minor := 1; patch := 0 |}.
Proof. reflexivity. Qed.
Example Parse_no_digits : Parse "v9.1" = None.
Proof. reflexivity. Qed.

(** The order of releases [AtLeast] decides: by major, then by minor. *)
Definition release_le (mj mn mj' mn' : Z) : Prop := (mj < mj' ∨ (mj = mj' ∧ mn ≤ mn'))%Z.

Lemma AtLeast_spec c mj mn : AtLeast c mj mn = true ↔ release_le mj mn (major c) (minor c).
Proof. unfold AtLeast, release_le. destruct (Z.eqb_spec (major c) mj); cbn; lia. Qed.

(** [AtLeast] is the lexicographic order on (major, minor): it is total,
    and monotone, so a release that passes one gate passes every gate with a
    lower floor, whatever its patch level. *)
Theorem AtLeast_monotone c d mj mn mj' mn' :
  (AtLeast c mj mn = true → release_le mj' mn' mj mn → AtLeast c mj' mn' = true) ∧
  (AtLeast c mj mn = true → release_le (major c) (minor c) (major d) (minor d) → AtLeast d mj mn = true) ∧
  (AtLeast c (major d) (minor d) = true ∨ AtLeast d (major c) (minor c) = true).
Proof. rewrite !AtLeast_spec. unfold release_le. lia. Qed.

(** [Require] is the gate: a well-formed floor yields no error exactly when
    the release is at least the floor; otherwise the error wraps
    [ErrUnsupported], and a floor that does not parse is never taken as met. *)
Theorem Require_gates c feature minVersion :
  match Parse minVersion with
  | Some want =>
      (Require c feature minVersion = None ↔ AtLeast c (major want) (minor want) = true) ∧
      (∀ e, Require c feature minVersion = Some e → errors_is e ErrUnsupported = true)
  | None => ∃ e, Require c feature minVersion = Some e
  end.
Proof.
  unfold Require. destruct (Parse minVersion) as [want|]; [|by eexists].
  destruct (AtLeast c _ _); split; try split; intros; simplify_eq; done.
Qed.

(** Constructing the capability snapshot never lets a release below the
    supported floor through: a success meets the minimum and is the parse of
    what the server reported, and a parsed release below the floor is refused
    with [ErrUnsupported]. *)
Theorem Service_Capabilities_floor {W} `{!Client W} (w : W) :
  match Service_Capabilities w with
  | (_, inr caps) => MeetsMinimum caps = true ∧
      ∃ w' v, Get w = (w', inr v) ∧ Parse (pv_Version v) = Some caps
  | (_, inl e) => ∀ w' v caps, Get w = (w', inr v) → Parse (pv_Version v) = Some caps →
      MeetsMinimum caps = false ∧ errors_is e ErrUnsupported = true
  end.
Proof.
  unfold Service_Capabilities, then_result. destruct (Get w) as [w' [e|v]]; cbn; [naive_solver|].
  destruct (Parse (pv_Version v)) as [caps|] eqn:Hp; [|naive_solver].
  destruct (MeetsMinimum caps) eqn:Hm; cbn; naive_solver.
Qed.
