(* ===== verification/Url.v ===== *)
(** The part of [net/url] and [net] the transport uses: parsing an endpoint
    address into scheme, user info, host and query, rendering it back, and the
    form encoding of [url.Values]. Percent escapes inside a host are refused;
    everything else follows the standard library's rules. *)

From S2P Require Import Prelude.
From Stdlib Require Import ZArith Lia Ascii.
From stdpp Require Import options.

Record URL := {
  u_Scheme : string;
  u_User : string;        (* user info with its "@", or "" *)
  u_Host : string;
  u_Path : string;
  u_RawQuery : string;
  u_ForceQuery : bool;
  u_Fragment : string
}.

#[export] Instance URL_eq_dec : EqDecision URL.
Proof. solve_decision. Defined.

Definition in_range (lo hi : nat) (c : ascii) : bool := (lo <=? nat_of_ascii c) && (nat_of_ascii c <=? hi).
Definition is_letter (c : ascii) : bool := in_range 65 90 c || in_range 97 122 c.
Definition all_bytes (p : ascii → bool) (s : string) : bool := forallb p (String.list_ascii_of_string s).
Definition is_hex (c : ascii) : bool := is_digit c || in_range 65 70 c || in_range 97 102 c.

(** [cut_last c s]: around the last occurrence of [c]. *)
Definition cut_last (c : ascii) (s : string) : option (string * string) :=
  match cut_byte c (String.rev s) with
  | Some (a, b) => Some (String.rev b, String.rev a)
  | None => None
  end.

Definition validOptionalPort (s : string) : bool :=
  match s with
  | "" => true
  | String ":" ds => all_bytes is_digit ds
  | _ => false
  end.

(** [getScheme]: [None] is the error, [Some ("", s)] no scheme. *)
Fixpoint get_scheme_from (i : nat) (s : string) : option (option (string * string)) :=
  match s with
  | "" => Some None
  | String c s' =>
      if is_letter c then
        match get_scheme_from (S i) s' with
        | Some (Some (a, b)) => Some (Some (String c a, b))
        | r => r
        end
      else if is_digit c || one_of "+-." c then
        if i =? 0 then Some None
        else match get_scheme_from (S i) s' with
             | Some (Some (a, b)) => Some (Some (String c a, b))
             | r => r
             end
      else if decide (c = ":"%char) then if i =? 0 then None else Some (Some ("", s'))
      else Some None
  end.

Definition host_byte (c : ascii) : bool :=
  is_letter c || is_digit c || one_of "-_.~!$&'()*+,;=:[]<>" c || in_range 34 34 c || (128 <=? nat_of_ascii c).
Definition user_byte (c : ascii) : bool := is_letter c || is_digit c || one_of "-._:~!$&'()*+,;=%@" c.

Fixpoint valid_escapes (s : string) : bool :=
  match s with
  | "" => true
  | String "%" s' => match s' with
                     | String a (String b s'') => is_hex a && is_hex b && valid_escapes s'
                     | _ => false
                     end
  | String _ s' => valid_escapes s'
  end.

(** [parseHost] *)
Definition parse_host (h : string) : option string :=
  let ok := match h with
            | String "[" _ => match cut_last "]" h with
                              | Some (_, port) => validOptionalPort port
                              | None => false
                              end
            | _ => match cut_last ":" h with
                   | Some (_, port) => validOptionalPort (String ":" port)
                   | None => true
                   end
            end in
  if ok && all_bytes host_byte h then Some h else None.

(** [parseAuthority] *)
Definition parse_authority (a : string) : option (string * string) :=
  match cut_last "@" a with
  | None => h ← parse_host a; Some ("", h)
  | Some (user, h) =>
      h ← parse_host h;
      if all_bytes user_byte user && valid_escapes user then Some (user +:+ "@", h) else None
  end.

Fixpoint count_byte (c : ascii) (s : string) : nat :=
  match s with "" => 0 | String d s' => (if decide (d = c) then 1 else 0) + count_byte c s' end.

Definition last_is (c : ascii) (s : string) : bool :=
  match String.rev s with String d _ => bool_decide (d = c) | "" => false end.

(** [url.Parse] *)
Definition url_parse (raw : string) : option URL :=
  let '(rest, frag) := match cut_byte "#" raw with Some p => p | None => (raw, "") end in
  if negb (all_bytes (λ c, negb (nat_of_ascii c <? 32) && negb (nat_of_ascii c =? 127)) rest) then None
  else if negb (valid_escapes frag) then None
  else
    sc ← get_scheme_from 0 rest;
    let '(scheme, rest) := match sc with Some (s, r) => (to_lower s, r) | None => ("", rest) end in
    let force := last_is "?" rest && (count_byte "?" rest =? 1) in
    let '(rest, query) := match cut_byte "?" rest with Some p => p | None => (rest, "") end in
    let mk user host path := Some {| u_Scheme := scheme; u_User := user; u_Host := host; u_Path := path;
                                     u_RawQuery := query; u_ForceQuery := force; u_Fragment := frag |} in
    if has_prefix rest "//" && negb (has_prefix rest "///" && (scheme =s "")) then
      let rest := drop_str 2 rest in
      let '(auth, path) := match cut_byte "/" rest with Some (a, p) => (a, "/" +:+ p) | None => (rest, "") end in
      '(user, host) ← parse_authority auth;
      if valid_escapes path then mk user host path else None
    else if has_prefix rest "/" then if valid_escapes rest then mk "" "" rest else None
    else if negb (scheme =s "") then mk "" "" ""
    else if contains (match cut_byte "/" rest with Some (a, _) => a | None => rest end) ":" then None
    else if valid_escapes rest then mk "" "" rest else None.

(** [splitHostPort], behind [URL.Hostname] and [URL.Port]. *)
Definition split_host_port (hp : string) : string * string :=
  let '(h, p) := match cut_last ":" hp with
                 | Some (h, p) => if validOptionalPort (String ":" p) then (h, p) else (hp, "")
                 | None => (hp, "")
                 end in
  if has_prefix h "[" && last_is "]" h then
    (String.rev (drop_str 1 (String.rev (drop_str 1 h))), p)
  else (h, p).

Definition Hostname (u : URL) : string := (split_host_port (u_Host u)).1.
Definition Port (u : URL) : string := (split_host_port (u_Host u)).2.

(** [net.JoinHostPort] *)
Definition JoinHostPort (host port : string) : string :=
  if has_byte ":" host then "[" +:+ host +:+ "]:" +:+ port else host +:+ ":" +:+ port.

(** [URL.String] of a URL whose path, query and fragment have been cleared. *)
Definition base_String (u : URL) : string :=
  (if u_Scheme u =s "" then "" else u_Scheme u +:+ ":") +:+ "//" +:+ u_User u +:+ u_Host u +:+
  (if u_ForceQuery u then "?" else "").

(** ** Form encoding *)

Definition hex_upper (n : nat) : ascii := ascii_of_nat (if n <? 10 then 48 + n else 55 + n).
Definition escape_byte (c : ascii) : string :=
  if is_letter c || is_digit c || one_of "-_.~" c then String c ""
  else if decide (c = " "%char) then "+"
  else let n := nat_of_ascii c in String "%" (String (hex_upper (n / 16)) (String (hex_upper (n mod 16)) "")).
Fixpoint QueryEscape (s : string) : string :=
  match s with "" => "" | String c s' => escape_byte c +:+ QueryEscape s' end.

(** [url.PathEscape]: one segment of a path. *)
Definition path_byte (c : ascii) : string :=
  if is_letter c || is_digit c || one_of "-_.~$&+:=@" c then String c ""
  else let n := nat_of_ascii c in String "%" (String (hex_upper (n / 16)) (String (hex_upper (n mod 16)) "")).
Fixpoint PathEscape (s : string) : string :=
  match s with "" => "" | String c s' => path_byte c +:+ PathEscape s' end.

(** [Values.Encode]: sorted by key. *)
Definition Encode (v : values) : string :=
  join "&" (flat_map (λ k, (λ x, QueryEscape k +:+ "=" +:+ QueryEscape x) <$> default [] (v !! k))
                     (merge_sort String.le (keys v))).

Example parse_plain : base_String <$> url_parse "https://pve1:8006/api2?x=1#f" = Some "https://pve1:8006".
Proof. reflexivity. Qed.
Example parse_v6 : (Hostname <$> url_parse "https://[fe80::1]") = Some "fe80::1".
Proof. reflexivity. Qed.
Example path_escaped : PathEscape "a b/c:d" = "a%20b%2Fc:d".
Proof. reflexivity. Qed.
Example encode_sorted : Encode (<["b" := ["x y"; "2"]]> {["a" := ["1&2"]]}) = "a=1%262&b=x+y&b=2".
Proof. reflexivity. Qed.
