(* ===== verification/Wire.v ===== *)
(** The wire between the client and the mock, as [net/url] and [net/http] define it:
    percent escapes, the parsing of a query or a form body, and what a server's
    [ParseForm] makes of a request. The form a client encodes is the form the
    server parses. *)

From S2P Require Import Prelude Url.
From Stdlib Require Import ZArith Lia Ascii.
From stdpp Require Import options.

(** ** Escapes *)

Definition hex_val (c : ascii) : option nat :=
  let n := nat_of_ascii c in
  if in_range 48 57 c then Some (n - 48)
  else if in_range 65 70 c then Some (n - 55)
  else if in_range 97 102 c then Some (n - 87)
  else None.

(** [url.QueryUnescape] ([plus]: a plus sign stands for a space) and
    [url.PathUnescape]; [None] is an invalid escape. *)
Fixpoint unescape (plus : bool) (s : string) : option string :=
  match s with
  | "" => Some ""
  | String "%" s' =>
      match s' with
      | String a (String b s'') =>
          x ← hex_val a; y ← hex_val b; r ← unescape plus s'';
          Some (String (ascii_of_nat (16 * x + y)) r)
      | _ => None
      end
  | String c s' =>
      r ← unescape plus s'; Some (String (if plus && bool_decide (c = "+"%char) then " "%char else c) r)
  end.
Definition QueryUnescape : string → option string := unescape true.
Definition PathUnescape : string → option string := unescape false.

Lemma unescape_escape_byte c s : unescape true (escape_byte c +:+ s) = String c <$> unescape true s.
Proof.
  destruct c as [[] [] [] [] [] [] [] []];
    match goal with |- context [escape_byte ?c] => let e := eval vm_compute in (escape_byte c) in change (escape_byte c) with e end;
    rewrite ?str_app_cons, str_app_nil_l; cbn [unescape]; by destruct (unescape true s).
Qed.

Lemma QueryUnescape_QueryEscape s : QueryUnescape (QueryEscape s) = Some s.
Proof.
  unfold QueryUnescape. induction s as [|c s IH]; [done|]. cbn [QueryEscape].
  by rewrite unescape_escape_byte, IH.
Qed.

Lemma escape_byte_plain d c : d ∈ ["&"; "="; ";"]%char → no_byte d (escape_byte c) = true.
Proof.
  intros Hd. repeat (apply elem_of_cons in Hd as [->|Hd]; [by destruct c as [[] [] [] [] [] [] [] []]|]).
  by apply not_elem_of_nil in Hd.
Qed.

Lemma QueryEscape_plain d s : d ∈ ["&"; "="; ";"]%char → no_byte d (QueryEscape s) = true.
Proof.
  intros Hd. induction s as [|c s IH]; [done|]. cbn [QueryEscape]. by rewrite no_byte_app, escape_byte_plain.
Qed.

(** ** Queries and forms *)

(** One pass of the loop of [url.ParseQuery]; the flag is [err == nil]. *)
Definition parse_pair (acc : values * bool) (seg : string) : values * bool :=
  if negb (no_byte ";" seg) then (acc.1, false)
  else if seg =s "" then acc
  else let '(key, value) := default (seg, "") (cut_byte "=" seg) in
       match QueryUnescape key, QueryUnescape value with
       | Some key, Some value => (<[key := default [] (acc.1 !! key) ++ [value]]> acc.1, acc.2)
       | _, _ => (acc.1, false)
       end.
(** [url.ParseQuery]. *)
Definition ParseQuery (query : string) : values * bool := foldl parse_pair (∅, true) (split_byte "&" query).

(** The pairs [Encode] writes, key by key. *)
Definition pairs_of (v : values) (ks : list string) : list (string * string) :=
  flat_map (λ k, (λ x, (k, x)) <$> default [] (v !! k)) ks.
Definition encode_pair (kx : string * string) : string := QueryEscape kx.1 +:+ "=" +:+ QueryEscape kx.2.
Definition add_pair (acc : values) (kx : string * string) : values := <[kx.1 := default [] (acc !! kx.1) ++ [kx.2]]> acc.

Lemma Encode_pairs v : Encode v = join "&" (encode_pair <$> pairs_of v (merge_sort String.le (keys v))).
Proof.
  unfold Encode, pairs_of. f_equal. induction (merge_sort String.le (keys v)) as [|k ks IH]; [done|].
  cbn [flat_map]. rewrite fmap_app, IH. f_equal. rewrite <- list_fmap_compose. done.
Qed.

Lemma parse_encode_pair acc kx : parse_pair (acc, true) (encode_pair kx) = (add_pair acc kx, true).
Proof.
  unfold parse_pair, encode_pair. rewrite !no_byte_app, !QueryEscape_plain by (right; right; left). cbn [negb andb].
  rewrite bool_decide_eq_false_2.
  2:{ intros H. apply (f_equal String.length) in H. rewrite !str_length_app in H. cbn in H. lia. }
  change ("=" +:+ QueryEscape kx.2) with (String "=" (QueryEscape kx.2)).
  rewrite cut_byte_app by (apply QueryEscape_plain; right; left). cbn [default from_option].
  change (no_byte ";" "=") with true. cbn [negb andb id]. by rewrite !QueryUnescape_QueryEscape.
Qed.

Lemma parse_encode_pairs acc l : foldl parse_pair (acc, true) (encode_pair <$> l) = (foldl add_pair acc l, true).
Proof. revert acc. induction l as [|kx l IH]; intros acc; [done|]. cbn. by rewrite parse_encode_pair, IH. Qed.

Lemma add_pairs_of_key acc k xs :
  foldl add_pair acc ((λ x, (k, x)) <$> xs) = match xs with [] => acc | _ => <[k := default [] (acc !! k) ++ xs]> acc end.
Proof.
  revert acc. induction xs as [|x xs IH]; intros acc; [done|]. cbn [fmap list_fmap foldl]. rewrite IH.
  unfold add_pair. cbn [fst snd]. destruct xs as [|y xs]; [done|].
  rewrite lookup_insert_eq, insert_insert_eq. cbn. by rewrite <- app_assoc.
Qed.

Lemma lookup_add_pairs v ks acc j :
  NoDup ks →
  foldl add_pair acc (pairs_of v ks) !! j =
    if decide (j ∈ ks ∧ default [] (v !! j) ≠ []) then Some (default [] (acc !! j) ++ default [] (v !! j)) else acc !! j.
Proof.
  intros Hnd. revert acc. induction Hnd as [|k ks Hk _ IH]; intros acc.
  { rewrite decide_False; [done|]. intros [H _]. by apply not_elem_of_nil in H. }
  cbn [pairs_of flat_map]. rewrite foldl_app, add_pairs_of_key. fold (pairs_of v ks). rewrite IH.
  destruct (decide (j = k)) as [->|Hne].
  - rewrite (decide_False (P := k ∈ ks ∧ _)) by naive_solver.
    destruct (default [] (v !! k)) as [|x xs]; [rewrite decide_False by naive_solver; done|].
    rewrite decide_True by (split; [by left|done]). by rewrite lookup_insert_eq.
  - assert ((match default [] (v !! k) with [] => acc | _ => <[k := default [] (acc !! k) ++ default [] (v !! k)]> acc end) !! j
      = acc !! j) as Hacc by (destruct (default [] (v !! k)); [done|by rewrite lookup_insert_ne]).
    rewrite Hacc. repeat case_decide; set_solver.
Qed.

(** A key whose list of values is empty does not reach the wire. *)
Definition sent (v : values) : values := filter (λ kx, kx.2 ≠ []) v.

(** The form the server parses is the form the client encodes, whatever bytes its
    keys and values contain: no pair is lost, added, split or reordered within its
    key, and the parse succeeds. Only a key without any value is not sent. *)
Lemma ParseQuery_Encode v : ParseQuery (Encode v) = (sent v, true).
Proof.
  unfold ParseQuery. rewrite Encode_pairs. set (ks := merge_sort String.le (keys v)).
  assert (foldl parse_pair (∅, true) (split_byte "&" (join "&" (encode_pair <$> pairs_of v ks))) =
    (foldl add_pair ∅ (pairs_of v ks), true)) as ->.
  { destruct (pairs_of v ks) as [|kx l] eqn:E; [done|]. rewrite split_join; [apply parse_encode_pairs|done|].
    apply Forall_fmap, Forall_true. intros [k x]. unfold encode_pair. cbn.
    by rewrite !no_byte_app, !QueryEscape_plain by left. }
  f_equal. apply map_eq. intros j. rewrite lookup_add_pairs, lookup_empty.
  2:{ unfold ks. rewrite merge_sort_Permutation. apply NoDup_keys. }
  assert (j ∈ ks ↔ is_Some (v !! j)) as Hks by (unfold ks; rewrite merge_sort_Permutation; apply elem_of_keys).
  unfold sent. symmetry. destruct (v !! j) as [xs|] eqn:Hj; cbn in *; case_decide as Hd.
  - apply map_lookup_filter_Some. split; [done|]. naive_solver.
  - apply map_lookup_filter_None. right. intros xs' Hx' Hne. apply Hd. simplify_eq. split; [|done]. apply Hks. by eexists.
  - naive_solver.
  - apply map_lookup_filter_None. by left.
Qed.

(** ** Paths *)

(** The bytes a path segment carries without an escape. *)
Definition segment_byte (c : ascii) : bool := is_letter c || is_digit c || one_of "-_.~:@$&+,;=!" c.

(** A path segment that needs no escaping and that the server does not clean away. *)
Definition plain (s : string) : Prop := s ≠ "" ∧ s ≠ "." ∧ s ≠ ".." ∧ all_bytes segment_byte s = true.
#[export] Instance plain_dec s : Decision (plain s) := _.

Lemma all_bytes_app p s t : all_bytes p (s +:+ t) = all_bytes p s && all_bytes p t.
Proof.
  unfold all_bytes. induction s as [|c s IH]; [done|]. rewrite str_app_cons. cbn. by rewrite IH, andb_assoc.
Qed.

Lemma all_bytes_no_byte p c s : p c = false → all_bytes p s = true → no_byte c s = true.
Proof.
  intros Hc. unfold all_bytes. induction s as [|d s IH]; [done|]. cbn. intros [Hd Hs]%andb_prop.
  rewrite IH by done. rewrite andb_true_r. destruct (bool_decide (d = c)) eqn:E; [|done].
  apply bool_decide_eq_true in E as ->. congruence.
Qed.

Lemma no_byte_all_bytes p s : (∀ c, p c = false → no_byte c s = true) → all_bytes p s = true.
Proof.
  unfold all_bytes. induction s as [|d s IH]; [done|]. cbn. intros H. apply andb_true_intro. split.
  - destruct (p d) eqn:E; [done|]. specialize (H d E). cbn in H. by rewrite bool_decide_eq_true_2 in H.
  - apply IH. intros c Hc. specialize (H c Hc). cbn in H. by apply andb_prop in H as [_ ?].
Qed.

Lemma PathUnescape_plain s : all_bytes segment_byte s = true → PathUnescape s = Some s.
Proof.
  unfold PathUnescape, all_bytes. induction s as [|c s IH]; [done|]. cbn [String.list_ascii_of_string forallb].
  intros [Hc Hs]%andb_prop. specialize (IH Hs).
  destruct (decide (c = "%"%char)) as [->|Hne]; [done|].
  transitivity (r ← unescape false s; Some (String c r)); [|by rewrite IH].
  destruct c as [[] [] [] [] [] [] [] []]; try done; by destruct Hne.
Qed.

(** The cleaning of a request path by the multiplexer changes nothing. *)
Definition clean (path : string) : bool :=
  has_prefix path "/" && negb (contains path "//") &&
  forallb (λ s, negb ((s =s ".") || (s =s ".."))) (split_byte "/" path).

(** Path and query of a request target. *)
Definition cut_query (target : string) : string * string := default (target, "") (cut_byte "?" target).

Lemma plain_no_byte c s : segment_byte c = false → plain s → no_byte c s = true.
Proof. intros Hc (_ & _ & _ & Hs). by eapply all_bytes_no_byte. Qed.

Lemma no_double_slash c s : segment_byte c = true → has_prefix (String c s) "//" = false.
Proof. intros Hc. unfold has_prefix. cbn [String.prefix]. destruct (ascii_dec "/" c) as [<-|]; [discriminate Hc|done]. Qed.

Lemma all_bytes_cons p c s : all_bytes p (String c s) = true ↔ p c = true ∧ all_bytes p s = true.
Proof. unfold all_bytes. cbn. apply andb_true_iff. Qed.

Lemma contains_segment s t : all_bytes segment_byte s = true → contains (s +:+ t) "//" = contains t "//".
Proof.
  induction s as [|c s IH]; [done|]. intros [Hc Hs]%all_bytes_cons. rewrite str_app_cons. cbn [contains].
  rewrite no_double_slash by done. by apply IH.
Qed.

Lemma contains_join_slash segs : segs ≠ [] → Forall plain segs → contains (join "/" ("" :: segs)) "//" = false.
Proof.
  intros Hne Hs. induction Hs as [|x l (Hx0 & _ & _ & Hx) Hl IH]; [done|]. clear Hne.
  change (join "/" ("" :: x :: l)) with (String "/" (join "/" (x :: l))).
  assert (∃ t, join "/" (x :: l) = x +:+ t ∧ contains t "//" = false) as (t & -> & Ht).
  { destruct l as [|y l]; [exists ""; by rewrite str_app_nil_r|].
    exists (String "/" (join "/" (y :: l))). split; [done|by apply IH]. }
  destruct x as [|c x]; [done|]. pose proof Hx as [Hc _]%all_bytes_cons.
  transitivity (contains (String c x +:+ t) "//"); [|by rewrite contains_segment].
  rewrite str_app_cons. cbn [contains]. rewrite (no_double_slash c) by done.
  assert (has_prefix (String "/" (String c (x +:+ t))) "//" = false) as ->; [|done].
  unfold has_prefix. cbn [String.prefix]. destruct (ascii_dec "/" c) as [<-|]; [discriminate Hc|done].
Qed.

(** A path of plain segments reaches the server as it is. *)
Lemma plain_path segs :
  segs ≠ [] → Forall plain segs → let path := join "/" ("" :: segs) in
  cut_query path = (path, "") ∧ clean path = true ∧ split_byte "/" path = "" :: segs ∧
  mapM PathUnescape ("" :: segs) = Some ("" :: segs).
Proof.
  intros Hne Hs path.
  assert (∀ c, segment_byte c = false → c ≠ "/"%char → no_byte c path = true) as Hno.
  { intros c Hc Hsl. unfold path. clear Hne path. change (join "/" ("" :: segs)) with
      (match segs with [] => "" | _ => String "/" (join "/" segs) end).
    assert (no_byte c (join "/" segs) = true) as Hj.
    { induction Hs as [|x l Hx Hl IH]; [done|]. destruct l as [|y l]; [by apply plain_no_byte|].
      change (join "/" (x :: y :: l)) with (x +:+ String "/" (join "/" (y :: l))).
      rewrite no_byte_app, (plain_no_byte c x) by done. cbn [andb no_byte]. cbn in IH |- *. rewrite IH.
      by rewrite bool_decide_eq_false_2 by congruence. }
    destruct segs; [done|]. cbn [no_byte]. rewrite Hj. by rewrite bool_decide_eq_false_2 by congruence. }
  assert (split_byte "/" path = "" :: segs) as Hsplit.
  { apply split_join; [done|]. constructor; [done|]. eapply Forall_impl; [exact Hs|]. intros x. by apply plain_no_byte. }
  split_and!; [| |done|].
  - unfold cut_query. by rewrite cut_byte_none by (by apply Hno).
  - unfold clean. rewrite Hsplit. unfold path at 1 2. rewrite contains_join_slash by done.
    apply andb_true_intro. split.
    { destruct segs as [|x segs]; [done|]. change (join "/" ("" :: x :: segs)) with ("/" +:+ join "/" (x :: segs)).
      by rewrite has_prefix_app. } apply forallb_forall.
    intros y Hy%list_elem_of_In. apply elem_of_cons in Hy as [->|Hy]; [done|].
    rewrite Forall_forall in Hs. destruct (Hs y Hy) as (_ & H1 & H2 & _). by rewrite !bool_decide_eq_false_2.
  - assert (mapM PathUnescape segs = Some segs) as Hm.
    { apply mapM_Some. clear Hne path Hno Hsplit. induction Hs as [|x l (_ & _ & _ & Hx) _ IH]; constructor; [|done].
      by apply PathUnescape_plain. }
    cbn. by rewrite Hm.
Qed.

(** Numbers are made of such bytes. *)
Lemma format_int_bytes b z : (2 ≤ b ≤ 36)%Z → all_bytes segment_byte (format_int b z) = true.
Proof.
  intros Hb. apply no_byte_all_bytes. intros c Hc. apply format_int_no_byte; [..|done].
  - destruct c as [[] [] [] [] [] [] [] []]; first [reflexivity|discriminate Hc].
  - intros ->. discriminate Hc.
Qed.
