(* ===== verification/Netip.v ===== *)
(** The part of [net/netip] the lab driver uses: parsing of addresses and prefixes,
    and the canonical text of an address. *)

From S2P Require Import Prelude Url.
From Stdlib Require Import ZArith Lia Ascii.
From stdpp Require Import options.

(** An IPv4 address is a 32-bit integer; an IPv6 address its eight 16-bit groups and
    a zone, which is [""] when there is none. *)
Inductive Addr := V4 (a : Z) | V6 (groups : list Z) (zone : string).
#[export] Instance Addr_eq_dec : EqDecision Addr.
Proof. solve_decision. Defined.

(** ** IPv4 *)

(** One decimal field: no sign, no leading zero, at most 255. *)
Definition octet (s : string) : option Z :=
  if negb (all_digits s) || (s =s "") || (has_prefix s "0" && negb (s =s "0")) then None
  else v ← parse_digits 10 0 s; if (v <=? 255)%Z then Some v else None.

Definition parseIPv4 (s : string) : option Z :=
  match split_byte "." s with
  | [a; b; c; d] =>
      a ← octet a; b ← octet b; c ← octet c; d ← octet d;
      Some (a * 2 ^ 24 + b * 2 ^ 16 + c * 2 ^ 8 + d)%Z
  | _ => None
  end.

Definition byte_of (a : Z) (i : Z) : Z := Z.land (Z.shiftr a (8 * i)) 255.
Definition string4 (a : Z) : string :=
  itoa (byte_of a 3) +:+ "." +:+ itoa (byte_of a 2) +:+ "." +:+ itoa (byte_of a 1) +:+ "." +:+ itoa (byte_of a 0).

(** ** IPv6 *)

Fixpoint span_hex (s : string) : string * string :=
  match s with
  | String c s' => if is_hex c then let '(h, r) := span_hex s' in (String c h, r) else ("", s)
  | "" => ("", "")
  end.

(** The loop over the groups of [s]: the groups so far and the place of the [::]. *)
Fixpoint parse_groups (fuel : nat) (s : string) (acc : list Z) (ellipsis : option nat) :
    option (list Z * option nat) :=
  match fuel with
  | 0 => if s =s "" then Some (acc, ellipsis) else None
  | S fuel =>
      let '(h, rest) := span_hex s in
      if (h =s "") || (4 <? String.length h) then None else
      match rest with
      | String "." _ =>
          if (bool_decide (ellipsis = None) && negb (length acc =? 6)) || (6 <? length acc) then None
          else a ← parseIPv4 s; Some (acc ++ [Z.shiftr a 16; Z.land a 65535], ellipsis)
      | _ =>
          g ← parse_digits 16 0 h;
          let acc := acc ++ [g] in
          match rest with
          | "" => Some (acc, ellipsis)
          | String ":" "" => None
          | String ":" (String ":" r) =>
              if decide (ellipsis = None) then
                if r =s "" then Some (acc, Some (length acc)) else parse_groups fuel r acc (Some (length acc))
              else None
          | String ":" r => parse_groups fuel r acc ellipsis
          | _ => None
          end
      end
  end.

(** The [::] stands for at least one group of zeros. *)
Definition expand (p : list Z * option nat) : option (list Z) :=
  let '(acc, ellipsis) := p in
  match ellipsis with
  | None => if length acc =? 8 then Some acc else None
  | Some i => if length acc <? 8 then Some (take i acc ++ replicate (8 - length acc) 0%Z ++ drop i acc) else None
  end.

Definition parseIPv6 (s : string) : option Addr :=
  let '(s, zone) := match cut_byte "%" s with Some (s, z) => (s, Some z) | None => (s, None) end in
  if decide (zone = Some "") then None else
  let zone := default "" zone in
  if has_prefix s "::" then
    let s := drop_str 2 s in
    if s =s "" then Some (V6 (replicate 8 0%Z) zone)
    else p ← parse_groups 8 s [] (Some 0); g ← expand p; Some (V6 g zone)
  else p ← parse_groups 8 s [] None; g ← expand p; Some (V6 g zone).

(** The first longest run of at least two zero groups: its place and its length. *)
Fixpoint zero_run (l : list Z) : nat :=
  match l with g :: l => if (g =? 0)%Z then S (zero_run l) else 0 | [] => 0 end.
Fixpoint best_run (i : nat) (l : list Z) (best : nat * nat) : nat * nat :=
  match l with
  | [] => best
  | _ :: l' => let n := zero_run l in best_run (S i) l' (if (1 <? n) && (best.2 <? n) then (i, n) else best)
  end.
Definition hex_groups (l : list Z) : string := join ":" (format_uint 16 <$> l).
Definition string6 (groups : list Z) : string :=
  let '(i, n) := best_run 0 groups (0, 0) in
  if n =? 0 then hex_groups groups
  else hex_groups (take i groups) +:+ "::" +:+ hex_groups (drop (i + n) groups).

(** ** Addresses and prefixes *)

Fixpoint first_of (s : string) : option ascii :=
  match s with "" => None | String c s' => if one_of ".:%" c then Some c else first_of s' end.

(** [netip.ParseAddr]; the text of its error is not kept. *)
Definition ParseAddr (s : string) : option Addr :=
  match first_of s with
  | Some "."%char => V4 <$> parseIPv4 s
  | Some ":"%char => parseIPv6 s
  | _ => None
  end.

(** [Addr.String]; an IPv4 address mapped into IPv6 is written with dots. *)
Definition Addr_String (a : Addr) : string :=
  match a with
  | V4 a => string4 a
  | V6 groups zone =>
      match groups with
      | [0; 0; 0; 0; 0; 65535; hi; lo]%Z => "::ffff:" +:+ string4 (hi * 2 ^ 16 + lo)
      | _ => string6 groups
      end +:+ (if zone =s "" then "" else "%" +:+ zone)
  end.

Definition IsLoopback (a : Addr) : bool :=
  match a with
  | V4 a => (byte_of a 3 =? 127)%Z
  | V6 groups _ =>
      match groups with
      | [0; 0; 0; 0; 0; 65535; hi; lo]%Z => (Z.shiftr hi 8 =? 127)%Z
      | _ => bool_decide (groups = [0; 0; 0; 0; 0; 0; 0; 1]%Z)
      end
  end.

Record Prefix := { pf_Addr : Addr; pf_Bits : Z }.

(** [netip.ParsePrefix]: an address without zone, and a length without sign or
    leading zero. *)
Definition ParsePrefix (s : string) : option Prefix :=
  '(ip, bits) ← cut_last "/" s;
  a ← ParseAddr ip;
  match a with
  | V6 _ zone => if zone =s "" then Some () else None
  | V4 _ => Some ()
  end ≫= λ _,
  if negb (all_digits bits) || (bits =s "") || (has_prefix bits "0" && negb (bits =s "0")) then None else
  n ← atoi bits;
  let max := match a with V4 _ => 32%Z | V6 _ _ => 128%Z end in
  if (n <=? max)%Z then Some {| pf_Addr := a; pf_Bits := n |} else None.

(** ** The text of an IPv4 address reads back *)

Example netip_examples :
  (λ s, Addr_String <$> ParseAddr s) <$>
    ["10.0.0.1"; "::1"; "2001:DB8::0:0:1"; "::ffff:1.2.3.4"; "1::2:0:0:0:3:0"; "fe80::1%eth0"; "1:2:3:4:5:6:7:8"; "::"] =
    Some <$> ["10.0.0.1"; "::1"; "2001:db8::1"; "::ffff:1.2.3.4"; "1:0:2::3:0"; "fe80::1%eth0"; "1:2:3:4:5:6:7:8"; "::"] ∧
  ParseAddr <$> ["1.2.3"; "1.2.3.04"; "256.1.1.1"; "1:2:3:4:5:6:7::8:9"; ":::"; "1::2::3"; "12345::"; "fe80::1%"; "1:2:3:4:5:6:7:"; "1.2.3.4."; "%eth0"] =
    replicate 11 None.
Proof. vm_compute. done. Qed.
