(* ===== verification/Multipart.v ===== *)
(** mime/multipart as the program uses it: the body [multipart.Writer] writes for
    an upload, the reading of such a body by [http.Request.ParseMultipartForm], and
    that what is written is what is read. The boundary is an argument: the writer
    draws it at random. *)

From S2P Require Import Prelude Json.
From Stdlib Require Import Ascii Lia.
From stdpp Require Import options.

(** ** Writing *)

(** A part: a text field, or a file under a field's name. *)
Inductive part := TextPart (name text : string) | FilePart (name filename contents : string).

Definition cr : ascii := ascii_of_nat 13.
Definition lf : ascii := ascii_of_nat 10.
Definition dquote : ascii := ascii_of_nat 34.
Definition backslash : ascii := ascii_of_nat 92.
Definition crlf : string := String cr (String lf "").

(** [escapeQuotes]: backslashes before quotes and backslashes, and line breaks
    percent-encoded. *)
Fixpoint escapeQuotes (s : string) : string :=
  match s with
  | "" => ""
  | String c s' =>
      (if decide (c = backslash) then String backslash (String backslash "")
       else if decide (c = dquote) then String backslash (String dquote "")
       else if decide (c = cr) then "%0D" else if decide (c = lf) then "%0A"
       else String c "") +:+ escapeQuotes s'
  end.

Definition param (key value : string) : string :=
  "; " +:+ key +:+ "=" +:+ String dquote (escapeQuotes value +:+ String dquote "").

(** The headers of a part, in the order the writer sorts them. *)
Definition part_header (p : part) : string :=
  match p with
  | TextPart name _ => "Content-Disposition: form-data" +:+ param "name" name +:+ crlf
  | FilePart name filename _ =>
      "Content-Disposition: form-data" +:+ param "name" name +:+ param "filename" filename +:+ crlf +:+
      "Content-Type: application/octet-stream" +:+ crlf
  end.
Definition part_body (p : part) : string := match p with TextPart _ t | FilePart _ _ t => t end.

Definition delimiter (b : string) : string := "--" +:+ b.

(** What follows the first boundary: each part, then the boundary that ends it. *)
Fixpoint parts_text (b : string) (ps : list part) : string :=
  match ps with
  | [] => "--" +:+ crlf
  | p :: ps => crlf +:+ part_header p +:+ crlf +:+ part_body p +:+ crlf +:+ delimiter b +:+ parts_text b ps
  end.
(** [CreatePart] and [Close]: a body of at least one part. *)
Definition multipart_text (b : string) (ps : list part) : string := delimiter b +:+ parts_text b ps.
Definition FormDataContentType (b : string) : string := "multipart/form-data; boundary=" +:+ b.

(** The random boundary of [multipart.NewWriter]: sixty hexadecimal digits, so that
    the content type holds it without quotes. *)
Class Boundary (W : Type) := { rand_boundary : W → W * string }.
Definition hex_boundary (b : string) : Prop :=
  every_byte (λ c, byte_in 48 57 c || byte_in 97 102 c) b = true ∧ String.length b = 60.
Lemma hex_boundary_clear b : hex_boundary b → no_byte cr b = true.
Proof.
  intros [Hb _]. induction b as [|c b IH]; [done|]. cbn [every_byte] in Hb. apply andb_prop in Hb as [Hc Hb].
  cbn [no_byte]. rewrite (IH Hb), andb_true_r. apply negb_true_iff, bool_decide_eq_false_2. intros ->. discriminate Hc.
Qed.

(** ** Reading *)

(** The special characters of RFC 2045: [isTSpecial]. *)
Definition tspecial (c : ascii) : bool := one_of ("()<>@,;:\/[]?=" +:+ String dquote "") c.

(** The rest of a quoted value ([consumeValue]): a backslash escapes a special
    character only. *)
Fixpoint quoted (s : string) : option (string * string) :=
  match s with
  | "" => None
  | String c s' =>
      if decide (c = dquote) then Some ("", s') else
      if decide (c = cr ∨ c = lf) then None else
      match s' with
      | String d s'' =>
          if bool_decide (c = backslash) && tspecial d
          then '(v, r) ← quoted s''; Some (String d v, r)
          else '(v, r) ← quoted s'; Some (String c v, r)
      | "" => None
      end
  end.

(** The parameters of a content disposition: [; key="value"], repeated. *)
Fixpoint params (fuel : nat) (s : string) : option (list (string * string)) :=
  match fuel with
  | 0 => None
  | S fuel =>
      if s =s "" then Some [] else
      if negb (has_prefix s "; ") then None else
      '(key, rest) ← cut_at ("=" +:+ String dquote "") (drop_str 2 s);
      '(value, rest) ← quoted rest;
      l ← params fuel rest; Some ((key, value) :: l)
  end.

Definition param_value (key : string) (l : list (string * string)) : string :=
  default "" (snd <$> List.find (λ kv, kv.1 =s key) l).

(** What [textproto] accepts of a header line: a name of token characters and spaces, a
    colon, and a value without control characters other than tabs. *)
Definition name_byte (c : ascii) : bool :=
  byte_in 48 57 c || byte_in 65 90 c || byte_in 97 122 c || one_of "!#$%&'*+-.^_`|~ " c.
Definition value_byte (c : ascii) : bool := bool_decide (c = ascii_of_nat 9) || byte_in 32 126 c || byte_in 128 255 c.
Definition header_line_ok (line : string) : bool :=
  match cut_byte ":" line with
  | Some (name, value) => (name <>s "") && every_byte name_byte name && every_byte value_byte value
  | None => false
  end.

(** The header lines of a part, up to the empty line. *)
Fixpoint header_lines (fuel : nat) (s : string) : option (list string * string) :=
  match fuel with
  | 0 => None
  | S fuel =>
      '(line, rest) ← cut_at crlf s;
      if line =s "" then Some ([], rest) else
      if negb (header_line_ok line) then None else '(l, rest) ← header_lines fuel rest; Some (line :: l, rest)
  end.

Definition disposition : string := "Content-Disposition: form-data".
Definition part_params (lines : list string) : option (list (string * string)) :=
  match List.find (λ l, has_prefix l disposition) lines with
  | Some l => let rest := drop_str (String.length disposition) l in params (S (String.length rest)) rest
  | None => None
  end.

(** What may follow a boundary for it to be one ([matchAfterPrefix]). *)
Definition after_boundary (rest : string) : bool :=
  match rest with
  | "" => true
  | String c rest =>
      one_of (String " " (String (ascii_of_nat 9) crlf)) c ||
      bool_decide (c = "-"%char) && match rest with String d _ => bool_decide (d = "-"%char) | "" => false end
  end.

(** The body up to the boundary, and what follows the boundary
    ([scanUntilBoundary]): a boundary begins a line. *)
Definition at_boundary (delim s : string) : bool :=
  has_prefix s delim && after_boundary (drop_str (String.length delim) s).
Fixpoint scan_line (delim s : string) : option (string * string) :=
  if at_boundary delim s then Some ("", drop_str (String.length delim) s) else
  match s with
  | "" => None
  | String c s' => '(d, r) ← scan_line delim s'; Some (String c d, r)
  end.
Definition scan_body (b s : string) : option (string * string) :=
  if at_boundary (delimiter b) s then Some ("", drop_str (String.length (delimiter b)) s)
  else scan_line (crlf +:+ delimiter b) s.

(** [NextPart], on what follows a boundary. A part with no file name is a text
    field. Headers the writer does not write make the reading fail here. *)
Fixpoint read_parts (fuel : nat) (b s : string) : option (list part) :=
  match fuel with
  | 0 => None
  | S fuel =>
      if (s =s "--") || (s =s "--" +:+ crlf) then Some [] else
      if negb (has_prefix s crlf) then None else
      let s := drop_str 2 s in
      '(lines, s) ← header_lines (S (String.length s)) s;
      ps ← part_params lines;
      '(contents, s) ← scan_body b s;
      let name := param_value "name" ps in
      let file := param_value "filename" ps in
      rest ← read_parts fuel b s;
      Some ((if file =s "" then TextPart name contents else FilePart name file contents) :: rest)
  end.
Definition read_multipart (b s : string) : option (list part) :=
  if has_prefix s (delimiter b) then
    read_parts (S (String.length s)) b (drop_str (String.length (delimiter b)) s)
  else None.

(** [ReadForm]: the text fields, and the base name and size of the first file of a
    field. *)
Definition form_values (ps : list part) : gmap string (list string) :=
  foldl (λ m p, match p with
                | TextPart name text => if name =s "" then m else <[name := default [] (m !! name) ++ [text]]> m
                | FilePart _ _ _ => m
                end) ∅ ps.
Definition form_file (field : string) (ps : list part) : option (string * Z) :=
  match List.find (λ p, match p with FilePart name _ _ => name =s field | _ => false end) ps with
  | Some (FilePart _ filename contents) => Some (path_base filename, Z.of_nat (String.length contents))
  | _ => None
  end.

(** [ParseMultipartForm] of a request with this content type. *)
Definition ParseMultipartForm (contentType text : string) : option (list part) :=
  let pre := FormDataContentType "" in
  if has_prefix contentType pre then read_multipart (drop_str (String.length pre) contentType) text else None.

(** ** What is written is what is read *)

Lemma has_prefix_cons c s d t :
  has_prefix (String c s) (String d t) = bool_decide (c = d) && has_prefix s t.
Proof.
  unfold has_prefix. cbn. destruct (ascii_dec d c) as [->|Hn]; case_bool_decide; try done.
Qed.

Lemma cut_at_app c sep s t : no_byte c s = true → cut_at (String c sep) (s +:+ String c sep +:+ t) = Some (s, t).
Proof.
  induction s as [|d s IH]; intros Hs.
  - rewrite str_app_nil_l. pose proof (has_prefix_app (String c sep) t) as Hp.
    pose proof (drop_str_app (String c sep) t) as Hd. rewrite str_app_cons in *. cbn [cut_at]. by rewrite Hp, Hd.
  - cbn in Hs. apply andb_prop in Hs as [Hd Hs]. rewrite str_app_cons. cbn [cut_at].
    rewrite has_prefix_cons. rewrite IH by done. by case_bool_decide.
Qed.

(** The two line break characters do not occur. *)
Definition one_line (s : string) : bool := no_byte cr s && no_byte lf s.

Lemma quoted_escape s rest :
  one_line s = true → quoted (escapeQuotes s +:+ String dquote rest) = Some (s, rest).
Proof.
  unfold one_line. induction s as [|c s IH]; intros Hs; [by rewrite str_app_nil_l|].
  cbn [no_byte] in Hs. apply andb_prop in Hs as [[Hc%negb_true_iff Hs]%andb_prop [Hl%negb_true_iff Hls]%andb_prop].
  apply bool_decide_eq_false in Hc, Hl. specialize (IH ltac:(by rewrite Hs, Hls)).
  cbn [escapeQuotes]. case_decide as Hb; [subst c|case_decide as Hq; [subst c|]].
  - rewrite str_app_assoc, !str_app_cons, str_app_nil_l. cbn. by rewrite IH.
  - rewrite str_app_assoc, !str_app_cons, str_app_nil_l. cbn. by rewrite IH.
  - rewrite !decide_False by done. rewrite str_app_assoc, str_app_cons, str_app_nil_l. cbn [quoted].
    destruct (escapeQuotes s +:+ String dquote rest) as [|d s''] eqn:E; [by destruct (escapeQuotes s)|].
    destruct (decide (c = dquote)); [done|]. destruct (decide (c = cr ∨ c = lf)) as [[]|]; [done..|].
    rewrite bool_decide_eq_false_2 by done. cbn [andb]. by rewrite IH.
Qed.

Lemma params_param n key value s :
  no_byte "=" key = true → one_line value = true →
  params (S n) (param key value +:+ s) = (l ← params n s; Some ((key, value) :: l)).
Proof.
  intros Hk Hv. unfold param. rewrite !str_app_assoc. cbn [params].
  rewrite bool_decide_eq_false_2 by done. rewrite has_prefix_app. cbn [negb].
  change 2 with (String.length "; ") at 1. rewrite drop_str_app.
  change ("=" +:+ String dquote "") with (String "=" (String dquote "")).
  replace (key +:+ "=" +:+ String dquote (escapeQuotes value +:+ String dquote "") +:+ s)
    with (key +:+ String "=" (String dquote "") +:+ (escapeQuotes value +:+ String dquote s))
    by (by rewrite !str_app_cons, str_app_nil_l, str_app_assoc).
  rewrite cut_at_app by done. cbn [mbind option_bind]. by rewrite quoted_escape.
Qed.

Lemma header_line n line s :
  no_byte cr line = true → header_line_ok line = true →
  header_lines (S n) (line +:+ crlf +:+ s) = ('(l, rest) ← header_lines n s; Some (line :: l, rest)).
Proof.
  intros Hl Hok. cbn [header_lines]. unfold crlf. rewrite cut_at_app by done. cbn [mbind option_bind].
  rewrite Hok. rewrite bool_decide_eq_false_2; [done|]. by intros ->.
Qed.
Lemma header_end n s : header_lines (S n) (crlf +:+ s) = Some ([], s).
Proof. cbn [header_lines]. unfold crlf. pose proof (cut_at_app cr (String lf "") "" s eq_refl) as H.
  rewrite str_app_nil_l in H. by rewrite H.
Qed.

Lemma contains_cons c s d : contains (String c s) d = false → has_prefix (String c s) d = false ∧ contains s d = false.
Proof. cbn [contains]. by intros ?%orb_false_iff. Qed.
Lemma contains_prefix s d : contains s d = false → has_prefix s d = false.
Proof. destruct s; cbn [contains]; by intros [? _]%orb_false_iff. Qed.

(** A prefix without a carriage return cannot reach over one. *)
Lemma prefix_before_break s d t :
  no_byte cr d = true → contains s d = false → has_prefix (s +:+ String cr t) d = false.
Proof.
  intros Hd Hs%contains_prefix. destruct (has_prefix (s +:+ String cr t) d) eqn:E; [|done]. exfalso.
  revert s Hs E. induction d as [|c d IH]; intros s Hs E; [by destruct s|].
  cbn [no_byte] in Hd. apply andb_prop in Hd as [Hc Hd].
  destruct s as [|e s].
  - rewrite str_app_nil_l, has_prefix_cons in E. apply andb_prop in E as [E _].
    apply bool_decide_eq_true in E. by subst.
  - rewrite str_app_cons in E. rewrite has_prefix_cons in E, Hs. apply andb_prop in E as [E' E]. rewrite E' in Hs.
    by apply (IH Hd s).
Qed.

Lemma delimiter_clear b : no_byte cr b = true → no_byte cr (delimiter b) = true.
Proof. intros Hb. unfold delimiter. by rewrite no_byte_app, Hb. Qed.

Lemma at_boundary_here d rest : after_boundary rest = true → at_boundary d (d +:+ rest) = true.
Proof. intros H. unfold at_boundary. by rewrite has_prefix_app, drop_str_app, H. Qed.

Lemma scan_line_text d s rest :
  no_byte cr d = true → contains s d = false → after_boundary rest = true →
  scan_line (crlf +:+ d) (s +:+ crlf +:+ d +:+ rest) = Some (s, rest).
Proof.
  intros Hd Hs Hr. induction s as [|c s IH].
  - rewrite str_app_nil_l, <- str_app_assoc.
    pose proof (at_boundary_here (crlf +:+ d) rest Hr) as Hb. pose proof (drop_str_app (crlf +:+ d) rest) as Hdr.
    destruct ((crlf +:+ d) +:+ rest) eqn:E; cbn [scan_line]; by rewrite Hb, Hdr.
  - apply contains_cons in Hs as [_ Hs]. rewrite str_app_cons. cbn [scan_line]. rewrite (IH Hs).
    assert (at_boundary (crlf +:+ d) (String c (s +:+ crlf +:+ d +:+ rest)) = false) as ->; [|done].
    unfold at_boundary. change (crlf +:+ d) with (String cr (String lf d)).
    change (crlf +:+ d +:+ rest) with (String cr (String lf (d +:+ rest))).
    rewrite has_prefix_cons. case_bool_decide; [|done]. destruct s as [|e s]; [done|].
    rewrite str_app_cons, has_prefix_cons. case_bool_decide; [|done].
    apply contains_cons in Hs as [_ Hs]. by rewrite prefix_before_break.
Qed.

Lemma scan_body_text b s rest :
  no_byte cr b = true → contains s (delimiter b) = false → after_boundary rest = true →
  scan_body b (s +:+ crlf +:+ delimiter b +:+ rest) = Some (s, rest).
Proof.
  intros Hb%delimiter_clear Hs Hr. unfold scan_body.
  assert (at_boundary (delimiter b) (s +:+ crlf +:+ delimiter b +:+ rest) = false) as ->.
  { unfold at_boundary, crlf. rewrite !str_app_cons, prefix_before_break by done. done. }
  by apply scan_line_text.
Qed.

(** A part that survives: its names can stand in a header, and its contents do not
    hold the boundary. *)
Definition part_name (p : part) : string := match p with TextPart n _ | FilePart n _ _ => n end.
Definition part_ok (b : string) (p : part) : Prop :=
  every_byte value_byte (part_name p) = true ∧ contains (part_body p) (delimiter b) = false ∧
  match p with TextPart _ _ => True | FilePart _ f _ => every_byte value_byte f = true ∧ f ≠ "" end.

Lemma value_byte_one_line s : every_byte value_byte s = true → one_line s = true.
Proof.
  unfold one_line. induction s as [|c s IH]; [done|]. cbn [every_byte no_byte]. intros [Hc Hs]%andb_prop.
  specialize (IH Hs). apply andb_prop in IH as [-> ->]. rewrite !andb_true_r.
  apply andb_true_intro. split; apply negb_true_iff, bool_decide_eq_false_2; intros ->; discriminate Hc.
Qed.
Lemma every_byte_app q s t : every_byte q (s +:+ t) = every_byte q s && every_byte q t.
Proof. induction s as [|c s IH]; [done|]. rewrite str_app_cons. cbn [every_byte]. by rewrite IH, andb_assoc. Qed.
Lemma escape_value_byte s : every_byte value_byte s = true → every_byte value_byte (escapeQuotes s) = true.
Proof.
  induction s as [|c s IH]; [done|]. cbn [escapeQuotes every_byte]. intros [Hc Hs]%andb_prop.
  rewrite every_byte_app, (IH Hs), andb_true_r. repeat case_decide; try done. cbn. by rewrite Hc.
Qed.
Lemma param_value_byte key value : every_byte value_byte key = true → every_byte value_byte value = true →
  every_byte value_byte (param key value) = true.
Proof.
  intros Hk Hv. unfold param. change (String dquote ?s) with (String dquote "" +:+ s).
  by rewrite !every_byte_app, Hk, escape_value_byte.
Qed.
Lemma escape_one_line s : no_byte cr (escapeQuotes s) = true.
Proof.
  induction s as [|c s IH]; [done|]. cbn [escapeQuotes]. rewrite no_byte_app, IH, andb_true_r.
  repeat case_decide; subst; try done. cbn. by rewrite bool_decide_eq_false_2.
Qed.
Lemma param_one_line key value : no_byte cr key = true → no_byte cr (param key value) = true.
Proof.
  intros Hk. unfold param. change (String dquote ?s) with (String dquote "" +:+ s).
  by rewrite !no_byte_app, Hk, escape_one_line.
Qed.

(** The parameters of a part's disposition. *)
Definition written_params (p : part) : list (string * string) :=
  ("name", part_name p) :: match p with TextPart _ _ => [] | FilePart _ f _ => [("filename", f)] end.
Definition params_text (p : part) : string := foldr (λ kv s, param kv.1 kv.2 +:+ s) "" (written_params p).

Lemma read_params b p : part_ok b p →
  part_params [disposition +:+ params_text p] = Some (written_params p) ∧
  part_params [disposition +:+ params_text p; "Content-Type: application/octet-stream"] = Some (written_params p).
Proof.
  intros (Hn%value_byte_one_line & _ & Hf).
  assert (∀ n, params (S (S (S n))) (params_text p) = Some (written_params p)) as Hp.
  { intros n. unfold params_text. destruct p as [name t|name f t]; cbn [written_params foldr fst snd part_name] in *.
    - by rewrite params_param.
    - destruct Hf as [Hf%value_byte_one_line _]. by rewrite !params_param. }
  assert (2 ≤ String.length (params_text p)) as [n Hlen]%Nat.le_sum.
  { unfold params_text. cbn [written_params foldr fst snd]. unfold param. rewrite !str_length_app. cbn. lia. }
  unfold part_params. cbn [List.find]. rewrite has_prefix_app, drop_str_app, Hlen.
  change (2 + n) with (S (S n)). by rewrite Hp.
Qed.

Lemma read_header b p s n : part_ok b p → ∃ lines,
  header_lines (S (S (S n))) (part_header p +:+ crlf +:+ s) = Some (lines, s) ∧
  part_params lines = Some (written_params p).
Proof.
  intros Hp. pose proof (read_params b p Hp) as [H1 H2].
  assert (header_line_ok (disposition +:+ params_text p) = true) as Hne.
  { assert (every_byte value_byte (params_text p) = true) as Hv.
    { destruct Hp as (Hn & _ & Hf). unfold params_text. destruct p as [name t|name f t]; cbn [written_params foldr fst snd part_name] in *.
      - by rewrite every_byte_app, param_value_byte.
      - destruct Hf as [Hf _]. by rewrite !every_byte_app, !param_value_byte. }
    unfold header_line_ok. change (disposition +:+ params_text p) with ("Content-Disposition" +:+ String ":" (" form-data" +:+ params_text p)).
    rewrite cut_byte_app by done. rewrite every_byte_app, Hv. done. }
  assert (no_byte cr (disposition +:+ params_text p) = true) as Hl.
  { rewrite no_byte_app. cbn [andb]. unfold params_text. destruct p; cbn [written_params foldr fst snd];
      by rewrite ?no_byte_app, !param_one_line. }
  destruct p as [name t|name f t].
  - exists [disposition +:+ params_text (TextPart name t)]. split; [|done].
    replace (part_header (TextPart name t)) with ((disposition +:+ params_text (TextPart name t)) +:+ crlf).
    2:{ unfold part_header, params_text. cbn [written_params foldr fst snd part_name]. by rewrite str_app_nil_r, str_app_assoc. }
    rewrite str_app_assoc, header_line, header_end by done. done.
  - exists [disposition +:+ params_text (FilePart name f t); "Content-Type: application/octet-stream"]. split; [|done].
    replace (part_header (FilePart name f t)) with
      ((disposition +:+ params_text (FilePart name f t)) +:+ crlf +:+ "Content-Type: application/octet-stream" +:+ crlf).
    2:{ unfold part_header, params_text. cbn [written_params foldr fst snd part_name]. by rewrite str_app_nil_r, !str_app_assoc. }
    revert Hl Hne. generalize (disposition +:+ params_text (FilePart name f t)). intros l Hl Hne.
    rewrite !str_app_assoc, header_line by done.
    rewrite header_line, header_end by done. done.
Qed.

Lemma after_parts b ps : after_boundary (parts_text b ps) = true.
Proof. by destruct ps. Qed.

Lemma read_parts_text b ps : no_byte cr b = true → Forall (part_ok b) ps →
  ∀ n, length ps < n → read_parts n b (parts_text b ps) = Some ps.
Proof.
  intros Hb. induction 1 as [|p ps Hp Hps IH]; intros n Hn; (destruct n as [|n]; [cbn in Hn; lia|]); [done|].
  cbn [parts_text read_parts]. set (tail := crlf +:+ delimiter b +:+ parts_text b ps).
  assert (∃ c t, crlf +:+ part_header p +:+ crlf +:+ part_body p +:+ tail = String cr (String lf (String c t))) as (c & t & E).
  { destruct p; cbn; eauto. }
  rewrite bool_decide_eq_false_2, bool_decide_eq_false_2 by (rewrite E; by vm_compute || congruence). cbn [orb].
  rewrite has_prefix_app. cbn [negb].
  set (text := part_header p +:+ crlf +:+ part_body p +:+ tail).
  assert (2 ≤ String.length text) as [m Hm]%Nat.le_sum.
  { unfold text. rewrite !str_length_app. cbn. lia. }
  change (drop_str 2 (crlf +:+ text)) with text. rewrite Hm. change (S (2 + m)) with (S (S (S m))). unfold text. destruct (read_header b p (part_body p +:+ tail) m Hp) as (lines & -> & Hl).
  cbn [mbind option_bind]. rewrite Hl. destruct Hp as (Hn1 & Hc & Hf).
  unfold tail. rewrite scan_body_text by (done || apply after_parts). cbn [mbind option_bind].
  rewrite (IH n) by (cbn in Hn; lia). cbn [mbind option_bind].
  destruct p as [name t'|name f t']; cbn; [done|]. destruct Hf as [_ Hf]. by rewrite bool_decide_eq_false_2.
Qed.

Lemma parts_text_length b ps : length ps ≤ String.length (parts_text b ps).
Proof.
  induction ps as [|p ps IH]; [cbn; lia|]. cbn [parts_text]. rewrite !str_length_app.
  change (String.length crlf) with 2. cbn [length]. lia.
Qed.

(** The reader finds exactly the parts that were written. *)
Theorem multipart_roundtrip b ps : no_byte cr b = true → Forall (part_ok b) ps →
  ParseMultipartForm (FormDataContentType b) (multipart_text b ps) = Some ps.
Proof.
  intros Hb Hps. unfold ParseMultipartForm, FormDataContentType. rewrite str_app_nil_r, has_prefix_app, drop_str_app.
  unfold read_multipart, multipart_text. rewrite has_prefix_app, drop_str_app. apply read_parts_text; [done..|].
  rewrite str_length_app. pose proof (parts_text_length b ps). lia.
Qed.
