(* ===== verification/Transport.v ===== *)
(** [proxmox/api]: the connection and its sticky failover, the retry policy, the
    three credential strategies, and the transport that runs a request through
    all of them. The clock, the context, the random source and the HTTP round
    trip are the class [World]; the state the code guards with locks (the active
    endpoint, the live ticket) is passed explicitly. *)

From S2P Require Import Prelude Json JsonText Pverr Api Url.
From Stdlib Require Import ZArith Lia Ascii Floats.SpecFloat.
From stdpp Require Import options.

(** ** The outside world *)

(** A response after [io.ReadAll] and the decoding into [pveEnvelope]: the body
    may fail to arrive, be empty, or be malformed JSON that filled the envelope
    only in part. *)
(* go: proxmox/api/transport.go#pveEnvelope *)
Record pveEnvelope := {
  env_Data : option json;
  env_Errors : gmap string string;
  env_Message : string
}.
Definition empty_envelope : pveEnvelope := {| env_Data := None; env_Errors := ∅; env_Message := "" |}.

Inductive http_body :=
| BodyReadError (err : goerr)
| BodyEmpty
| BodyJson (env : pveEnvelope)
| BodyMalformed (partial : pveEnvelope).

Record http_response := { StatusCode : Z; Body : http_body }.

Record http_request := {
  hr_Method : string;
  hr_URL : string;
  hr_Body : option string;
  hr_Header : gmap string string
}.

Class World (W : Type) := {
  now : W → Z;                                   (* time.Now, in nanoseconds *)
  ctx_err : W → option ctx_error;                (* ctx.Err() *)
  wait : Z → W → W;                              (* sleep, or until the context is done *)
  rand_Int64N : Z → W → W * Z;
  http_Do : http_request → W → W * (goerr + http_response)
}.

(** ** Endpoints *)

(* go: proxmox/api/connection.go#L12-L13 *)
Definition defaultPort : string := "8006".

(* go: proxmox/api/connection.go#Endpoint *)
Record Endpoint := { Name : string; Address : string; Priority : Z }.

(* go: proxmox/api/connection.go#parsedEndpoint *)
Record parsedEndpoint := { pe_Endpoint : Endpoint; pe_base : string }.

(* go: proxmox/api/connection.go#connection *)
Record connection := { ordered : list parsedEndpoint; current : nat }.

(** [normaliseAddress], rendered: the base is used only through [String()]. *)
(* go: proxmox/api/connection.go#normaliseAddress *)
Definition normaliseAddress (addr : string) : goerr + string :=
  if addr =s "" then inl (GText "empty address") else
  let addr := if negb (contains addr "://") then "https://" +:+ addr else addr in
  match url_parse addr with
  | None => inl (GText "parse address")
  | Some u =>
      if Hostname u =s "" then inl (GText "missing host") else
      let host := if Port u =s "" then JoinHostPort (Hostname u) defaultPort else u_Host u in
      inr (base_String {| u_Scheme := u_Scheme u; u_User := u_User u; u_Host := host; u_Path := "";
                          u_RawQuery := ""; u_ForceQuery := u_ForceQuery u; u_Fragment := "" |})
  end.

(** The parse loop of [newConnection]: duplicates of a base already seen are dropped. *)
Fixpoint parse_endpoints (all : list Endpoint) (seen : gset string) (parsed : list parsedEndpoint) :
    goerr + list parsedEndpoint :=
  match all with
  | [] => inr parsed
  | ep :: all' =>
      match normaliseAddress (Address ep) with
      | inl err => inl (GWrap ("api: endpoint " +:+ Address ep) err)
      | inr base =>
          if decide (base ∈ seen) then parse_endpoints all' seen parsed
          else parse_endpoints all' ({[base]} ∪ seen) (parsed ++ [{| pe_Endpoint := ep; pe_base := base |}])
      end
  end.

(** [sort.SliceStable] by priority. *)
Definition prio (p : parsedEndpoint) : Z := Priority (pe_Endpoint p).
Fixpoint insert_stable (p : parsedEndpoint) (l : list parsedEndpoint) : list parsedEndpoint :=
  match l with
  | [] => [p]
  | q :: l' => if (prio q <? prio p)%Z then q :: insert_stable p l' else p :: l
  end.
Definition SliceStable (l : list parsedEndpoint) : list parsedEndpoint := foldr insert_stable [] l.

(* go: proxmox/api/connection.go#newConnection *)
Definition newConnection (primary : string) (extras : list Endpoint) : goerr + connection :=
  let all := {| Name := "primary"; Address := primary; Priority := 0 |} :: extras in
  match parse_endpoints all ∅ [] with
  | inl err => inl err
  | inr parsed => inr {| ordered := SliceStable parsed; current := 0 |}
  end.

(** [baseURL]; [conn_ok] below makes the index be in range. *)
(* go: proxmox/api/connection.go#connection.baseURL *)
Definition baseURL (c : connection) : string := default "" (pe_base <$> ordered c !! current c).

(* go: proxmox/api/connection.go#connection.failover *)
Definition failover (c : connection) : connection * bool :=
  if length (ordered c) <=? 1 then (c, false)
  else ({| ordered := ordered c; current := (current c + 1) mod length (ordered c) |}, true).

(* go: proxmox/api/connection.go#connection.count *)
Definition count (c : connection) : nat := length (ordered c).

(** ** Retry policy *)

(* go: proxmox/api/retry.go#RetryPolicy *)
Record RetryPolicy := {
  Attempts : Z;
  InitialDelay : Z;
  MaxDelay : Z;
  BackoffFactor : spec_float;
  Jitter : bool
}.

(* go: proxmox/api/retry.go#DefaultRetryPolicy *)
Definition DefaultRetryPolicy : RetryPolicy := {|
  Attempts := 3;
  InitialDelay := 200 * 1000000;
  MaxDelay := 10 * 1000000000;
  BackoffFactor := float64_of 2 0;
  Jitter := true
|}.

(** The loop of [delay]: [n] growth steps are left. *)
Fixpoint grow (p : RetryPolicy) (n : nat) (d : Z) : Z :=
  match n with
  | 0 => d
  | S n' =>
      let d := trunc (float_mul (float64_of d 0) (BackoffFactor p)) in
      if (MaxDelay p <=? d)%Z then MaxDelay p else grow p n' d
  end.

(* go: proxmox/api/retry.go#RetryPolicy.delay *)
Definition delay {W} `{World W} (p : RetryPolicy) (attempt : Z) (w : W) : W * Z :=
  let d := grow p (Z.to_nat (attempt - 1)) (InitialDelay p) in
  if Jitter p then
    let half := Z.quot d 2 in
    if (0 <? half)%Z then let '(w, r) := rand_Int64N half w in (w, wrap64 (d + r)) else (w, d)
  else (w, d).

(** ** Responses *)

(* go: proxmox/api/transport.go#isSuccess *)
Definition isSuccess (status : Z) : bool := ((200 <=? status) && (status <? 300))%Z.

(* go: proxmox/api/transport.go#readResponse *)
Definition readResponse {A} (resp : http_response) (path : string) (out : option (json → option A)) :
    goerr + option A :=
  match Body resp with
  | BodyReadError err => inl (GPve (ClassifyNetError path err))
  | _ =>
      let '(env, malformed) := match Body resp with
                               | BodyJson env => (env, false)
                               | BodyMalformed env => (env, true)
                               | _ => (empty_envelope, false)
                               end in
      if malformed && isSuccess (StatusCode resp) && bool_decide (is_Some out) then
        inl (GWrap ("api: decode response from " +:+ path) (GText "invalid JSON"))
      else if negb (isSuccess (StatusCode resp)) then
        inl (GPve (Classify (StatusCode resp) path
                     {| b_Message := env_Message env; b_Errors := env_Errors env |} None))
      else
        match out, env_Data env with
        | Some decode, Some data =>
            match decode data with
            | Some a => inr (Some a)
            | None => inl (GWrap ("api: decode response data from " +:+ path) (GText "type mismatch"))
            end
        | _, _ => inr None
        end
  end.

(** A member of the flattened body: a string is unquoted, any other value keeps its
    token. *)
Definition raw_text (raw : string) : option string :=
  if has_prefix raw quote_byte then
    match Unmarshal raw with Some (JStr s) => Some s | _ => None end
  else Some raw.
(** The text of a value read back into a map of raw members, and from there a form. *)
(* go: proxmox/api/transport.go#L449-L470:formEncode *)
Definition flatten (j : json) : goerr + values :=
  match UnmarshalRaw (marshal j) with
  | None => inl (GWrap "api: form body must encode to a JSON object" (GText "type mismatch"))
  | Some flat =>
      match mapM (λ kv, pair kv.1 <$> raw_text kv.2) flat with
      | None => inl (GWrap "api: decode form field" (GText "invalid string"))
      | Some l => inr (foldl (λ vals kv, <[kv.1 := [kv.2]]> vals) ∅ l)
      end
  end.
(* go: proxmox/api/transport.go#formEncode *)
Definition formEncode (v : option body) : goerr + string :=
  let encoded j := match flatten j with inl err => inl err | inr vals => inr (Encode vals) end in
  match v with
  | None => inr ""
  | Some (BValues vals) => inr (Encode vals)
  | Some (BStruct fields) => encoded (JObj fields)
  | Some (BOther j) => encoded j
  end.

(** What the flattening comes to, without the text in between: names and strings are
    UTF-8 afterwards. *)
Definition fields_form (fields : list (string * json)) : values :=
  foldl (λ vals kv, <[to_utf8 kv.1 := [form_value kv.2]]> vals) ∅ fields.

Lemma raw_text_marshal v : readable v → (Z.of_nat (json_depth v) ≤ maxNestingDepth)%Z →
  raw_text (marshal v) = Some (form_value v).
Proof.
  intros Hv Hd. unfold raw_text. pose proof (Unmarshal_marshal v Hv Hd) as Hu.
  destruct v as [|[]|m e|s|l|l]; try done.
  - destruct (number_head m e) as (c & t & He & Hc). cbn [form_value]. rewrite He in *.
    by destruct c as [[] [] [] [] [] [] [] []].
  - change (marshal (JStr s)) with (quote_byte +:+ json_escape s +:+ quote_byte) in *.
    rewrite has_prefix_app, Hu. done.
Qed.
Lemma flatten_fields l : readable (JObj l) → (Z.of_nat (json_depth (JObj l)) ≤ maxNestingDepth)%Z →
  flatten (JObj l) = inr (fields_form l).
Proof.
  intros Hl Hd. unfold flatten. rewrite UnmarshalRaw_marshal by done.
  assert (mapM (λ kv, pair kv.1 <$> raw_text kv.2) (raw_member <$> l) = Some ((λ kv, (to_utf8 kv.1, form_value kv.2)) <$> l)) as ->.
  { apply mapM_Some_2, Forall2_fmap_2, Forall_Forall2_diag, Forall_forall. intros kv Hkv. cbn.
    inversion Hl as [| | | | |? Hf]; subst. rewrite Forall_forall in Hf.
    rewrite raw_text_marshal; [done|by apply Hf|]. pose proof (depth_member _ _ Hkv). lia. }
  f_equal. unfold fields_form. generalize (∅ : values). induction l as [|kv l IH]; [done|]. intros v. cbn. apply IH.
  - inversion Hl as [| | | | |? Hf]; subst. constructor. by apply Forall_inv_tail in Hf.
  - cbn [json_depth foldr] in *. lia.
Qed.

(** ** Credentials *)

(* go: proxmox/api/credentials.go#L11-L18 *)
Definition ticketSkew : Z := 5 * 60 * 1000000000.
Definition ticketLifetime : Z := 2 * 60 * 60 * 1000000000.

(** The unauthenticated send function handed to [refresh]. *)
(* go: proxmox/api/credentials.go#rawDoer *)
Definition rawDoer (W : Type) : Type :=
  ∀ A : Type, string → string → option body → option (json → option A) → W → W * (goerr + option A).

(** The authentication strategy: [needsRefresh] reads the clock only; [refresh]
    may mint a ticket, and returns the new state of the credentials. *)
(* go: proxmox/api/credentials.go#Credentials *)
Class Credentials (C : Type) := {
  needsRefresh : C → Z → bool;
  refresh : ∀ {W : Type}, World W → C → rawDoer W → bool → W → W * C * option goerr;
  authorize : C → gmap string string → gmap string string;
  csrfToken : C → string
}.

(* go: proxmox/api/credentials.go#tokenCreds *)
Record tokenCreds := { tk_id : string; tk_secret : string }.

(* go: proxmox/api/credentials.go#tokenCreds.authorize *)
Definition tokenCreds_authorize (t : tokenCreds) (h : gmap string string) : gmap string string :=
  <["Authorization" := "PVEAPIToken=" +:+ tk_id t +:+ "=" +:+ tk_secret t]> h.

#[export] Instance tokenCreds_Credentials : Credentials tokenCreds := {|
  needsRefresh _ _ := false;
  refresh _ _ t _ _ w := (w, t, None);
  authorize := tokenCreds_authorize;
  csrfToken _ := ""
|}.

(* go: proxmox/api/credentials.go#TokenCredentials *)
Definition TokenCredentials (tokenID secret : string) : tokenCreds := {| tk_id := tokenID; tk_secret := secret |}.

(** The zero expiry time is [None]. *)
(* go: proxmox/api/credentials.go#ticketCreds *)
Record ticketCreds := { tc_ticket : string; tc_csrf : string; tc_expiry : option Z }.

(* go: proxmox/api/credentials.go#TicketCredentials *)
Definition TicketCredentials (ticket csrf : string) : ticketCreds :=
  {| tc_ticket := ticket; tc_csrf := csrf; tc_expiry := None |}.

(* go: proxmox/api/credentials.go#ticketCreds.needsRefresh *)
Definition ticketCreds_needsRefresh (t : ticketCreds) (now : Z) : bool :=
  match tc_expiry t with
  | None => false
  | Some e => (e <? now + ticketSkew)%Z
  end.

(* go: proxmox/api/credentials.go#ticketCreds.authorize *)
Definition ticketCreds_authorize (t : ticketCreds) (h : gmap string string) : gmap string string :=
  <["Cookie" := "PVEAuthCookie=" +:+ tc_ticket t]> h.

#[export] Instance ticketCreds_Credentials : Credentials ticketCreds := {|
  needsRefresh := ticketCreds_needsRefresh;
  refresh _ _ t _ _ w := (w, t, None);
  authorize := ticketCreds_authorize;
  csrfToken := tc_csrf
|}.

(* go: proxmox/api/credentials.go#userCreds *)
Record userCreds := { uc_user : string; uc_password : string; uc_otp : string; uc_inner : ticketCreds }.

(* go: proxmox/api/credentials.go#UserCredentials *)
Definition UserCredentials (user password otp : string) : userCreds :=
  {| uc_user := user; uc_password := password; uc_otp := otp;
     uc_inner := {| tc_ticket := ""; tc_csrf := ""; tc_expiry := None |} |}.

(* go: proxmox/api/credentials.go#userCreds.needsRefresh *)
Definition userCreds_needsRefresh (u : userCreds) (now : Z) : bool :=
  match tc_expiry (uc_inner u) with
  | None => true
  | Some e => (e <? now + ticketSkew)%Z
  end.

(** The decoded answer of [POST /access/ticket]. *)
Record ticket_response := { tr_Ticket : string; tr_CSRF : string }.
Definition ticket_response_zero : ticket_response := {| tr_Ticket := ""; tr_CSRF := "" |}.
Definition decode_ticket : json → option ticket_response :=
  as_struct ticket_response_zero (λ l,
    t ← str_field "ticket" l; c ← str_field "CSRFPreventionToken" l;
    Some {| tr_Ticket := t; tr_CSRF := c |}).

(* go: proxmox/api/credentials.go#userCreds.refresh *)
Definition userCreds_refresh {W} (WD : World W) (u : userCreds) (do : rawDoer W) (force : bool) (w : W) :
    W * userCreds * option goerr :=
  if negb force && negb (userCreds_needsRefresh u (now w)) then (w, u, None) else
  let body := BStruct ([("username", JStr (uc_user u)); ("password", JStr (uc_password u))] ++
                       omit_str "otp" (uc_otp u)) in
  match do _ "POST" "/access/ticket" (Some body) (Some decode_ticket) w with
  | (w, inl err) => (w, u, Some (GWrap "api: mint ticket" err))
  | (w, inr r) =>
      let resp := default ticket_response_zero r in
      if tr_Ticket resp =s "" then (w, u, Some (GText "api: mint ticket: empty ticket in response"))
      else (w, {| uc_user := uc_user u; uc_password := uc_password u; uc_otp := uc_otp u;
                  uc_inner := {| tc_ticket := tr_Ticket resp; tc_csrf := tr_CSRF resp;
                                 tc_expiry := Some (now w + ticketLifetime)%Z |} |}, None)
  end.

#[export] Instance userCreds_Credentials : Credentials userCreds := {|
  needsRefresh := userCreds_needsRefresh;
  refresh _ := userCreds_refresh;
  authorize u := ticketCreds_authorize (uc_inner u);
  csrfToken u := tc_csrf (uc_inner u)
|}.

(** ** The transport *)

(* go: proxmox/api/transport.go#transport *)
Record transport (C : Type) := {
  conn : connection;
  creds : C;
  policy : RetryPolicy;
  userAgent : string
}.
Arguments conn {_}. Arguments creds {_}. Arguments policy {_}. Arguments userAgent {_}.

Definition with_creds {C} (t : transport C) (c : C) : transport C :=
  {| conn := conn t; creds := c; policy := policy t; userAgent := userAgent t |}.
Definition with_conn {C} (t : transport C) (c : connection) : transport C :=
  {| conn := c; creds := creds t; policy := policy t; userAgent := userAgent t |}.

(* go: proxmox/api/transport.go#L21-L23 *)
Definition defaultUserAgent : string := "proxmox-go-sdk".

Section transport.
Context {W : Type} {WD : World W} {C : Type} {CR : Credentials C}.

Definition base_header (t : transport C) (write : bool) : gmap string string :=
  let h : gmap string string := if userAgent t =s "" then ∅ else {["User-Agent" := userAgent t]} in
  if write then <["Content-Type" := "application/x-www-form-urlencoded"]> h else h.

(** The request [doHTTP] builds, or the error of [formEncode]. *)
Definition build_request (t : transport C) (method fullURL : string) (bdy : option body) : goerr + http_request :=
  let write := isWriteMethod method in
  let encoded := match bdy with
                 | Some _ => if write then match formEncode bdy with inl e => inl e | inr s => inr (Some s) end
                             else inr None
                 | None => inr None
                 end in
  match encoded with
  | inl err => inl err
  | inr bodyReader =>
      if bool_decide (url_parse fullURL = None) then inl (GWrap "api: build request" (GText "parse URL")) else
      let h := authorize (creds t) (base_header t write) in
      let csrf := csrfToken (creds t) in
      let h := if write && (csrf <>s "") then <["CSRFPreventionToken" := csrf]> h else h in
      inr {| hr_Method := method; hr_URL := fullURL; hr_Body := bodyReader; hr_Header := h |}
  end.

(* go: proxmox/api/transport.go#transport.doHTTP *)
Definition doHTTP (t : transport C) (method fullURL : string) (bdy : option body) (w : W) : W * (goerr + http_response) :=
  match build_request t method fullURL bdy with
  | inl err => (w, inl err)
  | inr req => http_Do req w
  end.

(* go: proxmox/api/transport.go#transport.doRaw *)
Definition doRaw (t : transport C) : rawDoer W := λ A method path bdy out w,
  let expandedPath := ExpandPath path in
  let fullURL := baseURL (conn t) +:+ expandedPath in
  match formEncode bdy with
  | inl err => (w, inl err)
  | inr encoded =>
      if bool_decide (url_parse fullURL = None) then (w, inl (GWrap "api: build request" (GText "parse URL"))) else
      match http_Do {| hr_Method := method; hr_URL := fullURL; hr_Body := Some encoded;
                       hr_Header := base_header t true |} w with
      | (w, inl err) => (w, inl (GPve (ClassifyNetError expandedPath err)))
      | (w, inr resp) => (w, readResponse resp expandedPath out)
      end
  end.

(** The attempt loop of one endpoint: [remaining] attempts are left, the next
    is [attempt]. [inl] is a return from [execute], [inr] the end of the loop
    with its [lastErr]. *)
Fixpoint try_attempts {A} (t : transport C) (method fullURL expandedPath : string) (bdy : option body)
    (out : option (json → option A)) (remaining : nat) (attempt : Z) (lastErr : option goerr) (w : W) :
    W * ((goerr + option A) + option goerr) :=
  match remaining with
  | 0 => (w, inr lastErr)
  | S r =>
      match ctx_err w with
      | Some c => (w, inl (inl (GCtx c)))
      | None =>
          let pause w := if (attempt <? Attempts (policy t))%Z
                         then let '(w, d) := delay (policy t) attempt w in wait d w else w in
          match doHTTP t method fullURL bdy w with
          | (w, inl err) =>
              try_attempts t method fullURL expandedPath bdy out r (attempt + 1)
                (Some (GPve (ClassifyNetError expandedPath err))) (pause w)
          | (w, inr resp) =>
              match readResponse resp expandedPath out with
              | inr a => (w, inl (inr a))
              | inl apiErr =>
                  if negb (errors_is apiErr ErrTransient) then (w, inl (inl apiErr))
                  else try_attempts t method fullURL expandedPath bdy out r (attempt + 1) (Some apiErr) (pause w)
              end
          end
      end
  end.

(** The endpoint loop: [n] endpoints are left of [total]. A nil [lastErr] is
    returned as the nil error. *)
Fixpoint try_endpoints {A} (t : transport C) (method expandedPath : string) (bdy : option body)
    (out : option (json → option A)) (n : nat) (w : W) : W * transport C * (goerr + option A) :=
  match n with
  | 0 => (w, t, inl (GWrap "api: all endpoints exhausted" (GSentinel ErrTransient)))
  | S n' =>
      let fullURL := baseURL (conn t) +:+ expandedPath in
      match try_attempts t method fullURL expandedPath bdy out (Z.to_nat (Attempts (policy t))) 1 None w with
      | (w, inl r) => (w, t, r)
      | (w, inr lastErr) =>
          let '(c, ok) := failover (conn t) in
          let t := with_conn t c in
          if negb ok then (w, t, match lastErr with Some e => inl e | None => inr None end)
          else try_endpoints t method expandedPath bdy out n' w
      end
  end.

(* go: proxmox/api/transport.go#transport.execute *)
Definition execute {A} (t : transport C) (method path : string) (bdy : option body)
    (out : option (json → option A)) (w : W) : W * transport C * (goerr + option A) :=
  try_endpoints t method (ExpandPath path) bdy out (count (conn t)) w.

(** [t.creds.refresh(ctx, t.doRaw, force)]. *)
Definition refresh_creds (t : transport C) (force : bool) (w : W) : W * transport C * option goerr :=
  let '(w, c, err) := refresh WD (creds t) (doRaw t) force w in (w, with_creds t c, err).

(* go: proxmox/api/transport.go#transport.DoRequest *)
Definition transport_DoRequest {A} (method path : string) (bdy : option body) (out : option (json → option A))
    (t : transport C) (w : W) : W * transport C * (goerr + option A) :=
  let '(w, t, rerr) := if needsRefresh (creds t) (now w) then refresh_creds t false w else (w, t, None) in
  match rerr with
  | Some err => (w, t, inl err)
  | None =>
      match execute t method path bdy out w with
      | (w, t, inr a) => (w, t, inr a)
      | (w, t, inl err) =>
          if errors_is err ErrTicketExpired then
            match refresh_creds t true w with
            | (w, t, Some rerr) => (w, t, inl rerr)
            | (w, t, None) => execute t method path bdy out w
            end
          else (w, t, inl err)
      end
  end.

(** The transport is a client over its own state and the world. *)
#[export] Instance transport_Client : Client (transport C * W) := {|
  DoRequest A method path bdy out tw :=
    let '(w, t, r) := transport_DoRequest method path bdy out tw.1 tw.2 in ((t, w), r)
|}.
End transport.
