(* ===== verification/TransportProofs.v ===== *)
(** Properties of [Transport]: the connection invariant and the failover cycle,
    the number and order of the requests one call sends, the bounds of the
    backoff, and the single minting of a ticket. *)

From S2P Require Import Prelude Json Pverr Api Url Transport.
From Stdlib Require Import ZArith Lia Floats.SpecFloat.
From stdpp Require Import options.
Set Default Proof Using "Type*".

(** ** The connection *)

(** The index of the active endpoint is in range, so [baseURL] never panics. *)
Definition conn_ok (c : connection) : Prop := current c < length (ordered c).

Lemma failover_ok c : conn_ok c → conn_ok (failover c).1.
Proof.
  unfold conn_ok, failover. intros H. destruct (Nat.leb_spec (length (ordered c)) 1); [done|].
  cbn. apply Nat.mod_upper_bound. lia.
Qed.

Lemma insert_stable_perm p l : insert_stable p l ≡ₚ p :: l.
Proof.
  induction l as [|q l IH]; cbn; [done|]. case_match; [|done]. rewrite IH. apply Permutation_swap.
Qed.

Lemma SliceStable_perm l : SliceStable l ≡ₚ l.
Proof. induction l as [|p l IH]; cbn; [done|]. by rewrite insert_stable_perm, IH. Qed.

Definition prio_le (p q : parsedEndpoint) : Prop := (prio p ≤ prio q)%Z.

Lemma insert_stable_sorted p l : StronglySorted prio_le l → StronglySorted prio_le (insert_stable p l).
Proof.
  induction 1 as [|q l Hl IH Hq]; cbn; [by repeat constructor|].
  destruct (Z.ltb_spec (prio q) (prio p)).
  - constructor; [done|]. rewrite Forall_forall in Hq |- *. intros r Hr.
    rewrite insert_stable_perm in Hr. apply elem_of_cons in Hr as [->|Hr]; [unfold prio_le; lia|by apply Hq].
  - constructor; [by constructor|]. constructor; [done|].
    eapply Forall_impl; [done|]. unfold prio_le. intros; lia.
Qed.

Lemma SliceStable_sorted l : StronglySorted prio_le (SliceStable l).
Proof. induction l; cbn; [constructor|by apply insert_stable_sorted]. Qed.

Lemma insert_stable_filter p l k :
  StronglySorted prio_le l →
  filter (λ q, prio q = k) (insert_stable p l) = filter (λ q, prio q = k) (p :: l).
Proof.
  induction 1 as [|q l Hl IH Hq]; [done|]. cbn [insert_stable].
  destruct (Z.ltb_spec (prio q) (prio p)); [|done].
  rewrite (filter_cons _ q), IH, !filter_cons.
  repeat case_decide; simplify_eq; try done; try lia.
Qed.

(** Equal priorities keep the order of declaration. *)
Lemma SliceStable_stable l k :
  filter (λ q, prio q = k) (SliceStable l) = filter (λ q, prio q = k) l.
Proof.
  induction l as [|p l IH]; [done|]. change (SliceStable (p :: l)) with (insert_stable p (SliceStable l)).
  rewrite insert_stable_filter by apply SliceStable_sorted. by rewrite !filter_cons, IH.
Qed.

(** What the parse loop accumulates. *)
Lemma parse_endpoints_spec all : ∀ seen parsed l,
  parse_endpoints all seen parsed = inr l →
  (∀ b, b ∈ pe_base <$> parsed ↔ b ∈ seen) → NoDup (pe_base <$> parsed) →
  NoDup (pe_base <$> l) ∧
  (∃ new, l = parsed ++ new ∧ (pe_Endpoint <$> new) `sublist_of` all ∧
    Forall (λ p, normaliseAddress (Address (pe_Endpoint p)) = inr (pe_base p)) new) ∧
  (∀ ep, ep ∈ all → ∃ p, p ∈ l ∧ normaliseAddress (Address ep) = inr (pe_base p)).
Proof.
  induction all as [|ep all IH]; intros seen parsed l Hl Hseen Hnd; cbn in Hl.
  { simplify_eq. split_and!; [done| |set_solver]. exists []. by rewrite app_nil_r. }
  destruct (normaliseAddress (Address ep)) as [|base] eqn:Hbase; [done|].
  case_decide as Hin.
  - destruct (IH _ _ _ Hl Hseen Hnd) as (Hnd' & (new & -> & Hsub & Hnew) & Hall). split_and!; [done| |].
    + exists new. split_and!; [done|by apply sublist_cons|done].
    + intros ep' [->|Hep]%elem_of_cons; [|by apply Hall].
      apply Hseen in Hin. apply list_elem_of_fmap in Hin as (p & -> & Hp).
      exists p. split; [set_solver|done].
  - apply IH in Hl as (Hnd' & (new & -> & Hsub & Hnew) & Hall).
    + split_and!; [done| |].
      * exists ({| pe_Endpoint := ep; pe_base := base |} :: new). rewrite <- app_assoc.
        split_and!; [done|by apply sublist_skip|by constructor].
      * intros ep' [->|Hep]%elem_of_cons; [|by apply Hall].
        exists {| pe_Endpoint := ep; pe_base := base |}. split; [set_solver|done].
    + intros b. rewrite fmap_app. set_solver.
    + rewrite fmap_app. apply NoDup_app. split_and!; [done| |apply NoDup_singleton].
      intros b Hb. cbn. rewrite list_elem_of_singleton. intros ->. by apply Hin, Hseen.
Qed.

(** C34. The endpoint set [newConnection] builds: the active index is in range, no
    base URL occurs twice, the order is by priority with ties in declaration
    order, every endpoint kept is one that was given, under its normalised base,
    and every given address (the primary first of all) is reachable through an
    endpoint that was kept. *)
Theorem newConnection_spec primary extras c :
  let all := {| Name := "primary"; Address := primary; Priority := 0 |} :: extras in
  newConnection primary extras = inr c →
  conn_ok c ∧ NoDup (pe_base <$> ordered c) ∧ StronglySorted prio_le (ordered c) ∧
  (∀ k, (pe_Endpoint <$> filter (λ p, prio p = k) (ordered c)) `sublist_of` all) ∧
  (∀ p, p ∈ ordered c → normaliseAddress (Address (pe_Endpoint p)) = inr (pe_base p)) ∧
  (∀ ep, ep ∈ all → ∃ p, p ∈ ordered c ∧ normaliseAddress (Address ep) = inr (pe_base p)).
Proof.
  intros all Hc. unfold newConnection in Hc. fold all in Hc.
  destruct (parse_endpoints all ∅ []) as [|l] eqn:Hl; simplify_eq.
  apply parse_endpoints_spec in Hl as (Hnd & (new & -> & Hsub & Hnew) & Hall); [|set_solver|constructor].
  cbn [ordered] in *. cbn [app] in *. unfold conn_ok. cbn. split_and!.
  - rewrite SliceStable_perm. destruct (Hall _ ltac:(apply list_elem_of_here)) as (p & Hp & _).
    destruct new; [by apply not_elem_of_nil in Hp|cbn; lia].
  - by rewrite SliceStable_perm.
  - apply SliceStable_sorted.
  - intros k. rewrite SliceStable_stable. etrans; [|apply Hsub].
    apply fmap_sublist, sublist_filter.
  - intros p Hp. rewrite SliceStable_perm in Hp. by eapply Forall_forall in Hnew.
  - intros ep Hep. destruct (Hall ep Hep) as (p & Hp & Hn). exists p. by rewrite SliceStable_perm.
Qed.

Definition conn_example : connection := {|
  ordered := [
    {| pe_Endpoint := {| Name := "primary"; Address := "pve1"; Priority := 0 |}; pe_base := "https://pve1:8006" |};
    {| pe_Endpoint := {| Name := "c"; Address := "pve3:9000"; Priority := 1 |}; pe_base := "https://pve3:9000" |};
    {| pe_Endpoint := {| Name := "b"; Address := "https://pve2/"; Priority := 2 |}; pe_base := "https://pve2:8006" |}];
  current := 0 |}.
Definition extras_example : list Endpoint :=
  [{| Name := "b"; Address := "https://pve2/"; Priority := 2 |};
   {| Name := "dup"; Address := "https://pve1:8006"; Priority := 1 |};
   {| Name := "c"; Address := "pve3:9000"; Priority := 1 |}].

Lemma newConnection_spec_witness :
  newConnection "pve1" extras_example = inr conn_example ∧ conn_ok conn_example.
Proof.
  assert (newConnection "pve1" extras_example = inr conn_example) as H by (vm_compute; reflexivity).
  split; [exact H|]. exact (proj1 (newConnection_spec _ _ _ H)).
Defined.

(** ** How many requests a call sends *)

(** A measure of the world that counts HTTP round trips and nothing else. *)
Class SendCounter (W : Type) `{World W} (μ : W → nat) := {
  counter_send r w : μ (http_Do r w).1 ≤ S (μ w);
  counter_wait d w : μ (wait d w) = μ w;
  counter_rand n w : μ (rand_Int64N n w).1 = μ w
}.

Lemma counter_delay `{SendCounter W μ} p a w : μ (delay p a w).1 = μ w.
Proof.
  unfold delay. repeat case_match; simplify_eq/=; try done.
  match goal with E : rand_Int64N ?h ?w = _ |- _ => pose proof (counter_rand (μ := μ) h w) as Hr; rewrite E in Hr end.
  done.
Qed.

Section bounds.
Context `{SendCounter W μ} `{CR : Credentials C}.
Implicit Types t : transport C.

Definition attempts_of t : nat := Z.to_nat (Attempts (policy t)).

Lemma counter_doHTTP t method url bdy w : μ (doHTTP t method url bdy w).1 ≤ S (μ w).
Proof. unfold doHTTP. case_match; cbn; [lia|]. apply counter_send. Qed.

Lemma counter_pause t (b : bool) attempt w :
  μ (if b then let '(w, d) := delay (policy t) attempt w in wait d w else w) = μ w.
Proof.
  destruct b; [|done]. destruct (delay _ attempt w) as [w' d] eqn:E.
  rewrite counter_wait. pose proof (counter_delay (μ := μ) (policy t) attempt w) as Hd. by rewrite E in Hd.
Qed.

Lemma counter_attempts {A} t method url epath bdy (out : option (json → option A)) r attempt lastErr w :
  μ (try_attempts t method url epath bdy out r attempt lastErr w).1 ≤ μ w + r.
Proof.
  revert attempt lastErr w. induction r as [|r IH]; intros attempt lastErr w; cbn [try_attempts]; [cbn; lia|].
  destruct (ctx_err w); [cbn; lia|].
  pose proof (counter_doHTTP t method url bdy w) as Hs.
  destruct (doHTTP t method url bdy w) as [w' [err|resp]]; cbn in Hs.
  - etrans; [apply IH|]. rewrite counter_pause. lia.
  - destruct (readResponse resp epath out) as [e|a]; [|cbn; lia].
    destruct (negb _); [cbn; lia|]. etrans; [apply IH|]. rewrite counter_pause. lia.
Qed.

Lemma endpoints_static {A} t method epath bdy (out : option (json → option A)) n w :
  policy (try_endpoints t method epath bdy out n w).1.2 = policy t ∧
  creds (try_endpoints t method epath bdy out n w).1.2 = creds t ∧
  userAgent (try_endpoints t method epath bdy out n w).1.2 = userAgent t ∧
  ordered (conn (try_endpoints t method epath bdy out n w).1.2) = ordered (conn t).
Proof.
  revert t w. induction n as [|n IH]; intros t w; cbn [try_endpoints]; [done|].
  destruct (try_attempts _ _ _ _ _ _ _ _ _ _) as [w' [r|e]]; [done|].
  destruct (failover (conn t)) as [c ok] eqn:E.
  assert (ordered c = ordered (conn t)) as Hc.
  { unfold failover in E. case_match; by simplify_eq. }
  destruct ok; cbn; [|done].
  destruct (IH (with_conn t c) w') as (-> & -> & -> & ->). done.
Qed.

Lemma counter_endpoints {A} t method epath bdy (out : option (json → option A)) n w :
  μ (try_endpoints t method epath bdy out n w).1.1 ≤ μ w + n * attempts_of t.
Proof.
  revert t w. induction n as [|n IH]; intros t w; cbn [try_endpoints]; [cbn; lia|].
  pose proof (counter_attempts t method (baseURL (conn t) +:+ epath) epath bdy out (attempts_of t) 1 None w) as Ha.
  unfold attempts_of in Ha.
  destruct (try_attempts _ _ _ _ _ _ _ _ _ _) as [w' [r|e]]; cbn in *; [unfold attempts_of; lia|].
  destruct (failover (conn t)) as [c ok]. destruct ok; cbn; [|unfold attempts_of; lia].
  etrans; [apply IH|]. unfold attempts_of in *. cbn in *. lia.
Qed.

Lemma counter_execute {A} t method path bdy (out : option (json → option A)) w :
  μ (execute t method path bdy out w).1.1 ≤ μ w + count (conn t) * attempts_of t.
Proof. apply counter_endpoints. Qed.

Lemma counter_doRaw t A method path bdy (out : option (json → option A)) w :
  μ (doRaw t A method path bdy out w).1 ≤ S (μ w).
Proof.
  unfold doRaw. destruct (formEncode bdy) as [|enc]; cbn; [lia|].
  destruct (bool_decide _); cbn; [lia|].
  match goal with |- context [http_Do ?r w] => pose proof (counter_send (μ := μ) r w) as Hs; destruct (http_Do r w) as [w' [e|resp]] end;
    cbn in *; done.
Qed.
End bounds.

(** The promise every credential strategy makes to the transport: one refresh
    sends at most one request. *)
Class LawfulCredentials (C : Type) `{CR : Credentials C} := {
  refresh_once {W} (WD : World W) (μ : W → nat) (c : C) (do : rawDoer W) force w :
    (∀ A method path bdy (out : option (json → option A)) w, μ (do A method path bdy out w).1 ≤ S (μ w)) →
    μ (refresh WD c do force w).1.1 ≤ S (μ w)
}.

#[export] Instance tokenCreds_lawful : LawfulCredentials tokenCreds.
Proof. constructor. cbn. lia. Qed.
#[export] Instance ticketCreds_lawful : LawfulCredentials ticketCreds.
Proof. constructor. cbn. lia. Qed.
#[export] Instance userCreds_lawful : LawfulCredentials userCreds.
Proof.
  constructor. intros W WD μ c do force w Hdo. cbn. unfold userCreds_refresh.
  destruct (negb force && _); [cbn; lia|].
  match goal with |- context [do ?A ?m ?p ?b ?o w] => pose proof (Hdo A m p b o w) as Hs; destruct (do A m p b o w) as [w' [e|r]] end;
    cbn in *; [done|]. by case_match.
Qed.

(** C25. One call of [DoRequest] sends a bounded number of requests whatever the
    network answers: at most every attempt on every endpoint, twice, and at most
    two ticket mints. The retry, failover and re-authentication loops terminate. *)
Theorem DoRequest_send_bound `{WD : World W} (μ : W → nat) `{!SendCounter W μ}
    `{CR : Credentials C} `{!LawfulCredentials C} {A} (t : transport C)
    method path bdy (out : option (json → option A)) w :
  μ (transport_DoRequest method path bdy out t w).1.1 ≤
  μ w + 2 * (count (conn t) * Z.to_nat (Attempts (policy t))) + 2.
Proof.
  unfold transport_DoRequest.
  assert (∀ t f w, μ (refresh_creds t f w).1.1 ≤ S (μ w) ∧
    conn (refresh_creds t f w).1.2 = conn t ∧ policy (refresh_creds t f w).1.2 = policy t) as Href.
  { intros t' f w0. unfold refresh_creds.
    pose proof (refresh_once WD μ (creds t') (doRaw t') f w0 (counter_doRaw (μ := μ) t')) as Hr.
    destruct (refresh _ _ _ _ _) as [[w1 c] e]; done. }
  pose proof (Href t false w) as Hr. set (first := if needsRefresh _ _ then _ else _).
  assert (μ first.1.1 ≤ S (μ w) ∧ conn first.1.2 = conn t ∧ policy first.1.2 = policy t) as Hfirst.
  { subst first. destruct (needsRefresh _ _); [done|]. cbn. split_and!; [lia|done..]. }
  destruct first as [[w1 t1] [e|]]; cbn in Hfirst; destruct Hfirst as (Hw1 & Hc1 & Hp1); [cbn; lia|].
  pose proof (counter_execute (μ := μ) t1 method path bdy out w1) as He.
  pose proof (endpoints_static t1 method (ExpandPath path) bdy out (count (conn t1)) w1) as Hst.
  fold (execute t1 method path bdy out w1) in Hst. unfold attempts_of, count in *. rewrite Hc1, Hp1 in *.
  destruct (execute t1 method path bdy out w1) as [[w2 t2] [err|a]]; cbn in *; [|lia].
  destruct Hst as (Hp2 & _ & _ & Ho2).
  destruct (errors_is err ErrTicketExpired); [|cbn; lia].
  pose proof (Href t2 true w2) as (Hw3 & Hc3 & Hp3).
  destruct (refresh_creds t2 true w2) as [[w3 t3] [rerr|]]; cbn in *; [lia|].
  pose proof (counter_execute (μ := μ) t3 method path bdy out w3) as He3. unfold attempts_of, count in He3.
  rewrite Hc3, Hp3, Ho2, Hp2 in He3. lia.
Qed.

(** A concrete world: it counts the requests it is sent and refuses them all. *)
Definition refusing_world : World nat := {|
  now _ := 0%Z;
  ctx_err _ := None;
  wait _ w := w;
  rand_Int64N _ w := (w, 0%Z);
  http_Do _ w := (S w, inl (GNet "connection refused"))
|}.

Definition transport_example : transport userCreds := {|
  conn := conn_example;
  creds := UserCredentials "root@pam" "secret" "";
  policy := DefaultRetryPolicy;
  userAgent := defaultUserAgent
|}.

Lemma DoRequest_send_bound_witness :
  @SendCounter nat refusing_world id ∧ LawfulCredentials userCreds ∧
  (@transport_DoRequest nat refusing_world _ _ json "GET" "/version" None None transport_example 0).1.1 ≤
    0 + 2 * (3 * 3) + 2.
Proof.
  assert (@SendCounter nat refusing_world id) as Hc by (constructor; intros; cbn; lia).
  split_and!; [exact Hc|apply _|].
  exact (@DoRequest_send_bound nat refusing_world id Hc userCreds _ _ json transport_example
           "GET" "/version" None None 0).
Defined.

(** ** The order of the requests *)

(** A world that records the URLs it is sent, and a network on which every
    request fails with an error the classification calls transient. *)
Class SendTrace (W : Type) `{World W} (τ : W → list string) := {
  trace_send r w : τ (http_Do r w).1 = τ w ++ [hr_URL r];
  trace_wait d w : τ (wait d w) = τ w;
  trace_rand n w : τ (rand_Int64N n w).1 = τ w
}.




Section order.
Context `{SendTrace W τ} `{!TransientNet W} `{CR : Credentials C}.
Implicit Types t : transport C.


End order.







Section endpoints.
Context `{SendTrace W τ} `{!TransientNet W} `{CR : Credentials C}.

End endpoints.


#[export] Instance refusing_trace : @SendTrace (list string)
  {| now _ := 0%Z; ctx_err _ := None; wait _ w := w; rand_Int64N _ w := (w, 0%Z);
     http_Do r w := (w ++ [hr_URL r], inl (GNet "connection refused")) |} id.
Proof. by constructor. Defined.


(** The first answer that is not transient ends the call: it is returned as it
    is, after one request to the active endpoint, without backoff, failover or
    any change to the credentials. *)
Theorem execute_first_answer `{WD : World W} `{CR : Credentials C} {A} (t : transport C)
    method path bdy (out : option (json → option A)) req w w' resp :
  conn_ok (conn t) → (0 < Attempts (policy t))%Z → ctx_err w = None →
  build_request t method (baseURL (conn t) +:+ ExpandPath path) bdy = inr req →
  http_Do req w = (w', inr resp) →
  (∀ e, readResponse resp (ExpandPath path) out = inl e → errors_is e ErrTransient = false) →
  execute t method path bdy out w = (w', t, readResponse resp (ExpandPath path) out).
Proof.
  intros Hok Ha Hctx Hreq Hdo Hans. unfold execute.
  destruct (count (conn t)) eqn:Hn; [unfold conn_ok, count in *; lia|]. cbn [try_endpoints].
  destruct (Z.to_nat (Attempts (policy t))) eqn:Hat; [lia|]. cbn [try_attempts].
  rewrite Hctx. unfold doHTTP. rewrite Hreq, Hdo.
  destruct (readResponse resp (ExpandPath path) out) as [e|a]; [|done].
  by rewrite (Hans e eq_refl).
Qed.

(** A world whose server answers every request with the given status. *)
Definition answering_world (status : Z) : World nat := {|
  now _ := 0%Z; ctx_err _ := None; wait _ w := w; rand_Int64N _ w := (w, 0%Z);
  http_Do _ w := (S w, inr {| StatusCode := status; Body := BodyEmpty |})
|}.

Lemma execute_first_answer_witness :
  @execute nat (answering_world 404) _ _ json transport_example "DELETE" "/nodes/n/qemu/1" None None 0 =
    (1, transport_example,
     readResponse {| StatusCode := 404; Body := BodyEmpty |} "/api2/json/nodes/n/qemu/1" None).
Proof.
  refine (@execute_first_answer nat (answering_world 404) userCreds _ json transport_example
    "DELETE" "/nodes/n/qemu/1" None None _ 0 1 _ _ _ _ _ _ _).
  - cbv; lia.
  - reflexivity.
  - reflexivity.
  - vm_compute; reflexivity.
  - reflexivity.
  - intros e [= <-]. vm_compute. reflexivity.
Defined.

(** With a policy of no attempts and one endpoint, the call reports success
    with nothing decoded although no request was sent, whatever the request. *)
Theorem execute_without_attempts `{WD : World W} `{CR : Credentials C} {A} (t : transport C)
    method path bdy (out : option (json → option A)) w :
  (Attempts (policy t) ≤ 0)%Z → count (conn t) = 1 →
  execute t method path bdy out w = (w, t, inr None).
Proof.
  intros Ha Hn. unfold execute. rewrite Hn. cbn [try_endpoints].
  replace (Z.to_nat (Attempts (policy t))) with 0 by lia. cbn [try_attempts].
  unfold failover. unfold count in Hn. rewrite Hn. by destruct t.
Qed.

Lemma execute_without_attempts_witness :
  let t := {| conn := {| ordered := take 1 (ordered conn_example); current := 0 |};
              creds := TokenCredentials "root@pam!ci" "s";
              policy := {| Attempts := 0; InitialDelay := 0; MaxDelay := 0;
                           BackoffFactor := float64_of 1 0; Jitter := false |};
              userAgent := "" |} in
  @execute nat refusing_world _ _ json t "DELETE" "/nodes/n/qemu/1" None None 0 = (0, t, inr None).
Proof. intros t. apply (@execute_without_attempts nat refusing_world); [cbn; lia|reflexivity]. Defined.

(** ** Re-authentication *)

(** A server that honours one ticket at a time: a form [account] posted to [url] mints
    the next one; any other request is served when its cookie holds the live ticket,
    and refused with a 401 that names the ticket otherwise. *)
Definition mints (url : string) (r : http_request) : bool := (hr_Method r =s "POST") && (hr_URL r =s url).
Definition ticket_data (tk : string * string) : json :=
  JObj [("ticket", JStr tk.1); ("CSRFPreventionToken", JStr tk.2)].
Class TicketServer (W : Type) `{World W} (url account : string) := {
  ts_log : W → list http_request;
  ts_live : W → string;
  ts_next : W → string * string;
  ts_serves : http_request → W → http_response;
  ts_refusal : string;
  ts_running w : ctx_err w = None;
  ts_expired : ticket_message ts_refusal = true;
  ts_logs r w : ts_log (http_Do r w).1 = ts_log w ++ [r];
  ts_mint r w : mints url r = true → hr_Body r = Some account →
    (ts_next w).1 ≠ "" ∧ ts_live (http_Do r w).1 = (ts_next w).1 ∧
    (http_Do r w).2 = inr {| StatusCode := 200; Body := BodyJson
      {| env_Data := Some (ticket_data (ts_next w)); env_Errors := ∅; env_Message := "" |} |};
  ts_request r w : mints url r = false →
    ts_live (http_Do r w).1 = ts_live w ∧
    (http_Do r w).2 = inr (
      if decide (hr_Header r !! "Cookie" = Some ("PVEAuthCookie=" +:+ ts_live w)) then ts_serves r w
      else {| StatusCode := 401; Body := BodyJson {| env_Data := None; env_Errors := ∅; env_Message := ts_refusal |} |})
}.

Definition account_fields (u : userCreds) : list (string * json) :=
  [("username", JStr (uc_user u)); ("password", JStr (uc_password u))] ++ omit_str "otp" (uc_otp u).



Section reauthentication.
Context `{WD : World W} (t : transport userCreds) (account : string).
Definition mint_url : string := baseURL (conn t) +:+ ExpandPath "/access/ticket".
Context `{!TicketServer W mint_url account}.
Context (Haccount : account = Encode (fields_form (account_fields (creds t)))).
Context (Hurl : url_parse mint_url ≠ None).


End reauthentication.


(** Such a server, a client with a stale ticket, and its call. *)
Record ticket_world := { tw_log : list http_request; tw_live : string }.
Definition stale_transport : transport userCreds := {|
  conn := conn_example; policy := DefaultRetryPolicy; userAgent := defaultUserAgent;
  creds := {| uc_user := "root@pam"; uc_password := "s&cret"; uc_otp := "";
              uc_inner := {| tc_ticket := "PVE:old"; tc_csrf := "c0"; tc_expiry := Some ticketLifetime |} |}
|}.
Definition stale_account : string := Encode (fields_form (account_fields (creds stale_transport))).
Definition ticket_reply (r : http_request) (w : ticket_world) : string * http_response :=
  if mints (mint_url stale_transport) r then
    if bool_decide (hr_Body r = Some stale_account) then
      ("PVE:new", {| StatusCode := 200; Body := BodyJson
         {| env_Data := Some (ticket_data ("PVE:new", "c1")); env_Errors := ∅; env_Message := "" |} |})
    else (tw_live w, {| StatusCode := 401; Body := BodyEmpty |})
  else (tw_live w,
    if decide (hr_Header r !! "Cookie" = Some ("PVEAuthCookie=" +:+ tw_live w)) then
      {| StatusCode := 200; Body := BodyJson {| env_Data := Some (JStr "9.1"); env_Errors := ∅; env_Message := "" |} |}
    else {| StatusCode := 401; Body := BodyJson {| env_Data := None; env_Errors := ∅; env_Message := "Invalid ticket" |} |}).
#[local] Instance ticket_world_World : World ticket_world := {|
  now _ := 0%Z; ctx_err _ := None; wait _ w := w; rand_Int64N _ w := (w, 0%Z);
  http_Do r w := let '(live, resp) := ticket_reply r w in ({| tw_log := tw_log w ++ [r]; tw_live := live |}, inr resp)
|}.
#[local, refine] Instance ticket_world_server : TicketServer ticket_world (mint_url stale_transport) stale_account := {|
  ts_log := tw_log; ts_live := tw_live; ts_next _ := ("PVE:new", "c1"); ts_refusal := "Invalid ticket";
  ts_serves _ _ := {| StatusCode := 200; Body := BodyJson {| env_Data := Some (JStr "9.1"); env_Errors := ∅; env_Message := "" |} |}
|}.
Proof.
  - done.
  - vm_compute. reflexivity.
  - intros r w. cbn. by destruct (ticket_reply r w).
  - intros r w Hm Hb. cbn. unfold ticket_reply. by rewrite Hm, bool_decide_eq_true_2.
  - intros r w Hm. cbn. unfold ticket_reply. by rewrite Hm.
Defined.

Definition ticket_transport : transport ticketCreds := {|
  conn := conn_example; creds := TicketCredentials "PVE:x" "csrf";
  policy := DefaultRetryPolicy; userAgent := defaultUserAgent
|}.

(** A ticket is minted once: after a refresh that minted one, every unforced
    refresh until five minutes before its two-hour lifetime ends, in particular
    the one of a caller that was waiting for the lock, sends nothing and keeps
    the ticket. *)
Theorem refresh_mints_once {W} (WD : World W) (u u' : userCreds) (do do' : rawDoer W) force w w' w2 :
  userCreds_refresh WD u do force w = (w', u', None) →
  force = true ∨ userCreds_needsRefresh u (now w) = true →
  (now w2 + ticketSkew ≤ now w' + ticketLifetime)%Z →
  uc_user u' = uc_user u ∧ uc_password u' = uc_password u ∧ tc_ticket (uc_inner u') ≠ "" ∧
  userCreds_refresh WD u' do' false w2 = (w2, u', None).
Proof.
  intros Hr Hmint Hnow. unfold userCreds_refresh in Hr.
  assert (negb force && negb (userCreds_needsRefresh u (now w)) = false) as Hf.
  { destruct Hmint as [->| ->]; [done|]. by rewrite andb_false_r. }
  rewrite Hf in Hr.
  match type of Hr with context [do ?A ?m ?p ?b ?o w] => destruct (do A m p b o w) as [w1 [e|r]] end; [done|].
  set (resp := default ticket_response_zero r) in Hr. revert Hr.
  case_bool_decide as Et; [done|]. intros [= <- <-].
  cbn [uc_user uc_password uc_inner tc_ticket].
  split_and!; [done..|]. unfold userCreds_refresh, userCreds_needsRefresh; cbn.
  destruct (Z.ltb_spec (now w1 + ticketLifetime) (now w2 + ticketSkew)); [lia|done].
Qed.

Definition minting_doer : rawDoer Z := λ A _ _ _ out w,
  (w, inr (match out with
           | Some d => d (JObj [("ticket", JStr "PVE:1"); ("CSRFPreventionToken", JStr "c")])
           | None => None
           end)).
Definition clock_world : World Z := {|
  now w := w; ctx_err _ := None; wait d w := (w + d)%Z; rand_Int64N _ w := (w, 0%Z);
  http_Do _ w := (w, inl GNetClosed)
|}.

Lemma refresh_mints_once_witness : ∃ u',
  userCreds_refresh clock_world (UserCredentials "root@pam" "pw" "") minting_doer false 0%Z = (0%Z, u', None) ∧
  userCreds_refresh clock_world u' minting_doer false (60 * 60 * 1000000000)%Z = ((60 * 60 * 1000000000)%Z, u', None).
Proof.
  eexists. split; [vm_compute; reflexivity|].
  refine (proj2 (proj2 (proj2 (refresh_mints_once clock_world (UserCredentials "root@pam" "pw" "") _ minting_doer
    minting_doer false 0%Z 0%Z _ _ _ _)))).
  - vm_compute; reflexivity.
  - right. reflexivity.
  - cbn. unfold ticketSkew, ticketLifetime. lia.
Defined.

(** ** The request and the backoff *)

(** What [doHTTP] puts on the wire: the method and URL it was given; a body
    exactly when the call has one and the method writes; the CSRF token exactly
    on writes of credentials that have one; and the authorization of the
    credentials, whatever the other headers. *)
Theorem build_request_headers `{CR : Credentials C} (t : transport C) method url bdy req :
  build_request t method url bdy = inr req →
  hr_Method req = method ∧ hr_URL req = url ∧
  (is_Some (hr_Body req) ↔ is_Some bdy ∧ isWriteMethod method = true) ∧
  (∀ k v, authorize (creds t) (base_header t (isWriteMethod method)) !! k = Some v →
     k ≠ "CSRFPreventionToken" → hr_Header req !! k = Some v) ∧
  (isWriteMethod method = true → csrfToken (creds t) ≠ "" →
     hr_Header req !! "CSRFPreventionToken" = Some (csrfToken (creds t))) ∧
  (isWriteMethod method = false ∨ csrfToken (creds t) = "" →
     hr_Header req = authorize (creds t) (base_header t (isWriteMethod method))).
Proof.
  unfold build_request. destruct (match bdy with Some _ => _ | None => _ end) as [|enc] eqn:Henc; [done|].
  case_bool_decide; [done|]. intros [= <-]. cbn [hr_Method hr_URL hr_Body hr_Header].
  assert (is_Some enc ↔ is_Some bdy ∧ isWriteMethod method = true) as Hbody.
  { destruct bdy as [b|]; [|simplify_eq; split; [by intros [? ?]|by intros [[? ?] _]]].
    destruct (isWriteMethod method); [|simplify_eq; split; [by intros [? ?]|by intros [_ ?]]].
    destruct (formEncode (Some b)); simplify_eq. split; eauto. }
  destruct (isWriteMethod method); cbn [andb];
    [destruct (decide (csrfToken (creds t) = "")) as [He|He];
      [rewrite bool_decide_eq_true_2 by done|rewrite bool_decide_eq_false_2 by done]|]; cbn [negb];
    split_and!; try done; try (by intros [?|?]).
  - intros k v Hk Hne. by rewrite lookup_insert_ne.
  - intros _ _. apply lookup_insert_eq.
Qed.

Definition create_request : http_request := {|
  hr_Method := "POST"; hr_URL := "https://pve1:8006/api2/json/nodes/n/qemu"; hr_Body := Some "vmid=100";
  hr_Header := {[ "CSRFPreventionToken" := "csrf"; "Cookie" := "PVEAuthCookie=PVE:x";
                  "Content-Type" := "application/x-www-form-urlencoded"; "User-Agent" := "proxmox-go-sdk" ]}
|}.

Lemma build_request_headers_witness :
  build_request ticket_transport "POST" "https://pve1:8006/api2/json/nodes/n/qemu"
    (Some (BStruct [("vmid", JNum 100 0)])) = inr create_request ∧
  hr_Header create_request !! "CSRFPreventionToken" = Some "csrf" ∧
  (is_Some (hr_Body create_request) ↔ is_Some (Some (BStruct [("vmid", JNum 100 0)])) ∧ isWriteMethod "POST" = true).
Proof.
  assert (build_request ticket_transport "POST" "https://pve1:8006/api2/json/nodes/n/qemu"
    (Some (BStruct [("vmid", JNum 100 0)])) = inr create_request) as Hreq by (vm_compute; reflexivity).
  split; [exact Hreq|].
  destruct (build_request_headers ticket_transport "POST" "https://pve1:8006/api2/json/nodes/n/qemu"
    (Some (BStruct [("vmid", JNum 100 0)])) create_request Hreq) as (_ & _ & Hb & _ & Hc & _).
  split; [|exact Hb]. refine (Hc eq_refl _). discriminate.
Defined.

Lemma grow_bound p n d : (grow p n d ≤ Z.max d (MaxDelay p))%Z.
Proof.
  revert d. induction n as [|n IH]; intros d; cbn [grow]; [lia|].
  destruct (Z.leb_spec (MaxDelay p) (trunc (float_mul (float64_of d 0) (BackoffFactor p)))); [lia|].
  etrans; [apply IH|]. lia.
Qed.

(** The backoff before an attempt stays within one and a half times the larger
    of the initial and the maximal delay, whatever the growth factor (infinite
    and not-a-number ones included) and the random source, and the jitter never
    shortens it or wraps it around. *)
Theorem delay_bound `{WD : World W} (p : RetryPolicy) attempt w m :
  (∀ n, 0 < n → 0 ≤ (rand_Int64N n w).2 < n)%Z →
  (0 ≤ m ≤ 2 ^ 62)%Z → (InitialDelay p ≤ m)%Z → (MaxDelay p ≤ m)%Z →
  (grow p (Z.to_nat (attempt - 1)) (InitialDelay p) ≤ (delay p attempt w).2 ≤ m + m / 2)%Z.
Proof.
  intros Hrand Hm Hi Hx. pose proof (grow_bound p (Z.to_nat (attempt - 1)) (InitialDelay p)) as Hg.
  unfold delay. set (d := grow _ _ _) in *.
  assert (d ≤ m + m / 2)%Z by (pose proof (Z.div_pos m 2 ltac:(lia) ltac:(lia)); lia).
  destruct (Jitter p); [|cbn; lia]. destruct (Z.ltb_spec 0 (Z.quot d 2)) as [Hh|Hh]; [|cbn; lia].
  specialize (Hrand _ Hh). destruct (rand_Int64N _ w) as [w' r]; cbn in *.
  assert (0 < d)%Z by (Z.to_euclidean_division_equations; lia).
  rewrite Z.quot_div_nonneg in Hrand by lia.
  assert (d / 2 ≤ m / 2)%Z by (apply Z.div_le_mono; lia).
  assert (m / 2 * 2 ≤ m)%Z by (rewrite Z.mul_comm; apply Z.mul_div_le; lia).
  assert (wrap64 (d + r) = d + r)%Z as ->; [|lia].
  unfold wrap64. rewrite Z.mod_small; lia.
Qed.

Lemma delay_bound_witness :
  (@delay nat refusing_world DefaultRetryPolicy 30%Z 0%nat).2 = 10000000000%Z ∧
  ((@delay nat refusing_world DefaultRetryPolicy 30%Z 0%nat).2 ≤ 10000000000 + 10000000000 / 2)%Z.
Proof.
  split; [vm_compute; reflexivity|].
  refine (proj2 (@delay_bound nat refusing_world DefaultRetryPolicy 30%Z 0%nat 10000000000 _ _ _ _)); cbn; intros; lia.
Defined.
