(* ===== verification/Streams.v ===== *)
(** The streaming calls of [proxmox/api]: [DoUpload], which spools its body to a
    temporary file to learn its length, and [DoWebSocket]. Neither retries or fails
    over. The temporary directory and the random source are classes. *)

From S2P Require Import Prelude Json Pverr Api Url Transport TransportProofs.
From Stdlib Require Import ZArith Lia Ascii.
From stdpp Require Import stringmap options.

(** ** The outside world *)

(** Files of the operating system, named by the value that stands for the open
    file. [f_read] is what a reader of the file at its position yields. *)
Class TempFiles (W : Type) := {
  os_CreateTemp : string → string → W → W * (goerr + string);
  io_Copy : string → reader → W → W * (goerr + Z);
  f_Seek_start : string → W → W * option goerr;
  f_read : string → W → string;
  f_Close : string → W → W * option goerr;
  os_Remove : string → W → W * option goerr
}.

(** [rand.Read] of so many bytes. *)
Class Random (W : Type) := { rand_Read : nat → W → W * (goerr + string) }.

(** The body of an upgraded response, if it can be written too. *)
Class Upgrade (Stream : Type) := { body_stream : http_response → option Stream }.

(** [if err != nil { err = errors.Join(err, e) }] on the error [e] of a cleanup. *)
Definition also (err : goerr) (e : option goerr) : goerr := match e with Some e => GJoin err e | None => err end.

(** ** Uploads *)

Section streams.
Context {W : Type} {WD : World W} {TF : TempFiles W} {RD : Random W} {C : Type} {CR : Credentials C}.

(** The deferred cleanup of [spoolToTemp] on a failure. *)
Definition drop_spool (f : string) (err : goerr) (w : W) : W * (goerr + string * Z) :=
  let '(w, cerr) := f_Close f w in
  let '(w, rerr) := os_Remove f w in
  (w, inl (also (also err cerr) rerr)).

(* go: proxmox/api/transport.go#spoolToTemp *)
Definition spoolToTemp (r : reader) (w : W) : W * (goerr + string * Z) :=
  match os_CreateTemp "" "pve-upload-*" w with
  | (w, inl err) => (w, inl (GWrap "create temp" err))
  | (w, inr f) =>
      match io_Copy f r w with
      | (w, inl err) => drop_spool f (GWrap "spool body" err) w
      | (w, inr size) =>
          match f_Seek_start f w with
          | (w, Some err) => drop_spool f (GWrap "rewind spool" err) w
          | (w, None) => (w, inr (f, size))
          end
      end
  end.

(** The headers of an upload: the length is sent as a header. *)
Definition upload_header (t : transport C) (contentType : string) (size : Z) : gmap string string :=
  let h : gmap string string := {["Content-Length" := itoa size; "Content-Type" := contentType]} in
  let h := if userAgent t =s "" then h else <["User-Agent" := userAgent t]> h in
  let h := authorize (creds t) h in
  let csrf := csrfToken (creds t) in
  if csrf <>s "" then <["CSRFPreventionToken" := csrf]> h else h.

(** What the upload does with its spool, before the cleanup. *)
Definition send_spool {A} (t : transport C) (path f : string) (size : Z) (contentType : string)
    (out : option (json → option A)) (w : W) : W * (goerr + option A) :=
  let expandedPath := ExpandPath path in
  let fullURL := baseURL (conn t) +:+ expandedPath in
  if bool_decide (url_parse fullURL = None) then (w, inl (GWrap "api: build upload request" (GText "parse URL"))) else
  match http_Do {| hr_Method := "POST"; hr_URL := fullURL; hr_Body := Some (f_read f w);
                   hr_Header := upload_header t contentType size |} w with
  | (w, inl err) => (w, inl (GPve (ClassifyNetError expandedPath err)))
  | (w, inr resp) => (w, readResponse resp expandedPath out)
  end.

(** The errors of the deferred cleanup are logged and dropped. *)
(* go: proxmox/api/transport.go#transport.DoUpload *)
Definition transport_DoUpload {A} (path : string) (body : reader) (contentType : string)
    (out : option (json → option A)) (t : transport C) (w : W) : W * transport C * (goerr + option A) :=
  let '(w, t, rerr) := if needsRefresh (creds t) (now w) then refresh_creds t false w else (w, t, None) in
  match rerr with
  | Some err => (w, t, inl err)
  | None =>
      match spoolToTemp body w with
      | (w, inl err) => (w, t, inl (GWrap "api: upload spool" err))
      | (w, inr (f, size)) =>
          let '(w, r) := send_spool t path f size contentType out w in
          let '(w, _) := f_Close f w in
          let '(w, _) := os_Remove f w in
          (w, t, r)
      end
  end.

#[export] Instance transport_Uploader : Uploader (transport C * W) := {|
  DoUpload A path body contentType out tw :=
    let '(w, t, r) := transport_DoUpload path body contentType out tw.1 tw.2 in ((t, w), r)
|}.

(** ** Websockets *)

(* go: proxmox/api/websocket.go#websocketKey *)
Definition websocketKey (w : W) : W * (goerr + string) :=
  match rand_Read 16 w with
  | (w, inl err) => (w, inl (GWrap "api: generate websocket key" err))
  | (w, inr buf) => (w, inr (base64 buf))
  end.

Definition websocket_header (t : transport C) (key : string) : gmap string string :=
  let h : gmap string string :=
    {["Connection" := "Upgrade"; "Upgrade" := "websocket"; "Sec-WebSocket-Version" := "13";
      "Sec-WebSocket-Key" := key; "Sec-WebSocket-Protocol" := "binary"]} in
  authorize (creds t) (if userAgent t =s "" then h else <["User-Agent" := userAgent t]> h).

(* go: proxmox/api/websocket.go#transport.DoWebSocket *)
Definition transport_DoWebSocket {Stream} `{!Upgrade Stream} (path : string) (t : transport C) (w : W) :
    W * transport C * (goerr + option Stream) :=
  let '(w, t, rerr) := if needsRefresh (creds t) (now w) then refresh_creds t false w else (w, t, None) in
  match rerr with
  | Some err => (w, t, inl err)
  | None =>
      let expandedPath := ExpandPath path in
      let fullURL := baseURL (conn t) +:+ expandedPath in
      if bool_decide (url_parse fullURL = None)
      then (w, t, inl (GWrap "api: build websocket request" (GText "parse URL"))) else
      match websocketKey w with
      | (w, inl err) => (w, t, inl err)
      | (w, inr key) =>
          match http_Do {| hr_Method := "GET"; hr_URL := fullURL; hr_Body := None;
                           hr_Header := websocket_header t key |} w with
          | (w, inl err) => (w, t, inl (GPve (ClassifyNetError expandedPath err)))
          | (w, inr resp) =>
              if negb (StatusCode resp =? 101)%Z then
                (w, t, match @readResponse json resp expandedPath None with inl err => inl err | inr _ => inr None end)
              else match body_stream resp with
                   | Some stream => (w, t, inr (Some stream))
                   | None => (w, t, inl (GText ("api: websocket upgrade to " +:+ expandedPath +:+
                                                " did not yield a writable stream")))
                   end
          end
      end
  end.

#[export] Instance transport_WebSocketClient {Stream} `{!Upgrade Stream} :
    WebSocketClient (transport C * W) Stream := {|
  DoWebSocket path tw := let '(w, t, r) := transport_DoWebSocket path tw.1 tw.2 in ((t, w), r)
|}.
End streams.

(** ** What an upload does *)

(** The documented behaviour of files and requests, over the files that exist and
    the requests that were sent: a new temporary file has a name of its own and is
    empty; a copy that succeeds has written all of a reader that ended well; a file
    rewound is read from its start; a file just created can be removed. *)
Class LawfulFiles (W : Type) `{WD : World W} `{TF : TempFiles W} (files : W → gmap string string)
    (log : W → list http_request) := {
  lf_send r w : files (http_Do r w).1 = files w ∧ log (http_Do r w).1 = log w ++ [r];
  lf_create d p w : log (os_CreateTemp d p w).1 = log w ∧
    match os_CreateTemp d p w with
    | (w', inl _) => files w' = files w
    | (w', inr f) => files w !! f = None ∧ files w' = <[f := ""]> (files w)
    end;
  lf_copy f r w : log (io_Copy f r w).1 = log w ∧
    match io_Copy f r w with
    | (w', inl _) => delete f (files w') = delete f (files w)
    | (w', inr n) => rd_Err r = None ∧ n = Z.of_nat (String.length (rd_Data r)) ∧
                     files w' = alter (λ old, old +:+ rd_Data r) f (files w)
    end;
  lf_seek f w : log (f_Seek_start f w).1 = log w ∧ files (f_Seek_start f w).1 = files w ∧
    ((f_Seek_start f w).2 = None → ∀ s, files w !! f = Some s → f_read f (f_Seek_start f w).1 = s);
  lf_close f w : log (f_Close f w).1 = log w ∧ files (f_Close f w).1 = files w;
  lf_remove f w : log (os_Remove f w).1 = log w ∧ files (os_Remove f w).1 = delete f (files w)
}.

Section outcome.
Context `{WD : World W} `{TF : TempFiles W} (files : W → gmap string string) (log : W → list http_request)
        `{LF : !LawfulFiles W files log} `{CR : Credentials C}.

Lemma drop_spool_spec f err w : let out := drop_spool f err w in
  log out.1 = log w ∧ files out.1 = delete f (files w) ∧ ∃ e, out.2 = inl e.
Proof using LF.
  unfold drop_spool. destruct (lf_close f w) as [Hl Hf]. destruct (f_Close f w) as [w1 ce]. cbn in *.
  destruct (lf_remove f w1) as [Hl1 Hf1]. destruct (os_Remove f w1) as [w2 re]. cbn in *.
  rewrite Hl1, Hl, Hf1, Hf. eauto.
Qed.

(** The spool: a file that holds the whole body, read from its start, or an error
    and no file. *)
Lemma spool_spec r w : log (spoolToTemp r w).1 = log w ∧
  match spoolToTemp r w with
  | (w', inl _) => files w' = files w
  | (w', inr (f, size)) =>
      rd_Err r = None ∧ size = Z.of_nat (String.length (rd_Data r)) ∧ f_read f w' = rd_Data r ∧
      files w !! f = None ∧ files w' = <[f := rd_Data r]> (files w)
  end.
Proof using LF.
  unfold spoolToTemp. destruct (lf_create "" "pve-upload-*" w) as [Hl1 H1].
  destruct (os_CreateTemp _ _ w) as [w1 [e|f]]; [done|]. destruct H1 as [Hf H1]. cbn in Hl1.
  destruct (lf_copy f r w1) as [Hl2 H2].
  destruct (io_Copy f r w1) as [w2 [e|n]]; cbn in Hl2.
  - destruct (drop_spool_spec f (GWrap "spool body" e) w2) as (Hl & Hfs & e' & He).
    destruct (drop_spool _ _ w2) as [w3 o]. cbn in *. subst o. split; [congruence|].
    by rewrite Hfs, H2, H1, delete_insert_id.
  - destruct H2 as (Hr & -> & H2). assert (files w2 = <[f := rd_Data r]> (files w)) as Hw2.
    { rewrite H2, H1. apply map_eq. intros g. destruct (decide (g = f)) as [->|].
      - by rewrite lookup_alter_eq, !lookup_insert_eq.
      - by rewrite lookup_alter_ne, !lookup_insert_ne. }
    destruct (lf_seek f w2) as (Hl3 & H3 & Hread).
    destruct (f_Seek_start f w2) as [w3 [e|]]; cbn in *.
    + destruct (drop_spool_spec f (GWrap "rewind spool" e) w3) as (Hl & Hfs & e' & He).
      destruct (drop_spool _ _ w3) as [w4 o]. cbn in *. subst o. split; [congruence|].
      by rewrite Hfs, H3, Hw2, delete_insert_id.
    + split_and!; try congruence. apply Hread; [done|]. by rewrite Hw2, lookup_insert_eq.
Qed.

(** A refresh leaves the files alone and sends at most one request. *)
Lemma refresh_files `{!LawfulCredentials C} (t : transport C) force w :
  files (refresh_creds t force w).1.1 = files w ∧
  length (log (refresh_creds t force w).1.1) ≤ S (length (log w)) ∧ conn (refresh_creds t force w).1.2 = conn t.
Proof using LF.
  assert (∀ A method path bdy (out : option (json → option A)) w,
    files (doRaw t A method path bdy out w).1 = files w ∧
    length (log (doRaw t A method path bdy out w).1) ≤ S (length (log w))) as Hraw.
  { intros A method path bdy out w0. unfold doRaw. destruct (formEncode bdy); [cbn; split; [done|lia]|].
    case_bool_decide; [cbn; split; [done|lia]|].
    match goal with |- context [http_Do ?r w0] =>
      destruct (lf_send r w0) as [Hf Hl]; destruct (http_Do r w0) as [w1 [e|resp]] end; cbn in *;
      rewrite Hl, length_app; cbn; (split; [done|lia]). }
  unfold refresh_creds.
  pose proof (refresh_once WD (λ w, length (log w)) (creds t) (doRaw t) force w (λ A m p b o w, proj2 (Hraw A m p b o w))) as Hlen.
  pose proof (refresh_once WD (λ w', if decide (files w' = files w) then 0 else 2) (creds t) (doRaw t) force w) as Hf.
  destruct (refresh WD _ _ _ _) as [[w1 c] e]. cbn in *. split; [|done].
  rewrite (decide_True (P := files w = files w)) in Hf by done.
  destruct (decide (files w1 = files w)); [done|]. exfalso.
  assert (2 ≤ 1); [|lia]. apply Hf. intros A m p b o w0. destruct (Hraw A m p b o w0) as [-> _]. lia.
Qed.

(** The world and the transport when the request is built. *)
Definition refreshed (t : transport C) (w : W) : W * transport C * option goerr :=
  if needsRefresh (creds t) (now w) then refresh_creds t false w else (w, t, None).

(** C19. An upload leaves no spool file behind on any path, whatever fails. Beyond
    the ticket it may mint, it sends at most one request, and only when the reader
    ended without an error: a POST to the active endpoint whose body is every byte
    of the reader and whose Content-Length is their number. The result is what that
    one response says; otherwise it is an error. *)
Theorem upload_outcome `{!LawfulCredentials C} {A} (t : transport C) path body contentType
    (out : option (json → option A)) w w' t' r :
  transport_DoUpload path body contentType out t w = (w', t', r) →
  let '(w1, t1, _) := refreshed t w in
  files w' = files w ∧ length (log w1) ≤ S (length (log w)) ∧ conn t' = conn t ∧
  ((log w' = log w1 ∧ ∃ e, r = inl e) ∨
   (rd_Err body = None ∧ ∃ w2,
      let req := {| hr_Method := "POST"; hr_URL := baseURL (conn t) +:+ ExpandPath path;
                    hr_Body := Some (rd_Data body);
                    hr_Header := upload_header t1 contentType (Z.of_nat (String.length (rd_Data body))) |} in
      log w' = log w1 ++ [req] ∧
      r = match (http_Do req w2).2 with
          | inl err => inl (GPve (ClassifyNetError (ExpandPath path) err))
          | inr resp => readResponse resp (ExpandPath path) out
          end)).
Proof using LF.
  unfold transport_DoUpload, refreshed. set (first := if needsRefresh _ _ then _ else _).
  assert (files first.1.1 = files w ∧ length (log first.1.1) ≤ S (length (log w)) ∧ conn first.1.2 = conn t) as Hfirst.
  { subst first. destruct (needsRefresh _ _); [apply refresh_files|cbn; split_and!; [done|lia|done]]. }
  destruct first as [[w1 t1] [e|]]; cbn in Hfirst; destruct Hfirst as (Hf1 & Hl1 & Hc1).
  { intros [= <- <- <-]. split_and!; [done..|]. left. eauto. }
  destruct (spool_spec body w1) as [Hl2 H2].
  destruct (spoolToTemp body w1) as [w2 [e|[f size]]]; cbn in Hl2.
  { intros [= <- <- <-]. rewrite H2, Hf1, Hl2. split_and!; [done..|]. left. eauto. }
  destruct H2 as (Hr & -> & Hread & Hfresh & Hw2). unfold send_spool. rewrite Hread, Hc1.
  set (req := {| hr_Method := _; hr_URL := _; hr_Body := _; hr_Header := _ |}).
  set (sent := if bool_decide _ then _ else _).
  assert (files sent.1 = files w2 ∧ ((log sent.1 = log w2 ∧ ∃ e, sent.2 = inl e) ∨
    (log sent.1 = log w2 ++ [req] ∧ sent.2 = match (http_Do req w2).2 with
          | inl err => inl (GPve (ClassifyNetError (ExpandPath path) err))
          | inr resp => readResponse resp (ExpandPath path) out end))) as [Hs Hsent].
  { subst sent. case_bool_decide; [cbn; eauto|]. destruct (lf_send req w2) as [Hf Hl].
    destruct (http_Do req w2) as [w3 [e|resp]]; cbn in *; eauto. }
  destruct sent as [w3 o]. cbn in Hs, Hsent.
  destruct (lf_close f w3) as [Hl3 Hf3]. destruct (f_Close f w3) as [w4 ce]. cbn in Hl3, Hf3.
  destruct (lf_remove f w4) as [Hl4 Hf4]. destruct (os_Remove f w4) as [w5 re]. cbn in Hl4, Hf4.
  intros [= <- <- <-]. rewrite Hf4, Hf3, Hs, Hw2, Hf1, Hl4, Hl3. rewrite Hf1 in Hfresh.
  split_and!; [by apply delete_insert_id|done..|]. destruct Hsent as [[-> He]|[-> He]].
  - left. by rewrite Hl2.
  - right. split; [done|]. exists w2. by rewrite Hl2.
Qed.
End outcome.

(** A disk of files, a log of requests, and a server that answers each upload with
    a task. *)
Record disk := { dk_files : gmap string string; dk_log : list http_request }.
Definition put_file (f s : string) (d : disk) : disk := {| dk_files := <[f := s]> (dk_files d); dk_log := dk_log d |}.
Definition task_answer : http_response := {| StatusCode := 200; Body := BodyJson {|
  env_Data := Some (JStr "UPID:pve:"); env_Errors := ∅; env_Message := "" |} |}.

Definition disk_world : World disk := {|
  now _ := 0%Z; ctx_err _ := None; wait _ d := d; rand_Int64N _ d := (d, 0%Z);
  http_Do r d := ({| dk_files := dk_files d; dk_log := dk_log d ++ [r] |}, inr task_answer)
|}.
Definition disk_files : TempFiles disk := {|
  os_CreateTemp _ _ d :=
    let f := fresh_string "/tmp/pve-upload-" (dk_files d) in (put_file f "" d, inr f);
  io_Copy f r d := match rd_Err r with
                   | Some e => (d, inl e)
                   | None => ({| dk_files := alter (λ old, old +:+ rd_Data r) f (dk_files d); dk_log := dk_log d |},
                              inr (Z.of_nat (String.length (rd_Data r))))
                   end;
  f_Seek_start f d := (d, None);
  f_read f d := default "" (dk_files d !! f);
  f_Close f d := (d, None);
  os_Remove f d := ({| dk_files := delete f (dk_files d); dk_log := dk_log d |}, None)
|}.

Lemma disk_lawful : @LawfulFiles disk disk_world disk_files dk_files dk_log.
Proof.
  constructor; intros; try done.
  - cbn. split_and!; [done|apply fresh_string_fresh|done].
  - cbn. by destruct (rd_Err r).
  - cbn. split_and!; [done..|]. by intros _ s ->.
Qed.

Definition upload_transport : transport tokenCreds := {|
  conn := conn_example; creds := TokenCredentials "root@pam!t" "s"; policy := DefaultRetryPolicy;
  userAgent := defaultUserAgent |}.

Lemma upload_outcome_witness :
  let D := disk_world in let F := disk_files in
  let start : disk := {| dk_files := {["/tmp/pve-upload-" := "other"]}; dk_log := [] |} in
  let out := transport_DoUpload "/nodes/pve/storage/local/upload" {| rd_Data := "abc"; rd_Err := None |}
               "multipart/form-data; boundary=b" (Some as_string) upload_transport start in
  out.2 = inr (Some "UPID:pve:") ∧ length (dk_log out.1.1) = 1 ∧ dk_files out.1.1 = dk_files start.
Proof.
  intros D F start out. split_and!; [vm_compute; reflexivity..|].
  assert (out = (out.1.1, out.1.2, out.2)) as Hout by (vm_compute; reflexivity).
  exact (proj1 (@upload_outcome disk D F dk_files dk_log disk_lawful tokenCreds _ _ string upload_transport _ _ _ _ _ _ _ _ Hout)).
Defined.

(** ** What a websocket dial answers *)

(** C24. When the request goes out and is answered, a stream comes back only on a 101
    whose body can be written, and neither a stream nor an error exactly on a success
    that is not an upgrade, with a body that arrives. Everything else is an error. *)
Theorem websocket_outcome {W Stream C} `{WD : World W} `{RD : !Random W} `{CR : Credentials C} `{!Upgrade Stream}
    (t : transport C) path w w1 key w2 resp :
  needsRefresh (creds t) (now w) = false → url_parse (baseURL (conn t) +:+ ExpandPath path) ≠ None →
  websocketKey w = (w1, inr key) →
  http_Do {| hr_Method := "GET"; hr_URL := baseURL (conn t) +:+ ExpandPath path; hr_Body := None;
             hr_Header := websocket_header t key |} w1 = (w2, inr resp) →
  let r := (transport_DoWebSocket (Stream := Stream) path t w).2 in
  (∀ s, r = inr (Some s) ↔ StatusCode resp = 101%Z ∧ body_stream resp = Some s) ∧
  (r = inr None ↔ (200 ≤ StatusCode resp < 300)%Z ∧ ∀ e, Body resp ≠ BodyReadError e).
Proof.
  intros Hn Hu Hk Hs r. subst r. unfold transport_DoWebSocket. rewrite Hn, Hk.
  rewrite bool_decide_eq_false_2 by done. rewrite Hs. destruct (Z.eqb_spec (StatusCode resp) 101) as [Hc|Hc]; cbn.
  - rewrite Hc. destruct (body_stream resp) as [s'|]; cbn; (split; [naive_solver|]); split; try done; lia.
  - assert (∀ r' : goerr + option json,
      r' = @readResponse json resp (ExpandPath path) None →
      (∃ a, r' = inr a) ↔ (200 ≤ StatusCode resp < 300)%Z ∧ ∀ e, Body resp ≠ BodyReadError e) as Hread.
    { intros r' ->. unfold readResponse, isSuccess.
      destruct (Body resp); cbn; rewrite ?andb_false_r; cbn;
        destruct (Z.leb_spec 200 (StatusCode resp)), (Z.ltb_spec (StatusCode resp) 300); cbn;
        split; try (intros [a Ha]; done); try (intros [? He]; try lia; by edestruct He); eauto. }
    specialize (Hread _ eq_refl). destruct (readResponse _ _ _) as [e|a]; cbn.
    + split; [naive_solver|]. split; [done|]. intros Hx. apply Hread in Hx as [? ?]. done.
    + split; [naive_solver|]. split; [|done]. intros _. apply Hread. eauto.
Qed.

(** A proxy that answers the upgrade with a plain 200. *)
Lemma websocket_outcome_witness :
  let D : World disk := {| now _ := 0%Z; ctx_err _ := None; wait _ d := d; rand_Int64N _ d := (d, 0%Z);
                           http_Do r d := (d, inr {| StatusCode := 200; Body := BodyEmpty |}) |} in
  let R : Random disk := {| rand_Read n d := (d, inr "0123456789abcdef") |} in
  let U : Upgrade () := {| body_stream _ := Some () |} in
  (transport_DoWebSocket (Stream := ()) "/nodes/pve/vncwebsocket" upload_transport {| dk_files := ∅; dk_log := [] |}).2 = inr None.
Proof.
  intros D R U.
  destruct (@websocket_outcome disk () tokenCreds D R tokenCreds_Credentials U upload_transport "/nodes/pve/vncwebsocket"
    {| dk_files := ∅; dk_log := [] |} _ _ _ {| StatusCode := 200; Body := BodyEmpty |} eq_refl
    ltac:(vm_compute; discriminate) eq_refl eq_refl) as [_ H].
  apply H. split; [vm_compute; split; congruence|discriminate].
Defined.
