(* ===== verification/Ssh.v ===== *)
(** [proxmox/ssh]: the SSH and SFTP side channel to one node. golang.org/x/crypto
    and pkg/sftp are the classes [Gossh] and [SshNet]; an upload is a step relation,
    because the goroutine that watches the context runs beside the copy. *)

From S2P Require Import Prelude Pverr Api Url.
From Stdlib Require Import ZArith Lia.
From stdpp Require Import relations options.

(** ** The libraries *)

(** How [Connect] authenticates: the methods the package builds. *)
Inductive AuthMethod (Signer : Type) := Password (secret : string) | PublicKeys (s : Signer).
Arguments Password {_}. Arguments PublicKeys {_}.

Class Gossh (W Callback PublicKey Signer : Type) := {
  FixedHostKey : PublicKey → Callback;
  knownhosts_New : string → W → goerr + Callback;
  ParsePrivateKey : string → goerr + Signer
}.

(** What the handshake is given. *)
Record ClientConfig (Callback Signer : Type) := {
  gc_User : string; gc_Auth : list (AuthMethod Signer); gc_HostKeyCallback : Callback; gc_Timeout : Z
}.
Arguments gc_User {_ _}. Arguments gc_Auth {_ _}. Arguments gc_HostKeyCallback {_ _}. Arguments gc_Timeout {_ _}.

(** Connections, and the clients and sessions over them. [CombinedOutput] answers
    with the command's output, or with the context's error when that is done first. *)
Class SshNet (W Callback Signer Conn Ssh Sftp Session : Type) := {
  dial_tcp : Z → string → W → W * (goerr + Conn);
  conn_Close : Conn → W → W * option goerr;
  NewClientConn : Conn → string → ClientConfig Callback Signer → W → W * (goerr + Ssh);
  ssh_Close : Ssh → W → W * option goerr;
  sftp_NewClient : Ssh → W → W * (goerr + Sftp);
  sftp_Close : Sftp → W → W * option goerr;
  NewSession : Ssh → W → W * (goerr + Session);
  session_Close : Session → W → W * option goerr;
  CombinedOutput : Session → string → W → W * (ctx_error + string * option goerr);
  sftp_Create : Sftp → string → W → W * option goerr
}.

(** ** Options *)

(* go: proxmox/ssh/options.go#L11-L14 *)
Definition defaultPort : Z := 22.
(* go: proxmox/ssh/options.go#L15-L17 *)
Definition defaultTimeout : Z := 30 * 1000000000.

Section ssh.
Context {W Callback PublicKey Signer Conn Ssh Sftp Session : Type}.
Context `{!Gossh W Callback PublicKey Signer, !SshNet W Callback Signer Conn Ssh Sftp Session}.

(* go: proxmox/ssh/options.go#clientConfig *)
Record clientConfig := {
  cc_user : string;
  cc_port : Z;
  cc_timeout : Z;
  cc_authMethods : list (AuthMethod Signer);
  cc_privateKeyPEM : string;
  cc_knownHostsPath : string;
  cc_fixedHostKey : option PublicKey;
  cc_hostKeyCallback : option Callback;
  cc_dial : option (string → W → W * (goerr + Conn))
}.
(* go: proxmox/ssh/options.go#defaultConfig *)
Definition defaultConfig : clientConfig := {|
  cc_user := ""; cc_port := defaultPort; cc_timeout := defaultTimeout; cc_authMethods := []; cc_privateKeyPEM := "";
  cc_knownHostsPath := ""; cc_fixedHostKey := None; cc_hostKeyCallback := None; cc_dial := None
|}.

(* go: proxmox/ssh/options.go#Option *)
Definition Option : Type := clientConfig → clientConfig.

(* go: proxmox/ssh/options.go#WithUser *)
Definition WithUser (user : string) : Option := λ c, {|
  cc_user := user; cc_port := cc_port c; cc_timeout := cc_timeout c; cc_authMethods := cc_authMethods c;
  cc_privateKeyPEM := cc_privateKeyPEM c; cc_knownHostsPath := cc_knownHostsPath c;
  cc_fixedHostKey := cc_fixedHostKey c; cc_hostKeyCallback := cc_hostKeyCallback c; cc_dial := cc_dial c |}.
(* go: proxmox/ssh/options.go#WithPort *)
Definition WithPort (port : Z) : Option := λ c, {|
  cc_user := cc_user c; cc_port := port; cc_timeout := cc_timeout c; cc_authMethods := cc_authMethods c;
  cc_privateKeyPEM := cc_privateKeyPEM c; cc_knownHostsPath := cc_knownHostsPath c;
  cc_fixedHostKey := cc_fixedHostKey c; cc_hostKeyCallback := cc_hostKeyCallback c; cc_dial := cc_dial c |}.
(* go: proxmox/ssh/options.go#WithTimeout *)
Definition WithTimeout (d : Z) : Option := λ c, {|
  cc_user := cc_user c; cc_port := cc_port c; cc_timeout := d; cc_authMethods := cc_authMethods c;
  cc_privateKeyPEM := cc_privateKeyPEM c; cc_knownHostsPath := cc_knownHostsPath c;
  cc_fixedHostKey := cc_fixedHostKey c; cc_hostKeyCallback := cc_hostKeyCallback c; cc_dial := cc_dial c |}.
(* go: proxmox/ssh/options.go#WithPassword *)
Definition WithPassword (password : string) : Option := λ c, {|
  cc_user := cc_user c; cc_port := cc_port c; cc_timeout := cc_timeout c;
  cc_authMethods := cc_authMethods c ++ [Password password];
  cc_privateKeyPEM := cc_privateKeyPEM c; cc_knownHostsPath := cc_knownHostsPath c;
  cc_fixedHostKey := cc_fixedHostKey c; cc_hostKeyCallback := cc_hostKeyCallback c; cc_dial := cc_dial c |}.
(* go: proxmox/ssh/options.go#WithPrivateKey *)
Definition WithPrivateKey (pemBytes : string) : Option := λ c, {|
  cc_user := cc_user c; cc_port := cc_port c; cc_timeout := cc_timeout c; cc_authMethods := cc_authMethods c;
  cc_privateKeyPEM := pemBytes; cc_knownHostsPath := cc_knownHostsPath c;
  cc_fixedHostKey := cc_fixedHostKey c; cc_hostKeyCallback := cc_hostKeyCallback c; cc_dial := cc_dial c |}.
(* go: proxmox/ssh/options.go#WithKnownHostsFile *)
Definition WithKnownHostsFile (path : string) : Option := λ c, {|
  cc_user := cc_user c; cc_port := cc_port c; cc_timeout := cc_timeout c; cc_authMethods := cc_authMethods c;
  cc_privateKeyPEM := cc_privateKeyPEM c; cc_knownHostsPath := path;
  cc_fixedHostKey := cc_fixedHostKey c; cc_hostKeyCallback := cc_hostKeyCallback c; cc_dial := cc_dial c |}.
(* go: proxmox/ssh/options.go#WithHostKey *)
Definition WithHostKey (key : PublicKey) : Option := λ c, {|
  cc_user := cc_user c; cc_port := cc_port c; cc_timeout := cc_timeout c; cc_authMethods := cc_authMethods c;
  cc_privateKeyPEM := cc_privateKeyPEM c; cc_knownHostsPath := cc_knownHostsPath c;
  cc_fixedHostKey := Some key; cc_hostKeyCallback := cc_hostKeyCallback c; cc_dial := cc_dial c |}.
(* go: proxmox/ssh/options.go#WithHostKeyCallback *)
Definition WithHostKeyCallback (cb : Callback) : Option := λ c, {|
  cc_user := cc_user c; cc_port := cc_port c; cc_timeout := cc_timeout c; cc_authMethods := cc_authMethods c;
  cc_privateKeyPEM := cc_privateKeyPEM c; cc_knownHostsPath := cc_knownHostsPath c;
  cc_fixedHostKey := cc_fixedHostKey c; cc_hostKeyCallback := Some cb; cc_dial := cc_dial c |}.
(* go: proxmox/ssh/options.go#withDialFunc *)
Definition withDialFunc (d : string → W → W * (goerr + Conn)) : Option := λ c, {|
  cc_user := cc_user c; cc_port := cc_port c; cc_timeout := cc_timeout c; cc_authMethods := cc_authMethods c;
  cc_privateKeyPEM := cc_privateKeyPEM c; cc_knownHostsPath := cc_knownHostsPath c;
  cc_fixedHostKey := cc_fixedHostKey c; cc_hostKeyCallback := cc_hostKeyCallback c; cc_dial := Some d |}.

(** ** Connecting *)

(* go: proxmox/ssh/ssh.go#Client *)
Record Client := { cl_cfg : clientConfig; cl_ssh : option Ssh; cl_sftp : option Sftp }.

(* go: proxmox/ssh/ssh.go#NewClient *)
Definition NewClient (opts : list Option) : Client :=
  {| cl_cfg := foldl (λ c opt, opt c) defaultConfig opts; cl_ssh := None; cl_sftp := None |}.

(* go: proxmox/ssh/hostkey.go#knownHostsCallback *)
Definition knownHostsCallback (path : string) (w : W) : goerr + Callback := knownhosts_New path w.

(* go: proxmox/ssh/ssh.go#Client.hostKeyCallback *)
Definition hostKeyCallback (c : Client) (w : W) : goerr + Callback :=
  match cc_hostKeyCallback (cl_cfg c) with
  | Some cb => inr cb
  | None =>
      match cc_fixedHostKey (cl_cfg c) with
      | Some key => inr (FixedHostKey key)
      | None =>
          if cc_knownHostsPath (cl_cfg c) <>s "" then
            match knownHostsCallback (cc_knownHostsPath (cl_cfg c)) w with
            | inl err => inl (GWrap "ssh.Connect: known_hosts" err)
            | inr cb => inr cb
            end
          else inl (GText ("ssh.Connect: no host-key verification configured " +:+
                           "(use WithKnownHostsFile, WithHostKey, or WithHostKeyCallback)"))
      end
  end.

(* go: proxmox/ssh/ssh.go#Client.authMethods *)
Definition authMethods (c : Client) : goerr + list (AuthMethod Signer) :=
  let methods := cc_authMethods (cl_cfg c) in
  let pem := cc_privateKeyPEM (cl_cfg c) in
  match (if pem =s "" then inr methods
         else match ParsePrivateKey pem with
              | inl err => inl (GWrap "ssh.Connect: parse private key" err)
              | inr signer => inr (methods ++ [PublicKeys signer])
              end) with
  | inl err => inl err
  | inr [] => inl (GText ("ssh.Connect: no authentication configured " +:+ "(use WithPassword or WithPrivateKey)"))
  | inr methods => inr methods
  end.

(* go: proxmox/ssh/ssh.go#Client.Connect *)
Definition Connect (host : string) (c : Client) (w : W) : W * Client * option goerr :=
  match cl_ssh c with
  | Some _ => (w, c, Some (GText "ssh: already connected"))
  | None =>
      match hostKeyCallback c w with
      | inl err => (w, c, Some err)
      | inr cb =>
          match authMethods c with
          | inl err => (w, c, Some err)
          | inr auth =>
              let clientCfg := {| gc_User := cc_user (cl_cfg c); gc_Auth := auth; gc_HostKeyCallback := cb;
                                  gc_Timeout := cc_timeout (cl_cfg c) |} in
              let addr := JoinHostPort host (itoa (cc_port (cl_cfg c))) in
              let dial := default (dial_tcp (cc_timeout (cl_cfg c))) (cc_dial (cl_cfg c)) in
              match dial addr w with
              | (w, inl err) => (w, c, Some (GWrap ("ssh.Connect: dial " +:+ addr) err))
              | (w, inr conn) =>
                  match NewClientConn conn addr clientCfg w with
                  | (w, inl err) => let '(w, _) := conn_Close conn w in (w, c, Some (GWrap "ssh.Connect: handshake" err))
                  | (w, inr ssh) =>
                      match sftp_NewClient ssh w with
                      | (w, inl err) => let '(w, _) := ssh_Close ssh w in (w, c, Some (GWrap "ssh.Connect: start sftp" err))
                      | (w, inr sftp) => (w, {| cl_cfg := cl_cfg c; cl_ssh := Some ssh; cl_sftp := Some sftp |}, None)
                      end
                  end
              end
          end
      end
  end.

(** [errors.Join] of two errors either of which may be nil. *)
Definition join_errors (a b : option goerr) : option goerr :=
  match a, b with
  | None, None => None
  | Some e, None | None, Some e => Some e
  | Some e1, Some e2 => Some (GJoin e1 e2)
  end.

(* go: proxmox/ssh/ssh.go#Client.Close *)
Definition Close (c : Client) (w : W) : W * Client * option goerr :=
  let '(w, sftpErr) := match cl_sftp c with Some f => sftp_Close f w | None => (w, None) end in
  let '(w, sshErr) := match cl_ssh c with Some h => ssh_Close h w | None => (w, None) end in
  (w, {| cl_cfg := cl_cfg c; cl_ssh := None; cl_sftp := None |}, join_errors sftpErr sshErr).

(** ** Commands *)

(* go: proxmox/ssh/sftp.go#errNotConnected *)
Definition errNotConnected : goerr := GText "ssh: not connected (call Connect first)".

(** The goroutine of the command has ended when [Exec] returns, whichever came
    first; the session is closed on every path once it is open. *)
(* go: proxmox/ssh/exec.go#Client.Exec *)
Definition Exec (cmd : string) (c : Client) (w : W) : W * (string * option goerr) :=
  match cl_ssh c with
  | None => (w, ("", Some (GWrap "ssh.Exec" errNotConnected)))
  | Some h =>
      match NewSession h w with
      | (w, inl err) => (w, ("", Some (GWrap "ssh.Exec: new session" err)))
      | (w, inr session) =>
          let '(w, done) := CombinedOutput session cmd w in
          match done with
          | inl ctx =>
              let '(w, _) := session_Close session w in
              let '(w, _) := session_Close session w in
              (w, ("", Some (GWrap "ssh.Exec" (GCtx ctx))))
          | inr (out, runErr) =>
              let '(w, _) := session_Close session w in
              (w, (out, match runErr with Some err => Some (GWrap ("ssh.Exec: run " +:+ cmd) err) | None => None end))
          end
      end
  end.
End ssh.

(** ** No connection leaks *)

(** The documented behaviour over the connections that are open: a dial opens one
    of its own, a handshake may close only the one it was given, a client stands on
    the connection it was made of and closes it with itself, and sessions open and
    close none. *)
Class LawfulSshNet {W Callback Signer Conn Ssh Sftp Session : Type} `{Countable Conn}
    (N : SshNet W Callback Signer Conn Ssh Sftp Session) (live : W → gset Conn) (under : Ssh → Conn) := {
  ll_dial t addr w : match dial_tcp t addr w with
                     | (w', inl _) => live w' = live w
                     | (w', inr c) => c ∉ live w ∧ live w' = {[c]} ∪ live w
                     end;
  ll_conn_Close c w : live (conn_Close c w).1 = live w ∖ {[c]};
  ll_handshake c addr cfg w : match NewClientConn c addr cfg w with
                              | (w', inl _) => live w' ∖ {[c]} = live w ∖ {[c]}
                              | (w', inr h) => live w' = live w ∧ under h = c
                              end;
  ll_ssh_Close h w : live (ssh_Close h w).1 = live w ∖ {[under h]};
  ll_sftp h w : live (sftp_NewClient h w).1 = live w;
  ll_sftp_Close f w : live (sftp_Close f w).1 = live w;
  ll_session h w : live (NewSession h w).1 = live w;
  ll_session_Close s w : live (session_Close s w).1 = live w;
  ll_run s cmd w : live (CombinedOutput s cmd w).1 = live w
}.

Section leaks.
Context {W Callback PublicKey Signer Conn Ssh Sftp Session : Type} `{Countable Conn}.
Context `{GO : !Gossh W Callback PublicKey Signer, N : !SshNet W Callback Signer Conn Ssh Sftp Session}.
Context (live : W → gset Conn) (under : Ssh → Conn) `{LN : !LawfulSshNet N live under}.

(** The client as this development writes it, over these types. *)
Abbreviation client := (@Client W Callback PublicKey Signer Conn Ssh Sftp).
Implicit Types c : client.

(** The connections a client holds. *)
Definition held c : gset Conn := match cl_ssh c with Some h => {[under h]} | None => ∅ end.
(** It has both of its sessions, or neither; the connection it holds is open. *)
Definition client_ok c (w : W) : Prop := (is_Some (cl_ssh c) ↔ is_Some (cl_sftp c)) ∧ held c ⊆ live w.

(** The default dialer. *)
Definition dials_tcp c : Prop := cc_dial (cl_cfg c) = None.

(** [Connect] on a client that is not connected: it holds the one new connection,
    or there is none. *)
Lemma Connect_spec host c w : dials_tcp c → client_ok c w →
  let '(w', c', err) := Connect host c w in
  cl_cfg c' = cl_cfg c ∧ client_ok c' w' ∧ live w' ∖ held c' = live w ∖ held c ∧
  (err = None → cl_ssh c = None ∧ is_Some (cl_ssh c')) ∧ (err ≠ None → c' = c).
Proof using LN.
  intros Hd Hok. unfold Connect. destruct (cl_ssh c) as [h|] eqn:Ec; [done|].
  assert (held c = ∅) as Hh by (unfold held; by rewrite Ec).
  destruct (hostKeyCallback c w); [done|]. destruct (authMethods c); [done|].
  rewrite Hd. cbn [default]. unfold client_ok in Hok. rewrite Hh in *.
  match goal with |- context [dial_tcp ?t ?a w] => pose proof (ll_dial t a w) as Hdial; destruct (dial_tcp t a w) as [w1 [e|cn]] end.
  { rewrite Hdial. unfold client_ok. rewrite Hh. split_and!; try done; set_solver. }
  destruct Hdial as [Hnew H1].
  match goal with |- context [NewClientConn cn ?a ?g w1] =>
    pose proof (ll_handshake cn a g w1) as Hs; destruct (NewClientConn cn a g w1) as [w2 [e|h]] end.
  { pose proof (ll_conn_Close cn w2) as Hc. destruct (conn_Close cn w2) as [w3 ce]. cbn in Hc.
    assert (live w3 = live w) as Hw3 by (rewrite Hc, Hs, H1; set_solver).
    unfold client_ok. rewrite Hh, Hw3. split_and!; try done; set_solver. }
  destruct Hs as [H2 Hu]. pose proof (ll_sftp h w2) as H3.
  destruct (sftp_NewClient h w2) as [w3 [e|f]]; cbn in H3.
  { pose proof (ll_ssh_Close h w3) as Hc. destruct (ssh_Close h w3) as [w4 ce]. cbn in Hc.
    assert (live w4 = live w) as Hw4 by (rewrite Hc, H3, H2, H1, Hu; set_solver).
    unfold client_ok. rewrite Hh, Hw4. split_and!; try done; set_solver. }
  unfold client_ok, held. cbn. rewrite H3, H2, H1, Hu. split_and!; try done; set_solver.
Qed.

Lemma Close_spec c w : client_ok c w →
  let '(w', c', err) := Close c w in
  cl_cfg c' = cl_cfg c ∧ cl_ssh c' = None ∧ client_ok c' w' ∧ live w' = live w ∖ held c.
Proof using LN.
  intros [Hok Hl]. unfold Close.
  destruct (match cl_sftp c with Some f => sftp_Close f w | None => (w, None) end) as [w1 e1] eqn:E1.
  assert (live w1 = live w) as H1.
  { destruct (cl_sftp c) as [f|]; [|congruence]. pose proof (ll_sftp_Close f w) as Hf. by rewrite E1 in Hf. }
  set (o2 := match cl_ssh c with Some h => ssh_Close h w1 | None => (w1, None) end).
  assert (live o2.1 = live w ∖ held c) as H2.
  { subst o2. unfold held. destruct (cl_ssh c) as [h|]; [by rewrite ll_ssh_Close, H1|]. cbn. rewrite H1. set_solver. }
  destruct o2 as [w2 e2]. cbn in *. unfold client_ok, held. cbn. by split_and!.
Qed.

Lemma Exec_live cmd c w : live (Exec cmd c w).1 = live w.
Proof using LN.
  unfold Exec. destruct (cl_ssh c) as [h|]; [|done].
  pose proof (ll_session h w) as H1. destruct (NewSession h w) as [w1 [e|s]]; cbn in *; [done|].
  pose proof (ll_run s cmd w1) as H2. destruct (CombinedOutput s cmd w1) as [w2 [ctx|[out e]]]; cbn in *.
  - pose proof (ll_session_Close s w2) as H3. destruct (session_Close s w2) as [w3 ?]. cbn in *.
    pose proof (ll_session_Close s w3) as H4. destruct (session_Close s w3) as [w4 ?]. cbn in *. congruence.
  - pose proof (ll_session_Close s w2) as H3. destruct (session_Close s w2) as [w3 ?]. cbn in *. congruence.
Qed.

(** The calls a caller makes of a client, one after another. *)
Inductive client_step : client * W → client * W → Prop :=
| step_connect host c w w' c' err : Connect host c w = (w', c', err) → client_step (c, w) (c', w')
| step_close c w w' c' err : Close c w = (w', c', err) → client_step (c, w) (c', w')
| step_exec cmd c w w' r : Exec cmd c w = (w', r) → client_step (c, w) (c, w').

(** C21. The side channel leaks no connection. From a new client, after any sequence
    of connects, commands and closes, whatever the network answers, the client has
    both of its sessions or neither, and the open connections are those there were
    at the start and, when it is connected, the one it holds. So a failed connect,
    at whichever of its steps, leaves none open, and neither does a close. *)
Theorem no_connection_leaks opts w s' :
  let c : client := NewClient opts in
  dials_tcp c → rtc client_step (c, w) s' →
  (is_Some (cl_ssh s'.1) ↔ is_Some (cl_sftp s'.1)) ∧ live s'.2 = live w ∪ held s'.1 ∧
  (cl_ssh s'.1 = None → live s'.2 = live w).
Proof using LN.
  intros c0 Hd Hsteps.
  assert (client_ok s'.1 s'.2 ∧ cl_cfg s'.1 = cl_cfg c0 ∧ live s'.2 ∖ held s'.1 = live w) as (Hok & _ & Hl).
  { assert (client_ok c0 w) as Hok by (split; [split; intros [? ?]; done|unfold held; cbn; set_solver]).
    assert (live w ∖ held c0 = live w) as Hl by (unfold held; cbn; set_solver).
    apply (rtc_ind_r (λ s, client_ok s.1 s.2 ∧ cl_cfg s.1 = cl_cfg c0 ∧ live s.2 ∖ held s.1 = live w) (c0, w)) in Hsteps; [done|done|].
    intros s1 s2 _ Hstep (Hs & Hc & Hlive).
    destruct Hstep as [host c1 w1 w2 c2 err E|c1 w1 w2 c2 err E|cmd c1 w1 w2 r E]; cbn in *.
    - assert (dials_tcp c1) as Hd1 by (unfold dials_tcp; by rewrite Hc).
      pose proof (Connect_spec host c1 w1 Hd1 Hs) as Hspec. rewrite E in Hspec.
      destruct Hspec as (Hc2 & Hok2 & Hl2 & _). split_and!; [done|congruence|congruence].
    - pose proof (Close_spec c1 w1 Hs) as Hspec. rewrite E in Hspec. destruct Hspec as (Hc2 & Hn & Hok2 & Hl2).
      split_and!; [done|congruence|]. unfold held at 1. rewrite Hn, Hl2, Hlive. set_solver.
    - pose proof (Exec_live cmd c1 w1) as Hx. rewrite E in Hx. cbn in Hx. unfold client_ok. by rewrite Hx. }
  destruct Hok as [Hb Hsub]. split; [done|].
  assert (live s'.2 = live w ∪ held s'.1) as Heq.
  { rewrite <- Hl. rewrite difference_union_L. set_solver. }
  split; [done|]. intros Hn. rewrite Heq. unfold held. rewrite Hn. set_solver.
Qed.
End leaks.

(** ** Uploads *)

(** Where the upload stands: copying, leaving a failed copy, closing the remote file
    after a whole one, waiting for the watcher with its result, or returned. *)
Inductive phase :=
| Copying
| Failing (err : goerr)
| Closing
| Waiting (r : option goerr)
| Returned (r : option goerr).

(** The upload and its watcher. [u_left] is what the reader still yields and [u_end]
    how it ends; [u_closed] whether the remote file is closed; [u_ctx] the error of
    the context once it is done; [u_copyDone] the channel that stops the watcher. *)
Record upload_state := {
  u_left : string; u_end : option goerr; u_written : string; u_closed : bool;
  u_ctx : option ctx_error; u_copyDone : bool; u_watching : bool; u_phase : phase
}.
Definition upload_start (ctx : option ctx_error) (r : reader) : upload_state := {|
  u_left := rd_Data r; u_end := rd_Err r; u_written := ""; u_closed := false;
  u_ctx := ctx; u_copyDone := false; u_watching := true; u_phase := Copying |}.

Definition set_phase (p : phase) (s : upload_state) : upload_state := {|
  u_left := u_left s; u_end := u_end s; u_written := u_written s; u_closed := u_closed s; u_ctx := u_ctx s;
  u_copyDone := u_copyDone s; u_watching := u_watching s; u_phase := p |}.
(** The result is decided with the file closed; the deferred function then closes
    the watcher's channel. *)
(* go: proxmox/ssh/sftp.go#L57-L60:Client.upload *)
Definition leave (r : option goerr) (s : upload_state) : upload_state := {|
  u_left := u_left s; u_end := u_end s; u_written := u_written s; u_closed := true; u_ctx := u_ctx s;
  u_copyDone := true; u_watching := u_watching s; u_phase := Waiting r |}.
Definition write (a b : string) (s : upload_state) : upload_state := {|
  u_left := b; u_end := u_end s; u_written := u_written s +:+ a; u_closed := u_closed s; u_ctx := u_ctx s;
  u_copyDone := u_copyDone s; u_watching := u_watching s; u_phase := u_phase s |}.
Definition unwatch (closed : bool) (s : upload_state) : upload_state := {|
  u_left := u_left s; u_end := u_end s; u_written := u_written s; u_closed := closed; u_ctx := u_ctx s;
  u_copyDone := u_copyDone s; u_watching := false; u_phase := u_phase s |}.
Definition cancel (e : ctx_error) (s : upload_state) : upload_state := {|
  u_left := u_left s; u_end := u_end s; u_written := u_written s; u_closed := u_closed s; u_ctx := Some e;
  u_copyDone := u_copyDone s; u_watching := u_watching s; u_phase := u_phase s |}.

Definition copy_error (op dest : string) (err : goerr) (ctx : option ctx_error) : goerr :=
  match ctx with
  | Some c => GWrap ("ssh." +:+ op) (GCtx c)
  | None => GWrap ("ssh." +:+ op +:+ ": stream " +:+ dest) err
  end.
Definition close_error (op dest : string) (err : goerr) : goerr :=
  GWrap ("ssh." +:+ op +:+ ": close " +:+ dest) err.

(** One step of the upload, of its watcher, or of the world. A write or a close may
    fail at any time, and does on a file the watcher has closed. *)
(* go: proxmox/ssh/sftp.go#Client.upload *)
Inductive upload_step (op dest : string) : upload_state → upload_state → Prop :=
| up_cancel e s : u_ctx s = None → upload_step op dest s (cancel e s)
| up_watch_ctx c s : u_watching s = true → u_ctx s = Some c → upload_step op dest s (unwatch true s)
| up_watch_done s : u_watching s = true → u_copyDone s = true → upload_step op dest s (unwatch (u_closed s) s)
| up_write a b s : u_phase s = Copying → u_closed s = false → a ≠ "" → u_left s = a +:+ b →
    upload_step op dest s (write a b s)
| up_write_fail e s : u_phase s = Copying → u_left s ≠ "" → upload_step op dest s (set_phase (Failing e) s)
| up_read_fail e s : u_phase s = Copying → u_left s = "" → u_end s = Some e →
    upload_step op dest s (set_phase (Failing e) s)
| up_read_end s : u_phase s = Copying → u_left s = "" → u_end s = None → upload_step op dest s (set_phase Closing s)
| up_fail e s : u_phase s = Failing e → upload_step op dest s (leave (Some (copy_error op dest e (u_ctx s))) s)
| up_close s : u_phase s = Closing → u_closed s = false → upload_step op dest s (leave None s)
| up_close_fail e s : u_phase s = Closing → upload_step op dest s (leave (Some (close_error op dest e)) s)
| up_return r s : u_phase s = Waiting r → u_watching s = false → upload_step op dest s (set_phase (Returned r) s).

Section upload.
Context {W Callback PublicKey Signer Conn Ssh Sftp Session : Type}.
Context `{!SshNet W Callback Signer Conn Ssh Sftp Session}.

(** [path.IsAbs]. *)
Definition is_abs (p : string) : bool := has_prefix p "/".

(** The checks before the copy: an error, or the state the copy starts from. *)
Definition upload (ctx : option ctx_error) (op destPath : string) (r : reader)
    (c : @Client W Callback PublicKey Signer Conn Ssh Sftp) (w : W) : W * (goerr + upload_state) :=
  match cl_sftp c with
  | None => (w, inl (GWrap ("ssh." +:+ op) errNotConnected))
  | Some f =>
      if (destPath =s "") || negb (is_abs destPath)
      then (w, inl (GText ("ssh." +:+ op +:+ ": destPath must be an absolute path, got " +:+ destPath)))
      else match sftp_Create f destPath w with
           | (w, Some err) => (w, inl (GWrap ("ssh." +:+ op +:+ ": create " +:+ destPath) err))
           | (w, None) => (w, inr (upload_start ctx r))
           end
  end.
(* go: proxmox/ssh/sftp.go#Client.UploadSnippet *)
Definition UploadSnippet (ctx : option ctx_error) := upload ctx "UploadSnippet".
(* go: proxmox/ssh/sftp.go#Client.UploadBackup *)
Definition UploadBackup (ctx : option ctx_error) := upload ctx "UploadBackup".
End upload.

(** What is true of every state on the way. *)
Record upload_inv (r : reader) (s : upload_state) : Prop := {
  ui_data : rd_Data r = u_written s +:+ u_left s;
  ui_end : u_end s = rd_Err r;
  ui_done : u_copyDone s = match u_phase s with Waiting _ | Returned _ => true | _ => false end;
  ui_closed : u_copyDone s = true → u_closed s = true;
  ui_watch : u_watching s = false → u_copyDone s = true ∨ is_Some (u_ctx s);
  ui_whole : match u_phase s with
             | Closing | Waiting None | Returned None => u_left s = "" ∧ rd_Err r = None
             | _ => True
             end;
  ui_returned : ∀ o, u_phase s = Returned o → u_watching s = false
}.

Lemma upload_inv_start ctx r : upload_inv r (upload_start ctx r).
Proof. by constructor. Qed.

Lemma upload_inv_step op dest r s s' : upload_step op dest s s' → upload_inv r s → upload_inv r s'.
Proof.
  intros Hstep [Hd He Hdone Hcl Hw Hwh Hr].
  destruct Hstep as [e s Hc|c s Hwa Hc|s Hwa Hcd|a b s Hp Ho Ha Hl|e s Hp Hl|e s Hp Hl Hen|s Hp Hl Hen|e s Hp|s Hp Ho|e s Hp|o s Hp Hwa];
    constructor; cbn in *; try rewrite Hp in *; eauto; try done; try congruence.
  - by rewrite Hd, Hl, str_app_assoc.
  - split; congruence.
Qed.

(** Steps an upload has left: the bytes still to be copied, the phases ahead, the
    watcher's exit and the context's end. *)
Definition upload_rank (p : phase) : nat :=
  match p with Copying => 3 | Failing _ | Closing => 2 | Waiting _ => 1 | Returned _ => 0 end.
Definition upload_measure (s : upload_state) : nat :=
  String.length (u_left s) + upload_rank (u_phase s) + (if u_watching s then 1 else 0) +
  match u_ctx s with Some _ => 0 | None => 1 end.

Lemma upload_step_decreases op dest s s' : upload_step op dest s s' → upload_measure s' < upload_measure s.
Proof.
  unfold upload_measure. intros []; cbn; repeat match goal with E : u_phase _ = _ |- _ => rewrite E
    | E : u_watching _ = _ |- _ => rewrite E | E : u_ctx _ = _ |- _ => rewrite E end; cbn; try lia.
  match goal with E : u_left _ = ?a +:+ _, Hne : ?a <> "" |- _ => rewrite E, str_length_app; destruct a; [done|cbn; lia] end.
Qed.

(** An upload that has not returned has a step of its own to take: one that is not
    the context's end. *)
Lemma upload_progress op dest r s :
  upload_inv r s → (∃ o, u_phase s = Returned o) ∨ ∃ s', upload_step op dest s s' ∧ u_ctx s' = u_ctx s.
Proof.
  intros [_ _ Hd _ _ _ _]. destruct (u_phase s) as [|e| |o|o] eqn:Hp; [right..|by left; eauto].
  - destruct (u_left s) as [|c t] eqn:Hl.
    + destruct (u_end s) as [e|] eqn:He.
      * eexists. split; [by eapply up_read_fail|done].
      * eexists. split; [by apply up_read_end|done].
    + exists (set_phase (Failing (GText "")) s). split; [|done]. apply up_write_fail; [done|by rewrite Hl].
  - eexists. split; [by apply up_fail|done].
  - exists (leave (Some (close_error op dest (GText ""))) s). split; [by apply up_close_fail|done].
  - destruct (u_watching s) eqn:Hw; eexists; split.
    + by apply up_watch_done.
    + done.
    + by apply up_return.
    + done.
Qed.

(** C20. An upload over the side channel always ends, and ends clean, however the
    copy, the context's cancellation and the watcher interleave: every run is finite;
    one in which nothing but a cancellation can still happen has returned; and once it
    has returned, the watcher has exited and the remote file is closed. What was
    written is a prefix of the reader's bytes, and a nil error means that all of them
    were written and that the reader ended without an error. *)
Theorem upload_ends op dest ctx r n s :
  nsteps (upload_step op dest) n (upload_start ctx r) s →
  n ≤ String.length (rd_Data r) + 5 ∧
  ((∀ s', upload_step op dest s s' → u_ctx s' ≠ u_ctx s) → ∃ o, u_phase s = Returned o) ∧
  (∃ rest, rd_Data r = u_written s +:+ rest) ∧
  ∀ o, u_phase s = Returned o →
    u_watching s = false ∧ u_closed s = true ∧ (o = None → u_written s = rd_Data r ∧ rd_Err r = None).
Proof.
  intros Hn.
  assert (upload_inv r s ∧ n + upload_measure s ≤ upload_measure (upload_start ctx r)) as [Hinv Hm].
  { remember (upload_start ctx r) as s0 eqn:E. assert (upload_inv r s0) as H0 by (subst; apply upload_inv_start).
    clear E. induction Hn as [s|n s0 s1 s2 Hstep Hn IH]; [split; [done|lia]|].
    destruct IH as [Hi Hle]; [by eapply upload_inv_step|]. split; [done|].
    apply upload_step_decreases in Hstep. lia. }
  split_and!.
  - unfold upload_measure in Hm at 2. cbn in Hm. destruct ctx; lia.
  - intros Hstuck. destruct (upload_progress op dest r s Hinv) as [|(s' & Hs & Hc)]; [done|by destruct (Hstuck s' Hs)].
  - exists (u_left s). apply (ui_data _ _ Hinv).
  - intros o Ho. split; [by apply (ui_returned _ _ Hinv o)|].
    split. { apply (ui_closed _ _ Hinv). rewrite (ui_done _ _ Hinv), Ho. done. }
    intros ->. pose proof (ui_whole _ _ Hinv) as Hw. rewrite Ho in Hw. destruct Hw as [Hl He].
    split; [|done]. rewrite (ui_data _ _ Hinv), Hl. by rewrite str_app_nil_r.
Qed.

(** A cancelled upload: half of the bytes are written, the watcher closes the file
    under the copy, and the upload returns the context's error. *)
Lemma upload_ends_witness : ∃ s,
  nsteps (upload_step "UploadSnippet" "/x") 6 (upload_start None {| rd_Data := "ab"; rd_Err := None |}) s ∧
  u_phase s = Returned (Some (GWrap "ssh.UploadSnippet" (GCtx Canceled))) ∧ u_written s = "a" ∧
  u_watching s = false ∧ u_closed s = true.
Proof.
  eexists.
  match goal with |- ?P ∧ _ => assert P as Hrun end.
  { eapply nsteps_l; [apply (up_write _ _ "a" "b"); [reflexivity|reflexivity|discriminate|reflexivity]|].
    eapply nsteps_l; [apply (up_cancel _ _ Canceled); reflexivity|].
    eapply nsteps_l; [eapply up_watch_ctx; reflexivity|].
    eapply nsteps_l; [apply (up_write_fail _ _ GNetClosed); [reflexivity|discriminate]|].
    eapply nsteps_l; [eapply up_fail; reflexivity|].
    eapply nsteps_l; [eapply up_return; reflexivity|]. apply nsteps_O. }
  split; [exact Hrun|]. split; [reflexivity|]. split; [reflexivity|].
  destruct (upload_ends _ _ _ _ _ _ Hrun) as (_ & _ & _ & H). destruct (H _ eq_refl) as (H1 & H2 & _). by split.
Defined.

(** A network of numbered connections, on which a session starts or never does. *)
Definition numbered_net (sftp_works : bool) : SshNet (gset nat) string string nat nat nat () := {|
  dial_tcp _ _ w := let c := fresh w in ({[c]} ∪ w, inr c);
  conn_Close c w := (w ∖ {[c]}, None);
  NewClientConn c _ cfg w := if gc_User cfg =s "" then (w ∖ {[c]}, inl (GText "handshake failed")) else (w, inr c);
  ssh_Close h w := (w ∖ {[h]}, None);
  sftp_NewClient h w := (w, if sftp_works then inr h else inl (GText "subsystem refused"));
  sftp_Close _ w := (w, None);
  NewSession _ w := (w, inr ());
  session_Close _ w := (w, None);
  CombinedOutput _ _ w := (w, inr ("", None));
  sftp_Create _ _ w := (w, None)
|}.
Definition plain_gossh : Gossh (gset nat) string string string := {|
  FixedHostKey key := key; knownhosts_New path _ := inr path; ParsePrivateKey pem := inr pem |}.

Lemma numbered_lawful b : LawfulSshNet (numbered_net b) id id.
Proof.
  constructor; intros; cbn; try done.
  - split; [apply is_fresh|done].
  - case_bool_decide; set_solver.
Qed.

Lemma no_connection_leaks_witness :
  let opts := [@WithUser (gset nat) string string string nat "root"; WithPassword "pw"; WithKnownHostsFile "known_hosts"] in
  let refused := @Connect _ _ _ _ _ _ nat () plain_gossh (numbered_net false) "pve" (NewClient opts) {[7]} in
  let connected := @Connect _ _ _ _ _ _ nat () plain_gossh (numbered_net true) "pve" (NewClient opts) {[7]} in
  refused.2 = Some (GWrap "ssh.Connect: start sftp" (GText "subsystem refused")) ∧ refused.1.1 = {[7]} ∧
  connected.2 = None ∧ connected.1.1 = {[7]} ∪ held id connected.1.2.
Proof.
  intros opts refused connected. split; [vm_compute; reflexivity|].
  assert (∀ b out, out = @Connect _ _ _ _ _ _ nat () plain_gossh (numbered_net b) "pve" (NewClient opts) {[7]} →
    rtc (@client_step _ _ _ _ _ _ _ _ plain_gossh (numbered_net b)) (NewClient opts, {[7]}) (out.1.2, out.1.1)) as Hrun.
  { intros b out E. apply rtc_once. apply (step_connect "pve" _ _ _ _ out.2). rewrite <- E. by destruct out as [[w c] e]. }
  pose proof (@no_connection_leaks _ _ _ _ _ _ _ _ _ _ plain_gossh (numbered_net false) id id (numbered_lawful false)
    opts {[7]} _ eq_refl (Hrun false refused eq_refl)) as (_ & _ & Hr).
  pose proof (@no_connection_leaks _ _ _ _ _ _ _ _ _ _ plain_gossh (numbered_net true) id id (numbered_lawful true)
    opts {[7]} _ eq_refl (Hrun true connected eq_refl)) as (_ & Hc & _).
  split; [apply Hr; vm_compute; reflexivity|]. split; [vm_compute; reflexivity|exact Hc].
Defined.
