(* ===== verification/Tasks.v ===== *)
(** [proxmox/tasks] and the helpers of [internal/svcutil]: UPIDs, task status,
    and the waiter that polls a task until it has exited. The poll loop has no
    bound of its own, so it runs on fuel; what makes the fuel suffice is a theorem
    ([WaitFor_terminates] for a context with a deadline, [WaitFor_spec] for a task
    that finishes). *)

From S2P Require Import Prelude Json Pverr Api.
From Stdlib Require Import ZArith Lia Ascii Floats.SpecFloat.
From stdpp Require Import options.
Set Default Proof Using "Type*".

(** ** UPIDs *)

(** The start time is kept in seconds since the epoch. *)
(* go: proxmox/tasks/upid.go#UPID *)
Record UPID := {
  Raw : string;
  Node : string;
  PID : Z;
  PStart : Z;
  StartTime : Z;
  Type_ : string;
  ID : string;
  User : string
}.

(* go: proxmox/tasks/upid.go#ParseUPID *)
Definition ParseUPID (s : string) : goerr + UPID :=
  match split_byte ":"%char s with
  | p0 :: p1 :: p2 :: p3 :: p4 :: p5 :: p6 :: p7 :: _ =>
      if p0 <>s "UPID" then inl (GText "tasks: malformed UPID") else
      match parse_int 16 p2 with
      | None => inl (GText "tasks: UPID: parse pid")
      | Some pid =>
          match parse_int 16 p3 with
          | None => inl (GText "tasks: UPID: parse pstart")
          | Some pstart =>
              match parse_int 16 p4 with
              | None => inl (GText "tasks: UPID: parse starttime")
              | Some epoch =>
                  inr {| Raw := s; Node := p1; PID := pid; PStart := pstart; StartTime := epoch;
                         Type_ := p5; ID := p6; User := p7 |}
              end
          end
      end
  | _ => inl (GText "tasks: malformed UPID")
  end.

(* go: proxmox/tasks/upid.go#Ref *)
Record Ref := { ref_Node : string; ref_UPID : string }.

(* go: proxmox/tasks/upid.go#NewRef *)
Definition NewRef (upid : string) : goerr + Ref :=
  match ParseUPID upid with
  | inl err => inl err
  | inr u => inr {| ref_Node := Node u; ref_UPID := upid |}
  end.

(* go: proxmox/tasks/upid.go#Ref.IsZero *)
Definition IsZero (r : Ref) : bool := ref_UPID r =s "".

(* go: proxmox/tasks/upid.go#Ref.valid *)
Definition valid (r : Ref) : option goerr :=
  if (ref_Node r =s "") || (ref_UPID r =s "") then Some (GText "tasks: incomplete ref") else None.

(* go: proxmox/internal/svcutil/svcutil.go#TaskRef *)
Definition TaskRef (op upid : string) : goerr + Ref :=
  match NewRef upid with
  | inl err => inl (GWrap op err)
  | inr ref => inr ref
  end.

(** ** Task status *)

(* go: proxmox/tasks/service.go#exitOK *)
Definition exitOK : string := "OK".
(* go: proxmox/tasks/service.go#warnPrefix *)
Definition warnPrefix : string := "WARNINGS:".

(* go: proxmox/tasks/service.go#Status *)
Record Status := {
  st_UPID : string; st_Node : string; st_Type : string; st_ID : string; st_User : string;
  State : string;
  ExitStatus : string;
  st_PID : Z; st_StartTime : Z
}.
Definition Status_zero : Status :=
  {| st_UPID := ""; st_Node := ""; st_Type := ""; st_ID := ""; st_User := "";
     State := ""; ExitStatus := ""; st_PID := 0; st_StartTime := 0 |}.

Definition decode_Status : json → option Status :=
  as_struct Status_zero (λ l,
    u ← str_field "upid" l; n ← str_field "node" l; t ← str_field "type" l; i ← str_field "id" l;
    us ← str_field "user" l; s ← str_field "status" l; e ← str_field "exitstatus" l;
    p ← int_field "pid" l; b ← int_field "starttime" l;
    Some {| st_UPID := u; st_Node := n; st_Type := t; st_ID := i; st_User := us;
            State := s; ExitStatus := e; st_PID := p; st_StartTime := b |}).

(* go: proxmox/tasks/service.go#Status.Running *)
Definition Running (s : Status) : bool := State s =s "running".
(* go: proxmox/tasks/service.go#Status.Done *)
Definition Done (s : Status) : bool := State s =s "stopped".
(* go: proxmox/tasks/service.go#Status.OK *)
Definition OK (s : Status) : bool := (ExitStatus s =s exitOK) || has_prefix (ExitStatus s) warnPrefix.
(* go: proxmox/tasks/service.go#Status.Warnings *)
Definition Warnings (s : Status) : bool := has_prefix (ExitStatus s) warnPrefix.

(* go: proxmox/tasks/service.go#LogLine *)
Record LogLine := { Number : Z; Text : string }.
Definition LogLine_zero : LogLine := {| Number := 0; Text := "" |}.
Definition decode_LogLine : json → option LogLine :=
  as_struct LogLine_zero (λ l,
    n ← int_field "n" l; t ← str_field "t" l; Some {| Number := n; Text := t |}).

(** ** The waiter *)

(* go: proxmox/tasks/service.go#WaitPolicy *)
Record WaitPolicy := { Initial : Z; Max : Z; Factor : spec_float }.

(* go: proxmox/tasks/service.go#DefaultWaitPolicy *)
Definition DefaultWaitPolicy : WaitPolicy :=
  {| Initial := 1000000000; Max := 10 * 1000000000; Factor := float64_of 15 (-1) |}.

(* go: proxmox/tasks/service.go#WaitPolicy.next *)
Definition next (p : WaitPolicy) (d : Z) : Z :=
  let grown := trunc (float_mul (float64_of d 0) (Factor p)) in
  if (Max p <? grown)%Z then Max p else grown.

(** The outcome of Go's [select] between a timer and the context: [None] when the
    timer fired, the context's error when it was cancelled first. *)
Class Timers (W : Type) := select_timer : Z → W → W * option ctx_error.

Section service.
Context {W : Type} `{!Client W} `{!Timers W}.

(* go: proxmox/tasks/service.go#sleep *)
Definition sleep (d : Z) (w : W) : W * option goerr :=
  let '(w, e) := select_timer d w in (w, GCtx <$> e).

Definition status_path (r : Ref) : string := "/nodes/" +:+ ref_Node r +:+ "/tasks/" +:+ ref_UPID r +:+ "/status".

(* go: proxmox/tasks/service.go#Service.Status *)
Definition Service_Status (r : Ref) (w : W) : W * (goerr + Status) :=
  match valid r with
  | Some err => (w, inl err)
  | None =>
      then_result (DoRequest "GET" (status_path r) None (Some decode_Status) w) id (λ st w,
        (w, inr (default Status_zero st)))
  end.

(* go: proxmox/tasks/service.go#Service.Log *)
Definition Service_Log (r : Ref) (w : W) : W * (goerr + list LogLine) :=
  match valid r with
  | Some err => (w, inl err)
  | None =>
      let path := "/nodes/" +:+ ref_Node r +:+ "/tasks/" +:+ ref_UPID r +:+ "/log" in
      then_result (DoRequest "GET" path None (Some (as_list decode_LogLine)) w) id (λ lines w,
        (w, inr (default [] lines)))
  end.

(** The loop of [WaitFor], at most [fuel] polls; [None] is out of fuel. *)
Fixpoint WaitFor_loop (p : WaitPolicy) (fuel : nat) (interval : Z) (r : Ref) (cond : Status → bool) (w : W) :
    option (W * (goerr + Status)) :=
  match fuel with
  | 0 => None
  | S fuel =>
      match Service_Status r w with
      | (w, inl err) => Some (w, inl err)
      | (w, inr st) =>
          if cond st then Some (w, inr st)
          else match sleep interval w with
               | (w, Some err) => Some (w, inl err)
               | (w, None) => WaitFor_loop p fuel (next p interval) r cond w
               end
      end
  end.

(* go: proxmox/tasks/service.go#Service.WaitFor *)
Definition WaitFor (p : WaitPolicy) (fuel : nat) (r : Ref) (cond : Status → bool) (w : W) :
    option (W * (goerr + Status)) :=
  WaitFor_loop p fuel (Initial p) r cond w.

(* go: proxmox/tasks/service.go#Service.failure *)
Definition failure (r : Ref) (st : Status) (w : W) : W * goerr :=
  let e := NewTaskFailed "tasks.Wait" (st_UPID st) (ExitStatus st) in
  let '(w, lines) := Service_Log r w in
  let msg := match lines with
             | inr lines => match last lines with
                            | Some line => ExitStatus st +:+ ": " +:+ Text line
                            | None => e_Message e
                            end
             | inl _ => e_Message e
             end in
  (w, GPve {| e_Op := e_Op e; e_Path := status_path r; e_Status := e_Status e; e_Message := msg;
              e_Params := e_Params e; e_UPID := e_UPID e; e_err := e_err e |}).

(** [Wait] returns a status and an error, both. *)
(* go: proxmox/tasks/service.go#Service.Wait *)
Definition Wait (p : WaitPolicy) (fuel : nat) (r : Ref) (w : W) : option (W * (Status * option goerr)) :=
  match WaitFor p fuel r Done w with
  | None => None
  | Some (w, inl err) => Some (w, (Status_zero, Some err))
  | Some (w, inr st) =>
      if negb (OK st) then let '(w, err) := failure r st w in Some (w, (st, Some err))
      else Some (w, (st, None))
  end.
End service.

(** ** Properties of UPIDs *)

(** Eight fields and whatever follows them, as PVE prints a UPID. *)
Definition upid_text (node pid pstart start typ id user : string) (rest : list string) : string :=
  join ":" (["UPID"; node; pid; pstart; start; typ; id; user] ++ rest).

Lemma split_upid node pid pstart start typ id user rest :
  Forall (λ s, no_byte ":"%char s = true) ([node; pid; pstart; start; typ; id; user] ++ rest) →
  split_byte ":"%char (upid_text node pid pstart start typ id user rest) =
    ["UPID"; node; pid; pstart; start; typ; id; user] ++ rest.
Proof. intros H. unfold upid_text. apply split_join; [done|]. by constructor. Qed.

(** C39. Parsing a UPID is exact in both directions. A string made of the literal
    [UPID], colon-free fields of which the three counters are hexadecimal, and any
    further fields, parses to those fields; and whatever parses has that form,
    with the string kept verbatim in [Raw]. *)
Theorem ParseUPID_exact s u :
  ParseUPID s = inr u ↔
  Raw u = s ∧ ∃ pid pstart start rest,
    s = upid_text (Node u) pid pstart start (Type_ u) (ID u) (User u) rest ∧
    Forall (λ f, no_byte ":"%char f = true) ([Node u; pid; pstart; start; Type_ u; ID u; User u] ++ rest) ∧
    parse_int 16 pid = Some (PID u) ∧ parse_int 16 pstart = Some (PStart u) ∧
    parse_int 16 start = Some (StartTime u).
Proof.
  split.
  - unfold ParseUPID. pose proof (join_split ":"%char s) as Hs. pose proof (split_byte_no_byte ":"%char%char s) as Hf.
    destruct (split_byte ":"%char s) as [|p0 [|p1 [|p2 [|p3 [|p4 [|p5 [|p6 [|p7 rest]]]]]]]]; try done.
    case_bool_decide; [|done]. subst p0.
    destruct (parse_int 16 p2) eqn:?, (parse_int 16 p3) eqn:?, (parse_int 16 p4) eqn:?; try done.
    intros [= <-]. cbn. split; [done|]. exists p2, p3, p4, rest. split_and!; [done| |done..].
    by apply Forall_cons in Hf as [_ ?].
  - intros (Hraw & pid & pstart & start & rest & Hs & Hf & Hp & Hps & Ht).
    unfold ParseUPID. rewrite Hs, split_upid by done. cbn [app].
    rewrite bool_decide_eq_true_2 by done. cbn [negb]. rewrite Hp, Hps, Ht.
    rewrite <- Hs, <- Hraw. by destruct u.
Qed.

(** ** Properties of the waiter *)

Section properties.
Context {W : Type} `{!Client W} `{!Timers W}.

(** The interval and the world before the [k]-th further poll, when the polls
    before it succeed without meeting the condition and their sleeps end. *)
Fixpoint poll_world (p : WaitPolicy) (r : Ref) (cond : Status → bool) (k : nat) (interval : Z) (w : W) :
    option (Z * W) :=
  match k with
  | 0 => Some (interval, w)
  | S k =>
      match Service_Status r w with
      | (w, inr st) =>
          if cond st then None
          else match sleep interval w with
               | (w, None) => poll_world p r cond k (next p interval) w
               | _ => None
               end
      | _ => None
      end
  end.

Lemma WaitFor_loop_spec p r cond fuel interval w w' st :
  WaitFor_loop p fuel interval r cond w = Some (w', inr st) ↔
  ∃ k i wk, k < fuel ∧ poll_world p r cond k interval w = Some (i, wk) ∧
    Service_Status r wk = (w', inr st) ∧ cond st = true.
Proof.
  revert interval w. induction fuel as [|fuel IH]; intros interval w; cbn [WaitFor_loop].
  { split; [done|]. intros (k & i & wk & Hk & _). lia. }
  destruct (Service_Status r w) as [w1 [err|st1]] eqn:Hst.
  { split; [done|]. intros (k & i & wk & Hk & Hp & Hs & Hc).
    destruct k; cbn in Hp; [|by rewrite Hst in Hp]. injection Hp as -> ->. by rewrite Hst in Hs. }
  destruct (cond st1) eqn:Hc1.
  { split.
    - intros [= <- <-]. exists 0, interval, w. split_and!; [lia|done..].
    - intros (k & i & wk & Hk & Hp & Hs & Hc). destruct k; cbn in Hp.
      + injection Hp as -> ->. rewrite Hst in Hs. by injection Hs as -> ->.
      + by rewrite Hst, Hc1 in Hp. }
  destruct (sleep interval w1) as [w2 [err|]] eqn:Hsl.
  { split; [done|]. intros (k & i & wk & Hk & Hp & Hs & Hc). destruct k; cbn in Hp.
    - injection Hp as -> ->. rewrite Hst in Hs. injection Hs as -> ->. congruence.
    - by rewrite Hst, Hc1, Hsl in Hp. }
  rewrite IH. split.
  - intros (k & i & wk & Hk & Hp & Hs & Hc). exists (S k), i, wk. cbn. rewrite Hst, Hc1, Hsl.
    split_and!; [lia|done..].
  - intros (k & i & wk & Hk & Hp & Hs & Hc). destruct k; cbn in Hp.
    { injection Hp as -> ->. rewrite Hst in Hs. injection Hs as -> ->. congruence. }
    rewrite Hst, Hc1, Hsl in Hp. exists k, i, wk. split_and!; [lia|done..].
Qed.

Lemma WaitFor_loop_more p r cond fuel fuel' interval w res :
  WaitFor_loop p fuel interval r cond w = Some res → fuel ≤ fuel' →
  WaitFor_loop p fuel' interval r cond w = Some res.
Proof.
  revert fuel' interval w. induction fuel as [|fuel IH]; intros fuel' interval w H Hle; cbn in H; [done|].
  destruct fuel' as [|fuel']; [lia|]. cbn.
  destruct (Service_Status r w) as [w1 [err|st]]; [done|]. destruct (cond st); [done|].
  destruct (sleep interval w1) as [w2 [err|]]; [done|]. apply IH; [done|lia].
Qed.

Lemma WaitFor_loop_terminates (μ : W → nat) p r cond fuel interval w :
  (∀ w, μ (Service_Status r w).1 ≤ μ w) →
  (∀ d w w', select_timer d w = (w', None) → μ w' < μ w) →
  μ w < fuel → is_Some (WaitFor_loop p fuel interval r cond w).
Proof.
  intros Hpoll Hsleep. revert interval w. induction fuel as [|fuel IH]; intros interval w Hw; [lia|]. cbn.
  specialize (Hpoll w). destruct (Service_Status r w) as [w1 [err|st]]; [done|]. destruct (cond st); [done|].
  unfold sleep. destruct (select_timer interval w1) as [w2 [err|]] eqn:Hsel; cbn in *; [done|].
  apply Hsleep in Hsel. apply IH. lia.
Qed.
End properties.

(** The waiter returns a status exactly when a poll meets the condition: it is
    the status of the first such poll, no poll follows it, and the polls before it
    all answered. Any bound larger than its index gives the same result. *)
Theorem WaitFor_spec {W} `{!Client W} `{!Timers W} (p : WaitPolicy) (fuel : nat) (r : Ref) cond (w w' : W) st :
  WaitFor p fuel r cond w = Some (w', inr st) ↔
  ∃ k i wk, k < fuel ∧ poll_world p r cond k (Initial p) w = Some (i, wk) ∧
    Service_Status r wk = (w', inr st) ∧ cond st = true.
Proof. apply WaitFor_loop_spec. Qed.

(** C33. Under a context with a deadline, which every completed sleep brings nearer
    and no request pushes back, the waiter returns: the time left bounds the
    polls, and a larger bound changes nothing. *)
Theorem WaitFor_terminates {W} `{!Client W} `{!Timers W} (left : W → nat) (p : WaitPolicy) (r : Ref) cond (w : W) :
  (∀ w, left (Service_Status r w).1 ≤ left w) →
  (∀ d w w', select_timer d w = (w', None) → left w' < left w) →
  ∃ res, ∀ fuel, left w < fuel → WaitFor p fuel r cond w = Some res.
Proof.
  intros Hpoll Hsleep.
  destruct (WaitFor_loop_terminates left p r cond (S (left w)) (Initial p) w Hpoll Hsleep) as [res Hres]; [lia|].
  exists res. intros fuel Hf. eapply WaitFor_loop_more; [done|lia].
Qed.

(** C37. What [Wait] reports. Without an error the task has stopped with a success
    (a success with warnings included). With an error either the task has stopped
    and its exit is not a success, and then the error is [ErrTaskFailed], names
    the task and its exit status; or no final status was read. *)
Theorem Wait_outcome {W} `{!Client W} `{!Timers W} (p : WaitPolicy) (fuel : nat) (r : Ref) (w w' : W) st res :
  Wait p fuel r w = Some (w', (st, res)) →
  match res with
  | None => State st = "stopped" ∧ (ExitStatus st = "OK" ∨ has_prefix (ExitStatus st) "WARNINGS:" = true)
  | Some err =>
      (State st = "stopped" ∧ ExitStatus st ≠ "OK" ∧ has_prefix (ExitStatus st) "WARNINGS:" = false ∧
       errors_is err ErrTaskFailed = true ∧
       ∃ e, err = GPve e ∧ e_UPID e = st_UPID st ∧ e_Path e = status_path r ∧
            has_prefix (e_Message e) (ExitStatus st) = true) ∨
      (st = Status_zero ∧ ∃ wf, WaitFor p fuel r Done w = Some (wf, inl err))
  end.
Proof.
  unfold Wait. destruct (WaitFor p fuel r Done w) as [[w1 [err|st1]]|] eqn:Hw; [|..|done].
  { intros [= <- <- <-]. right. eauto. }
  apply WaitFor_loop_spec in Hw as (k & i & wk & _ & _ & _ & Hdone). apply bool_decide_eq_true in Hdone.
  unfold OK, exitOK, warnPrefix. case_bool_decide as Hok; cbn [orb negb].
  { intros [= <- <- <-]. eauto. }
  destruct (has_prefix (ExitStatus st1) "WARNINGS:") eqn:Hwarn; cbn [negb].
  { intros [= <- <- <-]. eauto. }
  unfold failure. destruct (Service_Log r w1) as [w2 lines]. intros [= <- <- <-]. left.
  split_and!; [done..|]. eexists. split_and!; [reflexivity|done|done|]. cbn [e_Message NewTaskFailed].
  repeat case_match; auto with go.
Qed.

(** ** A concrete run

    A task that stops when the countdown reaches [2], and a context that is done
    when it reaches [0]. *)
Definition task_json (upid status exit : string) : json :=
  JObj [("upid", JStr upid); ("status", JStr status); ("exitstatus", JStr exit)].

#[export] Instance countdown_client : Client nat := {|
  DoRequest A _ path _ out w :=
    (w, inr (out ≫= λ decode,
       decode (if 2 <? w then task_json "UPID:pve:1:1:1:t:100:root@pam:" "running" ""
               else task_json "UPID:pve:1:1:1:t:100:root@pam:" "stopped" "job errors")))
|}.
#[export] Instance countdown_timers : Timers nat := λ _ w,
  match w with 0 => (0, Some DeadlineExceeded) | S w => (w, None) end.

Definition ref_example : Ref := {| ref_Node := "pve"; ref_UPID := "UPID:pve:1:1:1:t:100:root@pam:" |}.

Lemma WaitFor_terminates_witness :
  ∃ res, ∀ fuel, 5 < fuel → WaitFor DefaultWaitPolicy fuel ref_example (λ _, false) 5 = Some res.
Proof.
  apply (WaitFor_terminates id).
  - intros w. reflexivity.
  - intros d [|w] w' [= <-]; unfold id; lia.
Defined.

Lemma Wait_outcome_witness : ∃ w' st err,
  Wait DefaultWaitPolicy 10 ref_example 5 = Some (w', (st, Some err)) ∧
  ((State st = "stopped" ∧ ExitStatus st ≠ "OK" ∧ has_prefix (ExitStatus st) "WARNINGS:" = false ∧
    errors_is err ErrTaskFailed = true ∧
    ∃ e, err = GPve e ∧ e_UPID e = st_UPID st ∧ e_Path e = status_path ref_example ∧
         has_prefix (e_Message e) (ExitStatus st) = true) ∨
   (st = Status_zero ∧ ∃ wf, WaitFor DefaultWaitPolicy 10 ref_example Done 5 = Some (wf, inl err))).
Proof.
  eexists _, _, _. split; [vm_compute; reflexivity|].
  refine (Wait_outcome DefaultWaitPolicy 10 ref_example 5 2 _ (Some _) _). vm_compute. reflexivity.
Defined.
