(* ===== verification/Svcutil.v ===== *)
(** [internal/svcutil]: the two helpers that keep keys the SDK does not model. A
    read routes every unmodelled key of an object into a map of texts; a write
    flattens a specification into a form and puts the caller's extra parameters
    over it. *)

From S2P Require Import Prelude Json JsonText Pverr Types Api Transport Tasks.
From Stdlib Require Import ZArith Lia Floats.SpecFloat.
From stdpp Require Import options.

(** The value of an unmodelled key: a string is unquoted, [null] unmarshals into a
    string as the empty one, and any other value keeps its token (exact for
    tokens written the way [marshal] writes them). *)
Definition extra_text (v : json) : string :=
  match v with JStr s => s | JNull => "" | _ => marshal v end.

(** One pass of the loop over the object's keys. *)
Definition extra_key (known : list string) (extra : gmap string string) (kv : string * json) : gmap string string :=
  if decide (kv.1 ∈ known) then extra else <[kv.1 := extra_text kv.2]> extra.

(** A nil map and an empty one are the same to every caller. *)
(* go: proxmox/internal/svcutil/svcutil.go#DecodeExtra *)
Definition DecodeExtra (data : json) (known : list string) : option (gmap string string) :=
  match data with
  | JObj l => Some (foldl (extra_key known) ∅ l)
  | JNull => Some ∅
  | _ => None
  end.

(** A specification is the list of its encoded fields; its keys are distinct struct
    tags. On its way through JSON text a string becomes UTF-8, any other value is its
    token ([form_value]); the extra parameters are not touched. [EncodeWithExtra_text]
    computes the same through the text. *)
(* go: proxmox/internal/svcutil/svcutil.go#EncodeWithExtra *)
Definition EncodeWithExtra (spec : list (string * json)) (extra : gmap string string) : values :=
  let vals := foldl (λ vals kv, <[kv.1 := [form_value kv.2]]> vals) ∅ spec in
  foldl (λ vals kv, <[kv.1 := [kv.2]]> vals) vals (map_to_list extra).

(** Fields of a specification: [omitempty] drops a nil pointer, and a
    [types.PVEBool] that is false. *)
Definition opt_bool (name : string) (v : option bool) : list (string * json) :=
  match v with None => [] | Some b => [(name, PVEBool_MarshalJSON b)] end.
Definition omit_bool (name : string) (v : bool) : list (string * json) :=
  if v then [(name, PVEBool_MarshalJSON true)] else [].

Definition opt_int (name : string) (v : option Z) : list (string * json) :=
  match v with None => [] | Some z => [(name, jint z)] end.

Definition opt_float (name : string) (v : option spec_float) : list (string * json) :=
  match v with None => [] | Some f => [(name, jfloat f)] end.

(** A [float64] field of a read struct; a literal that overflows is an error. *)
Definition as_float (j : json) : option spec_float :=
  match j with
  | JNum m e => let f := float64_of m e in if is_float_finite f then Some f else None
  | _ => None
  end.
Definition float_field := decode_field (S754_zero false) as_float.

(** [json.Unmarshal] into a [string] and into a [*string]. *)
Definition as_string_out (j : json) : option string := match j with JNull => Some "" | _ => as_string j end.
Definition as_string_ptr (j : json) : option (option string) :=
  match j with JNull => Some None | _ => Some <$> as_string j end.

(** Fields that hold a plain [bool], a list of strings, a list of structs, and a
    [json.RawMessage], which keeps a [null]. *)
Definition bool_field := decode_field false as_bool.
Definition strs_field := decode_field [] (as_list as_string_out).
Definition list_field {A} (d : json → option A) := decode_field [] (as_list d).
Definition raw_field (name : string) (l : list (string * json)) : option json := field_raw name l.

(** [json.Unmarshal] into a nested struct whose zero value is [z], and into a map. *)
Definition struct_field {A} (z : A) (d : json → option A) := decode_field z d.
Definition as_map {A} (d : json → option A) (j : json) : option (gmap string A) :=
  match j with
  | JNull => Some ∅
  | JObj l => foldl (λ m kv, m ← m; x ← d kv.2; Some (<[kv.1 := x]> m)) (Some ∅) l
  | _ => None
  end.
(** A pointer to a struct: nil when the field is absent or [null]. *)
Definition ptr_field {A} (d : json → option A) := decode_field None (λ j, Some <$> d j).
Definition map_field {A} (d : json → option A) := decode_field ∅ (as_map d).

(** ** The shapes of a service method

    A read decodes the data (absent data leaves the zero value [z]), a synchronous
    write has no result, and a task-starting operation parses the UPID in the
    answer. Errors are wrapped with the operation's name. *)

Section calls.
Context {W : Type} `{!Client W}.

Definition read_data {A} (op path : string) (z : A) (d : json → option A) (w : W) : W * (goerr + A) :=
  then_result (DoRequest "GET" path None (Some d) w) (GWrap op) (λ r w, (w, inr (default z r))).
Definition exchange {A} (op method path : string) (b : option body) (z : A) (d : json → option A) (w : W) :
    W * (goerr + A) :=
  then_result (DoRequest method path b (Some d) w) (GWrap op) (λ r w, (w, inr (default z r))).
Definition send (op method path : string) (b : option body) (w : W) : W * (goerr + ()) :=
  then_result (DoRequest (A := ()) method path b None w) (GWrap op) (λ _ w, (w, inr ())).

(** [""] is an absent UPID; [task_or_none] takes it for a synchronous completion. *)
Definition Ref_zero : Ref := {| ref_Node := ""; ref_UPID := "" |}.
Definition task_of (op : string) (r : W * (goerr + option string)) : W * (goerr + Ref) :=
  then_result r (GWrap op) (λ upid w, (w, TaskRef op (default "" upid))).
Definition task_or_none (op : string) (r : W * (goerr + option string)) : W * (goerr + Ref) :=
  then_result r (GWrap op) (λ upid w, (w, if default "" upid =s "" then inr Ref_zero else TaskRef op (default "" upid))).
Definition start (op method path : string) (b : option body) (w : W) : W * (goerr + Ref) :=
  task_of op (DoRequest method path b (Some as_string_out) w).

Definition start_or_none (op method path : string) (b : option body) (w : W) : W * (goerr + Ref) :=
  task_or_none op (DoRequest method path b (Some as_string_out) w).

(** A refusal before anything is sent. *)
Definition refuse {A} (e : goerr) (w : W) : W * (goerr + A) := (w, inl e).
Definition missing {A} (what : string) : W → W * (goerr + A) := refuse (GWrap what (GSpec ErrMissingField)).
Definition invalid {A} (what : string) : W → W * (goerr + A) := refuse (GWrap what (GSpec ErrInvalidValue)).
Definition nil_spec {A} (op : string) : W → W * (goerr + A) := refuse (GWrap op (GSpec ErrNilSpec)).
End calls.

(** A form without keys is not sent. *)
Definition some_values (vals : values) : option body := if decide (vals = ∅) then None else Some (BValues vals).

(** Functional options that write into a form. *)
Definition form_option : Type := values → values.
Definition apply_options (opts : list form_option) : values := foldl (λ c opt, opt c) ∅ opts.

(** [int(d.Seconds())]: whole seconds plus the fraction, added as floats. *)
Definition whole_seconds (d : Z) : Z :=
  trunc (SFadd SFprec SFemax (float64_of (Z.quot d 1000000000) 0)
           (SFdiv SFprec SFemax (float64_of (Z.rem d 1000000000) 0) (float64_of 1000000000 0))).

(** [if len(l) > 0 { body.Set(key, strings.Join(l, ",")) }], the same for a list sent
    as repeated keys ([body[key] = l]), and for a text that is not empty. *)
Definition set_list (key : string) (l : list string) (b : values) : values :=
  match l with [] => b | _ => <[key := [join "," l]]> b end.
Definition set_values (key : string) (l : list string) (b : values) : values :=
  match l with [] => b | _ => <[key := l]> b end.
Definition set_text (key v : string) (b : values) : values := if v =s "" then b else <[key := [v]]> b.

(** ** Properties *)

Lemma lookup_foldl_fields spec (vals : values) k :
  foldl (λ vals kv, <[kv.1 := [form_value kv.2]]> vals) vals spec !! k =
    match (list_to_map (reverse spec) : gmap string json) !! k with
    | Some v => Some [form_value v]
    | None => vals !! k
    end.
Proof.
  revert vals. induction spec as [|[x v] spec IH]; intros vals; [done|]. cbn [foldl fst snd]. rewrite IH.
  rewrite reverse_cons, list_to_map_app. destruct ((list_to_map (reverse spec) : gmap string json) !! k) as [w|] eqn:E.
  - by rewrite (lookup_union_Some_l _ _ _ _ E).
  - rewrite lookup_union_r by done. cbn. destruct (decide (k = x)) as [->|Hne]; [by rewrite !lookup_insert_eq|].
    by rewrite !lookup_insert_ne.
Qed.

Lemma lookup_foldl_extra (l : list (string * string)) (vals : values) k :
  NoDup l.*1 →
  foldl (λ vals kv, <[kv.1 := [kv.2]]> vals) vals l !! k =
    match (list_to_map l : gmap string string) !! k with Some v => Some [v] | None => vals !! k end.
Proof.
  revert vals. induction l as [|[x v] l IH]; intros vals Hnd; [done|]. cbn in Hnd. apply NoDup_cons in Hnd as [Hx Hnd].
  cbn [foldl fst snd list_to_map foldr uncurry]. rewrite IH by done. destruct (decide (k = x)) as [->|Hne].
  - rewrite lookup_insert_eq. rewrite not_elem_of_list_to_map_1 by done. by rewrite lookup_insert_eq.
  - by rewrite !lookup_insert_ne.
Qed.

(** What a form has under a key: the extra parameter if there is one, else the
    field's text. *)
Lemma lookup_EncodeWithExtra spec extra k :
  EncodeWithExtra spec extra !! k =
    match extra !! k with
    | Some v => Some [v]
    | None => (λ v, [form_value v]) <$> (list_to_map (reverse spec) : gmap string json) !! k
    end.
Proof.
  unfold EncodeWithExtra. rewrite lookup_foldl_extra by apply NoDup_fst_map_to_list.
  rewrite list_to_map_to_list, lookup_foldl_fields, lookup_empty. destruct (extra !! k); [done|].
  by destruct ((list_to_map (reverse spec) : gmap string json) !! k).
Qed.

(** [EncodeWithExtra] with the text in between: marshalled, read back into raw members,
    each unquoted, and the extra parameters put over them. *)
Lemma EncodeWithExtra_text spec extra :
  readable (JObj spec) → (Z.of_nat (json_depth (JObj spec)) ≤ maxNestingDepth)%Z →
  Forall (λ kv, valid_utf8 kv.1) spec →
  match flatten (JObj spec) with
  | inr vals => EncodeWithExtra spec extra = foldl (λ vals kv, <[kv.1 := [kv.2]]> vals) vals (map_to_list extra)
  | inl _ => False
  end.
Proof.
  intros Hspec Hd Hk. rewrite flatten_fields by done. unfold EncodeWithExtra. f_equal. unfold fields_form.
  generalize (∅ : values). clear Hspec Hd. induction Hk as [|kv spec Hkv _ IH]; [done|]. intros vals. cbn [foldl].
  by rewrite to_utf8_id, IH.
Qed.
Lemma jfloat_number f : ∃ m e, jfloat f = JNum m e ∧ num_ok m e = true.
Proof.
  unfold jfloat. destruct (shortest f) as [m e]. destruct ((0 <=? e) && _)%Z eqn:He; do 2 eexists; (split; [done|]); [done|].
  unfold num_ok. apply orb_true_iff. apply andb_false_iff in He as [He|He]; lia.
Qed.

Lemma lookup_extra_keys known l extra k :
  foldl (extra_key known) extra l !! k =
    if decide (k ∈ known) then extra !! k
    else match (list_to_map (reverse l) : gmap string json) !! k with Some v => Some (extra_text v) | None => extra !! k end.
Proof.
  revert extra. induction l as [|[x v] l IH]; intros extra; [by case_decide|]. cbn [foldl]. rewrite IH.
  rewrite reverse_cons, list_to_map_app. unfold extra_key. cbn [fst snd]. case_decide as Hk.
  - case_decide; [done|]. rewrite lookup_insert_ne; [done|]. by intros ->.
  - destruct ((list_to_map (reverse l) : gmap string json) !! k) as [w|] eqn:E.
    + by rewrite (lookup_union_Some_l _ _ _ _ E).
    + rewrite lookup_union_r by done. cbn. destruct (decide (k = x)) as [->|Hne].
      * rewrite lookup_insert_eq. case_decide; [done|]. by rewrite lookup_insert_eq.
      * rewrite lookup_insert_ne, lookup_empty by done. case_decide; [done|]. by rewrite lookup_insert_ne.
Qed.

(** A list field depends on its decoder only at values nested deeper than it. *)
Lemma list_field_depth {A} (d d' : json → option A) name l :
  (∀ x, json_depth x < json_depth (JObj l) → d x = d' x) → list_field d name l = list_field d' name l.
Proof.
  intros Hd. unfold list_field, decode_field. destruct (field_raw name l) as [v|] eqn:Hv; [|done].
  apply field_raw_depth in Hv. destruct v as [| | | |vs|]; try done. cbn [as_list].
  assert (∀ x, x ∈ vs → d x = d' x) as Hx.
  { intros x Hx%elem_depth. apply Hd. lia. }
  clear -Hx. induction vs as [|x vs IHvs]; [done|]. cbn. rewrite Hx by (by left). rewrite IHvs; [done|].
  intros y Hy. apply Hx. by right.
Qed.

(** ** Specifications as optional fields *)

Definition optional (l : list (string * option json)) : list (string * json) :=
  flat_map (λ kv, match kv.2 with Some v => [(kv.1, v)] | None => [] end) l.
Fixpoint field_of (k : string) (l : list (string * option json)) : option json :=
  match l with [] => None | (x, o) :: l => if String.eqb k x then o else field_of k l end.

Definition str_opt (v : string) : option json := if v =s "" then None else Some (JStr v).
Definition int_opt (v : Z) : option json := if (v =? 0)%Z then None else Some (jint v).

Lemma optional_app l l' : optional (l ++ l') = optional l ++ optional l'.
Proof. apply flat_map_app. Qed.
Lemma omit_str_optional name v : omit_str name v = optional [(name, str_opt v)].
Proof. unfold omit_str, str_opt. cbn. by destruct (v =s ""). Qed.
Lemma omit_int_optional name v : omit_int name v = optional [(name, int_opt v)].
Proof. unfold omit_int, int_opt. cbn. by destruct (v =? 0)%Z. Qed.
Lemma opt_bool_optional name v : opt_bool name v = optional [(name, PVEBool_MarshalJSON <$> v)].
Proof. by destruct v. Qed.
Lemma field_optional name v : [(name, v)] = optional [(name, Some v)].
Proof. done. Qed.

Lemma optional_keys k l : k ∈ (optional l).*1 → k ∈ l.*1.
Proof.
  induction l as [|[x o] l IH]; [done|]. cbn [optional flat_map fst snd]. fold (optional l).
  rewrite fmap_app, elem_of_app. destruct o; cbn; set_solver.
Qed.

Lemma field_of_None k l : k ∉ l.*1 → field_of k l = None.
Proof.
  induction l as [|[x o] l IH]; [done|]. cbn. intros Hk. apply not_elem_of_cons in Hk as [Hne Hk].
  destruct (String.eqb_spec k x); [done|]. by apply IH.
Qed.

Lemma lookup_optional l k :
  NoDup l.*1 → (list_to_map (reverse (optional l)) : gmap string json) !! k = field_of k l.
Proof.
  induction l as [|[x o] l IH]; intros Hnd; [done|]. cbn in Hnd. apply NoDup_cons in Hnd as [Hx Hnd].
  cbn [optional flat_map fst snd field_of]. fold (optional l). specialize (IH Hnd).
  destruct (String.eqb_spec k x) as [->|Hne].
  - assert ((list_to_map (reverse (optional l)) : gmap string json) !! x = None) as Hnone.
    { rewrite IH. by apply field_of_None. }
    destruct o as [v|]; cbn [app]; [|done].
    rewrite reverse_cons, list_to_map_app, lookup_union_r by done. cbn. apply lookup_insert_eq.
  - destruct o as [v|]; cbn [app]; [|done]. rewrite reverse_cons, list_to_map_app.
    rewrite lookup_union_l; [done|]. cbn. by rewrite lookup_insert_ne.
Qed.

(** The value of a form key, when the specification's fields have distinct names. *)
Lemma lookup_form l extra k :
  NoDup l.*1 →
  EncodeWithExtra (optional l) extra !! k =
    match extra !! k with Some v => Some [v] | None => (λ v, [form_value v]) <$> field_of k l end.
Proof. intros Hnd. by rewrite lookup_EncodeWithExtra, lookup_optional. Qed.

(** ** Reading an encoded map *)

Lemma field_raw_jmap (m : gmap string json) l name :
  jmap m = JObj l → (∀ k, is_Some (m !! k) → fold_case k = fold_case name → k = name) → field_raw name l = m !! name.
Proof.
  intros Hl Huniq. assert (∀ k v, (k, v) ∈ l ↔ m !! k = Some v) as Hin by (intros; by apply elem_of_jmap).
  destruct (field_raw name l) as [v|] eqn:E.
  - symmetry. apply Hin. clear Hl. assert (∃ k, (k, v) ∈ l ∧ fold_case k = fold_case name) as (k & Hk & Hf).
    { clear Hin. induction l as [|[k w] l IH]; [done|]. cbn in E. destruct (field_raw name l) as [w'|].
      - simplify_eq. destruct (IH eq_refl) as (k' & ? & ?). exists k'. split; [by right|done].
      - case_bool_decide; simplify_eq. exists k. split; [left|done]. }
    rewrite <- (Huniq k); [done| |done]. exists v. by apply Hin.
  - destruct (m !! name) as [v|] eqn:Hv; [|done]. exfalso. apply Hin in Hv. clear Hin Hl.
    induction l as [|[k w] l IH]; [by apply not_elem_of_nil in Hv|]. cbn in E. destruct (field_raw name l) as [w'|]; [done|].
    apply elem_of_cons in Hv as [[= <- <-]|Hv]; [by rewrite bool_decide_eq_true_2 in E|].
    case_bool_decide; [done|]. by apply IH.
Qed.

Lemma jmap_obj m : ∃ l, jmap m = JObj l ∧ (list_to_map (reverse l) : gmap string json) = m.
Proof.
  eexists. split; [reflexivity|]. rewrite (list_to_map_proper _ (map_to_list m)).
  - apply list_to_map_to_list.
  - rewrite fmap_reverse, reverse_Permutation, merge_sort_Permutation. apply NoDup_fst_map_to_list.
  - by rewrite reverse_Permutation, merge_sort_Permutation.
Qed.
