(* ===== verification/QemuClient.v ===== *)
(** [proxmox/qemu], the client side of virtual machines: listings and
    configuration with its lossless read, creation and cloning, power actions,
    disks and network interfaces as PVE property strings, snapshots, migration,
    templates, and the guest agent with its polling wait. *)

From S2P Require Import Prelude Json Pverr Types Api Tasks Svcutil.
From Stdlib Require Import ZArith Lia Floats.SpecFloat.
From stdpp Require Import options.
Set Default Proof Using "Type*".

(** ** Payloads *)

(* go: proxmox/qemu/types.go#VM *)
Record VM := {
  v_VMID : VMID; v_Name : string; v_Status : string; v_CPUs : Z; v_MaxMem : Z; v_MaxDisk : Z; v_Uptime : Z;
  v_Template : bool
}.
Definition VM_zero : VM :=
  {| v_VMID := 0%Z; v_Name := ""; v_Status := ""; v_CPUs := 0; v_MaxMem := 0; v_MaxDisk := 0; v_Uptime := 0; v_Template := false |}.
Definition decode_VM : json → option VM :=
  as_struct VM_zero (λ l,
    i ← int_field "vmid" l; n ← str_field "name" l; s ← str_field "status" l; c ← int_field "cpus" l;
    m ← int_field "maxmem" l; d ← int_field "maxdisk" l; u ← int_field "uptime" l; t ← pvebool_field "template" l;
    Some {| v_VMID := i; v_Name := n; v_Status := s; v_CPUs := c; v_MaxMem := m; v_MaxDisk := d; v_Uptime := u;
            v_Template := t |}).

(* go: proxmox/qemu/types.go#VMStatus *)
Record VMStatus := {
  vs_VMID : VMID; vs_Name : string; vs_Status : string; vs_QMPStatus : string; vs_Uptime : Z; vs_CPUs : Z;
  vs_CPU : spec_float; vs_Mem : Z; vs_MaxMem : Z; vs_Disk : Z; vs_MaxDisk : Z; vs_NetIn : Z; vs_NetOut : Z;
  vs_DiskRead : Z; vs_DiskWrite : Z; vs_PID : Z
}.
Definition VMStatus_zero : VMStatus :=
  {| vs_VMID := 0%Z; vs_Name := ""; vs_Status := ""; vs_QMPStatus := ""; vs_Uptime := 0; vs_CPUs := 0;
     vs_CPU := S754_zero false; vs_Mem := 0; vs_MaxMem := 0; vs_Disk := 0; vs_MaxDisk := 0; vs_NetIn := 0; vs_NetOut := 0;
     vs_DiskRead := 0; vs_DiskWrite := 0; vs_PID := 0 |}.
Definition decode_VMStatus : json → option VMStatus :=
  as_struct VMStatus_zero (λ l,
    i ← int_field "vmid" l; n ← str_field "name" l; s ← str_field "status" l; q ← str_field "qmpstatus" l;
    u ← int_field "uptime" l; cs ← int_field "cpus" l; c ← float_field "cpu" l; m ← int_field "mem" l;
    mm ← int_field "maxmem" l; d ← int_field "disk" l; md ← int_field "maxdisk" l; ni ← int_field "netin" l;
    no ← int_field "netout" l; dr ← int_field "diskread" l; dw ← int_field "diskwrite" l; p ← int_field "pid" l;
    Some {| vs_VMID := i; vs_Name := n; vs_Status := s; vs_QMPStatus := q; vs_Uptime := u; vs_CPUs := cs; vs_CPU := c;
            vs_Mem := m; vs_MaxMem := mm; vs_Disk := d; vs_MaxDisk := md; vs_NetIn := ni; vs_NetOut := no;
            vs_DiskRead := dr; vs_DiskWrite := dw; vs_PID := p |}).

(* go: proxmox/qemu/types.go#configKnownFields *)
Definition configKnownFields : list string :=
  ["vmid"; "name"; "description"; "cores"; "sockets"; "memory"; "balloon"; "cpu"; "boot"; "ostype";
   "scsi0"; "scsi1"; "net0"; "net1"; "agent"; "onboot"; "template"; "protection"].

(* go: proxmox/qemu/types.go#Config *)
Record Config := {
  cf_VMID : VMID; cf_Name : string; cf_Description : string; cf_Cores : Z; cf_Sockets : Z; cf_Memory : Z;
  cf_Balloon : Z; cf_CPU : string; cf_Boot : string; cf_OSType : string; cf_SCSI0 : string; cf_SCSI1 : string;
  cf_Net0 : string; cf_Net1 : string; cf_Agent : string; cf_OnBoot : bool; cf_Template : bool; cf_Protection : bool;
  cf_Extra : gmap string string
}.
Definition Config_zero : Config :=
  {| cf_VMID := 0%Z; cf_Name := ""; cf_Description := ""; cf_Cores := 0; cf_Sockets := 0; cf_Memory := 0; cf_Balloon := 0;
     cf_CPU := ""; cf_Boot := ""; cf_OSType := ""; cf_SCSI0 := ""; cf_SCSI1 := ""; cf_Net0 := ""; cf_Net1 := "";
     cf_Agent := ""; cf_OnBoot := false; cf_Template := false; cf_Protection := false; cf_Extra := ∅ |}.

(** The typed fields are decoded first; the loop over the keys is the one of
    [DecodeExtra]. *)
(* go: proxmox/qemu/types.go#Config.UnmarshalJSON *)
Definition Config_UnmarshalJSON : json → option Config :=
  as_struct Config_zero (λ l,
    i ← int_field "vmid" l; n ← str_field "name" l; de ← str_field "description" l; co ← pveint_field "cores" l;
    so ← pveint_field "sockets" l; me ← pveint_field "memory" l; ba ← pveint_field "balloon" l; cp ← str_field "cpu" l;
    bo ← str_field "boot" l; os ← str_field "ostype" l; s0 ← str_field "scsi0" l; s1 ← str_field "scsi1" l;
    n0 ← str_field "net0" l; n1 ← str_field "net1" l; ag ← str_field "agent" l; ob ← pvebool_field "onboot" l;
    te ← pvebool_field "template" l; pr ← pvebool_field "protection" l;
    Some {| cf_VMID := i; cf_Name := n; cf_Description := de; cf_Cores := co; cf_Sockets := so; cf_Memory := me;
            cf_Balloon := ba; cf_CPU := cp; cf_Boot := bo; cf_OSType := os; cf_SCSI0 := s0; cf_SCSI1 := s1;
            cf_Net0 := n0; cf_Net1 := n1; cf_Agent := ag; cf_OnBoot := ob; cf_Template := te; cf_Protection := pr;
            cf_Extra := foldl (extra_key configKnownFields) ∅ l |}).

(* go: proxmox/qemu/types.go#CreateSpec *)
Record CreateSpec := {
  cs_VMID : VMID; cs_Name : string; cs_Memory : Z; cs_Cores : Z; cs_Sockets : Z; cs_CPU : string; cs_OSType : string;
  cs_SCSI0 : string; cs_Net0 : string; cs_Boot : string; cs_Storage : string; cs_Start : option bool;
  cs_Extra : gmap string string
}.
Definition CreateSpec_fields (s : CreateSpec) : list (string * json) :=
  [("vmid", jint (cs_VMID s))] ++ omit_str "name" (cs_Name s) ++ omit_int "memory" (cs_Memory s) ++
  omit_int "cores" (cs_Cores s) ++ omit_int "sockets" (cs_Sockets s) ++ omit_str "cpu" (cs_CPU s) ++
  omit_str "ostype" (cs_OSType s) ++ omit_str "scsi0" (cs_SCSI0 s) ++ omit_str "net0" (cs_Net0 s) ++
  omit_str "boot" (cs_Boot s) ++ omit_str "storage" (cs_Storage s) ++ opt_bool "start" (cs_Start s).

(* go: proxmox/qemu/types.go#CloneSpec *)
Record CloneSpec := {
  cl_NewID : VMID; cl_Name : string; cl_Description : string; cl_Full : option bool; cl_Storage : string;
  cl_Format : string; cl_Pool : string; cl_SnapName : string; cl_Target : string; cl_Extra : gmap string string
}.
Definition CloneSpec_fields (s : CloneSpec) : list (string * json) :=
  [("newid", jint (cl_NewID s))] ++ omit_str "name" (cl_Name s) ++ omit_str "description" (cl_Description s) ++
  opt_bool "full" (cl_Full s) ++ omit_str "storage" (cl_Storage s) ++ omit_str "format" (cl_Format s) ++
  omit_str "pool" (cl_Pool s) ++ omit_str "snapname" (cl_SnapName s) ++ omit_str "target" (cl_Target s).

(* go: proxmox/qemu/types.go#ConfigUpdate *)
Record ConfigUpdate := {
  cu_Name : string; cu_Description : string; cu_Cores : Z; cu_Sockets : Z; cu_Memory : Z; cu_Balloon : Z;
  cu_Boot : string; cu_OnBoot : option bool; cu_Protection : option bool; cu_Delete : string;
  cu_Extra : gmap string string
}.
Definition ConfigUpdate_fields (s : ConfigUpdate) : list (string * json) :=
  omit_str "name" (cu_Name s) ++ omit_str "description" (cu_Description s) ++ omit_int "cores" (cu_Cores s) ++
  omit_int "sockets" (cu_Sockets s) ++ omit_int "memory" (cu_Memory s) ++ omit_int "balloon" (cu_Balloon s) ++
  omit_str "boot" (cu_Boot s) ++ opt_bool "onboot" (cu_OnBoot s) ++ opt_bool "protection" (cu_Protection s) ++
  omit_str "delete" (cu_Delete s).
(** The update that sets one unmodelled key, and the one that deletes keys. *)
Definition set_extra (key value : string) : ConfigUpdate :=
  {| cu_Name := ""; cu_Description := ""; cu_Cores := 0; cu_Sockets := 0; cu_Memory := 0; cu_Balloon := 0; cu_Boot := "";
     cu_OnBoot := None; cu_Protection := None; cu_Delete := ""; cu_Extra := {[ key := value ]} |}.
Definition delete_keys (keys : string) : ConfigUpdate :=
  {| cu_Name := ""; cu_Description := ""; cu_Cores := 0; cu_Sockets := 0; cu_Memory := 0; cu_Balloon := 0; cu_Boot := "";
     cu_OnBoot := None; cu_Protection := None; cu_Delete := keys; cu_Extra := ∅ |}.

(** ** Devices *)

(* go: proxmox/qemu/devices.go#MoveDiskSpec *)
Record MoveDiskSpec := {
  md_Disk : string; md_TargetStorage : string; md_Format : string; md_Delete : option bool; md_Extra : gmap string string
}.
Definition MoveDiskSpec_fields (s : MoveDiskSpec) : list (string * json) :=
  [("disk", JStr (md_Disk s)); ("storage", JStr (md_TargetStorage s))] ++ omit_str "format" (md_Format s) ++
  opt_bool "delete" (md_Delete s).

(* go: proxmox/qemu/devices.go#appendOptions *)
Definition appendOptions (base : string) (opts : gmap string string) : string :=
  foldl (λ b k, b +:+ "," +:+ k +:+ "=" +:+ default "" (opts !! k)) base (merge_sort String.le (keys opts)).

(* go: proxmox/qemu/devices.go#DiskSpec *)
Record DiskSpec := { dk_Slot : string; dk_Storage : string; dk_SizeGB : Z; dk_Options : gmap string string }.
(* go: proxmox/qemu/devices.go#DiskSpec.value *)
Definition DiskSpec_value (d : DiskSpec) : string :=
  appendOptions (dk_Storage d +:+ ":" +:+ itoa (dk_SizeGB d)) (dk_Options d).

(* go: proxmox/qemu/devices.go#NICSpec *)
Record NICSpec := { nic_Slot : string; nic_Model : string; nic_Bridge : string; nic_VLAN : Z; nic_Options : gmap string string }.
(* go: proxmox/qemu/devices.go#NICSpec.value *)
Definition NICSpec_value (n : NICSpec) : string :=
  let opts := nic_Options n in
  let opts := if nic_Bridge n <>s "" then <["bridge" := nic_Bridge n]> opts else opts in
  let opts := if (0 <? nic_VLAN n)%Z then <["tag" := itoa (nic_VLAN n)]> opts else opts in
  appendOptions (nic_Model n) opts.

(** ** Options *)

(** An option writes into the form. *)
(* go: proxmox/qemu/power.go#powerConfig *)
Definition powerConfig : Type := values.
Definition powerOption : Type := form_option.

(* go: proxmox/qemu/power.go#WithStopTimeout *)
Definition WithStopTimeout (d : Z) : powerOption := <["timeout" := [itoa (whole_seconds d)]]>.
(* go: proxmox/qemu/power.go#WithShutdownTimeout *)
Definition WithShutdownTimeout (d : Z) : powerOption := <["timeout" := [itoa (whole_seconds d)]]>.
(* go: proxmox/qemu/power.go#WithForceStop *)
Definition WithForceStop : powerOption := <["forceStop" := ["1"]]>.
(* go: proxmox/qemu/power.go#WithSuspendToDisk *)
Definition WithSuspendToDisk (storage : string) : powerOption := λ c,
  let c := <["todisk" := ["1"]]> c in
  if storage <>s "" then <["statestorage" := [storage]]> c else c.
(* go: proxmox/qemu/snapshot.go#WithStartAfterRollback *)
Definition WithStartAfterRollback : powerOption := <["start" := ["1"]]>.
(* go: proxmox/qemu/template.go#WithTemplateDisk *)
Definition WithTemplateDisk (disk : string) : powerOption := <["disk" := [disk]]>.


(** ** Snapshots, migration, the guest agent *)

(* go: proxmox/qemu/snapshot.go#Snapshot *)
Record Snapshot := { sn_Name : string; sn_Description : string; sn_Parent : string; sn_SnapTime : Z; sn_VMState : bool }.
Definition Snapshot_zero : Snapshot :=
  {| sn_Name := ""; sn_Description := ""; sn_Parent := ""; sn_SnapTime := 0; sn_VMState := false |}.
Definition decode_Snapshot : json → option Snapshot :=
  as_struct Snapshot_zero (λ l,
    n ← str_field "name" l; d ← str_field "description" l; p ← str_field "parent" l; t ← int_field "snaptime" l;
    v ← pvebool_field "vmstate" l;
    Some {| sn_Name := n; sn_Description := d; sn_Parent := p; sn_SnapTime := t; sn_VMState := v |}).

(* go: proxmox/qemu/snapshot.go#SnapshotSpec *)
Record SnapshotSpec := { sp_Name : string; sp_Description : string; sp_VMState : bool; sp_Extra : gmap string string }.
Definition SnapshotSpec_fields (s : SnapshotSpec) : list (string * json) :=
  [("snapname", JStr (sp_Name s))] ++ omit_str "description" (sp_Description s) ++ omit_bool "vmstate" (sp_VMState s).

(* go: proxmox/qemu/migrate.go#MigrateSpec *)
Record MigrateSpec := {
  mg_Target : string; mg_Online : option bool; mg_WithLocalDisks : option bool; mg_TargetStorage : string;
  mg_Force : option bool; mg_Extra : gmap string string
}.
Definition MigrateSpec_fields (s : MigrateSpec) : list (string * json) :=
  [("target", JStr (mg_Target s))] ++ opt_bool "online" (mg_Online s) ++
  opt_bool "with-local-disks" (mg_WithLocalDisks s) ++ omit_str "targetstorage" (mg_TargetStorage s) ++
  opt_bool "force" (mg_Force s).

(* go: proxmox/qemu/agent.go#L22-L25 *)
Definition agentPollInitial : Z := 100 * 1000000.
Definition agentPollMax : Z := 2 * 1000000000.

(* go: proxmox/qemu/agent.go#AgentExecStatus *)
Record AgentExecStatus := {
  ag_Exited : bool; ag_Code : Z; ag_Signal : Z; ag_Out : string; ag_Err : string; ag_OutTruncated : bool;
  ag_ErrTruncated : bool
}.
Definition AgentExecStatus_zero : AgentExecStatus :=
  {| ag_Exited := false; ag_Code := 0; ag_Signal := 0; ag_Out := ""; ag_Err := ""; ag_OutTruncated := false;
     ag_ErrTruncated := false |}.
Definition decode_AgentExecStatus : json → option AgentExecStatus :=
  as_struct AgentExecStatus_zero (λ l,
    e ← pvebool_field "exited" l; c ← int_field "exitcode" l; s ← int_field "signal" l; o ← str_field "out-data" l;
    er ← str_field "err-data" l; ot ← pvebool_field "out-truncated" l; et ← pvebool_field "err-truncated" l;
    Some {| ag_Exited := e; ag_Code := c; ag_Signal := s; ag_Out := o; ag_Err := er; ag_OutTruncated := ot;
            ag_ErrTruncated := et |}).

(* go: proxmox/qemu/agent.go#agentExecResponse *)
Definition decode_agentExecResponse : json → option Z := as_struct 0%Z (int_field "pid").

(** ** The service *)

Section service.
Context {W : Type} `{!Client W} `{!Timers W}.
Variable node : string.

(* go: proxmox/qemu/paths.go#Service.qemuPath *)
Definition qemuPath : string := "/nodes/" +:+ node +:+ "/qemu".
(* go: proxmox/qemu/paths.go#Service.vmPath *)
Definition vmPath (vmid : Z) : string := qemuPath +:+ "/" +:+ itoa vmid.

(* go: proxmox/qemu/qemu.go#Service.List *)
Definition List_ (w : W) : W * (goerr + list VM) :=
  then_result (DoRequest "GET" qemuPath None (Some (as_list decode_VM)) w) (GWrap "qemu.List")
    (λ vms w, (w, inr (default [] vms))).

(* go: proxmox/qemu/qemu.go#Service.Get *)
Definition Get (vmid : Z) (w : W) : W * (goerr + VMStatus) :=
  then_result (DoRequest "GET" (vmPath vmid +:+ "/status/current") None (Some decode_VMStatus) w) (GWrap "qemu.Get")
    (λ st w, (w, inr (default VMStatus_zero st))).

(* go: proxmox/qemu/qemu.go#Service.Config *)
Definition Service_Config (vmid : Z) (w : W) : W * (goerr + Config) :=
  then_result (DoRequest "GET" (vmPath vmid +:+ "/config") None (Some Config_UnmarshalJSON) w) (GWrap "qemu.Config")
    (λ cfg w, (w, inr (default Config_zero cfg))).

(** A nil specification is [None]. *)
(* go: proxmox/qemu/qemu.go#Service.SetConfig *)
Definition SetConfig (vmid : Z) (update : option ConfigUpdate) (w : W) : W * (goerr + Ref) :=
  match update with
  | None => (w, inl (GWrap "qemu.SetConfig" (GSpec ErrNilSpec)))
  | Some update =>
      let body := EncodeWithExtra (ConfigUpdate_fields update) (cu_Extra update) in
      task_or_none "qemu.SetConfig" (DoRequest "PUT" (vmPath vmid +:+ "/config") (Some (BValues body)) (Some as_string_out) w)
  end.

(* go: proxmox/qemu/qemu.go#Service.Create *)
Definition Create (spec : option CreateSpec) (w : W) : W * (goerr + Ref) :=
  match spec with
  | None => (w, inl (GWrap "qemu.Create" (GSpec ErrNilSpec)))
  | Some spec =>
      let body := EncodeWithExtra (CreateSpec_fields spec) (cs_Extra spec) in
      task_of "qemu.Create" (DoRequest "POST" qemuPath (Some (BValues body)) (Some as_string_out) w)
  end.

(* go: proxmox/qemu/qemu.go#Service.Clone *)
Definition Clone (vmid : Z) (spec : option CloneSpec) (w : W) : W * (goerr + Ref) :=
  match spec with
  | None => (w, inl (GWrap "qemu.Clone" (GSpec ErrNilSpec)))
  | Some spec =>
      let body := EncodeWithExtra (CloneSpec_fields spec) (cl_Extra spec) in
      task_of "qemu.Clone" (DoRequest "POST" (vmPath vmid +:+ "/clone") (Some (BValues body)) (Some as_string_out) w)
  end.

(* go: proxmox/qemu/qemu.go#Service.Delete *)
Definition Delete (vmid : Z) (w : W) : W * (goerr + Ref) :=
  task_of "qemu.Delete" (DoRequest "DELETE" (vmPath vmid) None (Some as_string_out) w).

(** *** Power *)

(* go: proxmox/qemu/power.go#Service.statusAction *)
Definition statusAction (label verb : string) (vmid : Z) (vals : values) (w : W) : W * (goerr + Ref) :=
  task_of label (DoRequest "POST" (vmPath vmid +:+ "/status/" +:+ verb) (some_values vals) (Some as_string_out) w).

(* go: proxmox/qemu/power.go#Service.Start *)
Definition Start (vmid : Z) : W → W * (goerr + Ref) := statusAction "qemu.Start" "start" vmid ∅.
(* go: proxmox/qemu/power.go#Service.Stop *)
Definition Stop (vmid : Z) (opts : list powerOption) : W → W * (goerr + Ref) :=
  statusAction "qemu.Stop" "stop" vmid (apply_options opts).
(* go: proxmox/qemu/power.go#Service.Shutdown *)
Definition Shutdown (vmid : Z) (opts : list powerOption) : W → W * (goerr + Ref) :=
  statusAction "qemu.Shutdown" "shutdown" vmid (apply_options opts).
(* go: proxmox/qemu/power.go#Service.Reboot *)
Definition Reboot (vmid : Z) : W → W * (goerr + Ref) := statusAction "qemu.Reboot" "reboot" vmid ∅.
(* go: proxmox/qemu/power.go#Service.Suspend *)
Definition Suspend (vmid : Z) (opts : list powerOption) : W → W * (goerr + Ref) :=
  statusAction "qemu.Suspend" "suspend" vmid (apply_options opts).
(* go: proxmox/qemu/power.go#Service.Resume *)
Definition Resume (vmid : Z) : W → W * (goerr + Ref) := statusAction "qemu.Resume" "resume" vmid ∅.

(** *** Devices *)

(* go: proxmox/qemu/devices.go#Service.MoveDisk *)
Definition MoveDisk (vmid : Z) (spec : option MoveDiskSpec) (w : W) : W * (goerr + Ref) :=
  match spec with
  | None => (w, inl (GWrap "qemu.MoveDisk" (GSpec ErrNilSpec)))
  | Some spec =>
      if md_Disk spec =s "" then (w, inl (GWrap "qemu.MoveDisk: disk" (GSpec ErrMissingField)))
      else if md_TargetStorage spec =s "" then (w, inl (GWrap "qemu.MoveDisk: storage" (GSpec ErrMissingField)))
      else let body := EncodeWithExtra (MoveDiskSpec_fields spec) (md_Extra spec) in
           task_of "qemu.MoveDisk"
             (DoRequest "POST" (vmPath vmid +:+ "/move_disk") (Some (BValues body)) (Some as_string_out) w)
  end.

(* go: proxmox/qemu/devices.go#Service.AddDisk *)
Definition AddDisk (vmid : Z) (spec : option DiskSpec) (w : W) : W * (goerr + Ref) :=
  match spec with
  | None => (w, inl (GWrap "qemu.AddDisk" (GSpec ErrNilSpec)))
  | Some spec =>
      if (dk_Slot spec =s "") || (dk_Storage spec =s "") || (dk_SizeGB spec <=? 0)%Z
      then (w, inl (GWrap "qemu.AddDisk: slot, storage, and a positive size" (GSpec ErrMissingField)))
      else SetConfig vmid (Some (set_extra (dk_Slot spec) (DiskSpec_value spec))) w
  end.

(* go: proxmox/qemu/devices.go#Service.RemoveDisk *)
Definition RemoveDisk (vmid : Z) (slot : string) (w : W) : W * (goerr + Ref) :=
  if slot =s "" then (w, inl (GWrap "qemu.RemoveDisk: slot" (GSpec ErrMissingField)))
  else SetConfig vmid (Some (delete_keys slot)) w.

(* go: proxmox/qemu/devices.go#Service.AddNIC *)
Definition AddNIC (vmid : Z) (spec : option NICSpec) (w : W) : W * (goerr + Ref) :=
  match spec with
  | None => (w, inl (GWrap "qemu.AddNIC" (GSpec ErrNilSpec)))
  | Some spec =>
      if (nic_Slot spec =s "") || (nic_Model spec =s "")
      then (w, inl (GWrap "qemu.AddNIC: slot and model" (GSpec ErrMissingField)))
      else SetConfig vmid (Some (set_extra (nic_Slot spec) (NICSpec_value spec))) w
  end.

(* go: proxmox/qemu/devices.go#Service.RemoveNIC *)
Definition RemoveNIC (vmid : Z) (slot : string) (w : W) : W * (goerr + Ref) :=
  if slot =s "" then (w, inl (GWrap "qemu.RemoveNIC: slot" (GSpec ErrMissingField)))
  else SetConfig vmid (Some (delete_keys slot)) w.

(* go: proxmox/qemu/devices.go#Service.ResizeDisk *)
Definition ResizeDisk (vmid : Z) (disk size : string) (w : W) : W * (goerr + Ref) :=
  if (disk =s "") || (size =s "") then (w, inl (GWrap "qemu.ResizeDisk: disk and size" (GSpec ErrMissingField)))
  else let body := {[ "disk" := [disk]; "size" := [size] ]} in
       task_or_none "qemu.ResizeDisk"
         (DoRequest "PUT" (vmPath vmid +:+ "/resize") (Some (BValues body)) (Some as_string_out) w).

(* go: proxmox/qemu/migrate.go#Service.Migrate *)
Definition Migrate (vmid : Z) (spec : option MigrateSpec) (w : W) : W * (goerr + Ref) :=
  match spec with
  | None => (w, inl (GWrap "qemu.Migrate" (GSpec ErrNilSpec)))
  | Some spec =>
      if mg_Target spec =s "" then (w, inl (GWrap "qemu.Migrate: target node" (GSpec ErrMissingField)))
      else let body := EncodeWithExtra (MigrateSpec_fields spec) (mg_Extra spec) in
           task_of "qemu.Migrate"
             (DoRequest "POST" (vmPath vmid +:+ "/migrate") (Some (BValues body)) (Some as_string_out) w)
  end.

(* go: proxmox/qemu/template.go#Service.ConvertToTemplate *)
Definition ConvertToTemplate (vmid : Z) (opts : list powerOption) (w : W) : W * (goerr + Ref) :=
  then_result (DoRequest "POST" (vmPath vmid +:+ "/template") (some_values (apply_options opts)) (Some as_string_ptr) w)
    (GWrap "qemu.ConvertToTemplate") (λ upid w,
      (w, match default None upid with
          | None => inr Ref_zero
          | Some upid => if upid =s "" then inr Ref_zero else TaskRef "qemu.ConvertToTemplate" upid
          end)).

(** *** Snapshots *)

(* go: proxmox/qemu/snapshot.go#Service.Snapshots *)
Definition Snapshots (vmid : Z) (w : W) : W * (goerr + list Snapshot) :=
  then_result (DoRequest "GET" (vmPath vmid +:+ "/snapshot") None (Some (as_list decode_Snapshot)) w) (GWrap "qemu.Snapshots")
    (λ snaps w, (w, inr (default [] snaps))).

(* go: proxmox/qemu/snapshot.go#Service.CreateSnapshot *)
Definition CreateSnapshot (vmid : Z) (spec : option SnapshotSpec) (w : W) : W * (goerr + Ref) :=
  match spec with
  | None => (w, inl (GWrap "qemu.CreateSnapshot" (GSpec ErrNilSpec)))
  | Some spec =>
      if sp_Name spec =s "" then (w, inl (GWrap "qemu.CreateSnapshot: snapshot name" (GSpec ErrMissingField)))
      else let body := EncodeWithExtra (SnapshotSpec_fields spec) (sp_Extra spec) in
           task_of "qemu.CreateSnapshot"
             (DoRequest "POST" (vmPath vmid +:+ "/snapshot") (Some (BValues body)) (Some as_string_out) w)
  end.

(* go: proxmox/qemu/snapshot.go#Service.RollbackSnapshot *)
Definition RollbackSnapshot (vmid : Z) (name : string) (opts : list powerOption) (w : W) : W * (goerr + Ref) :=
  if name =s "" then (w, inl (GWrap "qemu.RollbackSnapshot: snapshot name" (GSpec ErrMissingField)))
  else task_of "qemu.RollbackSnapshot"
         (DoRequest "POST" (vmPath vmid +:+ "/snapshot/" +:+ name +:+ "/rollback") (some_values (apply_options opts))
            (Some as_string_out) w).

(* go: proxmox/qemu/snapshot.go#Service.DeleteSnapshot *)
Definition DeleteSnapshot (vmid : Z) (name : string) (w : W) : W * (goerr + Ref) :=
  if name =s "" then (w, inl (GWrap "qemu.DeleteSnapshot: snapshot name" (GSpec ErrMissingField)))
  else task_of "qemu.DeleteSnapshot" (DoRequest "DELETE" (vmPath vmid +:+ "/snapshot/" +:+ name) None (Some as_string_out) w).

(** *** The guest agent *)

(* go: proxmox/qemu/agent.go#Service.AgentPing *)
Definition AgentPing (vmid : Z) (w : W) : W * (goerr + ()) :=
  then_result (DoRequest (A := ()) "POST" (vmPath vmid +:+ "/agent/ping") None None w) (GWrap "qemu.AgentPing")
    (λ _ w, (w, inr ())).

(* go: proxmox/qemu/agent.go#Service.AgentExec *)
Definition AgentExec (vmid : Z) (command : list string) (w : W) : W * (goerr + Z) :=
  match command with
  | [] => (w, inl (GWrap "qemu.AgentExec: command" (GSpec ErrMissingField)))
  | _ =>
      then_result (DoRequest "POST" (vmPath vmid +:+ "/agent/exec") (Some (BValues {[ "command" := command ]}))
                     (Some decode_agentExecResponse) w) (GWrap "qemu.AgentExec")
        (λ pid w, (w, inr (default 0%Z pid)))
  end.

(* go: proxmox/qemu/agent.go#Service.AgentExecStatus *)
Definition Service_AgentExecStatus (vmid pid : Z) (w : W) : W * (goerr + AgentExecStatus) :=
  then_result (DoRequest "GET" (vmPath vmid +:+ "/agent/exec-status?pid=" +:+ itoa pid) None (Some decode_AgentExecStatus) w)
    (GWrap "qemu.AgentExecStatus") (λ st w, (w, inr (default AgentExecStatus_zero st))).

(* go: proxmox/qemu/agent.go#sleepCtx *)
Definition sleepCtx (d : Z) (w : W) : W * option goerr := let '(w, e) := select_timer d w in (w, GCtx <$> e).

(** The polling loop, at most [fuel] polls; [None] is out of fuel. *)
Fixpoint agent_poll (fuel : nat) (delay vmid pid : Z) (w : W) : option (W * (goerr + AgentExecStatus)) :=
  match fuel with
  | 0 => None
  | S fuel =>
      match Service_AgentExecStatus vmid pid w with
      | (w, inl err) => Some (w, inl err)
      | (w, inr st) =>
          if ag_Exited st then Some (w, inr st)
          else match sleepCtx delay w with
               | (w, Some serr) => Some (w, inl (GWrap "qemu.AgentExecWait" serr))
               | (w, None) =>
                   let delay := (delay * 2)%Z in
                   agent_poll fuel (if (agentPollMax <? delay)%Z then agentPollMax else delay) vmid pid w
               end
      end
  end.

(* go: proxmox/qemu/agent.go#Service.AgentExecWait *)
Definition AgentExecWait (fuel : nat) (vmid : Z) (command : list string) (w : W) : option (W * (goerr + AgentExecStatus)) :=
  match AgentExec vmid command w with
  | (w, inl err) => Some (w, inl err)
  | (w, inr pid) => agent_poll fuel agentPollInitial vmid pid w
  end.
End service.
