(* ===== verification/LxcClient.v ===== *)
(** [proxmox/lxc], the client side of containers: listings and configuration with
    its lossless read, creation and cloning, power actions, snapshots, and OCI
    templates behind their version gate. *)

From S2P Require Import Prelude Json Pverr Types Api Version Tasks Svcutil.
From Stdlib Require Import ZArith Floats.SpecFloat.
From stdpp Require Import options.

(** ** Payloads *)

(* go: proxmox/lxc/types.go#Container *)
Record Container := {
  co_VMID : Z; co_Name : string; co_Status : string; co_CPUs : Z; co_MaxMem : Z; co_MaxDisk : Z; co_Uptime : Z;
  co_Tags : string; co_Template : bool
}.
Definition Container_zero : Container :=
  {| co_VMID := 0; co_Name := ""; co_Status := ""; co_CPUs := 0; co_MaxMem := 0; co_MaxDisk := 0; co_Uptime := 0;
     co_Tags := ""; co_Template := false |}.
Definition decode_Container : json → option Container :=
  as_struct Container_zero (λ l,
    v ← int_field "vmid" l; n ← str_field "name" l; st ← str_field "status" l; c ← int_field "cpus" l;
    m ← int_field "maxmem" l; ma ← int_field "maxdisk" l; u ← int_field "uptime" l; t ← str_field "tags" l;
    te ← pvebool_field "template" l;
    Some {| co_VMID := v; co_Name := n; co_Status := st; co_CPUs := c; co_MaxMem := m; co_MaxDisk := ma;
            co_Uptime := u; co_Tags := t; co_Template := te |}).

(* go: proxmox/lxc/types.go#ContainerStatus *)
Record ContainerStatus := {
  cs_VMID : Z; cs_Name : string; cs_Status : string; cs_Uptime : Z; cs_CPUs : Z; cs_CPU : spec_float; cs_Mem : Z;
  cs_MaxMem : Z; cs_Swap : Z; cs_MaxSwap : Z; cs_Disk : Z; cs_MaxDisk : Z
}.
Definition ContainerStatus_zero : ContainerStatus :=
  {| cs_VMID := 0; cs_Name := ""; cs_Status := ""; cs_Uptime := 0; cs_CPUs := 0; cs_CPU := S754_zero false;
     cs_Mem := 0; cs_MaxMem := 0; cs_Swap := 0; cs_MaxSwap := 0; cs_Disk := 0; cs_MaxDisk := 0 |}.
Definition decode_ContainerStatus : json → option ContainerStatus :=
  as_struct ContainerStatus_zero (λ l,
    v ← int_field "vmid" l; n ← str_field "name" l; st ← str_field "status" l; u ← int_field "uptime" l;
    c ← int_field "cpus" l; cp ← float_field "cpu" l; m ← int_field "mem" l; ma ← int_field "maxmem" l;
    sw ← int_field "swap" l; max ← int_field "maxswap" l; d ← int_field "disk" l; maxd ← int_field "maxdisk" l;
    Some {| cs_VMID := v; cs_Name := n; cs_Status := st; cs_Uptime := u; cs_CPUs := c; cs_CPU := cp; cs_Mem := m;
            cs_MaxMem := ma; cs_Swap := sw; cs_MaxSwap := max; cs_Disk := d; cs_MaxDisk := maxd |}).

(* go: proxmox/lxc/types.go#Config *)
Record Config := {
  cf_Hostname : string; cf_Description : string; cf_Cores : Z; cf_Memory : Z; cf_Swap : Z; cf_Arch : string;
  cf_OSType : string; cf_RootFS : string; cf_Net0 : string; cf_Net1 : string; cf_Nameserver : string;
  cf_SearchDomain : string; cf_Features : string; cf_OnBoot : bool; cf_Unprivileged : bool; cf_Template : bool;
  cf_Protection : bool; cf_Extra : gmap string string
}.
Definition Config_zero : Config :=
  {| cf_Hostname := ""; cf_Description := ""; cf_Cores := 0; cf_Memory := 0; cf_Swap := 0; cf_Arch := "";
     cf_OSType := ""; cf_RootFS := ""; cf_Net0 := ""; cf_Net1 := ""; cf_Nameserver := ""; cf_SearchDomain := "";
     cf_Features := ""; cf_OnBoot := false; cf_Unprivileged := false; cf_Template := false; cf_Protection := false;
     cf_Extra := ∅ |}.
(* go: proxmox/lxc/types.go#configKnownFields *)
Definition configKnownFields : list string :=
  ["hostname"; "description"; "cores"; "memory"; "swap"; "arch"; "ostype"; "rootfs"; "net0"; "net1"; "nameserver";
   "searchdomain"; "features"; "onboot"; "unprivileged"; "template"; "protection"].
(* go: proxmox/lxc/types.go#Config.UnmarshalJSON *)
Definition Config_UnmarshalJSON : json → option Config :=
  as_struct Config_zero (λ l,
    h ← str_field "hostname" l; d ← str_field "description" l; c ← pveint_field "cores" l;
    m ← pveint_field "memory" l; sw ← pveint_field "swap" l; a ← str_field "arch" l; o ← str_field "ostype" l;
    r ← str_field "rootfs" l; n ← str_field "net0" l; ne ← str_field "net1" l; na ← str_field "nameserver" l;
    se ← str_field "searchdomain" l; f ← str_field "features" l; on ← pvebool_field "onboot" l;
    u ← pvebool_field "unprivileged" l; t ← pvebool_field "template" l; p ← pvebool_field "protection" l;
    Some {| cf_Hostname := h; cf_Description := d; cf_Cores := c; cf_Memory := m; cf_Swap := sw; cf_Arch := a;
            cf_OSType := o; cf_RootFS := r; cf_Net0 := n; cf_Net1 := ne; cf_Nameserver := na; cf_SearchDomain := se;
            cf_Features := f; cf_OnBoot := on; cf_Unprivileged := u; cf_Template := t; cf_Protection := p;
            cf_Extra := foldl (extra_key configKnownFields) ∅ l |}).

(* go: proxmox/lxc/types.go#CreateSpec *)
Record CreateSpec := {
  cr_VMID : Z; cr_OSTemplate : string; cr_Hostname : string; cr_Storage : string; cr_RootFS : string; cr_Cores : Z;
  cr_Memory : Z; cr_Swap : Z; cr_Net0 : string; cr_Password : string; cr_SSHPublicKeys : string; cr_OSType : string;
  cr_Pool : string; cr_Unprivileged : option bool; cr_Start : option bool; cr_Extra : gmap string string
}.
Definition CreateSpec_fields (s : CreateSpec) : list (string * json) :=
  [("vmid", jint (cr_VMID s)); ("ostemplate", JStr (cr_OSTemplate s))] ++ omit_str "hostname" (cr_Hostname s) ++
  omit_str "storage" (cr_Storage s) ++ omit_str "rootfs" (cr_RootFS s) ++ omit_int "cores" (cr_Cores s) ++
  omit_int "memory" (cr_Memory s) ++ omit_int "swap" (cr_Swap s) ++ omit_str "net0" (cr_Net0 s) ++
  omit_str "password" (cr_Password s) ++ omit_str "ssh-public-keys" (cr_SSHPublicKeys s) ++
  omit_str "ostype" (cr_OSType s) ++ omit_str "pool" (cr_Pool s) ++ opt_bool "unprivileged" (cr_Unprivileged s) ++
  opt_bool "start" (cr_Start s).

(* go: proxmox/lxc/types.go#CloneSpec *)
Record CloneSpec := {
  cl_NewID : Z; cl_Hostname : string; cl_Description : string; cl_Full : option bool; cl_Storage : string;
  cl_Pool : string; cl_SnapName : string; cl_Target : string; cl_Extra : gmap string string
}.
Definition CloneSpec_fields (s : CloneSpec) : list (string * json) :=
  [("newid", jint (cl_NewID s))] ++ omit_str "hostname" (cl_Hostname s) ++
  omit_str "description" (cl_Description s) ++ opt_bool "full" (cl_Full s) ++ omit_str "storage" (cl_Storage s) ++
  omit_str "pool" (cl_Pool s) ++ omit_str "snapname" (cl_SnapName s) ++ omit_str "target" (cl_Target s).

(* go: proxmox/lxc/types.go#ConfigUpdate *)
Record ConfigUpdate := {
  cu_Hostname : string; cu_Description : string; cu_Cores : Z; cu_Memory : Z; cu_Swap : Z; cu_Net0 : string;
  cu_Nameserver : string; cu_OnBoot : option bool; cu_Protection : option bool; cu_Delete : string;
  cu_Extra : gmap string string
}.
Definition ConfigUpdate_fields (s : ConfigUpdate) : list (string * json) :=
  omit_str "hostname" (cu_Hostname s) ++ omit_str "description" (cu_Description s) ++ omit_int "cores" (cu_Cores s) ++
  omit_int "memory" (cu_Memory s) ++ omit_int "swap" (cu_Swap s) ++ omit_str "net0" (cu_Net0 s) ++
  omit_str "nameserver" (cu_Nameserver s) ++ opt_bool "onboot" (cu_OnBoot s) ++
  opt_bool "protection" (cu_Protection s) ++ omit_str "delete" (cu_Delete s).

(* go: proxmox/lxc/oci.go#OCITemplateSpec *)
Record OCITemplateSpec := {
  oc_Storage : string; oc_Reference : string; oc_Filename : string; oc_Extra : gmap string string
}.
Definition OCITemplateSpec_fields (s : OCITemplateSpec) : list (string * json) :=
  [("url", JStr (oc_Reference s)); ("filename", JStr (oc_Filename s))].

(* go: proxmox/lxc/snapshot.go#Snapshot *)
Record Snapshot := { sn_Name : string; sn_Description : string; sn_Parent : string; sn_SnapTime : Z }.
Definition Snapshot_zero : Snapshot := {| sn_Name := ""; sn_Description := ""; sn_Parent := ""; sn_SnapTime := 0 |}.
Definition decode_Snapshot : json → option Snapshot :=
  as_struct Snapshot_zero (λ l,
    n ← str_field "name" l; d ← str_field "description" l; p ← str_field "parent" l; sn ← int_field "snaptime" l;
    Some {| sn_Name := n; sn_Description := d; sn_Parent := p; sn_SnapTime := sn |}).

(* go: proxmox/lxc/snapshot.go#SnapshotSpec *)
Record SnapshotSpec := { sp_Name : string; sp_Description : string; sp_Extra : gmap string string }.
Definition SnapshotSpec_fields (s : SnapshotSpec) : list (string * json) :=
  [("snapname", JStr (sp_Name s))] ++ omit_str "description" (sp_Description s).


(** ** Options *)

(* go: proxmox/lxc/power.go#powerConfig *)
Definition powerOption : Type := form_option.
(* go: proxmox/lxc/power.go#WithStopTimeout *)
Definition WithStopTimeout (d : Z) : powerOption := <["timeout" := [itoa (whole_seconds d)]]>.
(* go: proxmox/lxc/power.go#WithShutdownTimeout *)
Definition WithShutdownTimeout (d : Z) : powerOption := <["timeout" := [itoa (whole_seconds d)]]>.
(* go: proxmox/lxc/power.go#WithForceStop *)
Definition WithForceStop : powerOption := <["forceStop" := ["1"]]>.
(* go: proxmox/lxc/snapshot.go#snapConfig *)
Definition snapOption : Type := form_option.
(* go: proxmox/lxc/snapshot.go#WithStartAfterRollback *)
Definition WithStartAfterRollback : snapOption := <["start" := ["1"]]>.
(* go: proxmox/lxc/snapshot.go#WithForceDeleteSnapshot *)
Definition WithForceDeleteSnapshot : snapOption := <["force" := ["1"]]>.

(** ** The service *)

Section service.
Context {W : Type} `{!Client W}.
Variables (node : string) (caps : Capabilities).

(* go: proxmox/lxc/paths.go#Service.lxcPath *)
Definition lxcPath : string := "/nodes/" +:+ node +:+ "/lxc".
(* go: proxmox/lxc/paths.go#Service.ctPath *)
Definition ctPath (vmid : Z) : string := lxcPath +:+ "/" +:+ itoa vmid.

(* go: proxmox/lxc/lxc.go#Service.List *)
Definition List_ : W → W * (goerr + list Container) := read_data "lxc.List" lxcPath [] (as_list decode_Container).
(* go: proxmox/lxc/lxc.go#Service.Get *)
Definition Get (vmid : Z) : W → W * (goerr + ContainerStatus) :=
  read_data "lxc.Get" (ctPath vmid +:+ "/status/current") ContainerStatus_zero decode_ContainerStatus.
(* go: proxmox/lxc/lxc.go#Service.Config *)
Definition Service_Config (vmid : Z) : W → W * (goerr + Config) :=
  read_data "lxc.Config" (ctPath vmid +:+ "/config") Config_zero Config_UnmarshalJSON.
(* go: proxmox/lxc/lxc.go#Service.SetConfig *)
Definition SetConfig (vmid : Z) (update : option ConfigUpdate) (w : W) : W * (goerr + Ref) :=
  match update with
  | None => nil_spec "lxc.SetConfig" w
  | Some update =>
      let body := EncodeWithExtra (ConfigUpdate_fields update) (cu_Extra update) in
      task_or_none "lxc.SetConfig" (DoRequest "PUT" (ctPath vmid +:+ "/config") (Some (BValues body)) (Some as_string_out) w)
  end.
(* go: proxmox/lxc/lxc.go#Service.Create *)
Definition Create (spec : option CreateSpec) : W → W * (goerr + Ref) :=
  match spec with
  | None => nil_spec "lxc.Create"
  | Some spec =>
      if cr_OSTemplate spec =s "" then missing "lxc.Create: ostemplate"
      else start "lxc.Create" "POST" lxcPath (Some (BValues (EncodeWithExtra (CreateSpec_fields spec) (cr_Extra spec))))
  end.
(* go: proxmox/lxc/lxc.go#Service.Clone *)
Definition Clone (vmid : Z) (spec : option CloneSpec) : W → W * (goerr + Ref) :=
  match spec with
  | None => nil_spec "lxc.Clone"
  | Some spec =>
      start "lxc.Clone" "POST" (ctPath vmid +:+ "/clone") (Some (BValues (EncodeWithExtra (CloneSpec_fields spec) (cl_Extra spec))))
  end.
(* go: proxmox/lxc/lxc.go#Service.Delete *)
Definition Delete (vmid : Z) : W → W * (goerr + Ref) := start "lxc.Delete" "DELETE" (ctPath vmid) None.

(** *** Power *)

(* go: proxmox/lxc/power.go#Service.statusAction *)
Definition statusAction (label verb : string) (vmid : Z) (vals : values) : W → W * (goerr + Ref) :=
  start label "POST" (ctPath vmid +:+ "/status/" +:+ verb) (some_values vals).
(* go: proxmox/lxc/power.go#Service.Start *)
Definition Start (vmid : Z) : W → W * (goerr + Ref) := statusAction "lxc.Start" "start" vmid ∅.
(* go: proxmox/lxc/power.go#Service.Stop *)
Definition Stop (vmid : Z) (opts : list powerOption) : W → W * (goerr + Ref) :=
  statusAction "lxc.Stop" "stop" vmid (apply_options opts).
(* go: proxmox/lxc/power.go#Service.Shutdown *)
Definition Shutdown (vmid : Z) (opts : list powerOption) : W → W * (goerr + Ref) :=
  statusAction "lxc.Shutdown" "shutdown" vmid (apply_options opts).
(* go: proxmox/lxc/power.go#Service.Reboot *)
Definition Reboot (vmid : Z) : W → W * (goerr + Ref) := statusAction "lxc.Reboot" "reboot" vmid ∅.
(* go: proxmox/lxc/power.go#Service.Suspend *)
Definition Suspend (vmid : Z) : W → W * (goerr + Ref) := statusAction "lxc.Suspend" "suspend" vmid ∅.
(* go: proxmox/lxc/power.go#Service.Resume *)
Definition Resume (vmid : Z) : W → W * (goerr + Ref) := statusAction "lxc.Resume" "resume" vmid ∅.

(** *** Snapshots *)

(* go: proxmox/lxc/snapshot.go#Service.Snapshots *)
Definition Snapshots (vmid : Z) : W → W * (goerr + list Snapshot) :=
  read_data "lxc.Snapshots" (ctPath vmid +:+ "/snapshot") [] (as_list decode_Snapshot).
(* go: proxmox/lxc/snapshot.go#Service.CreateSnapshot *)
Definition CreateSnapshot (vmid : Z) (spec : option SnapshotSpec) : W → W * (goerr + Ref) :=
  match spec with
  | None => nil_spec "lxc.CreateSnapshot"
  | Some spec =>
      if sp_Name spec =s "" then missing "lxc.CreateSnapshot: snapshot name"
      else start "lxc.CreateSnapshot" "POST" (ctPath vmid +:+ "/snapshot")
             (Some (BValues (EncodeWithExtra (SnapshotSpec_fields spec) (sp_Extra spec))))
  end.
(* go: proxmox/lxc/snapshot.go#Service.RollbackSnapshot *)
Definition RollbackSnapshot (vmid : Z) (name : string) (opts : list snapOption) : W → W * (goerr + Ref) :=
  if name =s "" then missing "lxc.RollbackSnapshot: snapshot name"
  else start "lxc.RollbackSnapshot" "POST" (ctPath vmid +:+ "/snapshot/" +:+ name +:+ "/rollback")
         (some_values (apply_options opts)).
(* go: proxmox/lxc/snapshot.go#Service.DeleteSnapshot *)
Definition DeleteSnapshot (vmid : Z) (name : string) (opts : list snapOption) : W → W * (goerr + Ref) :=
  if name =s "" then missing "lxc.DeleteSnapshot: snapshot name"
  else start "lxc.DeleteSnapshot" "DELETE" (ctPath vmid +:+ "/snapshot/" +:+ name) (some_values (apply_options opts)).

(** *** OCI templates *)

(* go: proxmox/lxc/oci.go#Service.PullOCITemplate *)
Definition PullOCITemplate (spec : option OCITemplateSpec) : W → W * (goerr + Ref) :=
  match spec with
  | None => nil_spec "lxc.PullOCITemplate"
  | Some spec =>
      match Require caps "LXC OCI templates" "9.1" with
      | Some err => refuse (GWrap "lxc.PullOCITemplate" err)
      | None =>
          if oc_Storage spec =s "" then missing "lxc.PullOCITemplate: storage"
          else if oc_Reference spec =s "" then missing "lxc.PullOCITemplate: reference"
          else if oc_Filename spec =s "" then missing "lxc.PullOCITemplate: filename"
          else
            let body := EncodeWithExtra (OCITemplateSpec_fields spec) (oc_Extra spec) in
            start "lxc.PullOCITemplate" "POST" ("/nodes/" +:+ node +:+ "/storage/" +:+ oc_Storage spec +:+ "/download-url")
              (Some (BValues (<["content" := ["vztmpl"]]> body)))
      end
  end.
End service.
