(* ===== verification/StorageClient.v ===== *)
(** [proxmox/storage], the client side of storage: datastores with their lossless
    read and partial updates, contents and volumes, uploads, ZFS pools, and the
    operations PVE has no endpoint for. *)

From S2P Require Import Prelude Json Pverr Types Api Multipart Url Version Tasks Svcutil.
From Stdlib Require Import ZArith Lia Floats.SpecFloat.
From stdpp Require Import options.

(** ** Payloads *)

(* go: proxmox/storage/types.go#Datastore *)
Record Datastore := {
  ds_Storage : string; ds_Type : string; ds_Content : string; ds_Path : string; ds_Pool : string; ds_Server : string;
  ds_Export : string; ds_Share : string; ds_Nodes : string; ds_Shared : bool; ds_Disable : bool; ds_Digest : string;
  ds_Extra : gmap string string
}.
Definition Datastore_zero : Datastore :=
  {| ds_Storage := ""; ds_Type := ""; ds_Content := ""; ds_Path := ""; ds_Pool := ""; ds_Server := "";
     ds_Export := ""; ds_Share := ""; ds_Nodes := ""; ds_Shared := false; ds_Disable := false; ds_Digest := "";
     ds_Extra := ∅ |}.
(* go: proxmox/storage/types.go#datastoreKnownFields *)
Definition datastoreKnownFields : list string :=
  ["storage"; "type"; "content"; "path"; "pool"; "server"; "export"; "share"; "nodes"; "shared"; "disable"; "digest"].
(* go: proxmox/storage/types.go#Datastore.UnmarshalJSON *)
Definition Datastore_UnmarshalJSON : json → option Datastore :=
  as_struct Datastore_zero (λ l,
    st ← str_field "storage" l; t ← str_field "type" l; c ← str_field "content" l; p ← str_field "path" l;
    po ← str_field "pool" l; se ← str_field "server" l; e ← str_field "export" l; sh ← str_field "share" l;
    n ← str_field "nodes" l; sha ← pvebool_field "shared" l; d ← pvebool_field "disable" l; di ← str_field "digest" l;
    Some {| ds_Storage := st; ds_Type := t; ds_Content := c; ds_Path := p; ds_Pool := po; ds_Server := se;
            ds_Export := e; ds_Share := sh; ds_Nodes := n; ds_Shared := sha; ds_Disable := d; ds_Digest := di;
            ds_Extra := foldl (extra_key datastoreKnownFields) ∅ l |}).

(* go: proxmox/storage/types.go#StorageStatus *)
Record StorageStatus := {
  st_Storage : string; st_Type : string; st_Content : string; st_Active : bool; st_Enabled : bool; st_Shared : bool;
  st_Total : Z; st_Used : Z; st_Avail : Z
}.
Definition StorageStatus_zero : StorageStatus :=
  {| st_Storage := ""; st_Type := ""; st_Content := ""; st_Active := false; st_Enabled := false; st_Shared := false;
     st_Total := 0; st_Used := 0; st_Avail := 0 |}.
Definition decode_StorageStatus : json → option StorageStatus :=
  as_struct StorageStatus_zero (λ l,
    st ← str_field "storage" l; t ← str_field "type" l; c ← str_field "content" l; a ← pvebool_field "active" l;
    e ← pvebool_field "enabled" l; sh ← pvebool_field "shared" l; to ← int_field "total" l; u ← int_field "used" l;
    av ← int_field "avail" l;
    Some {| st_Storage := st; st_Type := t; st_Content := c; st_Active := a; st_Enabled := e; st_Shared := sh;
            st_Total := to; st_Used := u; st_Avail := av |}).

(* go: proxmox/storage/types.go#Content *)
Record Content := {
  ct_Volid : string; ct_Content : string; ct_Format : string; ct_Size : Z; ct_Used : Z; ct_CTime : Z; ct_VMID : Z;
  ct_Notes : string; ct_Protected : bool
}.
Definition Content_zero : Content :=
  {| ct_Volid := ""; ct_Content := ""; ct_Format := ""; ct_Size := 0; ct_Used := 0; ct_CTime := 0; ct_VMID := 0;
     ct_Notes := ""; ct_Protected := false |}.
Definition decode_Content : json → option Content :=
  as_struct Content_zero (λ l,
    v ← str_field "volid" l; c ← str_field "content" l; f ← str_field "format" l; si ← int_field "size" l;
    u ← int_field "used" l; ct ← int_field "ctime" l; vm ← int_field "vmid" l; n ← str_field "notes" l;
    p ← pvebool_field "protected" l;
    Some {| ct_Volid := v; ct_Content := c; ct_Format := f; ct_Size := si; ct_Used := u; ct_CTime := ct;
            ct_VMID := vm; ct_Notes := n; ct_Protected := p |}).

(* go: proxmox/storage/datastore.go#DatastoreSpec *)
Record DatastoreSpec := {
  dp_Storage : string; dp_Type : string; dp_Content : list string; dp_Nodes : list string; dp_Path : string;
  dp_Pool : string; dp_Server : string; dp_Export : string; dp_Share : string; dp_Blocksize : string;
  dp_Sparse : bool; dp_Shared : bool; dp_Disable : bool; dp_Extra : gmap string string
}.
Definition DatastoreSpec_fields (s : DatastoreSpec) : list (string * json) :=
  [("storage", JStr (dp_Storage s)); ("type", JStr (dp_Type s))] ++ omit_str "path" (dp_Path s) ++
  omit_str "pool" (dp_Pool s) ++ omit_str "server" (dp_Server s) ++ omit_str "export" (dp_Export s) ++
  omit_str "share" (dp_Share s) ++ omit_str "blocksize" (dp_Blocksize s) ++ omit_bool "sparse" (dp_Sparse s) ++
  omit_bool "shared" (dp_Shared s) ++ omit_bool "disable" (dp_Disable s).

(* go: proxmox/storage/datastore.go#DatastoreUpdate *)
Record DatastoreUpdate := {
  du_Content : list string; du_Nodes : list string; du_Pool : string; du_Blocksize : string; du_Sparse : option bool;
  du_Shared : option bool; du_Disable : option bool; du_Delete : list string; du_Digest : string;
  du_Extra : gmap string string
}.
Definition DatastoreUpdate_fields (s : DatastoreUpdate) : list (string * json) :=
  omit_str "pool" (du_Pool s) ++ omit_str "blocksize" (du_Blocksize s) ++ opt_bool "sparse" (du_Sparse s) ++
  opt_bool "shared" (du_Shared s) ++ opt_bool "disable" (du_Disable s) ++ omit_str "digest" (du_Digest s).

(* go: proxmox/storage/volume.go#VolumeCreateSpec *)
Record VolumeCreateSpec := {
  vc_Filename : string; vc_Size : string; vc_Format : string; vc_VMID : Z; vc_Extra : gmap string string
}.
Definition VolumeCreateSpec_fields (s : VolumeCreateSpec) : list (string * json) :=
  [("filename", JStr (vc_Filename s)); ("size", JStr (vc_Size s))] ++ omit_str "format" (vc_Format s) ++
  omit_int "vmid" (vc_VMID s).

(* go: proxmox/storage/zfs.go#ZFSPool *)
Record ZFSPool := {
  zp_Name : string; zp_Size : Z; zp_Free : Z; zp_Alloc : Z; zp_Frag : Z; zp_Dedup : spec_float; zp_Health : string
}.
Definition ZFSPool_zero : ZFSPool :=
  {| zp_Name := ""; zp_Size := 0; zp_Free := 0; zp_Alloc := 0; zp_Frag := 0; zp_Dedup := S754_zero false;
     zp_Health := "" |}.
Definition decode_ZFSPool : json → option ZFSPool :=
  as_struct ZFSPool_zero (λ l,
    n ← str_field "name" l; si ← int_field "size" l; f ← int_field "free" l; a ← int_field "alloc" l;
    fr ← int_field "frag" l; d ← float_field "dedup" l; h ← str_field "health" l;
    Some {| zp_Name := n; zp_Size := si; zp_Free := f; zp_Alloc := a; zp_Frag := fr; zp_Dedup := d; zp_Health := h |}).

(** The vdev tree. The decoder recurses into the objects of the [children] member,
    on the nesting depth of the value as fuel. *)
(* go: proxmox/storage/zfs.go#ZFSVdev *)
Inductive ZFSVdev := Vdev {
  zv_Name : string; zv_State : string; zv_Read : Z; zv_Write : Z; zv_Cksum : Z; zv_Msg : string;
  zv_Children : list ZFSVdev
}.
Definition ZFSVdev_zero : ZFSVdev := Vdev "" "" 0 0 0 "" [].
Fixpoint decode_vdev (fuel : nat) (j : json) : option ZFSVdev :=
  match fuel with
  | 0 => None
  | S fuel =>
      as_struct ZFSVdev_zero (λ l,
        n ← str_field "name" l; st ← str_field "state" l; r ← int_field "read" l; w ← int_field "write" l;
        c ← int_field "cksum" l; m ← str_field "msg" l; ch ← list_field (decode_vdev fuel) "children" l;
        Some (Vdev n st r w c m ch)) j
  end.
Definition decode_ZFSVdev (j : json) : option ZFSVdev := decode_vdev (S (json_depth j)) j.

(* go: proxmox/storage/zfs.go#ZFSPoolStatus *)
Record ZFSPoolStatus := {
  zs_Name : string; zs_State : string; zs_Scan : string; zs_Errors : string; zs_Children : list ZFSVdev
}.
Definition ZFSPoolStatus_zero : ZFSPoolStatus :=
  {| zs_Name := ""; zs_State := ""; zs_Scan := ""; zs_Errors := ""; zs_Children := [] |}.
Definition decode_ZFSPoolStatus : json → option ZFSPoolStatus :=
  as_struct ZFSPoolStatus_zero (λ l,
    n ← str_field "name" l; st ← str_field "state" l; sc ← str_field "scan" l; e ← str_field "errors" l;
    c ← list_field decode_ZFSVdev "children" l;
    Some {| zs_Name := n; zs_State := st; zs_Scan := sc; zs_Errors := e; zs_Children := c |}).

(* go: proxmox/storage/zfs.go#ZFSPoolSpec *)
Record ZFSPoolSpec := {
  zc_Name : string; zc_RAIDLevel : string; zc_Ashift : Z; zc_Compression : string; zc_Devices : list string;
  zc_Extra : gmap string string
}.
Definition ZFSPoolSpec_fields (s : ZFSPoolSpec) : list (string * json) :=
  [("name", JStr (zc_Name s)); ("raidlevel", JStr (zc_RAIDLevel s))] ++ omit_int "ashift" (zc_Ashift s) ++
  omit_str "compression" (zc_Compression s).

(* go: proxmox/storage/snapshot.go#VolumeSnapshot *)
Record VolumeSnapshot := { vs_Name : string; vs_Description : string; vs_Parent : string; vs_SnapTime : Z }.
Definition VolumeSnapshot_zero : VolumeSnapshot :=
  {| vs_Name := ""; vs_Description := ""; vs_Parent := ""; vs_SnapTime := 0 |}.
Definition decode_VolumeSnapshot : json → option VolumeSnapshot :=
  as_struct VolumeSnapshot_zero (λ l,
    n ← str_field "name" l; d ← str_field "description" l; p ← str_field "parent" l; sn ← int_field "snaptime" l;
    Some {| vs_Name := n; vs_Description := d; vs_Parent := p; vs_SnapTime := sn |}).

(* go: proxmox/storage/snapshot.go#VolumeSnapshotSpec *)
Record VolumeSnapshotSpec := { vp_Name : string; vp_Description : string; vp_Extra : gmap string string }.
Definition VolumeSnapshotSpec_fields (s : VolumeSnapshotSpec) : list (string * json) :=
  [("snapname", JStr (vp_Name s))] ++ omit_str "description" (vp_Description s).


(* go: proxmox/storage/zfs.go#RAIDZExpandSpec *)
Record RAIDZExpandSpec := { rz_Pool : string; rz_Device : string }.

(** A value of an open-ended object is kept as its text. *)
(* go: proxmox/storage/datastore.go#DatastoreWriteResult *)
Record DatastoreWriteResult := { wr_Storage : string; wr_Type : string; wr_Config : gmap string string }.
Definition DatastoreWriteResult_zero : DatastoreWriteResult := {| wr_Storage := ""; wr_Type := ""; wr_Config := ∅ |}.
(* go: proxmox/storage/datastore.go#DatastoreWriteResult.UnmarshalJSON *)
Definition DatastoreWriteResult_UnmarshalJSON : json → option DatastoreWriteResult :=
  as_struct DatastoreWriteResult_zero (λ l,
    st ← str_field "storage" l; t ← str_field "type" l;
    c ← decode_field ∅ (λ j, DecodeExtra j []) "config" l;
    Some {| wr_Storage := st; wr_Type := t; wr_Config := c |}).

(* go: proxmox/storage/datastore.go#joinCSV *)
Definition joinCSV (vals : values) (key : string) (items : list string) : values := set_list key items vals.
(* go: proxmox/storage/datastore.go#encodeDatastoreSpec *)
Definition encodeDatastoreSpec (spec : DatastoreSpec) : values :=
  joinCSV (joinCSV (EncodeWithExtra (DatastoreSpec_fields spec) (dp_Extra spec)) "content" (dp_Content spec))
    "nodes" (dp_Nodes spec).
(* go: proxmox/storage/datastore.go#encodeDatastoreUpdate *)
Definition encodeDatastoreUpdate (update : DatastoreUpdate) : values :=
  let body := EncodeWithExtra (DatastoreUpdate_fields update) (du_Extra update) in
  let body := joinCSV body "content" (du_Content update) in
  let body := joinCSV body "nodes" (du_Nodes update) in
  joinCSV body "delete" (du_Delete update).

(** An option of a listing sets a query parameter. *)
(* go: proxmox/storage/content.go#ListContentOption *)
Definition ListContentOption : Type := form_option.
(* go: proxmox/storage/content.go#WithContentType *)
Definition WithContentType (contentType : string) : ListContentOption := <["content" := [contentType]]>.
(* go: proxmox/storage/content.go#WithVMID *)
Definition WithVMID (vmid : Z) : ListContentOption := <["vmid" := [itoa vmid]]>.

(** The reader is what it yields; [None] is a nil reader. *)
(* go: proxmox/storage/upload.go#UploadSpec *)
Record UploadSpec := { up_Filename : string; up_Reader : option reader }.

(** The text field and the file's bytes so far. *)
(* go: proxmox/storage/upload.go#writeUploadParts *)
Definition writeUploadParts (content filename contents : string) : list part :=
  [TextPart "content" content; FilePart "filename" filename contents].

(** What the pipe yields: the parts and the closing boundary, which is written on a
    failure of the reader too, then the error of the reader. *)
Definition upload_body (boundary content filename : string) (r : reader) : reader := {|
  rd_Data := multipart_text boundary (writeUploadParts content filename (rd_Data r));
  rd_Err := GWrap "stream file" <$> rd_Err r
|}.

(** ** The service *)

(* go: proxmox/storage/paths.go#datastoresPath *)
Definition datastoresPath : string := "/storage".
(* go: proxmox/storage/paths.go#datastorePath *)
Definition datastorePath (storage : string) : string := "/storage/" +:+ storage.
(* go: proxmox/storage/paths.go#nodeStoragesPath *)
Definition nodeStoragesPath (node : string) : string := "/nodes/" +:+ node +:+ "/storage".
(* go: proxmox/storage/paths.go#nodeStoragePath *)
Definition nodeStoragePath (node storage : string) : string := nodeStoragesPath node +:+ "/" +:+ storage.
(* go: proxmox/storage/paths.go#nodeContentPath *)
Definition nodeContentPath (node storage : string) : string := nodeStoragePath node storage +:+ "/content".
(* go: proxmox/storage/paths.go#nodeVolumePath *)
Definition nodeVolumePath (node storage volid : string) : string :=
  nodeContentPath node storage +:+ "/" +:+ PathEscape volid.
(* go: proxmox/storage/paths.go#nodeZFSPath *)
Definition nodeZFSPath (node : string) : string := "/nodes/" +:+ node +:+ "/disks/zfs".
(* go: proxmox/storage/paths.go#nodeZFSPoolPath *)
Definition nodeZFSPoolPath (node name : string) : string := nodeZFSPath node +:+ "/" +:+ name.

(* go: proxmox/storage/snapshot.go#volumeSnapshotUnsupported *)
Definition volumeSnapshotUnsupported (op : string) : goerr :=
  GWrap ("storage." +:+ op +:+ ": PVE exposes no storage-level volume-snapshot REST endpoint") (GSentinel ErrUnsupported).

Section service.
Context {W : Type} `{!Client W}.

(** *** Datastores *)

(* go: proxmox/storage/datastore.go#Service.ListDatastores *)
Definition ListDatastores : W → W * (goerr + list Datastore) :=
  read_data "storage.ListDatastores" datastoresPath [] (as_list Datastore_UnmarshalJSON).
(* go: proxmox/storage/datastore.go#Service.GetDatastore *)
Definition GetDatastore (storage : string) : W → W * (goerr + Datastore) :=
  read_data "storage.GetDatastore" (datastorePath storage) Datastore_zero Datastore_UnmarshalJSON.
(* go: proxmox/storage/datastore.go#Service.CreateDatastore *)
Definition CreateDatastore (spec : option DatastoreSpec) (w : W) : W * (goerr + DatastoreWriteResult) :=
  match spec with
  | None => nil_spec "storage.CreateDatastore" w
  | Some spec =>
      if dp_Storage spec =s "" then missing "storage.CreateDatastore: storage" w
      else if dp_Type spec =s "" then missing "storage.CreateDatastore: type" w
      else then_result (DoRequest "POST" datastoresPath (Some (BValues (encodeDatastoreSpec spec)))
                          (Some DatastoreWriteResult_UnmarshalJSON) w) (GWrap "storage.CreateDatastore")
             (λ res w, (w, inr (default DatastoreWriteResult_zero res)))
  end.
(* go: proxmox/storage/datastore.go#Service.UpdateDatastore *)
Definition UpdateDatastore (storage : string) (update : option DatastoreUpdate) (w : W) : W * (goerr + DatastoreWriteResult) :=
  if storage =s "" then missing "storage.UpdateDatastore: storage" w else
  match update with
  | None => nil_spec "storage.UpdateDatastore" w
  | Some update =>
      then_result (DoRequest "PUT" (datastorePath storage) (Some (BValues (encodeDatastoreUpdate update)))
                     (Some DatastoreWriteResult_UnmarshalJSON) w) (GWrap "storage.UpdateDatastore")
        (λ res w, (w, inr (default DatastoreWriteResult_zero res)))
  end.
(* go: proxmox/storage/datastore.go#Service.DeleteDatastore *)
Definition DeleteDatastore (storage : string) : W → W * (goerr + ()) :=
  if storage =s "" then missing "storage.DeleteDatastore: storage"
  else send "storage.DeleteDatastore" "DELETE" (datastorePath storage) None.
(* go: proxmox/storage/datastore.go#Service.ListNodeStorage *)
Definition ListNodeStorage (node : string) : W → W * (goerr + list StorageStatus) :=
  read_data "storage.ListNodeStorage" (nodeStoragesPath node) [] (as_list decode_StorageStatus).
(* go: proxmox/storage/datastore.go#Service.NodeStorageStatus *)
Definition NodeStorageStatus (node storage : string) : W → W * (goerr + StorageStatus) :=
  read_data "storage.NodeStorageStatus" (nodeStoragePath node storage +:+ "/status") StorageStatus_zero decode_StorageStatus.

(** *** Contents and volumes *)

(* go: proxmox/storage/content.go#Service.ListContent *)
Definition ListContent (node storage : string) (opts : list ListContentOption) : W → W * (goerr + list Content) :=
  let path := nodeContentPath node storage in
  let enc := Encode (apply_options opts) in
  read_data "storage.ListContent" (if enc =s "" then path else path +:+ "?" +:+ enc) [] (as_list decode_Content).
(** The answer does not repeat the volume's id; it is filled in. *)
(* go: proxmox/storage/content.go#Service.GetVolume *)
Definition GetVolume (node storage volid : string) (w : W) : W * (goerr + Content) :=
  then_result (read_data "storage.GetVolume" (nodeVolumePath node storage volid) Content_zero decode_Content w) id (λ c w,
    (w, inr (if ct_Volid c =s "" then
               {| ct_Volid := volid; ct_Content := ct_Content c; ct_Format := ct_Format c; ct_Size := ct_Size c;
                  ct_Used := ct_Used c; ct_CTime := ct_CTime c; ct_VMID := ct_VMID c; ct_Notes := ct_Notes c;
                  ct_Protected := ct_Protected c |}
             else c))).
(* go: proxmox/storage/volume.go#Service.CreateVolume *)
Definition CreateVolume (node storage : string) (spec : option VolumeCreateSpec) (w : W) : W * (goerr + string) :=
  match spec with
  | None => nil_spec "storage.CreateVolume" w
  | Some spec =>
      if vc_Filename spec =s "" then missing "storage.CreateVolume: filename" w
      else if vc_Size spec =s "" then missing "storage.CreateVolume: size" w
      else then_result (DoRequest "POST" (nodeContentPath node storage)
                          (Some (BValues (EncodeWithExtra (VolumeCreateSpec_fields spec) (vc_Extra spec))))
                          (Some as_string_out) w) (GWrap "storage.CreateVolume") (λ volid w, (w, inr (default "" volid)))
  end.
(* go: proxmox/storage/volume.go#Service.DeleteVolume *)
Definition DeleteVolume (node storage volid : string) (w : W) : W * (goerr + Ref) :=
  task_or_none "storage.DeleteVolume" (DoRequest "DELETE" (nodeVolumePath node storage volid) None (Some as_string_out) w).

(* go: proxmox/storage/snapshot.go#Service.VolumeSnapshots *)
Definition VolumeSnapshots (node storage volid : string) : W → W * (goerr + list VolumeSnapshot) :=
  refuse (volumeSnapshotUnsupported "VolumeSnapshots").
(* go: proxmox/storage/snapshot.go#Service.CreateVolumeSnapshot *)
Definition CreateVolumeSnapshot (node storage volid : string) (spec : option VolumeSnapshotSpec) : W → W * (goerr + Ref) :=
  refuse (volumeSnapshotUnsupported "CreateVolumeSnapshot").
(* go: proxmox/storage/snapshot.go#Service.DeleteVolumeSnapshot *)
Definition DeleteVolumeSnapshot (node storage volid snapname : string) : W → W * (goerr + Ref) :=
  refuse (volumeSnapshotUnsupported "DeleteVolumeSnapshot").

(** *** ZFS pools *)

(* go: proxmox/storage/zfs.go#Service.ListZFSPools *)
Definition ListZFSPools (node : string) : W → W * (goerr + list ZFSPool) :=
  read_data "storage.ListZFSPools" (nodeZFSPath node) [] (as_list decode_ZFSPool).
(* go: proxmox/storage/zfs.go#Service.GetZFSPool *)
Definition GetZFSPool (node name : string) : W → W * (goerr + ZFSPoolStatus) :=
  read_data "storage.GetZFSPool" (nodeZFSPoolPath node name) ZFSPoolStatus_zero decode_ZFSPoolStatus.
(* go: proxmox/storage/zfs.go#Service.CreateZFSPool *)
Definition CreateZFSPool (node : string) (spec : option ZFSPoolSpec) : W → W * (goerr + Ref) :=
  match spec with
  | None => nil_spec "storage.CreateZFSPool"
  | Some spec =>
      if zc_Name spec =s "" then missing "storage.CreateZFSPool: name"
      else if zc_RAIDLevel spec =s "" then missing "storage.CreateZFSPool: raidlevel"
      else match zc_Devices spec with
           | [] => missing "storage.CreateZFSPool: devices"
           | devices =>
               let body := EncodeWithExtra (ZFSPoolSpec_fields spec) (zc_Extra spec) in
               start "storage.CreateZFSPool" "POST" (nodeZFSPath node) (Some (BValues (<["devices" := [join "," devices]]> body)))
           end
  end.
(* go: proxmox/storage/zfs.go#Service.ExpandRAIDZ *)
Definition ExpandRAIDZ (caps : Capabilities) (node : string) (spec : option RAIDZExpandSpec) : W → W * (goerr + Ref) :=
  match spec with
  | None => nil_spec "storage.ExpandRAIDZ"
  | Some spec =>
      match Require caps "RAIDZ expansion" "9.2" with
      | Some err => refuse (GWrap "storage.ExpandRAIDZ" err)
      | None => refuse (GWrap ("storage.ExpandRAIDZ: RAIDZ expansion has no PVE REST endpoint; run `zpool attach " +:+
                               rz_Pool spec +:+ "` via the ssh side-channel") (GSentinel ErrUnsupported))
      end
  end.

(** *** Uploads *)

Context `{!Uploader W, !Boundary W}.

(** The writer goroutine ends when its body is read to the end or the pipe is
    closed; it is not seen otherwise. *)
(* go: proxmox/storage/upload.go#Service.upload *)
Definition upload (node storage content : string) (spec : option UploadSpec) (w : W) : W * (goerr + Ref) :=
  match spec with
  | None => nil_spec "storage.Upload" w
  | Some spec =>
      match up_Reader spec with
      | Some r =>
          if up_Filename spec =s "" then missing "storage.Upload: filename and reader" w
          else
            let '(w, b) := rand_boundary w in
            task_of "storage.Upload"
              (DoUpload (nodeStoragePath node storage +:+ "/upload") (upload_body b content (up_Filename spec) r)
                 (FormDataContentType b) (Some as_string_out) w)
      | None => missing "storage.Upload: filename and reader" w
      end
  end.

(* go: proxmox/storage/upload.go#Service.UploadISO *)
Definition UploadISO (node storage : string) : option UploadSpec → W → W * (goerr + Ref) := upload node storage "iso".
(* go: proxmox/storage/upload.go#Service.UploadDiskImage *)
Definition UploadDiskImage (node storage : string) : option UploadSpec → W → W * (goerr + Ref) :=
  upload node storage "import".
End service.

(** ** The vdev decoder *)

(** More fuel than the nesting depth changes nothing. *)
Lemma decode_vdev_fuel fuel fuel' j : json_depth j < fuel → json_depth j < fuel' → decode_vdev fuel j = decode_vdev fuel' j.
Proof.
  revert fuel' j. induction fuel as [|fuel IH]; intros [|fuel'] j Hf Hf'; [lia..|].
  destruct j as [| | | | |l]; try done. cbn [decode_vdev as_struct].
  rewrite (list_field_depth (decode_vdev fuel) (decode_vdev fuel')); [done|]. intros x Hx. apply IH; lia.
Qed.
