(* ===== verification/NodesClient.v ===== *)
(** [proxmox/nodes], the client side of node administration: network interfaces,
    packages, disks, certificates, ACME accounts and challenge plugins with their
    credential payload, and the node configuration with its ACME property strings
    and its lossless read. *)

From S2P Require Import Prelude Json Pverr Types Api Url Tasks Svcutil.
From Stdlib Require Import ZArith Lia Ascii.
From stdpp Require Import options.

(** ** Network interfaces *)

(* go: proxmox/nodes/types.go#Interface *)
Record Interface := {
  if_Iface : string; if_Type : string; if_Address : string; if_Gateway : string; if_Address6 : string;
  if_Gateway6 : string; if_BridgePorts : string; if_BridgeSTP : bool; if_BridgeFD : Z; if_VLANAware : bool;
  if_BondSlaves : string; if_BondMode : string; if_VLANRawDev : string; if_VLANID : Z; if_Comments : string;
  if_Autostart : bool; if_Active : bool; if_Extra : gmap string string
}.
Definition Interface_zero : Interface :=
  {| if_Iface := ""; if_Type := ""; if_Address := ""; if_Gateway := ""; if_Address6 := ""; if_Gateway6 := "";
     if_BridgePorts := ""; if_BridgeSTP := false; if_BridgeFD := 0; if_VLANAware := false; if_BondSlaves := "";
     if_BondMode := ""; if_VLANRawDev := ""; if_VLANID := 0; if_Comments := ""; if_Autostart := false;
     if_Active := false; if_Extra := ∅ |}.

(* go: proxmox/nodes/types.go#interfaceKnownFields *)
Definition interfaceKnownFields : list string :=
  ["iface"; "type"; "address"; "gateway"; "address6"; "gateway6"; "bridge_ports"; "bridge_stp"; "bridge_fd";
   "bridge_vlan_aware"; "slaves"; "bond_mode"; "vlan-raw-device"; "vlan-id"; "comments"; "autostart"; "active"].

(* go: proxmox/nodes/types.go#Interface.UnmarshalJSON *)
Definition Interface_UnmarshalJSON : json → option Interface :=
  as_struct Interface_zero (λ l,
    i ← str_field "iface" l; t ← str_field "type" l; a ← str_field "address" l; g ← str_field "gateway" l;
    a6 ← str_field "address6" l; g6 ← str_field "gateway6" l; bp ← str_field "bridge_ports" l;
    bs ← pvebool_field "bridge_stp" l; fd ← int_field "bridge_fd" l; va ← pvebool_field "bridge_vlan_aware" l;
    sl ← str_field "slaves" l; bm ← str_field "bond_mode" l; rd ← str_field "vlan-raw-device" l;
    vi ← int_field "vlan-id" l; co ← str_field "comments" l; au ← pvebool_field "autostart" l;
    ac ← pvebool_field "active" l;
    Some {| if_Iface := i; if_Type := t; if_Address := a; if_Gateway := g; if_Address6 := a6; if_Gateway6 := g6;
            if_BridgePorts := bp; if_BridgeSTP := bs; if_BridgeFD := fd; if_VLANAware := va; if_BondSlaves := sl;
            if_BondMode := bm; if_VLANRawDev := rd; if_VLANID := vi; if_Comments := co; if_Autostart := au;
            if_Active := ac; if_Extra := foldl (extra_key interfaceKnownFields) ∅ l |}).

(* go: proxmox/nodes/types.go#InterfaceSpec *)
Record InterfaceSpec := {
  is_Iface : string; is_Type : string; is_Address : string; is_Gateway : string; is_Address6 : string;
  is_Gateway6 : string; is_BridgePorts : string; is_BridgeSTP : bool; is_BridgeFD : Z; is_VLANAware : bool;
  is_BondSlaves : string; is_BondMode : string; is_VLANRawDev : string; is_VLANID : Z; is_Comments : string;
  is_Autostart : bool; is_Extra : gmap string string
}.
Definition InterfaceSpec_fields (s : InterfaceSpec) : list (string * json) :=
  [("iface", JStr (is_Iface s)); ("type", JStr (is_Type s))] ++ omit_str "address" (is_Address s) ++
  omit_str "gateway" (is_Gateway s) ++ omit_str "address6" (is_Address6 s) ++ omit_str "gateway6" (is_Gateway6 s) ++
  omit_str "bridge_ports" (is_BridgePorts s) ++ omit_bool "bridge_stp" (is_BridgeSTP s) ++
  omit_int "bridge_fd" (is_BridgeFD s) ++ omit_bool "bridge_vlan_aware" (is_VLANAware s) ++
  omit_str "slaves" (is_BondSlaves s) ++ omit_str "bond_mode" (is_BondMode s) ++
  omit_str "vlan-raw-device" (is_VLANRawDev s) ++ omit_int "vlan-id" (is_VLANID s) ++
  omit_str "comments" (is_Comments s) ++ omit_bool "autostart" (is_Autostart s).

(* go: proxmox/nodes/types.go#InterfaceUpdate *)
Record InterfaceUpdate := {
  iu_Address : string; iu_Gateway : string; iu_Address6 : string; iu_Gateway6 : string; iu_BridgePorts : string;
  iu_BridgeSTP : bool; iu_BridgeFD : Z; iu_VLANAware : bool; iu_BondSlaves : string; iu_BondMode : string;
  iu_Comments : string; iu_Autostart : bool; iu_Delete : string; iu_Extra : gmap string string
}.
Definition InterfaceUpdate_fields (s : InterfaceUpdate) : list (string * json) :=
  omit_str "address" (iu_Address s) ++ omit_str "gateway" (iu_Gateway s) ++ omit_str "address6" (iu_Address6 s) ++
  omit_str "gateway6" (iu_Gateway6 s) ++ omit_str "bridge_ports" (iu_BridgePorts s) ++
  omit_bool "bridge_stp" (iu_BridgeSTP s) ++ omit_int "bridge_fd" (iu_BridgeFD s) ++
  omit_bool "bridge_vlan_aware" (iu_VLANAware s) ++ omit_str "slaves" (iu_BondSlaves s) ++
  omit_str "bond_mode" (iu_BondMode s) ++ omit_str "comments" (iu_Comments s) ++
  omit_bool "autostart" (iu_Autostart s) ++ omit_str "delete" (iu_Delete s).

(** ** Packages *)

(* go: proxmox/nodes/apt.go#AptUpdate *)
Record AptUpdate := {
  au_Package : string; au_Title : string; au_Version : string; au_OldVersion : string; au_Arch : string;
  au_Priority : string; au_Section : string; au_Origin : string; au_Description : string; au_Extra : gmap string string
}.
Definition AptUpdate_zero : AptUpdate :=
  {| au_Package := ""; au_Title := ""; au_Version := ""; au_OldVersion := ""; au_Arch := ""; au_Priority := "";
     au_Section := ""; au_Origin := ""; au_Description := ""; au_Extra := ∅ |}.
(* go: proxmox/nodes/apt.go#aptUpdateKnownFields *)
Definition aptUpdateKnownFields : list string :=
  ["Package"; "Title"; "Version"; "OldVersion"; "Arch"; "Priority"; "Section"; "Origin"; "Description"].
(* go: proxmox/nodes/apt.go#AptUpdate.UnmarshalJSON *)
Definition AptUpdate_UnmarshalJSON : json → option AptUpdate :=
  as_struct AptUpdate_zero (λ l,
    p ← str_field "Package" l; t ← str_field "Title" l; v ← str_field "Version" l; o ← str_field "OldVersion" l;
    a ← str_field "Arch" l; pr ← str_field "Priority" l; s ← str_field "Section" l; og ← str_field "Origin" l;
    d ← str_field "Description" l;
    Some {| au_Package := p; au_Title := t; au_Version := v; au_OldVersion := o; au_Arch := a; au_Priority := pr;
            au_Section := s; au_Origin := og; au_Description := d;
            au_Extra := foldl (extra_key aptUpdateKnownFields) ∅ l |}).

(** The entries of a source file have no [UnmarshalJSON] of their own: their
    [Extra] fields ([json:"-"]) stay nil, and are left out. *)
(* go: proxmox/nodes/apt.go#Repository *)
Record Repository := {
  rp_Types : list string; rp_URIs : list string; rp_Suites : list string; rp_Components : list string;
  rp_Enabled : Z; rp_Comment : string; rp_FileType : string
}.
Definition Repository_zero : Repository :=
  {| rp_Types := []; rp_URIs := []; rp_Suites := []; rp_Components := []; rp_Enabled := 0; rp_Comment := "";
     rp_FileType := "" |}.
Definition decode_Repository : json → option Repository :=
  as_struct Repository_zero (λ l,
    t ← strs_field "Types" l; u ← strs_field "URIs" l; s ← strs_field "Suites" l; c ← strs_field "Components" l;
    e ← int_field "Enabled" l; co ← str_field "Comment" l; f ← str_field "FileType" l;
    Some {| rp_Types := t; rp_URIs := u; rp_Suites := s; rp_Components := c; rp_Enabled := e; rp_Comment := co;
            rp_FileType := f |}).

(* go: proxmox/nodes/apt.go#RepositoryFile *)
Record RepositoryFile := { rf_Path : string; rf_FileType : string; rf_Repositories : list Repository }.
Definition RepositoryFile_zero : RepositoryFile := {| rf_Path := ""; rf_FileType := ""; rf_Repositories := [] |}.
Definition decode_RepositoryFile : json → option RepositoryFile :=
  as_struct RepositoryFile_zero (λ l,
    p ← str_field "path" l; t ← str_field "file-type" l; r ← list_field decode_Repository "repositories" l;
    Some {| rf_Path := p; rf_FileType := t; rf_Repositories := r |}).

(* go: proxmox/nodes/apt.go#Repositories *)
Record Repositories := {
  rs_Files : list RepositoryFile; rs_Errors : list string; rs_Digest : string; rs_Extra : gmap string string
}.
Definition Repositories_zero : Repositories := {| rs_Files := []; rs_Errors := []; rs_Digest := ""; rs_Extra := ∅ |}.
(* go: proxmox/nodes/apt.go#repositoriesKnownFields *)
Definition repositoriesKnownFields : list string := ["files"; "errors"; "digest"].
(* go: proxmox/nodes/apt.go#Repositories.UnmarshalJSON *)
Definition Repositories_UnmarshalJSON : json → option Repositories :=
  as_struct Repositories_zero (λ l,
    f ← list_field decode_RepositoryFile "files" l; e ← strs_field "errors" l; d ← str_field "digest" l;
    Some {| rs_Files := f; rs_Errors := e; rs_Digest := d; rs_Extra := foldl (extra_key repositoriesKnownFields) ∅ l |}).

(* go: proxmox/nodes/apt.go#RepositoryUpdate *)
Record RepositoryUpdate := {
  ru_Path : string; ru_Index : Z; ru_Enabled : option bool; ru_Digest : string; ru_Extra : gmap string string
}.
Definition RepositoryUpdate_fields (s : RepositoryUpdate) : list (string * json) :=
  [("path", JStr (ru_Path s)); ("index", jint (ru_Index s))] ++ opt_bool "enabled" (ru_Enabled s) ++
  omit_str "digest" (ru_Digest s).

(** ** Disks *)

(* go: proxmox/nodes/disks.go#Disk *)
Record Disk := {
  dk_DevPath : string; dk_Model : string; dk_Serial : string; dk_Vendor : string; dk_Size : Z; dk_Type : string;
  dk_Used : string; dk_Health : string; dk_Wearout : Z; dk_RPM : Z; dk_WWN : string; dk_GPT : bool; dk_OSDID : Z;
  dk_Extra : gmap string string
}.
Definition Disk_zero : Disk :=
  {| dk_DevPath := ""; dk_Model := ""; dk_Serial := ""; dk_Vendor := ""; dk_Size := 0; dk_Type := ""; dk_Used := "";
     dk_Health := ""; dk_Wearout := 0; dk_RPM := 0; dk_WWN := ""; dk_GPT := false; dk_OSDID := 0; dk_Extra := ∅ |}.
(* go: proxmox/nodes/disks.go#diskKnownFields *)
Definition diskKnownFields : list string :=
  ["devpath"; "model"; "serial"; "vendor"; "size"; "type"; "used"; "health"; "wearout"; "rpm"; "wwn"; "gpt"; "osdid"].
(* go: proxmox/nodes/disks.go#Disk.UnmarshalJSON *)
Definition Disk_UnmarshalJSON : json → option Disk :=
  as_struct Disk_zero (λ l,
    d ← str_field "devpath" l; m ← str_field "model" l; s ← str_field "serial" l; v ← str_field "vendor" l;
    z ← int_field "size" l; t ← str_field "type" l; u ← str_field "used" l; h ← str_field "health" l;
    wo ← int_field "wearout" l; r ← int_field "rpm" l; ww ← str_field "wwn" l; g ← pvebool_field "gpt" l;
    o ← int_field "osdid" l;
    Some {| dk_DevPath := d; dk_Model := m; dk_Serial := s; dk_Vendor := v; dk_Size := z; dk_Type := t; dk_Used := u;
            dk_Health := h; dk_Wearout := wo; dk_RPM := r; dk_WWN := ww; dk_GPT := g; dk_OSDID := o;
            dk_Extra := foldl (extra_key diskKnownFields) ∅ l |}).

(** Rows of the attribute table; no [UnmarshalJSON], so no [Extra]. *)
(* go: proxmox/nodes/disks.go#SMARTAttribute *)
Record SMARTAttribute := {
  sa_ID : Z; sa_Name : string; sa_Value : Z; sa_Worst : Z; sa_Threshold : Z; sa_Raw : string; sa_Flags : string
}.
Definition SMARTAttribute_zero : SMARTAttribute :=
  {| sa_ID := 0; sa_Name := ""; sa_Value := 0; sa_Worst := 0; sa_Threshold := 0; sa_Raw := ""; sa_Flags := "" |}.
Definition decode_SMARTAttribute : json → option SMARTAttribute :=
  as_struct SMARTAttribute_zero (λ l,
    i ← int_field "id" l; n ← str_field "name" l; v ← int_field "value" l; w ← int_field "worst" l;
    t ← int_field "threshold" l; r ← str_field "raw" l; f ← str_field "flags" l;
    Some {| sa_ID := i; sa_Name := n; sa_Value := v; sa_Worst := w; sa_Threshold := t; sa_Raw := r; sa_Flags := f |}).

(* go: proxmox/nodes/disks.go#SMART *)
Record SMART := {
  sm_Health : string; sm_Type : string; sm_Attributes : list SMARTAttribute; sm_Text : string; sm_Extra : gmap string string
}.
Definition SMART_zero : SMART := {| sm_Health := ""; sm_Type := ""; sm_Attributes := []; sm_Text := ""; sm_Extra := ∅ |}.
(* go: proxmox/nodes/disks.go#smartKnownFields *)
Definition smartKnownFields : list string := ["health"; "type"; "attributes"; "text"].
(* go: proxmox/nodes/disks.go#SMART.UnmarshalJSON *)
Definition SMART_UnmarshalJSON : json → option SMART :=
  as_struct SMART_zero (λ l,
    h ← str_field "health" l; t ← str_field "type" l; a ← list_field decode_SMARTAttribute "attributes" l;
    x ← str_field "text" l;
    Some {| sm_Health := h; sm_Type := t; sm_Attributes := a; sm_Text := x;
            sm_Extra := foldl (extra_key smartKnownFields) ∅ l |}).

(** ** Certificates and ACME accounts *)

(* go: proxmox/nodes/certificates.go#Certificate *)
Record Certificate := {
  ce_Filename : string; ce_Fingerprint : string; ce_Subject : string; ce_Issuer : string; ce_NotBefore : Z;
  ce_NotAfter : Z; ce_SAN : list string; ce_PEM : string; ce_PublicKeyType : string; ce_PublicKeyBits : Z;
  ce_Extra : gmap string string
}.
Definition Certificate_zero : Certificate :=
  {| ce_Filename := ""; ce_Fingerprint := ""; ce_Subject := ""; ce_Issuer := ""; ce_NotBefore := 0; ce_NotAfter := 0;
     ce_SAN := []; ce_PEM := ""; ce_PublicKeyType := ""; ce_PublicKeyBits := 0; ce_Extra := ∅ |}.
(* go: proxmox/nodes/certificates.go#certificateKnownFields *)
Definition certificateKnownFields : list string :=
  ["filename"; "fingerprint"; "subject"; "issuer"; "notbefore"; "notafter"; "san"; "pem"; "public-key-type";
   "public-key-bits"].
(* go: proxmox/nodes/certificates.go#Certificate.UnmarshalJSON *)
Definition Certificate_UnmarshalJSON : json → option Certificate :=
  as_struct Certificate_zero (λ l,
    f ← str_field "filename" l; fp ← str_field "fingerprint" l; s ← str_field "subject" l; i ← str_field "issuer" l;
    nb ← int_field "notbefore" l; na ← int_field "notafter" l; sa ← strs_field "san" l; p ← str_field "pem" l;
    kt ← str_field "public-key-type" l; kb ← int_field "public-key-bits" l;
    Some {| ce_Filename := f; ce_Fingerprint := fp; ce_Subject := s; ce_Issuer := i; ce_NotBefore := nb;
            ce_NotAfter := na; ce_SAN := sa; ce_PEM := p; ce_PublicKeyType := kt; ce_PublicKeyBits := kb;
            ce_Extra := foldl (extra_key certificateKnownFields) ∅ l |}).

(* go: proxmox/nodes/certificates.go#CustomCertificateSpec *)
Record CustomCertificateSpec := {
  cc_Certificates : string; cc_Key : string; cc_Force : option bool; cc_Restart : option bool; cc_Extra : gmap string string
}.
Definition CustomCertificateSpec_fields (s : CustomCertificateSpec) : list (string * json) :=
  [("certificates", JStr (cc_Certificates s))] ++ omit_str "key" (cc_Key s) ++ opt_bool "force" (cc_Force s) ++
  opt_bool "restart" (cc_Restart s).

(** The account object of the CA is a raw message, [None] when the key is absent. *)
(* go: proxmox/nodes/certificates.go#ACMEAccount *)
Record ACMEAccount := {
  aa_Location : string; aa_Directory : string; aa_TOS : string; aa_Account : option json; aa_Extra : gmap string string
}.
Definition ACMEAccount_zero : ACMEAccount :=
  {| aa_Location := ""; aa_Directory := ""; aa_TOS := ""; aa_Account := None; aa_Extra := ∅ |}.
(* go: proxmox/nodes/certificates.go#acmeAccountKnownFields *)
Definition acmeAccountKnownFields : list string := ["location"; "directory"; "tos"; "account"].
(* go: proxmox/nodes/certificates.go#ACMEAccount.UnmarshalJSON *)
Definition ACMEAccount_UnmarshalJSON : json → option ACMEAccount :=
  as_struct ACMEAccount_zero (λ l,
    lo ← str_field "location" l; d ← str_field "directory" l; t ← str_field "tos" l;
    Some {| aa_Location := lo; aa_Directory := d; aa_TOS := t; aa_Account := raw_field "account" l;
            aa_Extra := foldl (extra_key acmeAccountKnownFields) ∅ l |}).

(* go: proxmox/nodes/certificates.go#ACMEAccountSpec *)
Record ACMEAccountSpec := {
  as_Name : string; as_Contact : list string; as_Directory : string; as_TOSURL : string; as_Extra : gmap string string
}.
Definition ACMEAccountSpec_fields (s : ACMEAccountSpec) : list (string * json) :=
  [("name", JStr (as_Name s))] ++ omit_str "directory" (as_Directory s) ++ omit_str "tos_url" (as_TOSURL s).
(* go: proxmox/nodes/certificates.go#ACMEAccountUpdate *)
Record ACMEAccountUpdate := { aw_Contact : list string; aw_Extra : gmap string string }.

(** ** Challenge plugins *)

Example base64_text : base64 "CF_Token=abc" = "Q0ZfVG9rZW49YWJj". Proof. reflexivity. Qed.
Example base64_pad : base64 "any carnal" = "YW55IGNhcm5hbA==". Proof. reflexivity. Qed.

(** The interface of a provider's credentials, as its two methods' results; an
    implementation outside the SDK is any value of this type. *)
(* go: proxmox/nodes/acmeproviders.go#ACMEPluginData *)
Record ACMEPluginData := { pd_API : string; pd_Data : gmap string string }.

(* go: proxmox/nodes/acmeproviders.go#ACMECloudflare *)
Record ACMECloudflare := { acf_Token : string; acf_AccountID : string; acf_ZoneID : string; acf_Key : string; acf_Email : string }.
(* go: proxmox/nodes/acmeproviders.go#L54-L73 *)
Definition ACMECloudflare_data (c : ACMECloudflare) : ACMEPluginData :=
  {| pd_API := "cf";
     pd_Data := <["CF_Token" := acf_Token c]> (<["CF_Account_ID" := acf_AccountID c]> (<["CF_Zone_ID" := acf_ZoneID c]>
               (<["CF_Key" := acf_Key c]> {[ "CF_Email" := acf_Email c ]}))) |}.
(* go: proxmox/nodes/acmeproviders.go#ACMENamecheap *)
Record ACMENamecheap := { anc_Username : string; anc_APIKey : string; anc_SourceIP : string }.
(* go: proxmox/nodes/acmeproviders.go#L102-L111 *)
Definition ACMENamecheap_data (n : ACMENamecheap) : ACMEPluginData :=
  {| pd_API := "namecheap";
     pd_Data := <["NAMECHEAP_USERNAME" := anc_Username n]> (<["NAMECHEAP_API_KEY" := anc_APIKey n]>
               {[ "NAMECHEAP_SOURCEIP" := anc_SourceIP n ]}) |}.
(* go: proxmox/nodes/acmeproviders.go#ACMERawPluginData *)
Definition ACMERawPluginData (provider : string) (vals : gmap string string) : ACMEPluginData :=
  {| pd_API := provider; pd_Data := vals |}.

(* go: proxmox/nodes/acmeproviders.go#encodePluginData *)
Definition encodePluginData (d : ACMEPluginData) : string :=
  let vals := filter (λ kv, kv.2 ≠ "") (pd_Data d) in
  base64 (join (bytes [10]) ((λ k, k +:+ "=" +:+ default "" (vals !! k)) <$> merge_sort String.le (keys vals))).

(* go: proxmox/nodes/acmeplugins.go#applyPluginData *)
Definition applyPluginData (b : values) (d : option ACMEPluginData) : goerr + values :=
  match d with
  | None => inr b
  | Some d =>
      if pd_API d =s "" then inl (GWrap "data: provider name" (GSpec ErrMissingField))
      else let encoded := encodePluginData d in
           if encoded =s "" then inl (GWrap ("data: " +:+ pd_API d +:+ " credentials are all empty") (GSpec ErrMissingField))
           else inr (<["data" := [encoded]]> (<["api" := [pd_API d]]> b))
  end.

(* go: proxmox/nodes/acmeplugins.go#L19-L26 *)
Definition ACMEChallengeTypeDNS : string := "dns".
Definition ACMEChallengeTypeStandalone : string := "standalone".

(* go: proxmox/nodes/acmeplugins.go#ACMEPlugin *)
Record ACMEPlugin := {
  ap_Plugin : string; ap_Type : string; ap_API : string; ap_Data : string; ap_ValidationDelay : Z; ap_Nodes : string;
  ap_Disable : bool; ap_Digest : string; ap_Extra : gmap string string
}.
Definition ACMEPlugin_zero : ACMEPlugin :=
  {| ap_Plugin := ""; ap_Type := ""; ap_API := ""; ap_Data := ""; ap_ValidationDelay := 0; ap_Nodes := "";
     ap_Disable := false; ap_Digest := ""; ap_Extra := ∅ |}.
(* go: proxmox/nodes/acmeplugins.go#acmePluginKnownFields *)
Definition acmePluginKnownFields : list string :=
  ["plugin"; "type"; "api"; "data"; "validation-delay"; "nodes"; "disable"; "digest"].
(* go: proxmox/nodes/acmeplugins.go#ACMEPlugin.UnmarshalJSON *)
Definition ACMEPlugin_UnmarshalJSON : json → option ACMEPlugin :=
  as_struct ACMEPlugin_zero (λ l,
    p ← str_field "plugin" l; t ← str_field "type" l; a ← str_field "api" l; d ← str_field "data" l;
    v ← int_field "validation-delay" l; n ← str_field "nodes" l; di ← pvebool_field "disable" l; dg ← str_field "digest" l;
    Some {| ap_Plugin := p; ap_Type := t; ap_API := a; ap_Data := d; ap_ValidationDelay := v; ap_Nodes := n;
            ap_Disable := di; ap_Digest := dg; ap_Extra := foldl (extra_key acmePluginKnownFields) ∅ l |}).
(* go: proxmox/nodes/acmeplugins.go#ACMEPlugin.String *)
Definition ACMEPlugin_String (p : ACMEPlugin) : string :=
  let data := if ap_Data p <>s "" then "<redacted>" else "<empty>" in
  "nodes.ACMEPlugin{Plugin:" +:+ ap_Plugin p +:+ " Type:" +:+ ap_Type p +:+ " API:" +:+ ap_API p +:+ " Data:" +:+ data +:+
  " Nodes:" +:+ ap_Nodes p +:+ " Disable:" +:+ (if ap_Disable p then "true" else "false") +:+ "}".

(* go: proxmox/nodes/acmeplugins.go#ACMEPluginSpec *)
Record ACMEPluginSpec := {
  ps_ID : string; ps_Type : string; ps_Data : option ACMEPluginData; ps_ValidationDelay : option Z; ps_Nodes : list string;
  ps_Disable : option bool; ps_Extra : gmap string string
}.
Definition ACMEPluginSpec_fields (s : ACMEPluginSpec) : list (string * json) :=
  [("id", JStr (ps_ID s))] ++ omit_str "type" (ps_Type s) ++ opt_int "validation-delay" (ps_ValidationDelay s) ++
  opt_bool "disable" (ps_Disable s).
(* go: proxmox/nodes/acmeplugins.go#ACMEPluginUpdate *)
Record ACMEPluginUpdate := {
  pu_Data : option ACMEPluginData; pu_ValidationDelay : option Z; pu_Nodes : list string; pu_Disable : option bool;
  pu_Delete : list string; pu_Digest : string; pu_Extra : gmap string string
}.
Definition ACMEPluginUpdate_fields (s : ACMEPluginUpdate) : list (string * json) :=
  opt_int "validation-delay" (pu_ValidationDelay s) ++ opt_bool "disable" (pu_Disable s) ++ omit_str "digest" (pu_Digest s).

(* go: proxmox/nodes/acmeplugins.go#ACMEChallengeSchemaEntry *)
Record ACMEChallengeSchemaEntry := { ae_ID : string; ae_Name : string; ae_Type : string; ae_Schema : option json }.
Definition ACMEChallengeSchemaEntry_zero : ACMEChallengeSchemaEntry :=
  {| ae_ID := ""; ae_Name := ""; ae_Type := ""; ae_Schema := None |}.
Definition decode_ACMEChallengeSchemaEntry : json → option ACMEChallengeSchemaEntry :=
  as_struct ACMEChallengeSchemaEntry_zero (λ l,
    i ← str_field "id" l; n ← str_field "name" l; t ← str_field "type" l;
    Some {| ae_ID := i; ae_Name := n; ae_Type := t; ae_Schema := raw_field "schema" l |}).

(* go: proxmox/nodes/acmeplugins.go#ACMEDirectory *)
Record ACMEDirectory := { adir_Name : string; adir_URL : string }.
Definition decode_ACMEDirectory : json → option ACMEDirectory :=
  as_struct {| adir_Name := ""; adir_URL := "" |} (λ l,
    n ← str_field "name" l; u ← str_field "url" l; Some {| adir_Name := n; adir_URL := u |}).

(* go: proxmox/nodes/acmeplugins.go#ACMEMeta *)
Record ACMEMeta := {
  am_TermsOfService : string; am_Website : string; am_CAAIdentities : list string; am_ExternalAccountRequired : bool;
  am_Extra : gmap string string
}.
Definition ACMEMeta_zero : ACMEMeta :=
  {| am_TermsOfService := ""; am_Website := ""; am_CAAIdentities := []; am_ExternalAccountRequired := false; am_Extra := ∅ |}.
(* go: proxmox/nodes/acmeplugins.go#acmeMetaKnownFields *)
Definition acmeMetaKnownFields : list string := ["termsOfService"; "website"; "caaIdentities"; "externalAccountRequired"].
(* go: proxmox/nodes/acmeplugins.go#ACMEMeta.UnmarshalJSON *)
Definition ACMEMeta_UnmarshalJSON : json → option ACMEMeta :=
  as_struct ACMEMeta_zero (λ l,
    t ← str_field "termsOfService" l; w ← str_field "website" l; c ← strs_field "caaIdentities" l;
    e ← bool_field "externalAccountRequired" l;
    Some {| am_TermsOfService := t; am_Website := w; am_CAAIdentities := c; am_ExternalAccountRequired := e;
            am_Extra := foldl (extra_key acmeMetaKnownFields) ∅ l |}).

(** An option sets the directory to ask. *)
(* go: proxmox/nodes/acmeplugins.go#ACMEMetaOption *)
Definition ACMEMetaOption : Type := string → string.
(* go: proxmox/nodes/acmeplugins.go#WithACMEDirectory *)
Definition WithACMEDirectory (directoryURL : string) : ACMEMetaOption := λ _, directoryURL.

(** ** The node configuration *)

(* go: proxmox/nodes/nodeconfig.go#NodeACME *)
Record NodeACME := { na_Account : string; na_Domains : list string }.
(* go: proxmox/nodes/nodeconfig.go#ACMEDomain *)
Record ACMEDomain := { ad_Index : Z; ad_Domain : string; ad_Plugin : string; ad_Alias : string }.
(* go: proxmox/nodes/nodeconfig.go#NodeConfig *)
Record NodeConfig := {
  nc_ACME : option NodeACME; nc_ACMEDomains : list ACMEDomain; nc_Digest : string; nc_Extra : gmap string string
}.
Definition NodeConfig_zero : NodeConfig := {| nc_ACME := None; nc_ACMEDomains := []; nc_Digest := ""; nc_Extra := ∅ |}.

(** *** Property strings *)

(* go: proxmox/nodes/nodeconfig.go#acmeDomainKeyPrefix *)
Definition acmeDomainKeyPrefix : string := "acmedomain".
(* go: proxmox/nodes/nodeconfig.go#ACMEDomainMaxIndex *)
Definition ACMEDomainMaxIndex : Z := 5.
(* go: proxmox/nodes/nodeconfig.go#ACMEDomainKey *)
Definition ACMEDomainKey (index : Z) : string := acmeDomainKeyPrefix +:+ itoa index.

(* go: proxmox/nodes/nodeconfig.go#acmeDomainSlot *)
Definition acmeDomainSlot (key : string) : option Z :=
  if negb (has_prefix key acmeDomainKeyPrefix) then None else
  let suffix := drop_str (String.length acmeDomainKeyPrefix) key in
  if suffix =s "" then None else
  match atoi suffix with
  | None => None
  | Some index => if (index <? 0)%Z || (itoa index <>s suffix) then None else Some index
  end.

(** One item of the [acme] property string. *)
Definition node_acme_item (out : NodeACME) (part : string) : NodeACME :=
  match cut_byte "=" part with
  | None => out
  | Some (key, value) =>
      let key := trim_space key in
      if key =s "account" then {| na_Account := trim_space value; na_Domains := na_Domains out |}
      else if key =s "domains" then
        {| na_Account := na_Account out;
           na_Domains := na_Domains out ++
             filter (λ d, d ≠ "") (trim_space <$> split_byte ";" (trim_space value)) |}
      else out
  end.
(* go: proxmox/nodes/nodeconfig.go#parseNodeACME *)
Definition parseNodeACME (s : string) : NodeACME :=
  foldl node_acme_item {| na_Account := ""; na_Domains := [] |} (split_byte "," s).

(* go: proxmox/nodes/nodeconfig.go#encodeNodeACME *)
Definition encodeNodeACME (a : NodeACME) : string :=
  join "," ((if na_Account a =s "" then [] else ["account=" +:+ na_Account a]) ++
            (match na_Domains a with [] => [] | _ => ["domains=" +:+ join ";" (na_Domains a)] end)).

(** One item of an [acmedomain] property string. *)
Definition acme_domain_item (out : ACMEDomain) (part : string) : ACMEDomain :=
  let part := trim_space part in
  let domain d := {| ad_Index := ad_Index out; ad_Domain := d; ad_Plugin := ad_Plugin out; ad_Alias := ad_Alias out |} in
  if part =s "" then out else
  match cut_byte "=" part with
  | None => if ad_Domain out =s "" then domain part else out
  | Some (key, value) =>
      let key := trim_space key in
      if key =s "domain" then domain (trim_space value)
      else if key =s "plugin" then
        {| ad_Index := ad_Index out; ad_Domain := ad_Domain out; ad_Plugin := trim_space value; ad_Alias := ad_Alias out |}
      else if key =s "alias" then
        {| ad_Index := ad_Index out; ad_Domain := ad_Domain out; ad_Plugin := ad_Plugin out; ad_Alias := trim_space value |}
      else out
  end.
Definition ACMEDomain_zero : ACMEDomain := {| ad_Index := 0; ad_Domain := ""; ad_Plugin := ""; ad_Alias := "" |}.
(* go: proxmox/nodes/nodeconfig.go#parseACMEDomain *)
Definition parseACMEDomain (s : string) : goerr + ACMEDomain :=
  let out := foldl acme_domain_item ACMEDomain_zero (split_byte "," s) in
  if ad_Domain out =s "" then inl (GWrap ("acmedomain " +:+ s +:+ ": domain") (GSpec ErrMissingField)) else inr out.

(* go: proxmox/nodes/nodeconfig.go#encodeACMEDomain *)
Definition encodeACMEDomain (d : ACMEDomain) : string :=
  join "," (["domain=" +:+ ad_Domain d] ++
            (if ad_Plugin d =s "" then [] else ["plugin=" +:+ ad_Plugin d]) ++
            (if ad_Alias d =s "" then [] else ["alias=" +:+ ad_Alias d])).

(** *** The lossless read *)

Definition at_slot (index : Z) (d : ACMEDomain) : ACMEDomain :=
  {| ad_Index := index; ad_Domain := ad_Domain d; ad_Plugin := ad_Plugin d; ad_Alias := ad_Alias d |}.
#[local] Abbreviation claims := (NodeConfig * list string)%type.

(** One key of the object: a typed field claims it, or it stays for [Extra]. *)
Definition claim_key (acc : claims) (kv : string * json) : claims :=
  let '(c, known) := acc in
  let '(key, raw) := kv in
  match as_string_out raw with
  | None => acc
  | Some value =>
      if key =s "acme" then
        match raw with
        | JNull => acc
        | _ => ({| nc_ACME := Some (parseNodeACME value); nc_ACMEDomains := nc_ACMEDomains c; nc_Digest := nc_Digest c;
                   nc_Extra := nc_Extra c |}, key :: known)
        end
      else if key =s "digest" then
        ({| nc_ACME := nc_ACME c; nc_ACMEDomains := nc_ACMEDomains c; nc_Digest := value; nc_Extra := nc_Extra c |},
         key :: known)
      else
        match acmeDomainSlot key with
        | None => acc
        | Some index =>
            match parseACMEDomain value with
            | inl _ => acc
            | inr domain =>
                ({| nc_ACME := nc_ACME c; nc_ACMEDomains := nc_ACMEDomains c ++ [at_slot index domain];
                    nc_Digest := nc_Digest c; nc_Extra := nc_Extra c |}, key :: known)
            end
        end
  end.

Definition slot_le (a b : ACMEDomain) : Prop := (ad_Index a ≤ ad_Index b)%Z.
#[export] Instance slot_le_dec a b : Decision (slot_le a b).
Proof. unfold slot_le. apply _. Defined.

(** The keys of a Go map come in some order, here that of [map_to_list]. *)
(* go: proxmox/nodes/nodeconfig.go#NodeConfig.UnmarshalJSON *)
Definition NodeConfig_UnmarshalJSON : json → option NodeConfig :=
  as_struct NodeConfig_zero (λ l,
    let all := list_to_map (reverse l) : gmap string json in
    let '(c, known) := foldl claim_key (NodeConfig_zero, []) (map_to_list all) in
    Some {| nc_ACME := nc_ACME c; nc_ACMEDomains := merge_sort slot_le (nc_ACMEDomains c); nc_Digest := nc_Digest c;
            nc_Extra := foldl (extra_key known) ∅ l |}).

(* go: proxmox/nodes/nodeconfig.go#NodeConfigUpdate *)
Record NodeConfigUpdate := {
  nu_ACME : option NodeACME; nu_ACMEDomains : list ACMEDomain; nu_Delete : list string; nu_Digest : string;
  nu_Extra : gmap string string
}.

(** ** The service *)

(* go: proxmox/nodes/paths.go#nodeNetworkPath *)
Definition nodeNetworkPath (node : string) : string := "/nodes/" +:+ node +:+ "/network".
(* go: proxmox/nodes/paths.go#nodeIfacePath *)
Definition nodeIfacePath (node iface : string) : string := nodeNetworkPath node +:+ "/" +:+ PathEscape iface.
(* go: proxmox/nodes/paths.go#nodeAptUpdatePath *)
Definition nodeAptUpdatePath (node : string) : string := "/nodes/" +:+ node +:+ "/apt/update".
(* go: proxmox/nodes/paths.go#nodeAptRepoPath *)
Definition nodeAptRepoPath (node : string) : string := "/nodes/" +:+ node +:+ "/apt/repositories".
(* go: proxmox/nodes/paths.go#nodeDisksListPath *)
Definition nodeDisksListPath (node : string) : string := "/nodes/" +:+ node +:+ "/disks/list".
(* go: proxmox/nodes/paths.go#nodeDisksSMARTPath *)
Definition nodeDisksSMARTPath (node : string) : string := "/nodes/" +:+ node +:+ "/disks/smart".
(* go: proxmox/nodes/paths.go#nodeDisksInitGPTPath *)
Definition nodeDisksInitGPTPath (node : string) : string := "/nodes/" +:+ node +:+ "/disks/initgpt".
(* go: proxmox/nodes/paths.go#nodeCertInfoPath *)
Definition nodeCertInfoPath (node : string) : string := "/nodes/" +:+ node +:+ "/certificates/info".
(* go: proxmox/nodes/paths.go#nodeCertCustomPath *)
Definition nodeCertCustomPath (node : string) : string := "/nodes/" +:+ node +:+ "/certificates/custom".
(* go: proxmox/nodes/paths.go#nodeCertACMEPath *)
Definition nodeCertACMEPath (node : string) : string := "/nodes/" +:+ node +:+ "/certificates/acme/certificate".
(* go: proxmox/nodes/paths.go#acmeAccountsPath *)
Definition acmeAccountsPath : string := "/cluster/acme/account".
(* go: proxmox/nodes/paths.go#acmeAccountPath *)
Definition acmeAccountPath (name : string) : string := acmeAccountsPath +:+ "/" +:+ PathEscape name.
(* go: proxmox/nodes/paths.go#nodeConfigPath *)
Definition nodeConfigPath (node : string) : string := "/nodes/" +:+ node +:+ "/config".
(* go: proxmox/nodes/paths.go#acmePluginsPath *)
Definition acmePluginsPath : string := "/cluster/acme/plugins".
(* go: proxmox/nodes/paths.go#acmePluginPath *)
Definition acmePluginPath (id : string) : string := acmePluginsPath +:+ "/" +:+ PathEscape id.
(* go: proxmox/nodes/paths.go#acmeChallengeSchemaPath *)
Definition acmeChallengeSchemaPath : string := "/cluster/acme/challenge-schema".
(* go: proxmox/nodes/paths.go#acmeDirectoriesPath *)
Definition acmeDirectoriesPath : string := "/cluster/acme/directories".
(* go: proxmox/nodes/paths.go#acmeMetaPath *)
Definition acmeMetaPath : string := "/cluster/acme/meta".

Section service.
Context {W : Type} `{!Client W}.

(** *** Networking *)

(* go: proxmox/nodes/network.go#Service.ListInterfaces *)
Definition ListInterfaces (node : string) : W → W * (goerr + list Interface) :=
  read_data "nodes.ListInterfaces" (nodeNetworkPath node) [] (as_list Interface_UnmarshalJSON).
(* go: proxmox/nodes/network.go#Service.GetInterface *)
Definition GetInterface (node iface : string) : W → W * (goerr + Interface) :=
  read_data "nodes.GetInterface" (nodeIfacePath node iface) Interface_zero Interface_UnmarshalJSON.
(* go: proxmox/nodes/network.go#Service.CreateInterface *)
Definition CreateInterface (node : string) (spec : option InterfaceSpec) : W → W * (goerr + ()) :=
  match spec with
  | None => nil_spec "nodes.CreateInterface"
  | Some spec =>
      if is_Iface spec =s "" then missing "nodes.CreateInterface: iface"
      else if is_Type spec =s "" then missing "nodes.CreateInterface: type"
      else send "nodes.CreateInterface" "POST" (nodeNetworkPath node)
             (Some (BValues (EncodeWithExtra (InterfaceSpec_fields spec) (is_Extra spec))))
  end.
(* go: proxmox/nodes/network.go#Service.UpdateInterface *)
Definition UpdateInterface (node iface : string) (update : option InterfaceUpdate) : W → W * (goerr + ()) :=
  match update with
  | None => nil_spec "nodes.UpdateInterface"
  | Some update =>
      if iface =s "" then missing "nodes.UpdateInterface: iface"
      else send "nodes.UpdateInterface" "PUT" (nodeIfacePath node iface)
             (Some (BValues (EncodeWithExtra (InterfaceUpdate_fields update) (iu_Extra update))))
  end.
(* go: proxmox/nodes/network.go#Service.DeleteInterface *)
Definition DeleteInterface (node iface : string) : W → W * (goerr + ()) :=
  if iface =s "" then missing "nodes.DeleteInterface: iface"
  else send "nodes.DeleteInterface" "DELETE" (nodeIfacePath node iface) None.
(* go: proxmox/nodes/network.go#Service.ApplyNetworkConfig *)
Definition ApplyNetworkConfig (node : string) (w : W) : W * (goerr + Ref) :=
  then_result (DoRequest "PUT" (nodeNetworkPath node) None (Some as_string_ptr) w) (GWrap "nodes.ApplyNetworkConfig")
    (λ upid w,
      (w, match default None upid with
          | None => inr Ref_zero
          | Some upid => if upid =s "" then inr Ref_zero else TaskRef "nodes.ApplyNetworkConfig" upid
          end)).

(** *** Packages and disks *)

(* go: proxmox/nodes/apt.go#Service.ListAptUpdates *)
Definition ListAptUpdates (node : string) : W → W * (goerr + list AptUpdate) :=
  read_data "nodes.ListAptUpdates" (nodeAptUpdatePath node) [] (as_list AptUpdate_UnmarshalJSON).
(* go: proxmox/nodes/apt.go#Service.RefreshAptCache *)
Definition RefreshAptCache (node : string) : W → W * (goerr + Ref) :=
  start "nodes.RefreshAptCache" "POST" (nodeAptUpdatePath node) None.
(* go: proxmox/nodes/apt.go#Service.ListRepositories *)
Definition ListRepositories (node : string) : W → W * (goerr + Repositories) :=
  read_data "nodes.ListRepositories" (nodeAptRepoPath node) Repositories_zero Repositories_UnmarshalJSON.
(* go: proxmox/nodes/apt.go#Service.UpdateRepository *)
Definition UpdateRepository (node : string) (update : option RepositoryUpdate) : W → W * (goerr + ()) :=
  match update with
  | None => nil_spec "nodes.UpdateRepository"
  | Some update =>
      if ru_Path update =s "" then missing "nodes.UpdateRepository: path"
      else send "nodes.UpdateRepository" "POST" (nodeAptRepoPath node)
             (Some (BValues (EncodeWithExtra (RepositoryUpdate_fields update) (ru_Extra update))))
  end.
(* go: proxmox/nodes/disks.go#Service.ListDisks *)
Definition ListDisks (node : string) : W → W * (goerr + list Disk) :=
  read_data "nodes.ListDisks" (nodeDisksListPath node) [] (as_list Disk_UnmarshalJSON).
(* go: proxmox/nodes/disks.go#Service.GetDiskSMART *)
Definition GetDiskSMART (node disk : string) : W → W * (goerr + SMART) :=
  if disk =s "" then missing "nodes.GetDiskSMART: disk"
  else read_data "nodes.GetDiskSMART" (nodeDisksSMARTPath node +:+ "?" +:+ Encode {[ "disk" := [disk] ]})
         SMART_zero SMART_UnmarshalJSON.
(* go: proxmox/nodes/disks.go#Service.InitializeDisk *)
Definition InitializeDisk (node disk : string) : W → W * (goerr + Ref) :=
  if disk =s "" then missing "nodes.InitializeDisk: disk"
  else start "nodes.InitializeDisk" "POST" (nodeDisksInitGPTPath node) (Some (BValues {[ "disk" := [disk] ]})).

(** *** Certificates and accounts *)

(* go: proxmox/nodes/certificates.go#Service.GetNodeCertificates *)
Definition GetNodeCertificates (node : string) : W → W * (goerr + list Certificate) :=
  read_data "nodes.GetNodeCertificates" (nodeCertInfoPath node) [] (as_list Certificate_UnmarshalJSON).
(* go: proxmox/nodes/certificates.go#Service.UploadCustomCertificate *)
Definition UploadCustomCertificate (node : string) (spec : option CustomCertificateSpec) (w : W) : W * (goerr + list Certificate) :=
  match spec with
  | None => nil_spec "nodes.UploadCustomCertificate" w
  | Some spec =>
      if cc_Certificates spec =s "" then missing "nodes.UploadCustomCertificate: certificates" w
      else then_result (DoRequest "POST" (nodeCertCustomPath node)
               (Some (BValues (EncodeWithExtra (CustomCertificateSpec_fields spec) (cc_Extra spec))))
               (Some (as_list Certificate_UnmarshalJSON)) w)
             (GWrap "nodes.UploadCustomCertificate") (λ certs w, (w, inr (default [] certs)))
  end.
(* go: proxmox/nodes/certificates.go#Service.DeleteCustomCertificate *)
Definition DeleteCustomCertificate (node : string) : W → W * (goerr + ()) :=
  send "nodes.DeleteCustomCertificate" "DELETE" (nodeCertCustomPath node) None.
(* go: proxmox/nodes/certificates.go#Service.ListACMEAccounts *)
Definition ListACMEAccounts : W → W * (goerr + list string) :=
  read_data "nodes.ListACMEAccounts" acmeAccountsPath [] (as_list (as_struct "" (str_field "name"))).
(* go: proxmox/nodes/certificates.go#Service.GetACMEAccount *)
Definition GetACMEAccount (name : string) : W → W * (goerr + ACMEAccount) :=
  if name =s "" then missing "nodes.GetACMEAccount: name"
  else read_data "nodes.GetACMEAccount" (acmeAccountPath name) ACMEAccount_zero ACMEAccount_UnmarshalJSON.
(* go: proxmox/nodes/certificates.go#Service.RegisterACMEAccount *)
Definition RegisterACMEAccount (spec : option ACMEAccountSpec) : W → W * (goerr + Ref) :=
  match spec with
  | None => nil_spec "nodes.RegisterACMEAccount"
  | Some spec =>
      if as_Name spec =s "" then missing "nodes.RegisterACMEAccount: name"
      else match as_Contact spec with
           | [] => missing "nodes.RegisterACMEAccount: contact"
           | contact =>
               let body := EncodeWithExtra (ACMEAccountSpec_fields spec) (as_Extra spec) in
               start "nodes.RegisterACMEAccount" "POST" acmeAccountsPath
                 (Some (BValues (<["contact" := [join "," contact]]> body)))
           end
  end.
(* go: proxmox/nodes/certificates.go#Service.UpdateACMEAccount *)
Definition UpdateACMEAccount (name : string) (update : option ACMEAccountUpdate) : W → W * (goerr + Ref) :=
  match update with
  | None => nil_spec "nodes.UpdateACMEAccount"
  | Some update =>
      if name =s "" then missing "nodes.UpdateACMEAccount: name"
      else start "nodes.UpdateACMEAccount" "PUT" (acmeAccountPath name)
             (Some (BValues (set_list "contact" (aw_Contact update) (EncodeWithExtra [] (aw_Extra update)))))
  end.
(* go: proxmox/nodes/certificates.go#Service.DeactivateACMEAccount *)
Definition DeactivateACMEAccount (name : string) : W → W * (goerr + Ref) :=
  if name =s "" then missing "nodes.DeactivateACMEAccount: name"
  else start "nodes.DeactivateACMEAccount" "DELETE" (acmeAccountPath name) None.
(* go: proxmox/nodes/certificates.go#Service.OrderNodeCertificate *)
Definition OrderNodeCertificate (node : string) : W → W * (goerr + Ref) :=
  start "nodes.OrderNodeCertificate" "POST" (nodeCertACMEPath node) None.
(* go: proxmox/nodes/certificates.go#Service.RenewNodeCertificate *)
Definition RenewNodeCertificate (node : string) : W → W * (goerr + Ref) :=
  start "nodes.RenewNodeCertificate" "PUT" (nodeCertACMEPath node) None.
(* go: proxmox/nodes/certificates.go#Service.RevokeNodeCertificate *)
Definition RevokeNodeCertificate (node : string) : W → W * (goerr + Ref) :=
  start "nodes.RevokeNodeCertificate" "DELETE" (nodeCertACMEPath node) None.

(** *** Challenge plugins *)

(* go: proxmox/nodes/acmeplugins.go#Service.ListACMEPlugins *)
Definition ListACMEPlugins : W → W * (goerr + list ACMEPlugin) :=
  read_data "nodes.ListACMEPlugins" acmePluginsPath [] (as_list ACMEPlugin_UnmarshalJSON).
(* go: proxmox/nodes/acmeplugins.go#Service.GetACMEPlugin *)
Definition GetACMEPlugin (id : string) : W → W * (goerr + ACMEPlugin) :=
  if id =s "" then missing "nodes.GetACMEPlugin: id"
  else read_data "nodes.GetACMEPlugin" (acmePluginPath id) ACMEPlugin_zero ACMEPlugin_UnmarshalJSON.

(* go: proxmox/nodes/acmeplugins.go#Service.CreateACMEPlugin *)
Definition CreateACMEPlugin (spec : option ACMEPluginSpec) : W → W * (goerr + ()) :=
  match spec with
  | None => nil_spec "nodes.CreateACMEPlugin"
  | Some spec =>
      if ps_ID spec =s "" then missing "nodes.CreateACMEPlugin: id" else
      let challenge := if ps_Type spec =s "" then ACMEChallengeTypeDNS else ps_Type spec in
      if negb ((challenge =s ACMEChallengeTypeDNS) || (challenge =s ACMEChallengeTypeStandalone))
      then invalid ("nodes.CreateACMEPlugin: type " +:+ challenge)
      else if (challenge =s ACMEChallengeTypeDNS) && bool_decide (ps_Data spec = None)
      then missing "nodes.CreateACMEPlugin: data (required for a dns plugin)"
      else
        let body := EncodeWithExtra (ACMEPluginSpec_fields spec) (ps_Extra spec) in
        let body := <["type" := [challenge]]> body in
        match applyPluginData body (ps_Data spec) with
        | inl err => refuse (GWrap "nodes.CreateACMEPlugin" err)
        | inr body =>
            send "nodes.CreateACMEPlugin" "POST" acmePluginsPath (Some (BValues (set_list "nodes" (ps_Nodes spec) body)))
        end
  end.

(* go: proxmox/nodes/acmeplugins.go#Service.UpdateACMEPlugin *)
Definition UpdateACMEPlugin (id : string) (update : option ACMEPluginUpdate) : W → W * (goerr + ()) :=
  match update with
  | None => nil_spec "nodes.UpdateACMEPlugin"
  | Some update =>
      if id =s "" then missing "nodes.UpdateACMEPlugin: id" else
      match applyPluginData (EncodeWithExtra (ACMEPluginUpdate_fields update) (pu_Extra update)) (pu_Data update) with
      | inl err => refuse (GWrap "nodes.UpdateACMEPlugin" err)
      | inr body =>
          let body := set_list "delete" (pu_Delete update) (set_list "nodes" (pu_Nodes update) body) in
          send "nodes.UpdateACMEPlugin" "PUT" (acmePluginPath id) (Some (BValues body))
      end
  end.

(* go: proxmox/nodes/acmeplugins.go#Service.DeleteACMEPlugin *)
Definition DeleteACMEPlugin (id : string) : W → W * (goerr + ()) :=
  if id =s "" then missing "nodes.DeleteACMEPlugin: id"
  else send "nodes.DeleteACMEPlugin" "DELETE" (acmePluginPath id) None.

(* go: proxmox/nodes/acmeplugins.go#Service.GetACMEChallengeSchema *)
Definition GetACMEChallengeSchema : W → W * (goerr + list ACMEChallengeSchemaEntry) :=
  read_data "nodes.GetACMEChallengeSchema" acmeChallengeSchemaPath [] (as_list decode_ACMEChallengeSchemaEntry).
(* go: proxmox/nodes/acmeplugins.go#Service.ListACMEDirectories *)
Definition ListACMEDirectories : W → W * (goerr + list ACMEDirectory) :=
  read_data "nodes.ListACMEDirectories" acmeDirectoriesPath [] (as_list decode_ACMEDirectory).
(* go: proxmox/nodes/acmeplugins.go#Service.GetACMEMeta *)
Definition GetACMEMeta (opts : list ACMEMetaOption) : W → W * (goerr + ACMEMeta) :=
  let directory := foldl (λ cfg opt, opt cfg) "" opts in
  let enc := Encode (set_text "directory" directory ∅) in
  read_data "nodes.GetACMEMeta" (if enc =s "" then acmeMetaPath else acmeMetaPath +:+ "?" +:+ enc)
    ACMEMeta_zero ACMEMeta_UnmarshalJSON.

(** *** The node configuration *)

(* go: proxmox/nodes/nodeconfig.go#Service.GetNodeConfig *)
Definition GetNodeConfig (node : string) : W → W * (goerr + NodeConfig) :=
  if node =s "" then missing "nodes.GetNodeConfig: node"
  else read_data "nodes.GetNodeConfig" (nodeConfigPath node) NodeConfig_zero NodeConfig_UnmarshalJSON.

(** The loop over the given slots: the form so far and the slots seen. *)
Fixpoint set_slots (seen : list Z) (domains : list ACMEDomain) (b : values) : goerr + values :=
  match domains with
  | [] => inr b
  | d :: domains =>
      let i := ad_Index d in
      if (i <? 0)%Z || (ACMEDomainMaxIndex <? i)%Z
      then inl (GWrap ("nodes.SetNodeConfig: acmedomain index " +:+ itoa i +:+ " (PVE defines 0-5)") (GSpec ErrInvalidValue))
      else if ad_Domain d =s ""
      then inl (GWrap ("nodes.SetNodeConfig: acmedomain" +:+ itoa i +:+ " domain") (GSpec ErrMissingField))
      else if bool_decide (i ∈ seen)
      then inl (GWrap ("nodes.SetNodeConfig: acmedomain" +:+ itoa i +:+ " given twice") (GSpec ErrInvalidValue))
      else set_slots (i :: seen) domains (<[ACMEDomainKey i := [encodeACMEDomain d]]> b)
  end.

(* go: proxmox/nodes/nodeconfig.go#Service.SetNodeConfig *)
Definition SetNodeConfig (node : string) (update : option NodeConfigUpdate) : W → W * (goerr + ()) :=
  match update with
  | None => nil_spec "nodes.SetNodeConfig"
  | Some update =>
      if node =s "" then missing "nodes.SetNodeConfig: node" else
      let body := EncodeWithExtra [] (nu_Extra update) in
      let acme := encodeNodeACME <$> nu_ACME update in
      if bool_decide (acme = Some "") then invalid "nodes.SetNodeConfig: ACME is set but renders empty"
      else
        let body := match acme with Some acme => <["acme" := [acme]]> body | None => body end in
        match set_slots [] (nu_ACMEDomains update) body with
        | inl err => refuse err
        | inr body =>
            let body := set_list "delete" (nu_Delete update) body in
            let body := set_text "digest" (nu_Digest update) body in
            send "nodes.SetNodeConfig" "PUT" (nodeConfigPath node) (Some (BValues body))
        end
  end.
End service.
