(* ===== verification/NodesProofs.v ===== *)
(** What the node service's codecs promise: the ACME property strings and the slot
    keys round trip, the read of a node configuration loses no key, and the
    credential payload of a plugin has exactly the credentials that are set. *)

From S2P Require Import Prelude Json Pverr Types Api Url Wire Tasks Svcutil NodesClient.
From Stdlib Require Import ZArith Lia Ascii ZifyNat.
From stdpp Require Import options.

(** ** Texts without white space *)

(** Printable ASCII without the comma that ends an item of a property string. *)
Definition prop_byte (c : ascii) : bool := in_range 33 126 c && negb (bool_decide (c = ","%char)).
Definition prop_text (s : string) : Prop := all_bytes prop_byte s = true.

Lemma prop_byte_clear c s : prop_byte c = true →
  first_clear space_runes (String c s) = true ∧ first_clear (String.rev <$> space_runes) (String c s) = true.
Proof.
  intros Hc. destruct c as [[] [] [] [] [] [] [] []]; first [discriminate Hc|split; reflexivity].
Qed.

Lemma all_bytes_rev p s : all_bytes p (String.rev s) = all_bytes p s.
Proof.
  induction s as [|c s IH]; [done|]. change (String c s) with (String c "" +:+ s) at 1.
  rewrite str_rev_app, all_bytes_app, IH. cbn. rewrite andb_true_r. unfold all_bytes. cbn. apply andb_comm.
Qed.

Lemma trim_prop s : prop_text s → trim_space s = s.
Proof.
  intros Hs. destruct (decide (s = "")) as [->|Hne]; [done|]. apply trim_space_clear.
  - destruct s as [|c s]; [done|]. apply all_bytes_cons in Hs as [Hc _]. by apply prop_byte_clear.
  - unfold prop_text in Hs. rewrite <- all_bytes_rev in Hs.
    destruct (String.rev s) as [|c t] eqn:E; [|apply all_bytes_cons in Hs as [Hc _]; by apply prop_byte_clear].
    apply (f_equal String.length) in E. rewrite str_rev_length in E. by destruct s.
Qed.

Lemma prop_app s t : prop_text s → prop_text t → prop_text (s +:+ t).
Proof. unfold prop_text. rewrite all_bytes_app. by intros -> ->. Qed.
Lemma prop_no_comma s : prop_text s → no_byte "," s = true.
Proof. by apply all_bytes_no_byte. Qed.

(** ** Property strings *)

(** The three kinds of item an [acmedomain] string is made of. *)
Lemma acme_item_keyed out key v :
  prop_text (key +:+ "=") → no_byte "=" key = true → prop_text v → trim_space key = key → key ≠ "" →
  acme_domain_item out (key +:+ String "=" v) =
    if key =s "domain" then {| ad_Index := ad_Index out; ad_Domain := v; ad_Plugin := ad_Plugin out; ad_Alias := ad_Alias out |}
    else if key =s "plugin" then {| ad_Index := ad_Index out; ad_Domain := ad_Domain out; ad_Plugin := v; ad_Alias := ad_Alias out |}
    else if key =s "alias" then {| ad_Index := ad_Index out; ad_Domain := ad_Domain out; ad_Plugin := ad_Plugin out; ad_Alias := v |}
    else out.
Proof.
  intros Hk Hno Hv Htrim Hne. unfold acme_domain_item. change (String "=" v) with ("=" +:+ v).
  rewrite trim_prop by (rewrite <- str_app_assoc; by apply prop_app).
  rewrite bool_decide_eq_false_2 by by destruct key. change ("=" +:+ v) with (String "=" v).
  rewrite cut_byte_app by done. by rewrite Htrim, (trim_prop v).
Qed.

Definition domain_ok (d : ACMEDomain) : Prop :=
  ad_Domain d ≠ "" ∧ prop_text (ad_Domain d) ∧ prop_text (ad_Plugin d) ∧ prop_text (ad_Alias d).

Definition domain_items (d : ACMEDomain) : list string :=
  ["domain" +:+ String "=" (ad_Domain d)] ++
  (if ad_Plugin d =s "" then [] else ["plugin" +:+ String "=" (ad_Plugin d)]) ++
  (if ad_Alias d =s "" then [] else ["alias" +:+ String "=" (ad_Alias d)]).

Lemma split_encode_domain d : domain_ok d → split_byte "," (encodeACMEDomain d) = domain_items d.
Proof.
  intros (_ & Hd & Hp & Ha). assert (encodeACMEDomain d = join (String "," "") (domain_items d)) as -> by reflexivity.
  assert (∀ key v, prop_text key → prop_text v → no_byte "," (key +:+ String "=" v) = true) as Hc.
  { intros key v Hk Hv. apply prop_no_comma. change (String "=" v) with ("=" +:+ v). by repeat apply prop_app. }
  apply split_join; [done|]. unfold domain_items. case_bool_decide; case_bool_decide; repeat constructor; by apply Hc.
Qed.

Lemma fold_domain_items d : domain_ok d → foldl acme_domain_item ACMEDomain_zero (domain_items d) = at_slot 0 d.
Proof.
  destruct d as [i dom pl al]. intros (Hne & Hd & Hp & Ha). unfold domain_items. cbn [ad_Domain ad_Plugin ad_Alias] in *.
  case_bool_decide as Hpl; case_bool_decide as Hal; cbn [app foldl]; rewrite !acme_item_keyed by done; cbn; by subst.
Qed.

Lemma parse_encode_domain d : domain_ok d → parseACMEDomain (encodeACMEDomain d) = inr (at_slot 0 d).
Proof.
  intros Hok. unfold parseACMEDomain. rewrite split_encode_domain, fold_domain_items by done.
  destruct Hok as [Hne _]. by rewrite bool_decide_eq_false_2.
Qed.

Definition acme_ok (a : NodeACME) : Prop :=
  prop_text (na_Account a) ∧
  Forall (λ d, d ≠ "" ∧ prop_text d ∧ no_byte ";" d = true) (na_Domains a).

Lemma acme_account_item out v : prop_text v →
  node_acme_item out ("account=" +:+ v) = {| na_Account := v; na_Domains := na_Domains out |}.
Proof.
  intros Hv. unfold node_acme_item. change ("account=" +:+ v) with ("account" +:+ String "=" v).
  rewrite cut_byte_app by done. by rewrite (trim_prop v).
Qed.

Lemma prop_join ds : Forall prop_text ds → prop_text (join ";" ds).
Proof.
  induction 1 as [|d ds Hd _ IH]; [done|]. destruct ds as [|e ds]; [done|].
  change (join ";" (d :: e :: ds)) with (d +:+ (";" +:+ join ";" (e :: ds))). by repeat apply prop_app.
Qed.

Lemma acme_domains_item out ds :
  ds ≠ [] → Forall (λ d, d ≠ "" ∧ prop_text d ∧ no_byte ";" d = true) ds →
  node_acme_item out ("domains=" +:+ join ";" ds) = {| na_Account := na_Account out; na_Domains := na_Domains out ++ ds |}.
Proof.
  intros Hne Hds. unfold node_acme_item. change ("domains=" +:+ join ";" ds) with ("domains" +:+ String "=" (join ";" ds)).
  rewrite cut_byte_app by done. rewrite trim_prop by by vm_compute. cbn. do 2 f_equal.
  rewrite trim_prop by (apply prop_join; eapply Forall_impl; [exact Hds|naive_solver]).
  rewrite split_join; [|done|eapply Forall_impl; [exact Hds|naive_solver]].
  clear Hne. induction Hds as [|d ds (Hd & Hp & _) _ IH]; [done|]. cbn [fmap list_fmap]. rewrite trim_prop by done.
  rewrite filter_cons_True by done. by rewrite IH.
Qed.

Lemma parse_encode_acme a : acme_ok a → parseNodeACME (encodeNodeACME a) = a.
Proof.
  destruct a as [acc ds]. intros [Ha Hds]. cbn in *. unfold parseNodeACME, encodeNodeACME. cbn [na_Account na_Domains].
  assert (Forall prop_text ds) as Hp by (eapply Forall_impl; [exact Hds|naive_solver]).
  assert (no_byte "," ("account=" +:+ acc) = true ∧ no_byte "," ("domains=" +:+ join ";" ds) = true) as [H1 H2].
  { split; apply prop_no_comma, prop_app; try done. by apply prop_join. }
  set (items := _ ++ _). destruct (decide (items = [])) as [He|He].
  { unfold items in *. case_bool_decide; [|done]. destruct ds; by subst. }
  change (join "," items) with (join (String "," "") items). rewrite split_join; [|done|].
  - unfold items. case_bool_decide; destruct ds as [|d ds]; subst; cbn [app foldl];
      rewrite ?acme_account_item, ?acme_domains_item by done; done.
  - unfold items. case_bool_decide; destruct ds as [|d ds]; by repeat constructor.
Qed.

(** ** Slot keys *)

Lemma slot_of_key i : (0 ≤ i)%Z → int64_ok i = true → acmeDomainSlot (ACMEDomainKey i) = Some i.
Proof.
  intros Hi Hok. unfold acmeDomainSlot, ACMEDomainKey. rewrite has_prefix_app, drop_str_app.
  destruct (itoa_all_digits i Hi) as [_ Hne]. cbn [negb]. rewrite bool_decide_eq_false_2 by done.
  rewrite atoi_itoa by done. destruct (Z.ltb_spec i 0); [lia|]. by rewrite bool_decide_eq_true_2.
Qed.

(** A slot has one key: the suffix of the key is the canonical decimal. *)
Lemma key_of_slot key i : acmeDomainSlot key = Some i → key = ACMEDomainKey i ∧ (0 ≤ i)%Z ∧ int64_ok i = true.
Proof.
  unfold acmeDomainSlot. destruct (has_prefix key acmeDomainKeyPrefix) eqn:Hp; [|done]. cbn [negb].
  apply has_prefix_spec in Hp as [t ->]. rewrite drop_str_app. case_bool_decide; [done|].
  destruct (atoi t) as [j|] eqn:Ha; [|done]. destruct (Z.ltb_spec j 0); [done|]. cbn [orb].
  case_bool_decide as Ht; [|done]. intros [= <-]. cbn. split_and!; [by rewrite <- Ht|lia|by eapply atoi_ok].
Qed.

(** ** The lossless read *)

(** The domain of a slot key whose text parses. *)
Definition slot_of (kv : string * json) : option ACMEDomain :=
  value ← as_string_out kv.2; index ← acmeDomainSlot kv.1;
  match parseACMEDomain value with inl _ => None | inr domain => Some (at_slot index domain) end.

Definition acme_of (kv : string * json) : option NodeACME :=
  if kv.1 =s "acme" then match kv.2 with JStr s => Some (parseNodeACME s) | _ => None end else None.
Definition digest_of (kv : string * json) : option string := if kv.1 =s "digest" then as_string_out kv.2 else None.

(** The keys a typed field claims. *)
Definition claimed (kv : string * json) : bool :=
  bool_decide (is_Some (acme_of kv)) || bool_decide (is_Some (digest_of kv)) || bool_decide (is_Some (slot_of kv)).

Lemma slot_of_fixed k v d : slot_of (k, v) = Some d → k ≠ "acme" ∧ k ≠ "digest".
Proof. intros H. split; intros ->; by destruct v. Qed.

Definition orelse {A} (o o' : option A) : option A := match o with Some a => Some a | None => o' end.

#[export] Instance slot_le_total : Total slot_le.
Proof. intros a b. unfold slot_le. lia. Qed.

(** What one key does to the claims. *)
Lemma claim_key_spec c known kv :
  let r := claim_key (c, known) kv in
  nc_ACMEDomains r.1 = nc_ACMEDomains c ++ option_list (slot_of kv) ∧
  nc_ACME r.1 = orelse (acme_of kv) (nc_ACME c) ∧
  nc_Digest r.1 = default (nc_Digest c) (digest_of kv) ∧
  r.2 = if claimed kv then kv.1 :: known else known.
Proof.
  destruct kv as [k v]. unfold claim_key, claimed, acme_of, digest_of, slot_of. cbn [fst snd].
  case_bool_decide as Ha; [|case_bool_decide as Hd].
  - subst. destruct v; cbn; by rewrite ?app_nil_r.
  - subst. destruct v; cbn; by rewrite ?app_nil_r.
  - destruct (as_string_out v) as [text|]; cbn; [|by rewrite app_nil_r].
    destruct (acmeDomainSlot k) as [i|]; cbn; [|by rewrite app_nil_r].
    destruct (parseACMEDomain text) as [e|d]; cbn; by rewrite ?app_nil_r.
Qed.

Lemma fold_claims L c known :
  let r := foldl claim_key (c, known) L in
  nc_ACMEDomains r.1 = nc_ACMEDomains c ++ omap slot_of L ∧
  nc_ACME r.1 = foldl (λ o kv, orelse (acme_of kv) o) (nc_ACME c) L ∧
  Some (nc_Digest r.1) = foldl (λ o kv, orelse (digest_of kv) o) (Some (nc_Digest c)) L ∧
  ∀ k, k ∈ r.2 ↔ k ∈ known ∨ ∃ v, (k, v) ∈ L ∧ claimed (k, v) = true.
Proof.
  revert c known. induction L as [|kv L IH]; intros c known.
  { cbn. rewrite app_nil_r. split_and!; try done. intros k. split; [by left|]. intros [?|(v & Hv & _)]; [done|].
    by apply not_elem_of_nil in Hv. }
  cbn [foldl]. pose proof (claim_key_spec c known kv) as (H1 & H2 & H3 & H4).
  destruct (claim_key (c, known) kv) as [c' known'] eqn:E. cbn [fst snd] in *.
  destruct (IH c' known') as (I1 & I2 & I3 & I4). rewrite H1 in I1. rewrite H2 in I2. rewrite H3 in I3.
  split_and!; [|exact I2|by destruct (digest_of kv)|].
  - rewrite I1, <- app_assoc. cbn. by destruct (slot_of kv).
  - intros k. rewrite I4, H4. setoid_rewrite elem_of_cons. destruct kv as [x v]; cbn [fst].
    destruct (claimed (x, v)) eqn:Hc; [rewrite elem_of_cons|]; naive_solver congruence.
Qed.

(** A fold that looks at one key of a map. *)
Lemma fold_one_key {A} (f : string * json → option A) key L o :
  (∀ kv a, f kv = Some a → kv.1 = key) → NoDup L.*1 →
  foldl (λ o kv, orelse (f kv) o) o L =
    match (list_to_map L : gmap string json) !! key with Some v => orelse (f (key, v)) o | None => o end.
Proof.
  intros Hf. revert o. induction L as [|[k v] L IH]; intros o Hnd; [done|]. cbn in Hnd. apply NoDup_cons in Hnd as [Hk Hnd].
  cbn [foldl]. rewrite IH by done. cbn. destruct (decide (k = key)) as [->|Hne].
  - rewrite lookup_insert_eq. by rewrite not_elem_of_list_to_map_1.
  - rewrite lookup_insert_ne by done. destruct (f (k, v)) eqn:E; [by apply Hf in E|]. done.
Qed.

(** The value under a key of an object: the last one, as in a Go map. *)
Definition obj_map (l : list (string * json)) : gmap string json := list_to_map (reverse l).

(** The domain in slot [i] of an object, if its text parses. *)
Definition slot_in (m : gmap string json) (i : Z) : option ACMEDomain :=
  v ← m !! ACMEDomainKey i; slot_of (ACMEDomainKey i, v).

Lemma slot_of_index k v d : slot_of (k, v) = Some d → k = ACMEDomainKey (ad_Index d) ∧ (0 ≤ ad_Index d)%Z.
Proof.
  unfold slot_of. cbn. destruct (as_string_out v); [|done]. cbn. destruct (acmeDomainSlot k) as [i|] eqn:Hs; [|done].
  cbn. destruct (parseACMEDomain s) as [|d']; [done|]. intros [= <-]. cbn. by apply key_of_slot in Hs as (? & ? & _).
Qed.

Lemma elem_of_slots (m : gmap string json) d :
  d ∈ omap slot_of (map_to_list m) ↔ slot_in m (ad_Index d) = Some d.
Proof.
  rewrite list_elem_of_omap. split.
  - intros ((k & v) & Hin & Hs). apply elem_of_map_to_list in Hin. pose proof (slot_of_index _ _ _ Hs) as [-> _].
    unfold slot_in. by rewrite Hin.
  - unfold slot_in. intros (v & Hv & Hs)%bind_Some. exists (ACMEDomainKey (ad_Index d), v).
    by rewrite elem_of_map_to_list.
Qed.

Lemma NoDup_slots (m : gmap string json) : NoDup (ad_Index <$> omap slot_of (map_to_list m)).
Proof.
  pose proof (NoDup_fst_map_to_list m) as Hnd. induction (map_to_list m) as [|[k v] L IH]; [constructor|].
  cbn in Hnd. apply NoDup_cons in Hnd as [Hk Hnd]. cbn. destruct (slot_of (k, v)) as [d|] eqn:Hs; [|by apply IH].
  cbn. apply NoDup_cons. split; [|by apply IH]. intros (d' & Hi & Hd')%list_elem_of_fmap.
  apply list_elem_of_omap in Hd' as ((k' & v') & Hin & Hs'). apply slot_of_index in Hs as [-> _], Hs' as [-> _].
  apply Hk. rewrite Hi. by apply (list_elem_of_fmap_2 fst) in Hin.
Qed.

(** The read of a node configuration succeeds on every JSON object and loses no
    key. The [acme] property is parsed when it is a string; the domains are the
    slots whose text parses, each once, in the order of their index; the digest is
    read; and every other key, a slot that does not parse included, is in [Extra]
    with its text. The result does not depend on the order of the loop. *)
Lemma decode_node_config l :
  ∃ c, NodeConfig_UnmarshalJSON (JObj l) = Some c ∧
    nc_ACME c = (v ← obj_map l !! "acme"; acme_of ("acme", v)) ∧
    nc_Digest c = default "" (v ← obj_map l !! "digest"; as_string_out v) ∧
    (∀ d, d ∈ nc_ACMEDomains c ↔ slot_in (obj_map l) (ad_Index d) = Some d) ∧
    NoDup (ad_Index <$> nc_ACMEDomains c) ∧ Sorted slot_le (nc_ACMEDomains c) ∧
    ∀ k, nc_Extra c !! k =
      (v ← obj_map l !! k; if claimed (k, v) then None else Some (extra_text v)).
Proof.
  cbn [NodeConfig_UnmarshalJSON as_struct]. fold (obj_map l). set (m := obj_map l).
  pose proof (fold_claims (map_to_list m) NodeConfig_zero []) as (H1 & H2 & H3 & H4).
  destruct (foldl claim_key _ _) as [c known]. cbn [fst snd] in *. eexists. split; [reflexivity|]. cbn.
  pose proof (NoDup_fst_map_to_list m) as Hnd.
  rewrite (fold_one_key acme_of "acme"), list_to_map_to_list in H2; [|by intros [k v] a; unfold acme_of; case_bool_decide|done].
  rewrite (fold_one_key digest_of "digest"), list_to_map_to_list in H3; [|by intros [k v] a; unfold digest_of; case_bool_decide|done].
  split_and!.
  - rewrite H2. destruct (m !! "acme"); [|done]. cbn. by destruct (acme_of _).
  - destruct (m !! "digest") as [v|]; cbn in *; [|congruence].
    change (digest_of ("digest", v)) with (as_string_out v) in H3. destruct (as_string_out v); cbn in *; congruence.
  - intros d. rewrite merge_sort_Permutation, H1. cbn. apply elem_of_slots.
  - rewrite merge_sort_Permutation, H1. apply NoDup_slots.
  - apply (Sorted_merge_sort slot_le).
  - intros k. rewrite lookup_extra_keys, lookup_empty. fold m. unfold obj_map in m. fold m.
    case_decide as Hk.
    + apply H4 in Hk as [Hk|(v & Hv & Hc)]; [by apply not_elem_of_nil in Hk|].
      apply elem_of_map_to_list in Hv. rewrite Hv. cbn. by rewrite Hc.
    + destruct (m !! k) as [v|] eqn:Hv; [|done]. cbn. destruct (claimed (k, v)) eqn:Hc; [|done].
      exfalso. apply Hk, H4. right. exists v. by rewrite elem_of_map_to_list.
Qed.

(** ** Credentials *)

(** How PVE reads the payload back: base64 of lines [KEY=value]. *)
Definition b64_val (c : ascii) : option nat :=
  let n := nat_of_ascii c in
  if in_range 65 90 c then Some (n - 65) else if in_range 97 122 c then Some (n - 71)
  else if is_digit c then Some (n + 4) else if bool_decide (c = "+"%char) then Some 62
  else if bool_decide (c = "/"%char) then Some 63 else None.
Fixpoint unbase64 (s : string) : option string :=
  match s with
  | "" => Some ""
  | String a (String b (String c (String d s'))) =>
      x ← b64_val a; y ← b64_val b;
      let first := String (ascii_of_nat (x * 4 + y / 16)) in
      if bool_decide (c = "="%char) then if bool_decide (d = "="%char) && is_empty s' then Some (first "") else None
      else
        z ← b64_val c;
        let second := String (ascii_of_nat (y mod 16 * 16 + z / 4)) in
        if bool_decide (d = "="%char) then if is_empty s' then Some (first (second "")) else None
        else u ← b64_val d; rest ← unbase64 s'; Some (first (second (String (ascii_of_nat (z mod 4 * 64 + u)) rest)))
  | _ => None
  end.
Definition newline : ascii := "010".
Definition plugin_vars (data : string) : option (gmap string string) :=
  text ← unbase64 data;
  Some (if text =s "" then ∅ else list_to_map (omap (cut_byte "=") (split_byte newline text))).

Lemma b64_val_digit n : n < 64 → b64_val (b64_digit n) = Some n ∧ b64_digit n ≠ "="%char.
Proof. intros Hn. do 64 (destruct n as [|n]; [split; [reflexivity|discriminate]|]). lia. Qed.

Lemma byte_join c n : n = nat_of_ascii c → ascii_of_nat n = c.
Proof. intros ->. apply ascii_nat_embedding. Qed.

Ltac div_lia := zify; Z.to_euclidean_division_equations; lia.
Ltac b64 :=
  repeat (first
    [ match goal with |- context [b64_val (b64_digit ?n)] => rewrite (proj1 (b64_val_digit n ltac:(div_lia))) end
    | match goal with |- context [bool_decide (b64_digit ?n = _)] =>
        rewrite (bool_decide_eq_false_2 (b64_digit n = "="%char) (proj2 (b64_val_digit n ltac:(div_lia)))) end ]; cbn [mbind option_bind]).
Ltac bytes_eq := repeat (apply f_equal2; [apply byte_join; div_lia|]); done.

Lemma unbase64_base64 s : unbase64 (base64 s) = Some s.
Proof.
  remember (String.length s) as n eqn:Hn. assert (String.length s ≤ n) as Hle by lia. clear Hn.
  revert s Hle. induction n as [|n IH]; intros s Hle; [destruct s; [done|cbn in Hle; lia]|].
  destruct s as [|a [|b [|c s]]]; [done| | |]; cbn [base64 unbase64];
    pose proof (nat_ascii_bounded a); try pose proof (nat_ascii_bounded b); try pose proof (nat_ascii_bounded c); b64.
  - cbn [bool_decide is_empty andb]. apply f_equal. bytes_eq.
  - apply f_equal. bytes_eq.
  - rewrite IH by (cbn in Hle; lia). cbn [mbind option_bind]. apply f_equal. bytes_eq.
Qed.

(** Keys and values that fit on a line: no newline, and no [=] in a key. *)
Definition line_ok (k v : string) : Prop := no_byte "=" k = true ∧ no_byte newline k = true ∧ no_byte newline v = true.

Lemma cut_lines (vals : gmap string string) ks :
  Forall (λ k, no_byte "=" k = true) ks →
  omap (cut_byte "=") ((λ k, k +:+ "=" +:+ default "" (vals !! k)) <$> ks) = (λ k, (k, default "" (vals !! k))) <$> ks.
Proof.
  induction 1 as [|k ks Hk _ IH]; [done|]. cbn [fmap list_fmap omap list_omap]. rewrite IH.
  change ("=" +:+ default "" (vals !! k)) with (String "=" (default "" (vals !! k))). by rewrite cut_byte_app.
Qed.

(** The pairs of all keys, in any order, are the map. *)
Lemma pairs_to_map (vals : gmap string string) ks :
  NoDup ks → (∀ k, k ∈ ks ↔ is_Some (vals !! k)) →
  list_to_map ((λ k, (k, default "" (vals !! k))) <$> ks) = vals.
Proof.
  intros Hnd Hks. apply map_eq. intros k. apply option_eq. intros v. rewrite <- elem_of_list_to_map.
  - rewrite list_elem_of_fmap. setoid_rewrite Hks. split.
    + intros (x & [= -> ->] & [w Hw]). by rewrite Hw.
    + intros Hv. exists k. rewrite Hv. split; [done|by eexists].
  - rewrite <- list_fmap_compose. by rewrite list_fmap_id.
Qed.

Definition credentials_ok (d : ACMEPluginData) : Prop := map_Forall line_ok (pd_Data d).
Definition set_credentials (d : ACMEPluginData) : gmap string string := filter (λ kv, kv.2 ≠ "") (pd_Data d).

Lemma lines_no_newline vals :
  map_Forall line_ok vals →
  Forall (λ s, no_byte newline s = true) ((λ k, k +:+ "=" +:+ default "" (vals !! k)) <$> merge_sort String.le (keys vals)).
Proof.
  intros Hok. apply Forall_fmap, Forall_forall. intros k Hk. rewrite merge_sort_Permutation, elem_of_keys in Hk.
  destruct Hk as [v Hv]. destruct (Hok k v Hv) as (_ & Hk & Hn). cbn. rewrite Hv. rewrite !no_byte_app, Hk. exact Hn.
Qed.

Lemma base64_empty s : base64 s = "" ↔ s = "".
Proof. split; [|by intros ->]. intros H. pose proof (unbase64_base64 s) as E. rewrite H in E. cbn in E. congruence. Qed.

Lemma join_empty c (l : list string) : (∀ x, x ∈ l → x ≠ "") → join (String c "") l = "" → l = [].
Proof.
  destruct l as [|x l]; [done|]. intros Hne Hj. exfalso. assert (x ≠ "") as Hx by (apply Hne; by left).
  by destruct x, l.
Qed.

(** The payload is empty when no credential is set, and only then. *)
Definition payload_lines (d : ACMEPluginData) : list string :=
  (λ k, k +:+ "=" +:+ default "" (set_credentials d !! k)) <$> merge_sort String.le (keys (set_credentials d)).

Lemma encode_lines d : encodePluginData d = base64 (join (String newline "") (payload_lines d)).
Proof. reflexivity. Qed.

Lemma join_lines_empty d : join (String newline "") (payload_lines d) = "" ↔ set_credentials d = ∅.
Proof.
  split.
  - intros Hj. assert (payload_lines d = []) as Hk%fmap_nil_inv.
    { apply join_empty in Hj; [done|]. intros x (k & -> & _)%list_elem_of_fmap. by destruct k. }
    apply map_empty. intros k. apply eq_None_not_Some. intros Hs%elem_of_keys.
    rewrite <- (merge_sort_Permutation String.le) in Hs. rewrite Hk in Hs. by apply not_elem_of_nil in Hs.
  - intros He. unfold payload_lines. by rewrite He.
Qed.

Lemma payload_empty d : encodePluginData d = "" ↔ set_credentials d = ∅.
Proof. by rewrite encode_lines, base64_empty, join_lines_empty. Qed.

Lemma no_credentials d : set_credentials d = ∅ ↔ ∀ k v, pd_Data d !! k = Some v → v = "".
Proof.
  split.
  - intros He k v Hv. destruct (decide (v = "")) as [|Hv']; [done|]. exfalso.
    assert (set_credentials d !! k = Some v) as Hs by by apply map_lookup_filter_Some. by rewrite He in Hs.
  - intros Ha. apply map_empty. intros k. apply eq_None_not_Some. intros [v Hv].
    apply map_lookup_filter_Some in Hv as [Hv Hn]. apply Hn. by apply (Ha k).
Qed.

Lemma payload_vars d : credentials_ok d → plugin_vars (encodePluginData d) = Some (set_credentials d).
Proof.
  intros Hok. assert (map_Forall line_ok (set_credentials d)) as Hset.
  { intros k v Hv. apply map_lookup_filter_Some in Hv as [Hv _]. by apply Hok. }
  rewrite encode_lines. unfold plugin_vars. rewrite unbase64_base64. cbn [mbind option_bind]. f_equal.
  case_bool_decide as He; [symmetry; by apply join_lines_empty|].
  rewrite split_join; [|by intros E; rewrite E in He|by apply lines_no_newline].
  unfold payload_lines. rewrite cut_lines; [apply pairs_to_map|].
  - rewrite merge_sort_Permutation. apply NoDup_keys.
  - intros k. by rewrite merge_sort_Permutation, elem_of_keys.
  - apply Forall_forall. intros k. rewrite merge_sort_Permutation, elem_of_keys. intros [v Hv]. by apply (Hset k v).
Qed.

(** The payload of a plugin has exactly the credentials that are set: read
    back the way PVE stores it, it gives the non-empty variables and their values;
    it is empty exactly when no credential is set; and the writers accept a
    provider exactly when it is named and some credential is set. *)
Theorem plugin_data_roundtrip d :
  credentials_ok d →
  plugin_vars (encodePluginData d) = Some (set_credentials d) ∧
  (encodePluginData d = "" ↔ ∀ k v, pd_Data d !! k = Some v → v = "") ∧
  ∀ b, (∃ b', applyPluginData b (Some d) = inr b') ↔ pd_API d ≠ "" ∧ ∃ k v, pd_Data d !! k = Some v ∧ v ≠ "".
Proof.
  intros Hok. split_and!; [by apply payload_vars|by rewrite payload_empty, no_credentials|].
  intros b. unfold applyPluginData. case_bool_decide as Ha; [naive_solver|]. case_bool_decide as He.
  - split; [naive_solver|]. intros (_ & k & v & Hv & Hn). rewrite payload_empty, no_credentials in He. naive_solver.
  - split; [|by eexists]. intros _. split; [done|]. rewrite payload_empty in He.
    apply map_choose in He as (k & v & Hv). apply map_lookup_filter_Some in Hv as [Hv Hn]. by exists k, v.
Qed.

Lemma plugin_data_roundtrip_witness :
  let d := ACMECloudflare_data {| acf_Token := "t0k=en"; acf_AccountID := ""; acf_ZoneID := "z1"; acf_Key := ""; acf_Email := "" |} in
  plugin_vars (encodePluginData d) = Some (set_credentials d) ∧
  set_credentials d !! "CF_Token" = Some "t0k=en" ∧ set_credentials d !! "CF_Key" = None.
Proof.
  intros d. assert (credentials_ok d) as Hok.
  { intros k v Hv. revert k v Hv. apply (bool_decide_unpack _). vm_compute. exact I. }
  split_and!; [exact (proj1 (plugin_data_roundtrip d Hok))|vm_compute; reflexivity|vm_compute; reflexivity].
Defined.
