(* ===== verification/SchemaDiff.v ===== *)
(** [cmd/pve-schemadiff/schema]: the endpoints of an API dump, the baseline file, and
    the difference of two endpoint lists. A map iteration visits the entries in an
    order the class [MapOrder] leaves open. *)

From S2P Require Import Prelude Json JsonText Pverr.
From Stdlib Require Import ZArith Lia Ascii.
From stdpp Require Import options.

(** [shuffle n] is the order in which the loop numbered [n] ranges over a map. *)
Class MapOrder := {
  shuffle : ∀ {A}, nat → list A → list A;
  shuffle_perm : ∀ A n (l : list A), shuffle n l ≡ₚ l
}.
#[program] Definition listed_order : MapOrder := {| shuffle A n l := l |}.
Solve All Obligations with done.
Program Definition reverse_order : MapOrder := {| shuffle A n l := reverse l |}.
Next Obligation. intros. apply reverse_Permutation. Qed.

(** ** Endpoints in order *)

(* go: cmd/pve-schemadiff/schema/schema.go#Endpoint *)
Record Endpoint := { ep_Method : string; ep_Path : string }.
#[export] Instance Endpoint_eq_dec : EqDecision Endpoint.
Proof. solve_decision. Defined.

(** By path, then by method. *)
Definition lex_le (x y : string * string) : Prop :=
  if decide (x.1 = y.1) then String.le x.2 y.2 else String.le x.1 y.1.
#[export] Instance lex_le_dec x y : Decision (lex_le x y).
Proof. unfold lex_le. destruct (decide (x.1 = y.1)); apply _. Defined.
#[export] Instance lex_le_total : Total lex_le.
Proof.
  intros [a b] [c d]. unfold lex_le; cbn. destruct (decide (a = c)) as [->|Hne].
  - rewrite decide_True by done. apply (total String.le).
  - rewrite decide_False by done. apply (total String.le).
Qed.
#[export] Instance lex_le_po : PartialOrder lex_le.
Proof.
  split; [split|].
  - intros [a b]. unfold lex_le; cbn. by rewrite decide_True.
  - intros [a b] [c d] [e f]. unfold lex_le; cbn. intros H1 H2.
    destruct (decide (a = c)) as [->|Hac], (decide (c = e)) as [->|Hce]; [by etrans|done|by rewrite decide_False|].
    destruct (decide (a = e)) as [->|]; [|by etrans]. destruct Hce. by apply (anti_symm String.le).
  - intros [a b] [c d]. unfold lex_le; cbn. intros H1 H2. destruct (decide (a = c)) as [->|Hne].
    + rewrite decide_True in H2 by done. f_equal. by apply (anti_symm String.le).
    + rewrite decide_False in H2 by done. destruct Hne. by apply (anti_symm String.le).
Qed.

Definition ep_rank (ep : Endpoint) : string * string := (ep_Path ep, ep_Method ep).
Definition ep_le (a b : Endpoint) : Prop := lex_le (ep_rank a) (ep_rank b).
#[export] Instance ep_le_dec a b : Decision (ep_le a b).
Proof. unfold ep_le. apply _. Defined.
#[export] Instance ep_le_total : Total ep_le.
Proof. intros a b. apply (total lex_le). Qed.
#[export] Instance ep_le_po : PartialOrder ep_le.
Proof.
  split; [split|].
  - intros a. by unfold ep_le.
  - intros a b c. unfold ep_le. apply transitivity.
  - intros [m p] [m' p'] H1 H2. pose proof (anti_symm lex_le _ _ H1 H2). by simplify_eq/=.
Qed.

(* go: cmd/pve-schemadiff/schema/schema.go#sortSlice *)
Definition sortSlice (eps : list Endpoint) : list Endpoint := merge_sort ep_le eps.
(* go: cmd/pve-schemadiff/schema/schema.go#key *)
Definition key (ep : Endpoint) : string := ep_Method ep +:+ " " +:+ ep_Path ep.
(* go: cmd/pve-schemadiff/schema/schema.go#index *)
Definition index (eps : list Endpoint) : gmap string Endpoint := foldl (λ m ep, <[key ep := ep]> m) ∅ eps.

Section maps.
Context `{!MapOrder}.
Set Default Proof Using "Type*".

(* go: cmd/pve-schemadiff/schema/schema.go#sortedEndpoints *)
Definition sortedEndpoints (m : gmap string Endpoint) : list Endpoint :=
  sortSlice (shuffle 0 (map_to_list m)).*2.

(** ** The API dump *)

(* go: cmd/pve-schemadiff/schema/schema.go#httpMethods *)
Definition httpMethods : gset string := {["GET"; "POST"; "PUT"; "DELETE"]}.

(** Of the [info] map only the keys matter. *)
(* go: cmd/pve-schemadiff/schema/schema.go#node *)
Inductive node := Node { nd_Path : string; nd_Info : gset string; nd_Children : list node }.

(** The map of the [info] member: a duplicate adds its keys to the map that is there,
    [null] clears it. *)
Definition info_field (o : list (string * json)) : option (gset string) :=
  foldl (λ acc kv, info ← acc;
    if fold_case kv.1 =s "info" then
      match kv.2 with JNull => Some ∅ | JObj l => Some (info ∪ list_to_set l.*1) | _ => None end
    else Some info) (Some ∅) o.
Fixpoint node_dec (n : nat) (j : json) : option node :=
  match n with
  | O => None
  | S n => as_struct (Node "" ∅ []) (λ o,
      path ← str_field "path" o;
      info ← info_field o;
      children ← decode_field [] (as_list (node_dec n)) "children" o;
      Some (Node path info children)) j
  end.

(* go: cmd/pve-schemadiff/schema/schema.go#L62-L71:walk *)
Definition walk_info (path : string) (info : gset string) (seen : gmap string Endpoint) : gmap string Endpoint :=
  if path =s "" then seen else
  foldl (λ seen method,
    if bool_decide (method ∈ httpMethods) then
      let ep := {| ep_Method := method; ep_Path := path |} in <[key ep := ep]> seen
    else seen) seen (shuffle 1 (elements info)).
(* go: cmd/pve-schemadiff/schema/schema.go#walk *)
Fixpoint walk (n : node) (seen : gmap string Endpoint) : gmap string Endpoint :=
  foldl (λ seen child, walk child seen) (walk_info (nd_Path n) (nd_Info n) seen) (nd_Children n).

Fixpoint from_byte (c : ascii) (s : string) : option string :=
  match s with "" => None | String c' s' => if decide (c' = c) then Some s else from_byte c s' end.

(* go: cmd/pve-schemadiff/schema/schema.go#Parse *)
Definition Parse (apidocJS : string) : goerr + list Endpoint :=
  match from_byte "[" apidocJS with
  | None => inl (GText "schema: no JSON array found in apidoc.js")
  | Some s =>
      match j ← Decode s; as_list (node_dec (S (json_depth j))) j with
      | None => inl (GWrap "schema: parse apidoc.js array" (GText "json: cannot decode"))
      | Some roots => inr (sortedEndpoints (foldl (λ seen n, walk n seen) ∅ roots))
      end
  end.

(** ** The difference *)

(* go: cmd/pve-schemadiff/schema/schema.go#Report *)
Record Report := { rep_Added : list Endpoint; rep_Removed : list Endpoint }.
(* go: cmd/pve-schemadiff/schema/schema.go#Report.Empty *)
Definition Report_Empty (r : Report) : bool :=
  match rep_Added r, rep_Removed r with [], [] => true | _, _ => false end.

(** The entries of [m] whose key [other] lacks, as the loop numbered [n] finds them. *)
Definition missing_from (n : nat) (m other : gmap string Endpoint) : list Endpoint :=
  omap (λ '(k, ep), match other !! k with Some _ => None | None => Some ep end) (shuffle n (map_to_list m)).

(* go: cmd/pve-schemadiff/schema/schema.go#Diff *)
Definition Diff (baseline current : list Endpoint) : Report :=
  let base := index baseline in
  let cur := index current in
  {| rep_Added := sortSlice (missing_from 2 cur base); rep_Removed := sortSlice (missing_from 3 base cur) |}.
End maps.

(** ** The baseline file *)

Definition Endpoint_json (ep : Endpoint) : json :=
  JObj [("method", JStr (ep_Method ep)); ("path", JStr (ep_Path ep))].
Definition Endpoint_dec : json → option Endpoint :=
  as_struct {| ep_Method := ""; ep_Path := "" |} (λ o,
    m ← str_field "method" o; p ← str_field "path" o; Some {| ep_Method := m; ep_Path := p |}).

(** Encoding strings cannot fail. *)
(* go: cmd/pve-schemadiff/schema/baseline.go#MarshalBaseline *)
Definition MarshalBaseline (eps : list Endpoint) : string :=
  MarshalIndent (JArr (Endpoint_json <$> sortSlice eps)) +:+ nl.

(* go: cmd/pve-schemadiff/schema/baseline.go#UnmarshalBaseline *)
Definition UnmarshalBaseline (data : string) : goerr + list Endpoint :=
  match j ← Unmarshal data; as_list Endpoint_dec j with
  | Some eps => inr eps
  | None => inl (GWrap "schema: parse baseline" (GText "json: cannot decode"))
  end.

(** ** Keys and sorting *)

Definition spaceless (ep : Endpoint) : Prop := no_byte " " (ep_Method ep) = true.

Lemma endpoint_key_inj a b : spaceless a → spaceless b → key a = key b → a = b.
Proof.
  unfold spaceless, key. intros Ha Hb Hk. apply (f_equal (cut_byte " ")) in Hk.
  change (" " +:+ ?p) with (String " " p) in Hk. rewrite !cut_byte_app in Hk by done. destruct a, b. by simplify_eq/=.
Qed.

Lemma sortSlice_perm l : sortSlice l ≡ₚ l.
Proof. apply merge_sort_Permutation. Qed.
Lemma sortSlice_sorted l : StronglySorted ep_le (sortSlice l).
Proof. apply (StronglySorted_merge_sort ep_le). Qed.
Lemma sorted_unique l1 l2 : StronglySorted ep_le l1 → StronglySorted ep_le l2 → l1 ≡ₚ l2 → l1 = l2.
Proof. apply (StronglySorted_unique ep_le). Qed.
Lemma sortSlice_proper l1 l2 : l1 ≡ₚ l2 → sortSlice l1 = sortSlice l2.
Proof. intros H. apply sorted_unique; [apply sortSlice_sorted..|]. by rewrite !sortSlice_perm. Qed.
Lemma sortSlice_fixed l : StronglySorted ep_le l → sortSlice l = l.
Proof. intros H. apply sorted_unique; [apply sortSlice_sorted|done|apply sortSlice_perm]. Qed.

(** What an index holds. *)
Definition keyed (m : gmap string Endpoint) : Prop := map_Forall (λ k ep, key ep = k) m.
Lemma index_keyed_insert m ep : keyed m → keyed (<[key ep := ep]> m).
Proof. intros Hm. by apply map_Forall_insert_2. Qed.

Lemma index_app l ep : index (l ++ [ep]) = <[key ep := ep]> (index l).
Proof. unfold index. by rewrite foldl_app. Qed.
Lemma index_keyed l : keyed (index l).
Proof.
  induction l as [|ep l IH] using rev_ind; [by apply map_Forall_empty|]. rewrite index_app. by apply index_keyed_insert.
Qed.
Lemma index_some l k ep : index l !! k = Some ep → ep ∈ l.
Proof.
  induction l as [|x l IH] using rev_ind; [done|].
  rewrite index_app, elem_of_app. destruct (decide (key x = k)) as [->|Hk].
  - rewrite lookup_insert_eq. intros [= ->]. right. by apply list_elem_of_singleton.
  - rewrite lookup_insert_ne by done. auto.
Qed.
Lemma empty_iff_no_elem {A} (l : list A) : l = [] ↔ ∀ x, x ∉ l.
Proof. split; [intros -> x; apply not_elem_of_nil|]. destruct l as [|x l]; [done|]. intros H. destruct (H x). by left. Qed.
Lemma index_lookup l ep : Forall spaceless l → spaceless ep → index l !! key ep = Some ep ↔ ep ∈ l.
Proof.
  intros Hl Hep. induction l as [|e l IH] using rev_ind; [by rewrite elem_of_nil|].
  apply Forall_app in Hl as [Hl He%Forall_inv]. rewrite index_app, elem_of_app, list_elem_of_singleton.
  destruct (decide (key e = key ep)) as [Hk|Hk].
  - rewrite Hk, lookup_insert_eq. pose proof (endpoint_key_inj _ _ He Hep Hk) as ->. split; auto.
  - rewrite lookup_insert_ne by done. rewrite IH by done. split; [auto|intros [?| ->]; done].
Qed.
Lemma index_none l ep : Forall spaceless l → spaceless ep → index l !! key ep = None ↔ ep ∉ l.
Proof.
  intros Hl Hep. rewrite <- (index_lookup l ep) by done. split; [by intros ->|].
  destruct (index l !! key ep) as [e|] eqn:He; [|done]. intros H. destruct H.
  f_equal. apply endpoint_key_inj; [|done|by apply index_keyed in He].
  rewrite Forall_forall in Hl. apply Hl. by eapply index_some.
Qed.

Section diff.
Context `{!MapOrder}.
Set Default Proof Using "Type*".

Lemma NoDup_entries n (m : gmap string Endpoint) : keyed m → NoDup (shuffle n (map_to_list m)).*2.
Proof.
  intros Hm. rewrite shuffle_perm. apply NoDup_fmap_2_strong; [|apply NoDup_map_to_list].
  intros [k e] [k' e'] H1%elem_of_map_to_list H2%elem_of_map_to_list. cbn. intros ->.
  apply Hm in H1, H2. by subst.
Qed.

Lemma elem_of_missing n m other ep : keyed m →
  ep ∈ missing_from n m other ↔ m !! key ep = Some ep ∧ other !! key ep = None.
Proof.
  intros Hm. unfold missing_from. rewrite list_elem_of_omap. setoid_rewrite shuffle_perm. split.
  - intros ([k e] & Hin%elem_of_map_to_list & He). pose proof (Hm _ _ Hin) as <-. destruct (other !! key e) eqn:Ho; by simplify_eq.
  - intros [Hin Ho]. exists (key ep, ep). rewrite elem_of_map_to_list. by rewrite Ho.
Qed.
Lemma missing_sub n m other : missing_from n m other `sublist_of` (shuffle n (map_to_list m)).*2.
Proof.
  unfold missing_from. induction (shuffle n (map_to_list m)) as [|[k e] l IH]; [done|]. cbn.
  destruct (other !! k); by constructor.
Qed.
Lemma NoDup_missing n m other : keyed m → NoDup (missing_from n m other).
Proof. intros Hm. eapply sublist_NoDup; [apply (NoDup_entries n); done|apply missing_sub]. Qed.

Lemma elem_of_missing_index n l1 l2 ep : Forall spaceless l1 → Forall spaceless l2 →
  ep ∈ missing_from n (index l1) (index l2) ↔ ep ∈ l1 ∧ ep ∉ l2.
Proof.
  intros H1 H2. rewrite elem_of_missing by apply index_keyed. destruct (decide (spaceless ep)) as [Hep|Hep].
  - by rewrite index_lookup, index_none.
  - split; [|by intros [Hin _]; rewrite Forall_forall in H1; destruct Hep; apply H1].
    intros [Hl _]. destruct Hep. apply index_some in Hl. rewrite Forall_forall in H1. by apply H1.
Qed.

Lemma Diff_same l : Forall spaceless l → Report_Empty (Diff l l) = true.
Proof.
  intros Hl. assert (∀ n, missing_from n (index l) (index l) = []) as Hn.
  { intros n. apply empty_iff_no_elem. intros ep. rewrite elem_of_missing_index by done. naive_solver. }
  unfold Diff, Report_Empty. cbn [rep_Added rep_Removed]. by rewrite !Hn.
Qed.

(** [Diff] reports exactly the drift. For endpoints whose method holds no space
    (every HTTP verb), an endpoint is reported as added when the new schema has it and
    the baseline does not, as removed when it is the other way round; both lists are
    duplicate free and ordered by path and method, whatever order the maps are walked
    in; and the report is empty exactly when the two lists hold the same endpoints. *)
Theorem diff_exact baseline current : Forall spaceless baseline → Forall spaceless current →
  let r := Diff baseline current in
  (∀ ep, ep ∈ rep_Added r ↔ ep ∈ current ∧ ep ∉ baseline) ∧
  (∀ ep, ep ∈ rep_Removed r ↔ ep ∈ baseline ∧ ep ∉ current) ∧
  (NoDup (rep_Added r) ∧ NoDup (rep_Removed r)) ∧
  (StronglySorted ep_le (rep_Added r) ∧ StronglySorted ep_le (rep_Removed r)) ∧
  (Report_Empty r = true ↔ ∀ ep, ep ∈ baseline ↔ ep ∈ current).
Proof.
  intros Hb Hc r. pose proof (index_keyed baseline) as Hkb. pose proof (index_keyed current) as Hkc.
  assert (∀ ep, ep ∈ rep_Added r ↔ ep ∈ current ∧ ep ∉ baseline) as Hadd.
  { intros ep. cbn. rewrite sortSlice_perm. by apply elem_of_missing_index. }
  assert (∀ ep, ep ∈ rep_Removed r ↔ ep ∈ baseline ∧ ep ∉ current) as Hrem.
  { intros ep. cbn. rewrite sortSlice_perm. by apply elem_of_missing_index. }
  split_and!; [done|done|by cbn; rewrite sortSlice_perm; apply NoDup_missing..|apply sortSlice_sorted|apply sortSlice_sorted|].
  assert (Report_Empty r = true ↔ rep_Added r = [] ∧ rep_Removed r = []) as ->.
  { unfold Report_Empty. destruct (rep_Added r), (rep_Removed r); naive_solver. }
  rewrite !empty_iff_no_elem. setoid_rewrite Hadd. setoid_rewrite Hrem. split.
  - intros [H1 H2] ep. specialize (H1 ep). specialize (H2 ep).
    destruct (decide (ep ∈ baseline)), (decide (ep ∈ current)); naive_solver.
  - intros Hs. split; intros ep; rewrite Hs; naive_solver.
Qed.
End diff.

(** ** What a dump holds *)

Lemma node_rect' (P : node → Prop) :
  (∀ path info children, Forall P children → P (Node path info children)) → ∀ n, P n.
Proof.
  intros Hn. fix IH 1. intros [path info children]. apply Hn. induction children as [|c l IHl]; constructor; [apply IH|apply IHl].
Qed.

(** An endpoint of a subtree: a node with a path, and a verb among the keys of its
    [info]. *)
Inductive occurs (ep : Endpoint) : node → Prop :=
| occurs_here info children : ep_Path ep ≠ "" → ep_Method ep ∈ info → ep_Method ep ∈ httpMethods →
    occurs ep (Node (ep_Path ep) info children)
| occurs_below path info children n : n ∈ children → occurs ep n → occurs ep (Node path info children).

Lemma verb_spaceless ep : ep_Method ep ∈ httpMethods → spaceless ep.
Proof. unfold httpMethods, spaceless. rewrite !elem_of_union, !elem_of_singleton. intros H. by destruct_or! H; rewrite H. Qed.

(** The endpoints seen so far, keyed by their own key. *)
Definition verbs_only (m : gmap string Endpoint) : Prop := map_Forall (λ k ep, key ep = k ∧ ep_Method ep ∈ httpMethods) m.
Lemma verbs_insert m e ep : verbs_only m → ep_Method e ∈ httpMethods →
  verbs_only (<[key e := e]> m) ∧
  (<[key e := e]> m !! key ep = Some ep ↔ ep = e ∨ m !! key ep = Some ep).
Proof.
  intros Hm He. split; [by apply map_Forall_insert_2|]. destruct (decide (key e = key ep)) as [Hk|Hk].
  - rewrite Hk, lookup_insert_eq. split; [intros [= ->]; auto|]. intros [->|Hl]; [done|].
    apply Hm in Hl as [_ Hl]. f_equal. by apply endpoint_key_inj; [apply verb_spaceless..|].
  - rewrite lookup_insert_ne by done. split; [auto|]. intros [->|?]; done.
Qed.

Section parse.
Context `{!MapOrder}.
Set Default Proof Using "Type*".

Lemma walk_info_spec path info m ep : verbs_only m →
  verbs_only (walk_info path info m) ∧
  (walk_info path info m !! key ep = Some ep ↔
   (path ≠ "" ∧ ep_Path ep = path ∧ ep_Method ep ∈ info ∧ ep_Method ep ∈ httpMethods) ∨ m !! key ep = Some ep).
Proof.
  intros Hm. unfold walk_info. case_bool_decide as Hp; [split; [done|naive_solver]|].
  assert (ep_Method ep ∈ info ↔ ep_Method ep ∈ shuffle 1 (elements info)) as Hin by by rewrite shuffle_perm, elem_of_elements.
  rewrite Hin. clear Hin. generalize (shuffle 1 (elements info)) as l. intros l. revert m Hm.
  induction l as [|v l IH]; intros m Hm; cbn [foldl]; [split; [done|]; rewrite elem_of_nil; naive_solver|].
  rewrite elem_of_cons. case_bool_decide as Hv.
  - destruct (verbs_insert m {| ep_Method := v; ep_Path := path |} ep Hm Hv) as [Hm' Hlook].
    destruct (IH _ Hm') as [Hok Hiff]. split; [done|]. rewrite Hiff, Hlook.
    assert (ep = {| ep_Method := v; ep_Path := path |} ↔ ep_Path ep = path ∧ ep_Method ep = v) as ->.
    { destruct ep; cbn. split; [by intros [= -> ->]|by intros [-> ->]]. }
    split; [|naive_solver]. intros [?|[[Hpe Hve]|?]]; [naive_solver| |auto]. left. rewrite Hve. auto.
  - destruct (IH _ Hm) as [Hok Hiff]. split; [done|]. rewrite Hiff. naive_solver.
Qed.

Lemma walk_children_spec l m ep : Forall (λ n, ∀ m, verbs_only m →
    verbs_only (walk n m) ∧ (walk n m !! key ep = Some ep ↔ occurs ep n ∨ m !! key ep = Some ep)) l → verbs_only m →
  verbs_only (foldl (λ seen n, walk n seen) m l) ∧
  (foldl (λ seen n, walk n seen) m l !! key ep = Some ep ↔ (∃ n, n ∈ l ∧ occurs ep n) ∨ m !! key ep = Some ep).
Proof.
  intros Hl. revert m. induction Hl as [|n l Hn Hl IH]; intros m Hm; cbn [foldl].
  { split; [done|]. split; [auto|]. intros [(n & []%not_elem_of_nil & _)|]; done. }
  destruct (Hn m Hm) as [Hm' Hlook]. destruct (IH _ Hm') as [Hok Hiff]. split; [done|]. rewrite Hiff, Hlook.
  setoid_rewrite elem_of_cons. naive_solver.
Qed.

Lemma walk_spec n : ∀ ep m, verbs_only m →
  verbs_only (walk n m) ∧ (walk n m !! key ep = Some ep ↔ occurs ep n ∨ m !! key ep = Some ep).
Proof.
  induction n as [path info children IH] using node_rect'. intros ep m Hm. cbn [walk nd_Path nd_Info nd_Children].
  destruct (walk_info_spec path info m ep Hm) as [Hm' Hinfo].
  destruct (walk_children_spec children (walk_info path info m) ep) as [Hok Hiff]; [|done|].
  { eapply Forall_impl; [exact IH|]. auto. }
  split; [done|]. rewrite Hiff, Hinfo. split.
  - intros [(n & Hn & Ho)|[(Hp & <- & ? & ?)|?]]; [left; by eapply occurs_below|left; by constructor|by right].
  - intros [Ho|?]; [|by auto]. inversion Ho; subst; eauto 10.
Qed.

(** The trees of a dump. *)
Definition dump_roots (apidocJS : string) : option (list node) :=
  s ← from_byte "[" apidocJS; j ← Decode s; as_list (node_dec (S (json_depth j))) j.

Lemma Parse_spec apidocJS :
  match Parse apidocJS with
  | inl _ => dump_roots apidocJS = None
  | inr eps =>
      ∃ roots, dump_roots apidocJS = Some roots ∧
        (∀ ep, ep ∈ eps ↔ ∃ n, n ∈ roots ∧ occurs ep n) ∧ NoDup eps ∧ StronglySorted ep_le eps
  end.
Proof.
  unfold Parse, dump_roots. destruct (from_byte _ _) as [s|]; cbn [mbind option_bind]; [|done].
  destruct (Decode s) as [j|]; cbn [mbind option_bind]; [|done].
  destruct (as_list _ j) as [roots|]; [|done]. exists roots. split; [done|].
  set (m := foldl _ _ _).
  assert (∀ ep, verbs_only m ∧ (m !! key ep = Some ep ↔ (∃ n, n ∈ roots ∧ occurs ep n) ∨
    (∅ : gmap string Endpoint) !! key ep = Some ep)) as Hspec.
  { intros ep. apply walk_children_spec; [|apply map_Forall_empty]. apply Forall_forall. intros n _ m'. apply walk_spec. }
  assert (keyed m) as Hm.
  { intros k ep Hk. by destruct (Hspec ep) as [Hv _]; apply Hv in Hk as [? _]. }
  unfold sortedEndpoints. split_and!.
  - intros ep. destruct (Hspec ep) as [_ Hiff]. rewrite lookup_empty in Hiff. rewrite sortSlice_perm, list_elem_of_fmap.
    setoid_rewrite shuffle_perm. split.
    + intros ([k e] & -> & Hk%elem_of_map_to_list). cbn. pose proof (Hm _ _ Hk) as <-. apply (Hspec e) in Hk. naive_solver.
    + intros Ho. exists (key ep, ep). split; [done|]. apply elem_of_map_to_list, Hiff. by left.
  - rewrite sortSlice_perm. by apply NoDup_entries.
  - apply sortSlice_sorted.
Qed.
End parse.

(** The list is determined by what it holds. *)
Lemma Parse_order (o1 o2 : MapOrder) apidocJS : @Parse o1 apidocJS = @Parse o2 apidocJS.
Proof.
  pose proof (@Parse_spec o1 apidocJS) as H1. pose proof (@Parse_spec o2 apidocJS) as H2.
  destruct (@Parse o1 apidocJS) as [e1|eps1] eqn:Hp1, (@Parse o2 apidocJS) as [e2|eps2] eqn:Hp2.
  - revert Hp1 Hp2. unfold Parse. destruct (from_byte _ _); [|congruence]. case_match; congruence.
  - destruct H2 as (? & ? & _). congruence.
  - destruct H1 as (? & ? & _). congruence.
  - destruct H1 as (roots & Hr & Hin & Hnd & Hs), H2 as (roots' & Hr' & Hin' & Hnd' & Hs').
    assert (roots' = roots) as -> by congruence. f_equal. apply sorted_unique; [done..|]. apply NoDup_Permutation; [done..|].
    intros ep. by rewrite Hin, Hin'.
Qed.

(** C14. [Parse] returns exactly the endpoints of the dump: every verb of every node
    with a path, however deep, once, ordered by path and method; and it fails exactly
    when there is no array or the text from its first bracket on does not decode. What
    follows the array is ignored, and the order in which the [info] maps are walked has
    no influence. *)
Theorem Parse_exact (o : MapOrder) apidocJS :
  (∀ o', @Parse o' apidocJS = @Parse o apidocJS) ∧
  match @Parse o apidocJS with
  | inl _ => dump_roots apidocJS = None
  | inr eps =>
      ∃ roots, dump_roots apidocJS = Some roots ∧
        (∀ ep, ep ∈ eps ↔ ∃ n, n ∈ roots ∧ occurs ep n) ∧ NoDup eps ∧ StronglySorted ep_le eps
  end.
Proof. split; [intros o'; apply Parse_order|apply Parse_spec]. Qed.

(** ** The baseline file round trip *)

Definition utf8_endpoint (ep : Endpoint) : Prop := valid_utf8 (ep_Method ep) ∧ valid_utf8 (ep_Path ep).

Lemma Endpoint_json_textual ep : utf8_endpoint ep → textual (Endpoint_json ep).
Proof.
  intros [Hm Hp]. apply textual_obj. repeat apply Forall_cons_2; [..|apply Forall_nil_2];
    (split; [by apply utf8_ascii|by constructor]).
Qed.
Lemma Endpoint_dec_json ep : Endpoint_dec (Endpoint_json ep) = Some ep.
Proof. by destruct ep. Qed.

Lemma mapM_inverse {A B} (f : B → option A) (g : A → B) l : (∀ x, x ∈ l → f (g x) = Some x) → mapM f (g <$> l) = Some l.
Proof. intros H. apply mapM_Some_2, Forall2_fmap_l, Forall_Forall2_diag, Forall_forall. auto. Qed.

Lemma endpoints_depth eps : json_depth (JArr (Endpoint_json <$> eps)) ≤ 2.
Proof. cbn [json_depth]. induction eps as [|ep eps IH]; cbn [fmap list_fmap foldr]; [lia|].
  change (json_depth (Endpoint_json ep)) with 1. lia.
Qed.

(** The baseline file keeps the endpoint list. Reading what [MarshalBaseline]
    writes (the indented text, escapes and final newline included) gives the same
    endpoints, sorted, for every list whose texts are valid UTF-8. *)
Lemma baseline_roundtrip eps : Forall utf8_endpoint eps → UnmarshalBaseline (MarshalBaseline eps) = inr (sortSlice eps).
Proof.
  intros Heps. unfold UnmarshalBaseline, MarshalBaseline. rewrite textual_indented; [|..|done].
  - cbn [mbind option_bind as_list]. rewrite mapM_inverse; [done|]. intros. apply Endpoint_dec_json.
  - constructor. apply Forall_fmap, Forall_forall. intros ep Hep. apply Endpoint_json_textual.
    rewrite Forall_forall in Heps. apply Heps. by rewrite <- (sortSlice_perm eps).
  - pose proof (endpoints_depth (sortSlice eps)). unfold maxNestingDepth. lia.
Qed.
Lemma diff_exact_witness :
  let old := {| ep_Method := "GET"; ep_Path := "/old" |} in
  let new := {| ep_Method := "GET"; ep_Path := "/new" |} in
  let r := @Diff reverse_order [old] [new] in
  new ∈ rep_Added r ∧ old ∈ rep_Removed r ∧ Report_Empty r = false.
Proof.
  intros old new r.
  destruct (@diff_exact reverse_order [old] [new]) as (Ha & Hr & _ & _ & He); [by repeat constructor..|].
  split_and!.
  - apply Ha. split; [by left|]. intros [Hx|[]%not_elem_of_nil]%elem_of_cons. discriminate Hx.
  - apply Hr. split; [by left|]. intros [Hx|[]%not_elem_of_nil]%elem_of_cons. discriminate Hx.
  - vm_compute. reflexivity.
Defined.

(** ** The endpoints of a decoded dump *)

Lemma field_raw_in name l v : field_raw name l = Some v → ∃ k, (k, v) ∈ l.
Proof.
  induction l as [|[k w] l IH]; cbn; [done|]. destruct (field_raw name l) as [v'|].
  - intros [= <-]. destruct (IH eq_refl) as [k' ?]. exists k'. by right.
  - case_bool_decide; [|done]. intros [= <-]. exists k. by left.
Qed.
Lemma utf8_field {A} (P : A → Prop) z (d : json → option A) name l v :
  Forall (λ kv, valid_utf8 kv.1 ∧ utf8_json kv.2) l → P z → (∀ j x, utf8_json j → d j = Some x → P x) →
  decode_field z d name l = Some v → P v.
Proof.
  intros Hl Hz Hd. unfold decode_field. destruct (field_raw name l) as [w|] eqn:Hf; [|by intros [= <-]].
  apply field_raw_in in Hf as [k Hk]. rewrite Forall_forall in Hl. apply Hl in Hk as [_ Hw].
  destruct w; first [by intros [= <-]|by apply Hd].
Qed.
Lemma utf8_list {A} (P : A → Prop) (d : json → option A) j l :
  (∀ j x, utf8_json j → d j = Some x → P x) → utf8_json j → as_list d j = Some l → Forall P l.
Proof.
  intros Hd Hj. destruct Hj as [| | | |l' Hl'|]; cbn [as_list]; try done; [intros [= <-]; constructor|].
  intros Hm%mapM_Some_1. clear -Hd Hl' Hm. induction Hm as [|x y l1 l2 Hxy Hm IH]; [constructor|].
  inversion Hl'; subst. constructor; eauto.
Qed.

Inductive utf8_node : node → Prop :=
| utf8_Node path info children : valid_utf8 path → Forall utf8_node children → utf8_node (Node path info children).

Lemma node_dec_utf8 n j nd : utf8_json j → node_dec n j = Some nd → utf8_node nd.
Proof.
  revert j nd. induction n as [|n IH]; intros j nd Hj; [done|]. cbn [node_dec].
  assert (utf8_node (Node "" ∅ [])) as Hzero by by repeat constructor.
  destruct Hj as [| | | | |o Ho]; cbn [as_struct]; try done; [by intros [= <-]|].
  destruct (str_field "path" o) as [path|] eqn:Hp; cbn [mbind option_bind]; [|done].
  destruct (info_field o) as [info|]; cbn [mbind option_bind]; [|done].
  destruct (decode_field _ (as_list _) _ o) as [ch|] eqn:Hc; cbn [mbind option_bind]; [|done]. intros [= <-]. constructor.
  - eapply (utf8_field valid_utf8); [done|constructor| |exact Hp]. intros j x Hj. destruct Hj; cbn; congruence.
  - eapply (utf8_field (Forall utf8_node)); [done|constructor| |exact Hc]. intros j l Hj. by apply utf8_list.
Qed.

Lemma occurs_utf8 ep n : occurs ep n → utf8_node n → utf8_endpoint ep.
Proof.
  induction 1 as [info children Hp Hi Hv|path info children n Hn _ IH]; inversion 1; subst.
  - split; [|done]. apply utf8_ascii. unfold httpMethods in Hv. rewrite !elem_of_union, !elem_of_singleton in Hv.
    by destruct_or! Hv; rewrite Hv.
  - apply IH. match goal with H : Forall _ _ |- _ => rewrite Forall_forall in H; by apply H end.
Qed.
Lemma occurs_spaceless ep n : occurs ep n → spaceless ep.
Proof. induction 1; [by apply verb_spaceless|done]. Qed.

Lemma Parse_texts `{!MapOrder} apidocJS eps : Parse apidocJS = inr eps → Forall utf8_endpoint eps ∧ Forall spaceless eps.
Proof.
  intros Hp. pose proof (Parse_spec apidocJS) as H'. rewrite Hp in H'. destruct H' as (roots & Hr & Hin & _).
  assert (Forall utf8_node roots) as Hroots.
  { unfold dump_roots in Hr. destruct (from_byte _ _) as [s|]; [|done]. cbn [mbind option_bind] in Hr.
    destruct (Decode s) as [j|] eqn:Hj; [|done]. cbn [mbind option_bind] in Hr. apply Decode_utf8 in Hj. eapply utf8_list; [|done|exact Hr]. intros j' x Hj' Hx. by eapply node_dec_utf8. }
  split; apply Forall_forall; intros ep (n & Hn & Ho)%Hin; [|by eapply occurs_spaceless].
  eapply occurs_utf8; [done|]. rewrite Forall_forall in Hroots. auto.
Qed.
