(* ===== verification/Coverage.v ===== *)
(** [cmd/pve-schemadiff/coverage]: the normal form in which a mock route and an API
    endpoint are compared, the table that assigns path families to services, and the
    annotations file. *)

From S2P Require Import Prelude Json JsonText Pverr SchemaDiff.
From Stdlib Require Import ZArith Lia Ascii.
From stdpp Require Import options.

(** ** Normal forms *)

(* go: cmd/pve-schemadiff/coverage/normalize.go#apiPrefix *)
Definition apiPrefix : string := "/api2/json".

(** Every [{...}] loses what it encloses. [inside] is the state between an opening
    brace, which some closing brace follows, and that brace. *)
(* go: cmd/pve-schemadiff/coverage/normalize.go#L14-L18:wildcard *)
Fixpoint erase (inside : bool) (s : string) : string :=
  match s with
  | "" => ""
  | String c s' =>
      if inside then erase (negb (bool_decide (c = "}"%char))) s'
      else if bool_decide (c = "{"%char) && negb (no_byte "}" s') then "{}" +:+ erase true s'
      else String c (erase false s')
  end.

(* go: cmd/pve-schemadiff/coverage/normalize.go#Key *)
Record Key := { k_Method : string; k_Path : string }.
#[export] Instance Key_eq_dec : EqDecision Key.
Proof. solve_decision. Defined.
#[export] Instance Key_countable : Countable Key.
Proof.
  refine (inj_countable' (λ k, (k_Method k, k_Path k)) (λ p, {| k_Method := p.1; k_Path := p.2 |}) _). by intros [].
Defined.

(* go: cmd/pve-schemadiff/coverage/normalize.go#Key.String *)
Definition Key_String (k : Key) : string := k_Method k +:+ " " +:+ k_Path k.
(* go: cmd/pve-schemadiff/coverage/normalize.go#NormalizePath *)
Definition NormalizePath (path : string) : string := erase false (trim_prefix path apiPrefix).

(** [%q] of a text: quotes, backslashes and control characters are escaped. *)
Fixpoint quote_escape (s : string) : string :=
  match s with
  | "" => ""
  | String c s' =>
      let n := nat_of_ascii c in
      (if n =? 34 then String "\" (String c "") else if n =? 92 then "\\"
       else if n =? 7 then "\a" else if n =? 8 then "\b" else if n =? 9 then "\t" else if n =? 10 then "\n"
       else if n =? 11 then "\v" else if n =? 12 then "\f" else if n =? 13 then "\r"
       else if (n <? 32) || (n =? 127) then "\x" +:+ String (hex_lower (n / 16)) (String (hex_lower (n mod 16)) "")
       else String c "") +:+ quote_escape s'
  end.
Definition go_quote (s : string) : string := quote_byte +:+ quote_escape s +:+ quote_byte.

(** [strings.ToUpper] on ASCII; a verb holds no other letters. *)
Definition upper_byte (c : ascii) : ascii := if byte_in 97 122 c then ascii_of_nat (nat_of_ascii c - 32) else c.
Fixpoint to_upper (s : string) : string :=
  match s with "" => "" | String c s' => String (upper_byte c) (to_upper s') end.

Definition want_pattern : string := "want " +:+ quote_byte +:+ "METHOD /path" +:+ quote_byte.
(* go: cmd/pve-schemadiff/coverage/normalize.go#ParsePattern *)
Definition ParsePattern (pattern : string) : goerr + Key :=
  match cut_byte " " (trim_space pattern) with
  | None => inl (GText ("coverage: route pattern " +:+ go_quote pattern +:+ " has no method: " +:+ want_pattern))
  | Some (method, path) =>
      let path := trim_space path in
      if (method =s "") || negb (has_prefix path "/") then
        inl (GText ("coverage: route pattern " +:+ go_quote pattern +:+ " is malformed: " +:+ want_pattern))
      else inr {| k_Method := to_upper method; k_Path := NormalizePath path |}
  end.

(* go: cmd/pve-schemadiff/coverage/normalize.go#EndpointKey *)
Definition EndpointKey (ep : Endpoint) : Key :=
  {| k_Method := to_upper (ep_Method ep); k_Path := NormalizePath (ep_Path ep) |}.

(* go: cmd/pve-schemadiff/coverage/normalize.go#ParsePatterns *)
Fixpoint ParsePatterns (patterns : list string) : goerr + list Key :=
  match patterns with
  | [] => inr []
  | p :: ps =>
      match ParsePattern p with
      | inl err => inl err
      | inr k => match ParsePatterns ps with inl err => inl err | inr ks => inr (k :: ks) end
      end
  end.

(** ** Services *)

(* go: cmd/pve-schemadiff/coverage/service.go#Unassigned *)
Definition Unassigned : string := "unassigned".
(* go: cmd/pve-schemadiff/coverage/service.go#serviceRule *)
Record serviceRule := { r_prefix : string; r_service : string; r_exact : bool }.
Definition family (p s : string) : serviceRule := {| r_prefix := p; r_service := s; r_exact := false |}.
Definition exact (p s : string) : serviceRule := {| r_prefix := p; r_service := s; r_exact := true |}.

(* go: cmd/pve-schemadiff/coverage/service.go#serviceRules *)
Definition serviceRules : list serviceRule :=
  [family "/version" "version"; family "/nodes/{}/tasks" "tasks"; family "/cluster/tasks" "tasks";
   family "/nodes/{}/qemu" "qemu"; family "/cluster/qemu" "qemu"; family "/nodes/{}/lxc" "lxc";
   family "/storage" "storage"; family "/nodes/{}/storage" "storage"; family "/nodes/{}/disks" "storage";
   family "/nodes/{}/scan" "storage"; family "/nodes/{}/aplinfo" "storage";
   family "/nodes/{}/query-url-metadata" "storage"; family "/nodes/{}/query-oci-repo-tags" "storage";
   family "/cluster/ha" "ha"; family "/cluster/replication" "ha"; family "/nodes/{}/replication" "ha";
   family "/cluster/sdn" "sdn"; family "/nodes/{}/sdn" "sdn"; family "/cluster/firewall" "firewall";
   family "/nodes/{}/firewall" "firewall"; exact "/cluster" "cluster"; family "/cluster/config" "cluster";
   family "/cluster/options" "cluster"; family "/cluster/resources" "cluster"; family "/cluster/status" "cluster";
   family "/cluster/log" "cluster"; family "/cluster/nextid" "cluster"; family "/access" "access";
   exact "/nodes" "nodes"; exact "/nodes/{}" "nodes"; family "/nodes/{}/network" "nodes";
   family "/nodes/{}/apt" "nodes"; family "/nodes/{}/certificates" "nodes"; family "/cluster/acme" "nodes";
   family "/nodes/{}/services" "nodes"; family "/nodes/{}/dns" "nodes"; family "/nodes/{}/hosts" "nodes";
   family "/nodes/{}/time" "nodes"; family "/nodes/{}/subscription" "nodes"; family "/nodes/{}/syslog" "nodes";
   family "/nodes/{}/journal" "nodes"; family "/nodes/{}/report" "nodes"; family "/nodes/{}/execute" "nodes";
   family "/nodes/{}/config" "nodes"; family "/nodes/{}/hardware" "nodes"; family "/nodes/{}/capabilities" "nodes";
   family "/nodes/{}/version" "nodes"; family "/nodes/{}/wakeonlan" "nodes"; family "/nodes/{}/startall" "nodes";
   family "/nodes/{}/stopall" "nodes"; family "/nodes/{}/suspendall" "nodes"; family "/nodes/{}/migrateall" "nodes";
   family "/cluster/ceph" "ceph"; family "/nodes/{}/ceph" "ceph"; family "/cluster/backup" "pbs";
   family "/cluster/backup-info" "pbs"; family "/nodes/{}/vzdump" "pbs"; family "/cluster/metrics" "metrics";
   family "/nodes/{}/rrd" "metrics"; family "/nodes/{}/rrddata" "metrics"; family "/nodes/{}/status" "metrics";
   family "/nodes/{}/netstat" "metrics"; family "/nodes/{}/vncshell" "console";
   family "/nodes/{}/vncwebsocket" "console"; family "/nodes/{}/spiceshell" "console";
   family "/nodes/{}/termproxy" "console"].

(* go: cmd/pve-schemadiff/coverage/service.go#serviceRule.matches *)
Definition matches (r : serviceRule) (path : string) : bool :=
  if r_exact r then path =s r_prefix r else
  has_prefix path (r_prefix r) &&
  let rest := drop_str (String.length (r_prefix r)) path in (rest =s "") || has_prefix rest "/".

(** The best rule so far, and the length of its prefix (none at the start). *)
(* go: cmd/pve-schemadiff/coverage/service.go#L147-L153:ServiceFor *)
Definition better (path : string) (best : string * Z) (r : serviceRule) : string * Z :=
  if (Z.of_nat (String.length (r_prefix r)) <=? best.2)%Z || negb (matches r path) then best
  else (r_service r, Z.of_nat (String.length (r_prefix r))).
(* go: cmd/pve-schemadiff/coverage/service.go#ServiceFor *)
Definition ServiceFor (path : string) : string := (foldl (better path) (Unassigned, -1)%Z serviceRules).1.

(* go: cmd/pve-schemadiff/coverage/service.go#Services *)
Definition Services : list string :=
  let out := foldl (λ out r, if bool_decide (r_service r ∈ out) then out else out ++ [r_service r]) [] serviceRules in
  merge_sort String.le out ++ [Unassigned].

(** ** Annotations *)

(* go: cmd/pve-schemadiff/coverage/annotations.go#BaselineInfo *)
Record BaselineInfo := { bi_PVEVersion : string; bi_Source : string; bi_Captured : string }.
(* go: cmd/pve-schemadiff/coverage/annotations.go#Stub *)
Record Stub := { st_Path : string; st_Reason : string }.
(* go: cmd/pve-schemadiff/coverage/annotations.go#OutOfScope *)
Record OutOfScope := { os_Prefix : string; os_Reason : string; os_Doc : string }.
(* go: cmd/pve-schemadiff/coverage/annotations.go#AllowedRoute *)
Record AllowedRoute := { ar_Route : string; ar_Reason : string }.
(* go: cmd/pve-schemadiff/coverage/annotations.go#Annotations *)
Record Annotations := {
  an_Baseline : BaselineInfo;
  an_Stubs : list Stub;
  an_SideChannel : list string;
  an_OutOfScope : list OutOfScope;
  an_AllowUnmatchedRoutes : list AllowedRoute
}.

(** A pattern in the report's own form, or as it is when it does not parse. *)
Definition normalPattern (p : string) : string := match ParsePattern p with inr k => Key_String k | inl _ => p end.
(* go: cmd/pve-schemadiff/coverage/annotations.go#Annotations.normalize *)
Definition normalize (a : Annotations) : Annotations :=
  {| an_Baseline := an_Baseline a;
     an_Stubs := (λ s, {| st_Path := normalPattern (st_Path s); st_Reason := st_Reason s |}) <$> an_Stubs a;
     an_SideChannel := an_SideChannel a;
     an_OutOfScope := (λ o, {| os_Prefix := NormalizePath (os_Prefix o); os_Reason := os_Reason o; os_Doc := os_Doc o |}) <$>
                      an_OutOfScope a;
     an_AllowUnmatchedRoutes := (λ r, {| ar_Route := normalPattern (ar_Route r); ar_Reason := ar_Reason r |}) <$>
                                an_AllowUnmatchedRoutes a |}.

(** Every validation returns its messages in order; [errors.Join] of none is [nil]. *)
Definition complaint (b : bool) (msg : string) : list string := if b then [msg] else [].
Definition empty_text (s : string) : bool := trim_space s =s "".

(* go: cmd/pve-schemadiff/coverage/annotations.go#Annotations.validateBaseline *)
Definition validateBaseline (a : Annotations) : list string :=
  let b := an_Baseline a in
  '(val, field) ← [(bi_PVEVersion b, "pve_version"); (bi_Source b, "source"); (bi_Captured b, "captured")];
  complaint (empty_text val) ("baseline." +:+ field +:+ " is required").

(** The entries of a section, numbered, with the messages of each; [name] is the text a
    later entry may not repeat, [seen] where it was last seen. *)
Fixpoint numbered {A} (name : A → string) (errs : nat → A → list string) (again : nat → nat → A → string)
    (seen : gmap string nat) (i : nat) (l : list A) : list string :=
  match l with
  | [] => []
  | x :: l =>
      errs i x ++ match seen !! name x with Some prev => [again i prev x] | None => [] end ++
      numbered name errs again (<[name x := i]> seen) (S i) l
  end.
Definition entry (section : string) (i : nat) : string := section +:+ "[" +:+ itoa (Z.of_nat i) +:+ "]".

(* go: cmd/pve-schemadiff/coverage/annotations.go#Annotations.validateStubs *)
Definition validateStubs (a : Annotations) : list string :=
  numbered st_Path
    (λ i s, match ParsePattern (st_Path s) with
            | inl err => [entry "stubs" i +:+ ": path " +:+ go_quote (st_Path s) +:+ ": " +:+ error_text err]
            | inr _ => []
            end ++
            complaint (empty_text (st_Reason s)) (entry "stubs" i +:+ " (" +:+ st_Path s +:+ "): reason is required"))
    (λ i prev s, entry "stubs" i +:+ ": " +:+ st_Path s +:+ " already annotated by " +:+ entry "stubs" prev)
    ∅ 0 (an_Stubs a).

(* go: cmd/pve-schemadiff/coverage/annotations.go#Annotations.validateSideChannel *)
Definition validateSideChannel (a : Annotations) : list string :=
  concat (imap (λ i s, complaint (empty_text s) (entry "side_channel" i +:+ " is empty")) (an_SideChannel a)).

(* go: cmd/pve-schemadiff/coverage/annotations.go#Annotations.validateOutOfScope *)
Definition validateOutOfScope (a : Annotations) : list string :=
  numbered os_Prefix
    (λ i o, complaint (negb (has_prefix (os_Prefix o) "/"))
              (entry "out_of_scope" i +:+ ": prefix " +:+ go_quote (os_Prefix o) +:+ " must be a rooted path") ++
            complaint (empty_text (os_Reason o))
              (entry "out_of_scope" i +:+ " (" +:+ os_Prefix o +:+ "): reason is required") ++
            complaint (empty_text (os_Doc o))
              (entry "out_of_scope" i +:+ " (" +:+ os_Prefix o +:+ "): doc is required — an untriaged family is a gap, " +:+
               "not a decided non-goal"))
    (λ i prev o, entry "out_of_scope" i +:+ ": " +:+ os_Prefix o +:+ " already annotated by " +:+ entry "out_of_scope" prev)
    ∅ 0 (an_OutOfScope a).

(* go: cmd/pve-schemadiff/coverage/annotations.go#Annotations.validateAllowlist *)
Definition validateAllowlist (a : Annotations) : list string :=
  let here := entry "allow_unmatched_routes" in
  numbered ar_Route
    (λ i r, match ParsePattern (ar_Route r) with
            | inl err => [here i +:+ ": route " +:+ go_quote (ar_Route r) +:+ ": " +:+ error_text err]
            | inr _ => []
            end ++
            complaint (empty_text (ar_Reason r))
              (here i +:+ " (" +:+ ar_Route r +:+ "): reason is required — an allowlisted route claims " +:+
               "the baseline is wrong"))
    (λ i prev r, here i +:+ ": " +:+ ar_Route r +:+ " already allowed by " +:+ here prev)
    ∅ 0 (an_AllowUnmatchedRoutes a).

(* go: cmd/pve-schemadiff/coverage/annotations.go#Annotations.Validate *)
Definition Validate (a : Annotations) : list string :=
  validateBaseline a ++ validateStubs a ++ validateSideChannel a ++ validateOutOfScope a ++ validateAllowlist a.

(** The strict YAML decoder of [go.yaml.in/yaml]: the document's annotations, [io.EOF]
    ([None]) for a file without a document, or its error. *)
Class Yaml := yaml_Decode : string → option goerr + Annotations.

(* go: cmd/pve-schemadiff/coverage/annotations.go#ErrEmptyAnnotations *)
Definition ErrEmptyAnnotations : goerr := GText "coverage: annotations file is empty".
(* go: cmd/pve-schemadiff/coverage/annotations.go#ParseAnnotations *)
Definition ParseAnnotations `{!Yaml} (raw : string) : goerr + Annotations :=
  match yaml_Decode raw with
  | inl None => inl ErrEmptyAnnotations
  | inl (Some err) => inl (GWrap ("parse annotations: " +:+ error_text err) err)
  | inr ann =>
      let ann := normalize ann in
      match Validate ann with [] => inr ann | errs => inl (GText (join nl errs)) end
  end.

(* go: cmd/pve-schemadiff/coverage/annotations.go#Annotations.StubReason *)
Definition StubReason (a : Annotations) (k : Key) : option string :=
  '(_, s) ← list_find (λ s, st_Path s = Key_String k) (an_Stubs a); Some (st_Reason s).
(* go: cmd/pve-schemadiff/coverage/annotations.go#Annotations.AllowsRoute *)
Definition AllowsRoute (a : Annotations) (k : Key) : option string :=
  '(_, r) ← list_find (λ r, ar_Route r = Key_String k) (an_AllowUnmatchedRoutes a); Some (ar_Reason r).
(* go: cmd/pve-schemadiff/coverage/annotations.go#Annotations.OutOfScopeFor *)
Definition OutOfScopeFor (a : Annotations) (path : string) : option OutOfScope :=
  '(_, o) ← list_find (λ o, matches {| r_prefix := os_Prefix o; r_service := ""; r_exact := false |} path = true)
              (an_OutOfScope a); Some o.

(** ** Normal forms forget placeholder names *)

(** A path as its parts: texts without an opening brace, and placeholders. *)
Inductive part := Lit (s : string) | Hole (name : string).
Definition wf_part (p : part) : Prop :=
  match p with Lit s => no_byte "{" s = true | Hole name => no_byte "}" name = true end.
Definition show_part (p : part) : string := match p with Lit s => s | Hole name => "{" +:+ name +:+ "}" end.
Definition blank_part (p : part) : part := match p with Lit s => Lit s | Hole _ => Hole "" end.
Definition render (l : list part) : string := join "" (show_part <$> l).

Lemma join_empty_cons x l : join "" (x :: l) = x +:+ join "" l.
Proof. destruct l; [cbn; by rewrite str_app_nil_r|done]. Qed.
Lemma render_cons p l : render (p :: l) = show_part p +:+ render l.
Proof. apply join_empty_cons. Qed.

Lemma erase_lit s t : no_byte "{" s = true → erase false (s +:+ t) = s +:+ erase false t.
Proof.
  induction s as [|c s IH]; [done|]. cbn [no_byte]. intros [Hc Hs]%andb_prop. rewrite str_app_cons. cbn [erase].
  rewrite bool_decide_eq_false_2 by (intros ->; by rewrite bool_decide_eq_true_2 in Hc). cbn. by rewrite IH.
Qed.
Lemma erase_inside name t : no_byte "}" name = true → erase true (name +:+ "}" +:+ t) = erase false t.
Proof.
  induction name as [|c name IH]; [done|]. cbn [no_byte]. intros [Hc Hs]%andb_prop. rewrite str_app_cons. cbn [erase].
  rewrite bool_decide_eq_false_2 by (intros ->; by rewrite bool_decide_eq_true_2 in Hc). by apply IH.
Qed.
Lemma erase_hole name t : no_byte "}" name = true → erase false ("{" +:+ name +:+ "}" +:+ t) = "{}" +:+ erase false t.
Proof.
  intros Hn. change ("{" +:+ ?s) with (String "{" s). cbn [erase]. rewrite no_byte_app. change (no_byte "}" ("}" +:+ t)) with false.
  rewrite andb_false_r. cbn. by rewrite erase_inside.
Qed.
Lemma erase_render l : Forall wf_part l → erase false (render l) = render (blank_part <$> l).
Proof.
  induction 1 as [|p l Hp Hl IH]; [done|]. cbn [fmap list_fmap]. rewrite !render_cons. destruct p as [s|name]; cbn [show_part blank_part].
  - by rewrite erase_lit, IH.
  - by rewrite !str_app_assoc, erase_hole, IH.
Qed.

(** ** Which service a path belongs to *)

Lemma prefix_same_length p q s : has_prefix s p = true → has_prefix s q = true → String.length p = String.length q → p = q.
Proof.
  intros [a Ha]%has_prefix_spec [b Hb]%has_prefix_spec Hl. subst s.
  revert q Hb Hl. induction p as [|c p IH]; intros [|d q]; try done. rewrite !str_app_cons. intros [= -> Hb] [= Hl]. f_equal. eauto.
Qed.
Lemma matches_prefix r path : matches r path = true → has_prefix path (r_prefix r) = true.
Proof.
  unfold matches. destruct (r_exact r); [intros ->%bool_decide_eq_true; apply has_prefix_refl|]. by intros [? _]%andb_prop.
Qed.

(** The fold keeps a longest matching rule. *)
Lemma better_spec path rules best :
  let out := foldl (better path) best rules in
  (best.2 ≤ out.2)%Z ∧
  Forall (λ r, matches r path = true → (Z.of_nat (String.length (r_prefix r)) ≤ out.2)%Z) rules ∧
  (out = best ∨ ∃ r, r ∈ rules ∧ matches r path = true ∧ out = (r_service r, Z.of_nat (String.length (r_prefix r)))).
Proof.
  revert best; induction rules as [|r rules IH]; intros best; [cbn; split_and!; [lia|constructor|auto]|].
  cbn [foldl]. cbv zeta. destruct (IH (better path best r)) as (Hle & Hall & Hout).
  assert ((best.2 ≤ (better path best r).2)%Z ∧ (matches r path = true → (Z.of_nat (String.length (r_prefix r)) ≤ (better path best r).2)%Z) ∧
    (better path best r = best ∨ matches r path = true ∧ better path best r = (r_service r, Z.of_nat (String.length (r_prefix r)))))
    as (H1 & H2 & H3).
  { unfold better. destruct (Z.leb_spec (Z.of_nat (String.length (r_prefix r))) best.2); cbn [orb]; [auto with lia|].
    destruct (matches r path); cbn; auto with lia. }
  split_and!; [lia| |].
  - constructor; [intros Hm; specialize (H2 Hm); lia|done].
  - destruct Hout as [->|(r' & Hin & Hm & ->)].
    + destruct H3 as [->|[Hm ->]]; [auto|]. right. exists r. split_and!; [by left|done..].
    + right. exists r'. split_and!; [by right|done..].
Qed.

Lemma serviceRules_prefixes : NoDup (r_prefix <$> serviceRules).
Proof. by apply (bool_decide_unpack _); vm_compute. Qed.

(** [ServiceFor] returns the service of the longest rule that covers the path. The
    rule is unique: no two rules of the table have the same prefix, so the answer does
    not depend on their order; and a path is unassigned exactly when no rule covers it. *)
Theorem ServiceFor_longest path :
  (∃ r, r ∈ serviceRules ∧ matches r path = true ∧ ServiceFor path = r_service r ∧
    ∀ r', r' ∈ serviceRules → matches r' path = true → r' ≠ r →
      String.length (r_prefix r') < String.length (r_prefix r)) ∨
  (ServiceFor path = Unassigned ∧ ∀ r, r ∈ serviceRules → matches r path = false).
Proof.
  unfold ServiceFor. destruct (better_spec path serviceRules (Unassigned, -1)%Z) as (_ & Hall & Hout).
  rewrite Forall_forall in Hall. destruct Hout as [Hout|(r & Hin & Hm & Hout)]; rewrite Hout in *; cbn [fst snd] in *.
  - right. split; [done|]. intros r Hr. destruct (matches r path) eqn:Hm; [|done]. specialize (Hall r Hr Hm). lia.
  - left. exists r. split_and!; [done..|]. intros r' Hin' Hm' Hne. specialize (Hall r' Hin' Hm').
    destruct (decide (String.length (r_prefix r') = String.length (r_prefix r))) as [Heq|]; [|lia].
    destruct Hne. apply (prefix_same_length _ _ path) in Heq; [|by apply matches_prefix..].
    apply list_elem_of_lookup in Hin as [i Hi], Hin' as [j Hj].
    assert (i = j) as <-; [|congruence].
    eapply (NoDup_lookup _ i j (r_prefix r)); [apply serviceRules_prefixes|..]; rewrite list_lookup_fmap, ?Hi, ?Hj; cbn; congruence.
Qed.

(** ** Keys as texts *)

Lemma upper_no_space c : c ≠ " "%char → upper_byte c ≠ " "%char.
Proof. by destruct c as [[] [] [] [] [] [] [] []]. Qed.
Lemma no_byte_cons b c s : no_byte b (String c s) = true ↔ c ≠ b ∧ no_byte b s = true.
Proof. cbn [no_byte]. rewrite andb_true_iff, negb_true_iff, bool_decide_eq_false. done. Qed.
Lemma upper_spaceless s : no_byte " " s = true → no_byte " " (to_upper s) = true.
Proof.
  induction s as [|c s IH]; [done|]. cbn [to_upper]. rewrite !no_byte_cons. intros [Hc Hs]. auto using upper_no_space.
Qed.
Lemma cut_byte_before c s a b : cut_byte c s = Some (a, b) → no_byte c a = true.
Proof.
  revert a b; induction s as [|d s IH]; intros a b; [done|]. cbn [cut_byte]. destruct (decide (d = c)) as [->|Hne]; [by intros [= <- <-]|].
  destruct (cut_byte c s) as [[a' b']|]; [|done]. intros [= <- <-]. apply no_byte_cons. eauto.
Qed.
Definition plain_key (k : Key) : Prop := no_byte " " (k_Method k) = true.
Lemma ParsePattern_plain p k : ParsePattern p = inr k → plain_key k.
Proof.
  unfold ParsePattern. destruct (cut_byte _ _) as [[m r]|] eqn:Hc; [|done]. case_match; [done|]. intros [= <-].
  apply upper_spaceless. by eapply cut_byte_before.
Qed.
Lemma Key_String_inj k k' : plain_key k → plain_key k' → Key_String k = Key_String k' → k = k'.
Proof.
  unfold plain_key, Key_String. intros Hk Hk' Hs. apply (f_equal (cut_byte " ")) in Hs.
  change (" " +:+ ?p) with (String " " p) in Hs. rewrite !cut_byte_app in Hs by done. destruct k, k'. by simplify_eq/=.
Qed.

(** ** What a valid annotations file says *)

Lemma numbered_nil {A} (name : A → string) errs again l : ∀ seen i, numbered name errs again seen i l = [] →
  NoDup (name <$> l) ∧ (∀ x, x ∈ l → seen !! name x = None ∧ ∃ j, errs j x = []).
Proof.
  induction l as [|x l IH]; intros seen i; cbn [numbered].
  { split; [constructor|]. by intros x ?%not_elem_of_nil. }
  intros [Hx [Hs Hl]%app_eq_nil]%app_eq_nil. apply IH in Hl as [Hnd Hl].
  destruct (seen !! name x) eqn:Hsx; [done|]. split.
  - constructor; [|done]. intros (y & Hy & Hin)%list_elem_of_fmap. apply Hl in Hin as [Hin _].
    rewrite Hy, lookup_insert_eq in Hin. done.
  - intros y [->|Hin]%elem_of_cons; [eauto|]. destruct (Hl y Hin) as [Hy He]. split; [|done].
    by apply lookup_insert_None in Hy as [? _].
Qed.

(** A lookup by name in a list without repeated names. *)
Lemma find_named {A B} (name : A → string) (f : A → B) (l : list A) k v : NoDup (name <$> l) →
  ('(_, x) ← list_find (λ x, name x = k) l; Some (f x)) = Some v ↔ ∃ x, x ∈ l ∧ name x = k ∧ f x = v.
Proof.
  intros Hnd. split.
  - destruct (list_find _ l) as [[i x]|] eqn:Hf; cbn; [|done]. intros [= <-].
    apply list_find_Some in Hf as (Hi & Hk & _). exists x. split; [by eapply list_elem_of_lookup_2|done].
  - intros (x & Hx & <- & <-). destruct (list_find _ l) as [[i y]|] eqn:Hf; cbn.
    + apply list_find_Some in Hf as (Hi & Hk & _). apply list_elem_of_lookup in Hx as [j Hj].
      assert (i = j) as <- by (eapply (NoDup_lookup _ i j (name x) Hnd); rewrite list_lookup_fmap, ?Hi, ?Hj; cbn; congruence).
      congruence.
    + apply list_find_None in Hf. rewrite Forall_forall in Hf. by destruct (Hf x Hx).
Qed.

Lemma valid_pattern p (f : goerr → string) l : match ParsePattern (normalPattern p) with inl err => [f err] | inr _ => [] end ++ l = [] →
  ∃ k, ParsePattern p = inr k ∧ normalPattern p = Key_String k.
Proof.
  unfold normalPattern. destruct (ParsePattern p) as [err|k] eqn:Hp; [|eauto]. rewrite Hp. done.
Qed.

(** The lookups of an annotations file that loads say what the file says. An
    endpoint is a deliberate stub, and a mock route is exempted, with a given reason,
    exactly when some entry of the section, in whatever spelling of prefix and
    placeholder names, denotes that endpoint and gives that reason; no entry is
    ambiguous. *)
Theorem annotation_lookups `{!Yaml} raw a ann k reason : yaml_Decode raw = inr a → ParseAnnotations raw = inr ann → plain_key k →
  (StubReason ann k = Some reason ↔ ∃ s, s ∈ an_Stubs a ∧ ParsePattern (st_Path s) = inr k ∧ st_Reason s = reason) ∧
  (AllowsRoute ann k = Some reason ↔
   ∃ r, r ∈ an_AllowUnmatchedRoutes a ∧ ParsePattern (ar_Route r) = inr k ∧ ar_Reason r = reason).
Proof.
  intros Hy. unfold ParseAnnotations. rewrite Hy. destruct (Validate (normalize a)) eqn:Hv; [|done]. intros [= <-] Hk.
  unfold Validate in Hv. apply app_eq_nil in Hv as [_ [Hs [_ [_ Hr]%app_eq_nil]%app_eq_nil]%app_eq_nil].
  apply numbered_nil in Hs as [Hnds Hs], Hr as [Hndr Hr]. unfold StubReason, AllowsRoute. rewrite !find_named by done.
  assert (∀ p k', ParsePattern p = inr k' → Key_String k' = Key_String k → k' = k) as Hinj.
  { intros p k' Hp. apply Key_String_inj; [by eapply ParsePattern_plain|done]. }
  split; split.
  - intros (x & Hx & Hp & <-). destruct (Hs x Hx) as [_ [j He]]. apply list_elem_of_fmap in Hx as (s & -> & Hin). cbn in *.
    apply valid_pattern in He as (k' & Hk' & Hn). exists s. split_and!; [done| |done]. rewrite Hk'. f_equal. eapply Hinj; [done|congruence].
  - intros (s & Hin & Hp & <-). eexists. split_and!; [by apply list_elem_of_fmap_2|cbn; unfold normalPattern; by rewrite Hp|done].
  - intros (x & Hx & Hp & <-). destruct (Hr x Hx) as [_ [j He]]. apply list_elem_of_fmap in Hx as (s & -> & Hin). cbn in *.
    apply valid_pattern in He as (k' & Hk' & Hn). exists s. split_and!; [done| |done]. rewrite Hk'. f_equal. eapply Hinj; [done|congruence].
  - intros (s & Hin & Hp & <-). eexists. split_and!; [by apply list_elem_of_fmap_2|cbn; unfold normalPattern; by rewrite Hp|done].
Qed.
