(* ===== verification/CoverageReport.v ===== *)
(** [cmd/pve-schemadiff/coverage]: the report, its checks and its Markdown text. *)

From S2P Require Import Prelude Json JsonText Pverr SchemaDiff Coverage.
From Stdlib Require Import ZArith Lia Ascii Floats.SpecFloat.
From stdpp Require Import options.

(** ** Rows and counts *)

(* go: cmd/pve-schemadiff/coverage/report.go#L12-L28:State *)
Inductive State := StateCovered | StateStub | StateOutOfScope | StateGap.
#[export] Instance State_eq_dec : EqDecision State.
Proof. solve_decision. Defined.
Definition state_text (st : State) : string :=
  match st with
  | StateCovered => "covered" | StateStub => "stub" | StateOutOfScope => "out of scope" | StateGap => "gap"
  end.

(* go: cmd/pve-schemadiff/coverage/report.go#Row *)
Record Row := { row_Key : Key; row_State : State; row_Note : string }.

(* go: cmd/pve-schemadiff/coverage/report.go#Counts *)
Record Counts := { ct_Covered : Z; ct_Stub : Z; ct_OutOfScope : Z; ct_Gap : Z; ct_Total : Z }.
Definition no_counts : Counts := {| ct_Covered := 0; ct_Stub := 0; ct_OutOfScope := 0; ct_Gap := 0; ct_Total := 0 |}.

(** [%.1f]: one digit after the point, ties to even. *)
Definition fmt_f1 (f : spec_float) : string :=
  match f with
  | S754_zero s => if s then "-0.0" else "0.0"
  | S754_infinity s => if s then "-Inf" else "+Inf"
  | S754_nan => "NaN"
  | S754_finite s m e =>
      let tenths := if (0 <=? e)%Z then Z.shiftl (10 * Zpos m) e else round_even (10 * Zpos m) (- e) in
      (if s then "-" else "") +:+ itoa (tenths / 10) +:+ "." +:+ itoa (tenths mod 10)
  end.
(* go: cmd/pve-schemadiff/coverage/report.go#Counts.Percent *)
Definition Percent (c : Counts) : string :=
  if (ct_Total c =? 0)%Z then "n/a" else
  fmt_f1 (SFdiv SFprec SFemax (float_mul (float64_of 100 0) (float64_of (ct_Covered c) 0)) (float64_of (ct_Total c) 0)) +:+ "%".

(* go: cmd/pve-schemadiff/coverage/report.go#Counts.add *)
Definition add (c : Counts) (st : State) : Counts :=
  {| ct_Covered := ct_Covered c + (if decide (st = StateCovered) then 1 else 0);
     ct_Stub := ct_Stub c + (if decide (st = StateStub) then 1 else 0);
     ct_OutOfScope := ct_OutOfScope c + (if decide (st = StateOutOfScope) then 1 else 0);
     ct_Gap := ct_Gap c + (if decide (st = StateGap) then 1 else 0);
     ct_Total := ct_Total c + 1 |}.

(* go: cmd/pve-schemadiff/coverage/report.go#ServiceReport *)
Record ServiceReport := { sr_Counts : Counts; sr_Name : string; sr_Rows : list Row }.
(* go: cmd/pve-schemadiff/coverage/report.go#Unmatched *)
Record Unmatched := { um_Key : Key; um_RealMethods : list string }.
(* go: cmd/pve-schemadiff/coverage/report.go#Findings *)
Record Findings := {
  f_UnmatchedRoutes : list Unmatched;
  f_AllowedRoutes : list AllowedRoute;
  f_StaleStubs : list string;
  f_StaleAllowlist : list string;
  f_StaleOutOfScope : list string
}.
(* go: cmd/pve-schemadiff/coverage/report.go#Findings.Empty *)
Definition Findings_Empty (f : Findings) : bool :=
  match f_UnmatchedRoutes f, f_StaleStubs f, f_StaleAllowlist f, f_StaleOutOfScope f with
  | [], [], [], [] => true | _, _, _, _ => false
  end.
(* go: cmd/pve-schemadiff/coverage/report.go#Report *)
Record CoverageReport := {
  cr_Baseline : BaselineInfo;
  cr_Services : list ServiceReport;
  cr_Totals : Counts;
  cr_SideChannel : list string;
  cr_RouteCount : Z;
  cr_Findings : Findings
}.

(** ** Building the report *)

(* go: cmd/pve-schemadiff/coverage/report.go#L146-L155:indexBaseline *)
Fixpoint index_from (seen : gmap Key string) (baseline : list Endpoint) : goerr + gset Key :=
  match baseline with
  | [] => inr (dom seen)
  | ep :: l =>
      let k := EndpointKey ep in
      let name := ep_Method ep +:+ " " +:+ ep_Path ep in
      match seen !! k with
      | Some prev =>
          inl (GText ("coverage: baseline endpoints " +:+ go_quote prev +:+ " and " +:+ go_quote name +:+
                      " both normalize to " +:+ Key_String k +:+ " — placeholder erasure is lossy for this baseline"))
      | None => index_from (<[k := name]> seen) l
      end
  end.
(* go: cmd/pve-schemadiff/coverage/report.go#indexBaseline *)
Definition indexBaseline (baseline : list Endpoint) : goerr + gset Key := index_from ∅ baseline.

(* go: cmd/pve-schemadiff/coverage/report.go#classify *)
Definition classify (k : Key) (isCovered : bool) (ann : Annotations) : Row :=
  if isCovered then {| row_Key := k; row_State := StateCovered; row_Note := "" |} else
  match StubReason ann k with
  | Some reason => {| row_Key := k; row_State := StateStub; row_Note := reason |}
  | None =>
      match OutOfScopeFor ann (k_Path k) with
      | Some oos =>
          {| row_Key := k; row_State := StateOutOfScope; row_Note := os_Reason oos +:+ " (" +:+ os_Doc oos +:+ ")" |}
      | None => {| row_Key := k; row_State := StateGap; row_Note := "" |}
      end
  end.

(* go: cmd/pve-schemadiff/coverage/report.go#byPathThenMethod *)
Definition byPathThenMethod (a b : Row) : Prop :=
  lex_le (k_Path (row_Key a), k_Method (row_Key a)) (k_Path (row_Key b), k_Method (row_Key b)).
#[export] Instance byPathThenMethod_dec a b : Decision (byPathThenMethod a b).
Proof. unfold byPathThenMethod. apply _. Defined.

(** Adds a value to the list a map of slices holds under a key. *)
Definition push_at {A} (k : string) (x : A) (m : gmap string (list A)) : gmap string (list A) :=
  <[k := default [] (m !! k) ++ [x]]> m.

(* go: cmd/pve-schemadiff/coverage/report.go#L186-L192:buildServices *)
Definition section (svc : string) (svcRows : list Row) : ServiceReport :=
  let rows := merge_sort byPathThenMethod svcRows in
  {| sr_Counts := foldl add no_counts (row_State <$> rows); sr_Name := svc; sr_Rows := rows |}.

Definition route_le (a b : AllowedRoute) : Prop := String.le (ar_Route a) (ar_Route b).
#[export] Instance route_le_dec a b : Decision (route_le a b).
Proof. unfold route_le. apply _. Defined.
Definition unmatched_le (a b : Unmatched) : Prop := String.le (Key_String (um_Key a)) (Key_String (um_Key b)).
#[export] Instance unmatched_le_dec a b : Decision (unmatched_le a b).
Proof. unfold unmatched_le. apply _. Defined.

Section build.
Context `{!MapOrder}.
Set Default Proof Using "Type*".

(* go: cmd/pve-schemadiff/coverage/report.go#indexByPath *)
Definition indexByPath (known : gset Key) : gmap string (list string) :=
  merge_sort String.le <$>
    foldl (λ byPath k, push_at (k_Path k) (k_Method k) byPath) ∅ (shuffle 4 (elements known)).

(* go: cmd/pve-schemadiff/coverage/report.go#L173-L177:buildServices *)
Definition service_rows (known covered : gset Key) (ann : Annotations) : gmap string (list Row) :=
  foldl (λ rows k, push_at (ServiceFor (k_Path k)) (classify k (bool_decide (k ∈ covered)) ann) rows) ∅
    (shuffle 5 (elements known)).
(** The sections, and the totals their rows add up to. *)
(* go: cmd/pve-schemadiff/coverage/report.go#buildServices *)
Definition buildServices (known covered : gset Key) (ann : Annotations) : list ServiceReport * Counts :=
  let rows := service_rows known covered ann in
  let out := omap (λ svc, section svc <$> rows !! svc) Services in
  (out, foldl (λ totals sr, foldl add totals (row_State <$> sr_Rows sr)) no_counts out).

(** The loop over the mock's routes: the keys of the annotations that were hit, the
    exempted routes and the offenders. *)
(* go: cmd/pve-schemadiff/coverage/report.go#L242-L252:findings *)
Definition route_finding (known : gset Key) (byPath : gmap string (list string)) (ann : Annotations)
    (acc : gset string * list AllowedRoute * list Unmatched) (k : Key) : gset string * list AllowedRoute * list Unmatched :=
  let '(hit, allowed, unmatched) := acc in
  if bool_decide (k ∈ known) then acc else
  match AllowsRoute ann k with
  | Some reason =>
      ({[Key_String k]} ∪ hit, allowed ++ [{| ar_Route := Key_String k; ar_Reason := reason |}], unmatched)
  | None => (hit, allowed, unmatched ++ [{| um_Key := k; um_RealMethods := default [] (byPath !! k_Path k) |}])
  end.

(* go: cmd/pve-schemadiff/coverage/report.go#matchesAny *)
Definition matchesAny (set : gset Key) (prefix : string) : bool :=
  existsb (λ k, matches {| r_prefix := prefix; r_service := ""; r_exact := false |} (k_Path k)) (shuffle 6 (elements set)).

(* go: cmd/pve-schemadiff/coverage/report.go#findings *)
Definition findings (known : gset Key) (byPath : gmap string (list string)) (covered : gset Key) (ann : Annotations) : Findings :=
  let '(allowedHit, allowed, unmatched) :=
    foldl (route_finding known byPath ann) (∅, [], []) (shuffle 7 (elements covered)) in
  {| f_UnmatchedRoutes := merge_sort unmatched_le unmatched;
     f_AllowedRoutes := merge_sort route_le allowed;
     f_StaleStubs := merge_sort String.le (st_Path <$>
       filter (λ s, match ParsePattern (st_Path s) with inr k => bool_decide (k ∉ known) | inl _ => false end = true) (an_Stubs ann));
     f_StaleAllowlist := merge_sort String.le (ar_Route <$>
       filter (λ r, ar_Route r ∉ allowedHit) (an_AllowUnmatchedRoutes ann));
     f_StaleOutOfScope := merge_sort String.le (os_Prefix <$>
       filter (λ o, matchesAny known (os_Prefix o) = false) (an_OutOfScope ann)) |}.

(* go: cmd/pve-schemadiff/coverage/report.go#Build *)
Definition Build (baseline : list Endpoint) (routes : list string) (ann : Annotations) : goerr + CoverageReport :=
  match ParsePatterns routes with
  | inl err => inl err
  | inr routeKeys =>
      let covered : gset Key := list_to_set routeKeys in
      match indexBaseline baseline with
      | inl err => inl err
      | inr known =>
          let byPath := indexByPath known in
          let '(services, totals) := buildServices known covered ann in
          inr {| cr_Baseline := an_Baseline ann; cr_Services := services; cr_Totals := totals;
                 cr_SideChannel := an_SideChannel ann; cr_RouteCount := Z.of_nat (size covered);
                 cr_Findings := findings known byPath covered ann |}
      end
  end.
End build.

(** ** Checks *)

Definition line (s : string) : string := nl +:+ "  " +:+ s.
(* go: cmd/pve-schemadiff/coverage/checks.go#FabricationError.Error *)
Definition FabricationError_Error (routes : list Unmatched) : string :=
  "coverage: " +:+ itoa (Z.of_nat (length routes)) +:+ " mockpve route(s) reference endpoints the baseline does not hold" +:+
  join "" ((λ u, line (Key_String (um_Key u) +:+
    match um_RealMethods u with
    | [] => " — no such path on PVE (fabricated path)"
    | ms => " — PVE serves only " +:+ join ", " ms +:+ " at this path (wrong verb)"
    end)) <$> routes) +:+
  nl +:+ "fix the mock to mirror real PVE, or allowlist the route with a reason in the annotations file".
(* go: cmd/pve-schemadiff/coverage/checks.go#StaleAnnotationsError.Error *)
Definition StaleAnnotationsError_Error (stubs allowlist outOfScope : list string) : string :=
  "coverage: stale annotations (they match nothing; delete them)" +:+
  join "" ((λ s, line ("stubs: " +:+ s +:+ " is not in the baseline")) <$> stubs) +:+
  join "" ((λ s, line ("allow_unmatched_routes: " +:+ s +:+ " is not an unmatched mockpve route")) <$> allowlist) +:+
  join "" ((λ s, line ("out_of_scope: " +:+ s +:+ " matches no baseline endpoint")) <$> outOfScope).

(** [nil] ([None]) or the joined text of what was found. *)
(* go: cmd/pve-schemadiff/coverage/checks.go#Report.Check *)
Definition Check_Report (r : CoverageReport) : option goerr :=
  let f := cr_Findings r in
  let errs :=
    match f_UnmatchedRoutes f with [] => [] | routes => [FabricationError_Error routes] end ++
    match f_StaleStubs f, f_StaleAllowlist f, f_StaleOutOfScope f with
    | [], [], [] => []
    | stubs, allowlist, outOfScope => [StaleAnnotationsError_Error stubs allowlist outOfScope]
    end in
  match errs with [] => None | _ => Some (GText (join nl errs)) end.

(* go: cmd/pve-schemadiff/coverage/checks.go#DriftError *)
Record DriftError := { dr_Path : string; dr_Line : Z; dr_Want : string; dr_Got : string }.
(* go: cmd/pve-schemadiff/coverage/checks.go#DriftError.Error *)
Definition DriftError_Error (e : DriftError) : string :=
  if (dr_Line e =? 0)%Z then
    "coverage: " +:+ dr_Path e +:+ " is stale (length differs); regenerate with `just coverage`"
  else
    "coverage: " +:+ dr_Path e +:+ " is stale at line " +:+ itoa (dr_Line e) +:+ "; regenerate with `just coverage`" +:+
    line ("committed: " +:+ dr_Got e) +:+ line ("expected:  " +:+ dr_Want e).

(** The first pair of lines that differ, numbered from [n]. *)
Fixpoint first_difference (n : Z) (got want : list string) : option (Z * string * string) :=
  match got, want with
  | g :: got, w :: want => if decide (g = w) then first_difference (n + 1) got want else Some (n, g, w)
  | _, _ => None
  end.
(* go: cmd/pve-schemadiff/coverage/checks.go#CheckDrift *)
Definition CheckDrift (path committed regenerated : string) : option DriftError :=
  if committed =s regenerated then None else
  match first_difference 1 (split_byte (ascii_of_nat 10) committed) (split_byte (ascii_of_nat 10) regenerated) with
  | Some (n, got, want) => Some {| dr_Path := path; dr_Line := n; dr_Want := want; dr_Got := got |}
  | None => Some {| dr_Path := path; dr_Line := 0; dr_Want := ""; dr_Got := "" |}
  end.

(** ** Markdown *)

(* go: cmd/pve-schemadiff/coverage/render.go#GeneratedMarker *)
Definition GeneratedMarker : string := "<!-- Generated by `just coverage`. DO NOT EDIT — regenerate instead. -->".

(* go: cmd/pve-schemadiff/coverage/render.go#cell *)
Fixpoint cell (s : string) : string :=
  match s with
  | "" => ""
  | String c s' => if bool_decide (c = "|"%char) then "\|" +:+ cell s' else String c (cell s')
  end.

(** A table row, and lines that each end with a newline. *)
Definition table_row (cells : list string) : string := "| " +:+ join " | " cells +:+ " |" +:+ nl.
Definition lines (l : list string) : string := join "" ((λ s, s +:+ nl) <$> l).
Definition strong (s : string) : string := "**" +:+ s +:+ "**".
Definition code (s : string) : string := "`" +:+ s +:+ "`".

(* go: cmd/pve-schemadiff/coverage/render.go#Report.writeHeader *)
Definition writeHeader (r : CoverageReport) : string :=
  let t := cr_Totals r in
  let b := cr_Baseline r in
  GeneratedMarker +:+ nl +:+ nl +:+ "# Proxmox VE API coverage" +:+ nl +:+ nl +:+
  "The SDK reaches " +:+ strong (itoa (ct_Covered t) +:+ " of " +:+ itoa (ct_Total t) +:+ " endpoints (" +:+ Percent t +:+ ")") +:+
  " in the Proxmox VE " +:+ bi_PVEVersion b +:+ " REST API." +:+ nl +:+ nl +:+
  lines ["The percentage is **not a target**. It is measured against the *entire* REST";
         "API, including surfaces no SDK consumer has asked for; driving it up for its own";
         "sake would mean shipping untested breadth. Read it as a map of what exists, and";
         "use the per-service tables to find whether a specific endpoint is reachable."; ""] +:+
  lines ["| | |"; "|---|---|"] +:+
  table_row ["Measured against";
    "Proxmox VE " +:+ bi_PVEVersion b +:+ " (" +:+ code (bi_Source b) +:+ ", captured " +:+ bi_Captured b +:+ ")"] +:+
  table_row ["Denominator"; itoa (ct_Total t) +:+ " endpoints in `cmd/pve-schemadiff/testdata/baseline.json`"] +:+
  table_row ["Numerator"; itoa (cr_RouteCount r) +:+ " distinct `mockpve` routes (" +:+ itoa (ct_Covered t) +:+
    " matched a real endpoint)"] +:+
  table_row ["Regenerate"; "`just coverage`"] +:+ nl +:+
  lines ["A **covered** endpoint has a `mockpve` route, which by this repo's discipline of";
         "testing every op against `mockpve` means an SDK method drives it. A **stub** is a";
         "deliberate `pverr.ErrUnsupported`, with its reason. **Out of scope** is a decision,";
         "with the document that made it. Everything else is a **gap** — including families";
         "nobody has triaged yet."; ""].

Definition count_cells (c : Counts) : list string :=
  [itoa (ct_Covered c); itoa (ct_Stub c); itoa (ct_OutOfScope c); itoa (ct_Gap c); itoa (ct_Total c); Percent c].
(* go: cmd/pve-schemadiff/coverage/render.go#Report.writeSummary *)
Definition writeSummary (r : CoverageReport) : string :=
  "## Summary" +:+ nl +:+ nl +:+ table_row ["Service"; "Covered"; "Stub"; "Out of scope"; "Gap"; "Total"; "Share"] +:+
  "|---|--:|--:|--:|--:|--:|--:|" +:+ nl +:+
  join "" ((λ s, table_row (sr_Name s :: count_cells (sr_Counts s))) <$> cr_Services r) +:+
  table_row (strong <$> "total" :: count_cells (cr_Totals r)) +:+ nl.

(* go: cmd/pve-schemadiff/coverage/render.go#Report.writeSideChannel *)
Definition writeSideChannel (r : CoverageReport) : string :=
  match cr_SideChannel r with
  | [] => ""
  | l =>
      lines ["## Covered outside REST"; "";
             "PVE serves no endpoint for these; the SDK covers them over the `proxmox/ssh`";
             "side channel, so they appear in no table below."; ""] +:+
      lines ((λ s, "- " +:+ s) <$> l) +:+ nl
  end.

(* go: cmd/pve-schemadiff/coverage/render.go#Report.writeAllowlisted *)
Definition writeAllowlisted (r : CoverageReport) : string :=
  match f_AllowedRoutes (cr_Findings r) with
  | [] => ""
  | l =>
      lines ["## Allowlisted unmatched routes"; "";
             "`mockpve` serves these, but the baseline holds no such endpoint. Each is an";
             "exemption from the fabrication guard, and each is debt: either the baseline is";
             "stale or the route is wrong."; ""; "| Route | Reason |"; "|---|---|"] +:+
      join "" ((λ a, table_row [code (ar_Route a); cell (ar_Reason a)]) <$> l) +:+ nl
  end.

Definition detail_row (row : Row) : string :=
  table_row [k_Method (row_Key row); code (k_Path (row_Key row)); state_text (row_State row); cell (row_Note row)].
(* go: cmd/pve-schemadiff/coverage/render.go#Report.writeServices *)
Definition writeServices (r : CoverageReport) : string :=
  "## Per-service detail" +:+ nl +:+
  join "" ((λ s, nl +:+ "### " +:+ sr_Name s +:+ nl +:+ nl +:+
    itoa (ct_Covered (sr_Counts s)) +:+ " of " +:+ itoa (ct_Total (sr_Counts s)) +:+ " covered (" +:+
    Percent (sr_Counts s) +:+ ")" +:+ nl +:+ nl +:+
    table_row ["Method"; "Path"; "State"; "Note"] +:+ "|---|---|---|---|" +:+ nl +:+
    join "" (detail_row <$> sr_Rows s)) <$> cr_Services r).

(* go: cmd/pve-schemadiff/coverage/render.go#Report.Markdown *)
Definition Markdown (r : CoverageReport) : string :=
  writeHeader r +:+ writeSummary r +:+ writeSideChannel r +:+ writeAllowlisted r +:+ writeServices r.

(** ** Walk orders do not matter *)

Lemma push_fold {A K} (f : K → string) (g : K → A) (l : list K) s :
  foldl (λ m k, push_at (f k) (g k) m) ∅ l !! s =
  match g <$> filter (λ k, f k = s) l with [] => None | xs => Some xs end.
Proof.
  induction l as [|k l IH] using rev_ind; [done|]. rewrite foldl_app. cbn [foldl]. unfold push_at at 1.
  rewrite filter_app, fmap_app. destruct (decide (f k = s)) as [<-|Hne].
  - rewrite lookup_insert_eq, IH, filter_cons, decide_True by done. cbn. by destruct (g <$> _).
  - rewrite lookup_insert_ne, IH, filter_cons, decide_False by done. cbn. by rewrite app_nil_r.
Qed.

Lemma sort_unique {A} (R : relation A) `{!∀ x y, Decision (R x y)} `{!Transitive R} `{!Total R} (l1 l2 : list A) :
  (∀ x y, x ∈ l1 → y ∈ l1 → R x y → R y x → x = y) → l1 ≡ₚ l2 → merge_sort R l1 = merge_sort R l2.
Proof.
  intros Ha Hp. apply (StronglySorted_unique_strong R).
  - intros x y Hx Hy. rewrite merge_sort_Permutation in Hx. rewrite merge_sort_Permutation, <- Hp in Hy. auto.
  - by apply StronglySorted_merge_sort.
  - by apply StronglySorted_merge_sort.
  - by rewrite !merge_sort_Permutation.
Qed.

#[export] Instance byPathThenMethod_total : Total byPathThenMethod.
Proof. intros a b. apply (total lex_le). Qed.
#[export] Instance byPathThenMethod_trans : Transitive byPathThenMethod.
Proof. intros a b c. unfold byPathThenMethod. apply transitivity. Qed.
#[export] Instance route_le_total : Total route_le.
Proof. intros a b. apply (total String.le). Qed.
#[export] Instance route_le_trans : Transitive route_le.
Proof. intros a b c. unfold route_le. apply transitivity. Qed.
#[export] Instance unmatched_le_total : Total unmatched_le.
Proof. intros a b. apply (total String.le). Qed.
#[export] Instance unmatched_le_trans : Transitive unmatched_le.
Proof. intros a b c. unfold unmatched_le. apply transitivity. Qed.

Lemma row_order_anti a b : byPathThenMethod a b → byPathThenMethod b a → row_Key a = row_Key b.
Proof.
  intros H1 H2. pose proof (anti_symm lex_le _ _ H1 H2) as H. destruct (row_Key a), (row_Key b). by simplify_eq/=.
Qed.
Lemma classify_key k b ann : row_Key (classify k b ann) = k.
Proof. unfold classify. by repeat case_match. Qed.
Lemma section_proper svc l1 l2 : NoDup (row_Key <$> l1) → l1 ≡ₚ l2 → section svc l1 = section svc l2.
Proof.
  intros Hnd Hp. unfold section. rewrite (sort_unique byPathThenMethod l1 l2); [done| |done].
  intros x y Hx Hy H1 H2. pose proof (row_order_anti _ _ H1 H2) as Hk.
  apply list_elem_of_lookup in Hx as [i Hi], Hy as [j Hj].
  assert (i = j) as <-; [|congruence]. eapply (NoDup_lookup _ i j (row_Key x) Hnd); rewrite list_lookup_fmap, ?Hi, ?Hj; cbn; congruence.
Qed.

(** A map of lists whose entries are permuted gives the same after a canonical step. *)
Lemma push_fold_perm {A K} (f : K → string) (g : K → A) (l1 l2 : list K) s : l1 ≡ₚ l2 →
  option_Forall2 Permutation (foldl (λ m k, push_at (f k) (g k) m) ∅ l1 !! s) (foldl (λ m k, push_at (f k) (g k) m) ∅ l2 !! s).
Proof.
  intros Hp. rewrite !push_fold. assert (g <$> filter (λ k, f k = s) l1 ≡ₚ g <$> filter (λ k, f k = s) l2) as H by by rewrite Hp.
  revert H. generalize (g <$> filter (λ k, f k = s) l1) (g <$> filter (λ k, f k = s) l2). intros xs ys H.
  destruct xs as [|x xs]; [apply Permutation_nil in H as ->; constructor|].
  destruct ys as [|y ys]; [symmetry in H; by apply Permutation_nil in H|]. by constructor.
Qed.

Lemma walks_perm (o1 o2 : MapOrder) n (X : gset Key) : @shuffle o1 _ n (elements X) ≡ₚ @shuffle o2 _ n (elements X).
Proof. by rewrite !shuffle_perm. Qed.

Lemma indexByPath_order (o1 o2 : MapOrder) known : @indexByPath o1 known = @indexByPath o2 known.
Proof.
  unfold indexByPath. apply map_eq. intros s. rewrite !lookup_fmap.
  destruct (push_fold_perm k_Path k_Method _ _ s (walks_perm o1 o2 4 known)) as [x y Hxy|]; [|done].
  cbn. f_equal. apply (sort_unique String.le); [|done]. intros ? ? _ _. apply (anti_symm String.le).
Qed.

(** The rows of a service, in the order the baseline is walked. *)
Definition rows_of `{!MapOrder} (known covered : gset Key) (ann : Annotations) (svc : string) : list Row :=
  (λ k, classify k (bool_decide (k ∈ covered)) ann) <$> filter (λ k, ServiceFor (k_Path k) = svc) (shuffle 5 (elements known)).
Lemma service_rows_spec `{!MapOrder} known covered ann svc :
  service_rows known covered ann !! svc = match rows_of known covered ann svc with [] => None | xs => Some xs end.
Proof. apply (push_fold (λ k, ServiceFor (k_Path k)) (λ k, classify k (bool_decide (k ∈ covered)) ann)). Qed.
Lemma rows_of_keys `{!MapOrder} known covered ann svc :
  row_Key <$> rows_of known covered ann svc = filter (λ k, ServiceFor (k_Path k) = svc) (shuffle 5 (elements known)).
Proof.
  unfold rows_of. rewrite <- list_fmap_compose, (list_fmap_ext _ id); [apply list_fmap_id|]. intros. apply classify_key.
Qed.
Lemma rows_of_NoDup `{!MapOrder} known covered ann svc : NoDup (row_Key <$> rows_of known covered ann svc).
Proof. rewrite rows_of_keys. apply NoDup_filter. rewrite shuffle_perm. apply NoDup_elements. Qed.
Lemma rows_of_perm (o1 o2 : MapOrder) known covered ann svc :
  @rows_of o1 known covered ann svc ≡ₚ @rows_of o2 known covered ann svc.
Proof. unfold rows_of. by rewrite (walks_perm o1 o2). Qed.

(** The section of a service: none when it has no row. *)
Definition section_of `{!MapOrder} (known covered : gset Key) (ann : Annotations) (svc : string) : option ServiceReport :=
  match rows_of known covered ann svc with [] => None | xs => Some (section svc xs) end.
Definition totals_of (out : list ServiceReport) : Counts :=
  foldl (λ totals sr, foldl add totals (row_State <$> sr_Rows sr)) no_counts out.
Lemma buildServices_sections `{!MapOrder} known covered ann :
  let out := omap (section_of known covered ann) Services in
  buildServices known covered ann = (out, totals_of out).
Proof.
  unfold buildServices. generalize Services as svcs. intros svcs.
  assert (omap (λ svc, section svc <$> service_rows known covered ann !! svc) svcs = omap (section_of known covered ann) svcs) as ->;
    [|done].
  induction svcs as [|svc l IH]; [done|]. cbn [omap list_omap].
  assert (section svc <$> service_rows known covered ann !! svc = section_of known covered ann svc) as ->; [|by rewrite IH].
  rewrite service_rows_spec. unfold section_of. by destruct (rows_of _ _ _ svc).
Qed.
Lemma section_of_order (o1 o2 : MapOrder) known covered ann svc :
  @section_of o1 known covered ann svc = @section_of o2 known covered ann svc.
Proof.
  unfold section_of. pose proof (rows_of_perm o1 o2 known covered ann svc) as Hp.
  pose proof (@rows_of_NoDup o1 known covered ann svc) as Hnd. revert Hp Hnd.
  generalize (@rows_of o1 known covered ann svc) (@rows_of o2 known covered ann svc). intros xs ys Hp Hnd.
  destruct xs as [|x xs]; [by apply Permutation_nil in Hp as ->|].
  destruct ys as [|y ys]; [symmetry in Hp; by apply Permutation_nil in Hp|]. f_equal. by apply section_proper.
Qed.

Lemma buildServices_order (o1 o2 : MapOrder) known covered ann :
  @buildServices o1 known covered ann = @buildServices o2 known covered ann.
Proof.
  rewrite !buildServices_sections. cbv zeta. generalize Services as svcs. intros svcs.
  assert (omap (@section_of o1 known covered ann) svcs = omap (@section_of o2 known covered ann) svcs) as ->; [|done].
  induction svcs as [|svc l IH]; [done|]. cbn [omap list_omap]. by rewrite (section_of_order o1 o2), IH.
Qed.

(** The outcome of the loop over the routes. *)
Definition exempted (known : gset Key) (ann : Annotations) (k : Key) : option AllowedRoute :=
  if bool_decide (k ∈ known) then None else
  reason ← AllowsRoute ann k; Some {| ar_Route := Key_String k; ar_Reason := reason |}.
Definition offender (known : gset Key) (byPath : gmap string (list string)) (ann : Annotations) (k : Key) : option Unmatched :=
  if bool_decide (k ∈ known) then None else
  match AllowsRoute ann k with
  | Some _ => None
  | None => Some {| um_Key := k; um_RealMethods := default [] (byPath !! k_Path k) |}
  end.
Lemma route_findings known byPath ann l :
  foldl (route_finding known byPath ann) (∅, [], []) l =
  (list_to_set (ar_Route <$> omap (exempted known ann) l), omap (exempted known ann) l, omap (offender known byPath ann) l).
Proof.
  induction l as [|k l IH] using rev_ind; [done|]. rewrite foldl_app, IH, !omap_app. cbn [foldl]. unfold route_finding at 1.
  cbn [omap list_omap]. generalize (omap (exempted known ann) l) (omap (offender known byPath ann) l). intros al ul.
  unfold exempted, offender. destruct (bool_decide (k ∈ known)); [by rewrite !app_nil_r|].
  destruct (AllowsRoute ann k) as [reason|]; cbn; rewrite ?app_nil_r; [|done].
  f_equal. f_equal. rewrite fmap_app, list_to_set_app_L. cbn. set_solver.
Qed.

(** ** Inputs *)

Lemma ParsePatterns_spec ps ks : ParsePatterns ps = inr ks ↔ Forall2 (λ p k, ParsePattern p = inr k) ps ks.
Proof.
  revert ks; induction ps as [|p ps IH]; intros ks; cbn [ParsePatterns].
  - split; [by intros [= <-]|by inversion 1].
  - split.
    + destruct (ParsePattern p) as [|k] eqn:Hp; [done|]. destruct (ParsePatterns ps) as [|ks'] eqn:Hps; [done|].
      intros [= <-]. constructor; [done|]. by apply IH.
    + inversion 1 as [|? k ? ks' Hp Hps]; subst. rewrite Hp. apply IH in Hps. by rewrite Hps.
Qed.
Lemma ParsePatterns_plain ps ks : ParsePatterns ps = inr ks → Forall plain_key ks.
Proof. intros H%ParsePatterns_spec. induction H; constructor; [by eapply ParsePattern_plain|done]. Qed.
Lemma elem_of_patterns ps ks k : ParsePatterns ps = inr ks → k ∈ ks ↔ ∃ p, p ∈ ps ∧ ParsePattern p = inr k.
Proof.
  intros H%ParsePatterns_spec. induction H as [|p k' ps ks Hp _ IH].
  - split; [by intros ?%not_elem_of_nil|by intros (? & ?%not_elem_of_nil & _)].
  - rewrite elem_of_cons, IH. split; [intros [->|(q & ? & ?)]; [exists p|exists q]; rewrite elem_of_cons; auto|].
    intros (q & [->|Hq]%elem_of_cons & Hk); [left; congruence|eauto].
Qed.

Lemma index_from_spec seen b known : index_from seen b = inr known ↔
  NoDup (EndpointKey <$> b) ∧ Forall (λ k, seen !! k = None) (EndpointKey <$> b) ∧
  known = dom seen ∪ list_to_set (EndpointKey <$> b).
Proof.
  revert seen; induction b as [|ep b IH]; intros seen; cbn [index_from fmap list_fmap].
  { split; [intros [= <-]; split_and!; [constructor..|set_solver]|intros (_ & _ & ->); f_equal; set_solver]. }
  destruct (seen !! EndpointKey ep) eqn:Hs.
  { split; [done|]. intros (_ & Hn%Forall_inv & _). congruence. }
  rewrite IH, NoDup_cons, Forall_cons, dom_insert_L. cbn [list_to_set]. split.
  - intros (Hnd & Hf & ->). split_and!; [|done|done| |set_solver].
    + intros Hin. rewrite Forall_forall in Hf. specialize (Hf _ Hin). by rewrite lookup_insert_eq in Hf.
    + eapply Forall_impl; [exact Hf|]. by intros k [? _]%lookup_insert_None.
  - intros ((Hnin & Hnd) & (_ & Hf) & ->). split_and!; [done| |set_solver].
    apply Forall_forall. intros k Hk. rewrite Forall_forall in Hf. apply lookup_insert_None. split; [auto|]. congruence.
Qed.
Lemma indexBaseline_spec b known :
  indexBaseline b = inr known ↔ NoDup (EndpointKey <$> b) ∧ known = list_to_set (EndpointKey <$> b).
Proof.
  unfold indexBaseline. rewrite index_from_spec, dom_empty_L, union_empty_l_L. split; [naive_solver|].
  intros [? ?]. split_and!; [done| |done]. apply Forall_forall. intros. apply lookup_empty.
Qed.

Lemma AllowsRoute_route known ann k a : exempted known ann k = Some a → ar_Route a = Key_String k.
Proof.
  unfold exempted. case_bool_decide; [done|]. destruct (AllowsRoute ann k); cbn; [|done]. by intros [= <-].
Qed.
Lemma offender_key known byPath ann k u : offender known byPath ann k = Some u → um_Key u = k.
Proof. unfold offender. case_bool_decide; [done|]. destruct (AllowsRoute ann k); [done|]. by intros [= <-]. Qed.

Lemma findings_order (o1 o2 : MapOrder) known byPath covered ann : Forall plain_key (elements covered) →
  @findings o1 known byPath covered ann = @findings o2 known byPath covered ann.
Proof.
  intros Hplain. unfold findings. rewrite !route_findings. pose proof (walks_perm o1 o2 7 covered) as Hp.
  assert (∀ prefix, @matchesAny o1 known prefix = @matchesAny o2 known prefix) as Hm.
  { intros prefix. unfold matchesAny. apply Bool.eq_iff_eq_true. rewrite !existsb_exists. setoid_rewrite <- list_elem_of_In.
    by setoid_rewrite shuffle_perm. }
  assert (∀ k, k ∈ @shuffle o1 _ 7 (elements covered) → plain_key k) as Hin.
  { intros k Hk. rewrite shuffle_perm in Hk. rewrite Forall_forall in Hplain. auto. }
  f_equal.
  - apply (sort_unique unmatched_le); [|by rewrite Hp].
    intros x y (k & Hk & Hx)%list_elem_of_omap (k' & Hk' & Hy)%list_elem_of_omap H1 H2.
    pose proof (anti_symm String.le _ _ H1 H2) as He. pose proof (offender_key _ _ _ _ _ Hx) as <-. pose proof (offender_key _ _ _ _ _ Hy) as <-.
    apply Key_String_inj in He; [|auto..]. congruence.
  - apply (sort_unique route_le); [|by rewrite Hp].
    intros x y (k & Hk & Hx)%list_elem_of_omap (k' & Hk' & Hy)%list_elem_of_omap H1 H2.
    pose proof (anti_symm String.le _ _ H1 H2) as He.
    rewrite (AllowsRoute_route _ _ _ _ Hx), (AllowsRoute_route _ _ _ _ Hy) in He. apply Key_String_inj in He; [|auto..]. congruence.
  - f_equal. f_equal. apply list_filter_iff. intros r. by rewrite Hp.
  - f_equal. f_equal. apply list_filter_iff. intros r. by rewrite Hm.
Qed.

(** The report is a function of what is measured. For a baseline and a route table
    listed in any order, and whatever order the program's maps are walked in, the
    report is the same, down to the order of every section, row, verb and finding; so
    its Markdown is the same byte for byte, which the drift check relies on. *)
Lemma Build_deterministic (o1 o2 : MapOrder) b1 b2 r1 r2 ann rep : b1 ≡ₚ b2 → (∀ p, p ∈ r1 ↔ p ∈ r2) →
  @Build o1 b1 r1 ann = inr rep → @Build o2 b2 r2 ann = inr rep ∧
  ∀ rep', @Build o2 b2 r2 ann = inr rep' → Markdown rep' = Markdown rep.
Proof.
  intros Hb Hr H1. assert (@Build o2 b2 r2 ann = inr rep) as ->; [|by split; [|intros ? [= <-]]].
  revert H1. unfold Build. destruct (ParsePatterns r1) as [|ks1] eqn:Hk1; [done|].
  assert (∃ ks2, ParsePatterns r2 = inr ks2) as [ks2 Hk2].
  { assert (Forall (λ p, ∃ k, ParsePattern p = inr k) r2) as Hex.
    { apply Forall_forall. intros p Hp%Hr. apply ParsePatterns_spec in Hk1. apply list_elem_of_lookup in Hp as [i Hi].
      destruct (Forall2_lookup_l _ _ _ _ _ Hk1 Hi) as (k & _ & Hk). eauto. }
    clear -Hex. induction Hex as [|p ps [k Hk] _ [ks IH]]; [by exists []|]. exists (k :: ks). cbn. by rewrite Hk, IH. }
  rewrite Hk2.
  assert ((list_to_set ks2 : gset Key) = list_to_set ks1) as ->.
  { apply set_eq. intros k. rewrite !elem_of_list_to_set, (elem_of_patterns _ _ _ Hk1), (elem_of_patterns _ _ _ Hk2).
    by setoid_rewrite Hr. }
  destruct (indexBaseline b1) as [|known] eqn:Hi; [done|]. apply indexBaseline_spec in Hi as [Hnd ->].
  assert (indexBaseline b2 = inr (list_to_set (EndpointKey <$> b1))) as ->.
  { apply indexBaseline_spec. by rewrite <- Hb. }
  rewrite (buildServices_order o1 o2), (indexByPath_order o1 o2), (findings_order o1 o2); [done|].
  apply ParsePatterns_plain in Hk1. apply Forall_forall. intros k Hk%elem_of_elements%elem_of_list_to_set.
  rewrite Forall_forall in Hk1. auto.
Qed.

(** ** What a report holds *)

Lemma Services_NoDup : NoDup Services.
Proof. by apply (bool_decide_unpack _); vm_compute. Qed.
Lemma rule_services : Forall (λ r, r_service r ∈ Services) serviceRules.
Proof. by apply (bool_decide_unpack _); vm_compute. Qed.
Lemma ServiceFor_listed path : ServiceFor path ∈ Services.
Proof.
  unfold ServiceFor. destruct (better_spec path serviceRules (Unassigned, -1)%Z) as (_ & _ & [->|(r & Hin & _ & ->)]).
  - unfold Services. rewrite elem_of_app. right. by left.
  - pose proof rule_services as H. rewrite Forall_forall in H. by apply H.
Qed.

(** A list grouped by a function is the list. *)
Lemma grouped {A} (f : A → string) svcs (l : list A) : NoDup svcs → (∀ x, x ∈ l → f x ∈ svcs) →
  concat ((λ s, filter (λ x, f x = s) l) <$> svcs) ≡ₚ l.
Proof.
  intros Hnd. revert l. induction Hnd as [|s svcs Hs Hnd IH]; intros l Hl.
  { destruct l as [|x l]; [done|]. destruct (not_elem_of_nil (f x)). apply Hl. by left. }
  cbn. trans (filter (λ x, f x = s) l ++ filter (λ x, ¬ f x = s) l); [|apply filter_app_complement]. f_equiv.
  rewrite <- (IH (filter (λ x, ¬ f x = s) l)).
  - apply Permutation_refl'. f_equal. apply list_fmap_ext. intros i s' Hi%list_elem_of_lookup_2.
    rewrite list_filter_filter. apply list_filter_iff. intros x. split; [|by intros [? _]]. intros Hx. split; [done|]. congruence.
  - intros x [Hx Hin]%list_elem_of_filter. specialize (Hl x Hin). apply elem_of_cons in Hl as [?|?]; done.
Qed.

(** The counts of a list of rows. *)
Definition with_state (st : State) (rows : list Row) : Z := Z.of_nat (length (filter (λ r, row_State r = st) rows)).
Definition tally (rows : list Row) : Counts :=
  {| ct_Covered := with_state StateCovered rows; ct_Stub := with_state StateStub rows;
     ct_OutOfScope := with_state StateOutOfScope rows; ct_Gap := with_state StateGap rows;
     ct_Total := Z.of_nat (length rows) |}.
Definition plus (a b : Counts) : Counts :=
  {| ct_Covered := ct_Covered a + ct_Covered b; ct_Stub := ct_Stub a + ct_Stub b;
     ct_OutOfScope := ct_OutOfScope a + ct_OutOfScope b; ct_Gap := ct_Gap a + ct_Gap b; ct_Total := ct_Total a + ct_Total b |}.

Lemma with_state_app st l1 l2 : with_state st (l1 ++ l2) = (with_state st l1 + with_state st l2)%Z.
Proof. unfold with_state. rewrite filter_app, length_app. lia. Qed.
Lemma with_state_one st r : with_state st [r] = if decide (row_State r = st) then 1%Z else 0%Z.
Proof. unfold with_state. rewrite filter_cons. by destruct (decide _). Qed.
Lemma tally_app l1 l2 : tally (l1 ++ l2) = plus (tally l1) (tally l2).
Proof. unfold tally, plus; cbn. rewrite !with_state_app, length_app. f_equal; lia. Qed.
Lemma add_tally rows r : add (tally rows) (row_State r) = tally (rows ++ [r]).
Proof. rewrite tally_app. unfold add, plus, tally; cbn. rewrite !with_state_one. by f_equal. Qed.
Lemma foldl_add_tally c rows l : c = tally rows → foldl add c (row_State <$> l) = tally (rows ++ l).
Proof.
  revert c rows; induction l as [|r l IH]; intros c rows ->; cbn; [by rewrite app_nil_r|].
  rewrite (IH _ (rows ++ [r])) by apply add_tally. by rewrite <- app_assoc.
Qed.
Lemma tally_sum rows : (ct_Covered (tally rows) + ct_Stub (tally rows) + ct_OutOfScope (tally rows) + ct_Gap (tally rows) =
  ct_Total (tally rows))%Z.
Proof.
  induction rows as [|r rows IH]; [done|]. change (r :: rows) with ([r] ++ rows). rewrite tally_app.
  assert (ct_Covered (tally [r]) + ct_Stub (tally [r]) + ct_OutOfScope (tally [r]) + ct_Gap (tally [r]) = ct_Total (tally [r]))%Z
    as H1 by by destruct r as [? [] ?].
  unfold plus. cbn [ct_Covered ct_Stub ct_OutOfScope ct_Gap ct_Total]. lia.
Qed.
Lemma totals_tally out : totals_of out = tally (concat (sr_Rows <$> out)).
Proof.
  unfold totals_of. assert (∀ c rows, c = tally rows →
    foldl (λ totals sr, foldl add totals (row_State <$> sr_Rows sr)) c out = tally (rows ++ concat (sr_Rows <$> out))) as H.
  { induction out as [|sr out IH]; intros c rows ->; cbn; [by rewrite app_nil_r|].
    rewrite (IH _ (rows ++ sr_Rows sr)) by by apply foldl_add_tally. by rewrite <- app_assoc. }
  by apply (H no_counts []).
Qed.

Lemma section_rows svc l : sr_Rows (section svc l) ≡ₚ l.
Proof. apply merge_sort_Permutation. Qed.
Lemma section_of_rows `{!MapOrder} known covered ann svcs :
  concat (sr_Rows <$> omap (section_of known covered ann) svcs) ≡ₚ concat (rows_of known covered ann <$> svcs).
Proof.
  induction svcs as [|svc l IH]; [done|]. cbn. unfold section_of at 1.
  destruct (rows_of known covered ann svc) as [|x xs]; cbn [fmap list_fmap concat]; [done|].
  by rewrite section_rows, IH.
Qed.
Lemma all_rows `{!MapOrder} known covered ann :
  concat (sr_Rows <$> (buildServices known covered ann).1) ≡ₚ
  (λ k, classify k (bool_decide (k ∈ covered)) ann) <$> shuffle 5 (elements known).
Proof.
  rewrite buildServices_sections. cbv zeta. cbn [fst]. rewrite section_of_rows.
  assert (∀ svcs, concat (rows_of known covered ann <$> svcs) = (λ k, classify k (bool_decide (k ∈ covered)) ann) <$>
    concat ((λ svc, filter (λ k, ServiceFor (k_Path k) = svc) (shuffle 5 (elements known))) <$> svcs)) as ->.
  { intros svcs. induction svcs as [|svc l IH]; [done|]. cbn [fmap list_fmap concat]. by rewrite IH, fmap_app. }
  apply fmap_Permutation, grouped; [apply Services_NoDup|intros; apply ServiceFor_listed].
Qed.

(** The outcome of a successful [Build], input by input. *)
Lemma Build_inv `{!MapOrder} baseline routes ann rep : Build baseline routes ann = inr rep →
  ∃ ks, ParsePatterns routes = inr ks ∧ NoDup (EndpointKey <$> baseline) ∧
    let known : gset Key := list_to_set (EndpointKey <$> baseline) in
    let covered : gset Key := list_to_set ks in
    (cr_Services rep, cr_Totals rep) = buildServices known covered ann ∧
    cr_Findings rep = findings known (indexByPath known) covered ann.
Proof.
  unfold Build. destruct (ParsePatterns routes) as [|ks]; [done|]. destruct (indexBaseline baseline) as [|known] eqn:Hi; [done|].
  apply indexBaseline_spec in Hi as [Hnd ->]. destruct (buildServices _ _ _) as [services totals] eqn:Hb.
  intros [= <-]. exists ks. split_and!; done.
Qed.

(** A mock route serves the key. *)
Definition served (routes : list string) (k : Key) : Prop := ∃ p, p ∈ routes ∧ ParsePattern p = inr k.
(** The baseline holds the key. *)
Definition real (baseline : list Endpoint) (k : Key) : Prop := ∃ ep, ep ∈ baseline ∧ EndpointKey ep = k.
Lemma elem_of_real baseline k : k ∈ (list_to_set (EndpointKey <$> baseline) : gset Key) ↔ real baseline k.
Proof. rewrite elem_of_list_to_set, list_elem_of_fmap. unfold real. naive_solver. Qed.
Lemma elem_of_served routes ks k : ParsePatterns routes = inr ks → k ∈ (list_to_set ks : gset Key) ↔ served routes k.
Proof. intros H. rewrite elem_of_list_to_set. by apply elem_of_patterns. Qed.

Lemma sections_shape `{!MapOrder} known covered ann sr : sr ∈ (buildServices known covered ann).1 →
  sr_Counts sr = tally (sr_Rows sr) ∧ sr_Name sr ∈ Services ∧ sr_Rows sr ≠ [] ∧ StronglySorted byPathThenMethod (sr_Rows sr) ∧
  ∀ row, row ∈ sr_Rows sr → ServiceFor (k_Path (row_Key row)) = sr_Name sr.
Proof.
  rewrite buildServices_sections. cbv zeta. cbn [fst]. intros (svc & Hsvc & Hsr)%list_elem_of_omap. unfold section_of in Hsr.
  destruct (rows_of known covered ann svc) as [|x xs] eqn:Hr; [done|]. injection Hsr as <-.
  split_and!.
  - cbn. by apply (foldl_add_tally no_counts []).
  - done.
  - cbn. intros He. pose proof (section_rows svc (x :: xs)) as Hp. cbn in Hp. rewrite He in Hp. by apply Permutation_nil in Hp.
  - by apply (StronglySorted_merge_sort byPathThenMethod).
  - intros row Hrow. rewrite section_rows in Hrow. rewrite <- Hr in Hrow. apply (list_elem_of_fmap_2 row_Key) in Hrow.
    rewrite rows_of_keys in Hrow. by apply list_elem_of_filter in Hrow as [? _].
Qed.

(** C11. Every endpoint of the API is accounted for exactly once. In a report that
    [Build] returns, the rows of all sections together hold one row for every baseline
    endpoint and no other; a row is covered exactly when some mock route denotes its
    endpoint, and otherwise a stub, out of scope or a gap as the annotations say; each
    row stands in the section of the service its path belongs to, in order; the counts
    of a section and the totals are those of the rows, and covered, stubs, out of scope
    and gaps add up to the number of endpoints. *)
Theorem Build_accounts `{!MapOrder} baseline routes ann rep : Build baseline routes ann = inr rep →
  let rows := concat (sr_Rows <$> cr_Services rep) in
  let t := cr_Totals rep in
  row_Key <$> rows ≡ₚ EndpointKey <$> baseline ∧
  NoDup (row_Key <$> rows) ∧
  (∀ row, row ∈ rows → ∃ b : bool, (b = true ↔ served routes (row_Key row)) ∧ row = classify (row_Key row) b ann) ∧
  (∀ sr, sr ∈ cr_Services rep →
    sr_Counts sr = tally (sr_Rows sr) ∧ sr_Name sr ∈ Services ∧ sr_Rows sr ≠ [] ∧
    StronglySorted byPathThenMethod (sr_Rows sr) ∧ ∀ row, row ∈ sr_Rows sr → ServiceFor (k_Path (row_Key row)) = sr_Name sr) ∧
  t = tally rows ∧ ct_Total t = Z.of_nat (length baseline) ∧
  (ct_Covered t + ct_Stub t + ct_OutOfScope t + ct_Gap t = ct_Total t)%Z.
Proof.
  intros (ks & Hks & Hnd & Hb & _)%Build_inv rows t. subst rows t.
  pose proof (f_equal fst Hb) as Hs. pose proof (f_equal snd Hb) as Ht. cbn [fst snd] in Hs, Ht.
  rewrite buildServices_sections in Ht. cbv zeta in Ht. cbn [snd] in Ht. rewrite totals_tally in Ht.
  assert (cr_Totals rep = tally (concat (sr_Rows <$> cr_Services rep))) as Htot by by rewrite Ht, Hs, buildServices_sections.
  pose proof (all_rows (list_to_set (EndpointKey <$> baseline)) (list_to_set ks) ann) as Hrows. rewrite <- Hs in Hrows.
  assert (row_Key <$> concat (sr_Rows <$> cr_Services rep) ≡ₚ EndpointKey <$> baseline) as Hkeys.
  { rewrite Hrows, <- list_fmap_compose, (list_fmap_ext _ id) by (intros; apply classify_key).
    rewrite list_fmap_id, shuffle_perm. by apply elements_list_to_set. }
  split_and!; [done|by rewrite Hkeys| | |done| |].
  - intros row Hrow. rewrite Hrows in Hrow. apply list_elem_of_fmap in Hrow as (k & -> & Hk). rewrite classify_key.
    eexists. split; [|done]. rewrite bool_decide_eq_true. by apply elem_of_served.
  - intros sr. rewrite Hs. apply sections_shape.
  - rewrite Htot. cbn. f_equal. rewrite <- (length_fmap row_Key), Hkeys. by rewrite length_fmap.
  - rewrite Htot. apply tally_sum.
Qed.

Lemma merge_sort_nil {A} (R : relation A) `{!∀ x y, Decision (R x y)} l : merge_sort R l = [] ↔ l = [].
Proof.
  split; [|by intros ->]. intros Hn. pose proof (merge_sort_Permutation R l) as Hp. rewrite Hn in Hp. by apply Permutation_nil in Hp.
Qed.
Lemma fmap_filter_nil {A B} (f : A → B) (P : A → Prop) `{!∀ x, Decision (P x)} l :
  f <$> filter P l = [] ↔ ∀ x, x ∈ l → ¬ P x.
Proof.
  trans (filter P l = []); [by destruct (filter P l)|]. split.
  - intros Hn x Hx Hp. destruct (not_elem_of_nil x). rewrite <- Hn. by apply list_elem_of_filter.
  - intros Hn. apply empty_iff_no_elem. intros x [Hp Hx]%list_elem_of_filter. by destruct (Hn x).
Qed.
Lemma Findings_Empty_nil f : Findings_Empty f = true ↔
  f_UnmatchedRoutes f = [] ∧ f_StaleStubs f = [] ∧ f_StaleAllowlist f = [] ∧ f_StaleOutOfScope f = [].
Proof. unfold Findings_Empty. repeat case_match; naive_solver. Qed.
Lemma Check_None r : Check_Report r = None ↔ Findings_Empty (cr_Findings r) = true.
Proof.
  unfold Check_Report, Findings_Empty. destruct (cr_Findings r) as [[|] ? [|] [|] [|]]; cbn; done.
Qed.

Lemma AllowsRoute_listed ann r k : r ∈ an_AllowUnmatchedRoutes ann → ar_Route r = Key_String k → is_Some (AllowsRoute ann k).
Proof.
  intros Hr Hk. unfold AllowsRoute. destruct (list_find _ _) as [[]|] eqn:Hf; [done|].
  apply list_find_None in Hf. rewrite Forall_forall in Hf. by destruct (Hf r Hr).
Qed.

Lemma no_offenders known byPath ann l :
  omap (offender known byPath ann) l = [] ↔ ∀ k, k ∈ l → k ∈ known ∨ is_Some (AllowsRoute ann k).
Proof.
  rewrite empty_iff_no_elem. setoid_rewrite list_elem_of_omap. split.
  - intros Hno k Hk. destruct (decide (k ∈ known)); [auto|]. right.
    destruct (AllowsRoute ann k) eqn:Ha; [done|]. edestruct Hno. exists k. split; [done|].
    unfold offender. by rewrite bool_decide_eq_false_2, Ha.
  - intros Hall u (k & Hk & Hu). apply Hall in Hk as [Hk|[reason Ha]]; unfold offender in Hu;
      [by rewrite bool_decide_eq_true_2 in Hu|rewrite Ha in Hu; by case_bool_decide].
Qed.

(** C12. The checks pass exactly when the exceptions and the mock are honest. [Check]
    accepts a report exactly when every mock route denotes a real endpoint or is
    exempted (no fabricated route), every stub denotes a real endpoint, every exemption
    is used by a mock route that is not real, and every out-of-scope prefix covers some
    real endpoint. *)
Theorem Check_exact `{!MapOrder} baseline routes ann rep : Build baseline routes ann = inr rep →
  Check_Report rep = None ↔
  (∀ k, served routes k → real baseline k ∨ is_Some (AllowsRoute ann k)) ∧
  (∀ s k, s ∈ an_Stubs ann → ParsePattern (st_Path s) = inr k → real baseline k) ∧
  (∀ r, r ∈ an_AllowUnmatchedRoutes ann → ∃ k, served routes k ∧ ¬ real baseline k ∧ ar_Route r = Key_String k) ∧
  (∀ o, o ∈ an_OutOfScope ann → ∃ k, real baseline k ∧
    matches {| r_prefix := os_Prefix o; r_service := ""; r_exact := false |} (k_Path k) = true).
Proof.
  intros (ks & Hks & _ & _ & Hf)%Build_inv. rewrite Check_None, Hf. unfold findings. rewrite route_findings.
  set (known := list_to_set (EndpointKey <$> baseline) : gset Key). set (walk := shuffle 7 _).
  assert (∀ k, k ∈ walk ↔ served routes k) as Hwalk.
  { intros k. unfold walk. by rewrite shuffle_perm, elem_of_elements, (elem_of_served _ _ _ Hks). }
  assert (∀ k, k ∈ known ↔ real baseline k) as Hknown by apply elem_of_real.
  rewrite Findings_Empty_nil. cbn [f_UnmatchedRoutes f_StaleStubs f_StaleAllowlist f_StaleOutOfScope].
  rewrite !merge_sort_nil, !fmap_filter_nil. f_equiv; [|f_equiv; [|f_equiv]].
  - rewrite no_offenders. setoid_rewrite Hwalk. by setoid_rewrite Hknown.
  - split.
    + intros Hall s k Hs Hk. specialize (Hall s Hs). rewrite Hk in Hall. apply Hknown. apply dec_stable. intros Hn. by apply Hall, bool_decide_eq_true_2.
    + intros Hall s Hs. destruct (ParsePattern (st_Path s)) as [|k] eqn:Hk; [done|]. apply not_true_iff_false, bool_decide_eq_false.
      intros Hn. apply Hn, Hknown. eauto.
  - apply forall_proper; intros r. apply forall_proper; intros Hr. split.
    + intros Hn%dec_stable. rewrite elem_of_list_to_set, list_elem_of_fmap in Hn.
      destruct Hn as (a & -> & (k & Hk & Ha)%list_elem_of_omap). exists k. rewrite <- Hwalk, <- Hknown.
      rewrite (AllowsRoute_route _ _ _ _ Ha). split_and!; [done| |done]. intros Hin. unfold exempted in Ha.
      by rewrite bool_decide_eq_true_2 in Ha.
    + intros (k & Hk & Hn & Hs) Hno. apply Hno. destruct (AllowsRoute_listed ann r k Hr Hs) as [reason Ha].
      rewrite elem_of_list_to_set, list_elem_of_fmap. exists {| ar_Route := Key_String k; ar_Reason := reason |}.
      split; [exact Hs|]. apply list_elem_of_omap. exists k. rewrite Hwalk. split; [done|].
      unfold exempted. rewrite <- Hknown in Hn. by rewrite bool_decide_eq_false_2, Ha.
  - apply forall_proper; intros o. apply forall_proper; intros Ho. rewrite not_false_iff_true. unfold matchesAny.
    rewrite existsb_exists. setoid_rewrite <- list_elem_of_In. setoid_rewrite shuffle_perm. setoid_rewrite elem_of_elements.
    by setoid_rewrite Hknown.
Qed.

(** When the checks pass without exemptions, the covered endpoints are the routes. *)
Lemma covered_count `{!MapOrder} known covered ann :
  covered ⊆ known → ct_Covered (buildServices known covered ann).2 = Z.of_nat (size covered).
Proof.
  intros Hsub. rewrite buildServices_sections. cbv zeta. cbn [snd]. rewrite totals_tally.
  pose proof (all_rows known covered ann) as Hp. rewrite buildServices_sections in Hp. cbv zeta in Hp. cbn [fst] in Hp.
  unfold tally, with_state. cbn [ct_Covered]. rewrite Hp, shuffle_perm. f_equal.
  assert (∀ l : list Key, length (filter (λ r, row_State r = StateCovered)
    ((λ k, classify k (bool_decide (k ∈ covered)) ann) <$> l)) = length (filter (λ k, k ∈ covered) l)) as ->.
  { induction l as [|k l IH]; [done|]. cbn [fmap list_fmap]. rewrite !filter_cons.
    destruct (decide (k ∈ covered)) as [Hk|Hk].
    - rewrite bool_decide_eq_true_2, decide_True by done. cbn. by rewrite IH.
    - rewrite bool_decide_eq_false_2 by done. rewrite decide_False; [done|].
      unfold classify. by destruct (StubReason ann k), (OutOfScopeFor ann (k_Path k)). }
  unfold size, set_size. cbn. apply Permutation_length, NoDup_Permutation;
    [apply NoDup_filter, NoDup_elements|apply NoDup_elements|].
  intros k. rewrite list_elem_of_filter, !elem_of_elements. split; [by intros [? _]|intros Hk; split; [done|by apply Hsub]].
Qed.

(** A table of patterns with distinct keys can be measured against every baseline whose
    keys are distinct. *)
Lemma table_measured `{!MapOrder} routes ks baseline ann :
  ParsePatterns routes = inr ks → NoDup ks → NoDup (EndpointKey <$> baseline) →
  ∃ rep, Build baseline routes ann = inr rep ∧ cr_RouteCount rep = Z.of_nat (length ks) ∧
    (an_AllowUnmatchedRoutes ann = [] → Check_Report rep = None → ct_Covered (cr_Totals rep) = Z.of_nat (length ks)).
Proof.
  intros Hks Hndk Hnd. unfold Build. rewrite Hks.
  assert (indexBaseline baseline = inr (list_to_set (EndpointKey <$> baseline))) as -> by by apply indexBaseline_spec.
  set (known := list_to_set (EndpointKey <$> baseline) : gset Key). set (covered := list_to_set ks : gset Key).
  assert (size covered = length ks) as Hsize by (unfold covered; by rewrite size_list_to_set).
  pose proof (covered_count known covered ann) as Hcount. destruct (buildServices known covered ann) as [services totals] eqn:Hb.
  eexists. split; [done|]. cbn [cr_RouteCount cr_Totals]. rewrite Hsize. split; [done|].
  intros Hallow Hcheck. cbn [snd] in Hcount. rewrite Hcount, Hsize; [done|]. intros k Hk.
  rewrite Check_None, Findings_Empty_nil in Hcheck. destruct Hcheck as [Hu _]. cbn [cr_Findings] in Hu.
  unfold findings in Hu. rewrite route_findings in Hu. cbn [f_UnmatchedRoutes] in Hu. rewrite merge_sort_nil, no_offenders in Hu.
  destruct (Hu k) as [?|[r Hr]]; [by rewrite shuffle_perm, elem_of_elements|done|].
  unfold AllowsRoute in Hr. by rewrite Hallow in Hr.
Qed.

(** ** Drift *)

Lemma first_difference_spec n got want :
  match first_difference n got want with
  | Some (m, g, w) => ∃ i, m = (n + Z.of_nat i)%Z ∧ take i got = take i want ∧ got !! i = Some g ∧ want !! i = Some w ∧ g ≠ w
  | None => got `prefix_of` want ∨ want `prefix_of` got
  end.
Proof.
  revert n want; induction got as [|g got IH]; intros n [|w want]; cbn.
  1-3: first [by left; apply prefix_nil|by right; apply prefix_nil].
  destruct (decide (g = w)) as [->|Hne]; [|exists 0; split_and!; [lia|done..]].
  specialize (IH (n + 1)%Z want). destruct (first_difference _ _ _) as [[[m g'] w']|].
  - destruct IH as (i & -> & Ht & Hg & Hw & Hne). exists (S i). cbn. rewrite Ht. split_and!; [lia|done..].
  - destruct IH; [left|right]; by apply prefix_cons.
Qed.

(** The drift check is exact and points at the first difference. It passes exactly
    when the committed file is the regenerated report byte for byte; otherwise the line
    it names is the first at which the files differ, quoted from both, or, when one
    file only continues the other, it says so with line 0. *)
Lemma CheckDrift_exact path committed regenerated :
  let got := split_byte (ascii_of_nat 10) committed in
  let want := split_byte (ascii_of_nat 10) regenerated in
  match CheckDrift path committed regenerated with
  | None => committed = regenerated
  | Some e =>
      committed ≠ regenerated ∧ dr_Path e = path ∧
      ((dr_Line e = 0 ∧ (got `prefix_of` want ∨ want `prefix_of` got)) ∨
       ∃ i, dr_Line e = Z.of_nat (S i) ∧ take i got = take i want ∧
         got !! i = Some (dr_Got e) ∧ want !! i = Some (dr_Want e) ∧ dr_Got e ≠ dr_Want e)%Z
  end.
Proof.
  intros got want. unfold CheckDrift. case_bool_decide as Heq; [done|].
  pose proof (first_difference_spec 1 got want) as H. fold got want.
  destruct (first_difference 1 got want) as [[[n g] w]|]; cbn; [|auto].
  destruct H as (i & -> & Ht & Hg & Hw & Hne). split_and!; [done..|]. right. exists i. split_and!; [lia|done..].
Qed.

(** ** A report in full *)

Definition sample_annotations : Annotations :=
  {| an_Baseline := {| bi_PVEVersion := "9.2"; bi_Source := "apidoc.js"; bi_Captured := "2026-01-01" |};
     an_Stubs := [{| st_Path := "GET /version/x"; st_Reason := "a|b" |}]; an_SideChannel := [];
     an_OutOfScope := []; an_AllowUnmatchedRoutes := [] |}.
Definition sample_baseline : list Endpoint :=
  [{| ep_Method := "GET"; ep_Path := "/version/x" |}; {| ep_Method := "GET"; ep_Path := "/nodes/{node}" |};
   {| ep_Method := "PUT"; ep_Path := "/pools/{id}" |}].
Definition sample_report : CoverageReport :=
  let gap k := {| row_Key := k; row_State := StateGap; row_Note := "" |} in
  let one c s g := {| ct_Covered := c; ct_Stub := s; ct_OutOfScope := 0; ct_Gap := g; ct_Total := 1 |} in
  let get p := {| k_Method := "GET"; k_Path := p |} in
  {| cr_Baseline := an_Baseline sample_annotations;
     cr_Services :=
       [{| sr_Counts := one 1 0 0; sr_Name := "nodes";
           sr_Rows := [{| row_Key := get "/nodes/{}"; row_State := StateCovered; row_Note := "" |}] |};
        {| sr_Counts := one 0 1 0; sr_Name := "version";
           sr_Rows := [{| row_Key := get "/version/x"; row_State := StateStub; row_Note := "a|b" |}] |};
        {| sr_Counts := one 0 0 1; sr_Name := "unassigned"; sr_Rows := [gap {| k_Method := "PUT"; k_Path := "/pools/{}" |}] |}]%Z;
     cr_Totals := {| ct_Covered := 1; ct_Stub := 1; ct_OutOfScope := 0; ct_Gap := 1; ct_Total := 3 |};
     cr_SideChannel := []; cr_RouteCount := 1;
     cr_Findings := {| f_UnmatchedRoutes := []; f_AllowedRoutes := []; f_StaleStubs := []; f_StaleAllowlist := [];
                       f_StaleOutOfScope := [] |} |}.
Example sample_build : @Build reverse_order sample_baseline ["GET /api2/json/nodes/{n}"] sample_annotations = inr sample_report.
Proof. vm_compute. reflexivity. Qed.

Lemma Build_accounts_witness : ct_Total (cr_Totals sample_report) = 3%Z ∧
  row_Key <$> concat (sr_Rows <$> cr_Services sample_report) ≡ₚ EndpointKey <$> sample_baseline.
Proof.
  destruct (@Build_accounts reverse_order sample_baseline ["GET /api2/json/nodes/{n}"] sample_annotations sample_report)
    as (Hk & _ & _ & _ & _ & Ht & _); [vm_compute; reflexivity|]. split; [rewrite Ht; reflexivity|exact Hk].
Defined.
Lemma Check_exact_witness :
  Check_Report sample_report = None ∧
  (∀ k, served ["GET /api2/json/nodes/{n}"] k → real sample_baseline k ∨ is_Some (AllowsRoute sample_annotations k)).
Proof.
  split; [vm_compute; reflexivity|].
  apply (@Check_exact reverse_order sample_baseline ["GET /api2/json/nodes/{n}"] sample_annotations sample_report);
    vm_compute; reflexivity.
Defined.
Lemma annotation_lookups_witness : let y : Yaml := λ _, inr sample_annotations in
  StubReason sample_annotations {| k_Method := "GET"; k_Path := "/version/x" |} = Some "a|b".
Proof.
  intros y. apply (@annotation_lookups y "" sample_annotations sample_annotations
    {| k_Method := "GET"; k_Path := "/version/x" |} "a|b"); [reflexivity|vm_compute; reflexivity|reflexivity|].
  eexists. split_and!; [by left|vm_compute; reflexivity|reflexivity].
Defined.

(** A stub whose endpoint the mock serves is not reported as stale. *)
Example stub_of_covered_endpoint :
  let r := @Build reverse_order sample_baseline ["GET /version/x"] sample_annotations in
  match r with inr rep => Check_Report rep = None ∧ ct_Stub (cr_Totals rep) = 0%Z ∧ ct_Covered (cr_Totals rep) = 1%Z | inl _ => False end.
Proof. vm_compute. done. Qed.
(** A note that holds a line break ends its table row early. *)
Example note_with_newline :
  detail_row {| row_Key := {| k_Method := "GET"; k_Path := "/x" |}; row_State := StateStub; row_Note := "a" +:+ nl +:+ "b" |} =
  "| GET | `/x` | stub | a" +:+ nl +:+ "b |" +:+ nl.
Proof. vm_compute. done. Qed.
