(* ===== verification/SchemaDiffMain.v ===== *)
(** [cmd/pve-schemadiff/main.go]: the two modes of the command over the files it reads
    and writes. *)

From S2P Require Import Prelude Strconv Json JsonText Pverr SchemaDiff Coverage CoverageReport.
From Stdlib Require Import ZArith Lia Ascii.
From stdpp Require Import options.

(** ** The command *)

(* go: cmd/pve-schemadiff/main.go#options *)
Record options := {
  o_apidoc : string; o_baseline : string; o_update : bool; o_coverage : bool; o_annotations : string; o_out : string;
  o_check : bool; o_routes : list string
}.

(** [os.ReadFile] and [os.WriteFile] on bytes. *)
Class TextFiles (W : Type) := {
  ReadText : string → W → W * (goerr + string);
  WriteText : string → string → W → W * option goerr
}.
(** [compress/gzip] on a whole stream: opening it, reading to its end, closing it. *)
Class Gzip := gunzip : string → goerr + string.

(* go: cmd/pve-schemadiff/main.go#options.validate *)
Definition validate (o : options) : option goerr :=
  let fail msg := Some (GText msg) in
  if o_baseline o =s "" then fail "-baseline is required"
  else if negb (o_coverage o) then
    if o_apidoc o =s "" then fail "-apidoc is required (or pass -coverage)"
    else if (o_annotations o <>s "") || (o_out o <>s "") || o_check o then
      fail "-annotations, -out and -check apply to -coverage only"
    else None
  else if o_annotations o =s "" then fail "-annotations is required in coverage mode"
  else if o_update o then fail "-update applies to schema-diff mode only"
  else if o_check o && (o_out o =s "") then fail "-check needs -out: the report to verify"
  else None.

Section run.
Context {W : Type} `{!TextFiles W} `{!MapOrder} `{!Yaml} `{!Gzip}.
Set Default Proof Using "Type*".

(** A run's outcome: an operational error, or the text to print and whether a check
    failed. *)
Definition outcome : Type := goerr + (string * bool).

(* go: cmd/pve-schemadiff/main.go#readBaseline *)
Definition readBaseline (path : string) (w : W) : W * (goerr + list Endpoint) :=
  match ReadText path w with
  | (w, inl err) => (w, inl (GWrap ("read baseline: " +:+ error_text err) err))
  | (w, inr data) => (w, UnmarshalBaseline data)
  end.

(* go: cmd/pve-schemadiff/main.go#gzipMagic *)
Definition gzipMagic : string := bytes [31; 139].
(* go: cmd/pve-schemadiff/main.go#readApidoc *)
Definition readApidoc (path : string) (w : W) : W * (goerr + string) :=
  match ReadText path w with
  | (w, inl err) => (w, inl (GWrap ("read apidoc: " +:+ error_text err) err))
  | (w, inr data) =>
      (w, if negb (has_prefix data gzipMagic) then inr data else
          match gunzip data with
          | inl err => inl (GWrap ("gunzip apidoc: " +:+ error_text err) err)
          | inr raw => inr raw
          end)
  end.

(* go: cmd/pve-schemadiff/coverage/annotations.go#LoadAnnotations *)
Definition LoadAnnotations (path : string) (w : W) : W * (goerr + Annotations) :=
  match ReadText path w with
  | (w, inl err) => (w, inl (GWrap ("coverage: read annotations: " +:+ error_text err) err))
  | (w, inr raw) =>
      (w, match ParseAnnotations raw with
          | inl err => inl (GWrap ("coverage: " +:+ path +:+ ": " +:+ error_text err) err)
          | inr ann => inr ann
          end)
  end.

(* go: cmd/pve-schemadiff/main.go#checkFailed *)
Definition checkFailed (text : string) : outcome := inr (text +:+ nl, true).

(* go: cmd/pve-schemadiff/main.go#coverageSummary *)
Definition coverageSummary (what path : string) (rep : CoverageReport) : string :=
  let t := cr_Totals rep in
  "coverage: " +:+ path +:+ " " +:+ what +:+ ": " +:+ itoa (ct_Covered t) +:+ " of " +:+ itoa (ct_Total t) +:+
  " endpoint(s) covered (" +:+ Percent t +:+ ")" +:+ nl.

(* go: cmd/pve-schemadiff/main.go#runCoverage *)
Definition runCoverage (o : options) (w : W) : W * outcome :=
  match readBaseline (o_baseline o) w with
  | (w, inl err) => (w, inl err)
  | (w, inr baseline) =>
    match LoadAnnotations (o_annotations o) w with
    | (w, inl err) => (w, inl err)
    | (w, inr ann) =>
      match Build baseline (o_routes o) ann with
      | inl err => (w, inl err)
      | inr rep =>
        match Check_Report rep with
        | Some err => (w, checkFailed (error_text err))
        | None =>
          let rendered := Markdown rep in
          if o_check o then
            match ReadText (o_out o) w with
            | (w, inl err) => (w, inl (GWrap ("read report: " +:+ error_text err) err))
            | (w, inr committed) =>
                (w, match CheckDrift (o_out o) committed rendered with
                    | Some err => checkFailed (DriftError_Error err)
                    | None => inr (coverageSummary "is current" (o_out o) rep, false)
                    end)
            end
          else if o_out o <>s "" then
            match WriteText (o_out o) rendered w with
            | (w, Some err) => (w, inl (GWrap ("write report: " +:+ error_text err) err))
            | (w, None) => (w, inr (coverageSummary "written" (o_out o) rep, false))
            end
          else (w, inr (rendered, false))
        end
      end
    end
  end.

Definition drift_line (sign : string) (ep : Endpoint) : string :=
  sign +:+ " " +:+ ep_Method ep +:+ " " +:+ ep_Path ep.
Definition count {A} (l : list A) : string := itoa (Z.of_nat (length l)).
(* go: cmd/pve-schemadiff/main.go#L230-L241:runSchemaDiff *)
Definition drift_report (diff : Report) (current : list Endpoint) : string * bool :=
  if Report_Empty diff then ("no drift: " +:+ count current +:+ " endpoint(s) match the baseline" +:+ nl, false) else
  (join nl ((drift_line "+" <$> rep_Added diff) ++ (drift_line "-" <$> rep_Removed diff) ++
     ["schema drift: " +:+ count (rep_Added diff) +:+ " added, " +:+ count (rep_Removed diff) +:+ " removed"]) +:+ nl, true).

(* go: cmd/pve-schemadiff/main.go#runSchemaDiff *)
Definition runSchemaDiff (o : options) (w : W) : W * outcome :=
  match readApidoc (o_apidoc o) w with
  | (w, inl err) => (w, inl err)
  | (w, inr apidocJS) =>
    match Parse apidocJS with
    | inl err => (w, inl err)
    | inr current =>
      if o_update o then
        match WriteText (o_baseline o) (MarshalBaseline current) w with
        | (w, Some err) => (w, inl (GWrap ("write baseline: " +:+ error_text err) err))
        | (w, None) => (w, inr ("baseline updated: " +:+ count current +:+ " endpoint(s)" +:+ nl, false))
        end
      else
        match readBaseline (o_baseline o) w with
        | (w, inl err) => (w, inl err)
        | (w, inr baseline) => (w, inr (drift_report (Diff baseline current) current))
        end
    end
  end.

(* go: cmd/pve-schemadiff/main.go#run *)
Definition run (o : options) (w : W) : W * outcome :=
  if o_coverage o then runCoverage o w else runSchemaDiff o w.

(** What the process prints on its two outputs (a usage text apart) and its exit code;
    [routes] is the mock's route table. *)
(* go: cmd/pve-schemadiff/main.go#L87-L104:main *)
Definition main (o : options) (routes : list string) (w : W) : W * (string * string * Z) :=
  let failed err := ("", "pve-schemadiff: " +:+ error_text err +:+ nl, 2%Z) in
  match validate o with
  | Some err => (w, failed err)
  | None =>
      let o := {| o_apidoc := o_apidoc o; o_baseline := o_baseline o; o_update := o_update o; o_coverage := o_coverage o;
                  o_annotations := o_annotations o; o_out := o_out o; o_check := o_check o; o_routes := routes |} in
      match run o w with
      | (w, inl err) => (w, failed err)
      | (w, inr (report, fail)) => (w, (report, "", if fail then 1%Z else 0%Z))
      end
  end.

(** The flags the command declares, and the options they set. *)
(* go: cmd/pve-schemadiff/main.go#L74-L81:declared_flags *)
Definition declared_flags : flags := [
  ("apidoc", VString ""); ("baseline", VString ""); ("update", VBool false); ("coverage", VBool false);
  ("annotations", VString ""); ("out", VString ""); ("check", VBool false); ("version", VBool false)].
Definition options_of (fs : flags) : options := {|
  o_apidoc := string_flag "apidoc" fs; o_baseline := string_flag "baseline" fs; o_update := bool_flag "update" fs;
  o_coverage := bool_flag "coverage" fs; o_annotations := string_flag "annotations" fs; o_out := string_flag "out" fs;
  o_check := bool_flag "check" fs; o_routes := []
|}.
(** The whole process; [flag.Parse] exits on a command line it refuses. [stamp] is the
    version, commit and date of the build. *)
(* go: cmd/pve-schemadiff/main.go#L72-L86:process *)
Definition process (stamp : string * string * string) (routes args : list string) (w : W) : W * (string * string * Z) :=
  match Strconv.Parse declared_flags args with
  | inl Help => (w, ("", "", 0%Z))
  | inl _ => (w, ("", "", 2%Z))
  | inr (fs, _) =>
      let '(version, commit, date) := stamp in
      if bool_flag "version" fs then
        (w, ("pve-schemadiff " +:+ version +:+ " (" +:+ commit +:+ ", " +:+ date +:+ ")" +:+ nl, "", 0%Z))
      else main (options_of fs) routes w
  end.

(** Every record of options is what some command line gives. *)
Definition option_flags (o : options) : list (string * Strconv.value) := [
  ("apidoc", VString (o_apidoc o)); ("baseline", VString (o_baseline o)); ("update", VBool (o_update o));
  ("coverage", VBool (o_coverage o)); ("annotations", VString (o_annotations o)); ("out", VString (o_out o));
  ("check", VBool (o_check o))].
Theorem process_options stamp routes o w :
  process stamp routes (flag_text <$> option_flags o) w = main o routes w.
Proof.
  unfold process. rewrite <- (app_nil_r (flag_text <$> _)), Parse_flag_text.
  2: { repeat constructor; eexists; split; reflexivity. }
  destruct stamp as [[v c] d]. change (bool_flag "version" (set_all (option_flags o) declared_flags)) with false.
  cbn [Strconv.Parse]. cbv beta iota. change (bool_flag "version" (set_all (option_flags o) declared_flags)) with false.
  by destruct o.
Qed.
End run.

(** ** Files that keep what is written *)

Class LawfulTextFiles (W : Type) `{!TextFiles W} := {
  disk : W → gmap string string;
  read_disk p w : disk (ReadText p w).1 = disk w;
  read_text p w s : (ReadText p w).2 = inr s ↔ disk w !! p = Some s;
  write_disk p s w : (WriteText p s w).2 = None → disk (WriteText p s w).1 = <[p := s]> (disk w);
  write_other p s w q : q ≠ p → disk (WriteText p s w).1 !! q = disk w !! q
}.

(** A disk on which every write succeeds. *)
#[export] Instance map_files : TextFiles (gmap string string) := {
  ReadText p w := (w, match w !! p with Some s => inr s | None => inl (GText ("open " +:+ p +:+ ": no such file or directory")) end);
  WriteText p s w := (<[p := s]> w, None)
}.
#[export, refine] Instance map_files_lawful : LawfulTextFiles (gmap string string) := {| disk w := w |}.
Proof.
  - done.
  - intros p w s. cbn. destruct (w !! p); naive_solver.
  - done.
  - intros p s w q Hq. cbn. by rewrite lookup_insert_ne.
Defined.

Section files.
Context {W : Type} `{!TextFiles W} `{!LawfulTextFiles W} `{!Yaml} `{!Gzip}.
Set Default Proof Using "Type*".

Lemma read_file p w w' r : ReadText p w = (w', r) → disk w' = disk w ∧ ∀ s, r = inr s ↔ disk w !! p = Some s.
Proof. intros Hr. pose proof (read_disk p w) as Hd. pose proof (read_text p w) as Ht. rewrite Hr in *. by split; [|apply Ht]. Qed.
Lemma read_written p w s : disk w !! p = Some s → ∃ w', ReadText p w = (w', inr s) ∧ disk w' = disk w.
Proof.
  intros Hs. destruct (ReadText p w) as [w' r] eqn:Hr. apply read_file in Hr as [Hd Hr]. exists w'.
  split; [|done]. f_equal. by apply Hr.
Qed.

Lemma readBaseline_disk path w w' r : readBaseline path w = (w', r) →
  disk w' = disk w ∧ ∀ eps, r = inr eps → ∃ s, disk w !! path = Some s ∧ UnmarshalBaseline s = inr eps.
Proof.
  unfold readBaseline. destruct (ReadText path w) as [w1 [err|s]] eqn:Hr; apply read_file in Hr as [Hd Hr];
    intros [= <- <-]; split; try done. intros eps Heps. exists s. split; [by apply Hr|done].
Qed.
Lemma readBaseline_reads path w s : disk w !! path = Some s →
  ∃ w', readBaseline path w = (w', UnmarshalBaseline s) ∧ disk w' = disk w.
Proof. intros (w' & Hr & Hd)%read_written. exists w'. unfold readBaseline. by rewrite Hr. Qed.
Lemma LoadAnnotations_disk path w w' r : LoadAnnotations path w = (w', r) →
  disk w' = disk w ∧ ∀ ann, r = inr ann → ∃ s, disk w !! path = Some s ∧ ParseAnnotations s = inr ann.
Proof.
  unfold LoadAnnotations. destruct (ReadText path w) as [w1 [err|s]] eqn:Hr; apply read_file in Hr as [Hd Hr];
    intros [= <- <-]; split; try done. intros ann Hann. exists s. split; [by apply Hr|].
  destruct (ParseAnnotations s); by simplify_eq.
Qed.
Lemma LoadAnnotations_reads path w s ann : disk w !! path = Some s → ParseAnnotations s = inr ann →
  ∃ w', LoadAnnotations path w = (w', inr ann) ∧ disk w' = disk w.
Proof. intros (w' & Hr & Hd)%read_written Ha. exists w'. unfold LoadAnnotations. by rewrite Hr, Ha. Qed.
Lemma readApidoc_disk path w w' r : readApidoc path w = (w', r) → disk w' = disk w.
Proof.
  unfold readApidoc. destruct (ReadText path w) as [w1 [err|s]] eqn:Hr; apply read_file in Hr as [Hd Hr]; by intros [= <- _].
Qed.
(** What [readApidoc] returns depends on the file's bytes only. *)
Lemma readApidoc_again path w1 w1' w2 js : readApidoc path w1 = (w1', inr js) → disk w2 !! path = disk w1 !! path →
  ∃ w2', readApidoc path w2 = (w2', inr js) ∧ disk w2' = disk w2.
Proof.
  unfold readApidoc. destruct (ReadText path w1) as [w [err|s]] eqn:Hr; [done|]. apply read_file in Hr as [_ Hr].
  intros [= <- Hjs] Hd. destruct (read_written path w2 s) as (w2' & Hr2 & Hd2); [rewrite Hd; by apply Hr|].
  exists w2'. by rewrite Hr2, Hjs.
Qed.

(** C8. Nothing false reaches the disk. In the coverage mode the command changes no
    file but the report it is told to write, and that one only when the run is not a
    check, the baseline and the annotations were read and the report built from them
    passed every check; a completed write leaves exactly its Markdown. In particular a
    report that names a fabricated route is never written, in either mode. *)
Theorem coverage_writes `{!MapOrder} o w w' r : runCoverage o w = (w', r) →
  disk w' = disk w ∨
  (o_check o = false ∧ o_out o ≠ "" ∧
   (∀ q, q ≠ o_out o → disk w' !! q = disk w !! q) ∧
   ∃ base anns baseline ann rep,
     disk w !! o_baseline o = Some base ∧ UnmarshalBaseline base = inr baseline ∧
     disk w !! o_annotations o = Some anns ∧ ParseAnnotations anns = inr ann ∧
     Build baseline (o_routes o) ann = inr rep ∧ Check_Report rep = None ∧
     (∀ s, r = inr s → disk w' !! o_out o = Some (Markdown rep))).
Proof.
  unfold runCoverage. destruct (readBaseline _ w) as [w1 [err|baseline]] eqn:Hb; apply readBaseline_disk in Hb as [Hd1 Hb];
    [intros [= <- <-]; by left|].
  destruct (LoadAnnotations _ w1) as [w2 [err|ann]] eqn:Ha; apply LoadAnnotations_disk in Ha as [Hd2 Ha]; rewrite Hd1 in *;
    [intros [= <- <-]; left; congruence|].
  destruct (Build _ _ _) as [err|rep] eqn:Hrep; [intros [= <- <-]; left; congruence|].
  destruct (Check_Report rep) eqn:Hc; [intros [= <- <-]; left; congruence|].
  destruct (o_check o) eqn:Hck.
  { destruct (ReadText _ w2) as [w3 [err|s]] eqn:Hr; apply read_file in Hr as [Hd3 _]; intros [= <- <-]; left; congruence. }
  case_bool_decide as Hout; cbn [negb]; [intros [= <- <-]; left; congruence|].
  pose proof (write_other (o_out o) (Markdown rep) w2) as Hother. pose proof (write_disk (o_out o) (Markdown rep) w2) as Hwrite.
  destruct (Hb _ eq_refl) as (base & Hbase & Hub), (Ha _ eq_refl) as (anns & Hanns & Hpa).
  destruct (WriteText _ _ w2) as [w3 [err|]]; cbn [fst snd] in *; intros [= <- <-]; right.
  all: split_and!; [done|done|by intros q Hq; rewrite Hother, Hd2|exists base, anns, baseline, ann, rep; split_and!; try done].
  intros s _. by rewrite Hwrite, lookup_insert_eq.
Qed.

(** A later check of the report, with the routes listed in some other way. *)
Definition checking (o : options) (routes : list string) : options :=
  {| o_apidoc := o_apidoc o; o_baseline := o_baseline o; o_update := o_update o; o_coverage := o_coverage o;
     o_annotations := o_annotations o; o_out := o_out o; o_check := true; o_routes := routes |}.

(** C9. A report that was just written is current. After a run that wrote the report,
    a check of the same files passes (exit code 0) and prints the same numbers, even
    though it walks its maps in another order and is given the mock's routes in another
    order; so the drift check never fails at random. *)
Theorem write_then_current (order order' : MapOrder) o routes w w' text w2 :
  @runCoverage W _ order _ o w = (w', inr (text, false)) → o_check o = false → o_out o ≠ "" →
  o_out o ≠ o_baseline o → o_out o ≠ o_annotations o → (∀ p, p ∈ o_routes o ↔ p ∈ routes) → disk w2 = disk w' →
  ∃ rep w3, text = coverageSummary "written" (o_out o) rep ∧
    @runCoverage W _ order' _ (checking o routes) w2 = (w3, inr (coverageSummary "is current" (o_out o) rep, false)).
Proof.
  unfold runCoverage. destruct (readBaseline _ w) as [w1 [err|baseline]] eqn:Hb; apply readBaseline_disk in Hb as [Hd1 Hb]; [done|].
  destruct (LoadAnnotations _ w1) as [w1' [err|ann]] eqn:Ha; apply LoadAnnotations_disk in Ha as [Hd2 Ha]; rewrite Hd1 in *; [done|].
  destruct (@Build order _ _ _) as [err|rep] eqn:Hrep; [done|]. destruct (Check_Report rep) eqn:Hc; [done|].
  intros Hrun Hck Hout Hob Hoa Hroutes Hdisk. rewrite Hck, bool_decide_eq_false_2 in Hrun by done. cbn [negb] in Hrun.
  pose proof (write_disk (o_out o) (Markdown rep) w1') as Hwrite.
  destruct (WriteText _ _ w1') as [w'' [err|]]; [done|]. injection Hrun as -> <-. specialize (Hwrite eq_refl). cbn [fst] in Hwrite.
  destruct (Hb _ eq_refl) as (base & Hbase & Hub), (Ha _ eq_refl) as (anns & Hanns & Hpa).
  rewrite Hd2 in Hwrite. rewrite Hwrite in Hdisk. exists rep.
  destruct (readBaseline_reads (o_baseline o) w2 base) as (v1 & Hr1 & Hv1); [by rewrite Hdisk, lookup_insert_ne|].
  destruct (LoadAnnotations_reads (o_annotations o) v1 anns ann) as (v2 & Hr2 & Hv2); [by rewrite Hv1, Hdisk, lookup_insert_ne|done|].
  destruct (read_written (o_out o) v2 (Markdown rep)) as (v3 & Hr3 & _); [by rewrite Hv2, Hv1, Hdisk, lookup_insert_eq|].
  exists v3. split; [done|]. cbn [checking o_baseline o_annotations o_routes o_check o_out]. rewrite Hr1, Hub, Hr2.
  destruct (Build_deterministic order order' baseline baseline (o_routes o) routes ann rep) as [-> _]; [done..|].
  rewrite Hc, Hr3. unfold CheckDrift. by rewrite bool_decide_eq_true_2.
Qed.

(** The comparison with the baseline that an update wrote. *)
Definition comparing (o : options) : options :=
  {| o_apidoc := o_apidoc o; o_baseline := o_baseline o; o_update := false; o_coverage := o_coverage o;
     o_annotations := o_annotations o; o_out := o_out o; o_check := o_check o; o_routes := o_routes o |}.

(** C10. An updated baseline shows no drift. After a successful [-update] the same dump
    compared with the baseline file reports no drift, for exactly the number of
    endpoints the update announced: the endpoints of a dump survive the file's JSON text
    (escapes, indentation, order) and the comparison, whatever order maps are walked in. *)
Theorem update_then_no_drift (order order' : MapOrder) o w w' text failed w2 :
  @runSchemaDiff W _ order _ o w = (w', inr (text, failed)) → o_update o = true → o_apidoc o ≠ o_baseline o →
  disk w2 = disk w' →
  failed = false ∧ ∃ (current : list Endpoint) w3,
    text = "baseline updated: " +:+ count current +:+ " endpoint(s)" +:+ nl ∧
    @runSchemaDiff W _ order' _ (comparing o) w2 =
      (w3, inr ("no drift: " +:+ count current +:+ " endpoint(s) match the baseline" +:+ nl, false)).
Proof.
  unfold runSchemaDiff. destruct (readApidoc _ w) as [w1 [err|js]] eqn:Hjs; [done|].
  pose proof (readApidoc_disk _ _ _ _ Hjs) as Hd1. destruct (@Parse order js) as [err|current] eqn:Hp; [done|].
  intros Hrun Hup Hne Hdisk. rewrite Hup in Hrun. pose proof (write_disk (o_baseline o) (MarshalBaseline current) w1) as Hwrite.
  destruct (WriteText _ _ w1) as [w'' [err|]]; [done|]. injection Hrun as -> <- <-. specialize (Hwrite eq_refl). cbn [fst] in Hwrite.
  split; [done|]. rewrite Hwrite in Hdisk. destruct (readApidoc_again (o_apidoc o) w w1 w2 js) as (v1 & Hr1 & Hv1);
    [done|by rewrite Hdisk, Hd1, lookup_insert_ne|].
  destruct (readBaseline_reads (o_baseline o) v1 (MarshalBaseline current)) as (v2 & Hr2 & _); [by rewrite Hv1, Hdisk, lookup_insert_eq|].
  exists current, v2. split; [done|]. cbn [comparing o_apidoc o_baseline o_update].
  rewrite Hr1, (Parse_order order' order), Hp, Hr2. destruct (@Parse_texts order _ _ Hp) as [Hutf Hsp].
  rewrite baseline_roundtrip by done. pose proof (@Parse_spec order js) as Hspec. rewrite Hp in Hspec. destruct Hspec as (_ & _ & _ & _ & Hsorted).
  rewrite sortSlice_fixed by done. unfold drift_report. by rewrite Diff_same.
Qed.
End files.

(** ** A session on concrete files *)

Definition sample_yaml : Yaml := λ raw, if raw =s "" then inl None else inr sample_annotations.
Definition no_gzip : Gzip := λ _, inl (GText "gzip: invalid header").
Definition sample_disk : gmap string string :=
  {["baseline.json" := MarshalBaseline sample_baseline; "annotations.yaml" := "stubs: ...";
    "apidoc.js" := MarshalIndent (JArr [JObj [("path", JStr "/version"); ("info", JObj [("GET", JNull); ("doc", JNull)])]]) +:+ ";"]}.
Definition sample_options (coverage update : bool) : options :=
  {| o_apidoc := "apidoc.js"; o_baseline := "baseline.json"; o_update := update; o_coverage := coverage;
     o_annotations := "annotations.yaml"; o_out := "COVERAGE.md"; o_check := false; o_routes := ["GET /api2/json/nodes/{n}"] |}.
Definition sample_run (o : options) : gmap string string * outcome :=
  @run _ map_files reverse_order sample_yaml no_gzip o sample_disk.

Example sample_written : (sample_run (sample_options true false)).2 = inr (coverageSummary "written" "COVERAGE.md" sample_report, false).
Proof. vm_compute. reflexivity. Qed.
Example sample_drift : (sample_run (sample_options false false)).2 =
  inr ("+ GET /version" +:+ nl +:+ "- GET /nodes/{node}" +:+ nl +:+ "- PUT /pools/{id}" +:+ nl +:+ "- GET /version/x" +:+ nl +:+
       "schema drift: 1 added, 3 removed" +:+ nl, true).
Proof. vm_compute. reflexivity. Qed.

Lemma write_then_current_witness :
  let o := sample_options true false in
  ∃ rep w3, @runCoverage _ map_files listed_order sample_yaml (checking o (o_routes o ++ o_routes o)) (sample_run o).1 =
    (w3, inr (coverageSummary "is current" "COVERAGE.md" rep, false)).
Proof.
  intros o. destruct (@write_then_current _ map_files map_files_lawful sample_yaml reverse_order listed_order o
    (o_routes o ++ o_routes o) sample_disk (sample_run o).1 (coverageSummary "written" "COVERAGE.md" sample_report) (sample_run o).1)
    as (rep & w3 & _ & Hrun); [vm_compute; reflexivity|reflexivity|discriminate|discriminate|discriminate| |reflexivity|].
  { intros p. rewrite elem_of_app. intuition. }
  exists rep, w3. exact Hrun.
Defined.

Lemma update_then_no_drift_witness :
  let o := sample_options false true in
  ∃ (current : list Endpoint) w3, @runSchemaDiff _ map_files listed_order no_gzip (comparing o) (sample_run o).1 =
    (w3, inr ("no drift: " +:+ count current +:+ " endpoint(s) match the baseline" +:+ nl, false)).
Proof.
  intros o. destruct (@update_then_no_drift _ map_files map_files_lawful no_gzip reverse_order listed_order o
    sample_disk (sample_run o).1 ("baseline updated: 1 endpoint(s)" +:+ nl) false (sample_run o).1)
    as (_ & current & w3 & _ & Hrun); [vm_compute; reflexivity|reflexivity|discriminate|reflexivity|].
  exists current, w3. exact Hrun.
Defined.

Lemma coverage_writes_witness :
  let o := sample_options true false in
  (sample_run o).1 = sample_disk ∨ (sample_run o).1 !! "COVERAGE.md" = Some (Markdown sample_report).
Proof.
  intros o. destruct (@coverage_writes _ map_files map_files_lawful sample_yaml reverse_order o sample_disk (sample_run o).1
    (sample_run o).2) as [Hsame|(_ & _ & _ & base & anns & baseline & ann & rep & Hb & Hub & Ha & Hpa & Hrep & _ & Hw)];
    [vm_compute; reflexivity|left; exact Hsame|right].
  assert (rep = sample_report) as ->.
  { vm_compute in Hb. injection Hb as <-. vm_compute in Hub. injection Hub as <-. vm_compute in Ha. injection Ha as <-.
    vm_compute in Hpa. injection Hpa as <-. vm_compute in Hrep. injection Hrep as <-. reflexivity. }
  apply (Hw (coverageSummary "written" "COVERAGE.md" sample_report, false)). vm_compute. reflexivity.
Defined.
