(* ===== verification/LabConfig.v ===== *)
(** [cmd/pvelab/lab/config.go] and [answerurl.go]: the lab's configuration, its
    defaults and its validation, and what is derived from it. The environment is a
    map (a missing variable reads as [""]), files a map from paths to contents, and
    the decoder of the YAML package a parameter of [LoadConfig]. *)

From S2P Require Import Prelude Pverr Url Netip NodesClient.
From Stdlib Require Import ZArith Lia Ascii.
From stdpp Require Import options.

(* go: cmd/pvelab/lab/config.go#L27-L30:vmidRangeLo *)
Definition vmidRangeLo : Z := 9200.
Definition vmidRangeHi : Z := 9399.
(* go: cmd/pvelab/lab/config.go#L35-L38:templateVMIDLo *)
Definition templateVMIDLo : Z := 9210.
Definition templateVMIDHi : Z := 9219.

(** ** Data *)

(* go: cmd/pvelab/lab/config.go#OuterSSH *)
Record OuterSSH := { s_User : string; s_KnownHosts : string; s_KeyFile : string; s_PasswordEnv : string }.

(* go: cmd/pvelab/lab/config.go#Outer *)
Record Outer := {
  o_Endpoint : string; o_Node : string; o_TokenIDEnv : string; o_TokenSecretEnv : string; o_InsecureTLS : bool;
  o_Storage : string; o_ISOStorage : string; o_Bridge : string; o_SSH : OuterSSH
}.

(* go: cmd/pvelab/lab/config.go#ACMESpec *)
Record ACMESpec := {
  a_Directory : string; a_Account : string; a_Contact : string; a_Challenge : string; a_Provider : string;
  a_PluginID : string; a_Credentials : gmap string string
}.

(* go: cmd/pvelab/lab/config.go#TemplateSpec *)
Record TemplateSpec := { t_VMID : Z; t_CIDR : string }.

(* go: cmd/pvelab/lab/config.go#L256-L260:Node *)
Record Node := { nd_Name : string; nd_VMID : Z; nd_CIDR : string }.

(* go: cmd/pvelab/lab/config.go#Nested *)
Record Nested := {
  n_PVEVersion : string; n_BaseISO : string; n_ClusterName : string; n_Domain : string; n_RootPasswordEnv : string;
  n_Gateway : string; n_DNS : string; n_Cores : Z; n_MemoryMB : Z; n_DiskGB : Z; n_AnswerURL : string;
  n_AnswerListen : string; n_Template : option TemplateSpec; n_ACME : option ACMESpec; n_Nodes : list Node
}.

(* go: cmd/pvelab/lab/config.go#Config *)
Record Config := { c_Outer : Outer; c_Nested : Nested; c_EnvPath : string; c_StatePath : string }.

(** ** Paths and texts *)

(** The extension of a path's last element. *)
Definition path_ext (b : string) : string := match cut_last "." b with Some (_, e) => "." +:+ e | None => "" end.
Definition trim_suffix (s suf : string) : string :=
  if has_prefix (String.rev s) (String.rev suf) then String.rev (drop_str (String.length suf) (String.rev s)) else s.

(* go: cmd/pvelab/lab/config.go#Config.resolveHandoffPaths *)
Definition resolveHandoffPaths (configPath : string) (c : Config) : Config :=
  let base := path_base configPath in
  let base := trim_suffix base (path_ext base) in
  let base := if (base =s "") || (base =s ".") then "pvelab" else base in
  {| c_Outer := c_Outer c; c_Nested := c_Nested c;
     c_EnvPath := if c_EnvPath c =s "" then "." +:+ base +:+ ".env" else c_EnvPath c;
     c_StatePath := if c_StatePath c =s "" then "." +:+ base +:+ "-state.json" else c_StatePath c |}.

(* go: cmd/pvelab/lab/config.go#Node.FQDN *)
Definition FQDN (n : Node) (domain : string) : string := nd_Name n +:+ "." +:+ domain.

(** The text of the parser's own error is not kept. *)
Definition netip_error : goerr := GText "netip: cannot parse".

(* go: cmd/pvelab/lab/config.go#Node.IP *)
Definition Node_IP (n : Node) : goerr + string :=
  match ParsePrefix (nd_CIDR n) with
  | None => inl (GWrap ("node " +:+ nd_Name n +:+ ": parse cidr " +:+ nd_CIDR n) netip_error)
  | Some p => inr (Addr_String (pf_Addr p))
  end.

(** [net.SplitHostPort]: the host, when the text has a port. *)
Definition SplitHost (hp : string) : option string :=
  '(h, p) ← cut_last ":" hp;
  if has_prefix h "[" then
    match cut_byte "]" h with
    | Some (host, "") => let host := drop_str 1 host in if has_byte "[" host || has_byte "[" p || has_byte "]" p then None else Some host
    | _ => None
    end
  else if has_byte ":" h || has_byte "[" h || has_byte "]" h || has_byte "[" p || has_byte "]" p then None
  else Some h.

(* go: cmd/pvelab/lab/config.go#Config.OuterHost *)
Definition OuterHost (c : Config) : goerr + string :=
  let e := o_Endpoint (c_Outer c) in
  if contains e "://" then
    match url_parse e with
    | None => inl (GWrap "outer.endpoint" (GText "url: cannot parse"))
    | Some u => if Hostname u =s "" then inl (GText ("outer.endpoint " +:+ e +:+ " has no host")) else inr (Hostname u)
    end
  else match SplitHost e with Some host => inr host | None => inr e end.

(** ** Defaults *)

(* go: cmd/pvelab/lab/config.go#ACMESpec.applyDefaults *)
Definition ACMESpec_applyDefaults (a : ACMESpec) : ACMESpec :=
  let dir := if a_Directory a =s "" then "staging" else a_Directory a in {|
  a_Directory := dir;
  a_Account := if a_Account a =s "" then "pvelab-" +:+ dir else a_Account a;
  a_Contact := a_Contact a;
  a_Challenge := if a_Challenge a =s "" then "dns-01" else a_Challenge a;
  a_Provider := a_Provider a;
  a_PluginID := if (a_PluginID a =s "") && negb (a_Provider a =s "") then "pvelab-" +:+ a_Provider a else a_PluginID a;
  a_Credentials := a_Credentials a
|}.

Definition or_default (v d : Z) : Z := if (v =? 0)%Z then d else v.

(* go: cmd/pvelab/lab/config.go#Config.applyDefaults *)
Definition applyDefaults (c : Config) : Config :=
  let n := c_Nested c in {|
  c_Outer := c_Outer c;
  c_Nested := {|
    n_PVEVersion := n_PVEVersion n; n_BaseISO := n_BaseISO n; n_ClusterName := n_ClusterName n; n_Domain := n_Domain n;
    n_RootPasswordEnv := n_RootPasswordEnv n; n_Gateway := n_Gateway n; n_DNS := n_DNS n;
    n_Cores := or_default (n_Cores n) 4; n_MemoryMB := or_default (n_MemoryMB n) 8192;
    n_DiskGB := or_default (n_DiskGB n) 32; n_AnswerURL := n_AnswerURL n;
    n_AnswerListen := if n_AnswerListen n =s "" then ":8442" else n_AnswerListen n;
    n_Template := n_Template n; n_ACME := ACMESpec_applyDefaults <$> n_ACME n; n_Nodes := n_Nodes n |};
  c_EnvPath := c_EnvPath c; c_StatePath := c_StatePath c
|}.

(** ** Validation *)

(** The environment: [os.Getenv]. *)
Definition Getenv (env : gmap string string) (name : string) : string := default "" (env !! name).

Definition quoted (s : string) : string := bytes [34] +:+ s +:+ bytes [34].
Definition span_text (lo hi : Z) : string := itoa lo +:+ "-" +:+ itoa hi.

(** Each check is a list of messages, empty when it holds. *)
Definition req (val field : string) : list string := if val =s "" then [field +:+ " is required"] else [].
Definition complain (b : bool) (msg : string) : list string := if b then [msg] else [].

(* go: cmd/pvelab/lab/config.go#L491-L497:Config.validateNodes *)
Definition vmid_errors (n : Node) : list string :=
  if (nd_VMID n <? vmidRangeLo)%Z || (vmidRangeHi <? nd_VMID n)%Z then
    ["node " +:+ nd_Name n +:+ ": vmid " +:+ itoa (nd_VMID n) +:+ " outside the reserved pvelab block " +:+
     span_text vmidRangeLo vmidRangeHi]
  else if (templateVMIDLo <=? nd_VMID n)%Z && (nd_VMID n <=? templateVMIDHi)%Z then
    ["node " +:+ nd_Name n +:+ ": vmid " +:+ itoa (nd_VMID n) +:+ " is inside the template sub-range " +:+
     span_text templateVMIDLo templateVMIDHi +:+ "; pick one outside it"]
  else [].

(** One pass of the loop of [validateNodes], with the names, VMIDs and CIDRs seen. *)
Definition seen_node : Type := gset string * gset Z * gset string.
(* go: cmd/pvelab/lab/config.go#L481-L510:Config.validateNodes *)
Definition node_errors (seen : seen_node) (n : Node) : seen_node * list string :=
  let '(names, vmids, cidrs) := seen in
  if nd_Name n =s "" then (seen, ["every node needs a name"]) else
  (({[nd_Name n]} ∪ names, {[nd_VMID n]} ∪ vmids, {[nd_CIDR n]} ∪ cidrs),
   complain (bool_decide (nd_Name n ∈ names)) ("duplicate node name " +:+ quoted (nd_Name n)) ++
   vmid_errors n ++
   complain (bool_decide (nd_VMID n ∈ vmids)) ("duplicate vmid " +:+ itoa (nd_VMID n)) ++
   complain (negb (bool_decide (is_Some (ParsePrefix (nd_CIDR n))))) ("node " +:+ nd_Name n +:+ ": cidr: cannot parse") ++
   complain (bool_decide (nd_CIDR n ∈ cidrs)) ("duplicate cidr " +:+ quoted (nd_CIDR n))).
Fixpoint nodes_errors (seen : seen_node) (l : list Node) : list string :=
  match l with [] => [] | n :: l => let '(seen, errs) := node_errors seen n in errs ++ nodes_errors seen l end.

(* go: cmd/pvelab/lab/config.go#Config.validateNodes *)
Definition validateNodes (c : Config) : list string :=
  let nodes := n_Nodes (c_Nested c) in
  complain (length nodes <? 3)
    ("nested.nodes needs at least 3 nodes for quorum, got " +:+ itoa (Z.of_nat (length nodes))) ++
  nodes_errors (∅, ∅, ∅) nodes.

(* go: cmd/pvelab/lab/config.go#Config.validateTemplate *)
Definition validateTemplate (c : Config) : list string :=
  match n_Template (c_Nested c) with
  | None => []
  | Some t =>
      complain ((t_VMID t <? templateVMIDLo)%Z || (templateVMIDHi <? t_VMID t)%Z)
        ("nested.template.vmid " +:+ itoa (t_VMID t) +:+ " outside the reserved template sub-range " +:+
         span_text templateVMIDLo templateVMIDHi) ++
      complain (negb (bool_decide (is_Some (ParsePrefix (t_CIDR t))))) "nested.template.cidr: cannot parse" ++
      flat_map (λ n,
        complain (nd_VMID n =? t_VMID t)%Z
          ("nested.template.vmid " +:+ itoa (t_VMID t) +:+ " collides with node " +:+ nd_Name n) ++
        complain (nd_CIDR n =s t_CIDR t)
          ("nested.template.cidr " +:+ quoted (t_CIDR t) +:+ " collides with node " +:+ nd_Name n)) (n_Nodes (c_Nested c))
  end.

(** The order of the map's iteration shows in the order of the messages only. *)
(* go: cmd/pvelab/lab/config.go#Config.validateACME *)
Definition validateACME (c : Config) : list string :=
  match n_ACME (c_Nested c) with
  | None => []
  | Some a =>
      complain (a_Contact a =s "") "nested.acme.contact is required" ++
      complain (a_Provider a =s "") "nested.acme.provider is required (an acme.sh plugin name, e.g. cf)" ++
      complain (bool_decide (a_Credentials a = ∅))
        "nested.acme.credentials is required (acme.sh variable name -> env var name)" ++
      flat_map (λ kv : string * string,
        complain (kv.2 =s "") ("nested.acme.credentials[" +:+ kv.1 +:+ "] names no env var"))
        (map_to_list (a_Credentials a)) ++
      complain (negb ((a_Directory a =s "staging") || (a_Directory a =s "production")))
        ("nested.acme.directory " +:+ quoted (a_Directory a) +:+ ": want " +:+ quoted "staging" +:+ " or " +:+
         quoted "production") ++
      (if a_Challenge a =s "standalone" then
         ["nested.acme.challenge " +:+ quoted "standalone" +:+ " needs the CA to reach the node on port 80; " +:+
          "pvelab's nodes sit on the lab's private addressing, so only " +:+ quoted "dns-01" +:+ " can work here"]
       else complain (negb (a_Challenge a =s "dns-01"))
              ("nested.acme.challenge " +:+ quoted (a_Challenge a) +:+ ": want " +:+ quoted "dns-01"))
  end.

(* go: cmd/pvelab/lab/config.go#ACMESpec.acmeEnvRefs *)
Definition acmeEnvRefs (a : ACMESpec) : list string := merge_sort String.le (map_to_list (a_Credentials a)).*2.

(* go: cmd/pvelab/lab/config.go#Config.validateEnvRefs *)
Definition validateEnvRefs (env : gmap string string) (c : Config) : list string :=
  let refs := [o_TokenIDEnv (c_Outer c); o_TokenSecretEnv (c_Outer c); n_RootPasswordEnv (c_Nested c)] ++
              (if s_PasswordEnv (o_SSH (c_Outer c)) =s "" then [] else [s_PasswordEnv (o_SSH (c_Outer c))]) ++
              match n_ACME (c_Nested c) with Some a => acmeEnvRefs a | None => [] end in
  flat_map (λ name, if name =s "" then [] else
    complain (Getenv env name =s "") ("env var " +:+ name +:+ " (referenced by config) is not set")) refs.

(** The gateway and the resolver. *)
Definition address_errors (field addr : string) : list string :=
  if addr =s "" then [field +:+ " is required"]
  else complain (negb (bool_decide (is_Some (ParseAddr addr)))) (field +:+ ": cannot parse").

(* go: cmd/pvelab/lab/config.go#Config.Validate *)
Definition Validate (env : gmap string string) (c : Config) : list string :=
  let o := c_Outer c in let n := c_Nested c in
  req (o_Endpoint o) "outer.endpoint" ++ req (o_Node o) "outer.node" ++ req (o_TokenIDEnv o) "outer.token_id_env" ++
  req (o_TokenSecretEnv o) "outer.token_secret_env" ++ req (o_Storage o) "outer.storage" ++
  req (o_ISOStorage o) "outer.iso_storage" ++ req (o_Bridge o) "outer.bridge" ++
  req (s_User (o_SSH o)) "outer.ssh.user" ++ req (s_KnownHosts (o_SSH o)) "outer.ssh.known_hosts" ++
  complain ((s_KeyFile (o_SSH o) =s "") && (s_PasswordEnv (o_SSH o) =s ""))
    "outer.ssh needs key_file and/or password_env (key preferred)" ++
  (if o_Endpoint o =s "" then [] else match OuterHost c with inl err => [error_text err] | inr _ => [] end) ++
  req (n_PVEVersion n) "nested.pve_version" ++ req (n_BaseISO n) "nested.base_iso" ++
  req (n_ClusterName n) "nested.cluster_name" ++ req (n_Domain n) "nested.domain" ++
  req (n_RootPasswordEnv n) "nested.root_password_env" ++ req (n_AnswerURL n) "nested.answer_url" ++
  address_errors "nested.gateway" (n_Gateway n) ++ address_errors "nested.dns" (n_DNS n) ++
  validateNodes c ++ validateTemplate c ++ validateACME c ++ validateEnvRefs env c.

(** [errors.Join]: nil for no error. *)
Definition errors_join (errs : list string) : option goerr :=
  match errs with [] => None | _ => Some (GText (join (bytes [10]) errs)) end.

(** The strict YAML decoder is the parameter; its error is kept as a text. *)
(* go: cmd/pvelab/lab/config.go#LoadConfig *)
Definition LoadConfig (decode : string → string + Config) (files env : gmap string string) (path : string) :
    goerr + Config :=
  match files !! path with
  | None => inl (GWrap "read config" (GText "no such file"))
  | Some raw =>
      match decode raw with
      | inl err => inl (GWrap ("parse config " +:+ path) (GText err))
      | inr cfg =>
          let cfg := applyDefaults (resolveHandoffPaths path cfg) in
          match errors_join (Validate env cfg) with
          | Some err => inl (GWrap ("validate config " +:+ path) err)
          | None => inr cfg
          end
      end
  end.

(** ** Credentials *)

(** The credentials read so far, and the messages of the missing ones. *)
Definition plugin_value (env : gmap string string) (acc : gmap string string * list string) (kv : string * string) :
    gmap string string * list string :=
  if Getenv env kv.2 =s "" then (acc.1, acc.2 ++ [kv.1 +:+ " (env " +:+ kv.2 +:+ ")"])
  else (<[kv.1 := Getenv env kv.2]> acc.1, acc.2).

Definition key_order (x y : string * string) : Prop := String.le x.1 y.1.
#[export] Instance key_order_dec x y : Decision (key_order x y).
Proof. unfold key_order. apply _. Defined.

(* go: cmd/pvelab/lab/config.go#ACMESpec.PluginData *)
Definition PluginData (env : gmap string string) (a : ACMESpec) : goerr + ACMEPluginData :=
  let '(values, missing) :=
    foldl (plugin_value env) (∅, []) (merge_sort key_order (map_to_list (a_Credentials a))) in
  match missing with
  | [] => inr (ACMERawPluginData (a_Provider a) values)
  | _ => inl (GText ("acme credentials unset: " +:+ join ", " missing))
  end.

(* go: cmd/pvelab/lab/config.go#ACMESpec.DirectoryURL *)
Definition DirectoryURL (a : ACMESpec) : string :=
  if a_Directory a =s "production" then "https://acme-v02.api.letsencrypt.org/directory"
  else "https://acme-staging-v02.api.letsencrypt.org/directory".

(** The token of the outer host. *)
(* go: cmd/pvelab/lab/config.go#Config.OuterCredentials *)
Definition OuterCredentials (env : gmap string string) (c : Config) : goerr + string * string :=
  let id := Getenv env (o_TokenIDEnv (c_Outer c)) in
  let secret := Getenv env (o_TokenSecretEnv (c_Outer c)) in
  if (id =s "") || (secret =s "") then
    inl (GText ("env vars " +:+ o_TokenIDEnv (c_Outer c) +:+ " and " +:+ o_TokenSecretEnv (c_Outer c) +:+
                " must both be set"))
  else inr (id, secret).

(** ** The answer URL *)

Definition joinAddrs (addrs : list Addr) : string := join ", " (Addr_String <$> addrs).

(** The loop over the resolved addresses: a loopback is refused, a local one accepted. *)
Fixpoint answer_host (rawURL : string) (local wanted : list Addr) : option (option goerr) :=
  match wanted with
  | [] => None
  | w :: wanted =>
      if IsLoopback w then
        Some (Some (GText ("nested.answer_url " +:+ quoted rawURL +:+ " is a loopback address; the nested " +:+
          "installers must reach it from the lab network, so it needs this machine's routable address")))
      else if decide (w ∈ local) then Some None else answer_host rawURL local wanted
  end.

(** [net.DefaultResolver.LookupHost] is the parameter; the tail of the last message
    (two hints) is left out. *)
(* go: cmd/pvelab/lab/answerurl.go#resolveHost *)
Definition resolveHost (lookup : string → goerr + list string) (host : string) : goerr + list Addr :=
  match ParseAddr host with
  | Some a => inr [a]
  | None =>
      match lookup host with
      | inl err => inl (GWrap ("resolve " +:+ quoted host) err)
      | inr names => match omap ParseAddr names with
                     | [] => inl (GText "resolved to no usable address")
                     | out => inr out
                     end
      end
  end.

(* go: cmd/pvelab/lab/answerurl.go#checkAnswerURLHost *)
Definition checkAnswerURLHost (lookup : string → goerr + list string) (rawURL : string) (local : list Addr) :
    option goerr :=
  match url_parse rawURL with
  | None => Some (GWrap ("nested.answer_url " +:+ quoted rawURL) (GText "url: cannot parse"))
  | Some u =>
      if Hostname u =s "" then Some (GText ("nested.answer_url " +:+ quoted rawURL +:+ " names no host")) else
      match resolveHost lookup (Hostname u) with
      | inl err => Some (GWrap ("nested.answer_url " +:+ quoted rawURL) err)
      | inr wanted =>
          match answer_host rawURL local wanted with
          | Some r => r
          | None => Some (GText ("nested.answer_url " +:+ quoted rawURL +:+ " resolves to " +:+ joinAddrs wanted +:+
                      ", which is not an address of this machine (" +:+ joinAddrs local +:+ ")"))
          end
      end
  end.

(** ** What a valid configuration is *)

Definition node_ok (n : Node) : Prop :=
  nd_Name n ≠ "" ∧ (vmidRangeLo ≤ nd_VMID n ≤ vmidRangeHi)%Z ∧
  ¬ (templateVMIDLo ≤ nd_VMID n ≤ templateVMIDHi)%Z ∧ is_Some (ParsePrefix (nd_CIDR n)).

Record valid_nodes (l : list Node) : Prop := {
  vn_quorum : 3 ≤ length l;
  vn_ok : Forall node_ok l;
  vn_names : NoDup (nd_Name <$> l);
  vn_vmids : NoDup (nd_VMID <$> l);
  vn_cidrs : NoDup (nd_CIDR <$> l)
}.

Definition valid_template (t : TemplateSpec) (l : list Node) : Prop :=
  (templateVMIDLo ≤ t_VMID t ≤ templateVMIDHi)%Z ∧ is_Some (ParsePrefix (t_CIDR t)) ∧
  t_VMID t ∉ (nd_VMID <$> l) ∧ t_CIDR t ∉ (nd_CIDR <$> l).

Definition valid_ACME (a : ACMESpec) : Prop :=
  a_Contact a ≠ "" ∧ a_Provider a ≠ "" ∧ a_Credentials a ≠ ∅ ∧ (∀ k, a_Credentials a !! k ≠ Some "") ∧
  a_Directory a ∈ ["staging"; "production"] ∧ a_Challenge a = "dns-01".

(** The environment variables a configuration names. *)
Definition env_refs (c : Config) : list string :=
  filter (λ x, x ≠ "") ([o_TokenIDEnv (c_Outer c); o_TokenSecretEnv (c_Outer c); n_RootPasswordEnv (c_Nested c);
    s_PasswordEnv (o_SSH (c_Outer c))] ++
    match n_ACME (c_Nested c) with Some a => (map_to_list (a_Credentials a)).*2 | None => [] end).

Definition valid_address (a : string) : Prop := a ≠ "" ∧ is_Some (ParseAddr a).
Definition required (c : Config) : list string :=
  let o := c_Outer c in let n := c_Nested c in
  [o_Endpoint o; o_Node o; o_TokenIDEnv o; o_TokenSecretEnv o; o_Storage o; o_ISOStorage o; o_Bridge o;
   s_User (o_SSH o); s_KnownHosts (o_SSH o); n_PVEVersion n; n_BaseISO n; n_ClusterName n; n_Domain n;
   n_RootPasswordEnv n; n_AnswerURL n].

Record valid_config (env : gmap string string) (c : Config) : Prop := {
  vc_required : Forall (λ x, x ≠ "") (required c);
  vc_ssh : s_KeyFile (o_SSH (c_Outer c)) ≠ "" ∨ s_PasswordEnv (o_SSH (c_Outer c)) ≠ "";
  vc_host : ∃ host, OuterHost c = inr host;
  vc_addresses : valid_address (n_Gateway (c_Nested c)) ∧ valid_address (n_DNS (c_Nested c));
  vc_nodes : valid_nodes (n_Nodes (c_Nested c));
  vc_template : ∀ t, n_Template (c_Nested c) = Some t → valid_template t (n_Nodes (c_Nested c));
  vc_acme : ∀ a, n_ACME (c_Nested c) = Some a → valid_ACME a;
  vc_env : Forall (λ x, Getenv env x ≠ "") (env_refs c)
}.

Lemma complain_nil b msg : complain b msg = [] ↔ b = false.
Proof. by destruct b. Qed.
Lemma req_nil v field : req v field = [] ↔ v ≠ "".
Proof. unfold req. by case_bool_decide. Qed.
Lemma flat_map_nil {A B} (f : A → list B) l : flat_map f l = [] ↔ Forall (λ x, f x = []) l.
Proof. induction l as [|x l IH]; [done|]. cbn. by rewrite app_nil, Forall_cons, IH. Qed.
Lemma parses_nil {A} (o : option A) msg : complain (negb (bool_decide (is_Some o))) msg = [] ↔ is_Some o.
Proof. rewrite complain_nil, negb_false_iff. by rewrite bool_decide_eq_true. Qed.

Lemma vmid_errors_nil n :
  vmid_errors n = [] ↔
  (vmidRangeLo ≤ nd_VMID n ≤ vmidRangeHi)%Z ∧ ¬ (templateVMIDLo ≤ nd_VMID n ≤ templateVMIDHi)%Z.
Proof.
  unfold vmid_errors. destruct (_ || _) eqn:E1; [split; [done|lia]|].
  destruct (_ && _) eqn:E2; split; try done; lia.
Qed.

Lemma node_errors_nil names vmids cidrs n :
  (node_errors (names, vmids, cidrs) n).2 = [] ↔
  node_ok n ∧ nd_Name n ∉ names ∧ nd_VMID n ∉ vmids ∧ nd_CIDR n ∉ cidrs.
Proof.
  unfold node_errors, node_ok. case_bool_decide as Hn; [naive_solver|]. cbn [snd].
  rewrite !app_nil, parses_nil, vmid_errors_nil, !complain_nil, !bool_decide_eq_false. tauto.
Qed.

Lemma nodes_errors_nil l names vmids cidrs :
  nodes_errors (names, vmids, cidrs) l = [] ↔
  Forall node_ok l ∧
  (NoDup (nd_Name <$> l) ∧ Forall (λ n, nd_Name n ∉ names) l) ∧
  (NoDup (nd_VMID <$> l) ∧ Forall (λ n, nd_VMID n ∉ vmids) l) ∧
  (NoDup (nd_CIDR <$> l) ∧ Forall (λ n, nd_CIDR n ∉ cidrs) l).
Proof.
  revert names vmids cidrs. induction l as [|n l IH]; intros names vmids cidrs.
  { cbn. split; [|done]. intros _. split_and!; auto using NoDup_nil_2, Forall_nil_2. }
  cbn [nodes_errors]. pose proof (node_errors_nil names vmids cidrs n) as Hn.
  destruct (node_errors (names, vmids, cidrs) n) as [seen errs] eqn:E. cbn [snd] in Hn. rewrite app_nil, Hn.
  assert (nd_Name n ≠ "" → seen = ({[nd_Name n]} ∪ names, {[nd_VMID n]} ∪ vmids, {[nd_CIDR n]} ∪ cidrs)) as Hseen.
  { unfold node_errors in E. case_bool_decide; [done|]. by simplify_eq. }
  rewrite !fmap_cons, !NoDup_cons, !Forall_cons.
  assert (∀ {A} `{Countable A} (f : Node → A) (X : gset A),
    f n ∉ (f <$> l) ∧ Forall (λ m, f m ∉ X) l ↔ Forall (λ m, f m ∉ {[f n]} ∪ X) l) as Hfresh.
  { intros A ?? f X. rewrite !Forall_forall, list_elem_of_fmap. set_solver. }
  split.
  - intros [[Hok Hnot] Hl]. rewrite (Hseen (proj1 Hok)), IH, <- !Hfresh in Hl. tauto.
  - intros [[Hok Hoks] Hrest]. rewrite (Hseen (proj1 Hok)), IH, <- !Hfresh. tauto.
Qed.

Lemma validateNodes_nil c : validateNodes c = [] ↔ valid_nodes (n_Nodes (c_Nested c)).
Proof.
  unfold validateNodes. rewrite app_nil, complain_nil, nodes_errors_nil, Nat.ltb_ge.
  assert (∀ {A} `{Countable A} (f : Node → A), Forall (λ n, f n ∉ (∅ : gset A)) (n_Nodes (c_Nested c))) as He.
  { intros. apply Forall_forall. set_solver. }
  split; [intros (? & ? & (? & _) & (? & _) & ? & _); by constructor|intros []; naive_solver].
Qed.

Lemma validateTemplate_nil c :
  validateTemplate c = [] ↔ ∀ t, n_Template (c_Nested c) = Some t → valid_template t (n_Nodes (c_Nested c)).
Proof.
  unfold validateTemplate. destruct (n_Template (c_Nested c)) as [t|]; [|naive_solver].
  rewrite !app_nil, parses_nil, complain_nil, flat_map_nil. unfold valid_template.
  assert (Forall (λ n, complain (nd_VMID n =? t_VMID t)%Z
            ("nested.template.vmid " +:+ itoa (t_VMID t) +:+ " collides with node " +:+ nd_Name n) ++
          complain (nd_CIDR n =s t_CIDR t)
            ("nested.template.cidr " +:+ quoted (t_CIDR t) +:+ " collides with node " +:+ nd_Name n) = [])
            (n_Nodes (c_Nested c)) ↔
          t_VMID t ∉ (nd_VMID <$> n_Nodes (c_Nested c)) ∧ t_CIDR t ∉ (nd_CIDR <$> n_Nodes (c_Nested c))) as ->.
  { rewrite !list_elem_of_fmap, Forall_forall. split.
    - intros H. split; intros (n & Heq & Hn%H); rewrite app_nil, !complain_nil in Hn; destruct Hn as [H1 H2].
      + apply Z.eqb_neq in H1. by rewrite Heq in H1.
      + by apply bool_decide_eq_false in H2.
    - intros [H1 H2] n Hn. rewrite app_nil, !complain_nil. split.
      + apply Z.eqb_neq. intros Heq. apply H1. by exists n.
      + apply bool_decide_eq_false. intros Heq. apply H2. by exists n. }
  assert ((t_VMID t <? templateVMIDLo)%Z || (templateVMIDHi <? t_VMID t)%Z = false ↔
          (templateVMIDLo ≤ t_VMID t ≤ templateVMIDHi)%Z) as -> by lia.
  split; [intros H t' [= <-]; tauto|intros H; specialize (H t eq_refl); tauto].
Qed.

Lemma validateACME_nil c : validateACME c = [] ↔ ∀ a, n_ACME (c_Nested c) = Some a → valid_ACME a.
Proof.
  unfold validateACME. destruct (n_ACME (c_Nested c)) as [a|]; [|naive_solver].
  rewrite !app_nil, !complain_nil, !bool_decide_eq_false, flat_map_nil, negb_false_iff, orb_true_iff, !bool_decide_eq_true.
  unfold valid_ACME.
  assert (Forall (λ kv : string * string, complain (kv.2 =s "")
            ("nested.acme.credentials[" +:+ kv.1 +:+ "] names no env var") = []) (map_to_list (a_Credentials a)) ↔
          ∀ k, a_Credentials a !! k ≠ Some "") as ->.
  { rewrite Forall_forall. setoid_rewrite complain_nil. setoid_rewrite bool_decide_eq_false. split.
    - intros H k Hk%elem_of_map_to_list. by apply (H (k, "")).
    - intros H [k v] Hkv%elem_of_map_to_list Hv. cbn in Hv. subst v. by apply (H k). }
  assert ((if a_Challenge a =s "standalone" then
             ["nested.acme.challenge " +:+ quoted "standalone" +:+ " needs the CA to reach the node on port 80; " +:+
              "pvelab's nodes sit on the lab's private addressing, so only " +:+ quoted "dns-01" +:+ " can work here"]
           else complain (negb (a_Challenge a =s "dns-01"))
                  ("nested.acme.challenge " +:+ quoted (a_Challenge a) +:+ ": want " +:+ quoted "dns-01")) = [] ↔
          a_Challenge a = "dns-01") as ->.
  { case_bool_decide as E; [split; [done|by rewrite E]|]. by rewrite complain_nil, negb_false_iff, bool_decide_eq_true. }
  assert (a_Directory a = "staging" ∨ a_Directory a = "production" ↔ a_Directory a ∈ ["staging"; "production"]) as ->
    by set_solver.
  split; [intros H a' [= <-]; tauto|intros H; specialize (H a eq_refl); tauto].
Qed.

Lemma validateEnvRefs_nil env c : validateEnvRefs env c = [] ↔ Forall (λ x, Getenv env x ≠ "") (env_refs c).
Proof.
  unfold validateEnvRefs, env_refs. rewrite flat_map_nil, !Forall_forall.
  assert (∀ x, (if x =s "" then [] else complain (Getenv env x =s "") ("env var " +:+ x +:+ " (referenced by config) is not set")) = []
            ↔ (x ≠ "" → Getenv env x ≠ "")) as Hx.
  { intros x. case_bool_decide; [naive_solver|]. rewrite complain_nil, bool_decide_eq_false. naive_solver. }
  setoid_rewrite Hx. setoid_rewrite list_elem_of_filter.
  assert (∀ x, x ≠ "" →
    x ∈ [o_TokenIDEnv (c_Outer c); o_TokenSecretEnv (c_Outer c); n_RootPasswordEnv (c_Nested c)] ++
        (if s_PasswordEnv (o_SSH (c_Outer c)) =s "" then [] else [s_PasswordEnv (o_SSH (c_Outer c))]) ++
        match n_ACME (c_Nested c) with Some a => acmeEnvRefs a | None => [] end ↔
    x ∈ [o_TokenIDEnv (c_Outer c); o_TokenSecretEnv (c_Outer c); n_RootPasswordEnv (c_Nested c);
         s_PasswordEnv (o_SSH (c_Outer c))] ++
        match n_ACME (c_Nested c) with Some a => (map_to_list (a_Credentials a)).*2 | None => [] end) as Hin.
  { intros x Hne. rewrite !elem_of_app.
    assert (x ∈ match n_ACME (c_Nested c) with Some a => acmeEnvRefs a | None => [] end ↔
            x ∈ match n_ACME (c_Nested c) with Some a => (map_to_list (a_Credentials a)).*2 | None => [] end) as ->.
    { destruct (n_ACME (c_Nested c)); [|done]. unfold acmeEnvRefs. by rewrite merge_sort_Permutation. }
    case_bool_decide; set_solver. }
  split; intros H x; specialize (H x); specialize (Hin x); tauto.
Qed.

Lemma address_errors_nil field a : address_errors field a = [] ↔ valid_address a.
Proof.
  unfold address_errors, valid_address. case_bool_decide as E; [split; [done|by intros []]|].
  rewrite parses_nil. tauto.
Qed.

(** C4. What a configuration that loads looks like. [Validate] accepts exactly the
    configurations whose required fields are set, whose outer host and addresses
    parse, with at least three nodes whose names, VMIDs and CIDRs are pairwise
    distinct and whose VMIDs lie in the reserved block outside the template
    sub-range, whose template sits in that sub-range away from every node, whose
    ACME block is complete, and all of whose environment variables are set. *)
Theorem Validate_exact env c : Validate env c = [] ↔ valid_config env c.
Proof.
  unfold Validate. rewrite !app_nil, !req_nil, complain_nil, !address_errors_nil, validateNodes_nil,
    validateTemplate_nil, validateACME_nil, validateEnvRefs_nil.
  assert ((if o_Endpoint (c_Outer c) =s "" then [] else match OuterHost c with inl err => [error_text err] | inr _ => [] end) = []
          ∧ o_Endpoint (c_Outer c) ≠ "" ↔ (∃ host, OuterHost c = inr host) ∧ o_Endpoint (c_Outer c) ≠ "") as Hhost.
  { case_bool_decide; [naive_solver|]. destruct (OuterHost c); naive_solver. }
  rewrite andb_false_iff, !bool_decide_eq_false. split.
  - intros H. destruct_and! H. destruct Hhost as [Hhost _]. constructor; try tauto.
    repeat (apply Forall_cons_2; [done|]). apply Forall_nil_2.
  - intros [Hr ? ? [] ? ? ? ?]. unfold required in Hr. repeat apply Forall_cons in Hr as [? Hr]. tauto.
Qed.

(** ** A configuration *)

Definition lab_node (name : string) (vmid : Z) (cidr : string) : Node := {| nd_Name := name; nd_VMID := vmid; nd_CIDR := cidr |}.
Definition with_lab_nodes (l : list Node) : Config := {|
  c_Outer := {|
    o_Endpoint := "https://192.168.7.250:8006"; o_Node := "r740a"; o_TokenIDEnv := "OUTER_ID"; o_TokenSecretEnv := "OUTER_SECRET";
    o_InsecureTLS := true; o_Storage := "local-lvm"; o_ISOStorage := "local"; o_Bridge := "vmbr0";
    o_SSH := {| s_User := "root"; s_KnownHosts := "known_hosts"; s_KeyFile := "key"; s_PasswordEnv := "" |} |};
  c_Nested := {|
    n_PVEVersion := "9.2"; n_BaseISO := "/var/lib/vz/template/iso/proxmox-ve_9.2.iso"; n_ClusterName := "lab";
    n_Domain := "lab.internal"; n_RootPasswordEnv := "LAB_ROOT"; n_Gateway := "192.168.7.254"; n_DNS := "192.168.7.254";
    n_Cores := 4; n_MemoryMB := 8192; n_DiskGB := 32; n_AnswerURL := "http://192.168.7.9:8442/answer";
    n_AnswerListen := ":8442"; n_Template := None; n_ACME := None; n_Nodes := l |};
  c_EnvPath := ".pvelab.env"; c_StatePath := ".pvelab-state.json"
|}.
Definition lab_env : gmap string string :=
  {["OUTER_ID" := "root@pam!lab"; "OUTER_SECRET" := "secret"; "LAB_ROOT" := "hunter2"]}.
Definition three_nodes : list Node :=
  [lab_node "pve1" 9201 "192.168.7.1/24"; lab_node "pve2" 9202 "192.168.7.2/24"; lab_node "pve3" 9203 "192.168.7.3/24"].
Example lab_valid : Validate lab_env (with_lab_nodes three_nodes) = []. Proof. vm_compute. reflexivity. Qed.

(** The comparison of addresses is one of texts: two nodes with one address and
    different prefix lengths pass. *)
Example same_address_twice :
  Validate lab_env (with_lab_nodes [lab_node "pve1" 9201 "192.168.7.1/24"; lab_node "pve2" 9202 "192.168.7.1/25"; lab_node "pve3" 9203 "192.168.7.3/24"]) = [].
Proof. vm_compute. reflexivity. Qed.
