(* ===== verification/LabState.v ===== *)
(** [cmd/pvelab/lab/state.go]: the state file that records what [up] has created,
    and the environment file for the inner test suite. Files are texts: the state is
    written with [json.MarshalIndent] and read with [json.Unmarshal]. *)

From S2P Require Import Prelude Json JsonText Pverr Svcutil LabConfig.
From Stdlib Require Import ZArith Lia Ascii Floats.SpecFloat.
From stdpp Require Import options.

(** ** Files *)

Inductive read_error := NotExist | ReadError (e : goerr).

(** [os.ReadFile], [os.WriteFile] and [os.Remove] on a world, and the clock in the
    text form a [time.Time] has in JSON. *)
Class Files (W : Type) := {
  ReadFile : string → W → W * (read_error + string);
  WriteFile : string → string → W → W * option goerr;
  RemoveFile : string → W → W * option read_error;
  Now_UTC : W → W * string
}.

(** ** Time stamps *)

(** The texts [time.Time] unmarshals: strict RFC 3339. A text is kept as it is
    (Go would drop trailing zeros of a fraction when it writes it again). *)
Definition two_digits (s : string) : option Z :=
  if all_digits s && (String.length s =? 2) then parse_digits 10 0 s else None.
Definition days_in (year month : Z) : Z :=
  if bool_decide (month = 2)%Z then
    if ((year mod 4 =? 0) && (negb (year mod 100 =? 0) || (year mod 400 =? 0)))%Z then 29 else 28
  else if bool_decide (month ∈ [4; 6; 9; 11]%Z) then 30 else 31.
Definition valid_zone (z : string) : bool :=
  (z =s "Z") ||
  match z with
  | String c z' =>
      one_of "+-" c && (String.length z' =? 5) && (String.substring 2 1 z' =s ":") &&
      match two_digits (String.substring 0 2 z'), two_digits (String.substring 3 2 z') with
      | Some h, Some m => ((h <=? 23) && (m <=? 59))%Z
      | _, _ => false
      end
  | "" => false
  end.
Fixpoint drop_digits (s : string) : string :=
  match s with String c s' => if is_digit c then drop_digits s' else s | "" => "" end.
Definition after_fraction (s : string) : string :=
  match s with
  | String "." (String c s') => if is_digit c then drop_digits s' else s
  | _ => s
  end.
Definition valid_time (s : string) : bool :=
  let part i n := String.substring i n s in
  (part 4 1 =s "-") && (part 7 1 =s "-") && (part 10 1 =s "T") && (part 13 1 =s ":") && (part 16 1 =s ":") &&
  all_digits (part 0 4) && (String.length (part 0 4) =? 4) &&
  match parse_digits 10 0 (part 0 4), two_digits (part 5 2), two_digits (part 8 2), two_digits (part 11 2),
        two_digits (part 14 2), two_digits (part 17 2) with
  | Some year, Some month, Some day, Some h, Some m, Some sec =>
      ((1 <=? month) && (month <=? 12) && (1 <=? day) && (day <=? days_in year month) && (h <=? 23) && (m <=? 59) &&
       (sec <=? 59))%Z
  | _, _, _, _, _, _ => false
  end && valid_zone (after_fraction (drop_str 19 s)).
Definition zero_time : string := "0001-01-01T00:00:00Z".
Definition as_time (j : json) : option string :=
  match j with JStr s => if valid_time s then Some s else None | _ => None end.
Definition time_field := decode_field zero_time as_time.

(** ** The state *)

(* go: cmd/pvelab/lab/state.go#NodeState *)
Record NodeState := {
  ns_Name : string; ns_VMID : Z; ns_CIDR : string; ns_Created : bool; ns_Started : bool; ns_Ready : bool;
  ns_ReadySeconds : spec_float
}.
(* go: cmd/pvelab/lab/state.go#State *)
Record State := {
  st_SchemaVersion : Z; st_CreatedAt : string; st_ClusterName : string; st_PVEVersion : string;
  st_ISOVolid : string; st_Clustered : bool; st_Nodes : list NodeState
}.
(* go: cmd/pvelab/lab/state.go#L16-L16:StateSchemaVersion *)
Definition StateSchemaVersion : Z := 1.

Definition omit_true (name : string) (v : bool) : list (string * json) := if v then [(name, JBool true)] else [].
Definition NodeState_json (n : NodeState) : json := JObj (
  [("name", JStr (ns_Name n)); ("vmid", jint (ns_VMID n)); ("cidr", JStr (ns_CIDR n))] ++
  omit_true "created" (ns_Created n) ++ omit_true "started" (ns_Started n) ++ omit_true "ready" (ns_Ready n) ++
  omit_float "ready_seconds" (ns_ReadySeconds n)).
Definition omit_nodes (l : list NodeState) : list (string * json) :=
  match l with [] => [] | _ => [("nodes", JArr (NodeState_json <$> l))] end.
Definition State_json (st : State) : json := JObj (
  [("schema_version", jint (st_SchemaVersion st)); ("created_at", JStr (st_CreatedAt st))] ++
  omit_str "cluster_name" (st_ClusterName st) ++ omit_str "pve_version" (st_PVEVersion st) ++
  omit_str "iso_volid" (st_ISOVolid st) ++ omit_true "clustered" (st_Clustered st) ++
  omit_nodes (st_Nodes st)).

Definition NodeState_zero : NodeState :=
  {| ns_Name := ""; ns_VMID := 0; ns_CIDR := ""; ns_Created := false; ns_Started := false; ns_Ready := false;
     ns_ReadySeconds := S754_zero false |}.
Definition decode_NodeState : json → option NodeState :=
  as_struct NodeState_zero (λ l,
    n ← str_field "name" l; v ← int_field "vmid" l; c ← str_field "cidr" l; cr ← bool_field "created" l;
    st ← bool_field "started" l; r ← bool_field "ready" l; s ← float_field "ready_seconds" l;
    Some {| ns_Name := n; ns_VMID := v; ns_CIDR := c; ns_Created := cr; ns_Started := st; ns_Ready := r;
            ns_ReadySeconds := s |}).
Definition State_zero : State :=
  {| st_SchemaVersion := 0; st_CreatedAt := zero_time; st_ClusterName := ""; st_PVEVersion := ""; st_ISOVolid := "";
     st_Clustered := false; st_Nodes := [] |}.
Definition decode_State : json → option State :=
  as_struct State_zero (λ l,
    v ← int_field "schema_version" l; t ← time_field "created_at" l; c ← str_field "cluster_name" l;
    p ← str_field "pve_version" l; i ← str_field "iso_volid" l; cl ← bool_field "clustered" l;
    n ← list_field decode_NodeState "nodes" l;
    Some {| st_SchemaVersion := v; st_CreatedAt := t; st_ClusterName := c; st_PVEVersion := p; st_ISOVolid := i;
            st_Clustered := cl; st_Nodes := n |}).

Definition set_nodes (l : list NodeState) (st : State) : State :=
  {| st_SchemaVersion := st_SchemaVersion st; st_CreatedAt := st_CreatedAt st; st_ClusterName := st_ClusterName st;
     st_PVEVersion := st_PVEVersion st; st_ISOVolid := st_ISOVolid st; st_Clustered := st_Clustered st; st_Nodes := l |}.

(* go: cmd/pvelab/lab/state.go#State.FindNode *)
Definition FindNode (name : string) (st : State) : option NodeState :=
  snd <$> list_find (λ n, ns_Name n = name) (st_Nodes st).

(* go: cmd/pvelab/lab/state.go#State.SeedNodes *)
Definition seed_node (st : State) (n : Node) : State :=
  match FindNode (nd_Name n) st with
  | Some _ => st
  | None => set_nodes (st_Nodes st ++
              [{| ns_Name := nd_Name n; ns_VMID := nd_VMID n; ns_CIDR := nd_CIDR n; ns_Created := false;
                  ns_Started := false; ns_Ready := false; ns_ReadySeconds := S754_zero false |}]) st
  end.
Definition SeedNodes (nodes : list Node) (st : State) : State := foldl seed_node st nodes.

(* go: cmd/pvelab/lab/provision.go#NodeReadiness *)
Record NodeReadiness := { nr_Node : string; nr_Ready : bool; nr_Elapsed : Z }.

(** [d.Seconds()]: whole seconds plus the fraction, added as floats. *)
Definition Seconds (d : Z) : spec_float :=
  SFadd SFprec SFemax (float64_of (Z.quot d 1000000000) 0)
    (SFdiv SFprec SFemax (float64_of (Z.rem d 1000000000) 0) (float64_of 1000000000 0)).

(** [FindNode] returns a pointer: the entry is changed in place. *)
Definition ready_node (r : NodeReadiness) (n : NodeState) : NodeState :=
  {| ns_Name := ns_Name n; ns_VMID := ns_VMID n; ns_CIDR := ns_CIDR n; ns_Created := ns_Created n;
     ns_Started := ns_Started n; ns_Ready := nr_Ready r; ns_ReadySeconds := Seconds (nr_Elapsed r) |}.
(* go: cmd/pvelab/lab/state.go#State.ApplyReadiness *)
Definition apply_readiness (st : State) (r : NodeReadiness) : State :=
  match list_find (λ n, ns_Name n = nr_Node r) (st_Nodes st) with
  | Some (i, n) => set_nodes (<[i := ready_node r n]> (st_Nodes st)) st
  | None => st
  end.
Definition ApplyReadiness (rs : list NodeReadiness) (st : State) : State := foldl apply_readiness st rs.

(** ** Loading and updating *)

(** [ErrNoState] is the left branch [inl None]. *)
Section files.
Context {W : Type} `{!Files W}.

(* go: cmd/pvelab/lab/state.go#LoadState *)
Definition LoadState (path : string) (w : W) : W * (option goerr + State) :=
  let '(w, r) := ReadFile path w in
  (w, match r with
      | inl NotExist => inl None
      | inl (ReadError err) => inl (Some (GWrap ("read state " +:+ path) err))
      | inr raw =>
          match j ← Unmarshal raw; decode_State j with
          | None => inl (Some (GWrap ("parse state " +:+ path) (GText "invalid JSON or type mismatch")))
          | Some st =>
              if (StateSchemaVersion <? st_SchemaVersion st)%Z then
                inl (Some (GText ("state " +:+ path +:+ " has schema_version " +:+ itoa (st_SchemaVersion st) +:+
                  ", newer than this pvelab understands (" +:+ itoa StateSchemaVersion +:+
                  ") — use a newer pvelab or delete the file")))
              else inr st
          end
      end).

(* go: cmd/pvelab/lab/state.go#WriteState *)
Definition WriteState (path : string) (st : State) (w : W) : W * option goerr :=
  let '(w, err) := WriteFile path (MarshalIndent (State_json st) +:+ nl) w in (w, GWrap ("write state " +:+ path) <$> err).

(** [mutate] changes the state in place. *)
(* go: cmd/pvelab/lab/state.go#UpdateState *)
Definition UpdateState (path : string) (mutate : State → State) (w : W) : W * (goerr + State) :=
  let '(w, r) := LoadState path w in
  let update st w :=
    let st := mutate st in
    match WriteState path st w with
    | (w, Some err) => (w, inl err)
    | (w, None) => (w, inr st)
    end in
  match r with
  | inr st => update st w
  | inl None =>
      let '(w, now) := Now_UTC w in
      update {| st_SchemaVersion := StateSchemaVersion; st_CreatedAt := now; st_ClusterName := ""; st_PVEVersion := "";
                st_ISOVolid := ""; st_Clustered := false; st_Nodes := [] |} w
  | inl (Some err) => (w, inl err)
  end.
End files.

(** ** The environment file *)

(* go: cmd/pvelab/lab/state.go#EnvFile *)
Record EnvFile := {
  e_Endpoint : string; e_Username : string; e_Password : string; e_InsecureTLS : bool; e_Node : string;
  e_TestStorage : string; e_PlacementVMID1 : Z; e_PlacementVMID2 : Z; e_ConsoleVMID : Z; e_ScrubExtra : string
}.

(* go: cmd/pvelab/lab/provision.go#nodeEndpoint *)
Definition nodeEndpoint (n : Node) : goerr + string :=
  match Node_IP n with inl err => inl err | inr ip => inr ("https://" +:+ ip +:+ ":8006") end.

(** The pairs of the nodes after the first one. *)
Fixpoint scrub_nodes (i : Z) (l : list Node) : goerr + list string :=
  match l with
  | [] => inr []
  | n :: l =>
      match Node_IP n, scrub_nodes (i + 1) l with
      | inl err, _ => inl err
      | inr _, inl err => inl err
      | inr ip, inr pairs => inr ((ip +:+ "=192.0.2." +:+ itoa (11 + i)) :: pairs)
      end
  end.

(* go: cmd/pvelab/lab/state.go#scrubExtra *)
Definition scrubExtra (c : Config) : goerr + string :=
  match scrub_nodes 0 (tail (n_Nodes (c_Nested c))) with
  | inl err => inl err
  | inr pairs =>
      inr (join "," (pairs ++
        (if n_Domain (c_Nested c) =s "" then [] else [n_Domain (c_Nested c) +:+ "=lab.example"]) ++
        match OuterHost c with
        | inr host => if host =s "" then [] else [host +:+ "=outer.example"]
        | inl _ => []
        end))
  end.

(* go: cmd/pvelab/lab/state.go#NewEnvFile *)
Definition NewEnvFile (c : Config) (rootPassword : string) : goerr + EnvFile :=
  match n_Nodes (c_Nested c) with
  | [] => inl (GText "config has no nodes")
  | first :: _ =>
      match nodeEndpoint first with
      | inl err => inl err
      | inr endpoint =>
          match scrubExtra c with
          | inl err => inl err
          | inr scrub =>
              inr {| e_Endpoint := endpoint; e_Username := "root@pam"; e_Password := rootPassword;
                     e_InsecureTLS := true; e_Node := nd_Name first; e_TestStorage := "local-lvm";
                     e_PlacementVMID1 := 9301; e_PlacementVMID2 := 9302; e_ConsoleVMID := 9303; e_ScrubExtra := scrub |}
          end
      end
  end.

(** Every single quote becomes [quote backslash quote quote]. *)
Definition quote : ascii := ascii_of_nat 39.
Fixpoint escape_quotes (s : string) : string :=
  match s with
  | "" => ""
  | String c s' => (if decide (c = quote) then String quote (String "\" (String quote (String quote ""))) else String c "")
                     +:+ escape_quotes s'
  end.
(* go: cmd/pvelab/lab/iso.go#shellQuote *)
Definition shellQuote (s : string) : string := String quote (escape_quotes s +:+ String quote "").

Definition newline : ascii := ascii_of_nat 10.
Definition export_line (kv : string * string) : string :=
  "export " +:+ kv.1 +:+ "=" +:+ shellQuote kv.2 +:+ String newline "".
Definition env_vars (e : EnvFile) : list (string * string) :=
  [("PVE_ENDPOINT", e_Endpoint e); ("PVE_USERNAME", e_Username e); ("PVE_PASSWORD", e_Password e)] ++
  (if e_InsecureTLS e then [("PVE_INSECURE_TLS", "1")] else []) ++
  [("PVE_NODE", e_Node e); ("PVE_TEST_STORAGE", e_TestStorage e);
   ("PVE_TEST_PLACEMENT_VMID_1", itoa (e_PlacementVMID1 e)); ("PVE_TEST_PLACEMENT_VMID_2", itoa (e_PlacementVMID2 e));
   ("PVE_TEST_CONSOLE_VMID", itoa (e_ConsoleVMID e))] ++
  (if e_ScrubExtra e =s "" then [] else [("PVE_SCRUB_EXTRA", e_ScrubExtra e)]).
(* go: cmd/pvelab/lab/state.go#RenderEnv *)
Definition RenderEnv (e : EnvFile) : string := foldr (λ kv s, export_line kv +:+ s) "" (env_vars e).

(* go: cmd/pvelab/lab/state.go#WriteEnvFile *)
Definition WriteEnvFile {W} `{!Files W} (path : string) (e : EnvFile) (w : W) : W * option goerr :=
  let '(w, err) := WriteFile path (RenderEnv e) w in (w, GWrap ("write env " +:+ path) <$> err).

(** ** What a shell makes of the environment file

    A word is read up to the end of the line: bytes between single quotes are
    literal, a backslash outside quotes keeps the next byte, and outside quotes only
    bytes without a meaning to the shell stand for themselves. A shell's variable
    cannot hold a zero byte, so a text with one has no meaning here. *)

Definition zero_byte : ascii := ascii_of_nat 0.
Definition push (c : ascii) (o : option (string * string)) : option (string * string) :=
  '(v, rest) ← o; Some (String c v, rest).
Fixpoint sh_word (quoted : bool) (s : string) : option (string * string) :=
  match s with
  | "" => if quoted then None else Some ("", "")
  | String c s' =>
      if decide (c = zero_byte) then None
      else if quoted then if decide (c = quote) then sh_word false s' else push c (sh_word true s')
      else if decide (c = quote) then sh_word true s'
      else if decide (c = newline) then Some ("", s)
      else if decide (c = "\"%char) then
        match s' with String d s'' => if decide (d = newline) then None else push d (sh_word false s'') | "" => None end
      else if Url.is_letter c || is_digit c || one_of "_-./:=,@%+" c then push c (sh_word false s')
      else None
  end.

(** The assignments of a file of [export] lines. *)
Fixpoint sh_source (fuel : nat) (s : string) : option (list (string * string)) :=
  match fuel with
  | 0 => if s =s "" then Some [] else None
  | S fuel =>
      if s =s "" then Some [] else
      if negb (has_prefix s "export ") then None else
      '(key, rest) ← cut_byte "=" (drop_str 7 s);
      '(value, rest) ← sh_word false rest;
      match rest with
      | String c rest => if decide (c = newline) then l ← sh_source fuel rest; Some ((key, value) :: l) else None
      | "" => None
      end
  end.

Lemma sh_word_quote q s : sh_word q (String quote s) = sh_word (negb q) s.
Proof. by destruct q. Qed.
Lemma sh_word_escaped s : sh_word false (String "\" (String quote s)) = push quote (sh_word false s).
Proof. done. Qed.
Lemma sh_word_plain c s : c ≠ zero_byte → c ≠ quote → sh_word true (String c s) = push c (sh_word true s).
Proof. intros Hz Hc. cbn [sh_word]. by rewrite !decide_False. Qed.

Lemma sh_word_quoted v rest : no_byte zero_byte v = true →
  sh_word true (escape_quotes v +:+ String quote rest) = '(x, r) ← sh_word false rest; Some (v +:+ x, r).
Proof.
  induction v as [|c v IH]; intros Hz.
  - change (sh_word false rest = '(x, r) ← sh_word false rest; Some (x, r)). by destruct (sh_word false rest) as [[x r]|].
  - cbn in Hz. apply andb_prop in Hz as [Hc0 Hz]. specialize (IH Hz). cbn [escape_quotes].
    destruct (decide (c = quote)) as [->|Hc].
    + change (sh_word true (String quote (String "\" (String quote (String quote (escape_quotes v +:+ String quote rest))))) =
              '(x, r) ← sh_word false rest; Some (String quote (v +:+ x), r)).
      rewrite sh_word_quote. cbn [negb]. rewrite sh_word_escaped, sh_word_quote. cbn [negb]. rewrite IH.
      by destruct (sh_word false rest) as [[x r]|].
    + change (sh_word true (String c (escape_quotes v +:+ String quote rest)) =
              '(x, r) ← sh_word false rest; Some (String c (v +:+ x), r)).
      rewrite sh_word_plain by (done || intros ->; discriminate). rewrite IH. by destruct (sh_word false rest) as [[x r]|].
Qed.

(** A quoted value followed by the end of its line. *)
Lemma sh_word_shellQuote v rest : no_byte zero_byte v = true →
  sh_word false (shellQuote v +:+ String newline rest) = Some (v, String newline rest).
Proof.
  intros Hz. unfold shellQuote. change (String quote (escape_quotes v +:+ String quote "") +:+ String newline rest)
    with (String quote ((escape_quotes v +:+ String quote "") +:+ String newline rest)).
  rewrite str_app_assoc, sh_word_quote. change (String quote "" +:+ String newline rest) with (String quote (String newline rest)).
  cbn [negb]. rewrite sh_word_quoted by done.
  change (sh_word false (String newline rest)) with (Some ("", String newline rest)). cbn [mbind option_bind].
  by rewrite str_app_nil_r.
Qed.

(** One exported line in front of others. *)
Lemma sh_source_line fuel k v rest :
  no_byte "=" k = true → no_byte zero_byte v = true →
  sh_source (S fuel) (export_line (k, v) +:+ rest) = l ← sh_source fuel rest; Some ((k, v) :: l).
Proof.
  intros Hk Hz. unfold export_line. cbn [fst snd]. rewrite !str_app_assoc.
  cbn [sh_source]. rewrite bool_decide_eq_false_2 by done. rewrite has_prefix_app. cbn [negb].
  rewrite (drop_str_app "export ").
  change ("=" +:+ ?x) with (String "=" x). rewrite cut_byte_app by done. cbn [mbind option_bind].
  change (String newline "" +:+ rest) with (String newline rest).
  rewrite sh_word_shellQuote by done. cbn [mbind option_bind]. by rewrite decide_True.
Qed.

Definition no_zero (kv : string * string) : Prop := no_byte zero_byte kv.2 = true.

Lemma sh_source_lines l : Forall (λ kv, no_byte "=" kv.1 = true) l → Forall no_zero l →
  ∀ fuel, length l ≤ fuel → sh_source fuel (foldr (λ kv s, export_line kv +:+ s) "" l) = Some l.
Proof.
  induction 1 as [|[k v] l Hk _ IH]; intros Hz fuel Hf; [by destruct fuel|].
  apply Forall_cons in Hz as [Hv Hz]. destruct fuel as [|fuel]; cbn [length] in Hf; [lia|].
  cbn [foldr]. rewrite sh_source_line by done. by rewrite IH by (done || lia).
Qed.

(** C5. A shell that sources the environment file [up] writes binds exactly the
    variables of the [EnvFile], in order, to exactly its values, whatever bytes a
    password holds (single quotes, newlines, dollar signs): nothing in the file can
    end a quoted value early or run as a command. *)
Theorem env_sources e : Forall no_zero (env_vars e) →
  ∀ fuel, 11 ≤ fuel → sh_source fuel (RenderEnv e) = Some (env_vars e).
Proof.
  intros Hz fuel Hf. apply sh_source_lines; [|done|].
  - unfold env_vars. by destruct (e_InsecureTLS e), (e_ScrubExtra e =s ""); repeat constructor.
  - etrans; [|exact Hf]. unfold env_vars. destruct (e_InsecureTLS e), (e_ScrubExtra e =s ""); cbn; lia.
Qed.

Definition hard_env : EnvFile :=
  {| e_Endpoint := "https://192.168.1.10:8006"; e_Username := "root@pam"; e_Password := "it's $(rm -rf ~)
`x`";
     e_InsecureTLS := true; e_Node := "pve-a"; e_TestStorage := "local-lvm"; e_PlacementVMID1 := 9301;
     e_PlacementVMID2 := 9302; e_ConsoleVMID := 9303; e_ScrubExtra := "" |}.
Lemma env_sources_witness :
  Forall no_zero (env_vars hard_env) ∧ sh_source 11 (RenderEnv hard_env) = Some (env_vars hard_env).
Proof.
  assert (Hz : Forall no_zero (env_vars hard_env)) by (repeat constructor).
  split; [exact Hz|]. by apply (env_sources hard_env Hz).
Defined.

(** ** The state file keeps what it is given *)

Lemma decode_at {A} (z : A) d name l v : field_raw name l = Some v → v ≠ JNull → decode_field z d name l = d v.
Proof. unfold decode_field. intros -> Hv. by destruct v. Qed.
Lemma decode_none {A} (z : A) d name l : field_raw name l = None → decode_field z d name l = Some z.
Proof. unfold decode_field. by intros ->. Qed.

(** Reads the fields of an object with known keys one after another. *)
Ltac read_field :=
  first [erewrite decode_none by (vm_compute; reflexivity) | erewrite decode_at; [|vm_compute; reflexivity|done]].

(** Seconds that their shortest decimal form gives back. *)
Definition exact_seconds (f : spec_float) : Prop :=
  f = S754_zero false ∨ is_float_zero f = false ∧ as_float (jfloat f) = Some f.
Definition storable_node (n : NodeState) : Prop :=
  (int64_ok (ns_VMID n) = true ∧ exact_seconds (ns_ReadySeconds n)) ∧ Forall valid_utf8 [ns_Name n; ns_CIDR n].
Record storable_state (st : State) : Prop := {
  storable_version : (min_int64 ≤ st_SchemaVersion st ≤ StateSchemaVersion)%Z;
  storable_time : valid_time (st_CreatedAt st) = true;
  storable_texts : Forall valid_utf8 [st_CreatedAt st; st_ClusterName st; st_PVEVersion st; st_ISOVolid st];
  storable_nodes : Forall storable_node (st_Nodes st)
}.

Lemma jfloat_not_null f : jfloat f ≠ JNull.
Proof. unfold jfloat. destruct (shortest f). by case_match. Qed.

Lemma node_roundtrip n : storable_node n → decode_NodeState (NodeState_json n) = Some n.
Proof.
  intros [[Hv Hf] _]. destruct n as [name vmid cidr created started ready seconds]. cbn in Hv, Hf.
  unfold decode_NodeState, NodeState_json, as_struct, str_field, int_field, bool_field, float_field. cbn [ns_Name ns_VMID
    ns_CIDR ns_Created ns_Started ns_Ready ns_ReadySeconds].
  destruct Hf as [->|[Hz Hf]].
  - unfold omit_float, is_float_zero, omit_true. destruct created, started, ready; cbn [app]; repeat read_field; cbn [as_int]; rewrite Hv;
      reflexivity.
  - unfold omit_float. rewrite Hz. pose proof (jfloat_not_null seconds) as Hn. revert Hf Hn.
    generalize (jfloat seconds) as j. intros j Hf Hn. unfold omit_true.
    destruct created, started, ready; cbn [app]; repeat read_field; cbn [as_int]; rewrite Hv, Hf; reflexivity.
Qed.

Lemma mapM_roundtrip {A B} (f : A → B) (g : B → option A) (P : A → Prop) l :
  (∀ x, P x → g (f x) = Some x) → Forall P l → mapM g (f <$> l) = Some l.
Proof. intros Hg. induction 1 as [|x l Hx _ IH]; [done|]. cbn. by rewrite Hg, IH. Qed.

Lemma state_roundtrip st : storable_state st → decode_State (State_json st) = Some st.
Proof.
  intros [Hver Htime _ Hnodes]. destruct st as [ver time name pve iso clustered nodes]. cbn in *.
  assert (Hint : int64_ok ver = true) by (unfold int64_ok, StateSchemaVersion, max_int64 in *; lia).
  assert (∃ o, omit_nodes nodes = optional [("nodes", o)] ∧
    match o with None => nodes = [] | Some j => j ≠ JNull ∧ as_list decode_NodeState j = Some nodes end) as (o & He & Ho).
  { destruct nodes as [|n nodes]; [by exists None|]. eexists (Some _). split; [done|]. split; [done|].
    by apply (mapM_roundtrip _ _ storable_node); [apply node_roundtrip|]. }
  unfold State_json. cbn [st_SchemaVersion st_CreatedAt st_ClusterName st_PVEVersion st_ISOVolid st_Clustered st_Nodes].
  rewrite He. clear He Hnodes.
  unfold decode_State, as_struct, str_field, int_field, bool_field, time_field, list_field, omit_str, omit_true.
  destruct o as [j|]; [destruct Ho as [Hnull Ho]|subst nodes];
    repeat case_bool_decide; subst; destruct clustered; cbn [app optional omap list_omap]; repeat read_field;
    cbn [as_int as_time]; rewrite Hint, Htime, ?Ho; reflexivity.
Qed.

(** The state's JSON is kept by its text. *)
Lemma textual_omit_true name v : valid_utf8 name → Forall textual_field (omit_true name v).
Proof. intros. destruct v; repeat constructor; done. Qed.
Lemma textual_omit_float name v : valid_utf8 name → Forall textual_field (omit_float name v).
Proof.
  intros. unfold omit_float. destruct (is_float_zero v); [constructor|]. destruct (jfloat_number v) as (m & e & -> & He).
  repeat constructor; done.
Qed.
Lemma textual_NodeState n : storable_node n → textual (NodeState_json n).
Proof.
  intros [_ Ht]. apply Forall_cons in Ht as [Hn Ht]. apply Forall_cons in Ht as [Hc _]. constructor.
  change (Forall textual_field (([("name", JStr (ns_Name n)); ("vmid", jint (ns_VMID n)); ("cidr", JStr (ns_CIDR n))] ++
    omit_true "created" (ns_Created n) ++ omit_true "started" (ns_Started n) ++ omit_true "ready" (ns_Ready n) ++
    omit_float "ready_seconds" (ns_ReadySeconds n)))).
  repeat apply textual_cons; try (by constructor); try utf8_name.
  repeat apply Forall_app_2; first [apply textual_omit_true; utf8_name|apply textual_omit_float; utf8_name].
Qed.
Lemma textual_State st : storable_state st → textual (State_json st).
Proof.
  intros [_ _ Ht Hn]. do 4 (apply Forall_cons in Ht as [? Ht]). constructor.
  match goal with |- Forall _ ?l => change (Forall textual_field l) end.
  repeat apply textual_cons; try (by constructor); try utf8_name.
  repeat apply Forall_app_2; try (apply textual_omit_str; [utf8_name|done]); [apply textual_omit_true; utf8_name|].
  unfold omit_nodes. destruct (st_Nodes st) as [|x l]; [constructor|]. apply textual_cons; [utf8_name| |constructor].
  constructor. apply Forall_fmap. eapply Forall_impl; [exact Hn|]. apply textual_NodeState.
Qed.
Lemma State_depth st : json_depth (State_json st) ≤ 3.
Proof.
  assert (∀ n, json_depth (NodeState_json n) = 1) as Hn.
  { intros n. unfold NodeState_json, omit_true, omit_float. destruct (jfloat_number (ns_ReadySeconds n)) as (m & e & -> & _).
    by destruct (ns_Created n), (ns_Started n), (ns_Ready n), (is_float_zero (ns_ReadySeconds n)). }
  assert (json_depth (JArr (NodeState_json <$> st_Nodes st)) ≤ 2) as Hl.
  { cbn [json_depth]. induction (st_Nodes st) as [|n l IH]; cbn [fmap list_fmap foldr]; [lia|]. rewrite Hn. lia. }
  assert (∀ l, Forall (λ kv : string * json, json_depth kv.2 ≤ 2) l → json_depth (JObj l) ≤ 3) as Hobj.
  { intros l. cbn [json_depth]. induction 1; cbn [foldr]; lia. }
  apply Hobj. unfold State_json, omit_str, omit_true, omit_nodes. repeat apply Forall_app_2;
    repeat case_match; repeat (apply Forall_cons_2 || apply Forall_nil_2); first [exact Hl|cbn; lia].
Qed.
Lemma state_text_roundtrip st : storable_state st →
  (j ← Unmarshal (MarshalIndent (State_json st) +:+ nl); decode_State j) = Some st.
Proof.
  intros Hst. rewrite textual_indented; [by apply state_roundtrip|by apply textual_State| |done].
  pose proof (State_depth st). unfold maxNestingDepth. lia.
Qed.

(** A successful write is what the next read of the file gives. *)
Class LawfulFiles (W : Type) `{!Files W} : Prop :=
  written_read path c w w' : WriteFile path c w = (w', None) → (ReadFile path w').2 = inr c.

(** C6. What an update returns is what the next load reads. When [UpdateState] reports
    success, the state it returns (every node's progress, the stamp of the first
    write, the stage flags) survives the indented JSON text, its omitted fields and its
    decoding unchanged, so a later [status], [env] or [up] sees exactly it. Its texts
    must be valid UTF-8, which JSON cannot carry otherwise. *)
Theorem update_persists {W} `{!Files W} `{!LawfulFiles W} path mutate w w' st :
  UpdateState path mutate w = (w', inr st) → storable_state st → (LoadState path w').2 = inr st.
Proof.
  unfold UpdateState. destruct (LoadState path w) as [w1 r].
  assert (∀ st0 w0, (let st := mutate st0 in
    match WriteState path st w0 with (w, Some err) => (w, inl err) | (w, None) => (w, inr st) end) = (w', inr st) →
    storable_state st → (LoadState path w').2 = inr st) as Hwrite.
  { intros st0 w0. cbv zeta. unfold WriteState. destruct (WriteFile path _ w0) as [w2 [e|]] eqn:Hw; [done|].
    cbn [fmap option_fmap option_map]. intros [= <- <-] Hst. unfold LoadState. apply written_read in Hw.
    destruct (ReadFile path w2) as [w3 rd]. cbn [snd] in Hw. subst rd. cbn [snd]. rewrite state_text_roundtrip by done.
    destruct Hst as [Hv _ _ _]. destruct (Z.ltb_spec StateSchemaVersion (st_SchemaVersion (mutate st0))); [lia|done]. }
  destruct r as [[err|]|st0]; [done| |apply Hwrite].
  destruct (Now_UTC w1) as [w2 now]. apply Hwrite.
Qed.

(** A file system that is a map. *)
#[local] Instance map_files : Files (gmap string string) := {|
  ReadFile path w := (w, match w !! path with Some c => inr c | None => inl NotExist end);
  WriteFile path c w := (<[path := c]> w, None);
  RemoveFile path w := (delete path w, if bool_decide (is_Some (w !! path)) then None else Some NotExist);
  Now_UTC w := (w, "2026-07-12T09:30:00.5Z")
|}.
#[local] Instance map_files_lawful : LawfulFiles (gmap string string).
Proof. intros path c w w' [= <-]. cbn. by rewrite lookup_insert_eq. Qed.
Lemma update_persists_witness :
  let out := UpdateState ".pvelab-state.json"
    (λ st, ApplyReadiness [{| nr_Node := "pve2"; nr_Ready := true; nr_Elapsed := 244123456789 |}] (SeedNodes three_nodes st))
    (∅ : gmap string string) in
  ∃ st, out.2 = inr st ∧ storable_state st ∧ ns_Ready <$> st_Nodes st = [false; true; false] ∧
    (LoadState ".pvelab-state.json" out.1).2 = inr st.
Proof.
  intros out. eexists. split; [reflexivity|].
  match goal with |- storable_state ?s ∧ _ => assert (Hst : storable_state s) end.
  { split; [vm_compute; split; discriminate|vm_compute; reflexivity|repeat (apply Forall_cons; split); [..|constructor]; utf8_name|].
    repeat (apply Forall_cons; split); [..|constructor];
      (split; [|repeat (apply Forall_cons; split); [..|constructor]; utf8_name]); (split; [vm_compute; reflexivity|]);
      first [left; vm_compute; reflexivity|right; split; vm_compute; reflexivity]. }
  split; [exact Hst|]. split; [vm_compute; reflexivity|].
  apply (update_persists (W := gmap string string)) with (mutate := λ st, ApplyReadiness
      [{| nr_Node := "pve2"; nr_Ready := true; nr_Elapsed := 244123456789 |}] (SeedNodes three_nodes st)) (w := ∅);
    [reflexivity|exact Hst].
Defined.
