(* ===== verification/HaService.v ===== *)
(** [proxmox/ha] apart from the switch and the scheduler settings ([HaClient]):
    resources and rules, the status reads, replication jobs, and the moves of a
    resource. *)

From S2P Require Import Prelude Json Pverr Types Url Api Tasks Svcutil.
From Stdlib Require Import ZArith Floats.SpecFloat.
From stdpp Require Import options.

(** ** Payloads *)

(* go: proxmox/ha/types.go#HAResource *)
Record HAResource := {
  hr_SID : string; hr_Type : string; hr_State : string; hr_Group : string; hr_MaxRestart : Z; hr_MaxRelocate : Z;
  hr_Comment : string; hr_Extra : gmap string string
}.
Definition HAResource_zero : HAResource :=
  {| hr_SID := ""; hr_Type := ""; hr_State := ""; hr_Group := ""; hr_MaxRestart := 0; hr_MaxRelocate := 0;
     hr_Comment := ""; hr_Extra := ∅ |}.
(* go: proxmox/ha/types.go#haResourceKnownFields *)
Definition haResourceKnownFields : list string :=
  ["sid"; "type"; "state"; "group"; "max_restart"; "max_relocate"; "comment"].
(* go: proxmox/ha/types.go#HAResource.UnmarshalJSON *)
Definition HAResource_UnmarshalJSON : json → option HAResource :=
  as_struct HAResource_zero (λ l,
    si ← str_field "sid" l; t ← str_field "type" l; st ← str_field "state" l; g ← str_field "group" l;
    m ← int_field "max_restart" l; ma ← int_field "max_relocate" l; c ← str_field "comment" l;
    Some {| hr_SID := si; hr_Type := t; hr_State := st; hr_Group := g; hr_MaxRestart := m; hr_MaxRelocate := ma;
            hr_Comment := c; hr_Extra := foldl (extra_key haResourceKnownFields) ∅ l |}).

(* go: proxmox/ha/types.go#HAResourceSpec *)
Record HAResourceSpec := {
  hs_SID : string; hs_State : string; hs_MaxRestart : Z; hs_MaxRelocate : Z; hs_Comment : string;
  hs_Extra : gmap string string
}.
Definition HAResourceSpec_fields (s : HAResourceSpec) : list (string * json) :=
  [("sid", JStr (hs_SID s))] ++ omit_str "state" (hs_State s) ++ omit_int "max_restart" (hs_MaxRestart s) ++
  omit_int "max_relocate" (hs_MaxRelocate s) ++ omit_str "comment" (hs_Comment s).

(* go: proxmox/ha/types.go#HAResourceUpdate *)
Record HAResourceUpdate := {
  hu_State : string; hu_MaxRestart : option Z; hu_MaxRelocate : option Z; hu_Comment : string; hu_Delete : string;
  hu_Extra : gmap string string
}.
Definition HAResourceUpdate_fields (s : HAResourceUpdate) : list (string * json) :=
  omit_str "state" (hu_State s) ++ opt_int "max_restart" (hu_MaxRestart s) ++
  opt_int "max_relocate" (hu_MaxRelocate s) ++ omit_str "comment" (hu_Comment s) ++ omit_str "delete" (hu_Delete s).

(* go: proxmox/ha/rules.go#HARule *)
Record HARule := {
  ru_Rule : string; ru_Type : string; ru_Nodes : string; ru_Resources : string; ru_Affinity : string;
  ru_Disable : bool; ru_Comment : string; ru_Extra : gmap string string
}.
Definition HARule_zero : HARule :=
  {| ru_Rule := ""; ru_Type := ""; ru_Nodes := ""; ru_Resources := ""; ru_Affinity := ""; ru_Disable := false;
     ru_Comment := ""; ru_Extra := ∅ |}.
(* go: proxmox/ha/rules.go#haRuleKnownFields *)
Definition haRuleKnownFields : list string :=
  ["rule"; "type"; "nodes"; "resources"; "affinity"; "disable"; "comment"].
(* go: proxmox/ha/rules.go#HARule.UnmarshalJSON *)
Definition HARule_UnmarshalJSON : json → option HARule :=
  as_struct HARule_zero (λ l,
    r ← str_field "rule" l; t ← str_field "type" l; n ← str_field "nodes" l; re ← str_field "resources" l;
    a ← str_field "affinity" l; d ← pvebool_field "disable" l; c ← str_field "comment" l;
    Some {| ru_Rule := r; ru_Type := t; ru_Nodes := n; ru_Resources := re; ru_Affinity := a; ru_Disable := d;
            ru_Comment := c; ru_Extra := foldl (extra_key haRuleKnownFields) ∅ l |}).

(* go: proxmox/ha/rules.go#HARuleSpec *)
Record HARuleSpec := {
  rs_Rule : string; rs_Type : string; rs_Nodes : list string; rs_Resources : list string; rs_Affinity : string;
  rs_Disable : option bool; rs_Comment : string; rs_Extra : gmap string string
}.
Definition HARuleSpec_fields (s : HARuleSpec) : list (string * json) :=
  [("rule", JStr (rs_Rule s)); ("type", JStr (rs_Type s))] ++ omit_str "affinity" (rs_Affinity s) ++
  opt_bool "disable" (rs_Disable s) ++ omit_str "comment" (rs_Comment s).

(* go: proxmox/ha/rules.go#HARuleUpdate *)
Record HARuleUpdate := {
  rd_Type : string; rd_Nodes : list string; rd_Resources : list string; rd_Affinity : string;
  rd_Disable : option bool; rd_Comment : string; rd_Delete : string; rd_Extra : gmap string string
}.
Definition HARuleUpdate_fields (s : HARuleUpdate) : list (string * json) :=
  omit_str "type" (rd_Type s) ++ omit_str "affinity" (rd_Affinity s) ++ opt_bool "disable" (rd_Disable s) ++
  omit_str "comment" (rd_Comment s) ++ omit_str "delete" (rd_Delete s).

(* go: proxmox/ha/status.go#HAStatusEntry *)
Record HAStatusEntry := {
  he_ID : string; he_SID : string; he_Node : string; he_Type : string; he_State : string; he_Status : string;
  he_CRMState : string; he_RequestState : string; he_Quorate : bool; he_ArmedState : string; he_AutoRebalance : bool;
  he_Failback : bool; he_MaxRelocate : Z; he_MaxRestart : Z; he_ResourceMode : string; he_Timestamp : Z;
  he_Comment : string; he_Extra : gmap string string
}.
Definition HAStatusEntry_zero : HAStatusEntry :=
  {| he_ID := ""; he_SID := ""; he_Node := ""; he_Type := ""; he_State := ""; he_Status := ""; he_CRMState := "";
     he_RequestState := ""; he_Quorate := false; he_ArmedState := ""; he_AutoRebalance := false; he_Failback := false;
     he_MaxRelocate := 0; he_MaxRestart := 0; he_ResourceMode := ""; he_Timestamp := 0; he_Comment := "";
     he_Extra := ∅ |}.
(* go: proxmox/ha/status.go#haStatusEntryKnownFields *)
Definition haStatusEntryKnownFields : list string :=
  ["id"; "sid"; "node"; "type"; "state"; "status"; "crm_state"; "request_state"; "quorate"; "armed-state";
   "auto-rebalance"; "failback"; "max_relocate"; "max_restart"; "resource_mode"; "timestamp"; "comment"].
(* go: proxmox/ha/status.go#HAStatusEntry.UnmarshalJSON *)
Definition HAStatusEntry_UnmarshalJSON : json → option HAStatusEntry :=
  as_struct HAStatusEntry_zero (λ l,
    i ← str_field "id" l; si ← str_field "sid" l; n ← str_field "node" l; t ← str_field "type" l;
    st ← str_field "state" l; sta ← str_field "status" l; c ← str_field "crm_state" l;
    r ← str_field "request_state" l; q ← pvebool_field "quorate" l; a ← str_field "armed-state" l;
    au ← pvebool_field "auto-rebalance" l; f ← pvebool_field "failback" l; m ← int_field "max_relocate" l;
    ma ← int_field "max_restart" l; re ← str_field "resource_mode" l; ti ← int_field "timestamp" l;
    co ← str_field "comment" l;
    Some {| he_ID := i; he_SID := si; he_Node := n; he_Type := t; he_State := st; he_Status := sta; he_CRMState := c;
            he_RequestState := r; he_Quorate := q; he_ArmedState := a; he_AutoRebalance := au; he_Failback := f;
            he_MaxRelocate := m; he_MaxRestart := ma; he_ResourceMode := re; he_Timestamp := ti; he_Comment := co;
            he_Extra := foldl (extra_key haStatusEntryKnownFields) ∅ l |}).

(* go: proxmox/ha/status.go#ManagerServiceStatus *)
Record ManagerServiceStatus := {
  mv_Node : string; mv_State : string; mv_UID : string; mv_Extra : gmap string string
}.
Definition ManagerServiceStatus_zero : ManagerServiceStatus :=
  {| mv_Node := ""; mv_State := ""; mv_UID := ""; mv_Extra := ∅ |}.
(* go: proxmox/ha/status.go#managerServiceKnownFields *)
Definition managerServiceKnownFields : list string := ["node"; "state"; "uid"].
(* go: proxmox/ha/status.go#ManagerServiceStatus.UnmarshalJSON *)
Definition ManagerServiceStatus_UnmarshalJSON : json → option ManagerServiceStatus :=
  as_struct ManagerServiceStatus_zero (λ l,
    n ← str_field "node" l; st ← str_field "state" l; u ← str_field "uid" l;
    Some {| mv_Node := n; mv_State := st; mv_UID := u; mv_Extra := foldl (extra_key managerServiceKnownFields) ∅ l |}).

(* go: proxmox/ha/status.go#ManagerQuorum *)
Record ManagerQuorum := { mq_Node : string; mq_Quorate : bool; mq_Extra : gmap string string }.
Definition ManagerQuorum_zero : ManagerQuorum := {| mq_Node := ""; mq_Quorate := false; mq_Extra := ∅ |}.
(* go: proxmox/ha/status.go#managerQuorumKnownFields *)
Definition managerQuorumKnownFields : list string := ["node"; "quorate"].
(* go: proxmox/ha/status.go#ManagerQuorum.UnmarshalJSON *)
Definition ManagerQuorum_UnmarshalJSON : json → option ManagerQuorum :=
  as_struct ManagerQuorum_zero (λ l,
    n ← str_field "node" l; q ← pvebool_field "quorate" l;
    Some {| mq_Node := n; mq_Quorate := q; mq_Extra := foldl (extra_key managerQuorumKnownFields) ∅ l |}).

(* go: proxmox/ha/replication.go#ReplicationJob *)
Record ReplicationJob := {
  rj_ID : string; rj_Type : string; rj_Target : string; rj_Schedule : string; rj_Rate : spec_float; rj_Disable : bool;
  rj_Comment : string; rj_Extra : gmap string string
}.
Definition ReplicationJob_zero : ReplicationJob :=
  {| rj_ID := ""; rj_Type := ""; rj_Target := ""; rj_Schedule := ""; rj_Rate := S754_zero false; rj_Disable := false;
     rj_Comment := ""; rj_Extra := ∅ |}.
(* go: proxmox/ha/replication.go#replJobKnownFields *)
Definition replJobKnownFields : list string := ["id"; "type"; "target"; "schedule"; "rate"; "disable"; "comment"].
(* go: proxmox/ha/replication.go#ReplicationJob.UnmarshalJSON *)
Definition ReplicationJob_UnmarshalJSON : json → option ReplicationJob :=
  as_struct ReplicationJob_zero (λ l,
    i ← str_field "id" l; t ← str_field "type" l; ta ← str_field "target" l; sc ← str_field "schedule" l;
    r ← float_field "rate" l; d ← pvebool_field "disable" l; c ← str_field "comment" l;
    Some {| rj_ID := i; rj_Type := t; rj_Target := ta; rj_Schedule := sc; rj_Rate := r; rj_Disable := d;
            rj_Comment := c; rj_Extra := foldl (extra_key replJobKnownFields) ∅ l |}).

(* go: proxmox/ha/replication.go#ReplicationSpec *)
Record ReplicationSpec := {
  rc_ID : string; rc_Target : string; rc_Type : string; rc_Schedule : string; rc_Rate : spec_float;
  rc_Comment : string; rc_Extra : gmap string string
}.
Definition ReplicationSpec_fields (s : ReplicationSpec) : list (string * json) :=
  [("id", JStr (rc_ID s)); ("target", JStr (rc_Target s))] ++ omit_str "type" (rc_Type s) ++
  omit_str "schedule" (rc_Schedule s) ++ omit_float "rate" (rc_Rate s) ++ omit_str "comment" (rc_Comment s).

(* go: proxmox/ha/replication.go#ReplicationUpdate *)
Record ReplicationUpdate := {
  rp_Target : string; rp_Schedule : string; rp_Rate : option spec_float; rp_Disable : option bool;
  rp_Comment : string; rp_Delete : string; rp_Extra : gmap string string
}.
Definition ReplicationUpdate_fields (s : ReplicationUpdate) : list (string * json) :=
  omit_str "target" (rp_Target s) ++ omit_str "schedule" (rp_Schedule s) ++ opt_float "rate" (rp_Rate s) ++
  opt_bool "disable" (rp_Disable s) ++ omit_str "comment" (rp_Comment s) ++ omit_str "delete" (rp_Delete s).

(* go: proxmox/ha/migrate.go#BlockingResource *)
Record BlockingResource := { br_SID : string; br_Cause : string; br_Extra : gmap string string }.
Definition BlockingResource_zero : BlockingResource := {| br_SID := ""; br_Cause := ""; br_Extra := ∅ |}.
(* go: proxmox/ha/migrate.go#blockingResourceKnownFields *)
Definition blockingResourceKnownFields : list string := ["sid"; "cause"].
(* go: proxmox/ha/migrate.go#BlockingResource.UnmarshalJSON *)
Definition BlockingResource_UnmarshalJSON : json → option BlockingResource :=
  as_struct BlockingResource_zero (λ l,
    si ← str_field "sid" l; c ← str_field "cause" l;
    Some {| br_SID := si; br_Cause := c; br_Extra := foldl (extra_key blockingResourceKnownFields) ∅ l |}).

(* go: proxmox/ha/migrate.go#MigrateResult *)
Record MigrateResult := {
  mr_SID : string; mr_RequestedNode : string; mr_BlockingResources : list BlockingResource;
  mr_ComigratedResources : list string; mr_Extra : gmap string string
}.
Definition MigrateResult_zero : MigrateResult :=
  {| mr_SID := ""; mr_RequestedNode := ""; mr_BlockingResources := []; mr_ComigratedResources := []; mr_Extra := ∅ |}.
(* go: proxmox/ha/migrate.go#migrateResultKnownFields *)
Definition migrateResultKnownFields : list string :=
  ["sid"; "requested-node"; "blocking-resources"; "comigrated-resources"].
(* go: proxmox/ha/migrate.go#MigrateResult.UnmarshalJSON *)
Definition MigrateResult_UnmarshalJSON : json → option MigrateResult :=
  as_struct MigrateResult_zero (λ l,
    si ← str_field "sid" l; r ← str_field "requested-node" l;
    b ← list_field BlockingResource_UnmarshalJSON "blocking-resources" l; c ← strs_field "comigrated-resources" l;
    Some {| mr_SID := si; mr_RequestedNode := r; mr_BlockingResources := b; mr_ComigratedResources := c;
            mr_Extra := foldl (extra_key migrateResultKnownFields) ∅ l |}).

(* go: proxmox/ha/dlb.go#DLBStatus *)
Record DLBStatus := { dl_Enabled : bool; dl_Mode : string; dl_Extra : gmap string string }.
Definition DLBStatus_zero : DLBStatus := {| dl_Enabled := false; dl_Mode := ""; dl_Extra := ∅ |}.
(* go: proxmox/ha/dlb.go#dlbStatusKnownFields *)
Definition dlbStatusKnownFields : list string := ["enabled"; "mode"].
(* go: proxmox/ha/dlb.go#DLBStatus.UnmarshalJSON *)
Definition DLBStatus_UnmarshalJSON : json → option DLBStatus :=
  as_struct DLBStatus_zero (λ l,
    e ← pvebool_field "enabled" l; m ← str_field "mode" l;
    Some {| dl_Enabled := e; dl_Mode := m; dl_Extra := foldl (extra_key dlbStatusKnownFields) ∅ l |}).

(* go: proxmox/ha/dlb.go#DLBConfig *)
Record DLBConfig := { dc_Enabled : bool; dc_Mode : string; dc_Extra : gmap string string }.
Definition DLBConfig_fields (s : DLBConfig) : list (string * json) :=
  [("enabled", PVEBool_MarshalJSON (dc_Enabled s))] ++ omit_str "mode" (dc_Mode s).

(* go: proxmox/ha/status.go#ManagerState *)
Record ManagerState := {
  mt_MasterNode : string; mt_NodeStatus : gmap string string; mt_ServiceStatus : gmap string ManagerServiceStatus;
  mt_Timestamp : Z; mt_Extra : gmap string string
}.
Definition ManagerState_zero : ManagerState :=
  {| mt_MasterNode := ""; mt_NodeStatus := ∅; mt_ServiceStatus := ∅; mt_Timestamp := 0; mt_Extra := ∅ |}.
(* go: proxmox/ha/status.go#managerStateKnownFields *)
Definition managerStateKnownFields : list string := ["master_node"; "node_status"; "service_status"; "timestamp"].
(* go: proxmox/ha/status.go#ManagerState.UnmarshalJSON *)
Definition ManagerState_UnmarshalJSON : json → option ManagerState :=
  as_struct ManagerState_zero (λ l,
    m ← str_field "master_node" l; n ← map_field as_string_out "node_status" l;
    sv ← map_field ManagerServiceStatus_UnmarshalJSON "service_status" l; t ← int_field "timestamp" l;
    Some {| mt_MasterNode := m; mt_NodeStatus := n; mt_ServiceStatus := sv; mt_Timestamp := t;
            mt_Extra := foldl (extra_key managerStateKnownFields) ∅ l |}).

(* go: proxmox/ha/status.go#ManagerStatus *)
Record ManagerStatus := { ms_Manager : ManagerState; ms_Quorum : ManagerQuorum; ms_Extra : gmap string string }.
Definition ManagerStatus_zero : ManagerStatus :=
  {| ms_Manager := ManagerState_zero; ms_Quorum := ManagerQuorum_zero; ms_Extra := ∅ |}.
(* go: proxmox/ha/status.go#managerStatusKnownFields *)
Definition managerStatusKnownFields : list string := ["manager_status"; "quorum"].
(* go: proxmox/ha/status.go#ManagerStatus.UnmarshalJSON *)
Definition ManagerStatus_UnmarshalJSON : json → option ManagerStatus :=
  as_struct ManagerStatus_zero (λ l,
    m ← struct_field ManagerState_zero ManagerState_UnmarshalJSON "manager_status" l;
    q ← struct_field ManagerQuorum_zero ManagerQuorum_UnmarshalJSON "quorum" l;
    Some {| ms_Manager := m; ms_Quorum := q; ms_Extra := foldl (extra_key managerStatusKnownFields) ∅ l |}).

(** ** Paths *)

(* go: proxmox/ha/paths.go#haResourcesPath *)
Definition haResourcesPath : string := "/cluster/ha/resources".
(* go: proxmox/ha/paths.go#haResourcePath *)
Definition haResourcePath (sid : string) : string := haResourcesPath +:+ "/" +:+ PathEscape sid.
(* go: proxmox/ha/paths.go#haResourceMigratePath *)
Definition haResourceMigratePath (sid : string) : string := haResourcePath sid +:+ "/migrate".
(* go: proxmox/ha/paths.go#haResourceRelocatePath *)
Definition haResourceRelocatePath (sid : string) : string := haResourcePath sid +:+ "/relocate".
(* go: proxmox/ha/paths.go#haRulesPath *)
Definition haRulesPath : string := "/cluster/ha/rules".
(* go: proxmox/ha/paths.go#haRulePath *)
Definition haRulePath (rule : string) : string := haRulesPath +:+ "/" +:+ PathEscape rule.
(* go: proxmox/ha/paths.go#haStatusCurrentPath *)
Definition haStatusCurrentPath : string := "/cluster/ha/status/current".
(* go: proxmox/ha/paths.go#haStatusManagerPath *)
Definition haStatusManagerPath : string := "/cluster/ha/status/manager_status".
(* go: proxmox/ha/paths.go#replJobsPath *)
Definition replJobsPath : string := "/cluster/replication".
(* go: proxmox/ha/paths.go#replJobPath *)
Definition replJobPath (id : string) : string := replJobsPath +:+ "/" +:+ PathEscape id.

(** [json.Marshal] refuses a float that is not finite. *)
Definition finite_or {A W} (op : string) (f : spec_float) (k : W → W * (goerr + A)) : W → W * (goerr + A) :=
  if is_float_finite f then k
  else refuse (GWrap op (GWrap "encode spec" (GText ("json: unsupported value: " +:+
    match f with S754_infinity false => "+Inf" | S754_infinity true => "-Inf" | _ => "NaN" end)))).

(** ** The service *)

Section service.
Context {W : Type} `{!Client W}.

(* go: proxmox/ha/resources.go#Service.ListResources *)
Definition ListResources : W → W * (goerr + list HAResource) :=
  read_data "ha.ListResources" haResourcesPath [] (as_list HAResource_UnmarshalJSON).

(* go: proxmox/ha/resources.go#Service.GetResource *)
Definition GetResource (sid : string) : W → W * (goerr + HAResource) :=
  read_data "ha.GetResource" (haResourcePath sid) HAResource_zero HAResource_UnmarshalJSON.

(* go: proxmox/ha/resources.go#Service.AddResource *)
Definition AddResource (spec : option HAResourceSpec) : W → W * (goerr + ()) :=
  match spec with
  | None => nil_spec "ha.AddResource"
  | Some spec =>
      if hs_SID spec =s "" then missing "ha.AddResource: sid" else
      send "ha.AddResource" "POST" haResourcesPath
        (Some (BValues (EncodeWithExtra (HAResourceSpec_fields spec) (hs_Extra spec))))
  end.

(* go: proxmox/ha/resources.go#Service.UpdateResource *)
Definition UpdateResource (sid : string) (update : option HAResourceUpdate) : W → W * (goerr + ()) :=
  match update with
  | None => nil_spec "ha.UpdateResource"
  | Some update =>
      if sid =s "" then missing "ha.UpdateResource: sid" else
      send "ha.UpdateResource" "PUT" (haResourcePath sid)
        (Some (BValues (EncodeWithExtra (HAResourceUpdate_fields update) (hu_Extra update))))
  end.

(* go: proxmox/ha/resources.go#Service.RemoveResource *)
Definition RemoveResource (sid : string) : W → W * (goerr + ()) :=
  if sid =s "" then missing "ha.RemoveResource: sid" else
  send "ha.RemoveResource" "DELETE" (haResourcePath sid) None.

(* go: proxmox/ha/rules.go#Service.ListRules *)
Definition ListRules : W → W * (goerr + list HARule) :=
  read_data "ha.ListRules" haRulesPath [] (as_list HARule_UnmarshalJSON).

(* go: proxmox/ha/rules.go#Service.GetRule *)
Definition GetRule (rule : string) : W → W * (goerr + HARule) :=
  read_data "ha.GetRule" (haRulePath rule) HARule_zero HARule_UnmarshalJSON.

(* go: proxmox/ha/rules.go#Service.CreateRule *)
Definition CreateRule (spec : option HARuleSpec) : W → W * (goerr + ()) :=
  match spec with
  | None => nil_spec "ha.CreateRule"
  | Some spec =>
      if rs_Rule spec =s "" then missing "ha.CreateRule: rule" else
      if rs_Type spec =s "" then missing "ha.CreateRule: type" else
      send "ha.CreateRule" "POST" haRulesPath
        (Some (BValues (set_list "resources" (rs_Resources spec) (set_list "nodes" (rs_Nodes spec)
           (EncodeWithExtra (HARuleSpec_fields spec) (rs_Extra spec))))))
  end.

(* go: proxmox/ha/rules.go#Service.UpdateRule *)
Definition UpdateRule (rule : string) (update : option HARuleUpdate) : W → W * (goerr + ()) :=
  match update with
  | None => nil_spec "ha.UpdateRule"
  | Some update =>
      if rule =s "" then missing "ha.UpdateRule: rule" else
      send "ha.UpdateRule" "PUT" (haRulePath rule)
        (Some (BValues (set_list "resources" (rd_Resources update)
           (set_list "nodes" (rd_Nodes update) (EncodeWithExtra (HARuleUpdate_fields update) (rd_Extra update))))))
  end.

(* go: proxmox/ha/rules.go#Service.DeleteRule *)
Definition DeleteRule (rule : string) : W → W * (goerr + ()) :=
  if rule =s "" then missing "ha.DeleteRule: rule" else
  send "ha.DeleteRule" "DELETE" (haRulePath rule) None.

(* go: proxmox/ha/status.go#Service.GetManagerStatus *)
Definition GetManagerStatus : W → W * (goerr + ManagerStatus) :=
  read_data "ha.GetManagerStatus" haStatusManagerPath ManagerStatus_zero ManagerStatus_UnmarshalJSON.

(* go: proxmox/ha/status.go#Service.HAStatusCurrent *)
Definition HAStatusCurrent : W → W * (goerr + list HAStatusEntry) :=
  read_data "ha.HAStatusCurrent" haStatusCurrentPath [] (as_list HAStatusEntry_UnmarshalJSON).

(* go: proxmox/ha/replication.go#Service.ListReplicationJobs *)
Definition ListReplicationJobs : W → W * (goerr + list ReplicationJob) :=
  read_data "ha.ListReplicationJobs" replJobsPath [] (as_list ReplicationJob_UnmarshalJSON).

(* go: proxmox/ha/replication.go#Service.GetReplicationJob *)
Definition GetReplicationJob (id : string) : W → W * (goerr + ReplicationJob) :=
  read_data "ha.GetReplicationJob" (replJobPath id) ReplicationJob_zero ReplicationJob_UnmarshalJSON.

(* go: proxmox/ha/replication.go#Service.CreateReplicationJob *)
Definition CreateReplicationJob (spec : option ReplicationSpec) : W → W * (goerr + ()) :=
  match spec with
  | None => nil_spec "ha.CreateReplicationJob"
  | Some spec =>
      if rc_ID spec =s "" then missing "ha.CreateReplicationJob: id" else
      if rc_Target spec =s "" then missing "ha.CreateReplicationJob: target" else
      finite_or "ha.CreateReplicationJob" (rc_Rate spec) (
      send "ha.CreateReplicationJob" "POST" replJobsPath
        (Some (BValues (EncodeWithExtra (ReplicationSpec_fields spec) (rc_Extra spec)))))
  end.

(* go: proxmox/ha/replication.go#Service.UpdateReplicationJob *)
Definition UpdateReplicationJob (id : string) (update : option ReplicationUpdate) : W → W * (goerr + ()) :=
  match update with
  | None => nil_spec "ha.UpdateReplicationJob"
  | Some update =>
      if id =s "" then missing "ha.UpdateReplicationJob: id" else
      finite_or "ha.UpdateReplicationJob" (default (S754_zero false) (rp_Rate update)) (
      send "ha.UpdateReplicationJob" "PUT" (replJobPath id)
        (Some (BValues (EncodeWithExtra (ReplicationUpdate_fields update) (rp_Extra update)))))
  end.

(* go: proxmox/ha/replication.go#Service.DeleteReplicationJob *)
Definition DeleteReplicationJob (id : string) : W → W * (goerr + ()) :=
  if id =s "" then missing "ha.DeleteReplicationJob: id" else
  send "ha.DeleteReplicationJob" "DELETE" (replJobPath id) None.

(* go: proxmox/ha/migrate.go#Service.resourceAction *)
Definition resourceAction (op path sid node : string) : W → W * (goerr + MigrateResult) :=
  if sid =s "" then missing (op +:+ ": sid") else
  if node =s "" then missing (op +:+ ": node") else
  exchange op "POST" path (Some (BValues {[ "node" := [node] ]})) MigrateResult_zero MigrateResult_UnmarshalJSON.

(* go: proxmox/ha/migrate.go#Service.MigrateResource *)
Definition MigrateResource (sid node : string) : W → W * (goerr + MigrateResult) :=
  resourceAction "ha.MigrateResource" (haResourceMigratePath sid) sid node.

(* go: proxmox/ha/migrate.go#Service.RelocateResource *)
Definition RelocateResource (sid node : string) : W → W * (goerr + MigrateResult) :=
  resourceAction "ha.RelocateResource" (haResourceRelocatePath sid) sid node.

(** The balancer has no endpoint: both operations refuse without a request. *)
(* go: proxmox/ha/dlb.go#Service.GetDLBStatus *)
Definition GetDLBStatus : W → W * (goerr + DLBStatus) :=
  refuse (GWrap ("ha.GetDLBStatus: the Dynamic Load Balancer has no PVE REST endpoint; " +:+
    "use the CRS settings (ha.GetCRSSettings)") (GSentinel ErrUnsupported)).
(* go: proxmox/ha/dlb.go#Service.SetDLBConfig *)
Definition SetDLBConfig (_ : option DLBConfig) : W → W * (goerr + ()) :=
  refuse (GWrap ("ha.SetDLBConfig: the Dynamic Load Balancer has no PVE REST endpoint; " +:+
    "use the CRS settings (ha.SetCRSSettings)") (GSentinel ErrUnsupported)).
End service.
