(* ===== verification/AccessClient.v ===== *)
(** [proxmox/access], the client side of access control: users, groups, roles with
    their two shapes on the wire, the access control list, and API tokens with
    their version gates. *)

From S2P Require Import Prelude Json Pverr Types Url Api Version Tasks Svcutil.
From Stdlib Require Import ZArith Ascii.
From stdpp Require Import options.

(** ** Payloads *)

(* go: proxmox/access/types.go#User *)
Record User := {
  us_UserID : string; us_Enable : bool; us_Expire : Z; us_FirstName : string; us_LastName : string; us_Email : string;
  us_Comment : string; us_Groups : list string; us_Extra : gmap string string
}.
Definition User_zero : User :=
  {| us_UserID := ""; us_Enable := false; us_Expire := 0; us_FirstName := ""; us_LastName := ""; us_Email := "";
     us_Comment := ""; us_Groups := []; us_Extra := ∅ |}.
(* go: proxmox/access/types.go#userKnownFields *)
Definition userKnownFields : list string :=
  ["userid"; "enable"; "expire"; "firstname"; "lastname"; "email"; "comment"; "groups"].
(* go: proxmox/access/types.go#User.UnmarshalJSON *)
Definition User_UnmarshalJSON : json → option User :=
  as_struct User_zero (λ l,
    u ← str_field "userid" l; e ← pvebool_field "enable" l; ex ← int_field "expire" l; f ← str_field "firstname" l;
    la ← str_field "lastname" l; em ← str_field "email" l; c ← str_field "comment" l; g ← strs_field "groups" l;
    Some {| us_UserID := u; us_Enable := e; us_Expire := ex; us_FirstName := f; us_LastName := la; us_Email := em;
            us_Comment := c; us_Groups := g; us_Extra := foldl (extra_key userKnownFields) ∅ l |}).

(* go: proxmox/access/types.go#UserSpec *)
Record UserSpec := {
  uc_UserID : string; uc_Password : string; uc_Enable : option bool; uc_Expire : Z; uc_FirstName : string;
  uc_LastName : string; uc_Email : string; uc_Comment : string; uc_Groups : list string; uc_Extra : gmap string string
}.
Definition UserSpec_fields (s : UserSpec) : list (string * json) :=
  [("userid", JStr (uc_UserID s))] ++ omit_str "password" (uc_Password s) ++ opt_bool "enable" (uc_Enable s) ++
  omit_int "expire" (uc_Expire s) ++ omit_str "firstname" (uc_FirstName s) ++ omit_str "lastname" (uc_LastName s) ++
  omit_str "email" (uc_Email s) ++ omit_str "comment" (uc_Comment s).

(* go: proxmox/access/types.go#UserUpdate *)
Record UserUpdate := {
  uu_Enable : option bool; uu_Expire : Z; uu_FirstName : string; uu_LastName : string; uu_Email : string;
  uu_Comment : string; uu_Groups : list string; uu_Delete : string; uu_Extra : gmap string string
}.
Definition UserUpdate_fields (s : UserUpdate) : list (string * json) :=
  opt_bool "enable" (uu_Enable s) ++ omit_int "expire" (uu_Expire s) ++ omit_str "firstname" (uu_FirstName s) ++
  omit_str "lastname" (uu_LastName s) ++ omit_str "email" (uu_Email s) ++ omit_str "comment" (uu_Comment s) ++
  omit_str "delete" (uu_Delete s).

(* go: proxmox/access/types.go#Group *)
Record Group := { gr_GroupID : string; gr_Comment : string; gr_Members : list string; gr_Extra : gmap string string }.
Definition Group_zero : Group := {| gr_GroupID := ""; gr_Comment := ""; gr_Members := []; gr_Extra := ∅ |}.
(* go: proxmox/access/types.go#groupKnownFields *)
Definition groupKnownFields : list string := ["groupid"; "comment"; "members"].
(* go: proxmox/access/types.go#Group.UnmarshalJSON *)
Definition Group_UnmarshalJSON : json → option Group :=
  as_struct Group_zero (λ l,
    g ← str_field "groupid" l; c ← str_field "comment" l; m ← strs_field "members" l;
    Some {| gr_GroupID := g; gr_Comment := c; gr_Members := m; gr_Extra := foldl (extra_key groupKnownFields) ∅ l |}).

(* go: proxmox/access/types.go#GroupSpec *)
Record GroupSpec := { gc_GroupID : string; gc_Comment : string; gc_Extra : gmap string string }.
Definition GroupSpec_fields (s : GroupSpec) : list (string * json) :=
  [("groupid", JStr (gc_GroupID s))] ++ omit_str "comment" (gc_Comment s).

(* go: proxmox/access/types.go#GroupUpdate *)
Record GroupUpdate := { gu_Comment : string; gu_Delete : string; gu_Extra : gmap string string }.
Definition GroupUpdate_fields (s : GroupUpdate) : list (string * json) :=
  omit_str "comment" (gu_Comment s) ++ omit_str "delete" (gu_Delete s).

(* go: proxmox/access/types.go#RoleSpec *)
Record RoleSpec := { rc_RoleID : string; rc_Privs : list string; rc_Extra : gmap string string }.
Definition RoleSpec_fields (s : RoleSpec) : list (string * json) :=
  [("roleid", JStr (rc_RoleID s))].

(* go: proxmox/access/types.go#RoleUpdate *)
Record RoleUpdate := { ro_Privs : list string; ro_Append : option bool; ro_Extra : gmap string string }.
Definition RoleUpdate_fields (s : RoleUpdate) : list (string * json) :=
  opt_bool "append" (ro_Append s).

(* go: proxmox/access/types.go#ACLEntry *)
Record ACLEntry := {
  ae_Path : string; ae_RoleID : string; ae_Type : string; ae_UGID : string; ae_Propagate : bool;
  ae_Extra : gmap string string
}.
Definition ACLEntry_zero : ACLEntry :=
  {| ae_Path := ""; ae_RoleID := ""; ae_Type := ""; ae_UGID := ""; ae_Propagate := false; ae_Extra := ∅ |}.
(* go: proxmox/access/types.go#aclKnownFields *)
Definition aclKnownFields : list string := ["path"; "roleid"; "type"; "ugid"; "propagate"].
(* go: proxmox/access/types.go#ACLEntry.UnmarshalJSON *)
Definition ACLEntry_UnmarshalJSON : json → option ACLEntry :=
  as_struct ACLEntry_zero (λ l,
    p ← str_field "path" l; r ← str_field "roleid" l; t ← str_field "type" l; u ← str_field "ugid" l;
    pr ← pvebool_field "propagate" l;
    Some {| ae_Path := p; ae_RoleID := r; ae_Type := t; ae_UGID := u; ae_Propagate := pr;
            ae_Extra := foldl (extra_key aclKnownFields) ∅ l |}).

(* go: proxmox/access/types.go#ACLSpec *)
Record ACLSpec := {
  ac_Path : string; ac_Roles : list string; ac_Users : list string; ac_Groups : list string; ac_Tokens : list string;
  ac_Propagate : option bool; ac_Delete : option bool; ac_Extra : gmap string string
}.
Definition ACLSpec_fields (s : ACLSpec) : list (string * json) :=
  [("path", JStr (ac_Path s))] ++ opt_bool "propagate" (ac_Propagate s) ++ opt_bool "delete" (ac_Delete s).

(* go: proxmox/access/types.go#Token *)
Record Token := {
  tk_TokenID : string; tk_Comment : string; tk_Expire : Z; tk_Privsep : bool; tk_Extra : gmap string string
}.
Definition Token_zero : Token :=
  {| tk_TokenID := ""; tk_Comment := ""; tk_Expire := 0; tk_Privsep := false; tk_Extra := ∅ |}.
(* go: proxmox/access/types.go#tokenKnownFields *)
Definition tokenKnownFields : list string := ["tokenid"; "comment"; "expire"; "privsep"].
(* go: proxmox/access/types.go#Token.UnmarshalJSON *)
Definition Token_UnmarshalJSON : json → option Token :=
  as_struct Token_zero (λ l,
    t ← str_field "tokenid" l; c ← str_field "comment" l; e ← int_field "expire" l; p ← pvebool_field "privsep" l;
    Some {| tk_TokenID := t; tk_Comment := c; tk_Expire := e; tk_Privsep := p;
            tk_Extra := foldl (extra_key tokenKnownFields) ∅ l |}).

(* go: proxmox/access/types.go#TokenSpec *)
Record TokenSpec := { tc_Comment : string; tc_Expire : Z; tc_Privsep : option bool; tc_Extra : gmap string string }.
Definition TokenSpec_fields (s : TokenSpec) : list (string * json) :=
  omit_str "comment" (tc_Comment s) ++ omit_int "expire" (tc_Expire s) ++ opt_bool "privsep" (tc_Privsep s).

(* go: proxmox/access/types.go#TokenSecret *)
Record TokenSecret := { ts_FullTokenID : string; ts_Value : string; ts_Extra : gmap string string }.
Definition TokenSecret_zero : TokenSecret := {| ts_FullTokenID := ""; ts_Value := ""; ts_Extra := ∅ |}.
(* go: proxmox/access/types.go#tokenSecretKnownFields *)
Definition tokenSecretKnownFields : list string := ["full-tokenid"; "value"].
(* go: proxmox/access/types.go#TokenSecret.UnmarshalJSON *)
Definition TokenSecret_UnmarshalJSON : json → option TokenSecret :=
  as_struct TokenSecret_zero (λ l,
    f ← str_field "full-tokenid" l; v ← str_field "value" l;
    Some {| ts_FullTokenID := f; ts_Value := v; ts_Extra := foldl (extra_key tokenSecretKnownFields) ∅ l |}).

(* go: proxmox/access/types.go#Role *)
Record Role := { rl_RoleID : string; rl_Privs : list string; rl_Special : bool; rl_Extra : gmap string string }.
Definition Role_zero : Role := {| rl_RoleID := ""; rl_Privs := []; rl_Special := false; rl_Extra := ∅ |}.

(** A list entry has the key [roleid]; the body of one role is the object of its
    privileges, whose keys are kept sorted. *)
(* go: proxmox/access/types.go#Role.UnmarshalJSON *)
Definition Role_UnmarshalJSON : json → option Role :=
  as_struct Role_zero (λ l,
    if decide ("roleid" ∈ l.*1) then
      r ← str_field "roleid" l; p ← str_field "privs" l; sp ← pvebool_field "special" l;
      Some {| rl_RoleID := r; rl_Privs := if p =s "" then [] else split_byte "," p; rl_Special := sp; rl_Extra := ∅ |}
    else
      Some {| rl_RoleID := ""; rl_Privs := merge_sort String.le (remove_dups l.*1); rl_Special := false;
              rl_Extra := ∅ |}).

(** ** Paths *)

(* go: proxmox/access/paths.go#usersPath *)
Definition usersPath : string := "/access/users".
(* go: proxmox/access/paths.go#userPath *)
Definition userPath (userid : string) : string := usersPath +:+ "/" +:+ PathEscape userid.
(* go: proxmox/access/paths.go#groupsPath *)
Definition groupsPath : string := "/access/groups".
(* go: proxmox/access/paths.go#groupPath *)
Definition groupPath (groupid : string) : string := groupsPath +:+ "/" +:+ PathEscape groupid.
(* go: proxmox/access/paths.go#rolesPath *)
Definition rolesPath : string := "/access/roles".
(* go: proxmox/access/paths.go#rolePath *)
Definition rolePath (roleid : string) : string := rolesPath +:+ "/" +:+ PathEscape roleid.
(* go: proxmox/access/paths.go#aclPath *)
Definition aclPath : string := "/access/acl".
(* go: proxmox/access/paths.go#tokensPath *)
Definition tokensPath (userid : string) : string := userPath userid +:+ "/token".
(* go: proxmox/access/paths.go#tokenPath *)
Definition tokenPath (userid tokenid : string) : string := tokensPath userid +:+ "/" +:+ PathEscape tokenid.

(** ** The service *)

(* go: proxmox/access/tokens.go#requireUserToken *)
Definition requireUserToken (op userid tokenid : string) : option goerr :=
  if userid =s "" then Some (GWrap (op +:+ ": userid") (GSpec ErrMissingField))
  else if tokenid =s "" then Some (GWrap (op +:+ ": tokenid") (GSpec ErrMissingField))
  else None.

Section service.
Context {W : Type} `{!Client W}.
Variable caps : Capabilities.

(* go: proxmox/access/users.go#Service.ListUsers *)
Definition ListUsers : W → W * (goerr + list User) :=
  read_data "access.ListUsers" usersPath [] (as_list User_UnmarshalJSON).

(* go: proxmox/access/users.go#Service.GetUser *)
Definition GetUser (userid : string) : W → W * (goerr + User) :=
  if userid =s "" then missing "access.GetUser: userid" else
  read_data "access.GetUser" (userPath userid) User_zero User_UnmarshalJSON.

(* go: proxmox/access/users.go#Service.CreateUser *)
Definition CreateUser (spec : option UserSpec) : W → W * (goerr + ()) :=
  match spec with
  | None => nil_spec "access.CreateUser"
  | Some spec =>
      if uc_UserID spec =s "" then missing "access.CreateUser: userid" else
      send "access.CreateUser" "POST" usersPath
        (Some (BValues (set_list "groups" (uc_Groups spec) (EncodeWithExtra (UserSpec_fields spec) (uc_Extra spec)))))
  end.

(* go: proxmox/access/users.go#Service.UpdateUser *)
Definition UpdateUser (userid : string) (update : option UserUpdate) : W → W * (goerr + ()) :=
  match update with
  | None => nil_spec "access.UpdateUser"
  | Some update =>
      if userid =s "" then missing "access.UpdateUser: userid" else
      send "access.UpdateUser" "PUT" (userPath userid)
        (Some (BValues (set_list "groups" (uu_Groups update)
           (EncodeWithExtra (UserUpdate_fields update) (uu_Extra update)))))
  end.

(* go: proxmox/access/users.go#Service.DeleteUser *)
Definition DeleteUser (userid : string) : W → W * (goerr + ()) :=
  if userid =s "" then missing "access.DeleteUser: userid" else
  send "access.DeleteUser" "DELETE" (userPath userid) None.

(* go: proxmox/access/groups.go#Service.ListGroups *)
Definition ListGroups : W → W * (goerr + list Group) :=
  read_data "access.ListGroups" groupsPath [] (as_list Group_UnmarshalJSON).

(* go: proxmox/access/groups.go#Service.GetGroup *)
Definition GetGroup (groupid : string) : W → W * (goerr + Group) :=
  if groupid =s "" then missing "access.GetGroup: groupid" else
  read_data "access.GetGroup" (groupPath groupid) Group_zero Group_UnmarshalJSON.

(* go: proxmox/access/groups.go#Service.CreateGroup *)
Definition CreateGroup (spec : option GroupSpec) : W → W * (goerr + ()) :=
  match spec with
  | None => nil_spec "access.CreateGroup"
  | Some spec =>
      if gc_GroupID spec =s "" then missing "access.CreateGroup: groupid" else
      send "access.CreateGroup" "POST" groupsPath
        (Some (BValues (EncodeWithExtra (GroupSpec_fields spec) (gc_Extra spec))))
  end.

(* go: proxmox/access/groups.go#Service.UpdateGroup *)
Definition UpdateGroup (groupid : string) (update : option GroupUpdate) : W → W * (goerr + ()) :=
  match update with
  | None => nil_spec "access.UpdateGroup"
  | Some update =>
      if groupid =s "" then missing "access.UpdateGroup: groupid" else
      send "access.UpdateGroup" "PUT" (groupPath groupid)
        (Some (BValues (EncodeWithExtra (GroupUpdate_fields update) (gu_Extra update))))
  end.

(* go: proxmox/access/groups.go#Service.DeleteGroup *)
Definition DeleteGroup (groupid : string) : W → W * (goerr + ()) :=
  if groupid =s "" then missing "access.DeleteGroup: groupid" else
  send "access.DeleteGroup" "DELETE" (groupPath groupid) None.

(* go: proxmox/access/roles.go#Service.ListRoles *)
Definition ListRoles : W → W * (goerr + list Role) :=
  read_data "access.ListRoles" rolesPath [] (as_list Role_UnmarshalJSON).

(** The body of one role does not name it: the caller's name is filled in. *)
(* go: proxmox/access/roles.go#Service.GetRole *)
Definition GetRole (roleid : string) (w : W) : W * (goerr + Role) :=
  if roleid =s "" then missing "access.GetRole: roleid" w else
  then_result (read_data "access.GetRole" (rolePath roleid) Role_zero Role_UnmarshalJSON w) id
    (λ r w, (w, inr (if rl_RoleID r =s "" then
                       {| rl_RoleID := roleid; rl_Privs := rl_Privs r; rl_Special := rl_Special r;
                          rl_Extra := rl_Extra r |}
                     else r))).

(* go: proxmox/access/roles.go#Service.CreateRole *)
Definition CreateRole (spec : option RoleSpec) : W → W * (goerr + ()) :=
  match spec with
  | None => nil_spec "access.CreateRole"
  | Some spec =>
      if rc_RoleID spec =s "" then missing "access.CreateRole: roleid" else
      send "access.CreateRole" "POST" rolesPath
        (Some (BValues (set_list "privs" (rc_Privs spec) (EncodeWithExtra (RoleSpec_fields spec) (rc_Extra spec)))))
  end.

(* go: proxmox/access/roles.go#Service.UpdateRole *)
Definition UpdateRole (roleid : string) (update : option RoleUpdate) : W → W * (goerr + ()) :=
  match update with
  | None => nil_spec "access.UpdateRole"
  | Some update =>
      if roleid =s "" then missing "access.UpdateRole: roleid" else
      send "access.UpdateRole" "PUT" (rolePath roleid)
        (Some (BValues (set_list "privs" (ro_Privs update)
           (EncodeWithExtra (RoleUpdate_fields update) (ro_Extra update)))))
  end.

(* go: proxmox/access/roles.go#Service.DeleteRole *)
Definition DeleteRole (roleid : string) : W → W * (goerr + ()) :=
  if roleid =s "" then missing "access.DeleteRole: roleid" else
  send "access.DeleteRole" "DELETE" (rolePath roleid) None.

(* go: proxmox/access/acl.go#Service.ListACLs *)
Definition ListACLs : W → W * (goerr + list ACLEntry) :=
  read_data "access.ListACLs" aclPath [] (as_list ACLEntry_UnmarshalJSON).

(* go: proxmox/access/acl.go#Service.SetACL *)
Definition SetACL (spec : option ACLSpec) : W → W * (goerr + ()) :=
  match spec with
  | None => nil_spec "access.SetACL"
  | Some spec =>
      if ac_Path spec =s "" then missing "access.SetACL: path" else
      if bool_decide (ac_Roles spec = []) then missing "access.SetACL: roles" else
      if bool_decide (ac_Users spec = []) && bool_decide (ac_Groups spec = []) && bool_decide (ac_Tokens spec = [])
      then missing "access.SetACL: one of users/groups/tokens" else
      send "access.SetACL" "PUT" aclPath
        (Some (BValues (set_list "tokens" (ac_Tokens spec) (set_list "groups" (ac_Groups spec)
           (set_list "users" (ac_Users spec) (<["roles" := [join "," (ac_Roles spec)]]>
           (EncodeWithExtra (ACLSpec_fields spec) (ac_Extra spec))))))))
  end.

(* go: proxmox/access/tokens.go#Service.ListTokens *)
Definition ListTokens (userid : string) : W → W * (goerr + list Token) :=
  if userid =s "" then missing "access.ListTokens: userid" else
  read_data "access.ListTokens" (tokensPath userid) [] (as_list Token_UnmarshalJSON).

(* go: proxmox/access/tokens.go#Service.GetToken *)
Definition GetToken (userid tokenid : string) : W → W * (goerr + Token) :=
  match requireUserToken "access.GetToken" userid tokenid with
  | Some err => refuse err
  | None =>
      read_data "access.GetToken" (tokenPath userid tokenid) Token_zero Token_UnmarshalJSON
  end.

(** Without a specification the form is empty. *)
(* go: proxmox/access/tokens.go#Service.CreateToken *)
Definition CreateToken (userid tokenid : string) (spec : option TokenSpec) : W → W * (goerr + TokenSecret) :=
  match requireUserToken "access.CreateToken" userid tokenid with
  | Some err => refuse err
  | None =>
      let body := match spec with None => ∅ | Some spec => EncodeWithExtra (TokenSpec_fields spec) (tc_Extra spec) end in
      exchange "access.CreateToken" "POST" (tokenPath userid tokenid) (Some (BValues body)) TokenSecret_zero
        TokenSecret_UnmarshalJSON
  end.

(* go: proxmox/access/tokens.go#Service.UpdateToken *)
Definition UpdateToken (userid tokenid : string) (spec : option TokenSpec) : W → W * (goerr + ()) :=
  match spec with
  | None => nil_spec "access.UpdateToken"
  | Some spec =>
      match requireUserToken "access.UpdateToken" userid tokenid with
      | Some err => refuse err
      | None =>
          send "access.UpdateToken" "PUT" (tokenPath userid tokenid)
            (Some (BValues (EncodeWithExtra (TokenSpec_fields spec) (tc_Extra spec))))
      end
  end.

(* go: proxmox/access/tokens.go#Service.RevokeToken *)
Definition RevokeToken (userid tokenid : string) : W → W * (goerr + ()) :=
  match requireUserToken "access.RevokeToken" userid tokenid with
  | Some err => refuse err
  | None =>
      send "access.RevokeToken" "DELETE" (tokenPath userid tokenid) None
  end.

(* go: proxmox/access/tokens.go#Service.ClearTokenComment *)
Definition ClearTokenComment (userid tokenid : string) : W → W * (goerr + ()) :=
  match requireUserToken "access.ClearTokenComment" userid tokenid with
  | Some err => refuse err
  | None =>
      match Require caps "clear token comment" "9.1" with
      | Some err => refuse (GWrap "access.ClearTokenComment" err)
      | None =>
          send "access.ClearTokenComment" "PUT" (tokenPath userid tokenid) (Some (BValues {[ "comment" := [""] ]}))
      end
  end.

(* go: proxmox/access/tokens.go#Service.RegenerateTokenSecret *)
Definition RegenerateTokenSecret (userid tokenid : string) : W → W * (goerr + TokenSecret) :=
  match requireUserToken "access.RegenerateTokenSecret" userid tokenid with
  | Some err => refuse err
  | None =>
      match Require caps "token secret rotation" "9.2" with
      | Some err => refuse (GWrap "access.RegenerateTokenSecret" err)
      | None =>
          exchange "access.RegenerateTokenSecret" "PUT" (tokenPath userid tokenid)
            (Some (BValues {[ "regenerate" := ["1"] ]})) TokenSecret_zero TokenSecret_UnmarshalJSON
      end
  end.

End service.
