(* ===== verification/FirewallClient.v ===== *)
(** [proxmox/firewall], the client side of the firewall: one service over three
    scopes (cluster, node, guest), with its ordered rules, IP sets and options. *)

From S2P Require Import Prelude Json Pverr Types Url Api Version Tasks Svcutil.
From Stdlib Require Import ZArith.
From stdpp Require Import options.

(** ** Payloads *)

(* go: proxmox/firewall/types.go#Rule *)
Record Rule := {
  ru_Pos : Z; ru_Type : string; ru_Action : string; ru_Enable : bool; ru_Macro : string; ru_Proto : string;
  ru_Source : string; ru_Dest : string; ru_Sport : string; ru_Dport : string; ru_Iface : string; ru_Log : string;
  ru_Comment : string; ru_Extra : gmap string string
}.
Definition Rule_zero : Rule :=
  {| ru_Pos := 0; ru_Type := ""; ru_Action := ""; ru_Enable := false; ru_Macro := ""; ru_Proto := ""; ru_Source := "";
     ru_Dest := ""; ru_Sport := ""; ru_Dport := ""; ru_Iface := ""; ru_Log := ""; ru_Comment := ""; ru_Extra := ∅ |}.
(* go: proxmox/firewall/types.go#ruleKnownFields *)
Definition ruleKnownFields : list string :=
  ["pos"; "type"; "action"; "enable"; "macro"; "proto"; "source"; "dest"; "sport"; "dport"; "iface"; "log"; "comment"].
(* go: proxmox/firewall/types.go#Rule.UnmarshalJSON *)
Definition Rule_UnmarshalJSON : json → option Rule :=
  as_struct Rule_zero (λ l,
    p ← int_field "pos" l; t ← str_field "type" l; a ← str_field "action" l; e ← pvebool_field "enable" l;
    m ← str_field "macro" l; pr ← str_field "proto" l; so ← str_field "source" l; d ← str_field "dest" l;
    sp ← str_field "sport" l; dp ← str_field "dport" l; i ← str_field "iface" l; lo ← str_field "log" l;
    c ← str_field "comment" l;
    Some {| ru_Pos := p; ru_Type := t; ru_Action := a; ru_Enable := e; ru_Macro := m; ru_Proto := pr; ru_Source := so;
            ru_Dest := d; ru_Sport := sp; ru_Dport := dp; ru_Iface := i; ru_Log := lo; ru_Comment := c;
            ru_Extra := foldl (extra_key ruleKnownFields) ∅ l |}).

(* go: proxmox/firewall/types.go#RuleSpec *)
Record RuleSpec := {
  rs_Type : string; rs_Action : string; rs_Pos : option Z; rs_Enable : option bool; rs_Macro : string;
  rs_Proto : string; rs_Source : string; rs_Dest : string; rs_Sport : string; rs_Dport : string; rs_Iface : string;
  rs_Log : string; rs_Comment : string; rs_Extra : gmap string string
}.
Definition RuleSpec_fields (s : RuleSpec) : list (string * json) :=
  [("type", JStr (rs_Type s)); ("action", JStr (rs_Action s))] ++ opt_int "pos" (rs_Pos s) ++
  opt_bool "enable" (rs_Enable s) ++ omit_str "macro" (rs_Macro s) ++ omit_str "proto" (rs_Proto s) ++
  omit_str "source" (rs_Source s) ++ omit_str "dest" (rs_Dest s) ++ omit_str "sport" (rs_Sport s) ++
  omit_str "dport" (rs_Dport s) ++ omit_str "iface" (rs_Iface s) ++ omit_str "log" (rs_Log s) ++
  omit_str "comment" (rs_Comment s).

(* go: proxmox/firewall/types.go#RuleUpdate *)
Record RuleUpdate := {
  rd_Type : string; rd_Action : string; rd_Enable : option bool; rd_Macro : string; rd_Proto : string;
  rd_Source : string; rd_Dest : string; rd_Sport : string; rd_Dport : string; rd_Iface : string; rd_Log : string;
  rd_Comment : string; rd_Delete : string; rd_Extra : gmap string string
}.
Definition RuleUpdate_fields (s : RuleUpdate) : list (string * json) :=
  omit_str "type" (rd_Type s) ++ omit_str "action" (rd_Action s) ++ opt_bool "enable" (rd_Enable s) ++
  omit_str "macro" (rd_Macro s) ++ omit_str "proto" (rd_Proto s) ++ omit_str "source" (rd_Source s) ++
  omit_str "dest" (rd_Dest s) ++ omit_str "sport" (rd_Sport s) ++ omit_str "dport" (rd_Dport s) ++
  omit_str "iface" (rd_Iface s) ++ omit_str "log" (rd_Log s) ++ omit_str "comment" (rd_Comment s) ++
  omit_str "delete" (rd_Delete s).

(* go: proxmox/firewall/types.go#IPSet *)
Record IPSet := { ip_Name : string; ip_Comment : string; ip_Extra : gmap string string }.
Definition IPSet_zero : IPSet := {| ip_Name := ""; ip_Comment := ""; ip_Extra := ∅ |}.
(* go: proxmox/firewall/types.go#ipsetKnownFields *)
Definition ipsetKnownFields : list string := ["name"; "comment"].
(* go: proxmox/firewall/types.go#IPSet.UnmarshalJSON *)
Definition IPSet_UnmarshalJSON : json → option IPSet :=
  as_struct IPSet_zero (λ l,
    n ← str_field "name" l; c ← str_field "comment" l;
    Some {| ip_Name := n; ip_Comment := c; ip_Extra := foldl (extra_key ipsetKnownFields) ∅ l |}).

(* go: proxmox/firewall/types.go#IPSetSpec *)
Record IPSetSpec := { ic_Name : string; ic_Comment : string; ic_Extra : gmap string string }.
Definition IPSetSpec_fields (s : IPSetSpec) : list (string * json) :=
  [("name", JStr (ic_Name s))] ++ omit_str "comment" (ic_Comment s).

(* go: proxmox/firewall/types.go#IPSetEntry *)
Record IPSetEntry := { ie_CIDR : string; ie_NoMatch : bool; ie_Comment : string; ie_Extra : gmap string string }.
Definition IPSetEntry_zero : IPSetEntry := {| ie_CIDR := ""; ie_NoMatch := false; ie_Comment := ""; ie_Extra := ∅ |}.
(* go: proxmox/firewall/types.go#ipsetEntryKnownFields *)
Definition ipsetEntryKnownFields : list string := ["cidr"; "nomatch"; "comment"].
(* go: proxmox/firewall/types.go#IPSetEntry.UnmarshalJSON *)
Definition IPSetEntry_UnmarshalJSON : json → option IPSetEntry :=
  as_struct IPSetEntry_zero (λ l,
    c ← str_field "cidr" l; n ← pvebool_field "nomatch" l; co ← str_field "comment" l;
    Some {| ie_CIDR := c; ie_NoMatch := n; ie_Comment := co; ie_Extra := foldl (extra_key ipsetEntryKnownFields) ∅ l |}).

(* go: proxmox/firewall/types.go#IPSetEntrySpec *)
Record IPSetEntrySpec := {
  es_CIDR : string; es_NoMatch : option bool; es_Comment : string; es_Extra : gmap string string
}.
Definition IPSetEntrySpec_fields (s : IPSetEntrySpec) : list (string * json) :=
  [("cidr", JStr (es_CIDR s))] ++ opt_bool "nomatch" (es_NoMatch s) ++ omit_str "comment" (es_Comment s).

(* go: proxmox/firewall/types.go#Options *)
Record Options := {
  op_Enable : bool; op_PolicyIn : string; op_PolicyOut : string; op_LogLevelIn : string; op_LogLevelOut : string;
  op_DHCP : bool; op_MACFilter : bool; op_NDP : bool; op_Extra : gmap string string
}.
Definition Options_zero : Options :=
  {| op_Enable := false; op_PolicyIn := ""; op_PolicyOut := ""; op_LogLevelIn := ""; op_LogLevelOut := "";
     op_DHCP := false; op_MACFilter := false; op_NDP := false; op_Extra := ∅ |}.
(* go: proxmox/firewall/types.go#optionsKnownFields *)
Definition optionsKnownFields : list string :=
  ["enable"; "policy_in"; "policy_out"; "log_level_in"; "log_level_out"; "dhcp"; "macfilter"; "ndp"].
(* go: proxmox/firewall/types.go#Options.UnmarshalJSON *)
Definition Options_UnmarshalJSON : json → option Options :=
  as_struct Options_zero (λ l,
    e ← pvebool_field "enable" l; p ← str_field "policy_in" l; po ← str_field "policy_out" l;
    lo ← str_field "log_level_in" l; log ← str_field "log_level_out" l; d ← pvebool_field "dhcp" l;
    m ← pvebool_field "macfilter" l; n ← pvebool_field "ndp" l;
    Some {| op_Enable := e; op_PolicyIn := p; op_PolicyOut := po; op_LogLevelIn := lo; op_LogLevelOut := log;
            op_DHCP := d; op_MACFilter := m; op_NDP := n; op_Extra := foldl (extra_key optionsKnownFields) ∅ l |}).

(* go: proxmox/firewall/types.go#OptionsUpdate *)
Record OptionsUpdate := {
  ou_Enable : option bool; ou_PolicyIn : string; ou_PolicyOut : string; ou_LogLevelIn : string;
  ou_LogLevelOut : string; ou_DHCP : option bool; ou_MACFilter : option bool; ou_NDP : option bool;
  ou_Delete : string; ou_Extra : gmap string string
}.
Definition OptionsUpdate_fields (s : OptionsUpdate) : list (string * json) :=
  opt_bool "enable" (ou_Enable s) ++ omit_str "policy_in" (ou_PolicyIn s) ++ omit_str "policy_out" (ou_PolicyOut s) ++
  omit_str "log_level_in" (ou_LogLevelIn s) ++ omit_str "log_level_out" (ou_LogLevelOut s) ++
  opt_bool "dhcp" (ou_DHCP s) ++ opt_bool "macfilter" (ou_MACFilter s) ++ opt_bool "ndp" (ou_NDP s) ++
  omit_str "delete" (ou_Delete s).

(** ** Scopes *)

(* go: proxmox/firewall/scope.go#ScopeKind *)
Inductive ScopeKind := ScopeCluster | ScopeNode | ScopeGuest.
#[export] Instance ScopeKind_eq_dec : EqDecision ScopeKind.
Proof. solve_decision. Defined.

(* go: proxmox/firewall/scope.go#scope *)
Record scope := { sc_kind : ScopeKind; sc_node : string; sc_guest : string; sc_vmid : Z }.

(* go: proxmox/firewall/scope.go#scope.path *)
Definition scope_path (s : scope) : string :=
  match sc_kind s with
  | ScopeNode => "/nodes/" +:+ sc_node s +:+ "/firewall"
  | ScopeGuest => "/nodes/" +:+ sc_node s +:+ "/" +:+ sc_guest s +:+ "/" +:+ itoa (sc_vmid s) +:+ "/firewall"
  | ScopeCluster => "/cluster/firewall"
  end.

(** The three services differ in their scope only. *)
(* go: proxmox/firewall/service.go#NewClusterScope *)
Definition NewClusterScope : scope := {| sc_kind := ScopeCluster; sc_node := ""; sc_guest := ""; sc_vmid := 0 |}.
(* go: proxmox/firewall/service.go#NewNodeScope *)
Definition NewNodeScope (node : string) : scope :=
  {| sc_kind := ScopeNode; sc_node := node; sc_guest := ""; sc_vmid := 0 |}.
(* go: proxmox/firewall/service.go#NewGuestScope *)
Definition NewGuestScope (guest node : string) (vmid : Z) : scope :=
  {| sc_kind := ScopeGuest; sc_node := node; sc_guest := guest; sc_vmid := vmid |}.

(** ** The service *)

Section service.
Context {W : Type} `{!Client W}.
Variables (caps : Capabilities) (sc : scope).

(* go: proxmox/firewall/paths.go#Service.rulesPath *)
Definition rulesPath : string := scope_path sc +:+ "/rules".
(* go: proxmox/firewall/paths.go#Service.rulePath *)
Definition rulePath (pos : Z) : string := rulesPath +:+ "/" +:+ itoa pos.
(* go: proxmox/firewall/paths.go#Service.ipsetsPath *)
Definition ipsetsPath : string := scope_path sc +:+ "/ipset".
(* go: proxmox/firewall/paths.go#Service.ipsetPath *)
Definition ipsetPath (name : string) : string := ipsetsPath +:+ "/" +:+ PathEscape name.
(* go: proxmox/firewall/paths.go#Service.ipsetEntryPath *)
Definition ipsetEntryPath (name cidr : string) : string := ipsetPath name +:+ "/" +:+ PathEscape cidr.
(* go: proxmox/firewall/paths.go#Service.optionsPath *)
Definition optionsPath : string := scope_path sc +:+ "/options".

(* go: proxmox/firewall/ipsets.go#Service.requireIPSets *)
Definition requireIPSets (op : string) : option goerr :=
  if decide (sc_kind sc ≠ ScopeNode) then None
  else Some (GWrap ("firewall." +:+ op +:+ ": PVE serves no IPSet API at node scope (cluster and guest scope only)")
               (GSentinel ErrUnsupported)).

(* go: proxmox/firewall/rules.go#Service.ListRules *)
Definition ListRules : W → W * (goerr + list Rule) :=
  read_data "firewall.ListRules" rulesPath [] (as_list Rule_UnmarshalJSON).

(* go: proxmox/firewall/rules.go#Service.GetRule *)
Definition GetRule (pos : Z) : W → W * (goerr + Rule) :=
  read_data "firewall.GetRule" (rulePath pos) Rule_zero Rule_UnmarshalJSON.

(* go: proxmox/firewall/rules.go#Service.CreateRule *)
Definition CreateRule (spec : option RuleSpec) : W → W * (goerr + ()) :=
  match spec with
  | None => nil_spec "firewall.CreateRule"
  | Some spec =>
      if rs_Type spec =s "" then missing "firewall.CreateRule: type" else
      if rs_Action spec =s "" then missing "firewall.CreateRule: action" else
      send "firewall.CreateRule" "POST" rulesPath
        (Some (BValues (EncodeWithExtra (RuleSpec_fields spec) (rs_Extra spec))))
  end.

(* go: proxmox/firewall/rules.go#Service.UpdateRule *)
Definition UpdateRule (pos : Z) (update : option RuleUpdate) : W → W * (goerr + ()) :=
  match update with
  | None => nil_spec "firewall.UpdateRule"
  | Some update =>
      send "firewall.UpdateRule" "PUT" (rulePath pos)
        (Some (BValues (EncodeWithExtra (RuleUpdate_fields update) (rd_Extra update))))
  end.

(* go: proxmox/firewall/rules.go#Service.DeleteRule *)
Definition DeleteRule (pos : Z) : W → W * (goerr + ()) := send "firewall.DeleteRule" "DELETE" (rulePath pos) None.

(* go: proxmox/firewall/ipsets.go#Service.ListIPSets *)
Definition ListIPSets : W → W * (goerr + list IPSet) :=
  match requireIPSets "ListIPSets" with
  | Some err => refuse err
  | None =>
      read_data "firewall.ListIPSets" ipsetsPath [] (as_list IPSet_UnmarshalJSON)
  end.

(* go: proxmox/firewall/ipsets.go#Service.CreateIPSet *)
Definition CreateIPSet (spec : option IPSetSpec) : W → W * (goerr + ()) :=
  match requireIPSets "CreateIPSet" with
  | Some err => refuse err
  | None =>
      match spec with
      | None => nil_spec "firewall.CreateIPSet"
      | Some spec =>
          if ic_Name spec =s "" then missing "firewall.CreateIPSet: name" else
          send "firewall.CreateIPSet" "POST" ipsetsPath
            (Some (BValues (EncodeWithExtra (IPSetSpec_fields spec) (ic_Extra spec))))
      end
  end.

(** The body is a map: a POST to the collection with [name] and [rename]. *)
(* go: proxmox/firewall/ipsets.go#Service.RenameIPSet *)
Definition RenameIPSet (name newName : string) : W → W * (goerr + ()) :=
  match requireIPSets "RenameIPSet" with
  | Some err => refuse err
  | None =>
      if name =s "" then missing "firewall.RenameIPSet: name" else
      if newName =s "" then missing "firewall.RenameIPSet: newName" else
      match Require caps "firewall IPSet rename" "9.1" with
      | Some err => refuse (GWrap "firewall.RenameIPSet" err)
      | None =>
          send "firewall.RenameIPSet" "POST" ipsetsPath
            (Some (BStruct [("name", JStr newName); ("rename", JStr name)]))
      end
  end.

(* go: proxmox/firewall/ipsets.go#Service.DeleteIPSet *)
Definition DeleteIPSet (name : string) : W → W * (goerr + ()) :=
  match requireIPSets "DeleteIPSet" with
  | Some err => refuse err
  | None =>
      if name =s "" then missing "firewall.DeleteIPSet: name" else
      send "firewall.DeleteIPSet" "DELETE" (ipsetPath name) None
  end.

(* go: proxmox/firewall/ipsets.go#Service.ListIPSetEntries *)
Definition ListIPSetEntries (name : string) : W → W * (goerr + list IPSetEntry) :=
  match requireIPSets "ListIPSetEntries" with
  | Some err => refuse err
  | None =>
      if name =s "" then missing "firewall.ListIPSetEntries: name" else
      read_data "firewall.ListIPSetEntries" (ipsetPath name) [] (as_list IPSetEntry_UnmarshalJSON)
  end.

(* go: proxmox/firewall/ipsets.go#Service.AddIPSetEntry *)
Definition AddIPSetEntry (name : string) (entry : option IPSetEntrySpec) : W → W * (goerr + ()) :=
  match requireIPSets "AddIPSetEntry" with
  | Some err => refuse err
  | None =>
      match entry with
      | None => nil_spec "firewall.AddIPSetEntry"
      | Some entry =>
          if name =s "" then missing "firewall.AddIPSetEntry: name" else
          if es_CIDR entry =s "" then missing "firewall.AddIPSetEntry: cidr" else
          send "firewall.AddIPSetEntry" "POST" (ipsetPath name)
            (Some (BValues (EncodeWithExtra (IPSetEntrySpec_fields entry) (es_Extra entry))))
      end
  end.

(* go: proxmox/firewall/ipsets.go#Service.DeleteIPSetEntry *)
Definition DeleteIPSetEntry (name cidr : string) : W → W * (goerr + ()) :=
  match requireIPSets "DeleteIPSetEntry" with
  | Some err => refuse err
  | None =>
      if name =s "" then missing "firewall.DeleteIPSetEntry: name" else
      if cidr =s "" then missing "firewall.DeleteIPSetEntry: cidr" else
      send "firewall.DeleteIPSetEntry" "DELETE" (ipsetEntryPath name cidr) None
  end.

(* go: proxmox/firewall/options.go#Service.GetOptions *)
Definition GetOptions : W → W * (goerr + Options) :=
  read_data "firewall.GetOptions" optionsPath Options_zero Options_UnmarshalJSON.

(* go: proxmox/firewall/options.go#Service.SetOptions *)
Definition SetOptions (update : option OptionsUpdate) : W → W * (goerr + ()) :=
  match update with
  | None => nil_spec "firewall.SetOptions"
  | Some update =>
      send "firewall.SetOptions" "PUT" optionsPath
        (Some (BValues (EncodeWithExtra (OptionsUpdate_fields update) (ou_Extra update))))
  end.

End service.
