(* ===== verification/SdnClient.v ===== *)
(** [proxmox/sdn], the client side of software-defined networking: zones, VNets and
    subnets, fabrics (two protocols behind a version gate) and their members, the
    apply, and the status of a node. *)

From S2P Require Import Prelude Json Pverr Types Url Api Version Tasks Svcutil.
From Stdlib Require Import ZArith.
From stdpp Require Import options.

(** ** Payloads *)

(* go: proxmox/sdn/types.go#Zone *)
Record Zone := {
  zo_Zone : string; zo_Type : string; zo_MTU : Z; zo_Nodes : string; zo_IPAM : string; zo_DNS : string;
  zo_ReverseDNS : string; zo_DNSZone : string; zo_Controller : string; zo_VRFVXLan : Z; zo_Peers : string;
  zo_Bridge : string; zo_Extra : gmap string string
}.
Definition Zone_zero : Zone :=
  {| zo_Zone := ""; zo_Type := ""; zo_MTU := 0; zo_Nodes := ""; zo_IPAM := ""; zo_DNS := ""; zo_ReverseDNS := "";
     zo_DNSZone := ""; zo_Controller := ""; zo_VRFVXLan := 0; zo_Peers := ""; zo_Bridge := ""; zo_Extra := ∅ |}.
(* go: proxmox/sdn/types.go#zoneKnownFields *)
Definition zoneKnownFields : list string :=
  ["zone"; "type"; "mtu"; "nodes"; "ipam"; "dns"; "reversedns"; "dnszone"; "controller"; "vrf-vxlan"; "peers";
   "bridge"].
(* go: proxmox/sdn/types.go#Zone.UnmarshalJSON *)
Definition Zone_UnmarshalJSON : json → option Zone :=
  as_struct Zone_zero (λ l,
    z ← str_field "zone" l; t ← str_field "type" l; m ← int_field "mtu" l; n ← str_field "nodes" l;
    i ← str_field "ipam" l; d ← str_field "dns" l; r ← str_field "reversedns" l; dn ← str_field "dnszone" l;
    c ← str_field "controller" l; v ← int_field "vrf-vxlan" l; p ← str_field "peers" l; b ← str_field "bridge" l;
    Some {| zo_Zone := z; zo_Type := t; zo_MTU := m; zo_Nodes := n; zo_IPAM := i; zo_DNS := d; zo_ReverseDNS := r;
            zo_DNSZone := dn; zo_Controller := c; zo_VRFVXLan := v; zo_Peers := p; zo_Bridge := b;
            zo_Extra := foldl (extra_key zoneKnownFields) ∅ l |}).

(* go: proxmox/sdn/types.go#ZoneSpec *)
Record ZoneSpec := {
  zs_Zone : string; zs_Type : string; zs_MTU : Z; zs_Nodes : string; zs_IPAM : string; zs_Controller : string;
  zs_VRFVXLan : Z; zs_Peers : string; zs_Bridge : string; zs_Extra : gmap string string
}.
Definition ZoneSpec_fields (s : ZoneSpec) : list (string * json) :=
  [("zone", JStr (zs_Zone s)); ("type", JStr (zs_Type s))] ++ omit_int "mtu" (zs_MTU s) ++
  omit_str "nodes" (zs_Nodes s) ++ omit_str "ipam" (zs_IPAM s) ++ omit_str "controller" (zs_Controller s) ++
  omit_int "vrf-vxlan" (zs_VRFVXLan s) ++ omit_str "peers" (zs_Peers s) ++ omit_str "bridge" (zs_Bridge s).

(* go: proxmox/sdn/types.go#ZoneUpdate *)
Record ZoneUpdate := {
  zu_MTU : Z; zu_Nodes : string; zu_IPAM : string; zu_Delete : string; zu_Extra : gmap string string
}.
Definition ZoneUpdate_fields (s : ZoneUpdate) : list (string * json) :=
  omit_int "mtu" (zu_MTU s) ++ omit_str "nodes" (zu_Nodes s) ++ omit_str "ipam" (zu_IPAM s) ++
  omit_str "delete" (zu_Delete s).

(* go: proxmox/sdn/types.go#VNet *)
Record VNet := { vn_VNet : string; vn_Zone : string; vn_Tag : Z; vn_Alias : string; vn_Extra : gmap string string }.
Definition VNet_zero : VNet := {| vn_VNet := ""; vn_Zone := ""; vn_Tag := 0; vn_Alias := ""; vn_Extra := ∅ |}.
(* go: proxmox/sdn/types.go#vnetKnownFields *)
Definition vnetKnownFields : list string := ["vnet"; "zone"; "tag"; "alias"].
(* go: proxmox/sdn/types.go#VNet.UnmarshalJSON *)
Definition VNet_UnmarshalJSON : json → option VNet :=
  as_struct VNet_zero (λ l,
    v ← str_field "vnet" l; z ← str_field "zone" l; t ← int_field "tag" l; a ← str_field "alias" l;
    Some {| vn_VNet := v; vn_Zone := z; vn_Tag := t; vn_Alias := a; vn_Extra := foldl (extra_key vnetKnownFields) ∅ l |}).

(* go: proxmox/sdn/types.go#VNetSpec *)
Record VNetSpec := {
  vs_VNet : string; vs_Zone : string; vs_Tag : Z; vs_Alias : string; vs_Extra : gmap string string
}.
Definition VNetSpec_fields (s : VNetSpec) : list (string * json) :=
  [("vnet", JStr (vs_VNet s)); ("zone", JStr (vs_Zone s))] ++ omit_int "tag" (vs_Tag s) ++
  omit_str "alias" (vs_Alias s).

(* go: proxmox/sdn/types.go#VNetUpdate *)
Record VNetUpdate := { vu_Tag : Z; vu_Alias : string; vu_Delete : string; vu_Extra : gmap string string }.
Definition VNetUpdate_fields (s : VNetUpdate) : list (string * json) :=
  omit_int "tag" (vu_Tag s) ++ omit_str "alias" (vu_Alias s) ++ omit_str "delete" (vu_Delete s).

(* go: proxmox/sdn/types.go#Subnet *)
Record Subnet := {
  sb_Subnet : string; sb_VNet : string; sb_Gateway : string; sb_SNAT : bool; sb_Extra : gmap string string
}.
Definition Subnet_zero : Subnet :=
  {| sb_Subnet := ""; sb_VNet := ""; sb_Gateway := ""; sb_SNAT := false; sb_Extra := ∅ |}.
(* go: proxmox/sdn/types.go#subnetKnownFields *)
Definition subnetKnownFields : list string := ["subnet"; "vnet"; "gateway"; "snat"].
(* go: proxmox/sdn/types.go#Subnet.UnmarshalJSON *)
Definition Subnet_UnmarshalJSON : json → option Subnet :=
  as_struct Subnet_zero (λ l,
    su ← str_field "subnet" l; v ← str_field "vnet" l; g ← str_field "gateway" l; sn ← pvebool_field "snat" l;
    Some {| sb_Subnet := su; sb_VNet := v; sb_Gateway := g; sb_SNAT := sn;
            sb_Extra := foldl (extra_key subnetKnownFields) ∅ l |}).

(* go: proxmox/sdn/types.go#SubnetSpec *)
Record SubnetSpec := { sc_Subnet : string; sc_Gateway : string; sc_SNAT : bool; sc_Extra : gmap string string }.
Definition SubnetSpec_fields (s : SubnetSpec) : list (string * json) :=
  [("subnet", JStr (sc_Subnet s))] ++ omit_str "gateway" (sc_Gateway s) ++ omit_bool "snat" (sc_SNAT s).

(* go: proxmox/sdn/types.go#SubnetUpdate *)
Record SubnetUpdate := { su_Gateway : string; su_SNAT : bool; su_Delete : string; su_Extra : gmap string string }.
Definition SubnetUpdate_fields (s : SubnetUpdate) : list (string * json) :=
  omit_str "gateway" (su_Gateway s) ++ omit_bool "snat" (su_SNAT s) ++ omit_str "delete" (su_Delete s).

(* go: proxmox/sdn/fabrics.go#Fabric *)
Record Fabric := {
  fa_Fabric : string; fa_Protocol : string; fa_IPPrefix : string; fa_IP6Prefix : string; fa_RouteFilter : string;
  fa_Extra : gmap string string
}.
Definition Fabric_zero : Fabric :=
  {| fa_Fabric := ""; fa_Protocol := ""; fa_IPPrefix := ""; fa_IP6Prefix := ""; fa_RouteFilter := ""; fa_Extra := ∅ |}.
(* go: proxmox/sdn/fabrics.go#fabricKnownFields *)
Definition fabricKnownFields : list string := ["id"; "protocol"; "ip_prefix"; "ip6_prefix"; "route_filter"].
(* go: proxmox/sdn/fabrics.go#Fabric.UnmarshalJSON *)
Definition Fabric_UnmarshalJSON : json → option Fabric :=
  as_struct Fabric_zero (λ l,
    f ← str_field "id" l; p ← str_field "protocol" l; i ← str_field "ip_prefix" l; ip ← str_field "ip6_prefix" l;
    r ← str_field "route_filter" l;
    Some {| fa_Fabric := f; fa_Protocol := p; fa_IPPrefix := i; fa_IP6Prefix := ip; fa_RouteFilter := r;
            fa_Extra := foldl (extra_key fabricKnownFields) ∅ l |}).

(* go: proxmox/sdn/fabrics.go#FabricSpec *)
Record FabricSpec := {
  fs_Fabric : string; fs_Protocol : string; fs_IPPrefix : string; fs_IP6Prefix : string; fs_RouteFilter : string;
  fs_Extra : gmap string string
}.
Definition FabricSpec_fields (s : FabricSpec) : list (string * json) :=
  [("id", JStr (fs_Fabric s)); ("protocol", JStr (fs_Protocol s))] ++ omit_str "ip_prefix" (fs_IPPrefix s) ++
  omit_str "ip6_prefix" (fs_IP6Prefix s) ++ omit_str "route_filter" (fs_RouteFilter s).

(* go: proxmox/sdn/fabrics.go#FabricUpdate *)
Record FabricUpdate := {
  fu_Protocol : string; fu_IPPrefix : string; fu_IP6Prefix : string; fu_RouteFilter : string; fu_Delete : string;
  fu_Extra : gmap string string
}.
Definition FabricUpdate_fields (s : FabricUpdate) : list (string * json) :=
  omit_str "protocol" (fu_Protocol s) ++ omit_str "ip_prefix" (fu_IPPrefix s) ++
  omit_str "ip6_prefix" (fu_IP6Prefix s) ++ omit_str "route_filter" (fu_RouteFilter s) ++
  omit_str "delete" (fu_Delete s).

(* go: proxmox/sdn/fabricnodes.go#FabricNode *)
Record FabricNode := {
  fn_NodeID : string; fn_Fabric : string; fn_Protocol : string; fn_IP : string; fn_IP6 : string;
  fn_Extra : gmap string string
}.
Definition FabricNode_zero : FabricNode :=
  {| fn_NodeID := ""; fn_Fabric := ""; fn_Protocol := ""; fn_IP := ""; fn_IP6 := ""; fn_Extra := ∅ |}.
(* go: proxmox/sdn/fabricnodes.go#fabricNodeKnownFields *)
Definition fabricNodeKnownFields : list string := ["node_id"; "fabric_id"; "protocol"; "ip"; "ip6"].
(* go: proxmox/sdn/fabricnodes.go#FabricNode.UnmarshalJSON *)
Definition FabricNode_UnmarshalJSON : json → option FabricNode :=
  as_struct FabricNode_zero (λ l,
    n ← str_field "node_id" l; f ← str_field "fabric_id" l; p ← str_field "protocol" l; i ← str_field "ip" l;
    ip ← str_field "ip6" l;
    Some {| fn_NodeID := n; fn_Fabric := f; fn_Protocol := p; fn_IP := i; fn_IP6 := ip;
            fn_Extra := foldl (extra_key fabricNodeKnownFields) ∅ l |}).

(* go: proxmox/sdn/fabricnodes.go#FabricNodeSpec *)
Record FabricNodeSpec := {
  ns_NodeID : string; ns_Protocol : string; ns_IP : string; ns_IP6 : string; ns_Interfaces : list string;
  ns_Extra : gmap string string
}.
Definition FabricNodeSpec_fields (s : FabricNodeSpec) : list (string * json) :=
  [("node_id", JStr (ns_NodeID s)); ("protocol", JStr (ns_Protocol s))] ++ omit_str "ip" (ns_IP s) ++
  omit_str "ip6" (ns_IP6 s).

(* go: proxmox/sdn/fabricnodes.go#FabricNodeUpdate *)
Record FabricNodeUpdate := {
  nu_IP : string; nu_IP6 : string; nu_Delete : string; nu_Interfaces : list string; nu_Extra : gmap string string
}.
Definition FabricNodeUpdate_fields (s : FabricNodeUpdate) : list (string * json) :=
  omit_str "ip" (nu_IP s) ++ omit_str "ip6" (nu_IP6 s) ++ omit_str "delete" (nu_Delete s).

(* go: proxmox/sdn/status.go#SDNZoneStatus *)
Record SDNZoneStatus := { zt_Zone : string; zt_Status : string; zt_Extra : gmap string string }.
Definition SDNZoneStatus_zero : SDNZoneStatus := {| zt_Zone := ""; zt_Status := ""; zt_Extra := ∅ |}.
(* go: proxmox/sdn/status.go#sdnZoneStatusKnownFields *)
Definition sdnZoneStatusKnownFields : list string := ["zone"; "status"].
(* go: proxmox/sdn/status.go#SDNZoneStatus.UnmarshalJSON *)
Definition SDNZoneStatus_UnmarshalJSON : json → option SDNZoneStatus :=
  as_struct SDNZoneStatus_zero (λ l,
    z ← str_field "zone" l; st ← str_field "status" l;
    Some {| zt_Zone := z; zt_Status := st; zt_Extra := foldl (extra_key sdnZoneStatusKnownFields) ∅ l |}).

(* go: proxmox/sdn/status.go#VNetStatus *)
Record VNetStatus := { vt_VNet : string; vt_Status : string; vt_StatusMsg : string; vt_Extra : gmap string string }.
Definition VNetStatus_zero : VNetStatus := {| vt_VNet := ""; vt_Status := ""; vt_StatusMsg := ""; vt_Extra := ∅ |}.
(* go: proxmox/sdn/status.go#vnetStatusKnownFields *)
Definition vnetStatusKnownFields : list string := ["vnet"; "status"; "statusmsg"].
(* go: proxmox/sdn/status.go#VNetStatus.UnmarshalJSON *)
Definition VNetStatus_UnmarshalJSON : json → option VNetStatus :=
  as_struct VNetStatus_zero (λ l,
    v ← str_field "vnet" l; st ← str_field "status" l; sta ← str_field "statusmsg" l;
    Some {| vt_VNet := v; vt_Status := st; vt_StatusMsg := sta;
            vt_Extra := foldl (extra_key vnetStatusKnownFields) ∅ l |}).

(* go: proxmox/sdn/status.go#ZoneBridge *)
Record ZoneBridge := { zb_Name : string; zb_VLANFiltering : string; zb_Extra : gmap string string }.
Definition ZoneBridge_zero : ZoneBridge := {| zb_Name := ""; zb_VLANFiltering := ""; zb_Extra := ∅ |}.
(* go: proxmox/sdn/status.go#zoneBridgeKnownFields *)
Definition zoneBridgeKnownFields : list string := ["name"; "vlan_filtering"].
(* go: proxmox/sdn/status.go#ZoneBridge.UnmarshalJSON *)
Definition ZoneBridge_UnmarshalJSON : json → option ZoneBridge :=
  as_struct ZoneBridge_zero (λ l,
    n ← str_field "name" l; v ← str_field "vlan_filtering" l;
    Some {| zb_Name := n; zb_VLANFiltering := v; zb_Extra := foldl (extra_key zoneBridgeKnownFields) ∅ l |}).

(* go: proxmox/sdn/status.go#IPVRFRoute *)
Record IPVRFRoute := { ir_IP : string; ir_Protocol : string; ir_Metric : Z; ir_Extra : gmap string string }.
Definition IPVRFRoute_zero : IPVRFRoute := {| ir_IP := ""; ir_Protocol := ""; ir_Metric := 0; ir_Extra := ∅ |}.
(* go: proxmox/sdn/status.go#ipVRFRouteKnownFields *)
Definition ipVRFRouteKnownFields : list string := ["ip"; "protocol"; "metric"].
(* go: proxmox/sdn/status.go#IPVRFRoute.UnmarshalJSON *)
Definition IPVRFRoute_UnmarshalJSON : json → option IPVRFRoute :=
  as_struct IPVRFRoute_zero (λ l,
    i ← str_field "ip" l; p ← str_field "protocol" l; m ← int_field "metric" l;
    Some {| ir_IP := i; ir_Protocol := p; ir_Metric := m; ir_Extra := foldl (extra_key ipVRFRouteKnownFields) ∅ l |}).

(* go: proxmox/sdn/status.go#MACVRFEntry *)
Record MACVRFEntry := { me_IP : string; me_MAC : string; me_Nexthop : string; me_Extra : gmap string string }.
Definition MACVRFEntry_zero : MACVRFEntry := {| me_IP := ""; me_MAC := ""; me_Nexthop := ""; me_Extra := ∅ |}.
(* go: proxmox/sdn/status.go#macVRFEntryKnownFields *)
Definition macVRFEntryKnownFields : list string := ["ip"; "mac"; "nexthop"].
(* go: proxmox/sdn/status.go#MACVRFEntry.UnmarshalJSON *)
Definition MACVRFEntry_UnmarshalJSON : json → option MACVRFEntry :=
  as_struct MACVRFEntry_zero (λ l,
    i ← str_field "ip" l; m ← str_field "mac" l; n ← str_field "nexthop" l;
    Some {| me_IP := i; me_MAC := m; me_Nexthop := n; me_Extra := foldl (extra_key macVRFEntryKnownFields) ∅ l |}).

(* go: proxmox/sdn/status.go#FabricInterface *)
Record FabricInterface := { fi_Name : string; fi_State : string; fi_Type : string; fi_Extra : gmap string string }.
Definition FabricInterface_zero : FabricInterface :=
  {| fi_Name := ""; fi_State := ""; fi_Type := ""; fi_Extra := ∅ |}.
(* go: proxmox/sdn/status.go#fabricInterfaceKnownFields *)
Definition fabricInterfaceKnownFields : list string := ["name"; "state"; "type"].
(* go: proxmox/sdn/status.go#FabricInterface.UnmarshalJSON *)
Definition FabricInterface_UnmarshalJSON : json → option FabricInterface :=
  as_struct FabricInterface_zero (λ l,
    n ← str_field "name" l; st ← str_field "state" l; t ← str_field "type" l;
    Some {| fi_Name := n; fi_State := st; fi_Type := t; fi_Extra := foldl (extra_key fabricInterfaceKnownFields) ∅ l |}).

(* go: proxmox/sdn/status.go#FabricNeighbor *)
Record FabricNeighbor := {
  fg_Neighbor : string; fg_Status : string; fg_Uptime : string; fg_Extra : gmap string string
}.
Definition FabricNeighbor_zero : FabricNeighbor :=
  {| fg_Neighbor := ""; fg_Status := ""; fg_Uptime := ""; fg_Extra := ∅ |}.
(* go: proxmox/sdn/status.go#fabricNeighborKnownFields *)
Definition fabricNeighborKnownFields : list string := ["neighbor"; "status"; "uptime"].
(* go: proxmox/sdn/status.go#FabricNeighbor.UnmarshalJSON *)
Definition FabricNeighbor_UnmarshalJSON : json → option FabricNeighbor :=
  as_struct FabricNeighbor_zero (λ l,
    n ← str_field "neighbor" l; st ← str_field "status" l; u ← str_field "uptime" l;
    Some {| fg_Neighbor := n; fg_Status := st; fg_Uptime := u;
            fg_Extra := foldl (extra_key fabricNeighborKnownFields) ∅ l |}).

(* go: proxmox/sdn/status.go#FabricRoute *)
Record FabricRoute := { fr_Route : string; fr_Extra : gmap string string }.
Definition FabricRoute_zero : FabricRoute := {| fr_Route := ""; fr_Extra := ∅ |}.
(* go: proxmox/sdn/status.go#fabricRouteKnownFields *)
Definition fabricRouteKnownFields : list string := ["route"].
(* go: proxmox/sdn/status.go#FabricRoute.UnmarshalJSON *)
Definition FabricRoute_UnmarshalJSON : json → option FabricRoute :=
  as_struct FabricRoute_zero (λ l,
    r ← str_field "route" l;
    Some {| fr_Route := r; fr_Extra := foldl (extra_key fabricRouteKnownFields) ∅ l |}).

(** ** Paths *)

(* go: proxmox/sdn/paths.go#sdnPath *)
Definition sdnPath : string := "/cluster/sdn".
(* go: proxmox/sdn/paths.go#sdnZonesPath *)
Definition sdnZonesPath : string := "/cluster/sdn/zones".
(* go: proxmox/sdn/paths.go#sdnZonePath *)
Definition sdnZonePath (zone : string) : string := sdnZonesPath +:+ "/" +:+ PathEscape zone.
(* go: proxmox/sdn/paths.go#sdnVNetsPath *)
Definition sdnVNetsPath : string := "/cluster/sdn/vnets".
(* go: proxmox/sdn/paths.go#sdnVNetPath *)
Definition sdnVNetPath (vnet : string) : string := sdnVNetsPath +:+ "/" +:+ PathEscape vnet.
(* go: proxmox/sdn/paths.go#sdnSubnetsPath *)
Definition sdnSubnetsPath (vnet : string) : string := sdnVNetPath vnet +:+ "/subnets".
(* go: proxmox/sdn/paths.go#sdnSubnetPath *)
Definition sdnSubnetPath (vnet subnet : string) : string := sdnSubnetsPath vnet +:+ "/" +:+ PathEscape subnet.
(* go: proxmox/sdn/paths.go#sdnFabricsPath *)
Definition sdnFabricsPath : string := "/cluster/sdn/fabrics/fabric".
(* go: proxmox/sdn/paths.go#sdnFabricPath *)
Definition sdnFabricPath (fabric : string) : string := sdnFabricsPath +:+ "/" +:+ PathEscape fabric.
(* go: proxmox/sdn/paths.go#sdnFabricNodesPath *)
Definition sdnFabricNodesPath (fabric : string) : string := "/cluster/sdn/fabrics/node/" +:+ PathEscape fabric.
(* go: proxmox/sdn/paths.go#sdnFabricNodePath *)
Definition sdnFabricNodePath (fabric node : string) : string := sdnFabricNodesPath fabric +:+ "/" +:+ PathEscape node.
(* go: proxmox/sdn/paths.go#nodeSDNZonesPath *)
Definition nodeSDNZonesPath (node : string) : string := "/nodes/" +:+ PathEscape node +:+ "/sdn/zones".
(* go: proxmox/sdn/paths.go#nodeSDNZonePath *)
Definition nodeSDNZonePath (node zone : string) : string := nodeSDNZonesPath node +:+ "/" +:+ PathEscape zone.
(* go: proxmox/sdn/paths.go#nodeSDNZoneContentPath *)
Definition nodeSDNZoneContentPath (node zone : string) : string := nodeSDNZonePath node zone +:+ "/content".
(* go: proxmox/sdn/paths.go#nodeSDNZoneBridgesPath *)
Definition nodeSDNZoneBridgesPath (node zone : string) : string := nodeSDNZonePath node zone +:+ "/bridges".
(* go: proxmox/sdn/paths.go#nodeSDNZoneIPVRFPath *)
Definition nodeSDNZoneIPVRFPath (node zone : string) : string := nodeSDNZonePath node zone +:+ "/ip-vrf".
(* go: proxmox/sdn/paths.go#nodeSDNVNetPath *)
Definition nodeSDNVNetPath (node vnet : string) : string :=
  "/nodes/" +:+ PathEscape node +:+ "/sdn/vnets/" +:+ PathEscape vnet.
(* go: proxmox/sdn/paths.go#nodeSDNVNetMACVRFPath *)
Definition nodeSDNVNetMACVRFPath (node vnet : string) : string := nodeSDNVNetPath node vnet +:+ "/mac-vrf".
(* go: proxmox/sdn/paths.go#nodeSDNFabricPath *)
Definition nodeSDNFabricPath (node fabric : string) : string :=
  "/nodes/" +:+ PathEscape node +:+ "/sdn/fabrics/" +:+ PathEscape fabric.
(* go: proxmox/sdn/paths.go#nodeSDNFabricInterfacesPath *)
Definition nodeSDNFabricInterfacesPath (node fabric : string) : string :=
  nodeSDNFabricPath node fabric +:+ "/interfaces".
(* go: proxmox/sdn/paths.go#nodeSDNFabricNeighborsPath *)
Definition nodeSDNFabricNeighborsPath (node fabric : string) : string :=
  nodeSDNFabricPath node fabric +:+ "/neighbors".
(* go: proxmox/sdn/paths.go#nodeSDNFabricRoutesPath *)
Definition nodeSDNFabricRoutesPath (node fabric : string) : string := nodeSDNFabricPath node fabric +:+ "/routes".

(** ** The service *)

(* go: proxmox/sdn/fabrics.go#advancedFabricProtocol *)
Definition advancedFabricProtocol (p : string) : bool := (p =s "bgp") || (p =s "wireguard").

Section service.
Context {W : Type} `{!Client W}.
Variable caps : Capabilities.

(* go: proxmox/sdn/apply.go#Service.ApplySDN *)
Definition ApplySDN : W → W * (goerr + ()) := send "sdn.ApplySDN" "PUT" sdnPath None.

(* go: proxmox/sdn/zones.go#Service.ListZones *)
Definition ListZones : W → W * (goerr + list Zone) :=
  read_data "sdn.ListZones" sdnZonesPath [] (as_list Zone_UnmarshalJSON).

(* go: proxmox/sdn/zones.go#Service.GetZone *)
Definition GetZone (zone : string) : W → W * (goerr + Zone) :=
  read_data "sdn.GetZone" (sdnZonePath zone) Zone_zero Zone_UnmarshalJSON.

(* go: proxmox/sdn/zones.go#Service.CreateZone *)
Definition CreateZone (spec : option ZoneSpec) : W → W * (goerr + ()) :=
  match spec with
  | None => nil_spec "sdn.CreateZone"
  | Some spec =>
      if zs_Zone spec =s "" then missing "sdn.CreateZone: zone" else
      if zs_Type spec =s "" then missing "sdn.CreateZone: type" else
      send "sdn.CreateZone" "POST" sdnZonesPath
        (Some (BValues (EncodeWithExtra (ZoneSpec_fields spec) (zs_Extra spec))))
  end.

(* go: proxmox/sdn/zones.go#Service.UpdateZone *)
Definition UpdateZone (zone : string) (update : option ZoneUpdate) : W → W * (goerr + ()) :=
  match update with
  | None => nil_spec "sdn.UpdateZone"
  | Some update =>
      if zone =s "" then missing "sdn.UpdateZone: zone" else
      send "sdn.UpdateZone" "PUT" (sdnZonePath zone)
        (Some (BValues (EncodeWithExtra (ZoneUpdate_fields update) (zu_Extra update))))
  end.

(* go: proxmox/sdn/zones.go#Service.DeleteZone *)
Definition DeleteZone (zone : string) : W → W * (goerr + ()) :=
  if zone =s "" then missing "sdn.DeleteZone: zone" else
  send "sdn.DeleteZone" "DELETE" (sdnZonePath zone) None.

(* go: proxmox/sdn/vnets.go#Service.ListVNets *)
Definition ListVNets : W → W * (goerr + list VNet) :=
  read_data "sdn.ListVNets" sdnVNetsPath [] (as_list VNet_UnmarshalJSON).

(* go: proxmox/sdn/vnets.go#Service.GetVNet *)
Definition GetVNet (vnet : string) : W → W * (goerr + VNet) :=
  read_data "sdn.GetVNet" (sdnVNetPath vnet) VNet_zero VNet_UnmarshalJSON.

(* go: proxmox/sdn/vnets.go#Service.CreateVNet *)
Definition CreateVNet (spec : option VNetSpec) : W → W * (goerr + ()) :=
  match spec with
  | None => nil_spec "sdn.CreateVNet"
  | Some spec =>
      if vs_VNet spec =s "" then missing "sdn.CreateVNet: vnet" else
      if vs_Zone spec =s "" then missing "sdn.CreateVNet: zone" else
      send "sdn.CreateVNet" "POST" sdnVNetsPath
        (Some (BValues (EncodeWithExtra (VNetSpec_fields spec) (vs_Extra spec))))
  end.

(* go: proxmox/sdn/vnets.go#Service.UpdateVNet *)
Definition UpdateVNet (vnet : string) (update : option VNetUpdate) : W → W * (goerr + ()) :=
  match update with
  | None => nil_spec "sdn.UpdateVNet"
  | Some update =>
      if vnet =s "" then missing "sdn.UpdateVNet: vnet" else
      send "sdn.UpdateVNet" "PUT" (sdnVNetPath vnet)
        (Some (BValues (EncodeWithExtra (VNetUpdate_fields update) (vu_Extra update))))
  end.

(* go: proxmox/sdn/vnets.go#Service.DeleteVNet *)
Definition DeleteVNet (vnet : string) : W → W * (goerr + ()) :=
  if vnet =s "" then missing "sdn.DeleteVNet: vnet" else
  send "sdn.DeleteVNet" "DELETE" (sdnVNetPath vnet) None.

(* go: proxmox/sdn/vnets.go#Service.ListSubnets *)
Definition ListSubnets (vnet : string) : W → W * (goerr + list Subnet) :=
  read_data "sdn.ListSubnets" (sdnSubnetsPath vnet) [] (as_list Subnet_UnmarshalJSON).

(* go: proxmox/sdn/vnets.go#Service.GetSubnet *)
Definition GetSubnet (vnet subnet : string) : W → W * (goerr + Subnet) :=
  read_data "sdn.GetSubnet" (sdnSubnetPath vnet subnet) Subnet_zero Subnet_UnmarshalJSON.

(* go: proxmox/sdn/vnets.go#Service.CreateSubnet *)
Definition CreateSubnet (vnet : string) (spec : option SubnetSpec) : W → W * (goerr + ()) :=
  match spec with
  | None => nil_spec "sdn.CreateSubnet"
  | Some spec =>
      if vnet =s "" then missing "sdn.CreateSubnet: vnet" else
      if sc_Subnet spec =s "" then missing "sdn.CreateSubnet: subnet" else
      send "sdn.CreateSubnet" "POST" (sdnSubnetsPath vnet)
        (Some (BValues (EncodeWithExtra (SubnetSpec_fields spec) (sc_Extra spec))))
  end.

(* go: proxmox/sdn/vnets.go#Service.UpdateSubnet *)
Definition UpdateSubnet (vnet subnet : string) (update : option SubnetUpdate) : W → W * (goerr + ()) :=
  match update with
  | None => nil_spec "sdn.UpdateSubnet"
  | Some update =>
      if vnet =s "" then missing "sdn.UpdateSubnet: vnet" else
      if subnet =s "" then missing "sdn.UpdateSubnet: subnet" else
      send "sdn.UpdateSubnet" "PUT" (sdnSubnetPath vnet subnet)
        (Some (BValues (EncodeWithExtra (SubnetUpdate_fields update) (su_Extra update))))
  end.

(* go: proxmox/sdn/vnets.go#Service.DeleteSubnet *)
Definition DeleteSubnet (vnet subnet : string) : W → W * (goerr + ()) :=
  if vnet =s "" then missing "sdn.DeleteSubnet: vnet" else
  if subnet =s "" then missing "sdn.DeleteSubnet: subnet" else
  send "sdn.DeleteSubnet" "DELETE" (sdnSubnetPath vnet subnet) None.

(* go: proxmox/sdn/fabrics.go#Service.ListFabrics *)
Definition ListFabrics : W → W * (goerr + list Fabric) :=
  read_data "sdn.ListFabrics" sdnFabricsPath [] (as_list Fabric_UnmarshalJSON).

(* go: proxmox/sdn/fabrics.go#Service.GetFabric *)
Definition GetFabric (fabric : string) : W → W * (goerr + Fabric) :=
  read_data "sdn.GetFabric" (sdnFabricPath fabric) Fabric_zero Fabric_UnmarshalJSON.

(* go: proxmox/sdn/fabrics.go#Service.CreateFabric *)
Definition CreateFabric (spec : option FabricSpec) : W → W * (goerr + ()) :=
  match spec with
  | None => nil_spec "sdn.CreateFabric"
  | Some spec =>
      if fs_Fabric spec =s "" then missing "sdn.CreateFabric: id" else
      if fs_Protocol spec =s "" then missing "sdn.CreateFabric: protocol" else
      match
        (if advancedFabricProtocol (fs_Protocol spec)
         then Require caps ("SDN fabric protocol " +:+ fs_Protocol spec) "9.2" else None) with
      | Some err => refuse (GWrap "sdn.CreateFabric" err)
      | None =>
          send "sdn.CreateFabric" "POST" sdnFabricsPath
            (Some (BValues (EncodeWithExtra (FabricSpec_fields spec) (fs_Extra spec))))
      end
  end.

(* go: proxmox/sdn/fabrics.go#Service.UpdateFabric *)
Definition UpdateFabric (fabric : string) (update : option FabricUpdate) : W → W * (goerr + ()) :=
  match update with
  | None => nil_spec "sdn.UpdateFabric"
  | Some update =>
      if fabric =s "" then missing "sdn.UpdateFabric: fabric" else
      match
        (if advancedFabricProtocol (fu_Protocol update)
         then Require caps ("SDN fabric protocol " +:+ fu_Protocol update) "9.2" else None) with
      | Some err => refuse (GWrap "sdn.UpdateFabric" err)
      | None =>
          send "sdn.UpdateFabric" "PUT" (sdnFabricPath fabric)
            (Some (BValues (EncodeWithExtra (FabricUpdate_fields update) (fu_Extra update))))
      end
  end.

(* go: proxmox/sdn/fabrics.go#Service.DeleteFabric *)
Definition DeleteFabric (fabric : string) : W → W * (goerr + ()) :=
  if fabric =s "" then missing "sdn.DeleteFabric: fabric" else
  send "sdn.DeleteFabric" "DELETE" (sdnFabricPath fabric) None.

(* go: proxmox/sdn/fabricnodes.go#Service.ListFabricNodes *)
Definition ListFabricNodes (fabric : string) : W → W * (goerr + list FabricNode) :=
  if fabric =s "" then missing "sdn.ListFabricNodes: fabric" else
  read_data "sdn.ListFabricNodes" (sdnFabricNodesPath fabric) [] (as_list FabricNode_UnmarshalJSON).

(* go: proxmox/sdn/fabricnodes.go#Service.GetFabricNode *)
Definition GetFabricNode (fabric node : string) : W → W * (goerr + FabricNode) :=
  if (fabric =s "") || (node =s "") then missing "sdn.GetFabricNode: fabric/node" else
  read_data "sdn.GetFabricNode" (sdnFabricNodePath fabric node) FabricNode_zero FabricNode_UnmarshalJSON.

(* go: proxmox/sdn/fabricnodes.go#Service.CreateFabricNode *)
Definition CreateFabricNode (fabric : string) (spec : option FabricNodeSpec) : W → W * (goerr + ()) :=
  match spec with
  | None => nil_spec "sdn.CreateFabricNode"
  | Some spec =>
      if fabric =s "" then missing "sdn.CreateFabricNode: fabric" else
      if ns_NodeID spec =s "" then missing "sdn.CreateFabricNode: node_id" else
      if ns_Protocol spec =s "" then missing "sdn.CreateFabricNode: protocol" else
      send "sdn.CreateFabricNode" "POST" (sdnFabricNodesPath fabric)
        (Some (BValues (set_values "interfaces" (ns_Interfaces spec)
           (EncodeWithExtra (FabricNodeSpec_fields spec) (ns_Extra spec)))))
  end.

(* go: proxmox/sdn/fabricnodes.go#Service.UpdateFabricNode *)
Definition UpdateFabricNode (fabric node : string) (update : option FabricNodeUpdate) : W → W * (goerr + ()) :=
  match update with
  | None => nil_spec "sdn.UpdateFabricNode"
  | Some update =>
      if (fabric =s "") || (node =s "") then missing "sdn.UpdateFabricNode: fabric/node" else
      send "sdn.UpdateFabricNode" "PUT" (sdnFabricNodePath fabric node)
        (Some (BValues (set_values "interfaces" (nu_Interfaces update)
           (EncodeWithExtra (FabricNodeUpdate_fields update) (nu_Extra update)))))
  end.

(* go: proxmox/sdn/fabricnodes.go#Service.DeleteFabricNode *)
Definition DeleteFabricNode (fabric node : string) : W → W * (goerr + ()) :=
  if (fabric =s "") || (node =s "") then missing "sdn.DeleteFabricNode: fabric/node" else
  send "sdn.DeleteFabricNode" "DELETE" (sdnFabricNodePath fabric node) None.

(* go: proxmox/sdn/status.go#Service.SDNStatus *)
Definition SDNStatus (node : string) : W → W * (goerr + list SDNZoneStatus) :=
  if node =s "" then missing "sdn.SDNStatus: node" else
  read_data "sdn.SDNStatus" (nodeSDNZonesPath node) [] (as_list SDNZoneStatus_UnmarshalJSON).

(* go: proxmox/sdn/status.go#Service.ZoneContent *)
Definition ZoneContent (node zone : string) : W → W * (goerr + list VNetStatus) :=
  if (node =s "") || (zone =s "") then missing "sdn.ZoneContent: node/zone" else
  read_data "sdn.ZoneContent" (nodeSDNZoneContentPath node zone) [] (as_list VNetStatus_UnmarshalJSON).

(* go: proxmox/sdn/status.go#Service.ZoneBridges *)
Definition ZoneBridges (node zone : string) : W → W * (goerr + list ZoneBridge) :=
  if (node =s "") || (zone =s "") then missing "sdn.ZoneBridges: node/zone" else
  read_data "sdn.ZoneBridges" (nodeSDNZoneBridgesPath node zone) [] (as_list ZoneBridge_UnmarshalJSON).

(* go: proxmox/sdn/status.go#Service.ZoneIPVRF *)
Definition ZoneIPVRF (node zone : string) : W → W * (goerr + list IPVRFRoute) :=
  if (node =s "") || (zone =s "") then missing "sdn.ZoneIPVRF: node/zone" else
  read_data "sdn.ZoneIPVRF" (nodeSDNZoneIPVRFPath node zone) [] (as_list IPVRFRoute_UnmarshalJSON).

(* go: proxmox/sdn/status.go#Service.VNetMACVRF *)
Definition VNetMACVRF (node vnet : string) : W → W * (goerr + list MACVRFEntry) :=
  if (node =s "") || (vnet =s "") then missing "sdn.VNetMACVRF: node/vnet" else
  read_data "sdn.VNetMACVRF" (nodeSDNVNetMACVRFPath node vnet) [] (as_list MACVRFEntry_UnmarshalJSON).

(* go: proxmox/sdn/status.go#Service.FabricInterfaces *)
Definition FabricInterfaces (node fabric : string) : W → W * (goerr + list FabricInterface) :=
  if (node =s "") || (fabric =s "") then missing "sdn.FabricInterfaces: node/fabric" else
  read_data "sdn.FabricInterfaces" (nodeSDNFabricInterfacesPath node fabric) []
    (as_list FabricInterface_UnmarshalJSON).

(* go: proxmox/sdn/status.go#Service.FabricNeighbors *)
Definition FabricNeighbors (node fabric : string) : W → W * (goerr + list FabricNeighbor) :=
  if (node =s "") || (fabric =s "") then missing "sdn.FabricNeighbors: node/fabric" else
  read_data "sdn.FabricNeighbors" (nodeSDNFabricNeighborsPath node fabric) [] (as_list FabricNeighbor_UnmarshalJSON).

(* go: proxmox/sdn/status.go#Service.FabricRoutes *)
Definition FabricRoutes (node fabric : string) : W → W * (goerr + list FabricRoute) :=
  if (node =s "") || (fabric =s "") then missing "sdn.FabricRoutes: node/fabric" else
  read_data "sdn.FabricRoutes" (nodeSDNFabricRoutesPath node fabric) [] (as_list FabricRoute_UnmarshalJSON).

End service.
