(* ===== verification/ClusterClient.v ===== *)
(** [proxmox/cluster], the client side of the cluster: resources, status and options,
    and the formation calls (create, join information, join, members). *)

From S2P Require Import Prelude Json Pverr Types Url Api Version Tasks Svcutil.
From Stdlib Require Import ZArith Floats.SpecFloat.
From stdpp Require Import options.

(** ** Payloads *)

(* go: proxmox/cluster/types.go#Resource *)
Record Resource := {
  re_ID : string; re_Type : string; re_Node : string; re_Status : string; re_Name : string; re_VMID : Z;
  re_Storage : string; re_MaxCPU : spec_float; re_MaxMem : Z; re_Extra : gmap string string
}.
Definition Resource_zero : Resource :=
  {| re_ID := ""; re_Type := ""; re_Node := ""; re_Status := ""; re_Name := ""; re_VMID := 0; re_Storage := "";
     re_MaxCPU := S754_zero false; re_MaxMem := 0; re_Extra := ∅ |}.
(* go: proxmox/cluster/types.go#resourceKnownFields *)
Definition resourceKnownFields : list string :=
  ["id"; "type"; "node"; "status"; "name"; "vmid"; "storage"; "maxcpu"; "maxmem"].
(* go: proxmox/cluster/types.go#Resource.UnmarshalJSON *)
Definition Resource_UnmarshalJSON : json → option Resource :=
  as_struct Resource_zero (λ l,
    i ← str_field "id" l; t ← str_field "type" l; n ← str_field "node" l; st ← str_field "status" l;
    na ← str_field "name" l; v ← int_field "vmid" l; sto ← str_field "storage" l; m ← float_field "maxcpu" l;
    ma ← int_field "maxmem" l;
    Some {| re_ID := i; re_Type := t; re_Node := n; re_Status := st; re_Name := na; re_VMID := v; re_Storage := sto;
            re_MaxCPU := m; re_MaxMem := ma; re_Extra := foldl (extra_key resourceKnownFields) ∅ l |}).

(* go: proxmox/cluster/types.go#StatusEntry *)
Record StatusEntry := {
  se_ID : string; se_Type : string; se_Name : string; se_Nodes : Z; se_Quorate : bool; se_Version : Z; se_NodeID : Z;
  se_IP : string; se_Online : bool; se_Local : bool; se_Level : string; se_Extra : gmap string string
}.
Definition StatusEntry_zero : StatusEntry :=
  {| se_ID := ""; se_Type := ""; se_Name := ""; se_Nodes := 0; se_Quorate := false; se_Version := 0; se_NodeID := 0;
     se_IP := ""; se_Online := false; se_Local := false; se_Level := ""; se_Extra := ∅ |}.
(* go: proxmox/cluster/types.go#statusKnownFields *)
Definition statusKnownFields : list string :=
  ["id"; "type"; "name"; "nodes"; "quorate"; "version"; "nodeid"; "ip"; "online"; "local"; "level"].
(* go: proxmox/cluster/types.go#StatusEntry.UnmarshalJSON *)
Definition StatusEntry_UnmarshalJSON : json → option StatusEntry :=
  as_struct StatusEntry_zero (λ l,
    i ← str_field "id" l; t ← str_field "type" l; n ← str_field "name" l; no ← int_field "nodes" l;
    q ← pvebool_field "quorate" l; v ← int_field "version" l; nod ← int_field "nodeid" l; ip ← str_field "ip" l;
    o ← pvebool_field "online" l; lo ← pvebool_field "local" l; le ← str_field "level" l;
    Some {| se_ID := i; se_Type := t; se_Name := n; se_Nodes := no; se_Quorate := q; se_Version := v;
            se_NodeID := nod; se_IP := ip; se_Online := o; se_Local := lo; se_Level := le;
            se_Extra := foldl (extra_key statusKnownFields) ∅ l |}).

(* go: proxmox/cluster/types.go#Options *)
Record Options := {
  op_Description : string; op_Migration : string; op_Console : string; op_Keyboard : string; op_Language : string;
  op_MacPrefix : string; op_Extra : gmap string string
}.
Definition Options_zero : Options :=
  {| op_Description := ""; op_Migration := ""; op_Console := ""; op_Keyboard := ""; op_Language := "";
     op_MacPrefix := ""; op_Extra := ∅ |}.
(* go: proxmox/cluster/types.go#optionsKnownFields *)
Definition optionsKnownFields : list string :=
  ["description"; "migration"; "console"; "keyboard"; "language"; "mac_prefix"].
(* go: proxmox/cluster/types.go#Options.UnmarshalJSON *)
Definition Options_UnmarshalJSON : json → option Options :=
  as_struct Options_zero (λ l,
    d ← str_field "description" l; m ← str_field "migration" l; c ← str_field "console" l; k ← str_field "keyboard" l;
    la ← str_field "language" l; ma ← str_field "mac_prefix" l;
    Some {| op_Description := d; op_Migration := m; op_Console := c; op_Keyboard := k; op_Language := la;
            op_MacPrefix := ma; op_Extra := foldl (extra_key optionsKnownFields) ∅ l |}).

(* go: proxmox/cluster/types.go#OptionsUpdate *)
Record OptionsUpdate := {
  ou_Description : string; ou_Migration : string; ou_Console : string; ou_Keyboard : string; ou_Language : string;
  ou_Delete : string; ou_Extra : gmap string string
}.
Definition OptionsUpdate_fields (s : OptionsUpdate) : list (string * json) :=
  omit_str "description" (ou_Description s) ++ omit_str "migration" (ou_Migration s) ++
  omit_str "console" (ou_Console s) ++ omit_str "keyboard" (ou_Keyboard s) ++ omit_str "language" (ou_Language s) ++
  omit_str "delete" (ou_Delete s).

(* go: proxmox/cluster/config.go#ClusterCreateSpec *)
Record ClusterCreateSpec := { cc_Name : string; cc_Extra : gmap string string }.
Definition ClusterCreateSpec_fields (s : ClusterCreateSpec) : list (string * json) :=
  [("clustername", JStr (cc_Name s))].

(* go: proxmox/cluster/config.go#JoinNode *)
Record JoinNode := {
  jn_Name : string; jn_PVEAddr : string; jn_PVEFingerprint : string; jn_Extra : gmap string string
}.
Definition JoinNode_zero : JoinNode := {| jn_Name := ""; jn_PVEAddr := ""; jn_PVEFingerprint := ""; jn_Extra := ∅ |}.
(* go: proxmox/cluster/config.go#joinNodeKnownFields *)
Definition joinNodeKnownFields : list string := ["name"; "pve_addr"; "pve_fp"].
(* go: proxmox/cluster/config.go#JoinNode.UnmarshalJSON *)
Definition JoinNode_UnmarshalJSON : json → option JoinNode :=
  as_struct JoinNode_zero (λ l,
    n ← str_field "name" l; p ← str_field "pve_addr" l; pv ← str_field "pve_fp" l;
    Some {| jn_Name := n; jn_PVEAddr := p; jn_PVEFingerprint := pv;
            jn_Extra := foldl (extra_key joinNodeKnownFields) ∅ l |}).

(* go: proxmox/cluster/config.go#JoinInfo *)
Record JoinInfo := {
  ji_PreferredNode : string; ji_ConfigDigest : string; ji_Nodelist : list JoinNode; ji_Extra : gmap string string
}.
Definition JoinInfo_zero : JoinInfo :=
  {| ji_PreferredNode := ""; ji_ConfigDigest := ""; ji_Nodelist := []; ji_Extra := ∅ |}.
(* go: proxmox/cluster/config.go#joinInfoKnownFields *)
Definition joinInfoKnownFields : list string := ["preferred_node"; "config_digest"; "nodelist"].
(* go: proxmox/cluster/config.go#JoinInfo.UnmarshalJSON *)
Definition JoinInfo_UnmarshalJSON : json → option JoinInfo :=
  as_struct JoinInfo_zero (λ l,
    p ← str_field "preferred_node" l; c ← str_field "config_digest" l; n ← list_field JoinNode_UnmarshalJSON "nodelist" l;
    Some {| ji_PreferredNode := p; ji_ConfigDigest := c; ji_Nodelist := n;
            ji_Extra := foldl (extra_key joinInfoKnownFields) ∅ l |}).

(* go: proxmox/cluster/config.go#JoinSpec *)
Record JoinSpec := {
  js_Hostname : string; js_Password : string; js_Fingerprint : string; js_Force : option bool;
  js_Extra : gmap string string
}.
Definition JoinSpec_fields (s : JoinSpec) : list (string * json) :=
  [("hostname", JStr (js_Hostname s)); ("password", JStr (js_Password s)); ("fingerprint", JStr (js_Fingerprint s))] ++
  opt_bool "force" (js_Force s).

(* go: proxmox/cluster/config.go#ConfigNode *)
Record ConfigNode := { cn_Node : string; cn_Name : string; cn_Extra : gmap string string }.
Definition ConfigNode_zero : ConfigNode := {| cn_Node := ""; cn_Name := ""; cn_Extra := ∅ |}.
(* go: proxmox/cluster/config.go#configNodeKnownFields *)
Definition configNodeKnownFields : list string := ["node"; "name"].
(* go: proxmox/cluster/config.go#ConfigNode.UnmarshalJSON *)
Definition ConfigNode_UnmarshalJSON : json → option ConfigNode :=
  as_struct ConfigNode_zero (λ l,
    n ← str_field "node" l; na ← str_field "name" l;
    Some {| cn_Node := n; cn_Name := na; cn_Extra := foldl (extra_key configNodeKnownFields) ∅ l |}).

(** The fingerprint of the preferred node, else of the first one. *)
(* go: proxmox/cluster/config.go#JoinInfo.Fingerprint *)
Definition Fingerprint (i : JoinInfo) : string :=
  match list_find (λ n, jn_Name n = ji_PreferredNode i ∧ jn_PVEFingerprint n ≠ "") (ji_Nodelist i) with
  | Some (_, n) => jn_PVEFingerprint n
  | None => match ji_Nodelist i with n :: _ => jn_PVEFingerprint n | [] => "" end
  end.

(* go: proxmox/cluster/config.go#ConfigNode.NodeName *)
Definition NodeName (n : ConfigNode) : string := if cn_Node n =s "" then cn_Name n else cn_Node n.

(** The options of a listing set its type; the last one wins. *)
(* go: proxmox/cluster/types.go#resourceQuery *)
Record resourceQuery := { q_typ : string }.
(* go: proxmox/cluster/types.go#ResourceFilter *)
Definition ResourceFilter : Type := resourceQuery → resourceQuery.
(* go: proxmox/cluster/types.go#WithResourceType *)
Definition WithResourceType (t : string) : ResourceFilter := λ _, {| q_typ := t |}.

(** ** Paths *)

(* go: proxmox/cluster/paths.go#clusterResourcesPath *)
Definition clusterResourcesPath : string := "/cluster/resources".
(* go: proxmox/cluster/paths.go#clusterStatusPath *)
Definition clusterStatusPath : string := "/cluster/status".
(* go: proxmox/cluster/paths.go#clusterOptionsPath *)
Definition clusterOptionsPath : string := "/cluster/options".
(* go: proxmox/cluster/paths.go#clusterConfigPath *)
Definition clusterConfigPath : string := "/cluster/config".
(* go: proxmox/cluster/paths.go#clusterConfigJoinPath *)
Definition clusterConfigJoinPath : string := "/cluster/config/join".
(* go: proxmox/cluster/paths.go#clusterConfigNodesPath *)
Definition clusterConfigNodesPath : string := "/cluster/config/nodes".

(** ** The service *)

Section service.
Context {W : Type} `{!Client W}.

(* go: proxmox/cluster/resources.go#Service.ListResources *)
Definition ListResources (opts : list ResourceFilter) : W → W * (goerr + list Resource) :=
  let q := foldl (λ q opt, opt q) {| q_typ := "" |} opts in
  let path := if q_typ q =s "" then clusterResourcesPath
              else clusterResourcesPath +:+ "?" +:+ Encode {[ "type" := [q_typ q] ]} in
  read_data "cluster.ListResources" path [] (as_list Resource_UnmarshalJSON).

(* go: proxmox/cluster/status.go#Service.GetStatus *)
Definition GetStatus : W → W * (goerr + list StatusEntry) :=
  read_data "cluster.GetStatus" clusterStatusPath [] (as_list StatusEntry_UnmarshalJSON).

(* go: proxmox/cluster/options.go#Service.GetOptions *)
Definition GetOptions : W → W * (goerr + Options) :=
  read_data "cluster.GetOptions" clusterOptionsPath Options_zero Options_UnmarshalJSON.

(* go: proxmox/cluster/options.go#Service.SetOptions *)
Definition SetOptions (update : option OptionsUpdate) : W → W * (goerr + ()) :=
  match update with
  | None => nil_spec "cluster.SetOptions"
  | Some update =>
      send "cluster.SetOptions" "PUT" clusterOptionsPath
        (Some (BValues (EncodeWithExtra (OptionsUpdate_fields update) (ou_Extra update))))
  end.

(* go: proxmox/cluster/config.go#Service.CreateCluster *)
Definition CreateCluster (spec : option ClusterCreateSpec) : W → W * (goerr + ()) :=
  match spec with
  | None => nil_spec "cluster.CreateCluster"
  | Some spec =>
      if cc_Name spec =s "" then missing "cluster.CreateCluster: Name" else
      send "cluster.CreateCluster" "POST" clusterConfigPath
        (Some (BValues (EncodeWithExtra (ClusterCreateSpec_fields spec) (cc_Extra spec))))
  end.

(* go: proxmox/cluster/config.go#Service.JoinInfo *)
Definition Service_JoinInfo : W → W * (goerr + JoinInfo) :=
  read_data "cluster.JoinInfo" clusterConfigJoinPath JoinInfo_zero JoinInfo_UnmarshalJSON.

(* go: proxmox/cluster/config.go#Service.JoinCluster *)
Definition JoinCluster (spec : option JoinSpec) : W → W * (goerr + ()) :=
  match spec with
  | None => nil_spec "cluster.JoinCluster"
  | Some spec =>
      if js_Hostname spec =s "" then missing "cluster.JoinCluster: Hostname" else
      if js_Password spec =s "" then missing "cluster.JoinCluster: Password" else
      if js_Fingerprint spec =s "" then missing "cluster.JoinCluster: Fingerprint" else
      send "cluster.JoinCluster" "POST" clusterConfigJoinPath
        (Some (BValues (EncodeWithExtra (JoinSpec_fields spec) (js_Extra spec))))
  end.

(* go: proxmox/cluster/config.go#Service.ListConfigNodes *)
Definition ListConfigNodes : W → W * (goerr + list ConfigNode) :=
  read_data "cluster.ListConfigNodes" clusterConfigNodesPath [] (as_list ConfigNode_UnmarshalJSON).

End service.
