(* ===== verification/CephClient.v ===== *)
(** [proxmox/ceph], the client side of Ceph: pools, the OSD tree and its tasks, the
    status, and the mirroring calls that always refuse. *)

From S2P Require Import Prelude Json Pverr Types Url Api Version Tasks Svcutil.
From Stdlib Require Import ZArith Lia.
From stdpp Require Import options.

(** ** Payloads *)

(* go: proxmox/ceph/types.go#Pool *)
Record Pool := {
  po_Name : string; po_Size : Z; po_MinSize : Z; po_PGNum : Z; po_Type : string; po_Extra : gmap string string
}.
Definition Pool_zero : Pool :=
  {| po_Name := ""; po_Size := 0; po_MinSize := 0; po_PGNum := 0; po_Type := ""; po_Extra := ∅ |}.
(* go: proxmox/ceph/types.go#poolKnownFields *)
Definition poolKnownFields : list string := ["pool_name"; "size"; "min_size"; "pg_num"; "type"].
(* go: proxmox/ceph/types.go#Pool.UnmarshalJSON *)
Definition Pool_UnmarshalJSON : json → option Pool :=
  as_struct Pool_zero (λ l,
    n ← str_field "pool_name" l; si ← int_field "size" l; m ← int_field "min_size" l; p ← int_field "pg_num" l;
    t ← str_field "type" l;
    Some {| po_Name := n; po_Size := si; po_MinSize := m; po_PGNum := p; po_Type := t;
            po_Extra := foldl (extra_key poolKnownFields) ∅ l |}).

(* go: proxmox/ceph/types.go#PoolSpec *)
Record PoolSpec := {
  pc_Name : string; pc_Size : Z; pc_MinSize : Z; pc_PGNum : Z; pc_CrushRule : string; pc_Application : string;
  pc_Extra : gmap string string
}.
Definition PoolSpec_fields (s : PoolSpec) : list (string * json) :=
  [("name", JStr (pc_Name s))] ++ omit_int "size" (pc_Size s) ++ omit_int "min_size" (pc_MinSize s) ++
  omit_int "pg_num" (pc_PGNum s) ++ omit_str "crush_rule" (pc_CrushRule s) ++
  omit_str "application" (pc_Application s).

(* go: proxmox/ceph/types.go#OSDSpec *)
Record OSDSpec := { oc_DevPath : string; oc_DBDev : string; oc_WALDev : string; oc_Extra : gmap string string }.
Definition OSDSpec_fields (s : OSDSpec) : list (string * json) :=
  [("dev", JStr (oc_DevPath s))] ++ omit_str "db_dev" (oc_DBDev s) ++ omit_str "wal_dev" (oc_WALDev s).

(* go: proxmox/ceph/types.go#HealthStatus *)
Record HealthStatus := { hl_Status : string }.
Definition HealthStatus_zero : HealthStatus := {| hl_Status := "" |}.
Definition decode_HealthStatus : json → option HealthStatus :=
  as_struct HealthStatus_zero (λ l,
    st ← str_field "status" l;
    Some {| hl_Status := st |}).

(* go: proxmox/ceph/types.go#Status *)
Record Status := { st_FSID : string; st_Health : option HealthStatus; st_Extra : gmap string string }.
Definition Status_zero : Status := {| st_FSID := ""; st_Health := None; st_Extra := ∅ |}.
(* go: proxmox/ceph/types.go#statusKnownFields *)
Definition statusKnownFields : list string := ["fsid"; "health"].
(* go: proxmox/ceph/types.go#Status.UnmarshalJSON *)
Definition Status_UnmarshalJSON : json → option Status :=
  as_struct Status_zero (λ l,
    f ← str_field "fsid" l; h ← ptr_field decode_HealthStatus "health" l;
    Some {| st_FSID := f; st_Health := h; st_Extra := foldl (extra_key statusKnownFields) ∅ l |}).

(* go: proxmox/ceph/mirror.go#MirrorStatus *)
Record MirrorStatus := { mi_Pool : string; mi_State : string; mi_Daemons : Z; mi_Extra : gmap string string }.
(* go: proxmox/ceph/mirror.go#MirrorSpec *)
Record MirrorSpec := { mc_Pool : string; mc_Mode : string; mc_Extra : gmap string string }.

(** The OSD tree. The decoder recurses into the objects of the [children] member,
    on the nesting depth of the value as fuel. *)
(* go: proxmox/ceph/types.go#OSD *)
Inductive OSD := MkOSD {
  od_ID : Z; od_Name : string; od_Type : string; od_Status : string; od_Children : list OSD;
  od_Extra : gmap string string
}.
Definition OSD_zero : OSD := MkOSD 0 "" "" "" [] ∅.
(* go: proxmox/ceph/types.go#osdKnownFields *)
Definition osdKnownFields : list string := ["id"; "name"; "type"; "status"; "children"].
(* go: proxmox/ceph/types.go#OSD.UnmarshalJSON *)
Fixpoint decode_osd (fuel : nat) (j : json) : option OSD :=
  match fuel with
  | 0 => None
  | S fuel =>
      as_struct OSD_zero (λ l,
        i ← int_field "id" l; n ← str_field "name" l; t ← str_field "type" l; st ← str_field "status" l;
        c ← list_field (decode_osd fuel) "children" l;
        Some (MkOSD i n t st c (foldl (extra_key osdKnownFields) ∅ l))) j
  end.
Definition OSD_UnmarshalJSON (j : json) : option OSD := decode_osd (S (json_depth j)) j.

(* go: proxmox/ceph/types.go#OSDTree *)
Record OSDTree := { ot_Flags : string; ot_Root : option OSD; ot_Extra : gmap string string }.
Definition OSDTree_zero : OSDTree := {| ot_Flags := ""; ot_Root := None; ot_Extra := ∅ |}.
(* go: proxmox/ceph/types.go#osdTreeKnownFields *)
Definition osdTreeKnownFields : list string := ["flags"; "root"].
(* go: proxmox/ceph/types.go#OSDTree.UnmarshalJSON *)
Definition OSDTree_UnmarshalJSON : json → option OSDTree :=
  as_struct OSDTree_zero (λ l,
    f ← str_field "flags" l; r ← ptr_field OSD_UnmarshalJSON "root" l;
    Some {| ot_Flags := f; ot_Root := r; ot_Extra := foldl (extra_key osdTreeKnownFields) ∅ l |}).

(** ** Paths *)

(* go: proxmox/ceph/paths.go#nodeCephPoolsPath *)
Definition nodeCephPoolsPath (node : string) : string := "/nodes/" +:+ node +:+ "/ceph/pool".
(* go: proxmox/ceph/paths.go#nodeCephPoolPath *)
Definition nodeCephPoolPath (node name : string) : string := nodeCephPoolsPath node +:+ "/" +:+ PathEscape name.
(* go: proxmox/ceph/paths.go#nodeCephOSDsPath *)
Definition nodeCephOSDsPath (node : string) : string := "/nodes/" +:+ node +:+ "/ceph/osd".
(* go: proxmox/ceph/paths.go#nodeCephOSDPath *)
Definition nodeCephOSDPath (node : string) (osdID : Z) : string := nodeCephOSDsPath node +:+ "/" +:+ itoa osdID.
(* go: proxmox/ceph/paths.go#nodeCephStatusPath *)
Definition nodeCephStatusPath (node : string) : string := "/nodes/" +:+ node +:+ "/ceph/status".
(* go: proxmox/ceph/paths.go#nodeCephConfigPath *)
Definition nodeCephConfigPath (node : string) : string := "/nodes/" +:+ node +:+ "/ceph/cfg/raw".

(** ** The service *)

Section service.
Context {W : Type} `{!Client W}.

(* go: proxmox/ceph/pools.go#Service.ListPools *)
Definition ListPools (node : string) : W → W * (goerr + list Pool) :=
  read_data "ceph.ListPools" (nodeCephPoolsPath node) [] (as_list Pool_UnmarshalJSON).

(** A body that does not name the pool gets the caller's name. *)
(* go: proxmox/ceph/pools.go#Service.GetPool *)
Definition GetPool (node name : string) (w : W) : W * (goerr + Pool) :=
  if name =s "" then missing "ceph.GetPool: name" w else
  then_result (read_data "ceph.GetPool" (nodeCephPoolPath node name) Pool_zero Pool_UnmarshalJSON w) id
    (λ p w, (w, inr (if po_Name p =s "" then
                       {| po_Name := name; po_Size := po_Size p; po_MinSize := po_MinSize p; po_PGNum := po_PGNum p;
                          po_Type := po_Type p; po_Extra := po_Extra p |}
                     else p))).

(* go: proxmox/ceph/pools.go#Service.CreatePool *)
Definition CreatePool (node : string) (spec : option PoolSpec) : W → W * (goerr + Ref) :=
  match spec with
  | None => nil_spec "ceph.CreatePool"
  | Some spec =>
      if pc_Name spec =s "" then missing "ceph.CreatePool: name" else
      start "ceph.CreatePool" "POST" (nodeCephPoolsPath node)
        (Some (BValues (EncodeWithExtra (PoolSpec_fields spec) (pc_Extra spec))))
  end.

(* go: proxmox/ceph/pools.go#Service.DeletePool *)
Definition DeletePool (node name : string) : W → W * (goerr + Ref) :=
  if name =s "" then missing "ceph.DeletePool: name" else
  start "ceph.DeletePool" "DELETE" (nodeCephPoolPath node name) None.

(* go: proxmox/ceph/osds.go#Service.ListOSDs *)
Definition ListOSDs (node : string) : W → W * (goerr + OSDTree) :=
  read_data "ceph.ListOSDs" (nodeCephOSDsPath node) OSDTree_zero OSDTree_UnmarshalJSON.

(* go: proxmox/ceph/osds.go#Service.CreateOSD *)
Definition CreateOSD (node : string) (spec : option OSDSpec) : W → W * (goerr + Ref) :=
  match spec with
  | None => nil_spec "ceph.CreateOSD"
  | Some spec =>
      if oc_DevPath spec =s "" then missing "ceph.CreateOSD: dev" else
      start "ceph.CreateOSD" "POST" (nodeCephOSDsPath node)
        (Some (BValues (EncodeWithExtra (OSDSpec_fields spec) (oc_Extra spec))))
  end.

(* go: proxmox/ceph/osds.go#Service.DestroyOSD *)
Definition DestroyOSD (node : string) (osdID : Z) : W → W * (goerr + Ref) :=
  start "ceph.DestroyOSD" "DELETE" (nodeCephOSDPath node osdID) None.

(* go: proxmox/ceph/status.go#Service.GetStatus *)
Definition GetStatus (node : string) : W → W * (goerr + Status) :=
  read_data "ceph.GetStatus" (nodeCephStatusPath node) Status_zero Status_UnmarshalJSON.

(* go: proxmox/ceph/status.go#Service.GetClusterConfig *)
Definition GetClusterConfig (node : string) : W → W * (goerr + string) :=
  read_data "ceph.GetClusterConfig" (nodeCephConfigPath node) "" as_string_out.

(* go: proxmox/ceph/mirror.go#Service.GetMirrorStatus *)
Definition GetMirrorStatus (node pool : string) : W → W * (goerr + MirrorStatus) :=
  refuse (GWrap ("ceph.GetMirrorStatus: RBD mirroring has no confirmed PVE REST endpoint; " +:+
    "use the rbd CLI over SSH") (GSentinel ErrUnsupported)).

(* go: proxmox/ceph/mirror.go#Service.EnableMirroring *)
Definition EnableMirroring (node : string) (spec : option MirrorSpec) : W → W * (goerr + ()) :=
  refuse (GWrap ("ceph.EnableMirroring: RBD mirroring has no confirmed PVE REST endpoint; " +:+
    "use the rbd CLI over SSH") (GSentinel ErrUnsupported)).

(* go: proxmox/ceph/mirror.go#Service.DisableMirroring *)
Definition DisableMirroring (node pool : string) : W → W * (goerr + ()) :=
  refuse (GWrap ("ceph.DisableMirroring: RBD mirroring has no confirmed PVE REST endpoint; " +:+
    "use the rbd CLI over SSH") (GSentinel ErrUnsupported)).

End service.

(** More fuel than the nesting depth changes nothing. *)
Lemma decode_osd_fuel fuel fuel' j : json_depth j < fuel → json_depth j < fuel' → decode_osd fuel j = decode_osd fuel' j.
Proof.
  revert fuel' j. induction fuel as [|fuel IH]; intros [|fuel'] j Hf Hf'; [lia..|].
  destruct j as [| | | | |l]; try done. cbn [decode_osd as_struct].
  rewrite (list_field_depth (decode_osd fuel) (decode_osd fuel')); [done|]. intros x Hx. apply IH; lia.
Qed.
