(* ===== verification/MetricsClient.v ===== *)
(** [proxmox/metrics], the client side of metrics: charts of nodes and guests with
    their options, the status of a node, external metric servers, and the exporter
    configuration that always refuses. *)

From S2P Require Import Prelude Json Pverr Types Url Api Version Tasks Svcutil.
From Stdlib Require Import ZArith Floats.SpecFloat.
From stdpp Require Import options.

(** ** Payloads *)

(* go: proxmox/metrics/types.go#RRDPoint *)
Record RRDPoint := {
  rr_Time : Z; rr_CPU : spec_float; rr_MaxCPU : spec_float; rr_Mem : spec_float; rr_MaxMem : spec_float;
  rr_Disk : spec_float; rr_MaxDisk : spec_float; rr_NetIn : spec_float; rr_NetOut : spec_float;
  rr_DiskRead : spec_float; rr_DiskWrite : spec_float; rr_Extra : gmap string string
}.
Definition RRDPoint_zero : RRDPoint :=
  {| rr_Time := 0; rr_CPU := S754_zero false; rr_MaxCPU := S754_zero false; rr_Mem := S754_zero false;
     rr_MaxMem := S754_zero false; rr_Disk := S754_zero false; rr_MaxDisk := S754_zero false;
     rr_NetIn := S754_zero false; rr_NetOut := S754_zero false; rr_DiskRead := S754_zero false;
     rr_DiskWrite := S754_zero false; rr_Extra := ∅ |}.
(* go: proxmox/metrics/types.go#rrdPointKnownFields *)
Definition rrdPointKnownFields : list string :=
  ["time"; "cpu"; "maxcpu"; "mem"; "maxmem"; "disk"; "maxdisk"; "netin"; "netout"; "diskread"; "diskwrite"].
(* go: proxmox/metrics/types.go#RRDPoint.UnmarshalJSON *)
Definition RRDPoint_UnmarshalJSON : json → option RRDPoint :=
  as_struct RRDPoint_zero (λ l,
    t ← int_field "time" l; c ← float_field "cpu" l; m ← float_field "maxcpu" l; me ← float_field "mem" l;
    ma ← float_field "maxmem" l; d ← float_field "disk" l; max ← float_field "maxdisk" l; n ← float_field "netin" l;
    ne ← float_field "netout" l; di ← float_field "diskread" l; dis ← float_field "diskwrite" l;
    Some {| rr_Time := t; rr_CPU := c; rr_MaxCPU := m; rr_Mem := me; rr_MaxMem := ma; rr_Disk := d; rr_MaxDisk := max;
            rr_NetIn := n; rr_NetOut := ne; rr_DiskRead := di; rr_DiskWrite := dis;
            rr_Extra := foldl (extra_key rrdPointKnownFields) ∅ l |}).

(* go: proxmox/metrics/types.go#MemoryInfo *)
Record MemoryInfo := { mm_Total : Z; mm_Used : Z; mm_Free : Z }.
Definition MemoryInfo_zero : MemoryInfo := {| mm_Total := 0; mm_Used := 0; mm_Free := 0 |}.
Definition decode_MemoryInfo : json → option MemoryInfo :=
  as_struct MemoryInfo_zero (λ l,
    t ← int_field "total" l; u ← int_field "used" l; f ← int_field "free" l;
    Some {| mm_Total := t; mm_Used := u; mm_Free := f |}).

(* go: proxmox/metrics/types.go#NodeStatus *)
Record NodeStatus := {
  ns_Uptime : Z; ns_CPU : spec_float; ns_Wait : spec_float; ns_LoadAvg : list string; ns_KVersion : string;
  ns_PVEVersion : string; ns_Memory : option MemoryInfo; ns_Swap : option MemoryInfo; ns_RootFS : option MemoryInfo;
  ns_Extra : gmap string string
}.
Definition NodeStatus_zero : NodeStatus :=
  {| ns_Uptime := 0; ns_CPU := S754_zero false; ns_Wait := S754_zero false; ns_LoadAvg := []; ns_KVersion := "";
     ns_PVEVersion := ""; ns_Memory := None; ns_Swap := None; ns_RootFS := None; ns_Extra := ∅ |}.
(* go: proxmox/metrics/types.go#nodeStatusKnownFields *)
Definition nodeStatusKnownFields : list string :=
  ["uptime"; "cpu"; "wait"; "loadavg"; "kversion"; "pveversion"; "memory"; "swap"; "rootfs"].
(* go: proxmox/metrics/types.go#NodeStatus.UnmarshalJSON *)
Definition NodeStatus_UnmarshalJSON : json → option NodeStatus :=
  as_struct NodeStatus_zero (λ l,
    u ← int_field "uptime" l; c ← float_field "cpu" l; w ← float_field "wait" l; lo ← strs_field "loadavg" l;
    k ← str_field "kversion" l; p ← str_field "pveversion" l; m ← ptr_field decode_MemoryInfo "memory" l;
    sw ← ptr_field decode_MemoryInfo "swap" l; r ← ptr_field decode_MemoryInfo "rootfs" l;
    Some {| ns_Uptime := u; ns_CPU := c; ns_Wait := w; ns_LoadAvg := lo; ns_KVersion := k; ns_PVEVersion := p;
            ns_Memory := m; ns_Swap := sw; ns_RootFS := r; ns_Extra := foldl (extra_key nodeStatusKnownFields) ∅ l |}).

(* go: proxmox/metrics/types.go#MetricServer *)
Record MetricServer := {
  ms_ID : string; ms_Type : string; ms_Server : string; ms_Port : Z; ms_Disable : bool; ms_Extra : gmap string string
}.
Definition MetricServer_zero : MetricServer :=
  {| ms_ID := ""; ms_Type := ""; ms_Server := ""; ms_Port := 0; ms_Disable := false; ms_Extra := ∅ |}.
(* go: proxmox/metrics/types.go#metricServerKnownFields *)
Definition metricServerKnownFields : list string := ["id"; "type"; "server"; "port"; "disable"].
(* go: proxmox/metrics/types.go#MetricServer.UnmarshalJSON *)
Definition MetricServer_UnmarshalJSON : json → option MetricServer :=
  as_struct MetricServer_zero (λ l,
    i ← str_field "id" l; t ← str_field "type" l; se ← str_field "server" l; p ← int_field "port" l;
    d ← pvebool_field "disable" l;
    Some {| ms_ID := i; ms_Type := t; ms_Server := se; ms_Port := p; ms_Disable := d;
            ms_Extra := foldl (extra_key metricServerKnownFields) ∅ l |}).

(* go: proxmox/metrics/types.go#MetricServerSpec *)
Record MetricServerSpec := {
  mc_ID : string; mc_Type : string; mc_Server : string; mc_Port : Z; mc_Disable : option bool;
  mc_Extra : gmap string string
}.
Definition MetricServerSpec_fields (s : MetricServerSpec) : list (string * json) :=
  [("id", JStr (mc_ID s)); ("type", JStr (mc_Type s)); ("server", JStr (mc_Server s)); ("port", jint (mc_Port s))] ++
  opt_bool "disable" (mc_Disable s).

(* go: proxmox/metrics/types.go#MetricServerUpdate *)
Record MetricServerUpdate := {
  mu_Server : string; mu_Port : Z; mu_Disable : option bool; mu_Delete : string; mu_Extra : gmap string string
}.
Definition MetricServerUpdate_fields (s : MetricServerUpdate) : list (string * json) :=
  omit_str "server" (mu_Server s) ++ omit_int "port" (mu_Port s) ++ opt_bool "disable" (mu_Disable s) ++
  omit_str "delete" (mu_Delete s).

(* go: proxmox/metrics/types.go#OTelConfig *)
Record OTelConfig := { ot_Endpoint : string; ot_Protocol : string; ot_Enabled : bool; ot_Extra : gmap string string }.

(** ** Chart options *)

(* go: proxmox/metrics/rrd.go#rrdQuery *)
Record rrdQuery := { q_timeframe : string; q_cf : string }.
(* go: proxmox/metrics/rrd.go#RRDOption *)
Definition RRDOption : Type := rrdQuery → rrdQuery.
(* go: proxmox/metrics/rrd.go#WithTimeframe *)
Definition WithTimeframe (tf : string) : RRDOption := λ q, {| q_timeframe := tf; q_cf := q_cf q |}.
(* go: proxmox/metrics/rrd.go#WithConsolidation *)
Definition WithConsolidation (cf : string) : RRDOption := λ q, {| q_timeframe := q_timeframe q; q_cf := cf |}.

(* go: proxmox/metrics/rrd.go#rrdQuery.values *)
Definition rrdQuery_values (q : rrdQuery) : values :=
  let tf := if q_timeframe q =s "" then "hour" else q_timeframe q in
  set_text "cf" (q_cf q) {[ "timeframe" := [tf] ]}.

(* go: proxmox/metrics/rrd.go#resolveRRD *)
Definition resolveRRD (opts : list RRDOption) : values :=
  rrdQuery_values (foldl (λ q opt, opt q) {| q_timeframe := ""; q_cf := "" |} opts).

(** ** Paths *)

(* go: proxmox/metrics/paths.go#nodeRRDPath *)
Definition nodeRRDPath (node : string) : string := "/nodes/" +:+ node +:+ "/rrddata".
(* go: proxmox/metrics/paths.go#nodeStatusPath *)
Definition nodeStatusPath (node : string) : string := "/nodes/" +:+ node +:+ "/status".
(* go: proxmox/metrics/paths.go#vmRRDPath *)
Definition vmRRDPath (node kind : string) (vmid : VMID) : string :=
  "/nodes/" +:+ node +:+ "/" +:+ kind +:+ "/" +:+ VMID_String vmid +:+ "/rrddata".
(* go: proxmox/metrics/paths.go#metricsServersPath *)
Definition metricsServersPath : string := "/cluster/metrics/server".
(* go: proxmox/metrics/paths.go#metricsServerPath *)
Definition metricsServerPath (id : string) : string := metricsServersPath +:+ "/" +:+ PathEscape id.

(* go: proxmox/metrics/service.go#L17-L17:errBadKind *)
Definition errBadKind : goerr := GText "unknown guest kind (want qemu or lxc)".

(** ** The service *)

Section service.
Context {W : Type} `{!Client W}.

(* go: proxmox/metrics/rrd.go#Service.GetNodeRRD *)
Definition GetNodeRRD (node : string) (opts : list RRDOption) : W → W * (goerr + list RRDPoint) :=
  read_data "metrics.GetNodeRRD" (nodeRRDPath node +:+ "?" +:+ Encode (resolveRRD opts)) []
    (as_list RRDPoint_UnmarshalJSON).

(** The text of a kind in the error is printed with [%q]: exact for printable kinds
    without quotes and backslashes. *)
(* go: proxmox/metrics/rrd.go#Service.GetVMRRD *)
Definition GetVMRRD (node kind : string) (vmid : VMID) (opts : list RRDOption) : W → W * (goerr + list RRDPoint) :=
  if (kind =s "qemu") || (kind =s "lxc") then
    read_data "metrics.GetVMRRD" (vmRRDPath node kind vmid +:+ "?" +:+ Encode (resolveRRD opts)) []
      (as_list RRDPoint_UnmarshalJSON)
  else refuse (GWrap ("metrics.GetVMRRD: kind " +:+ quote_byte +:+ kind +:+ quote_byte) errBadKind).

(* go: proxmox/metrics/status.go#Service.GetNodeStatus *)
Definition GetNodeStatus (node : string) : W → W * (goerr + NodeStatus) :=
  if node =s "" then missing "metrics.GetNodeStatus: node" else
  read_data "metrics.GetNodeStatus" (nodeStatusPath node) NodeStatus_zero NodeStatus_UnmarshalJSON.

(* go: proxmox/metrics/servers.go#Service.ListMetricServers *)
Definition ListMetricServers : W → W * (goerr + list MetricServer) :=
  read_data "metrics.ListMetricServers" metricsServersPath [] (as_list MetricServer_UnmarshalJSON).

(* go: proxmox/metrics/servers.go#Service.GetMetricServer *)
Definition GetMetricServer (id : string) : W → W * (goerr + MetricServer) :=
  if id =s "" then missing "metrics.GetMetricServer: id" else
  read_data "metrics.GetMetricServer" (metricsServerPath id) MetricServer_zero MetricServer_UnmarshalJSON.

(* go: proxmox/metrics/servers.go#Service.CreateMetricServer *)
Definition CreateMetricServer (spec : option MetricServerSpec) : W → W * (goerr + ()) :=
  match spec with
  | None => nil_spec "metrics.CreateMetricServer"
  | Some spec =>
      if mc_ID spec =s "" then missing "metrics.CreateMetricServer: id" else
      if mc_Type spec =s "" then missing "metrics.CreateMetricServer: type" else
      if mc_Server spec =s "" then missing "metrics.CreateMetricServer: server" else
      send "metrics.CreateMetricServer" "POST" (metricsServerPath (mc_ID spec))
        (Some (BValues (EncodeWithExtra (MetricServerSpec_fields spec) (mc_Extra spec))))
  end.

(* go: proxmox/metrics/servers.go#Service.UpdateMetricServer *)
Definition UpdateMetricServer (id : string) (update : option MetricServerUpdate) : W → W * (goerr + ()) :=
  match update with
  | None => nil_spec "metrics.UpdateMetricServer"
  | Some update =>
      if id =s "" then missing "metrics.UpdateMetricServer: id" else
      send "metrics.UpdateMetricServer" "PUT" (metricsServerPath id)
        (Some (BValues (EncodeWithExtra (MetricServerUpdate_fields update) (mu_Extra update))))
  end.

(* go: proxmox/metrics/servers.go#Service.DeleteMetricServer *)
Definition DeleteMetricServer (id : string) : W → W * (goerr + ()) :=
  if id =s "" then missing "metrics.DeleteMetricServer: id" else
  send "metrics.DeleteMetricServer" "DELETE" (metricsServerPath id) None.

(* go: proxmox/metrics/otel.go#Service.GetOTelConfig *)
Definition GetOTelConfig (node : string) : W → W * (goerr + OTelConfig) :=
  refuse (GWrap ("metrics.GetOTelConfig: the 9.x OpenTelemetry exporter is file-configured " +:+
    "and has no REST endpoint") (GSentinel ErrUnsupported)).

(* go: proxmox/metrics/otel.go#Service.SetOTelConfig *)
Definition SetOTelConfig (node : string) (cfg : option OTelConfig) : W → W * (goerr + ()) :=
  refuse (GWrap ("metrics.SetOTelConfig: the 9.x OpenTelemetry exporter is file-configured " +:+
    "and has no REST endpoint") (GSentinel ErrUnsupported)).

End service.
