(* ===== verification/PbsClient.v ===== *)
(** [proxmox/pbs], the client side of backups: scheduled jobs, archives in a
    storage, one-off backups, and the two restores. *)

From S2P Require Import Prelude Json Pverr Types Url Api Version Tasks Svcutil.
From Stdlib Require Import ZArith.
From stdpp Require Import options.

(** ** Payloads *)

(* go: proxmox/pbs/types.go#BackupJob *)
Record BackupJob := {
  bj_ID : string; bj_Schedule : string; bj_Storage : string; bj_Mode : string; bj_Enabled : bool; bj_Mailto : string;
  bj_Comment : string; bj_Extra : gmap string string
}.
Definition BackupJob_zero : BackupJob :=
  {| bj_ID := ""; bj_Schedule := ""; bj_Storage := ""; bj_Mode := ""; bj_Enabled := false; bj_Mailto := "";
     bj_Comment := ""; bj_Extra := ∅ |}.
(* go: proxmox/pbs/types.go#backupJobKnownFields *)
Definition backupJobKnownFields : list string :=
  ["id"; "schedule"; "storage"; "mode"; "enabled"; "mailto"; "comment"].
(* go: proxmox/pbs/types.go#BackupJob.UnmarshalJSON *)
Definition BackupJob_UnmarshalJSON : json → option BackupJob :=
  as_struct BackupJob_zero (λ l,
    i ← str_field "id" l; sc ← str_field "schedule" l; st ← str_field "storage" l; m ← str_field "mode" l;
    e ← pvebool_field "enabled" l; ma ← str_field "mailto" l; c ← str_field "comment" l;
    Some {| bj_ID := i; bj_Schedule := sc; bj_Storage := st; bj_Mode := m; bj_Enabled := e; bj_Mailto := ma;
            bj_Comment := c; bj_Extra := foldl (extra_key backupJobKnownFields) ∅ l |}).

(* go: proxmox/pbs/types.go#BackupJobSpec *)
Record BackupJobSpec := {
  bc_ID : string; bc_Schedule : string; bc_Storage : string; bc_Mode : string; bc_Enabled : option bool;
  bc_All : option bool; bc_VMID : string; bc_Mailto : string; bc_Comment : string; bc_Extra : gmap string string
}.
Definition BackupJobSpec_fields (s : BackupJobSpec) : list (string * json) :=
  omit_str "id" (bc_ID s) ++ omit_str "schedule" (bc_Schedule s) ++ [("storage", JStr (bc_Storage s))] ++
  omit_str "mode" (bc_Mode s) ++ opt_bool "enabled" (bc_Enabled s) ++ opt_bool "all" (bc_All s) ++
  omit_str "vmid" (bc_VMID s) ++ omit_str "mailto" (bc_Mailto s) ++ omit_str "comment" (bc_Comment s).

(* go: proxmox/pbs/types.go#BackupJobUpdate *)
Record BackupJobUpdate := {
  bu_Schedule : string; bu_Storage : string; bu_Mode : string; bu_Enabled : option bool; bu_Mailto : string;
  bu_Comment : string; bu_Delete : string; bu_Extra : gmap string string
}.
Definition BackupJobUpdate_fields (s : BackupJobUpdate) : list (string * json) :=
  omit_str "schedule" (bu_Schedule s) ++ omit_str "storage" (bu_Storage s) ++ omit_str "mode" (bu_Mode s) ++
  opt_bool "enabled" (bu_Enabled s) ++ omit_str "mailto" (bu_Mailto s) ++ omit_str "comment" (bu_Comment s) ++
  omit_str "delete" (bu_Delete s).

(* go: proxmox/pbs/types.go#Backup *)
Record Backup := {
  bk_VolID : string; bk_Format : string; bk_Size : Z; bk_CTime : Z; bk_VMID : Z; bk_Notes : string;
  bk_Extra : gmap string string
}.
Definition Backup_zero : Backup :=
  {| bk_VolID := ""; bk_Format := ""; bk_Size := 0; bk_CTime := 0; bk_VMID := 0; bk_Notes := ""; bk_Extra := ∅ |}.
(* go: proxmox/pbs/types.go#backupKnownFields *)
Definition backupKnownFields : list string := ["volid"; "format"; "size"; "ctime"; "vmid"; "notes"; "content"].
(* go: proxmox/pbs/types.go#Backup.UnmarshalJSON *)
Definition Backup_UnmarshalJSON : json → option Backup :=
  as_struct Backup_zero (λ l,
    v ← str_field "volid" l; f ← str_field "format" l; si ← int_field "size" l; c ← int_field "ctime" l;
    vm ← int_field "vmid" l; n ← str_field "notes" l;
    Some {| bk_VolID := v; bk_Format := f; bk_Size := si; bk_CTime := c; bk_VMID := vm; bk_Notes := n;
            bk_Extra := foldl (extra_key backupKnownFields) ∅ l |}).

(* go: proxmox/pbs/types.go#VzdumpSpec *)
Record VzdumpSpec := {
  vz_VMID : string; vz_All : option bool; vz_Storage : string; vz_Mode : string; vz_Compress : string;
  vz_Notes : string; vz_Extra : gmap string string
}.
Definition VzdumpSpec_fields (s : VzdumpSpec) : list (string * json) :=
  omit_str "vmid" (vz_VMID s) ++ opt_bool "all" (vz_All s) ++ [("storage", JStr (vz_Storage s))] ++
  omit_str "mode" (vz_Mode s) ++ omit_str "compress" (vz_Compress s) ++ omit_str "notes-template" (vz_Notes s).

(* go: proxmox/pbs/types.go#RestoreSpec *)
Record RestoreSpec := {
  re_VMID : Z; re_Archive : string; re_Storage : string; re_Force : option bool; re_Extra : gmap string string
}.
Definition RestoreSpec_fields (s : RestoreSpec) : list (string * json) :=
  [("vmid", jint (re_VMID s))] ++ omit_str "storage" (re_Storage s) ++ opt_bool "force" (re_Force s).

(** ** Paths *)

(* go: proxmox/pbs/paths.go#clusterBackupPath *)
Definition clusterBackupPath : string := "/cluster/backup".
(* go: proxmox/pbs/paths.go#clusterBackupJobPath *)
Definition clusterBackupJobPath (id : string) : string := clusterBackupPath +:+ "/" +:+ PathEscape id.
(* go: proxmox/pbs/paths.go#nodeVzdumpPath *)
Definition nodeVzdumpPath (node : string) : string := "/nodes/" +:+ node +:+ "/vzdump".
(* go: proxmox/pbs/paths.go#nodeStorageContentPath *)
Definition nodeStorageContentPath (node storage : string) : string :=
  "/nodes/" +:+ node +:+ "/storage/" +:+ PathEscape storage +:+ "/content".
(* go: proxmox/pbs/paths.go#nodeQEMUPath *)
Definition nodeQEMUPath (node : string) : string := "/nodes/" +:+ node +:+ "/qemu".
(* go: proxmox/pbs/paths.go#nodeLXCPath *)
Definition nodeLXCPath (node : string) : string := "/nodes/" +:+ node +:+ "/lxc".

(** ** The service *)

Section service.
Context {W : Type} `{!Client W}.

(* go: proxmox/pbs/jobs.go#Service.ListBackupJobs *)
Definition ListBackupJobs : W → W * (goerr + list BackupJob) :=
  read_data "pbs.ListBackupJobs" clusterBackupPath [] (as_list BackupJob_UnmarshalJSON).

(** A body that does not name the job gets the caller's name. *)
(* go: proxmox/pbs/jobs.go#Service.GetBackupJob *)
Definition GetBackupJob (id : string) (w : W) : W * (goerr + BackupJob) :=
  if id =s "" then missing "pbs.GetBackupJob: id" w else
  then_result (read_data "pbs.GetBackupJob" (clusterBackupJobPath id) BackupJob_zero BackupJob_UnmarshalJSON w) (λ e, e)
    (λ j w, (w, inr (if bj_ID j =s "" then
                       {| bj_ID := id; bj_Schedule := bj_Schedule j; bj_Storage := bj_Storage j; bj_Mode := bj_Mode j;
                          bj_Enabled := bj_Enabled j; bj_Mailto := bj_Mailto j; bj_Comment := bj_Comment j;
                          bj_Extra := bj_Extra j |}
                     else j))).

(* go: proxmox/pbs/jobs.go#Service.CreateBackupJob *)
Definition CreateBackupJob (spec : option BackupJobSpec) : W → W * (goerr + ()) :=
  match spec with
  | None => nil_spec "pbs.CreateBackupJob"
  | Some spec =>
      if bc_Storage spec =s "" then missing "pbs.CreateBackupJob: storage" else
      send "pbs.CreateBackupJob" "POST" clusterBackupPath
        (Some (BValues (EncodeWithExtra (BackupJobSpec_fields spec) (bc_Extra spec))))
  end.

(* go: proxmox/pbs/jobs.go#Service.UpdateBackupJob *)
Definition UpdateBackupJob (id : string) (update : option BackupJobUpdate) : W → W * (goerr + ()) :=
  match update with
  | None => nil_spec "pbs.UpdateBackupJob"
  | Some update =>
      if id =s "" then missing "pbs.UpdateBackupJob: id" else
      send "pbs.UpdateBackupJob" "PUT" (clusterBackupJobPath id)
        (Some (BValues (EncodeWithExtra (BackupJobUpdate_fields update) (bu_Extra update))))
  end.

(* go: proxmox/pbs/jobs.go#Service.DeleteBackupJob *)
Definition DeleteBackupJob (id : string) : W → W * (goerr + ()) :=
  if id =s "" then missing "pbs.DeleteBackupJob: id" else
  send "pbs.DeleteBackupJob" "DELETE" (clusterBackupJobPath id) None.

(* go: proxmox/pbs/backups.go#Service.ListNodeBackups *)
Definition ListNodeBackups (node storage : string) : W → W * (goerr + list Backup) :=
  if storage =s "" then missing "pbs.ListNodeBackups: storage" else
  read_data "pbs.ListNodeBackups"
    (nodeStorageContentPath node storage +:+ "?" +:+ Encode {[ "content" := ["backup"] ]}) []
    (as_list Backup_UnmarshalJSON).

(* go: proxmox/pbs/backups.go#Service.CreateBackup *)
Definition CreateBackup (node : string) (spec : option VzdumpSpec) : W → W * (goerr + Ref) :=
  match spec with
  | None => nil_spec "pbs.CreateBackup"
  | Some spec =>
      if vz_Storage spec =s "" then missing "pbs.CreateBackup: storage" else
      start "pbs.CreateBackup" "POST" (nodeVzdumpPath node)
        (Some (BValues (EncodeWithExtra (VzdumpSpec_fields spec) (vz_Extra spec))))
  end.

(* go: proxmox/pbs/backups.go#Service.restoreBody *)
Definition restoreBody (op : string) (spec : option RestoreSpec) : goerr + values :=
  match spec with
  | None => inl (GWrap op (GSpec ErrNilSpec))
  | Some spec =>
      if bool_decide (re_VMID spec = 0%Z) then inl (GWrap (op +:+ ": vmid") (GSpec ErrMissingField))
      else if re_Archive spec =s "" then inl (GWrap (op +:+ ": archive") (GSpec ErrMissingField))
      else inr (EncodeWithExtra (RestoreSpec_fields spec) (re_Extra spec))
  end.

(** The archive the two restores send; [restoreBody] has refused a nil one. *)
Definition archive_of (spec : option RestoreSpec) : string := match spec with Some spec => re_Archive spec | None => "" end.

(* go: proxmox/pbs/backups.go#Service.RestoreQEMU *)
Definition RestoreQEMU (node : string) (spec : option RestoreSpec) : W → W * (goerr + Ref) :=
  match restoreBody "pbs.RestoreQEMU" spec with
  | inl err => refuse err
  | inr body =>
      start "pbs.RestoreQEMU" "POST" (nodeQEMUPath node) (Some (BValues (<["archive" := [archive_of spec]]> body)))
  end.

(* go: proxmox/pbs/backups.go#Service.RestoreLXC *)
Definition RestoreLXC (node : string) (spec : option RestoreSpec) : W → W * (goerr + Ref) :=
  match restoreBody "pbs.RestoreLXC" spec with
  | inl err => refuse err
  | inr body =>
      start "pbs.RestoreLXC" "POST" (nodeLXCPath node)
        (Some (BValues (<["restore" := ["1"]]> (<["ostemplate" := [archive_of spec]]> body))))
  end.

(* go: proxmox/pbs/backups.go#Service.VerifyBackup *)
Definition VerifyBackup (node storage volid : string) : W → W * (goerr + Ref) :=
  refuse (GWrap ("pbs.VerifyBackup: backup verification is a PBS-native operation with no " +:+
    "PVE REST endpoint; use the PBS server") (GSentinel ErrUnsupported)).

End service.
