(* ===== verification/ConsoleClient.v ===== *)
(** [proxmox/console], the client side of consoles: tickets of the three kinds, and
    the path a VNC ticket is redeemed on. The stream behind it is a parameter. *)

From S2P Require Import Prelude Json Pverr Types Url Api Version Tasks Svcutil.
From Stdlib Require Import ZArith.
From stdpp Require Import options.

(** ** Payloads *)

(* go: proxmox/console/types.go#VNCTicket *)
Record VNCTicket := {
  vt_Ticket : string; vt_Port : string; vt_User : string; vt_Cert : string; vt_UPID : string;
  vt_Extra : gmap string string; vt_kind : string; vt_vmid : Z
}.
Definition VNCTicket_zero : VNCTicket :=
  {| vt_Ticket := ""; vt_Port := ""; vt_User := ""; vt_Cert := ""; vt_UPID := ""; vt_Extra := ∅; vt_kind := "";
     vt_vmid := 0 |}.
(* go: proxmox/console/types.go#vncTicketKnownFields *)
Definition vncTicketKnownFields : list string := ["ticket"; "port"; "user"; "cert"; "upid"].
(* go: proxmox/console/types.go#VNCTicket.UnmarshalJSON *)
Definition VNCTicket_UnmarshalJSON : json → option VNCTicket :=
  as_struct VNCTicket_zero (λ l,
    t ← str_field "ticket" l; p ← str_field "port" l; u ← str_field "user" l; c ← str_field "cert" l;
    up ← str_field "upid" l;
    Some {| vt_Ticket := t; vt_Port := p; vt_User := u; vt_Cert := c; vt_UPID := up;
            vt_Extra := foldl (extra_key vncTicketKnownFields) ∅ l; vt_kind := ""; vt_vmid := 0 |}).

(* go: proxmox/console/types.go#TermTicket *)
Record TermTicket := {
  tt_Ticket : string; tt_Port : string; tt_User : string; tt_UPID : string; tt_Extra : gmap string string
}.
Definition TermTicket_zero : TermTicket :=
  {| tt_Ticket := ""; tt_Port := ""; tt_User := ""; tt_UPID := ""; tt_Extra := ∅ |}.
(* go: proxmox/console/types.go#termTicketKnownFields *)
Definition termTicketKnownFields : list string := ["ticket"; "port"; "user"; "upid"].
(* go: proxmox/console/types.go#TermTicket.UnmarshalJSON *)
Definition TermTicket_UnmarshalJSON : json → option TermTicket :=
  as_struct TermTicket_zero (λ l,
    t ← str_field "ticket" l; p ← str_field "port" l; u ← str_field "user" l; up ← str_field "upid" l;
    Some {| tt_Ticket := t; tt_Port := p; tt_User := u; tt_UPID := up;
            tt_Extra := foldl (extra_key termTicketKnownFields) ∅ l |}).

(* go: proxmox/console/types.go#SPICETicket *)
Record SPICETicket := {
  sp_Host : string; sp_Proxy : string; sp_TLSPort : Z; sp_Password : string; sp_CA : string; sp_Type : string;
  sp_Title : string; sp_Extra : gmap string string
}.
Definition SPICETicket_zero : SPICETicket :=
  {| sp_Host := ""; sp_Proxy := ""; sp_TLSPort := 0; sp_Password := ""; sp_CA := ""; sp_Type := ""; sp_Title := "";
     sp_Extra := ∅ |}.
(* go: proxmox/console/types.go#spiceTicketKnownFields *)
Definition spiceTicketKnownFields : list string := ["host"; "proxy"; "tls-port"; "password"; "ca"; "type"; "title"].
(* go: proxmox/console/types.go#SPICETicket.UnmarshalJSON *)
Definition SPICETicket_UnmarshalJSON : json → option SPICETicket :=
  as_struct SPICETicket_zero (λ l,
    h ← str_field "host" l; p ← str_field "proxy" l; t ← int_field "tls-port" l; pa ← str_field "password" l;
    c ← str_field "ca" l; ty ← str_field "type" l; ti ← str_field "title" l;
    Some {| sp_Host := h; sp_Proxy := p; sp_TLSPort := t; sp_Password := pa; sp_CA := c; sp_Type := ty;
            sp_Title := ti; sp_Extra := foldl (extra_key spiceTicketKnownFields) ∅ l |}).

(** ** Paths *)

(* go: proxmox/console/paths.go#guestConsolePath *)
Definition guestConsolePath (node kind : string) (vmid : Z) (verb : string) : string :=
  "/nodes/" +:+ node +:+ "/" +:+ kind +:+ "/" +:+ itoa vmid +:+ "/" +:+ verb.
(* go: proxmox/console/paths.go#nodeVNCShellPath *)
Definition nodeVNCShellPath (node : string) : string := "/nodes/" +:+ node +:+ "/vncshell".
(* go: proxmox/console/paths.go#nodeTermProxyPath *)
Definition nodeTermProxyPath (node : string) : string := "/nodes/" +:+ node +:+ "/termproxy".
(* go: proxmox/console/paths.go#vncWebSocketPath *)
Definition vncWebSocketPath (node : string) (ticket : VNCTicket) : string :=
  let q : values := <["port" := [vt_Port ticket]]> {[ "vncticket" := [vt_Ticket ticket] ]} in
  if vt_kind ticket =s "" then "/nodes/" +:+ node +:+ "/vncwebsocket?" +:+ Encode q
  else guestConsolePath node (vt_kind ticket) (vt_vmid ticket) "vncwebsocket" +:+ "?" +:+ Encode q.

(* go: proxmox/console/service.go#L14-L14:errBadKind *)
Definition errBadKind : goerr := GText "unknown guest kind (want qemu or lxc)".

(* go: proxmox/console/service.go#validKind *)
Definition validKind (kind : string) : bool := (kind =s "qemu") || (kind =s "lxc").

(** ** The service *)

Section service.
Context {W Stream : Type} `{!Client W} `{!WebSocketClient W Stream}.

(** The ticket remembers the guest it was minted for. *)
(* go: proxmox/console/tickets.go#Service.MintVNCTicket *)
Definition MintVNCTicket (node kind : string) (vmid : Z) (w : W) : W * (goerr + VNCTicket) :=
  if negb (validKind kind) then refuse (GWrap "console.MintVNCTicket" errBadKind) w else
  then_result (exchange "console.MintVNCTicket" "POST" (guestConsolePath node kind vmid "vncproxy")
                 (Some (BValues {[ "websocket" := ["1"] ]})) VNCTicket_zero VNCTicket_UnmarshalJSON w) id
    (λ t w, (w, inr {| vt_Ticket := vt_Ticket t; vt_Port := vt_Port t; vt_User := vt_User t; vt_Cert := vt_Cert t;
                       vt_UPID := vt_UPID t; vt_Extra := vt_Extra t; vt_kind := kind; vt_vmid := vmid |})).

(* go: proxmox/console/tickets.go#Service.MintSPICETicket *)
Definition MintSPICETicket (node kind : string) (vmid : Z) : W → W * (goerr + SPICETicket) :=
  if negb (validKind kind) then refuse (GWrap "console.MintSPICETicket" errBadKind) else
  exchange "console.MintSPICETicket" "POST" (guestConsolePath node kind vmid "spiceproxy") None SPICETicket_zero
    SPICETicket_UnmarshalJSON.

(* go: proxmox/console/tickets.go#Service.MintTermProxy *)
Definition MintTermProxy (node kind : string) (vmid : Z) : W → W * (goerr + TermTicket) :=
  if negb (validKind kind) then refuse (GWrap "console.MintTermProxy" errBadKind) else
  exchange "console.MintTermProxy" "POST" (guestConsolePath node kind vmid "termproxy") None TermTicket_zero
    TermTicket_UnmarshalJSON.

(* go: proxmox/console/tickets.go#Service.MintNodeVNC *)
Definition MintNodeVNC (node : string) : W → W * (goerr + VNCTicket) :=
  exchange "console.MintNodeVNC" "POST" (nodeVNCShellPath node) (Some (BValues {[ "websocket" := ["1"] ]}))
    VNCTicket_zero VNCTicket_UnmarshalJSON.

(* go: proxmox/console/tickets.go#Service.MintNodeTerm *)
Definition MintNodeTerm (node : string) : W → W * (goerr + TermTicket) :=
  exchange "console.MintNodeTerm" "POST" (nodeTermProxyPath node) None TermTicket_zero TermTicket_UnmarshalJSON.

(* go: proxmox/console/connect.go#Service.Connect *)
Definition Connect (node : string) (ticket : option VNCTicket) (w : W) : W * (goerr + option Stream) :=
  match ticket with
  | None => nil_spec "console.Connect" w
  | Some ticket =>
      if vt_Ticket ticket =s "" then missing "console.Connect: ticket" w else
      if vt_Port ticket =s "" then missing "console.Connect: port" w else
      then_result (DoWebSocket (vncWebSocketPath node ticket) w) (GWrap "console.Connect") (λ stream w, (w, inr stream))
  end.

(* go: proxmox/console/verify.go#Service.VerifyVNCTicket *)
Definition VerifyVNCTicket (node ticket : string) : W → W * (goerr + ()) :=
  refuse (GWrap ("console.VerifyVNCTicket: PVE 9.x has no standalone ticket-verify REST " +:+
    "endpoint; verify by dialling Connect") (GSentinel ErrUnsupported)).

End service.
