(* ===== verification/Root.v ===== *)
(** The root package: [api.New] and its options, and [proxmox.NewClient] with the
    services it hands out. An [http.Client] and a logger are arguments. *)

From S2P Require Import Prelude Json Pverr Api Version Url Transport TransportProofs FirewallClient Ssh.
From Stdlib Require Import ZArith Lia.
From stdpp Require Import options.

(** ** api.New *)

Section api.
Context {HTTP Logger C : Type}.

(** The client requests go through: the caller's, or one built from the options. *)
Inductive http_client :=
| Supplied (h : HTTP)
| Built (timeout : Z) (insecureSkipVerify : bool) (minTLS : Z).

(** [tls.VersionTLS12]. *)
Definition VersionTLS12 : Z := 771.

(** The no-op logger is [None]. *)
(* go: proxmox/api/transport.go#transportConfig *)
Record transportConfig := {
  tf_policy : RetryPolicy; tf_httpClient : option HTTP; tf_insecure : bool; tf_minTLS : Z; tf_requestTimeout : Z;
  tf_userAgent : string; tf_logger : option Logger; tf_extraEndpoints : list Endpoint
}.

(* go: proxmox/api/transport.go#TransportOption *)
Definition TransportOption : Type := transportConfig → transportConfig.

(** The configuration before the options. *)
Definition default_transport : transportConfig := {|
  tf_policy := DefaultRetryPolicy; tf_httpClient := None; tf_insecure := false; tf_minTLS := VersionTLS12;
  tf_requestTimeout := 0; tf_userAgent := defaultUserAgent; tf_logger := None; tf_extraEndpoints := [] |}.

(* go: proxmox/api/transport.go#WithRetryPolicy *)
Definition WithRetryPolicy (p : RetryPolicy) : TransportOption := λ c, {|
  tf_policy := p; tf_httpClient := tf_httpClient c; tf_insecure := tf_insecure c; tf_minTLS := tf_minTLS c;
  tf_requestTimeout := tf_requestTimeout c; tf_userAgent := tf_userAgent c; tf_logger := tf_logger c;
  tf_extraEndpoints := tf_extraEndpoints c |}.
(* go: proxmox/api/transport.go#WithHTTPClient *)
Definition WithHTTPClient (h : option HTTP) : TransportOption := λ c, {|
  tf_policy := tf_policy c; tf_httpClient := h; tf_insecure := tf_insecure c; tf_minTLS := tf_minTLS c;
  tf_requestTimeout := tf_requestTimeout c; tf_userAgent := tf_userAgent c; tf_logger := tf_logger c;
  tf_extraEndpoints := tf_extraEndpoints c |}.
(* go: proxmox/api/transport.go#WithInsecureSkipVerify *)
Definition WithInsecureSkipVerify (v : bool) : TransportOption := λ c, {|
  tf_policy := tf_policy c; tf_httpClient := tf_httpClient c; tf_insecure := v; tf_minTLS := tf_minTLS c;
  tf_requestTimeout := tf_requestTimeout c; tf_userAgent := tf_userAgent c; tf_logger := tf_logger c;
  tf_extraEndpoints := tf_extraEndpoints c |}.
(* go: proxmox/api/transport.go#WithMinTLS *)
Definition WithMinTLS (v : Z) : TransportOption := λ c, {|
  tf_policy := tf_policy c; tf_httpClient := tf_httpClient c; tf_insecure := tf_insecure c; tf_minTLS := v;
  tf_requestTimeout := tf_requestTimeout c; tf_userAgent := tf_userAgent c; tf_logger := tf_logger c;
  tf_extraEndpoints := tf_extraEndpoints c |}.
(* go: proxmox/api/transport.go#WithRequestTimeout *)
Definition WithRequestTimeout (d : Z) : TransportOption := λ c, {|
  tf_policy := tf_policy c; tf_httpClient := tf_httpClient c; tf_insecure := tf_insecure c; tf_minTLS := tf_minTLS c;
  tf_requestTimeout := d; tf_userAgent := tf_userAgent c; tf_logger := tf_logger c;
  tf_extraEndpoints := tf_extraEndpoints c |}.
(* go: proxmox/api/transport.go#WithUserAgent *)
Definition WithUserAgent (ua : string) : TransportOption := λ c, {|
  tf_policy := tf_policy c; tf_httpClient := tf_httpClient c; tf_insecure := tf_insecure c; tf_minTLS := tf_minTLS c;
  tf_requestTimeout := tf_requestTimeout c; tf_userAgent := ua; tf_logger := tf_logger c;
  tf_extraEndpoints := tf_extraEndpoints c |}.
(** A nil logger is ignored. *)
(* go: proxmox/api/transport.go#WithLogger *)
Definition WithLogger (l : option Logger) : TransportOption := λ c, match l with None => c | Some l => {|
  tf_policy := tf_policy c; tf_httpClient := tf_httpClient c; tf_insecure := tf_insecure c; tf_minTLS := tf_minTLS c;
  tf_requestTimeout := tf_requestTimeout c; tf_userAgent := tf_userAgent c; tf_logger := Some l;
  tf_extraEndpoints := tf_extraEndpoints c |} end.
(* go: proxmox/api/transport.go#WithClusterEndpoints *)
Definition WithClusterEndpoints (eps : list Endpoint) : TransportOption := λ c, {|
  tf_policy := tf_policy c; tf_httpClient := tf_httpClient c; tf_insecure := tf_insecure c; tf_minTLS := tf_minTLS c;
  tf_requestTimeout := tf_requestTimeout c; tf_userAgent := tf_userAgent c; tf_logger := tf_logger c;
  tf_extraEndpoints := tf_extraEndpoints c ++ eps |}.

Definition configured (opts : list TransportOption) : transportConfig := foldl (λ c opt, opt c) default_transport opts.

(** The transport, with the HTTP client and the logger it was built with. *)
(* go: proxmox/api/transport.go#New *)
Definition New (primary : string) (creds : option C) (opts : list TransportOption) :
    goerr + transport C * http_client * option Logger :=
  match creds with
  | None => inl (GText "api: nil credentials")
  | Some creds =>
      let cfg := configured opts in
      match newConnection primary (tf_extraEndpoints cfg) with
      | inl err => inl err
      | inr conn =>
          let h := match tf_httpClient cfg with
                   | Some h => Supplied h
                   | None => Built (tf_requestTimeout cfg) (tf_insecure cfg) (tf_minTLS cfg)
                   end in
          inr ({| Transport.conn := conn; Transport.creds := creds; policy := tf_policy cfg; userAgent := tf_userAgent cfg |},
               h, tf_logger cfg)
      end
  end.
End api.
Arguments http_client : clear implicits.
Arguments transportConfig : clear implicits.
Arguments TransportOption : clear implicits.

(** ** proxmox.NewClient *)

(** The root options only collect options of the transport. *)
(* go: proxmox/options.go#clientConfig *)
Definition clientConfig (HTTP Logger : Type) : Type := list (TransportOption HTTP Logger).
(* go: proxmox/options.go#Option *)
Definition Option (HTTP Logger : Type) : Type := clientConfig HTTP Logger → clientConfig HTTP Logger.

Section options.
Context {HTTP Logger : Type}.
Definition adds (o : TransportOption HTTP Logger) : Option HTTP Logger := λ c, c ++ [o].
(* go: proxmox/options.go#WithHTTPClient *)
Definition Root_WithHTTPClient (h : option HTTP) : Option HTTP Logger := adds (WithHTTPClient h).
(* go: proxmox/options.go#WithLogger *)
Definition Root_WithLogger (l : option Logger) : Option HTTP Logger :=
  match l with None => id | Some l => adds (WithLogger (Some l)) end.
(* go: proxmox/options.go#WithRequestTimeout *)
Definition Root_WithRequestTimeout (d : Z) : Option HTTP Logger := adds (WithRequestTimeout d).
(* go: proxmox/options.go#WithRetry *)
Definition WithRetry (p : RetryPolicy) : Option HTTP Logger := adds (WithRetryPolicy p).
(* go: proxmox/options.go#WithClusterEndpoints *)
Definition Root_WithClusterEndpoints (eps : list Endpoint) : Option HTTP Logger := adds (WithClusterEndpoints eps).
(* go: proxmox/options.go#WithMinTLS *)
Definition Root_WithMinTLS (v : Z) : Option HTTP Logger := adds (WithMinTLS v).
(* go: proxmox/options.go#WithInsecureSkipVerify *)
Definition Root_WithInsecureSkipVerify (v : bool) : Option HTTP Logger := adds (WithInsecureSkipVerify v).
(* go: proxmox/options.go#WithUserAgent *)
Definition Root_WithUserAgent (ua : string) : Option HTTP Logger := adds (WithUserAgent ua).
End options.

(** The struct of a service bound to a node, of one that is not, and of the
    firewall's: the client they share, and the capability snapshot. *)
(* go: proxmox/qemu/service.go#Service *)
Record NodeService (A : Type) := { ns_c : A; ns_node : string; ns_caps : Capabilities }.
(* go: proxmox/storage/service.go#Service *)
Record Service (A : Type) := { sv_c : A; sv_caps : Capabilities }.
(* go: proxmox/firewall/service.go#Service *)
Record ScopedService (A : Type) := { fs_c : A; fs_caps : Capabilities; fs_scope : scope }.
Arguments ns_c {_}. Arguments ns_node {_}. Arguments ns_caps {_}.
Arguments sv_c {_}. Arguments sv_caps {_}. Arguments fs_c {_}. Arguments fs_caps {_}. Arguments fs_scope {_}.

(** The version and task services are the client itself. *)
(* go: proxmox/proxmox.go#Client *)
Record Client (A : Type) := { rc_api : A; rc_version : A; rc_tasks : A; rc_caps : Capabilities }.
Arguments rc_api {_}. Arguments rc_version {_}. Arguments rc_tasks {_}. Arguments rc_caps {_}.

Section accessors.
Context {A : Type} (c : Client A).
(* go: proxmox/proxmox.go#Client.API *)
Definition Client_API : A := rc_api c.
(* go: proxmox/proxmox.go#Client.Version *)
Definition Client_Version : A := rc_version c.
(* go: proxmox/proxmox.go#Client.Capabilities *)
Definition Client_Capabilities : Capabilities := rc_caps c.
(* go: proxmox/proxmox.go#Client.Tasks *)
Definition Client_Tasks : A := rc_tasks c.
(* go: proxmox/qemu/service.go#NewService *)
Definition NewNodeService (api : A) (node : string) (caps : Capabilities) : NodeService A :=
  {| ns_c := api; ns_node := node; ns_caps := caps |}.
(* go: proxmox/storage/service.go#NewService *)
Definition NewService (api : A) (caps : Capabilities) : Service A := {| sv_c := api; sv_caps := caps |}.
(* go: proxmox/proxmox.go#Client.QEMU *)
Definition Client_QEMU (node : string) : NodeService A := NewNodeService (rc_api c) node (rc_caps c).
(* go: proxmox/proxmox.go#Client.LXC *)
Definition Client_LXC (node : string) : NodeService A := NewNodeService (rc_api c) node (rc_caps c).
(* go: proxmox/proxmox.go#Client.Storage *)
Definition Client_Storage : Service A := NewService (rc_api c) (rc_caps c).
(* go: proxmox/proxmox.go#Client.Nodes *)
Definition Client_Nodes : Service A := NewService (rc_api c) (rc_caps c).
(* go: proxmox/proxmox.go#Client.HA *)
Definition Client_HA : Service A := NewService (rc_api c) (rc_caps c).
(* go: proxmox/proxmox.go#Client.SDN *)
Definition Client_SDN : Service A := NewService (rc_api c) (rc_caps c).
(* go: proxmox/proxmox.go#Client.Cluster *)
Definition Client_Cluster : Service A := NewService (rc_api c) (rc_caps c).
(* go: proxmox/proxmox.go#Client.Access *)
Definition Client_Access : Service A := NewService (rc_api c) (rc_caps c).
(* go: proxmox/proxmox.go#Client.Metrics *)
Definition Client_Metrics : Service A := NewService (rc_api c) (rc_caps c).
(* go: proxmox/proxmox.go#Client.Ceph *)
Definition Client_Ceph : Service A := NewService (rc_api c) (rc_caps c).
(* go: proxmox/proxmox.go#Client.PBS *)
Definition Client_PBS : Service A := NewService (rc_api c) (rc_caps c).
(* go: proxmox/proxmox.go#Client.Console *)
Definition Client_Console : Service A := NewService (rc_api c) (rc_caps c).
(* go: proxmox/proxmox.go#Client.Firewall *)
Definition Client_Firewall : ScopedService A :=
  {| fs_c := rc_api c; fs_caps := rc_caps c; fs_scope := NewClusterScope |}.
(* go: proxmox/proxmox.go#Client.NodeFirewall *)
Definition Client_NodeFirewall (node : string) : ScopedService A :=
  {| fs_c := rc_api c; fs_caps := rc_caps c; fs_scope := NewNodeScope node |}.
(* go: proxmox/proxmox.go#Client.GuestFirewall *)
Definition Client_GuestFirewall (node kind : string) (vmid : Z) : ScopedService A :=
  {| fs_c := rc_api c; fs_caps := rc_caps c; fs_scope := NewGuestScope kind node vmid |}.
End accessors.

(** The side channel takes nothing from the client. *)
(* go: proxmox/proxmox.go#Client.SSH *)
Definition Client_SSH {A W Callback PublicKey Signer Conn Ssh Sftp : Type} (c : Client A)
    (opts : list (@Ssh.Option W Callback PublicKey Signer Conn)) :
    @Ssh.Client W Callback PublicKey Signer Conn Ssh Sftp := Ssh.NewClient opts.

Section newclient.
Context {W : Type} {WD : World W} {HTTP Logger C : Type} {CR : Credentials C}.

(** The client's transport is the one that asked for the version: it has moved on
    with the world, to another endpoint or a minted ticket. *)
(* go: proxmox/proxmox.go#NewClient *)
Definition NewClient (endpoint : string) (creds : option C) (opts : list (Option HTTP Logger)) (w : W) :
    W * (goerr + Client (transport C)) :=
  let cfg : clientConfig HTTP Logger := foldl (λ c opt, opt c) [] opts in
  match New endpoint creds cfg with
  | inl err => (w, inl err)
  | inr (t, _, _) =>
      match Service_Capabilities (t, w) with
      | ((_, w), inl err) => (w, inl err)
      | ((t, w), inr caps) => (w, inr {| rc_api := t; rc_version := t; rc_tasks := t; rc_caps := caps |})
      end
  end.

(** C23. A root client exists only for a cluster the SDK supports. Wrong arguments
    (no credentials, an address that does not parse) are refused before anything is
    sent. Otherwise GET /version is asked through the transport the options
    configure; a client is returned exactly when the answer is a version of 9.0 or
    later, which is then the capability snapshot of all its services; a version
    below is refused as unsupported. *)
Theorem NewClient_outcome endpoint (creds : option C) opts w :
  match New (HTTP := HTTP) (Logger := Logger) endpoint creds (foldl (λ c opt, opt c) [] opts) with
  | inl err => NewClient endpoint creds opts w = (w, inl err)
  | inr (t, _, _) =>
      conn_ok (conn t) ∧
      let '((t', w'), answer) := Get (t, w) in
      let '(w2, r) := NewClient endpoint creds opts w in
      w2 = w' ∧
      (∀ c, r = inr c ↔ ∃ v caps, answer = inr v ∧ Parse (pv_Version v) = Some caps ∧ AtLeast caps 9 0 = true ∧
         c = {| rc_api := t'; rc_version := t'; rc_tasks := t'; rc_caps := caps |}) ∧
      (∀ e, r = inl e → answer = inl e ∨ ∃ v, answer = inr v ∧
         (Parse (pv_Version v) = None ∨ errors_is e ErrUnsupported = true))
  end.
Proof.
  unfold NewClient. destruct (New _ _ _) as [err|[[t h] l]] eqn:En; [done|].
  assert (conn_ok (conn t)) as Hc.
  { unfold New in En. destruct creds as [cr|]; [|done].
    destruct (newConnection _ _) as [|cn] eqn:Ec; [done|]. injection En as <- <- <-.
    by apply newConnection_spec in Ec as [? _]. }
  split; [done|]. unfold Service_Capabilities, then_result. destruct (Get (t, w)) as [[t' w'] [e|v]]; cbn.
  { split; [done|]. split; [naive_solver|]. intros e' [= <-]. by left. }
  destruct (Parse (pv_Version v)) as [caps|] eqn:Hp; cbn.
  2:{ split; [done|]. split; [naive_solver|]. intros e' [= <-]. right. exists v. by split; [|left]. }
  change (AtLeast caps 9 0) with (MeetsMinimum caps) in *. destruct (MeetsMinimum caps) eqn:Hm; cbn.
  - split; [done|]. split; [|done]. intros c. split.
    + intros [= <-]. by exists v, caps.
    + intros (v' & caps' & [= <-] & Hp' & _ & ->). congruence.
  - split; [done|]. split.
    + intros c. split; [done|]. intros (v' & caps' & [= <-] & Hp' & Hmj & _). change (MeetsMinimum caps' = true) in Hmj. congruence.
    + intros e [= <-]. right. exists v. by split; [|right].
Qed.
End newclient.
