(* ===== verification/LabOps.v ===== *)
(** [cmd/pvelab/lab]: [provision.go], [template.go], [teardown.go] and the listing of
    [iso.go]. An operation acts on a world; it is [None] when the fuel of one of its
    waits runs out. Log messages are left out. *)

From S2P Require Import Prelude Json Types Pverr Api Netip Tasks Svcutil NodesClient StorageClient QemuClient LabConfig LabState.
From Stdlib Require Import ZArith Lia Ascii.
From stdpp Require Import options.
Set Default Proof Using "Type*".

(** ** Operations on a world *)

Definition act (W A : Type) : Type := W → option (W * (goerr + A)).

Section acts.
Context {W : Type}.
Definition done {A} (a : A) : act W A := λ w, Some (w, inr a).
Definition fail {A} (e : goerr) : act W A := λ w, Some (w, inl e).
(** A call that needs no fuel. *)
Definition call {A} (f : W → W * (goerr + A)) : act W A := λ w, Some (f w).
Definition and_then {A B} (m : act W A) (k : A → act W B) : act W B := λ w,
  match m w with
  | None => None
  | Some (w, inl e) => Some (w, inl e)
  | Some (w, inr a) => k a w
  end.
(** The operation with its error handed to the rest. *)
Definition outcome {A B} (m : act W A) (k : goerr + A → act W B) : act W B := λ w,
  match m w with None => None | Some (w, r) => k r w end.
(** [fmt.Errorf("msg: %w", err)] around an operation. *)
Definition wrapped {A} (msg : string) (m : act W A) : act W A :=
  outcome m (λ r, match r with inl e => fail (GWrap msg e) | inr a => done a end).
Definition lift {A} (r : goerr + A) : act W A := λ w, Some (w, r).
End acts.

Notation "'let!' x ':=' m 'in' k" := (and_then m (λ x, k)) (at level 10, x pattern, m at level 100, k at level 200).
Notation "m ';!' k" := (and_then m (λ _, k)) (at level 100, k at level 200, right associativity).

(** Contexts: [WithTimeout d] makes a context with a deadline current, which the
    calls and timers that follow observe, and [cancel] leaves it. *)
Class Contexts (W : Type) := { WithTimeout : Z → W → W; cancel : W → W }.
Definition within {W A} `{!Contexts W} (d : Z) (m : act W A) : act W A := λ w,
  match m (WithTimeout d w) with None => None | Some (w, r) => Some (cancel w, r) end.

(** [time.Now], in nanoseconds. *)
Class Clock (W : Type) := time_Now : W → W * Z.

(** Goroutines started together and awaited; the results are in the order of the
    operations, whatever the order of their steps. *)
Class Goroutines (W : Type) := go_all : ∀ {A : Type}, list (act W A) → W → option (W * list (goerr + A)).

(** The errors of a list of results. *)
Definition errors_of {A} (rs : list (goerr + A)) : list goerr :=
  omap (λ r, match r with inl e => Some e | inr _ => None end) rs.

Definition second : Z := 1000000000.
Definition minute : Z := 60 * second.
(* go: cmd/pvelab/lab/provision.go#L21-L25:readyPollInterval *)
Definition readyPollInterval : Z := 15 * second.
Definition readyPollCeiling : Z := 15 * minute.
(* go: cmd/pvelab/lab/template.go#L18-L18:templateShutdownTimeout *)
Definition templateShutdownTimeout : Z := 2 * minute.
(* go: cmd/pvelab/lab/teardown.go#L18-L18:teardownPerOp *)
Definition teardownPerOp : Z := 3 * minute.

(* go: cmd/pvelab/lab/provision.go#L30-L30:ownedNamePrefix *)
Definition ownedNamePrefix : string := "pvelab-".
(* go: cmd/pvelab/lab/provision.go#vmName *)
Definition vmName (n : Node) : string := ownedNamePrefix +:+ nd_Name n.
(* go: cmd/pvelab/lab/provision.go#smbiosSerial *)
Definition smbiosSerial (n : Node) : string := "serial=" +:+ base64 (nd_Name n) +:+ ",base64=1".

(** *** Names of the ISO and the template *)

(* go: cmd/pvelab/lab/iso.go#preparedISOName *)
Definition preparedISOName (pveVersion : string) : string := "pvelab-" +:+ pveVersion +:+ "-auto-http.iso".
(* go: cmd/pvelab/lab/iso.go#PreparedISOVolid *)
Definition PreparedISOVolid (isoStorage pveVersion : string) : string :=
  isoStorage +:+ ":iso/" +:+ preparedISOName pveVersion.

Fixpoint dashed (s : string) : string :=
  match s with "" => "" | String c s' => String (if decide (c = "."%char) then "-"%char else c) (dashed s') end.
(* go: cmd/pvelab/lab/template.go#templateNodeName *)
Definition templateNodeName (c : Config) : string := "tmpl-" +:+ dashed (n_PVEVersion (c_Nested c)).
(* go: cmd/pvelab/lab/template.go#TemplateName *)
Definition TemplateName (c : Config) : string := ownedNamePrefix +:+ templateNodeName c.

Definition with_nodes (l : list Node) (c : Config) : Config :=
  let n := c_Nested c in {|
  c_Outer := c_Outer c;
  c_Nested := {|
    n_PVEVersion := n_PVEVersion n; n_BaseISO := n_BaseISO n; n_ClusterName := n_ClusterName n; n_Domain := n_Domain n;
    n_RootPasswordEnv := n_RootPasswordEnv n; n_Gateway := n_Gateway n; n_DNS := n_DNS n; n_Cores := n_Cores n;
    n_MemoryMB := n_MemoryMB n; n_DiskGB := n_DiskGB n; n_AnswerURL := n_AnswerURL n; n_AnswerListen := n_AnswerListen n;
    n_Template := n_Template n; n_ACME := n_ACME n; n_Nodes := l |};
  c_EnvPath := c_EnvPath c; c_StatePath := c_StatePath c
|}.
(** The synthetic node of the template. *)
Definition template_node (c : Config) (t : TemplateSpec) : Node :=
  {| nd_Name := templateNodeName c; nd_VMID := t_VMID t; nd_CIDR := t_CIDR t |}.
(* go: cmd/pvelab/lab/template.go#TemplateConfig *)
Definition TemplateConfig (c : Config) : goerr + Config :=
  match n_Template (c_Nested c) with
  | None => inl (GText ("nested.template is not configured — add it (see pvelab.example.yaml) to use " +:+
                        "`pvelab template build`"))
  | Some t => inr (with_nodes [template_node c t] c)
  end.

Section ops.
Context {W : Type} `{!Client W} `{!Timers W} `{!Contexts W} `{!Clock W} `{!Goroutines W}.
(** The fuel of each wait. *)
Variable fuel : nat.

(** [c.Tasks().Wait] when only the error counts. *)
Definition await (r : Ref) : act W () := λ w,
  match Wait DefaultWaitPolicy fuel r w with
  | None => None
  | Some (w, (_, Some err)) => Some (w, inl err)
  | Some (w, (_, None)) => Some (w, inr ())
  end.

(** Starts an operation and awaits its task; [what] is the operation in messages. *)
Definition awaited (what : string) (start : W → W * (goerr + Ref)) : act W () :=
  let! ref := wrapped what (call start) in wrapped ("wait " +:+ what) (await ref).
(** The same where a zero reference is a synchronous answer. *)
Definition awaited_if (what waiting : string) (start : W → W * (goerr + Ref)) : act W () :=
  let! ref := wrapped what (call start) in
  if IsZero ref then done () else wrapped waiting (await ref).

(* go: cmd/pvelab/lab/provision.go#parallel *)
Definition parallel (fns : list (act W ())) : act W () := λ w,
  match go_all fns w with
  | None => None
  | Some (w, rs) => Some (w, match errors_join (error_text <$> errors_of rs) with Some e => inl e | None => inr () end)
  end.

(** One [probe] or query after another, [interval] apart, until one succeeds or the
    current context is done. *)
Fixpoint poll {A} (n : nat) (interval : Z) (attempt : W → W * (goerr + A)) : act W A := λ w,
  match n with
  | 0 => None
  | S n =>
      match attempt w with
      | (w, inr a) => Some (w, inr a)
      | (w, inl err) =>
          match select_timer interval w with
          | (w, Some _) => Some (w, inl err)
          | (w, None) => poll n interval attempt w
          end
      end
  end.

Variable cfg : Config.
Let outer := c_Outer cfg.
Let nested := c_Nested cfg.

(** ** Preflight *)

(* go: cmd/pvelab/lab/iso.go#isoPresent *)
Definition isoPresent (volid : string) : act W bool :=
  let! items := wrapped ("list " +:+ o_ISOStorage outer +:+ " content on " +:+ o_Node outer)
    (call (ListContent (o_Node outer) (o_ISOStorage outer) [WithContentType "iso"])) in
  done (existsb (λ it, ct_Volid it =s volid) items).

Definition isoVolid : string := PreparedISOVolid (o_ISOStorage outer) (n_PVEVersion nested).
(* go: cmd/pvelab/lab/provision.go#EnsureISOPrepared *)
Definition EnsureISOPrepared : act W () :=
  let! present := isoPresent isoVolid in
  if present then done () else
  fail (GText ("prepared ISO " +:+ isoVolid +:+ " not found on storage " +:+ o_ISOStorage outer +:+
               " — run `pvelab iso` first")).

Definition list_vms : act W (list VM) := wrapped ("list VMs on " +:+ o_Node outer) (call (List_ (o_Node outer))).

Definition taken_by (existing : gmap Z string) (n : Node) : list string :=
  match existing !! nd_VMID n with
  | Some name => ["vmid " +:+ itoa (nd_VMID n) +:+ " (node " +:+ nd_Name n +:+ ") already exists on " +:+ o_Node outer +:+
                  " as " +:+ quoted name +:+ " — run `pvelab down` first, up never adopts leftovers"]
  | None => []
  end.
(* go: cmd/pvelab/lab/provision.go#EnsureVMIDsFree *)
Definition EnsureVMIDsFree : act W () :=
  let! vms := list_vms in
  let existing : gmap Z string := foldl (λ m vm, <[v_VMID vm := v_Name vm]> m) ∅ vms in
  match errors_join (mjoin (taken_by existing <$> n_Nodes nested)) with Some e => fail e | None => done () end.

(** ** Creating and starting the nodes *)

Definition node_spec (isoVolid : string) (n : Node) : CreateSpec := {|
  cs_VMID := nd_VMID n; cs_Name := vmName n; cs_Memory := n_MemoryMB nested; cs_Cores := n_Cores nested;
  cs_Sockets := 0; cs_CPU := "host"; cs_OSType := "l26"; cs_SCSI0 := o_Storage outer +:+ ":" +:+ itoa (n_DiskGB nested);
  cs_Net0 := "virtio,bridge=" +:+ o_Bridge outer; cs_Boot := "order=scsi0;ide2"; cs_Storage := ""; cs_Start := None;
  cs_Extra := {["scsihw" := "virtio-scsi-pci"; "ide2" := isoVolid +:+ ",media=cdrom"; "smbios1" := smbiosSerial n]}
|}.
Definition vm_label (n : Node) : string := itoa (nd_VMID n) +:+ " (" +:+ nd_Name n +:+ ")".
Let nodes := n_Nodes nested.

(* go: cmd/pvelab/lab/provision.go#L93-L119:CreateNodeVMs *)
Definition create_node (isoVolid : string) (n : Node) : act W () :=
  awaited ("create vm " +:+ vm_label n) (Create (o_Node outer) (Some (node_spec isoVolid n))).
(* go: cmd/pvelab/lab/provision.go#CreateNodeVMs *)
Definition CreateNodeVMs (isoVolid : string) : act W () := parallel (create_node isoVolid <$> nodes).

(* go: cmd/pvelab/lab/provision.go#L136-L149:CloneNodeVMs *)
Definition clone_node (templateVMID : Z) (n : Node) : act W () :=
  let! ref := wrapped ("clone vm " +:+ vm_label n +:+ " from template " +:+ itoa templateVMID)
    (call (Clone (o_Node outer) templateVMID (Some {|
       cl_NewID := nd_VMID n; cl_Name := vmName n; cl_Description := ""; cl_Full := None; cl_Storage := "";
       cl_Format := ""; cl_Pool := ""; cl_SnapName := ""; cl_Target := ""; cl_Extra := ∅ |}))) in
  wrapped ("wait clone vm " +:+ vm_label n) (await ref).
(* go: cmd/pvelab/lab/provision.go#CloneNodeVMs *)
Definition CloneNodeVMs (templateVMID : Z) : act W () := parallel (clone_node templateVMID <$> nodes).

(* go: cmd/pvelab/lab/provision.go#L164-L174:StartNodeVMs *)
Definition start_node (n : Node) : act W () :=
  awaited ("start vm " +:+ vm_label n) (Start (o_Node outer) (nd_VMID n)).
(* go: cmd/pvelab/lab/provision.go#StartNodeVMs *)
Definition StartNodeVMs : act W () := parallel (start_node <$> nodes).

(** ** Readiness *)

(** The check of one endpoint; [inr] is ready. *)
Variable probe : string → W → W * (goerr + ()).

Definition time_text (d : Z) : string := itoa d +:+ "ns".
(* go: cmd/pvelab/lab/provision.go#L228-L252:waitReady *)
Definition ready_node_loop (interval ceiling : Z) (n : Node) : act W NodeReadiness :=
  let! endpoint := lift (nodeEndpoint n) in
  within ceiling (λ w,
    let '(w, started) := time_Now w in
    outcome (poll fuel interval (probe endpoint)) (λ r, match r with
      | inl _ => fail (GText ("node " +:+ nd_Name n +:+ " (" +:+ endpoint +:+ ") not ready within " +:+ time_text ceiling))
      | inr _ => λ w, let '(w, t) := time_Now w in
                 Some (w, inr {| nr_Node := nd_Name n; nr_Ready := true; nr_Elapsed := t - started |})
      end) w).
Definition not_ready (n : Node) : NodeReadiness := {| nr_Node := nd_Name n; nr_Ready := false; nr_Elapsed := 0 |}.
(** [waitReady] returns its results and its error, both. *)
(* go: cmd/pvelab/lab/provision.go#waitReady *)
Definition waitReady (interval ceiling : Z) (w : W) : option (W * (list NodeReadiness * option goerr)) :=
  match go_all (ready_node_loop interval ceiling <$> nodes) w with
  | None => None
  | Some (w, rs) =>
      Some (w, (zip_with (λ n r, match r with inr x => x | inl _ => not_ready n end) nodes rs,
                errors_join (error_text <$> errors_of rs)))
  end.
(* go: cmd/pvelab/lab/provision.go#WaitReady *)
Definition WaitReady : W → option (W * (list NodeReadiness * option goerr)) := waitReady readyPollInterval readyPollCeiling.

(** ** Teardown *)

(* go: cmd/pvelab/lab/teardown.go#TeardownOptions *)
Record TeardownOptions := { Force : bool; PurgeISOs : bool }.
Variable opts : TeardownOptions.

(* go: cmd/pvelab/lab/teardown.go#L24-L24:ErrNotOurs *)
Definition ErrNotOurs : goerr := GText "refusing to touch a VM the harness does not own".

(* go: cmd/pvelab/lab/teardown.go#checkOwnership *)
Definition checkOwnership (vmid : Z) : act W () :=
  if ((vmid <? vmidRangeLo) || (vmidRangeHi <? vmid))%Z then
    fail (GWrap ("vmid " +:+ itoa vmid +:+ " is outside the reserved pvelab block " +:+ span_text vmidRangeLo vmidRangeHi)
            ErrNotOurs)
  else
    let! vmCfg := wrapped ("read vm " +:+ itoa vmid +:+ " config before delete")
      (call (Service_Config (o_Node outer) vmid)) in
    if has_prefix (cf_Name vmCfg) ownedNamePrefix then done ()
    else fail (GWrap ("vm " +:+ itoa vmid +:+ " is named " +:+ quoted (cf_Name vmCfg) +:+ ", not " +:+
                      quoted ownedNamePrefix +:+ "-prefixed") ErrNotOurs).

(** The context of the stop is left before the one of the delete is made; in the
    code it is cancelled later, unused. *)
(* go: cmd/pvelab/lab/teardown.go#teardownNode *)
Definition teardownNode (n : Node) : act W () :=
  outcome (checkOwnership (nd_VMID n)) (λ r, match r with
  | inl err => if Force opts && IsNotFound err then done () else fail err
  | inr _ =>
      outcome (within teardownPerOp (let! ref := call (Stop (o_Node outer) (nd_VMID n) []) in await ref)) (λ _,
      within teardownPerOp (
        outcome (call (Delete (o_Node outer) (nd_VMID n))) (λ r, match r with
        | inl err => if Force opts && IsNotFound err then done ()
                     else fail (GWrap ("delete vm " +:+ vm_label n) err)
        | inr ref => wrapped ("wait delete vm " +:+ vm_label n) (await ref)
        end)))
  end).

(* go: cmd/pvelab/lab/teardown.go#purgeISO *)
Definition purgeISO : act W () :=
  within teardownPerOp (
    outcome (call (DeleteVolume (o_Node outer) (o_ISOStorage outer) isoVolid)) (λ r, match r with
    | inl err => if Force opts && IsNotFound err then done () else fail (GWrap ("purge prepared ISO " +:+ isoVolid) err)
    | inr ref => if IsZero ref then done () else wrapped ("wait purge of " +:+ isoVolid) (await ref)
    end)).

(* go: cmd/pvelab/lab/teardown.go#Teardown *)
Definition Teardown : act W () :=
  outcome (parallel (teardownNode <$> n_Nodes nested)) (λ r,
    if PurgeISOs opts then
      outcome purgeISO (λ p,
        match errors_join (error_text <$> errors_of [r; p]) with Some e => fail e | None => done () end)
    else lift r).

(** ** The template *)

(* go: cmd/pvelab/lab/template.go#FindTemplate *)
Definition FindTemplate : act W (option VM) :=
  let! vms := list_vms in done (snd <$> list_find (λ vm, v_Name vm = TemplateName cfg) vms).

(* go: cmd/pvelab/lab/template.go#deleteTemplateVM *)
Definition deleteTemplateVM (vm : VM) : act W () :=
  let vmid := v_VMID vm in
  (if v_Status vm =s "running" then
     awaited ("stop leftover template vm " +:+ itoa vmid) (Stop (o_Node outer) vmid [])
   else done ()) ;!
  awaited ("delete template vm " +:+ itoa vmid) (Delete (o_Node outer) vmid).

(** The loop over the listing. *)
Fixpoint free_slot (force : bool) (tnode : Node) (vms : list VM) : act W () :=
  match vms with
  | [] => done ()
  | vm :: vms =>
      if v_Name vm =s TemplateName cfg then
        if negb force then
          fail (GText ("template " +:+ TemplateName cfg +:+ " already exists (vmid " +:+ itoa (v_VMID vm) +:+
            ") — pass -force to rebuild (conversion is one-way, there is no in-place refresh)"))
        else deleteTemplateVM vm ;! free_slot force tnode vms
      else if (v_VMID vm =? nd_VMID tnode)%Z then
        fail (GText ("vmid " +:+ itoa (nd_VMID tnode) +:+ " already exists on " +:+ o_Node outer +:+ " as " +:+
          quoted (v_Name vm) +:+ " — not this version's template, refusing to touch it"))
      else free_slot force tnode vms
  end.
(* go: cmd/pvelab/lab/template.go#ensureTemplateSlotFree *)
Definition ensureTemplateSlotFree (force : bool) (tnode : Node) : act W () :=
  let! vms := list_vms in free_slot force tnode vms.

(* go: cmd/pvelab/lab/template.go#finalizeTemplate *)
Definition finalizeTemplate (tnode : Node) : act W () :=
  let vmid := nd_VMID tnode in
  awaited ("shutdown template vm " +:+ itoa vmid)
    (Shutdown (o_Node outer) vmid [WithShutdownTimeout templateShutdownTimeout; WithForceStop]) ;!
  awaited_if ("detach installer ISO from vm " +:+ itoa vmid) ("wait detach installer ISO from vm " +:+ itoa vmid)
    (SetConfig (o_Node outer) vmid (Some (delete_keys "ide2"))) ;!
  awaited_if ("convert vm " +:+ itoa vmid +:+ " to template") ("wait convert vm " +:+ itoa vmid +:+ " to template")
    (ConvertToTemplate (o_Node outer) vmid []).
End ops.

(** [buildTemplate]: the steps that provision run on the template's configuration. *)
Section template.
Context {W : Type} `{!Client W} `{!Timers W} `{!Contexts W} `{!Clock W} `{!Goroutines W}.
Variable fuel : nat.
Variable cfg : Config.
Variable probe : string → W → W * (goerr + ()).

(* go: cmd/pvelab/lab/template.go#buildTemplate *)
Definition buildTemplate (force : bool) (interval ceiling : Z) : act W () :=
  let! tcfg := lift (TemplateConfig cfg) in
  match n_Nodes (c_Nested tcfg) with
  | [] => done ()
  | tnode :: _ =>
      ensureTemplateSlotFree fuel cfg force tnode ;!
      EnsureISOPrepared cfg ;!
      CreateNodeVMs fuel tcfg (isoVolid cfg) ;!
      StartNodeVMs fuel tcfg ;!
      outcome (λ w, match waitReady fuel tcfg probe interval ceiling w with
                    | None => None
                    | Some (w, (_, Some err)) => Some (w, inl err)
                    | Some (w, (_, None)) => Some (w, inr ())
                    end) lift ;!
      finalizeTemplate fuel cfg tnode
  end.
(* go: cmd/pvelab/lab/template.go#BuildTemplate *)
Definition BuildTemplate (force : bool) : act W () := buildTemplate force readyPollInterval readyPollCeiling.
End template.
