(* ===== verification/LabCluster.v ===== *)
(** [cmd/pvelab/lab/cluster.go], [iso.go] and [reidentify.go]: forming the cluster,
    preparing the installer ISO, and giving clones their identities. Sessions with
    nested nodes and shells are records of operations, as in the code, where the
    tests pass fakes; the sessions over the SSH client are the end of the file. *)

From S2P Require Import Ssh.
From S2P Require Import Prelude Json Types Pverr Api Url Netip Tasks Svcutil NodesClient StorageClient QemuClient ClusterClient.
From S2P Require Import LabConfig LabState LabOps.
From Stdlib Require Import ZArith Lia Ascii.
From stdpp Require Import options.
Set Default Proof Using "Type*".

(** ** Cluster formation *)

(* go: cmd/pvelab/lab/cluster.go#L20-L24:memberPollInterval *)
Definition memberPollInterval : Z := 5 * second.
Definition joinConvergeCeiling : Z := 3 * minute.
Definition quorumCeiling : Z := 3 * minute.

(** The operations of [cluster.API] that formation uses. *)
Record ClusterAPI (W : Type) := {
  api_CreateCluster : option ClusterCreateSpec → W → W * (goerr + ());
  api_JoinInfo : W → W * (goerr + JoinInfo);
  api_JoinCluster : option JoinSpec → W → W * (goerr + ());
  api_ListConfigNodes : W → W * (goerr + list ConfigNode);
  api_GetStatus : W → W * (goerr + list StatusEntry)
}.
Arguments api_CreateCluster {_} _.
Arguments api_JoinInfo {_} _.
Arguments api_JoinCluster {_} _.
Arguments api_ListConfigNodes {_} _.
Arguments api_GetStatus {_} _.

(** The service of a client is one. *)
Definition service_api {W} (C : Client W) : ClusterAPI W := {|
  api_CreateCluster := CreateCluster; api_JoinInfo := Service_JoinInfo; api_JoinCluster := JoinCluster;
  api_ListConfigNodes := ListConfigNodes; api_GetStatus := GetStatus
|}.

(* go: cmd/pvelab/lab/cluster.go#clusterDialer *)
Definition clusterDialer (W : Type) : Type := string → W → W * (goerr + ClusterAPI W).

(** [new_client endpoint] is [proxmox.NewClient] with the root password, certificate
    checks off and the probe's request timeout. *)
(* go: cmd/pvelab/lab/cluster.go#nestedClusterDialer *)
Definition nestedClusterDialer {W} (new_client : string → W → W * (goerr + Client W)) : clusterDialer W := λ endpoint w,
  match new_client endpoint w with
  | (w, inl err) => (w, inl err)
  | (w, inr C) => (w, inr (service_api C))
  end.
(** The probe keeps only the error. *)
(* go: cmd/pvelab/lab/provision.go#versionProbe *)
Definition versionProbe {W} (new_client : string → W → W * (goerr + Client W)) (endpoint : string) (w : W) : W * (goerr + ()) :=
  match new_client endpoint w with
  | (w, inl err) => (w, inl err)
  | (w, inr _) => (w, inr ())
  end.

Section formation.
Context {W : Type} `{!Timers W} `{!Contexts W}.
Variable fuel : nat.
Variable dial : clusterDialer W.

(* go: cmd/pvelab/lab/cluster.go#memberPresent *)
Definition memberPresent (endpoint member : string) (w : W) : W * (goerr + bool) :=
  match dial endpoint w with
  | (w, inl err) => (w, inl err)
  | (w, inr svc) =>
      match api_ListConfigNodes svc w with
      | (w, inl err) => (w, inl err)
      | (w, inr members) => (w, inr (existsb (λ m, NodeName m =s member) members))
      end
  end.

(** One entry: the cluster entry decides [clusterOK], online nodes are counted. *)
Definition status_entry (want : Z) (acc : bool * Z) (e : StatusEntry) : bool * Z :=
  if se_Type e =s "cluster" then (se_Quorate e && (want <=? se_Nodes e)%Z, acc.2)
  else if se_Type e =s "node" then (acc.1, if se_Online e then (acc.2 + 1)%Z else acc.2)
  else acc.
Definition is_quorate (want : Z) (entries : list StatusEntry) : bool :=
  let '(clusterOK, online) := foldl (status_entry want) (false, 0%Z) entries in clusterOK && (want <=? online)%Z.
(* go: cmd/pvelab/lab/cluster.go#quorate *)
Definition quorate (endpoint : string) (want : Z) (w : W) : W * (goerr + bool) :=
  match dial endpoint w with
  | (w, inl err) => (w, inl err)
  | (w, inr svc) =>
      match api_GetStatus svc w with
      | (w, inl err) => (w, inl err)
      | (w, inr entries) => (w, inr (is_quorate want entries))
      end
  end.

(** A poll goes on while the answer is an error or false. *)
Definition until_true (f : W → W * (goerr + bool)) (w : W) : W * (goerr + ()) :=
  match f w with
  | (w, inl err) => (w, inl err)
  | (w, inr false) => (w, inl (GText "not yet"))
  | (w, inr true) => (w, inr ())
  end.
(** What a poll that gave up reports. *)
Definition gave_up (e : goerr) (m : act W ()) : act W () :=
  outcome m (λ r, match r with inl _ => fail e | inr a => done a end).

(* go: cmd/pvelab/lab/cluster.go#waitForMember *)
Definition waitForMember (endpoint member : string) (interval ceiling : Z) : act W () :=
  gave_up (GText ("member " +:+ member +:+ " not in the corosync nodelist at " +:+ endpoint +:+ " within " +:+ time_text ceiling))
    (within ceiling (poll fuel interval (until_true (memberPresent endpoint member)))).
(* go: cmd/pvelab/lab/cluster.go#waitForQuorum *)
Definition waitForQuorum (endpoint : string) (want : Z) (interval ceiling : Z) : act W () :=
  gave_up (GText ("cluster not quorate with " +:+ itoa want +:+ " nodes online within " +:+ time_text ceiling))
    (within ceiling (poll fuel interval (until_true (quorate endpoint want)))).

Variables interval joinCeiling quorumBound : Z.
Variables firstEndpoint firstIP rootPassword : string.

(** The error of the join request is only logged. *)
(* go: cmd/pvelab/lab/cluster.go#joinNode *)
Definition joinNode (fingerprint : string) (n : Node) : act W () :=
  let! endpoint := lift (nodeEndpoint n) in
  let! joinSvc := wrapped ("dial " +:+ nd_Name n +:+ " (" +:+ endpoint +:+ ")") (call (dial endpoint)) in
  outcome (call (api_JoinCluster joinSvc (Some {|
      js_Hostname := firstIP; js_Password := rootPassword; js_Fingerprint := fingerprint; js_Force := None;
      js_Extra := ∅ |}))) (λ _,
  wrapped ("node " +:+ nd_Name n +:+ " never appeared in the cluster membership")
    (waitForMember firstEndpoint (nd_Name n) interval joinCeiling)).

(** The joins of the nodes after the first; [i] is the loop's index. *)
(* go: cmd/pvelab/lab/cluster.go#L106-L126:formCluster *)
Fixpoint join_all (fingerprint : string) (i : Z) (l : list Node) : act W () :=
  match l with
  | [] => done ()
  | n :: l =>
      joinNode fingerprint n ;!
      waitForQuorum firstEndpoint (i + 2) interval quorumBound ;!
      join_all fingerprint (i + 1) l
  end.
End formation.

Section form.
Context {W : Type} `{!Timers W} `{!Contexts W}.
Variable fuel : nat.
Variable dial : clusterDialer W.

(** A configuration without nodes makes [nodes[0]] panic: [None]. *)
(* go: cmd/pvelab/lab/cluster.go#formCluster *)
Definition formCluster (cfg : Config) (rootPassword : string) (interval joinCeiling quorumBound : Z) : act W () :=
  match n_Nodes (c_Nested cfg) with
  | [] => λ _, None
  | first :: rest =>
      let! firstEndpoint := lift (nodeEndpoint first) in
      let! firstIP := lift (Node_IP first) in
      let dial_first := wrapped ("dial " +:+ nd_Name first +:+ " (" +:+ firstEndpoint +:+ ")") (call (dial firstEndpoint)) in
      let! svc := dial_first in
      wrapped ("create cluster on " +:+ nd_Name first)
        (call (api_CreateCluster svc (Some {| cc_Name := n_ClusterName (c_Nested cfg); cc_Extra := ∅ |}))) ;!
      waitForMember fuel dial firstEndpoint (nd_Name first) interval joinCeiling ;!
      let! svc := dial_first in
      let! info := wrapped ("join-info from " +:+ nd_Name first) (call (api_JoinInfo svc)) in
      if Fingerprint info =s "" then
        fail (GText ("join-info from " +:+ nd_Name first +:+ " carries no certificate fingerprint"))
      else join_all fuel dial interval joinCeiling quorumBound firstEndpoint firstIP rootPassword (Fingerprint info) 0 rest
  end.
(* go: cmd/pvelab/lab/cluster.go#FormCluster *)
Definition FormCluster (cfg : Config) (rootPassword : string) : act W () :=
  formCluster cfg rootPassword memberPollInterval joinConvergeCeiling quorumCeiling.
End form.

(** ** The installer ISO *)

(** [Exec] of a shell: the output and the error. *)
(* go: cmd/pvelab/lab/iso.go#execer *)
Definition execer (W : Type) : Type := string → W → W * (string * option goerr).

(** [path.Clean] on the segments of a path: empty and [.] segments go, and [..]
    removes the segment before it, or is kept at the start of a relative path. *)
Fixpoint clean_segments (rooted : bool) (out : list string) (l : list string) : list string :=
  match l with
  | [] => reverse out
  | s :: l =>
      if (s =s "") || (s =s ".") then clean_segments rooted out l
      else if s =s ".." then
        match out with
        | x :: out' => if x =s ".." then clean_segments rooted (s :: out) l else clean_segments rooted out' l
        | [] => clean_segments rooted (if rooted then [] else [s]) l
        end
      else clean_segments rooted (s :: out) l
  end.
Definition path_Clean (p : string) : string :=
  if p =s "" then "." else
  let rooted := has_prefix p "/" in
  let body := join "/" (clean_segments rooted [] (split_byte "/" p)) in
  if rooted then "/" +:+ body else if body =s "" then "." else body.
(** Up to and with the last slash, cleaned. *)
Definition path_Dir (p : string) : string :=
  path_Clean (match cut_last "/" p with Some (d, _) => d +:+ "/" | None => "" end).
Definition path_Join (a b : string) : string :=
  match filter (λ s, s ≠ "") [a; b] with [] => "" | l => path_Clean (join "/" l) end.

Example path_dir_join : path_Join (path_Dir "/var/lib/vz/template/iso/base.iso") "x.iso" = "/var/lib/vz/template/iso/x.iso".
Proof. reflexivity. Qed.
Example path_clean_dots : path_Clean "a//b/../../../c/." = "../c". Proof. reflexivity. Qed.
Example path_clean_root : path_Clean "/../a" = "/a". Proof. reflexivity. Qed.
Example path_dir_plain : path_Dir "base.iso" = ".". Proof. reflexivity. Qed.

(* go: cmd/pvelab/lab/iso.go#truncateOutput *)
Definition truncateOutput (b : string) : string :=
  if 2048 <? String.length b then String.substring 0 2048 b +:+ "… (truncated)" else b.

Section iso.
Context {W : Type} `{!Client W}.
Variable exec : execer W.
Variable cfg : Config.
Let nested := c_Nested cfg.

(** A command whose failure carries its output. *)
Definition run_command (cmd : string) (describe : string → goerr → goerr) : act W () := λ w,
  match exec cmd w with
  | (w, (out, Some err)) => Some (w, inl (describe out err))
  | (w, (_, None)) => Some (w, inr ())
  end.

(* go: cmd/pvelab/lab/iso.go#L26-L26:assistantPackages *)
Definition assistantPackages : string := "proxmox-auto-install-assistant xorriso".
(* go: cmd/pvelab/lab/iso.go#ensureAssistant *)
Definition ensureAssistant : act W () := λ w,
  match exec "command -v proxmox-auto-install-assistant >/dev/null && command -v xorriso >/dev/null" w with
  | (w, (_, None)) => Some (w, inr ())
  | (w, (_, Some _)) =>
      run_command ("apt-get install -y " +:+ assistantPackages)
        (λ out err, GWrap ("apt-get install " +:+ assistantPackages +:+ ": " +:+ error_text err +:+ " (output: " +:+
           truncateOutput out +:+ ") — install manually on the outer host and re-run `pvelab iso`") err) w
  end.

Definition prepared_path : string := path_Join (path_Dir (n_BaseISO nested)) (preparedISOName (n_PVEVersion nested)).
Definition prepare_command : string :=
  "proxmox-auto-install-assistant prepare-iso " +:+ shellQuote (n_BaseISO nested) +:+ " --fetch-from http --url " +:+
  shellQuote (n_AnswerURL nested) +:+ " --output " +:+ shellQuote prepared_path.
(* go: cmd/pvelab/lab/iso.go#PrepareISO *)
Definition PrepareISO : act W string :=
  let! present := isoPresent cfg (isoVolid cfg) in
  if present : bool then done (isoVolid cfg) else
  ensureAssistant ;!
  run_command prepare_command (λ out err,
    GWrap ("prepare-iso: " +:+ error_text err +:+ " (output: " +:+ truncateOutput out +:+ ")") err) ;!
  let! present := isoPresent cfg (isoVolid cfg) in
  if present : bool then done (isoVolid cfg) else
  fail (GText ("prepare-iso succeeded but " +:+ isoVolid cfg +:+ " is not visible on storage " +:+
    o_ISOStorage (c_Outer cfg) +:+ " — is nested.base_iso (" +:+ n_BaseISO nested +:+
    ") inside that storage's iso directory?")).
End iso.

(** ** Giving clones their identities *)

(* go: cmd/pvelab/lab/reidentify.go#L23-L27:cloneDialInterval *)
Definition cloneDialInterval : Z := 5 * second.
Definition cloneReadyCeiling : Z := 5 * minute.

(* go: cmd/pvelab/lab/reidentify.go#cloneSession *)
Record cloneSession (W : Type) := { sess_Exec : execer W; sess_Close : W → W * option goerr }.
Arguments sess_Exec {_} _.
Arguments sess_Close {_} _.
(* go: cmd/pvelab/lab/reidentify.go#cloneDialer *)
Definition cloneDialer (W : Type) : Type := string → W → W * (goerr + cloneSession W).

(* go: cmd/pvelab/lab/reidentify.go#reidentifyScript *)
Definition reidentifyScript (oldName oldIP oldCIDR : string) (n : Node) (newIP : string) : string :=
  join (bytes [10]) [
    "set -e";
    "hostnamectl set-hostname " +:+ nd_Name n;
    "sed -i 's/" +:+ oldIP +:+ "/" +:+ newIP +:+ "/g; s/" +:+ oldName +:+ "/" +:+ nd_Name n +:+ "/g' /etc/hosts";
    "sed -i 's|address " +:+ oldCIDR +:+ "|address " +:+ nd_CIDR n +:+ "|' /etc/network/interfaces";
    "rm -f /etc/ssh/ssh_host_*";
    "ssh-keygen -A";
    "mv /etc/pve/nodes/" +:+ oldName +:+ " /etc/pve/nodes/" +:+ nd_Name n +:+ " || true"].

(** The host key callback: the first key seen is pinned; a key is its type and its
    bytes. *)
(* go: cmd/pvelab/lab/reidentify.go#tofuHostKeyCallback *)
Definition tofuHostKeyCallback (hostname : string) (key : string * string) (pinned : option (string * string)) :
    option (string * string) * option goerr :=
  match pinned with
  | None => (Some key, None)
  | Some p =>
      if decide (p = key) then (pinned, None)
      else (pinned, Some (GText ("clone at " +:+ hostname +:+
              " presented a host key that differs from the template's first-seen key (" +:+ key.1 +:+ ")")))
  end.

Section reidentify.
Context {W : Type} `{!Client W} `{!Timers W} `{!Contexts W} `{!Clock W}.
Variable fuel : nat.
Variable cfg : Config.
Variable dial : cloneDialer W.
Variable probe : string → W → W * (goerr + ()).
Variables interval ceiling : Z.

(* go: cmd/pvelab/lab/reidentify.go#dialWithRetry *)
Definition dialWithRetry (n : Node) (host : string) : act W (cloneSession W) :=
  wrapped ("clone " +:+ nd_Name n +:+ " never became SSH-able at the template address " +:+ host +:+ " within " +:+
           time_text ceiling)
    (within ceiling (poll fuel interval (dial host))).

(* go: cmd/pvelab/lab/reidentify.go#awaitEndpoint *)
Definition awaitEndpoint (endpoint node : string) : act W () :=
  wrapped ("node " +:+ node +:+ " (" +:+ endpoint +:+ ") not ready within " +:+ time_text ceiling +:+ " after re-identify")
    (within ceiling (poll fuel interval (probe endpoint))).

(** The session is closed on every way out; the error of closing is only logged. *)
Definition closing {A} (sess : cloneSession W) (m : act W A) : act W A :=
  outcome m (λ r w, let '(w, _) := sess_Close sess w in Some (w, r)).

(** The template is configured when this runs. *)
(* go: cmd/pvelab/lab/reidentify.go#reidentifyOne *)
Definition reidentifyOne (t : TemplateSpec) (oldName templateIP : string) (n : Node) : act W () :=
  let! newIP := lift (Node_IP n) in
  let! sess := dialWithRetry n templateIP in
  closing sess (
    run_command (sess_Exec sess) (reidentifyScript oldName templateIP (t_CIDR t) n newIP)
      (λ out err, GWrap ("re-identify clone " +:+ nd_Name n +:+ ": " +:+ error_text err +:+ " (output: " +:+ out +:+ ")") err) ;!
    λ w, let '(w, _) := sess_Exec sess "reboot" w in Some (w, inr ())).

(** One clone, up to the readiness of its own endpoint. *)
Definition reidentify_node (t : TemplateSpec) (oldName templateIP : string) (n : Node) : act W NodeReadiness := λ w,
  let '(w, started) := time_Now w in
  (let! ref := wrapped ("start clone " +:+ vm_label n) (call (Start (o_Node (c_Outer cfg)) (nd_VMID n))) in
   wrapped ("wait start clone " +:+ vm_label n) (await fuel ref) ;!
   reidentifyOne t oldName templateIP n ;!
   let! endpoint := lift (nodeEndpoint n) in
   awaitEndpoint endpoint (nd_Name n) ;!
   λ w, let '(w, t) := time_Now w in
        Some (w, inr {| nr_Node := nd_Name n; nr_Ready := true; nr_Elapsed := t - started |})) w.

(** A node that is not reached keeps the zero value of its result. *)
Definition untouched : NodeReadiness := {| nr_Node := ""; nr_Ready := false; nr_Elapsed := 0 |}.
Fixpoint reidentify_loop (t : TemplateSpec) (oldName templateIP : string) (l : list Node) (w : W) :
    option (W * (list NodeReadiness * option goerr)) :=
  match l with
  | [] => Some (w, ([], None))
  | n :: l =>
      match reidentify_node t oldName templateIP n w with
      | None => None
      | Some (w, inl err) => Some (w, (not_ready n :: ((λ _, untouched) <$> l), Some err))
      | Some (w, inr r) =>
          match reidentify_loop t oldName templateIP l w with
          | None => None
          | Some (w, (rs, err)) => Some (w, (r :: rs, err))
          end
      end
  end.
(* go: cmd/pvelab/lab/reidentify.go#reidentifyClones *)
Definition reidentifyClones (w : W) : option (W * (list NodeReadiness * option goerr)) :=
  match n_Template (c_Nested cfg) with
  | None => Some (w, ([], Some (GText ("nested.template is not configured — the clone path needs its CIDR " +:+
                                       "(the template's boot address)"))))
  | Some t =>
      match ParsePrefix (t_CIDR t) with
      | None => Some (w, ([], Some (GWrap "nested.template.cidr" netip_error)))
      | Some p => reidentify_loop t (templateNodeName cfg) (Addr_String (pf_Addr p)) (n_Nodes (c_Nested cfg)) w
      end
  end.
End reidentify.

(* go: cmd/pvelab/lab/reidentify.go#ReidentifyClones *)
Definition ReidentifyClones {W} `{!Client W} `{!Timers W} `{!Contexts W} `{!Clock W} (fuel : nat) (cfg : Config)
    (dial : cloneDialer W) (new_client : string → W → W * (goerr + Client W)) (w : W) :
    option (W * (list NodeReadiness * option goerr)) :=
  reidentifyClones fuel cfg dial (versionProbe new_client) cloneDialInterval cloneReadyCeiling w.

(** * Reaching a host over SSH, on the client of [Ssh] *)

(** ** Paths: [filepath.Clean] and [filepath.Join] on Unix *)

Definition slash : ascii := "/".
Definition clean_step (rooted : bool) (out : list string) (elem : string) : list string :=
  if (elem =s "") || (elem =s ".") then out
  else if elem =s ".." then
    match out with
    | [] => if rooted then [] else [".."]
    | top :: rest => if top =s ".." then ".." :: out else rest
    end
  else elem :: out.

(** The elements that [filepath.Clean] keeps, in reverse. *)
Definition clean_elems (rooted : bool) (elems : list string) : list string :=
  foldl (clean_step rooted) [] elems.

Definition Clean (path : string) : string :=
  let rooted := has_prefix path "/" in
  let text := join "/" (reverse (clean_elems rooted (split_byte slash path))) in
  if rooted then "/" +:+ text else if text =s "" then "." else text.

(** The leading empty elements are skipped. *)
Fixpoint filepath_Join (elem : list string) : string :=
  match elem with
  | [] => ""
  | e :: rest => if e =s "" then filepath_Join rest else Clean (join "/" elem)
  end.

Example Clean_cases :
  Clean "" = "." ∧ Clean "a//b/./c/../d/" = "a/b/d" ∧ Clean "/../a" = "/a" ∧ Clean "../../a/.." = "../.." ∧
  filepath_Join ["/root"; "/.ssh/known_hosts"] = "/root/.ssh/known_hosts" ∧ filepath_Join [""; ""; "a"] = "a".
Proof. vm_compute. done. Qed.

(** ** Options *)

(** [os.UserHomeDir] on Unix. *)
Definition UserHomeDir (env : gmap string string) : goerr + string :=
  let home := Getenv env "HOME" in
  if home =s "" then inl (GText "$HOME is not defined") else inr home.

(* go: cmd/pvelab/lab/config.go#expandHome *)
Definition expandHome (env : gmap string string) (p : string) : string :=
  if (p =s "~") || has_prefix p "~/" then
    match UserHomeDir env with
    | inr home => filepath_Join [home; trim_prefix p "~"]
    | inl _ => p
    end
  else p.

Section ssh.
Context {W Callback PublicKey Signer Conn SshC Sftp Session : Type}.
Context `{!Gossh W Callback PublicKey Signer, !SshNet W Callback Signer Conn SshC Sftp Session}.
Variable env : gmap string string.
(** [os.ReadFile]. *)
Variable os_ReadFile : string → W → W * (goerr + string).

Notation Opt := (Ssh.Option (W:=W) (Callback:=Callback) (PublicKey:=PublicKey) (Signer:=Signer) (Conn:=Conn)).
Notation SClient :=
  (Ssh.Client (W:=W) (Callback:=Callback) (PublicKey:=PublicKey) (Signer:=Signer) (Conn:=Conn) (Ssh:=SshC) (Sftp:=Sftp)).

(* go: cmd/pvelab/lab/config.go#Config.SSHOptions *)
Definition SSHOptions (c : Config) : act W (list Opt) :=
  let s := o_SSH (c_Outer c) in
  let opts := [WithUser (s_User s); WithKnownHostsFile (expandHome env (s_KnownHosts s))] in
  let! opts := (if s_KeyFile s <>s "" then
                  let! pem := wrapped "read outer.ssh.key_file" (call (os_ReadFile (expandHome env (s_KeyFile s)))) in
                  done (opts ++ [WithPrivateKey pem])
                else done opts) in
  done (if s_PasswordEnv s <>s "" then opts ++ [WithPassword (Getenv env (s_PasswordEnv s))] else opts).

(** A connected client as the session its callers use. *)
Definition session_of (sc : SClient) : cloneSession W := {|
  sess_Exec := λ cmd w, Exec cmd sc w;
  sess_Close := λ w, let '(w, _, err) := Close sc w in (w, err)
|}.
(** [Connect] on a fresh client. *)
Definition dial_ssh (opts : list Opt) : cloneDialer W := λ host w,
  match Connect host (Ssh.NewClient opts) w with
  | (w, _, Some err) => (w, inl err)
  | (w, sc, None) => (w, inr (session_of sc))
  end.

(** The callback is the value of [tofuHostKeyCallback], shared by the dials of a run. *)
(* go: cmd/pvelab/lab/reidentify.go#nestedCloneDialer *)
Definition nestedCloneDialer (hostKey : Callback) (rootPassword : string) : cloneDialer W :=
  dial_ssh [WithUser "root"; WithPassword rootPassword; WithHostKeyCallback hostKey].
End ssh.
