(* ===== verification/LabAnswers.v ===== *)
(** [cmd/pvelab/lab/answers.go]: the server that gives each installer the answer
    file of its node. Log messages are left out, and net and [net/http] are the class
    [AnswerNet]. *)

From S2P Require Import Prelude Pverr NodesClient LabConfig.
From Stdlib Require Import ZArith Lia Ascii Sorted Permutation.
From stdpp Require Import sorting options.

(** ** The answer file *)

(* go: cmd/pvelab/lab/answers.go#answerData *)
Record answerData := { ad_FQDN : string; ad_CIDR : string; ad_Gateway : string; ad_DNS : string; ad_RootPassword : string }.

(** A line of the template with a value in double quotes. *)
Definition toml (key value : string) : string := key +:+ " = " +:+ quoted value.
(* go: cmd/pvelab/lab/answer.toml.tmpl#L1-L25:answerTemplate *)
Definition answer_text (d : answerData) : string :=
  Prelude.join (bytes [10]) [
    "# pvelab auto-install answer file, rendered per node by the embedded answer";
    "# server (IMPL-0002 IQ-2 = a). Keep in sync with the Phase 0 spike template";
    "# hack/pvelab-spike/answer-pve1.toml.tmpl (validated clean on assistant";
    "# v9.2.7). The rendered form carries the root password — it is served over";
    "# the answer URL during installs and never written to disk.";
    "";
    "[global]";
    toml "keyboard" "en-us";
    toml "country" "us";
    toml "fqdn" (ad_FQDN d);
    toml "mailto" "root@localhost";
    toml "timezone" "UTC";
    toml "root-password" (ad_RootPassword d);
    "reboot-on-error = false";
    "";
    "[network]";
    toml "source" "from-answer";
    toml "cidr" (ad_CIDR d);
    toml "gateway" (ad_Gateway d);
    toml "dns" (ad_DNS d);
    toml "filter.ID_NET_NAME_MAC" "*";
    "";
    "[disk-setup]";
    toml "filesystem" "ext4";
    "disk-list = [" +:+ quoted "sda" +:+ "]"; ""].

(** Executing the template on the record cannot fail. *)
(* go: cmd/pvelab/lab/answers.go#RenderAnswer *)
Definition RenderAnswer (cfg : Config) (node : Node) (rootPassword : string) : string :=
  answer_text {| ad_FQDN := FQDN node (n_Domain (c_Nested cfg)); ad_CIDR := nd_CIDR node;
                 ad_Gateway := n_Gateway (c_Nested cfg); ad_DNS := n_DNS (c_Nested cfg); ad_RootPassword := rootPassword |}.

(** ** Matching a request to a node *)

(** [sort.Slice] under a comparison [less]: the order of elements neither of which is
    less is open. *)
Class SortSlice := sort_Slice : ∀ {A}, (A → A → bool) → list A → list A.
Record strict_order {A} (less : A → A → bool) : Prop := {
  less_irrefl x : less x x = false;
  less_trans x y z : less x y = true → less y z = true → less x z = true;
  less_cotrans x y z : less x z = true → less x y = true ∨ less y z = true
}.
Class LawfulSort `{!SortSlice} : Prop := {
  sort_Slice_perm {A} (less : A → A → bool) l : sort_Slice less l ≡ₚ l;
  sort_Slice_sorted {A} (less : A → A → bool) l :
    strict_order less → StronglySorted (λ x y, less y x = false) (sort_Slice less l)
}.
Definition longer (x y : Node) : bool := String.length (nd_Name y) <? String.length (nd_Name x).

(** What identifies a node in a request. *)
Definition identifies (body serialParam : string) (n : Node) : bool :=
  (serialParam =s nd_Name n) || contains body (nd_Name n) || contains body (base64 (nd_Name n)).
(** The loop over the sorted nodes. *)
Definition match_sorted (nodes : list Node) (body serialParam : string) : option Node :=
  snd <$> list_find (λ n, identifies body serialParam n = true) nodes.
(* go: cmd/pvelab/lab/answers.go#AnswerServer.matchNode *)
Definition matchNode `{!SortSlice} (cfg : Config) (body serialParam : string) : option Node :=
  match_sorted (sort_Slice longer (n_Nodes (c_Nested cfg))) body serialParam.

(** ** The server *)

(** The nodes that have fetched an answer, with the time of the first one. *)
(* go: cmd/pvelab/lab/answers.go#AnswerServer *)
Record AnswerServer := { as_cfg : Config; as_rootPassword : string; as_served : gmap string Z }.
(* go: cmd/pvelab/lab/answers.go#NewAnswerServer *)
Definition NewAnswerServer (cfg : Config) (rootPassword : string) : AnswerServer :=
  {| as_cfg := cfg; as_rootPassword := rootPassword; as_served := ∅ |}.
(* go: cmd/pvelab/lab/answers.go#AnswerServer.Served *)
Definition Served (s : AnswerServer) : gmap string Z := as_served s.

(* go: cmd/pvelab/lab/answers.go#L55-L55:maxAnswerBody *)
Definition maxAnswerBody : nat := 2 ^ 20.
(** The body as it arrives, [None] when reading it fails; the time is [time.Now]. *)
(* go: cmd/pvelab/lab/answers.go#AnswerServer.ServeHTTP *)
Definition AnswerServer_ServeHTTP `{!SortSlice} (body : option string) (serial : string) (now : Z) (s : AnswerServer) :
    AnswerServer * (Z * string) :=
  match body with
  | None => (s, (400%Z, "read body" +:+ bytes [10]))
  | Some body =>
      match matchNode (as_cfg s) (String.substring 0 maxAnswerBody body) serial with
      | None => (s, (404%Z, "no matching node" +:+ bytes [10]))
      | Some node =>
          ({| as_cfg := as_cfg s; as_rootPassword := as_rootPassword s;
              as_served := if bool_decide (is_Some (as_served s !! nd_Name node)) then as_served s
                           else <[nd_Name node := now]> (as_served s) |},
           (200%Z, RenderAnswer (as_cfg s) node (as_rootPassword s)))
      end
  end.

(** What the server needs of net and [net/http]: binding an address, which answers
    with the one it got; the goroutine that serves a handler; the graceful shutdown
    within the current context; and the first of the goroutine's end and the end of
    that context. *)
Class AnswerNet (W : Type) := {
  Listen : string → W → W * (goerr + string);
  go_Serve : AnswerServer → W → W;
  http_Shutdown : W → W * option goerr;
  await_done : W → W * option ctx_error
}.

(** The address and the HTTP server that [Start] sets. *)
Record serving := { sv_addr : option string; sv_srv : bool }.
Definition not_serving : serving := {| sv_addr := None; sv_srv := false |}.

(* go: cmd/pvelab/lab/answers.go#AnswerServer.Start *)
Definition AnswerServer_Start {W} `{!AnswerNet W} (s : AnswerServer) (w : W) : W * (goerr + serving) :=
  let listen := n_AnswerListen (c_Nested (as_cfg s)) in
  match Listen listen w with
  | (w, inl err) => (w, inl (GWrap ("answer server listen " +:+ listen) err))
  | (w, inr addr) => (go_Serve s w, inr {| sv_addr := Some addr; sv_srv := true |})
  end.
(* go: cmd/pvelab/lab/answers.go#AnswerServer.Addr *)
Definition AnswerServer_Addr (v : serving) : string := default "" (sv_addr v).
(* go: cmd/pvelab/lab/answers.go#AnswerServer.Shutdown *)
Definition AnswerServer_Shutdown {W} `{!AnswerNet W} (v : serving) (w : W) : W * option goerr :=
  if negb (sv_srv v) then (w, None) else
  let '(w, err) := http_Shutdown w in
  match await_done w with
  | (w, None) => (w, err)
  | (w, Some c) => (w, Some (match err with None => GCtx c | Some e => GJoin e (GCtx c) end))
  end.

(* go: cmd/pvelab/lab/answers.go#truncateBytes *)
Definition truncateBytes (b : string) (n : nat) : string := String.substring 0 n b.

(** ** Properties *)

Lemma longer_strict : strict_order longer.
Proof. split; unfold longer; intros; rewrite ?Nat.ltb_lt, ?Nat.ltb_ge in *; lia. Qed.

(** No later node has a longer name. *)
Definition descending : list Node → Prop := StronglySorted (λ x y, longer y x = false).

Lemma sorted_lookup nodes i j n m :
  descending nodes → nodes !! i = Some n → nodes !! j = Some m → i < j → longer m n = false.
Proof.
  intros Hs. revert i j. induction Hs as [|x nodes _ IH Hall]; intros i j Hi Hj Hlt; [done|].
  destruct j as [|j]; [lia|]. destruct i as [|i]; cbn in *.
  - simplify_eq. rewrite Forall_forall in Hall. apply Hall. by eapply list_elem_of_lookup_2.
  - apply (IH i j); [done..|lia].
Qed.

Lemma first_longest nodes body serial n :
  match_sorted nodes body serial = Some n → descending nodes →
  n ∈ nodes ∧ identifies body serial n = true ∧
  ∀ m, m ∈ nodes → identifies body serial m = true → String.length (nd_Name m) ≤ String.length (nd_Name n).
Proof.
  unfold match_sorted. intros Hf Hs. apply fmap_Some in Hf as ((i & n') & Hf & ->). cbn.
  apply list_find_Some in Hf as (Hi & Hn & Hbefore). split_and!; [by eapply list_elem_of_lookup_2|done|].
  intros m Hm Hid. apply list_elem_of_lookup in Hm as [j Hj].
  destruct (decide (j < i)) as [Hlt|Hge]; [by destruct (Hbefore j m Hj Hlt)|].
  destruct (decide (j = i)) as [->|Hne]; [by simplify_eq|].
  apply Nat.ltb_ge. change (longer m n' = false). eapply sorted_lookup; [exact Hs|exact Hi|exact Hj|lia].
Qed.

Lemma no_node_matches nodes body serial :
  match_sorted nodes body serial = None → ∀ m, m ∈ nodes → identifies body serial m = false.
Proof.
  unfold match_sorted. intros Hf m Hm. apply fmap_None, list_find_None in Hf.
  rewrite Forall_forall in Hf. specialize (Hf m Hm). by destruct (identifies body serial m).
Qed.

(** C15. The installer of a node gets that node's answer. Whatever [sort.Slice] does with
    names of one length, a request (its body cut at the cap) is answered with the
    rendered answer of a configured node it identifies, by the serial parameter, or by
    the name or its base64 form in the body, and no node it identifies has a longer
    name, so a node whose name is part of another's never takes its answer; the first
    time of each node is recorded, and only of nodes that were answered. When the
    request identifies no configured node, and only then, the answer is 404 and nothing
    is recorded. *)
Theorem match_longest `{!SortSlice} `{!LawfulSort} body serial now s :
  let nodes := n_Nodes (c_Nested (as_cfg s)) in
  let read := String.substring 0 maxAnswerBody body in
  let '(s', (code, text)) := AnswerServer_ServeHTTP (Some body) serial now s in
  as_cfg s' = as_cfg s ∧ as_rootPassword s' = as_rootPassword s ∧
  ((code = 404%Z ∧ as_served s' = as_served s ∧ ∀ m, m ∈ nodes → identifies read serial m = false) ∨
   code = 200%Z ∧ ∃ n, n ∈ nodes ∧ identifies read serial n = true ∧
     (∀ m, m ∈ nodes → identifies read serial m = true → String.length (nd_Name m) ≤ String.length (nd_Name n)) ∧
     text = RenderAnswer (as_cfg s) n (as_rootPassword s) ∧
     as_served s' = as_served s ∪ {[nd_Name n := now]}).
Proof.
  cbv zeta. unfold AnswerServer_ServeHTTP, matchNode. set (read := String.substring 0 maxAnswerBody body).
  pose proof (sort_Slice_perm longer (n_Nodes (c_Nested (as_cfg s)))) as Hp.
  pose proof (sort_Slice_sorted longer (n_Nodes (c_Nested (as_cfg s))) longer_strict) as Hs.
  destruct (match_sorted _ read serial) as [n|] eqn:E.
  - apply first_longest in E as (Hin & Hid & Hmax); [|done]. setoid_rewrite Hp in Hin. setoid_rewrite Hp in Hmax.
    cbn [as_cfg as_rootPassword as_served]. split_and!; [done..|]. right. split; [done|]. exists n. split_and!; [done..|].
    apply map_eq. intros k. rewrite lookup_union. case_bool_decide as Hserved.
    + destruct (decide (k = nd_Name n)) as [->|Hne]; [|by rewrite lookup_singleton_ne by done; destruct (as_served s !! k)].
      destruct Hserved as [t ->]. by rewrite lookup_singleton_eq.
    + destruct (decide (k = nd_Name n)) as [->|Hne].
      * rewrite lookup_insert_eq, lookup_singleton_eq. apply eq_None_not_Some in Hserved. by rewrite Hserved.
      * rewrite lookup_insert_ne, lookup_singleton_ne by done. by destruct (as_served s !! k).
  - split_and!; [done..|]. left. split_and!; [done..|]. setoid_rewrite <- Hp. by apply no_node_matches.
Qed.

(** A stable sort, and a lab in which the name listed first is part of the other one. *)
Definition not_less {A} (less : A → A → bool) (x y : A) : Prop := less y x = false.
#[local] Instance not_less_dec {A} (less : A → A → bool) x y : Decision (not_less less x y).
Proof. unfold not_less. apply _. Defined.
#[local] Instance merge_Slice : SortSlice := λ A less l, merge_sort (not_less less) l.
#[local] Instance merge_Slice_lawful : LawfulSort.
Proof.
  split; intros A less l; [apply merge_sort_Permutation|]. intros Hless.
  assert (Transitive (not_less less)).
  { intros x y z. unfold not_less. intros Hxy Hyz. destruct (less z x) eqn:E; [|done].
    destruct (less_cotrans _ Hless z y x E); congruence. }
  assert (Total (not_less less)).
  { intros x y. unfold not_less. destruct (less y x) eqn:E; [|by left]. right. destruct (less x y) eqn:E'; [|done].
    pose proof (less_irrefl _ Hless x). pose proof (less_trans _ Hless x y x E' E). congruence. }
  exact (StronglySorted_merge_sort (not_less less) l).
Qed.
Definition prefix_lab : Config := with_lab_nodes [lab_node "pve" 9201 "192.168.7.1/24"; lab_node "pve-b" 9202 "192.168.7.2/24"].
Lemma match_longest_witness :
  let s := NewAnswerServer prefix_lab "pw" in
  let out := AnswerServer_ServeHTTP (Some "{serial: pve-b}") "" 5%Z s in
  out.2.1 = 200%Z ∧ as_served out.1 = {["pve-b" := 5%Z]} ∧
  out.2.2 = RenderAnswer prefix_lab (lab_node "pve-b" 9202 "192.168.7.2/24") "pw".
Proof.
  intros s out. assert (out.2.1 = 200%Z) as Hcode by (vm_compute; reflexivity). split; [exact Hcode|].
  pose proof (match_longest "{serial: pve-b}" "" 5%Z s) as H. cbv zeta in H. fold out in H.
  destruct out as [s' [code text]]. cbn [fst snd] in *. destruct H as (_ & _ & [[Hc _]|(_ & n & Hn & _ & Hmax & -> & ->)]).
  { congruence. }
  apply elem_of_cons in Hn as [->|Hn]; [|apply list_elem_of_singleton in Hn as ->; split; reflexivity].
  exfalso. specialize (Hmax (lab_node "pve-b" 9202 "192.168.7.2/24")). cbn in Hmax.
  assert (5 ≤ 3) as Hle by (apply Hmax; [right; left|vm_compute; reflexivity]). lia.
Defined.
