(* ===== verification/LabMain.v ===== *)
(** [cmd/pvelab/main.go]: the subcommands with the staged provisioning that
    records every stage in the state file, and the command line that runs them. *)

From S2P Require Import Prelude Json Types Pverr Api Netip Tasks Svcutil NodesClient StorageClient QemuClient ClusterClient.
From S2P Require Import Strconv Ssh.
From S2P Require Import Api LabConfig LabState LabOps LabCluster LabAnswers.
From Stdlib Require Import ZArith Lia Ascii Floats.SpecFloat.
From stdpp Require Import options.
Set Default Proof Using "Type*".

(** What the program needs of its surroundings: [connect] is [proxmox.NewClient] for
    the outer host, whose requests are then the [Client] of the world; [new_client]
    is a session with a nested node; [detached_timeout] makes a context current that
    has a deadline and the values, but not the cancellation, of the current one; the
    rest is the operating system. *)
Class Surroundings (W : Type) := {
  connect : string → string * string → bool → W → W * option goerr;
  new_client : string (* password *) → string → W → W * (goerr + Client W);
  InterfaceAddrs : W → W * (goerr + list string);
  LookupHost : string → W → W * (goerr + list string);
  detached_timeout : Z → W → W;
  print_text : string → W → W
}.

(** *** Formatting *)

(** [%.0f]. *)
Definition fmt_f0 (f : spec_float) : string :=
  match f with
  | S754_zero s => if s then "-0" else "0"
  | S754_infinity s => if s then "-Inf" else "+Inf"
  | S754_nan => "NaN"
  | S754_finite s m e =>
      (if s then "-" else "") +:+
      itoa (if (0 <=? e)%Z then Z.shiftl (Zpos m) e else round_even (Zpos m) (- e))
  end.
Example fmt_f0_half : fmt_f0 (Seconds 244500000000) = "244" ∧ fmt_f0 (Seconds 245500000000) = "246" ∧
  fmt_f0 (Seconds 499000000) = "0" ∧ fmt_f0 (Seconds 600000000000) = "600".
Proof. vm_compute. done. Qed.

Section commands.
Context {W : Type} `{!Client W} `{!Timers W} `{!Contexts W} `{!Clock W} `{!Goroutines W} `{!Files W} `{!AnswerNet W} `{!Surroundings W}.
Context {Callback PublicKey Signer Conn SshC Sftp Session : Type}.
Context `{!Gossh W Callback PublicKey Signer, !SshNet W Callback Signer Conn SshC Sftp Session}.
Variable fuel : nat.
Variable env : gmap string string.

Definition lifted (f : W → W * option goerr) : act W () := λ w,
  let '(w, e) := f w in Some (w, match e with Some err => inl err | None => inr () end).

(** [m] with a deferred call: it runs on every way out and its error is only logged. *)
Definition deferred {A} (m : act W A) (f : W → W * option goerr) : act W A :=
  outcome m (λ r w, let '(w, _) := f w in Some (w, r)).

(** ** Preflight *)

(* go: cmd/pvelab/lab/answerurl.go#localAddrs *)
Definition localAddrs : act W (list Addr) :=
  let! ifaceAddrs := wrapped "read local interface addresses" (call InterfaceAddrs) in
  done (pf_Addr <$> omap ParsePrefix ifaceAddrs).

(** The resolver is asked for the host the URL names, when it is not an address. *)
(* go: cmd/pvelab/lab/answerurl.go#Config.CheckAnswerURLLocal *)
Definition CheckAnswerURLLocal (cfg : Config) : act W () :=
  let! local := localAddrs in λ w,
  let url := n_AnswerURL (c_Nested cfg) in
  let '(w, answer) := match Url.url_parse url with
    | Some u => match ParseAddr (Url.Hostname u) with
                | None => if Url.Hostname u =s "" then (w, inr []) else LookupHost (Url.Hostname u) w
                | Some _ => (w, inr [])
                end
    | None => (w, inr [])
    end in
  Some (w, match checkAnswerURLHost (λ _, answer) url local with Some err => inl err | None => inr () end).

(* go: cmd/pvelab/main.go#outerClient *)
Definition outerClient (cfg : Config) : act W () :=
  match OuterCredentials env cfg with
  | inl err => fail err
  | inr creds => lifted (connect (o_Endpoint (c_Outer cfg)) creds (o_InsecureTLS (c_Outer cfg)))
  end.

(** The warnings are left out. *)
(* go: cmd/pvelab/main.go#cloneSource *)
Definition cloneSource (cfg : Config) : act W (option Z) :=
  let! tvm := FindTemplate cfg in
  done (match tvm with
        | Some vm => if v_Template vm && bool_decide (is_Some (n_Template (c_Nested cfg))) then Some (v_VMID vm) else None
        | None => None
        end).

(** ** The stages *)

Definition update (cfg : Config) (mutate : State → State) : act W () :=
  let! _ := call (UpdateState (c_StatePath cfg) mutate) in done ().

Definition map_nodes (f : NodeState → NodeState) (st : State) : State := set_nodes (f <$> st_Nodes st) st.
Definition mark_created (n : NodeState) : NodeState :=
  {| ns_Name := ns_Name n; ns_VMID := ns_VMID n; ns_CIDR := ns_CIDR n; ns_Created := true; ns_Started := ns_Started n;
     ns_Ready := ns_Ready n; ns_ReadySeconds := ns_ReadySeconds n |}.
Definition mark_started (n : NodeState) : NodeState :=
  {| ns_Name := ns_Name n; ns_VMID := ns_VMID n; ns_CIDR := ns_CIDR n; ns_Created := ns_Created n; ns_Started := true;
     ns_Ready := ns_Ready n; ns_ReadySeconds := ns_ReadySeconds n |}.
Definition set_clustered (st : State) : State :=
  {| st_SchemaVersion := st_SchemaVersion st; st_CreatedAt := st_CreatedAt st; st_ClusterName := st_ClusterName st;
     st_PVEVersion := st_PVEVersion st; st_ISOVolid := st_ISOVolid st; st_Clustered := true; st_Nodes := st_Nodes st |}.
Definition begin_state (cfg : Config) (iso : option string) (st : State) : State :=
  SeedNodes (n_Nodes (c_Nested cfg)) {|
    st_SchemaVersion := st_SchemaVersion st; st_CreatedAt := st_CreatedAt st;
    st_ClusterName := n_ClusterName (c_Nested cfg); st_PVEVersion := n_PVEVersion (c_Nested cfg);
    st_ISOVolid := default (st_ISOVolid st) iso; st_Clustered := st_Clustered st; st_Nodes := st_Nodes st |}.
(** The loop of the clone path: the entry at the position of a ready result. *)
Definition start_ready (rs : list NodeReadiness) (st : State) : State :=
  foldl (λ st i, match rs !! i with
                 | Some r => if nr_Ready r then set_nodes (alter mark_started i (st_Nodes st)) st else st
                 | None => st
                 end) st (seq 0 (length rs)).

(** The stage that measures: its results are recorded also when it fails, and the
    first of its errors is the result. *)
Definition measured (cfg : Config) (measure : W → option (W * (list NodeReadiness * option goerr)))
    (record : list NodeReadiness → State → State) : act W () := λ w,
  match measure w with
  | None => None
  | Some (w, (rs, err)) =>
      outcome (update cfg (record rs)) (λ r, match r, err with
        | inl e, None => fail e
        | inl e, Some err => match errors_join (error_text <$> [err; e]) with Some e => fail e | None => done () end
        | inr _, Some err => fail err
        | inr _, None => done ()
        end) w
  end.

Definition form (cfg : Config) (rootPW : string) : act W () :=
  FormCluster fuel (nestedClusterDialer (new_client rootPW)) cfg rootPW ;! update cfg set_clustered.

(* go: cmd/pvelab/main.go#provisionLab *)
Definition provisionLab (cfg : Config) (iso rootPW : string) : act W () :=
  update cfg (begin_state cfg (Some iso)) ;!
  CreateNodeVMs fuel cfg iso ;!
  update cfg (map_nodes mark_created) ;!
  StartNodeVMs fuel cfg ;!
  update cfg (map_nodes mark_started) ;!
  measured cfg (WaitReady fuel cfg (versionProbe (new_client rootPW))) ApplyReadiness ;!
  form cfg rootPW.

(** The deferred shutdown of the answer server. *)
(* go: cmd/pvelab/main.go#L289-L297:stop_answers *)
Definition stop_answers (answers : serving) (w : W) : W * option goerr :=
  let '(w, err) := AnswerServer_Shutdown answers (detached_timeout (10 * second) w) in (cancel w, err).

(* go: cmd/pvelab/main.go#upViaISO *)
Definition upViaISO (cfg : Config) (rootPW : string) : act W () :=
  EnsureISOPrepared cfg ;!
  let! answers := call (AnswerServer_Start (NewAnswerServer cfg rootPW)) in
  deferred (provisionLab cfg (isoVolid cfg) rootPW) (stop_answers answers).

(** The SSH channel to the clones is their own, pinned by [hostKey], the value of
    [tofuHostKeyCallback] that [nestedCloneDialer] makes. *)
(* go: cmd/pvelab/main.go#upViaClone *)
Definition upViaClone (hostKey : Callback) (cfg : Config) (templateVMID : Z) (rootPW : string) : act W () :=
  update cfg (begin_state cfg None) ;!
  CloneNodeVMs fuel cfg templateVMID ;!
  update cfg (map_nodes mark_created) ;!
  measured cfg (ReidentifyClones fuel cfg (nestedCloneDialer hostKey rootPW) (new_client rootPW))
    (λ rs st, ApplyReadiness rs (start_ready rs st)) ;!
  form cfg rootPW.

(** ** Commands *)

(** [lab.LoadConfig] of the command's [-config] flag. *)
Variable load : goerr + Config.

(* go: cmd/pvelab/main.go#cmdUp *)
Definition cmdUp (hostKey : Callback) : act W () :=
  let! cfg := lift load in
  outerClient cfg ;!
  EnsureVMIDsFree cfg ;!
  CheckAnswerURLLocal cfg ;!
  let rootPW := Getenv env (n_RootPasswordEnv (c_Nested cfg)) in
  let! source := cloneSource cfg in
  (match source with Some vmid => upViaClone hostKey cfg vmid rootPW | None => upViaISO cfg rootPW end) ;!
  let! e := lift (NewEnvFile cfg rootPW) in
  lifted (WriteEnvFile (c_EnvPath cfg) e).

(* go: cmd/pvelab/main.go#cmdISO *)
Definition cmdISO (os_ReadFile : string → W → W * (goerr + string)) : act W () :=
  let! cfg := lift load in
  outerClient cfg ;!
  let! sshOpts := SSHOptions env os_ReadFile cfg in
  let! host := lift (OuterHost cfg) in
  let! sc := wrapped ("ssh connect to outer host " +:+ host) (call (dial_ssh sshOpts host)) in
  let! volid := deferred (PrepareISO (sess_Exec sc) cfg) (sess_Close sc) in
  λ w, Some (print_text (volid +:+ bytes [10]) w, inr ()).

(* go: cmd/pvelab/main.go#cmdTemplateBuild *)
Definition cmdTemplateBuild (force : bool) : act W () :=
  let! cfg := lift load in
  outerClient cfg ;!
  let! tcfg := lift (TemplateConfig cfg) in
  let rootPW := Getenv env (n_RootPasswordEnv (c_Nested cfg)) in
  let! answers := call (AnswerServer_Start (NewAnswerServer tcfg rootPW)) in
  deferred (BuildTemplate fuel cfg (versionProbe (new_client rootPW)) force) (stop_answers answers).

(** A file that cannot be removed is only warned about. *)
Definition remove_quietly (path : string) (w : W) : W := (RemoveFile path w).1.
(* go: cmd/pvelab/main.go#cmdDown *)
Definition cmdDown (opts : TeardownOptions) (noState : bool) : act W () :=
  let! cfg := lift load in
  outerClient cfg ;!
  Teardown fuel cfg opts ;!
  λ w, Some (if noState then w else remove_quietly (c_EnvPath cfg) (remove_quietly (c_StatePath cfg) w), inr ()).

Definition status_line (st : option State) (n : Node) (outer : string) : string :=
  let readiness := match st with
    | None => "readiness unknown (no state file)"
    | Some st => match FindNode (nd_Name n) st with
                 | Some ns => if ns_Ready ns then "ready (install took " +:+ fmt_f0 (ns_ReadySeconds ns) +:+ "s)" else "not ready"
                 | None => "not ready"
                 end
    end in
  let tab := bytes [9] in
  nd_Name n +:+ tab +:+ "vmid=" +:+ itoa (nd_VMID n) +:+ tab +:+ "outer=" +:+ outer +:+ tab +:+ readiness +:+ bytes [10].
Definition print_status (cfg : Config) (st : option State) (w : W) (n : Node) : W :=
  let '(w, vm) := Get (o_Node (c_Outer cfg)) (nd_VMID n) w in
  print_text (status_line st n (match vm with inr vm => vs_Status vm | inl _ => "absent" end)) w.
(* go: cmd/pvelab/main.go#cmdStatus *)
Definition cmdStatus : act W () :=
  let! cfg := lift load in
  outerClient cfg ;! λ w,
  let '(w, r) := LoadState (c_StatePath cfg) w in
  match r with
  | inl (Some err) => Some (w, inl err)
  | _ =>
      let st := match r with inr st => Some st | inl _ => None end in
      let w := foldl (print_status cfg st) w (n_Nodes (c_Nested cfg)) in
      Some (match st with
            | Some st => if st_Clustered st then
                           print_text ("cluster" +:+ bytes [9] +:+ st_ClusterName st +:+ bytes [9] +:+
                             "formed (quorate at up)" +:+ bytes [10]) w
                         else w
            | None => w
            end, inr ())
  end.

(* go: cmd/pvelab/main.go#cmdEnv *)
Definition cmdEnv : act W () :=
  let! cfg := lift load in
  let! e := lift (NewEnvFile cfg (Getenv env (n_RootPasswordEnv (c_Nested cfg)))) in
  λ w, Some (print_text (RenderEnv e) w, inr ()).
End commands.

(** ** A stale state file

    [SeedNodes] keeps the entries of an earlier run in their order, and the clone
    path marks started nodes by position, so after the nodes of a configuration are
    reordered (and [down -no-state] kept the file) the mark is on the wrong node. *)
Definition seeded_in (l : list Node) : State := SeedNodes l State_zero.
Definition readiness (l : list (string * bool)) : list NodeReadiness :=
  (λ '(n, r), {| nr_Node := n; nr_Ready := r; nr_Elapsed := 0 |}) <$> l.
Example started_by_position :
  let stale := SeedNodes (reverse three_nodes) (seeded_in three_nodes) in
  let st := start_ready (readiness [("pve3", true); ("pve2", false); ("pve1", false)]) stale in
  (λ n, (ns_Name n, ns_Started n)) <$> st_Nodes st = [("pve1", true); ("pve2", false); ("pve3", false)].
Proof. vm_compute. reflexivity. Qed.

(** * The command line

    From its arguments to its exit code. Usage texts and logs, on standard error, are
    left out. *)

(** How a command fails: on its flags, or on its way. *)
Inductive command_error := Flags (e : parse_error) | Failed (e : goerr).
(** [errors.Is(err, flag.ErrHelp)]: no command wraps the errors of its flags. *)
Definition is_help (e : command_error) : bool := match e with Flags Help => true | _ => false end.

(* go: cmd/pvelab/main.go#configFlag *)
Definition configFlag : string * value := ("config", VString "pvelab.yaml").

Section cli.
Context {W : Type} `{!Client W} `{!Timers W} `{!Contexts W} `{!Clock W} `{!Goroutines W} `{!Files W} `{!AnswerNet W} `{!Surroundings W}.
Context {Callback PublicKey Signer Conn SshC Sftp Session : Type}.
Context `{!Gossh W Callback PublicKey Signer, !SshNet W Callback Signer Conn SshC Sftp Session}.
Variable fuel : nat.
Variable env : gmap string string.
(** The YAML decoder, the files a configuration is read from, [os.ReadFile], and the
    value of [tofuHostKeyCallback]. *)
Variable decode : string → string + Config.
Variable files : gmap string string.
Variable os_ReadFile : string → W → W * (goerr + string).
Variable hostKey : Callback.
(** [debug.ReadBuildInfo]: the module's version, when there is build information. *)
Variable build_info : option string.

(* go: cmd/pvelab/main.go#buildVersion *)
Definition buildVersion : string :=
  match build_info with Some v => if v <>s "" then v else "(devel)" | None => "(devel)" end.

Definition command : Type := list string → W → option (W * option command_error).

(** A command declares its flags, parses its arguments, and runs. *)
Definition with_flags (fs : flags) (run : flags → act W ()) : command := λ args w,
  match Parse fs args with
  | inl err => Some (w, Some (Flags err))
  | inr (fs, _) =>
      match run fs w with
      | None => None
      | Some (w, inl err) => Some (w, Some (Failed err))
      | Some (w, inr _) => Some (w, None)
      end
  end.
Definition loaded (fs : flags) : goerr + Config := LoadConfig decode files env (string_flag "config" fs).

(* go: cmd/pvelab/main.go#L131-L136:iso_command *)
Definition iso_command : command := with_flags [configFlag] (λ fs, cmdISO env (loaded fs) os_ReadFile).
(* go: cmd/pvelab/main.go#L200-L205:up_command *)
Definition up_command : command := with_flags [configFlag] (λ fs, cmdUp fuel env (loaded fs) hostKey).
(* go: cmd/pvelab/main.go#L472-L480:down_command *)
Definition down_command : command :=
  with_flags [configFlag; ("force", VBool false); ("no-state", VBool false); ("purge-isos", VBool false)] (λ fs,
    cmdDown fuel env (loaded fs) {| Force := bool_flag "force" fs; PurgeISOs := bool_flag "purge-isos" fs |}
      (bool_flag "no-state" fs)).
(* go: cmd/pvelab/main.go#L510-L515:status_command *)
Definition status_command : command := with_flags [configFlag] (λ fs, cmdStatus env (loaded fs)).
(* go: cmd/pvelab/main.go#L555-L560:env_command *)
Definition env_command : command := with_flags [configFlag] (λ fs, cmdEnv env (loaded fs)).
(* go: cmd/pvelab/main.go#L428-L434:template_build_command *)
Definition template_build_command : command :=
  with_flags [configFlag; ("force", VBool false)] (λ fs, cmdTemplateBuild fuel env (loaded fs) (bool_flag "force" fs)).

(* go: cmd/pvelab/main.go#cmdTemplate *)
Definition cmdTemplate : command := λ args w,
  match args with
  | sub :: rest => if sub <>s "build" then Some (w, Some (Flags Help)) else template_build_command rest w
  | [] => Some (w, Some (Flags Help))
  end.

Definition command_of (cmd : string) : option command :=
  if cmd =s "iso" then Some iso_command
  else if cmd =s "up" then Some up_command
  else if cmd =s "down" then Some down_command
  else if cmd =s "status" then Some status_command
  else if cmd =s "env" then Some env_command
  else if cmd =s "template" then Some cmdTemplate
  else if bool_decide (cmd ∈ ["version"; "-version"; "--version"]) then
    Some (λ _ w, Some (print_text ("pvelab " +:+ buildVersion +:+ bytes [10]) w, None))
  else if bool_decide (cmd ∈ ["help"; "-h"; "-help"; "--help"]) then Some (λ _ w, Some (w, None))
  else None.

(* go: cmd/pvelab/main.go#run *)
Definition run (args : list string) (w : W) : option (W * Z) :=
  match args with
  | [] => Some (w, 2%Z)
  | cmd :: rest =>
      match command_of cmd with
      | None => Some (w, 2%Z)
      | Some command =>
          match command rest w with
          | None => None
          | Some (w, Some err) => Some (w, if is_help err then 2%Z else 1%Z)
          | Some (w, None) => Some (w, 0%Z)
          end
      end
  end.

(** ** What a command line does *)

(** The process's exit for what a command returned. *)
Definition exit_code {A} (r : goerr + A) : Z := match r with inl _ => 1 | inr _ => 0 end.

(** Every combination of settings of [down] reaches the teardown as it was written;
    of a setting given twice the last counts ([Parse_flag_text]). *)
Theorem down_settings config force no_state purge w :
  run ("down" :: (flag_text <$> [("purge-isos", VBool purge); ("config", VString config); ("no-state", VBool no_state);
                                 ("force", VBool force)])) w =
  (λ '(w, r), (w, exit_code r)) <$>
    cmdDown fuel env (LoadConfig decode files env config) {| Force := force; PurgeISOs := purge |} no_state w.
Proof.
  unfold run. change (command_of "down") with (Some down_command). cbv beta iota. unfold down_command, with_flags.
  rewrite <- (app_nil_r (flag_text <$> _)), Parse_flag_text.
  2: { repeat constructor; eexists; split; reflexivity. }
  cbn [Parse set_all foldl]. cbv beta iota.
  change (loaded _) with (LoadConfig decode files env config).
  change (bool_flag "force" _) with force. change (bool_flag "purge-isos" _) with purge.
  change (bool_flag "no-state" _) with no_state.
  by destruct (cmdDown _ _ _ _ _ w) as [[w' [e|[]]]|].
Qed.

(** A configuration that cannot be loaded stops every command before its first effect. *)
Theorem unloadable_config_is_inert cmd config err w :
  cmd ∈ [["iso"]; ["up"]; ["down"]; ["status"]; ["env"]; ["template"; "build"]] →
  LoadConfig decode files env config = inl err →
  run (cmd ++ ["-config"; config]) w = Some (w, 1%Z).
Proof.
  intros Hcmd Hload.
  assert (∀ fs body, (∀ fs', loaded fs' = inl err → body fs' w = Some (w, inl err)) →
    with_flags (configFlag :: fs) body ["-config"; config] w = Some (w, Some (Failed err))) as Hwith.
  { intros fs body Hbody. unfold with_flags, configFlag.
    rewrite (Parse_two "config" "pvelab.yaml" config) by done. cbn [Parse]. by rewrite Hbody. }
  assert (∀ c body, command_of c = Some body → ∀ args, body args w = Some (w, Some (Failed err)) →
    run (c :: args) w = Some (w, 1%Z)) as Hrun.
  { intros c body Hc args Hbody. unfold run. by rewrite Hc, Hbody. }
  repeat (apply elem_of_cons in Hcmd as [->|Hcmd]; [cbn [app]; eapply Hrun; [reflexivity|]|]);
    [..|change (template_build_command ["-config"; config] w = Some (w, Some (Failed err)))|by apply not_elem_of_nil in Hcmd].
  all: unfold iso_command, up_command, down_command, status_command, env_command, template_build_command.
  all: rewrite Hwith; [done|]; intros fs' Hl; unfold cmdISO, cmdUp, cmdDown, cmdStatus, cmdEnv, cmdTemplateBuild;
    by rewrite Hl.
Qed.

(** So does a command line that is not understood; its exit code is 2 for a missing
    or unknown command and for a request for help, and 1 for a flag that is wrong. *)
Theorem bad_flags_are_inert cmd command args w fs body err :
  command_of cmd = Some command → command = with_flags fs body → Parse fs args = inl err →
  run (cmd :: args) w = Some (w, match err with Help => 2 | _ => 1 end%Z).
Proof. intros Hc -> Hp. unfold run. rewrite Hc. unfold with_flags. rewrite Hp. by destruct err. Qed.
End cli.
