(* ===== verification/LabLog.v ===== *)
(** A world that only records: operations append what they ask and what they are
    answered to a log. The rules of this file follow the shape of an operation and
    say what it can append, for every behaviour of the surroundings. *)

From S2P Require Import Prelude Pverr Api Tasks LabState LabOps LabCluster.
From stdpp Require Import options.

Section log.
Context {E : Type}.

(** [m] appends a piece [l] of which [Q l r] holds with its result. *)
Definition emits {A} (m : act (list E) A) (Q : list E → goerr + A → Prop) : Prop :=
  ∀ w w' r, m w = Some (w', r) → ∃ l, w' = w ++ l ∧ Q l r.
Definition emits_call {A} (f : list E → list E * (goerr + A)) (Q : list E → goerr + A → Prop) : Prop :=
  ∀ w, ∃ l, (f w).1 = w ++ l ∧ Q l (f w).2.

Lemma emits_weaken {A} (m : act (list E) A) (Q Q' : list E → goerr + A → Prop) :
  emits m Q → (∀ l r, Q l r → Q' l r) → emits m Q'.
Proof. intros Hm HQ w w' r Hr. destruct (Hm _ _ _ Hr) as (l & ? & ?). eauto. Qed.

Lemma emits_done {A} (a : A) Q : Q [] (inr a) → emits (done a) Q.
Proof. intros HQ w w' r [= <- <-]. exists []. by rewrite app_nil_r. Qed.
Lemma emits_fail {A} e Q : Q [] (inl e) → emits (fail e : act _ A) Q.
Proof. intros HQ w w' r [= <- <-]. exists []. by rewrite app_nil_r. Qed.
Lemma emits_lift {A} (x : goerr + A) Q : Q [] x → emits (lift x) Q.
Proof. intros HQ w w' r [= <- <-]. exists []. by rewrite app_nil_r. Qed.
Lemma emits_of_call {A} (f : list E → list E * (goerr + A)) Q : emits_call f Q → emits (call f) Q.
Proof. intros Hf w w' r Hr. destruct (Hf w) as (l & H1 & H2). unfold call in Hr. destruct (f w). simplify_eq. eauto. Qed.

Lemma emits_outcome {A B} (m : act (list E) A) (k : goerr + A → act (list E) B) (Q1 : list E → goerr + A → Prop) Q :
  emits m Q1 → (∀ l r, Q1 l r → emits (k r) (λ l', Q (l ++ l'))) → emits (outcome m k) Q.
Proof.
  intros Hm Hk w w' r Hr. unfold outcome in Hr. destruct (m w) as [[w1 r1]|] eqn:E1; [|done].
  destruct (Hm _ _ _ E1) as (l & -> & HQ). destruct (Hk _ _ HQ _ _ _ Hr) as (l' & -> & HQ').
  exists (l ++ l'). by rewrite app_assoc.
Qed.

Lemma emits_bind {A B} (m : act (list E) A) (k : A → act (list E) B) (Q1 : list E → goerr + A → Prop) Q :
  emits m Q1 → (∀ l e, Q1 l (inl e) → Q l (inl e)) →
  (∀ l a, Q1 l (inr a) → emits (k a) (λ l', Q (l ++ l'))) → emits (and_then m k) Q.
Proof.
  intros Hm He Hk w w' r Hr. unfold and_then in Hr. destruct (m w) as [[w1 [e|a]]|] eqn:E1; [| |done].
  - simplify_eq. destruct (Hm _ _ _ E1) as (l & -> & HQ). eauto.
  - destruct (Hm _ _ _ E1) as (l & -> & HQ). destruct (Hk _ _ HQ _ _ _ Hr) as (l' & -> & HQ').
    exists (l ++ l'). by rewrite app_assoc.
Qed.

Lemma emits_wrapped {A} msg (m : act (list E) A) Q :
  emits m (λ l r, Q l (match r with inl e => inl (GWrap msg e) | inr a => inr a end)) → emits (wrapped msg m) Q.
Proof.
  intros Hm. unfold wrapped. eapply emits_outcome; [exact Hm|]. intros l r HQ. cbn in HQ.
  destruct r; [apply emits_fail|apply emits_done]; by rewrite app_nil_r.
Qed.

(** Contexts that record nothing. *)
Lemma emits_within {A} `{C : !Contexts (list E)} d (m : act (list E) A) Q :
  (∀ d w, WithTimeout d w = w) → (∀ w, cancel w = w) → emits m Q → emits (within d m) Q.
Proof.
  intros Hin Hout Hm w w' r Hr. unfold within in Hr. rewrite Hin in Hr. destruct (m w) as [[w1 r1]|] eqn:E1; [|done].
  simplify_eq. rewrite Hout. eauto.
Qed.

(** A poll appends failed attempts and expired timers, and then its last attempt. *)
Lemma emits_poll {A} `{T : !Timers (list E)} n d (attempt : list E → list E * (goerr + A))
    (P : list E → Prop) (Q1 : list E → goerr + A → Prop) :
  P [] → (∀ l l', P l → P l' → P (l ++ l')) →
  emits_call attempt Q1 → (∀ l e, Q1 l (inl e) → P l) →
  (∀ w, ∃ l, (select_timer d w).1 = w ++ l ∧ P l) →
  emits (poll n d attempt) (λ l r, match r with inl _ => P l | inr a => ∃ l1 l2, l = l1 ++ l2 ∧ P l1 ∧ Q1 l2 (inr a) end).
Proof.
  intros P0 Papp Ha He Ht. induction n as [|n IH]; intros w w' r Hr; [done|]. cbn [poll] in Hr.
  destruct (Ha w) as (l & Hw & HQ). destruct (attempt w) as [w1 [err|a]]; cbn in *; subst w1.
  - destruct (Ht (w ++ l)) as (lt & Hwt & HP). destruct (select_timer d (w ++ l)) as [w2 [c|]]; cbn in *; subst w2.
    + simplify_eq. exists (l ++ lt). rewrite app_assoc. eauto.
    + apply IH in Hr as (l' & -> & HQ'). exists ((l ++ lt) ++ l'). split; [by rewrite <- !app_assoc|].
      destruct r as [e|a]; [eauto|]. destruct HQ' as (l1 & l2 & -> & ? & ?). exists ((l ++ lt) ++ l1), l2.
      split_and!; [by rewrite <- !app_assoc|eauto..].
  - simplify_eq. exists l. split; [done|]. exists [], l. done.
Qed.
End log.
