(* ===== verification/LabFormation.v ===== *)
(** The order of a cluster's formation, for every behaviour of the nodes: joins are
    issued one at a time, and none while the cluster is without its quorum. The
    world is the log of what was asked and answered; [env] answers, from the whole
    log, in any way it likes. *)

From S2P Require Import Prelude Json Pverr Api Tasks ClusterClient LabConfig LabState LabOps LabCluster LabLog.
From Stdlib Require Import ZArith Lia.
From stdpp Require Import options.

Inductive event :=
| EDial (endpoint : string)
| ECreate (endpoint : string) (spec : option ClusterCreateSpec)
| EJoinInfo (endpoint : string)
| EJoin (endpoint : string) (spec : option JoinSpec)
| EMembers (endpoint : string)
| EStatus (endpoint : string)
| ETimer (d : Z).

Definition reply (e : event) : Type :=
  match e with
  | EDial _ => option goerr
  | ECreate _ _ | EJoin _ _ => goerr + ()
  | EJoinInfo _ => goerr + JoinInfo
  | EMembers _ => goerr + list ConfigNode
  | EStatus _ => goerr + list StatusEntry
  | ETimer _ => option ctx_error
  end.
Definition entry : Type := {e : event & reply e}.

(** ** What a log shows *)

Definition is_join (x : entry) : Prop := match projT1 x with EJoin _ _ => True | _ => False end.
Definition quiet (l : list entry) : Prop := Forall (λ x, ¬ is_join x) l.
(** The corosync nodelist of an endpoint was seen with a member in it. *)
Definition listed (endpoint member : string) (l : list entry) : Prop :=
  ∃ members, existT (EMembers endpoint) (inr members) ∈ l ∧ existsb (λ m, NodeName m =s member) members = true.
(** A status of an endpoint was seen that is quorate with [want] members online. *)
Definition gated (endpoint : string) (want : Z) (l : list entry) : Prop :=
  ∃ entries, existT (EStatus endpoint) (inr entries) ∈ l ∧ is_quorate want entries = true.

(** The log of the joins of [l], of which [i] are done: each is issued at its own
    node, in order, and the next one only after the joined node was seen in the
    nodelist and the cluster quorate with the [i + 2] members so far. The flag says
    that all are done. *)
Inductive joins (endpoint : string) (spec : JoinSpec) : Z → list Node → list entry → bool → Prop :=
| joins_done i l : quiet l → joins endpoint spec i [] l true
| joins_stop i nodes l : quiet l → joins endpoint spec i nodes l false
| joins_failed i n nodes e l1 a l2 :
    nodeEndpoint n = inr e → quiet l1 → quiet l2 →
    joins endpoint spec i (n :: nodes) (l1 ++ existT (EJoin e (Some spec)) a :: l2) false
| joins_next i n nodes e l1 a l2 l3 b :
    nodeEndpoint n = inr e → quiet l1 → quiet l2 → listed endpoint (nd_Name n) l2 → gated endpoint (i + 2) l2 →
    joins endpoint spec (i + 1) nodes l3 b →
    joins endpoint spec i (n :: nodes) (l1 ++ existT (EJoin e (Some spec)) a :: l2 ++ l3) b.

Ltac quietly := first [apply Forall_nil_2 | apply Forall_cons_2; [cbn; tauto|apply Forall_nil_2]].
Lemma quiet_app l l' : quiet l → quiet l' → quiet (l ++ l').
Proof. apply Forall_app_2. Qed.
Lemma listed_app_l e m l l' : listed e m l → listed e m (l ++ l').
Proof. intros (ms & ? & ?). exists ms. by rewrite elem_of_app; auto. Qed.
Lemma listed_app_r e m l l' : listed e m l' → listed e m (l ++ l').
Proof. intros (ms & ? & ?). exists ms. by rewrite elem_of_app; auto. Qed.
Lemma gated_app_r e n l l' : gated e n l' → gated e n (l ++ l').
Proof. intros (es & ? & ?). exists es. by rewrite elem_of_app; auto. Qed.
#[local] Hint Resolve quiet_app listed_app_l listed_app_r gated_app_r : core.

Section formation.
Variable env : list entry → ∀ e : event, reply e.

Definition ask (e : event) (w : list entry) : list entry * reply e :=
  let a := env w e in (w ++ [existT e a], a).

#[local] Instance logged_timers : Timers (list entry) := λ d w, ask (ETimer d) w.
#[local] Instance logged_contexts : Contexts (list entry) := {| WithTimeout _ w := w; cancel w := w |}.
Definition logged_api (endpoint : string) : ClusterAPI (list entry) := {|
  api_CreateCluster spec := ask (ECreate endpoint spec); api_JoinInfo := ask (EJoinInfo endpoint);
  api_JoinCluster spec := ask (EJoin endpoint spec); api_ListConfigNodes := ask (EMembers endpoint);
  api_GetStatus := ask (EStatus endpoint)
|}.
Definition logged_dial : clusterDialer (list entry) := λ endpoint w,
  match ask (EDial endpoint) w with
  | (w, Some err) => (w, inl err)
  | (w, None) => (w, inr (logged_api endpoint))
  end.

Variable fuel : nat.

Lemma dial_logged endpoint :
  emits_call (logged_dial endpoint) (λ l r, quiet l ∧ ∀ svc, r = inr svc → svc = logged_api endpoint).
Proof.
  intros w. unfold logged_dial, ask. destruct (env w (EDial endpoint)) as [err|] eqn:E; cbn; eexists; (split; [done|]);
    (split; [quietly|]); intros svc; naive_solver.
Qed.

(** A dial with its error wrapped. *)
Lemma dial_wrapped msg endpoint :
  emits (wrapped msg (call (logged_dial endpoint)))
    (λ l r, quiet l ∧ ∀ svc, r = inr svc → svc = logged_api endpoint).
Proof.
  apply emits_wrapped, emits_of_call. intros w. destruct (dial_logged endpoint w) as (l & Hw & Hq & Hs).
  exists l. split; [exact Hw|]. split; [done|].
  destruct (logged_dial endpoint w) as [? [?|?]]; cbn in *; [by intros svc [=]|]. intros svc [= <-]. by apply Hs.
Qed.

Lemma member_attempt endpoint member :
  emits_call (until_true (memberPresent logged_dial endpoint member))
    (λ l r, quiet l ∧ (r = inr () → listed endpoint member l)).
Proof.
  intros w. unfold until_true, memberPresent. destruct (dial_logged endpoint w) as (l & Hw & Hq & Hs).
  destruct (logged_dial endpoint w) as [w1 [err|svc]]; cbn in Hw, Hs; subst w1; [by exists l|].
  rewrite (Hs svc eq_refl). cbn [logged_api api_ListConfigNodes]. unfold ask.
  destruct (env (w ++ l) (EMembers endpoint)) as [err|members] eqn:E; cbn.
  - exists (l ++ [existT (EMembers endpoint) (inl err)]). rewrite app_assoc. split; [done|]. split; [|done].
    apply quiet_app; [done|quietly].
  - set (x := existT (EMembers endpoint) (inr members)). exists (l ++ [x]). rewrite app_assoc.
    destruct (existsb _ _) eqn:Hex; cbn; (split; [done|]); (split; [apply quiet_app; [done|quietly]|]); [|done].
    intros _. exists members. split; [|done]. apply elem_of_app. right. by left.
Qed.

Lemma quorum_attempt endpoint want :
  emits_call (until_true (quorate logged_dial endpoint want)) (λ l r, quiet l ∧ (r = inr () → gated endpoint want l)).
Proof.
  intros w. unfold until_true, quorate. destruct (dial_logged endpoint w) as (l & Hw & Hq & Hs).
  destruct (logged_dial endpoint w) as [w1 [err|svc]]; cbn in Hw, Hs; subst w1; [by exists l|].
  rewrite (Hs svc eq_refl). cbn [logged_api api_GetStatus]. unfold ask.
  destruct (env (w ++ l) (EStatus endpoint)) as [err|entries] eqn:E; cbn.
  - exists (l ++ [existT (EStatus endpoint) (inl err)]). rewrite app_assoc. split; [done|]. split; [|done].
    apply quiet_app; [done|quietly].
  - set (x := existT (EStatus endpoint) (inr entries)). exists (l ++ [x]). rewrite app_assoc.
    destruct (is_quorate want entries) eqn:Hex; cbn; (split; [done|]); (split; [apply quiet_app; [done|quietly]|]); [|done].
    intros _. exists entries. split; [|done]. apply elem_of_app. right. by left.
Qed.

(** A bounded wait on an attempt that shows [S] when it succeeds. *)
Lemma wait_logged (S : list entry → Prop) e d ceiling (attempt : list entry → list entry * (goerr + ())) :
  (∀ l l', S l' → S (l ++ l')) →
  emits_call attempt (λ l r, quiet l ∧ (r = inr () → S l)) →
  emits (gave_up e (within ceiling (poll fuel d attempt))) (λ l r, quiet l ∧ (r = inr () → S l)).
Proof.
  intros HS Ha. unfold gave_up. eapply emits_outcome.
  - eapply emits_within; [done..|]. eapply (emits_poll fuel d attempt quiet); [quietly|apply quiet_app|exact Ha| |].
    + by intros l err [? _].
    + intros w. eexists. split; [done|]. quietly.
  - intros l [err|[]] Hl; [apply emits_fail|apply emits_done]; rewrite app_nil_r; [done|].
    destruct Hl as (l1 & l2 & -> & Hq & Hq2 & Hs). auto.
Qed.

Lemma member_wait endpoint member d ceiling :
  emits (waitForMember fuel logged_dial endpoint member d ceiling)
    (λ l r, quiet l ∧ (r = inr () → listed endpoint member l)).
Proof. apply wait_logged; [auto|apply member_attempt]. Qed.
Lemma quorum_wait endpoint want d ceiling :
  emits (waitForQuorum fuel logged_dial endpoint want d ceiling)
    (λ l r, quiet l ∧ (r = inr () → gated endpoint want l)).
Proof. apply wait_logged; [auto|apply quorum_attempt]. Qed.

Variables interval joinCeiling quorumBound : Z.
Variables first_ep firstIP pw : string.

(** The request of every join. *)
Definition join_spec (fp : string) : JoinSpec :=
  {| js_Hostname := firstIP; js_Password := pw; js_Fingerprint := fp; js_Force := None; js_Extra := ∅ |}.

Definition one_join (fp : string) (n : Node) (l : list entry) (r : goerr + ()) : Prop :=
  (quiet l ∧ r ≠ inr ()) ∨
  ∃ e l1 a l2, nodeEndpoint n = inr e ∧ l = l1 ++ existT (EJoin e (Some (join_spec fp))) a :: l2 ∧ quiet l1 ∧ quiet l2 ∧
    (r = inr () → listed first_ep (nd_Name n) l2).

Lemma join_logged fp n :
  emits (joinNode fuel logged_dial interval joinCeiling first_ep firstIP pw fp n) (one_join fp n).
Proof.
  unfold joinNode. eapply (emits_bind _ _ (λ l r, l = [] ∧ r = nodeEndpoint n)); [by apply emits_lift| |].
  { intros l err [-> _]. left. by split; [constructor|]. }
  intros l endpoint [-> Hep]. cbn. eapply emits_bind.
  { apply dial_wrapped. }
  { intros l err [Hq _]. by left. }
  intros l svc [Hq Hs]. rewrite (Hs svc eq_refl). cbn [logged_api api_JoinCluster].
  eapply (emits_outcome _ _ (λ l _, ∃ a, l = [existT (EJoin endpoint (Some (join_spec fp))) a])).
  { apply emits_of_call. intros w. eexists. split; [done|]. by eexists. }
  intros l' r' (a & ->). eapply emits_wrapped, emits_weaken; [apply member_wait|].
  intros l2 r [Hq2 Hlist]. right. exists endpoint, l, a, l2. split_and!; [done|by rewrite <- ?app_assoc|done..|].
  destruct r as [err|[]]; cbn in Hlist; [done|auto].
Qed.

Lemma joins_logged fp i nodes :
  emits (join_all fuel logged_dial interval joinCeiling quorumBound first_ep firstIP pw fp i nodes)
    (λ l r, ∃ b, joins first_ep (join_spec fp) i nodes l b ∧ (r = inr () → b = true)).
Proof.
  revert i. induction nodes as [|n nodes IH]; intros i; cbn [join_all].
  { apply emits_done. exists true. split; [by repeat constructor|done]. }
  eapply emits_bind; [apply join_logged| |].
  { intros l err [[Hq _]|(e & l1 & a & l2 & He & -> & Hq1 & Hq2 & _)]; exists false; (split; [|done]).
    - by apply joins_stop.
    - by apply joins_failed. }
  intros l [] [[_ []]|(e & l1 & a & l2 & He & -> & Hq1 & Hq2 & Hl)]; [done|].
  eapply emits_bind; [apply quorum_wait| |].
  { intros l3 err [Hq3 _]. exists false. split; [|done]. rewrite <- app_assoc. cbn. apply joins_failed; auto. }
  intros l3 [] [Hq3 Hg]. eapply emits_weaken; [apply IH|]. intros l4 r (b & Hj & Hb). exists b. split; [|done].
  pose proof (joins_next first_ep (join_spec fp) i n nodes e l1 a (l2 ++ l3) l4 b He Hq1) as Hnext.
  rewrite <- !app_assoc in *. cbn in *. apply Hnext; auto.
Qed.
End formation.

(** What precedes the first join: the cluster was created on the first node, that
    node was seen in its nodelist, and it gave the fingerprint. *)
Definition opened (cfg : Config) (first : Node) (endpoint fp : string) (l : list entry) : Prop :=
  existT (ECreate endpoint (Some {| cc_Name := n_ClusterName (c_Nested cfg); cc_Extra := ∅ |})) (inr ()) ∈ l ∧
  listed endpoint (nd_Name first) l ∧ fp ≠ "" ∧
  ∃ info, existT (EJoinInfo endpoint) (inr info) ∈ l ∧ Fingerprint info = fp.

(** A log of a serialised formation, with its result. *)
Definition serialised (cfg : Config) (first : Node) (rest : list Node) (e0 ip pw : string) (l : list entry)
    (r : goerr + ()) : Prop :=
  ∃ fp l0 l1 b, l = l0 ++ l1 ∧ quiet l0 ∧ joins e0 (join_spec ip pw fp) 0 rest l1 b ∧
    (l1 ≠ [] → opened cfg first e0 fp l0) ∧ (r = inr () → b = true ∧ opened cfg first e0 fp l0).

Section theorem.
Variable env : list entry → ∀ e : event, reply e.
Variable fuel : nat.
#[local] Instance theorem_timers : Timers (list entry) := logged_timers env.
#[local] Existing Instance logged_contexts.

(** One wrapped question that is no join. *)
Lemma asked {A} msg e (f : list entry → list entry * (goerr + A)) (P : reply e → goerr + A) :
  (∀ w, f w = (w ++ [existT e (env w e)], P (env w e))) → (∀ a, ¬ is_join (existT e a)) →
  emits (wrapped msg (call f)) (λ l r, quiet l ∧ ∀ x, r = inr x → ∃ a, existT e a ∈ l ∧ P a = inr x).
Proof.
  intros Hf He. apply emits_wrapped, emits_of_call. intros w. rewrite Hf. eexists. split; [done|]. cbn.
  split; [apply Forall_cons_2; [apply He|apply Forall_nil_2]|]. intros x Hx. exists (env w e). split; [left|].
  destruct (P (env w e)); naive_solver.
Qed.

(** C3. Formation is serialised, whatever the nodes answer and however requests fail.
    Everything [formCluster] asks for is a piece without a join, in which (if there
    are joins) the cluster was created on the first node, that node was seen in its
    nodelist, and it gave a non-empty fingerprint, followed by the joins: each at
    its own node in the order of the configuration, with the first node's address,
    the root password and that fingerprint, and none before the node joined last
    was seen in the nodelist and the cluster seen quorate with every member so far
    online. When it reports success the same holds of every node, the last one
    included. *)
Theorem formation_serialised cfg first rest e0 ip pw interval joinCeiling quorumBound w w' r :
  n_Nodes (c_Nested cfg) = first :: rest → nodeEndpoint first = inr e0 → Node_IP first = inr ip →
  formCluster fuel (logged_dial env) cfg pw interval joinCeiling quorumBound w = Some (w', r) →
  ∃ l, w' = w ++ l ∧ serialised cfg first rest e0 ip pw l r.
Proof.
  intros Hn He Hip Hr. revert w w' r Hr.
  change (emits (formCluster fuel (logged_dial env) cfg pw interval joinCeiling quorumBound)
            (serialised cfg first rest e0 ip pw)).
  unfold formCluster. rewrite Hn, He, Hip.
  assert (∀ l err, quiet l → serialised cfg first rest e0 ip pw l (inl err)) as Hstop.
  { intros l err Hq. exists "", l, [], false. rewrite app_nil_r. split_and!; try done. apply joins_stop. quietly. }
  eapply (emits_bind _ _ (λ l r, l = [] ∧ r = inr e0)); [by apply emits_lift|by intros ? ? [_ ?]|].
  intros l ? [-> [= ->]]. cbn [app].
  eapply (emits_bind _ _ (λ l r, l = [] ∧ r = inr ip)); [by apply emits_lift|by intros ? ? [_ ?]|].
  intros l ? [-> [= ->]]. cbn [app].
  eapply emits_bind; [apply dial_wrapped|by intros l err [Hq _]; apply Hstop|].
  intros l1 svc [Hq1 Hs]. rewrite (Hs svc eq_refl). clear svc Hs. cbn [logged_api api_CreateCluster].
  eapply emits_bind; [apply (asked _ (ECreate e0 (Some {| cc_Name := n_ClusterName (c_Nested cfg); cc_Extra := ∅ |})) _ id); [done|intros ? []]|intros l err [Hq _]; apply Hstop; auto|].
  intros l2 [] [Hq2 Hc]. destruct (Hc () eq_refl) as (a & Hcreated & Ha). unfold id in Ha. subst a. clear Hc.
  eapply emits_bind; [apply member_wait|intros l err [Hq _]; apply Hstop; auto|].
  intros l3 [] [Hq3 Hl]. specialize (Hl eq_refl).
  eapply emits_bind; [apply dial_wrapped|intros l err [Hq _]; apply Hstop; auto 10|].
  intros l4 svc [Hq4 Hs]. rewrite (Hs svc eq_refl). clear svc Hs. cbn [logged_api api_JoinInfo].
  eapply emits_bind; [apply (asked _ (EJoinInfo e0) _ id); [done|intros ? []]|intros l err [Hq _]; apply Hstop; auto 10|].
  intros l5 info [Hq5 Hi]. destruct (Hi info eq_refl) as (a & Hinfo & Ha). unfold id in Ha. subst a. clear Hi.
  case_bool_decide as Hfp; [apply emits_fail, Hstop; repeat (apply quiet_app; [done|]); quietly|].
  eapply emits_weaken; [apply joins_logged|]. intros l r (b & Hj & Hb).
  exists (Fingerprint info), (l1 ++ l2 ++ l3 ++ l4 ++ l5), l, b.
  assert (opened cfg first e0 (Fingerprint info) (l1 ++ l2 ++ l3 ++ l4 ++ l5)) as Ho.
  { split_and!; [rewrite !elem_of_app; auto|auto 10|done|]. exists info. rewrite !elem_of_app. auto 10. }
  split_and!; [by rewrite <- !app_assoc|auto 10|done|done|auto].
Qed.
End theorem.

(** Nodes that answer every question well. *)
Definition config_node (name : string) : ConfigNode := {| cn_Node := name; cn_Name := name; cn_Extra := ∅ |}.
Definition healthy_status : list StatusEntry :=
  let entry type nodes quorate online := {|
    se_ID := ""; se_Type := type; se_Name := ""; se_Nodes := nodes; se_Quorate := quorate; se_Version := 0; se_NodeID := 0;
    se_IP := ""; se_Online := online; se_Local := false; se_Level := ""; se_Extra := ∅ |} in
  [entry "cluster" 3%Z true false; entry "node" 0%Z false true; entry "node" 0%Z false true; entry "node" 0%Z false true].
Definition healthy (w : list entry) (e : event) : reply e :=
  match e with
  | EDial _ | ETimer _ => None
  | ECreate _ _ | EJoin _ _ => inr ()
  | EJoinInfo _ => inr {| ji_PreferredNode := "pve1"; ji_ConfigDigest := "";
                          ji_Nodelist := [{| jn_Name := "pve1"; jn_PVEAddr := ""; jn_PVEFingerprint := "AA:BB"; jn_Extra := ∅ |}];
                          ji_Extra := ∅ |}
  | EMembers _ => inr (config_node <$> ["pve1"; "pve2"; "pve3"])
  | EStatus _ => inr healthy_status
  end.

Lemma formation_serialised_witness :
  let T := logged_timers healthy in let C := logged_contexts in
  let cfg := with_lab_nodes three_nodes in
  ∃ w', formCluster 1 (logged_dial healthy) cfg "hunter2" 1 1 1 [] = Some (w', inr ()) ∧
    (projT1 <$> w') !! 5 = Some (EJoinInfo "https://192.168.7.1:8006") ∧
    ∃ l, w' = [] ++ l ∧ serialised cfg (lab_node "pve1" 9201 "192.168.7.1/24") (tail three_nodes)
                          "https://192.168.7.1:8006" "192.168.7.1" "hunter2" l (inr ()).
Proof.
  intros T C cfg. eexists. split; [vm_compute; reflexivity|]. split; [reflexivity|].
  apply (formation_serialised healthy 1 cfg (lab_node "pve1" 9201 "192.168.7.1/24") (tail three_nodes)
    "https://192.168.7.1:8006" "192.168.7.1" "hunter2" 1 1 1).
  - reflexivity.
  - vm_compute. reflexivity.
  - vm_compute. reflexivity.
  - vm_compute. reflexivity.
Defined.
