(* ===== verification/LabWaits.v ===== *)
(** The waits of the lab end: every poll runs under a deadline, which each expired
    timer brings nearer. And what re-identification over SSH leaves when its waits have ended. *)

From S2P Require Import Ssh.
From S2P Require Import Prelude Json Pverr Api Tasks QemuClient ClusterClient LabConfig LabState LabOps LabCluster Netip.
From Stdlib Require Import ZArith Lia.
From stdpp Require Import options.
Set Default Proof Using "Type*".

(** [left] is the time before the deadline of the current context: [WithTimeout] caps
    it, and a timer that fires before the deadline has spent its duration. *)
Class Deadlines (W : Type) `{!Timers W} `{!Contexts W} (left : W → Z) : Prop := {
  timeout_caps d w : (left (WithTimeout d w) ≤ d)%Z;
  timer_spends d w w' : select_timer d w = (w', None) → (0 ≤ left w' ≤ left w - d)%Z
}.

Section waits.
Context {W : Type} `{!Timers W} `{!Contexts W} {left : W → Z} `{!Deadlines W left}.

(** A call that does not push the deadline back. *)
Definition patient {A} (f : W → W * A) : Prop := ∀ w, (left (f w).1 ≤ left w)%Z.
(** Enough fuel gives one result. *)
Definition settles {A} (n : nat) (m : nat → act W A) : Prop := ∀ w, ∃ res, ∀ fuel, n ≤ fuel → m fuel w = Some res.

Lemma settles_const {A} n (m : act W A) : (∀ w, is_Some (m w)) → settles n (λ _, m).
Proof. intros Hm w. destruct (Hm w) as [res Hres]. by exists res. Qed.
Lemma settles_outcome {A B} n (m : nat → act W A) (k : nat → goerr + A → act W B) :
  settles n m → (∀ r, settles n (λ fuel, k fuel r)) → settles n (λ fuel, outcome (m fuel) (k fuel)).
Proof.
  intros Hm Hk w. destruct (Hm w) as [[w1 r] H1]. destruct (Hk r w1) as [res H2]. exists res. intros fuel Hf.
  unfold outcome. by rewrite H1, H2.
Qed.
Lemma settles_bind {A B} n (m : nat → act W A) (k : nat → A → act W B) :
  settles n m → (∀ a, settles n (λ fuel, k fuel a)) → settles n (λ fuel, and_then (m fuel) (k fuel)).
Proof.
  intros Hm Hk w. destruct (Hm w) as [[w1 [e|a]] H1].
  - exists (w1, inl e). intros fuel Hf. unfold and_then. by rewrite H1.
  - destruct (Hk a w1) as [res H2]. exists res. intros fuel Hf. unfold and_then. by rewrite H1, H2.
Qed.
Lemma settles_wrapped {A} n msg (m : nat → act W A) : settles n m → settles n (λ fuel, wrapped msg (m fuel)).
Proof. intros Hm. apply settles_outcome; [done|]. intros [e|a]; apply settles_const; by eexists. Qed.
Lemma settles_call {A} n (f : W → W * (goerr + A)) : settles n (λ _, call f).
Proof. apply settles_const. by eexists. Qed.

(** A poll attempts at most once per interval before the deadline, and once more. *)
Lemma poll_ends {A} n d (attempt : W → W * (goerr + A)) w :
  (0 < d)%Z → patient attempt → (left w < Z.of_nat (S n) * d)%Z →
  ∃ res, ∀ fuel, S n ≤ fuel → poll fuel d attempt w = Some res.
Proof.
  intros Hd Hp. revert w. induction n as [|n IH]; intros w Hw.
  - specialize (Hp w). destruct (attempt w) as [w1 [err|a]] eqn:Ha; cbn in Hp.
    + destruct (select_timer d w1) as [w2 [c|]] eqn:Ht; [|apply timer_spends in Ht; lia].
      exists (w2, inl err). intros [|fuel] Hf; [lia|]. cbn. by rewrite Ha, Ht.
    + exists (w1, inr a). intros [|fuel] Hf; [lia|]. cbn. by rewrite Ha.
  - specialize (Hp w). destruct (attempt w) as [w1 [err|a]] eqn:Ha; cbn in Hp.
    + destruct (select_timer d w1) as [w2 [c|]] eqn:Ht.
      * exists (w2, inl err). intros [|fuel] Hf; [lia|]. cbn. by rewrite Ha, Ht.
      * pose proof (timer_spends _ _ _ Ht). destruct (IH w2) as [res Hres]; [lia|]. exists res.
        intros [|fuel] Hf; [lia|]. cbn [poll]. rewrite Ha, Ht. apply Hres. lia.
    + exists (w1, inr a). intros [|fuel] Hf; [lia|]. cbn. by rewrite Ha.
Qed.

Lemma settles_within {A} n d c (attempt : W → W * (goerr + A)) :
  (0 < d)%Z → patient attempt → (c < Z.of_nat (S n) * d)%Z →
  settles (S n) (λ fuel, within c (poll fuel d attempt)).
Proof.
  intros Hd Hp Hc w. destruct (poll_ends n d attempt (WithTimeout c w) Hd Hp) as [[w1 r] H1].
  { pose proof (timeout_caps c w). lia. }
  exists (cancel w1, r). intros fuel Hf. unfold within. by rewrite H1.
Qed.

(** ** Formation *)

(** Dialling and the questions of a session push no deadline back. *)
Record patient_dial (dial : clusterDialer W) : Prop := {
  dial_patient endpoint : patient (dial endpoint);
  members_patient endpoint w svc : (dial endpoint w).2 = inr svc → patient (api_ListConfigNodes svc);
  status_patient endpoint w svc : (dial endpoint w).2 = inr svc → patient (api_GetStatus svc)
}.

Lemma until_true_patient f : patient f → patient (until_true f).
Proof. intros Hf w. specialize (Hf w). unfold until_true. by destruct (f w) as [w1 [e|[]]]. Qed.

Lemma memberPresent_patient dial endpoint member : patient_dial dial → patient (memberPresent dial endpoint member).
Proof.
  intros Hd w. unfold memberPresent. pose proof (dial_patient _ Hd endpoint w) as H1.
  destruct (dial endpoint w) as [w1 [e|svc]] eqn:E; cbn in *; [done|].
  pose proof (members_patient _ Hd endpoint w svc) as H2. rewrite E in H2. specialize (H2 eq_refl w1).
  destruct (api_ListConfigNodes svc w1) as [w2 [e|ms]]; cbn in *; lia.
Qed.
Lemma quorate_patient dial endpoint want : patient_dial dial → patient (quorate dial endpoint want).
Proof.
  intros Hd w. unfold quorate. pose proof (dial_patient _ Hd endpoint w) as H1.
  destruct (dial endpoint w) as [w1 [e|svc]] eqn:E; cbn in *; [done|].
  pose proof (status_patient _ Hd endpoint w svc) as H2. rewrite E in H2. specialize (H2 eq_refl w1).
  destruct (api_GetStatus svc w1) as [w2 [e|ms]]; cbn in *; lia.
Qed.

Lemma settles_gave_up n e (m : nat → act W ()) : settles n m → settles n (λ fuel, gave_up e (m fuel)).
Proof. intros Hm. apply settles_outcome; [done|]. intros [?|?]; apply settles_const; by eexists. Qed.

Section formation.
Variable dial : clusterDialer W.
Hypothesis Hdial : patient_dial dial.
Variables (n : nat) (interval joinCeiling quorumBound : Z).
Hypothesis Hinterval : (0 < interval)%Z.
Hypothesis Hjoin : (joinCeiling < Z.of_nat (S n) * interval)%Z.
Hypothesis Hquorum : (quorumBound < Z.of_nat (S n) * interval)%Z.

Lemma member_wait_settles endpoint member :
  settles (S n) (λ fuel, waitForMember fuel dial endpoint member interval joinCeiling).
Proof. apply settles_gave_up, settles_within; [done|by apply until_true_patient, memberPresent_patient|done]. Qed.
Lemma quorum_wait_settles endpoint want :
  settles (S n) (λ fuel, waitForQuorum fuel dial endpoint want interval quorumBound).
Proof. apply settles_gave_up, settles_within; [done|by apply until_true_patient, quorate_patient|done]. Qed.

Lemma join_all_settles first_ep ip pw fp i nodes :
  settles (S n) (λ fuel, join_all fuel dial interval joinCeiling quorumBound first_ep ip pw fp i nodes).
Proof.
  revert i. induction nodes as [|x nodes IH]; intros i; cbn [join_all]; [apply settles_const; by eexists|].
  apply settles_bind; [|intros _; apply settles_bind; [apply quorum_wait_settles|intros _; apply IH]].
  unfold joinNode. apply settles_bind; [apply settles_const; by eexists|]. intros endpoint.
  apply settles_bind; [apply settles_wrapped, settles_call|]. intros svc.
  apply settles_outcome; [apply settles_call|]. intros _. apply settles_wrapped, member_wait_settles.
Qed.

Lemma formCluster_settles cfg pw : n_Nodes (c_Nested cfg) ≠ [] →
  settles (S n) (λ fuel, formCluster fuel dial cfg pw interval joinCeiling quorumBound).
Proof.
  unfold formCluster. destruct (n_Nodes (c_Nested cfg)) as [|first rest]; [done|]. intros _.
  apply settles_bind; [apply settles_const; by eexists|]. intros endpoint.
  apply settles_bind; [apply settles_const; by eexists|]. intros ip.
  apply settles_bind; [apply settles_wrapped, settles_call|]. intros svc.
  apply settles_bind; [apply settles_wrapped, settles_call|]. intros [].
  apply settles_bind; [apply member_wait_settles|]. intros [].
  apply settles_bind; [apply settles_wrapped, settles_call|]. intros svc'.
  apply settles_bind; [apply settles_wrapped, settles_call|]. intros info.
  case_bool_decide; [apply settles_const; by eexists|apply join_all_settles].
Qed.
End formation.
End waits.

(** C7. Forming a cluster ends, whatever the nodes answer. With the poll interval and
    the ceilings of the code, under contexts with deadlines and a dialer and sessions
    that push no deadline back, 37 attempts per wait are enough: from then on the
    result does not depend on the bound. *)
Theorem FormCluster_terminates {W} `{!Timers W} `{!Contexts W} (left : W → Z) `{!Deadlines W left}
    (dial : clusterDialer W) cfg pw w :
  patient_dial (left := left) dial → n_Nodes (c_Nested cfg) ≠ [] →
  ∃ res, ∀ fuel, 37 ≤ fuel → FormCluster fuel dial cfg pw w = Some res.
Proof.
  intros Hd Hn. apply (formCluster_settles (left := left) dial Hd 36); [done..|exact Hn].
Qed.

(** A world that is the time left, with sessions that create a cluster and then answer nothing. *)
#[local] Instance countdown_Timers : Timers Z := λ d w, if (d <=? w)%Z then ((w - d)%Z, None) else (w, Some DeadlineExceeded).
#[local] Instance countdown_Contexts : Contexts Z := {| WithTimeout d w := Z.min d w; cancel w := w |}.
Definition deaf_after_create : clusterDialer Z := λ _ w, (w, inr {|
  api_CreateCluster _ w := (w, inr ()); api_JoinInfo w := (w, inl (GText "down"));
  api_JoinCluster _ w := (w, inl (GText "down")); api_ListConfigNodes w := (w, inl (GText "down"));
  api_GetStatus w := (w, inl (GText "down")) |}).
Lemma FormCluster_terminates_witness :
  (∃ res, ∀ fuel, 37 ≤ fuel → FormCluster fuel deaf_after_create (with_lab_nodes three_nodes) "pw" (100 * minute)%Z = Some res) ∧
  FormCluster 36 deaf_after_create (with_lab_nodes three_nodes) "pw" (100 * minute)%Z = None.
Proof.
  split; [|vm_compute; reflexivity].
  assert (HD : Deadlines Z id).
  { split; [intros d w; unfold id; cbn; lia|]. intros d w w'. unfold select_timer, countdown_Timers, id.
    destruct (Z.leb_spec d w); intros [= <-]; lia. }
  apply (FormCluster_terminates id deaf_after_create); [|done].
  split; [intros ? w; unfold id; cbn; lia|intros ? ? ? [= <-] w; unfold id; cbn; lia..].
Defined.

(** * Re-identification over the real SSH client

    Whatever the network does, it ends, and no connection to a clone stays open. *)

Section sessions.
Context {W Callback PublicKey Signer Conn SshC Sftp Session : Type} `{Countable Conn}.
Context `{!Gossh W Callback PublicKey Signer, N : !SshNet W Callback Signer Conn SshC Sftp Session}.
Context `{!Timers W, !Contexts W} (left : W → Z) `{!Deadlines W left}.
Context (live : W → gset Conn) (under : SshC → Conn) `{LN : !LawfulSshNet N live under}.

(** Time: the calls of the network push no deadline back. *)
Class PatientSshNet : Prop := {
  patient_dial_tcp t addr : patient (left := left) (dial_tcp t addr);
  patient_conn_Close c : patient (left := left) (conn_Close c);
  patient_handshake c addr cfg : patient (left := left) (NewClientConn c addr cfg);
  patient_ssh_Close h : patient (left := left) (ssh_Close h);
  patient_sftp h : patient (left := left) (sftp_NewClient h)
}.
(** Clocks and contexts open and close no connection. *)
Class IdleTimers : Prop := {
  idle_select d w : live (select_timer d w).1 = live w;
  idle_timeout d w : live (WithTimeout d w) = live w;
  idle_cancel w : live (cancel w) = live w
}.
Context `{!PatientSshNet, !IdleTimers}.

(** ** One dial *)

Abbreviation fresh_client := (@Ssh.NewClient W Callback PublicKey Signer Conn SshC Sftp).
Abbreviation dialing := (@dial_ssh W Callback PublicKey Signer Conn SshC Sftp Session _ _).

Lemma dial_ssh_patient opts host : dials_tcp (fresh_client opts) → patient (left := left) (dialing opts host).
Proof using All.
  intros Hd w. unfold dial_ssh, Connect. cbn [cl_ssh NewClient].
  destruct (hostKeyCallback _ _); [done|]. destruct (authMethods _); [done|]. rewrite Hd. cbn [default].
  match goal with |- context [dial_tcp ?t ?a w] => pose proof (patient_dial_tcp t a w); destruct (dial_tcp t a w) as [w1 [?|cn]] end; [done|].
  match goal with |- context [NewClientConn cn ?a ?g w1] =>
    pose proof (patient_handshake cn a g w1); destruct (NewClientConn cn a g w1) as [w2 [?|h]] end.
  { pose proof (patient_conn_Close cn w2). destruct (conn_Close cn w2). cbn in *. lia. }
  pose proof (patient_sftp h w2). destruct (sftp_NewClient h w2) as [w3 [?|f]]; cbn in *; [|lia].
  pose proof (patient_ssh_Close h w3). destruct (ssh_Close h w3). cbn in *. lia.
Qed.

(** A session that stands on one connection: commands leave it open, and closing the
    session closes it. *)
Definition stands_on (conn : Conn) (s : cloneSession W) : Prop :=
  (∀ cmd w, live (sess_Exec s cmd w).1 = live w) ∧
  (∀ w, conn ∈ live w → live (sess_Close s w).1 = live w ∖ {[conn]}).

(** What an attempt to open a session leaves. *)
Definition opened (w w' : W) (r : goerr + cloneSession W) : Prop :=
  match r with
  | inl _ => live w' = live w
  | inr s => ∃ conn, conn ∉ live w ∧ live w' = {[conn]} ∪ live w ∧ stands_on conn s
  end.

Lemma dial_ssh_opened opts host w : dials_tcp (fresh_client opts) →
  opened w (dialing opts host w).1 (dialing opts host w).2.
Proof using All.
  intros Hd. unfold dial_ssh.
  assert (client_ok live under (fresh_client opts) w) as Hok.
  { split; [split; intros [? ?]; done|unfold held; cbn; set_solver]. }
  pose proof (Connect_spec live under host (fresh_client opts) w Hd Hok) as Hspec.
  destruct (Connect host (fresh_client opts) w) as [[w1 c] [err|]].
  all: destruct Hspec as (_ & Hok1 & Hlive & Hnone & Hsome); unfold held in Hlive at 2; cbn in Hlive |- *.
  - rewrite Hsome in Hlive by done. unfold held in Hlive. cbn in Hlive. set_solver.
  - destruct (Hnone eq_refl) as [_ [h Hh]]. destruct Hok1 as [Hboth Hheld]. unfold held in Hheld, Hlive. rewrite Hh in *.
    exists (under h). split_and!; [set_solver| |].
    + rewrite <- (difference_empty_L (live w)), <- Hlive. rewrite union_comm_L, difference_union_L. set_solver.
    + split; [intros cmd w2; apply (Exec_live live under)|]. intros w2 Hin. cbn.
      assert (client_ok live under c w2) as Hok2 by (split; [by rewrite Hh|unfold held; rewrite Hh; set_solver]).
      pose proof (Close_spec live under c w2 Hok2) as Hc. destruct (Close c w2) as [[w3 c3] e3]. cbn.
      destruct Hc as (_ & _ & _ & ->). unfold held. by rewrite Hh.
Qed.

Lemma poll_opened fuel d (attempt : W → W * (goerr + cloneSession W)) w w' r :
  (∀ w, opened w (attempt w).1 (attempt w).2) → poll fuel d attempt w = Some (w', r) → opened w w' r.
Proof using All.
  intros Hdial. revert w. induction fuel as [|fuel IH]; intros w; [done|]. cbn [poll]. pose proof (Hdial w) as Ho.
  destruct (attempt w) as [w1 [err|s]]; cbn in Ho; [|intros [= <- <-]; exact Ho].
  pose proof (idle_select d w1) as Hs. destruct (select_timer d w1) as [w2 [c|]]; cbn in Hs.
  - intros [= <- <-]. cbn. congruence.
  - intros Hp. apply IH in Hp. destruct r; cbn in *; rewrite Hs, Ho in Hp; done.
Qed.

(** ** One clone *)


Variables (hostKey : Callback) (rootPassword : string).
Abbreviation dial := (nestedCloneDialer (SshC := SshC) (Sftp := Sftp) (Session := Session) hostKey rootPassword).


Lemma run_command_live conn s cmd describe w w' r :
  stands_on conn s → run_command (sess_Exec s) cmd describe w = Some (w', r) → live w' = live w.
Proof using All.
  intros [Hexec _]. unfold run_command. pose proof (Hexec cmd w) as He.
  destruct (sess_Exec s cmd w) as [w1 [out [e|]]]; intros [= <- _]; exact He.
Qed.

(** What runs inside a session leaves the connections as they are; closing it on the
    way out leaves those there were before it was opened. *)
Lemma closing_live {A} conn s (m : act W A) w0 w w' r :
  conn ∉ live w0 → live w = {[conn]} ∪ live w0 → stands_on conn s →
  (∀ w' r, m w = Some (w', r) → live w' = live w) → closing s m w = Some (w', r) → live w' = live w0.
Proof using All.
  intros Hnew Hw [_ Hclose] Hm. unfold closing, outcome. destruct (m w) as [[w1 r1]|] eqn:E; [|done].
  specialize (Hm _ _ eq_refl). assert (conn ∈ live w1) as Hin by (rewrite Hm, Hw; set_solver).
  specialize (Hclose w1 Hin). destruct (sess_Close s w1) as [w2 e2]. intros [= <- _]. cbn in Hclose.
  rewrite Hclose, Hm, Hw. set_solver.
Qed.

Lemma reidentifyOne_live fuel interval ceiling t oldName templateIP n w w' r :
  reidentifyOne fuel dial interval ceiling t oldName templateIP n w = Some (w', r) → live w' = live w.
Proof using All.
  unfold reidentifyOne, lift, and_then at 1. destruct (Node_IP n) as [e|ip]; [by intros [= <- _]|].
  unfold and_then at 1. unfold dialWithRetry, wrapped, within, outcome at 1.
  destruct (poll fuel interval (dial templateIP) (WithTimeout ceiling w)) as [[w1 r1]|] eqn:Ep; [|done].
  apply poll_opened in Ep; [|intros w0; by apply dial_ssh_opened].
  destruct r1 as [e|s]; cbn in Ep |- *; rewrite idle_timeout in Ep.
  - intros [= <- _]. by rewrite idle_cancel.
  - destruct Ep as (conn & Hnew & Hw1 & Hs). apply (closing_live conn); [done|by rewrite idle_cancel|done|].
    intros w2 r2. unfold and_then.
    destruct (run_command _ _ _ (cancel w1)) as [[w3 [e|[]]]|] eqn:Er; [| |done];
      apply (run_command_live conn) in Er; try done; [by intros [= <- _]|].
    pose proof (proj1 Hs "reboot" w3) as Hx. destruct (sess_Exec s "reboot" w3) as [w4 ?]. intros [= <- _].
    cbn in Hx. congruence.
Qed.

(** C22. A clone is re-identified over one SSH session at a time and in bounded time.
    Whatever the network answers to the dials, the handshakes, the commands and the
    closes, the run ends: the dials are repeated until the template's address answers
    or the ceiling has passed, which at the lab's interval and ceiling is at most
    sixty-one attempts. And on every way out the connections that are open are the
    ones that were open before: a dial that failed at any of its steps has left none,
    and the session of a run that got through is closed, also when the script or the
    reboot in it failed. *)
Theorem reidentify_closes t oldName templateIP n w :
  ∃ w' r, live w' = live w ∧ ∀ fuel, 61 ≤ fuel →
    reidentifyOne fuel dial cloneDialInterval cloneReadyCeiling t oldName templateIP n w = Some (w', r).
Proof using All.
  assert (settles 61 (λ fuel, reidentifyOne fuel dial cloneDialInterval cloneReadyCeiling t oldName templateIP n)) as Hs.
  { unfold reidentifyOne. apply settles_bind; [apply settles_const; by eexists|]. intros ip.
    apply settles_bind.
    - apply settles_wrapped, (settles_within (left := left)); [done|by apply dial_ssh_patient|done].
    - intros s. apply settles_const. intros w0. unfold closing, outcome, and_then, run_command.
      destruct (sess_Exec s _ w0) as [w1 [out [e|]]]; [by destruct (sess_Close s w1); eexists|].
      destruct (sess_Exec s "reboot" w1) as [w2 ?]. by destruct (sess_Close s w2); eexists. }
  destruct (Hs w) as [[w' r] Hres]. exists w', r. split; [|exact Hres].
  by eapply reidentifyOne_live, (Hres 61).
Qed.
End sessions.

(** ** A witness *)

(** A world is the time left, in nanoseconds, and the open connections, by number. A
    handshake is refused until ten seconds have passed. *)
Definition booting : Type := Z * gset nat.
Definition booting_net : SshNet booting string string nat nat nat () := {|
  dial_tcp _ _ '(l, s) := let c := fresh s in ((l, {[c]} ∪ s), inr c);
  conn_Close c '(l, s) := ((l, s ∖ {[c]}), None);
  NewClientConn c _ _ '(l, s) :=
    if (290 * second <? l)%Z then ((l, s), inl (GText "connection refused")) else ((l, s), inr c);
  ssh_Close h '(l, s) := ((l, s ∖ {[h]}), None);
  sftp_NewClient h w := (w, inr h);
  sftp_Close _ w := (w, None);
  NewSession _ w := (w, inr ());
  session_Close _ w := (w, None);
  CombinedOutput _ cmd w := (w, inr ("", if cmd =s "reboot" then Some (GText "connection lost") else None));
  sftp_Create _ _ w := (w, None)
|}.
Definition booting_gossh : Gossh booting string string string := {|
  FixedHostKey k := k; knownhosts_New p _ := inr p; ParsePrivateKey pem := inr pem
|}.
#[export] Instance booting_timers : Timers booting := λ d '(l, s),
  if (d <=? l)%Z then ((l - d, s)%Z, None) else ((l, s), Some DeadlineExceeded).
#[export] Instance booting_contexts : Contexts booting := {|
  WithTimeout d '(l, s) := (d, s);
  cancel '(l, s) := (0%Z, s)
|}.
#[export] Instance booting_deadlines : Deadlines booting fst.
Proof.
  constructor.
  - intros d [l s]. cbn. lia.
  - intros d [l s] w'. unfold select_timer, booting_timers. destruct (Z.leb_spec d l); intros [= <-]. cbn. lia.
Qed.
#[export] Instance booting_lawful : LawfulSshNet booting_net snd id.
Proof.
  constructor; intros; repeat match goal with w : booting |- _ => destruct w as [? ?] end; cbn; try done.
  - split; [apply is_fresh|done].
  - unfold second. destruct (_ <? _)%Z; set_solver.
Qed.
#[export] Instance booting_patient : PatientSshNet (N := booting_net) fst.
Proof. constructor; intros; intros [l s]; cbn; try done; by destruct (_ <? _)%Z. Qed.
#[export] Instance booting_idle : IdleTimers (W := booting) snd.
Proof.
  constructor; intros; repeat match goal with w : booting |- _ => destruct w as [? ?] end; cbn; try done.
  unfold select_timer, booting_timers. by destruct (_ <=? _)%Z.
Qed.

Lemma reidentify_closes_witness :
  let node := {| nd_Name := "pve2"; nd_VMID := 9002; nd_CIDR := "10.0.0.12/24" |} in
  let t := {| t_VMID := 9000; t_CIDR := "10.0.0.9/24" |} in
  let run fuel := @reidentifyOne booting _ _ fuel (@nestedCloneDialer _ _ _ _ _ _ _ _ booting_gossh booting_net "tofu" "secret")
    cloneDialInterval cloneReadyCeiling t "tmpl-9-1" "10.0.0.9" node (0%Z, {[7]}) in
  run 3 = Some ((0%Z, {[7]}), inr ()) ∧ run 2 = None ∧
  ∃ w' r, w'.2 = {[7]} ∧ ∀ fuel, 61 ≤ fuel → run fuel = Some (w', r).
Proof.
  intros node t run. split; [vm_compute; reflexivity|]. split; [vm_compute; reflexivity|].
  exact (@reidentify_closes booting string string string nat nat nat () _ _ booting_gossh booting_net _ _ fst _ snd id
    booting_lawful booting_patient booting_idle "tofu" "secret" t "tmpl-9-1" "10.0.0.9" node (0%Z, {[7]})).
Defined.
