(* ===== verification/Monad.v ===== *)
(** Handlers of a server whose state is guarded by one mutex. A program is a tree
    of critical sections: everything between [Lock] and [Unlock] is one atomic
    step on the state, and between two sections any other goroutine may run. The
    file has the sequential run, the interleaving step relation of a pool of
    goroutines, and the two proof rules the components use: an invariant that
    every section preserves holds in every reachable state, and a relation that
    every section respects holds along every execution. *)

From S2P Require Import Prelude Json.
From stdpp Require Import relations options.
From Stdlib Require Import ZArith Lia.

Inductive prog (S A : Type) : Type :=
| Halt (a : A)
| Crit (f : S → S * prog S A).
Arguments Halt {_ _} _.
Arguments Crit {_ _} _.

Section prog.
Context {S : Type}.

Fixpoint bind {A B} (m : prog S A) (k : A → prog S B) : prog S B :=
  match m with
  | Halt a => k a
  | Crit f => Crit (λ s, let '(s', m') := f s in (s', bind m' k))
  end.

(** One critical section with a result. *)
Definition crit {A} (f : S → S * A) : prog S A := Crit (λ s, let '(s', a) := f s in (s', Halt a)).

(** The run without interference. *)
Fixpoint run {A} (m : prog S A) (s : S) : S * A :=
  match m with
  | Halt a => (s, a)
  | Crit f => let '(s', m') := f s in run m' s'
  end.

Lemma run_bind {A B} (m : prog S A) (k : A → prog S B) s :
  run (bind m k) s = let '(s', a) := run m s in run (k a) s'.
Proof.
  revert s. induction m as [a|f IH] using
    (fix rec m := match m as m return (∀ P : prog S A → Prop, (∀ a, P (Halt a)) →
       (∀ f, (∀ s, P (f s).2) → P (Crit f)) → P m) with
     | Halt a => λ P Ha _, Ha a
     | Crit f => λ P Ha Hf, Hf f (λ s, rec (f s).2 P Ha Hf) end); intros s; cbn; [done|].
  specialize (IH s). destruct (f s) as [s' m']. apply IH.
Qed.

Lemma run_crit {A} (f : S → S * A) s : run (crit f) s = f s.
Proof. unfold crit. cbn. by destruct (f s). Qed.

(** ** Every section respects a relation *)

Inductive each {A} (R : S → S → Prop) : prog S A → Prop :=
| each_halt a : each R (Halt a)
| each_crit f : (∀ s, R s (f s).1) → (∀ s, each R (f s).2) → each R (Crit f).

(** Preservation of an invariant is the relation [I s → I s']. *)
Definition keeps (I : S → Prop) (s s' : S) : Prop := I s → I s'.

Lemma each_bind {A B} R (m : prog S A) (k : A → prog S B) :
  each R m → (∀ a, each R (k a)) → each R (bind m k).
Proof.
  intros Hm Hk. induction Hm as [a|f Hf _ IH]; [apply Hk|].
  constructor; intros s; specialize (Hf s); specialize (IH s); by destruct (f s).
Qed.

Lemma each_op {A} R (f : S → S * A) : (∀ s, R s (f s).1) → each R (crit f).
Proof. intros Hf. constructor; intros s; specialize (Hf s); destruct (f s); [done|constructor]. Qed.

Lemma each_run {A} R `{!PreOrder R} (m : prog S A) s : each R m → R s (run m s).1.
Proof.
  intros Hm. revert s. induction Hm as [a|f Hf _ IH]; intros s; cbn; [reflexivity|].
  specialize (Hf s). specialize (IH s). destruct (f s) as [s' m']; cbn in *. etrans; [done|apply IH].
Qed.

(** ** Goroutines *)

(** A pool of goroutines over one state. A step runs the next section of one of
    them; an environment step [E] changes the state from outside (the clock). *)
Inductive step {A} (E : S → S → Prop) : S * list (prog S A) → S * list (prog S A) → Prop :=
| step_section s ms i f s' m :
    ms !! i = Some (Crit f) → f s = (s', m) → step E (s, ms) (s', <[i := m]> ms)
| step_env s s' ms : E s s' → step E (s, ms) (s', ms).

Lemma step_each {A} E R (c c' : S * list (prog S A)) :
  step E c c' → (∀ s s', E s s' → R s s') → Forall (each R) c.2 → R c.1 c'.1 ∧ Forall (each R) c'.2.
Proof.
  intros Hstep HE Hms. destruct Hstep as [s ms i f s' m Hi Hf|s s' ms He]; cbn in *; [|by eauto].
  pose proof (Forall_lookup_1 _ _ _ _ Hms Hi) as Hc. inv Hc as [|? Hf1 Hf2].
  specialize (Hf1 s). specialize (Hf2 s). rewrite Hf in Hf1, Hf2. split; [done|]. by apply Forall_insert.
Qed.

(** The relation holds along every execution of the pool. *)
Lemma steps_each {A} E R `{!PreOrder R} (c c' : S * list (prog S A)) :
  rtc (step E) c c' → (∀ s s', E s s' → R s s') → Forall (each R) c.2 → R c.1 c'.1 ∧ Forall (each R) c'.2.
Proof.
  intros Hsteps HE. induction Hsteps as [c|c c1 c2 Hstep _ IH]; intros Hc; [split; [reflexivity|done]|].
  apply (step_each E R) in Hstep as [H1 H2]; [|done..]. destruct (IH H2) as [H3 H4]. split; [by etrans|done].
Qed.

#[export] Instance keeps_preorder I : PreOrder (keeps I).
Proof. split; unfold keeps; [by intros ?|intros s s' s'' ? ? ?; auto]. Qed.
End prog.

(** ** Responses *)

(** A Go [any] that is nil is omitted from the envelope. *)
(* go: proxmox/mockpve/server.go#envelope *)
Record envelope := { Data : option json; Message : string; Errors : gmap string string }.

Record response := { code : Z; body : envelope }.

(** A handler step either goes on with a value or has written its response. *)
Definition handler (S A : Type) : Type := prog S (response + A).

Section handler.
Context {S : Type}.

Definition ok {A} (a : A) : handler S A := Halt (inr a).
Definition hbind {A B} (m : handler S A) (k : A → handler S B) : handler S B :=
  bind m (λ r, match r with inl resp => Halt (inl resp) | inr a => k a end).
(** One section that goes on with a value. *)
Definition locked {A} (f : S → S * A) : handler S A := crit (λ s, let '(s', a) := f s in (s', inr a)).
Definition read {A} (f : S → A) : handler S A := locked (λ s, (s, f s)).

(* go: proxmox/mockpve/server.go#Server.writeError *)
Definition writeError {A} (status : Z) (msg : string) : handler S A :=
  Halt (inl {| code := status; body := {| Data := None; Message := msg; Errors := ∅ |} |}).
(* go: proxmox/mockpve/server.go#Server.writeData *)
Definition writeData (v : option json) : handler S response :=
  ok {| code := 200; body := {| Data := v; Message := ""; Errors := ∅ |} |}.

(** [if !c { s.writeError(..); return }]. *)
Definition guard (c : bool) (status : Z) (msg : string) : handler S () :=
  if c then ok () else writeError status msg.
Definition some_or {A} (o : option A) (status : Z) (msg : string) : handler S A :=
  match o with Some a => ok a | None => writeError status msg end.

(** The response of a finished handler. *)
Definition answer (r : response + response) : response := match r with inl a | inr a => a end.
Definition serve (m : handler S response) (s : S) : S * response := let '(s', r) := run m s in (s', answer r).

Lemma run_hbind {A B} (m : handler S A) (k : A → handler S B) s :
  run (hbind m k) s = match run m s with
                      | (s', inl resp) => (s', inl resp)
                      | (s', inr a) => run (k a) s'
                      end.
Proof. unfold hbind. rewrite run_bind. by destruct (run m s) as [s' [resp|a]]. Qed.

Lemma run_locked {A} (f : S → S * A) s : run (locked f) s = let '(s', a) := f s in (s', inr a).
Proof. unfold locked. rewrite run_crit. by destruct (f s). Qed.

Lemma run_read {A} (f : S → A) s : run (read f) s = (s, inr (f s)).
Proof. unfold read. by rewrite run_locked. Qed.

Lemma run_guard (c : bool) status msg s :
  run (guard c status msg) s =
    (s, if c then inr () else inl {| code := status; body := {| Data := None; Message := msg; Errors := ∅ |} |}).
Proof. by destruct c. Qed.

Lemma run_some_or {A} (o : option A) status msg s :
  run (some_or o status msg) s =
    (s, match o with Some a => inr a
        | None => inl {| code := status; body := {| Data := None; Message := msg; Errors := ∅ |} |} end).
Proof. by destruct o. Qed.

Lemma each_hbind {A B} R (m : handler S A) (k : A → handler S B) :
  each R m → (∀ a, each R (k a)) → each R (hbind m k).
Proof. intros Hm Hk. apply each_bind; [done|]. intros [resp|a]; [constructor|apply Hk]. Qed.

Lemma each_locked {A} R (f : S → S * A) : (∀ s, R s (f s).1) → each R (locked f).
Proof. intros Hf. apply each_op. intros s. specialize (Hf s). by destruct (f s). Qed.

Lemma each_read {A} R `{!Reflexive R} (f : S → A) : each R (read f).
Proof. apply each_locked. intros s. cbn. reflexivity. Qed.

Lemma each_writeError {A} R status msg : each R (writeError status msg : handler S A).
Proof. constructor. Qed.
Lemma each_writeData R v : each R (writeData v).
Proof. constructor. Qed.
Lemma each_ok {A} R (a : A) : each R (ok a : handler S A).
Proof. constructor. Qed.
Lemma each_guard R c status msg : each R (guard c status msg).
Proof. destruct c; constructor. Qed.
Lemma each_guard_bind {A} R c status msg (k : () → handler S A) :
  (c = true → each R (k ())) → each R (hbind (guard c status msg) k).
Proof. destruct c; [by intros Hk; apply Hk|constructor]. Qed.
Lemma each_some_or {A} R (o : option A) status msg : each R (some_or o status msg).
Proof. destruct o; constructor. Qed.
End handler.

Notation "'let*' x := m 'in' k" := (hbind m (λ x, k))
  (at level 10, x name, m at level 100, k at level 200, format "'let*'  x  :=  m  'in' '//' k") : go_scope.
Notation "m ;* k" := (hbind m (λ _, k)) (at level 100, k at level 200, right associativity, format "m ;* '//' k") : go_scope.

Create Rewrite HintDb run.
#[export] Hint Rewrite @run_bind @run_crit @run_hbind @run_locked @run_read @run_guard @run_some_or : run.
Create HintDb sections.
#[export] Hint Resolve each_read each_writeError each_writeData each_ok each_guard each_some_or : sections.

(** Walks through a handler down to its critical sections. *)
Ltac each_step :=
  lazymatch goal with
  | |- each _ (hbind (guard _ _ _) _) => apply each_guard_bind; intros ?
  | |- each _ (hbind _ _) => apply each_hbind; [|intros ?]
  | |- each _ (let '(_, _) := ?x in _) => destruct x
  | |- each _ (match ?x with _ => _ end) => destruct x
  | |- each _ (if ?x then _ else _) => destruct x
  | |- each _ (let x := _ in _) => cbv zeta
  | |- each _ _ => solve [auto with sections typeclass_instances]
  end.
Ltac each_sections := intros; repeat each_step.

(** ** Bounded programs

    [ends P n m]: whatever states its sections meet, [m] finishes after at most [n]
    of them, with a result satisfying [P]. *)
Inductive ends {S A} (P : A → Prop) : nat → prog S A → Prop :=
| ends_halt n a : P a → ends P n (Halt a)
| ends_crit n f : (∀ s, ends P n (f s).2) → ends P (Datatypes.S n) (Crit f).

(** The postcondition of a handler: what holds of every response it writes. *)
Definition writes {S} (P : response → Prop) (n : nat) (m : handler S response) : Prop := ends (λ r, P (answer r)) n m.

Section ends.
Context {S : Type}.

Lemma ends_weaken {A} (P Q : A → Prop) n n' (m : prog S A) :
  (∀ a, P a → Q a) → n ≤ n' → ends P n m → ends Q n' m.
Proof.
  intros HPQ Hn Hm. revert n' Hn. induction Hm as [n a Ha|n f _ IH]; intros n' Hn; [constructor; auto|].
  destruct n' as [|n']; [lia|]. constructor. intros s. apply IH. lia.
Qed.

Lemma ends_bind {A B} (P : A → Prop) (Q : B → Prop) n n' (m : prog S A) (k : A → prog S B) :
  ends P n m → (∀ a, P a → ends Q n' (k a)) → ends Q (n + n') (bind m k).
Proof.
  intros Hm Hk. induction Hm as [n a Ha|n f _ IH]; cbn.
  - eapply ends_weaken; [..|by apply Hk]; [done|lia].
  - constructor. intros s. specialize (IH s). by destruct (f s).
Qed.

(** A section of a handler, and the branches that end it early. *)
Lemma ends_locked {A B} (P : response + B → Prop) n (f : S → S * A) (k : A → handler S B) :
  (∀ s, ends P n (k (f s).2)) → ends P (Datatypes.S n) (hbind (locked f) k).
Proof. intros Hk. constructor. intros s. specialize (Hk s). by destruct (f s). Qed.

Lemma ends_ok {A B} (P : response + B → Prop) n (a : A) (k : A → handler S B) :
  ends P n (k a) → ends P n (hbind (ok a) k).
Proof. done. Qed.

Lemma ends_guard {B} (P : response + B → Prop) n c status msg (k : () → handler S B) :
  ends P n (k ()) → ends P n (writeError status msg : handler S B) → ends P n (hbind (guard c status msg) k).
Proof. by destruct c. Qed.

Lemma ends_some_or {A B} (P : response + B → Prop) n (o : option A) status msg (k : A → handler S B) :
  (∀ a, ends P n (k a)) → ends P n (writeError status msg : handler S B) → ends P n (hbind (some_or o status msg) k).
Proof. intros Hk He. by destruct o; [apply Hk|]. Qed.

Lemma ends_run {A} (P : A → Prop) n (m : prog S A) s : ends P n m → P (run m s).2.
Proof.
  intros Hm. revert s. induction Hm as [n a Ha|n f _ IH]; intros s; cbn; [done|].
  specialize (IH s). destruct (f s) as [s' m']. apply IH.
Qed.
End ends.

(** Executions that count the sections run; the environment steps are free. *)
Inductive exec {S A} (E : S → S → Prop) : nat → S * list (prog S A) → S * list (prog S A) → Prop :=
| exec_done c : exec E 0 c c
| exec_section n s ms i f s' m c' :
    ms !! i = Some (Crit f) → f s = (s', m) → exec E n (s', <[i := m]> ms) c' → exec E (Datatypes.S n) (s, ms) c'
| exec_env n s s' ms c' : E s s' → exec E n (s', ms) c' → exec E n (s, ms) c'.

(** Sections left to run, when the programs are bounded. *)
Definition left_over {S A} (P : A → Prop) (ns : list nat) (ms : list (prog S A)) : Prop := Forall2 (ends P) ns ms.

Lemma left_over_section {S A} (P : A → Prop) ns (ms : list (prog S A)) i f s s' m :
  left_over P ns ms → ms !! i = Some (Crit f) → f s = (s', m) →
  ∃ ns', left_over P ns' (<[i := m]> ms) ∧ sum_list ns = Datatypes.S (sum_list ns').
Proof.
  intros H. revert i. induction H as [|n m0 ns ms Hm H IH]; intros [|i] Hi Hf; try done; cbn in Hi; simplify_eq.
  - inversion Hm as [|n' f' Hk]; subst. exists (n' :: ns). split; [|done].
    constructor; [|done]. specialize (Hk s). by rewrite Hf in Hk.
  - destruct (IH i Hi Hf) as (ns' & Hns & Hsum). exists (n :: ns'). split; [by constructor|]. cbn. lia.
Qed.

(** No execution runs more sections than the bounds add up to. *)
Lemma exec_bound {S A} (E : S → S → Prop) (P : A → Prop) k c c' :
  exec E k c c' → ∀ ns, left_over P ns (c : S * list (prog S A)).2 →
  ∃ ns', left_over P ns' c'.2 ∧ k + sum_list ns' = sum_list ns.
Proof.
  induction 1 as [c|k s ms i f s' m c' Hi Hf _ IH|k s s' ms c' _ _ IH]; intros ns Hns; cbn in *.
  - by exists ns.
  - destruct (left_over_section P ns ms i f s s' m Hns Hi Hf) as (ns1 & Hns1 & Hsum).
    destruct (IH ns1 Hns1) as (ns' & ? & ?). exists ns'. split; [done|lia].
  - by apply IH.
Qed.

(** The result of a program that has finished. *)
Definition outcome {S A} (m : prog S A) : option A := match m with Halt a => Some a | Crit _ => None end.

(** From any pool of bounded programs the scheduler can finish every one. *)
Lemma exec_finish {S A} (E : S → S → Prop) (P : A → Prop) n ns (c : S * list (prog S A)) :
  sum_list ns = n → left_over P ns c.2 →
  ∃ k c', exec E k c c' ∧ Forall (λ m, ∃ a, outcome m = Some a ∧ P a) c'.2.
Proof.
  revert ns c. induction (lt_wf n) as [n _ IH]. intros ns [s ms] Hn Hns. cbn in Hns.
  destruct (decide (Exists (λ m : prog S A, outcome m = None) ms)) as [Hex|Hno].
  - apply Exists_exists in Hex as (m & Hin & Hm). destruct m as [|f]; [done|].
    apply list_elem_of_lookup in Hin as [i Hi]. destruct (f s) as [s' m'] eqn:Hf.
    destruct (left_over_section P ns ms i f s s' m' Hns Hi Hf) as (ns' & Hns' & Hsum).
    destruct (IH (sum_list ns') ltac:(lia) ns' (s', <[i := m']> ms) eq_refl Hns') as (k & c' & Hk & Hc').
    exists (Datatypes.S k), c'. split; [by eapply exec_section|done].
  - exists 0, (s, ms). split; [constructor|]. cbn. clear IH Hn.
    induction Hns as [|n0 m ns ms Hm Hns IH]; constructor.
    + inversion Hm; subst; [by eexists|]. exfalso. apply Hno. by left.
    + apply IH. intros Hex. apply Hno. by right.
Qed.

(** ** A scheduler

    The execution in which the goroutines run in the order of a list of indices;
    a finished goroutine is skipped. *)
Fixpoint sched {S A} (order : list nat) (c : S * list (prog S A)) : S * list (prog S A) :=
  match order with
  | [] => c
  | i :: order =>
      match c.2 !! i with
      | Some (Crit f) => let '(s', m) := f c.1 in sched order (s', <[i := m]> c.2)
      | _ => sched order c
      end
  end.

Lemma sched_steps {S A} (E : S → S → Prop) order (c : S * list (prog S A)) : rtc (step E) c (sched order c).
Proof.
  revert c. induction order as [|i order IH]; intros [s ms]; cbn; [reflexivity|].
  destruct (ms !! i) as [[a|f]|] eqn:Hi; try apply IH.
  destruct (f s) as [s' m] eqn:Hf. eapply rtc_l; [by eapply step_section|apply IH].
Qed.

(** The results of the goroutines that have finished. *)
Definition results {S A} (ms : list (prog S A)) : list (option A) := outcome <$> ms.
