(* ===== verification/MockState.v ===== *)
(** [proxmox/mockpve]: the state of the in-memory PVE responder, the records of
    its components, and the lenses the handlers write through. A Go pointer to a
    record is held by exactly one map entry, so the maps hold the records
    themselves. The clock, which the code reads from outside the mutex, is the
    field [st_clock]; components without a file of their own are left out of the
    state. *)

From S2P Require Import Prelude Json Monad.
From Stdlib Require Import ZArith Lia Floats.SpecFloat.
From stdpp Require Import options.

(* go: proxmox/mockpve/state.go#versionData *)
Record versionData := { vd_Version : string; vd_Release : string; vd_RepoID : string; vd_Console : string }.

(* go: proxmox/mockpve/state.go#ticketRecord *)
Record ticketRecord := { tk_Username : string; tk_CSRF : string }.

(** The start time in seconds since the epoch; a log line is its number and text. *)
(* go: proxmox/mockpve/state.go#taskRecord *)
Record taskRecord := {
  t_UPID : string; t_Node : string; t_Type : string; t_ID : string; t_User : string;
  t_ExitStatus : string; t_Stopped : bool; t_StartTime : Z; t_PID : Z; t_Log : list (Z * string)
}.

(* go: proxmox/mockpve/nodes.go#netIfaceRecord *)
Record netIfaceRecord := {
  if_Iface : string; if_Type : string; if_Address : string; if_Gateway : string; if_Ports : string;
  if_VLANAware : bool; if_Autostart : bool; if_Comments : string
}.

(* go: proxmox/mockpve/nodesadmin.go#aptUpdateRecord *)
Record aptUpdateRecord := {
  apt_Package : string; apt_Title : string; apt_Version : string; apt_OldVersion : string; apt_Priority : string
}.

(* go: proxmox/mockpve/nodesadmin.go#nodeRepoRecord *)
Record nodeRepoRecord := {
  rp_Types : list string; rp_URIs : list string; rp_Suites : list string; rp_Components : list string;
  rp_Enabled : bool; rp_Comment : string
}.

(* go: proxmox/mockpve/nodesadmin.go#nodeRepoFileRecord *)
Record nodeRepoFileRecord := { rf_Path : string; rf_FileType : string; rf_Repos : list nodeRepoRecord }.

(* go: proxmox/mockpve/nodesadmin.go#nodeDiskRecord *)
Record nodeDiskRecord := {
  d_DevPath : string; d_Model : string; d_Serial : string; d_Size : Z; d_Type : string; d_Health : string; d_GPT : bool
}.

(* go: proxmox/mockpve/nodesadmin.go#nodeCertRecord *)
Record nodeCertRecord := {
  c_Filename : string; c_Fingerprint : string; c_Subject : string; c_Issuer : string; c_NotBefore : Z;
  c_NotAfter : Z; c_SAN : list string; c_PEM : string; c_PublicKeyType : string; c_PublicKeyBits : Z
}.

(** A nil configuration map reads like an empty one and is made before it is
    written, so it is the empty map here. *)
(* go: proxmox/mockpve/state.go#nodeState *)
Record nodeState := {
  n_tasks : gmap string taskRecord;
  n_netIfaces : gmap string netIfaceRecord;
  n_config : gmap string string;
  n_aptUpdates : list aptUpdateRecord;
  n_repos : list nodeRepoFileRecord;
  n_disks : list nodeDiskRecord;
  n_certs : list nodeCertRecord
}.
Definition newNodeState : nodeState := {|
  n_tasks := ∅; n_netIfaces := ∅; n_config := ∅; n_aptUpdates := []; n_repos := []; n_disks := []; n_certs := [] |}.

Definition node_fields (n : nodeState) : nodeState := {|
  n_tasks := n_tasks n; n_netIfaces := n_netIfaces n; n_config := n_config n; n_aptUpdates := n_aptUpdates n;
  n_repos := n_repos n; n_disks := n_disks n; n_certs := n_certs n |}.
Definition set_tasks : (gmap string taskRecord → gmap string taskRecord) → nodeState → nodeState :=
  ltac:(setter node_fields n_tasks).
Definition set_netIfaces : (gmap string netIfaceRecord → gmap string netIfaceRecord) → nodeState → nodeState :=
  ltac:(setter node_fields n_netIfaces).
Definition set_node_config : (gmap string string → gmap string string) → nodeState → nodeState :=
  ltac:(setter node_fields n_config).
Definition set_aptUpdates : (list aptUpdateRecord → list aptUpdateRecord) → nodeState → nodeState :=
  ltac:(setter node_fields n_aptUpdates).
Definition set_repos : (list nodeRepoFileRecord → list nodeRepoFileRecord) → nodeState → nodeState :=
  ltac:(setter node_fields n_repos).
Definition set_disks : (list nodeDiskRecord → list nodeDiskRecord) → nodeState → nodeState :=
  ltac:(setter node_fields n_disks).
Definition set_certs : (list nodeCertRecord → list nodeCertRecord) → nodeState → nodeState :=
  ltac:(setter node_fields n_certs).

(** The Go values a guest configuration holds. *)
Inductive configValue := CInt (z : Z) | CStr (s : string) | CBool (b : bool).

(* go: proxmox/mockpve/qemu.go#snapRecord *)
Record snapRecord := { sn_Name : string; sn_Description : string; sn_VMState : bool; sn_SnapTime : Z }.

(* go: proxmox/mockpve/qemu.go#agentResult *)
Record agentResult := { ag_ExitCode : Z; ag_OutData : string; ag_ErrData : string }.

(* go: proxmox/mockpve/qemu.go#vmRecord *)
Record vmRecord := {
  vm_VMID : Z; vm_Node : string; vm_Name : string; vm_Status : string;
  vm_Config : gmap string configValue;
  vm_Snapshots : gmap string snapRecord;
  vm_Agent : option agentResult
}.

(** Node to guest identifier to record, for VMs and for containers. *)
(* go: proxmox/mockpve/qemu.go#qemuState *)
Definition qemuState : Type := gmap string (gmap Z vmRecord).
(* go: proxmox/mockpve/lxc.go#lxcState *)
Definition lxcState : Type := gmap string (gmap Z vmRecord).

(* go: proxmox/mockpve/storage.go#zfsRecord *)
Record zfsRecord := { z_Name : string; z_Size : Z; z_Free : Z; z_Health : string; z_State : string }.

(* go: proxmox/mockpve/storage.go#storeRecord *)
Record storeRecord := {
  s_Storage : string; s_Type : string; s_Content : string; s_Path : string; s_Pool : string; s_Nodes : string;
  s_Shared : bool; s_Disable : bool; s_Total : Z; s_Used : Z; s_Extra : gmap string string
}.

(* go: proxmox/mockpve/storage.go#volRecord *)
Record volRecord := { v_Volid : string; v_Content : string; v_Format : string; v_Size : Z; v_VMID : Z }.

(* go: proxmox/mockpve/storage.go#storageState *)
Record storageState := {
  so_stores : gmap string storeRecord;
  so_content : gmap string (gmap string (list volRecord));
  so_zfsPools : gmap string (gmap string zfsRecord);
  so_cfgVersion : Z;
  so_cfgDigest : string
}.

(* go: proxmox/mockpve/ha.go#haRuleRecord *)
Record haRuleRecord := {
  ru_Rule : string; ru_Type : string; ru_Nodes : string; ru_Resources : string; ru_Affinity : string;
  ru_Disable : bool; ru_Comment : string
}.

(* go: proxmox/mockpve/ha.go#haResourceRecord *)
Record haResourceRecord := {
  hr_SID : string; hr_Type : string; hr_State : string; hr_Node : string;
  hr_MaxRestart : Z; hr_MaxRelocate : Z; hr_Comment : string
}.

(* go: proxmox/mockpve/ha.go#haReplRecord *)
Record haReplRecord := {
  hp_ID : string; hp_Type : string; hp_Target : string; hp_Schedule : string; hp_Rate : spec_float;
  hp_Disable : bool; hp_Comment : string
}.

(* go: proxmox/mockpve/ha.go#haState *)
Record haState := {
  ha_resources : gmap string haResourceRecord;
  ha_rules : gmap string haRuleRecord;
  ha_crs : string;
  ha_armed : bool;
  ha_resourceMode : string;
  ha_repl : gmap string haReplRecord
}.

(* go: proxmox/mockpve/cluster.go#clusterResourceRecord *)
Record clusterResourceRecord := {
  cr_ID : string; cr_Type : string; cr_Node : string; cr_Status : string; cr_Name : string; cr_VMID : Z
}.

(* go: proxmox/mockpve/cluster.go#clusterStatusRecord *)
Record clusterStatusRecord := {
  cs_ID : string; cs_Type : string; cs_Name : string; cs_Nodes : Z; cs_Quorate : bool; cs_Online : bool
}.

(* go: proxmox/mockpve/cluster.go#clusterState *)
Record clusterState := {
  cl_options : gmap string string;
  cl_resources : list clusterResourceRecord;
  cl_status : list clusterStatusRecord;
  cl_clustered : bool;
  cl_name : string;
  cl_selfNode : string;
  cl_members : list string;
  cl_joinQueue : list string
}.

(* go: proxmox/mockpve/access.go#accessUserRecord *)
Record accessUserRecord := {
  au_UserID : string; au_Email : string; au_Comment : string; au_FirstName : string; au_LastName : string;
  au_Enable : bool; au_Expire : Z; au_Groups : list string
}.

(* go: proxmox/mockpve/access.go#accessGroupRecord *)
Record accessGroupRecord := { ag_GroupID : string; ag_Comment : string; ag_Members : list string }.

(* go: proxmox/mockpve/access.go#accessRoleRecord *)
Record accessRoleRecord := { ar_RoleID : string; ar_Privs : list string; ar_Special : bool }.

(* go: proxmox/mockpve/access.go#accessACLRecord *)
Record accessACLRecord := {
  ac_Path : string; ac_RoleID : string; ac_Type : string; ac_UGID : string; ac_Propagate : bool
}.

(* go: proxmox/mockpve/access.go#accessTokenRecord *)
Record accessTokenRecord := { at_TokenID : string; at_Comment : string; at_Expire : Z; at_Privsep : bool }.

(* go: proxmox/mockpve/access.go#accessState *)
Record accessState := {
  ac_users : gmap string accessUserRecord;
  ac_groups : gmap string accessGroupRecord;
  ac_roles : gmap string accessRoleRecord;
  ac_acls : list accessACLRecord;
  ac_tokens : gmap string (gmap string accessTokenRecord)
}.

(* go: proxmox/mockpve/firewall.go#fwRuleRecord *)
Record fwRuleRecord := {
  fr_Type : string; fr_Action : string; fr_Enable : bool; fr_Macro : string; fr_Proto : string;
  fr_Source : string; fr_Dest : string; fr_Sport : string; fr_Dport : string; fr_Iface : string;
  fr_Log : string; fr_Comment : string
}.

(* go: proxmox/mockpve/firewall.go#fwEntryRecord *)
Record fwEntryRecord := { fe_CIDR : string; fe_NoMatch : bool; fe_Comment : string }.

(* go: proxmox/mockpve/firewall.go#fwIPSetRecord *)
Record fwIPSetRecord := { fi_Name : string; fi_Comment : string; fi_entries : gmap string fwEntryRecord }.

(* go: proxmox/mockpve/firewall.go#fwScope *)
Record fwScope := {
  fw_rules : list fwRuleRecord;
  fw_ipsets : gmap string fwIPSetRecord;
  fw_options : gmap string string
}.

(* go: proxmox/mockpve/firewall.go#firewallState *)
Definition firewallState : Type := gmap string fwScope.

(* go: proxmox/mockpve/sdn.go#sdnZoneRecord *)
Record sdnZoneRecord := {
  sz_Zone : string; sz_Type : string; sz_MTU : Z; sz_Nodes : string; sz_IPAM : string; sz_Controller : string;
  sz_VRFVXLan : Z; sz_Peers : string; sz_Bridge : string
}.

(* go: proxmox/mockpve/sdn.go#sdnVNetRecord *)
Record sdnVNetRecord := { sv_VNet : string; sv_Zone : string; sv_Tag : Z; sv_Alias : string }.

(* go: proxmox/mockpve/sdn.go#sdnSubnetRecord *)
Record sdnSubnetRecord := { ss_Subnet : string; ss_VNet : string; ss_Gateway : string; ss_SNAT : bool }.

(* go: proxmox/mockpve/sdn.go#sdnFabricRecord *)
Record sdnFabricRecord := {
  sf_Fabric : string; sf_Protocol : string; sf_IPPrefix : string; sf_IP6Prefix : string; sf_RouteFilter : string
}.

(* go: proxmox/mockpve/sdn.go#sdnFabricNodeRecord *)
Record sdnFabricNodeRecord := {
  sn_NodeID : string; sn_Fabric : string; sn_Protocol : string; sn_IP : string; sn_IP6 : string;
  sn_Interfaces : list string
}.

(* go: proxmox/mockpve/sdn.go#sdnState *)
Record sdnState := {
  sd_zones : gmap string sdnZoneRecord;
  sd_vnets : gmap string sdnVNetRecord;
  sd_fabrics : gmap string sdnFabricRecord;
  sd_subnets : gmap string (gmap string sdnSubnetRecord);
  sd_fabricNodes : gmap string (gmap string sdnFabricNodeRecord)
}.

(* go: proxmox/mockpve/metrics.go#metricServerRecord *)
Record metricServerRecord := { ms_ID : string; ms_Type : string; ms_Server : string; ms_Port : Z; ms_Disable : bool }.

(* go: proxmox/mockpve/metrics.go#metricsState *)
Definition metricsState : Type := gmap string metricServerRecord.

(* go: proxmox/mockpve/ceph.go#cephPoolRecord *)
Record cephPoolRecord := { cp_Name : string; cp_Size : Z; cp_MinSize : Z; cp_PGNum : Z; cp_Type : string }.

(* go: proxmox/mockpve/ceph.go#cephOSDRecord *)
Record cephOSDRecord := { co_ID : Z; co_Host : string }.

(* go: proxmox/mockpve/ceph.go#cephState *)
Record cephState := { ce_pools : gmap string cephPoolRecord; ce_osds : list cephOSDRecord }.

(* go: proxmox/mockpve/pbs.go#backupJobRecord *)
Record backupJobRecord := {
  bj_ID : string; bj_Schedule : string; bj_Storage : string; bj_Mode : string; bj_Enabled : bool;
  bj_Mailto : string; bj_Comment : string
}.

(* go: proxmox/mockpve/pbs.go#pbsState *)
Record pbsState := { pb_jobs : gmap string backupJobRecord; pb_seq : Z }.

(** Ticket value to the dial path it is good for. *)
(* go: proxmox/mockpve/console.go#consoleState *)
Definition consoleState : Type := gmap string string.

(* go: proxmox/mockpve/nodesadmin.go#acmeAccountRecord *)
Record acmeAccountRecord := {
  aa_Name : string; aa_Directory : string; aa_Location : string; aa_TOS : string; aa_Contact : list string
}.

(* go: proxmox/mockpve/acme.go#acmePluginRecord *)
Record acmePluginRecord := {
  ap_ID : string; ap_Type : string; ap_API : string; ap_Data : string; ap_ValidationDelay : string;
  ap_Nodes : string; ap_Disable : string
}.

(* go: proxmox/mockpve/state.go#state *)
Record state := {
  st_clock : Z;
  st_version : versionData;
  st_nodes : gmap string nodeState;
  st_tickets : gmap string ticketRecord;
  st_users : gmap string string;
  st_qemu : qemuState;
  st_lxc : lxcState;
  st_storage : storageState;
  st_ha : haState;
  st_cluster : clusterState;
  st_access : accessState;
  st_firewall : firewallState;
  st_sdn : sdnState;
  st_metrics : metricsState;
  st_ceph : cephState;
  st_pbs : pbsState;
  st_console : consoleState;
  st_acmeAccounts : gmap string acmeAccountRecord;
  st_acmePlugins : gmap string acmePluginRecord
}.

(** The seed of [New]. *)
(* go: proxmox/mockpve/server.go#New *)
Definition New (clock : Z) : state := {|
  st_clock := clock;
  st_version := {| vd_Version := "9.0.3"; vd_Release := "9.0"; vd_RepoID := "mockpve"; vd_Console := "xtermjs" |};
  st_nodes := {[ "pve" := newNodeState ]};
  st_tickets := ∅;
  st_users := ∅;
  st_qemu := ∅;
  st_lxc := ∅;
  st_storage := {| so_stores := ∅; so_content := ∅; so_zfsPools := ∅; so_cfgVersion := 0; so_cfgDigest := "" |};
  st_ha := {| ha_resources := ∅; ha_rules := ∅; ha_crs := ""; ha_armed := true; ha_resourceMode := ""; ha_repl := ∅ |};
  st_cluster := {| cl_options := ∅; cl_resources := []; cl_status := []; cl_clustered := false; cl_name := "";
                   cl_selfNode := ""; cl_members := []; cl_joinQueue := [] |};
  st_access := {| ac_users := ∅; ac_groups := ∅; ac_roles := ∅; ac_acls := []; ac_tokens := ∅ |};
  st_firewall := ∅;
  st_sdn := {| sd_zones := ∅; sd_vnets := ∅; sd_fabrics := ∅; sd_subnets := ∅; sd_fabricNodes := ∅ |};
  st_metrics := ∅;
  st_ceph := {| ce_pools := ∅; ce_osds := [] |};
  st_pbs := {| pb_jobs := ∅; pb_seq := 0 |};
  st_console := ∅;
  st_acmeAccounts := ∅;
  st_acmePlugins := ∅
|}.

(** ** Writing one field of the state

    A setter rewrites one field with a function of its old value and copies the
    others. [state_fields] spells the record out once; the tactic abstracts the
    chosen projection in it. *)

Definition state_fields (s : state) : state := {|
  st_clock := st_clock s; st_version := st_version s; st_nodes := st_nodes s; st_tickets := st_tickets s;
  st_users := st_users s; st_qemu := st_qemu s; st_lxc := st_lxc s; st_storage := st_storage s;
  st_ha := st_ha s; st_cluster := st_cluster s; st_access := st_access s; st_firewall := st_firewall s;
  st_sdn := st_sdn s; st_metrics := st_metrics s; st_ceph := st_ceph s; st_pbs := st_pbs s;
  st_console := st_console s; st_acmeAccounts := st_acmeAccounts s; st_acmePlugins := st_acmePlugins s
|}.

Definition set_nodes : (gmap string nodeState → gmap string nodeState) → state → state :=
  ltac:(setter state_fields st_nodes).
Definition set_tickets : (gmap string ticketRecord → gmap string ticketRecord) → state → state :=
  ltac:(setter state_fields st_tickets).
Definition set_users : (gmap string string → gmap string string) → state → state :=
  ltac:(setter state_fields st_users).
Definition set_qemu : (qemuState → qemuState) → state → state := ltac:(setter state_fields st_qemu).
Definition set_lxc : (lxcState → lxcState) → state → state := ltac:(setter state_fields st_lxc).
Definition set_storage : (storageState → storageState) → state → state := ltac:(setter state_fields st_storage).
Definition set_ha : (haState → haState) → state → state := ltac:(setter state_fields st_ha).
Definition set_cluster : (clusterState → clusterState) → state → state := ltac:(setter state_fields st_cluster).
Definition set_access : (accessState → accessState) → state → state := ltac:(setter state_fields st_access).
Definition set_firewall : (firewallState → firewallState) → state → state := ltac:(setter state_fields st_firewall).
Definition set_sdn : (sdnState → sdnState) → state → state := ltac:(setter state_fields st_sdn).
Definition set_metrics : (metricsState → metricsState) → state → state := ltac:(setter state_fields st_metrics).
Definition set_ceph : (cephState → cephState) → state → state := ltac:(setter state_fields st_ceph).
Definition set_pbs : (pbsState → pbsState) → state → state := ltac:(setter state_fields st_pbs).
Definition set_console : (consoleState → consoleState) → state → state := ltac:(setter state_fields st_console).
Definition set_acmeAccounts : (gmap string acmeAccountRecord → gmap string acmeAccountRecord) → state → state :=
  ltac:(setter state_fields st_acmeAccounts).
Definition set_acmePlugins : (gmap string acmePluginRecord → gmap string acmePluginRecord) → state → state :=
  ltac:(setter state_fields st_acmePlugins).
Definition update_version : (versionData → versionData) → state → state := ltac:(setter state_fields st_version).
Definition update_clock : (Z → Z) → state → state := ltac:(setter state_fields st_clock).
Definition set_version (v : versionData) : state → state := update_version (λ _, v).
Definition set_clock (now : Z) : state → state := update_clock (λ _, now).

(** What the world outside the mutex may do between two sections: time passes. *)
Inductive tick : state → state → Prop :=
| tick_forward s now : (st_clock s ≤ now)%Z → tick s (set_clock now s).

(** ** Requests

    What the handlers read of an [http.Request]: the method, the decoded URL path,
    the first Authorization header, the [PVEAuthCookie] cookie, the path values, the
    query, the form in the body's text ([None] when the text or the query is
    malformed), the number of bytes [ParseForm] has to read for it, and the multipart
    form ([None] when it failed): its values and the file part's name and size. *)
Record request := {
  Method : string;
  URLPath : string;
  Authorization : string;
  Cookie : option string;
  Path : gmap string string;
  Query : values;
  BodyForm : option values;
  BodyLen : Z;
  Multipart : option (values * option (string * Z))
}.
(* go: proxmox/mockpve/handlers.go#maxFormBytes *)
Definition maxFormBytes : Z := Z.shiftl 1 20.
(** What [http.MaxBytesReader] and [ParseForm] put into [r.PostForm]: nothing when the
    body is larger than the cap. *)
Definition PostForm (r : request) : option values := if (BodyLen r <=? maxFormBytes)%Z then BodyForm r else None.
Definition PathValue (r : request) (name : string) : string := default "" (Path r !! name).

Definition M (A : Type) : Type := handler state A.
