(* ===== verification/MockServer.v ===== *)
(** [mockpve/server.go] and [mockpve/handlers.go]: seeding, authentication,
    tickets and tasks, and the synthetic tasks every asynchronous operation
    leaves behind. *)

From S2P Require Import Prelude Json Monad MockState.
From Stdlib Require Import ZArith Lia.
From stdpp Require Import options.

(* go: proxmox/mockpve/qemu.go#L13-L54 *)
Definition mockTaskUser : string := "root@pam".
Definition vmStatusStopped : string := "stopped".
Definition vmStatusRunning : string := "running".
Definition msgNoSuchVM : string := "no such VM".
Definition msgInvalidVMID : string := "invalid vmid".
Definition msgInvalidForm : string := "invalid form body".
Definition msgNoSuchStorage : string := "no such storage".
Definition msgNoSuchVolume : string := "no such volume".
Definition msgNoSuchZFSPool : string := "no such zfs pool".
Definition msgNoSuchHAResource : string := "no such ha resource".
Definition msgNoSuchHARule : string := "no such ha rule".
Definition msgNoSuchReplJob : string := "no such replication job".
Definition msgNoSuchIface : string := "no such network interface".

(** ** Seeding *)

(* go: proxmox/mockpve/server.go#Server.SeedVersion *)
Definition SeedVersion (version release repoID : string) : state → state :=
  set_version {| vd_Version := version; vd_Release := release; vd_RepoID := repoID; vd_Console := "xtermjs" |}.

(** [ensureNodeLocked], also the first lines of [AddNode] and [AddTask]. *)
(* go: proxmox/mockpve/nodes.go#Server.ensureNodeLocked *)
Definition ensureNode (node : string) (ns : gmap string nodeState) : nodeState := default newNodeState (ns !! node).

(* go: proxmox/mockpve/server.go#Server.AddNode *)
Definition AddNode (node : string) : state → state := set_nodes (λ ns, <[node := ensureNode node ns]> ns).

(* go: proxmox/mockpve/server.go#Server.AddUser *)
Definition AddUser (username password : string) : state → state := set_users <[username := password]>.

(** ** Tasks *)

(* go: proxmox/mockpve/handlers.go#Server.lookupTask *)
Definition lookupTask (s : state) (node upid : string) : option taskRecord :=
  n ← st_nodes s !! node; n_tasks n !! upid.

(* go: proxmox/mockpve/server.go#Server.AddTask *)
Definition AddTask (node upid taskType id user : string) (log : list (Z * string)) (s : state) : state :=
  let rec := {| t_UPID := upid; t_Node := node; t_Type := taskType; t_ID := id; t_User := user;
                t_ExitStatus := ""; t_Stopped := false; t_StartTime := st_clock s; t_PID := 1000; t_Log := log |} in
  set_nodes (λ ns, <[node := set_tasks <[upid := rec]> (ensureNode node ns)]> ns) s.

Definition stop (exitStatus : string) (rec : taskRecord) : taskRecord :=
  {| t_UPID := t_UPID rec; t_Node := t_Node rec; t_Type := t_Type rec; t_ID := t_ID rec; t_User := t_User rec;
     t_ExitStatus := exitStatus; t_Stopped := true; t_StartTime := t_StartTime rec; t_PID := t_PID rec;
     t_Log := t_Log rec |}.

(* go: proxmox/mockpve/server.go#Server.FinishTask *)
Definition FinishTask (node upid exitStatus : string) : state → state :=
  set_nodes (alter (set_tasks (alter (stop exitStatus) upid)) node).

(** [synthUPID] reads the clock outside the mutex. *)
Definition upid_at (now : Z) (node taskType id : string) : string :=
  "UPID:" +:+ node +:+ ":00000001:00000001:" +:+ format_int 16 now +:+ ":" +:+ taskType +:+ ":" +:+ id +:+
  ":" +:+ mockTaskUser +:+ ":".
(* go: proxmox/mockpve/qemu.go#synthUPID *)
Definition synthUPID (node taskType id : string) : M string :=
  read (λ s, upid_at (st_clock s) node taskType id).

(* go: proxmox/mockpve/qemu.go#Server.finishedTask *)
Definition finishedTask (node taskType id : string) : M string :=
  let* upid := synthUPID node taskType id in
  locked (λ s, (AddTask node upid taskType id mockTaskUser [] s, ())) ;*
  locked (λ s, (FinishTask node upid "OK" s, ())) ;*
  ok upid.

(** [s.writeData(w, s.finishedTask(..))]. *)
Definition writeTask (node taskType id : string) : M response :=
  let* upid := finishedTask node taskType id in
  writeData (Some (JStr upid)).

(** ** Requests *)

Definition tokenPrefix : string := "PVEAPIToken=".
(** The header test of [checkAuth]. *)
Definition token_auth (auth : string) : bool :=
  has_prefix auth tokenPrefix && contains (trim_prefix auth tokenPrefix) "=".

(* go: proxmox/mockpve/server.go#Server.checkAuth *)
Definition checkAuth (r : request) : M () :=
  if token_auth (Authorization r) then ok ()
  else match Cookie r with
       | None => writeError 401 "authentication failure"
       | Some ticket =>
           let* known := read (λ s, bool_decide (is_Some (st_tickets s !! ticket))) in
           guard known 401 "authentication failure"
       end.

(** [http.MaxBytesReader] and [ParseForm] are in [PostForm]; a body over the cap is
    refused like a malformed one. *)
(* go: proxmox/mockpve/server.go#Server.parseForm *)
Definition parseForm (r : request) : M values := some_or (PostForm r) 400 msgInvalidForm.

(** [strconv.Atoi(r.PathValue(name))] and its error response. *)
Definition vmidOf (v : string) : M Z := some_or (atoi v) 400 msgInvalidVMID.

(** ** Handlers *)

(* go: proxmox/mockpve/handlers.go#versionPayload *)
Definition versionPayload (v : versionData) : json :=
  JObj ([("version", JStr (vd_Version v)); ("release", JStr (vd_Release v)); ("repoid", JStr (vd_RepoID v))] ++
        omit_str "console" (vd_Console v)).

(* go: proxmox/mockpve/handlers.go#Server.handleVersion *)
Definition handleVersion (r : request) : M response :=
  checkAuth r ;*
  let* v := read st_version in
  writeData (Some (versionPayload v)).

(* go: proxmox/mockpve/handlers.go#ticketPayload *)
Definition ticketPayload (ticket csrf username : string) : json :=
  JObj [("ticket", JStr ticket); ("CSRFPreventionToken", JStr csrf); ("username", JStr username)].

(** [r.Form.Get(key)]: the body first, then the query. *)
Definition form_get (r : request) (f : values) (key : string) : string :=
  match f !! key with Some (v :: _) => v | _ => vget (Query r) key end.

(* go: proxmox/mockpve/handlers.go#Server.handleTicket *)
Definition handleTicket (r : request) : M response :=
  let* f := some_or (PostForm r) 400 "invalid form body" in
  let user := form_get r f "username" in
  let pass := form_get r f "password" in
  let ticket := "mock-ticket-" +:+ user in
  let csrf := "mock-csrf-" +:+ user in
  let* authed := locked (λ s,
    let authed := bool_decide (st_users s !! user = Some pass) in
    (if authed then set_tickets <[ticket := {| tk_Username := user; tk_CSRF := csrf |}]> s else s, authed)) in
  guard authed 401 "authentication failure" ;*
  writeData (Some (ticketPayload ticket csrf user)).

(* go: proxmox/mockpve/handlers.go#taskStatusPayload *)
Definition taskStatusPayload (rec : taskRecord) : json :=
  JObj ([("upid", JStr (t_UPID rec)); ("node", JStr (t_Node rec)); ("type", JStr (t_Type rec));
         ("id", JStr (t_ID rec)); ("user", JStr (t_User rec));
         ("status", JStr (if t_Stopped rec then "stopped" else "running"))] ++
        omit_str "exitstatus" (t_ExitStatus rec) ++
        [("pid", jint (t_PID rec)); ("starttime", jint (t_StartTime rec))]).

(* go: proxmox/mockpve/handlers.go#Server.handleTaskStatus *)
Definition handleTaskStatus (r : request) : M response :=
  checkAuth r ;*
  let* rec := read (λ s, lookupTask s (PathValue r "node") (PathValue r "upid")) in
  let* rec := some_or rec 404 "no such task" in
  writeData (Some (taskStatusPayload rec)).

(** An absent log is a nil slice, which encodes as [null]. *)
Definition logPayload (log : list (Z * string)) : json :=
  match log with
  | [] => JNull
  | _ => JArr ((λ nt, JObj [("n", jint nt.1); ("t", JStr nt.2)]) <$> log)
  end.

(* go: proxmox/mockpve/handlers.go#Server.handleTaskLog *)
Definition handleTaskLog (r : request) : M response :=
  checkAuth r ;*
  let* rec := read (λ s, lookupTask s (PathValue r "node") (PathValue r "upid")) in
  let* rec := some_or rec 404 "no such task" in
  writeData (Some (logPayload (t_Log rec))).
