(* ===== verification/MockGuests.v ===== *)
(** What QEMU machines and containers share: the two-level map of guest records,
    the configuration form, the snapshot payloads and the power states. *)

From S2P Require Import Prelude Json Monad MockState MockServer.
From Stdlib Require Import ZArith Lia Ascii.
From stdpp Require Import options.

Abbreviation guests := (gmap string (gmap Z vmRecord)).

(** ** The guest map *)

Definition lookupGuest (g : guests) (node : string) (vmid : Z) : option vmRecord := n ← g !! node; n !! vmid.
Definition putGuest (node : string) (vmid : Z) (rec : vmRecord) (g : guests) : guests :=
  <[node := <[vmid := rec]> (default ∅ (g !! node))]> g.
Definition removeGuest (node : string) (vmid : Z) (g : guests) : guests := alter (delete vmid) node g.
(** Writing a field of the record a lookup returned. *)
Definition updateGuest (f : vmRecord → vmRecord) (node : string) (vmid : Z) (g : guests) : guests :=
  alter (alter f vmid) node g.

(** A fresh record; [key] is the configuration key that reports the name. *)
Definition newGuest (key node : string) (vmid : Z) (name status : string) : vmRecord := {|
  vm_VMID := vmid; vm_Node := node; vm_Name := name; vm_Status := status;
  vm_Config := if name =s "" then ∅ else {[ key := CStr name ]};
  vm_Snapshots := ∅;
  vm_Agent := None
|}.

Definition set_config (f : gmap string configValue → gmap string configValue) (rec : vmRecord) : vmRecord :=
  {| vm_VMID := vm_VMID rec; vm_Node := vm_Node rec; vm_Name := vm_Name rec; vm_Status := vm_Status rec;
     vm_Config := f (vm_Config rec); vm_Snapshots := vm_Snapshots rec; vm_Agent := vm_Agent rec |}.
Definition set_status (status : string) (rec : vmRecord) : vmRecord :=
  {| vm_VMID := vm_VMID rec; vm_Node := vm_Node rec; vm_Name := vm_Name rec; vm_Status := status;
     vm_Config := vm_Config rec; vm_Snapshots := vm_Snapshots rec; vm_Agent := vm_Agent rec |}.
Definition set_snapshots (f : gmap string snapRecord → gmap string snapRecord) (rec : vmRecord) : vmRecord :=
  {| vm_VMID := vm_VMID rec; vm_Node := vm_Node rec; vm_Name := vm_Name rec; vm_Status := vm_Status rec;
     vm_Config := vm_Config rec; vm_Snapshots := f (vm_Snapshots rec); vm_Agent := vm_Agent rec |}.
Definition set_node (node : string) (rec : vmRecord) : vmRecord :=
  {| vm_VMID := vm_VMID rec; vm_Node := node; vm_Name := vm_Name rec; vm_Status := vm_Status rec;
     vm_Config := vm_Config rec; vm_Snapshots := vm_Snapshots rec; vm_Agent := vm_Agent rec |}.
Definition set_agent (a : agentResult) (rec : vmRecord) : vmRecord :=
  {| vm_VMID := vm_VMID rec; vm_Node := vm_Node rec; vm_Name := vm_Name rec; vm_Status := vm_Status rec;
     vm_Config := vm_Config rec; vm_Snapshots := vm_Snapshots rec; vm_Agent := Some a |}.

(** ** Configuration forms *)

(* go: proxmox/mockpve/qemu.go#parseConfigValue *)
Definition parseConfigValue (v : string) : configValue :=
  match atoi v with Some n => CInt n | None => CStr v end.

Definition config_delete (del : string) (cfg : gmap string configValue) : gmap string configValue :=
  if del =s "" then cfg else foldl (λ cfg k, delete (trim_space k) cfg) cfg (split_byte "," del).
Definition config_set (form : values) (cfg : gmap string configValue) (key : string) : gmap string configValue :=
  if key =s "delete" then cfg else <[key := parseConfigValue (vget form key)]> cfg.

(** The loop over the form visits its keys in some order; [keys] is one. *)
(* go: proxmox/mockpve/lxc.go#applyConfigForm *)
Definition applyConfigForm (form : values) (cfg : gmap string configValue) : gmap string configValue :=
  foldl (config_set form) (config_delete (vget form "delete") cfg) (keys form).

Definition config_json (v : configValue) : json :=
  match v with CInt z => jint z | CStr s => JStr s | CBool b => JBool b end.
(** [fmt.Sprintf("%v", v)]. *)
Definition config_text (v : configValue) : string :=
  match v with CInt z => itoa z | CStr s => s | CBool b => if b then "true" else "false" end.

(** ** Power states *)

(* go: proxmox/mockpve/qemu.go#qemuPowerStatus *)
Definition qemuPowerStatus (action : string) : string :=
  if (action =s "start") || (action =s "reboot") || (action =s "resume") then vmStatusRunning
  else if (action =s "stop") || (action =s "shutdown") then vmStatusStopped
  else if action =s "suspend" then "suspended"
  else "".

(* go: proxmox/mockpve/qemu.go#powerVerbs *)
Definition powerVerbs : list string := ["start"; "stop"; "shutdown"; "reboot"; "suspend"; "resume"].

(** ** Payloads *)

(* go: proxmox/mockpve/qemu.go#qemuListEntry *)
Definition qemuListEntry (rec : vmRecord) (template : Z) : json :=
  JObj ([("vmid", jint (vm_VMID rec))] ++ omit_str "name" (vm_Name rec) ++
        [("status", JStr (vm_Status rec))] ++ omit_int "template" template).

(* go: proxmox/mockpve/qemu.go#qemuStatusPayload *)
Definition qemuStatusPayload (rec : vmRecord) : json :=
  JObj ([("vmid", jint (vm_VMID rec))] ++ omit_str "name" (vm_Name rec) ++ [("status", JStr (vm_Status rec))]).

(* go: proxmox/mockpve/qemu.go#qemuSnapshotPayload *)
Definition qemuSnapshotPayload (name description : string) (vmstate snaptime : Z) : json :=
  JObj ([("name", JStr name)] ++ omit_str "description" description ++
        omit_int "vmstate" vmstate ++ omit_int "snaptime" snaptime).

Definition currentSnapshot : json := qemuSnapshotPayload "current" "You are here!" 0 0.

(** The records of one node, and of a snapshot map, in some iteration order. *)
Definition guestsOf (g : guests) (node : string) : list vmRecord := (map_to_list (default ∅ (g !! node))).*2.
Definition snapshotsOf (rec : vmRecord) : list snapRecord := (map_to_list (vm_Snapshots rec)).*2.

Definition newSnapshot (name description : string) (vmstate : bool) : snapRecord :=
  {| sn_Name := name; sn_Description := description; sn_VMState := vmstate; sn_SnapTime := 0 |}.

(** The test of [snapshotTarget] and [lxcSnapshotTarget]. *)
Definition has_snapshot (g : guests) (node : string) (vmid : Z) (name : string) : bool :=
  match lookupGuest g node vmid with
  | Some rec => bool_decide (is_Some (vm_Snapshots rec !! name))
  | None => false
  end.
