(* ===== verification/MockQemu.v ===== *)
(** [mockpve/qemu.go]: the QEMU handlers. Each [Lock]/[Unlock] pair of the code is
    one critical section; a handler that locks twice (create, clone, delete,
    snapshot delete, and every one that records a task) can be interleaved
    between its sections. *)

From S2P Require Import Prelude Json Monad MockState MockServer MockGuests.
From Stdlib Require Import ZArith Lia.
From stdpp Require Import options.

(** ** Seeding and lookup *)

(* go: proxmox/mockpve/qemu.go#Server.AddVM *)
Definition AddVM (node : string) (vmid : Z) (name status : string) : state → state :=
  set_qemu (putGuest node vmid (newGuest "name" node vmid name status)).

(* go: proxmox/mockpve/qemu.go#Server.SetVMConfig *)
Definition SetVMConfig (node : string) (vmid : Z) (fields : gmap string configValue) : state → state :=
  set_qemu (updateGuest (set_config (union fields)) node vmid).

(* go: proxmox/mockpve/qemu.go#Server.SetVMAgentResult *)
Definition SetVMAgentResult (node : string) (vmid exitCode : Z) (outData errData : string) : state → state :=
  set_qemu (updateGuest (set_agent {| ag_ExitCode := exitCode; ag_OutData := outData; ag_ErrData := errData |})
              node vmid).

(* go: proxmox/mockpve/qemu.go#Server.lookupVM *)
Definition lookupVM (s : state) (node : string) (vmid : Z) : option vmRecord := lookupGuest (st_qemu s) node vmid.

(* go: proxmox/mockpve/qemu.go#Server.vmExists *)
Definition vmExists (node : string) (vmid : Z) : M bool := read (λ s, bool_decide (is_Some (lookupVM s node vmid))).

(* go: proxmox/mockpve/qemu.go#Server.removeVM *)
Definition removeVM (node : string) (vmid : Z) : M () := locked (λ s, (set_qemu (removeGuest node vmid) s, ())).

(** ** Reads *)

(* go: proxmox/mockpve/qemu.go#Server.handleQEMUList *)
Definition handleQEMUList (r : request) : M response :=
  checkAuth r ;*
  let* recs := read (λ s, guestsOf (st_qemu s) (PathValue r "node")) in
  writeData (Some (JArr ((λ rec,
    qemuListEntry rec (match vm_Config rec !! "template" with Some (CInt n) => n | _ => 0%Z end)) <$> recs))).

(* go: proxmox/mockpve/qemu.go#Server.handleQEMUStatus *)
Definition handleQEMUStatus (r : request) : M response :=
  checkAuth r ;*
  let* vmid := vmidOf (PathValue r "vmid") in
  let* rec := read (λ s, lookupVM s (PathValue r "node") vmid) in
  let* rec := some_or rec 404 msgNoSuchVM in
  writeData (Some (qemuStatusPayload rec)).

(** The memory value is reported as text, like the live server does. *)
Definition qemu_config_payload (cfg : gmap string configValue) : json :=
  jmap (match cfg !! "memory" with
        | Some v => <["memory" := JStr (config_text v)]> (config_json <$> cfg)
        | None => config_json <$> cfg
        end).

(* go: proxmox/mockpve/qemu.go#Server.handleQEMUConfig *)
Definition handleQEMUConfig (r : request) : M response :=
  checkAuth r ;*
  let* vmid := vmidOf (PathValue r "vmid") in
  let* rec := read (λ s, lookupVM s (PathValue r "node") vmid) in
  let* rec := some_or rec 404 msgNoSuchVM in
  writeData (Some (qemu_config_payload (vm_Config rec))).

(** ** Writes *)

(** One section that looks the guest up and updates it if it is there. *)
Definition update_vm (f : vmRecord → vmRecord) (node : string) (vmid : Z) : M (option vmRecord) :=
  locked (λ s, (set_qemu (updateGuest f node vmid) s, lookupVM s node vmid)).

(* go: proxmox/mockpve/qemu.go#Server.handleQEMUSetConfig *)
Definition handleQEMUSetConfig (r : request) : M response :=
  checkAuth r ;*
  let* vmid := vmidOf (PathValue r "vmid") in
  let* form := parseForm r in
  let* rec := update_vm (set_config (applyConfigForm form)) (PathValue r "node") vmid in
  some_or rec 404 msgNoSuchVM ;*
  writeData None.

(* go: proxmox/mockpve/qemu.go#Server.handleQEMUCreate *)
Definition handleQEMUCreate (r : request) : M response :=
  checkAuth r ;*
  let node := PathValue r "node" in
  let* form := parseForm r in
  let vmid := vget form "vmid" in
  let* id := vmidOf vmid in
  locked (λ s, (AddVM node id (vget form "name") vmStatusStopped s, ())) ;*
  let form := delete "vmid" form in
  update_vm (set_config (applyConfigForm form)) node id ;*
  writeTask node "qmcreate" vmid.

(* go: proxmox/mockpve/qemu.go#Server.handleQEMUClone *)
Definition handleQEMUClone (r : request) : M response :=
  checkAuth r ;*
  let node := PathValue r "node" in
  let* src := vmidOf (PathValue r "vmid") in
  let* exists_ := vmExists node src in
  guard exists_ 404 msgNoSuchVM ;*
  let* form := parseForm r in
  let* newID := some_or (atoi (vget form "newid")) 400 "invalid newid" in
  locked (λ s, (AddVM node newID (vget form "name") vmStatusStopped s, ())) ;*
  writeTask node "qmclone" (itoa src).

(* go: proxmox/mockpve/qemu.go#Server.handleQEMUTemplate *)
Definition handleQEMUTemplate (r : request) : M response :=
  checkAuth r ;*
  let node := PathValue r "node" in
  let* vmid := vmidOf (PathValue r "vmid") in
  let* found := locked (λ s,
    let rec := lookupVM s node vmid in
    let running := match rec with Some rec => vm_Status rec <>s vmStatusStopped | None => false end in
    (if running then s else set_qemu (updateGuest (set_config <["template" := CInt 1]>) node vmid) s,
     (rec, running))) in
  some_or found.1 404 msgNoSuchVM ;*
  guard (negb found.2) 400 "you can't convert a VM to template if the VM is running" ;*
  writeTask node "qmtemplate" (itoa vmid).

(* go: proxmox/mockpve/qemu.go#Server.handleQEMUDelete *)
Definition handleQEMUDelete (r : request) : M response :=
  checkAuth r ;*
  let node := PathValue r "node" in
  let* vmid := vmidOf (PathValue r "vmid") in
  let* exists_ := vmExists node vmid in
  guard exists_ 404 msgNoSuchVM ;*
  removeVM node vmid ;*
  writeTask node "qmdestroy" (itoa vmid).

(* go: proxmox/mockpve/qemu.go#Server.handleQEMUPower *)
Definition handleQEMUPower (action : string) (r : request) : M response :=
  checkAuth r ;*
  let node := PathValue r "node" in
  let* vmid := vmidOf (PathValue r "vmid") in
  let* rec := update_vm (set_status (qemuPowerStatus action)) node vmid in
  some_or rec 404 msgNoSuchVM ;*
  writeTask node ("qm" +:+ action) (itoa vmid).

(* go: proxmox/mockpve/qemu.go#Server.handleQEMUResize *)
Definition handleQEMUResize (r : request) : M response :=
  checkAuth r ;*
  let* vmid := vmidOf (PathValue r "vmid") in
  let* exists_ := vmExists (PathValue r "node") vmid in
  guard exists_ 404 msgNoSuchVM ;*
  writeData None.

(* go: proxmox/mockpve/qemu.go#Server.handleQEMUMoveDisk *)
Definition handleQEMUMoveDisk (r : request) : M response :=
  checkAuth r ;*
  let node := PathValue r "node" in
  let* vmid := vmidOf (PathValue r "vmid") in
  let* form := parseForm r in
  guard (negb ((vget form "disk" =s "") || (vget form "storage" =s ""))) 400 "missing disk or storage" ;*
  let* exists_ := vmExists node vmid in
  guard exists_ 404 msgNoSuchVM ;*
  writeTask node "qmmove" (itoa vmid).

(** The section of [handleQEMUMigrate]: the record is put under the target, then
    deleted under the source. *)
Definition migrate (node target : string) (vmid : Z) (g : guests) : guests :=
  match lookupGuest g node vmid with
  | None => g
  | Some rec => removeGuest node vmid (putGuest target vmid (set_node target rec) g)
  end.

(* go: proxmox/mockpve/qemu.go#Server.handleQEMUMigrate *)
Definition handleQEMUMigrate (r : request) : M response :=
  checkAuth r ;*
  let node := PathValue r "node" in
  let* vmid := vmidOf (PathValue r "vmid") in
  let* form := parseForm r in
  let target := vget form "target" in
  guard (target <>s "") 400 "missing target" ;*
  let* rec := locked (λ s, (set_qemu (migrate node target vmid) s, lookupVM s node vmid)) in
  some_or rec 404 msgNoSuchVM ;*
  writeTask node "qmigrate" (itoa vmid).

(** ** Snapshots *)

(* go: proxmox/mockpve/qemu.go#Server.handleQEMUSnapshotList *)
Definition handleQEMUSnapshotList (r : request) : M response :=
  checkAuth r ;*
  let* vmid := vmidOf (PathValue r "vmid") in
  let* rec := read (λ s, lookupVM s (PathValue r "node") vmid) in
  let* rec := some_or rec 404 msgNoSuchVM in
  writeData (Some (JArr (((λ sn,
    qemuSnapshotPayload (sn_Name sn) (sn_Description sn) (if sn_VMState sn then 1 else 0) (sn_SnapTime sn))
    <$> snapshotsOf rec) ++ [currentSnapshot]))).

(* go: proxmox/mockpve/qemu.go#Server.handleQEMUSnapshotCreate *)
Definition handleQEMUSnapshotCreate (r : request) : M response :=
  checkAuth r ;*
  let node := PathValue r "node" in
  let* vmid := vmidOf (PathValue r "vmid") in
  let* form := parseForm r in
  let name := vget form "snapname" in
  guard (name <>s "") 400 "missing snapname" ;*
  let sn := newSnapshot name (vget form "description") (vget form "vmstate" =s "1") in
  let* rec := update_vm (set_snapshots <[name := sn]>) node vmid in
  some_or rec 404 msgNoSuchVM ;*
  writeTask node "qmsnapshot" (itoa vmid).

(* go: proxmox/mockpve/qemu.go#Server.snapshotTarget *)
Definition snapshotTarget (r : request) : M (string * Z) :=
  let node := PathValue r "node" in
  let* vmid := vmidOf (PathValue r "vmid") in
  let* found := read (λ s, has_snapshot (st_qemu s) node vmid (PathValue r "snap")) in
  guard found 404 "no such snapshot" ;*
  ok (node, vmid).

(* go: proxmox/mockpve/qemu.go#Server.handleQEMUSnapshotRollback *)
Definition handleQEMUSnapshotRollback (r : request) : M response :=
  checkAuth r ;*
  let* target := snapshotTarget r in
  writeTask target.1 "qmrollback" (itoa target.2).

(* go: proxmox/mockpve/qemu.go#Server.handleQEMUSnapshotDelete *)
Definition handleQEMUSnapshotDelete (r : request) : M response :=
  checkAuth r ;*
  let* target := snapshotTarget r in
  update_vm (set_snapshots (delete (PathValue r "snap"))) target.1 target.2 ;*
  writeTask target.1 "qmdelsnapshot" (itoa target.2).

(** ** Guest agent *)

(* go: proxmox/mockpve/qemu.go#agentMockPID *)
Definition agentMockPID : Z := 1000.

(* go: proxmox/mockpve/qemu.go#agentExecPayload *)
Definition agentExecPayload (pid : Z) : json := JObj [("pid", jint pid)].

(* go: proxmox/mockpve/qemu.go#agentExecStatusPayload *)
Definition agentExecStatusPayload (a : option agentResult) : json :=
  match a with
  | None => JObj [("exited", jint 1); ("exitcode", jint 0)]
  | Some a => JObj ([("exited", jint 1); ("exitcode", jint (ag_ExitCode a))] ++
                    omit_str "out-data" (ag_OutData a) ++ omit_str "err-data" (ag_ErrData a))
  end.

(* go: proxmox/mockpve/qemu.go#Server.agentVMExists *)
Definition agentVMExists (r : request) : M () :=
  let* vmid := vmidOf (PathValue r "vmid") in
  let* exists_ := vmExists (PathValue r "node") vmid in
  guard exists_ 404 msgNoSuchVM.

(* go: proxmox/mockpve/qemu.go#Server.handleQEMUAgentPing *)
Definition handleQEMUAgentPing (r : request) : M response :=
  checkAuth r ;*
  agentVMExists r ;*
  writeData None.

(* go: proxmox/mockpve/qemu.go#Server.handleQEMUAgentExec *)
Definition handleQEMUAgentExec (r : request) : M response :=
  checkAuth r ;*
  agentVMExists r ;*
  let* form := parseForm r in
  guard (negb (bool_decide (default [] (form !! "command") = []))) 400 "missing command" ;*
  writeData (Some (agentExecPayload agentMockPID)).

(* go: proxmox/mockpve/qemu.go#Server.handleQEMUAgentExecStatus *)
Definition handleQEMUAgentExecStatus (r : request) : M response :=
  checkAuth r ;*
  let* vmid := vmidOf (PathValue r "vmid") in
  let* rec := read (λ s, lookupVM s (PathValue r "node") vmid) in
  let* rec := some_or rec 404 msgNoSuchVM in
  writeData (Some (agentExecStatusPayload (vm_Agent rec))).

(** ** Routes *)

(* go: proxmox/mockpve/qemu.go#Server.registerQEMURoutes *)
Definition qemuRoutes : list (string * (request → M response)) :=
  [("GET /api2/json/nodes/{node}/qemu", handleQEMUList);
   ("POST /api2/json/nodes/{node}/qemu", handleQEMUCreate);
   ("GET /api2/json/nodes/{node}/qemu/{vmid}/status/current", handleQEMUStatus);
   ("GET /api2/json/nodes/{node}/qemu/{vmid}/config", handleQEMUConfig);
   ("PUT /api2/json/nodes/{node}/qemu/{vmid}/config", handleQEMUSetConfig);
   ("POST /api2/json/nodes/{node}/qemu/{vmid}/clone", handleQEMUClone);
   ("POST /api2/json/nodes/{node}/qemu/{vmid}/template", handleQEMUTemplate);
   ("DELETE /api2/json/nodes/{node}/qemu/{vmid}", handleQEMUDelete)] ++
  ((λ verb, ("POST /api2/json/nodes/{node}/qemu/{vmid}/status/" +:+ verb, handleQEMUPower verb)) <$> powerVerbs) ++
  [("PUT /api2/json/nodes/{node}/qemu/{vmid}/resize", handleQEMUResize);
   ("POST /api2/json/nodes/{node}/qemu/{vmid}/move_disk", handleQEMUMoveDisk);
   ("POST /api2/json/nodes/{node}/qemu/{vmid}/migrate", handleQEMUMigrate);
   ("GET /api2/json/nodes/{node}/qemu/{vmid}/snapshot", handleQEMUSnapshotList);
   ("POST /api2/json/nodes/{node}/qemu/{vmid}/snapshot", handleQEMUSnapshotCreate);
   ("POST /api2/json/nodes/{node}/qemu/{vmid}/snapshot/{snap}/rollback", handleQEMUSnapshotRollback);
   ("DELETE /api2/json/nodes/{node}/qemu/{vmid}/snapshot/{snap}", handleQEMUSnapshotDelete);
   ("POST /api2/json/nodes/{node}/qemu/{vmid}/agent/ping", handleQEMUAgentPing);
   ("POST /api2/json/nodes/{node}/qemu/{vmid}/agent/exec", handleQEMUAgentExec);
   ("GET /api2/json/nodes/{node}/qemu/{vmid}/agent/exec-status", handleQEMUAgentExecStatus)].
