(* ===== verification/MockLxc.v ===== *)
(** [mockpve/lxc.go]: the container handlers, and the download-url endpoint that
    lives with them. *)

From S2P Require Import Prelude Json Monad MockState MockServer MockGuests.
From Stdlib Require Import ZArith Lia.
From stdpp Require Import options.

(* go: proxmox/mockpve/lxc.go#Server.AddContainer *)
Definition AddContainer (node : string) (vmid : Z) (name status : string) : state → state :=
  set_lxc (putGuest node vmid (newGuest "hostname" node vmid name status)).

(* go: proxmox/mockpve/lxc.go#Server.SetCTConfig *)
Definition SetCTConfig (node : string) (vmid : Z) (fields : gmap string configValue) : state → state :=
  set_lxc (updateGuest (set_config (union fields)) node vmid).

(* go: proxmox/mockpve/lxc.go#Server.lookupCT *)
Definition lookupCT (s : state) (node : string) (vmid : Z) : option vmRecord := lookupGuest (st_lxc s) node vmid.

(* go: proxmox/mockpve/lxc.go#Server.ctExists *)
Definition ctExists (node : string) (vmid : Z) : M bool := read (λ s, bool_decide (is_Some (lookupCT s node vmid))).

Definition update_ct (f : vmRecord → vmRecord) (node : string) (vmid : Z) : M (option vmRecord) :=
  locked (λ s, (set_lxc (updateGuest f node vmid) s, lookupCT s node vmid)).

(* go: proxmox/mockpve/lxc.go#Server.handleStorageDownloadURL *)
Definition handleStorageDownloadURL (r : request) : M response :=
  checkAuth r ;*
  let* form := parseForm r in
  guard (negb ((vget form "url" =s "") || (vget form "filename" =s ""))) 400 "missing url or filename" ;*
  writeTask (PathValue r "node") "download" (PathValue r "storage").

(* go: proxmox/mockpve/lxc.go#Server.handleLXCList *)
Definition handleLXCList (r : request) : M response :=
  checkAuth r ;*
  let* recs := read (λ s, guestsOf (st_lxc s) (PathValue r "node")) in
  writeData (Some (JArr ((λ rec, qemuListEntry rec 0) <$> recs))).

(* go: proxmox/mockpve/lxc.go#Server.handleLXCStatus *)
Definition handleLXCStatus (r : request) : M response :=
  checkAuth r ;*
  let* vmid := vmidOf (PathValue r "vmid") in
  let* rec := read (λ s, lookupCT s (PathValue r "node") vmid) in
  let* rec := some_or rec 404 msgNoSuchVM in
  writeData (Some (qemuStatusPayload rec)).

(* go: proxmox/mockpve/lxc.go#Server.handleLXCConfig *)
Definition handleLXCConfig (r : request) : M response :=
  checkAuth r ;*
  let* vmid := vmidOf (PathValue r "vmid") in
  let* rec := read (λ s, lookupCT s (PathValue r "node") vmid) in
  let* rec := some_or rec 404 msgNoSuchVM in
  writeData (Some (jmap (config_json <$> vm_Config rec))).

(* go: proxmox/mockpve/lxc.go#Server.handleLXCSetConfig *)
Definition handleLXCSetConfig (r : request) : M response :=
  checkAuth r ;*
  let* vmid := vmidOf (PathValue r "vmid") in
  let* form := parseForm r in
  let* rec := update_ct (set_config (applyConfigForm form)) (PathValue r "node") vmid in
  some_or rec 404 msgNoSuchVM ;*
  writeData None.

(* go: proxmox/mockpve/lxc.go#Server.handleLXCCreate *)
Definition handleLXCCreate (r : request) : M response :=
  checkAuth r ;*
  let node := PathValue r "node" in
  let* form := parseForm r in
  let* id := vmidOf (vget form "vmid") in
  locked (λ s, (AddContainer node id (vget form "hostname") vmStatusStopped s, ())) ;*
  let form := delete "vmid" form in
  update_ct (set_config (applyConfigForm form)) node id ;*
  writeTask node "vzcreate" (itoa id).

(* go: proxmox/mockpve/lxc.go#Server.handleLXCClone *)
Definition handleLXCClone (r : request) : M response :=
  checkAuth r ;*
  let node := PathValue r "node" in
  let* src := vmidOf (PathValue r "vmid") in
  let* exists_ := ctExists node src in
  guard exists_ 404 msgNoSuchVM ;*
  let* form := parseForm r in
  let* newID := some_or (atoi (vget form "newid")) 400 "invalid newid" in
  locked (λ s, (AddContainer node newID (vget form "hostname") vmStatusStopped s, ())) ;*
  writeTask node "vzclone" (itoa src).

(* go: proxmox/mockpve/lxc.go#Server.handleLXCDelete *)
Definition handleLXCDelete (r : request) : M response :=
  checkAuth r ;*
  let node := PathValue r "node" in
  let* vmid := vmidOf (PathValue r "vmid") in
  let* exists_ := ctExists node vmid in
  guard exists_ 404 msgNoSuchVM ;*
  locked (λ s, (set_lxc (removeGuest node vmid) s, ())) ;*
  writeTask node "vzdestroy" (itoa vmid).

(* go: proxmox/mockpve/lxc.go#Server.handleLXCPower *)
Definition handleLXCPower (action : string) (r : request) : M response :=
  checkAuth r ;*
  let node := PathValue r "node" in
  let* vmid := vmidOf (PathValue r "vmid") in
  let* rec := update_ct (set_status (qemuPowerStatus action)) node vmid in
  some_or rec 404 msgNoSuchVM ;*
  writeTask node ("vz" +:+ action) (itoa vmid).

(* go: proxmox/mockpve/lxc.go#Server.handleLXCSnapshotList *)
Definition handleLXCSnapshotList (r : request) : M response :=
  checkAuth r ;*
  let* vmid := vmidOf (PathValue r "vmid") in
  let* rec := read (λ s, lookupCT s (PathValue r "node") vmid) in
  let* rec := some_or rec 404 msgNoSuchVM in
  writeData (Some (JArr (((λ sn, qemuSnapshotPayload (sn_Name sn) (sn_Description sn) 0 (sn_SnapTime sn))
    <$> snapshotsOf rec) ++ [currentSnapshot]))).

(* go: proxmox/mockpve/lxc.go#Server.handleLXCSnapshotCreate *)
Definition handleLXCSnapshotCreate (r : request) : M response :=
  checkAuth r ;*
  let node := PathValue r "node" in
  let* vmid := vmidOf (PathValue r "vmid") in
  let* form := parseForm r in
  let name := vget form "snapname" in
  guard (name <>s "") 400 "missing snapname" ;*
  let sn := newSnapshot name (vget form "description") false in
  let* rec := update_ct (set_snapshots <[name := sn]>) node vmid in
  some_or rec 404 msgNoSuchVM ;*
  writeTask node "vzsnapshot" (itoa vmid).

(* go: proxmox/mockpve/lxc.go#Server.lxcSnapshotTarget *)
Definition lxcSnapshotTarget (r : request) : M (string * Z) :=
  let node := PathValue r "node" in
  let* vmid := vmidOf (PathValue r "vmid") in
  let* found := read (λ s, has_snapshot (st_lxc s) node vmid (PathValue r "snap")) in
  guard found 404 "no such snapshot" ;*
  ok (node, vmid).

(* go: proxmox/mockpve/lxc.go#Server.handleLXCSnapshotRollback *)
Definition handleLXCSnapshotRollback (r : request) : M response :=
  checkAuth r ;*
  let* target := lxcSnapshotTarget r in
  writeTask target.1 "vzrollback" (itoa target.2).

(* go: proxmox/mockpve/lxc.go#Server.handleLXCSnapshotDelete *)
Definition handleLXCSnapshotDelete (r : request) : M response :=
  checkAuth r ;*
  let* target := lxcSnapshotTarget r in
  update_ct (set_snapshots (delete (PathValue r "snap"))) target.1 target.2 ;*
  writeTask target.1 "vzdelsnapshot" (itoa target.2).

(* go: proxmox/mockpve/lxc.go#Server.registerLXCRoutes *)
Definition lxcRoutes : list (string * (request → M response)) :=
  [("GET /api2/json/nodes/{node}/lxc", handleLXCList);
   ("POST /api2/json/nodes/{node}/lxc", handleLXCCreate);
   ("GET /api2/json/nodes/{node}/lxc/{vmid}/status/current", handleLXCStatus);
   ("GET /api2/json/nodes/{node}/lxc/{vmid}/config", handleLXCConfig);
   ("PUT /api2/json/nodes/{node}/lxc/{vmid}/config", handleLXCSetConfig);
   ("POST /api2/json/nodes/{node}/lxc/{vmid}/clone", handleLXCClone);
   ("DELETE /api2/json/nodes/{node}/lxc/{vmid}", handleLXCDelete)] ++
  ((λ verb, ("POST /api2/json/nodes/{node}/lxc/{vmid}/status/" +:+ verb, handleLXCPower verb)) <$> powerVerbs) ++
  [("GET /api2/json/nodes/{node}/lxc/{vmid}/snapshot", handleLXCSnapshotList);
   ("POST /api2/json/nodes/{node}/lxc/{vmid}/snapshot", handleLXCSnapshotCreate);
   ("POST /api2/json/nodes/{node}/lxc/{vmid}/snapshot/{snap}/rollback", handleLXCSnapshotRollback);
   ("DELETE /api2/json/nodes/{node}/lxc/{vmid}/snapshot/{snap}", handleLXCSnapshotDelete);
   ("POST /api2/json/nodes/{node}/storage/{storage}/download-url", handleStorageDownloadURL)].
