(* ===== verification/MockStorage.v ===== *)
(** [mockpve/storage.go]: datastores with their optimistic-concurrency digest,
    volumes and ZFS pools. *)

From S2P Require Import Prelude Json Monad MockState MockServer.
From Stdlib Require Import ZArith Lia Ascii.
From stdpp Require Import options.

(** ** The configuration digest *)

(** [fmt.Sprintf("%040x", v)]: forty columns of hexadecimal, zeros on the left,
    after the sign of a negative number. *)
Definition sprintf_040x (v : Z) : string :=
  if (v <? 0)%Z then String "-" (pad_zeros 39 (format_uint 16 (- v))) else pad_zeros 40 (format_uint 16 v).

(* go: proxmox/mockpve/storage.go#storageState.bumpStorageDigest *)
Definition bumpStorageDigest (st : storageState) : storageState :=
  let v := wrap64 (so_cfgVersion st + 1) in
  {| so_stores := so_stores st; so_content := so_content st; so_zfsPools := so_zfsPools st;
     so_cfgVersion := v; so_cfgDigest := sprintf_040x v |}.

Definition set_stores (f : gmap string storeRecord → gmap string storeRecord) (st : storageState) : storageState :=
  {| so_stores := f (so_stores st); so_content := so_content st; so_zfsPools := so_zfsPools st;
     so_cfgVersion := so_cfgVersion st; so_cfgDigest := so_cfgDigest st |}.
Definition set_content (f : gmap string (gmap string (list volRecord)) → gmap string (gmap string (list volRecord)))
    (st : storageState) : storageState :=
  {| so_stores := so_stores st; so_content := f (so_content st); so_zfsPools := so_zfsPools st;
     so_cfgVersion := so_cfgVersion st; so_cfgDigest := so_cfgDigest st |}.
Definition set_zfs (f : gmap string (gmap string zfsRecord) → gmap string (gmap string zfsRecord))
    (st : storageState) : storageState :=
  {| so_stores := so_stores st; so_content := so_content st; so_zfsPools := f (so_zfsPools st);
     so_cfgVersion := so_cfgVersion st; so_cfgDigest := so_cfgDigest st |}.

(** ** Set-valued options *)

(* go: proxmox/mockpve/storage.go#normalizeSet *)
Definition normalizeSet (csv : string) : string :=
  if csv =s "" then "" else
  let seen : gset string :=
    foldl (λ seen item, let item := trim_space item in if item =s "" then seen else {[item]} ∪ seen) ∅
          (split_byte "," csv) in
  join "," (merge_sort String.le (elements seen)).

(** ** Seeding *)

(* go: proxmox/mockpve/storage.go#Server.AddStorage *)
Definition AddStorage (id storageType content : string) (total used : Z) : state → state :=
  set_storage (λ st, bumpStorageDigest (set_stores <[id := {|
    s_Storage := id; s_Type := storageType; s_Content := normalizeSet content; s_Path := ""; s_Pool := "";
    s_Nodes := ""; s_Shared := false; s_Disable := false; s_Total := total; s_Used := used; s_Extra := ∅ |}]> st)).

Definition volumesOf (st : storageState) (node storage : string) : list volRecord :=
  default [] (n ← so_content st !! node; n !! storage).
Definition put_volumes (node storage : string) (vols : list volRecord) : storageState → storageState :=
  set_content (λ c, <[node := <[storage := vols]> (default ∅ (c !! node))]> c).

(* go: proxmox/mockpve/storage.go#Server.AddVolume *)
Definition AddVolume (node storage volid content format : string) (size : Z) : state → state :=
  set_storage (λ st, put_volumes node storage
    (volumesOf st node storage ++
     [{| v_Volid := volid; v_Content := content; v_Format := format; v_Size := size; v_VMID := 0 |}]) st).

(* go: proxmox/mockpve/storage.go#Server.AddZFSPool *)
Definition AddZFSPool (node name : string) (size free : Z) : state → state :=
  let rec := {| z_Name := name; z_Size := size; z_Free := free; z_Health := "ONLINE"; z_State := "ONLINE" |} in
  set_storage (set_zfs (λ p, <[node := <[name := rec]> (default ∅ (p !! node))]> p)).

(** ** Payloads *)

(* go: proxmox/mockpve/storage.go#datastoreWritePayload *)
Definition datastoreWritePayload (storage type_ : string) : json :=
  JObj [("storage", JStr storage); ("type", JStr type_)].

(* go: proxmox/mockpve/storage.go#boolToInt *)
Definition boolToInt (b : bool) : Z := if b then 1 else 0.

Definition put_str (key v : string) (p : gmap string json) : gmap string json :=
  if v =s "" then p else <[key := JStr v]> p.
Definition put_flag (key : string) (b : bool) (p : gmap string json) : gmap string json :=
  if b then <[key := jint 1]> p else p.

(** The extra keys are written last and win over the typed ones. *)
(* go: proxmox/mockpve/storage.go#datastoreToPayload *)
Definition datastoreToPayload (rec : storeRecord) (digest : string) : json :=
  let p : gmap string json := {[ "storage" := JStr (s_Storage rec); "type" := JStr (s_Type rec) ]} in
  let p := put_str "content" (s_Content rec) p in
  let p := put_str "path" (s_Path rec) p in
  let p := put_str "pool" (s_Pool rec) p in
  let p := put_str "nodes" (s_Nodes rec) p in
  let p := put_flag "shared" (s_Shared rec) p in
  let p := put_flag "disable" (s_Disable rec) p in
  let p := put_str "digest" digest p in
  jmap ((JStr <$> s_Extra rec) ∪ p).

(* go: proxmox/mockpve/storage.go#storageToStatus *)
Definition storageToStatus (rec : storeRecord) : json :=
  JObj ([("storage", JStr (s_Storage rec)); ("type", JStr (s_Type rec))] ++ omit_str "content" (s_Content rec) ++
        [("active", jint 1); ("enabled", jint 1)] ++ omit_int "shared" (boolToInt (s_Shared rec)) ++
        omit_int "total" (s_Total rec) ++ omit_int "used" (s_Used rec) ++
        omit_int "avail" (wrap64 (s_Total rec - s_Used rec))).

(* go: proxmox/mockpve/storage.go#contentPayload *)
Definition contentPayload (v : volRecord) : json :=
  JObj ([("volid", JStr (v_Volid v))] ++ omit_str "content" (v_Content v) ++ omit_str "format" (v_Format v) ++
        omit_int "size" (v_Size v) ++ omit_int "vmid" (v_VMID v)).

(* go: proxmox/mockpve/storage.go#zfsListPayload *)
Definition zfsListPayload (p : zfsRecord) : json :=
  JObj ([("name", JStr (z_Name p))] ++ omit_int "size" (z_Size p) ++ omit_int "free" (z_Free p) ++
        omit_str "health" (z_Health p)).

(* go: proxmox/mockpve/storage.go#zfsStatusPayload *)
Definition zfsStatusPayload (p : zfsRecord) : json :=
  JObj ([("name", JStr (z_Name p))] ++ omit_str "state" (z_State p)).

(** ** Datastore forms *)

(* go: proxmox/mockpve/storage.go#createFixedKeys *)
Definition createFixedKeys : list string :=
  ["type"; "path"; "export"; "share"; "target"; "portal"; "vgname";
   "thinpool"; "base"; "datastore"; "iscsiprovider"; "authsupported"].

Definition mk_store (rec : storeRecord) (content path pool nodes : string) (shared disable : bool)
    (extra : gmap string string) : storeRecord :=
  {| s_Storage := s_Storage rec; s_Type := s_Type rec; s_Content := content; s_Path := path; s_Pool := pool;
     s_Nodes := nodes; s_Shared := shared; s_Disable := disable; s_Total := s_Total rec; s_Used := s_Used rec;
     s_Extra := extra |}.

(* go: proxmox/mockpve/storage.go#applyStorageForm *)
Definition applyStorageForm (rec : storeRecord) (key val : string) : storeRecord :=
  let '(c, p, po, n, sh, d, e) :=
    (s_Content rec, s_Path rec, s_Pool rec, s_Nodes rec, s_Shared rec, s_Disable rec, s_Extra rec) in
  if key =s "content" then mk_store rec (normalizeSet val) p po n sh d e
  else if key =s "nodes" then mk_store rec c p po (normalizeSet val) sh d e
  else if key =s "path" then mk_store rec c val po n sh d e
  else if key =s "pool" then mk_store rec c p val n sh d e
  else if key =s "shared" then mk_store rec c p po n (val =s "1") d e
  else if key =s "disable" then mk_store rec c p po n sh (val =s "1") e
  else mk_store rec c p po n sh d (<[key := val]> e).

(* go: proxmox/mockpve/storage.go#clearStorageKey *)
Definition clearStorageKey (rec : storeRecord) (key : string) : storeRecord :=
  let '(c, p, po, n, sh, d, e) :=
    (s_Content rec, s_Path rec, s_Pool rec, s_Nodes rec, s_Shared rec, s_Disable rec, s_Extra rec) in
  if key =s "content" then mk_store rec "" p po n sh d e
  else if key =s "nodes" then mk_store rec c p po "" sh d e
  else if key =s "path" then mk_store rec c "" po n sh d e
  else if key =s "pool" then mk_store rec c p "" n sh d e
  else if key =s "shared" then mk_store rec c p po n false d e
  else if key =s "disable" then mk_store rec c p po n sh false e
  else mk_store rec c p po n sh d (delete key e).

(** The loops of the two write handlers: every submitted key but those of [skip]. *)
Definition apply_keys (skip : list string) (form : values) (rec : storeRecord) : storeRecord :=
  foldl (λ rec key, if decide (key ∈ skip) then rec else applyStorageForm rec key (vget form key)) rec (keys form).

(** The record [handleDatastoreCreate] builds, the generated mountpoint included. *)
Definition new_store (id typ : string) (form : values) : storeRecord :=
  let rec := apply_keys ["storage"; "type"] form
    {| s_Storage := id; s_Type := typ; s_Content := ""; s_Path := ""; s_Pool := ""; s_Nodes := "";
       s_Shared := false; s_Disable := false; s_Total := 0; s_Used := 0; s_Extra := ∅ |} in
  if (typ =s "zfspool") && (s_Pool rec <>s "") && (default "" (s_Extra rec !! "mountpoint") =s "") then
    mk_store rec (s_Content rec) (s_Path rec) (s_Pool rec) (s_Nodes rec) (s_Shared rec) (s_Disable rec)
      (<["mountpoint" := "/" +:+ s_Pool rec]> (s_Extra rec))
  else rec.

(** The update: the [delete] keys first, then the submitted ones. *)
Definition update_store (form : values) (rec : storeRecord) : storeRecord :=
  let del := vget form "delete" in
  let rec := if del =s "" then rec
             else foldl (λ rec key, clearStorageKey rec (trim_space key)) rec (split_byte "," del) in
  apply_keys ["delete"; "digest"] form rec.

(** ** Datastore handlers *)

(* go: proxmox/mockpve/storage.go#Server.handleDatastoreList *)
Definition handleDatastoreList (r : request) : M response :=
  checkAuth r ;*
  let* out := read (λ s, (λ rec, datastoreToPayload rec (so_cfgDigest (st_storage s))) <$>
                          (map_to_list (so_stores (st_storage s))).*2) in
  writeData (Some (JArr out)).

(* go: proxmox/mockpve/storage.go#Server.handleDatastoreGet *)
Definition handleDatastoreGet (r : request) : M response :=
  checkAuth r ;*
  let id := PathValue r "storage" in
  let* payload := read (λ s, (λ rec, datastoreToPayload rec (so_cfgDigest (st_storage s))) <$>
                              so_stores (st_storage s) !! id) in
  let* payload := some_or payload 500 ("storage '" +:+ id +:+ "' does not exist") in
  writeData (Some payload).

(* go: proxmox/mockpve/storage.go#Server.handleDatastoreCreate *)
Definition handleDatastoreCreate (r : request) : M response :=
  checkAuth r ;*
  let* form := parseForm r in
  let id := vget form "storage" in
  let typ := vget form "type" in
  guard (negb ((id =s "") || (typ =s ""))) 400 "missing storage or type" ;*
  let* fresh := locked (λ s,
    let fresh := bool_decide (so_stores (st_storage s) !! id = None) in
    (if fresh then set_storage (λ st, bumpStorageDigest (set_stores <[id := new_store id typ form]> st)) s else s,
     fresh)) in
  guard fresh 400 ("storage ID '" +:+ id +:+ "' already defined") ;*
  writeData (Some (datastoreWritePayload id typ)).

(** What the section of the update handler decides. *)
Inductive updateResult := NoStore | Stale | Updated (rec : storeRecord).
Definition datastore_update (id : string) (form : values) (s : state) : state * updateResult :=
  match so_stores (st_storage s) !! id with
  | None => (s, NoStore)
  | Some rec =>
      let digest := vget form "digest" in
      if (digest <>s "") && (digest <>s so_cfgDigest (st_storage s)) then (s, Stale)
      else let rec := update_store form rec in
           (set_storage (λ st, bumpStorageDigest (set_stores <[id := rec]> st)) s, Updated rec)
  end.

(** The first key of [createFixedKeys] the form has. *)
Definition fixed_key (form : values) : option string :=
  snd <$> list_find (λ key, vhas form key = true) createFixedKeys.

(* go: proxmox/mockpve/storage.go#Server.handleDatastoreUpdate *)
Definition handleDatastoreUpdate (r : request) : M response :=
  checkAuth r ;*
  let* form := parseForm r in
  match fixed_key form with
  | Some key => writeError 400 ("parameter '" +:+ key +:+ "' is fixed at creation")
  | None =>
      let* res := locked (datastore_update (PathValue r "storage") form) in
      match res with
      | NoStore => writeError 404 msgNoSuchStorage
      | Stale => writeError 400 "detected modified configuration - file changed by other user? Try again."
      | Updated rec => writeData (Some (datastoreWritePayload (s_Storage rec) (s_Type rec)))
      end
  end.

(* go: proxmox/mockpve/storage.go#Server.handleDatastoreDelete *)
Definition handleDatastoreDelete (r : request) : M response :=
  checkAuth r ;*
  let id := PathValue r "storage" in
  let* found := locked (λ s,
    let found := bool_decide (is_Some (so_stores (st_storage s) !! id)) in
    (if found then set_storage (λ st, bumpStorageDigest (set_stores (delete id) st)) s else s, found)) in
  guard found 404 msgNoSuchStorage ;*
  writeData None.

(* go: proxmox/mockpve/storage.go#Server.handleNodeStorageList *)
Definition handleNodeStorageList (r : request) : M response :=
  checkAuth r ;*
  let* recs := read (λ s, (map_to_list (so_stores (st_storage s))).*2) in
  writeData (Some (JArr (storageToStatus <$> recs))).

(* go: proxmox/mockpve/storage.go#Server.handleNodeStorageStatus *)
Definition handleNodeStorageStatus (r : request) : M response :=
  checkAuth r ;*
  let* rec := read (λ s, so_stores (st_storage s) !! PathValue r "storage") in
  let* rec := some_or rec 404 msgNoSuchStorage in
  writeData (Some (storageToStatus rec)).

(** ** Volumes *)

(* go: proxmox/mockpve/storage.go#Server.handleContentList *)
Definition handleContentList (r : request) : M response :=
  checkAuth r ;*
  let filterContent := vget (Query r) "content" in
  let filterVMID := vget (Query r) "vmid" in
  let* vols := read (λ s, volumesOf (st_storage s) (PathValue r "node") (PathValue r "storage")) in
  writeData (Some (JArr (contentPayload <$> filter (λ v,
    (filterContent = "" ∨ v_Content v = filterContent) ∧ (filterVMID = "" ∨ filterVMID = itoa (v_VMID v))) vols))).

Definition findVolume (vols : list volRecord) (volid : string) : option volRecord :=
  snd <$> list_find (λ v, v_Volid v = volid) vols.

(* go: proxmox/mockpve/storage.go#Server.handleVolumeGet *)
Definition handleVolumeGet (r : request) : M response :=
  checkAuth r ;*
  let* found := read (λ s, findVolume (volumesOf (st_storage s) (PathValue r "node") (PathValue r "storage"))
                             (PathValue r "volid")) in
  let* v := some_or found 404 msgNoSuchVolume in
  writeData (Some (contentPayload v)).

Definition set_vmid (vmid : Z) (v : volRecord) : volRecord :=
  {| v_Volid := v_Volid v; v_Content := v_Content v; v_Format := v_Format v; v_Size := v_Size v; v_VMID := vmid |}.

(** The second section of the create handler: every volume of that name. *)
Definition assign_vmid (node storage volid : string) (vmid : Z) : state → state :=
  set_storage (set_content (alter (alter (λ vols,
    (λ v, if v_Volid v =s volid then set_vmid vmid v else v) <$> vols) storage) node)).

(* go: proxmox/mockpve/storage.go#Server.handleVolumeCreate *)
Definition handleVolumeCreate (r : request) : M response :=
  checkAuth r ;*
  let node := PathValue r "node" in
  let storage := PathValue r "storage" in
  let* form := parseForm r in
  let filename := vget form "filename" in
  guard (filename <>s "") 400 "missing filename" ;*
  let volid := storage +:+ ":" +:+ filename in
  locked (λ s, (AddVolume node storage volid "images" (vget form "format") 0 s, ())) ;*
  match atoi (vget form "vmid") with
  | Some vmid => locked (λ s, (assign_vmid node storage volid vmid s, ()))
  | None => ok ()
  end ;*
  writeData (Some (JStr volid)).

(** The section of the delete handler: all volumes of that name go. *)
Definition remove_volume (node storage volid : string) (s : state) : state * bool :=
  let vols := volumesOf (st_storage s) node storage in
  let found := existsb (λ v, v_Volid v =s volid) vols in
  (if found then set_storage (put_volumes node storage (filter (λ v, v_Volid v ≠ volid) vols)) s else s, found).

(* go: proxmox/mockpve/storage.go#Server.handleVolumeDelete *)
Definition handleVolumeDelete (r : request) : M response :=
  checkAuth r ;*
  let node := PathValue r "node" in
  let storage := PathValue r "storage" in
  let* found := locked (remove_volume node storage (PathValue r "volid")) in
  guard found 404 msgNoSuchVolume ;*
  writeTask node "imgdel" storage.

(** The uploaded bytes are drained, not stored; a file part that cannot be read is
    not modelled. [FormValue] reads the multipart values, then the query. *)
(* go: proxmox/mockpve/storage.go#Server.handleStorageUpload *)
Definition handleStorageUpload (r : request) : M response :=
  checkAuth r ;*
  let node := PathValue r "node" in
  let storage := PathValue r "storage" in
  let* form := some_or (Multipart r) 400 "invalid multipart body" in
  let content := form_get r form.1 "content" in
  guard (content <>s "") 400 "missing content" ;*
  let* file := some_or form.2 400 "missing file part" in
  let volid := storage +:+ ":" +:+ content +:+ "/" +:+ file.1 in
  locked (λ s, (AddVolume node storage volid content "" file.2 s, ())) ;*
  writeTask node "imgcopy" storage.

(** ** ZFS pools *)

Definition poolsOf (st : storageState) (node : string) : gmap string zfsRecord := default ∅ (so_zfsPools st !! node).

(* go: proxmox/mockpve/storage.go#Server.handleZFSList *)
Definition handleZFSList (r : request) : M response :=
  checkAuth r ;*
  let* pools := read (λ s, (map_to_list (poolsOf (st_storage s) (PathValue r "node"))).*2) in
  writeData (Some (JArr (zfsListPayload <$> pools))).

(* go: proxmox/mockpve/storage.go#Server.handleZFSGet *)
Definition handleZFSGet (r : request) : M response :=
  checkAuth r ;*
  let* rec := read (λ s, poolsOf (st_storage s) (PathValue r "node") !! PathValue r "name") in
  let* rec := some_or rec 404 msgNoSuchZFSPool in
  writeData (Some (zfsStatusPayload rec)).

(* go: proxmox/mockpve/storage.go#Server.handleZFSCreate *)
Definition handleZFSCreate (r : request) : M response :=
  checkAuth r ;*
  let node := PathValue r "node" in
  let* form := parseForm r in
  let name := vget form "name" in
  guard (name <>s "") 400 "missing name" ;*
  locked (λ s, (AddZFSPool node name 0 0 s, ())) ;*
  writeTask node "zfscreate" name.

(* go: proxmox/mockpve/storage.go#Server.registerStorageRoutes *)
Definition storageRoutes : list (string * (request → M response)) :=
  [("GET /api2/json/storage", handleDatastoreList);
   ("POST /api2/json/storage", handleDatastoreCreate);
   ("GET /api2/json/storage/{storage}", handleDatastoreGet);
   ("PUT /api2/json/storage/{storage}", handleDatastoreUpdate);
   ("DELETE /api2/json/storage/{storage}", handleDatastoreDelete);
   ("GET /api2/json/nodes/{node}/storage", handleNodeStorageList);
   ("GET /api2/json/nodes/{node}/storage/{storage}/status", handleNodeStorageStatus);
   ("GET /api2/json/nodes/{node}/storage/{storage}/content", handleContentList);
   ("POST /api2/json/nodes/{node}/storage/{storage}/content", handleVolumeCreate);
   ("GET /api2/json/nodes/{node}/storage/{storage}/content/{volid}", handleVolumeGet);
   ("DELETE /api2/json/nodes/{node}/storage/{storage}/content/{volid}", handleVolumeDelete);
   ("POST /api2/json/nodes/{node}/storage/{storage}/upload", handleStorageUpload);
   ("GET /api2/json/nodes/{node}/disks/zfs", handleZFSList);
   ("POST /api2/json/nodes/{node}/disks/zfs", handleZFSCreate);
   ("GET /api2/json/nodes/{node}/disks/zfs/{name}", handleZFSGet)].

(** ** The digest and the set-valued options *)

Lemma sprintf_040x_inj v w : (0 ≤ v)%Z → (0 ≤ w)%Z → sprintf_040x v = sprintf_040x w → v = w.
Proof.
  intros Hv Hw. unfold sprintf_040x.
  destruct (Z.ltb_spec v 0), (Z.ltb_spec w 0); try lia. by apply pad_zeros_inj; lia.
Qed.

(** The set a comma-separated list denotes: its trimmed, non-empty items. *)
Definition set_items (csv : string) : gset string :=
  list_to_set (filter (λ item, item ≠ "") (trim_space <$> split_byte "," csv)).

Lemma normalizeSet_items csv : normalizeSet csv = join "," (merge_sort String.le (elements (set_items csv))).
Proof.
  assert (∀ l (acc : gset string),
    foldl (λ seen item, let item := trim_space item in if item =s "" then seen else {[item]} ∪ seen) acc l =
    list_to_set (filter (λ item, item ≠ "") (trim_space <$> l)) ∪ acc) as Hfold.
  { induction l as [|x l IH]; intros acc; cbn [foldl]; [set_solver|].
    rewrite IH, fmap_cons, filter_cons. cbv zeta. case_bool_decide; [by rewrite decide_False by auto|].
    rewrite decide_True by done. cbn [list_to_set]. set_solver. }
  unfold normalizeSet, set_items. case_bool_decide as He; [subst csv; vm_compute; reflexivity|].
  rewrite Hfold. f_equal. f_equal. f_equal. set_solver.
Qed.

Lemma elem_of_set_items csv item :
  item ∈ set_items csv → item ≠ "" ∧ trim_space item = item ∧ no_byte ","%char item = true.
Proof.
  unfold set_items. rewrite elem_of_list_to_set, list_elem_of_filter, list_elem_of_fmap.
  intros [Hne (x & -> & Hx)]. pose proof (split_byte_no_byte "," csv) as Hf.
  rewrite Forall_forall in Hf. split_and!; [done|apply trim_space_idem|]. by apply trim_space_no_byte, Hf.
Qed.

Lemma set_items_join l :
  Forall (λ item, item ≠ "" ∧ trim_space item = item ∧ no_byte ","%char item = true) l →
  set_items (join "," l) = list_to_set l.
Proof.
  intros Hl. destruct l as [|x l]; [vm_compute; reflexivity|]. unfold set_items.
  rewrite split_join; [|done|by eapply Forall_impl; [done|]; intros ? (_ & _ & ?)].
  f_equal. induction Hl as [|y l' (Hne & Ht & _) _ IH]; [done|].
  rewrite fmap_cons, Ht, filter_cons_True by done. by rewrite IH.
Qed.

Lemma set_items_normalize c : set_items (normalizeSet c) = set_items c.
Proof.
  rewrite normalizeSet_items, set_items_join.
  - apply set_eq. intros x. by rewrite elem_of_list_to_set, merge_sort_Permutation, elem_of_elements.
  - rewrite Forall_forall. intros x. rewrite merge_sort_Permutation, elem_of_elements. apply elem_of_set_items.
Qed.

(** [normalizeSet] is a canonical form of the set a list option denotes: it
    keeps the set, it is idempotent, two lists normalise to the same string
    exactly when they denote the same set, and the items come out sorted. *)
Theorem normalizeSet_canonical a b :
  set_items (normalizeSet a) = set_items a ∧
  normalizeSet (normalizeSet a) = normalizeSet a ∧
  (normalizeSet a = normalizeSet b ↔ set_items a = set_items b) ∧
  ∃ l, normalizeSet a = join "," l ∧ StronglySorted String.le l ∧ l ≡ₚ elements (set_items a).
Proof.
  split_and!; [apply set_items_normalize| | |].
  - by rewrite (normalizeSet_items (normalizeSet a)), set_items_normalize, <- normalizeSet_items.
  - split; [intros H; by rewrite <- (set_items_normalize a), H, set_items_normalize|intros H; by rewrite !normalizeSet_items, H].
  - exists (merge_sort String.le (elements (set_items a))). split_and!; [apply normalizeSet_items| |apply merge_sort_Permutation].
    apply Sorted_StronglySorted; [apply _|]. apply (Sorted_merge_sort String.le).
Qed.
