(* ===== verification/MockHa.v ===== *)
(** [mockpve/ha.go]: HA resources and rules, the cluster-wide HA switch, the live
    status view, and the datacenter options shared with the cluster. Replication
    jobs are not modelled (their rate is a float the handlers only pass through). *)

From S2P Require Import Prelude Json Strconv Monad MockState MockServer.
From Stdlib Require Import ZArith Lia Ascii Floats.SpecFloat.
From stdpp Require Import options.

(* go: proxmox/mockpve/ha.go#haDefaultNode *)
Definition haDefaultNode : string := "pve".
(* go: proxmox/mockpve/ha.go#haMockTimestamp *)
Definition haMockTimestamp : Z := 1752000000.

(** [sidType]: what precedes a colon that is not the first byte. *)
(* go: proxmox/mockpve/ha.go#sidType *)
Definition sidType (sid : string) : string := match cut_byte ":" sid with Some (t, _) => t | None => "" end.

Definition set_resources (f : gmap string haResourceRecord → gmap string haResourceRecord) (h : haState) : haState :=
  {| ha_resources := f (ha_resources h); ha_rules := ha_rules h; ha_crs := ha_crs h;
     ha_armed := ha_armed h; ha_resourceMode := ha_resourceMode h; ha_repl := ha_repl h |}.
Definition set_rules (f : gmap string haRuleRecord → gmap string haRuleRecord) (h : haState) : haState :=
  {| ha_resources := ha_resources h; ha_rules := f (ha_rules h); ha_crs := ha_crs h;
     ha_armed := ha_armed h; ha_resourceMode := ha_resourceMode h; ha_repl := ha_repl h |}.
Definition set_crs (crs : string) (h : haState) : haState :=
  {| ha_resources := ha_resources h; ha_rules := ha_rules h; ha_crs := crs;
     ha_armed := ha_armed h; ha_resourceMode := ha_resourceMode h; ha_repl := ha_repl h |}.
Definition set_switch (armed : bool) (mode : string) (h : haState) : haState :=
  {| ha_resources := ha_resources h; ha_rules := ha_rules h; ha_crs := ha_crs h;
     ha_armed := armed; ha_resourceMode := mode; ha_repl := ha_repl h |}.
Definition set_repl (f : gmap string haReplRecord → gmap string haReplRecord) (h : haState) : haState :=
  {| ha_resources := ha_resources h; ha_rules := ha_rules h; ha_crs := ha_crs h;
     ha_armed := ha_armed h; ha_resourceMode := ha_resourceMode h; ha_repl := f (ha_repl h) |}.
Definition set_options (f : gmap string string → gmap string string) (c : clusterState) : clusterState :=
  {| cl_options := f (cl_options c); cl_resources := cl_resources c; cl_status := cl_status c;
     cl_clustered := cl_clustered c; cl_name := cl_name c; cl_selfNode := cl_selfNode c;
     cl_members := cl_members c; cl_joinQueue := cl_joinQueue c |}.

(** ** Seeding *)

(* go: proxmox/mockpve/ha.go#Server.AddHAResource *)
Definition AddHAResource (sid state_ : string) : state → state :=
  set_ha (set_resources <[sid := {| hr_SID := sid; hr_Type := sidType sid; hr_State := state_; hr_Node := "";
                                    hr_MaxRestart := 0; hr_MaxRelocate := 0; hr_Comment := "" |}]>).

(* go: proxmox/mockpve/ha.go#Server.AddHARule *)
Definition AddHARule (rule ruleType : string) : state → state :=
  set_ha (set_rules <[rule := {| ru_Rule := rule; ru_Type := ruleType; ru_Nodes := ""; ru_Resources := "";
                                 ru_Affinity := ""; ru_Disable := false; ru_Comment := "" |}]>).

(* go: proxmox/mockpve/ha.go#Server.SetCRS *)
Definition SetCRS (crs : string) : state → state := set_ha (set_crs crs).

(** ** Payloads *)

(* go: proxmox/mockpve/ha.go#haResourceToPayload *)
Definition haResourceToPayload (rec : haResourceRecord) : json :=
  JObj ([("sid", JStr (hr_SID rec))] ++ omit_str "type" (hr_Type rec) ++ omit_str "state" (hr_State rec) ++
        omit_int "max_restart" (hr_MaxRestart rec) ++ omit_int "max_relocate" (hr_MaxRelocate rec) ++
        omit_str "comment" (hr_Comment rec)).

(* go: proxmox/mockpve/ha.go#haRuleToPayload *)
Definition haRuleToPayload (rec : haRuleRecord) : json :=
  JObj ([("rule", JStr (ru_Rule rec))] ++ omit_str "type" (ru_Type rec) ++ omit_str "nodes" (ru_Nodes rec) ++
        omit_str "resources" (ru_Resources rec) ++ omit_str "affinity" (ru_Affinity rec) ++
        omit_int "disable" (if ru_Disable rec then 1 else 0) ++ omit_str "comment" (ru_Comment rec)).

(* go: proxmox/mockpve/ha.go#Server.haArmedState *)
Definition haArmedState (h : haState) : string := if ha_armed h then "armed" else "disarmed".

(** The node a resource is reported on. *)
Definition placed (rec : haResourceRecord) : string := if hr_Node rec =s "" then haDefaultNode else hr_Node rec.

(** The service row of the live view: [haStatusPayload] with its omitted members. *)
(* go: proxmox/mockpve/ha.go#haStatusPayload *)
Definition haServiceRow (mode : string) (rec : haResourceRecord) : json :=
  JObj ([("id", JStr ("service:" +:+ hr_SID rec)); ("type", JStr "service")] ++ omit_str "sid" (hr_SID rec) ++
        omit_str "node" (placed rec) ++ omit_str "state" (hr_State rec) ++ omit_str "status" (hr_State rec) ++
        omit_str "request_state" (hr_State rec) ++ omit_str "resource_mode" mode ++
        omit_int "max_restart" (hr_MaxRestart rec) ++ omit_int "max_relocate" (hr_MaxRelocate rec) ++
        omit_str "comment" (hr_Comment rec)).

Definition haFixedRows (h : haState) : list json :=
  [JObj [("id", JStr "quorum"); ("type", JStr "quorum"); ("node", JStr haDefaultNode); ("status", JStr "OK");
         ("quorate", jint 1)];
   JObj [("id", JStr "master"); ("type", JStr "master"); ("node", JStr haDefaultNode); ("status", JStr "active");
         ("timestamp", jint haMockTimestamp)];
   JObj [("id", JStr "fencing"); ("type", JStr "fencing"); ("node", JStr haDefaultNode);
         ("status", JStr "watchdog"); ("armed-state", JStr (haArmedState h))]].

(** ** Status and the switch *)

(* go: proxmox/mockpve/ha.go#Server.handleHAStatusCurrent *)
Definition handleHAStatusCurrent (r : request) : M response :=
  checkAuth r ;*
  let* h := read st_ha in
  writeData (Some (JArr (haFixedRows h ++
    (haServiceRow (ha_resourceMode h) <$> (map_to_list (ha_resources h)).*2)))).

(** The services of the manager status; two records with one SID would share an entry. *)
Definition haServices (l : list haResourceRecord) : gmap string json :=
  foldl (λ m rec, <[hr_SID rec := jmap_str {[ "node" := placed rec; "state" := hr_State rec;
                                             "uid" := "mock-" +:+ hr_SID rec ]}]> m) ∅ l.

(* go: proxmox/mockpve/ha.go#Server.handleHAManagerStatus *)
Definition handleHAManagerStatus (r : request) : M response :=
  checkAuth r ;*
  let* services := read (λ s, haServices (map_to_list (ha_resources (st_ha s))).*2) in
  writeData (Some (jmap {[
    "manager_status" := jmap {[
      "master_node" := JStr haDefaultNode;
      "node_status" := jmap_str {[ haDefaultNode := "online" ]};
      "service_status" := jmap services;
      "timestamp" := jint haMockTimestamp ]};
    "quorum" := jmap_str {[ "node" := haDefaultNode; "quorate" := "1" ]} ]})).

(* go: proxmox/mockpve/ha.go#Server.handleHAArm *)
Definition handleHAArm (r : request) : M response :=
  checkAuth r ;*
  locked (λ s, (set_ha (set_switch true "") s, ())) ;*
  writeData None.

(* go: proxmox/mockpve/ha.go#Server.handleHADisarm *)
Definition handleHADisarm (r : request) : M response :=
  checkAuth r ;*
  let* form := parseForm r in
  let mode := vget form "resource-mode" in
  guard ((mode =s "freeze") || (mode =s "ignore")) 400 "missing or invalid resource-mode" ;*
  locked (λ s, (set_ha (set_switch false mode) s, ())) ;*
  writeData None.

Definition move_resource (node : string) (rec : haResourceRecord) : haResourceRecord :=
  {| hr_SID := hr_SID rec; hr_Type := hr_Type rec; hr_State := hr_State rec; hr_Node := node;
     hr_MaxRestart := hr_MaxRestart rec; hr_MaxRelocate := hr_MaxRelocate rec; hr_Comment := hr_Comment rec |}.

(* go: proxmox/mockpve/ha.go#Server.handleHAResourceMove *)
Definition handleHAResourceMove (r : request) : M response :=
  checkAuth r ;*
  let sid := PathValue r "sid" in
  let* form := parseForm r in
  let node := vget form "node" in
  guard (node <>s "") 400 "missing node" ;*
  let* rec := locked (λ s, (set_ha (set_resources (alter (move_resource node) sid)) s, ha_resources (st_ha s) !! sid)) in
  some_or rec 404 msgNoSuchHAResource ;*
  writeData (Some (jmap_str {[ "sid" := sid; "requested-node" := node ]})).

(** ** Datacenter options *)

(* go: proxmox/mockpve/ha.go#Server.handleClusterOptionsGet *)
Definition handleClusterOptionsGet (r : request) : M response :=
  checkAuth r ;*
  let* out := read (λ s, if ha_crs (st_ha s) =s "" then cl_options (st_cluster s)
                         else <["crs" := ha_crs (st_ha s)]> (cl_options (st_cluster s))) in
  writeData (Some (jmap_str out)).

(** One pass of the loop over the form: the first value of a key, if it has one. *)
Definition set_option (form : values) (s : state) (k : string) : state :=
  match form !! k with
  | Some (v :: _) => if k =s "crs" then set_ha (set_crs v) s
                     else set_cluster (set_options <[k := v]>) s
  | _ => s
  end.

(* go: proxmox/mockpve/ha.go#Server.handleClusterOptionsSet *)
Definition handleClusterOptionsSet (r : request) : M response :=
  checkAuth r ;*
  let* form := parseForm r in
  locked (λ s, (foldl (set_option form) s (keys form), ())) ;*
  writeData None.

(** ** Resources *)

(* go: proxmox/mockpve/ha.go#Server.handleHAResourceList *)
Definition handleHAResourceList (r : request) : M response :=
  checkAuth r ;*
  let* recs := read (λ s, (map_to_list (ha_resources (st_ha s))).*2) in
  writeData (Some (JArr (haResourceToPayload <$> recs))).

(* go: proxmox/mockpve/ha.go#Server.handleHAResourceGet *)
Definition handleHAResourceGet (r : request) : M response :=
  checkAuth r ;*
  let* rec := read (λ s, ha_resources (st_ha s) !! PathValue r "sid") in
  let* rec := some_or rec 404 msgNoSuchHAResource in
  writeData (Some (haResourceToPayload rec)).

(* go: proxmox/mockpve/ha.go#Server.handleHAResourceCreate *)
Definition handleHAResourceCreate (r : request) : M response :=
  checkAuth r ;*
  let* form := parseForm r in
  let sid := vget form "sid" in
  guard (sid <>s "") 400 "missing sid" ;*
  let rec := {| hr_SID := sid; hr_Type := sidType sid;
                hr_State := if vget form "state" =s "" then "started" else vget form "state";
                hr_Node := "";
                hr_MaxRestart := set_if_int (vget form "max_restart") 0;
                hr_MaxRelocate := set_if_int (vget form "max_relocate") 0;
                hr_Comment := vget form "comment" |} in
  locked (λ s, (set_ha (set_resources <[sid := rec]>) s, ())) ;*
  writeData None.

(* go: proxmox/mockpve/ha.go#applyHAResourceForm *)
Definition applyHAResourceForm (form : values) (rec : haResourceRecord) : haResourceRecord :=
  {| hr_SID := hr_SID rec; hr_Type := hr_Type rec;
     hr_State := set_if (vget form "state") (hr_State rec);
     hr_Node := hr_Node rec;
     hr_MaxRestart := set_if_int (vget form "max_restart") (hr_MaxRestart rec);
     hr_MaxRelocate := set_if_int (vget form "max_relocate") (hr_MaxRelocate rec);
     hr_Comment := set_if (vget form "comment") (hr_Comment rec) |}.

(* go: proxmox/mockpve/ha.go#Server.handleHAResourceUpdate *)
Definition handleHAResourceUpdate (r : request) : M response :=
  checkAuth r ;*
  let sid := PathValue r "sid" in
  let* form := parseForm r in
  let* rec := locked (λ s, (set_ha (set_resources (alter (applyHAResourceForm form) sid)) s, ha_resources (st_ha s) !! sid)) in
  some_or rec 404 msgNoSuchHAResource ;*
  writeData None.

(* go: proxmox/mockpve/ha.go#Server.handleHAResourceDelete *)
Definition handleHAResourceDelete (r : request) : M response :=
  checkAuth r ;*
  let sid := PathValue r "sid" in
  let* rec := locked (λ s, (set_ha (set_resources (delete sid)) s, ha_resources (st_ha s) !! sid)) in
  some_or rec 404 msgNoSuchHAResource ;*
  writeData None.

(** ** Rules *)

(* go: proxmox/mockpve/ha.go#Server.handleHARuleList *)
Definition handleHARuleList (r : request) : M response :=
  checkAuth r ;*
  let* recs := read (λ s, (map_to_list (ha_rules (st_ha s))).*2) in
  writeData (Some (JArr (haRuleToPayload <$> recs))).

(* go: proxmox/mockpve/ha.go#Server.handleHARuleGet *)
Definition handleHARuleGet (r : request) : M response :=
  checkAuth r ;*
  let* rec := read (λ s, ha_rules (st_ha s) !! PathValue r "rule") in
  let* rec := some_or rec 404 msgNoSuchHARule in
  writeData (Some (haRuleToPayload rec)).

(* go: proxmox/mockpve/ha.go#Server.handleHARuleCreate *)
Definition handleHARuleCreate (r : request) : M response :=
  checkAuth r ;*
  let* form := parseForm r in
  let rule := vget form "rule" in
  guard (rule <>s "") 400 "missing rule" ;*
  let rec := {| ru_Rule := rule; ru_Type := vget form "type"; ru_Nodes := vget form "nodes";
                ru_Resources := vget form "resources"; ru_Affinity := vget form "affinity";
                ru_Disable := vget form "disable" =s "1"; ru_Comment := vget form "comment" |} in
  locked (λ s, (set_ha (set_rules <[rule := rec]>) s, ())) ;*
  writeData None.

(* go: proxmox/mockpve/ha.go#applyHARuleForm *)
Definition applyHARuleForm (form : values) (rec : haRuleRecord) : haRuleRecord :=
  {| ru_Rule := ru_Rule rec; ru_Type := ru_Type rec;
     ru_Nodes := set_if (vget form "nodes") (ru_Nodes rec);
     ru_Resources := set_if (vget form "resources") (ru_Resources rec);
     ru_Affinity := set_if (vget form "affinity") (ru_Affinity rec);
     ru_Disable := set_if_bool (vget form "disable") (ru_Disable rec);
     ru_Comment := set_if (vget form "comment") (ru_Comment rec) |}.

(* go: proxmox/mockpve/ha.go#Server.handleHARuleUpdate *)
Definition handleHARuleUpdate (r : request) : M response :=
  checkAuth r ;*
  let rule := PathValue r "rule" in
  let* form := parseForm r in
  let* rec := locked (λ s, (set_ha (set_rules (alter (applyHARuleForm form) rule)) s, ha_rules (st_ha s) !! rule)) in
  some_or rec 404 msgNoSuchHARule ;*
  writeData None.

(* go: proxmox/mockpve/ha.go#Server.handleHARuleDelete *)
Definition handleHARuleDelete (r : request) : M response :=
  checkAuth r ;*
  let rule := PathValue r "rule" in
  let* rec := locked (λ s, (set_ha (set_rules (delete rule)) s, ha_rules (st_ha s) !! rule)) in
  some_or rec 404 msgNoSuchHARule ;*
  writeData None.

(** ** Replication jobs *)

(* go: proxmox/mockpve/ha.go#Server.AddReplicationJob *)
Definition AddReplicationJob (id target schedule : string) : state → state :=
  set_ha (set_repl <[id := {| hp_ID := id; hp_Type := "local"; hp_Target := target; hp_Schedule := schedule;
                              hp_Rate := S754_zero false; hp_Disable := false; hp_Comment := "" |}]>).

(* go: proxmox/mockpve/ha.go#haReplToPayload *)
Definition haReplToPayload (rec : haReplRecord) : json :=
  JObj ([("id", JStr (hp_ID rec))] ++ omit_str "type" (hp_Type rec) ++ omit_str "target" (hp_Target rec) ++
        omit_str "schedule" (hp_Schedule rec) ++ omit_float "rate" (hp_Rate rec) ++
        omit_int "disable" (if hp_Disable rec then 1 else 0) ++ omit_str "comment" (hp_Comment rec)).

(** The encoder refuses a rate that is not finite, and [writeData] then leaves the
    body empty, which a client reads as it reads a null. *)
Definition encodable (rec : haReplRecord) : bool := is_float_finite (hp_Rate rec).

(* go: proxmox/mockpve/ha.go#Server.handleReplList *)
Definition handleReplList (r : request) : M response :=
  checkAuth r ;*
  let* recs := read (λ s, (map_to_list (ha_repl (st_ha s))).*2) in
  writeData (if forallb encodable recs then Some (JArr (haReplToPayload <$> recs)) else None).

(* go: proxmox/mockpve/ha.go#Server.handleReplGet *)
Definition handleReplGet (r : request) : M response :=
  checkAuth r ;*
  let* rec := read (λ s, ha_repl (st_ha s) !! PathValue r "id") in
  let* rec := some_or rec 404 msgNoSuchReplJob in
  writeData (if encodable rec then Some (haReplToPayload rec) else None).

(** [if v, err := strconv.ParseFloat(s, 64); err == nil { field = v }]. *)
Definition set_if_float (s : string) (old : spec_float) : spec_float := default old (ParseFloat s).

(* go: proxmox/mockpve/ha.go#Server.handleReplCreate *)
Definition handleReplCreate (r : request) : M response :=
  checkAuth r ;*
  let* form := parseForm r in
  let id := vget form "id" in
  guard (id <>s "") 400 "missing id" ;*
  let rec := {| hp_ID := id; hp_Type := if vget form "type" =s "" then "local" else vget form "type";
                hp_Target := vget form "target"; hp_Schedule := vget form "schedule";
                hp_Rate := set_if_float (vget form "rate") (S754_zero false); hp_Disable := false;
                hp_Comment := vget form "comment" |} in
  locked (λ s, (set_ha (set_repl <[id := rec]>) s, ())) ;*
  writeData None.

(* go: proxmox/mockpve/ha.go#applyReplForm *)
Definition applyReplForm (form : values) (rec : haReplRecord) : haReplRecord :=
  {| hp_ID := hp_ID rec; hp_Type := hp_Type rec;
     hp_Target := set_if (vget form "target") (hp_Target rec);
     hp_Schedule := set_if (vget form "schedule") (hp_Schedule rec);
     hp_Rate := set_if_float (vget form "rate") (hp_Rate rec);
     hp_Disable := set_if_bool (vget form "disable") (hp_Disable rec);
     hp_Comment := set_if (vget form "comment") (hp_Comment rec) |}.

(* go: proxmox/mockpve/ha.go#Server.handleReplUpdate *)
Definition handleReplUpdate (r : request) : M response :=
  checkAuth r ;*
  let id := PathValue r "id" in
  let* form := parseForm r in
  let* rec := locked (λ s, (set_ha (set_repl (alter (applyReplForm form) id)) s, ha_repl (st_ha s) !! id)) in
  some_or rec 404 msgNoSuchReplJob ;*
  writeData None.

(* go: proxmox/mockpve/ha.go#Server.handleReplDelete *)
Definition handleReplDelete (r : request) : M response :=
  checkAuth r ;*
  let id := PathValue r "id" in
  let* rec := locked (λ s, (set_ha (set_repl (delete id)) s, ha_repl (st_ha s) !! id)) in
  some_or rec 404 msgNoSuchReplJob ;*
  writeData None.

(* go: proxmox/mockpve/ha.go#Server.registerHARoutes *)
Definition haRoutes : list (string * (request → M response)) :=
  [("GET /api2/json/cluster/ha/resources", handleHAResourceList);
   ("POST /api2/json/cluster/ha/resources", handleHAResourceCreate);
   ("GET /api2/json/cluster/ha/resources/{sid}", handleHAResourceGet);
   ("PUT /api2/json/cluster/ha/resources/{sid}", handleHAResourceUpdate);
   ("DELETE /api2/json/cluster/ha/resources/{sid}", handleHAResourceDelete);
   ("GET /api2/json/cluster/ha/rules", handleHARuleList);
   ("POST /api2/json/cluster/ha/rules", handleHARuleCreate);
   ("GET /api2/json/cluster/ha/rules/{rule}", handleHARuleGet);
   ("PUT /api2/json/cluster/ha/rules/{rule}", handleHARuleUpdate);
   ("DELETE /api2/json/cluster/ha/rules/{rule}", handleHARuleDelete);
   ("GET /api2/json/cluster/options", handleClusterOptionsGet);
   ("PUT /api2/json/cluster/options", handleClusterOptionsSet);
   ("GET /api2/json/cluster/ha/status/current", handleHAStatusCurrent);
   ("GET /api2/json/cluster/ha/status/manager_status", handleHAManagerStatus);
   ("POST /api2/json/cluster/ha/status/arm-ha", handleHAArm);
   ("POST /api2/json/cluster/ha/status/disarm-ha", handleHADisarm);
   ("POST /api2/json/cluster/ha/resources/{sid}/migrate", handleHAResourceMove);
   ("POST /api2/json/cluster/ha/resources/{sid}/relocate", handleHAResourceMove);
   ("GET /api2/json/cluster/replication", handleReplList);
   ("POST /api2/json/cluster/replication", handleReplCreate);
   ("GET /api2/json/cluster/replication/{id}", handleReplGet);
   ("PUT /api2/json/cluster/replication/{id}", handleReplUpdate);
   ("DELETE /api2/json/cluster/replication/{id}", handleReplDelete)].
