(* ===== verification/MockNodes.v ===== *)
(** [mockpve/nodes.go]: the network interfaces of a node. *)

From S2P Require Import Prelude Json Monad MockState MockServer MockStorage.
From Stdlib Require Import ZArith Lia.
From stdpp Require Import options.

(* go: proxmox/mockpve/nodes.go#Server.lookupIfaceLocked *)
Definition lookupIface (s : state) (node iface : string) : option netIfaceRecord :=
  n ← st_nodes s !! node; n_netIfaces n !! iface.

(** The last lines of [AddInterface] and of the create handler. *)
Definition put_iface (node iface : string) (rec : netIfaceRecord) : state → state :=
  set_nodes (λ ns, <[node := set_netIfaces <[iface := rec]> (ensureNode node ns)]> ns).

(* go: proxmox/mockpve/nodes.go#Server.AddInterface *)
Definition AddInterface (node iface ifaceType : string) : state → state :=
  put_iface node iface {| if_Iface := iface; if_Type := ifaceType; if_Address := ""; if_Gateway := "";
                          if_Ports := ""; if_VLANAware := false; if_Autostart := false; if_Comments := "" |}.

(* go: proxmox/mockpve/nodes.go#netIfaceToPayload *)
Definition netIfaceToPayload (rec : netIfaceRecord) : json :=
  JObj ([("iface", JStr (if_Iface rec))] ++ omit_str "type" (if_Type rec) ++ omit_str "address" (if_Address rec) ++
        omit_str "gateway" (if_Gateway rec) ++ omit_str "bridge_ports" (if_Ports rec) ++
        omit_int "bridge_vlan_aware" (boolToInt (if_VLANAware rec)) ++
        omit_int "autostart" (boolToInt (if_Autostart rec)) ++ omit_str "comments" (if_Comments rec)).

(** An unknown node leaves the slice nil, which encodes as [null]. *)
(* go: proxmox/mockpve/nodes.go#Server.handleNetworkList *)
Definition handleNetworkList (r : request) : M response :=
  checkAuth r ;*
  let* n := read (λ s, st_nodes s !! PathValue r "node") in
  writeData (Some (match n with
                   | None => JNull
                   | Some n => JArr (netIfaceToPayload <$> (map_to_list (n_netIfaces n)).*2)
                   end)).

(* go: proxmox/mockpve/nodes.go#Server.handleNetworkGet *)
Definition handleNetworkGet (r : request) : M response :=
  checkAuth r ;*
  let* rec := read (λ s, lookupIface s (PathValue r "node") (PathValue r "iface")) in
  let* rec := some_or rec 404 msgNoSuchIface in
  writeData (Some (netIfaceToPayload rec)).

(* go: proxmox/mockpve/nodes.go#Server.handleNetworkCreate *)
Definition handleNetworkCreate (r : request) : M response :=
  checkAuth r ;*
  let node := PathValue r "node" in
  let* form := parseForm r in
  let iface := vget form "iface" in
  guard (iface <>s "") 400 "missing iface" ;*
  let rec := {| if_Iface := iface; if_Type := vget form "type"; if_Address := vget form "address";
                if_Gateway := vget form "gateway"; if_Ports := vget form "bridge_ports";
                if_VLANAware := vget form "bridge_vlan_aware" =s "1"; if_Autostart := vget form "autostart" =s "1";
                if_Comments := vget form "comments" |} in
  locked (λ s, (put_iface node iface rec s, ())) ;*
  writeData None.

(* go: proxmox/mockpve/nodes.go#applyIfaceForm *)
Definition applyIfaceForm (form : values) (rec : netIfaceRecord) : netIfaceRecord :=
  {| if_Iface := if_Iface rec; if_Type := if_Type rec;
     if_Address := set_if (vget form "address") (if_Address rec);
     if_Gateway := set_if (vget form "gateway") (if_Gateway rec);
     if_Ports := set_if (vget form "bridge_ports") (if_Ports rec);
     if_VLANAware := set_if_bool (vget form "bridge_vlan_aware") (if_VLANAware rec);
     if_Autostart := set_if_bool (vget form "autostart") (if_Autostart rec);
     if_Comments := set_if (vget form "comments") (if_Comments rec) |}.

(** One section that looks the interface up and writes its node's map. *)
Definition change_iface (f : gmap string netIfaceRecord → gmap string netIfaceRecord) (node iface : string) :
    M (option netIfaceRecord) :=
  locked (λ s, (match lookupIface s node iface with
                | Some _ => set_nodes (alter (set_netIfaces f) node) s
                | None => s
                end, lookupIface s node iface)).

(* go: proxmox/mockpve/nodes.go#Server.handleNetworkUpdate *)
Definition handleNetworkUpdate (r : request) : M response :=
  checkAuth r ;*
  let iface := PathValue r "iface" in
  let* form := parseForm r in
  let* rec := change_iface (alter (applyIfaceForm form) iface) (PathValue r "node") iface in
  some_or rec 404 msgNoSuchIface ;*
  writeData None.

(* go: proxmox/mockpve/nodes.go#Server.handleNetworkDelete *)
Definition handleNetworkDelete (r : request) : M response :=
  checkAuth r ;*
  let iface := PathValue r "iface" in
  let* rec := change_iface (delete iface) (PathValue r "node") iface in
  some_or rec 404 msgNoSuchIface ;*
  writeData None.

(* go: proxmox/mockpve/nodes.go#Server.handleNetworkApply *)
Definition handleNetworkApply (r : request) : M response :=
  checkAuth r ;*
  writeTask (PathValue r "node") "srvreload" "networking".

(* go: proxmox/mockpve/nodes.go#Server.registerNodeNetworkRoutes *)
Definition nodeNetworkRoutes : list (string * (request → M response)) :=
  [("GET /api2/json/nodes/{node}/network", handleNetworkList);
   ("POST /api2/json/nodes/{node}/network", handleNetworkCreate);
   ("PUT /api2/json/nodes/{node}/network", handleNetworkApply);
   ("GET /api2/json/nodes/{node}/network/{iface}", handleNetworkGet);
   ("PUT /api2/json/nodes/{node}/network/{iface}", handleNetworkUpdate);
   ("DELETE /api2/json/nodes/{node}/network/{iface}", handleNetworkDelete)].
