(* ===== verification/MockCluster.v ===== *)
(** [mockpve/cluster.go]: the resource and status listings, and the formation of a
    cluster: creation, join information, joining. *)

From S2P Require Import Prelude Json Monad MockState MockServer MockStorage MockHa.
From Stdlib Require Import ZArith Lia.
From stdpp Require Import options.

(* go: proxmox/mockpve/cluster.go#ClusterFingerprint *)
Definition ClusterFingerprint : string :=
  "A1:B2:C3:D4:E5:F6:07:18:29:3A:4B:5C:6D:7E:8F:90:A1:B2:C3:D4:E5:F6:07:18:29:3A:4B:5C:6D:7E:8F:90".

Definition set_listings (resources : list clusterResourceRecord) (status : list clusterStatusRecord)
    (c : clusterState) : clusterState :=
  {| cl_options := cl_options c; cl_resources := resources; cl_status := status;
     cl_clustered := cl_clustered c; cl_name := cl_name c; cl_selfNode := cl_selfNode c;
     cl_members := cl_members c; cl_joinQueue := cl_joinQueue c |}.
Definition set_membership (clustered : bool) (name self : string) (members queue : list string)
    (c : clusterState) : clusterState :=
  {| cl_options := cl_options c; cl_resources := cl_resources c; cl_status := cl_status c;
     cl_clustered := clustered; cl_name := name; cl_selfNode := self;
     cl_members := members; cl_joinQueue := queue |}.

(** ** Seeding *)

(* go: proxmox/mockpve/cluster.go#Server.SetClusterOptions *)
Definition SetClusterOptions (description migration : string) : state → state :=
  set_cluster (set_options (λ o,
    let o := if description =s "" then o else <["description" := description]> o in
    if migration =s "" then o else <["migration" := migration]> o)).

(* go: proxmox/mockpve/cluster.go#Server.AddClusterResource *)
Definition AddClusterResource (resourceType node status : string) (vmid : Z) : state → state :=
  let id := if (resourceType =s "qemu") || (resourceType =s "lxc") then resourceType +:+ "/" +:+ itoa vmid
            else if resourceType =s "node" then "node/" +:+ node else resourceType in
  set_cluster (λ c, set_listings
    (cl_resources c ++ [{| cr_ID := id; cr_Type := resourceType; cr_Node := node; cr_Status := status;
                           cr_Name := ""; cr_VMID := vmid |}]) (cl_status c) c).

(* go: proxmox/mockpve/cluster.go#Server.AddClusterStatusNode *)
Definition AddClusterStatusNode (name : string) (online : bool) : state → state :=
  set_cluster (λ c, set_listings (cl_resources c)
    (cl_status c ++ [{| cs_ID := "node/" +:+ name; cs_Type := "node"; cs_Name := name; cs_Nodes := 0;
                        cs_Quorate := false; cs_Online := online |}]) c).

(* go: proxmox/mockpve/cluster.go#Server.SetClusterStatusInfo *)
Definition SetClusterStatusInfo (name : string) (nodes : Z) (quorate : bool) : state → state :=
  set_cluster (λ c, set_listings (cl_resources c)
    (cl_status c ++ [{| cs_ID := "cluster"; cs_Type := "cluster"; cs_Name := name; cs_Nodes := nodes;
                        cs_Quorate := quorate; cs_Online := false |}]) c).

(* go: proxmox/mockpve/cluster.go#Server.SetClusterSelfNode *)
Definition SetClusterSelfNode (name : string) : state → state :=
  set_cluster (λ c, set_membership (cl_clustered c) (cl_name c) name (cl_members c) (cl_joinQueue c) c).

(* go: proxmox/mockpve/cluster.go#Server.QueueClusterJoin *)
Definition QueueClusterJoin (name : string) : state → state :=
  set_cluster (λ c, set_membership (cl_clustered c) (cl_name c) (cl_selfNode c) (cl_members c)
                      (cl_joinQueue c ++ [name]) c).

(** ** Listings *)

(* go: proxmox/mockpve/cluster.go#clusterResourcePayload *)
Definition clusterResourcePayload (rec : clusterResourceRecord) : json :=
  JObj ([("id", JStr (cr_ID rec)); ("type", JStr (cr_Type rec))] ++ omit_str "node" (cr_Node rec) ++
        omit_str "status" (cr_Status rec) ++ omit_str "name" (cr_Name rec) ++ omit_int "vmid" (cr_VMID rec)).

(* go: proxmox/mockpve/cluster.go#clusterStatusPayload *)
Definition clusterStatusPayload (rec : clusterStatusRecord) : json :=
  JObj ([("id", JStr (cs_ID rec)); ("type", JStr (cs_Type rec))] ++ omit_str "name" (cs_Name rec) ++
        omit_int "nodes" (cs_Nodes rec) ++ omit_int "quorate" (boolToInt (cs_Quorate rec)) ++
        omit_int "online" (boolToInt (cs_Online rec))).

(* go: proxmox/mockpve/cluster.go#resourceMatchesType *)
Definition resourceMatchesType (recType filter_ : string) : bool :=
  if filter_ =s "vm" then (recType =s "qemu") || (recType =s "lxc") else recType =s filter_.

(* go: proxmox/mockpve/cluster.go#Server.handleClusterResources *)
Definition handleClusterResources (r : request) : M response :=
  checkAuth r ;*
  let filter_ := vget (Query r) "type" in
  let* recs := read (λ s, cl_resources (st_cluster s)) in
  writeData (Some (JArr (clusterResourcePayload <$>
    filter (λ rec, filter_ = "" ∨ resourceMatchesType (cr_Type rec) filter_ = true) recs))).

(* go: proxmox/mockpve/cluster.go#Server.handleClusterStatus *)
Definition handleClusterStatus (r : request) : M response :=
  checkAuth r ;*
  let* recs := read (λ s, cl_status (st_cluster s)) in
  writeData (Some (JArr (clusterStatusPayload <$> recs))).

(** ** Formation *)

(* go: proxmox/mockpve/cluster.go#Server.clusterSelfLocked *)
Definition clusterSelf (c : clusterState) : string := if cl_selfNode c =s "" then "pve" else cl_selfNode c.

(** The sections of the two formation handlers; [inl] is an error message. *)
Definition create_cluster (name : string) (s : state) : state * (string + string) :=
  let c := st_cluster s in
  if cl_clustered c then (s, inl "cluster config already exists")
  else (set_cluster (set_membership true name (cl_selfNode c) [clusterSelf c] (cl_joinQueue c)) s,
        inr (clusterSelf c)).

Definition join_cluster (s : state) : state * (string + (string * string)) :=
  let c := st_cluster s in
  if negb (cl_clustered c) then (s, inl "no cluster to join (create one first)") else
  match cl_joinQueue c with
  | [] => (s, inl ("mockpve: no queued joining node " +:+ bytes [226; 128; 148] +:+
                   " seed one with QueueClusterJoin before joining"))
  | joined :: queue =>
      let popped := set_membership true (cl_name c) (cl_selfNode c) (cl_members c) queue in
      if decide (joined ∈ cl_members c) then
        (set_cluster popped s, inl ("node " +:+ joined +:+ " is already a cluster member"))
      else
        (set_cluster (set_membership true (cl_name c) (cl_selfNode c) (cl_members c ++ [joined]) queue) s,
         inr (clusterSelf c, joined))
  end.

Definition or_bad_request {A} (r : string + A) : M A :=
  match r with inl msg => writeError 400 msg | inr a => ok a end.

(* go: proxmox/mockpve/cluster.go#Server.handleClusterCreate *)
Definition handleClusterCreate (r : request) : M response :=
  checkAuth r ;*
  let* form := parseForm r in
  let name := vget form "clustername" in
  guard (name <>s "") 400 "missing clustername" ;*
  let* res := locked (create_cluster name) in
  let* self := or_bad_request res in
  writeTask self "clustercreate" name.

(** Member [i] of the nodelist, counted from zero. *)
(* go: proxmox/mockpve/cluster.go#clusterJoinNodePayload *)
Definition clusterJoinNodePayload (i : nat) (m : string) : json :=
  JObj [("name", JStr m); ("nodeid", jint (Z.of_nat i + 1)); ("quorum_votes", jint 1);
        ("pve_fp", JStr ClusterFingerprint)].

(* go: proxmox/mockpve/cluster.go#clusterJoinInfoPayload *)
Definition clusterJoinInfoPayload (c : clusterState) : json :=
  JObj [("preferred_node", JStr (clusterSelf c)); ("config_digest", JStr "mockpve-config-digest");
        ("totem", jmap_str {[ "cluster_name" := cl_name c ]});
        ("nodelist", JArr (imap clusterJoinNodePayload (cl_members c)))].

(* go: proxmox/mockpve/cluster.go#Server.handleClusterJoinInfo *)
Definition handleClusterJoinInfo (r : request) : M response :=
  checkAuth r ;*
  let* c := read st_cluster in
  guard (cl_clustered c) 400 "node is not in a cluster" ;*
  writeData (Some (clusterJoinInfoPayload c)).

(* go: proxmox/mockpve/cluster.go#Server.handleClusterJoin *)
Definition handleClusterJoin (r : request) : M response :=
  checkAuth r ;*
  let* form := parseForm r in
  guard (vget form "hostname" <>s "") 400 "missing hostname" ;*
  guard (vget form "password" <>s "") 400 "missing password" ;*
  guard (vget form "fingerprint" <>s "") 400 "missing fingerprint" ;*
  guard (vget form "fingerprint" =s ClusterFingerprint) 400 "wrong fingerprint" ;*
  let* res := locked join_cluster in
  let* self_joined := or_bad_request res in
  writeTask self_joined.1 "clusterjoin" self_joined.2.

(* go: proxmox/mockpve/cluster.go#clusterConfigNodePayload *)
Definition clusterConfigNodePayload (i : nat) (m : string) : json :=
  JObj [("node", JStr m); ("nodeid", jint (Z.of_nat i + 1)); ("quorum_votes", jint 1)].

(* go: proxmox/mockpve/cluster.go#Server.handleClusterConfigNodes *)
Definition handleClusterConfigNodes (r : request) : M response :=
  checkAuth r ;*
  let* members := read (λ s, cl_members (st_cluster s)) in
  writeData (Some (JArr (imap clusterConfigNodePayload members))).

(* go: proxmox/mockpve/cluster.go#Server.registerClusterRoutes *)
Definition clusterRoutes : list (string * (request → M response)) :=
  [("GET /api2/json/cluster/resources", handleClusterResources);
   ("GET /api2/json/cluster/status", handleClusterStatus);
   ("POST /api2/json/cluster/config", handleClusterCreate);
   ("GET /api2/json/cluster/config/join", handleClusterJoinInfo);
   ("POST /api2/json/cluster/config/join", handleClusterJoin);
   ("GET /api2/json/cluster/config/nodes", handleClusterConfigNodes)].
