(* ===== verification/MockAccess.v ===== *)
(** [mockpve/access.go]: the access-management surface: users, groups, roles, the
    access control list, and API tokens. It is separate from the credentials that
    [checkAuth] accepts. *)

From S2P Require Import Prelude Json Monad MockState MockServer MockStorage.
From Stdlib Require Import ZArith Lia Ascii.
From stdpp Require Import options.

Definition msgNoSuchUser : string := "no such user".
Definition msgNoSuchGroup : string := "no such group".
Definition msgNoSuchRole : string := "no such role".
Definition msgNoSuchToken : string := "no such token".

Abbreviation tokens := (gmap string (gmap string accessTokenRecord)).

Definition access_fields (a : accessState) : accessState := {|
  ac_users := ac_users a; ac_groups := ac_groups a; ac_roles := ac_roles a; ac_acls := ac_acls a;
  ac_tokens := ac_tokens a |}.
Definition set_ac_users : (gmap string accessUserRecord → gmap string accessUserRecord) → accessState → accessState :=
  ltac:(setter access_fields ac_users).
Definition set_ac_groups : (gmap string accessGroupRecord → gmap string accessGroupRecord) → accessState → accessState :=
  ltac:(setter access_fields ac_groups).
Definition set_ac_roles : (gmap string accessRoleRecord → gmap string accessRoleRecord) → accessState → accessState :=
  ltac:(setter access_fields ac_roles).
Definition set_ac_acls : (list accessACLRecord → list accessACLRecord) → accessState → accessState :=
  ltac:(setter access_fields ac_acls).
Definition set_ac_tokens : (tokens → tokens) → accessState → accessState :=
  ltac:(setter access_fields ac_tokens).

(** ** Seeding *)

(* go: proxmox/mockpve/access.go#Server.AddAccessUser *)
Definition AddAccessUser (userid : string) : state → state :=
  set_access (set_ac_users <[userid := {|
    au_UserID := userid; au_Email := ""; au_Comment := ""; au_FirstName := ""; au_LastName := "";
    au_Enable := true; au_Expire := 0; au_Groups := [] |}]>).

(* go: proxmox/mockpve/access.go#Server.AddGroup *)
Definition AddGroup (groupid : string) : state → state :=
  set_access (set_ac_groups <[groupid := {| ag_GroupID := groupid; ag_Comment := ""; ag_Members := [] |}]>).

(* go: proxmox/mockpve/access.go#Server.AddRole *)
Definition AddRole (roleid : string) (privs : list string) : state → state :=
  set_access (set_ac_roles <[roleid := {| ar_RoleID := roleid; ar_Privs := privs; ar_Special := false |}]>).

(* go: proxmox/mockpve/access.go#Server.AddACL *)
Definition AddACL (path ugid roleid : string) (propagate : bool) : state → state :=
  set_access (set_ac_acls (λ acls, acls ++ [{|
    ac_Path := path; ac_RoleID := roleid; ac_Type := "user"; ac_UGID := ugid; ac_Propagate := propagate |}])).

(** [ensureTokenUserLocked], and the write into the user's map that follows it. *)
(* go: proxmox/mockpve/access.go#Server.ensureTokenUserLocked *)
Definition ensureTokenUser (userid : string) (toks : tokens) : gmap string accessTokenRecord :=
  default ∅ (toks !! userid).
Definition put_token (userid tokenid : string) (rec : accessTokenRecord) (toks : tokens) : tokens :=
  <[userid := <[tokenid := rec]> (ensureTokenUser userid toks)]> toks.

(* go: proxmox/mockpve/access.go#Server.AddToken *)
Definition AddToken (userid tokenid : string) : state → state :=
  set_access (set_ac_tokens (put_token userid tokenid
    {| at_TokenID := tokenid; at_Comment := ""; at_Expire := 0; at_Privsep := false |})).

(** ** Payloads *)

Definition omit_strs (name : string) (v : list string) : list (string * json) :=
  match v with [] => [] | _ => [(name, JArr (JStr <$> v))] end.

(* go: proxmox/mockpve/access.go#accessUserToPayload *)
Definition accessUserToPayload (rec : accessUserRecord) : json :=
  JObj ([("userid", JStr (au_UserID rec)); ("enable", jint (boolToInt (au_Enable rec)))] ++
        omit_int "expire" (au_Expire rec) ++ omit_str "firstname" (au_FirstName rec) ++
        omit_str "lastname" (au_LastName rec) ++ omit_str "email" (au_Email rec) ++
        omit_str "comment" (au_Comment rec) ++ omit_strs "groups" (au_Groups rec)).

(* go: proxmox/mockpve/access.go#accessGroupPayload *)
Definition accessGroupPayload (rec : accessGroupRecord) : json :=
  JObj ([("groupid", JStr (ag_GroupID rec))] ++ omit_str "comment" (ag_Comment rec) ++
        omit_strs "members" (ag_Members rec)).

(* go: proxmox/mockpve/access.go#accessRolePayload *)
Definition accessRolePayload (rec : accessRoleRecord) : json :=
  JObj ([("roleid", JStr (ar_RoleID rec))] ++ omit_str "privs" (join "," (ar_Privs rec)) ++
        omit_int "special" (boolToInt (ar_Special rec))).

(* go: proxmox/mockpve/access.go#accessACLPayload *)
Definition accessACLPayload (rec : accessACLRecord) : json :=
  JObj ([("path", JStr (ac_Path rec)); ("roleid", JStr (ac_RoleID rec)); ("type", JStr (ac_Type rec));
         ("ugid", JStr (ac_UGID rec))] ++ omit_int "propagate" (boolToInt (ac_Propagate rec))).

(* go: proxmox/mockpve/access.go#tokenToPayload *)
Definition tokenToPayload (rec : accessTokenRecord) : json :=
  JObj ([("tokenid", JStr (at_TokenID rec))] ++ omit_str "comment" (at_Comment rec) ++
        omit_int "expire" (at_Expire rec) ++ omit_int "privsep" (boolToInt (at_Privsep rec))).

(* go: proxmox/mockpve/access.go#tokenSecretPayload *)
Definition tokenSecretPayload (userid tokenid value : string) : json :=
  jmap_str {[ "full-tokenid" := userid +:+ "!" +:+ tokenid; "value" := value ]}.

(** ** Users *)

(* go: proxmox/mockpve/access.go#Server.handleUserList *)
Definition handleUserList (r : request) : M response :=
  checkAuth r ;*
  let* recs := read (λ s, (map_to_list (ac_users (st_access s))).*2) in
  writeData (Some (JArr (accessUserToPayload <$> recs))).

(* go: proxmox/mockpve/access.go#Server.handleUserGet *)
Definition handleUserGet (r : request) : M response :=
  checkAuth r ;*
  let* rec := read (λ s, ac_users (st_access s) !! PathValue r "userid") in
  let* rec := some_or rec 404 msgNoSuchUser in
  writeData (Some (accessUserToPayload rec)).

(** A comma-separated list, empty when the value is. *)
(* go: proxmox/mockpve/access.go#splitCSV *)
Definition splitCSV (s : string) : list string := if s =s "" then [] else split_byte "," s.

(* go: proxmox/mockpve/access.go#Server.handleUserCreate *)
Definition handleUserCreate (r : request) : M response :=
  checkAuth r ;*
  let* form := parseForm r in
  let userid := vget form "userid" in
  guard (userid <>s "") 400 "missing userid" ;*
  let rec := {| au_UserID := userid; au_Email := vget form "email"; au_Comment := vget form "comment";
                au_FirstName := vget form "firstname"; au_LastName := vget form "lastname";
                au_Enable := vget form "enable" <>s "0"; au_Expire := 0;
                au_Groups := splitCSV (vget form "groups") |} in
  locked (λ s, (set_access (set_ac_users <[userid := rec]>) s, ())) ;*
  writeData None.

(* go: proxmox/mockpve/access.go#applyUserForm *)
Definition applyUserForm (form : values) (rec : accessUserRecord) : accessUserRecord :=
  {| au_UserID := au_UserID rec;
     au_Email := set_if (vget form "email") (au_Email rec);
     au_Comment := set_if (vget form "comment") (au_Comment rec);
     au_FirstName := au_FirstName rec; au_LastName := au_LastName rec;
     au_Enable := set_if_bool (vget form "enable") (au_Enable rec);
     au_Expire := au_Expire rec;
     au_Groups := if vget form "groups" <>s "" then split_byte "," (vget form "groups") else au_Groups rec |}.

(* go: proxmox/mockpve/access.go#Server.handleUserUpdate *)
Definition handleUserUpdate (r : request) : M response :=
  checkAuth r ;*
  let* form := parseForm r in
  let userid := PathValue r "userid" in
  let* rec := locked (λ s, (set_access (set_ac_users (alter (applyUserForm form) userid)) s,
                            ac_users (st_access s) !! userid)) in
  some_or rec 404 msgNoSuchUser ;*
  writeData None.

(* go: proxmox/mockpve/access.go#Server.handleUserDelete *)
Definition handleUserDelete (r : request) : M response :=
  checkAuth r ;*
  let userid := PathValue r "userid" in
  let* rec := locked (λ s, (set_access (set_ac_users (delete userid)) s, ac_users (st_access s) !! userid)) in
  some_or rec 404 msgNoSuchUser ;*
  writeData None.

(** ** Groups *)

(* go: proxmox/mockpve/access.go#Server.handleGroupList *)
Definition handleGroupList (r : request) : M response :=
  checkAuth r ;*
  let* recs := read (λ s, (map_to_list (ac_groups (st_access s))).*2) in
  writeData (Some (JArr (accessGroupPayload <$> recs))).

(* go: proxmox/mockpve/access.go#Server.handleGroupGet *)
Definition handleGroupGet (r : request) : M response :=
  checkAuth r ;*
  let* rec := read (λ s, ac_groups (st_access s) !! PathValue r "groupid") in
  let* rec := some_or rec 404 msgNoSuchGroup in
  writeData (Some (accessGroupPayload rec)).

(* go: proxmox/mockpve/access.go#Server.handleGroupCreate *)
Definition handleGroupCreate (r : request) : M response :=
  checkAuth r ;*
  let* form := parseForm r in
  let groupid := vget form "groupid" in
  guard (groupid <>s "") 400 "missing groupid" ;*
  locked (λ s, (set_access (set_ac_groups
    <[groupid := {| ag_GroupID := groupid; ag_Comment := vget form "comment"; ag_Members := [] |}]>) s, ())) ;*
  writeData None.

Definition set_group_comment (form : values) (rec : accessGroupRecord) : accessGroupRecord :=
  {| ag_GroupID := ag_GroupID rec; ag_Comment := set_if (vget form "comment") (ag_Comment rec);
     ag_Members := ag_Members rec |}.

(* go: proxmox/mockpve/access.go#Server.handleGroupUpdate *)
Definition handleGroupUpdate (r : request) : M response :=
  checkAuth r ;*
  let* form := parseForm r in
  let groupid := PathValue r "groupid" in
  let* rec := locked (λ s, (set_access (set_ac_groups (alter (set_group_comment form) groupid)) s,
                            ac_groups (st_access s) !! groupid)) in
  some_or rec 404 msgNoSuchGroup ;*
  writeData None.

(* go: proxmox/mockpve/access.go#Server.handleGroupDelete *)
Definition handleGroupDelete (r : request) : M response :=
  checkAuth r ;*
  let groupid := PathValue r "groupid" in
  let* rec := locked (λ s, (set_access (set_ac_groups (delete groupid)) s, ac_groups (st_access s) !! groupid)) in
  some_or rec 404 msgNoSuchGroup ;*
  writeData None.

(** ** Roles *)

(* go: proxmox/mockpve/access.go#Server.handleRoleList *)
Definition handleRoleList (r : request) : M response :=
  checkAuth r ;*
  let* recs := read (λ s, (map_to_list (ac_roles (st_access s))).*2) in
  writeData (Some (JArr (accessRolePayload <$> recs))).

(** The single-role shape: a privilege to 1 object. *)
Definition privMap (rec : accessRoleRecord) : gmap string json :=
  foldl (λ m p, <[p := jint 1]> m) ∅ (ar_Privs rec).

(* go: proxmox/mockpve/access.go#Server.handleRoleGet *)
Definition handleRoleGet (r : request) : M response :=
  checkAuth r ;*
  let* rec := read (λ s, ac_roles (st_access s) !! PathValue r "roleid") in
  let* rec := some_or rec 404 msgNoSuchRole in
  writeData (Some (jmap (privMap rec))).

(* go: proxmox/mockpve/access.go#Server.handleRoleCreate *)
Definition handleRoleCreate (r : request) : M response :=
  checkAuth r ;*
  let* form := parseForm r in
  let roleid := vget form "roleid" in
  guard (roleid <>s "") 400 "missing roleid" ;*
  let rec := {| ar_RoleID := roleid; ar_Privs := splitCSV (vget form "privs"); ar_Special := false |} in
  locked (λ s, (set_access (set_ac_roles <[roleid := rec]>) s, ())) ;*
  writeData None.

(* go: proxmox/mockpve/access.go#applyRoleForm *)
Definition applyRoleForm (form : values) (rec : accessRoleRecord) : accessRoleRecord :=
  let p := vget form "privs" in
  if p =s "" then rec else
  let privs := split_byte "," p in
  {| ar_RoleID := ar_RoleID rec;
     ar_Privs := if vget form "append" =s "1" then ar_Privs rec ++ privs else privs;
     ar_Special := ar_Special rec |}.

(* go: proxmox/mockpve/access.go#Server.handleRoleUpdate *)
Definition handleRoleUpdate (r : request) : M response :=
  checkAuth r ;*
  let* form := parseForm r in
  let roleid := PathValue r "roleid" in
  let* rec := locked (λ s, (set_access (set_ac_roles (alter (applyRoleForm form) roleid)) s,
                            ac_roles (st_access s) !! roleid)) in
  some_or rec 404 msgNoSuchRole ;*
  writeData None.

(* go: proxmox/mockpve/access.go#Server.handleRoleDelete *)
Definition handleRoleDelete (r : request) : M response :=
  checkAuth r ;*
  let roleid := PathValue r "roleid" in
  let* rec := locked (λ s, (set_access (set_ac_roles (delete roleid)) s, ac_roles (st_access s) !! roleid)) in
  some_or rec 404 msgNoSuchRole ;*
  writeData None.

(** ** The access control list *)

(* go: proxmox/mockpve/access.go#Server.handleACLList *)
Definition handleACLList (r : request) : M response :=
  checkAuth r ;*
  let* recs := read (λ s, ac_acls (st_access s)) in
  writeData (Some (JArr (accessACLPayload <$> recs))).

(* go: proxmox/mockpve/access.go#aclSubject *)
Record aclSubject := { ugid : string; kind : string }.

(* go: proxmox/mockpve/access.go#aclSubjects *)
Definition aclSubjects (form : values) : list aclSubject :=
  ((λ u, {| ugid := u; kind := "user" |}) <$> splitCSV (vget form "users")) ++
  ((λ g, {| ugid := g; kind := "group" |}) <$> splitCSV (vget form "groups")) ++
  ((λ t, {| ugid := t; kind := "token" |}) <$> splitCSV (vget form "tokens")).

Definition acl_matches (path ugid role : string) (a : accessACLRecord) : bool :=
  (ac_Path a =s path) && (ac_UGID a =s ugid) && (ac_RoleID a =s role).

(* go: proxmox/mockpve/access.go#removeACL *)
Definition removeACL (acls : list accessACLRecord) (path ugid role : string) : list accessACLRecord :=
  filter (λ a, acl_matches path ugid role a = false) acls.

(** One pass of the double loop, for one subject and one role. *)
Definition acl_set_one (remove propagate : bool) (path : string) (acls : list accessACLRecord)
    (sr : aclSubject * string) : list accessACLRecord :=
  if remove then removeACL acls path (ugid sr.1) sr.2
  else acls ++ [{| ac_Path := path; ac_RoleID := sr.2; ac_Type := kind sr.1; ac_UGID := ugid sr.1;
                   ac_Propagate := propagate |}].

(** The pairs the double loop visits, subject by subject. *)
Definition acl_pairs (subjects : list aclSubject) (roles : list string) : list (aclSubject * string) :=
  subj ← subjects; (λ role, (subj, role)) <$> roles.

Definition acl_set (form : values) (acls : list accessACLRecord) : list accessACLRecord :=
  foldl (acl_set_one (vget form "delete" =s "1") (vget form "propagate" <>s "0") (vget form "path")) acls
    (acl_pairs (aclSubjects form) (splitCSV (vget form "roles"))).

(* go: proxmox/mockpve/access.go#Server.handleACLSet *)
Definition handleACLSet (r : request) : M response :=
  checkAuth r ;*
  let* form := parseForm r in
  guard (negb ((vget form "path" =s "") || bool_decide (splitCSV (vget form "roles") = []))) 400
    "missing path or roles" ;*
  locked (λ s, (set_access (set_ac_acls (acl_set form)) s, ())) ;*
  writeData None.

(** ** Tokens *)

(* go: proxmox/mockpve/access.go#Server.handleTokenList *)
Definition handleTokenList (r : request) : M response :=
  checkAuth r ;*
  let* recs := read (λ s, (map_to_list (default ∅ (ac_tokens (st_access s) !! PathValue r "userid"))).*2) in
  writeData (Some (JArr (tokenToPayload <$> recs))).

(* go: proxmox/mockpve/access.go#Server.lookupTokenLocked *)
Definition lookupToken (toks : tokens) (userid tokenid : string) : option accessTokenRecord :=
  t ← toks !! userid; t !! tokenid.

(* go: proxmox/mockpve/access.go#Server.handleTokenGet *)
Definition handleTokenGet (r : request) : M response :=
  checkAuth r ;*
  let* rec := read (λ s, lookupToken (ac_tokens (st_access s)) (PathValue r "userid") (PathValue r "tokenid")) in
  let* rec := some_or rec 404 msgNoSuchToken in
  writeData (Some (tokenToPayload rec)).

(* go: proxmox/mockpve/access.go#Server.handleTokenCreate *)
Definition handleTokenCreate (r : request) : M response :=
  checkAuth r ;*
  let* form := parseForm r in
  let userid := PathValue r "userid" in
  let tokenid := PathValue r "tokenid" in
  let rec := {| at_TokenID := tokenid; at_Comment := vget form "comment";
                at_Expire := default 0%Z (parse_int 10 (vget form "expire"));
                at_Privsep := vget form "privsep" =s "1" |} in
  locked (λ s, (set_access (set_ac_tokens (put_token userid tokenid rec)) s, ())) ;*
  writeData (Some (tokenSecretPayload userid tokenid ("secret-" +:+ tokenid))).

(* go: proxmox/mockpve/access.go#applyTokenForm *)
Definition applyTokenForm (form : values) (rec : accessTokenRecord) : accessTokenRecord :=
  {| at_TokenID := at_TokenID rec;
     at_Comment := if vhas form "comment" then vget form "comment" else at_Comment rec;
     at_Privsep := set_if_bool (vget form "privsep") (at_Privsep rec);
     at_Expire := default (at_Expire rec) (parse_int 10 (vget form "expire")) |}.

(* go: proxmox/mockpve/access.go#Server.handleTokenUpdate *)
Definition handleTokenUpdate (r : request) : M response :=
  checkAuth r ;*
  let* form := parseForm r in
  let userid := PathValue r "userid" in
  let tokenid := PathValue r "tokenid" in
  let regenerate := vget form "regenerate" =s "1" in
  let* rec := locked (λ s,
    (if regenerate then s
     else set_access (set_ac_tokens (alter (alter (applyTokenForm form) tokenid) userid)) s,
     lookupToken (ac_tokens (st_access s)) userid tokenid)) in
  some_or rec 404 msgNoSuchToken ;*
  if regenerate then writeData (Some (tokenSecretPayload userid tokenid ("rotated-" +:+ tokenid)))
  else writeData None.

(* go: proxmox/mockpve/access.go#Server.handleTokenDelete *)
Definition handleTokenDelete (r : request) : M response :=
  checkAuth r ;*
  let userid := PathValue r "userid" in
  let tokenid := PathValue r "tokenid" in
  let* rec := locked (λ s, (set_access (set_ac_tokens (alter (delete tokenid) userid)) s,
                            lookupToken (ac_tokens (st_access s)) userid tokenid)) in
  some_or rec 404 msgNoSuchToken ;*
  writeData None.

(** ** Routes *)

(* go: proxmox/mockpve/access.go#Server.registerAccessRoutes *)
Definition accessRoutes : list (string * (request → M response)) :=
  [("GET /api2/json/access/users", handleUserList);
   ("POST /api2/json/access/users", handleUserCreate);
   ("GET /api2/json/access/users/{userid}", handleUserGet);
   ("PUT /api2/json/access/users/{userid}", handleUserUpdate);
   ("DELETE /api2/json/access/users/{userid}", handleUserDelete);
   ("GET /api2/json/access/groups", handleGroupList);
   ("POST /api2/json/access/groups", handleGroupCreate);
   ("GET /api2/json/access/groups/{groupid}", handleGroupGet);
   ("PUT /api2/json/access/groups/{groupid}", handleGroupUpdate);
   ("DELETE /api2/json/access/groups/{groupid}", handleGroupDelete);
   ("GET /api2/json/access/roles", handleRoleList);
   ("POST /api2/json/access/roles", handleRoleCreate);
   ("GET /api2/json/access/roles/{roleid}", handleRoleGet);
   ("PUT /api2/json/access/roles/{roleid}", handleRoleUpdate);
   ("DELETE /api2/json/access/roles/{roleid}", handleRoleDelete);
   ("GET /api2/json/access/acl", handleACLList);
   ("PUT /api2/json/access/acl", handleACLSet);
   ("GET /api2/json/access/users/{userid}/token", handleTokenList);
   ("GET /api2/json/access/users/{userid}/token/{tokenid}", handleTokenGet);
   ("POST /api2/json/access/users/{userid}/token/{tokenid}", handleTokenCreate);
   ("PUT /api2/json/access/users/{userid}/token/{tokenid}", handleTokenUpdate);
   ("DELETE /api2/json/access/users/{userid}/token/{tokenid}", handleTokenDelete)].
