(* ===== verification/MockFirewall.v ===== *)
(** [mockpve/firewall.go]: the firewall of one scope (cluster, node or guest): an
    ordered list of rules addressed by position, IP sets with their entries, and
    options. A scope comes into being the first time a request names it. *)

From S2P Require Import Prelude Json Monad MockState MockServer.
From Stdlib Require Import ZArith Lia Ascii.
From stdpp Require Import options.

Definition msgNoSuchRule : string := "no such firewall rule".
Definition msgNoSuchIPSet : string := "no such firewall ipset".
Definition msgNoSuchIPSetEntry : string := "no such firewall ipset entry".

Definition scope_fields (sc : fwScope) : fwScope :=
  {| fw_rules := fw_rules sc; fw_ipsets := fw_ipsets sc; fw_options := fw_options sc |}.
Definition set_fw_rules : (list fwRuleRecord → list fwRuleRecord) → fwScope → fwScope :=
  ltac:(setter scope_fields fw_rules).
Definition set_fw_ipsets : (gmap string fwIPSetRecord → gmap string fwIPSetRecord) → fwScope → fwScope :=
  ltac:(setter scope_fields fw_ipsets).
Definition set_fw_options : (gmap string string → gmap string string) → fwScope → fwScope :=
  ltac:(setter scope_fields fw_options).

Definition newScope : fwScope := {| fw_rules := []; fw_ipsets := ∅; fw_options := ∅ |}.

(** [sc := s.fwScopeLocked(key)] followed by writes to [sc]: a missing scope is
    created, whatever the function then does to it. *)
(* go: proxmox/mockpve/firewall.go#Server.fwScopeLocked *)
Definition fwScopeLocked (key : string) (fw : firewallState) : fwScope := default newScope (fw !! key).
Definition with_scope {A} (key : string) (f : fwScope → fwScope * A) : M A := locked (λ s,
  let '(sc, a) := f (fwScopeLocked key (st_firewall s)) in (set_firewall <[key := sc]> s, a)).
Definition read_scope {A} (key : string) (f : fwScope → A) : M A := with_scope key (λ sc, (sc, f sc)).

(* go: proxmox/mockpve/firewall.go#fwScopeKeyFunc *)
Definition fwScopeKeyFunc : Type := request → string.

(** ** Rules *)

(* go: proxmox/mockpve/firewall.go#fwRuleToPayload *)
Definition fwRuleToPayload (pos : Z) (rec : fwRuleRecord) : json :=
  JObj ([("pos", jint pos)] ++ omit_str "type" (fr_Type rec) ++ omit_str "action" (fr_Action rec) ++
        omit_int "enable" (if fr_Enable rec then 1 else 0) ++ omit_str "macro" (fr_Macro rec) ++
        omit_str "proto" (fr_Proto rec) ++ omit_str "source" (fr_Source rec) ++ omit_str "dest" (fr_Dest rec) ++
        omit_str "sport" (fr_Sport rec) ++ omit_str "dport" (fr_Dport rec) ++ omit_str "iface" (fr_Iface rec) ++
        omit_str "log" (fr_Log rec) ++ omit_str "comment" (fr_Comment rec)).

(* go: proxmox/mockpve/firewall.go#fwParsePos *)
Definition fwParsePos (r : request) : option Z :=
  match atoi (PathValue r "pos") with
  | Some pos => if (pos <? 0)%Z then None else Some pos
  | None => None
  end.

(** The rule at the position the request names, when there is one. *)
Definition rule_at (sc : fwScope) (pos : option Z) : option (nat * fwRuleRecord) :=
  pos ← pos; rec ← fw_rules sc !! Z.to_nat pos; Some (Z.to_nat pos, rec).

(* go: proxmox/mockpve/firewall.go#fwRuleFromForm *)
Definition fwRuleFromForm (form : values) : fwRuleRecord :=
  {| fr_Type := vget form "type"; fr_Action := vget form "action"; fr_Enable := vget form "enable" =s "1";
     fr_Macro := vget form "macro"; fr_Proto := vget form "proto"; fr_Source := vget form "source";
     fr_Dest := vget form "dest"; fr_Sport := vget form "sport"; fr_Dport := vget form "dport";
     fr_Iface := vget form "iface"; fr_Log := vget form "log"; fr_Comment := vget form "comment" |}.

(* go: proxmox/mockpve/firewall.go#fwApplyRuleForm *)
Definition fwApplyRuleForm (form : values) (rec : fwRuleRecord) : fwRuleRecord :=
  {| fr_Type := set_if (vget form "type") (fr_Type rec);
     fr_Action := set_if (vget form "action") (fr_Action rec);
     fr_Enable := set_if_bool (vget form "enable") (fr_Enable rec);
     fr_Macro := set_if (vget form "macro") (fr_Macro rec);
     fr_Proto := set_if (vget form "proto") (fr_Proto rec);
     fr_Source := set_if (vget form "source") (fr_Source rec);
     fr_Dest := set_if (vget form "dest") (fr_Dest rec);
     fr_Sport := set_if (vget form "sport") (fr_Sport rec);
     fr_Dport := set_if (vget form "dport") (fr_Dport rec);
     fr_Iface := set_if (vget form "iface") (fr_Iface rec);
     fr_Log := set_if (vget form "log") (fr_Log rec);
     fr_Comment := set_if (vget form "comment") (fr_Comment rec) |}.

(* go: proxmox/mockpve/firewall.go#Server.fwRuleList *)
Definition fwRuleList (key : fwScopeKeyFunc) (r : request) : M response :=
  checkAuth r ;*
  let* rules := read_scope (key r) fw_rules in
  writeData (Some (JArr (imap (λ i rec, fwRuleToPayload (Z.of_nat i) rec) rules))).

(* go: proxmox/mockpve/firewall.go#Server.fwRuleCreate *)
Definition fwRuleCreate (key : fwScopeKeyFunc) (r : request) : M response :=
  checkAuth r ;*
  let* form := parseForm r in
  let rec := fwRuleFromForm form in
  with_scope (key r) (λ sc, (set_fw_rules (λ rules, rules ++ [rec]) sc, ())) ;*
  writeData None.

(* go: proxmox/mockpve/firewall.go#Server.fwRuleGet *)
Definition fwRuleGet (key : fwScopeKeyFunc) (r : request) : M response :=
  checkAuth r ;*
  let pos := fwParsePos r in
  let* found := read_scope (key r) (λ sc, rule_at sc pos) in
  let* rec := some_or found 404 msgNoSuchRule in
  writeData (Some (fwRuleToPayload (Z.of_nat rec.1) rec.2)).

(* go: proxmox/mockpve/firewall.go#Server.fwRuleUpdate *)
Definition fwRuleUpdate (key : fwScopeKeyFunc) (r : request) : M response :=
  checkAuth r ;*
  let* form := parseForm r in
  let pos := fwParsePos r in
  let* found := with_scope (key r) (λ sc,
    match rule_at sc pos with
    | Some (i, rec) => (set_fw_rules <[i := fwApplyRuleForm form rec]> sc, true)
    | None => (sc, false)
    end) in
  guard found 404 msgNoSuchRule ;*
  writeData None.

(* go: proxmox/mockpve/firewall.go#Server.fwRuleDelete *)
Definition fwRuleDelete (key : fwScopeKeyFunc) (r : request) : M response :=
  checkAuth r ;*
  let pos := fwParsePos r in
  let* found := with_scope (key r) (λ sc,
    match rule_at sc pos with
    | Some (i, _) => (set_fw_rules (λ rules, take i rules ++ drop (S i) rules) sc, true)
    | None => (sc, false)
    end) in
  guard found 404 msgNoSuchRule ;*
  writeData None.

(** ** IP sets *)

(* go: proxmox/mockpve/firewall.go#fwIPSetPayload *)
Definition fwIPSetPayload (rec : fwIPSetRecord) : json :=
  JObj ([("name", JStr (fi_Name rec))] ++ omit_str "comment" (fi_Comment rec)).

(* go: proxmox/mockpve/firewall.go#fwEntryToPayload *)
Definition fwEntryToPayload (e : fwEntryRecord) : json :=
  JObj ([("cidr", JStr (fe_CIDR e))] ++ omit_int "nomatch" (if fe_NoMatch e then 1 else 0) ++
        omit_str "comment" (fe_Comment e)).

(* go: proxmox/mockpve/firewall.go#Server.fwIPSetList *)
Definition fwIPSetList (key : fwScopeKeyFunc) (r : request) : M response :=
  checkAuth r ;*
  let* recs := read_scope (key r) (λ sc, (map_to_list (fw_ipsets sc)).*2) in
  writeData (Some (JArr (fwIPSetPayload <$> recs))).

(** The record is stored under its new name, then the old name is deleted. *)
Definition rename_ipset (old newName : string) (sets : gmap string fwIPSetRecord) : gmap string fwIPSetRecord :=
  match sets !! old with
  | Some rec =>
      delete old (<[newName := {| fi_Name := newName; fi_Comment := fi_Comment rec; fi_entries := fi_entries rec |}]> sets)
  | None => sets
  end.

(* go: proxmox/mockpve/firewall.go#Server.fwRenameIPSet *)
Definition fwRenameIPSet (scopeKey old newName : string) : M response :=
  let* rec := with_scope scopeKey (λ sc, (set_fw_ipsets (rename_ipset old newName) sc, fw_ipsets sc !! old)) in
  some_or rec 404 msgNoSuchIPSet ;*
  writeData None.

(* go: proxmox/mockpve/firewall.go#Server.fwIPSetCreate *)
Definition fwIPSetCreate (key : fwScopeKeyFunc) (r : request) : M response :=
  checkAuth r ;*
  let* form := parseForm r in
  let name := vget form "name" in
  guard (name <>s "") 400 "missing name" ;*
  let old := vget form "rename" in
  if old <>s "" then fwRenameIPSet (key r) old name else
  let rec := {| fi_Name := name; fi_Comment := vget form "comment"; fi_entries := ∅ |} in
  with_scope (key r) (λ sc, (set_fw_ipsets <[name := rec]> sc, ())) ;*
  writeData None.

(* go: proxmox/mockpve/firewall.go#Server.fwIPSetDelete *)
Definition fwIPSetDelete (key : fwScopeKeyFunc) (r : request) : M response :=
  checkAuth r ;*
  let name := PathValue r "name" in
  let* rec := with_scope (key r) (λ sc, (set_fw_ipsets (delete name) sc, fw_ipsets sc !! name)) in
  some_or rec 404 msgNoSuchIPSet ;*
  writeData None.

(* go: proxmox/mockpve/firewall.go#Server.fwIPSetEntryList *)
Definition fwIPSetEntryList (key : fwScopeKeyFunc) (r : request) : M response :=
  checkAuth r ;*
  let name := PathValue r "name" in
  let* rec := read_scope (key r) (λ sc, fw_ipsets sc !! name) in
  let* rec := some_or rec 404 msgNoSuchIPSet in
  writeData (Some (JArr (fwEntryToPayload <$> (map_to_list (fi_entries rec)).*2))).

Definition set_entries (f : gmap string fwEntryRecord → gmap string fwEntryRecord) (rec : fwIPSetRecord) : fwIPSetRecord :=
  {| fi_Name := fi_Name rec; fi_Comment := fi_Comment rec; fi_entries := f (fi_entries rec) |}.

(* go: proxmox/mockpve/firewall.go#Server.fwIPSetEntryAdd *)
Definition fwIPSetEntryAdd (key : fwScopeKeyFunc) (r : request) : M response :=
  checkAuth r ;*
  let name := PathValue r "name" in
  let* form := parseForm r in
  let cidr := vget form "cidr" in
  guard (cidr <>s "") 400 "missing cidr" ;*
  let e := {| fe_CIDR := cidr; fe_Comment := vget form "comment"; fe_NoMatch := vget form "nomatch" =s "1" |} in
  let* rec := with_scope (key r) (λ sc, (set_fw_ipsets (alter (set_entries <[cidr := e]>) name) sc, fw_ipsets sc !! name)) in
  some_or rec 404 msgNoSuchIPSet ;*
  writeData None.

(* go: proxmox/mockpve/firewall.go#Server.fwIPSetEntryDelete *)
Definition fwIPSetEntryDelete (key : fwScopeKeyFunc) (r : request) : M response :=
  checkAuth r ;*
  let name := PathValue r "name" in
  let cidr := PathValue r "cidr" in
  let* e := with_scope (key r) (λ sc, (set_fw_ipsets (alter (set_entries (delete cidr)) name) sc,
                                       rec ← fw_ipsets sc !! name; fi_entries rec !! cidr)) in
  some_or e 404 msgNoSuchIPSetEntry ;*
  writeData None.

(** ** Options *)

(* go: proxmox/mockpve/firewall.go#Server.fwOptionsGet *)
Definition fwOptionsGet (key : fwScopeKeyFunc) (r : request) : M response :=
  checkAuth r ;*
  let* opts := read_scope (key r) fw_options in
  writeData (Some (jmap_str opts)).

(** One pass of the loop over the form. *)
Definition set_fw_option (form : values) (opts : gmap string string) (k : string) : gmap string string :=
  match form !! k with Some (v :: _) => <[k := v]> opts | _ => opts end.

(* go: proxmox/mockpve/firewall.go#Server.fwOptionsSet *)
Definition fwOptionsSet (key : fwScopeKeyFunc) (r : request) : M response :=
  checkAuth r ;*
  let* form := parseForm r in
  with_scope (key r) (λ sc, (set_fw_options (λ opts, foldl (set_fw_option form) opts (keys form)) sc, ())) ;*
  writeData None.

(** ** Routes *)

(* go: proxmox/mockpve/firewall.go#Server.registerFirewallScope *)
Definition firewallScopeRoutes (prefix : string) (key : fwScopeKeyFunc) : list (string * (request → M response)) :=
  [("GET " +:+ prefix +:+ "/rules", fwRuleList key);
   ("POST " +:+ prefix +:+ "/rules", fwRuleCreate key);
   ("GET " +:+ prefix +:+ "/rules/{pos}", fwRuleGet key);
   ("PUT " +:+ prefix +:+ "/rules/{pos}", fwRuleUpdate key);
   ("DELETE " +:+ prefix +:+ "/rules/{pos}", fwRuleDelete key);
   ("GET " +:+ prefix +:+ "/options", fwOptionsGet key);
   ("PUT " +:+ prefix +:+ "/options", fwOptionsSet key)].

(* go: proxmox/mockpve/firewall.go#Server.registerFirewallIPSetScope *)
Definition firewallIPSetScopeRoutes (prefix : string) (key : fwScopeKeyFunc) : list (string * (request → M response)) :=
  [("GET " +:+ prefix +:+ "/ipset", fwIPSetList key);
   ("POST " +:+ prefix +:+ "/ipset", fwIPSetCreate key);
   ("GET " +:+ prefix +:+ "/ipset/{name}", fwIPSetEntryList key);
   ("POST " +:+ prefix +:+ "/ipset/{name}", fwIPSetEntryAdd key);
   ("DELETE " +:+ prefix +:+ "/ipset/{name}", fwIPSetDelete key);
   ("DELETE " +:+ prefix +:+ "/ipset/{name}/{cidr}", fwIPSetEntryDelete key)].

(* go: proxmox/mockpve/firewall.go#fwGuestKinds *)
Definition fwGuestKinds : list string := ["qemu"; "lxc"].

Definition clusterKey : fwScopeKeyFunc := λ _, "cluster".
Definition nodeKey : fwScopeKeyFunc := λ r, "node:" +:+ PathValue r "node".
Definition guestKey (kind : string) : fwScopeKeyFunc := λ r, "guest:" +:+ kind +:+ ":" +:+ PathValue r "vmid".

(* go: proxmox/mockpve/firewall.go#Server.registerFirewallRoutes *)
Definition firewallRoutes : list (string * (request → M response)) :=
  firewallScopeRoutes "/api2/json/cluster/firewall" clusterKey ++
  firewallIPSetScopeRoutes "/api2/json/cluster/firewall" clusterKey ++
  firewallScopeRoutes "/api2/json/nodes/{node}/firewall" nodeKey ++
  (kind ← fwGuestKinds;
   let prefix := "/api2/json/nodes/{node}/" +:+ kind +:+ "/{vmid}/firewall" in
   firewallScopeRoutes prefix (guestKey kind) ++ firewallIPSetScopeRoutes prefix (guestKey kind)).
