(* ===== verification/MockSdn.v ===== *)
(** [mockpve/sdn.go]: zones, VNets and their subnets, fabrics and their member
    nodes, and the per-node live status synthesised from them. Writes take effect
    at once; applying is a no-op. *)

From S2P Require Import Prelude Json Monad MockState MockServer.
From Stdlib Require Import ZArith Lia Ascii.
From stdpp Require Import options.

Definition msgNoSuchZone : string := "no such sdn zone".
Definition msgNoSuchVNet : string := "no such sdn vnet".
Definition msgNoSuchSubnet : string := "no such sdn subnet".
Definition msgNoSuchFabric : string := "no such sdn fabric".
Definition msgNoSuchFabricNode : string := "no such sdn fabric node".

Definition sdn_fields (d : sdnState) : sdnState := {|
  sd_zones := sd_zones d; sd_vnets := sd_vnets d; sd_fabrics := sd_fabrics d; sd_subnets := sd_subnets d;
  sd_fabricNodes := sd_fabricNodes d |}.
Definition set_zones : (gmap string sdnZoneRecord → gmap string sdnZoneRecord) → sdnState → sdnState :=
  ltac:(setter sdn_fields sd_zones).
Definition set_vnets : (gmap string sdnVNetRecord → gmap string sdnVNetRecord) → sdnState → sdnState :=
  ltac:(setter sdn_fields sd_vnets).
Definition set_fabrics : (gmap string sdnFabricRecord → gmap string sdnFabricRecord) → sdnState → sdnState :=
  ltac:(setter sdn_fields sd_fabrics).
Definition set_subnets :
    (gmap string (gmap string sdnSubnetRecord) → gmap string (gmap string sdnSubnetRecord)) → sdnState → sdnState :=
  ltac:(setter sdn_fields sd_subnets).
Definition set_fabricNodes :
    (gmap string (gmap string sdnFabricNodeRecord) → gmap string (gmap string sdnFabricNodeRecord)) →
    sdnState → sdnState :=
  ltac:(setter sdn_fields sd_fabricNodes).

(** A two-level map: the write that makes the inner map when it is missing, and
    the lookup that tolerates its absence. *)
Definition put2 {A} (k1 k2 : string) (a : A) (m : gmap string (gmap string A)) : gmap string (gmap string A) :=
  <[k1 := <[k2 := a]> (default ∅ (m !! k1))]> m.
Definition lookup2 {A} (m : gmap string (gmap string A)) (k1 k2 : string) : option A := n ← m !! k1; n !! k2.

(** ** Seeding *)

Definition zone_record (zone zoneType : string) : sdnZoneRecord := {|
  sz_Zone := zone; sz_Type := zoneType; sz_MTU := 0; sz_Nodes := ""; sz_IPAM := ""; sz_Controller := "";
  sz_VRFVXLan := 0; sz_Peers := ""; sz_Bridge := "" |}.

(* go: proxmox/mockpve/sdn.go#Server.AddZone *)
Definition AddZone (zone zoneType : string) : state → state := set_sdn (set_zones <[zone := zone_record zone zoneType]>).

(* go: proxmox/mockpve/sdn.go#Server.AddVNet *)
Definition AddVNet (vnet zone : string) : state → state :=
  set_sdn (set_vnets <[vnet := {| sv_VNet := vnet; sv_Zone := zone; sv_Tag := 0; sv_Alias := "" |}]>).

(* go: proxmox/mockpve/sdn.go#Server.AddSubnet *)
Definition AddSubnet (vnet subnet : string) : state → state :=
  set_sdn (set_subnets (put2 vnet subnet
    {| ss_Subnet := subnet; ss_VNet := vnet; ss_Gateway := ""; ss_SNAT := false |})).

(* go: proxmox/mockpve/sdn.go#Server.AddFabric *)
Definition AddFabric (fabric protocol : string) : state → state :=
  set_sdn (set_fabrics <[fabric := {| sf_Fabric := fabric; sf_Protocol := protocol; sf_IPPrefix := "";
                                      sf_IP6Prefix := ""; sf_RouteFilter := "" |}]>).

(* go: proxmox/mockpve/sdn.go#Server.AddFabricNode *)
Definition AddFabricNode (fabric node : string) : state → state := set_sdn (λ d,
  let protocol := match sd_fabrics d !! fabric with Some f => sf_Protocol f | None => "" end in
  set_fabricNodes (put2 fabric node {| sn_NodeID := node; sn_Fabric := fabric; sn_Protocol := protocol; sn_IP := "";
                                       sn_IP6 := ""; sn_Interfaces := [] |}) d).

(** ** Payloads *)

(* go: proxmox/mockpve/sdn.go#sdnZoneToPayload *)
Definition sdnZoneToPayload (rec : sdnZoneRecord) : json :=
  JObj ([("zone", JStr (sz_Zone rec))] ++ omit_str "type" (sz_Type rec) ++ omit_int "mtu" (sz_MTU rec) ++
        omit_str "nodes" (sz_Nodes rec) ++ omit_str "ipam" (sz_IPAM rec) ++
        omit_str "controller" (sz_Controller rec) ++ omit_int "vrf-vxlan" (sz_VRFVXLan rec) ++
        omit_str "peers" (sz_Peers rec) ++ omit_str "bridge" (sz_Bridge rec)).

(* go: proxmox/mockpve/sdn.go#sdnVNetToPayload *)
Definition sdnVNetToPayload (rec : sdnVNetRecord) : json :=
  JObj ([("vnet", JStr (sv_VNet rec))] ++ omit_str "zone" (sv_Zone rec) ++ omit_int "tag" (sv_Tag rec) ++
        omit_str "alias" (sv_Alias rec)).

(* go: proxmox/mockpve/sdn.go#sdnSubnetToPayload *)
Definition sdnSubnetToPayload (rec : sdnSubnetRecord) : json :=
  JObj ([("subnet", JStr (ss_Subnet rec))] ++ omit_str "vnet" (ss_VNet rec) ++
        omit_str "gateway" (ss_Gateway rec) ++ omit_int "snat" (if ss_SNAT rec then 1 else 0)).

(* go: proxmox/mockpve/sdn.go#sdnFabricToPayload *)
Definition sdnFabricToPayload (rec : sdnFabricRecord) : json :=
  JObj ([("id", JStr (sf_Fabric rec))] ++ omit_str "protocol" (sf_Protocol rec) ++
        omit_str "ip_prefix" (sf_IPPrefix rec) ++ omit_str "ip6_prefix" (sf_IP6Prefix rec) ++
        omit_str "route_filter" (sf_RouteFilter rec)).

(* go: proxmox/mockpve/sdn.go#sdnFabricNodeToPayload *)
Definition sdnFabricNodeToPayload (rec : sdnFabricNodeRecord) : json :=
  JObj ([("node_id", JStr (sn_NodeID rec))] ++ omit_str "fabric_id" (sn_Fabric rec) ++
        omit_str "protocol" (sn_Protocol rec) ++ omit_str "ip" (sn_IP rec) ++ omit_str "ip6" (sn_IP6 rec)).

(** ** Zones *)

(* go: proxmox/mockpve/sdn.go#Server.handleSDNApply *)
Definition handleSDNApply (r : request) : M response :=
  checkAuth r ;*
  writeData None.

(* go: proxmox/mockpve/sdn.go#Server.handleZoneList *)
Definition handleZoneList (r : request) : M response :=
  checkAuth r ;*
  let* recs := read (λ s, (map_to_list (sd_zones (st_sdn s))).*2) in
  writeData (Some (JArr (sdnZoneToPayload <$> recs))).

(* go: proxmox/mockpve/sdn.go#Server.handleZoneGet *)
Definition handleZoneGet (r : request) : M response :=
  checkAuth r ;*
  let* rec := read (λ s, sd_zones (st_sdn s) !! PathValue r "zone") in
  let* rec := some_or rec 404 msgNoSuchZone in
  writeData (Some (sdnZoneToPayload rec)).

(* go: proxmox/mockpve/sdn.go#Server.handleZoneCreate *)
Definition handleZoneCreate (r : request) : M response :=
  checkAuth r ;*
  let* form := parseForm r in
  let zone := vget form "zone" in
  guard (zone <>s "") 400 "missing zone" ;*
  let rec := {| sz_Zone := zone; sz_Type := vget form "type"; sz_Nodes := vget form "nodes";
                sz_IPAM := vget form "ipam"; sz_Controller := vget form "controller";
                sz_Peers := vget form "peers"; sz_Bridge := vget form "bridge";
                sz_MTU := set_if_int (vget form "mtu") 0;
                sz_VRFVXLan := set_if_int (vget form "vrf-vxlan") 0 |} in
  locked (λ s, (set_sdn (set_zones <[zone := rec]>) s, ())) ;*
  writeData None.

(* go: proxmox/mockpve/sdn.go#applyZoneForm *)
Definition applyZoneForm (form : values) (rec : sdnZoneRecord) : sdnZoneRecord :=
  {| sz_Zone := sz_Zone rec; sz_Type := sz_Type rec;
     sz_MTU := set_if_int (vget form "mtu") (sz_MTU rec);
     sz_Nodes := set_if (vget form "nodes") (sz_Nodes rec);
     sz_IPAM := set_if (vget form "ipam") (sz_IPAM rec);
     sz_Controller := sz_Controller rec; sz_VRFVXLan := sz_VRFVXLan rec; sz_Peers := sz_Peers rec;
     sz_Bridge := sz_Bridge rec |}.

(* go: proxmox/mockpve/sdn.go#Server.handleZoneUpdate *)
Definition handleZoneUpdate (r : request) : M response :=
  checkAuth r ;*
  let zone := PathValue r "zone" in
  let* form := parseForm r in
  let* rec := locked (λ s, (set_sdn (set_zones (alter (applyZoneForm form) zone)) s, sd_zones (st_sdn s) !! zone)) in
  some_or rec 404 msgNoSuchZone ;*
  writeData None.

(* go: proxmox/mockpve/sdn.go#Server.handleZoneDelete *)
Definition handleZoneDelete (r : request) : M response :=
  checkAuth r ;*
  let zone := PathValue r "zone" in
  let* rec := locked (λ s, (set_sdn (set_zones (delete zone)) s, sd_zones (st_sdn s) !! zone)) in
  some_or rec 404 msgNoSuchZone ;*
  writeData None.

(** ** VNets *)

(* go: proxmox/mockpve/sdn.go#Server.handleVNetList *)
Definition handleVNetList (r : request) : M response :=
  checkAuth r ;*
  let* recs := read (λ s, (map_to_list (sd_vnets (st_sdn s))).*2) in
  writeData (Some (JArr (sdnVNetToPayload <$> recs))).

(* go: proxmox/mockpve/sdn.go#Server.handleVNetGet *)
Definition handleVNetGet (r : request) : M response :=
  checkAuth r ;*
  let* rec := read (λ s, sd_vnets (st_sdn s) !! PathValue r "vnet") in
  let* rec := some_or rec 404 msgNoSuchVNet in
  writeData (Some (sdnVNetToPayload rec)).

(* go: proxmox/mockpve/sdn.go#Server.handleVNetCreate *)
Definition handleVNetCreate (r : request) : M response :=
  checkAuth r ;*
  let* form := parseForm r in
  let vnet := vget form "vnet" in
  guard (vnet <>s "") 400 "missing vnet" ;*
  let rec := {| sv_VNet := vnet; sv_Zone := vget form "zone"; sv_Alias := vget form "alias";
                sv_Tag := set_if_int (vget form "tag") 0 |} in
  locked (λ s, (set_sdn (set_vnets <[vnet := rec]>) s, ())) ;*
  writeData None.

Definition apply_vnet_form (form : values) (rec : sdnVNetRecord) : sdnVNetRecord :=
  {| sv_VNet := sv_VNet rec; sv_Zone := sv_Zone rec;
     sv_Tag := set_if_int (vget form "tag") (sv_Tag rec);
     sv_Alias := set_if (vget form "alias") (sv_Alias rec) |}.

(* go: proxmox/mockpve/sdn.go#Server.handleVNetUpdate *)
Definition handleVNetUpdate (r : request) : M response :=
  checkAuth r ;*
  let vnet := PathValue r "vnet" in
  let* form := parseForm r in
  let* rec := locked (λ s, (set_sdn (set_vnets (alter (apply_vnet_form form) vnet)) s, sd_vnets (st_sdn s) !! vnet)) in
  some_or rec 404 msgNoSuchVNet ;*
  writeData None.

(* go: proxmox/mockpve/sdn.go#Server.handleVNetDelete *)
Definition handleVNetDelete (r : request) : M response :=
  checkAuth r ;*
  let vnet := PathValue r "vnet" in
  let* rec := locked (λ s, (set_sdn (set_vnets (delete vnet)) s, sd_vnets (st_sdn s) !! vnet)) in
  some_or rec 404 msgNoSuchVNet ;*
  writeData None.

(** ** Subnets *)

(* go: proxmox/mockpve/sdn.go#Server.handleSubnetList *)
Definition handleSubnetList (r : request) : M response :=
  checkAuth r ;*
  let* recs := read (λ s, (map_to_list (default ∅ (sd_subnets (st_sdn s) !! PathValue r "vnet"))).*2) in
  writeData (Some (JArr (sdnSubnetToPayload <$> recs))).

(* go: proxmox/mockpve/sdn.go#Server.lookupSubnetLocked *)
Definition lookupSubnet (s : state) (vnet subnet : string) : option sdnSubnetRecord :=
  lookup2 (sd_subnets (st_sdn s)) vnet subnet.

(* go: proxmox/mockpve/sdn.go#Server.handleSubnetGet *)
Definition handleSubnetGet (r : request) : M response :=
  checkAuth r ;*
  let* rec := read (λ s, lookupSubnet s (PathValue r "vnet") (PathValue r "subnet")) in
  let* rec := some_or rec 404 msgNoSuchSubnet in
  writeData (Some (sdnSubnetToPayload rec)).

(* go: proxmox/mockpve/sdn.go#Server.handleSubnetCreate *)
Definition handleSubnetCreate (r : request) : M response :=
  checkAuth r ;*
  let vnet := PathValue r "vnet" in
  let* form := parseForm r in
  let subnet := vget form "subnet" in
  guard (subnet <>s "") 400 "missing subnet" ;*
  let rec := {| ss_Subnet := subnet; ss_VNet := vnet; ss_Gateway := vget form "gateway";
                ss_SNAT := vget form "snat" =s "1" |} in
  locked (λ s, (set_sdn (set_subnets (put2 vnet subnet rec)) s, ())) ;*
  writeData None.

Definition apply_subnet_form (form : values) (rec : sdnSubnetRecord) : sdnSubnetRecord :=
  {| ss_Subnet := ss_Subnet rec; ss_VNet := ss_VNet rec;
     ss_Gateway := set_if (vget form "gateway") (ss_Gateway rec);
     ss_SNAT := set_if_bool (vget form "snat") (ss_SNAT rec) |}.

(* go: proxmox/mockpve/sdn.go#Server.handleSubnetUpdate *)
Definition handleSubnetUpdate (r : request) : M response :=
  checkAuth r ;*
  let vnet := PathValue r "vnet" in
  let subnet := PathValue r "subnet" in
  let* form := parseForm r in
  let* rec := locked (λ s, (set_sdn (set_subnets (alter (alter (apply_subnet_form form) subnet) vnet)) s,
                            lookupSubnet s vnet subnet)) in
  some_or rec 404 msgNoSuchSubnet ;*
  writeData None.

(* go: proxmox/mockpve/sdn.go#Server.handleSubnetDelete *)
Definition handleSubnetDelete (r : request) : M response :=
  checkAuth r ;*
  let vnet := PathValue r "vnet" in
  let subnet := PathValue r "subnet" in
  let* rec := locked (λ s, (set_sdn (set_subnets (alter (delete subnet) vnet)) s, lookupSubnet s vnet subnet)) in
  some_or rec 404 msgNoSuchSubnet ;*
  writeData None.

(** ** Fabrics *)

(* go: proxmox/mockpve/sdn.go#Server.handleFabricList *)
Definition handleFabricList (r : request) : M response :=
  checkAuth r ;*
  let* recs := read (λ s, (map_to_list (sd_fabrics (st_sdn s))).*2) in
  writeData (Some (JArr (sdnFabricToPayload <$> recs))).

(* go: proxmox/mockpve/sdn.go#Server.handleFabricGet *)
Definition handleFabricGet (r : request) : M response :=
  checkAuth r ;*
  let* rec := read (λ s, sd_fabrics (st_sdn s) !! PathValue r "fabric") in
  let* rec := some_or rec 404 msgNoSuchFabric in
  writeData (Some (sdnFabricToPayload rec)).

(* go: proxmox/mockpve/sdn.go#Server.handleFabricCreate *)
Definition handleFabricCreate (r : request) : M response :=
  checkAuth r ;*
  let* form := parseForm r in
  let fabric := vget form "id" in
  guard (fabric <>s "") 400 "missing id" ;*
  let rec := {| sf_Fabric := fabric; sf_Protocol := vget form "protocol"; sf_IPPrefix := vget form "ip_prefix";
                sf_IP6Prefix := vget form "ip6_prefix"; sf_RouteFilter := vget form "route_filter" |} in
  locked (λ s, (set_sdn (set_fabrics <[fabric := rec]>) s, ())) ;*
  writeData None.

(* go: proxmox/mockpve/sdn.go#applyFabricForm *)
Definition applyFabricForm (form : values) (rec : sdnFabricRecord) : sdnFabricRecord :=
  {| sf_Fabric := sf_Fabric rec;
     sf_Protocol := set_if (vget form "protocol") (sf_Protocol rec);
     sf_IPPrefix := set_if (vget form "ip_prefix") (sf_IPPrefix rec);
     sf_IP6Prefix := set_if (vget form "ip6_prefix") (sf_IP6Prefix rec);
     sf_RouteFilter := set_if (vget form "route_filter") (sf_RouteFilter rec) |}.

(* go: proxmox/mockpve/sdn.go#Server.handleFabricUpdate *)
Definition handleFabricUpdate (r : request) : M response :=
  checkAuth r ;*
  let fabric := PathValue r "fabric" in
  let* form := parseForm r in
  let* rec := locked (λ s, (set_sdn (set_fabrics (alter (applyFabricForm form) fabric)) s,
                            sd_fabrics (st_sdn s) !! fabric)) in
  some_or rec 404 msgNoSuchFabric ;*
  writeData None.

(** A fabric and its membership go together, when the fabric is there. *)
Definition delete_fabric (fabric : string) (d : sdnState) : sdnState :=
  match sd_fabrics d !! fabric with
  | Some _ => set_fabricNodes (delete fabric) (set_fabrics (delete fabric) d)
  | None => d
  end.

(* go: proxmox/mockpve/sdn.go#Server.handleFabricDelete *)
Definition handleFabricDelete (r : request) : M response :=
  checkAuth r ;*
  let fabric := PathValue r "fabric" in
  let* rec := locked (λ s, (set_sdn (delete_fabric fabric) s, sd_fabrics (st_sdn s) !! fabric)) in
  some_or rec 404 msgNoSuchFabric ;*
  writeData None.

(** ** Fabric membership *)

(* go: proxmox/mockpve/sdn.go#Server.handleFabricNodeList *)
Definition handleFabricNodeList (r : request) : M response :=
  checkAuth r ;*
  let fabric := PathValue r "fabric" in
  let* found := read (λ s, (sd_fabrics (st_sdn s) !! fabric,
                            (map_to_list (default ∅ (sd_fabricNodes (st_sdn s) !! fabric))).*2)) in
  some_or found.1 404 msgNoSuchFabric ;*
  writeData (Some (JArr (sdnFabricNodeToPayload <$> found.2))).

(* go: proxmox/mockpve/sdn.go#Server.lookupFabricNodeLocked *)
Definition lookupFabricNode (s : state) (fabric node : string) : option sdnFabricNodeRecord :=
  lookup2 (sd_fabricNodes (st_sdn s)) fabric node.

(* go: proxmox/mockpve/sdn.go#Server.handleFabricNodeGet *)
Definition handleFabricNodeGet (r : request) : M response :=
  checkAuth r ;*
  let* rec := read (λ s, lookupFabricNode s (PathValue r "fabric") (PathValue r "node")) in
  let* rec := some_or rec 404 msgNoSuchFabricNode in
  writeData (Some (sdnFabricNodeToPayload rec)).

(** A node joins a fabric that exists. *)
Definition add_member (fabric node : string) (rec : sdnFabricNodeRecord) (d : sdnState) : sdnState :=
  match sd_fabrics d !! fabric with
  | Some _ => set_fabricNodes (put2 fabric node rec) d
  | None => d
  end.

(* go: proxmox/mockpve/sdn.go#Server.handleFabricNodeCreate *)
Definition handleFabricNodeCreate (r : request) : M response :=
  checkAuth r ;*
  let fabric := PathValue r "fabric" in
  let* form := parseForm r in
  let node := vget form "node_id" in
  guard (node <>s "") 400 "missing node_id" ;*
  let rec := {| sn_NodeID := node; sn_Fabric := fabric; sn_Protocol := vget form "protocol";
                sn_IP := vget form "ip"; sn_IP6 := vget form "ip6";
                sn_Interfaces := default [] (form !! "interfaces") |} in
  let* found := locked (λ s, (set_sdn (add_member fabric node rec) s, sd_fabrics (st_sdn s) !! fabric)) in
  some_or found 404 msgNoSuchFabric ;*
  writeData None.

(* go: proxmox/mockpve/sdn.go#applyFabricNodeForm *)
Definition applyFabricNodeForm (form : values) (rec : sdnFabricNodeRecord) : sdnFabricNodeRecord :=
  {| sn_NodeID := sn_NodeID rec; sn_Fabric := sn_Fabric rec; sn_Protocol := sn_Protocol rec;
     sn_IP := set_if (vget form "ip") (sn_IP rec);
     sn_IP6 := set_if (vget form "ip6") (sn_IP6 rec);
     sn_Interfaces := match default [] (form !! "interfaces") with [] => sn_Interfaces rec | v => v end |}.

(* go: proxmox/mockpve/sdn.go#Server.handleFabricNodeUpdate *)
Definition handleFabricNodeUpdate (r : request) : M response :=
  checkAuth r ;*
  let fabric := PathValue r "fabric" in
  let node := PathValue r "node" in
  let* form := parseForm r in
  let* rec := locked (λ s, (set_sdn (set_fabricNodes (alter (alter (applyFabricNodeForm form) node) fabric)) s,
                            lookupFabricNode s fabric node)) in
  some_or rec 404 msgNoSuchFabricNode ;*
  writeData None.

(* go: proxmox/mockpve/sdn.go#Server.handleFabricNodeDelete *)
Definition handleFabricNodeDelete (r : request) : M response :=
  checkAuth r ;*
  let fabric := PathValue r "fabric" in
  let node := PathValue r "node" in
  let* rec := locked (λ s, (set_sdn (set_fabricNodes (alter (delete node) fabric)) s, lookupFabricNode s fabric node)) in
  some_or rec 404 msgNoSuchFabricNode ;*
  writeData None.

(** ** Live status of a node *)

(** A slice that is nil when nothing was appended to it encodes as [null]. *)
Definition nil_slice (l : list json) : json := match l with [] => JNull | _ => JArr l end.

(* go: proxmox/mockpve/sdn.go#Server.handleNodeSDNZones *)
Definition handleNodeSDNZones (r : request) : M response :=
  checkAuth r ;*
  let* recs := read (λ s, (map_to_list (sd_zones (st_sdn s))).*2) in
  writeData (Some (JArr ((λ rec, JObj [("zone", JStr (sz_Zone rec)); ("status", JStr "available")]) <$> recs))).

(** The VNets of a zone, in some iteration order. *)
Definition vnetsOf (s : state) (zone : string) : list sdnVNetRecord :=
  filter (λ rec, sv_Zone rec = zone) (map_to_list (sd_vnets (st_sdn s))).*2.

(* go: proxmox/mockpve/sdn.go#Server.handleNodeSDNZoneContent *)
Definition handleNodeSDNZoneContent (r : request) : M response :=
  checkAuth r ;*
  let zone := PathValue r "zone" in
  let* found := read (λ s, (sd_zones (st_sdn s) !! zone, vnetsOf s zone)) in
  some_or found.1 404 msgNoSuchZone ;*
  writeData (Some (nil_slice ((λ rec,
    JObj ([("vnet", JStr (sv_VNet rec))] ++ omit_str "status" "available")) <$> found.2))).

(* go: proxmox/mockpve/sdn.go#Server.handleNodeSDNZoneBridges *)
Definition handleNodeSDNZoneBridges (r : request) : M response :=
  checkAuth r ;*
  let zone := PathValue r "zone" in
  let* found := read (λ s, (sd_zones (st_sdn s) !! zone, vnetsOf s zone)) in
  some_or found.1 404 msgNoSuchZone ;*
  writeData (Some (nil_slice ((λ rec,
    JObj [("name", JStr (sv_VNet rec)); ("vlan_filtering", JStr "0");
          ("ports", JArr [JObj [("name", JStr "tap100i0")]])]) <$> found.2))).

(* go: proxmox/mockpve/sdn.go#Server.handleNodeSDNZoneIPVRF *)
Definition handleNodeSDNZoneIPVRF (r : request) : M response :=
  checkAuth r ;*
  let zone := PathValue r "zone" in
  let* found := read (λ s, sd_zones (st_sdn s) !! zone) in
  some_or found 404 msgNoSuchZone ;*
  writeData (Some (JArr [JObj [("ip", JStr "10.0.0.0/24"); ("metric", jint 20); ("protocol", JStr "bgp");
                               ("nexthops", JArr [JStr "192.0.2.1"])]])).

(* go: proxmox/mockpve/sdn.go#Server.handleNodeSDNVNetMACVRF *)
Definition handleNodeSDNVNetMACVRF (r : request) : M response :=
  checkAuth r ;*
  let vnet := PathValue r "vnet" in
  let* found := read (λ s, sd_vnets (st_sdn s) !! vnet) in
  some_or found 404 msgNoSuchVNet ;*
  writeData (Some (JArr [JObj [("ip", JStr "10.0.0.10"); ("mac", JStr "BC:24:11:00:00:01");
                               ("nexthop", JStr "192.0.2.1")]])).

(* go: proxmox/mockpve/sdn.go#Server.handleNodeSDNFabricInterfaces *)
Definition handleNodeSDNFabricInterfaces (r : request) : M response :=
  checkAuth r ;*
  let node := PathValue r "node" in
  let fabric := PathValue r "fabric" in
  let* found := read (λ s, (sd_fabrics (st_sdn s) !! fabric,
    match lookupFabricNode s fabric node with Some rec => sn_Interfaces rec | None => [] end)) in
  some_or found.1 404 msgNoSuchFabric ;*
  writeData (Some (JArr ((λ iface,
    JObj [("name", JStr iface); ("state", JStr "up"); ("type", JStr "Point-to-Point")]) <$> found.2))).

(* go: proxmox/mockpve/sdn.go#Server.handleNodeSDNFabricNeighbors *)
Definition handleNodeSDNFabricNeighbors (r : request) : M response :=
  checkAuth r ;*
  let node := PathValue r "node" in
  let fabric := PathValue r "fabric" in
  let* found := read (λ s, (sd_fabrics (st_sdn s) !! fabric,
    filter (λ rec, sn_NodeID rec ≠ node) (map_to_list (default ∅ (sd_fabricNodes (st_sdn s) !! fabric))).*2)) in
  some_or found.1 404 msgNoSuchFabric ;*
  writeData (Some (JArr ((λ rec,
    JObj [("neighbor", JStr (sn_NodeID rec)); ("status", JStr "Up"); ("uptime", JStr "8h24m12s")]) <$> found.2))).

(* go: proxmox/mockpve/sdn.go#Server.handleNodeSDNFabricRoutes *)
Definition handleNodeSDNFabricRoutes (r : request) : M response :=
  checkAuth r ;*
  let fabric := PathValue r "fabric" in
  let* rec := read (λ s, sd_fabrics (st_sdn s) !! fabric) in
  let* rec := some_or rec 404 msgNoSuchFabric in
  let route := set_if (sf_IPPrefix rec) "10.0.0.0/24" in
  writeData (Some (JArr [JObj [("route", JStr route); ("via", JArr [JStr "192.0.2.1"])]])).

(** ** Routes *)

(* go: proxmox/mockpve/sdn.go#Server.registerSDNRoutes *)
Definition sdnRoutes : list (string * (request → M response)) :=
  [("GET /api2/json/cluster/sdn/zones", handleZoneList);
   ("POST /api2/json/cluster/sdn/zones", handleZoneCreate);
   ("GET /api2/json/cluster/sdn/zones/{zone}", handleZoneGet);
   ("PUT /api2/json/cluster/sdn/zones/{zone}", handleZoneUpdate);
   ("DELETE /api2/json/cluster/sdn/zones/{zone}", handleZoneDelete);
   ("GET /api2/json/cluster/sdn/vnets", handleVNetList);
   ("POST /api2/json/cluster/sdn/vnets", handleVNetCreate);
   ("GET /api2/json/cluster/sdn/vnets/{vnet}", handleVNetGet);
   ("PUT /api2/json/cluster/sdn/vnets/{vnet}", handleVNetUpdate);
   ("DELETE /api2/json/cluster/sdn/vnets/{vnet}", handleVNetDelete);
   ("GET /api2/json/cluster/sdn/vnets/{vnet}/subnets", handleSubnetList);
   ("POST /api2/json/cluster/sdn/vnets/{vnet}/subnets", handleSubnetCreate);
   ("GET /api2/json/cluster/sdn/vnets/{vnet}/subnets/{subnet}", handleSubnetGet);
   ("PUT /api2/json/cluster/sdn/vnets/{vnet}/subnets/{subnet}", handleSubnetUpdate);
   ("DELETE /api2/json/cluster/sdn/vnets/{vnet}/subnets/{subnet}", handleSubnetDelete);
   ("GET /api2/json/cluster/sdn/fabrics/fabric", handleFabricList);
   ("POST /api2/json/cluster/sdn/fabrics/fabric", handleFabricCreate);
   ("GET /api2/json/cluster/sdn/fabrics/fabric/{fabric}", handleFabricGet);
   ("PUT /api2/json/cluster/sdn/fabrics/fabric/{fabric}", handleFabricUpdate);
   ("DELETE /api2/json/cluster/sdn/fabrics/fabric/{fabric}", handleFabricDelete);
   ("GET /api2/json/cluster/sdn/fabrics/node/{fabric}", handleFabricNodeList);
   ("POST /api2/json/cluster/sdn/fabrics/node/{fabric}", handleFabricNodeCreate);
   ("GET /api2/json/cluster/sdn/fabrics/node/{fabric}/{node}", handleFabricNodeGet);
   ("PUT /api2/json/cluster/sdn/fabrics/node/{fabric}/{node}", handleFabricNodeUpdate);
   ("DELETE /api2/json/cluster/sdn/fabrics/node/{fabric}/{node}", handleFabricNodeDelete);
   ("PUT /api2/json/cluster/sdn", handleSDNApply);
   ("GET /api2/json/nodes/{node}/sdn/zones", handleNodeSDNZones);
   ("GET /api2/json/nodes/{node}/sdn/zones/{zone}/content", handleNodeSDNZoneContent);
   ("GET /api2/json/nodes/{node}/sdn/zones/{zone}/bridges", handleNodeSDNZoneBridges);
   ("GET /api2/json/nodes/{node}/sdn/zones/{zone}/ip-vrf", handleNodeSDNZoneIPVRF);
   ("GET /api2/json/nodes/{node}/sdn/vnets/{vnet}/mac-vrf", handleNodeSDNVNetMACVRF);
   ("GET /api2/json/nodes/{node}/sdn/fabrics/{fabric}/interfaces", handleNodeSDNFabricInterfaces);
   ("GET /api2/json/nodes/{node}/sdn/fabrics/{fabric}/neighbors", handleNodeSDNFabricNeighbors);
   ("GET /api2/json/nodes/{node}/sdn/fabrics/{fabric}/routes", handleNodeSDNFabricRoutes)].
