(* ===== verification/Sha256.v ===== *)
(** SHA-256 (FIPS 180-4) on byte strings, which the mock derives certificate
    fingerprints with. Words are integers below 2^32. *)

From S2P Require Import Prelude.
From Stdlib Require Import ZArith Lia Ascii.
From stdpp Require Import options.

Local Open Scope Z_scope.

Definition w32 (z : Z) : Z := Z.land z (Z.ones 32).
Definition rotr (n x : Z) : Z := Z.lor (Z.shiftr x n) (w32 (Z.shiftl x (32 - n))).
Definition not32 (x : Z) : Z := Z.lxor x (Z.ones 32).

Definition Ch (x y z : Z) : Z := Z.lxor (Z.land x y) (Z.land (not32 x) z).
Definition Maj (x y z : Z) : Z := Z.lxor (Z.lxor (Z.land x y) (Z.land x z)) (Z.land y z).
Definition Sigma0 (x : Z) : Z := Z.lxor (Z.lxor (rotr 2 x) (rotr 13 x)) (rotr 22 x).
Definition Sigma1 (x : Z) : Z := Z.lxor (Z.lxor (rotr 6 x) (rotr 11 x)) (rotr 25 x).
Definition sigma0 (x : Z) : Z := Z.lxor (Z.lxor (rotr 7 x) (rotr 18 x)) (Z.shiftr x 3).
Definition sigma1 (x : Z) : Z := Z.lxor (Z.lxor (rotr 17 x) (rotr 19 x)) (Z.shiftr x 10).

(** The constants of the standard, from their definition: the first 32 bits of the
    fractional parts of the cube roots of the first 64 primes, and of the square
    roots of the first eight. *)
Definition is_prime (n : Z) : bool :=
  forallb (λ d, negb (n mod Z.of_nat d =? 0)) (seq 2 (Z.to_nat (Z.sqrt n) - 1)).
Definition primes : list Z := Eval vm_compute in List.filter is_prime (Z.of_nat <$> seq 2 310).
(** The integer cube root below [2 ^ bits], bit by bit. *)
Fixpoint cube_root (bits : nat) (acc n : Z) : Z :=
  match bits with
  | O => acc
  | S bits =>
      let next := acc + 2 ^ Z.of_nat bits in
      cube_root bits (if next * next * next <=? n then next else acc) n
  end.
Definition round_constants : list Z := Eval vm_compute in (λ p, w32 (cube_root 35 0 (Z.shiftl p 96))) <$> primes.
Definition initial_hash : list Z := Eval vm_compute in (λ p, w32 (Z.sqrt (Z.shiftl p 64))) <$> take 8 primes.
Example constants_count : length primes = 64%nat ∧ length initial_hash = 8%nat.
Proof. done. Qed.

Definition byte_of (c : ascii) : Z := Z.of_N (N_of_ascii c).
Fixpoint bytes_of (s : string) : list Z := match s with "" => [] | String c s => byte_of c :: bytes_of s end.

(** The length in bits as eight bytes, most significant first. *)
Definition be64 (n : Z) : list Z := (λ i, Z.land (Z.shiftr n (8 * i)) 255) <$> [7; 6; 5; 4; 3; 2; 1; 0].

(** The message, a set bit, zeros up to 56 modulo 64, and the length. *)
Definition pad (m : list Z) : list Z :=
  let n := Z.of_nat (length m) in
  m ++ 128 :: repeat 0 (Z.to_nat ((55 - n) mod 64)) ++ be64 (8 * n).

Fixpoint words (l : list Z) : list Z :=
  match l with
  | a :: b :: c :: d :: l =>
      Z.lor (Z.lor (Z.shiftl a 24) (Z.shiftl b 16)) (Z.lor (Z.shiftl c 8) d) :: words l
  | _ => []
  end.

(** The message schedule, latest word first. *)
Fixpoint schedule (n : nat) (ws : list Z) : list Z :=
  match n with
  | O => ws
  | S n =>
      let at_ i := nth i ws 0 in
      schedule n (w32 (sigma1 (at_ 1%nat) + at_ 6%nat + sigma0 (at_ 14%nat) + at_ 15%nat) :: ws)
  end.

Definition round (h : list Z) (kw : Z * Z) : list Z :=
  match h with
  | [a; b; c; d; e; f; g; hh] =>
      let t1 := w32 (hh + Sigma1 e + Ch e f g + kw.1 + kw.2) in
      let t2 := w32 (Sigma0 a + Maj a b c) in
      [w32 (t1 + t2); a; b; c; w32 (d + t1); e; f; g]
  | _ => h
  end.

Definition compress (h block : list Z) : list Z :=
  let ws := reverse (schedule 48 (reverse block)) in
  zip_with (λ x y, w32 (x + y)) h (foldl round h (zip round_constants ws)).

Fixpoint blocks (fuel : nat) (ws : list Z) : list (list Z) :=
  match fuel, ws with
  | S fuel, _ :: _ => take 16 ws :: blocks fuel (drop 16 ws)
  | _, _ => []
  end.

(** The digest as 32 bytes. *)
Definition sha256 (s : string) : list Z :=
  let ws := words (pad (bytes_of s)) in
  h ← foldl compress initial_hash (blocks (length ws) ws);
  (λ i, Z.land (Z.shiftr h i) 255) <$> [24; 16; 8; 0].

(** A byte as two upper-case hexadecimal digits. *)
Definition hex_upper (n : Z) : ascii := ascii_of_N (Z.to_N (if n <? 10 then 48 + n else 55 + n)).
Definition hex2 (b : Z) : string := String (hex_upper (Z.shiftr b 4)) (String (hex_upper (Z.land b 15)) "").

Definition hex_digest (s : string) : string := join "" (hex2 <$> sha256 s).

(** Two test vectors of the standard, of one block and of two. *)
Example one_block : hex_digest "abc" = "BA7816BF8F01CFEA414140DE5DAE2223B00361A396177A9CB410FF61F20015AD".
Proof. vm_compute. reflexivity. Qed.
Example two_blocks :
  hex_digest "abcdbcdecdefdefgefghfghighijhijkijkljklmklmnlmnomnopnopq" =
    "248D6A61D20638B8E5C026930C3E6039A33CE45964FF2167F6ECEDD419DB06C1".
Proof. vm_compute. reflexivity. Qed.

(** Thirty-two colon-separated octets. *)
(* go: proxmox/mockpve/nodesadmin.go#mockFingerprint *)
Definition mockFingerprint (seed : string) : string := join ":" (hex2 <$> sha256 seed).
