(* ===== verification/MockAdmin.v ===== *)
(** [mockpve/nodesadmin.go]: package updates and repositories, disks, node
    certificates with the ACME order, renewal and revocation that move them, and
    the cluster's ACME accounts. *)

From S2P Require Import Prelude Json Monad MockState MockServer MockStorage MockAccess MockSdn Sha256.
From Stdlib Require Import ZArith Lia Ascii.
From stdpp Require Import options.

Definition msgNoSuchRepo : string := "no such apt repository".
Definition msgNoSuchDisk : string := "no such disk".
Definition msgNoSuchACMEAccount : string := "no such acme account".

(* go: proxmox/mockpve/nodesadmin.go#L519-L522 *)
Definition mockCertNotBefore : Z := 1735689600.
Definition mockCertNotAfter : Z := 4102444800.
(* go: proxmox/mockpve/nodesadmin.go#L555-L561 *)
Definition acmeCertFilename : string := "pveproxy-ssl.pem".
Definition mockACMEIssuer : string := "CN=mockpve ACME CA".
Definition acmeDomainSlots : nat := 6.

(** [n := s.ensureNodeLocked(node)] and a write through [n]. *)
Definition update_node (node : string) (f : nodeState → nodeState) : state → state :=
  set_nodes (λ ns, <[node := f (ensureNode node ns)]> ns).

(** What a handler reads of a node that may be missing. *)
Definition of_node {A} (s : state) (node : string) (f : nodeState → A) : option A := f <$> st_nodes s !! node.

(** ** Seeding *)

(* go: proxmox/mockpve/nodesadmin.go#Server.AddAptUpdate *)
Definition AddAptUpdate (node pkg version oldVersion : string) : state → state :=
  update_node node (set_aptUpdates (λ l, l ++ [{|
    apt_Package := pkg; apt_Title := pkg; apt_Version := version; apt_OldVersion := oldVersion;
    apt_Priority := "standard" |}])).

(* go: proxmox/mockpve/nodesadmin.go#Server.AddRepository *)
Definition AddRepository (node path uri : string) (enabled : bool) : state → state :=
  update_node node (set_repos (λ l, l ++ [{|
    rf_Path := path; rf_FileType := "sources";
    rf_Repos := [{| rp_Types := ["deb"]; rp_URIs := [uri]; rp_Suites := ["trixie"]; rp_Components := ["main"];
                    rp_Enabled := enabled; rp_Comment := "" |}] |}])).

(* go: proxmox/mockpve/nodesadmin.go#Server.AddDisk *)
Definition AddDisk (node devpath diskType : string) : state → state :=
  update_node node (set_disks (λ l, l ++ [{|
    d_DevPath := devpath; d_Model := "MOCK-DISK"; d_Serial := "SN-" +:+ devpath; d_Size := 512110190592;
    d_Type := diskType; d_Health := "PASSED"; d_GPT := true |}])).

(* go: proxmox/mockpve/nodesadmin.go#Server.AddNodeCertificate *)
Definition AddNodeCertificate (node filename : string) : state → state :=
  update_node node (set_certs (λ l, l ++ [{|
    c_Filename := filename; c_Fingerprint := mockFingerprint (node +:+ "/" +:+ filename);
    c_Subject := "CN=" +:+ node; c_Issuer := "CN=" +:+ node; c_NotBefore := mockCertNotBefore;
    c_NotAfter := mockCertNotAfter; c_SAN := [node]; c_PEM := ""; c_PublicKeyType := "rsa";
    c_PublicKeyBits := 2048 |}])).

(* go: proxmox/mockpve/nodesadmin.go#Server.AddACMEAccount *)
Definition AddACMEAccount (name : string) : state → state :=
  set_acmeAccounts <[name := {| aa_Name := name; aa_Directory := "https://acme.example/directory";
                                aa_Location := "https://acme.example/acct/1"; aa_TOS := "https://acme.example/tos";
                                aa_Contact := [] |}]>.

(** ** Packages and repositories *)

(* go: proxmox/mockpve/nodesadmin.go#aptUpdatePayload *)
Definition aptUpdatePayload (rec : aptUpdateRecord) : json :=
  JObj ([("Package", JStr (apt_Package rec))] ++ omit_str "Title" (apt_Title rec) ++
        omit_str "Version" (apt_Version rec) ++ omit_str "OldVersion" (apt_OldVersion rec) ++
        omit_str "Priority" (apt_Priority rec)).

(** A slice made for a node that exists, [null] for one that does not. *)
Definition slice_or_null {A} (f : A → json) (l : option (list A)) : json :=
  match l with Some l => JArr (f <$> l) | None => JNull end.

(* go: proxmox/mockpve/nodesadmin.go#Server.handleAptUpdateList *)
Definition handleAptUpdateList (r : request) : M response :=
  checkAuth r ;*
  let* out := read (λ s, of_node s (PathValue r "node") n_aptUpdates) in
  writeData (Some (slice_or_null aptUpdatePayload out)).

(* go: proxmox/mockpve/nodesadmin.go#Server.handleAptRefresh *)
Definition handleAptRefresh (r : request) : M response :=
  checkAuth r ;*
  writeTask (PathValue r "node") "aptupdate" "aptupdate".

(* go: proxmox/mockpve/nodesadmin.go#repoPayload *)
Definition repoPayload (rp : nodeRepoRecord) : json :=
  JObj (omit_strs "Types" (rp_Types rp) ++ omit_strs "URIs" (rp_URIs rp) ++ omit_strs "Suites" (rp_Suites rp) ++
        omit_strs "Components" (rp_Components rp) ++ [("Enabled", jint (boolToInt (rp_Enabled rp)))] ++
        omit_str "Comment" (rp_Comment rp)).

(* go: proxmox/mockpve/nodesadmin.go#repoFileToPayload *)
Definition repoFileToPayload (f : nodeRepoFileRecord) : json :=
  JObj ([("path", JStr (rf_Path f))] ++ omit_str "file-type" (rf_FileType f) ++
        match rf_Repos f with [] => [] | repos => [("repositories", JArr (repoPayload <$> repos))] end).

(* go: proxmox/mockpve/nodesadmin.go#Server.handleRepoList *)
Definition handleRepoList (r : request) : M response :=
  checkAuth r ;*
  let* files := read (λ s, of_node s (PathValue r "node") n_repos) in
  writeData (Some (JObj [("files", slice_or_null repoFileToPayload files); ("digest", JStr "mock-digest")])).

Definition set_enabled (enabled : bool) (rp : nodeRepoRecord) : nodeRepoRecord :=
  {| rp_Types := rp_Types rp; rp_URIs := rp_URIs rp; rp_Suites := rp_Suites rp; rp_Components := rp_Components rp;
     rp_Enabled := enabled; rp_Comment := rp_Comment rp |}.

(** The loop over the files: every file at the path that has the index is changed. *)
Definition repo_hit (path : string) (index : Z) (f : nodeRepoFileRecord) : bool :=
  (rf_Path f =s path) && ((0 <=? index) && (index <? Z.of_nat (length (rf_Repos f))))%Z.
Definition toggle_repo (path : string) (index : Z) (enabled : bool) (f : nodeRepoFileRecord) : nodeRepoFileRecord :=
  if repo_hit path index f then
    {| rf_Path := rf_Path f; rf_FileType := rf_FileType f;
       rf_Repos := alter (set_enabled enabled) (Z.to_nat index) (rf_Repos f) |}
  else f.

(* go: proxmox/mockpve/nodesadmin.go#Server.handleRepoUpdate *)
Definition handleRepoUpdate (r : request) : M response :=
  checkAuth r ;*
  let* form := parseForm r in
  let node := PathValue r "node" in
  let path := vget form "path" in
  let* index := if vget form "index" =s "" then ok 0%Z else some_or (atoi (vget form "index")) 400 "invalid index" in
  let enabled := vget form "enabled" =s "1" in
  let* found := locked (λ s,
    (set_nodes (alter (set_repos (λ l, toggle_repo path index enabled <$> l)) node) s,
     bool_decide (Exists (λ f, repo_hit path index f = true) (default [] (of_node s node n_repos))))) in
  guard found 404 msgNoSuchRepo ;*
  writeData None.

(** ** Disks *)

(* go: proxmox/mockpve/nodesadmin.go#diskPayload *)
Definition diskPayload (d : nodeDiskRecord) : json :=
  JObj ([("devpath", JStr (d_DevPath d))] ++ omit_str "model" (d_Model d) ++ omit_str "serial" (d_Serial d) ++
        omit_int "size" (d_Size d) ++ omit_str "type" (d_Type d) ++ omit_str "health" (d_Health d) ++
        omit_int "gpt" (boolToInt (d_GPT d))).

(* go: proxmox/mockpve/nodesadmin.go#Server.handleDiskList *)
Definition handleDiskList (r : request) : M response :=
  checkAuth r ;*
  let* out := read (λ s, of_node s (PathValue r "node") n_disks) in
  writeData (Some (slice_or_null diskPayload out)).

(* go: proxmox/mockpve/nodesadmin.go#Server.handleDiskSMART *)
Definition handleDiskSMART (r : request) : M response :=
  checkAuth r ;*
  let disk := vget (Query r) "disk" in
  let* found := read (λ s,
    bool_decide (Exists (λ d, d_DevPath d = disk) (default [] (of_node s (PathValue r "node") n_disks)))) in
  guard found 404 msgNoSuchDisk ;*
  writeData (Some (JObj [("health", JStr "PASSED"); ("type", JStr "ata");
    ("attributes", JArr [JObj [("id", jint 5); ("name", JStr "Reallocated_Sector_Ct"); ("raw", JStr "0")]])])).

(* go: proxmox/mockpve/nodesadmin.go#Server.handleDiskInitGPT *)
Definition handleDiskInitGPT (r : request) : M response :=
  checkAuth r ;*
  let* form := parseForm r in
  guard (vget form "disk" <>s "") 400 msgNoSuchDisk ;*
  writeTask (PathValue r "node") "diskinit" "diskinit".

(** ** Certificates *)

(* go: proxmox/mockpve/nodesadmin.go#certPayload *)
Definition certPayload (c : nodeCertRecord) : json :=
  JObj ([("filename", JStr (c_Filename c))] ++ omit_str "fingerprint" (c_Fingerprint c) ++
        omit_str "subject" (c_Subject c) ++ omit_str "issuer" (c_Issuer c) ++
        omit_int "notbefore" (c_NotBefore c) ++ omit_int "notafter" (c_NotAfter c) ++ omit_strs "san" (c_SAN c) ++
        omit_str "pem" (c_PEM c) ++ omit_str "public-key-type" (c_PublicKeyType c) ++
        omit_int "public-key-bits" (c_PublicKeyBits c)).

(* go: proxmox/mockpve/nodesadmin.go#certRecordsToPayload *)
Definition certRecordsToPayload (recs : list nodeCertRecord) : json := JArr (certPayload <$> recs).

(* go: proxmox/mockpve/nodesadmin.go#Server.certsForNodeLocked *)
Definition certsForNode (s : state) (node : string) : list nodeCertRecord := default [] (of_node s node n_certs).

(* go: proxmox/mockpve/nodesadmin.go#Server.handleCertInfo *)
Definition handleCertInfo (r : request) : M response :=
  checkAuth r ;*
  let* certs := read (λ s, certsForNode s (PathValue r "node")) in
  writeData (Some (certRecordsToPayload certs)).

(* go: proxmox/mockpve/nodesadmin.go#withoutFrontendCert *)
Definition withoutFrontendCert (recs : list nodeCertRecord) : list nodeCertRecord :=
  filter (λ c, c_Filename c ≠ acmeCertFilename) recs.

Definition custom_cert (node pem : string) : nodeCertRecord := {|
  c_Filename := acmeCertFilename; c_Fingerprint := mockFingerprint ("custom/" +:+ node);
  c_Subject := "CN=custom"; c_Issuer := "CN=custom"; c_NotBefore := mockCertNotBefore;
  c_NotAfter := mockCertNotAfter; c_SAN := []; c_PEM := pem; c_PublicKeyType := "rsa"; c_PublicKeyBits := 2048 |}.

(* go: proxmox/mockpve/nodesadmin.go#Server.handleCertUpload *)
Definition handleCertUpload (r : request) : M response :=
  checkAuth r ;*
  let* form := parseForm r in
  let node := PathValue r "node" in
  let pem := vget form "certificates" in
  guard (pem <>s "") 400 "missing certificates" ;*
  let* certs := locked (λ s,
    let s := update_node node (set_certs (λ l, withoutFrontendCert l ++ [custom_cert node pem])) s in
    (s, certsForNode s node)) in
  writeData (Some (certRecordsToPayload certs)).

(* go: proxmox/mockpve/nodesadmin.go#Server.handleCertDelete *)
Definition handleCertDelete (r : request) : M response :=
  checkAuth r ;*
  locked (λ s, (set_nodes (alter (set_certs withoutFrontendCert) (PathValue r "node")) s, ())) ;*
  writeData None.

(** ** The ACME certificate of a node *)

(** The loop of [slotDomain] over the parts; [first] is the test [i == 0]. *)
Fixpoint slot_parts (first : bool) (parts : list string) : string :=
  match parts with
  | [] => ""
  | part :: parts =>
      let part := trim_space part in
      if has_prefix part "domain=" then trim_prefix part "domain="
      else if first && negb (contains part "=") then part
      else slot_parts false parts
  end.
(* go: proxmox/mockpve/nodesadmin.go#slotDomain *)
Definition slotDomain (v : string) : string := slot_parts true (split_byte "," v).

(** The closure [add]: a trimmed, non-empty name not seen before is appended. *)
Definition add_san (san : list string) (domain : string) : list string :=
  let domain := trim_space domain in
  if (domain =s "") || bool_decide (domain ∈ san) then san else san ++ [domain].

Definition acme_slot (i : nat) : string := "acmedomain" +:+ itoa (Z.of_nat i).

(** The names in the order the two loops meet them. *)
Definition acme_names (config : gmap string string) : list string :=
  (i ← seq 0 acmeDomainSlots; match config !! acme_slot i with Some v => [slotDomain v] | None => [] end) ++
  (part ← split_byte "," (default "" (config !! "acme"));
   let part := trim_space part in
   if has_prefix part "domains=" then split_byte ";" (trim_prefix part "domains=") else []).

(* go: proxmox/mockpve/nodesadmin.go#acmeSANsLocked *)
Definition acmeSANs (n : nodeState) : list string := foldl add_san [] (acme_names (n_config n)).

(* go: proxmox/mockpve/nodesadmin.go#acmeCertVerb *)
Definition acmeCertVerb (method : string) : string :=
  if method =s "POST" then "order" else if method =s "PUT" then "renew" else "revoke".

Definition acme_cert (san : list string) : nodeCertRecord := {|
  c_Filename := acmeCertFilename; c_Fingerprint := mockFingerprint (join "," san);
  c_Subject := "CN=" +:+ default "" (head san); c_Issuer := mockACMEIssuer; c_NotBefore := mockCertNotBefore;
  c_NotAfter := mockCertNotAfter; c_SAN := san; c_PEM := ""; c_PublicKeyType := "ecdsa"; c_PublicKeyBits := 256 |}.

(** The section of [handleCertACME]. *)
Definition move_cert (method : string) (n : nodeState) : nodeState :=
  let n := set_certs withoutFrontendCert n in
  if method =s "DELETE" then n else
  match acmeSANs n with [] => n | san => set_certs (λ l, l ++ [acme_cert san]) n end.

(* go: proxmox/mockpve/nodesadmin.go#Server.handleCertACME *)
Definition handleCertACME (r : request) : M response :=
  checkAuth r ;*
  let node := PathValue r "node" in
  locked (λ s, (update_node node (move_cert (Method r)) s, ())) ;*
  writeTask node "acmecert" (acmeCertVerb (Method r)).

(** ** ACME accounts *)

(** One pass of the loop of [acmeAccountObject]. *)
Definition mailto (c : string) : list string :=
  let c := trim_space c in
  if c =s "" then [] else [if has_prefix c "mailto:" then c else "mailto:" +:+ c].
(* go: proxmox/mockpve/nodesadmin.go#acmeAccountObject *)
Definition acmeAccountObject (rec : acmeAccountRecord) : json :=
  JObj [("status", JStr "valid"); ("contact", JArr (JStr <$> (aa_Contact rec ≫= mailto)))].

(* go: proxmox/mockpve/nodesadmin.go#acmeAccountPayload *)
Definition acmeAccountPayload (rec : acmeAccountRecord) : json :=
  JObj (omit_str "location" (aa_Location rec) ++ omit_str "directory" (aa_Directory rec) ++
        omit_str "tos" (aa_TOS rec) ++ [("account", acmeAccountObject rec)]).

(* go: proxmox/mockpve/nodesadmin.go#Server.handleACMEAccountList *)
Definition handleACMEAccountList (r : request) : M response :=
  checkAuth r ;*
  let* names := read (λ s, keys (st_acmeAccounts s)) in
  writeData (Some (JArr ((λ name, jmap_str {[ "name" := name ]}) <$> names))).

(* go: proxmox/mockpve/nodesadmin.go#Server.handleACMEAccountCreate *)
Definition handleACMEAccountCreate (r : request) : M response :=
  checkAuth r ;*
  let* form := parseForm r in
  let name := vget form "name" in
  guard (name <>s "") 400 "missing name" ;*
  let rec := {| aa_Name := name; aa_Directory := vget form "directory";
                aa_Location := "https://acme.example/acct/" +:+ name; aa_TOS := vget form "tos_url";
                aa_Contact := splitCSV (vget form "contact") |} in
  locked (λ s, (set_acmeAccounts <[name := rec]> s, ())) ;*
  writeTask "pve" "acmeregister" name.

(* go: proxmox/mockpve/nodesadmin.go#Server.handleACMEAccountGet *)
Definition handleACMEAccountGet (r : request) : M response :=
  checkAuth r ;*
  let* rec := read (λ s, st_acmeAccounts s !! PathValue r "name") in
  let* rec := some_or rec 404 msgNoSuchACMEAccount in
  writeData (Some (acmeAccountPayload rec)).

Definition set_contact (contact : string) (rec : acmeAccountRecord) : acmeAccountRecord :=
  {| aa_Name := aa_Name rec; aa_Directory := aa_Directory rec; aa_Location := aa_Location rec; aa_TOS := aa_TOS rec;
     aa_Contact := if contact =s "" then aa_Contact rec else splitCSV contact |}.

(* go: proxmox/mockpve/nodesadmin.go#Server.handleACMEAccountUpdate *)
Definition handleACMEAccountUpdate (r : request) : M response :=
  checkAuth r ;*
  let* form := parseForm r in
  let name := PathValue r "name" in
  let* rec := locked (λ s, (set_acmeAccounts (alter (set_contact (vget form "contact")) name) s, st_acmeAccounts s !! name)) in
  some_or rec 404 msgNoSuchACMEAccount ;*
  writeTask "pve" "acmeupdate" name.

(* go: proxmox/mockpve/nodesadmin.go#Server.handleACMEAccountDelete *)
Definition handleACMEAccountDelete (r : request) : M response :=
  checkAuth r ;*
  let name := PathValue r "name" in
  let* rec := locked (λ s, (set_acmeAccounts (delete name) s, st_acmeAccounts s !! name)) in
  some_or rec 404 msgNoSuchACMEAccount ;*
  writeTask "pve" "acmedeactivate" name.

(** ** Routes *)

(* go: proxmox/mockpve/nodesadmin.go#Server.registerNodeAdminRoutes *)
Definition nodeAdminRoutes : list (string * (request → M response)) :=
  [("GET /api2/json/nodes/{node}/apt/update", handleAptUpdateList);
   ("POST /api2/json/nodes/{node}/apt/update", handleAptRefresh);
   ("GET /api2/json/nodes/{node}/apt/repositories", handleRepoList);
   ("POST /api2/json/nodes/{node}/apt/repositories", handleRepoUpdate);
   ("GET /api2/json/nodes/{node}/disks/list", handleDiskList);
   ("GET /api2/json/nodes/{node}/disks/smart", handleDiskSMART);
   ("POST /api2/json/nodes/{node}/disks/initgpt", handleDiskInitGPT);
   ("GET /api2/json/nodes/{node}/certificates/info", handleCertInfo);
   ("POST /api2/json/nodes/{node}/certificates/custom", handleCertUpload);
   ("DELETE /api2/json/nodes/{node}/certificates/custom", handleCertDelete);
   ("POST /api2/json/nodes/{node}/certificates/acme/certificate", handleCertACME);
   ("PUT /api2/json/nodes/{node}/certificates/acme/certificate", handleCertACME);
   ("DELETE /api2/json/nodes/{node}/certificates/acme/certificate", handleCertACME);
   ("GET /api2/json/cluster/acme/account", handleACMEAccountList);
   ("POST /api2/json/cluster/acme/account", handleACMEAccountCreate);
   ("GET /api2/json/cluster/acme/account/{name}", handleACMEAccountGet);
   ("PUT /api2/json/cluster/acme/account/{name}", handleACMEAccountUpdate);
   ("DELETE /api2/json/cluster/acme/account/{name}", handleACMEAccountDelete)].
