(* ===== verification/MockAcme.v ===== *)
(** [mockpve/acme.go]: ACME plugins, the static listings of the ACME surface, and
    the configuration file of a node. *)

From S2P Require Import Prelude Json Monad MockState MockServer MockAdmin.
From Stdlib Require Import ZArith Lia Ascii.
From stdpp Require Import options.

(* go: proxmox/mockpve/acme.go#L16-L25 *)
Definition msgNoSuchACMEPlugin : string := "no such acme plugin".
Definition msgDigestMismatch : string := "config digest mismatch - configuration changed".
Definition mockACMEPluginDigest : string := "mockpve-acme-plugin-digest".

(** ** Plugins *)

(* go: proxmox/mockpve/acme.go#atoiOrZero *)
Definition atoiOrZero (n : string) : Z := default 0%Z (atoi n).

(* go: proxmox/mockpve/acme.go#acmePluginRecord.payload *)
Definition acmePluginPayload (rec : acmePluginRecord) : json :=
  JObj ([("plugin", JStr (ap_ID rec))] ++ omit_str "type" (ap_Type rec) ++ omit_str "api" (ap_API rec) ++
        omit_str "data" (ap_Data rec) ++ omit_int "validation-delay" (atoiOrZero (ap_ValidationDelay rec)) ++
        omit_str "nodes" (ap_Nodes rec) ++ omit_int "disable" (atoiOrZero (ap_Disable rec)) ++
        omit_str "digest" mockACMEPluginDigest).

(* go: proxmox/mockpve/acme.go#Server.AddACMEPlugin *)
Definition AddACMEPlugin (id challengeType api data : string) : state → state :=
  set_acmePlugins <[id := {| ap_ID := id; ap_Type := challengeType; ap_API := api; ap_Data := data;
                             ap_ValidationDelay := ""; ap_Nodes := ""; ap_Disable := "" |}]>.

Definition plugin_le (a b : acmePluginRecord) : Prop := String.le (ap_ID a) (ap_ID b).
#[export] Instance plugin_le_dec : RelDecision plugin_le := λ a b, _ : Decision (String.le (ap_ID a) (ap_ID b)).

(* go: proxmox/mockpve/acme.go#Server.handleACMEPluginList *)
Definition handleACMEPluginList (r : request) : M response :=
  checkAuth r ;*
  let* recs := read (λ s, (map_to_list (st_acmePlugins s)).*2) in
  writeData (Some (JArr (acmePluginPayload <$> merge_sort plugin_le recs))).

(* go: proxmox/mockpve/acme.go#Server.handleACMEPluginGet *)
Definition handleACMEPluginGet (r : request) : M response :=
  checkAuth r ;*
  let* rec := read (λ s, st_acmePlugins s !! PathValue r "id") in
  let* rec := some_or rec 404 msgNoSuchACMEPlugin in
  writeData (Some (acmePluginPayload rec)).

(* go: proxmox/mockpve/acme.go#Server.handleACMEPluginCreate *)
Definition handleACMEPluginCreate (r : request) : M response :=
  checkAuth r ;*
  let* form := parseForm r in
  let id := vget form "id" in
  guard (id <>s "") 400 "missing id" ;*
  let rec := {| ap_ID := id; ap_Type := vget form "type"; ap_API := vget form "api"; ap_Data := vget form "data";
                ap_ValidationDelay := vget form "validation-delay"; ap_Nodes := vget form "nodes";
                ap_Disable := vget form "disable" |} in
  locked (λ s, (set_acmePlugins <[id := rec]> s, ())) ;*
  writeData None.

(** One case of the [delete] switch. *)
Definition clear_plugin_key (rec : acmePluginRecord) (key : string) : acmePluginRecord :=
  let key := trim_space key in
  {| ap_ID := ap_ID rec; ap_Type := ap_Type rec; ap_API := ap_API rec;
     ap_Data := if key =s "data" then "" else ap_Data rec;
     ap_ValidationDelay := if key =s "validation-delay" then "" else ap_ValidationDelay rec;
     ap_Nodes := if key =s "nodes" then "" else ap_Nodes rec;
     ap_Disable := if key =s "disable" then "" else ap_Disable rec |}.

(** Fields are set first, then the keys of [delete] are cleared. *)
(* go: proxmox/mockpve/acme.go#applyACMEPluginForm *)
Definition applyACMEPluginForm (form : values) (rec : acmePluginRecord) : acmePluginRecord :=
  let rec := {| ap_ID := ap_ID rec; ap_Type := set_if (vget form "type") (ap_Type rec);
                ap_API := set_if (vget form "api") (ap_API rec);
                ap_Data := set_if (vget form "data") (ap_Data rec);
                ap_ValidationDelay := set_if (vget form "validation-delay") (ap_ValidationDelay rec);
                ap_Nodes := set_if (vget form "nodes") (ap_Nodes rec);
                ap_Disable := set_if (vget form "disable") (ap_Disable rec) |} in
  let del := vget form "delete" in
  if del =s "" then rec else foldl clear_plugin_key rec (split_byte "," del).

(** The digest of a form that names another version. *)
Definition stale_digest (form : values) (digest : string) : bool :=
  (vget form "digest" <>s "") && (vget form "digest" <>s digest).

(* go: proxmox/mockpve/acme.go#Server.handleACMEPluginUpdate *)
Definition handleACMEPluginUpdate (r : request) : M response :=
  checkAuth r ;*
  let* form := parseForm r in
  let id := PathValue r "id" in
  let stale := stale_digest form mockACMEPluginDigest in
  let* rec := locked (λ s,
    (if stale then s else set_acmePlugins (alter (applyACMEPluginForm form) id) s, st_acmePlugins s !! id)) in
  some_or rec 404 msgNoSuchACMEPlugin ;*
  guard (negb stale) 400 msgDigestMismatch ;*
  writeData None.

(* go: proxmox/mockpve/acme.go#Server.handleACMEPluginDelete *)
Definition handleACMEPluginDelete (r : request) : M response :=
  checkAuth r ;*
  let id := PathValue r "id" in
  let* rec := locked (λ s, (set_acmePlugins (delete id) s, st_acmePlugins s !! id)) in
  some_or rec 404 msgNoSuchACMEPlugin ;*
  writeData None.

(** ** Static listings *)

Definition schema_field (name description : string) (optional : bool) : string * json :=
  (name, JObj ([("description", JStr description)] ++ (if optional then [("optional", jint 1)] else []) ++
               [("type", JStr "string")])).
Definition challengeSchema (id name : string) (fields : list (string * json)) : json :=
  JObj [("id", JStr id); ("name", JStr name); ("type", JStr "dns"); ("schema", JObj [("fields", JObj fields)])].

(* go: proxmox/mockpve/acme.go#Server.handleACMEChallengeSchema *)
Definition handleACMEChallengeSchema (r : request) : M response :=
  checkAuth r ;*
  writeData (Some (JArr
    [challengeSchema "cf" "Cloudflare"
       [schema_field "CF_Token" "API token" false; schema_field "CF_Account_ID" "Account ID" false;
        schema_field "CF_Zone_ID" "Zone ID" true; schema_field "CF_Key" "Global API key" false;
        schema_field "CF_Email" "Account email" false];
     challengeSchema "namecheap" "Namecheap"
       [schema_field "NAMECHEAP_USERNAME" "API username" false; schema_field "NAMECHEAP_API_KEY" "API key" false;
        schema_field "NAMECHEAP_SOURCEIP" "Allowlisted source IP" false]])).

(* go: proxmox/mockpve/acme.go#Server.handleACMEDirectories *)
Definition handleACMEDirectories (r : request) : M response :=
  checkAuth r ;*
  writeData (Some (JArr
    [JObj [("name", JStr "Let's Encrypt V2"); ("url", JStr "https://acme-v02.api.letsencrypt.org/directory")];
     JObj [("name", JStr "Let's Encrypt V2 Staging");
           ("url", JStr "https://acme-staging-v02.api.letsencrypt.org/directory")]])).

(* go: proxmox/mockpve/acme.go#Server.handleACMEMeta *)
Definition handleACMEMeta (r : request) : M response :=
  checkAuth r ;*
  let dir := vget (Query r) "directory" in
  let terms := if dir =s "" then "https://acme.example/terms/v1" else dir +:+ "/terms" in
  writeData (Some (jmap {[
    "termsOfService" := JStr terms;
    "website" := JStr "https://acme.example";
    "caaIdentities" := JArr [JStr "acme.example"];
    "externalAccountRequired" := JBool false;
    "externalAccountBinding" := JStr "unmodelled" ]})).

(** ** The configuration of a node *)

(* go: proxmox/mockpve/acme.go#mockNodeConfigDigest *)
Definition mockNodeConfigDigest : string := "mockpve-node-config-digest".

(* go: proxmox/mockpve/acme.go#Server.SetNodeConfigKey *)
Definition SetNodeConfigKey (node key value : string) : state → state :=
  update_node node (set_node_config <[key := value]>).

(* go: proxmox/mockpve/acme.go#Server.handleNodeConfigGet *)
Definition handleNodeConfigGet (r : request) : M response :=
  checkAuth r ;*
  let* config := read (λ s, default ∅ (of_node s (PathValue r "node") n_config)) in
  let out := <["digest" := mockNodeConfigDigest]> config in
  let property := vget (Query r) "property" in
  writeData (Some (jmap_str (
    if property =s "" then out
    else match out !! property with Some v => {[ property := v ]} | None => ∅ end))).

(** One pass of the loop over the form. *)
Definition set_config_key (form : values) (config : gmap string string) (key : string) : gmap string string :=
  if (key =s "digest") || (key =s "delete") then config else
  match form !! key with Some (v :: _) => <[key := v]> config | _ => config end.

(** Keys are deleted first, then the form's keys are set. *)
Definition apply_node_config (form : values) (config : gmap string string) : gmap string string :=
  let del := vget form "delete" in
  let config := if del =s "" then config
                else foldl (λ c key, delete (trim_space key) c) config (split_byte "," del) in
  foldl (set_config_key form) config (keys form).

(* go: proxmox/mockpve/acme.go#Server.handleNodeConfigSet *)
Definition handleNodeConfigSet (r : request) : M response :=
  checkAuth r ;*
  let node := PathValue r "node" in
  let* form := parseForm r in
  guard (negb (stale_digest form mockNodeConfigDigest)) 400 msgDigestMismatch ;*
  locked (λ s, (update_node node (set_node_config (apply_node_config form)) s, ())) ;*
  writeData None.

(** ** Routes *)

(* go: proxmox/mockpve/acme.go#Server.registerACMERoutes *)
Definition acmeRoutes : list (string * (request → M response)) :=
  [("GET /api2/json/cluster/acme/plugins", handleACMEPluginList);
   ("POST /api2/json/cluster/acme/plugins", handleACMEPluginCreate);
   ("GET /api2/json/cluster/acme/plugins/{id}", handleACMEPluginGet);
   ("PUT /api2/json/cluster/acme/plugins/{id}", handleACMEPluginUpdate);
   ("DELETE /api2/json/cluster/acme/plugins/{id}", handleACMEPluginDelete);
   ("GET /api2/json/cluster/acme/challenge-schema", handleACMEChallengeSchema);
   ("GET /api2/json/cluster/acme/directories", handleACMEDirectories);
   ("GET /api2/json/cluster/acme/meta", handleACMEMeta)].

(* go: proxmox/mockpve/acme.go#Server.registerNodeConfigRoutes *)
Definition nodeConfigRoutes : list (string * (request → M response)) :=
  [("GET /api2/json/nodes/{node}/config", handleNodeConfigGet);
   ("PUT /api2/json/nodes/{node}/config", handleNodeConfigSet)].
