(* ===== verification/MockMisc.v ===== *)
(** The smaller surfaces of the mock: [mockpve/metrics.go], [ceph.go], [pbs.go] and
    [console.go]. The upgraded websocket connection itself is I/O: the model stops
    at the answer that accepts or refuses it. *)

From S2P Require Import Prelude Json Monad MockState MockServer MockStorage.
From Stdlib Require Import ZArith Lia Ascii.
From stdpp Require Import options.

(** ** Metrics *)

Definition msgNoSuchMetricServer : string := "no such metric server".

(* go: proxmox/mockpve/metrics.go#Server.AddMetricServer *)
Definition AddMetricServer (id serverType host : string) (port : Z) : state → state :=
  set_metrics <[id := {| ms_ID := id; ms_Type := serverType; ms_Server := host; ms_Port := port; ms_Disable := false |}]>.

(* go: proxmox/mockpve/metrics.go#metricServerToPayload *)
Definition metricServerToPayload (rec : metricServerRecord) : json :=
  JObj ([("id", JStr (ms_ID rec))] ++ omit_str "type" (ms_Type rec) ++ omit_str "server" (ms_Server rec) ++
        omit_int "port" (ms_Port rec) ++ omit_int "disable" (boolToInt (ms_Disable rec))).

(** One point; a load is given in hundredths. *)
(* go: proxmox/mockpve/metrics.go#rrdPointPayload *)
Definition rrdPoint (time cpu netin netout : Z) : json :=
  JObj [("time", jint time); ("cpu", JNum cpu (-2)); ("maxcpu", jint 4); ("mem", jint (Z.shiftl 2 30));
        ("maxmem", jint (Z.shiftl 8 30)); ("netin", jint netin); ("netout", jint netout)].
(* go: proxmox/mockpve/metrics.go#syntheticRRD *)
Definition syntheticRRD : json := JArr [rrdPoint 1719792000 5 1000 2000; rrdPoint 1719792060 7 1100 2200].

(* go: proxmox/mockpve/metrics.go#Server.handleNodeRRD *)
Definition handleNodeRRD (r : request) : M response :=
  checkAuth r ;*
  writeData (Some syntheticRRD).

(* go: proxmox/mockpve/metrics.go#Server.handleVMRRD *)
Definition handleVMRRD (r : request) : M response :=
  checkAuth r ;*
  writeData (Some syntheticRRD).

(* go: proxmox/mockpve/metrics.go#Server.handleNodeStatus *)
Definition handleNodeStatus (r : request) : M response :=
  checkAuth r ;*
  writeData (Some (JObj
    [("uptime", jint 123456); ("cpu", JNum 5 (-2)); ("wait", JNum 1 (-2));
     ("loadavg", JArr [JStr "0.00"; JStr "0.01"; JStr "0.05"]); ("kversion", JStr "Linux 6.14");
     ("pveversion", JStr "pve-manager/9.0.3");
     ("memory", JObj [("total", jint (Z.shiftl 8 30)); ("used", jint (Z.shiftl 2 30)); ("free", jint (Z.shiftl 6 30))])])).

(* go: proxmox/mockpve/metrics.go#Server.handleMetricServerList *)
Definition handleMetricServerList (r : request) : M response :=
  checkAuth r ;*
  let* recs := read (λ s, (map_to_list (st_metrics s)).*2) in
  writeData (Some (JArr (metricServerToPayload <$> recs))).

(* go: proxmox/mockpve/metrics.go#Server.handleMetricServerGet *)
Definition handleMetricServerGet (r : request) : M response :=
  checkAuth r ;*
  let* rec := read (λ s, st_metrics s !! PathValue r "id") in
  let* rec := some_or rec 404 msgNoSuchMetricServer in
  writeData (Some (metricServerToPayload rec)).

(* go: proxmox/mockpve/metrics.go#Server.handleMetricServerCreate *)
Definition handleMetricServerCreate (r : request) : M response :=
  checkAuth r ;*
  let* form := parseForm r in
  let id := PathValue r "id" in
  let rec := {| ms_ID := id; ms_Type := vget form "type"; ms_Server := vget form "server";
                ms_Port := set_if_int (vget form "port") 0; ms_Disable := vget form "disable" =s "1" |} in
  locked (λ s, (set_metrics <[id := rec]> s, ())) ;*
  writeData None.

(* go: proxmox/mockpve/metrics.go#applyMetricServerForm *)
Definition applyMetricServerForm (form : values) (rec : metricServerRecord) : metricServerRecord :=
  {| ms_ID := ms_ID rec; ms_Type := ms_Type rec;
     ms_Server := set_if (vget form "server") (ms_Server rec);
     ms_Port := set_if_int (vget form "port") (ms_Port rec);
     ms_Disable := set_if_bool (vget form "disable") (ms_Disable rec) |}.

(* go: proxmox/mockpve/metrics.go#Server.handleMetricServerUpdate *)
Definition handleMetricServerUpdate (r : request) : M response :=
  checkAuth r ;*
  let* form := parseForm r in
  let id := PathValue r "id" in
  let* rec := locked (λ s, (set_metrics (alter (applyMetricServerForm form) id) s, st_metrics s !! id)) in
  some_or rec 404 msgNoSuchMetricServer ;*
  writeData None.

(* go: proxmox/mockpve/metrics.go#Server.handleMetricServerDelete *)
Definition handleMetricServerDelete (r : request) : M response :=
  checkAuth r ;*
  let id := PathValue r "id" in
  let* rec := locked (λ s, (set_metrics (delete id) s, st_metrics s !! id)) in
  some_or rec 404 msgNoSuchMetricServer ;*
  writeData None.

(* go: proxmox/mockpve/metrics.go#Server.registerMetricsRoutes *)
Definition metricsRoutes : list (string * (request → M response)) :=
  [("GET /api2/json/nodes/{node}/rrddata", handleNodeRRD);
   ("GET /api2/json/nodes/{node}/status", handleNodeStatus);
   ("GET /api2/json/nodes/{node}/qemu/{vmid}/rrddata", handleVMRRD);
   ("GET /api2/json/nodes/{node}/lxc/{vmid}/rrddata", handleVMRRD);
   ("GET /api2/json/cluster/metrics/server", handleMetricServerList);
   ("GET /api2/json/cluster/metrics/server/{id}", handleMetricServerGet);
   ("POST /api2/json/cluster/metrics/server/{id}", handleMetricServerCreate);
   ("PUT /api2/json/cluster/metrics/server/{id}", handleMetricServerUpdate);
   ("DELETE /api2/json/cluster/metrics/server/{id}", handleMetricServerDelete)].

(** ** Ceph *)

Definition msgNoSuchCephPool : string := "no such ceph pool".

Definition ceph_fields (c : cephState) : cephState := {| ce_pools := ce_pools c; ce_osds := ce_osds c |}.
Definition set_pools : (gmap string cephPoolRecord → gmap string cephPoolRecord) → cephState → cephState :=
  ltac:(setter ceph_fields ce_pools).
Definition set_osds : (list cephOSDRecord → list cephOSDRecord) → cephState → cephState :=
  ltac:(setter ceph_fields ce_osds).

Definition new_pool (name : string) : cephPoolRecord :=
  {| cp_Name := name; cp_Size := 3; cp_MinSize := 2; cp_PGNum := 128; cp_Type := "replicated" |}.

(* go: proxmox/mockpve/ceph.go#Server.AddCephPool *)
Definition AddCephPool (name : string) : state → state := set_ceph (set_pools <[name := new_pool name]>).

(* go: proxmox/mockpve/ceph.go#Server.AddCephOSD *)
Definition AddCephOSD (id : Z) (host : string) : state → state :=
  set_ceph (set_osds (λ l, l ++ [{| co_ID := id; co_Host := host |}])).

(* go: proxmox/mockpve/ceph.go#cephPoolToPayload *)
Definition cephPoolToPayload (rec : cephPoolRecord) : json :=
  JObj ([("pool_name", JStr (cp_Name rec))] ++ omit_int "size" (cp_Size rec) ++
        omit_int "min_size" (cp_MinSize rec) ++ omit_int "pg_num" (cp_PGNum rec) ++ omit_str "type" (cp_Type rec)).

(* go: proxmox/mockpve/ceph.go#Server.handleCephPoolList *)
Definition handleCephPoolList (r : request) : M response :=
  checkAuth r ;*
  let* recs := read (λ s, (map_to_list (ce_pools (st_ceph s))).*2) in
  writeData (Some (JArr (cephPoolToPayload <$> recs))).

(* go: proxmox/mockpve/ceph.go#Server.handleCephPoolGet *)
Definition handleCephPoolGet (r : request) : M response :=
  checkAuth r ;*
  let* rec := read (λ s, ce_pools (st_ceph s) !! PathValue r "name") in
  let* rec := some_or rec 404 msgNoSuchCephPool in
  writeData (Some (cephPoolToPayload rec)).

(* go: proxmox/mockpve/ceph.go#Server.handleCephPoolCreate *)
Definition handleCephPoolCreate (r : request) : M response :=
  checkAuth r ;*
  let* form := parseForm r in
  let name := vget form "name" in
  guard (name <>s "") 400 "missing name" ;*
  locked (λ s, (set_ceph (set_pools <[name := new_pool name]>) s, ())) ;*
  writeTask (PathValue r "node") "cephcreatepool" name.

(* go: proxmox/mockpve/ceph.go#Server.handleCephPoolDelete *)
Definition handleCephPoolDelete (r : request) : M response :=
  checkAuth r ;*
  let name := PathValue r "name" in
  let* rec := locked (λ s, (set_ceph (set_pools (delete name)) s, ce_pools (st_ceph s) !! name)) in
  some_or rec 404 msgNoSuchCephPool ;*
  writeTask (PathValue r "node") "cephdestroypool" name.

(** The hosts in the order their first OSD appears. *)
Definition osd_hosts (osds : list cephOSDRecord) : list string :=
  foldl (λ order osd, if decide (co_Host osd ∈ order) then order else order ++ [co_Host osd]) [] osds.

Definition osd_leaf (osd : cephOSDRecord) : json :=
  JObj ([("id", jint (co_ID osd)); ("name", JStr ("osd." +:+ itoa (co_ID osd))); ("type", JStr "osd");
         ("status", JStr "up")]).
Definition osd_host (osds : list cephOSDRecord) (host : string) : json :=
  JObj [("id", jint (-1)); ("name", JStr host); ("type", JStr "host");
        ("children", JArr (osd_leaf <$> filter (λ osd, co_Host osd = host) osds))].

(* go: proxmox/mockpve/ceph.go#Server.buildOSDTreeLocked *)
Definition buildOSDTree (osds : list cephOSDRecord) : json :=
  JObj [("flags", JStr "sortbitwise");
        ("root", JObj ([("id", jint (-1)); ("name", JStr "default"); ("type", JStr "root")] ++
                       match osd_hosts osds with
                       | [] => []
                       | hosts => [("children", JArr (osd_host osds <$> hosts))]
                       end))].

(* go: proxmox/mockpve/ceph.go#Server.handleCephOSDList *)
Definition handleCephOSDList (r : request) : M response :=
  checkAuth r ;*
  let* osds := read (λ s, ce_osds (st_ceph s)) in
  writeData (Some (buildOSDTree osds)).

(* go: proxmox/mockpve/ceph.go#Server.handleCephOSDCreate *)
Definition handleCephOSDCreate (r : request) : M response :=
  checkAuth r ;*
  let* form := parseForm r in
  guard (vget form "dev" <>s "") 400 "missing dev" ;*
  writeTask (PathValue r "node") "cephcreateosd" "osd".

(* go: proxmox/mockpve/ceph.go#Server.handleCephOSDDestroy *)
Definition handleCephOSDDestroy (r : request) : M response :=
  checkAuth r ;*
  writeTask (PathValue r "node") "cephdestroyosd" (PathValue r "osdid").

(* go: proxmox/mockpve/ceph.go#Server.handleCephStatus *)
Definition handleCephStatus (r : request) : M response :=
  checkAuth r ;*
  writeData (Some (JObj [("fsid", JStr "mock-fsid"); ("health", JObj [("status", JStr "HEALTH_OK")])])).

(* go: proxmox/mockpve/ceph.go#Server.handleCephConfig *)
Definition handleCephConfig (r : request) : M response :=
  checkAuth r ;*
  writeData (Some (JStr ("[global]" +:+ bytes [10; 9] +:+ "fsid = mock-fsid" +:+ bytes [10]))).

(* go: proxmox/mockpve/ceph.go#Server.registerCephRoutes *)
Definition cephRoutes : list (string * (request → M response)) :=
  [("GET /api2/json/nodes/{node}/ceph/pool", handleCephPoolList);
   ("POST /api2/json/nodes/{node}/ceph/pool", handleCephPoolCreate);
   ("GET /api2/json/nodes/{node}/ceph/pool/{name}", handleCephPoolGet);
   ("DELETE /api2/json/nodes/{node}/ceph/pool/{name}", handleCephPoolDelete);
   ("GET /api2/json/nodes/{node}/ceph/osd", handleCephOSDList);
   ("POST /api2/json/nodes/{node}/ceph/osd", handleCephOSDCreate);
   ("DELETE /api2/json/nodes/{node}/ceph/osd/{osdid}", handleCephOSDDestroy);
   ("GET /api2/json/nodes/{node}/ceph/status", handleCephStatus);
   ("GET /api2/json/nodes/{node}/ceph/cfg/raw", handleCephConfig)].

(** ** Backup jobs *)

Definition msgNoSuchBackupJob : string := "no such backup job".

Definition pbs_fields (p : pbsState) : pbsState := {| pb_jobs := pb_jobs p; pb_seq := pb_seq p |}.
Definition set_jobs : (gmap string backupJobRecord → gmap string backupJobRecord) → pbsState → pbsState :=
  ltac:(setter pbs_fields pb_jobs).
Definition set_seq : (Z → Z) → pbsState → pbsState := ltac:(setter pbs_fields pb_seq).

(* go: proxmox/mockpve/pbs.go#Server.AddBackupJob *)
Definition AddBackupJob (id storage schedule : string) : state → state :=
  set_pbs (set_jobs <[id := {| bj_ID := id; bj_Schedule := schedule; bj_Storage := storage; bj_Mode := "snapshot";
                               bj_Enabled := true; bj_Mailto := ""; bj_Comment := "" |}]>).

(* go: proxmox/mockpve/pbs.go#backupJobToPayload *)
Definition backupJobToPayload (rec : backupJobRecord) : json :=
  JObj ([("id", JStr (bj_ID rec))] ++ omit_str "schedule" (bj_Schedule rec) ++ omit_str "storage" (bj_Storage rec) ++
        omit_str "mode" (bj_Mode rec) ++ omit_int "enabled" (boolToInt (bj_Enabled rec)) ++
        omit_str "mailto" (bj_Mailto rec) ++ omit_str "comment" (bj_Comment rec)).

(* go: proxmox/mockpve/pbs.go#Server.handleBackupJobList *)
Definition handleBackupJobList (r : request) : M response :=
  checkAuth r ;*
  let* recs := read (λ s, (map_to_list (pb_jobs (st_pbs s))).*2) in
  writeData (Some (JArr (backupJobToPayload <$> recs))).

(* go: proxmox/mockpve/pbs.go#Server.handleBackupJobGet *)
Definition handleBackupJobGet (r : request) : M response :=
  checkAuth r ;*
  let* rec := read (λ s, pb_jobs (st_pbs s) !! PathValue r "id") in
  let* rec := some_or rec 404 msgNoSuchBackupJob in
  writeData (Some (backupJobToPayload rec)).

(** The section of the create handler: without an id the next number is taken. *)
Definition add_job (form : values) (p : pbsState) : pbsState :=
  let '(p, id) := if vget form "id" =s ""
                  then let seq := wrap64 (pb_seq p + 1) in (set_seq (λ _, seq) p, "backup-" +:+ itoa seq)
                  else (p, vget form "id") in
  set_jobs <[id := {| bj_ID := id; bj_Storage := vget form "storage"; bj_Schedule := vget form "schedule";
                      bj_Mode := vget form "mode"; bj_Enabled := vget form "enabled" <>s "0";
                      bj_Mailto := vget form "mailto"; bj_Comment := vget form "comment" |}]> p.

(* go: proxmox/mockpve/pbs.go#Server.handleBackupJobCreate *)
Definition handleBackupJobCreate (r : request) : M response :=
  checkAuth r ;*
  let* form := parseForm r in
  guard (vget form "storage" <>s "") 400 "missing storage" ;*
  locked (λ s, (set_pbs (add_job form) s, ())) ;*
  writeData None.

(* go: proxmox/mockpve/pbs.go#applyBackupJobForm *)
Definition applyBackupJobForm (form : values) (rec : backupJobRecord) : backupJobRecord :=
  {| bj_ID := bj_ID rec;
     bj_Schedule := set_if (vget form "schedule") (bj_Schedule rec);
     bj_Storage := set_if (vget form "storage") (bj_Storage rec);
     bj_Mode := set_if (vget form "mode") (bj_Mode rec);
     bj_Enabled := set_if_bool (vget form "enabled") (bj_Enabled rec);
     bj_Mailto := set_if (vget form "mailto") (bj_Mailto rec);
     bj_Comment := set_if (vget form "comment") (bj_Comment rec) |}.

(* go: proxmox/mockpve/pbs.go#Server.handleBackupJobUpdate *)
Definition handleBackupJobUpdate (r : request) : M response :=
  checkAuth r ;*
  let* form := parseForm r in
  let id := PathValue r "id" in
  let* rec := locked (λ s, (set_pbs (set_jobs (alter (applyBackupJobForm form) id)) s, pb_jobs (st_pbs s) !! id)) in
  some_or rec 404 msgNoSuchBackupJob ;*
  writeData None.

(* go: proxmox/mockpve/pbs.go#Server.handleBackupJobDelete *)
Definition handleBackupJobDelete (r : request) : M response :=
  checkAuth r ;*
  let id := PathValue r "id" in
  let* rec := locked (λ s, (set_pbs (set_jobs (delete id)) s, pb_jobs (st_pbs s) !! id)) in
  some_or rec 404 msgNoSuchBackupJob ;*
  writeData None.

(* go: proxmox/mockpve/pbs.go#Server.handleVzdump *)
Definition handleVzdump (r : request) : M response :=
  checkAuth r ;*
  let* form := parseForm r in
  guard (vget form "storage" <>s "") 400 "missing storage" ;*
  writeTask (PathValue r "node") "vzdump" "vzdump".

(* go: proxmox/mockpve/pbs.go#Server.registerPBSRoutes *)
Definition pbsRoutes : list (string * (request → M response)) :=
  [("GET /api2/json/cluster/backup", handleBackupJobList);
   ("POST /api2/json/cluster/backup", handleBackupJobCreate);
   ("GET /api2/json/cluster/backup/{id}", handleBackupJobGet);
   ("PUT /api2/json/cluster/backup/{id}", handleBackupJobUpdate);
   ("DELETE /api2/json/cluster/backup/{id}", handleBackupJobDelete);
   ("POST /api2/json/nodes/{node}/vzdump", handleVzdump)].

(** ** Consoles *)

Definition msgBadVNCTicket : string := "invalid or expired vnc ticket".

(** The ticket is stored in one section; the UPID of the answer is made after it. *)
(* go: proxmox/mockpve/console.go#Server.mintVNCTicket *)
Definition mintVNCTicket (node id dialPath : string) : M json :=
  let ticket := "mock-vncticket-" +:+ node +:+ "-" +:+ id in
  locked (λ s, (set_console <[ticket := dialPath]> s, ())) ;*
  let* upid := synthUPID node "vncproxy" id in
  ok (jmap_str {[ "ticket" := ticket; "port" := "5900"; "user" := mockTaskUser; "cert" := "MOCKCERT"; "upid" := upid ]}).

(* go: proxmox/mockpve/console.go#Server.handleGuestVNCProxy *)
Definition handleGuestVNCProxy (kind : string) (r : request) : M response :=
  checkAuth r ;*
  let node := PathValue r "node" in
  let vmid := PathValue r "vmid" in
  let dial := "/api2/json/nodes/" +:+ node +:+ "/" +:+ kind +:+ "/" +:+ vmid +:+ "/vncwebsocket" in
  let* ticket := mintVNCTicket node (kind +:+ "-" +:+ vmid) dial in
  writeData (Some ticket).

(* go: proxmox/mockpve/console.go#Server.handleNodeVNCShell *)
Definition handleNodeVNCShell (r : request) : M response :=
  checkAuth r ;*
  let node := PathValue r "node" in
  let* ticket := mintVNCTicket node "shell" ("/api2/json/nodes/" +:+ node +:+ "/vncwebsocket") in
  writeData (Some ticket).

(* go: proxmox/mockpve/console.go#termTicketPayload *)
Definition termTicketPayload (node id : string) : M json :=
  let* upid := synthUPID node "termproxy" id in
  ok (jmap_str {[ "ticket" := "mock-termticket-" +:+ node +:+ "-" +:+ id; "port" := "5901"; "user" := mockTaskUser;
                  "upid" := upid ]}).

(* go: proxmox/mockpve/console.go#Server.handleGuestTermProxy *)
Definition handleGuestTermProxy (kind : string) (r : request) : M response :=
  checkAuth r ;*
  let* ticket := termTicketPayload (PathValue r "node") (kind +:+ "-" +:+ PathValue r "vmid") in
  writeData (Some ticket).

(* go: proxmox/mockpve/console.go#Server.handleNodeTermProxy *)
Definition handleNodeTermProxy (r : request) : M response :=
  checkAuth r ;*
  let* ticket := termTicketPayload (PathValue r "node") "shell" in
  writeData (Some ticket).

(* go: proxmox/mockpve/console.go#Server.handleGuestSpiceProxy *)
Definition handleGuestSpiceProxy (r : request) : M response :=
  checkAuth r ;*
  writeData (Some (jmap {[
    "host" := JStr "10.0.0.1"; "proxy" := JStr (PathValue r "node"); "tls-port" := jint 61000;
    "password" := JStr "mock-spice-pw"; "type" := JStr "spice"; "title" := JStr "guest console";
    "release-cursor" := JStr "1" ]})).

(** The upgrade, which hands the connection over. *)
Definition switchingProtocols : response := {| code := 101; body := {| Data := None; Message := ""; Errors := ∅ |} |}.

(** Up to the hijacking of the connection. *)
(* go: proxmox/mockpve/console.go#Server.handleVNCWebSocket *)
Definition handleVNCWebSocket (r : request) : M response :=
  checkAuth r ;*
  let ticket := vget (Query r) "vncticket" in
  let* dialPath := read (λ s, st_console s !! ticket) in
  guard (bool_decide (dialPath = Some (URLPath r))) 401 msgBadVNCTicket ;*
  ok switchingProtocols.

(* go: proxmox/mockpve/console.go#Server.registerConsoleRoutes *)
Definition consoleRoutes : list (string * (request → M response)) :=
  (kind ← ["qemu"; "lxc"];
   let base := "/api2/json/nodes/{node}/" +:+ kind +:+ "/{vmid}/" in
   [("POST " +:+ base +:+ "vncproxy", handleGuestVNCProxy kind);
    ("POST " +:+ base +:+ "spiceproxy", handleGuestSpiceProxy);
    ("POST " +:+ base +:+ "termproxy", handleGuestTermProxy kind);
    ("GET " +:+ base +:+ "vncwebsocket", handleVNCWebSocket)]) ++
  [("POST /api2/json/nodes/{node}/vncshell", handleNodeVNCShell);
   ("POST /api2/json/nodes/{node}/termproxy", handleNodeTermProxy);
   ("GET /api2/json/nodes/{node}/vncwebsocket", handleVNCWebSocket)].
