(* ===== verification/MockInv.v ===== *)
(** The well-formedness invariant of the mock's state, component by component, how
    it follows from writing one component, and its preservation by the tasks every
    asynchronous operation leaves behind. *)

From S2P Require Import Prelude Json Monad MockState MockServer MockGuests MockQemu MockLxc MockStorage.
From S2P Require Import MockHa MockNodes MockCluster MockAccess MockFirewall MockSdn MockAdmin MockAcme MockMisc.
From Stdlib Require Import ZArith Lia.
From stdpp Require Import relations options.

(** ** Maps *)

Create HintDb wf.

Section maps.
Context `{Countable K} {A : Type}.
Implicit Types (P : K → A → Prop) (m : gmap K A).

Lemma map_Forall_alter P f i m :
  (∀ x, P i x → P i (f x)) → map_Forall P m → map_Forall P (alter f i m).
Proof.
  intros Hf Hm k x Hk. destruct (decide (i = k)) as [<-|Hne].
  - rewrite lookup_alter_eq in Hk. apply fmap_Some in Hk as (y & Hy & ->). apply Hf, (Hm _ _ Hy).
  - rewrite lookup_alter_ne in Hk by done. apply (Hm _ _ Hk).
Qed.

Lemma map_Forall_default P (o : option (gmap K A)) :
  (∀ m', o = Some m' → map_Forall P m') → map_Forall P (default ∅ o).
Proof. destruct o; cbn; [auto|intros _; apply map_Forall_empty]. Qed.

(** Records filed under a key they carry. *)
Definition keyed (key : A → K) (m : gmap K A) : Prop := map_Forall (λ k a, key a = k) m.

Lemma keyed_insert key k a m : key a = k → keyed key m → keyed key (<[k := a]> m).
Proof. intros. by apply map_Forall_insert_2. Qed.
Lemma keyed_alter key f k m : (∀ a, key (f a) = key a) → keyed key m → keyed key (alter f k m).
Proof. intros Hf. apply map_Forall_alter. intros a <-. apply Hf. Qed.
Lemma keyed_delete key k m : keyed key m → keyed key (delete k m).
Proof. apply map_Forall_delete. Qed.

(** A two-level map. *)
Lemma map_Forall_put2 `{Countable K2} (Q : K2 → K → A → Prop) k2 k a (m : gmap K2 (gmap K A)) :
  Q k2 k a → map_Forall (λ k2, map_Forall (Q k2)) m →
  map_Forall (λ k2, map_Forall (Q k2)) (<[k2 := <[k := a]> (default ∅ (m !! k2))]> m).
Proof.
  intros Ha Hm. apply map_Forall_insert_2; [|done]. apply map_Forall_insert_2; [done|].
  apply map_Forall_default. intros m' Hm'. apply (Hm _ _ Hm').
Qed.
End maps.
#[export] Hint Resolve keyed_insert keyed_delete : wf.

(** ** The invariant *)

(** A task is filed under its node and UPID, and has no exit status while it runs. *)
Definition wf_task (node upid : string) (t : taskRecord) : Prop :=
  t_UPID t = upid ∧ t_Node t = node ∧ (t_Stopped t = false → t_ExitStatus t = "").
(** At most one certificate at the front-end path, and an ACME certificate names
    at least one host, none of them empty or twice. *)
Definition wf_cert (c : nodeCertRecord) : Prop :=
  c_Issuer c = mockACMEIssuer → c_SAN c ≠ [] ∧ NoDup (c_SAN c) ∧ "" ∉ c_SAN c.
Definition wf_certs (l : list nodeCertRecord) : Prop :=
  length (filter (λ c, c_Filename c = acmeCertFilename) l) ≤ 1 ∧ Forall wf_cert l.
Definition wf_node (node : string) (n : nodeState) : Prop :=
  map_Forall (wf_task node) (n_tasks n) ∧ keyed if_Iface (n_netIfaces n) ∧ wf_certs (n_certs n).

(** A guest is filed under its node and identifier, its snapshots under their
    names, and its power state is one the verbs lead to. *)
Definition wf_guest (node : string) (vmid : Z) (rec : vmRecord) : Prop :=
  vm_VMID rec = vmid ∧ vm_Node rec = node ∧ vm_Status rec ∈ ["stopped"; "running"; "suspended"] ∧
  map_Forall (λ name sn, sn_Name sn = name) (vm_Snapshots rec).
Definition wf_guests (g : guests) : Prop := map_Forall (λ node, map_Forall (wf_guest node)) g.

(** List options are normalised, and the digest is the one of the version. *)
Definition wf_store (id : string) (rec : storeRecord) : Prop :=
  s_Storage rec = id ∧ normalizeSet (s_Content rec) = s_Content rec ∧ normalizeSet (s_Nodes rec) = s_Nodes rec.
Definition wf_storage (st : storageState) : Prop :=
  map_Forall wf_store (so_stores st) ∧
  map_Forall (λ _, map_Forall (λ name p, z_Name p = name)) (so_zfsPools st) ∧
  int64_ok (so_cfgVersion st) = true ∧
  (so_cfgDigest st = sprintf_040x (so_cfgVersion st) ∨ so_cfgDigest st = "" ∧ so_cfgVersion st = 0%Z).

(** The switch: no resource mode while armed, one of the two modes while not. *)
Definition wf_ha (h : haState) : Prop :=
  map_Forall (λ sid rec, hr_SID rec = sid ∧ hr_Type rec = sidType sid) (ha_resources h) ∧
  map_Forall (λ rule rec, ru_Rule rec = rule) (ha_rules h) ∧ map_Forall (λ id rec, hp_ID rec = id) (ha_repl h) ∧
  (if ha_armed h then ha_resourceMode h = "" else ha_resourceMode h ∈ ["freeze"; "ignore"]).

(** A cluster has members exactly once it is formed, none of them twice, and the
    scheduler string is never among its own options. *)
Definition wf_cluster (c : clusterState) : Prop :=
  NoDup (cl_members c) ∧ (cl_clustered c = true ↔ cl_members c ≠ []) ∧ cl_options c !! "crs" = None.

Definition wf_ticket (ticket : string) (rec : ticketRecord) : Prop :=
  ticket = "mock-ticket-" +:+ tk_Username rec ∧ tk_CSRF rec = "mock-csrf-" +:+ tk_Username rec.

(** Users, groups, roles and tokens are filed under their identifiers, and an entry
    of the access control list is for a user, a group or a token. *)
Definition wf_access (a : accessState) : Prop :=
  keyed au_UserID (ac_users a) ∧ keyed ag_GroupID (ac_groups a) ∧ keyed ar_RoleID (ac_roles a) ∧
  Forall (λ e, ac_Type e ∈ ["user"; "group"; "token"]) (ac_acls a) ∧
  map_Forall (λ _, keyed at_TokenID) (ac_tokens a).

(** An IP set is filed under its name, its entries under their CIDRs. *)
Definition wf_ipset (name : string) (rec : fwIPSetRecord) : Prop :=
  fi_Name rec = name ∧ keyed fe_CIDR (fi_entries rec).
Definition wf_scope (sc : fwScope) : Prop := map_Forall wf_ipset (fw_ipsets sc).
Definition wf_firewall (fw : firewallState) : Prop := map_Forall (λ _, wf_scope) fw.

(** Every membership is in a fabric that exists. *)
Definition wf_sdn (d : sdnState) : Prop :=
  keyed sz_Zone (sd_zones d) ∧ keyed sv_VNet (sd_vnets d) ∧ keyed sf_Fabric (sd_fabrics d) ∧
  map_Forall (λ vnet, map_Forall (λ subnet rec, ss_VNet rec = vnet ∧ ss_Subnet rec = subnet)) (sd_subnets d) ∧
  map_Forall (λ fabric, map_Forall (λ node rec, sn_Fabric rec = fabric ∧ sn_NodeID rec = node)) (sd_fabricNodes d) ∧
  (∀ fabric, is_Some (sd_fabricNodes d !! fabric) → is_Some (sd_fabrics d !! fabric)).

Definition wf_ceph (c : cephState) : Prop := keyed cp_Name (ce_pools c).
Definition wf_pbs (p : pbsState) : Prop := keyed bj_ID (pb_jobs p) ∧ int64_ok (pb_seq p) = true.

Record wf (s : state) : Prop := {
  wf_nodes : map_Forall wf_node (st_nodes s);
  wf_tickets : map_Forall wf_ticket (st_tickets s);
  wf_qemu : wf_guests (st_qemu s);
  wf_lxc : wf_guests (st_lxc s);
  wf_stores : wf_storage (st_storage s);
  wf_switch : wf_ha (st_ha s);
  wf_members : wf_cluster (st_cluster s);
  wf_acl : wf_access (st_access s);
  wf_fw : wf_firewall (st_firewall s);
  wf_fabrics : wf_sdn (st_sdn s);
  wf_metrics : keyed ms_ID (st_metrics s);
  wf_pools : wf_ceph (st_ceph s);
  wf_jobs : wf_pbs (st_pbs s);
  wf_accounts : keyed aa_Name (st_acmeAccounts s);
  wf_plugins : keyed ap_ID (st_acmePlugins s)
}.

Lemma wf_newNodeState node : wf_node node newNodeState.
Proof. split_and!; [apply map_Forall_empty..|]. split; [cbn; lia|constructor]. Qed.

Lemma wf_New clock : wf (New clock).
Proof.
  constructor; cbn; try apply map_Forall_empty.
  - apply map_Forall_singleton, wf_newNodeState.
  - split_and!; [apply map_Forall_empty..|reflexivity|by right].
  - split_and!; [apply map_Forall_empty..|done].
  - split_and!; [constructor|done|done].
  - split_and!; [apply map_Forall_empty..|constructor|apply map_Forall_empty].
  - split_and!; try apply map_Forall_empty. cbn. intros fabric [? H]. by rewrite lookup_empty in H.
  - split; [apply map_Forall_empty|done].
Qed.

(** ** Writing one component *)

Lemma keeps_nodes f s : (map_Forall wf_node (st_nodes s) → map_Forall wf_node (f (st_nodes s))) → keeps wf s (set_nodes f s).
Proof. intros Hf []. constructor; auto. Qed.
Lemma keeps_tickets f s : (map_Forall wf_ticket (st_tickets s) → map_Forall wf_ticket (f (st_tickets s))) → keeps wf s (set_tickets f s).
Proof. intros Hf []. constructor; auto. Qed.
Lemma keeps_qemu f s : (wf_guests (st_qemu s) → wf_guests (f (st_qemu s))) → keeps wf s (set_qemu f s).
Proof. intros Hf []. constructor; auto. Qed.
Lemma keeps_lxc f s : (wf_guests (st_lxc s) → wf_guests (f (st_lxc s))) → keeps wf s (set_lxc f s).
Proof. intros Hf []. constructor; auto. Qed.
Lemma keeps_storage f s : (wf_storage (st_storage s) → wf_storage (f (st_storage s))) → keeps wf s (set_storage f s).
Proof. intros Hf []. constructor; auto. Qed.
Lemma keeps_ha f s : (wf_ha (st_ha s) → wf_ha (f (st_ha s))) → keeps wf s (set_ha f s).
Proof. intros Hf []. constructor; auto. Qed.
Lemma keeps_cluster f s : (wf_cluster (st_cluster s) → wf_cluster (f (st_cluster s))) → keeps wf s (set_cluster f s).
Proof. intros Hf []. constructor; auto. Qed.
Lemma keeps_access f s : (wf_access (st_access s) → wf_access (f (st_access s))) → keeps wf s (set_access f s).
Proof. intros Hf []. constructor; auto. Qed.
Lemma keeps_firewall f s : (wf_firewall (st_firewall s) → wf_firewall (f (st_firewall s))) → keeps wf s (set_firewall f s).
Proof. intros Hf []. constructor; auto. Qed.
Lemma keeps_sdn f s : (wf_sdn (st_sdn s) → wf_sdn (f (st_sdn s))) → keeps wf s (set_sdn f s).
Proof. intros Hf []. constructor; auto. Qed.
Lemma keeps_metrics f s : (keyed ms_ID (st_metrics s) → keyed ms_ID (f (st_metrics s))) → keeps wf s (set_metrics f s).
Proof. intros Hf []. constructor; auto. Qed.
Lemma keeps_ceph f s : (wf_ceph (st_ceph s) → wf_ceph (f (st_ceph s))) → keeps wf s (set_ceph f s).
Proof. intros Hf []. constructor; auto. Qed.
Lemma keeps_pbs f s : (wf_pbs (st_pbs s) → wf_pbs (f (st_pbs s))) → keeps wf s (set_pbs f s).
Proof. intros Hf []. constructor; auto. Qed.
Lemma keeps_acmeAccounts f s : (keyed aa_Name (st_acmeAccounts s) → keyed aa_Name (f (st_acmeAccounts s))) → keeps wf s (set_acmeAccounts f s).
Proof. intros Hf []. constructor; auto. Qed.
Lemma keeps_acmePlugins f s : (keyed ap_ID (st_acmePlugins s) → keyed ap_ID (f (st_acmePlugins s))) → keeps wf s (set_acmePlugins f s).
Proof. intros Hf []. constructor; auto. Qed.
Lemma keeps_console f s : keeps wf s (set_console f s).
Proof. intros []. by constructor. Qed.
Lemma keeps_clock now s : keeps wf s (set_clock now s).
Proof. intros []. by constructor. Qed.
Lemma keeps_refl s : keeps wf s s.
Proof. by intros ?. Qed.

(** A section that may leave the state alone. *)
Ltac keeps_if :=
  match goal with |- keeps wf _ (match ?b with _ => _ end) => destruct b end; try solve [apply keeps_refl].

(** ** Nodes and tasks *)

Lemma wf_ensureNode node ns : map_Forall wf_node ns → wf_node node (ensureNode node ns).
Proof.
  intros H. unfold ensureNode. destruct (ns !! node) eqn:E; [apply (H _ _ E)|apply wf_newNodeState].
Qed.

Lemma wf_set_tasks f node n :
  (map_Forall (wf_task node) (n_tasks n) → map_Forall (wf_task node) (f (n_tasks n))) →
  wf_node node n → wf_node node (set_tasks f n).
Proof. intros Hf (? & ? & ?). split_and!; cbn; auto. Qed.
Lemma wf_set_netIfaces f node n :
  (keyed if_Iface (n_netIfaces n) → keyed if_Iface (f (n_netIfaces n))) →
  wf_node node n → wf_node node (set_netIfaces f n).
Proof. intros Hf (? & ? & ?). split_and!; cbn; auto. Qed.
Lemma wf_set_certs f node n :
  (wf_certs (n_certs n) → wf_certs (f (n_certs n))) → wf_node node n → wf_node node (set_certs f n).
Proof. intros Hf (? & ? & ?). split_and!; cbn; auto. Qed.

(** A write through the node made on demand. *)
Lemma keeps_update_node node f s :
  (∀ n, wf_node node n → wf_node node (f n)) → keeps wf s (update_node node f s).
Proof.
  intros Hf. apply keeps_nodes. intros H. apply map_Forall_insert_2; [|done]. by apply Hf, wf_ensureNode.
Qed.

Lemma keeps_AddTask node upid ty id user log s : keeps wf s (AddTask node upid ty id user log s).
Proof.
  apply (keeps_update_node node (set_tasks _)). intros n. apply wf_set_tasks. by apply map_Forall_insert_2.
Qed.

Lemma keeps_FinishTask node upid e s : keeps wf s (FinishTask node upid e s).
Proof.
  apply keeps_nodes. apply map_Forall_alter. intros n. apply wf_set_tasks.
  apply map_Forall_alter. intros t (? & ? & ?). by split_and!.
Qed.

Lemma each_finishedTask node ty id : each (keeps wf) (finishedTask node ty id).
Proof.
  unfold finishedTask, synthUPID. each_sections; apply each_locked; intros s; cbn.
  - apply keeps_AddTask.
  - apply keeps_FinishTask.
Qed.
#[export] Hint Resolve each_finishedTask : sections.

Lemma each_writeTask node ty id : each (keeps wf) (writeTask node ty id).
Proof. unfold writeTask. each_sections. Qed.

Lemma each_checkAuth R `{!Reflexive R} r : each R (checkAuth r).
Proof. unfold checkAuth. each_sections. Qed.

Lemma each_parseForm R r : each R (parseForm r).
Proof. unfold parseForm. each_sections. Qed.

Lemma each_vmidOf R v : each R (vmidOf v).
Proof. unfold vmidOf. each_sections. Qed.
#[export] Hint Resolve each_writeTask each_checkAuth each_parseForm each_vmidOf : sections.
