(* ===== verification/MockWfCore.v ===== *)
(** Preservation of the invariant by the routes of guests, storage, HA, networks and
    cluster formation. *)

From S2P Require Import Prelude Json Monad MockState MockServer MockGuests MockQemu MockLxc MockStorage.
From S2P Require Import MockHa MockNodes MockCluster MockAccess MockFirewall MockSdn MockAdmin MockAcme MockMisc MockInv.
From Stdlib Require Import ZArith Lia.
From stdpp Require Import relations options.

(** ** Guests *)

Lemma wf_putGuest node vmid rec g : wf_guest node vmid rec → wf_guests g → wf_guests (putGuest node vmid rec g).
Proof.
  intros Hrec Hg. apply map_Forall_insert_2; [|done]. apply map_Forall_insert_2; [done|].
  apply map_Forall_default. intros m Hm. apply (Hg _ _ Hm).
Qed.

Lemma wf_newGuest key node vmid name : wf_guest node vmid (newGuest key node vmid name vmStatusStopped).
Proof. split_and!; [done..|by left|apply map_Forall_empty]. Qed.

Lemma wf_updateGuest f node vmid g :
  (∀ rec, wf_guest node vmid rec → wf_guest node vmid (f rec)) → wf_guests g → wf_guests (updateGuest f node vmid g).
Proof. intros Hf. apply map_Forall_alter. intros m. by apply map_Forall_alter. Qed.

Lemma wf_removeGuest node vmid g : wf_guests g → wf_guests (removeGuest node vmid g).
Proof. apply map_Forall_alter. intros m. apply map_Forall_delete. Qed.

Lemma wf_lookupGuest node vmid g rec : wf_guests g → lookupGuest g node vmid = Some rec → wf_guest node vmid rec.
Proof.
  intros Hg. unfold lookupGuest. intros (m & Hm & Hr)%bind_Some. apply (Hg _ _ Hm _ _ Hr).
Qed.

Lemma wf_migrate node target vmid g : wf_guests g → wf_guests (migrate node target vmid g).
Proof.
  intros Hg. unfold migrate. destruct (lookupGuest g node vmid) as [rec|] eqn:E; [|done].
  apply wf_removeGuest, wf_putGuest; [|done]. destruct (wf_lookupGuest _ _ _ _ Hg E) as (? & ? & ? & ?). by split_and!.
Qed.

Lemma wf_set_config f node vmid rec : wf_guest node vmid rec → wf_guest node vmid (set_config f rec).
Proof. intros (? & ? & ? & ?). by split_and!. Qed.

Lemma wf_set_status action node vmid rec :
  action ∈ powerVerbs → wf_guest node vmid rec → wf_guest node vmid (set_status (qemuPowerStatus action) rec).
Proof.
  intros Ha (? & ? & _ & ?). split_and!; [done..| |done].
  repeat (apply elem_of_cons in Ha as [->|Ha]; [by apply (bool_decide_eq_true_1 _); vm_compute|]).
  by apply not_elem_of_nil in Ha.
Qed.

Lemma wf_add_snapshot name d st node vmid rec :
  wf_guest node vmid rec → wf_guest node vmid (set_snapshots <[name := newSnapshot name d st]> rec).
Proof. intros (? & ? & ? & ?). split_and!; [done..|]. by apply map_Forall_insert_2. Qed.

Lemma wf_del_snapshot name node vmid rec :
  wf_guest node vmid rec → wf_guest node vmid (set_snapshots (delete name) rec).
Proof. intros (? & ? & ? & ?). split_and!; [done..|]. by apply map_Forall_delete. Qed.

Lemma each_update_vm f node vmid :
  (∀ rec, wf_guest node vmid rec → wf_guest node vmid (f rec)) → each (keeps wf) (update_vm f node vmid).
Proof. intros Hf. apply each_locked. intros s. cbn. apply keeps_qemu. by apply wf_updateGuest. Qed.

Lemma each_update_ct f node vmid :
  (∀ rec, wf_guest node vmid rec → wf_guest node vmid (f rec)) → each (keeps wf) (update_ct f node vmid).
Proof. intros Hf. apply each_locked. intros s. cbn. apply keeps_lxc. by apply wf_updateGuest. Qed.

Lemma each_vmExists R `{!Reflexive R} node vmid : each R (vmExists node vmid).
Proof. unfold vmExists. each_sections. Qed.
Lemma each_ctExists R `{!Reflexive R} node vmid : each R (ctExists node vmid).
Proof. unfold ctExists. each_sections. Qed.
Lemma each_removeVM node vmid : each (keeps wf) (removeVM node vmid).
Proof. apply each_locked. intros s. cbn. apply keeps_qemu, wf_removeGuest. Qed.
#[export] Hint Resolve each_vmExists each_ctExists each_removeVM : sections.
#[export] Hint Resolve each_update_vm each_update_ct wf_set_config wf_set_status wf_add_snapshot wf_del_snapshot : sections.

Lemma each_snapshotTarget R `{!Reflexive R} r : each R (snapshotTarget r).
Proof. unfold snapshotTarget. each_sections. Qed.
Lemma each_lxcSnapshotTarget R `{!Reflexive R} r : each R (lxcSnapshotTarget r).
Proof. unfold lxcSnapshotTarget. each_sections. Qed.
Lemma each_agentVMExists R `{!Reflexive R} r : each R (agentVMExists r).
Proof. unfold agentVMExists. each_sections. Qed.
#[export] Hint Resolve each_snapshotTarget each_lxcSnapshotTarget each_agentVMExists : sections.

Lemma locked_AddVM node vmid name :
  each (keeps wf) (locked (λ s, (AddVM node vmid name vmStatusStopped s, ()))).
Proof. apply each_locked. intros s. cbn. apply keeps_qemu, wf_putGuest, wf_newGuest. Qed.

Lemma locked_AddContainer node vmid name :
  each (keeps wf) (locked (λ s, (AddContainer node vmid name vmStatusStopped s, ()))).
Proof. apply each_locked. intros s. cbn. apply keeps_lxc, wf_putGuest, wf_newGuest. Qed.
#[export] Hint Resolve locked_AddVM locked_AddContainer : sections.

(** ** Storage *)

Lemma normalized_idem c : normalizeSet (normalizeSet c) = normalizeSet c.
Proof. rewrite (normalizeSet_items (normalizeSet c)), set_items_normalize. by rewrite <- normalizeSet_items. Qed.

Lemma wf_mk_store id rec c p po n sh d e :
  s_Storage rec = id → normalizeSet c = c → normalizeSet n = n → wf_store id (mk_store rec c p po n sh d e).
Proof. intros. by split_and!. Qed.

Lemma wf_applyStorageForm id rec key val : wf_store id rec → wf_store id (applyStorageForm rec key val).
Proof.
  intros (? & ? & ?). unfold applyStorageForm.
  repeat case_bool_decide; apply wf_mk_store; auto using normalized_idem.
Qed.

Lemma wf_clearStorageKey id rec key : wf_store id rec → wf_store id (clearStorageKey rec key).
Proof.
  intros (? & ? & ?). unfold clearStorageKey. repeat case_bool_decide; by apply wf_mk_store.
Qed.

Lemma foldl_inv {A B} (P : B → Prop) (f : B → A → B) l b : (∀ b a, P b → P (f b a)) → P b → P (foldl f b l).
Proof. intros Hf. revert b. induction l; cbn; auto. Qed.

Lemma wf_apply_keys id skip form rec : wf_store id rec → wf_store id (apply_keys skip form rec).
Proof. apply foldl_inv. intros b key Hb. case_decide; [done|]. by apply wf_applyStorageForm. Qed.

Lemma wf_new_store id typ form : wf_store id (new_store id typ form).
Proof.
  unfold new_store. set (rec := apply_keys _ _ _).
  assert (wf_store id rec) as Hrec by (apply wf_apply_keys; by split_and!).
  case_match; [|done]. destruct Hrec as (? & ? & ?). by apply wf_mk_store.
Qed.

Lemma wf_update_store id form rec : wf_store id rec → wf_store id (update_store form rec).
Proof.
  intros H. apply wf_apply_keys. case_bool_decide; [done|].
  apply foldl_inv; [|done]. intros b key. apply wf_clearStorageKey.
Qed.

Lemma wf_bump f st :
  (map_Forall wf_store (so_stores st) → map_Forall wf_store (f (so_stores st))) →
  wf_storage st → wf_storage (bumpStorageDigest (set_stores f st)).
Proof. intros Hf (? & ? & ? & ?). split_and!; cbn; [auto|done|apply wrap64_ok|by left]. Qed.

Lemma wf_set_content f st : wf_storage st → wf_storage (set_content f st).
Proof. intros (? & ? & ? & ?). by split_and!. Qed.

Lemma keeps_AddVolume node storage volid c f size s : keeps wf s (AddVolume node storage volid c f size s).
Proof. apply keeps_storage. apply wf_set_content. Qed.

Lemma keeps_AddZFSPool node name size free s : keeps wf s (AddZFSPool node name size free s).
Proof.
  apply keeps_storage. intros (? & Hz & ? & ?). split_and!; [done| |done..]. cbn.
  apply map_Forall_insert_2; [|done]. apply map_Forall_insert_2; [done|].
  apply map_Forall_default. intros m Hm. apply (Hz _ _ Hm).
Qed.

Lemma each_datastore_update id form : each (keeps wf) (locked (datastore_update id form)).
Proof.
  apply each_locked. intros s. unfold datastore_update.
  destruct (so_stores (st_storage s) !! id) as [rec|] eqn:E; [|apply keeps_refl].
  case_match; [apply keeps_refl|]. apply keeps_storage, wf_bump. intros Hst.
  apply map_Forall_insert_2; [|done]. apply wf_update_store, (Hst _ _ E).
Qed.

Lemma each_remove_volume node storage volid : each (keeps wf) (locked (remove_volume node storage volid)).
Proof.
  apply each_locked. intros s. unfold remove_volume. cbn. keeps_if.
  apply keeps_storage, wf_set_content.
Qed.
#[export] Hint Resolve each_datastore_update each_remove_volume : sections.

Lemma storage_routes_keep_wf : Forall (λ route, ∀ r, each (keeps wf) (route.2 r)) storageRoutes.
Proof.
  repeat constructor; intros r; cbn [snd];
    unfold handleDatastoreList, handleDatastoreGet, handleDatastoreCreate, handleDatastoreUpdate,
      handleDatastoreDelete, handleNodeStorageList, handleNodeStorageStatus, handleContentList, handleVolumeGet,
      handleVolumeCreate, handleVolumeDelete, handleStorageUpload, handleZFSList, handleZFSGet, handleZFSCreate;
    each_sections; apply each_locked; intros s; cbn.
  - keeps_if. apply keeps_storage, wf_bump.
    apply map_Forall_insert_2, wf_new_store.
  - keeps_if. apply keeps_storage, wf_bump. apply map_Forall_delete.
  - apply keeps_AddVolume.
  - apply keeps_storage, wf_set_content.
  - apply keeps_AddVolume.
  - apply keeps_AddZFSPool.
Qed.

(** ** Guests, HA, networks, cluster *)

Lemma qemu_routes_keep_wf : Forall (λ route, ∀ r, each (keeps wf) (route.2 r)) qemuRoutes.
Proof.
  assert (∀ verb, verb ∈ powerVerbs → ∀ r, each (keeps wf) (handleQEMUPower verb r)) as Hpower.
  { intros verb Hverb r. unfold handleQEMUPower. each_sections. }
  repeat apply Forall_app_2; [|apply Forall_fmap; rewrite Forall_forall; exact Hpower|];
    repeat constructor; intros r; cbn [snd];
    unfold handleQEMUList, handleQEMUCreate, handleQEMUStatus, handleQEMUConfig, handleQEMUSetConfig,
      handleQEMUClone, handleQEMUTemplate, handleQEMUDelete, handleQEMUResize, handleQEMUMoveDisk,
      handleQEMUMigrate, handleQEMUSnapshotList, handleQEMUSnapshotCreate, handleQEMUSnapshotRollback,
      handleQEMUSnapshotDelete, handleQEMUAgentPing, handleQEMUAgentExec, handleQEMUAgentExecStatus;
    each_sections; apply each_locked; intros s; cbn.
  - assert (∀ b : bool, keeps wf s (if b then s else
      set_qemu (updateGuest (set_config <["template" := CInt 1]>) (PathValue r "node") a0) s)) as Hb.
    { intros []; [apply keeps_refl|]. apply keeps_qemu, wf_updateGuest, wf_set_config. }
    apply Hb.
  - apply keeps_qemu, wf_migrate.
Qed.

Lemma lxc_routes_keep_wf : Forall (λ route, ∀ r, each (keeps wf) (route.2 r)) lxcRoutes.
Proof.
  assert (∀ verb, verb ∈ powerVerbs → ∀ r, each (keeps wf) (handleLXCPower verb r)) as Hpower.
  { intros verb Hverb r. unfold handleLXCPower. each_sections. }
  repeat apply Forall_app_2; [|apply Forall_fmap; rewrite Forall_forall; exact Hpower|];
    repeat constructor; intros r; cbn [snd];
    unfold handleLXCList, handleLXCCreate, handleLXCStatus, handleLXCConfig, handleLXCSetConfig, handleLXCClone,
      handleLXCDelete, handleLXCSnapshotList, handleLXCSnapshotCreate, handleLXCSnapshotRollback,
      handleLXCSnapshotDelete, handleStorageDownloadURL;
    each_sections; apply each_locked; intros s; cbn.
  apply keeps_lxc, wf_removeGuest.
Qed.

Lemma wf_set_resources f h :
  (∀ P : string → haResourceRecord → Prop, P = (λ sid rec, hr_SID rec = sid ∧ hr_Type rec = sidType sid) →
     map_Forall P (ha_resources h) → map_Forall P (f (ha_resources h))) →
  wf_ha h → wf_ha (set_resources f h).
Proof. intros Hf (? & ? & ? & ?). split_and!; [|done..]. by eapply Hf. Qed.

Lemma wf_set_rules f h :
  (∀ P : string → haRuleRecord → Prop, P = (λ rule rec, ru_Rule rec = rule) →
     map_Forall P (ha_rules h) → map_Forall P (f (ha_rules h))) →
  wf_ha h → wf_ha (set_rules f h).
Proof. intros Hf (? & ? & ? & ?). split_and!; [done| |done..]. by eapply Hf. Qed.

Lemma wf_set_repl f h :
  (∀ P : string → haReplRecord → Prop, P = (λ id rec, hp_ID rec = id) →
     map_Forall P (ha_repl h) → map_Forall P (f (ha_repl h))) →
  wf_ha h → wf_ha (set_repl f h).
Proof. intros Hf (? & ? & ? & ?). split_and!; [done|done| |done]. by eapply Hf. Qed.

Lemma keeps_set_option form s k : keeps wf s (set_option form s k).
Proof.
  unfold set_option. destruct (form !! k) as [[|v vs]|]; try apply keeps_refl. case_bool_decide.
  - apply keeps_ha. intros (? & ? & ? & ?). by split_and!.
  - apply keeps_cluster. intros (? & ? & ?). split_and!; [done..|]. cbn. by rewrite lookup_insert_ne.
Qed.

Lemma ha_routes_keep_wf : Forall (λ route, ∀ r, each (keeps wf) (route.2 r)) haRoutes.
Proof.
  repeat constructor; intros r; cbn [snd];
    unfold handleHAResourceList, handleHAResourceCreate, handleHAResourceGet, handleHAResourceUpdate,
      handleHAResourceDelete, handleHARuleList, handleHARuleCreate, handleHARuleGet, handleHARuleUpdate,
      handleHARuleDelete, handleClusterOptionsGet, handleClusterOptionsSet, handleHAStatusCurrent,
      handleHAManagerStatus, handleHAArm, handleHADisarm, handleHAResourceMove, handleReplList, handleReplGet,
      handleReplCreate, handleReplUpdate, handleReplDelete;
    each_sections; apply each_locked; intros s; cbn.
  - apply keeps_ha, wf_set_resources. intros P ->. by apply map_Forall_insert_2.
  - apply keeps_ha, wf_set_resources. intros P ->. by apply map_Forall_alter.
  - apply keeps_ha, wf_set_resources. intros P ->. by apply map_Forall_delete.
  - apply keeps_ha, wf_set_rules. intros P ->. by apply map_Forall_insert_2.
  - apply keeps_ha, wf_set_rules. intros P ->. by apply map_Forall_alter.
  - apply keeps_ha, wf_set_rules. intros P ->. by apply map_Forall_delete.
  - intros Hs. revert s Hs. induction (keys _) as [|k l IH]; cbn; [done|].
    intros s Hs. apply IH. by apply keeps_set_option.
  - apply keeps_ha. intros (? & ? & ? & ?). by split_and!.
  - apply keeps_ha. intros (? & ? & ? & ?). split_and!; [done..|]. cbn.
    apply orb_prop in H as [->%bool_decide_eq_true| ->%bool_decide_eq_true]; set_solver.
  - apply keeps_ha, wf_set_resources. intros P ->. by apply map_Forall_alter.
  - apply keeps_ha, wf_set_resources. intros P ->. by apply map_Forall_alter.
  - apply keeps_ha, wf_set_repl. intros P ->. by apply map_Forall_insert_2.
  - apply keeps_ha, wf_set_repl. intros P ->. by apply map_Forall_alter.
  - apply keeps_ha, wf_set_repl. intros P ->. by apply map_Forall_delete.
Qed.

Lemma keeps_put_iface node iface rec s : if_Iface rec = iface → keeps wf s (put_iface node iface rec s).
Proof.
  intros Hrec. apply (keeps_update_node node (set_netIfaces _)). intros n.
  apply wf_set_netIfaces. by apply keyed_insert.
Qed.

Lemma each_change_iface f node iface :
  (∀ m, keyed if_Iface m → keyed if_Iface (f m)) → each (keeps wf) (change_iface f node iface).
Proof.
  intros Hf. apply each_locked. intros s. cbn. keeps_if.
  apply keeps_nodes. apply map_Forall_alter. intros nd. apply wf_set_netIfaces, Hf.
Qed.

Lemma node_routes_keep_wf : Forall (λ route, ∀ r, each (keeps wf) (route.2 r)) nodeNetworkRoutes.
Proof.
  repeat constructor; intros r; cbn [snd];
    unfold handleNetworkList, handleNetworkGet, handleNetworkCreate, handleNetworkUpdate, handleNetworkDelete,
      handleNetworkApply; each_sections.
  - apply each_locked. intros s. cbn. by apply keeps_put_iface.
  - apply each_change_iface. intros m. by apply keyed_alter.
  - apply each_change_iface. intros m. apply keyed_delete.
Qed.

Lemma keeps_create_cluster name s : keeps wf s (create_cluster name s).1.
Proof.
  unfold create_cluster. destruct (cl_clustered (st_cluster s)); [apply keeps_refl|].
  apply keeps_cluster. intros (? & ? & ?). split_and!; [apply NoDup_singleton|done|done].
Qed.

Lemma keeps_join_cluster s : keeps wf s (join_cluster s).1.
Proof.
  unfold join_cluster. destruct (cl_clustered (st_cluster s)) eqn:Hc; [|apply keeps_refl]. cbn [negb].
  destruct (cl_joinQueue (st_cluster s)) as [|joined queue]; [apply keeps_refl|].
  case_decide; apply keeps_cluster; intros (Hnd & Hcl & ?).
  - split_and!; [done| |done]. cbn. by rewrite <- Hcl, Hc.
  - split_and!; [| |done]; cbn.
    + apply NoDup_app. split_and!; [done| |apply NoDup_singleton]. set_solver.
    + split; [|done]. by destruct (cl_members _).
Qed.

Lemma each_or_bad_request {A} R (x : string + A) : each R (or_bad_request x).
Proof. unfold or_bad_request. each_sections. Qed.
#[export] Hint Resolve each_or_bad_request : sections.

Lemma cluster_routes_keep_wf : Forall (λ route, ∀ r, each (keeps wf) (route.2 r)) clusterRoutes.
Proof.
  repeat constructor; intros r; cbn [snd];
    unfold handleClusterResources, handleClusterStatus, handleClusterCreate, handleClusterJoinInfo,
      handleClusterJoin, handleClusterConfigNodes; each_sections; apply each_locked; intros s.
  - apply keeps_create_cluster.
  - apply keeps_join_cluster.
Qed.
