(* ===== verification/MockWfMgmt.v ===== *)
(** Preservation of the invariant by the management surfaces: access, firewall, SDN,
    node administration, ACME, metrics, Ceph, backup jobs and consoles. *)

From S2P Require Import Prelude Json Monad MockState MockServer MockStorage.
From S2P Require Import MockAccess MockFirewall MockSdn MockAdmin MockAcme MockMisc MockInv.
From Stdlib Require Import ZArith Lia Ascii.
From stdpp Require Import relations options.

(** ** Access *)

Lemma wf_set_users f a :
  (keyed au_UserID (ac_users a) → keyed au_UserID (f (ac_users a))) → wf_access a → wf_access (set_ac_users f a).
Proof. intros Hf (? & ? & ? & ? & ?). split_and!; cbn; auto. Qed.
Lemma wf_set_groups f a :
  (keyed ag_GroupID (ac_groups a) → keyed ag_GroupID (f (ac_groups a))) → wf_access a → wf_access (set_ac_groups f a).
Proof. intros Hf (? & ? & ? & ? & ?). split_and!; cbn; auto. Qed.
Lemma wf_set_roles f a :
  (keyed ar_RoleID (ac_roles a) → keyed ar_RoleID (f (ac_roles a))) → wf_access a → wf_access (set_ac_roles f a).
Proof. intros Hf (? & ? & ? & ? & ?). split_and!; cbn; auto. Qed.
Lemma wf_set_tokens f a :
  (map_Forall (λ _, keyed at_TokenID) (ac_tokens a) → map_Forall (λ _, keyed at_TokenID) (f (ac_tokens a))) →
  wf_access a → wf_access (set_ac_tokens f a).
Proof. intros Hf (? & ? & ? & ? & ?). split_and!; cbn; auto. Qed.

Lemma applyRoleForm_id form rec : ar_RoleID (applyRoleForm form rec) = ar_RoleID rec.
Proof. unfold applyRoleForm. by case_bool_decide. Qed.

Lemma Forall_removeACL (P : accessACLRecord → Prop) acls path ugid role :
  Forall P acls → Forall P (removeACL acls path ugid role).
Proof. rewrite !Forall_forall. intros H e [_ He]%list_elem_of_filter. by apply H. Qed.

Lemma wf_acl_set form acls :
  Forall (λ e, ac_Type e ∈ ["user"; "group"; "token"]) acls →
  Forall (λ e, ac_Type e ∈ ["user"; "group"; "token"]) (acl_set form acls).
Proof.
  unfold acl_set. assert (Forall (λ sr : aclSubject * string, kind sr.1 ∈ ["user"; "group"; "token"])
    (acl_pairs (aclSubjects form) (splitCSV (vget form "roles")))) as Hp.
  { apply Forall_forall. intros sr (subj & Hsr & Hs)%list_elem_of_bind.
    apply list_elem_of_fmap in Hsr as (role & -> & _). cbn.
    unfold aclSubjects in Hs. rewrite !elem_of_app, !list_elem_of_fmap in Hs.
    destruct Hs as [(? & -> & _)|[(? & -> & _)|(? & -> & _)]]; cbn; set_solver. }
  revert acls. induction Hp as [|sr l Hsr _ IH]; intros acls Ha; [done|]. cbn. apply IH.
  unfold acl_set_one. destruct (vget form "delete" =s "1"); [by apply Forall_removeACL|].
  apply Forall_app_2; [done|]. by constructor.
Qed.

Lemma wf_put_token userid tokenid rec toks :
  at_TokenID rec = tokenid → map_Forall (λ _, keyed at_TokenID) toks →
  map_Forall (λ _, keyed at_TokenID) (put_token userid tokenid rec toks).
Proof. apply (map_Forall_put2 (λ (_ : string) k a, at_TokenID a = k)). Qed.

Lemma access_routes_keep_wf : Forall (λ route, ∀ r, each (keeps wf) (route.2 r)) accessRoutes.
Proof.
  repeat constructor; intros r; cbn [snd];
    unfold handleUserList, handleUserCreate, handleUserGet, handleUserUpdate, handleUserDelete, handleGroupList,
      handleGroupCreate, handleGroupGet, handleGroupUpdate, handleGroupDelete, handleRoleList, handleRoleCreate,
      handleRoleGet, handleRoleUpdate, handleRoleDelete, handleACLList, handleACLSet, handleTokenList,
      handleTokenGet, handleTokenCreate, handleTokenUpdate, handleTokenDelete;
    each_sections; apply each_locked; intros s; cbn.
  all: try (apply keeps_access; first [apply wf_set_users|apply wf_set_groups|apply wf_set_roles];
            first [by apply keyed_insert|by apply keyed_alter|apply keyed_delete]).
  - apply keeps_access, wf_set_roles, keyed_alter. apply applyRoleForm_id.
  - apply keeps_access. intros (? & ? & ? & ? & ?). split_and!; cbn; try done. by apply wf_acl_set.
  - apply keeps_access, wf_set_tokens, wf_put_token. done.
  - keeps_if. apply keeps_access, wf_set_tokens. apply map_Forall_alter. intros m. by apply keyed_alter.
  - apply keeps_access, wf_set_tokens. apply map_Forall_alter. intros m. apply keyed_delete.
Qed.

(** ** Firewall *)

Lemma each_with_scope {A} key (f : fwScope → fwScope * A) :
  (∀ sc, wf_scope sc → wf_scope (f sc).1) → each (keeps wf) (with_scope key f).
Proof.
  intros Hf. apply each_locked. intros s. cbn. unfold fwScopeLocked.
  destruct (f _) as [sc a] eqn:E. cbn. apply keeps_firewall. intros Hfw. apply map_Forall_insert_2; [|done].
  replace sc with (f (default newScope (st_firewall s !! key))).1 by by rewrite E. apply Hf.
  destruct (st_firewall s !! key) as [sc0|] eqn:Hk; [apply (Hfw _ _ Hk)|apply map_Forall_empty].
Qed.

Lemma each_read_scope {A} key (f : fwScope → A) : each (keeps wf) (read_scope key f).
Proof. by apply each_with_scope. Qed.
#[export] Hint Resolve each_read_scope : sections.

Lemma wf_set_rules_scope f sc : wf_scope sc → wf_scope (set_fw_rules f sc).
Proof. done. Qed.
Lemma wf_set_options_scope f sc : wf_scope sc → wf_scope (set_fw_options f sc).
Proof. done. Qed.

Lemma wf_rename_ipset old newName sets :
  map_Forall wf_ipset sets → map_Forall wf_ipset (rename_ipset old newName sets).
Proof.
  intros H. unfold rename_ipset. destruct (sets !! old) as [rec|] eqn:E; [|done].
  apply map_Forall_delete, map_Forall_insert_2; [|done]. destruct (H _ _ E). by split.
Qed.

Lemma wf_set_entries f name rec :
  (keyed fe_CIDR (fi_entries rec) → keyed fe_CIDR (f (fi_entries rec))) →
  wf_ipset name rec → wf_ipset name (set_entries f rec).
Proof. intros Hf [? ?]. split; cbn; auto. Qed.

Lemma scope_routes_keep_wf prefix key :
  Forall (λ route, ∀ r, each (keeps wf) (route.2 r)) (firewallScopeRoutes prefix key).
Proof.
  repeat constructor; intros r; cbn [snd];
    unfold fwRuleList, fwRuleCreate, fwRuleGet, fwRuleUpdate, fwRuleDelete, fwOptionsGet, fwOptionsSet;
    each_sections; apply each_with_scope; intros sc Hsc; cbn; try done; by destruct (rule_at _ _) as [[? ?]|].
Qed.

Lemma ipset_routes_keep_wf prefix key :
  Forall (λ route, ∀ r, each (keeps wf) (route.2 r)) (firewallIPSetScopeRoutes prefix key).
Proof.
  repeat constructor; intros r; cbn [snd];
    unfold fwIPSetList, fwIPSetCreate, fwRenameIPSet, fwIPSetEntryList, fwIPSetEntryAdd, fwIPSetDelete, fwIPSetEntryDelete;
    each_sections; apply each_with_scope; intros sc Hsc; cbn.
  - by apply wf_rename_ipset.
  - apply map_Forall_insert_2; [|done]. split; [done|apply map_Forall_empty].
  - apply map_Forall_alter; [|done]. intros rec. apply wf_set_entries. by apply keyed_insert.
  - by apply map_Forall_delete.
  - apply map_Forall_alter; [|done]. intros rec. apply wf_set_entries, keyed_delete.
Qed.

Lemma firewall_routes_keep_wf : Forall (λ route, ∀ r, each (keeps wf) (route.2 r)) firewallRoutes.
Proof.
  unfold firewallRoutes, fwGuestKinds. cbn [mbind list_bind]. rewrite !Forall_app.
  split_and!; (apply scope_routes_keep_wf || apply ipset_routes_keep_wf || constructor).
Qed.

(** ** SDN *)

Lemma wf_set_zones f d :
  (keyed sz_Zone (sd_zones d) → keyed sz_Zone (f (sd_zones d))) → wf_sdn d → wf_sdn (set_zones f d).
Proof. intros Hf (? & ? & ? & ? & ? & ?). split_and!; cbn; auto. Qed.
Lemma wf_set_vnets f d :
  (keyed sv_VNet (sd_vnets d) → keyed sv_VNet (f (sd_vnets d))) → wf_sdn d → wf_sdn (set_vnets f d).
Proof. intros Hf (? & ? & ? & ? & ? & ?). split_and!; cbn; auto. Qed.
(** A fabric may be added or rewritten, and not removed, without looking at its members. *)
Lemma wf_set_fabrics f d :
  (keyed sf_Fabric (sd_fabrics d) → keyed sf_Fabric (f (sd_fabrics d))) →
  (∀ k, is_Some (sd_fabrics d !! k) → is_Some (f (sd_fabrics d) !! k)) →
  wf_sdn d → wf_sdn (set_fabrics f d).
Proof. intros Hf Hdom (? & ? & ? & ? & ? & ?). split_and!; cbn; auto. Qed.
Lemma wf_set_subnets f d :
  (∀ P, P = (λ vnet, map_Forall (λ subnet rec, ss_VNet rec = vnet ∧ ss_Subnet rec = subnet)) →
     map_Forall P (sd_subnets d) → map_Forall P (f (sd_subnets d))) → wf_sdn d → wf_sdn (set_subnets f d).
Proof. intros Hf (? & ? & ? & ? & ? & ?). split_and!; cbn; auto. Qed.
Lemma wf_set_members f d :
  (∀ P, P = (λ fabric, map_Forall (λ node rec, sn_Fabric rec = fabric ∧ sn_NodeID rec = node)) →
     map_Forall P (sd_fabricNodes d) → map_Forall P (f (sd_fabricNodes d))) →
  (∀ k, is_Some (f (sd_fabricNodes d) !! k) → is_Some (sd_fabrics d !! k) ∨ is_Some (sd_fabricNodes d !! k)) →
  wf_sdn d → wf_sdn (set_fabricNodes f d).
Proof.
  intros Hf Hdom (? & ? & ? & ? & ? & ?). split_and!; cbn; auto.
  intros k Hk. destruct (Hdom k Hk); auto.
Qed.

Lemma is_Some_alter {A} (f : A → A) k k' (m : gmap string A) : is_Some (alter f k m !! k') ↔ is_Some (m !! k').
Proof.
  destruct (decide (k = k')) as [<-|]; [rewrite lookup_alter_eq, fmap_is_Some; done|by rewrite lookup_alter_ne].
Qed.

Lemma is_Some_insert {A} (a : A) k k' (m : gmap string A) : is_Some (m !! k') → is_Some (<[k := a]> m !! k').
Proof. intros H. destruct (decide (k = k')) as [<-|]; [by rewrite lookup_insert_eq|by rewrite lookup_insert_ne]. Qed.

Lemma wf_delete_fabric fabric d : wf_sdn d → wf_sdn (delete_fabric fabric d).
Proof.
  intros Hd. unfold delete_fabric. destruct (sd_fabrics d !! fabric) eqn:E; [|done].
  destruct Hd as (? & ? & ? & ? & ? & Hdom). split_and!; cbn; try done.
  - by apply keyed_delete.
  - by apply map_Forall_delete.
  - intros k. destruct (decide (fabric = k)) as [<-|Hne].
    + rewrite lookup_delete_eq. by intros [? ?].
    + rewrite !lookup_delete_ne by done. apply Hdom.
Qed.

Lemma wf_add_member fabric node rec d :
  sn_Fabric rec = fabric → sn_NodeID rec = node → wf_sdn d → wf_sdn (add_member fabric node rec d).
Proof.
  intros Hf Hn Hd. unfold add_member. destruct (sd_fabrics d !! fabric) eqn:E; [|done].
  revert Hd. apply wf_set_members.
  - intros P ->. by apply (map_Forall_put2 (λ fabric node rec, sn_Fabric rec = fabric ∧ sn_NodeID rec = node)).
  - intros k. unfold put2. destruct (decide (fabric = k)) as [<-|Hne]; [by left|].
    rewrite lookup_insert_ne by done. by right.
Qed.

Lemma sdn_routes_keep_wf : Forall (λ route, ∀ r, each (keeps wf) (route.2 r)) sdnRoutes.
Proof.
  repeat constructor; intros r; cbn [snd];
    unfold handleZoneList, handleZoneCreate, handleZoneGet, handleZoneUpdate, handleZoneDelete, handleVNetList,
      handleVNetCreate, handleVNetGet, handleVNetUpdate, handleVNetDelete, handleSubnetList, handleSubnetCreate,
      handleSubnetGet, handleSubnetUpdate, handleSubnetDelete, handleFabricList, handleFabricCreate,
      handleFabricGet, handleFabricUpdate, handleFabricDelete, handleFabricNodeList, handleFabricNodeCreate,
      handleFabricNodeGet, handleFabricNodeUpdate, handleFabricNodeDelete, handleSDNApply, handleNodeSDNZones,
      handleNodeSDNZoneContent, handleNodeSDNZoneBridges, handleNodeSDNZoneIPVRF, handleNodeSDNVNetMACVRF,
      handleNodeSDNFabricInterfaces, handleNodeSDNFabricNeighbors, handleNodeSDNFabricRoutes;
    each_sections; apply each_locked; intros s; cbn; apply keeps_sdn.
  all: try (first [apply wf_set_zones|apply wf_set_vnets];
            first [by apply keyed_insert|by apply keyed_alter|apply keyed_delete]).
  - apply wf_set_subnets. intros P ->.
    by apply (map_Forall_put2 (λ vnet subnet rec, ss_VNet rec = vnet ∧ ss_Subnet rec = subnet)).
  - apply wf_set_subnets. intros P ->. apply map_Forall_alter. intros m. by apply map_Forall_alter.
  - apply wf_set_subnets. intros P ->. apply map_Forall_alter. intros m. apply map_Forall_delete.
  - apply wf_set_fabrics; [by apply keyed_insert|]. intros k. apply is_Some_insert.
  - apply wf_set_fabrics; [by apply keyed_alter|]. intros k. apply is_Some_alter.
  - apply wf_delete_fabric.
  - by apply wf_add_member.
  - apply wf_set_members; [|intros k Hk; right; by eapply is_Some_alter].
    intros P ->. apply map_Forall_alter. intros m. by apply map_Forall_alter.
  - apply wf_set_members; [|intros k Hk; right; by eapply is_Some_alter].
    intros P ->. apply map_Forall_alter. intros m. apply map_Forall_delete.
Qed.

(** ** Node administration *)

Lemma add_san_ok san d : NoDup san ∧ "" ∉ san → NoDup (add_san san d) ∧ "" ∉ add_san san d.
Proof.
  intros [Hnd He]. unfold add_san. case_bool_decide as Hd; [done|]. cbn [orb]. case_bool_decide as Hin; [done|].
  split; [|set_solver]. apply NoDup_app. split_and!; [done| |apply NoDup_singleton]. set_solver.
Qed.

Lemma acmeSANs_ok n : NoDup (acmeSANs n) ∧ "" ∉ acmeSANs n.
Proof.
  unfold acmeSANs. assert (NoDup (@nil string) ∧ "" ∉ @nil string) as H by (split; [constructor|set_solver]).
  revert H. generalize (@nil string). induction (acme_names (n_config n)) as [|d l IH]; intros san Hs; [done|].
  cbn. apply IH. by apply add_san_ok.
Qed.

Lemma withoutFrontend_frontend l : filter (λ c, c_Filename c = acmeCertFilename) (withoutFrontendCert l) = [].
Proof.
  induction l as [|c l IH]; [done|]. unfold withoutFrontendCert. rewrite filter_cons.
  destruct (decide (c_Filename c ≠ acmeCertFilename)) as [Hn|]; [|done].
  rewrite filter_cons_False; done.
Qed.

Lemma wf_withoutFrontend l : wf_certs l → wf_certs (withoutFrontendCert l).
Proof.
  intros [_ H]. split; [rewrite withoutFrontend_frontend; cbn; lia|].
  rewrite Forall_forall in H |- *. intros c [_ Hc]%list_elem_of_filter. by apply H.
Qed.

(** Installing a front-end certificate over whatever was there. *)
Lemma wf_install l c : wf_cert c → wf_certs l → wf_certs (withoutFrontendCert l ++ [c]).
Proof.
  intros Hc [_ Hl]%wf_withoutFrontend. split; [|by apply Forall_app_2; [|constructor]].
  rewrite filter_app, withoutFrontend_frontend. cbn [app]. rewrite filter_cons.
  case_decide; cbn; lia.
Qed.

Lemma wf_move_cert method node n : wf_node node n → wf_node node (move_cert method n).
Proof.
  intros Hn. unfold move_cert. case_bool_decide; [by apply wf_set_certs; [apply wf_withoutFrontend|]|].
  pose proof (acmeSANs_ok (set_certs withoutFrontendCert n)) as [Hnd He].
  destruct (acmeSANs _) as [|d san] eqn:E; [by apply wf_set_certs; [apply wf_withoutFrontend|]|].
  change (wf_node node (set_certs (λ l, withoutFrontendCert l ++ [acme_cert (d :: san)]) n)).
  apply wf_set_certs; [|done]. apply wf_install. intros _. split_and!; done.
Qed.

Lemma keeps_set_repos f node s : keeps wf s (set_nodes (alter (set_repos f) node) s).
Proof. apply keeps_nodes. by apply map_Forall_alter. Qed.

Lemma admin_routes_keep_wf : Forall (λ route, ∀ r, each (keeps wf) (route.2 r)) nodeAdminRoutes.
Proof.
  repeat constructor; intros r; cbn [snd];
    unfold handleAptUpdateList, handleAptRefresh, handleRepoList, handleRepoUpdate, handleDiskList, handleDiskSMART,
      handleDiskInitGPT, handleCertInfo, handleCertUpload, handleCertDelete, handleCertACME, handleACMEAccountList,
      handleACMEAccountCreate, handleACMEAccountGet, handleACMEAccountUpdate, handleACMEAccountDelete;
    each_sections; apply each_locked; intros s; cbn.
  - apply keeps_set_repos.
  - apply (keeps_update_node (PathValue r "node")). intros n. apply wf_set_certs. apply wf_install. discriminate.
  - apply keeps_nodes, map_Forall_alter. intros n. apply wf_set_certs, wf_withoutFrontend.
  - apply keeps_update_node. intros n. apply wf_move_cert.
  - apply keeps_update_node. intros n. apply wf_move_cert.
  - apply keeps_update_node. intros n. apply wf_move_cert.
  - apply keeps_acmeAccounts. by apply keyed_insert.
  - apply keeps_acmeAccounts. by apply keyed_alter.
  - apply keeps_acmeAccounts, keyed_delete.
Qed.

(** ** ACME and node configuration *)

Lemma clear_keys_id l rec : ap_ID (foldl clear_plugin_key rec l) = ap_ID rec.
Proof. revert rec. induction l as [|k l IH]; intros r; [done|]. cbn. by rewrite IH. Qed.

Lemma applyACMEPluginForm_id form rec : ap_ID (applyACMEPluginForm form rec) = ap_ID rec.
Proof. unfold applyACMEPluginForm. case_bool_decide; [done|]. by rewrite clear_keys_id. Qed.

Lemma acme_routes_keep_wf : Forall (λ route, ∀ r, each (keeps wf) (route.2 r)) acmeRoutes.
Proof.
  repeat constructor; intros r; cbn [snd];
    unfold handleACMEPluginList, handleACMEPluginCreate, handleACMEPluginGet, handleACMEPluginUpdate,
      handleACMEPluginDelete, handleACMEChallengeSchema, handleACMEDirectories, handleACMEMeta;
    each_sections; apply each_locked; intros s; cbn.
  - apply keeps_acmePlugins. by apply keyed_insert.
  - keeps_if. apply keeps_acmePlugins, keyed_alter. apply applyACMEPluginForm_id.
  - apply keeps_acmePlugins, keyed_delete.
Qed.

Lemma node_config_routes_keep_wf : Forall (λ route, ∀ r, each (keeps wf) (route.2 r)) nodeConfigRoutes.
Proof.
  repeat constructor; intros r; cbn [snd]; unfold handleNodeConfigGet, handleNodeConfigSet; each_sections.
  apply each_locked. intros s. cbn. by apply keeps_update_node.
Qed.

(** ** Metrics, Ceph, backup jobs, consoles *)

Lemma metrics_routes_keep_wf : Forall (λ route, ∀ r, each (keeps wf) (route.2 r)) metricsRoutes.
Proof.
  repeat constructor; intros r; cbn [snd];
    unfold handleNodeRRD, handleNodeStatus, handleVMRRD, handleMetricServerList, handleMetricServerGet,
      handleMetricServerCreate, handleMetricServerUpdate, handleMetricServerDelete;
    each_sections; apply each_locked; intros s; cbn; apply keeps_metrics;
    first [by apply keyed_insert|by apply keyed_alter|apply keyed_delete].
Qed.

Lemma ceph_routes_keep_wf : Forall (λ route, ∀ r, each (keeps wf) (route.2 r)) cephRoutes.
Proof.
  repeat constructor; intros r; cbn [snd];
    unfold handleCephPoolList, handleCephPoolCreate, handleCephPoolGet, handleCephPoolDelete, handleCephOSDList,
      handleCephOSDCreate, handleCephOSDDestroy, handleCephStatus, handleCephConfig;
    each_sections; apply each_locked; intros s; cbn; apply keeps_ceph;
    first [by apply keyed_insert|apply keyed_delete].
Qed.

Lemma wf_add_job form p : wf_pbs p → wf_pbs (add_job form p).
Proof.
  intros [Hj Hs]. unfold add_job. case_bool_decide; split; cbn; try done; try by apply keyed_insert.
  apply wrap64_ok.
Qed.

Lemma pbs_routes_keep_wf : Forall (λ route, ∀ r, each (keeps wf) (route.2 r)) pbsRoutes.
Proof.
  repeat constructor; intros r; cbn [snd];
    unfold handleBackupJobList, handleBackupJobCreate, handleBackupJobGet, handleBackupJobUpdate,
      handleBackupJobDelete, handleVzdump;
    each_sections; apply each_locked; intros s; cbn; apply keeps_pbs.
  - apply wf_add_job.
  - intros [? ?]. split; [by apply keyed_alter|done].
  - intros [? ?]. split; [by apply keyed_delete|done].
Qed.

Lemma each_mintVNCTicket node id dial : each (keeps wf) (mintVNCTicket node id dial).
Proof.
  unfold mintVNCTicket, synthUPID. each_sections. apply each_locked. intros s. cbn. apply keeps_console.
Qed.
Lemma each_termTicket node id : each (keeps wf) (termTicketPayload node id).
Proof. unfold termTicketPayload, synthUPID. each_sections. Qed.
#[export] Hint Resolve each_mintVNCTicket each_termTicket : sections.

Lemma console_routes_keep_wf : Forall (λ route, ∀ r, each (keeps wf) (route.2 r)) consoleRoutes.
Proof.
  repeat constructor; intros r; cbn [snd];
    unfold handleGuestVNCProxy, handleGuestSpiceProxy, handleGuestTermProxy, handleVNCWebSocket, handleNodeVNCShell,
      handleNodeTermProxy; each_sections.
Qed.
