(* ===== verification/MockWf.v ===== *)
(** The route table of the mock, and the invariant of its state under any
    interleaving of requests. *)

From S2P Require Import Prelude Json Monad MockState MockServer MockGuests MockQemu MockLxc MockStorage.
From S2P Require Import MockHa MockNodes MockCluster MockAccess MockFirewall MockSdn MockAdmin MockAcme MockMisc MockInv MockWfCore MockWfMgmt.
From Stdlib Require Import ZArith Lia.
From stdpp Require Import relations options.

(** ** The route table *)

(* go: proxmox/mockpve/server.go#Server.registerRoutes *)
Definition routes : list (string * (request → M response)) :=
  [("GET /api2/json/version", handleVersion);
   ("POST /api2/json/access/ticket", handleTicket);
   ("GET /api2/json/nodes/{node}/tasks/{upid}/status", handleTaskStatus);
   ("GET /api2/json/nodes/{node}/tasks/{upid}/log", handleTaskLog)] ++
  qemuRoutes ++ lxcRoutes ++ storageRoutes ++ haRoutes ++ nodeNetworkRoutes ++ nodeAdminRoutes ++ acmeRoutes ++
  nodeConfigRoutes ++ sdnRoutes ++ firewallRoutes ++ clusterRoutes ++ accessRoutes ++ metricsRoutes ++ cephRoutes ++
  pbsRoutes ++ consoleRoutes.

(** ** Every route keeps the invariant *)

Lemma server_routes_keep_wf r :
  each (keeps wf) (handleVersion r) ∧ each (keeps wf) (handleTicket r) ∧
  each (keeps wf) (handleTaskStatus r) ∧ each (keeps wf) (handleTaskLog r).
Proof.
  split_and!; unfold handleVersion, handleTicket, handleTaskStatus, handleTaskLog; each_sections.
  apply each_locked. intros s. cbn. keeps_if.
  apply keeps_tickets. by apply map_Forall_insert_2.
Qed.

Lemma routes_keep_wf : Forall (λ route, ∀ r, each (keeps wf) (route.2 r)) routes.
Proof.
  unfold routes. apply Forall_app_2; [repeat constructor; intros r; apply server_routes_keep_wf|].
  apply Forall_app_2; [apply qemu_routes_keep_wf|].
  apply Forall_app_2; [apply lxc_routes_keep_wf|].
  apply Forall_app_2; [apply storage_routes_keep_wf|].
  apply Forall_app_2; [apply ha_routes_keep_wf|].
  apply Forall_app_2; [apply node_routes_keep_wf|].
  apply Forall_app_2; [apply admin_routes_keep_wf|].
  apply Forall_app_2; [apply acme_routes_keep_wf|].
  apply Forall_app_2; [apply node_config_routes_keep_wf|].
  apply Forall_app_2; [apply sdn_routes_keep_wf|].
  apply Forall_app_2; [apply firewall_routes_keep_wf|].
  apply Forall_app_2; [apply cluster_routes_keep_wf|].
  apply Forall_app_2; [apply access_routes_keep_wf|].
  apply Forall_app_2; [apply metrics_routes_keep_wf|].
  apply Forall_app_2; [apply ceph_routes_keep_wf|].
  apply Forall_app_2; [apply pbs_routes_keep_wf|].
  apply console_routes_keep_wf.
Qed.

(** ** Requests in flight *)

(** The goroutines of a server: each one serves some request on some route, and
    may already have run some of its sections. *)
Definition serving (m : prog state (response + response)) : Prop :=
  ∃ pattern h r, (pattern, h) ∈ routes ∧ m = h r.

Lemma serving_keeps_wf ms : Forall serving ms → Forall (each (keeps wf)) ms.
Proof.
  intros H. eapply Forall_impl; [exact H|]. intros m (pattern & h & r & Hin & ->).
  pose proof routes_keep_wf as Hr. rewrite Forall_forall in Hr. apply (Hr _ Hin).
Qed.

(** C1. The state stays well formed under concurrency. Start any number of requests
    on any of the modelled routes and let the scheduler and the clock interleave
    their critical sections in any way: every state that is reached, between any
    two sections, satisfies the invariant of every component. *)
Theorem mock_invariant s (pool : list (prog state (response + response))) s' pool' :
  wf s → Forall serving pool → rtc (step tick) (s, pool) (s', pool') → wf s'.
Proof.
  intros Hwf Hpool Hsteps. apply (steps_each tick (keeps wf)) in Hsteps as [H _]; [by apply H| |].
  - intros s1 s2 [s0 now _]. apply keeps_clock.
  - by apply serving_keeps_wf.
Qed.
