(* ===== verification/MockLive.v ===== *)
(** Every request is answered: each handler finishes after at most six critical
    sections, so no schedule can run a pool of requests for longer than their
    number allows, and every response has one of two shapes. *)

From S2P Require Import Prelude Json Monad MockState MockServer MockGuests MockQemu MockLxc MockStorage.
From S2P Require Import MockHa MockNodes MockCluster MockAccess MockFirewall MockSdn MockAdmin MockAcme MockMisc.
From S2P Require Import MockInv MockWf.
From Stdlib Require Import ZArith Lia Ascii.
From stdpp Require Import relations options.

(** ** The shape of a response *)

(** The envelope of a success has no message; the envelope of a refusal has one
    and no data. *)
Definition accepted (resp : response) : Prop :=
  (code resp = 200%Z ∨ code resp = 101%Z) ∧ Message (body resp) = "" ∧ Errors (body resp) = ∅.
Definition refused (resp : response) : Prop :=
  (400 ≤ code resp < 600)%Z ∧ Message (body resp) ≠ "" ∧ Data (body resp) = None ∧ Errors (body resp) = ∅.
Definition shaped (resp : response) : Prop := accepted resp ∨ refused resp.

(** A step of a handler may end it with a shaped response. *)
Definition fine {A} (r : response + A) : Prop := match r with inl resp => shaped resp | inr _ => True end.
Definition fine_answer (r : response + response) : Prop := shaped (answer r).

Lemma shaped_refused status msg :
  (400 ≤ status < 600)%Z → msg ≠ "" →
  shaped {| code := status; body := {| Data := None; Message := msg; Errors := ∅ |} |}.
Proof. by right. Qed.

Lemma ends_writeError {A} (P : response + A → Prop) n status msg :
  P (inl {| code := status; body := {| Data := None; Message := msg; Errors := ∅ |} |}) →
  ends P n (writeError status msg : M A).
Proof. by constructor. Qed.

Lemma ends_done {A} n (a : A) : ends fine n (ok a : M A).
Proof. constructor. exact I. Qed.
Lemma ends_last {A} n (f : state → state * A) : ends fine (S n) (locked f : M A).
Proof. constructor. intros s. destruct (f s). constructor. exact I. Qed.

Lemma ends_writeData n v : ends fine_answer n (writeData v : M response).
Proof. constructor. left. split_and!; [by left|done..]. Qed.

(** A helper that ends after at most [h] sections. *)
Class Quick {A} (h : nat) (m : M A) : Prop := quick : ends fine h m.
#[export] Hint Mode Quick - - + : typeclass_instances.

Lemma ends_helper {A B} (P : response + B → Prop) h n (m : M A) (k : A → M B) :
  Quick h m → (∀ resp, shaped resp → P (inl resp)) → h ≤ n → (∀ a, ends P (n - h) (k a)) → ends P n (hbind m k).
Proof.
  intros Hm HP Hn Hk. replace n with (h + (n - h)) by lia. eapply ends_bind; [exact Hm|].
  intros [resp|a] Ha; [constructor; by apply HP|apply Hk].
Qed.

(** ** The helpers of the handlers *)

Ltac ends_error := apply ends_writeError; apply shaped_refused; [lia|discriminate].

Ltac head_of m := lazymatch m with ?f _ => head_of f | _ => m end.

Ltac ends_step :=
  lazymatch goal with
  | |- Quick _ _ => unfold Quick
  | |- writes _ _ _ => unfold writes
  | |- ends _ _ (hbind (Monad.guard _ _ _) _) => apply ends_guard
  | |- ends _ _ (hbind (some_or _ _ _) _) => apply ends_some_or; [intros ?|]
  | |- ends _ _ (hbind (parseForm _) _) => unfold parseForm
  | |- ends _ _ (hbind (vmidOf _) _) => unfold vmidOf
  | |- ends _ _ (hbind (locked _) _) => apply ends_locked; intros ?
  | |- ends _ _ (hbind (read _) _) => apply ends_locked; intros ?
  | |- ends _ _ (hbind (ok _) _) => apply ends_ok
  | |- ends _ _ (hbind (match ?x with _ => _ end) _) => destruct x
  | |- ends _ _ (hbind ?m _) =>
      eapply ends_helper; [apply _|by intros ? ?|lia|intros ?; cbn [Nat.sub]]
  | |- ends _ _ (let '(_, _) := ?x in _) => destruct x
  | |- ends _ _ (match ?x with _ => _ end) => destruct x
  | |- ends _ _ (let x := _ in _) => cbv zeta
  | |- ends _ _ (writeData _) => apply ends_writeData
  | |- ends _ _ (writeError _ _) => ends_error
  | |- ends _ _ (Monad.guard ?c _ _) => destruct c; cbn [Monad.guard]
  | |- ends _ _ (some_or ?o _ _) => destruct o; cbn [some_or]
  | |- ends _ _ (ok _) => apply ends_done
  | |- ends _ _ (locked _) => apply ends_last
  | |- ends _ _ ?m => let h := head_of m in unfold h
  end.
Ltac ends_all := intros; repeat ends_step.

#[export] Instance quick_locked {A} (f : state → state * A) : Quick 1 (locked f).
Proof. apply ends_last. Qed.
#[export] Instance quick_read {A} (f : state → A) : Quick 1 (read f).
Proof. apply quick_locked. Qed.
#[export] Instance quick_checkAuth r : Quick 1 (checkAuth r).
Proof. unfold checkAuth. ends_all. Qed.
#[export] Instance quick_finishedTask node ty id : Quick 3 (finishedTask node ty id).
Proof. unfold finishedTask, synthUPID. ends_all. Qed.
#[export] Instance quick_update_vm f node vmid : Quick 1 (update_vm f node vmid) := quick_locked _.
#[export] Instance quick_update_ct f node vmid : Quick 1 (update_ct f node vmid) := quick_locked _.
#[export] Instance quick_removeVM node vmid : Quick 1 (removeVM node vmid) := quick_locked _.
#[export] Instance quick_vmExists node vmid : Quick 1 (vmExists node vmid) := quick_locked _.
#[export] Instance quick_ctExists node vmid : Quick 1 (ctExists node vmid) := quick_locked _.
#[export] Instance quick_change_iface f node iface : Quick 1 (change_iface f node iface) := quick_locked _.
#[export] Instance quick_with_scope {A} key (f : fwScope → fwScope * A) : Quick 1 (with_scope key f) := quick_locked _.
#[export] Instance quick_read_scope {A} key (f : fwScope → A) : Quick 1 (read_scope key f) := quick_locked _.
#[export] Instance quick_snapshotTarget r : Quick 1 (snapshotTarget r).
Proof. unfold snapshotTarget. ends_all. Qed.
#[export] Instance quick_lxcSnapshotTarget r : Quick 1 (lxcSnapshotTarget r).
Proof. unfold lxcSnapshotTarget. ends_all. Qed.
#[export] Instance quick_agentVMExists r : Quick 1 (agentVMExists r).
Proof. unfold agentVMExists. ends_all. Qed.
#[export] Instance quick_termTicketPayload node id : Quick 1 (termTicketPayload node id).
Proof. unfold termTicketPayload, synthUPID. ends_all. Qed.
#[export] Instance quick_mintVNCTicket node id dial : Quick 2 (mintVNCTicket node id dial).
Proof. unfold mintVNCTicket, synthUPID. ends_all. Qed.

(** ** The handlers *)

(** Every handler of a route table finishes after at most [n] sections. *)
Definition bounded (n : nat) (table : list (string * (request → M response))) : Prop :=
  Forall (λ route, ∀ r, ends fine_answer n (route.2 r)) table.


(** The two formation handlers report the message of a section. *)
Lemma ends_or_bad_request {A} n (o : string + A) (k : A → M response) :
  match o with inl msg => msg ≠ "" | inr _ => True end → (∀ a, ends fine_answer n (k a)) →
  ends fine_answer n (hbind (or_bad_request o) k).
Proof.
  intros Ho Hk. destruct o as [msg|a]; [|apply Hk].
  constructor. apply shaped_refused; [lia|done].
Qed.

Lemma create_cluster_message name s : match (create_cluster name s).2 with inl msg => msg ≠ "" | inr _ => True end.
Proof. unfold create_cluster. by destruct (cl_clustered _). Qed.
Lemma join_cluster_message s : match (join_cluster s).2 with inl msg => msg ≠ "" | inr _ => True end.
Proof.
  unfold join_cluster. destruct (cl_clustered _); [|done]. cbn [negb].
  destruct (cl_joinQueue _); [done|]. by destruct (decide _).
Qed.

Ltac bounded_table := unfold bounded; repeat constructor; intros r; cbn [snd]; ends_all.

Lemma server_bounded r :
  ends fine_answer 6 (handleVersion r) ∧ ends fine_answer 6 (handleTicket r) ∧
  ends fine_answer 6 (handleTaskStatus r) ∧ ends fine_answer 6 (handleTaskLog r).
Proof. split_and!; ends_all. Qed.
Lemma qemu_bounded : bounded 6 qemuRoutes.
Proof. bounded_table. Qed.
Lemma lxc_bounded : bounded 6 lxcRoutes.
Proof. bounded_table. Qed.
Lemma storage_bounded : bounded 6 storageRoutes.
Proof. bounded_table. Qed.
Lemma ha_bounded : bounded 6 haRoutes.
Proof. bounded_table. Qed.
Lemma node_network_bounded : bounded 6 nodeNetworkRoutes.
Proof. bounded_table. Qed.
Lemma node_admin_bounded : bounded 6 nodeAdminRoutes.
Proof. bounded_table. Qed.
Lemma acme_bounded : bounded 6 acmeRoutes.
Proof. bounded_table. Qed.
Lemma node_config_bounded : bounded 6 nodeConfigRoutes.
Proof. bounded_table. Qed.
Lemma sdn_bounded : bounded 6 sdnRoutes.
Proof. bounded_table. Qed.
Lemma firewall_bounded : bounded 6 firewallRoutes.
Proof. bounded_table. Qed.
Lemma cluster_bounded : bounded 6 clusterRoutes.
Proof.
  bounded_table; (apply ends_or_bad_request; [apply create_cluster_message || apply join_cluster_message|ends_all]).
Qed.
Lemma access_bounded : bounded 6 accessRoutes.
Proof. bounded_table. Qed.
Lemma metrics_bounded : bounded 6 metricsRoutes.
Proof. bounded_table. Qed.
Lemma ceph_bounded : bounded 6 cephRoutes.
Proof. bounded_table. Qed.
Lemma pbs_bounded : bounded 6 pbsRoutes.
Proof. bounded_table. Qed.
Lemma console_bounded : bounded 6 consoleRoutes.
Proof. bounded_table; constructor; left; (split; [by right|done]). Qed.

Lemma routes_bounded : bounded 6 routes.
Proof.
  unfold bounded, routes. apply Forall_app_2.
  { repeat apply Forall_cons_2; [intros r; apply server_bounded..|apply Forall_nil_2]. }
  repeat (apply Forall_app_2;
    [first [apply qemu_bounded|apply lxc_bounded|apply storage_bounded|apply ha_bounded|apply node_network_bounded
    |apply node_admin_bounded|apply acme_bounded|apply node_config_bounded|apply sdn_bounded|apply firewall_bounded
    |apply cluster_bounded|apply access_bounded|apply metrics_bounded|apply ceph_bounded|apply pbs_bounded]|]).
  apply console_bounded.
Qed.

Lemma route_shaped pattern h r s : (pattern, h) ∈ routes → shaped (serve (h r) s).2.
Proof.
  intros Hin. pose proof routes_bounded as Hr. unfold bounded in Hr. rewrite Forall_forall in Hr.
  pose proof (ends_run _ _ _ s (Hr _ Hin r)) as Ha. cbn in Ha. unfold serve. by destruct (run (h r) s).
Qed.

Lemma serving_left_over pool :
  Forall serving pool → left_over fine_answer (replicate (length pool) 6) pool.
Proof.
  induction 1 as [|m pool (pattern & h & r & Hin & ->) _ IH]; cbn; constructor; [|done].
  pose proof routes_bounded as Hr. unfold bounded in Hr. rewrite Forall_forall in Hr. apply (Hr _ Hin r).
Qed.

Lemma sum_list_replicate n k : sum_list (replicate n k) = n * k.
Proof. induction n as [|n IH]; cbn; lia. Qed.

(** C28. Every request is answered. However the scheduler and the clock interleave
    the requests in flight, at most six critical sections run per request, and
    from every state of every such execution the scheduler can go on until each
    request has its response; each of these is a success without a message, or a
    refusal with a status between 400 and 599, a message and no data. *)
Theorem requests_answered s (pool : list (prog state (response + response))) k c :
  Forall serving pool → exec tick k (s, pool) c →
  k ≤ 6 * length pool ∧
  ∃ k' c', exec tick k' c c' ∧ k + k' ≤ 6 * length pool ∧
           Forall (λ m, ∃ r, outcome m = Some r ∧ shaped (answer r)) c'.2.
Proof.
  intros Hpool Hexec.
  destruct (exec_bound tick fine_answer k _ _ Hexec _ (serving_left_over pool Hpool)) as (ns & Hns & Hsum).
  rewrite sum_list_replicate in Hsum. split; [lia|].
  destruct (exec_finish tick fine_answer _ ns c eq_refl Hns) as (k' & c' & Hk & Hc').
  exists k', c'. split_and!; [done| |exact Hc'].
  destruct (exec_bound tick fine_answer k' _ _ Hk _ Hns) as (ns' & _ & ?). lia.
Qed.

Lemma requests_answered_witness :
  let r := {| Method := "GET"; URLPath := "/"; Authorization := "PVEAPIToken=a=b"; Cookie := None; Path := ∅; Query := ∅;
              BodyForm := Some ∅; BodyLen := 0; Multipart := None |} in
  let pool := [handleQEMUCreate r; handleVersion r] in
  ∃ k' c', exec tick k' (New 0, pool) c' ∧ k' ≤ 12 ∧
           Forall (λ m, ∃ r, outcome m = Some r ∧ shaped (answer r)) c'.2.
Proof.
  intros r pool. destruct (requests_answered (New 0) pool 0 (New 0, pool)) as (_ & k' & c' & Hk & Hle & Hc').
  - repeat apply Forall_cons_2; [..|apply Forall_nil_2].
    + exists "POST /api2/json/nodes/{node}/qemu", handleQEMUCreate, r. split; [|reflexivity].
      by apply (list_elem_of_lookup_2 routes 5).
    + exists "GET /api2/json/version", handleVersion, r. split; [|reflexivity].
      by apply (list_elem_of_lookup_2 routes 0).
  - constructor.
  - exists k', c'. split; [exact Hk|]. split; [cbn in Hle; lia|exact Hc'].
Defined.
