(* ===== verification/MockProofs.v ===== *)
(** What the mock's handlers do: authentication, the life of a task, create and
    read, migration, optimistic concurrency of the storage configuration, the HA
    switch, and what two racing requests can observe. *)

From S2P Require Import Prelude Json Monad MockState MockServer MockGuests MockQemu MockLxc MockStorage.
From S2P Require Import MockHa MockNodes MockCluster MockInv MockWfCore MockWfMgmt MockWf.
From Stdlib Require Import ZArith Lia Ascii.
From stdpp Require Import relations options.

(** ** Requests of the examples *)

Definition token_request (path : list (string * string)) (form : list (string * string)) : request := {|
  Method := "POST"; URLPath := "";
  Authorization := "PVEAPIToken=root@pam!ci=secret"; Cookie := None; Path := list_to_map path; Query := ∅;
  BodyForm := Some ((λ v, [v]) <$> list_to_map form); BodyLen := 0; Multipart := None
|}.

Definition vm_path : list (string * string) := [("node", "pve"); ("vmid", "100")].

(** A server with one stopped VM and one datastore. *)
Definition seeded : state :=
  AddStorage "local" "dir" "iso, images,iso" 100 10 (AddVM "pve" 100 "web" "stopped" (New 1752000000)).

Lemma wf_seeded : wf seeded.
Proof.
  apply keeps_storage; [apply wf_bump, map_Forall_insert_2; split_and!; try done; apply normalized_idem|].
  apply keeps_qemu; [apply wf_putGuest, wf_newGuest|apply wf_New].
Defined.

Lemma mock_invariant_witness :
  wf seeded ∧
  wf (sched [0; 1; 0; 1; 1; 0] (seeded, [handleQEMUDelete (token_request vm_path []);
                                         handleQEMUPower "start" (token_request vm_path [])])).1.
Proof.
  split; [exact wf_seeded|].
  refine (mock_invariant seeded [handleQEMUDelete (token_request vm_path []);
                                 handleQEMUPower "start" (token_request vm_path [])] _ _ wf_seeded _ _).
  - constructor; [|constructor; [|constructor]].
    + exists "DELETE /api2/json/nodes/{node}/qemu/{vmid}", handleQEMUDelete, (token_request vm_path []).
      split; [|reflexivity]. by apply (list_elem_of_lookup_2 _ 11).
    + exists ("POST /api2/json/nodes/{node}/qemu/{vmid}/status/" +:+ "start"), (handleQEMUPower "start"),
        (token_request vm_path []).
      split; [|reflexivity]. by apply (list_elem_of_lookup_2 _ 12).
  - rewrite <- surjective_pairing. apply sched_steps.
Defined.

(** ** Authentication *)

(** The credentials [checkAuth] accepts in a state. *)
Definition authenticated (s : state) (r : request) : bool :=
  token_auth (Authorization r) ||
  match Cookie r with Some ticket => bool_decide (is_Some (st_tickets s !! ticket)) | None => false end.

Definition unauthorized : response :=
  {| code := 401; body := {| Data := None; Message := "authentication failure"; Errors := ∅ |} |}.

Lemma run_checkAuth r s :
  run (checkAuth r) s = (s, if authenticated s r then inr () else inl unauthorized).
Proof.
  unfold checkAuth, authenticated. destruct (token_auth (Authorization r)); [done|]. cbn [orb].
  destruct (Cookie r) as [ticket|]; [|done]. autorewrite with run. by destruct (bool_decide _).
Qed.

Lemma serve_unauthenticated r s (k : () → handler state response) :
  authenticated s r = false → serve (checkAuth r ;* k ()) s = (s, unauthorized).
Proof. intros H. unfold serve. rewrite run_hbind, run_checkAuth, H. done. Qed.

(** C31. Nothing can be read or changed without authentication. On every modelled
    route but the one that mints tickets, a request with no well-formed API token
    and no live ticket cookie is answered 401, whatever else it contains, and the
    state is exactly what it was. *)
Theorem unauthenticated_refused pattern h r s :
  (pattern, h) ∈ routes → pattern ≠ "POST /api2/json/access/ticket" → authenticated s r = false →
  serve (h r) s = (s, unauthorized).
Proof.
  intros Hin Hpat Hauth.
  assert (Forall (λ route, route.1 ≠ "POST /api2/json/access/ticket" → ∃ k, route.2 r = (checkAuth r ;* k ())) routes) as Hall.
  { unfold routes, qemuRoutes, lxcRoutes. cbn [fmap list_fmap powerVerbs app storageRoutes haRoutes nodeNetworkRoutes clusterRoutes].
    repeat (apply Forall_cons; split); [..|constructor]; cbn [fst snd]; intros Hne;
      first [by destruct Hne|eexists (λ _, _); reflexivity]. }
  rewrite Forall_forall in Hall. destruct (Hall _ Hin Hpat) as [k Hk]. cbn in Hk. rewrite Hk.
  by apply serve_unauthenticated.
Qed.

Lemma unauthenticated_refused_witness :
  let r := {| Method := "DELETE"; URLPath := "/api2/json/nodes/pve/qemu/100";
              Authorization := "Bearer x"; Cookie := Some "mock-ticket-root@pam"; Path := list_to_map vm_path;
              Query := ∅; BodyForm := None; BodyLen := 0; Multipart := None |} in
  serve (handleQEMUDelete r) seeded = (seeded, unauthorized).
Proof.
  intros r. apply (unauthenticated_refused "DELETE /api2/json/nodes/{node}/qemu/{vmid}").
  - by apply (list_elem_of_lookup_2 _ 11).
  - discriminate.
  - vm_compute. reflexivity.
Defined.

(** ** Running handlers *)

Lemma run_authenticated {A} r s (k : () → handler state A) :
  authenticated s r = true → run (hbind (checkAuth r) k) s = run (k ()) s.
Proof. intros H. by rewrite run_hbind, run_checkAuth, H. Qed.

Ltac runs := repeat progress (autorewrite with run; cbn beta iota zeta).

(** The state [finishedTask] leaves, and the UPID it returns. *)
Definition with_task (node ty id : string) (s : state) : state :=
  FinishTask node (upid_at (st_clock s) node ty id) "OK"
    (AddTask node (upid_at (st_clock s) node ty id) ty id mockTaskUser [] s).

Lemma run_writeTask node ty id s :
  run (writeTask node ty id) s =
    (with_task node ty id s,
     inr {| code := 200; body := {| Data := Some (JStr (upid_at (st_clock s) node ty id)); Message := ""; Errors := ∅ |} |}).
Proof. unfold writeTask, finishedTask, synthUPID. by autorewrite with run. Qed.
#[export] Hint Rewrite run_writeTask : run.

Lemma lookup_with_task node ty id s :
  lookupTask (with_task node ty id s) node (upid_at (st_clock s) node ty id) =
    Some {| t_UPID := upid_at (st_clock s) node ty id; t_Node := node; t_Type := ty; t_ID := id; t_User := mockTaskUser;
            t_ExitStatus := "OK"; t_Stopped := true; t_StartTime := st_clock s; t_PID := 1000; t_Log := [] |}.
Proof.
  unfold lookupTask, with_task, FinishTask, AddTask. cbn.
  rewrite lookup_alter_eq, lookup_insert_eq. cbn. by rewrite lookup_alter_eq, lookup_insert_eq.
Qed.

(** ** Guests *)

Lemma lookup_putGuest node vmid rec g node' vmid' :
  lookupGuest (putGuest node vmid rec g) node' vmid' =
    if decide (node' = node ∧ vmid' = vmid) then Some rec else lookupGuest g node' vmid'.
Proof.
  unfold lookupGuest, putGuest. destruct (decide (node' = node)) as [->|Hn].
  - rewrite lookup_insert_eq. cbn. destruct (decide (vmid' = vmid)) as [->|Hv].
    + rewrite decide_True by done. by rewrite lookup_insert_eq.
    + rewrite decide_False by naive_solver. rewrite lookup_insert_ne by done. by destruct (g !! node).
  - rewrite decide_False by naive_solver. by rewrite lookup_insert_ne.
Qed.

Lemma lookup_removeGuest node vmid g node' vmid' :
  lookupGuest (removeGuest node vmid g) node' vmid' =
    if decide (node' = node ∧ vmid' = vmid) then None else lookupGuest g node' vmid'.
Proof.
  unfold lookupGuest, removeGuest. destruct (decide (node' = node)) as [->|Hn].
  - rewrite lookup_alter_eq. destruct (decide (vmid' = vmid)) as [->|Hv].
    + rewrite decide_True by done. destruct (g !! node); cbn; [apply lookup_delete_eq|done].
    + rewrite decide_False by naive_solver. destruct (g !! node); cbn; [by rewrite lookup_delete_ne|done].
  - rewrite decide_False by naive_solver. by rewrite lookup_alter_ne.
Qed.

Lemma lookup_updateGuest f node vmid g node' vmid' :
  lookupGuest (updateGuest f node vmid g) node' vmid' =
    if decide (node' = node ∧ vmid' = vmid) then f <$> lookupGuest g node' vmid' else lookupGuest g node' vmid'.
Proof.
  unfold lookupGuest, updateGuest. destruct (decide (node' = node)) as [->|Hn].
  - rewrite lookup_alter_eq. destruct (decide (vmid' = vmid)) as [->|Hv].
    + rewrite decide_True by done. destruct (g !! node); cbn; [apply lookup_alter_eq|done].
    + rewrite decide_False by naive_solver. destruct (g !! node); cbn; [by rewrite lookup_alter_ne|done].
  - rewrite decide_False by naive_solver. by rewrite lookup_alter_ne.
Qed.

(** A migration to another node moves the guest and nothing else: it appears
    under the target with its configuration and state, it is gone from the source,
    and every other guest of the cluster is where it was. *)
Theorem migrate_moves node target vmid g rec :
  lookupGuest g node vmid = Some rec → target ≠ node →
  lookupGuest (migrate node target vmid g) target vmid = Some (set_node target rec) ∧
  lookupGuest (migrate node target vmid g) node vmid = None ∧
  ∀ node' vmid', vmid' ≠ vmid ∨ (node' ≠ node ∧ node' ≠ target) →
    lookupGuest (migrate node target vmid g) node' vmid' = lookupGuest g node' vmid'.
Proof.
  intros Hrec Hne. unfold migrate. rewrite Hrec. split_and!.
  - rewrite lookup_removeGuest, decide_False by naive_solver. by rewrite lookup_putGuest, decide_True.
  - by rewrite lookup_removeGuest, decide_True.
  - intros node' vmid' H. by rewrite lookup_removeGuest, decide_False, lookup_putGuest, decide_False by naive_solver.
Qed.

Lemma migrate_moves_witness :
  lookupGuest (migrate "pve" "pve2" 100 (st_qemu seeded)) "pve2" 100 =
    Some (set_node "pve2" (newGuest "name" "pve" 100 "web" "stopped")) ∧
  lookupGuest (migrate "pve" "pve2" 100 (st_qemu seeded)) "pve" 100 = None.
Proof.
  edestruct (migrate_moves "pve" "pve2" 100 (st_qemu seeded)) as (H1 & H2 & _); [vm_compute; reflexivity|discriminate|].
  split; [exact H1|exact H2].
Defined.

(** A migration whose target is the node the guest is on destroys it: the
    handler answers 200 like for any other migration, and the guest is gone. *)
Theorem migrate_to_self_deletes s r form vmid rec s' resp :
  authenticated s r = true → atoi (PathValue r "vmid") = Some vmid → PostForm r = Some form →
  vget form "target" = PathValue r "node" → PathValue r "node" ≠ "" →
  lookupVM s (PathValue r "node") vmid = Some rec →
  serve (handleQEMUMigrate r) s = (s', resp) →
  code resp = 200%Z ∧ lookupVM s' (PathValue r "node") vmid = None.
Proof.
  intros Hauth Hvmid Hform Htarget Hne Hrec. unfold serve, handleQEMUMigrate.
  rewrite run_authenticated by done. unfold vmidOf, parseForm. rewrite Hvmid, Hform. runs.
  rewrite Htarget, bool_decide_eq_false_2 by done. cbn [negb]. rewrite Hrec. runs. intros [= <- <-]. split; [done|].
  unfold lookupVM, with_task. cbn. unfold migrate. unfold lookupVM in Hrec. rewrite Hrec.
  by rewrite lookup_removeGuest, decide_True.
Qed.

Lemma migrate_to_self_deletes_witness :
  let out := serve (handleQEMUMigrate (token_request vm_path [("target", "pve")])) seeded in
  code out.2 = 200%Z ∧ lookupVM out.1 "pve" 100 = None.
Proof.
  intros out. refine (migrate_to_self_deletes seeded (token_request vm_path [("target", "pve")]) _ 100 _ _ _ _ _ _ _ _ _ _);
    try (vm_compute; reflexivity).
  - vm_compute. discriminate.
Defined.

(** ** Configuration forms *)

Lemma lookup_config_delete del cfg k :
  config_delete del cfg !! k =
    if decide (del ≠ "" ∧ k ∈ trim_space <$> split_byte "," del) then None else cfg !! k.
Proof.
  unfold config_delete. case_bool_decide as Hdel; [by rewrite decide_False by naive_solver|].
  generalize (split_byte "," del). intros l. revert cfg. induction l as [|x l IH]; intros cfg; cbn [foldl].
  { rewrite decide_False; [done|]. intros [_ Hk]. by apply not_elem_of_nil in Hk. }
  rewrite IH, fmap_cons. destruct (decide (k = trim_space x)) as [->|Hne].
  - rewrite (decide_True (P := _ ∧ _ ∈ trim_space x :: _)) by (split; [done|by left]).
    case_decide; [done|apply lookup_delete_eq].
  - rewrite lookup_delete_ne by done. repeat case_decide; set_solver.
Qed.

Lemma lookup_config_sets form l cfg k :
  foldl (config_set form) cfg l !! k =
    if decide (k ≠ "delete" ∧ k ∈ l) then Some (parseConfigValue (vget form k)) else cfg !! k.
Proof.
  revert cfg. induction l as [|x l IH]; intros cfg; cbn [foldl].
  { rewrite decide_False; [done|]. intros [_ Hk]. by apply not_elem_of_nil in Hk. }
  rewrite IH. unfold config_set at 1. case_bool_decide as Hx.
  - repeat case_decide; set_solver.
  - destruct (decide (k = x)) as [->|Hne].
    + rewrite (decide_True (P := _ ∧ _ ∈ x :: _)) by set_solver. rewrite lookup_insert_eq. by case_decide.
    + rewrite lookup_insert_ne by done. repeat case_decide; set_solver.
Qed.

Lemma lookup_applyConfigForm form cfg k :
  applyConfigForm form cfg !! k =
    if decide (k ≠ "delete" ∧ is_Some (form !! k)) then Some (parseConfigValue (vget form k))
    else if decide (vget form "delete" ≠ "" ∧ k ∈ trim_space <$> split_byte "," (vget form "delete")) then None
    else cfg !! k.
Proof.
  unfold applyConfigForm. rewrite lookup_config_sets, lookup_config_delete.
  repeat case_decide; try done; rewrite elem_of_keys in *; naive_solver.
Qed.

(** What a configuration write leaves, key by key: a submitted key has the value
    submitted, an integer when it reads as one; a key named by [delete] and not
    submitted is gone; every other key keeps its value. The order in which the
    loop visits the form has no effect. *)
Theorem applyConfigForm_spec form cfg :
  (∀ k, applyConfigForm form cfg !! k =
    if decide (k ≠ "delete" ∧ is_Some (form !! k)) then Some (parseConfigValue (vget form k))
    else if decide (vget form "delete" ≠ "" ∧ k ∈ trim_space <$> split_byte "," (vget form "delete")) then None
    else cfg !! k) ∧
  ∀ order, order ≡ₚ keys form →
    foldl (config_set form) (config_delete (vget form "delete") cfg) order = applyConfigForm form cfg.
Proof.
  split; [apply lookup_applyConfigForm|]. intros order Hord. apply map_eq. intros k.
  unfold applyConfigForm. rewrite !lookup_config_sets. by repeat case_decide; rewrite Hord in *; naive_solver.
Qed.

(** A created VM reads back as created. On a server that accepts the request,
    the handler answers with a finished task; the VM is stopped, has the name
    given, and its configuration is exactly the form without [vmid] and [delete]
    over the name; every other guest is untouched. *)
Lemma create_then_read s r form vmid s' resp :
  authenticated s r = true → PostForm r = Some form → atoi (vget form "vmid") = Some vmid →
  serve (handleQEMUCreate r) s = (s', resp) →
  (∃ s0, st_clock s0 = st_clock s ∧ s' = with_task (PathValue r "node") "qmcreate" (vget form "vmid") s0) ∧
  resp = {| code := 200; body := {| Data := Some (JStr (upid_at (st_clock s) (PathValue r "node") "qmcreate" (vget form "vmid")));
                                    Message := ""; Errors := ∅ |} |} ∧
  (∃ rec, lookupVM s' (PathValue r "node") vmid = Some rec ∧ vm_Status rec = "stopped" ∧
    vm_Name rec = vget form "name" ∧ vm_Snapshots rec = ∅ ∧
    (vget form "delete" = "" →
     ∀ k, vm_Config rec !! k =
      if decide (k ≠ "delete" ∧ k ≠ "vmid" ∧ is_Some (form !! k)) then Some (parseConfigValue (vget form k)) else None)) ∧
  (∀ node' vmid', (node', vmid') ≠ (PathValue r "node", vmid) → lookupVM s' node' vmid' = lookupVM s node' vmid') ∧
  st_lxc s' = st_lxc s ∧ st_storage s' = st_storage s ∧ st_ha s' = st_ha s ∧ st_cluster s' = st_cluster s.
Proof.
  intros Hauth Hform Hvmid. unfold serve, handleQEMUCreate. rewrite run_authenticated by done.
  unfold parseForm, vmidOf, update_vm. rewrite Hform. runs. rewrite Hvmid. runs. intros [= <- <-].
  split; [eexists; split; [|reflexivity]; reflexivity|]. split; [done|]. unfold with_task, lookupVM. cbn. split; [|split; [|done]].
  - rewrite lookup_updateGuest, decide_True, lookup_putGuest, decide_True by done. cbn.
    eexists. split; [done|]. split_and!; [done..|]. intros Hdel k. cbn [vm_Config set_config newGuest].
    assert (∀ j, j ≠ "vmid" → vget (delete "vmid" form) j = vget form j) as Hget.
    { intros j Hj. unfold vget. by rewrite lookup_delete_ne. }
    rewrite lookup_applyConfigForm. rewrite (Hget "delete") by done. rewrite Hdel.
    rewrite (decide_False (P := "" ≠ "" ∧ _)) by naive_solver.
    destruct (decide (k = "vmid")) as [->|Hk].
    { rewrite lookup_delete_eq, !decide_False by (intros (? & ?); naive_solver || (destruct_and?; by destruct (is_Some_None))).
      unfold newGuest. cbn. case_bool_decide; [done|]. by rewrite lookup_singleton_ne. }
    rewrite lookup_delete_ne, Hget by done.
    destruct (decide (k ≠ "delete" ∧ is_Some (form !! k))) as [[? ?]|Hno].
    { by rewrite decide_True. }
    rewrite decide_False by naive_solver. unfold newGuest. cbn. case_bool_decide as Hname; [done|].
    rewrite lookup_singleton_ne; [done|]. intros <-. apply Hno. split; [done|].
    unfold vget in Hname. destruct (form !! "name"); [by eexists|done].
  - intros node' vmid' Hne.
    by rewrite lookup_updateGuest, decide_False, lookup_putGuest, decide_False by naive_solver.
Qed.


(** ** Races *)

(** A goroutine of a pool takes a step, or runs to its end while the others wait. *)
Lemma step_at {A} (E : state → state → Prop) s pre f (post : list (prog state A)) :
  step E (s, pre ++ Crit f :: post) ((f s).1, pre ++ (f s).2 :: post).
Proof.
  destruct (f s) as [s' m] eqn:Hf. cbn [fst snd].
  replace (pre ++ m :: post) with (<[length pre := m]> (pre ++ Crit f :: post)).
  - eapply step_section; [|exact Hf]. by rewrite lookup_app_r, Nat.sub_diag by lia.
  - by rewrite insert_app_r_alt, Nat.sub_diag by lia.
Qed.

Lemma solo_run {A} (E : state → state → Prop) (m : prog state A) s pre post :
  rtc (step E) (s, pre ++ m :: post) ((run m s).1, pre ++ Halt (run m s).2 :: post).
Proof.
  revert s. induction m as [a|f IH] using
    (fix rec m := match m as m return (∀ P : prog state A → Prop, (∀ a, P (Halt a)) →
       (∀ f, (∀ s, P (f s).2) → P (Crit f)) → P m) with
     | Halt a => λ P Ha _, Ha a
     | Crit f => λ P Ha Hf, Hf f (λ s, rec (f s).2 P Ha Hf) end); intros s; [done|].
  eapply rtc_l; [apply step_at|]. specialize (IH s (f s).1). cbn [run]. by destruct (f s).
Qed.

(** Copies of one program run one after the other, each in a state with [Q]. *)
Lemma solo_runs {A} (E : state → state → Prop) (m : prog state A) (P : A → Prop) (Q : state → Prop) n s pre post :
  Q s → (∀ s, Q s → Q (run m s).1 ∧ P (run m s).2) → ∃ s' answers,
    rtc (step E) (s, pre ++ replicate n m ++ post) (s', pre ++ (Halt <$> answers) ++ post) ∧
    length answers = n ∧ Forall P answers ∧ Q s'.
Proof.
  intros HQ Hm. revert s pre HQ. induction n as [|n IH]; intros s pre HQ; [by exists s, []|].
  destruct (Hm s HQ) as [HQ' HP]. destruct (IH (run m s).1 (pre ++ [Halt (run m s).2]) HQ') as (s' & l & Hl & <- & HF & HQs).
  exists s', ((run m s).2 :: l). split_and!; [|done|by constructor|done].
  etrans; [apply (solo_run E m s pre (replicate (length l) m ++ post))|].
  by rewrite <- !app_assoc in Hl.
Qed.

Lemma steps_length {A} (E : state → state → Prop) (c c' : state * list (prog state A)) :
  rtc (step E) c c' → length c'.2 = length c.2.
Proof. induction 1 as [|c c1 c2 H _ ->]; [done|]. destruct H; cbn; [by rewrite length_insert|done]. Qed.

Lemma tick_lookupVM s s' node vmid : tick s s' → lookupVM s' node vmid = lookupVM s node vmid.
Proof. by intros [? ? ?]. Qed.

Section delete.
Variables (node : string) (vmid : Z).

(** The phases of a DELETE of one VM: the check, the removal, the task. *)
Definition delete_task : M response := writeTask node "qmdestroy" (itoa vmid).
Definition delete_removal : M response := removeVM node vmid ;* delete_task.
Definition delete_check : M response :=
  let* exists_ := vmExists node vmid in Monad.guard exists_ 404 msgNoSuchVM ;* delete_removal.
Definition no_such_vm : response :=
  {| code := 404; body := {| Data := None; Message := msgNoSuchVM; Errors := ∅ |} |}.
Definition succeeds (a : response + response) : Prop := code (answer a) = 200%Z.
#[local] Instance succeeds_dec a : Decision (succeeds a).
Proof. unfold succeeds. apply _. Defined.

(** A DELETE of the VM by the holder of an API token. *)
Definition deletes (r : request) : Prop :=
  token_auth (Authorization r) = true ∧ PathValue r "node" = node ∧ atoi (PathValue r "vmid") = Some vmid.

Lemma deletes_check rs : Forall deletes rs → handleQEMUDelete <$> rs = replicate (length rs) delete_check.
Proof.
  induction 1 as [|r rs (Ht & Hn & Hv) _ IH]; [done|]. rewrite fmap_cons, IH. cbn [length replicate]. f_equal.
  unfold handleQEMUDelete, checkAuth, vmidOf. by rewrite Ht, Hn, Hv.
Qed.

Lemma check_section : ∃ f, delete_check = Crit f ∧ ∀ s,
  f s = (s, if bool_decide (is_Some (lookupVM s node vmid)) then delete_removal else Halt (inl no_such_vm)).
Proof. eexists. split; [reflexivity|]. intros s. cbn. by case_bool_decide. Qed.
Lemma removal_section : ∃ f, delete_removal = Crit f ∧ ∀ s, f s = (set_qemu (removeGuest node vmid) s, delete_task).
Proof. eexists. split; [reflexivity|]. done. Qed.

Lemma lookup_removed s node' vmid' :
  lookupVM (set_qemu (removeGuest node vmid) s) node' vmid' =
    if decide (node' = node ∧ vmid' = vmid) then None else lookupVM s node' vmid'.
Proof. apply lookup_removeGuest. Qed.

(** What is left of a DELETE that removed the VM leaves the guests alone, and ends well. *)
Definition same_qemu (s s' : state) : Prop := st_qemu s' = st_qemu s.
Definition finishing (m : M response) : Prop := each same_qemu m ∧ ∃ n, ends succeeds n m.

Lemma finishing_task : finishing delete_task.
Proof.
  split.
  - unfold delete_task, writeTask, finishedTask, synthUPID. each_sections; apply each_locked; done.
  - exists 3. unfold delete_task, writeTask, finishedTask, synthUPID. do 3 (constructor; intros ?). by constructor.
Qed.

Lemma finishing_step f s : finishing (Crit f) → st_qemu (f s).1 = st_qemu s ∧ finishing (f s).2.
Proof.
  intros [He [n Hn]]. inversion He as [|? H1 H2]; subst. inversion Hn as [|n' ? H3]; subst.
  split; [apply H1|]. split; [apply H2|]. by exists n'.
Qed.

(** The pool while it runs: the other guests are untouched, and either the VM is
    there and no DELETE is past its removal, or it is gone and one is. *)
Definition early (m : M response) : Prop := m = delete_check ∨ m = delete_removal.

Lemma early_not_finishing m : early m → finishing m → False.
Proof.
  intros [->| ->] [He [n Hn]].
  - apply (ends_run _ _ _ (New 0)) in Hn. by vm_compute in Hn.
  - destruct removal_section as (f & Hf & Hfs). rewrite Hf in He. inversion He as [|? H1 _]; subst.
    specialize (H1 (AddVM node vmid "" "" (New 0))). rewrite Hfs in H1. cbn [fst] in H1. unfold same_qemu in H1.
    pose proof (lookup_removed (AddVM node vmid "" "" (New 0)) node vmid) as Hl. rewrite decide_True in Hl by done.
    unfold lookupVM in Hl. rewrite H1 in Hl. cbn in Hl. by rewrite lookup_putGuest, decide_True in Hl.
Qed.

Definition others_kept (s0 s : state) : Prop :=
  ∀ node' vmid', (node', vmid') ≠ (node, vmid) → lookupVM s node' vmid' = lookupVM s0 node' vmid'.
Definition delete_inv (s0 : state) (c : state * list (M response)) : Prop :=
  others_kept s0 c.1 ∧ Forall (λ m, early m ∨ finishing m ∨ m = Halt (inl no_such_vm)) c.2 ∧
  (is_Some (lookupVM c.1 node vmid) ∧ Forall early c.2 ∨ lookupVM c.1 node vmid = None ∧ Exists finishing c.2).

(** One section of one DELETE, in each of its phases. *)
Lemma check_kept s0 s ms i :
  ms !! i = Some delete_check → delete_inv s0 (s, ms) →
  delete_inv s0 (s, <[i := if bool_decide (is_Some (lookupVM s node vmid)) then delete_removal
                           else Halt (inl no_such_vm)]> ms).
Proof.
  intros Hi (Ho & Hall & Hst). split_and!; cbn [fst snd] in *; [done|..].
  { apply Forall_insert; [done|]. case_bool_decide; [left; by right|by right; right]. }
  destruct Hst as [[Hs He]|[Hs He]]; [left|right]; (split; [done|]).
  - rewrite bool_decide_eq_true_2 by done. apply Forall_insert; [done|by right].
  - apply Exists_exists in He as (x & Hx & Hr). apply list_elem_of_lookup in Hx as [j Hj].
    apply Exists_exists. exists x. split; [|done]. apply list_elem_of_lookup. exists j.
    rewrite list_lookup_insert_ne; [done|]. intros <-. rewrite Hi in Hj. injection Hj as <-.
    exfalso. apply (early_not_finishing delete_check); [by left|done].
Qed.

Lemma removal_kept s0 s ms i :
  ms !! i = Some delete_removal → delete_inv s0 (s, ms) →
  delete_inv s0 (set_qemu (removeGuest node vmid) s, <[i := delete_task]> ms).
Proof.
  intros Hi (Ho & Hall & _). pose proof finishing_task. split_and!; cbn [fst snd] in *.
  - intros n v Hne. rewrite lookup_removed, decide_False by naive_solver. by apply Ho.
  - apply Forall_insert; [done|]. by right; left.
  - right. rewrite lookup_removed, decide_True by done. split; [done|]. apply Exists_exists. exists delete_task.
    split; [|done]. apply list_elem_of_lookup. exists i. apply list_lookup_insert_eq. by apply lookup_lt_Some in Hi.
Qed.

Lemma finishing_kept s0 s s' ms i m m' :
  ms !! i = Some m → finishing m → st_qemu s' = st_qemu s → finishing m' →
  delete_inv s0 (s, ms) → delete_inv s0 (s', <[i := m']> ms).
Proof.
  intros Hi Hm Hq Hm' (Ho & Hall & Hst). cbn [fst snd] in *.
  assert (∀ n v, lookupVM s' n v = lookupVM s n v) as Hlook by (intros; unfold lookupVM; by rewrite Hq).
  split_and!; cbn [fst snd].
  - intros n v Hne. rewrite Hlook. by apply Ho.
  - apply Forall_insert; [done|]. by right; left.
  - rewrite Hlook. destruct Hst as [[Hs He]|[Hs He]].
    + exfalso. by apply (early_not_finishing m); [apply (Forall_lookup_1 _ _ _ _ He Hi)|].
    + right. split; [done|]. apply Exists_exists. exists m'. split; [|done].
      apply list_elem_of_lookup. exists i. apply list_lookup_insert_eq. by apply lookup_lt_Some in Hi.
Qed.

Lemma delete_inv_step s0 c c' : step tick c c' → delete_inv s0 c → delete_inv s0 c'.
Proof.
  intros [s ms i f s' m Hi Hf|s s' ms Ht] Hinv.
  - pose proof Hinv as (_ & Hall & _). cbn in Hall.
    pose proof (Forall_lookup_1 _ _ _ _ Hall Hi) as [[Hm|Hm]|[Hm|Hm]]; [..|done].
    + destruct check_section as (g & Hg & Hgs). rewrite Hm in Hi. revert Hm. rewrite Hg. intros [= ->].
      rewrite Hgs in Hf. injection Hf as <- <-. by apply check_kept.
    + destruct removal_section as (g & Hg & Hgs). rewrite Hm in Hi. revert Hm. rewrite Hg. intros [= ->].
      rewrite Hgs in Hf. injection Hf as <- <-. by apply removal_kept.
    + destruct (finishing_step f s Hm) as [Hq Hr]. rewrite Hf in Hq, Hr. by eapply finishing_kept.
  - destruct Hinv as (Ho & Hall & Hst). cbn [fst snd] in *.
    split_and!; cbn [fst snd]; [|done|by rewrite (tick_lookupVM _ _ _ _ Ht)].
    intros n v Hne. rewrite (tick_lookupVM _ _ _ _ Ht). by apply Ho.
Qed.

Lemma delete_inv_steps s0 c c' : rtc (step tick) c c' → delete_inv s0 c → delete_inv s0 c'.
Proof. induction 1; [done|]. eauto using delete_inv_step. Qed.

(** The result of a DELETE in each phase, alone on the server. *)
Lemma run_removal s : lookupVM (run delete_removal s).1 node vmid = None ∧ succeeds (run delete_removal s).2.
Proof.
  unfold delete_removal, delete_task, removeVM. runs.
  split; [|done]. pose proof (lookup_removed s node vmid) as Hl. rewrite decide_True in Hl by done. exact Hl.
Qed.
Lemma run_check_absent s : lookupVM s node vmid = None → run delete_check s = (s, inl no_such_vm).
Proof. intros Hs. unfold delete_check, vmExists. runs. rewrite Hs. runs. done. Qed.

(** When the VM is there, any number of DELETEs can be past their check. *)
Lemma checks_pass k s pre post :
  is_Some (lookupVM s node vmid) →
  rtc (step tick) (s, pre ++ replicate k delete_check ++ post) (s, pre ++ replicate k delete_removal ++ post).
Proof.
  intros Hs. revert pre. induction k as [|k IH]; intros pre; [done|].
  destruct check_section as (f & Hf & Hfs).
  pose proof (step_at tick s pre f (replicate k delete_check ++ post)) as H1.
  rewrite <- Hf, Hfs in H1. cbn [fst snd] in H1. rewrite bool_decide_eq_true_2 in H1 by done.
  eapply rtc_l; [exact H1|]. specialize (IH (pre ++ [delete_removal])). by rewrite <- !app_assoc in IH.
Qed.

Lemma race_of k n s :
  is_Some (lookupVM s node vmid) → 1 ≤ k ≤ n →
  ∃ s' answers, rtc (step tick) (s, replicate n delete_check) (s', Halt <$> answers) ∧
    length (filter succeeds answers) = k.
Proof.
  intros Hs [Hk Hn]. destruct k as [|k]; [lia|]. replace n with (S k + (n - S k)) by lia.
  generalize (n - S k) as j. intros j. clear Hk Hn n.
  pose proof (checks_pass (S k) s [] (replicate j delete_check) Hs) as H1. rewrite replicate_add. cbn [app] in H1.
  destruct (run_removal s) as [Hgone Hok].
  pose proof (solo_run tick delete_removal s [] (replicate k delete_removal ++ replicate j delete_check)) as H2.
  destruct (solo_runs tick delete_removal succeeds (λ s, lookupVM s node vmid = None) k (run delete_removal s).1
    [Halt (run delete_removal s).2] (replicate j delete_check) Hgone) as (s2 & l2 & H3 & Hl2 & Hok2 & Hgone2).
  { intros ? _. apply run_removal. }
  destruct (solo_runs tick delete_check (eq (inl no_such_vm)) (λ s, lookupVM s node vmid = None) j s2
    (Halt <$> ((run delete_removal s).2 :: l2)) [] Hgone2) as (s3 & l3 & H4 & Hl3 & Hok3 & _).
  { intros ? ?. by rewrite run_check_absent. }
  exists s3, (((run delete_removal s).2 :: l2) ++ l3). split.
  - etrans; [exact H1|]. etrans; [exact H2|]. etrans; [exact H3|].
    rewrite !app_nil_r in H4. by rewrite fmap_app.
  - rewrite filter_app, length_app, (filter_all succeeds (_ :: l2)) by by constructor.
    rewrite (filter_none succeeds l3); [cbn; lia|]. eapply Forall_impl; [exact Hok3|]. by intros ? <-.
Qed.
End delete.

(** C38. Existence is checked in one critical section and removal done in another.
    For any state with the VM and any number of concurrent DELETEs of it by holders
    of an API token, whatever the interleaving and the clock: no other VM is
    touched, and once every request is answered the VM is gone, each answer is a
    successful destroy task or 404, and at least one reports success. But not only
    one: for every number from one to all of the requests there is an interleaving
    in which exactly that many are told that they destroyed the VM. *)
Theorem delete_race node vmid rs s :
  rs ≠ [] → Forall (deletes node vmid) rs → is_Some (lookupVM s node vmid) →
  (∀ s' ms, rtc (step tick) (s, handleQEMUDelete <$> rs) (s', ms) →
     (∀ node' vmid', (node', vmid') ≠ (node, vmid) → lookupVM s' node' vmid' = lookupVM s node' vmid') ∧
     ∀ answers, ms = Halt <$> answers →
       lookupVM s' node vmid = None ∧
       Forall (λ a, code (answer a) = 200%Z ∨ answer a = no_such_vm) answers ∧
       Exists (λ a, code (answer a) = 200%Z) answers) ∧
  (∀ k, 1 ≤ k ≤ length rs → ∃ s' answers,
     rtc (step tick) (s, handleQEMUDelete <$> rs) (s', Halt <$> answers) ∧
     length (filter (λ a, code (answer a) = 200%Z) answers) = k).
Proof.
  intros Hrs Hall Hs. rewrite (deletes_check node vmid rs Hall). split.
  - intros s' ms Hsteps. pose proof (steps_length _ _ _ Hsteps) as Hlen.
    apply (delete_inv_steps node vmid s) in Hsteps as (Ho & Hms & Hst).
    2: { split_and!; cbn; [done|by apply Forall_replicate; left; left|].
         left. split; [done|]. by apply Forall_replicate; left. }
    split; [exact Ho|]. intros answers ->. cbn [fst snd] in *.
    assert (∀ a : response + response, finishing (Halt a) → succeeds a) as Hfin.
    { intros a [_ [n Hn]]. by inversion Hn. }
    assert (∀ a : response + response, early node vmid (Halt a) → False) as Hearly by by intros a [?|?].
    rewrite Forall_fmap in Hms. destruct Hst as [[_ He]|[Hgone He]].
    { destruct answers as [|a answers]; [|by apply Forall_cons in He as [He _]; apply Hearly in He].
      by destruct rs. }
    split_and!; [done|..].
    + eapply Forall_impl; [exact Hms|]. intros a [H|[H|[= ->]]]; [by apply Hearly in H|left; by apply Hfin|by right].
    + rewrite Exists_fmap in He. eapply Exists_impl; [exact He|]. intros a Ha. by apply Hfin.
  - intros k Hk. destruct (race_of node vmid k (length rs) s Hs Hk) as (s' & l & Hl & Hn). by exists s', l.
Qed.

Lemma delete_race_witness :
  let del := token_request vm_path [] in
  ∃ s' answers, rtc (step tick) (seeded, [handleQEMUDelete del; handleQEMUDelete del]) (s', Halt <$> answers) ∧
    length (filter (λ a, code (answer a) = 200%Z) answers) = 2.
Proof.
  intros del. destruct (delete_race "pve" 100 [del; del] seeded) as [_ H].
  - discriminate.
  - repeat constructor; vm_compute; reflexivity.
  - by eexists.
  - exact (H 2 ltac:(cbn; lia)).
Defined.

(** ** The HA switch and the datacenter options *)

(** Disarming needs one of the two resource modes: with [freeze] or [ignore] the
    switch is off in that mode, with anything else the answer is 400 and nothing
    changes; arming always succeeds and forgets the mode. Neither touches any
    resource, rule or option. *)
Theorem ha_switch s r form :
  authenticated s r = true → PostForm r = Some form →
  let mode := vget form "resource-mode" in
  let disarmed := serve (handleHADisarm r) s in
  let armed := serve (handleHAArm r) s in
  (mode = "freeze" ∨ mode = "ignore" →
     code disarmed.2 = 200%Z ∧ disarmed.1 = set_ha (set_switch false mode) s) ∧
  (mode ≠ "freeze" → mode ≠ "ignore" → code disarmed.2 = 400%Z ∧ disarmed.1 = s) ∧
  code armed.2 = 200%Z ∧ armed.1 = set_ha (set_switch true "") s ∧
  haArmedState (st_ha armed.1) = "armed" ∧ (mode = "freeze" ∨ mode = "ignore" → haArmedState (st_ha disarmed.1) = "disarmed").
Proof.
  intros Hauth Hform. unfold serve, handleHADisarm, handleHAArm. cbn zeta.
  rewrite !run_authenticated by done. unfold parseForm. rewrite Hform. runs.
  destruct (decide (vget form "resource-mode" = "freeze" ∨ vget form "resource-mode" = "ignore")) as [Hm|Hm].
  - assert ((vget form "resource-mode" =s "freeze") || (vget form "resource-mode" =s "ignore") = true) as ->.
    { apply orb_true_iff. rewrite !bool_decide_eq_true. done. }
    runs. split_and!; naive_solver.
  - rewrite !bool_decide_eq_false_2 by naive_solver. runs. split_and!; naive_solver.
Qed.

Lemma ha_switch_witness :
  let r := token_request [] [("resource-mode", "freeze")] in
  (serve (handleHADisarm r) seeded).1 = set_ha (set_switch false "freeze") seeded.
Proof.
  intros r. destruct (ha_switch seeded r ((λ v, [v]) <$> list_to_map [("resource-mode", "freeze")])) as [H _];
    [vm_compute; reflexivity|reflexivity|].
  exact (proj2 (H (or_introl eq_refl))).
Defined.

(** What the loop over an options form leaves, in any order of its keys. *)
Lemma options_loop form l s :
  let s' := foldl (set_option form) s l in
  ha_crs (st_ha s') = (if decide ("crs" ∈ l) then match form !! "crs" with Some (v :: _) => v | _ => ha_crs (st_ha s) end
                       else ha_crs (st_ha s)) ∧
  ∀ k, cl_options (st_cluster s') !! k =
    if decide (k ∈ l ∧ k ≠ "crs") then match form !! k with Some (v :: _) => Some v | _ => cl_options (st_cluster s) !! k end
    else cl_options (st_cluster s) !! k.
Proof.
  cbn zeta. revert s. induction l as [|x l IH]; intros s; cbn [foldl].
  { split; [by rewrite decide_False by apply not_elem_of_nil|].
    intros k. rewrite decide_False; [done|]. intros [Hk _]. by apply not_elem_of_nil in Hk. }
  destruct (IH (set_option form s x)) as [-> Hopt]. split.
  - unfold set_option. destruct (form !! x) as [[|v vs]|] eqn:Ex;
      [| |]; repeat (case_decide || case_match || case_bool_decide); subst; cbn in *; simplify_eq; try done; set_solver.
  - intros k. rewrite Hopt. unfold set_option. destruct (form !! x) as [[|v vs]|] eqn:Ex.
    + destruct (decide (k = x)) as [->|]; [|repeat case_decide; try done; set_solver].
      rewrite Ex. by repeat case_decide.
    + case_bool_decide; cbn; [repeat case_decide; try done; set_solver|].
      destruct (decide (k = x)) as [->|].
      * rewrite lookup_insert_eq, Ex. repeat case_decide; try done; set_solver.
      * rewrite lookup_insert_ne by done. repeat case_decide; try done; set_solver.
    + destruct (decide (k = x)) as [->|]; [|repeat case_decide; try done; set_solver].
      rewrite Ex. by repeat case_decide.
Qed.

(** ** Volumes *)

Lemma volumes_put st node storage vols node' storage' :
  volumesOf (put_volumes node storage vols st) node' storage' =
    if decide (node' = node ∧ storage' = storage) then vols else volumesOf st node' storage'.
Proof.
  unfold volumesOf, put_volumes. cbn. destruct (decide (node' = node)) as [->|Hn].
  - rewrite lookup_insert_eq. cbn. destruct (decide (storage' = storage)) as [->|Hs].
    + rewrite decide_True by done. by rewrite lookup_insert_eq.
    + rewrite decide_False by naive_solver. rewrite lookup_insert_ne by done. by destruct (so_content st !! node).
  - rewrite decide_False by naive_solver. by rewrite lookup_insert_ne.
Qed.

(** Deleting a volume: when some volume of the storage has that identifier, all
    of them are gone, every other volume of the node and storage keeps its place
    in the listing, all other listings are unchanged and the answer is a finished
    task; otherwise the answer is 404 and the state is unchanged. *)
Theorem volume_delete s r s' resp :
  let node := PathValue r "node" in let storage := PathValue r "storage" in let volid := PathValue r "volid" in
  authenticated s r = true → serve (handleVolumeDelete r) s = (s', resp) →
  ((∃ v, v ∈ volumesOf (st_storage s) node storage ∧ v_Volid v = volid) ∧ code resp = 200%Z ∧
     volumesOf (st_storage s') node storage = filter (λ v, v_Volid v ≠ volid) (volumesOf (st_storage s) node storage) ∧
     ∀ node' storage', (node', storage') ≠ (node, storage) →
       volumesOf (st_storage s') node' storage' = volumesOf (st_storage s) node' storage') ∨
  ((∀ v, v ∈ volumesOf (st_storage s) node storage → v_Volid v ≠ volid) ∧ code resp = 404%Z ∧ s' = s).
Proof.
  intros node storage volid Hauth. unfold serve, handleVolumeDelete. rewrite run_authenticated by done. runs.
  fold node storage volid. unfold remove_volume.
  destruct (existsb _ (volumesOf (st_storage s) node storage)) eqn:E.
  - runs. intros [= <- <-]. left. split; [|split; [done|]].
    + apply existsb_exists in E as (v & Hv & Hid). apply list_elem_of_In in Hv.
      apply bool_decide_eq_true in Hid. eauto.
    + unfold with_task. cbn. split; [by rewrite volumes_put, decide_True|].
      intros node' storage' Hne. rewrite volumes_put, decide_False by naive_solver. done.
  - runs. intros [= <- <-]. right. split; [|done]. intros v Hv Hid. apply list_elem_of_In in Hv.
    assert (existsb (λ v, v_Volid v =s volid) (volumesOf (st_storage s) node storage) = true) as Ht; [|congruence].
    apply existsb_exists. exists v. split; [done|]. by apply bool_decide_eq_true.
Qed.

Lemma volume_delete_witness :
  let s := AddVolume "pve" "local" "local:iso/a.iso" "iso" "" 5 seeded in
  let r := token_request [("node", "pve"); ("storage", "local"); ("volid", "local:iso/a.iso")] [] in
  let out := serve (handleVolumeDelete r) s in
  code out.2 = 200%Z ∧ volumesOf (st_storage out.1) "pve" "local" = [].
Proof.
  intros s r out. destruct (volume_delete s r out.1 out.2) as [(_ & Hc & Hv & _)|(_ & Hc & _)].
  - vm_compute. reflexivity.
  - apply surjective_pairing.
  - split; [exact Hc|]. refine (eq_trans Hv _). vm_compute. reflexivity.
  - vm_compute in Hc. discriminate Hc.
Defined.

(** ** Datastores *)

Lemma applyStorageForm_comm rec k1 k2 v1 v2 :
  k1 ≠ k2 →
  applyStorageForm (applyStorageForm rec k1 v1) k2 v2 = applyStorageForm (applyStorageForm rec k2 v2) k1 v1.
Proof.
  intros Hne. unfold applyStorageForm.
  repeat case_bool_decide; subst; try done; cbn; unfold mk_store; cbn; try reflexivity.
  f_equal. by apply insert_insert_ne.
Qed.

(** The record a datastore write builds does not depend on the order in which
    the loop visits the submitted form, for the keys create skips and for those
    update skips. *)
Theorem storage_form_order skip form rec order :
  order ≡ₚ keys form →
  foldl (λ rec key, if decide (key ∈ skip) then rec else applyStorageForm rec key (vget form key)) rec order =
  apply_keys skip form rec.
Proof.
  intros Hord. apply foldl_order; [|rewrite Hord; apply NoDup_keys|done].
  intros b k1 k2 Hne _ _. repeat case_decide; try done. by apply applyStorageForm_comm.
Qed.

Lemma storage_form_order_witness :
  let form : values := {[ "content" := ["b,a"]; "nodes" := ["n2"]; "sparse" := ["1"] ]} in
  foldl (λ rec key, if decide (key ∈ ["storage"; "type"]) then rec else applyStorageForm rec key (vget form key))
    (new_store "s" "dir" ∅) (reverse (keys form)) = apply_keys ["storage"; "type"] form (new_store "s" "dir" ∅).
Proof. intros form. apply storage_form_order. apply reverse_Permutation. Defined.

(** Creating a datastore: a missing identifier or type, or an identifier in use,
    is refused with 400 and changes nothing; otherwise the datastore is there under
    its identifier and type, all others are unchanged, and the configuration
    digest is not the one before. *)
Theorem datastore_create s r form s' resp :
  wf s → authenticated s r = true → PostForm r = Some form → (so_cfgVersion (st_storage s) < max_int64)%Z →
  (0 ≤ so_cfgVersion (st_storage s))%Z →
  serve (handleDatastoreCreate r) s = (s', resp) →
  let id := vget form "storage" in
  (code resp = 400%Z ∧ s' = s ∧ (id = "" ∨ vget form "type" = "" ∨ is_Some (so_stores (st_storage s) !! id))) ∨
  (code resp = 200%Z ∧ so_stores (st_storage s) !! id = None ∧
   so_stores (st_storage s') = <[id := new_store id (vget form "type") form]> (so_stores (st_storage s)) ∧
   s_Storage (new_store id (vget form "type") form) = id ∧
   so_cfgDigest (st_storage s') ≠ so_cfgDigest (st_storage s)).
Proof.
  intros Hwf Hauth Hform Hmax Hpos. unfold serve, handleDatastoreCreate. rewrite run_authenticated by done.
  unfold parseForm. rewrite Hform. runs.
  destruct ((vget form "storage" =s "") || (vget form "type" =s "")) eqn:Hmiss; cbn [negb]; runs.
  { intros [= <- <-]. left. split_and!; [done..|].
    apply orb_prop in Hmiss as [?%bool_decide_eq_true|?%bool_decide_eq_true]; auto. }
  clear Hmiss. case_bool_decide as Hfresh; runs.
  - intros [= <- <-]. right. split_and!; [done..| |].
    + by destruct (wf_new_store (vget form "storage") (vget form "type") form) as (? & _).
    + cbn. destruct (wf_stores _ Hwf) as (_ & _ & Hok & Hdig). rewrite wrap64_succ by done.
      destruct Hdig as [->|[-> Hz]].
      * intros Heq%sprintf_040x_inj; lia.
      * rewrite Hz. vm_compute. discriminate.
  - intros [= <- <-]. left. split_and!; [done..|]. right. right. by apply not_eq_None_Some.
Qed.

Lemma datastore_create_witness :
  let form := [("storage", "zp"); ("type", "zfspool"); ("pool", "tank")] in
  let out := serve (handleDatastoreCreate (token_request [] form)) seeded in
  code out.2 = 200%Z ∧ so_cfgDigest (st_storage out.1) ≠ so_cfgDigest (st_storage seeded).
Proof.
  intros form out.
  destruct (datastore_create seeded (token_request [] form) ((λ v, [v]) <$> list_to_map form) out.1 out.2)
    as [(Hc & _)|(Hc & _ & _ & _ & Hd)].
  - exact wf_seeded.
  - vm_compute. reflexivity.
  - reflexivity.
  - vm_compute. reflexivity.
  - vm_compute. discriminate.
  - apply surjective_pairing.
  - vm_compute in Hc. discriminate Hc.
  - split; [exact Hc|exact Hd].
Defined.

(** ** Cluster formation *)

(** The names an orderly formation gives: create, then one join per queued node. *)
Fixpoint join_all (n : nat) (s : state) : state :=
  match n with 0 => s | S n => join_all n (join_cluster s).1 end.

(** Forming a cluster. From a node outside any cluster with distinct queued
    names, none its own, creating the cluster and serving one join per name leaves
    the members in order: the node itself first, then the names as queued, and an
    empty queue. A second creation is refused and changes nothing. *)
Theorem formation name s :
  let c := st_cluster s in
  cl_clustered c = false → NoDup (clusterSelf c :: cl_joinQueue c) →
  let s1 := (create_cluster name s).1 in
  let s2 := join_all (length (cl_joinQueue c)) s1 in
  cl_members (st_cluster s2) = clusterSelf c :: cl_joinQueue c ∧ cl_joinQueue (st_cluster s2) = [] ∧
  cl_clustered (st_cluster s2) = true ∧ cl_name (st_cluster s2) = name ∧
  ∀ other, create_cluster other s2 = (s2, inl "cluster config already exists").
Proof.
  intros c Hno Hnd. unfold create_cluster at 1. fold c. rewrite Hno. cbn [fst].
  set (s1 := set_cluster _ s).
  assert (∀ q done_ s0, cl_clustered (st_cluster s0) = true → cl_name (st_cluster s0) = name →
    cl_members (st_cluster s0) = done_ → cl_joinQueue (st_cluster s0) = q → NoDup (done_ ++ q) →
    let s2 := join_all (length q) s0 in
    cl_members (st_cluster s2) = done_ ++ q ∧ cl_joinQueue (st_cluster s2) = [] ∧
    cl_clustered (st_cluster s2) = true ∧ cl_name (st_cluster s2) = name) as Hjoin.
  { induction q as [|x q IH]; intros done_ s0 Hc Hn Hm Hq Hd; cbn [length join_all].
    { rewrite app_nil_r. done. }
    assert (x ∉ done_) as Hx by (apply NoDup_app in Hd as (_ & Hd & _); intros Hin; apply (Hd x Hin); by left).
    unfold join_cluster. rewrite Hc, Hq, Hm, decide_False by done. cbn [negb fst].
    destruct (IH (done_ ++ [x]) (set_cluster (set_membership true (cl_name (st_cluster s0)) (cl_selfNode (st_cluster s0))
      (done_ ++ [x]) q) s0)) as (-> & -> & -> & ->); try done.
    - by rewrite <- app_assoc.
    - by rewrite <- app_assoc. }
  destruct (Hjoin (cl_joinQueue c) [clusterSelf c] s1) as (Hm & Hq & Hc & Hn); try done.
  split_and!; [done..|]. intros other. unfold create_cluster. by rewrite Hc.
Qed.

Lemma formation_witness :
  let s := QueueClusterJoin "pve3" (QueueClusterJoin "pve2" seeded) in
  cl_members (st_cluster (join_all 2 (create_cluster "lab" s).1)) = ["pve"; "pve2"; "pve3"].
Proof.
  intros s. refine (proj1 (formation "lab" s _ _)); [reflexivity|].
  apply (bool_decide_eq_true_1 _). vm_compute. reflexivity.
Defined.
