(* ===== verification/MockMgmtProofs.v ===== *)
(** What the management handlers of the mock do: grants and revocations, the
    ordered firewall rules and the IP sets, deletion and re-creation in the SDN
    state, the certificate of a node's front end, the node configuration, console
    tickets, and the numbering of backup jobs. *)

From S2P Require Import Prelude Json Monad MockState MockServer MockAccess MockFirewall MockSdn MockAdmin MockAcme MockMisc.
From S2P Require Import MockInv MockWf MockProofs.
From Stdlib Require Import ZArith Lia Ascii.
From stdpp Require Import options.

(** Runs an authenticated handler whose form is known, down to its response. *)
Ltac handle h := unfold serve, h, with_scope; rewrite run_authenticated by done; unfold parseForm;
  repeat match goal with H : PostForm _ = Some _ |- _ => rewrite H end; runs.

Lemma run_writeData v (s : state) :
  run (writeData v) s = (s, inr {| code := 200; body := {| Data := v; Message := ""; Errors := ∅ |} |}).
Proof. done. Qed.
#[local] Hint Rewrite run_writeData : run.

(** ** Access control *)

(** The entries a grant adds, and whether an entry is one a revocation names. *)
Definition granted (path : string) (propagate : bool) (sr : aclSubject * string) : accessACLRecord :=
  {| ac_Path := path; ac_RoleID := sr.2; ac_Type := kind sr.1; ac_UGID := ugid sr.1; ac_Propagate := propagate |}.
Definition named (path : string) (pairs : list (aclSubject * string)) (a : accessACLRecord) : bool :=
  bool_decide (Exists (λ sr : aclSubject * string, acl_matches path (ugid sr.1) sr.2 a = true) pairs).

Lemma acl_grants propagate path acls pairs :
  foldl (acl_set_one false propagate path) acls pairs = acls ++ (granted path propagate <$> pairs).
Proof.
  revert acls. induction pairs as [|p pairs IH]; intros acls; cbn; [by rewrite app_nil_r|].
  by rewrite IH, <- app_assoc.
Qed.

Lemma acl_revokes propagate path acls pairs :
  foldl (acl_set_one true propagate path) acls pairs = filter (λ a, named path pairs a = false) acls.
Proof.
  revert acls. induction pairs as [|p pairs IH]; intros acls; cbn [foldl].
  - symmetry. apply filter_all, Forall_true. intros a. unfold named. apply bool_decide_eq_false. intros H. by apply Exists_nil in H.
  - rewrite IH. cbn [acl_set_one]. unfold removeACL. rewrite list_filter_filter. apply list_filter_iff. intros a.
    unfold named. rewrite !bool_decide_eq_false, Exists_cons. destruct (acl_matches _ _ _ a); naive_solver.
Qed.

Lemma granted_named path propagate pairs :
  Forall (λ a, ¬ named path pairs a = false) (granted path propagate <$> pairs).
Proof.
  apply Forall_fmap, Forall_forall. intros sr Hin. cbn. unfold named. rewrite bool_decide_eq_true_2; [done|].
  apply Exists_exists. exists sr. split; [done|]. unfold acl_matches, granted. cbn. by rewrite !bool_decide_eq_true_2.
Qed.

(** What a change of the access control list does. Unless path or roles are
    missing, which is refused without effect, a grant appends one entry for every
    subject and role of the form, subject by subject, and a revocation keeps
    exactly the entries, in their order, that no subject and role of the form
    names at that path; a revocation that follows a grant of the same form leaves
    what it would have left without it. Users, groups, roles and tokens are
    untouched. *)
Theorem acl_change s r form s' resp :
  authenticated s r = true → PostForm r = Some form → serve (handleACLSet r) s = (s', resp) →
  let path := vget form "path" in
  let pairs := acl_pairs (aclSubjects form) (splitCSV (vget form "roles")) in
  let acls := ac_acls (st_access s) in
  let acls' := if vget form "delete" =s "1" then filter (λ a, named path pairs a = false) acls
               else acls ++ (granted path (vget form "propagate" <>s "0") <$> pairs) in
  if decide (path = "" ∨ splitCSV (vget form "roles") = []) then code resp = 400%Z ∧ s' = s
  else code resp = 200%Z ∧ s' = set_access (set_ac_acls (λ _, acls')) s ∧
    filter (λ a, named path pairs a = false) acls' = filter (λ a, named path pairs a = false) acls.
Proof.
  intros Hauth Hform Hrun path pairs acls acls'. revert Hrun. handle handleACLSet. intros Hrun.
  assert (negb ((path =s "") || bool_decide (splitCSV (vget form "roles") = [])) =
    negb (bool_decide (path = "" ∨ splitCSV (vget form "roles") = []))) as Hg by (repeat case_bool_decide; naive_solver).
  fold path in Hrun. rewrite Hg in Hrun. destruct (decide (path = "" ∨ splitCSV (vget form "roles") = [])) as [Hbad|Hbad].
  { rewrite bool_decide_eq_true_2 in Hrun by done. by simplify_eq/=. }
  rewrite bool_decide_eq_false_2 in Hrun by done. cbn in Hrun. revert Hrun. runs. intros Hrun. simplify_eq/=.
  split_and!; [done| |subst acls'].
  - assert (acl_set form acls = acls') as <-; [|done]. unfold acl_set, acls'. fold path pairs.
    destruct (vget form "delete" =s "1"); [apply acl_revokes|apply acl_grants].
  - destruct (vget form "delete" =s "1"); [rewrite list_filter_filter; apply list_filter_iff; tauto|].
    rewrite filter_app, (filter_none _ (granted path _ <$> pairs)); [apply app_nil_r|apply granted_named].
Qed.

Lemma acl_change_witness :
  let form := {[ "path" := ["/vms"]; "roles" := ["PVEAdmin"]; "users" := ["ops@pve,dev@pve"] ]} in
  let r := {| Method := "PUT"; URLPath := ""; Authorization := "PVEAPIToken=a=b"; Cookie := None; Path := ∅; Query := ∅;
              BodyForm := Some form; BodyLen := 0; Multipart := None |} in
  length (ac_acls (st_access (serve (handleACLSet r) seeded).1)) = 2.
Proof.
  intros form r. pose proof (acl_change seeded r form (serve (handleACLSet r) seeded).1 (serve (handleACLSet r) seeded).2
    ltac:(vm_compute; reflexivity) eq_refl (surjective_pairing _)) as H.
  cbv zeta in H. rewrite decide_False in H by (vm_compute; intros [[=]|[=]]). destruct H as (_ & -> & _).
  vm_compute. reflexivity.
Defined.

(** ** Firewall rules *)









Lemma fwScopeLocked_insert key sc (fw : gmap string fwScope) : fwScopeLocked key (<[key := sc]> fw) = sc.
Proof. unfold fwScopeLocked, firewallState in *. by rewrite lookup_insert_eq. Qed.

(** A write to one scope: what it leaves of the firewall and of the rest. *)
Lemma scope_write key sc s :
  fwScopeLocked key (st_firewall (set_firewall <[key := sc]> s)) = sc ∧
  (∀ k, k ≠ key → st_firewall (set_firewall <[key := sc]> s) !! k = st_firewall s !! k) ∧
  set_firewall (λ _, st_firewall s) (set_firewall <[key := sc]> s) = s.
Proof.
  unfold firewallState. split_and!; [apply fwScopeLocked_insert| |by destruct s].
  intros k Hk. cbn. by apply lookup_insert_ne.
Qed.

Ltac scope_done :=
  match goal with |- context [set_firewall <[?k := ?sc]> ?s] => destruct (scope_write k sc s) as (-> & ? & ?) end.


(** A request of the examples: its path values and its form. *)
Definition sample (path form : list (string * string)) : request := token_request path form.


(** ** IP sets *)

Definition ipsets_of (key : string) (s : state) : gmap string fwIPSetRecord := fw_ipsets (fwScopeLocked key (st_firewall s)).

(** Renaming an IP set. To a different name, the set moves with its comment and
    entries, replacing a set that has that name; no other set changes. To its own
    name, the set is deleted, and the answer is still 200: the record is stored
    under the new name first and the old name is deleted afterwards. A set that
    does not exist is answered 404 and nothing changes. *)
Theorem ipset_rename s r form key s' resp :
  let old := vget form "rename" in
  let name := vget form "name" in
  authenticated s r = true → PostForm r = Some form → name ≠ "" → old ≠ "" →
  serve (fwIPSetCreate key r) s = (s', resp) →
  match ipsets_of (key r) s !! old with
  | None => code resp = 404%Z ∧ ipsets_of (key r) s' = ipsets_of (key r) s
  | Some rec => code resp = 200%Z ∧ ipsets_of (key r) s' !! old = None ∧
      (old ≠ name → ipsets_of (key r) s' !! name =
         Some {| fi_Name := name; fi_Comment := fi_Comment rec; fi_entries := fi_entries rec |}) ∧
      ∀ k, k ≠ old → k ≠ name → ipsets_of (key r) s' !! k = ipsets_of (key r) s !! k
  end.
Proof.
  intros old name Hauth Hform Hname Hold. subst old name. unfold ipsets_of. set (sc := fwScopeLocked (key r) (st_firewall s)).
  handle fwIPSetCreate. rewrite (bool_decide_eq_false_2 (vget form "name" = "")) by done. cbn [negb]. runs.
  rewrite (bool_decide_eq_false_2 (vget form "rename" = "")) by done. cbn [negb]. unfold fwRenameIPSet, with_scope. runs.
  fold sc. unfold rename_ipset. destruct (fw_ipsets sc !! vget form "rename") as [rec|] eqn:Hrec; intros [= <- <-]; scope_done;
    cbn [set_fw_ipsets fw_ipsets]; unfold rename_ipset; rewrite Hrec; [|done]. split_and!; [done|by rewrite lookup_delete_eq|..].
  - intros Hne. rewrite lookup_delete_ne by done. by rewrite lookup_insert_eq.
  - intros k Hk1 Hk2. by rewrite lookup_delete_ne, lookup_insert_ne.
Qed.

Lemma ipset_rename_witness :
  let s1 := (serve (fwIPSetCreate clusterKey (sample [] [("name", "blocked")])) seeded).1 in
  let out := serve (fwIPSetCreate clusterKey (sample [] [("name", "blocked"); ("rename", "blocked")])) s1 in
  ipsets_of "cluster" s1 !! "blocked" ≠ None ∧ code out.2 = 200%Z ∧ ipsets_of "cluster" out.1 !! "blocked" = None.
Proof.
  intros s1 out. split; [vm_compute; discriminate|].
  pose proof (ipset_rename s1 (sample [] [("name", "blocked"); ("rename", "blocked")])
    ((λ v, [v]) <$> list_to_map [("name", "blocked"); ("rename", "blocked")]) clusterKey out.1 out.2
    ltac:(vm_compute; reflexivity) eq_refl ltac:(vm_compute; discriminate) ltac:(vm_compute; discriminate)
    (surjective_pairing _)) as H.
  change (clusterKey (sample [] [("name", "blocked"); ("rename", "blocked")])) with "cluster" in H.
  change (vget _ "rename") with "blocked" in H.
  destruct (ipsets_of "cluster" s1 !! "blocked") as [rec|] eqn:He; [|vm_compute in He; discriminate].
  destruct H as (H1 & H2 & _). split; assumption.
Defined.

(** ** The SDN state *)

(** Deleting and re-creating. A fabric takes its membership with it: after
    DELETE and POST of one fabric id, in any state that has the fabric, the fabric
    has no member. A VNet does not take its subnets: after DELETE and POST of one
    VNet name, the new VNet has exactly the subnets of the old one. *)
Theorem sdn_recreate s name r1 r2 form :
  authenticated s r1 = true → token_auth (Authorization r2) = true → PostForm r2 = Some form → name ≠ "" →
  (PathValue r1 "fabric" = name → vget form "id" = name → is_Some (sd_fabrics (st_sdn s) !! name) →
   let s' := (serve (handleFabricCreate r2) (serve (handleFabricDelete r1) s).1).1 in
   is_Some (sd_fabrics (st_sdn s') !! name) ∧ ∀ node, lookupFabricNode s' name node = None) ∧
  (PathValue r1 "vnet" = name → vget form "vnet" = name → is_Some (sd_vnets (st_sdn s) !! name) →
   let s' := (serve (handleVNetCreate r2) (serve (handleVNetDelete r1) s).1).1 in
   is_Some (sd_vnets (st_sdn s') !! name) ∧ ∀ subnet, lookupSubnet s' name subnet = lookupSubnet s name subnet).
Proof.
  intros Hauth Htok Hform Hname.
  assert (∀ s0, authenticated s0 r2 = true) as Hauth2 by (intros s0; unfold authenticated; by rewrite Htok).
  split; intros Hp Hf [rec Hrec].
  - assert ((serve (handleFabricDelete r1) s).1 = set_sdn (delete_fabric name) s) as ->.
    { handle handleFabricDelete. by rewrite Hp, Hrec. }
    assert (∀ s0, ∃ rec, (serve (handleFabricCreate r2) s0).1 = set_sdn (set_fabrics <[name := rec]>) s0) as Hc.
    { intros s0. handle handleFabricCreate. rewrite Hf, bool_decide_eq_false_2 by done. by eexists. }
    destruct (Hc (set_sdn (delete_fabric name) s)) as [rec' ->]. unfold lookupFabricNode, lookup2, delete_fabric. cbn.
    rewrite Hrec. cbn. rewrite lookup_insert_eq, lookup_delete_eq. done.
  - assert ((serve (handleVNetDelete r1) s).1 = set_sdn (set_vnets (delete name)) s) as ->.
    { handle handleVNetDelete. by rewrite Hp, Hrec. }
    assert (∀ s0, ∃ rec, (serve (handleVNetCreate r2) s0).1 = set_sdn (set_vnets <[name := rec]>) s0) as Hc.
    { intros s0. handle handleVNetCreate. rewrite Hf, bool_decide_eq_false_2 by done. by eexists. }
    destruct (Hc (set_sdn (set_vnets (delete name)) s)) as [rec' ->]. cbn. by rewrite lookup_insert_eq.
Qed.

Lemma sdn_recreate_witness :
  let s := AddSubnet "net0" "10.0.0.0-24" (AddVNet "net0" "zone0" (New 0)) in
  let s' := (serve (handleVNetCreate (sample [] [("vnet", "net0")]))
              (serve (handleVNetDelete (sample [("vnet", "net0")] [])) s).1).1 in
  ss_Subnet <$> lookupSubnet s' "net0" "10.0.0.0-24" = Some "10.0.0.0-24".
Proof.
  intros s s'.
  pose proof (sdn_recreate s "net0" (sample [("vnet", "net0")] []) (sample [] [("vnet", "net0")])
    ((λ v, [v]) <$> list_to_map [("vnet", "net0")]) eq_refl eq_refl eq_refl ltac:(discriminate)) as [_ H].
  destruct H as [_ H]; [vm_compute; reflexivity|vm_compute; reflexivity|by eexists; vm_compute; reflexivity|].
  unfold s'. rewrite H. vm_compute. reflexivity.
Defined.

(** ** The front-end certificate of a node *)

Definition node_of (s : state) (node : string) : nodeState := ensureNode node (st_nodes s).

Lemma certsForNode_node s node : certsForNode s node = n_certs (node_of s node).
Proof. unfold certsForNode, node_of, of_node, ensureNode. by destruct (st_nodes s !! node). Qed.

Lemma node_of_update node f s : node_of (update_node node f s) node = f (node_of s node).
Proof. unfold node_of, update_node, ensureNode at 1. cbn. by rewrite lookup_insert_eq. Qed.

Lemma node_of_alter node f s :
  n_certs (f newNodeState) = [] → n_config (f newNodeState) = ∅ →
  let n := node_of (set_nodes (alter f node) s) node in
  n_certs n = n_certs (f (node_of s node)) ∧ n_config n = n_config (f (node_of s node)).
Proof. intros Hc Hg. unfold node_of, ensureNode. cbn. rewrite lookup_alter_eq. by destruct (st_nodes s !! node). Qed.

Lemma node_of_task node ty id s :
  n_certs (node_of (with_task node ty id s) node) = n_certs (node_of s node) ∧
  n_config (node_of (with_task node ty id s) node) = n_config (node_of s node).
Proof.
  unfold with_task, FinishTask. destruct (node_of_alter node (set_tasks (alter (stop "OK") (upid_at (st_clock s) node ty id)))
    (AddTask node (upid_at (st_clock s) node ty id) ty id mockTaskUser [] s)) as [-> ->]; [done..|].
  unfold AddTask, node_of, ensureNode. cbn. rewrite !lookup_insert_eq. done.
Qed.

(** The requests that write the front-end certificate. *)
Inductive certOp := AcmeOp (method : string) | UploadOp (pem : string) | RemoveOp.
Definition certHandler (op : certOp) : request → M response :=
  match op with AcmeOp _ => handleCertACME | UploadOp _ => handleCertUpload | RemoveOp => handleCertDelete end.
Definition cert_request (node : string) (op : certOp) (r : request) : Prop :=
  token_auth (Authorization r) = true ∧ PathValue r "node" = node ∧
  match op with
  | AcmeOp method => Method r = method
  | UploadOp pem => ∃ form, PostForm r = Some form ∧ vget form "certificates" = pem ∧ pem ≠ ""
  | RemoveOp => True
  end.

(** The certificate an operation leaves, given the names the node's configuration
    asks for. *)
Definition cert_left (node : string) (san : list string) (op : certOp) : list nodeCertRecord :=
  match op with
  | AcmeOp method => if method =s "DELETE" then [] else match san with [] => [] | _ => [acme_cert san] end
  | UploadOp pem => [custom_cert node pem]
  | RemoveOp => []
  end.

Lemma front_left l node san op :
  withoutFrontendCert (withoutFrontendCert l ++ cert_left node san op) = withoutFrontendCert l.
Proof.
  unfold withoutFrontendCert. rewrite filter_app, (filter_none _ (cert_left _ _ _)), app_nil_r.
  - rewrite list_filter_filter. apply list_filter_iff. tauto.
  - destruct op as [method| |]; cbn; repeat case_match; repeat constructor; naive_solver.
Qed.

Lemma cert_step s node op r :
  cert_request node op r →
  let s' := (serve (certHandler op r) s).1 in
  certsForNode s' node =
    withoutFrontendCert (certsForNode s node) ++ cert_left node (acmeSANs (node_of s node)) op ∧
  n_config (node_of s' node) = n_config (node_of s node).
Proof.
  intros (Htok & Hnode & Hop). assert (authenticated s r = true) as Hauth by (unfold authenticated; by rewrite Htok).
  destruct op as [method|pem|]; cbn [certHandler cert_left].
  - handle handleCertACME. rewrite Hnode, Hop. cbn [fst]. rewrite !certsForNode_node.
    destruct (node_of_task node "acmecert" (acmeCertVerb method) (update_node node (move_cert method) s)) as [-> ->].
    rewrite node_of_update. unfold move_cert. case_bool_decide; [by rewrite app_nil_r|].
    change (acmeSANs (set_certs withoutFrontendCert (node_of s node))) with (acmeSANs (node_of s node)).
    destruct (acmeSANs (node_of s node)); cbn; [by rewrite app_nil_r|done].
  - destruct Hop as (form & Hform & Hpem & Hne). handle handleCertUpload. rewrite Hnode, Hpem, bool_decide_eq_false_2 by done.
    cbn [negb]. runs. cbn [fst]. rewrite !certsForNode_node. by rewrite node_of_update.
  - handle handleCertDelete. rewrite Hnode. cbn [fst]. rewrite !certsForNode_node.
    destruct (node_of_alter node (set_certs withoutFrontendCert) s) as [-> ->]; [done..|]. by rewrite app_nil_r.
Qed.

(** The last write decides a node's front-end certificate. After any sequence of
    ACME orders, renewals and revocations, uploads and deletions on one node, its
    certificates are the others it had, in their order, and behind them what the
    last request alone determines: the certificate for the names its configuration
    asks for after an order or a renewal (none when it asks for none), the uploaded
    one after an upload, and none after a revocation or a deletion. The
    configuration is not changed. *)
Theorem cert_last_wins s node ops op r :
  Forall (λ x : certOp * request, cert_request node x.1 x.2) (ops ++ [(op, r)]) →
  let s' := foldl (λ s (x : certOp * request), (serve (certHandler x.1 x.2) s).1) s (ops ++ [(op, r)]) in
  certsForNode s' node = withoutFrontendCert (certsForNode s node) ++ cert_left node (acmeSANs (node_of s node)) op ∧
  n_config (node_of s' node) = n_config (node_of s node).
Proof.
  intros [Hops Hop]%Forall_app. apply Forall_cons in Hop as [Hop _]. rewrite foldl_app. cbn [foldl fst snd] in *.
  assert (∀ l, Forall (λ x : certOp * request, cert_request node x.1 x.2) l → ∀ s,
    let s' := foldl (λ s (x : certOp * request), (serve (certHandler x.1 x.2) s).1) s l in
    withoutFrontendCert (certsForNode s' node) = withoutFrontendCert (certsForNode s node) ∧
    n_config (node_of s' node) = n_config (node_of s node)) as Hall.
  { clear. induction 1 as [|[op r] l Hx _ IH]; intros s; [done|]. cbn [foldl fst snd] in *.
    destruct (IH (serve (certHandler op r) s).1) as [-> ->]. destruct (cert_step s node op r Hx) as [-> ->].
    split; [|done]. apply front_left. }
  destruct (Hall ops Hops s) as [Hw Hc]. cbv zeta in Hw, Hc.
  destruct (cert_step (foldl (λ s (x : certOp * request), (serve (certHandler x.1 x.2) s).1) s ops) node op r Hop)
    as [Hs' Hc']. rewrite Hs', Hw. split; [|by rewrite Hc', Hc]. unfold acmeSANs. by rewrite Hc.
Qed.

Lemma cert_last_wins_witness :
  let s := SetNodeConfigKey "pve" "acmedomain0" "domain=a.example,plugin=cf" (New 0) in
  let order := {| Method := "POST"; URLPath := ""; Authorization := "PVEAPIToken=a=b"; Cookie := None;
                  Path := {[ "node" := "pve" ]}; Query := ∅; BodyForm := Some ∅; BodyLen := 0; Multipart := None |} in
  let ops := [(UploadOp "PEM", sample [("node", "pve")] [("certificates", "PEM")])] ++ [(AcmeOp "POST", order)] in
  c_SAN <$> certsForNode (foldl (λ s x, (serve (certHandler x.1 x.2) s).1) s ops) "pve" = [["a.example"]].
Proof.
  intros s order ops.
  destruct (cert_last_wins s "pve" [(UploadOp "PEM", sample [("node", "pve")] [("certificates", "PEM")])]
    (AcmeOp "POST") order) as [H _].
  - repeat apply Forall_cons_2; [..|apply Forall_nil_2]; split_and!; try reflexivity.
    exists ((λ v, [v]) <$> list_to_map [("certificates", "PEM")]). split_and!; [reflexivity..|discriminate].
  - unfold ops. rewrite H. vm_compute. reflexivity.
Defined.

(** ** The configuration of a node *)

Lemma lookup_config_deletes keys (cfg : gmap string string) k :
  foldl (λ c key, delete (trim_space key) c) cfg keys !! k =
    if decide (k ∈ trim_space <$> keys) then None else cfg !! k.
Proof.
  revert cfg. induction keys as [|x keys IH]; intros cfg; cbn [foldl].
  { rewrite decide_False; [done|]. cbn. apply not_elem_of_nil. }
  rewrite IH, fmap_cons. destruct (decide (k = trim_space x)) as [->|Hne].
  - rewrite (decide_True (P := _ ∈ trim_space x :: _)) by (by left). case_decide; [done|apply lookup_delete_eq].
  - rewrite lookup_delete_ne by done. repeat case_decide; set_solver.
Qed.

(** The value a key of the form sets, if it does. *)
Definition submitted (form : values) (k : string) : option string :=
  if decide (k = "digest" ∨ k = "delete") then None else v ← form !! k; head v.

Lemma lookup_config_key form cfg x k :
  set_config_key form cfg x !! k = if decide (k = x ∧ is_Some (submitted form k)) then submitted form k else cfg !! k.
Proof.
  unfold set_config_key, submitted. destruct (decide (k = x)) as [->|Hne].
  - repeat case_bool_decide; subst; cbn [orb]; try (rewrite (decide_True (P := _ ∨ _)) by naive_solver);
      try (rewrite (decide_False (P := _ ∨ _)) by naive_solver); try (rewrite decide_False; [done|by intros [_ []%is_Some_None]]).
    destruct (form !! x) as [[|v vs]|]; cbn; try (rewrite decide_False; [done|by intros [_ []%is_Some_None]]).
    rewrite decide_True by (split; [done|by eexists]). apply lookup_insert_eq.
  - rewrite (decide_False (P := k = x ∧ _)) by naive_solver.
    destruct (_ || _); [done|]. destruct (form !! x) as [[|v vs]|]; [done|by rewrite lookup_insert_ne|done].
Qed.

Lemma lookup_config_keys form l cfg k :
  foldl (set_config_key form) cfg l !! k =
    if decide (k ∈ l ∧ is_Some (submitted form k)) then submitted form k else cfg !! k.
Proof.
  revert cfg. induction l as [|x l IH]; intros cfg; cbn [foldl].
  { rewrite decide_False; [done|]. intros [Hk _]. by apply not_elem_of_nil in Hk. }
  rewrite IH, lookup_config_key. repeat case_decide; set_solver.
Qed.

Lemma lookup_apply_node_config form cfg k :
  let del := vget form "delete" in
  apply_node_config form cfg !! k =
    match submitted form k with
    | Some v => Some v
    | None => if decide (del ≠ "" ∧ k ∈ trim_space <$> split_byte "," del) then None else cfg !! k
    end.
Proof.
  intros del. unfold apply_node_config. fold del. rewrite lookup_config_keys.
  destruct (submitted form k) as [v|] eqn:Hs.
  - rewrite decide_True; [done|]. split; [|done]. apply elem_of_keys. unfold submitted in Hs. case_decide; [done|].
    by destruct (form !! k).
  - rewrite decide_False by (by intros [_ []%is_Some_None]). case_bool_decide as Hd.
    + by rewrite decide_False by naive_solver.
    + rewrite lookup_config_deletes. repeat case_decide; naive_solver.
Qed.

(** What a write to a node's configuration leaves. With a digest that is not the
    current one the request is refused and changes nothing. Otherwise a submitted
    key, other than [digest] and [delete], has its first value; a key named by
    [delete] and not submitted is gone; every other key keeps its value; and the
    order in which the loop visits the form has no effect. *)
Theorem node_config_write s r form s' resp :
  let node := PathValue r "node" in
  let del := vget form "delete" in
  authenticated s r = true → PostForm r = Some form → serve (handleNodeConfigSet r) s = (s', resp) →
  if stale_digest form mockNodeConfigDigest then code resp = 400%Z ∧ s' = s
  else code resp = 200%Z ∧
    (∀ k, n_config (node_of s' node) !! k =
      match submitted form k with
      | Some v => Some v
      | None => if decide (del ≠ "" ∧ k ∈ trim_space <$> split_byte "," del) then None else n_config (node_of s node) !! k
      end) ∧
    ∀ order cfg, order ≡ₚ keys form → foldl (set_config_key form) cfg order = foldl (set_config_key form) cfg (keys form).
Proof.
  intros node del Hauth Hform. handle handleNodeConfigSet. destruct (stale_digest _ _); cbn [negb]; runs; intros [= <- <-]; [done|].
  split_and!; [done|..].
  - intros k. fold node. rewrite node_of_update. cbn [set_node_config n_config]. apply lookup_apply_node_config.
  - intros order cfg Hord. apply map_eq. intros k. rewrite !lookup_config_keys.
    by repeat case_decide; rewrite Hord in *; naive_solver.
Qed.

Lemma node_config_write_witness :
  let s := SetNodeConfigKey "pve" "acme" "account=default" (SetNodeConfigKey "pve" "wakeonlan" "x" (New 0)) in
  let r := sample [("node", "pve")] [("delete", "acme, wakeonlan"); ("acme", "account=other")] in
  let s' := (serve (handleNodeConfigSet r) s).1 in
  n_config (node_of s' "pve") !! "acme" = Some "account=other" ∧ n_config (node_of s' "pve") !! "wakeonlan" = None.
Proof.
  intros s r s'.
  pose proof (node_config_write s r ((λ v, [v]) <$> list_to_map [("delete", "acme, wakeonlan"); ("acme", "account=other")])
    s' (serve (handleNodeConfigSet r) s).2 eq_refl eq_refl (surjective_pairing _)) as H.
  cbv zeta in H. change (stale_digest _ _) with false in H. destruct H as (_ & H & _).
  change (PathValue r "node") with "pve" in H. split; rewrite H; vm_compute; reflexivity.
Defined.

(** ** Consoles *)

(** A console ticket opens its own console and no other. After a VNC ticket was
    minted for a guest (or for a node's shell), a later upgrade request that names
    the ticket is accepted at the path the ticket was minted for, is answered 401
    at any other path, and no upgrade without a known ticket is accepted. *)
Theorem vnc_ticket s s' node id dial r :
  (run (mintVNCTicket node id dial) s).1 = s' → authenticated s' r = true →
  code (serve (handleVNCWebSocket r) s').2 =
    match st_console s' !! vget (Query r) "vncticket" with
    | Some path => if decide (path = URLPath r) then 101%Z else 401%Z
    | None => 401%Z
    end ∧
  (vget (Query r) "vncticket" = "mock-vncticket-" +:+ node +:+ "-" +:+ id →
   code (serve (handleVNCWebSocket r) s').2 = if decide (dial = URLPath r) then 101%Z else 401%Z) ∧
  (serve (handleVNCWebSocket r) s').1 = s'.
Proof.
  intros Hmint Hauth.
  assert (serve (handleVNCWebSocket r) s' =
    (s', if decide (st_console s' !! vget (Query r) "vncticket" = Some (URLPath r)) then switchingProtocols
         else {| code := 401; body := {| Data := None; Message := msgBadVNCTicket; Errors := ∅ |} |})) as Hserve.
  { handle handleVNCWebSocket. case_bool_decide; case_decide; done. }
  assert (st_console s' !! ("mock-vncticket-" +:+ node +:+ "-" +:+ id) = Some dial) as Hticket.
  { rewrite <- Hmint. unfold mintVNCTicket, synthUPID. runs. cbn. apply lookup_insert_eq. }
  rewrite Hserve. cbn [fst snd]. split_and!; [| |done].
  - destruct (st_console s' !! _) as [path|]; repeat case_decide; naive_solver.
  - intros ->. rewrite Hticket. repeat case_decide; naive_solver.
Qed.

Lemma vnc_ticket_witness :
  let s' := (run (mintVNCTicket "pve" "qemu-100" "/dial") (New 0)).1 in
  let ask path := {| Method := "GET"; URLPath := path; Authorization := "PVEAPIToken=a=b"; Cookie := None; Path := ∅;
                     Query := {[ "vncticket" := ["mock-vncticket-pve-qemu-100"] ]}; BodyForm := Some ∅; BodyLen := 0; Multipart := None |} in
  code (serve (handleVNCWebSocket (ask "/dial")) s').2 = 101%Z ∧ code (serve (handleVNCWebSocket (ask "/other")) s').2 = 401%Z.
Proof.
  intros s' ask. split.
  - destruct (vnc_ticket (New 0) s' "pve" "qemu-100" "/dial" (ask "/dial") eq_refl eq_refl) as (_ & H & _).
    rewrite H by reflexivity. reflexivity.
  - destruct (vnc_ticket (New 0) s' "pve" "qemu-100" "/dial" (ask "/other") eq_refl eq_refl) as (_ & H & _).
    rewrite H by reflexivity. reflexivity.
Defined.

(** ** Backup jobs *)

(** A backup job created without an id takes the next number, whether or not a
    job has that id already: it replaces such a job. The counter advances by one
    and no other job changes. A job created with an id leaves the counter alone. *)
Theorem backup_job_numbering s r form s' resp :
  authenticated s r = true → PostForm r = Some form → vget form "storage" ≠ "" →
  int64_ok (pb_seq (st_pbs s)) = true → (pb_seq (st_pbs s) < max_int64)%Z →
  serve (handleBackupJobCreate r) s = (s', resp) →
  let auto := "backup-" +:+ itoa (pb_seq (st_pbs s) + 1) in
  let id := if decide (vget form "id" = "") then auto else vget form "id" in
  code resp = 200%Z ∧
  pb_seq (st_pbs s') = (pb_seq (st_pbs s) + (if decide (vget form "id" = "") then 1 else 0))%Z ∧
  (∃ job, pb_jobs (st_pbs s') !! id = Some job ∧ bj_ID job = id ∧ bj_Storage job = vget form "storage") ∧
  (∀ k, k ≠ id → pb_jobs (st_pbs s') !! k = pb_jobs (st_pbs s) !! k) ∧
  size (pb_jobs (st_pbs s')) =
    (if decide (is_Some (pb_jobs (st_pbs s) !! id)) then 0 else 1) + size (pb_jobs (st_pbs s)).
Proof.
  intros Hauth Hform Hst Hseq Hlt Hrun auto id. revert Hrun. handle handleBackupJobCreate.
  rewrite bool_decide_eq_false_2 by done. cbn [negb]. runs. intros [= <- <-].
  assert (∃ job, add_job form (st_pbs s) =
    set_jobs <[id := job]> (set_seq (λ _, pb_seq (st_pbs s) + (if decide (vget form "id" = "") then 1 else 0))%Z (st_pbs s)) ∧
    bj_ID job = id ∧ bj_Storage job = vget form "storage") as (job & Hadd & Hid & Hs).
  { unfold add_job, id, auto. case_bool_decide as He; [rewrite !decide_True by done|rewrite !decide_False by done].
    - rewrite wrap64_succ by done. eexists. split; [reflexivity|done].
    - rewrite Z.add_0_r. eexists. split; [by destruct (st_pbs s)|done]. }
  cbn. rewrite Hadd. cbn. split_and!; [done|done|exists job; by rewrite lookup_insert_eq|..].
  - intros k Hk. by rewrite lookup_insert_ne.
  - destruct (decide (is_Some _)) as [Hsome|Hnone].
    + by rewrite map_size_insert_Some.
    + rewrite map_size_insert_None; [lia|]. by apply eq_None_not_Some.
Qed.

Lemma backup_job_numbering_witness :
  let s := AddBackupJob "backup-1" "tank" "daily" (New 0) in
  let s' := (serve (handleBackupJobCreate (sample [] [("storage", "local")])) s).1 in
  size (pb_jobs (st_pbs s)) = 1 ∧ size (pb_jobs (st_pbs s')) = 1.
Proof.
  intros s s'. split; [vm_compute; reflexivity|].
  pose proof (backup_job_numbering s (sample [] [("storage", "local")]) ((λ v, [v]) <$> list_to_map [("storage", "local")]) s'
    (serve (handleBackupJobCreate (sample [] [("storage", "local")])) s).2 eq_refl eq_refl ltac:(vm_compute; discriminate)
    ltac:(vm_compute; reflexivity) ltac:(vm_compute; reflexivity) (surjective_pairing _)) as (_ & _ & _ & _ & H).
  rewrite H. vm_compute. reflexivity.
Defined.
