(* ===== verification/MockDigest.v ===== *)
(** Optimistic concurrency of the storage configuration: every critical section of
    every route leaves the configuration version alone or increments it, so a
    digest that has been superseded is never accepted again. *)

From S2P Require Import Prelude Json Monad MockState MockServer MockGuests MockQemu MockLxc MockStorage.
From S2P Require Import MockHa MockNodes MockCluster MockAccess MockFirewall MockSdn MockAdmin MockAcme MockMisc.
From S2P Require Import MockInv MockWfCore MockWfMgmt MockWf MockProofs.
From Stdlib Require Import ZArith Lia Ascii.
From stdpp Require Import relations options.

(** ** Optimistic concurrency of the storage configuration *)

(** What a section of any route does to the version: nothing, or one increment. *)
Definition bumps (s s' : state) : Prop :=
  so_cfgVersion (st_storage s') = so_cfgVersion (st_storage s) ∨
  so_cfgVersion (st_storage s') = wrap64 (so_cfgVersion (st_storage s) + 1).

#[export] Instance bumps_refl : Reflexive bumps.
Proof. by left. Qed.

Ltac bumps_case := intros s; cbn; repeat case_match; (by left) || (by right).

Lemma bumps_update_vm f node vmid : each bumps (update_vm f node vmid).
Proof. apply each_locked. bumps_case. Qed.
Lemma bumps_update_ct f node vmid : each bumps (update_ct f node vmid).
Proof. apply each_locked. bumps_case. Qed.
Lemma bumps_removeVM node vmid : each bumps (removeVM node vmid).
Proof. apply each_locked. bumps_case. Qed.
Lemma bumps_change_iface f node iface : each bumps (change_iface f node iface).
Proof. apply each_locked. bumps_case. Qed.
Lemma bumps_writeTask node ty id : each bumps (writeTask node ty id).
Proof. unfold writeTask, finishedTask, synthUPID. each_sections; apply each_locked; by left. Qed.
#[local] Hint Resolve bumps_update_vm bumps_update_ct bumps_removeVM bumps_change_iface bumps_writeTask : sections.

Lemma bumps_datastore_update id form : each bumps (locked (datastore_update id form)).
Proof. apply each_locked. intros s. unfold datastore_update. repeat case_match; (by left) || (by right). Qed.
Lemma bumps_remove_volume node storage volid : each bumps (locked (remove_volume node storage volid)).
Proof. apply each_locked. intros s. unfold remove_volume. cbn. case_match; by left. Qed.
Lemma bumps_create_cluster name : each bumps (locked (create_cluster name)).
Proof. apply each_locked. intros s. unfold create_cluster. case_match; by left. Qed.
Lemma bumps_join_cluster : each bumps (locked join_cluster).
Proof. apply each_locked. intros s. unfold join_cluster. repeat case_match; by left. Qed.
#[local] Hint Resolve bumps_datastore_update bumps_remove_volume bumps_create_cluster bumps_join_cluster : sections.

Lemma bumps_options form s l : bumps s (foldl (set_option form) s l).
Proof.
  left. revert s. induction l as [|k l IH]; intros s; [done|]. cbn. rewrite IH. unfold set_option. by repeat case_match.
Qed.

Lemma bumps_with_scope {A} key (f : fwScope → fwScope * A) : each bumps (with_scope key f).
Proof. apply each_locked. intros s. destruct (f _). by left. Qed.
Lemma bumps_read_scope {A} key (f : fwScope → A) : each bumps (read_scope key f).
Proof. apply bumps_with_scope. Qed.
Lemma bumps_mintVNCTicket node id dial : each bumps (mintVNCTicket node id dial).
Proof. unfold mintVNCTicket, synthUPID. each_sections. apply each_locked. bumps_case. Qed.
Lemma bumps_termTicket node id : each bumps (termTicketPayload node id).
Proof. unfold termTicketPayload, synthUPID. each_sections. Qed.
Lemma bumps_rename key old new : each bumps (fwRenameIPSet key old new).
Proof. unfold fwRenameIPSet. each_sections. apply bumps_with_scope. Qed.
#[local] Hint Resolve bumps_with_scope bumps_read_scope bumps_mintVNCTicket bumps_termTicket bumps_rename : sections.

(** A group of routes, handler by handler. *)
Ltac routes_bump :=
  repeat (apply Forall_cons; split); [..|constructor]; intros r; cbn [snd];
    match goal with |- each _ (?h _) => unfold h | |- each _ (?h _ _) => unfold h end; each_sections;
    apply each_locked; first [bumps_case|intros s; apply bumps_options].

Lemma core_routes_bump : Forall (λ route, ∀ r, each bumps (route.2 r))
  (qemuRoutes ++ lxcRoutes ++ storageRoutes ++ haRoutes ++ nodeNetworkRoutes).
Proof.
  unfold qemuRoutes, lxcRoutes. cbn [fmap list_fmap powerVerbs app storageRoutes haRoutes nodeNetworkRoutes]. routes_bump.
Qed.

Lemma mgmt_routes_bump : Forall (λ route, ∀ r, each bumps (route.2 r))
  (nodeAdminRoutes ++ acmeRoutes ++ nodeConfigRoutes ++ sdnRoutes ++ firewallRoutes ++ clusterRoutes ++ accessRoutes).
Proof.
  unfold firewallRoutes, fwGuestKinds.
  cbn [mbind list_bind app nodeAdminRoutes acmeRoutes nodeConfigRoutes sdnRoutes firewallScopeRoutes
       firewallIPSetScopeRoutes clusterRoutes accessRoutes]. routes_bump.
Qed.

Lemma misc_routes_bump : Forall (λ route, ∀ r, each bumps (route.2 r))
  (metricsRoutes ++ cephRoutes ++ pbsRoutes ++ consoleRoutes).
Proof.
  unfold consoleRoutes. cbn [mbind list_bind app metricsRoutes cephRoutes pbsRoutes]. routes_bump.
Qed.

Lemma routes_bump : Forall (λ route, ∀ r, each bumps (route.2 r)) routes.
Proof.
  unfold routes. apply Forall_app_2; [cbn [app]; routes_bump|].
  pose proof (Forall_app_2 _ _ _ core_routes_bump (Forall_app_2 _ _ _ mgmt_routes_bump misc_routes_bump)) as H.
  by rewrite <- !app_assoc in H.
Qed.

Lemma version_mono n s (pool : list (prog state (response + response))) s' pool' :
  nsteps (step tick) n (s, pool) (s', pool') → wf s → Forall serving pool →
  (so_cfgVersion (st_storage s) + Z.of_nat n ≤ max_int64)%Z →
  wf s' ∧ (so_cfgVersion (st_storage s) ≤ so_cfgVersion (st_storage s'))%Z.
Proof.
  intros Hsteps Hwf Hpool Hmax.
  assert (Forall (each bumps) pool) as Hb.
  { eapply Forall_impl; [exact Hpool|]. intros m (pattern & h & r & Hin & ->).
    pose proof routes_bump as Hr. rewrite Forall_forall in Hr. apply (Hr _ Hin). }
  apply serving_keeps_wf in Hpool. remember (s, pool) as c eqn:Hc. remember (s', pool') as c' eqn:Hc'.
  revert s pool Hc Hwf Hpool Hb Hmax.
  induction Hsteps as [c|n c c1 c2 Hstep _ IH]; intros s pool -> Hwf Hpool Hb Hmax; [simplify_eq; split; [done|lia]|].
  pose proof Hstep as Hstep2. destruct c1 as [s1 pool1].
  apply (step_each tick (keeps wf)) in Hstep as [Hwf1 Hpool1];
    [|by intros ? ? [? ? _]; apply keeps_clock|done].
  apply (step_each tick bumps) in Hstep2 as [Hb1 Hpoolb1]; [|by intros ? ? [? ? _]; left|done].
  cbn in *. specialize (Hwf1 Hwf).
  assert (so_cfgVersion (st_storage s) ≤ so_cfgVersion (st_storage s1) ≤ so_cfgVersion (st_storage s) + 1)%Z as Hv.
  { destruct Hb1 as [->|Hv]; [lia|]. destruct (wf_stores _ Hwf) as (_ & _ & Hok & _). rewrite wrap64_succ in Hv by (done || lia). lia. }
  destruct (IH Hc' s1 pool1 eq_refl Hwf1 Hpool1 Hpoolb1) as [Hwf' Hle]; [lia|]. split; [done|lia].
Qed.

(** C27. No lost update. Two writers read the storage configuration at one version
    and submit the same digest. Once the first update has gone through, then
    however many other requests run and interleave before it, the second is
    refused as stale and changes nothing, for as long as the 64-bit version
    counter has not been exhausted. *)
Theorem stale_update_refused n s s1 s2 pool pool' id id' form form' rec :
  wf s → (0 ≤ so_cfgVersion (st_storage s))%Z → vget form "digest" ≠ "" → vget form' "digest" = vget form "digest" →
  datastore_update id form s = (s1, Updated rec) →
  Forall serving pool → nsteps (step tick) n (s1, pool) (s2, pool') →
  (so_cfgVersion (st_storage s) + 1 + Z.of_nat n ≤ max_int64)%Z →
  (datastore_update id' form' s2 = (s2, Stale) ∨ datastore_update id' form' s2 = (s2, NoStore)).
Proof.
  intros Hwf Hpos Hne Hsame Hupd Hpool Hsteps Hmax.
  assert (wf s1) as Hwf1.
  { pose proof (each_datastore_update id form) as He. apply each_run with (s := s) in He; [|apply _].
    rewrite run_locked, Hupd in He. by apply He. }
  unfold datastore_update in Hupd. destruct (so_stores (st_storage s) !! id) as [old|] eqn:Hold; [|done].
  case_match eqn:Hd; [done|]. injection Hupd as <- _.
  rewrite (bool_decide_eq_false_2 (vget form "digest" = "")) in Hd by done. cbn in Hd.
  apply negb_false_iff, bool_decide_eq_true in Hd.
  destruct (wf_stores _ Hwf) as (_ & _ & Hok & Hdig). unfold max_int64 in Hmax.
  assert (so_cfgDigest (st_storage s) = sprintf_040x (so_cfgVersion (st_storage s))) as Hdigest.
  { destruct Hdig as [?|[? ?]]; [done|congruence]. }
  apply version_mono in Hsteps as [Hwf2 Hle]; [|done|done|]; cbn in *; rewrite wrap64_succ in * by (done || unfold max_int64; lia);
    [|unfold max_int64; lia].
  destruct (wf_stores _ Hwf2) as (_ & _ & _ & Hdig2).
  unfold datastore_update. destruct (so_stores (st_storage s2) !! id') as [rec'|]; [|by right]. left.
  rewrite Hsame, (bool_decide_eq_false_2 (vget form "digest" = "")), (bool_decide_eq_false_2 (vget form "digest" = _)); [done| |done].
  rewrite Hd, Hdigest. destruct Hdig2 as [->|[-> Hz]]; [|lia].
  intros Heq%sprintf_040x_inj; lia.
Qed.

Definition digest_form : values := {[ "digest" := [sprintf_040x 1]; "content" := ["backup"] ]}.

Lemma stale_update_refused_witness :
  let first := datastore_update "local" digest_form seeded in
  (∃ rec, first.2 = Updated rec) ∧
  (datastore_update "local" digest_form first.1 = (first.1, Stale) ∨
   datastore_update "local" digest_form first.1 = (first.1, NoStore)).
Proof.
  intros first. split; [eexists; vm_compute; reflexivity|].
  refine (stale_update_refused 0 seeded first.1 first.1 [] [] "local" "local" digest_form digest_form
    (update_store digest_form (default (new_store "" "" ∅) (so_stores (st_storage seeded) !! "local"))) wf_seeded _ _ _ _ _ _ _).
  - vm_compute. discriminate.
  - vm_compute. discriminate.
  - reflexivity.
  - vm_compute. reflexivity.
  - constructor.
  - constructor.
  - vm_compute. discriminate.
Defined.
