(* ===== verification/MockWeb.v ===== *)
(** The mock as a web server, and the SDK's client over it: how a request target
    selects a handler, that no two routes can serve one request, and what the
    client reads of any response. The client of this file sends the form text that
    [formEncode] writes, the server parses it with [ParseForm], and the client reads
    the envelope, from its JSON text, with the transport's [readResponse]; the
    connection between them is reliable and the credentials are a token. *)

From S2P Require Import Prelude Json JsonText Pverr Api Url Wire Transport Tasks Svcutil Monad MockState MockServer MockQemu MockInv MockWf MockLive MockProofs.
From Stdlib Require Import ZArith Lia Ascii.
From stdpp Require Import options.

(** ** Routing *)

(** A pattern segment in braces is a wildcard and matches any non-empty segment. *)
Definition wildcard (p : string) : option string :=
  match p with String "{" name => Some (String.substring 0 (String.length name - 1) name) | _ => None end.

Fixpoint match_segments (ps ss : list string) : option (list (string * string)) :=
  match ps, ss with
  | [], [] => Some []
  | p :: ps, s :: ss =>
      match wildcard p with
      | Some name => if s =s "" then None else cons (name, s) <$> match_segments ps ss
      | None => if p =s s then match_segments ps ss else None
      end
  | _, _ => None
  end.

(** The method and the segments of a ServeMux pattern. *)
Definition parse_pattern (pattern : string) : string * list string :=
  match cut_byte " " pattern with
  | Some (method, path) => (method, split_byte "/" path)
  | None => ("", split_byte "/" pattern)
  end.

Definition match_route (method : string) (ss : list string) (pattern : string) : option (list (string * string)) :=
  if (parse_pattern pattern).1 =s method then match_segments (parse_pattern pattern).2 ss else None.

(** The first route that matches. *)
Fixpoint find_route (rs : list (string * (request → M response))) (method : string) (ss : list string) :
    option ((request → M response) * list (string * string)) :=
  match rs with
  | [] => None
  | (pattern, h) :: rs =>
      match match_route method ss pattern with
      | Some path => Some (h, path)
      | None => find_route rs method ss
      end
  end.

(** Two patterns that some request could match both. *)
Fixpoint overlap_segments (ps qs : list string) : bool :=
  match ps, qs with
  | [], [] => true
  | p :: ps, q :: qs =>
      match wildcard p, wildcard q with
      | None, None => (p =s q) && overlap_segments ps qs
      | _, _ => overlap_segments ps qs
      end
  | _, _ => false
  end.
Definition overlap (p q : string) : bool :=
  ((parse_pattern p).1 =s (parse_pattern q).1) && overlap_segments (parse_pattern p).2 (parse_pattern q).2.

Fixpoint disjoint_routes (ps : list string) : bool :=
  match ps with
  | [] => true
  | p :: ps => forallb (λ q, negb (overlap p q)) ps && disjoint_routes ps
  end.

Lemma overlap_segments_sound ps qs ss x y :
  match_segments ps ss = Some x → match_segments qs ss = Some y → overlap_segments ps qs = true.
Proof.
  revert qs ss x y. induction ps as [|p ps IH]; intros qs ss x y; destruct qs as [|q qs], ss as [|s ss]; cbn; try done.
  destruct (wildcard p), (wildcard q); repeat case_bool_decide; subst; try done; intros Hx Hy;
    repeat match goal with H : _ <$> _ = Some _ |- _ => apply fmap_Some in H as (? & ? & ->) end; cbn; eauto.
Qed.

Lemma overlap_sound method ss p q x y :
  match_route method ss p = Some x → match_route method ss q = Some y → overlap p q = true.
Proof.
  unfold match_route, overlap. case_bool_decide as Hp; [|done]. case_bool_decide as Hq; [|done].
  intros Hx Hy. rewrite bool_decide_eq_true_2 by congruence. by eapply overlap_segments_sound.
Qed.

Lemma overlap_sym_false p q method ss x y :
  match_route method ss p = Some x → match_route method ss q = Some y → negb (overlap p q) = false.
Proof. intros Hp Hq. by rewrite (overlap_sound _ _ _ _ _ _ Hp Hq). Qed.

Lemma disjoint_lookup ps i j p q method ss x y :
  disjoint_routes ps = true → ps !! i = Some p → ps !! j = Some q →
  match_route method ss p = Some x → match_route method ss q = Some y → i = j.
Proof.
  revert i j. induction ps as [|p0 ps IH]; intros i j Hd Hi Hj Hx Hy; [done|].
  cbn in Hd. apply andb_prop in Hd as [Hf Hd]. rewrite forallb_forall in Hf.
  assert (∀ k r, ps !! k = Some r → negb (overlap p0 r) = true) as Hk.
  { intros k r Hr. apply Hf, list_elem_of_In. by eapply list_elem_of_lookup_2. }
  destruct i as [|i], j as [|j]; cbn in *; simplify_eq.
  - done.
  - specialize (Hk _ _ Hj). by rewrite (overlap_sym_false _ _ _ _ _ _ Hx Hy) in Hk.
  - specialize (Hk _ _ Hi). by rewrite (overlap_sym_false _ _ _ _ _ _ Hy Hx) in Hk.
  - f_equal. by eapply IH.
Qed.

Lemma routes_disjoint : disjoint_routes routes.*1 = true.
Proof. vm_compute. reflexivity. Qed.

Lemma find_route_at i method ss p h path rs :
  disjoint_routes rs.*1 = true → rs !! i = Some (p, h) → match_route method ss p = Some path →
  find_route rs method ss = Some (h, path).
Proof.
  revert i. induction rs as [|[p0 h0] rs IH]; intros i Hd Hi Hm; [done|]. cbn [find_route].
  destruct i as [|i]; cbn in Hi; simplify_eq; [by rewrite Hm|].
  destruct (match_route method ss p0) as [x|] eqn:H0.
  - assert (rs.*1 !! i = Some p) as Hlook by (rewrite list_lookup_fmap; by destruct (rs !! i) as [[? ?]|] eqn:E; rewrite ?E in Hi; simplify_eq).
    pose proof (disjoint_lookup ((p0, h0) :: rs).*1 0 (S i) p0 p method ss x path Hd eq_refl Hlook H0 Hm). done.
  - apply (IH i); [|done..]. cbn in Hd. by apply andb_prop in Hd as [_ ?].
Qed.

Lemma find_route_sound rs method ss h path :
  find_route rs method ss = Some (h, path) → ∃ p, (p, h) ∈ rs ∧ match_route method ss p = Some path.
Proof.
  induction rs as [|[p0 h0] rs IH]; [done|]. cbn [find_route]. destruct (match_route method ss p0) eqn:E.
  - intros [= <- <-]. exists p0. split; [left|done].
  - intros (p & ? & ?)%IH. exists p. split; [by right|done].
Qed.

(** The route table is unambiguous: a request is served by a handler, with the
    path values it reads, exactly when some modelled pattern registered for that
    handler matches its method and path, wherever it stands in the table; so the
    dispatch depends neither on registration order nor on precedence between
    patterns. *)
Theorem routes_unambiguous method ss h path :
  find_route routes method ss = Some (h, path) ↔
  ∃ p, (p, h) ∈ routes ∧ match_route method ss p = Some path.
Proof.
  split; [apply find_route_sound|]. intros (p & [i Hi]%list_elem_of_lookup & Hm).
  exact (find_route_at i method ss p h path routes routes_disjoint Hi Hm).
Qed.

(** ** The client *)

(** [ParseForm] reads the body of these methods only. *)
Definition reads_form (method : string) : bool := (method =s "POST") || (method =s "PUT") || (method =s "PATCH").

(** The request as the mock sees it: the token of [NewClient], the path values of
    the route, the query, and the form in the body's text. A malformed query or
    body makes [ParseForm] fail. *)
Definition mock_request (method urlpath query : string) (path : list (string * string)) (text : string) : request :=
  let q := ParseQuery query in
  let form := if reads_form method then ParseQuery text else (∅, true) in {|
  Method := method; URLPath := urlpath;
  Authorization := "PVEAPIToken=root@pam!mock=mock-secret"; Cookie := None; Path := list_to_map path; Query := q.1;
  BodyForm := if q.2 && form.2 then Some form.1 else None;
  BodyLen := if reads_form method then Z.of_nat (String.length text) else 0;
  Multipart := None
|}.

(** What the multiplexer answers itself: no route for the path, or none for the
    method; a path it cannot unescape; and a redirection to a cleaned path, which
    the clients of this development never follow. *)
Definition web_error (status : Z) : response :=
  {| code := status; Monad.body := {| Data := None; Message := ""; Errors := ∅ |} |}.

(** [ServeHTTP] without a response cache: the dispatch, on the request built from
    the path, the query and the values of the route's wildcards. *)
(* go: proxmox/mockpve/server.go#Server.ServeHTTP *)
Definition dispatch (method target : string) (req : string → string → list (string * string) → request) (s : state) :
    state * response :=
  let '(path, query) := cut_query target in
  match mapM PathUnescape (split_byte "/" path) with
  | None => (s, web_error 400)
  | Some segs =>
      if negb (clean path) then (s, web_error 301) else
      match find_route routes method segs with
      | Some (h, values) => serve (h (req (join "/" segs) query values)) s
      | None =>
          if bool_decide (Exists (λ route, is_Some (match_segments (parse_pattern route.1).2 segs)) routes)
          then (s, web_error 405) else (s, web_error 404)
      end
  end.
Definition ServeHTTP (method target text : string) : state → state * response :=
  dispatch method target (λ path query values, mock_request method path query values text).

(** The body a request carries: [doHTTP] encodes the body of a write. *)
Definition sent_text (method : string) (b : option Api.body) : goerr + string :=
  if isWriteMethod method then formEncode b else inr "".

(** The envelope as the handlers encode it, and as the client decodes it. The data is a
    value the handlers build, so its text has the value's numbers; its texts, keys
    included, are UTF-8 afterwards. *)
Definition omit_map (name : string) (m : gmap string string) : list (string * json) :=
  if decide (m = ∅) then [] else [(name, jmap_str m)].
(* go: proxmox/mockpve/server.go#envelope *)
Definition envelope_json (e : Monad.envelope) : json := JObj (
  match Data e with None => [] | Some v => [("data", v)] end ++
  omit_str "message" (Message e) ++ omit_map "errors" (Errors e)).
Definition received_map (m : gmap string string) : gmap string string :=
  match json_utf8 (jmap_str m) with
  | JObj l => foldl (λ m kv, match kv.2 with JStr v => <[kv.1 := v]> m | _ => m end) ∅ l
  | _ => ∅
  end.
Definition received (e : Monad.envelope) : pveEnvelope :=
  {| env_Data := json_utf8 <$> Data e; env_Errors := received_map (Errors e); env_Message := to_utf8 (Message e) |}.
Definition sent_response (resp : response) : http_response :=
  {| StatusCode := code resp; Body := BodyJson (received (Monad.body resp)) |}.

#[export] Instance mock_client : Client state := {|
  DoRequest A method path b out s :=
    match sent_text method b with
    | inl err => (s, inl (GPve (ClassifyNetError (ExpandPath path) err)))
    | inr text =>
        let '(s, resp) := ServeHTTP method (ExpandPath path) text s in
        (s, readResponse (sent_response resp) (ExpandPath path) out)
    end
|}.

(** ** A request on a route *)

(** The form of a body: the flattened fields of a struct. *)
Definition body_form (b : option Api.body) : values :=
  match b with
  | Some (BValues v) => v
  | Some (BStruct fields) => fields_form fields
  | Some (BOther (JObj fields)) => fields_form fields
  | _ => ∅
  end.
(** Values whose text is their own: numbers in normal form, nested within the scanner's
    bound. *)
Definition writable (j : json) : Prop := readable j ∧ (Z.of_nat (json_depth j) ≤ maxNestingDepth)%Z.
Definition is_form (b : option Api.body) : Prop :=
  match b with Some (BOther _) => False | Some (BStruct fields) => writable (JObj fields) | _ => True end.

Lemma formEncode_form b : is_form b → formEncode b = inr (Encode (body_form b)).
Proof.
  destruct b as [[v|fields|j]|]; cbn [is_form formEncode body_form]; [done| |done|done].
  intros [Hr Hd]. by rewrite flatten_fields.
Qed.
Lemma sent_text_form method b : is_form b → sent_text method b = inr (if isWriteMethod method then Encode (body_form b) else "").
Proof. intros Hb. unfold sent_text. destruct (isWriteMethod method); [|done]. by apply formEncode_form. Qed.

Lemma reads_write method : reads_form method = true → method ≠ "PATCH" → isWriteMethod method = true.
Proof. unfold reads_form, isWriteMethod. repeat case_bool_decide; by subst. Qed.


(** The request a handler gets for a body sent to a plain path. *)
Definition form_request (method urlpath : string) (path : list (string * string)) (b : option Api.body) : request := {|
  Method := method; URLPath := urlpath;
  Authorization := "PVEAPIToken=root@pam!mock=mock-secret"; Cookie := None; Path := list_to_map path; Query := ∅;
  BodyForm := Some (if reads_form method then sent (body_form b) else ∅);
  BodyLen := if reads_form method then Z.of_nat (String.length (Encode (body_form b))) else 0;
  Multipart := None
|}.
(** The form passes the responder's cap. *)
Definition within_cap (b : option Api.body) : Prop := (Z.of_nat (String.length (Encode (body_form b))) ≤ maxFormBytes)%Z.
Lemma form_request_posts method urlpath path b :
  within_cap b → reads_form method = true → PostForm (form_request method urlpath path b) = Some (sent (body_form b)).
Proof. unfold within_cap, PostForm, form_request. cbn [BodyLen BodyForm]. intros Hl ->. by rewrite (proj2 (Z.leb_le _ _)). Qed.

Lemma mock_request_form method urlpath path b :
  method ≠ "PATCH" →
  mock_request method urlpath "" path (if isWriteMethod method then Encode (body_form b) else "") =
    form_request method urlpath path b.
Proof.
  intros Hm. unfold mock_request, form_request. change (ParseQuery "") with ((∅ : values), true). cbn [fst snd andb].
  destruct (reads_form method) eqn:E; [|done]. rewrite (reads_write method E Hm), ParseQuery_Encode. done.
Qed.

(** What a plain path selects. *)
Lemma dispatch_route i method segs pattern h values path req s :
  routes !! i = Some (pattern, h) → match_route method ("" :: "api2" :: "json" :: segs) pattern = Some values →
  Forall plain segs → path = join "/" ("" :: segs) → has_prefix path apiPrefix = false → segs ≠ [] →
  dispatch method (ExpandPath path) req s = serve (h (req (ExpandPath path) "" values)) s.
Proof.
  intros Hi Hm Hsegs Hpath Hpre Hne.
  assert (ExpandPath path = join "/" ("" :: "api2" :: "json" :: segs)) as Hexp.
  { unfold ExpandPath. rewrite Hpre, Hpath. destruct segs as [|x segs]; [done|].
    change (join "/" ("" :: x :: segs)) with ("/" +:+ join "/" (x :: segs)). by rewrite has_prefix_app. }
  assert (Forall plain ("api2" :: "json" :: segs)) as Hall by (repeat apply Forall_cons_2; [by vm_compute..|done]).
  destruct (plain_path ("api2" :: "json" :: segs)) as (Hcut & Hclean & Hsplit & Hun); [done..|].
  rewrite <- Hexp in Hcut, Hclean, Hsplit. unfold dispatch. rewrite Hcut, Hclean, Hsplit, Hun. cbn [negb].
  rewrite (find_route_at i _ _ _ _ _ _ routes_disjoint Hi Hm). by rewrite <- Hexp.
Qed.

Lemma ServeHTTP_route i method segs pattern h values path text s :
  routes !! i = Some (pattern, h) → match_route method ("" :: "api2" :: "json" :: segs) pattern = Some values →
  Forall plain segs → path = join "/" ("" :: segs) → has_prefix path apiPrefix = false → segs ≠ [] →
  ServeHTTP method (ExpandPath path) text s = serve (h (mock_request method (ExpandPath path) "" values text)) s.
Proof. apply dispatch_route. Qed.

(** What the client gets from a route: the handler runs on the form the client
    encoded, and the client reads its response. *)
Lemma DoRequest_route {A} i method segs pattern h values b (out : option (json → option A)) path s :
  routes !! i = Some (pattern, h) → match_route method ("" :: "api2" :: "json" :: segs) pattern = Some values →
  Forall plain segs → path = join "/" ("" :: segs) → has_prefix path apiPrefix = false → segs ≠ [] →
  method ≠ "PATCH" → is_form b →
  DoRequest method path b out s =
    let '(s', resp) := serve (h (form_request method (ExpandPath path) values b)) s in
    (s', readResponse (sent_response resp) (ExpandPath path) out).
Proof.
  intros Hi Hm Hsegs Hpath Hpre Hne Hpatch Hb. unfold DoRequest. cbn [mock_client]. rewrite sent_text_form by done.
  rewrite (ServeHTTP_route i _ _ _ _ _ _ _ _ Hi Hm Hsegs Hpath Hpre Hne). by rewrite mock_request_form.
Qed.

Lemma authenticated_form s method urlpath path b : authenticated s (form_request method urlpath path b) = true.
Proof. reflexivity. Qed.

(** Bytes a path carries unescaped are ASCII. *)
Lemma segment_utf8 s : all_bytes segment_byte s = true → valid_utf8 s.
Proof.
  intros Hs. apply utf8_ascii. induction s as [|c s IH]; [done|]. apply all_bytes_cons in Hs as [Hc Hs].
  cbn [every_byte]. rewrite (IH Hs), andb_true_r. by destruct c as [[] [] [] [] [] [] [] []].
Qed.
Lemma plain_utf8 s : plain s → valid_utf8 s.
Proof. intros (_ & _ & _ & Hs). by apply segment_utf8. Qed.

(** Evaluates the match of a route against a path of plain segments. *)
Ltac match_plain :=
  unfold match_route;
  match goal with |- context [parse_pattern ?p] =>
    let q := eval vm_compute in (parse_pattern p) in change (parse_pattern p) with q end;
  cbn; by repeat (case_bool_decide; try congruence).

Ltac plain_segments := repeat apply Forall_cons_2; [try done; try (vm_compute; done)..|apply Forall_nil_2].

(** What the client reads of a success with data. *)
Lemma read_success {A} v path (decode : json → option A) :
  readResponse (sent_response {| code := 200; Monad.body := {| Data := Some v; Errors := ∅; Message := "" |} |})
    path (Some decode) =
  match decode (json_utf8 v) with
  | Some a => inr (Some a)
  | None => inl (GWrap ("api: decode response data from " +:+ path) (GText "type mismatch"))
  end.
Proof. done. Qed.

(** The envelope through its text: encoded with a final newline, and unmarshalled. *)
Definition as_pveEnvelope : json → option pveEnvelope := as_struct empty_envelope (λ l,
  errs ← map_field as_string_out "errors" l; msg ← str_field "message" l;
  Some {| env_Data := raw_field "data" l; env_Errors := errs; env_Message := msg |}).
Lemma received_text e : Errors e = ∅ → match Data e with Some v => readable v ∧ (Z.of_nat (S (json_depth v)) ≤ maxNestingDepth)%Z | None => True end →
  (j ← Unmarshal (marshal (envelope_json e) +:+ nl); as_pveEnvelope j) = Some (received e).
Proof.
  intros He Hd. assert (writable (envelope_json e)) as [Hr Hdepth].
  { unfold envelope_json, omit_map, omit_str. rewrite He, decide_True by done.
    destruct (Data e) as [v|], (Message e =s ""); destruct_and?; split; cbn [app json_depth foldr snd];
      rewrite ?Nat.max_0_r; try (unfold maxNestingDepth; lia); try done; repeat constructor; done. }
  rewrite (value_laid _ None) by done. cbn [mbind option_bind]. clear Hr Hdepth Hd.
  destruct e as [d m errs]. cbn [Errors] in He. subst errs. unfold received, envelope_json, omit_map, omit_str.
  cbn [Data Message Errors]. rewrite decide_True by done.
  destruct (decide (m = "")) as [->|Hm];
    [rewrite bool_decide_eq_true_2 by done|rewrite bool_decide_eq_false_2 by done]; by destruct d.
Qed.

(** ** What the client reads of a response *)





