(* ===== verification/MockReads.v ===== *)
(** Requests that leave the guests and the volumes of the mock alone: every GET, and
    what the routes of one guest do to the others. *)

From S2P Require Import Prelude Json Pverr Api Url Wire Transport Monad MockState MockServer MockGuests MockQemu MockLxc MockStorage.
From S2P Require Import MockHa MockNodes MockCluster MockAccess MockFirewall MockSdn MockAdmin MockAcme MockMisc.
From S2P Require Import MockInv MockWfCore MockWfMgmt MockWf MockProofs MockWeb.
From Stdlib Require Import ZArith Lia Ascii.
From stdpp Require Import relations options.

(** The guests and the storage are as before. *)
Definition same_guests (s s' : state) : Prop :=
  st_qemu s' = st_qemu s ∧ st_lxc s' = st_lxc s ∧ st_storage s' = st_storage s.
#[export] Instance same_guests_preorder : PreOrder same_guests.
Proof. split; [by intros ?|]. intros x y z (? & ? & ?) (? & ? & ?). split_and!; congruence. Qed.

Ltac same_case := intros s; cbn; repeat case_match; by split_and!.

Lemma same_writeTask node ty id : each same_guests (writeTask node ty id).
Proof. unfold writeTask, finishedTask, synthUPID. each_sections; apply each_locked; same_case. Qed.
Lemma same_with_scope {A} key (f : fwScope → fwScope * A) : each same_guests (with_scope key f).
Proof. apply each_locked. intros s. by destruct (f _). Qed.
Lemma same_read_scope {A} key (f : fwScope → A) : each same_guests (read_scope key f).
Proof. apply same_with_scope. Qed.
#[local] Hint Resolve same_writeTask same_with_scope same_read_scope : sections.

(** A route that keeps the guests when its method is GET. *)
Definition get_keeps (route : string * (request → M response)) : Prop :=
  has_prefix route.1 "GET " = true → ∀ r, each same_guests (route.2 r).

Ltac get_routes :=
  repeat (apply Forall_cons; split); [..|constructor]; unfold get_keeps; cbn [fst snd]; intros Hget r;
    first [discriminate Hget |
    match goal with |- each _ (?h _) => unfold h | |- each _ (?h _ _) => unfold h end; each_sections;
    apply each_locked; same_case].

Lemma core_get : Forall get_keeps (qemuRoutes ++ lxcRoutes ++ storageRoutes ++ haRoutes ++ nodeNetworkRoutes).
Proof.
  unfold qemuRoutes, lxcRoutes. cbn [fmap list_fmap powerVerbs app storageRoutes haRoutes nodeNetworkRoutes]. get_routes.
Qed.
Lemma mgmt_get : Forall get_keeps
  (nodeAdminRoutes ++ acmeRoutes ++ nodeConfigRoutes ++ sdnRoutes ++ firewallRoutes ++ clusterRoutes ++ accessRoutes).
Proof.
  unfold firewallRoutes, fwGuestKinds.
  cbn [mbind list_bind app nodeAdminRoutes acmeRoutes nodeConfigRoutes sdnRoutes firewallScopeRoutes
       firewallIPSetScopeRoutes clusterRoutes accessRoutes]. get_routes.
Qed.
Lemma misc_get : Forall get_keeps (metricsRoutes ++ cephRoutes ++ pbsRoutes ++ consoleRoutes).
Proof. unfold consoleRoutes. cbn [mbind list_bind app metricsRoutes cephRoutes pbsRoutes]. get_routes. Qed.
Lemma routes_get : Forall get_keeps routes.
Proof.
  unfold routes. apply Forall_app_2; [cbn [app]; get_routes|].
  pose proof (Forall_app_2 _ _ _ core_get (Forall_app_2 _ _ _ mgmt_get misc_get)) as H.
  by rewrite <- !app_assoc in H.
Qed.

(** ** Requests *)

Lemma cut_byte_inv sep s a b : cut_byte sep s = Some (a, b) → s = a +:+ String sep b.
Proof.
  revert a. induction s as [|c s IH]; intros a; cbn; [done|]. destruct (decide (c = sep)) as [->|]; [by intros [= <- <-]|].
  destruct (cut_byte sep s) as [[x y]|]; [|done]. intros [= <- <-]. by rewrite (IH x eq_refl).
Qed.

(** Whatever a GET is sent to, the guests stay. *)
Lemma get_same target text s : same_guests s (ServeHTTP "GET" target text s).1.
Proof.
  unfold ServeHTTP, dispatch. destruct (cut_query target) as [path query].
  destruct (mapM PathUnescape _) as [segs|]; [|done]. destruct (clean path); [|done]. cbn [negb].
  destruct (find_route routes "GET" segs) as [[h values]|] eqn:Hf.
  - apply find_route_sound in Hf as (p & Hin & Hm). pose proof routes_get as Hr. rewrite Forall_forall in Hr.
    specialize (Hr _ Hin). unfold serve. set (m := h _).
    assert (each same_guests m) as He.
    { apply Hr. cbn [fst]. unfold match_route, parse_pattern in Hm. destruct (cut_byte " " p) as [[method rest]|] eqn:Hc.
      - cbn [fst] in Hm. case_bool_decide as Hg; [|done]. apply cut_byte_inv in Hc as ->. subst method.
        apply (has_prefix_app "GET ").
      - cbn [fst] in Hm. by case_bool_decide. }
    pose proof (each_run same_guests m s He) as H. by destruct (run m s).
  - by case_bool_decide.
Qed.

(** Only one guest, and neither containers nor storage, can differ. *)
Definition only_guest (node : string) (vmid : Z) (s s' : state) : Prop :=
  (∀ node' vmid', (node', vmid') ≠ (node, vmid) → lookupVM s' node' vmid' = lookupVM s node' vmid') ∧
  st_lxc s' = st_lxc s ∧ st_storage s' = st_storage s.
#[export] Instance only_guest_preorder node vmid : PreOrder (only_guest node vmid).
Proof.
  split; [by intros ?|]. intros x y z (H1 & ? & ?) (H2 & ? & ?). split_and!; [|congruence..].
  intros n v Hne. by rewrite H2, H1.
Qed.

Lemma only_writeTask node vmid n ty id : each (only_guest node vmid) (writeTask n ty id).
Proof. unfold writeTask, finishedTask, synthUPID. each_sections; apply each_locked; by intros s. Qed.
Lemma only_update_vm f node vmid : each (only_guest node vmid) (update_vm f node vmid).
Proof.
  apply each_locked. intros s. split_and!; [|done..]. intros n v Hne.
  change (lookupGuest (updateGuest f node vmid (st_qemu s)) n v = lookupVM s n v).
  rewrite lookup_updateGuest, decide_False; [done|]. by intros [-> ->].
Qed.
Lemma only_removeVM node vmid : each (only_guest node vmid) (removeVM node vmid).
Proof.
  apply each_locked. intros s. split_and!; [|done..]. intros n v Hne.
  change (lookupGuest (removeGuest node vmid (st_qemu s)) n v = lookupVM s n v).
  rewrite lookup_removeGuest, decide_False; [done|]. by intros [-> ->].
Qed.
#[export] Hint Resolve only_writeTask only_update_vm only_removeVM : sections.
