(* ===== verification/EndToEnd.v ===== *)
(** The wait of the SDK on a task of the mock: the UPID of every asynchronous
    operation parses to a reference, and waiting on it ends at the first poll. *)

From S2P Require Import Prelude Json JsonText Pverr Api Url Wire Transport Tasks Monad MockState MockServer MockQemu MockInv MockWf MockProofs MockWeb.
From Stdlib Require Import ZArith Lia Ascii Floats.SpecFloat.
From stdpp Require Import options.

(** The status the SDK decodes from the mock's task record. *)
Definition status_of (rec : taskRecord) : Status :=
  {| st_UPID := t_UPID rec; st_Node := t_Node rec; st_Type := t_Type rec; st_ID := t_ID rec;
     st_User := t_User rec; Tasks.State := if t_Stopped rec then "stopped" else "running";
     ExitStatus := t_ExitStatus rec; st_PID := t_PID rec; st_StartTime := t_StartTime rec |}.

Lemma int_field_jint name l z :
  field_raw name l = Some (jint z) → int64_ok z = true → int_field name l = Some z.
Proof. intros Hf Hz. unfold int_field, decode_field. rewrite Hf. by apply as_int_jint. Qed.

Lemma decode_taskStatus rec :
  int64_ok (t_PID rec) = true → int64_ok (t_StartTime rec) = true →
  decode_Status (taskStatusPayload rec) = Some (status_of rec).
Proof.
  intros Hpid Hstart. unfold decode_Status, as_struct, taskStatusPayload, status_of, omit_str.
  case_bool_decide as He; cbn [app];
    (erewrite (int_field_jint "pid"); [|vm_compute; reflexivity|done]);
    (erewrite (int_field_jint "starttime"); [|vm_compute; reflexivity|done]);
    [rewrite He|]; destruct (t_Stopped rec); vm_compute; reflexivity.
Qed.

Lemma match_status node upid :
  plain node → plain upid →
  match_route "GET" ["" ; "api2"; "json"; "nodes"; node; "tasks"; upid; "status"]
    "GET /api2/json/nodes/{node}/tasks/{upid}/status" = Some [("node", node); ("upid", upid)].
Proof.
  intros [Hn _] [Hu _]. unfold match_route.
  change (parse_pattern "GET /api2/json/nodes/{node}/tasks/{upid}/status")
    with ("GET", ["" ; "api2"; "json"; "nodes"; "{node}"; "tasks"; "{upid}"; "status"]).
  cbn. by repeat (case_bool_decide; try congruence).
Qed.

(** A record whose texts JSON can carry. *)
Definition utf8_task (rec : taskRecord) : Prop :=
  Forall valid_utf8 [t_UPID rec; t_Node rec; t_Type rec; t_ID rec; t_User rec; t_ExitStatus rec].
Lemma taskStatus_kept rec : utf8_task rec → json_utf8 (taskStatusPayload rec) = taskStatusPayload rec.
Proof.
  intros H. do 6 (apply Forall_cons in H as [? H]). apply textual_kept, textual_obj.
  match goal with |- Forall _ ?l => change (Forall textual_field l) end. cbn [app].
  repeat apply textual_cons; try (by constructor); try utf8_name; try (by destruct (t_Stopped rec); constructor; utf8_name).
  apply Forall_app_2; [by apply textual_omit_str; [utf8_name|]|].
  repeat apply textual_cons; try (by constructor); utf8_name.
Qed.

(** The status the SDK reads of a task the mock has. *)
Lemma Service_Status_mock s node upid rec :
  plain node → plain upid → lookupTask s node upid = Some rec →
  int64_ok (t_PID rec) = true → int64_ok (t_StartTime rec) = true → utf8_task rec →
  Service_Status {| ref_Node := node; ref_UPID := upid |} s =
    (s, inr (status_of rec)).
Proof.
  intros Hn Hu Hrec Hpid Hstart Htexts. unfold Service_Status, valid. cbn [ref_Node ref_UPID].
  rewrite !bool_decide_eq_false_2 by (apply Hn || apply Hu). cbn [orb].
  rewrite (DoRequest_route 2 "GET" ["nodes"; node; "tasks"; upid; "status"]
    "GET /api2/json/nodes/{node}/tasks/{upid}/status" handleTaskStatus [("node", node); ("upid", upid)]);
    [|reflexivity|by apply match_status|by repeat apply Forall_cons_2; [vm_compute|..|apply Forall_nil_2]|reflexivity|reflexivity
     |discriminate|discriminate|exact I].
  unfold serve, handleTaskStatus. rewrite run_authenticated by apply authenticated_form. runs.
  match goal with |- context [lookupTask s (PathValue ?r "node") (PathValue ?r "upid")] =>
    change (PathValue r "node") with node; change (PathValue r "upid") with upid end.
  rewrite Hrec. runs. unfold writeData, ok. cbn [run answer code Monad.body].
  by rewrite read_success, taskStatus_kept, decode_taskStatus.
Qed.

(** ** Waiting for a task of the mock *)

(** A text without the separators of UPIDs, of bytes a path carries unescaped. *)
Definition plain_field (s : string) : Prop := no_byte ":" s = true ∧ all_bytes segment_byte s = true.

Lemma upid_at_text now node ty id :
  upid_at now node ty id = upid_text node "00000001" "00000001" (format_int 16 now) ty id mockTaskUser [""].
Proof. reflexivity. Qed.

Lemma parse_upid_at now node ty id :
  int64_ok now = true → Forall plain_field [node; ty; id] →
  ParseUPID (upid_at now node ty id) =
    inr {| Raw := upid_at now node ty id; Node := node; PID := 1; PStart := 1; StartTime := now;
           Type_ := ty; ID := id; User := mockTaskUser |}.
Proof.
  intros Hnow Hf. unfold ParseUPID. rewrite upid_at_text at 1. rewrite split_upid.
  - cbn [app]. rewrite bool_decide_eq_true_2 by done. cbn [negb].
    rewrite (parse_format_int 16 now) by (done || lia). reflexivity.
  - apply Forall_cons in Hf as [[? _] [[? _] [[? _] _]%Forall_cons]%Forall_cons].
    repeat constructor; try done. by apply format_int_no_byte.
Qed.

Lemma upid_at_plain now node ty id :
  Forall plain_field [node; ty; id] → plain (upid_at now node ty id).
Proof.
  intros Hf. split_and!; [done..|]. apply Forall_cons in Hf as [[_ Hn] [[_ Ht] [[_ Hi] _]%Forall_cons]%Forall_cons].
  unfold upid_at. rewrite !all_bytes_app, Hn, Ht, Hi, format_int_bytes by lia. reflexivity.
Qed.

(** Waiting on the task a handler has just finished. *)
Lemma wait_finished `{!Timers state} p fuel node ty id s :
  plain node → Forall plain_field [node; ty; id] → int64_ok (st_clock s) = true → 0 < fuel →
  ∃ st, Wait p fuel {| ref_Node := node; ref_UPID := upid_at (st_clock s) node ty id |} (with_task node ty id s) =
          Some (with_task node ty id s, (st, None)) ∧
    Tasks.State st = "stopped" ∧ ExitStatus st = "OK" ∧ st_UPID st = upid_at (st_clock s) node ty id ∧
    st_Type st = ty ∧ st_ID st = id.
Proof.
  intros Hn Hf Hclock Hfuel. destruct fuel as [|fuel]; [lia|]. unfold Wait, WaitFor. cbn [WaitFor_loop].
  rewrite (Service_Status_mock _ _ _ _ Hn (upid_at_plain _ _ _ _ Hf) (lookup_with_task node ty id s));
    [|reflexivity|exact Hclock|].
  2: { pose proof (upid_at_plain (st_clock s) _ _ _ Hf) as Hu. rewrite !Forall_cons in Hf. destruct Hf as ([_ ?] & [_ ?] & [_ ?] & _).
       repeat apply Forall_cons_2; [by apply plain_utf8|by apply segment_utf8|by apply segment_utf8|by apply segment_utf8|utf8_name|utf8_name|constructor]. }
  eexists. split; [reflexivity|]. done.
Qed.

Lemma TaskRef_upid op now node ty id :
  int64_ok now = true → Forall plain_field [node; ty; id] →
  TaskRef op (upid_at now node ty id) = inr {| ref_Node := node; ref_UPID := upid_at now node ty id |}.
Proof. intros Hnow Hf. unfold TaskRef, NewRef. by rewrite parse_upid_at. Qed.

(** C26. The contract of an asynchronous operation, across the client and the mock.
    Whatever a handler ends with a task, the SDK parses the UPID it answers with
    to a reference on the operation's node, and waiting on that reference returns
    at the first poll, without error, with the stopped and successful status of
    that very task, leaving the server as it was. *)
Theorem wait_on_mock `{!Timers state} op node ty id s s' resp :
  plain node → Forall plain_field [node; ty; id] → int64_ok (st_clock s) = true →
  serve (writeTask node ty id) s = (s', resp) →
  ∃ upid, Data (Monad.body resp) = Some (JStr upid) ∧
    TaskRef op upid = inr {| ref_Node := node; ref_UPID := upid |} ∧
    ∀ p fuel, 0 < fuel → ∃ st,
      Wait p fuel {| ref_Node := node; ref_UPID := upid |} s' = Some (s', (st, None)) ∧
      Tasks.State st = "stopped" ∧ ExitStatus st = "OK" ∧ st_UPID st = upid ∧ st_Type st = ty ∧ st_ID st = id.
Proof.
  intros Hne Hf Hclock. unfold serve. rewrite run_writeTask. intros [= <- <-].
  exists (upid_at (st_clock s) node ty id). split; [done|]. split; [by apply TaskRef_upid|].
  intros p fuel Hfuel. by apply wait_finished.
Qed.

Lemma wait_on_mock_witness :
  let _ : Timers state := λ d s, (set_clock (st_clock s + d) s, None) in
  let out := serve (writeTask "pve" "qmcreate" "100") seeded in
  ∃ upid, Data (Monad.body out.2) = Some (JStr upid) ∧
    ∃ st, Wait DefaultWaitPolicy 1 {| ref_Node := "pve"; ref_UPID := upid |} out.1 = Some (out.1, (st, None)) ∧
      ExitStatus st = "OK".
Proof.
  intros T out. destruct (wait_on_mock "qemu.Create" "pve" "qmcreate" "100" seeded out.1 out.2)
    as (upid & Hd & _ & Hw).
  - split_and!; try discriminate. reflexivity.
  - repeat constructor; reflexivity.
  - vm_compute. reflexivity.
  - apply surjective_pairing.
  - exists upid. split; [exact Hd|]. destruct (Hw DefaultWaitPolicy 1) as (st & H & _ & He & _); [lia|].
    exists st. split; [exact H|exact He].
Defined.

