(* ===== verification/UploadEndToEnd.v ===== *)
(** A file uploaded through the SDK to the responder: the multipart body the
    storage service writes is the one the responder's handler reads. *)

From S2P Require Import Prelude Json Pverr Api Url Wire Multipart Transport Tasks Svcutil StorageClient.
From S2P Require Import Monad MockState MockServer MockGuests MockStorage MockInv MockProofs MockWeb EndToEnd.
From Stdlib Require Import ZArith Lia.
From stdpp Require Import options.
Local Open Scope Z_scope.

(* go: proxmox/mockpve/storage.go#L12-L15:maxUploadBytes *)
Definition maxUploadBytes : Z := Z.shiftl 32 20.

(** The form of an upload, as the handler reads it: [MaxBytesReader], then
    [ParseMultipartForm]. *)
Definition upload_form (contentType text : string) : option (values * option (string * Z)) :=
  if Z.of_nat (String.length text) <=? maxUploadBytes then
    (λ ps, (form_values ps, form_file "filename" ps)) <$> ParseMultipartForm contentType text
  else None.
Definition upload_request (contentType text urlpath query : string) (path : list (string * string)) : request :=
  let q := ParseQuery query in {|
  Method := "POST"; URLPath := urlpath;
  Authorization := "PVEAPIToken=root@pam!mock=mock-secret"; Cookie := None; Path := list_to_map path; Query := q.1;
  BodyForm := if q.2 then Some ∅ else None; BodyLen := 0; Multipart := upload_form contentType text
|}.

(** The responder behind the streaming half of the client. A body that ends in an
    error is never sent. *)
#[export] Instance mock_uploader : Uploader state := {|
  DoUpload A path body contentType out s :=
    match rd_Err body with
    | Some err => (s, inl (GWrap "api: upload spool" (GWrap "spool body" err)))
    | None =>
        let '(s, resp) := dispatch "POST" (ExpandPath path) (upload_request contentType (rd_Data body)) s in
        (s, readResponse (sent_response resp) (ExpandPath path) out)
    end
|}.

(** The parts of an upload, read back. *)
Lemma upload_form_text b content filename contents :
  no_byte cr b = true → contains content (delimiter b) = false → contains contents (delimiter b) = false →
  every_byte value_byte filename = true → filename ≠ "" →
  Z.of_nat (String.length (multipart_text b (writeUploadParts content filename contents))) ≤ maxUploadBytes →
  upload_form (FormDataContentType b) (multipart_text b (writeUploadParts content filename contents)) =
    Some ({["content" := [content]]}, Some (path_base filename, Z.of_nat (String.length contents))).
Proof.
  intros Hb Hc Hd Hl Hf Hmax. unfold upload_form. rewrite (proj2 (Z.leb_le _ _)) by done.
  rewrite multipart_roundtrip; [reflexivity|done|].
  repeat constructor; cbn [part_name part_body]; done.
Qed.

Lemma upload_path_join node storage :
  nodeStoragePath node storage +:+ "/upload" = join "/" ("" :: ["nodes"; node; "storage"; storage; "upload"]).
Proof. unfold nodeStoragePath, nodeStoragesPath. cbn [join]. by rewrite !str_app_assoc. Qed.

(** The state an upload leaves: the volume is listed under the base name of the
    file, and its task has finished. *)
Definition uploaded (node storage content filename contents : string) (s : state) : state :=
  with_task node "imgcopy" storage
    (AddVolume node storage (storage +:+ ":" +:+ content +:+ "/" +:+ path_base filename) content ""
       (Z.of_nat (String.length contents)) s).

Lemma upload_mock `{!Boundary state} node storage content filename contents b s :
  plain node → plain storage → valid_utf8 (upid_at (st_clock s) node "imgcopy" storage) →
  rand_boundary s = (s, b) → no_byte cr b = true → content ≠ "" →
  contains content (delimiter b) = false → contains contents (delimiter b) = false →
  every_byte value_byte filename = true → filename ≠ "" →
  Z.of_nat (String.length (multipart_text b (writeUploadParts content filename contents))) ≤ maxUploadBytes →
  upload node storage content
    (Some {| up_Filename := filename; up_Reader := Some {| rd_Data := contents; rd_Err := None |} |}) s =
  (uploaded node storage content filename contents s,
   TaskRef "storage.Upload" (upid_at (st_clock s) node "imgcopy" storage)).
Proof.
  intros Hn Hst Hupid Hb Hcr Hce Hc Hd Hl Hf Hmax. unfold upload. cbn [up_Reader up_Filename].
  rewrite bool_decide_eq_false_2 by done. rewrite Hb. unfold task_of, DoUpload. cbn [mock_uploader upload_body rd_Err rd_Data].
  rewrite (dispatch_route 57 "POST" ["nodes"; node; "storage"; storage; "upload"]
    "POST /api2/json/nodes/{node}/storage/{storage}/upload" handleStorageUpload [("node", node); ("storage", storage)]);
    [|reflexivity|destruct Hn as [Hn _], Hst as [Hst _]; match_plain|plain_segments|apply upload_path_join|reflexivity|discriminate].
  unfold serve, handleStorageUpload. rewrite run_authenticated by reflexivity.
  cbn [Multipart upload_request]. rewrite upload_form_text by done. runs.
  cbn [fst snd]. unfold form_get. rewrite lookup_singleton_eq. unfold guard.
  rewrite bool_decide_eq_false_2 by done. cbn [negb]. runs.
  trans (task_of "storage.Upload" (uploaded node storage content filename contents s,
    readResponse (sent_response {| code := 200; Monad.body :=
        {| Data := Some (JStr (upid_at (st_clock s) node "imgcopy" storage)); Message := ""; Errors := ∅ |} |})
      (ExpandPath (nodeStoragePath node storage +:+ "/upload")) (Some as_string_out))); [reflexivity|].
  rewrite read_success. cbn [json_utf8]. by rewrite to_utf8_id.
Qed.

(** C18. An ISO uploaded through the SDK arrives. The responder parses the multipart
    body the storage service streamed (whatever quotes, backslashes or bytes above ASCII
    the file name has, but no control character except tabs) and lists a new volume, after those already there, under the base name of
    the file and with the exact number of its bytes; the SDK returns a task of that
    node, and waiting on it succeeds at the first poll. The random boundary must not
    occur in the file, and the body must fit the responder's limit. *)
Theorem upload_lands `{!Boundary state} `{!Timers state} node storage filename contents b s s' r :
  Forall plain_field [node; "imgcopy"; storage] → plain node → plain storage → int64_ok (st_clock s) = true →
  rand_boundary s = (s, b) → hex_boundary b → contains contents (delimiter b) = false →
  every_byte value_byte filename = true → filename ≠ "" →
  Z.of_nat (String.length (multipart_text b (writeUploadParts "iso" filename contents))) ≤ maxUploadBytes →
  UploadISO node storage
    (Some {| up_Filename := filename; up_Reader := Some {| rd_Data := contents; rd_Err := None |} |}) s = (s', r) →
  volumesOf (st_storage s') node storage = volumesOf (st_storage s) node storage ++
    [{| v_Volid := storage +:+ ":iso/" +:+ path_base filename; v_Content := "iso"; v_Format := "";
        v_Size := Z.of_nat (String.length contents); v_VMID := 0 |}] ∧
  ∃ ref, r = inr ref ∧ ref_Node ref = node ∧
    ∀ p fuel, (0 < fuel)%nat → ∃ st, Wait p fuel ref s' = Some (s', (st, None)) ∧ ExitStatus st = "OK" ∧ st_ID st = storage.
Proof.
  intros Hp Hn Hst Hclock Hb Hcr%hex_boundary_clear Hd Hl Hf Hmax. unfold UploadISO.
  rewrite (upload_mock _ _ _ _ _ b) by (done || by apply plain_utf8, upid_at_plain). rewrite TaskRef_upid by done. intros [= <- <-]. split.
  - change (st_storage (uploaded node storage "iso" filename contents s)) with
      (put_volumes node storage (volumesOf (st_storage s) node storage ++
         [{| v_Volid := storage +:+ ":" +:+ "iso" +:+ "/" +:+ path_base filename; v_Content := "iso"; v_Format := "";
             v_Size := Z.of_nat (String.length contents); v_VMID := 0 |}]) (st_storage s)).
    rewrite volumes_put, decide_True by done. reflexivity.
  - eexists. split; [done|]. split; [done|]. intros p fuel Hfuel.
    destruct (wait_finished p fuel node "imgcopy" storage
      (AddVolume node storage (storage +:+ ":" +:+ "iso" +:+ "/" +:+ path_base filename) "iso" ""
         (Z.of_nat (String.length contents)) s) Hn Hp Hclock Hfuel) as (st & Hw & _ & He & _ & _ & Hid).
    exists st. by split_and!.
Qed.

Definition digits60 : string := "0123456789abcdef0123456789abcdef0123456789abcdef0123456789ab".
Lemma upload_lands_witness :
  let _ : Boundary state := {| rand_boundary s := (s, digits60) |} in
  let _ : Timers state := λ d s, (set_clock (st_clock s + d) s, None) in
  let name := "dir/debian " +:+ String dquote "13.iso" in
  let out := UploadISO "pve" "local"
    (Some {| up_Filename := name; up_Reader := Some {| rd_Data := "--0f1 bytes"; rd_Err := None |} |}) seeded in
  v_Volid <$> volumesOf (st_storage out.1) "pve" "local" =
    v_Volid <$> volumesOf (st_storage seeded) "pve" "local" ++
    [{| v_Volid := "local:iso/debian " +:+ String dquote "13.iso"; v_Content := "iso"; v_Format := ""; v_Size := 11; v_VMID := 0 |}].
Proof.
  intros B T name out.
  destruct (@upload_lands B T "pve" "local" name "--0f1 bytes" digits60 seeded out.1 out.2) as [H _];
    [repeat constructor; reflexivity|split_and!; try discriminate; reflexivity|split_and!; try discriminate; reflexivity
    |vm_compute; reflexivity|reflexivity|split; vm_compute; reflexivity|vm_compute; reflexivity|vm_compute; reflexivity|discriminate
    |vm_compute; discriminate|apply surjective_pairing|].
  rewrite H. reflexivity.
Defined.

(** A file name with a path is uploaded under its last element only. *)
Example base_name_kept : path_base "dir/debian.iso" = "debian.iso". Proof. reflexivity. Qed.
