(* ===== verification/HaClient.v ===== *)
(** [proxmox/ha], the client side of HA: the scheduler settings inside the
    datacenter options (a property string), and the cluster-wide switch behind its
    version gate. The last part runs the client's write against the mock's
    handler for the same endpoint. *)

From S2P Require Import Prelude Json Pverr Api Version Monad MockState MockServer MockHa MockInv MockWf MockProofs.
From Stdlib Require Import ZArith Lia Ascii.
From stdpp Require Import options.

(** ** The scheduler settings *)

(* go: proxmox/ha/crs.go#CRSSettings *)
Record CRSSettings := { Mode : string; HARebalanceOnStart : bool }.
Definition CRSSettings_zero : CRSSettings := {| Mode := ""; HARebalanceOnStart := false |}.

(* go: proxmox/ha/crs.go#CRSSettingsUpdate *)
Record CRSSettingsUpdate := { u_Mode : string; u_HARebalanceOnStart : option bool }.

(** One item of the property string. *)
Definition crs_item (out : CRSSettings) (part : string) : CRSSettings :=
  match cut_byte "=" part with
  | None => out
  | Some (key, val) =>
      if trim_space key =s "ha" then {| Mode := trim_space val; HARebalanceOnStart := HARebalanceOnStart out |}
      else if trim_space key =s "ha-rebalance-on-start" then
        {| Mode := Mode out; HARebalanceOnStart := trim_space val =s "1" |}
      else out
  end.

(* go: proxmox/ha/crs.go#parseCRSString *)
Definition parseCRSString (s : string) : CRSSettings := foldl crs_item CRSSettings_zero (split_byte "," s).

(* go: proxmox/ha/crs.go#encodeCRSString *)
Definition encodeCRSString (u : CRSSettingsUpdate) : string :=
  join "," ((if u_Mode u =s "" then [] else ["ha=" +:+ u_Mode u]) ++
            (match u_HARebalanceOnStart u with
             | None => []
             | Some b => ["ha-rebalance-on-start=" +:+ (if b then "1" else "0")]
             end)).

(** ** The service *)

(* go: proxmox/ha/paths.go#clusterOptionsPath *)
Definition clusterOptionsPath : string := "/cluster/options".
(* go: proxmox/ha/paths.go#haStatusArmPath *)
Definition haStatusArmPath : string := "/cluster/ha/status/arm-ha".
(* go: proxmox/ha/paths.go#haStatusDisarmPath *)
Definition haStatusDisarmPath : string := "/cluster/ha/status/disarm-ha".

(* go: proxmox/ha/crs.go#clusterOptionsPayload *)
Definition decode_clusterOptions : json → option string := as_struct "" (str_field "crs").

Section service.
Context {W : Type} `{!Client W}.

(* go: proxmox/ha/crs.go#Service.GetCRSSettings *)
Definition GetCRSSettings (w : W) : W * (goerr + CRSSettings) :=
  then_result (DoRequest "GET" clusterOptionsPath None (Some decode_clusterOptions) w) (GWrap "ha.GetCRSSettings")
    (λ crs w, (w, inr (parseCRSString (default "" crs)))).

(** A nil update is [None]. *)
(* go: proxmox/ha/crs.go#Service.SetCRSSettings *)
Definition SetCRSSettings (update : option CRSSettingsUpdate) (w : W) : W * (goerr + ()) :=
  match update with
  | None => (w, inl (GWrap "ha.SetCRSSettings" (GSpec ErrNilSpec)))
  | Some update =>
      let crs := encodeCRSString update in
      if crs =s "" then (w, inl (GWrap "ha.SetCRSSettings: no fields set" (GSpec ErrMissingField)))
      else then_result (DoRequest (A := ()) "PUT" clusterOptionsPath (Some (BValues {[ "crs" := [crs] ]})) None w)
             (GWrap "ha.SetCRSSettings") (λ _ w, (w, inr ()))
  end.

(* go: proxmox/ha/arm.go#Service.ArmHA *)
Definition ArmHA (caps : Capabilities) (w : W) : W * (goerr + ()) :=
  match Require caps "HA arm/disarm" "9.2" with
  | Some err => (w, inl (GWrap "ha.ArmHA" err))
  | None => then_result (DoRequest (A := ()) "POST" haStatusArmPath None None w) (GWrap "ha.ArmHA") (λ _ w, (w, inr ()))
  end.

(* go: proxmox/ha/arm.go#Service.DisarmHA *)
Definition DisarmHA (caps : Capabilities) (mode : string) (w : W) : W * (goerr + ()) :=
  match Require caps "HA arm/disarm" "9.2" with
  | Some err => (w, inl (GWrap "ha.DisarmHA" err))
  | None =>
      if mode =s "" then (w, inl (GWrap "ha.DisarmHA: resource-mode" (GSpec ErrMissingField)))
      else then_result (DoRequest (A := ()) "POST" haStatusDisarmPath (Some (BValues {[ "resource-mode" := [mode] ]})) None w)
             (GWrap "ha.DisarmHA") (λ _ w, (w, inr ()))
  end.
End service.

(** ** Properties *)

(** A mode that survives the property string: no comma, nothing to trim. *)
Definition plain_mode (mode : string) : Prop := no_byte "," mode = true ∧ trim_space mode = mode.

Lemma crs_mode_item out mode : plain_mode mode →
  crs_item out ("ha=" +:+ mode) = {| Mode := mode; HARebalanceOnStart := HARebalanceOnStart out |}.
Proof.
  intros [_ Ht]. unfold crs_item. change ("ha=" +:+ mode) with ("ha" +:+ String "=" mode).
  rewrite cut_byte_app by done. by rewrite Ht.
Qed.

Lemma crs_rebalance_item out (b : bool) :
  crs_item out ("ha-rebalance-on-start=" +:+ (if b then "1" else "0")) =
    {| Mode := Mode out; HARebalanceOnStart := b |}.
Proof. by destruct b. Qed.

Lemma parse_encode u :
  plain_mode (u_Mode u) →
  parseCRSString (encodeCRSString u) =
    {| Mode := u_Mode u; HARebalanceOnStart := default false (u_HARebalanceOnStart u) |}.
Proof.
  intros Hm. pose proof Hm as [Hc Ht]. unfold parseCRSString, encodeCRSString.
  destruct u as [mode [b|]]; cbn [u_Mode u_HARebalanceOnStart] in *; case_bool_decide as He.
  - subst. by destruct b.
  - rewrite split_join; [|done|].
    + cbn [app foldl]. by rewrite crs_mode_item, crs_rebalance_item.
    + repeat constructor; [done|by destruct b].
  - by subst.
  - rewrite split_join; [|done|by repeat constructor]. cbn [app foldl]. by rewrite crs_mode_item.
Qed.

Lemma encode_empty u : encodeCRSString u = "" ↔ u_Mode u = "" ∧ u_HARebalanceOnStart u = None.
Proof.
  unfold encodeCRSString. destruct u as [mode [b|]]; cbn [u_Mode u_HARebalanceOnStart]; case_bool_decide; cbn.
  - destruct b; split; intros; first [discriminate|by destruct_and!].
  - destruct b; split; intros; first [discriminate|by destruct_and!].
  - done.
  - split; [discriminate|by intros [? _]].
Qed.

(** What an update writes is what a read returns: the property string of an
    update parses to the mode and the flag it sets, with an unset field read back
    as empty or off; and an update that sets nothing encodes to nothing. *)
Theorem crs_roundtrip u :
  plain_mode (u_Mode u) →
  parseCRSString (encodeCRSString u) =
    {| Mode := u_Mode u; HARebalanceOnStart := default false (u_HARebalanceOnStart u) |} ∧
  (encodeCRSString u = "" ↔ u_Mode u = "" ∧ u_HARebalanceOnStart u = None).
Proof. intros Hm. split; [by apply parse_encode|apply encode_empty]. Qed.

Lemma crs_roundtrip_witness :
  plain_mode "static" ∧
  parseCRSString (encodeCRSString {| u_Mode := "static"; u_HARebalanceOnStart := Some true |}) =
    {| Mode := "static"; HARebalanceOnStart := true |}.
Proof.
  assert (plain_mode "static") as Hp by (split; vm_compute; reflexivity). split; [exact Hp|].
  exact (proj1 (crs_roundtrip {| u_Mode := "static"; u_HARebalanceOnStart := Some true |} Hp)).
Defined.

(** The request [SetCRSSettings] sends, as the mock's handler sees it. *)
Definition crs_request (u : CRSSettingsUpdate) : request := {|
  Method := "PUT"; URLPath := "/api2/json/cluster/options";
  Authorization := "PVEAPIToken=root@pam!mock=mock-secret"; Cookie := None; Path := ∅; Query := ∅;
  BodyForm := Some {[ "crs" := [encodeCRSString u] ]}; BodyLen := 0; Multipart := None
|}.

(** A partial update is not partial. Setting only the mode replaces the whole
    property string, so a rebalance flag that was on is read back as off, whatever
    the settings were before; likewise setting only the flag forgets the mode. *)
Theorem crs_partial_update_resets u s :
  plain_mode (u_Mode u) → encodeCRSString u ≠ "" →
  let s' := (serve (handleClusterOptionsSet (crs_request u)) s).1 in
  parseCRSString (ha_crs (st_ha s')) =
    {| Mode := u_Mode u; HARebalanceOnStart := default false (u_HARebalanceOnStart u) |}.
Proof.
  intros Hm He. unfold serve, handleClusterOptionsSet. rewrite run_authenticated by done.
  unfold parseForm. change (PostForm (crs_request u)) with (Some {[ "crs" := [encodeCRSString u] ]} : option values). runs. cbn [run writeData ok fst].
  match goal with |- context [foldl (set_option ?f) s ?l] => destruct (options_loop f l s) as [Hcrs _] end.
  rewrite Hcrs, decide_True, lookup_singleton_eq by (by apply elem_of_keys; eexists).
  by rewrite <- (parse_encode u Hm).
Qed.

Lemma crs_partial_update_resets_witness :
  let s := SetCRS "ha=basic,ha-rebalance-on-start=1" seeded in
  let u := {| u_Mode := "static"; u_HARebalanceOnStart := None |} in
  parseCRSString (ha_crs (st_ha s)) = {| Mode := "basic"; HARebalanceOnStart := true |} ∧
  parseCRSString (ha_crs (st_ha (serve (handleClusterOptionsSet (crs_request u)) s).1)) =
    {| Mode := "static"; HARebalanceOnStart := false |}.
Proof.
  intros s u. split; [vm_compute; reflexivity|].
  apply (crs_partial_update_resets u s); [split; vm_compute; reflexivity|vm_compute; discriminate].
Defined.

(** The cluster-wide switch is never touched on a release that lacks it: below
    9.2 neither operation sends a request, whatever its arguments, and the error
    is [ErrUnsupported]; and disarming without a mode sends nothing either. *)
Theorem switch_gated {W} `{!Client W} (caps : Capabilities) mode (w : W) :
  HAClusterSwitch caps = false →
  (∃ e, ArmHA caps w = (w, inl e) ∧ errors_is e ErrUnsupported = true) ∧
  (∃ e, DisarmHA caps mode w = (w, inl e) ∧ errors_is e ErrUnsupported = true) ∧
  (∃ e, DisarmHA caps "" w = (w, inl e)).
Proof.
  intros Hgate. assert (Require caps "HA arm/disarm" "9.2" = Some (GWrap
    ("HA arm/disarm" +:+ " requires PVE " +:+ "9.2" +:+ " (have " +:+ Capabilities_String caps +:+ ")")
    (GSentinel ErrUnsupported))) as Hreq.
  { unfold Require. change (Parse "9.2") with (Some {| major := 9; minor := 2; patch := 0 |}). cbn [major minor].
    unfold HAClusterSwitch in Hgate. by rewrite Hgate. }
  unfold ArmHA, DisarmHA. rewrite Hreq. split_and!; eexists; try split; reflexivity.
Qed.

#[export] Instance unreachable_client : Client () := {|
  DoRequest A _ _ _ _ w := (w, inl (GPve (ClassifyNetError "" GNetClosed)))
|}.

Lemma switch_gated_witness :
  HAClusterSwitch {| major := 9; minor := 1; patch := 4 |} = false ∧
  ∃ e, ArmHA {| major := 9; minor := 1; patch := 4 |} () = ((), inl e) ∧ errors_is e ErrUnsupported = true.
Proof.
  split; [vm_compute; reflexivity|].
  refine (proj1 (switch_gated {| major := 9; minor := 1; patch := 4 |} "freeze" () _)). vm_compute. reflexivity.
Defined.
