(* ===== verification/QemuEndToEnd.v ===== *)
(** The QEMU service against the mock: what a caller creates through the SDK is
    what it reads back, across the form encoding, the wire, the mock's
    configuration store, and the lossless read. *)

From S2P Require Import Prelude Json JsonText Types Pverr Api Url Wire Transport Tasks Svcutil Monad MockState MockServer MockGuests MockQemu.
From S2P Require Import MockInv MockWf MockProofs MockWeb EndToEnd QemuClient.
From Stdlib Require Import ZArith Lia Ascii Floats.SpecFloat.
From stdpp Require Import options.

Lemma plain_itoa z : int64_ok z = true → plain (itoa z).
Proof.
  intros Hz. assert (atoi (itoa z) = Some z) as Ha by by apply atoi_itoa.
  split_and!; [intros H; by rewrite H in Ha..|]. apply format_int_bytes. lia.
Qed.

Lemma plain_field_itoa z : plain_field (itoa z).
Proof. split; [by apply format_int_no_byte|apply format_int_bytes; lia]. Qed.

(** ** Decoding the fields of a configuration *)

(** How a value comes back from the mock's configuration store: written as a form
    text, stored as a number when it reads as one, and encoded again. *)
Definition stored (j : json) : json := config_json (parseConfigValue (form_value j)).

Lemma stored_str v : atoi v = None → valid_utf8 v → stored <$> str_opt v = str_opt v.
Proof.
  intros Hv Hu. unfold str_opt, stored, parseConfigValue. case_bool_decide; [done|]. cbn [fmap option_fmap option_map form_value].
  by rewrite to_utf8_id, Hv.
Qed.

Lemma stored_int z : int64_ok z = true → stored <$> int_opt z = int_opt z.
Proof.
  intros Hz. unfold int_opt, stored, parseConfigValue. destruct (z =? 0)%Z; [done|]. cbn [fmap option_fmap option_map].
  change (form_value (jint z)) with (itoa z). by rewrite atoi_itoa.
Qed.

Lemma read_str l name v : field_raw name l = str_opt v → str_field name l = Some v.
Proof. unfold str_field, decode_field. intros ->. unfold str_opt. by case_bool_decide; subst. Qed.

Lemma read_int l name z : (Z.abs z < 2 ^ 53)%Z → field_raw name l = int_opt z → pveint_field name l = Some z.
Proof.
  unfold pveint_field. intros Hz ->. unfold int_opt. destruct (Z.eqb_spec z 0) as [->|]; [done|].
  cbn [PVEInt_UnmarshalJSON jint]. destruct (trunc_float64_of z Hz) as [Ht Hf]. by rewrite Hf, Ht.
Qed.

Lemma read_int_text l name z :
  int64_ok z = true → field_raw name l = (if (z =? 0)%Z then None else Some (JStr (itoa z))) → pveint_field name l = Some z.
Proof.
  unfold pveint_field. intros Hz ->. destruct (Z.eqb_spec z 0) as [->|]; [done|]. cbn.
  rewrite bool_decide_eq_false_2; [by apply atoi_itoa|]. intros He. by apply (f_equal atoi) in He; rewrite atoi_itoa in He.
Qed.

(** ** The specification as a form *)

Definition CreateSpec_optional (s : CreateSpec) : list (string * option json) :=
  [("vmid", Some (jint (cs_VMID s))); ("name", str_opt (cs_Name s)); ("memory", int_opt (cs_Memory s));
   ("cores", int_opt (cs_Cores s)); ("sockets", int_opt (cs_Sockets s)); ("cpu", str_opt (cs_CPU s));
   ("ostype", str_opt (cs_OSType s)); ("scsi0", str_opt (cs_SCSI0 s)); ("net0", str_opt (cs_Net0 s));
   ("boot", str_opt (cs_Boot s)); ("storage", str_opt (cs_Storage s)); ("start", PVEBool_MarshalJSON <$> cs_Start s)].

Lemma CreateSpec_fields_optional s : CreateSpec_fields s = optional (CreateSpec_optional s).
Proof.
  unfold CreateSpec_fields. rewrite !omit_str_optional, !omit_int_optional, opt_bool_optional, (field_optional "vmid").
  by rewrite <- !optional_app.
Qed.

(** A specification the mock can give back: integers within their exact ranges,
    texts that do not read as integers, extra parameters outside the modelled ones, and
    everything that JSON carries in UTF-8. *)
Definition storable (s : CreateSpec) : Prop :=
  int64_ok (cs_VMID s) = true ∧ int64_ok (cs_Memory s) = true ∧
  (Z.abs (cs_Cores s) < 2 ^ 53)%Z ∧ (Z.abs (cs_Sockets s) < 2 ^ 53)%Z ∧
  Forall (λ t, atoi t = None) [cs_Name s; cs_CPU s; cs_OSType s; cs_SCSI0 s; cs_Net0 s; cs_Boot s] ∧
  map_Forall (λ k _, k ≠ "delete" ∧ fold_case k ∉ configKnownFields) (cs_Extra s) ∧
  Forall valid_utf8 [cs_Name s; cs_CPU s; cs_OSType s; cs_SCSI0 s; cs_Net0 s; cs_Boot s; cs_Storage s] ∧
  map_Forall (λ k v, valid_utf8 k ∧ valid_utf8 v) (cs_Extra s).

Definition create_form (s : CreateSpec) : values := EncodeWithExtra (CreateSpec_fields s) (cs_Extra s).

Lemma lookup_create_form s k :
  create_form s !! k =
    match cs_Extra s !! k with Some v => Some [v] | None => (λ v, [form_value v]) <$> field_of k (CreateSpec_optional s) end.
Proof.
  unfold create_form. rewrite CreateSpec_fields_optional. apply lookup_form. cbn.
  apply (bool_decide_unpack _). vm_compute. done.
Qed.

Lemma create_form_sent s : sent (create_form s) = create_form s.
Proof.
  unfold sent. apply map_filter_id. intros k vs. rewrite lookup_create_form. cbn [snd].
  destruct (cs_Extra s !! k); [by intros [= <-]|]. by destruct (field_of k (CreateSpec_optional s)); intros [= <-].
Qed.

(** The configuration the mock stores for a specification, and its payload. *)
Definition stored_config (s : CreateSpec) (cfg : gmap string configValue) : Prop :=
  ∀ k, cfg !! k =
    if decide (k ≠ "delete" ∧ k ≠ "vmid" ∧ is_Some (create_form s !! k)) then Some (parseConfigValue (vget (create_form s) k))
    else None.

Definition known_name (name : string) : Prop :=
  name ∈ configKnownFields ∧ fold_case name = name ∧ name ≠ "vmid" ∧ name ≠ "memory" ∧ name ≠ "delete".

Lemma extra_not_known s name : storable s → name ∈ configKnownFields → fold_case name = name → cs_Extra s !! name = None.
Proof.
  intros (_ & _ & _ & _ & _ & Hextra & _) Hk Hf. destruct (cs_Extra s !! name) as [v|] eqn:E; [|done].
  destruct (Hextra _ _ E) as [_ Hno]. by rewrite Hf in Hno.
Qed.

Lemma config_lookup s cfg name :
  storable s → stored_config s cfg → name ∈ configKnownFields → fold_case name = name → name ≠ "vmid" → name ≠ "delete" →
  config_json <$> cfg !! name = stored <$> field_of name (CreateSpec_optional s).
Proof.
  intros Hs Hcfg Hk Hf Hv Hd. rewrite Hcfg. unfold vget. rewrite lookup_create_form, extra_not_known by done.
  destruct (field_of name (CreateSpec_optional s)) as [v|]; cbn.
  - by rewrite decide_True by (split_and!; [done..|by eexists]).
  - by rewrite decide_False by (intros (_ & _ & []%is_Some_None)).
Qed.

(** Every key of the stored configuration that reads as a modelled field is that
    field's name. *)
Lemma config_names s cfg name k :
  storable s → stored_config s cfg → name ∈ configKnownFields → fold_case name = name →
  is_Some (cfg !! k) → fold_case k = fold_case name → k = name.
Proof.
  intros Hs Hcfg Hk Hf Hsome Hfold. rewrite Hcfg in Hsome. case_decide as Hd; [|by destruct (is_Some_None Hsome)].
  destruct Hd as (_ & _ & Hform). rewrite lookup_create_form in Hform. rewrite Hf in Hfold.
  destruct (cs_Extra s !! k) as [v|] eqn:E.
  { destruct Hs as (_ & _ & _ & _ & _ & Hextra & _). destruct (Hextra _ _ E) as [_ Hno]. by rewrite Hfold in Hno. }
  assert (k ∈ (CreateSpec_optional s).*1) as Hin.
  { destruct (decide (k ∈ (CreateSpec_optional s).*1)) as [|Hno]; [done|]. rewrite field_of_None in Hform by done.
    by destruct (is_Some_None Hform). }
  rewrite <- Hfold. clear -Hin. cbn in Hin.
  repeat (apply elem_of_cons in Hin as [->|Hin]; [by vm_compute|]). by apply not_elem_of_nil in Hin.
Qed.

#[local] Set Default Proof Using "All".
Section read.
Context (s : CreateSpec) (cfg : gmap string configValue) (l : list (string * json)).
Hypothesis Hs : storable s.
Hypothesis Hcfg : stored_config s cfg.
Hypothesis Hl : qemu_config_payload cfg = JObj l.

Definition payload_map : gmap string json :=
  match cfg !! "memory" with
  | Some v => <["memory" := JStr (config_text v)]> (config_json <$> cfg)
  | None => config_json <$> cfg
  end.

Lemma payload_some k : is_Some (payload_map !! k) ↔ is_Some (cfg !! k).
Proof.
  unfold payload_map. destruct (cfg !! "memory") as [v|] eqn:E; [|by rewrite lookup_fmap, fmap_is_Some].
  destruct (decide (k = "memory")) as [->|Hne].
  - rewrite lookup_insert_eq, E. split; by eexists.
  - by rewrite lookup_insert_ne, lookup_fmap, fmap_is_Some.
Qed.

Lemma field_raw_payload name : name ∈ configKnownFields → fold_case name = name → field_raw name l = payload_map !! name.
Proof.
  intros Hk Hf. apply (field_raw_jmap payload_map); [exact Hl|]. intros k Hsome. apply payload_some in Hsome.
  by apply (config_names s cfg).
Qed.

Lemma field_raw_spec name : known_name name → field_raw name l = stored <$> field_of name (CreateSpec_optional s).
Proof.
  intros (Hk & Hf & Hv & Hm & Hd). rewrite field_raw_payload by done. rewrite <- (config_lookup s cfg) by done.
  unfold payload_map. destruct (cfg !! "memory"); [by rewrite lookup_insert_ne, lookup_fmap by done|by rewrite lookup_fmap].
Qed.

Lemma field_raw_memory :
  field_raw "memory" l = if (cs_Memory s =? 0)%Z then None else Some (JStr (itoa (cs_Memory s))).
Proof.
  rewrite field_raw_payload by (try done; by apply (bool_decide_unpack _)).
  unfold payload_map. pose proof (Hcfg "memory") as Hm. unfold vget in Hm. rewrite lookup_create_form in Hm.
  rewrite extra_not_known in Hm by (try done; by apply (bool_decide_unpack _)). cbn [CreateSpec_optional field_of String.eqb Ascii.eqb Bool.eqb] in Hm.
  unfold int_opt in Hm. destruct (cs_Memory s =? 0)%Z; cbn in Hm.
  - rewrite decide_False in Hm by (intros (_ & _ & []%is_Some_None)). by rewrite Hm, lookup_fmap, Hm.
  - rewrite decide_True in Hm by (split_and!; [done..|by eexists]). rewrite Hm, lookup_insert_eq.
    change (form_value (jint (cs_Memory s))) with (itoa (cs_Memory s)). unfold parseConfigValue. destruct Hs as (_ & Hmem & _).
    by rewrite atoi_itoa.
Qed.
End read.
#[local] Set Default Proof Using "Type".

(** What an extra parameter comes back as. *)
Definition canonical (v : string) : string := match atoi v with Some n => itoa n | None => v end.

Lemma extra_canonical v : extra_text (config_json (parseConfigValue v)) = canonical v.
Proof. unfold parseConfigValue, canonical. by destruct (atoi v). Qed.

(** The typed fields a read of the stored configuration has. *)
Definition reads_back (s : CreateSpec) (c : Config) : Prop :=
  cf_Name c = cs_Name s ∧ cf_Memory c = cs_Memory s ∧ cf_Cores c = cs_Cores s ∧ cf_Sockets c = cs_Sockets s ∧
  cf_CPU c = cs_CPU s ∧ cf_OSType c = cs_OSType s ∧ cf_SCSI0 c = cs_SCSI0 s ∧ cf_Net0 c = cs_Net0 s ∧
  cf_Boot c = cs_Boot s ∧ cf_Description c = "" ∧ cf_Template c = false ∧
  ∀ k v, cs_Extra s !! k = Some v → cf_Extra c !! k = Some (canonical v).

Lemma read_none_str l name : field_raw name l = None → str_field name l = Some "".
Proof. unfold str_field, decode_field. by intros ->. Qed.
Lemma read_none_int l name : field_raw name l = None → pveint_field name l = Some 0%Z.
Proof. unfold pveint_field. by intros ->. Qed.
Lemma read_none_bool l name : field_raw name l = None → pvebool_field name l = Some false.
Proof. unfold pvebool_field. by intros ->. Qed.

Ltac known := split_and!; first [reflexivity|discriminate|by apply (bool_decide_unpack _)].
Ltac spec_field Hs Hcfg Hl name :=
  let H := fresh "Hf" in
  pose proof (field_raw_spec _ _ _ Hs Hcfg Hl name ltac:(known)) as H;
  cbn [CreateSpec_optional field_of String.eqb Ascii.eqb Bool.eqb] in H.

Lemma decode_stored s cfg :
  storable s → stored_config s cfg → ∃ c, Config_UnmarshalJSON (qemu_config_payload cfg) = Some c ∧ reads_back s c.
Proof.
  intros Hs Hcfg. destruct (jmap_obj (payload_map cfg)) as (l & Hl & Hmap). change (qemu_config_payload cfg = JObj l) in Hl.
  pose proof (field_raw_memory s cfg l Hs Hcfg Hl) as Hmem.
  assert (field_raw "vmid" l = None) as Hvmid.
  { rewrite (field_raw_payload s cfg l Hs Hcfg Hl) by (by apply (bool_decide_unpack _) || done).
    apply eq_None_not_Some. rewrite (payload_some s cfg l Hs Hcfg Hl). rewrite Hcfg. by destruct (decide _) as [(_ & ? & _)|]; [|intros []%is_Some_None]. }
  spec_field Hs Hcfg Hl "name". spec_field Hs Hcfg Hl "description". spec_field Hs Hcfg Hl "cores".
  spec_field Hs Hcfg Hl "sockets". spec_field Hs Hcfg Hl "balloon". spec_field Hs Hcfg Hl "cpu". spec_field Hs Hcfg Hl "boot".
  spec_field Hs Hcfg Hl "ostype". spec_field Hs Hcfg Hl "scsi0". spec_field Hs Hcfg Hl "scsi1". spec_field Hs Hcfg Hl "net0".
  spec_field Hs Hcfg Hl "net1". spec_field Hs Hcfg Hl "agent". spec_field Hs Hcfg Hl "onboot". spec_field Hs Hcfg Hl "template".
  spec_field Hs Hcfg Hl "protection".
  pose proof Hs as (_ & Hm & Hco & Hso & Ht & Hextra & Hutf & _). rewrite !Forall_cons in Ht, Hutf. destruct_and!.
  assert (∀ z, (Z.abs z < 2 ^ 53)%Z → int64_ok z = true) as Hok by (intros z Hz; unfold int64_ok, min_int64, max_int64; lia).
  rewrite ?stored_str in * by done. rewrite ?stored_int in * by auto.
  rewrite Hl. unfold Config_UnmarshalJSON, as_struct.
  rewrite (read_str l "name" (cs_Name s)), (read_int l "cores" (cs_Cores s)), (read_int l "sockets" (cs_Sockets s)),
    (read_int_text l "memory" (cs_Memory s)), (read_str l "cpu" (cs_CPU s)), (read_str l "ostype" (cs_OSType s)),
    (read_str l "scsi0" (cs_SCSI0 s)), (read_str l "net0" (cs_Net0 s)), (read_str l "boot" (cs_Boot s)) by done.
  rewrite (read_none_str l "description"), (read_none_int l "balloon"), (read_none_str l "scsi1"), (read_none_str l "net1"),
    (read_none_str l "agent"), (read_none_bool l "onboot"), (read_none_bool l "template"), (read_none_bool l "protection") by done.
  unfold int_field, decode_field. rewrite Hvmid. eexists. split; [reflexivity|]. split_and!; try done.
  intros k v Hk. cbn [cf_Extra]. rewrite lookup_extra_keys, Hmap. destruct (Hextra _ _ Hk) as [Hd Hno].
  assert (∀ n, n ∈ configKnownFields → fold_case n = n) as Hfold.
  { clear. intros n Hn. repeat (apply elem_of_cons in Hn as [->|Hn]; [by vm_compute|]). by apply not_elem_of_nil in Hn. }
  assert (k ∉ configKnownFields) as Hkn by (intros Hin; apply Hno; by rewrite Hfold).
  assert (k ≠ "vmid" ∧ k ≠ "memory") as [Hv' Hm'] by (split; intros ->; apply Hkn, (bool_decide_unpack _); vm_compute; done).
  rewrite decide_False by done. rewrite <- extra_canonical.
  assert (payload_map cfg !! k = config_json <$> cfg !! k) as ->.
  { unfold payload_map. destruct (cfg !! "memory"); [by rewrite lookup_insert_ne, lookup_fmap by done|by rewrite lookup_fmap]. }
  assert (create_form s !! k = Some [v]) as Hform by by rewrite lookup_create_form, Hk.
  rewrite Hcfg, decide_True by (split_and!; [done..|by eexists]). unfold vget. by rewrite Hform.
Qed.

(** The stored configuration is one that JSON text keeps. *)
Definition utf8_config (cfg : gmap string configValue) : Prop :=
  map_Forall (λ k v, valid_utf8 k ∧ valid_utf8 (config_text v)) cfg.
Lemma itoa_utf8 z : valid_utf8 (itoa z).
Proof. apply segment_utf8, format_int_bytes. lia. Qed.
Lemma textual_jmap m : map_Forall (λ k j, valid_utf8 k ∧ textual j) m → textual (jmap m).
Proof.
  intros Hm. constructor. apply Forall_forall. intros [k j] Hin. cbn. apply Hm.
  by apply (elem_of_jmap m k j _ eq_refl).
Qed.
Lemma config_payload_kept cfg : utf8_config cfg → json_utf8 (qemu_config_payload cfg) = qemu_config_payload cfg.
Proof.
  intros Hcfg. apply textual_kept, textual_jmap.
  assert (map_Forall (λ k j, valid_utf8 k ∧ textual j) (config_json <$> cfg)) as Hj.
  { apply map_Forall_fmap. eapply map_Forall_impl; [exact Hcfg|]. intros k v [Hk Hv]. split; [done|].
    destruct v; cbn in *; by constructor. }
  destruct (cfg !! "memory") as [v|] eqn:Hm; [|done]. apply map_Forall_insert_2; [|done].
  destruct (Hcfg _ _ Hm). by split; [|constructor].
Qed.

Lemma field_of_in k v l : field_of k l = Some v → (k, Some v) ∈ l.
Proof.
  induction l as [|[x o] l IH]; [done|]. cbn. destruct (String.eqb_spec k x) as [->|]; [intros ->; by left|]. intros ?%IH. by right.
Qed.
Definition utf8_field_text (kv : string * option json) : Prop :=
  valid_utf8 kv.1 ∧ ∀ v, kv.2 = Some v → valid_utf8 (form_value v).
Lemma form_text_utf8 s k v : field_of k (CreateSpec_optional s) = Some v → valid_utf8 k ∧ valid_utf8 (form_value v).
Proof.
  assert (Forall utf8_field_text (CreateSpec_optional s)) as Hall.
  { assert (∀ t v, str_opt t = Some v → valid_utf8 (form_value v)) as Hstr.
    { unfold str_opt. intros t w. case_bool_decide; [done|]. intros [= <-]. apply to_utf8_valid. }
    assert (∀ z v, int_opt z = Some v → valid_utf8 (form_value v)) as Hint.
    { unfold int_opt. intros z w. destruct (z =? 0)%Z; [done|]. intros [= <-]. apply itoa_utf8. }
    repeat (apply Forall_cons_2 || apply Forall_nil_2); (split; [utf8_name|]); cbn [fst snd]; try apply Hstr; try apply Hint.
    - intros w [= <-]. apply itoa_utf8.
    - destruct (cs_Start s) as [[]|]; intros w [= <-]; utf8_name. }
  intros Hf%field_of_in. rewrite Forall_forall in Hall. destruct (Hall _ Hf) as [Hk Hv]. split; [done|by apply Hv].
Qed.
Lemma stored_config_utf8 s cfg : storable s → stored_config s cfg → utf8_config cfg.
Proof.
  intros Hs Hcfg k v Hk. rewrite Hcfg in Hk. case_decide as Hd; [|done]. injection Hk as <-. destruct Hd as (_ & _ & [vs Hvs]).
  assert (valid_utf8 k ∧ valid_utf8 (vget (create_form s) k)) as [Hk Hv].
  { unfold vget. rewrite lookup_create_form in *. destruct (cs_Extra s !! k) as [v|] eqn:E.
    - destruct Hs as (_ & _ & _ & _ & _ & _ & _ & He). exact (He _ _ E).
    - destruct (field_of k (CreateSpec_optional s)) as [v|] eqn:Hf; [|done]. by apply (form_text_utf8 s). }
  split; [done|]. unfold parseConfigValue. destruct (atoi _); [apply itoa_utf8|done].
Qed.

Lemma qemu_path_join node : qemuPath node = join "/" ("" :: ["nodes"; node; "qemu"]).
Proof. reflexivity. Qed.
Lemma config_path_join node vmid :
  vmPath node vmid +:+ "/config" = join "/" ("" :: ["nodes"; node; "qemu"; itoa vmid; "config"]).
Proof. unfold vmPath, qemuPath. rewrite !str_app_assoc. reflexivity. Qed.

(** The configuration the SDK reads of a VM of the mock. *)
Lemma Service_Config_mock s node vmid rec c :
  plain node → int64_ok vmid = true → lookupVM s node vmid = Some rec →
  utf8_config (vm_Config rec) → Config_UnmarshalJSON (qemu_config_payload (vm_Config rec)) = Some c →
  Service_Config node vmid s = (s, inr c).
Proof.
  intros Hn Hv Hrec Hutf Hc. unfold Service_Config. pose proof (plain_itoa vmid Hv) as Hpv.
  rewrite (DoRequest_route 7 "GET" ["nodes"; node; "qemu"; itoa vmid; "config"]
    "GET /api2/json/nodes/{node}/qemu/{vmid}/config" handleQEMUConfig [("node", node); ("vmid", itoa vmid)]);
    [|reflexivity|destruct Hn as [Hn _], Hpv as [Hpv _]; match_plain|plain_segments|apply config_path_join|reflexivity
     |discriminate|discriminate|exact I].
  unfold serve, handleQEMUConfig. rewrite run_authenticated by apply authenticated_form. unfold vmidOf. runs.
  match goal with |- context [atoi (PathValue ?r "vmid")] => change (PathValue r "vmid") with (itoa vmid) end.
  rewrite atoi_itoa by done. runs.
  match goal with |- context [PathValue ?r "node"] => change (PathValue r "node") with node end.
  rewrite Hrec. runs. unfold writeData, ok. cbn [run answer code Monad.body Data Errors Message].
  by rewrite read_success, config_payload_kept, Hc.
Qed.

(** C16. What a caller creates is what it reads back. Creating a VM on the mock
    through the SDK succeeds with a task reference; waiting on it returns at the
    first poll with success; and the configuration read afterwards has the name,
    memory, cores, sockets, CPU, OS type, disk, interface and boot order of the
    specification, unset ones as zero values, and every unmodelled parameter,
    unchanged unless it reads as an integer, which comes back in canonical form.
    Every other VM of the mock is untouched. The texts are UTF-8, and the form fits the
    mock's cap on bodies. *)
Theorem qemu_create_roundtrip `{!Timers state} node spec s s' r :
  plain node → no_byte ":" node = true → storable spec → int64_ok (st_clock s) = true →
  (Z.of_nat (String.length (Encode (create_form spec))) ≤ maxFormBytes)%Z →
  Create node (Some spec) s = (s', r) →
  (∃ ref, r = inr ref ∧ ∀ p, ∃ st, Wait p 1 ref s' = Some (s', (st, None)) ∧ ExitStatus st = "OK") ∧
  (∃ c, Service_Config node (cs_VMID spec) s' = (s', inr c) ∧ reads_back spec c) ∧
  (∀ node' vmid', (node', vmid') ≠ (node, cs_VMID spec) → lookupVM s' node' vmid' = lookupVM s node' vmid').
Proof.
  intros Hn Hcolon Hs Hclock Hcap. unfold Create.
  rewrite (DoRequest_route 5 "POST" ["nodes"; node; "qemu"] "POST /api2/json/nodes/{node}/qemu" handleQEMUCreate
    [("node", node)]);
    [|reflexivity|destruct Hn as [Hn _]; match_plain|plain_segments|apply qemu_path_join|reflexivity|discriminate|discriminate|exact I].
  set (req := form_request _ _ _ _). destruct (serve (handleQEMUCreate req) s) as [s1 resp] eqn:Hserve.
  assert (PostForm req = Some (create_form spec)) as Hform.
  { rewrite <- create_form_sent. by apply (form_request_posts _ _ _ (Some (BValues (create_form spec)))). }
  assert (vget (create_form spec) "vmid" = itoa (cs_VMID spec)) as Hget.
  { unfold vget. rewrite lookup_create_form, extra_not_known by (done || by apply (bool_decide_unpack _)). done. }
  pose proof Hs as (Hv & _ & _ & _ & _ & Hextra & _).
  apply (create_then_read s req (create_form spec) (cs_VMID spec)) in Hserve
    as ((s0 & Hck & Hs1) & Hresp & (rec & Hrec & _ & _ & _ & Hcfg) & Hother & _);
    [|apply authenticated_form|exact Hform|rewrite Hget; by apply atoi_itoa].
  change (PathValue req "node") with node in *. rewrite Hget in *. subst resp. cbn [code Monad.body Data Errors Message].
  assert (Forall plain_field [node; "qmcreate"; itoa (cs_VMID spec)]) as Hpf.
  { repeat apply Forall_cons_2; [split; [done|apply Hn]|by vm_compute|apply plain_field_itoa|apply Forall_nil_2]. }
  rewrite read_success. cbn [json_utf8]. rewrite to_utf8_id by by apply plain_utf8, upid_at_plain.
  cbn [as_string_out as_string]. unfold task_of, then_result. intros [= <- <-].
  split_and!.
  - eexists. split; [apply TaskRef_upid; done|]. intros p. rewrite Hs1, <- Hck.
    destruct (wait_finished p 1 node "qmcreate" (itoa (cs_VMID spec)) s0) as (st & Hw & _ & He & _);
      [done|done|by rewrite Hck|lia|]. by exists st.
  - assert (stored_config spec (vm_Config rec)) as Hst.
    { unfold stored_config. intros k. apply Hcfg. unfold vget. rewrite lookup_create_form.
      destruct (cs_Extra spec !! "delete") as [v|] eqn:E; [by destruct (Hextra _ _ E)|done]. }
    destruct (decode_stored spec (vm_Config rec)) as (c & Hc & Hr); [done..|].
    pose proof (stored_config_utf8 _ _ Hs Hst). exists c. split; [|done]. by apply (Service_Config_mock s1 node (cs_VMID spec) rec c).
  - exact Hother.
Qed.

Lemma qemu_create_roundtrip_witness :
  let _ : Timers state := λ d s, (set_clock (st_clock s + d) s, None) in
  let spec := {| cs_VMID := 101%Z; cs_Name := "db"; cs_Memory := 2048; cs_Cores := 2; cs_Sockets := 0; cs_CPU := "host"; cs_OSType := "l26";
                 cs_SCSI0 := "local-lvm:32"; cs_Net0 := "virtio,bridge=vmbr0"; cs_Boot := ""; cs_Storage := ""; cs_Start := Some true;
                 cs_Extra := {[ "ciuser" := "ops & dev"; "startup" := "007" ]} |} in
  let out := Create "pve" (Some spec) seeded in
  ∃ c, Service_Config "pve" 101 out.1 = (out.1, inr c) ∧ cf_Memory c = 2048%Z ∧ cf_Extra c !! "ciuser" = Some "ops & dev" ∧
    cf_Extra c !! "startup" = Some "7".
Proof.
  intros T spec out.
  destruct (qemu_create_roundtrip "pve" spec seeded out.1 out.2) as (_ & (c & Hc & Hr) & _).
  - by apply (bool_decide_unpack _); vm_compute.
  - reflexivity.
  - split_and!; try reflexivity; [repeat constructor| |repeat apply Forall_cons_2; try apply Forall_nil_2; utf8_name|].
    + apply map_Forall_insert_2; [|apply map_Forall_singleton];
        (split; [discriminate|apply (bool_decide_unpack _); vm_compute; reflexivity]).
    + apply map_Forall_insert_2; [|apply map_Forall_singleton]; split; utf8_name.
  - vm_compute. reflexivity.
  - vm_compute. discriminate.
  - apply surjective_pairing.
  - exists c. split; [exact Hc|]. destruct Hr as (_ & Hm & _ & _ & _ & _ & _ & _ & _ & _ & _ & He).
    split_and!; [exact Hm|..]; [rewrite (He "ciuser" "ops & dev")|rewrite (He "startup" "007")]; vm_compute; reflexivity.
Defined.

(** The restriction to texts that do not read as integers is needed: the mock
    stores such a name as a number, and the SDK cannot read the configuration. *)
Lemma numeric_name_unreadable :
  let spec := {| cs_VMID := 101%Z; cs_Name := "123"; cs_Memory := 0; cs_Cores := 0; cs_Sockets := 0; cs_CPU := ""; cs_OSType := "";
                 cs_SCSI0 := ""; cs_Net0 := ""; cs_Boot := ""; cs_Storage := ""; cs_Start := None; cs_Extra := ∅ |} in
  let out := Create "pve" (Some spec) seeded in
  (∃ ref, out.2 = inr ref) ∧ ∃ e, (Service_Config "pve" 101 out.1).2 = inl e.
Proof. vm_compute. split; eexists; reflexivity. Qed.
