(* ===== verification/NodesEndToEnd.v ===== *)
(** The node service against the mock: what a configuration update leaves, read
    through the SDK before and after it. *)

From S2P Require Import Prelude Json JsonText Types Pverr Api Url Wire Transport Tasks Svcutil Monad MockState MockServer MockAdmin MockAcme.
From S2P Require Import MockInv MockWf MockProofs MockMgmtProofs MockWeb EndToEnd QemuEndToEnd NodesClient NodesProofs.
From Stdlib Require Import ZArith Lia Ascii.
From stdpp Require Import options.

(** ** Reading a stored configuration *)

(** The keys of a configuration that a typed field claims. *)
Definition typed (k t : string) : bool :=
  (k =s "acme") || (k =s "digest") ||
  match acmeDomainSlot k, parseACMEDomain t with Some _, inr _ => true | _, _ => false end.

(** The domain in slot [i] of a configuration. *)
Definition stored_domain (cfg : gmap string string) (i : Z) : option ACMEDomain :=
  t ← cfg !! ACMEDomainKey i; j ← acmeDomainSlot (ACMEDomainKey i);
  match parseACMEDomain t with inl _ => None | inr d => Some (at_slot j d) end.

(** [c] is what the SDK reads of the configuration [cfg]. *)
Definition reads (cfg : gmap string string) (c : NodeConfig) : Prop :=
  nc_ACME c = parseNodeACME <$> cfg !! "acme" ∧
  (∀ d, d ∈ nc_ACMEDomains c ↔ stored_domain cfg (ad_Index d) = Some d) ∧
  ∀ k, nc_Extra c !! k = (t ← cfg !! k; if typed k t then None else Some t).

Lemma claimed_text k t : claimed (k, JStr t) = typed k t.
Proof.
  destruct (decide (k = "acme")) as [->|Ha]; [done|]. destruct (decide (k = "digest")) as [->|Hd]; [done|].
  unfold claimed, typed, acme_of, digest_of, slot_of. cbn [fst snd as_string_out as_string mbind option_bind].
  rewrite !(bool_decide_eq_false_2 (k = _)) by done. by destruct (acmeDomainSlot k), (parseACMEDomain t).
Qed.

Lemma read_config cfg : ∃ c, NodeConfig_UnmarshalJSON (jmap_str cfg) = Some c ∧ reads cfg c.
Proof.
  destruct (jmap_obj (JStr <$> cfg)) as (l & Hl & Hm). unfold jmap_str. rewrite Hl.
  destruct (decode_node_config l) as (c & Hc & Ha & _ & Hd & _ & _ & He). unfold obj_map in *. rewrite Hm in *.
  exists c. split; [done|]. split_and!.
  - rewrite Ha, lookup_fmap. by destruct (cfg !! "acme").
  - intros d. rewrite Hd. unfold slot_in, stored_domain. rewrite lookup_fmap. by destruct (cfg !! _).
  - intros k. rewrite He, lookup_fmap. destruct (cfg !! k) as [t|]; [|done]. cbn [fmap option_fmap option_map mbind option_bind].
    by rewrite claimed_text.
Qed.

(** ** The two calls *)

Definition config_of (s : state) (node : string) : gmap string string := n_config (node_of s node).

Lemma node_config_path_join node : nodeConfigPath node = join "/" ("" :: ["nodes"; node; "config"]).
Proof. reflexivity. Qed.

(** Texts that JSON carries. *)
Definition utf8_map (m : gmap string string) : Prop := map_Forall (λ k v, valid_utf8 k ∧ valid_utf8 v) m.
Lemma config_map_kept m : utf8_map m → json_utf8 (jmap_str m) = jmap_str m.
Proof.
  intros Hm. apply textual_kept, textual_jmap, map_Forall_fmap. eapply map_Forall_impl; [exact Hm|].
  intros k v [Hk Hv]. by split; [|constructor].
Qed.

Lemma read_node_config s node c :
  plain node → utf8_map (<["digest" := mockNodeConfigDigest]> (config_of s node)) →
  NodeConfig_UnmarshalJSON (jmap_str (<["digest" := mockNodeConfigDigest]> (config_of s node))) = Some c →
  GetNodeConfig node s = (s, inr c).
Proof.
  intros Hn Hutf Hc. unfold GetNodeConfig. pose proof Hn as [Hne _]. rewrite bool_decide_eq_false_2 by done. unfold read_data.
  rewrite (DoRequest_route 116 "GET" ["nodes"; node; "config"] "GET /api2/json/nodes/{node}/config" handleNodeConfigGet
    [("node", node)]);
    [|reflexivity|match_plain|plain_segments|apply node_config_path_join|reflexivity|discriminate|discriminate|exact I].
  unfold serve, handleNodeConfigGet. rewrite run_authenticated by apply authenticated_form. runs.
  unfold writeData, ok. cbn [run answer code Monad.body Data Errors Message].
  match goal with |- context [PathValue ?r "node"] => change (PathValue r "node") with node end.
  assert (default ∅ (of_node s node n_config) = config_of s node) as ->.
  { unfold of_node, config_of, node_of, ensureNode. by destruct (st_nodes s !! node). }
  match goal with |- context [vget ?q "property"] => change (vget q "property") with "" end.
  rewrite (bool_decide_eq_true_2 ("" = "")) by done. by rewrite read_success, config_map_kept, Hc.
Qed.

Lemma write_node_config s node form :
  plain node → stale_digest (sent form) mockNodeConfigDigest = false →
  (Z.of_nat (String.length (Encode form)) ≤ maxFormBytes)%Z →
  send "nodes.SetNodeConfig" "PUT" (nodeConfigPath node) (Some (BValues form)) s =
    (update_node node (set_node_config (apply_node_config (sent form))) s, inr ()).
Proof.
  intros Hn Hd Hcap. unfold send. pose proof Hn as [Hne _].
  rewrite (DoRequest_route 117 "PUT" ["nodes"; node; "config"] "PUT /api2/json/nodes/{node}/config" handleNodeConfigSet
    [("node", node)]);
    [|reflexivity|match_plain|plain_segments|apply node_config_path_join|reflexivity|discriminate|discriminate|exact I].
  unfold serve, handleNodeConfigSet. rewrite run_authenticated by apply authenticated_form. unfold parseForm.
  rewrite form_request_posts by done. cbn [body_form]. runs. rewrite Hd. cbn [negb]. runs.
  reflexivity.
Qed.

(** ** The form of an update *)

Definition slot_texts (ds : list ACMEDomain) : list (string * string) :=
  (λ d, (ACMEDomainKey (ad_Index d), encodeACMEDomain d)) <$> ds.

Definition slots_ok (ds : list ACMEDomain) : Prop :=
  Forall (λ d, domain_ok d ∧ (0 ≤ ad_Index d ≤ 5)%Z) ds ∧ NoDup (ad_Index <$> ds).

Lemma key_inj i j : (0 ≤ i ≤ 5)%Z → (0 ≤ j ≤ 5)%Z → ACMEDomainKey i = ACMEDomainKey j → i = j.
Proof.
  intros Hi Hj He. assert (∀ i, (0 ≤ i ≤ 5)%Z → int64_ok i = true) as Hok by (unfold int64_ok, min_int64, max_int64; lia).
  apply (f_equal acmeDomainSlot) in He. rewrite !slot_of_key in He by (lia || by apply Hok). by simplify_eq.
Qed.

Lemma NoDup_slot_keys ds : slots_ok ds → NoDup (slot_texts ds).*1.
Proof.
  intros [Hf Hnd]. unfold slot_texts. rewrite <- list_fmap_compose. induction ds as [|d ds IH]; [constructor|].
  apply Forall_cons in Hf as [[_ Hd] Hf]. cbn in Hnd. apply NoDup_cons in Hnd as [Hn Hnd]. cbn. apply NoDup_cons.
  split; [|by apply IH]. intros (d' & He & Hd')%list_elem_of_fmap. cbn in He. rewrite Forall_forall in Hf.
  destruct (Hf _ Hd') as [_ Hi]. apply Hn. rewrite (key_inj _ _ Hd Hi He). by apply list_elem_of_fmap_2.
Qed.

Lemma set_slots_ok seen ds b :
  slots_ok ds → (∀ d, d ∈ ds → ad_Index d ∉ seen) →
  set_slots seen ds b = inr (foldl (λ b kv, <[kv.1 := [kv.2]]> b) b (slot_texts ds)).
Proof.
  revert seen b. induction ds as [|d ds IH]; intros seen b [Hf Hnd] Hseen; [done|].
  apply Forall_cons in Hf as [[(Hne & _) Hd] Hf]. cbn in Hnd. apply NoDup_cons in Hnd as [Hn Hnd]. cbn [set_slots].
  unfold ACMEDomainMaxIndex. destruct (Z.ltb_spec (ad_Index d) 0); [lia|]. destruct (Z.ltb_spec 5 (ad_Index d)); [lia|]. cbn [orb].
  rewrite bool_decide_eq_false_2 by done. rewrite bool_decide_eq_false_2 by (apply Hseen; by left).
  apply IH; [done|]. intros d' Hd'. apply not_elem_of_cons. split; [|apply Hseen; by right].
  intros He. apply Hn. rewrite <- He. by apply list_elem_of_fmap_2.
Qed.

(** An update the mock can give back: property strings without white space, each
    slot once and within bounds, plain key names, no modelled key among the
    extra ones, these in UTF-8, and the digest of the configuration or none. *)
Definition update_ok (u : NodeConfigUpdate) : Prop :=
  (∀ a, nu_ACME u = Some a → acme_ok a ∧ encodeNodeACME a ≠ "") ∧
  slots_ok (nu_ACMEDomains u) ∧
  Forall (λ k, k ≠ "" ∧ prop_text k) (nu_Delete u) ∧
  (nu_Digest u = "" ∨ nu_Digest u = mockNodeConfigDigest) ∧
  map_Forall (λ k _, (k ∉ ["acme"; "digest"; "delete"]) ∧ acmeDomainSlot k = None) (nu_Extra u) ∧
  utf8_map (nu_Extra u).

(** The text an update writes under a key. *)
Definition written (u : NodeConfigUpdate) (k : string) : option string :=
  if decide (k = "acme") then encodeNodeACME <$> nu_ACME u
  else match (list_to_map (slot_texts (nu_ACMEDomains u)) : gmap string string) !! k with
       | Some t => Some t
       | None => nu_Extra u !! k
       end.

Definition update_form (u : NodeConfigUpdate) : values :=
  let body := EncodeWithExtra [] (nu_Extra u) in
  let body := match encodeNodeACME <$> nu_ACME u with Some acme => <["acme" := [acme]]> body | None => body end in
  set_text "digest" (nu_Digest u) (set_list "delete" (nu_Delete u)
    (foldl (λ b kv, <[kv.1 := [kv.2]]> b) body (slot_texts (nu_ACMEDomains u)))).

Lemma SetNodeConfig_sends {W} `{!Client W} node u (w : W) :
  update_ok u → node ≠ "" →
  SetNodeConfig node (Some u) w = send "nodes.SetNodeConfig" "PUT" (nodeConfigPath node) (Some (BValues (update_form u))) w.
Proof.
  intros (Ha & Hs & _) Hne. unfold SetNodeConfig. rewrite bool_decide_eq_false_2 by done. cbn zeta.
  rewrite bool_decide_eq_false_2.
  - rewrite set_slots_ok; [done|done|intros; apply not_elem_of_nil].
  - destruct (nu_ACME u) as [a|]; [|done]. cbn. intros [= He]. by apply (Ha a).
Qed.

Lemma slot_key_facts u k t :
  update_ok u → (list_to_map (slot_texts (nu_ACMEDomains u)) : gmap string string) !! k = Some t →
  ∃ d, d ∈ nu_ACMEDomains u ∧ k = ACMEDomainKey (ad_Index d) ∧ t = encodeACMEDomain d ∧ domain_ok d ∧
       acmeDomainSlot k = Some (ad_Index d).
Proof.
  intros (_ & Hs & _) Hk. pose proof Hs as [Hf _].
  apply elem_of_list_to_map_2, list_elem_of_fmap in Hk as (d & [= -> ->] & Hd). exists d. rewrite Forall_forall in Hf.
  destruct (Hf _ Hd) as [Hok Hi]. split_and!; try done. apply slot_of_key; [lia|].
  unfold int64_ok, min_int64, max_int64. lia.
Qed.

Lemma lookup_set_list key l b k : lookup k (set_list key l b) = if decide (k = key ∧ l ≠ []) then Some [join "," l] else b !! k.
Proof.
  unfold set_list. destruct l as [|x l]; [by rewrite decide_False by naive_solver|].
  destruct (decide (k = key)) as [->|Hne]; [by rewrite decide_True, lookup_insert_eq|].
  by rewrite decide_False, lookup_insert_ne by naive_solver.
Qed.
Lemma lookup_set_text key v b k : lookup k (set_text key v b) = if decide (k = key ∧ v ≠ "") then Some [v] else b !! k.
Proof.
  unfold set_text. case_bool_decide; [by rewrite decide_False by naive_solver|].
  destruct (decide (k = key)) as [->|Hne]; [by rewrite decide_True, lookup_insert_eq|].
  by rewrite decide_False, lookup_insert_ne by naive_solver.
Qed.

Lemma fixed_not_written u x :
  update_ok u → x ∈ ["acme"; "digest"; "delete"] →
  (list_to_map (slot_texts (nu_ACMEDomains u)) : gmap string string) !! x = None ∧ nu_Extra u !! x = None.
Proof.
  intros Hu Hx. pose proof Hu as (_ & _ & _ & _ & He & _). split; apply eq_None_not_Some; intros [t Ht].
  - destruct (slot_key_facts u x t Hu Ht) as (d & _ & _ & _ & _ & Hsl).
    repeat (apply elem_of_cons in Hx as [->|Hx]; [discriminate Hsl|]). by apply not_elem_of_nil in Hx.
  - by destruct (He _ _ Ht) as [Hn _].
Qed.

(** What the update's form has under each key. *)
Lemma lookup_update_form u k :
  update_ok u →
  update_form u !! k =
    if decide (k = "digest") then (if decide (nu_Digest u = "") then None else Some [nu_Digest u])
    else if decide (k = "delete") then (if decide (nu_Delete u = []) then None else Some [join "," (nu_Delete u)])
    else (λ v, [v]) <$> written u k.
Proof.
  intros Hu. pose proof Hu as (_ & Hs & _ & _ & He & _). unfold update_form. rewrite lookup_set_text, lookup_set_list.
  rewrite lookup_foldl_extra by by apply NoDup_slot_keys.
  pose proof (λ x, fixed_not_written u x Hu) as Hfix.
  assert (∀ x, (EncodeWithExtra [] (nu_Extra u) : values) !! x = (λ v, [v]) <$> nu_Extra u !! x) as Henc.
  { intros x. rewrite lookup_EncodeWithExtra. by destruct (nu_Extra u !! x). }
  unfold written. destruct (decide (k = "digest")) as [->|Hdg]; [|destruct (decide (k = "delete")) as [->|Hdl]].
  - destruct (Hfix "digest") as [H1 H2]; [set_solver|]. rewrite H1. repeat case_decide; try naive_solver.
    destruct (nu_ACME u); cbn; rewrite ?lookup_insert_ne by done; by rewrite Henc, H2.
  - destruct (Hfix "delete") as [H1 H2]; [set_solver|]. rewrite H1. repeat case_decide; try naive_solver.
    destruct (nu_ACME u); cbn; rewrite ?lookup_insert_ne by done; by rewrite Henc, H2.
  - rewrite !decide_False by naive_solver. destruct (decide (k = "acme")) as [->|Hac].
    + destruct (Hfix "acme") as [H1 H2]; [set_solver|]. rewrite H1.
      destruct (nu_ACME u); cbn; [by rewrite lookup_insert_eq|by rewrite Henc, H2].
    + destruct (list_to_map (slot_texts _) !! k); [done|].
      destruct (nu_ACME u); cbn; rewrite ?lookup_insert_ne by done; apply Henc.
Qed.

Lemma lookup_sent (f : values) k : sent f !! k = match f !! k with Some [] => None | o => o end.
Proof.
  unfold sent. destruct (f !! k) as [[|v vs]|] eqn:E.
  - apply map_lookup_filter_None. right. intros x Hx. rewrite E in Hx. injection Hx as <-. intros Hn. by apply Hn.
  - by apply map_lookup_filter_Some.
  - apply map_lookup_filter_None. by left.
Qed.

Lemma vget_sent f k : vget (sent f) k = vget f k.
Proof. unfold vget. rewrite lookup_sent. by destruct (f !! k) as [[|??]|]. Qed.

(** The stored configuration after an update. *)
Lemma updated_config u cfg k :
  update_ok u → k ≠ "digest" →
  apply_node_config (sent (update_form u)) cfg !! k =
    match written u k with
    | Some t => Some t
    | None => if decide (k ∈ nu_Delete u) then None else cfg !! k
    end.
Proof.
  intros Hu H1. rewrite lookup_apply_node_config, vget_sent.
  assert (submitted (sent (update_form u)) k = written u k) as ->.
  { unfold submitted. rewrite lookup_sent, lookup_update_form by done. destruct (decide (k = "delete")) as [->|H2].
    - unfold written. destruct (fixed_not_written u "delete") as [-> ->]; [done|set_solver|done].
    - rewrite (decide_False (P := _ ∨ _)), decide_False by naive_solver. by destruct (written u k). }
  unfold vget. rewrite !lookup_update_form by done. rewrite (decide_False (P := "delete" = "digest")), (decide_True (P := "delete" = "delete")) by done.
  destruct (written u k) as [t|]; cbn; [done|]. destruct Hu as (_ & _ & Hdel & _).
  destruct (decide (nu_Delete u = [])) as [->|Hne]; [by rewrite !decide_False by set_solver|].
  rewrite (split_join ","); [|done|by eapply Forall_impl; [exact Hdel|intros x [_ Hx]; by apply prop_no_comma]].
  assert (trim_space <$> nu_Delete u = nu_Delete u) as ->.
  { rewrite <- (list_fmap_id (nu_Delete u)) at 2. apply list_fmap_ext. intros i x Hx. rewrite Forall_forall in Hdel.
    apply trim_prop. by apply Hdel, list_elem_of_lookup_2 with i. }
  assert (join "," (nu_Delete u) ≠ "") as Hj.
  { intros Hj. apply (join_empty ","%char) in Hj; [done|]. rewrite Forall_forall in Hdel. intros x Hx. by apply Hdel. }
  repeat case_decide; naive_solver.
Qed.

Lemma written_slot u d :
  update_ok u → d ∈ nu_ACMEDomains u → written u (ACMEDomainKey (ad_Index d)) = Some (encodeACMEDomain d).
Proof.
  intros Hu Hd. pose proof Hu as (_ & Hs & _). unfold written. rewrite decide_False by done.
  rewrite (elem_of_list_to_map_1 _ _ (encodeACMEDomain d)); [done|by apply NoDup_slot_keys|].
  apply list_elem_of_fmap. by exists d.
Qed.

(** What is written under a key that is a slot: the domain given for it. *)
Lemma written_at_slot u k i t :
  update_ok u → acmeDomainSlot k = Some i → written u k = Some t →
  ∃ d, d ∈ nu_ACMEDomains u ∧ ad_Index d = i ∧ t = encodeACMEDomain d ∧ domain_ok d.
Proof.
  intros Hu Hk. unfold written. case_decide; [by subst|]. pose proof Hu as (_ & _ & _ & _ & He & _).
  destruct (list_to_map _ !! k) as [t'|] eqn:Ht.
  - intros [= <-]. destruct (slot_key_facts u k t' Hu Ht) as (d & Hd & _ & -> & Hok & Hi). exists d. by simplify_eq.
  - intros Hx. destruct (He _ _ Hx). congruence.
Qed.

(** [cfg1] is [cfg0] after the update [u], the digest apart. *)
Definition updates (u : NodeConfigUpdate) (cfg0 cfg1 : gmap string string) : Prop :=
  ∀ k, k ≠ "digest" →
    cfg1 !! k = match written u k with Some t => Some t | None => if decide (k ∈ nu_Delete u) then None else cfg0 !! k end.

Lemma domains_after u cfg0 cfg1 d :
  update_ok u → updates u cfg0 cfg1 →
  stored_domain cfg1 (ad_Index d) = Some d ↔
    d ∈ nu_ACMEDomains u ∨
    (ad_Index d ∉ ad_Index <$> nu_ACMEDomains u) ∧ (ACMEDomainKey (ad_Index d) ∉ nu_Delete u) ∧
    stored_domain cfg0 (ad_Index d) = Some d.
Proof.
  intros Hu Hcfg. unfold stored_domain. rewrite Hcfg by done. set (key := ACMEDomainKey (ad_Index d)).
  assert (d ∈ nu_ACMEDomains u → acmeDomainSlot key = Some (ad_Index d) ∧ domain_ok d) as Hin.
  { intros Hd. destruct (written_slot u d Hu Hd). destruct Hu as (_ & [Hf _] & _). rewrite Forall_forall in Hf.
    destruct (Hf _ Hd). split; [|done]. apply slot_of_key; [lia|]. unfold int64_ok, min_int64, max_int64. lia. }
  destruct (acmeDomainSlot key) as [j|] eqn:Hj.
  2: { split; [by destruct (match written u key with Some _ => _ | None => _ end)|].
       intros [Hd|(_ & _ & H)]; [by destruct (Hin Hd)|by destruct (cfg0 !! key)]. }
  destruct (written u key) as [t|] eqn:Hw; cbn [mbind option_bind].
  - destruct (written_at_slot u key j t Hu Hj Hw) as (d' & Hd' & Hi & -> & Hok). rewrite parse_encode_domain by done.
    assert (at_slot j (at_slot 0 d') = d') as -> by (subst j; by destruct d'). split; [intros [= <-]; by left|].
    intros [Hd|(Hn & _ & H)].
    + destruct (Hin Hd) as [[= ->] Hokd]. pose proof (written_slot u d Hu Hd) as Hw'. fold key in Hw'. rewrite Hw in Hw'.
      injection Hw' as He. apply (f_equal parseACMEDomain) in He. rewrite !parse_encode_domain in He by done.
      destruct d, d'. cbn in *. by simplify_eq.
    + exfalso. apply Hn. apply bind_Some in H as (t0 & _ & H). destruct (parseACMEDomain t0); [done|]. injection H as H.
      rewrite <- H. cbn. rewrite <- Hi. by apply list_elem_of_fmap_2.
  - assert (d ∉ nu_ACMEDomains u) as Hnd by (intros Hd; pose proof (written_slot u d Hu Hd) as X; fold key in X; congruence).
    assert (ad_Index d ∉ ad_Index <$> nu_ACMEDomains u) as Hni.
    { intros (d' & Hi & Hd')%list_elem_of_fmap. pose proof (written_slot u d' Hu Hd') as Hw'. rewrite <- Hi in Hw'. fold key in Hw'. congruence. }
    case_decide; naive_solver.
Qed.

Lemma extra_after u cfg0 cfg1 k :
  update_ok u → updates u cfg0 cfg1 →
  (t ← cfg1 !! k; if typed k t then None else Some t) =
    match nu_Extra u !! k with
    | Some v => Some v
    | None => if decide (k ∈ nu_Delete u ∨ k ∈ ACMEDomainKey ∘ ad_Index <$> nu_ACMEDomains u) then None
              else (t ← cfg0 !! k; if typed k t then None else Some t)
    end.
Proof.
  intros Hu Hcfg. assert (∀ (cfg : gmap string string) x, x ∈ ["acme"; "digest"] → (t ← cfg !! x; if typed x t then None else Some t) = None) as Hfix.
  { intros cfg x Hx. destruct (cfg !! x) as [t|]; [|done]. cbn. repeat (apply elem_of_cons in Hx as [->|Hx]; [done|]).
    by apply not_elem_of_nil in Hx. }
  destruct (decide (k ∈ ["acme"; "digest"])) as [Hk|Hk].
  { rewrite !Hfix by done. destruct (fixed_not_written u k Hu) as [_ ->]; [set_solver|]. by case_decide. }
  rewrite Hcfg by set_solver. unfold written. rewrite decide_False by set_solver.
  destruct (list_to_map (slot_texts (nu_ACMEDomains u)) !! k) as [t|] eqn:Ht.
  - destruct (slot_key_facts u k t Hu Ht) as (d & Hd & Hkd & -> & Hok & Hs).
    destruct (nu_Extra u !! k) as [v|] eqn:Hv; [destruct Hu as (_ & _ & _ & _ & He & _); destruct (He _ _ Hv); congruence|].
    cbn [mbind option_bind]. unfold typed. rewrite Hs, parse_encode_domain, orb_true_r by done.
    rewrite decide_True; [done|]. right. apply list_elem_of_fmap. by exists d.
  - destruct (nu_Extra u !! k) as [v|] eqn:Hv.
    + destruct Hu as (_ & _ & _ & _ & He & _). destruct (He _ _ Hv) as [_ Hs]. cbn [mbind option_bind]. unfold typed. rewrite Hs.
      rewrite !bool_decide_eq_false_2 by set_solver. done.
    + assert (k ∉ ACMEDomainKey ∘ ad_Index <$> nu_ACMEDomains u).
      { intros (d & -> & Hd)%list_elem_of_fmap. pose proof (written_slot u d Hu Hd) as Hw. unfold written in Hw. cbn in Ht, Hv.
        rewrite decide_False in Hw by done. by rewrite Ht, Hv in Hw. }
      repeat case_decide; naive_solver.
Qed.

(** What an update writes is UTF-8. *)
Lemma prop_utf8 s : prop_text s → valid_utf8 s.
Proof.
  intros Hs. apply utf8_ascii. unfold prop_text in Hs. induction s as [|c s IH]; [done|].
  apply all_bytes_cons in Hs as [Hc Hs]. cbn [every_byte]. rewrite (IH Hs), andb_true_r.
  by destruct c as [[] [] [] [] [] [] [] []].
Qed.
Lemma utf8_join sep l : valid_utf8 sep → Forall valid_utf8 l → valid_utf8 (join sep l).
Proof.
  intros Hsep. induction 1 as [|x l Hx _ IH]; [constructor|]. destruct l as [|y l]; [done|].
  change (join sep (x :: y :: l)) with (x +:+ sep +:+ join sep (y :: l)). by repeat apply utf8_app.
Qed.
Lemma utf8_item key v : valid_utf8 key → prop_text v → valid_utf8 (key +:+ String "=" v).
Proof.
  intros Hk Hv. apply utf8_app; [done|]. change (String "=" v) with ("=" +:+ v).
  apply utf8_app; [utf8_name|by apply prop_utf8].
Qed.
Lemma encode_domain_utf8 d : domain_ok d → valid_utf8 (encodeACMEDomain d).
Proof.
  intros (_ & Hd & Hp & Ha). change (encodeACMEDomain d) with (join (String "," "") (domain_items d)).
  apply utf8_join; [utf8_name|]. unfold domain_items.
  case_bool_decide; case_bool_decide; cbn [app]; repeat (apply Forall_cons_2 || apply Forall_nil_2); apply utf8_item; (done || utf8_name).
Qed.
Lemma encode_acme_utf8 a : acme_ok a → valid_utf8 (encodeNodeACME a).
Proof.
  intros [Ha Hds]. unfold encodeNodeACME. apply utf8_join; [utf8_name|].
  assert (valid_utf8 ("account=" +:+ na_Account a)) by (apply utf8_app; [utf8_name|by apply prop_utf8]).
  assert (valid_utf8 ("domains=" +:+ join ";" (na_Domains a))).
  { apply utf8_app; [utf8_name|]. apply prop_utf8, prop_join. eapply Forall_impl; [exact Hds|naive_solver]. }
  apply Forall_app_2; repeat case_match; repeat (apply Forall_cons_2 || apply Forall_nil_2); done.
Qed.
Lemma written_utf8 u k t : update_ok u → written u k = Some t → valid_utf8 k ∧ valid_utf8 t.
Proof.
  intros Hu. unfold written. pose proof Hu as (Ha & _ & _ & _ & _ & He). case_decide as Hk.
  { subst k. destruct (nu_ACME u) as [a|]; [|done]. intros [= <-]. split; [utf8_name|]. apply encode_acme_utf8. by apply Ha. }
  destruct (list_to_map _ !! k) as [t'|] eqn:Ht; [|by apply He]. intros [= <-].
  destruct (slot_key_facts u k t' Hu Ht) as (d & _ & -> & -> & Hd & _). split; [|by apply encode_domain_utf8].
  unfold ACMEDomainKey. apply utf8_app; [utf8_name|apply itoa_utf8].
Qed.
Lemma updates_utf8 u cfg0 cfg1 :
  update_ok u → updates u cfg0 cfg1 → utf8_map cfg0 → cfg1 !! "digest" = Some mockNodeConfigDigest → utf8_map cfg1.
Proof.
  intros Hu Hup H0 Hd k t Hk. destruct (decide (k = "digest")) as [->|Hne].
  { rewrite Hd in Hk. injection Hk as <-. split; utf8_name. }
  rewrite Hup in Hk by done. destruct (written u k) as [t'|] eqn:Hw; [injection Hk as <-; by eapply written_utf8|].
  case_decide; [done|]. exact (H0 _ _ Hk).
Qed.

(** C17. An update of a node's configuration changes what it names and nothing else.
    The write succeeds, and the configuration read afterwards has: the account of
    the update, or none if the update deletes it, or the earlier one; in each slot
    the domain of the update, or none if the slot is deleted, or the earlier one;
    and of the other keys the extra ones of the update with their values, and the
    earlier ones that are neither deleted nor overwritten. What the mock has and what is
    written is UTF-8, and the form fits the mock's cap on bodies. *)
Theorem node_config_update s node u s' r :
  plain node → utf8_map (config_of s node) → update_ok u →
  (Z.of_nat (String.length (Encode (update_form u))) ≤ maxFormBytes)%Z → SetNodeConfig node (Some u) s = (s', r) →
  r = inr () ∧ ∃ c0 c1, GetNodeConfig node s = (s, inr c0) ∧ GetNodeConfig node s' = (s', inr c1) ∧
  nc_ACME c1 = (match nu_ACME u with Some a => Some a | None => if decide ("acme" ∈ nu_Delete u) then None else nc_ACME c0 end) ∧
  (∀ d, d ∈ nc_ACMEDomains c1 ↔
    d ∈ nu_ACMEDomains u ∨
    (ad_Index d ∉ ad_Index <$> nu_ACMEDomains u) ∧ (ACMEDomainKey (ad_Index d) ∉ nu_Delete u) ∧ d ∈ nc_ACMEDomains c0) ∧
  ∀ k, nc_Extra c1 !! k =
    match nu_Extra u !! k with
    | Some v => Some v
    | None => if decide (k ∈ nu_Delete u ∨ k ∈ ACMEDomainKey ∘ ad_Index <$> nu_ACMEDomains u) then None else nc_Extra c0 !! k
    end.
Proof.
  intros Hn Hutf Hu Hcap. pose proof Hn as [Hne _]. rewrite SetNodeConfig_sends, write_node_config by
    (done || (unfold stale_digest; rewrite vget_sent; unfold vget; rewrite lookup_update_form by done; cbn;
              destruct Hu as (_ & _ & _ & [->| ->] & _); done)).
  intros [= <- <-]. split; [done|]. set (s1 := update_node _ _ _).
  set (cfg0 := <["digest" := mockNodeConfigDigest]> (config_of s node)).
  set (cfg1 := <["digest" := mockNodeConfigDigest]> (config_of s1 node)).
  destruct (read_config cfg0) as (c0 & Hc0 & Ha0 & Hd0 & He0), (read_config cfg1) as (c1 & Hc1 & Ha1 & Hd1 & He1).
  assert (updates u cfg0 cfg1) as Hup.
  { intros k Hk. unfold cfg0, cfg1. rewrite !lookup_insert_ne by done. unfold config_of at 1, s1. rewrite node_of_update.
    by apply updated_config. }
  assert (utf8_map cfg0) as Hutf0 by (apply map_Forall_insert_2; [split; utf8_name|done]).
  assert (utf8_map cfg1) as Hutf1 by (eapply updates_utf8; [exact Hu|exact Hup|done|apply lookup_insert_eq]).
  exists c0, c1. split_and!; [by apply read_node_config|by apply read_node_config|..].
  - rewrite Ha1, Hup, Ha0 by done. unfold written. rewrite decide_True by done.
    destruct (nu_ACME u) as [a|] eqn:Hacme; cbn; [|by case_decide]. f_equal. apply parse_encode_acme. by apply Hu.
  - intros d. rewrite Hd1, Hd0. by apply domains_after.
  - intros k. rewrite He1, He0. by apply extra_after.
Qed.

Lemma node_config_update_witness :
  let s := SetNodeConfigKey "pve" "acmedomain2" "old.example.com,plugin=cf"
             (SetNodeConfigKey "pve" "acmedomain0" "a.example.com" (SetNodeConfigKey "pve" "location" "rack 4" (New 0))) in
  let d := {| ad_Index := 2; ad_Domain := "new.example.com"; ad_Plugin := "cf"; ad_Alias := "" |} in
  let u := {| nu_ACME := Some {| na_Account := "staging"; na_Domains := [] |}; nu_ACMEDomains := [d];
              nu_Delete := ["acmedomain0"]; nu_Digest := mockNodeConfigDigest; nu_Extra := {[ "description" := "edge, 1" ]} |} in
  let s' := (SetNodeConfig "pve" (Some u) s).1 in
  ∃ c, GetNodeConfig "pve" s' = (s', inr c) ∧ nc_ACMEDomains c = [d] ∧ nc_Extra c !! "location" = Some "rack 4" ∧
    nc_Extra c !! "description" = Some "edge, 1".
Proof.
  intros s d u s'.
  destruct (node_config_update s "pve" u s' (SetNodeConfig "pve" (Some u) s).2) as (_ & c0 & c1 & H0 & H1 & _ & Hd & He).
  - by apply (bool_decide_unpack _); vm_compute.
  - change (config_of s "pve") with ({["acmedomain2" := "old.example.com,plugin=cf"; "acmedomain0" := "a.example.com"; "location" := "rack 4"]} : gmap string string).
    repeat (apply map_Forall_insert_2; [split; utf8_name|]). apply map_Forall_empty.
  - split_and!.
    + intros a [= <-]. split; [split; [vm_compute; reflexivity|constructor]|discriminate].
    + split; [|apply NoDup_singleton]. repeat constructor; cbn; try discriminate; vm_compute; try reflexivity; discriminate.
    + apply Forall_cons_2; [split; [discriminate|vm_compute; reflexivity]|apply Forall_nil_2].
    + by right.
    + apply map_Forall_singleton. split; [|vm_compute; reflexivity]. apply (bool_decide_unpack _). vm_compute. exact I.
    + apply map_Forall_singleton. split; utf8_name.
  - vm_compute. discriminate.
  - apply surjective_pairing.
  - exists c1. split; [exact H1|]. split_and!.
    + vm_compute in H1. injection H1 as <-. reflexivity.
    + rewrite He. vm_compute in H0. injection H0 as <-. vm_compute. reflexivity.
    + rewrite He. vm_compute. reflexivity.
Defined.
