(* ===== verification/LabPool.v ===== *)
(** The teardown's goroutines against the mock, interleaved in every way and with
    requests dropped, answers lost and requests repeated. A goroutine is replayed:
    what it asks next is the next question of the program run on the answers it has
    received so far. *)

From S2P Require Import Prelude Json Types Pverr Api Url Wire Transport Tasks Svcutil Monad MockState MockServer MockGuests MockQemu.
From S2P Require Import MockInv MockWfCore MockWf MockProofs MockWeb EndToEnd QemuClient QemuEndToEnd MockReads.
From Stdlib Require Import ZArith Lia Ascii.
From stdpp Require Import relations options.
From S2P Require Import LabConfig LabState LabOps LabCluster LabLog.
Set Default Proof Using "Type*".

(** ** Goroutines of the client *)

Inductive question := RHttp (method target text : string) | RTimer (d : Z).
(** An HTTP exchange ends with a response or an error of the transport, a timer by
    firing or by the end of the context. *)
Inductive answer := AHttp (r : goerr + response) | ATimer (o : option ctx_error).
Definition talk : Type := question * answer.
Definition http_of (a : answer) : goerr + response := match a with AHttp r => r | ATimer _ => inl GNetClosed end.
Definition timer_of (a : answer) : option ctx_error := match a with ATimer o => o | AHttp _ => Some Canceled end.

(** What the client reads of an exchange. *)
Definition read_answer {A} (path : string) (out : option (json → option A)) (r : goerr + response) : goerr + option A :=
  match r with
  | inl err => inl err
  | inr resp =>
      readResponse (sent_response resp) path out
  end.

Section recorder.
Variable env : list talk → question → answer.

Definition put (q : question) (w : list talk) : list talk * answer := let a := env w q in (w ++ [(q, a)], a).
#[local] Instance recorder_client : Client (list talk) := {|
  DoRequest A method path b out w :=
    match sent_text method b with
    | inl err => (w, inl (GPve (ClassifyNetError (ExpandPath path) err)))
    | inr text => let '(w, a) := put (RHttp method (ExpandPath path) text) w in
                  (w, read_answer (ExpandPath path) out (http_of a))
    end
|}.
#[local] Instance recorder_timers : Timers (list talk) := λ d w, let '(w, a) := put (RTimer d) w in (w, timer_of a).
#[local] Instance recorder_contexts : Contexts (list talk) := {| WithTimeout _ w := w; cancel w := w |}.

(** *** The questions of a call *)

Section questions.
Variable P : question → Prop.
Definition only (l : list talk) : Prop := Forall (λ t, P t.1) l.
Definition asks_only {A} (f : list talk → list talk * A) : Prop := ∀ w, ∃ l, (f w).1 = w ++ l ∧ only l.

Lemma only_nil : only []. Proof. constructor. Qed.
Lemma only_app l l' : only l → only l' → only (l ++ l'). Proof. apply Forall_app_2. Qed.
Lemma asks_nothing {A} (f : list talk → list talk * A) : (∀ w, (f w).1 = w) → asks_only f.
Proof. intros Hf w. exists []. rewrite Hf, app_nil_r. split; [done|constructor]. Qed.

Lemma asks_do {A} method path b (out : option (json → option A)) :
  (∀ text, P (RHttp method (ExpandPath path) text)) → asks_only (DoRequest method path b out).
Proof.
  intros HP w. unfold DoRequest. cbn [recorder_client]. destruct (sent_text method b) as [err|text]; cbn.
  - exists []. rewrite app_nil_r. split; [done|constructor].
  - eexists. split; [done|]. constructor; [apply HP|constructor].
Qed.

Lemma asks_then {A B} (f : list talk → list talk * (goerr + A)) g (k : A → list talk → list talk * (goerr + B)) :
  asks_only f → (∀ a, asks_only (k a)) → asks_only (λ w, then_result (f w) g k).
Proof.
  intros Hf Hk w. destruct (Hf w) as (l & Hw & Hl). unfold then_result. destruct (f w) as [w1 [e|a]]; cbn in *; subst w1.
  - by exists l.
  - destruct (Hk a (w ++ l)) as (l' & -> & Hl'). exists (l ++ l'). rewrite app_assoc. split; [done|by apply only_app].
Qed.

Lemma asks_sleep d : P (RTimer d) → asks_only (sleep d).
Proof. intros HP w. eexists. split; [unfold sleep, select_timer, recorder_timers, put; reflexivity|]. constructor; [exact HP|constructor]. Qed.

Lemma only_call {A} (f : list talk → list talk * (goerr + A)) : asks_only f → emits (call f) (λ l _, only l).
Proof. intros Hf. apply emits_of_call. intros w. destruct (Hf w) as (l & ? & ?). eauto. Qed.
Lemma only_bind {A B} (m : act (list talk) A) (k : A → act (list talk) B) :
  emits m (λ l _, only l) → (∀ a, emits (k a) (λ l _, only l)) → emits (and_then m k) (λ l _, only l).
Proof.
  intros Hm Hk. eapply emits_bind; [exact Hm|done|]. intros l a Hl. eapply emits_weaken; [apply Hk|].
  intros l' r Hl'. by apply only_app.
Qed.
Lemma only_outcome {A B} (m : act (list talk) A) (k : goerr + A → act (list talk) B) :
  emits m (λ l _, only l) → (∀ r, emits (k r) (λ l _, only l)) → emits (outcome m k) (λ l _, only l).
Proof.
  intros Hm Hk. eapply emits_outcome; [exact Hm|]. intros l r Hl. eapply emits_weaken; [apply Hk|].
  intros l' r' Hl'. by apply only_app.
Qed.
End questions.

(** ** What a node's teardown asks *)

Definition is_read (q : question) : Prop := match q with RHttp m _ _ => m = "GET" | RTimer _ => True end.

Lemma asks_Status r : asks_only is_read (Service_Status r).
Proof.
  unfold Service_Status. destruct (valid r); [by apply asks_nothing|].
  apply asks_then; [by apply asks_do|]. intros st. by apply asks_nothing.
Qed.
Lemma asks_failure r st : asks_only is_read (failure r st).
Proof.
  intros w. unfold failure.
  assert (asks_only is_read (Service_Log r)) as Hlog.
  { unfold Service_Log. destruct (valid r); [by apply asks_nothing|].
    apply asks_then; [by apply asks_do|]. intros ?. by apply asks_nothing. }
  destruct (Hlog w) as (l & Hw & Hl). destruct (Service_Log r w) as [w1 x]; cbn in *. by exists l.
Qed.

Lemma loop_reads p fuel i r cond w w' x :
  WaitFor_loop p fuel i r cond w = Some (w', x) → ∃ l, w' = w ++ l ∧ only is_read l.
Proof.
  revert i w. induction fuel as [|fuel IH]; intros i w; cbn [WaitFor_loop]; [done|].
  destruct (asks_Status r w) as (l & Hw & Hl). destruct (Service_Status r w) as [w1 [e|st]]; cbn in Hw; subst w1.
  { intros [= <- <-]. by exists l. }
  destruct (cond st); [intros [= <- <-]; by exists l|].
  destruct (asks_sleep is_read i I (w ++ l)) as (l' & Hw & Hl').
  destruct (sleep i (w ++ l)) as [w1 [e|]]; cbn in Hw; subst w1.
  - intros [= <- <-]. exists (l ++ l'). rewrite app_assoc. split; [done|by apply only_app].
  - intros (l2 & -> & Hl2)%IH. exists ((l ++ l') ++ l2). rewrite !app_assoc. split; [done|].
    by repeat apply only_app.
Qed.

Lemma await_reads fuel r : emits (await fuel r) (λ l _, only is_read l).
Proof.
  intros w w' x. unfold await, Wait. destruct (WaitFor _ fuel r Done w) as [[w1 [e|st]]|] eqn:Hw; [..|done];
    apply loop_reads in Hw as (l & -> & Hl).
  - intros [= <- <-]. by exists l.
  - destruct (OK st); cbn; [intros [= <- <-]; by exists l|].
    destruct (asks_failure r st (w ++ l)) as (l' & Hw & Hl'). destruct (failure r st (w ++ l)) as [w2 e]; cbn in *.
    subst w2. intros [= <- <-]. exists (l ++ l'). rewrite app_assoc. split; [done|by apply only_app].
Qed.

(** Reads, and the stop and the deletion of one guest. *)
Definition on_guest (node : string) (vmid : Z) (q : question) : Prop :=
  match q with
  | RTimer _ => True
  | RHttp m t _ => m = "GET" ∨ (m = "POST" ∧ t = ExpandPath (vmPath node vmid +:+ "/status/stop")) ∨
                   (m = "DELETE" ∧ t = ExpandPath (vmPath node vmid))
  end.
Lemma only_weaken (P Q : question → Prop) l : (∀ q, P q → Q q) → only P l → only Q l.
Proof. intros HPQ Hl. eapply Forall_impl; [exact Hl|]. intros t. apply HPQ. Qed.
Lemma is_read_on_guest node vmid q : is_read q → on_guest node vmid q.
Proof. destruct q; cbn; auto. Qed.
Lemma await_on_guest node vmid fuel r : emits (await fuel r) (λ l _, only (on_guest node vmid) l).
Proof. eapply emits_weaken; [apply await_reads|]. intros l ? Hl. eapply only_weaken; [apply is_read_on_guest|exact Hl]. Qed.

Definition config_question (cfg : Config) (n : Node) : question :=
  RHttp "GET" (ExpandPath (vmPath (o_Node (c_Outer cfg)) (nd_VMID n) +:+ "/config")) "".
(** An answer that names a guest of the harness. *)
Definition names_owned (cfg : Config) (n : Node) (a : answer) : Prop :=
  ∃ c, read_answer (ExpandPath (vmPath (o_Node (c_Outer cfg)) (nd_VMID n) +:+ "/config")) (Some Config_UnmarshalJSON) (http_of a) =
    inr (Some c) ∧ has_prefix (cf_Name c) ownedNamePrefix = true.
Definition in_block (vmid : Z) : Prop := (vmidRangeLo ≤ vmid ≤ vmidRangeHi)%Z.

(** The rest of a teardown, after the guards. *)
Lemma destroy_on_guest cfg fuel n (k : goerr + () → act (list talk) ()) :
  (∀ r, emits (k r) (λ l _, only (on_guest (o_Node (c_Outer cfg)) (nd_VMID n)) l)) →
  emits (outcome (within teardownPerOp (let! ref := call (Stop (o_Node (c_Outer cfg)) (nd_VMID n) []) in await fuel ref)) k)
    (λ l _, only (on_guest (o_Node (c_Outer cfg)) (nd_VMID n)) l).
Proof.
  intros Hk. apply only_outcome; [|done]. apply emits_within; [done..|]. apply only_bind; [|intros; apply await_on_guest].
  apply only_call. unfold Stop, statusAction, task_of. apply asks_then; [apply asks_do; intros text; cbn; auto|].
  intros a. by apply asks_nothing.
Qed.

Lemma not_ours_fatal opts msg : Force opts && IsNotFound (GWrap msg ErrNotOurs) = false.
Proof. by destruct (Force opts). Qed.

(** What the teardown of a node asks, however it is answered: nothing for a VMID
    outside the block; otherwise the guest's configuration first, and anything more
    only when the answer named a guest of the harness, and then only reads and the
    stop and the deletion of that guest. *)
Lemma teardown_trace cfg opts fuel n log r :
  teardownNode fuel cfg opts n [] = Some (log, r) →
  log = [] ∨ ∃ rest, log = (config_question cfg n, env [] (config_question cfg n)) :: rest ∧
    (rest = [] ∨ in_block (nd_VMID n) ∧ names_owned cfg n (env [] (config_question cfg n))) ∧
    only (on_guest (o_Node (c_Outer cfg)) (nd_VMID n)) rest.
Proof.
  unfold teardownNode. set (k := λ r : goerr + (), _). unfold checkOwnership.
  destruct ((nd_VMID n <? vmidRangeLo) || (vmidRangeHi <? nd_VMID n))%Z eqn:Hrange.
  { intros Hr. left. unfold outcome at 1, fail at 1, k in Hr. rewrite not_ours_fatal in Hr. unfold fail in Hr. by simplify_eq. }
  assert (in_block (nd_VMID n)) as Hblock by (unfold in_block; lia).
  set (a := env [] (config_question cfg n)).
  unfold outcome at 1, and_then at 1, wrapped at 1, outcome at 1, call, Service_Config, then_result.
  unfold DoRequest. cbn [recorder_client]. change (sent_text "GET" None) with (inr "" : goerr + string).
  unfold put. cbn [app]. fold (config_question cfg n). fold a. intros Hr. right.
  destruct (read_answer _ _ _) as [err|oc] eqn:Hread.
  - cbn in Hr. exists []. split; [|split; [by left|constructor]]. unfold k, done, fail in Hr. cbn in Hr. by case_match; simplify_eq.
  - cbn in Hr. destruct (has_prefix (cf_Name (default Config_zero oc)) ownedNamePrefix) eqn:Hp; cbn in Hr.
    2:{ exists []. split; [|split; [by left|constructor]]. unfold k in Hr. rewrite andb_false_r in Hr. unfold fail in Hr. by simplify_eq. }
    assert (emits (k (inr ())) (λ l _, only (on_guest (o_Node (c_Outer cfg)) (nd_VMID n)) l)) as Hk.
    { apply destroy_on_guest. intros _. apply emits_within; [done..|]. apply only_outcome.
      - apply only_call. unfold Delete, task_of. apply asks_then; [apply asks_do; intros text; cbn; auto|].
        intros x. by apply asks_nothing.
      - intros [e|ref]; [case_match; [apply emits_done|apply emits_fail]; apply only_nil|].
        apply only_outcome; [apply await_on_guest|]. intros [e|[]]; [apply emits_fail|apply emits_done]; apply only_nil. }
    destruct (Hk _ _ _ Hr) as (rest & -> & Hrest). exists rest. split; [done|]. split; [right|done].
    split; [done|]. destruct oc as [c|]; [by exists c|done].
Qed.
End recorder.

(** ** The pool *)

(** A goroutine: the program for some answers, with the fuel of its waits. *)
Definition goroutine : Type := (list talk → question → answer) → nat → act (list talk) ().
(** The answers received so far; the question after them fails. *)
Definition answers (L : list answer) (hist : list talk) (q : question) : answer :=
  default (AHttp (inl GNetClosed)) (L !! length hist).
Inductive progress := Asks (q : question) | Ends (r : goerr + ()) | Endless.
(** A wait polls at most once for each answer received, and once more. *)
Definition progress_of (m : goroutine) (L : list answer) : progress :=
  match m (answers L) (S (length L)) [] with
  | None => Endless
  | Some (log, r) => match log !! length L with Some (q, _) => Asks q | None => Ends r end
  end.

(** An exchange with the mock: served; served with the answer lost; dropped before it
    arrives; and repeated by the transport after a loss. A timer does anything. *)
Inductive answered : state → question → state → answer → Prop :=
| ans_served s m t x s' resp : ServeHTTP m t x s = (s', resp) → answered s (RHttp m t x) s' (AHttp (inr resp))
| ans_lost s m t x s' resp err : ServeHTTP m t x s = (s', resp) → answered s (RHttp m t x) s' (AHttp (inl err))
| ans_dropped s m t x err : answered s (RHttp m t x) s (AHttp (inl err))
| ans_again s q s1 err s2 a : answered s q s1 (AHttp (inl err)) → answered s1 q s2 a → answered s q s2 a
| ans_timer s d o : answered s (RTimer d) s (ATimer o).

(** Any goroutine whose question is answered goes on; the clock ticks. *)
Inductive pool_step (ms : list goroutine) : state * list (list answer) → state * list (list answer) → Prop :=
| pool_answer s Ls i m L q s' a :
    ms !! i = Some m → Ls !! i = Some L → progress_of m L = Asks q → answered s q s' a →
    pool_step ms (s, Ls) (s', <[i := L ++ [a]]> Ls)
| pool_tick s s' Ls : tick s s' → pool_step ms (s, Ls) (s', Ls).

(** ** What the requests do to the mock *)

Lemma delete_path_join node vmid : vmPath node vmid = Prelude.join "/" ("" :: ["nodes"; node; "qemu"; itoa vmid]).
Proof. unfold vmPath, qemuPath. rewrite !str_app_assoc. reflexivity. Qed.
Lemma stop_path_join node vmid :
  vmPath node vmid +:+ "/status/stop" = Prelude.join "/" ("" :: ["nodes"; node; "qemu"; itoa vmid; "status"; "stop"]).
Proof. unfold vmPath, qemuPath. rewrite !str_app_assoc. reflexivity. Qed.

Lemma each_serve R `{!PreOrder R} (m : M response) s : each R m → R s (serve m s).1.
Proof. intros Hm. unfold serve. pose proof (each_run R m s Hm) as H. by destruct (run m s). Qed.

Lemma stop_only node vmid text s :
  plain node → int64_ok vmid = true →
  only_guest node vmid s (ServeHTTP "POST" (ExpandPath (vmPath node vmid +:+ "/status/stop")) text s).1.
Proof.
  intros Hn Hv. pose proof (plain_itoa vmid Hv) as Hpv.
  rewrite (ServeHTTP_route 13 "POST" ["nodes"; node; "qemu"; itoa vmid; "status"; "stop"]
    "POST /api2/json/nodes/{node}/qemu/{vmid}/status/stop" (handleQEMUPower "stop") [("node", node); ("vmid", itoa vmid)]);
    [|reflexivity|destruct Hn as [Hn _], Hpv as [Hpv _]; match_plain|plain_segments|apply stop_path_join|reflexivity|discriminate].
  apply each_serve; [apply _|]. unfold handleQEMUPower, vmidOf.
  match goal with |- context [PathValue ?r "vmid"] => change (PathValue r "vmid") with (itoa vmid);
    change (PathValue r "node") with node end. rewrite atoi_itoa by done. cbn [some_or].
  apply each_hbind; [by apply each_checkAuth; apply _|]. intros []. cbn [some_or]. unfold hbind at 1, ok at 1. cbn [bind]. each_sections.
Qed.

Lemma delete_only node vmid text s :
  plain node → int64_ok vmid = true →
  only_guest node vmid s (ServeHTTP "DELETE" (ExpandPath (vmPath node vmid)) text s).1.
Proof.
  intros Hn Hv. pose proof (plain_itoa vmid Hv) as Hpv.
  rewrite (ServeHTTP_route 11 "DELETE" ["nodes"; node; "qemu"; itoa vmid]
    "DELETE /api2/json/nodes/{node}/qemu/{vmid}" handleQEMUDelete [("node", node); ("vmid", itoa vmid)]);
    [|reflexivity|destruct Hn as [Hn _], Hpv as [Hpv _]; match_plain|plain_segments|apply delete_path_join|reflexivity|discriminate].
  apply each_serve; [apply _|]. unfold handleQEMUDelete, vmidOf.
  match goal with |- context [PathValue ?r "vmid"] => change (PathValue r "vmid") with (itoa vmid);
    change (PathValue r "node") with node end. rewrite atoi_itoa by done. cbn [some_or].
  apply each_hbind; [by apply each_checkAuth; apply _|]. intros []. cbn [some_or]. unfold hbind at 1, ok at 1. cbn [bind]. each_sections.
Qed.

(** A configuration that the client reads is the one of a guest the mock has. *)
Lemma config_served node vmid s c :
  plain node → int64_ok vmid = true →
  let path := ExpandPath (vmPath node vmid +:+ "/config") in
  read_answer path (Some Config_UnmarshalJSON) (inr (ServeHTTP "GET" path "" s).2) = inr (Some c) →
  ∃ rec, lookupVM s node vmid = Some rec ∧ Config_UnmarshalJSON (json_utf8 (qemu_config_payload (vm_Config rec))) = Some c.
Proof.
  intros Hn Hv path. pose proof (plain_itoa vmid Hv) as Hpv. unfold path.
  rewrite (ServeHTTP_route 7 "GET" ["nodes"; node; "qemu"; itoa vmid; "config"]
    "GET /api2/json/nodes/{node}/qemu/{vmid}/config" handleQEMUConfig [("node", node); ("vmid", itoa vmid)]);
    [|reflexivity|destruct Hn as [Hn _], Hpv as [Hpv _]; match_plain|plain_segments|apply config_path_join|reflexivity
     |discriminate].
  unfold serve, handleQEMUConfig. rewrite run_authenticated by reflexivity. unfold vmidOf. runs.
  match goal with |- context [atoi (PathValue ?r "vmid")] => change (PathValue r "vmid") with (itoa vmid) end.
  rewrite atoi_itoa by done. runs.
  match goal with |- context [PathValue ?r "node"] => change (PathValue r "node") with node end.
  destruct (lookupVM s node vmid) as [rec|] eqn:Hrec; [|done]. runs. cbn [snd].
  unfold writeData, ok. cbn [snd run Monad.answer read_answer code Monad.body Data Errors Message].
  rewrite read_success. intros Hc. exists rec. split; [done|].
  destruct (Config_UnmarshalJSON _) as [c'|]; by simplify_eq.
Qed.

(** ** Safety *)

(** The name of a guest's configuration, as a client reads it. *)
Definition config_name (rec : vmRecord) : string :=
  match Config_UnmarshalJSON (json_utf8 (qemu_config_payload (vm_Config rec))) with Some c => cf_Name c | None => "" end.
(** A guest that the lab of a configuration owns: on the outer node, with the VMID of
    a configured node in the reserved block, and named with the prefix. *)
Definition ours (cfg : Config) (s : state) (node : string) (vmid : Z) : Prop :=
  node = o_Node (c_Outer cfg) ∧ vmid ∈ nd_VMID <$> n_Nodes (c_Nested cfg) ∧ in_block vmid ∧
  ∃ rec, lookupVM s node vmid = Some rec ∧ has_prefix (config_name rec) ownedNamePrefix = true.
(** Guests that are not the lab's, containers and storage are as at the start. *)
Definition others_kept (cfg : Config) (s0 s : state) : Prop :=
  (∀ node vmid, ¬ ours cfg s0 node vmid → lookupVM s node vmid = lookupVM s0 node vmid) ∧
  st_lxc s = st_lxc s0 ∧ st_storage s = st_storage s0.

Lemma kept_same cfg s0 s s' : others_kept cfg s0 s → same_guests s s' → others_kept cfg s0 s'.
Proof.
  intros (H1 & H2 & H3) (Hq & Hl & Hs). split_and!; [|congruence..]. intros node vmid Hno.
  rewrite <- (H1 _ _ Hno). unfold lookupVM. by rewrite Hq.
Qed.
Lemma kept_only cfg s0 s s' node vmid :
  others_kept cfg s0 s → ours cfg s0 node vmid → only_guest node vmid s s' → others_kept cfg s0 s'.
Proof.
  intros (H1 & H2 & H3) Ho (Hq & Hl & Hs). split_and!; [|congruence..]. intros n v Hno.
  rewrite Hq; [by apply H1|]. by intros [= -> ->].
Qed.
(** A guest that is the lab's now was so at the start. *)
Lemma kept_ours cfg s0 s node vmid : others_kept cfg s0 s → ours cfg s node vmid → ours cfg s0 node vmid.
Proof.
  intros (H1 & _ & _) (Hn & Hv & Hb & rec & Hrec & Hp). split_and!; [done..|].
  destruct (lookupVM s0 node vmid) as [rec0|] eqn:E0.
  - destruct (decide (has_prefix (config_name rec0) ownedNamePrefix = true)) as [|Hno]; [by exists rec0|].
    rewrite H1, E0 in Hrec; [by simplify_eq|]. intros (_ & _ & _ & rec1 & H & Hp1). by simplify_eq.
  - rewrite H1, E0 in Hrec; [done|]. intros (_ & _ & _ & rec1 & H & _). by simplify_eq.
Qed.

Section safety.
Variables (cfg : Config) (opts : TeardownOptions) (s0 : state).
Hypothesis Hnode : plain (o_Node (c_Outer cfg)).

(** The goroutine of one node. *)
Definition teardown_goroutine (n : Node) : goroutine := λ env fuel,
  @teardownNode _ (recorder_client env) (recorder_timers env) recorder_contexts fuel cfg opts n.
Definition teardown_pool : list goroutine := teardown_goroutine <$> n_Nodes (c_Nested cfg).

(** What is known of a goroutine's answers: a first one that names a guest of the
    harness was right at the start. *)
Definition known (n : Node) (L : list answer) : Prop :=
  ∀ a L', L = a :: L' → in_block (nd_VMID n) → names_owned cfg n a → ours cfg s0 (o_Node (c_Outer cfg)) (nd_VMID n).

(** The question of a goroutine is the first one, or its answers allow it. *)
Lemma teardown_asks n L q :
  progress_of (teardown_goroutine n) L = Asks q →
  match L with
  | [] => q = config_question cfg n
  | a :: _ => is_read q ∨ on_guest (o_Node (c_Outer cfg)) (nd_VMID n) q ∧ in_block (nd_VMID n) ∧ names_owned cfg n a
  end.
Proof.
  unfold progress_of, teardown_goroutine.
  destruct (teardownNode _ _ _ _ []) as [[log r]|] eqn:Hr; [|done].
  apply teardown_trace in Hr as [->|(rest & -> & Hok & Hrest)]; [by rewrite lookup_nil|].
  destruct L as [|a L]; cbn; [by intros [= <-]|].
  match goal with |- context [match ?x with _ => _ end] => destruct x as [[q' a']|] eqn:Hq end; [|done]. intros [= ->]. right.
  destruct Hok as [->|[Hblock Howned]]; [done|]. split_and!; [|done..].
  unfold only in Hrest. rewrite Forall_forall in Hrest. apply (Hrest (q, a')). by eapply list_elem_of_lookup_2.
Qed.

Lemma block_ok vmid : in_block vmid → int64_ok vmid = true.
Proof. unfold in_block, vmidRangeLo, vmidRangeHi, int64_ok, min_int64, max_int64. lia. Qed.

(** An exchange of an allowed question keeps the others. *)
Lemma answered_kept n s q s' a :
  answered s q s' a → others_kept cfg s0 s →
  is_read q ∨ on_guest (o_Node (c_Outer cfg)) (nd_VMID n) q ∧ ours cfg s0 (o_Node (c_Outer cfg)) (nd_VMID n) →
  others_kept cfg s0 s'.
Proof.
  intros Ha Hk Hq.
  assert (∀ m t x s, q = RHttp m t x → others_kept cfg s0 s → others_kept cfg s0 (ServeHTTP m t x s).1) as Hserve.
  { intros m t x s2 -> Hk2. destruct Hq as [Hm|[[Hm|[[Hm Ht]|[Hm Ht]]] Ho]]; cbn in *; subst.
    - eapply kept_same, get_same. done.
    - eapply kept_same, get_same. done.
    - eapply kept_only, stop_only; [done..|]. apply block_ok, Ho.
    - eapply kept_only, delete_only; [done..|]. apply block_ok, Ho. }
  induction Ha as [s m t x s' resp E|s m t x s' resp err E| | |]; try done.
  - specialize (Hserve m t x s eq_refl Hk). by rewrite E in Hserve.
  - specialize (Hserve m t x s eq_refl Hk). by rewrite E in Hserve.
  - auto.
Qed.

(** An answer to the first question that names a guest of the harness is right. *)
Lemma answered_known n s s' a :
  n ∈ n_Nodes (c_Nested cfg) → in_block (nd_VMID n) → answered s (config_question cfg n) s' a →
  others_kept cfg s0 s → names_owned cfg n a → ours cfg s0 (o_Node (c_Outer cfg)) (nd_VMID n).
Proof.
  intros Hin Hblock Ha. remember (config_question cfg n) as q eqn:Hq. revert Hq.
  induction Ha as [s m t x s' resp E|s m t x s' resp err E|s m t x err|s q s1 err s2 a Ha1 _ Ha2 IH|]; intros Hq Hk (c & Hc & Hp); try done.
  - injection Hq as -> -> ->. eapply kept_ours; [exact Hk|].
    pose proof (config_served (o_Node (c_Outer cfg)) (nd_VMID n) s c Hnode (block_ok _ Hblock)) as Hread.
    cbv zeta in Hread. rewrite E in Hread. cbn [snd] in Hread. specialize (Hread Hc) as (rec & Hrec & Hcfg).
    split_and!; [done|apply list_elem_of_fmap; by exists n|done|]. exists rec. split; [done|].
    unfold config_name. by rewrite Hcfg.
  - apply IH; [done| |by exists c]. eapply (answered_kept n); [exact Ha1|done|]. left. by subst q.
Qed.

Definition pool_inv (c : state * list (list answer)) : Prop :=
  others_kept cfg s0 c.1 ∧ Forall2 known (n_Nodes (c_Nested cfg)) c.2.

Lemma pool_step_inv c c' : pool_step teardown_pool c c' → pool_inv c → pool_inv c'.
Proof.
  intros [s Ls i m L q s' a Hm HL Hq Ha|s s' Ls Ht] [Hk Hkn]; cbn in *.
  - unfold teardown_pool in Hm. apply list_lookup_fmap_Some in Hm as (n & -> & Hn).
    pose proof (list_elem_of_lookup_2 _ _ _ Hn) as Hin.
    pose proof (Forall2_lookup_lr _ _ _ _ _ _ Hkn Hn HL) as HknL. apply teardown_asks in Hq.
    assert (is_read q ∨ on_guest (o_Node (c_Outer cfg)) (nd_VMID n) q ∧ ours cfg s0 (o_Node (c_Outer cfg)) (nd_VMID n)) as Hallowed.
    { destruct L as [|a0 L]; [left; by subst q|]. destruct Hq as [?|(? & ? & ?)]; [by left|right]. split; [done|].
      by apply (HknL a0 L). }
    split; [by eapply answered_kept|]. assert (<[i:=n]> (n_Nodes (c_Nested cfg)) = n_Nodes (c_Nested cfg)) as Hid by by apply list_insert_id.
    rewrite <- Hid.
    apply Forall2_insert; [done|]. intros a1 L' Heq Hblock Howned. destruct L as [|a0 L]; cbn in Heq.
    + injection Heq as <- _. subst q. by eapply answered_known.
    + injection Heq as <- _. by apply (HknL a0 L).
  - split; [|done]. eapply kept_same; [exact Hk|]. by destruct Ht.
Qed.

Lemma pool_start : pool_inv (s0, (λ _, []) <$> n_Nodes (c_Nested cfg)).
Proof.
  split; [by split_and!|]. cbn. generalize (n_Nodes (c_Nested cfg)). intros l. induction l as [|n l IH]; constructor; [|done].
  by intros a L' [=].
Qed.

Lemma pool_invariant c c' : rtc (pool_step teardown_pool) c c' → pool_inv c → pool_inv c'.
Proof. induction 1; eauto using pool_step_inv. Qed.
End safety.

(** C2. Taking the lab down touches nothing else. However the goroutines of
    [Teardown], one per configured node, interleave on the server, and whichever of
    their requests are dropped, lose their answer after they were served, or are
    repeated: every guest that is not a configured node's, on the outer node, with a
    VMID in the reserved block and a live name with the harness's prefix, keeps its
    record, and no container and no storage changes. A check of one goroutine stays
    right while the others run. *)
Theorem teardown_safe cfg opts s0 s Ls :
  plain (o_Node (c_Outer cfg)) →
  rtc (pool_step (teardown_pool cfg opts)) (s0, (λ _, []) <$> n_Nodes (c_Nested cfg)) (s, Ls) →
  (∀ node vmid, ¬ ours cfg s0 node vmid → lookupVM s node vmid = lookupVM s0 node vmid) ∧
  st_lxc s = st_lxc s0 ∧ st_storage s = st_storage s0.
Proof.
  intros Hnode Hsteps. by destruct (pool_invariant cfg opts s0 Hnode _ _ Hsteps (pool_start cfg s0 Hnode)).
Qed.


(** ** Runs *)

(** One goroutine gets its question served. *)
Definition serve_turn (ms : list goroutine) (c : state * list (list answer)) (i : nat) : state * list (list answer) :=
  match ms !! i, c.2 !! i with
  | Some m, Some L =>
      match progress_of m L with
      | Asks (RHttp method t x) =>
          let '(s', resp) := ServeHTTP method t x c.1 in (s', <[i := L ++ [AHttp (inr resp)]]> c.2)
      | Asks (RTimer _) => (c.1, <[i := L ++ [ATimer None]]> c.2)
      | _ => c
      end
  | _, _ => c
  end.
Lemma serve_turn_step ms c i : rtc (pool_step ms) c (serve_turn ms c i).
Proof.
  destruct c as [s Ls]. unfold serve_turn. cbn [fst snd]. destruct (ms !! i) as [m|] eqn:Hm; [|done].
  destruct (Ls !! i) as [L|] eqn:HL; [|done]. destruct (progress_of m L) as [[method t x|d]|r|] eqn:Hq; try done.
  - destruct (ServeHTTP method t x s) as [s' resp] eqn:E. apply rtc_once. eapply pool_answer; [done..|]. by constructor.
  - apply rtc_once. eapply pool_answer; [done..|]. constructor.
Qed.
Lemma serve_turns_steps ms schedule c : rtc (pool_step ms) c (foldl (serve_turn ms) c schedule).
Proof.
  revert c. induction schedule as [|i schedule IH]; intros c; cbn [foldl]; [done|].
  etrans; [apply serve_turn_step|apply IH].
Qed.

(** Two goroutines in turns: one node of the lab, one VMID of the lab under a foreign
    name, and a guest outside the block. *)
Definition mixed_host : state :=
  AddVM "r740a" 9201 "pvelab-pve1" vmStatusRunning (AddVM "r740a" 9202 "build-server" vmStatusRunning
    (AddVM "r740a" 100 "pvelab-looking" vmStatusRunning (New 1700000000))).
Definition no_force : TeardownOptions := {| Force := false; PurgeISOs := false |}.
Definition mixed_pool : list goroutine := teardown_pool (with_lab_nodes three_nodes) no_force.
Definition mixed_run : state * list (list answer) :=
  foldl (serve_turn mixed_pool) (mixed_host, (λ _, []) <$> three_nodes) [1; 0; 0; 1; 0; 2; 0; 0; 0].

Lemma teardown_safe_witness :
  rtc (pool_step mixed_pool) (mixed_host, (λ _, []) <$> three_nodes) mixed_run ∧
  bool_decide (lookupVM mixed_run.1 "r740a" 9201 = None) = true ∧
  progress_of (teardown_goroutine (with_lab_nodes three_nodes) no_force (lab_node "pve1" 9201 "192.168.7.1/24"))
    (default [] (mixed_run.2 !! 0)) = Ends (inr ()) ∧
  lookupVM mixed_run.1 "r740a" 100 = lookupVM mixed_host "r740a" 100 ∧
  lookupVM mixed_run.1 "r740a" 9202 = lookupVM mixed_host "r740a" 9202.
Proof.
  assert (Hrun : rtc (pool_step mixed_pool) (mixed_host, (λ _, []) <$> three_nodes) mixed_run) by apply serve_turns_steps.
  split; [exact Hrun|]. split; [vm_compute; reflexivity|]. split; [vm_compute; reflexivity|].
  destruct (teardown_safe (with_lab_nodes three_nodes) no_force mixed_host mixed_run.1 mixed_run.2) as [H _].
  - by apply (bool_decide_unpack _).
  - rewrite <- surjective_pairing. exact Hrun.
  - split; apply H.
    + intros (_ & _ & [Hlow _] & _). unfold vmidRangeLo in Hlow. lia.
    + intros (_ & _ & _ & rec & Hrec & Hp). vm_compute in Hrec. injection Hrec as <-. vm_compute in Hp. discriminate.
Defined.
