(* ===== verification/MockCoverage.v ===== *)
(** The mock's route table as the coverage tool measures it: [Server.Routes] of a new
    server, normalised by [coverage.Build]. And the server around the handlers: its
    options, its response cache, and the client that is wired to it. *)

From S2P Require Import Url Wire Api Transport Root Monad.
From S2P Require Import Prelude Json Pverr SchemaDiff Coverage CoverageReport SchemaDiffMain MockState MockServer.
From S2P Require Import MockQemu MockLxc MockStorage MockHa MockNodes MockCluster MockAccess MockFirewall MockSdn MockAdmin MockAcme.
From S2P Require Import MockMisc MockWf MockWeb.
From Stdlib Require Import ZArith Lia Ascii.
From stdpp Require Import options.

(** The patterns a new server records, in registration order. *)
(* go: proxmox/mockpve/server.go#Server.Routes *)
Definition Routes : list string := routes.*1.

Definition keys_ok : bool :=
  match ParsePatterns Routes with
  | inr ks => bool_decide (NoDup ks) && forallb (λ k, ServiceFor (k_Path k) <>s Unassigned) ks && (length ks =? 261)
  | inl _ => false
  end.
Lemma route_keys_ok : keys_ok = true.
Proof. vm_compute. reflexivity. Qed.
Lemma Routes_keys : ∃ ks, ParsePatterns Routes = inr ks ∧ NoDup ks ∧ length ks = 261 ∧
  Forall (λ k, ServiceFor (k_Path k) ≠ Unassigned) ks.
Proof.
  pose proof route_keys_ok as H. unfold keys_ok in H. destruct (ParsePatterns Routes) as [|ks]; [done|]. exists ks.
  apply andb_prop in H as [[Hnd%bool_decide_eq_true Hs]%andb_prop Hlen%Nat.eqb_eq]. split_and!; [done..|].
  apply Forall_forall. intros k Hk. rewrite forallb_forall in Hs. apply list_elem_of_In, Hs in Hk.
  by apply negb_true_iff, bool_decide_eq_false in Hk.
Qed.

(** C13. The mock's own route table can always be measured, and honestly. For every
    baseline whose endpoints stay distinct in normal form the report is built (no route
    pattern is malformed) and counts 261 distinct routes, each in the section of some
    SDK service; and when the checks pass without exemptions, the number of covered
    endpoints is exactly that number of routes. *)
Theorem mock_measured `{!MapOrder} baseline ann : NoDup (EndpointKey <$> baseline) →
  ∃ rep, Build baseline Routes ann = inr rep ∧ cr_RouteCount rep = 261%Z ∧
    (∀ k, served Routes k → ServiceFor (k_Path k) ≠ Unassigned) ∧
    (an_AllowUnmatchedRoutes ann = [] → Check_Report rep = None → ct_Covered (cr_Totals rep) = 261%Z).
Proof.
  intros Hnd. destruct Routes_keys as (ks & Hks & Hndk & Hlen & Hserv).
  destruct (table_measured Routes ks baseline ann Hks Hndk Hnd) as (rep & Hrep & Hcount & Hcov). rewrite Hlen in *.
  exists rep. split_and!; [done|done| |done].
  intros k (p & Hp & Hk). rewrite Forall_forall in Hserv. apply Hserv, (elem_of_patterns _ _ _ Hks). eauto.
Qed.
Lemma mock_measured_witness : ∃ rep, @Build reverse_order sample_baseline Routes sample_annotations = inr rep ∧ cr_RouteCount rep = 261%Z.
Proof.
  destruct (@mock_measured reverse_order sample_baseline sample_annotations) as (rep & Hrep & Hcount & _).
  - apply (bool_decide_unpack _). vm_compute. exact I.
  - exists rep. split; [exact Hrep|exact Hcount].
Defined.

(** * The server around the handlers

    Its options, its response cache, and the client that is wired to it. *)

Section setup.
Context {HTTP Logger : Type}.

(** A cache holds valid JSON texts, here the values they are of. *)
(* go: proxmox/mockpve/server.go#ResponseCache *)
Definition ResponseCache : Type := string → string → option json.

(** What [New] and its options set beside the state. *)
(* go: proxmox/mockpve/server.go#L17-L26:Server *)
Record Server := {
  s_logger : option Logger; s_cache : option ResponseCache; s_httpClient : option HTTP; s_tls : bool
}.
(* go: proxmox/mockpve/server.go#L28-L29:Option *)
Definition Option : Type := Server → Server.

(** A nil logger is ignored. *)
(* go: proxmox/mockpve/server.go#WithLogger *)
Definition WithLogger (l : option Logger) : Option := λ s,
  match l with
  | None => s
  | Some _ => {| s_logger := l; s_cache := s_cache s; s_httpClient := s_httpClient s; s_tls := s_tls s |}
  end.
(* go: proxmox/mockpve/server.go#WithCache *)
Definition WithCache (c : option ResponseCache) : Option := λ s,
  {| s_logger := s_logger s; s_cache := c; s_httpClient := s_httpClient s; s_tls := s_tls s |}.
(* go: proxmox/mockpve/server.go#WithHTTPClient *)
Definition WithHTTPClient (h : option HTTP) : Option := λ s,
  {| s_logger := s_logger s; s_cache := s_cache s; s_httpClient := h; s_tls := s_tls s |}.
(* go: proxmox/mockpve/server.go#WithTLS *)
Definition WithTLS : Option := λ s,
  {| s_logger := s_logger s; s_cache := s_cache s; s_httpClient := s_httpClient s; s_tls := true |}.

(** The options run over the defaults; the state is [MockState.New]. *)
(* go: proxmox/mockpve/server.go#L43-L60:New_server *)
Definition New_server (opts : list Option) : Server :=
  foldl (λ s opt, opt s) {| s_logger := None; s_cache := None; s_httpClient := None; s_tls := false |} opts.

(** ** Serving *)

(** A hit is the envelope's data; the multiplexer comes after the cache. *)
(* go: proxmox/mockpve/server.go#Server.ServeHTTP *)
Definition Server_ServeHTTP (sv : Server) (method target : string)
    (req : string → string → list (string * string) → request) (s : state) : state * response :=
  match mapM PathUnescape (split_byte "/"%char (cut_query target).1) with
  | None => (s, web_error 400)
  | Some segs =>
      match s_cache sv ≫= (λ c, c method (join "/" segs)) with
      | Some raw => (s, {| Monad.code := 200; Monad.body := {| Monad.Data := Some raw; Monad.Message := ""; Monad.Errors := ∅ |} |})
      | None => dispatch method target req s
      end
  end.

(** ** The client of a server *)

(** [api.New] on the URL of the test server, with the caller's options first; an
    error of it is a panic. *)
(* go: proxmox/mockpve/server.go#Server.NewClient *)
Definition NewClient (sv : Server) (url : string) (opts : list (TransportOption HTTP Logger)) :
    string + transport tokenCreds * http_client HTTP * option Logger :=
  let full := opts ++ (if s_tls sv then [WithInsecureSkipVerify true] else []) ++
              match s_httpClient sv with Some h => [Root.WithHTTPClient (Some h)] | None => [] end in
  match Root.New url (Some (TokenCredentials "root@pam!mock" "mock-secret")) full with
  | inl err => inl ("mockpve: wiring client: " +:+ error_text err)
  | inr c => inr c
  end.

(** ** What the options promise *)

(** A hit of the cache bypasses the model: it is answered whatever credentials the
    request carries, and the state stays. *)
Theorem cache_hit_bypasses sv method target req s segs c raw :
  mapM PathUnescape (split_byte "/"%char (cut_query target).1) = Some segs →
  s_cache sv = Some c → c method (join "/" segs) = Some raw →
  Server_ServeHTTP sv method target req s =
    (s, {| Monad.code := 200; Monad.body := {| Monad.Data := Some raw; Monad.Message := ""; Monad.Errors := ∅ |} |}).
Proof. intros Hs Hc Hr. unfold Server_ServeHTTP. rewrite Hs, Hc. cbn. by rewrite Hr. Qed.

(** Without a hit the server is the multiplexer over its routes. *)
Theorem cache_miss_dispatches sv method target req s :
  (∀ c path, s_cache sv = Some c → c method path = None) →
  Server_ServeHTTP sv method target req s = dispatch method target req s.
Proof.
  intros Hmiss. unfold Server_ServeHTTP. destruct (mapM PathUnescape _) as [segs|] eqn:Hs.
  - destruct (s_cache sv) as [c|] eqn:Hc; cbn; [by rewrite (Hmiss c _ eq_refl)|done].
  - unfold dispatch. destruct (cut_query target) as [path query]. cbn [fst] in Hs. by rewrite Hs.
Qed.

(** The client of a server speaks to that server alone when the caller names no other
    endpoint: with the server's HTTP client when it has one, and otherwise, over TLS,
    with one that accepts its self-signed certificate. *)
Theorem NewClient_wired sv url opts conn :
  newConnection url [] = inr conn → tf_extraEndpoints (configured opts) = [] →
  ∃ t h l, NewClient sv url opts = inr (t, h, l) ∧ Transport.conn t = conn ∧
    creds t = TokenCredentials "root@pam!mock" "mock-secret" ∧ policy t = tf_policy (configured opts) ∧
    (∀ own, s_httpClient sv = Some own → h = Supplied own) ∧
    (s_httpClient sv = None → tf_httpClient (configured opts) = None → s_tls sv = true →
      ∃ timeout min_tls, h = Built timeout true min_tls).
Proof.
  intros Hconn Hextra. unfold NewClient, Root.New, configured. rewrite !foldl_app.
  change (foldl _ default_transport opts) with (configured opts).
  destruct (s_tls sv), (s_httpClient sv) as [own|]; cbn; rewrite Hextra, Hconn; do 3 eexists; split_and!;
    try done; try (by intros ? [= ->]).
  intros _ -> _. by do 2 eexists.
Qed.
End setup.

(** The caller's options can name an endpoint that does not parse: then [NewClient]
    panics, although the comment in it says that it cannot. *)
Example NewClient_panics :
  match NewClient (HTTP := ()) (Logger := ()) (New_server []) "http://127.0.0.1:8006"
          [WithClusterEndpoints [{| Name := "b"; Address := ""; Priority := 1 |}]] with
  | inl msg => has_prefix msg "mockpve: wiring client: " | inr _ => false end = true.
Proof. vm_compute. reflexivity. Qed.
